(* ===== verification/_CoqProject ===== *)
-Q . S2P
Prelude.v
Bytes.v
Fonts.v
St7789.v
Panel.v
CTime.v
SoftRtc.v
Buttons.v
Watch.v
WatchSystem.v
WatchDisplay.v
WatchFacts.v
KService.v
Printf.v
Heap.v
HeapInv.v
HeapSystem.v
Periph.v
Registers.v
Mpu6050.v
MpuBus.v
MpuFacts.v
Output.v
Msh.v
MshFacts.v
MshComplete.v
Shell.v
Editor.v
ShellFacts.v
Terminal.v
DateCmd.v
Timer.v
Kernel.v
KernelInv.v
KernelOps.v
Ipc.v
IpcInv.v
MutexInv.v
EventInv.v
Queue.v
RingBuffer.v
Mailbox.v
MessageQueue.v
KernelCheck.v
KernelSystem.v
KernelFrame.v
KernelExamples.v
Object.v
LifeFrame.v
ThreadLife.v
ThreadInv.v
ThreadMake.v
Idle.v
Startup.v
Device.v
Serial.v
SerialFifo.v
SerialFacts.v
Usart.v
UsartFacts.v
Exti.v
Pin.v
PinFacts.v
ButtonPins.v
Spi.v
Adc.v
GpioFacts.v
Lcd.v
LcdLink.v
Console.v
ConsoleFacts.v
ConsoleExamples.v
WatchMain.v
WatchStart.v
WatchMainFacts.v
WatchMainExamples.v
AdcFacts.v
Boot.v
Main.v
MainExamples.v
