(* ===== verification/Prelude.v ===== *)
(** * Verification of the CH32V307 smartwatch firmware

    A smartwatch on a RISC-V microcontroller: an application of three threads
    and three button interrupts ([applications/watch.c]) draws a clock, a step
    counter and a menu on an ST7789 panel, on top of the RT-Thread kernel.
    This library models the application, the display and accelerometer
    drivers, the clock, the console from its serial port to its shell, and the
    parts of the kernel they stand on, and proves what each promises.
    Paths below are relative to [src/SmartWatch_V_1/].

    ** The parts and their files

    Application and display:
    - [Fonts]: the tables of [applications/fonts.c], all four transcribed.
    - [St7789]: [applications/ST7789.c]; each routine is the sequence of pin
      changes, SPI bytes and delays it produces.
    - [Panel]: an abstract panel that consumes those bytes (a window, a cursor
      and a framebuffer) and the pixels each drawing routine leaves on it.
    - [CTime]: [components/libc/compilers/common/time.c]; [time_t] is the 32-bit
      [long] of the configuration, and signed overflow is undefined.
    - [SoftRtc]: the clock device of [components/drivers/rtc/soft_rtc.c] with
      [set_time], [set_date] and the setting branch of [date] of [rtc.c].
    - [Buttons]: the interrupt handlers of [watch.c] over the menu counters.
    - [Watch]: the bodies of the [getValues], [showValues] and serial threads
      as sequences of actions over the shared globals; the strings are in
      a byte memory at addresses of their own, each array with the bytes it is
      declared with and [spare] unused ones behind a two-byte array.
    - [WatchSystem]: these threads, what the display thread draws before its
      loop, and the buttons, interleaved.
    - [WatchDisplay], [WatchFacts]: what reaches the screen, and limits of the
      step counter, the battery scale and the uptime.
    - [WatchMain]: [Main_Threads] of [watch.c], which creates the threads, the
      semaphore and the mutex, the serial thread on the console device and the
      callback that releases them; over [Kernel], [Ipc], [Device] and [Serial].
    - [WatchStart]: the state [Main_Threads] leaves.
    - [WatchMainFacts], [WatchMainExamples]: the serial thread, receive
      interrupts and the rest of the kernel as one transition system.

    Set-up and start of the hardware:
    - [Registers]: what a log of accesses last wrote to a register,
      and the registers a run of accesses leaves alone; shared by the drivers.
    - [GpioFacts]: the pins [GPIO_Init] sets up, and no others.
    - [Spi]: the functions of [ch32v30x_spi.c] the display uses and
      [SPI_7789_INIT] of [board/board.c].
    - [Lcd]: the events of [St7789] carried out by the calls behind
      them, and what those accesses put on the wires.
    - [LcdLink]: the link on which a byte takes its time to leave.
    - [Adc], [AdcFacts]: [ADC_Batt_Init], [Get_ADC_Val] of [watch.c] and the
      functions of [ch32v30x_adc.c] they call, over a converter with laws.
    - [Boot]: each part of the set-up, with what it leaves of the others.
    - [Main], [MainExamples]: [applications/main.c], from power-up
      to the threads of the application.

    Accelerometer:
    - [Periph]: access to peripheral registers, answered by a device that is a
      parameter, and the I2C, GPIO and clock functions of
      [libraries/hal_libraries/ch32v307_hal/source] the driver calls.
    - [Mpu6050]: [applications/MPU6050.c], transfers and settings.
    - [MpuBus]: the accesses read as traffic on the bus and as what happens to
      a sensor with a register file; the laws of the I2C master.
    - [MpuFacts]: initialisation, readings, settings and the missing sensor.

    Console shell ([components/finsh/]):
    - [Output]: what a program prints and calls, as a log of events.
    - [Msh]: [msh.c], splitting a line, finding and calling its command,
      completion.
    - [MshFacts], [MshComplete]: a reference tokenizer, the text of the
      formats, and completion as the longest common prefix.
    - [Shell]: [shell.c], the keys, the history and the prompt, on the buffers.
    - [Editor]: the shell as an editor of text on both sides of a cursor, with
      a list of remembered lines, and what each key prints.
    - [ShellFacts]: from the boot to commands run, lines recalled and completed.
    - [Terminal]: what the output makes visible, on any terminal with the laws
      of a class.
    - [DateCmd]: the [date] command of [components/drivers/rtc/rtc.c] and the
      way from the keys to the clock.

    Console input and devices:
    - [Object]: [rt-thread/src/object.c], the kernel objects by class and name,
      and the abstract list they refine.
    - [Device]: [rt-thread/src/device.c], the calls forwarded to a driver, which
      is an instance of a class; the console device of [kservice.c].
    - [Serial]: [components/drivers/serial/serial.c], the framework between the
      receive interrupt and the readers, over any port.
    - [SerialFifo], [SerialFacts]: its FIFO as a list, the laws of a port, and
      what a serial device delivers and sends.
    - [Usart], [UsartFacts]: [libraries/hal_drivers/drv_usart.c] and what it
      calls, as register accesses, and that it has the laws of a port.
    - [Console], [ConsoleFacts], [ConsoleExamples]: interrupt, semaphore, the
      shell's thread and the rest of the kernel as one transition system.

    Pins:
    - [Exti]: [ch32v30x_exti.c], single pins of [ch32v30x_gpio.c] and the
      priorities of the interrupt controller.
    - [Pin]: the pin device [components/drivers/misc/pin.c] over any driver, and
      the board's driver [libraries/hal_drivers/drv_gpio.c] with its handlers.
    - [PinFacts], [ButtonPins]: the way of an edge on a pin to the function
      attached to it, and the three buttons of [getValues_entry].

    Kernel services ([rt-thread/src/]):
    - [Bytes]: memory as a map from addresses to bytes.
    - [KService]: the memory and string functions of [kservice.c].
    - [Printf]: [rt_vsnprintf] and what is built on it.
    - [Heap]: [mem.c], the allocator, on the headers in memory.
    - [HeapInv]: the chain of headers as a list of blocks, and each operation
      as an operation on that list.
    - [HeapSystem]: clients of the heap and what they can rely on.

    Kernel ([rt-thread/src/]):
    - [Timer]: [timer.c], the sorted list of hard timers.
    - [Kernel]: [scheduler.c], [thread.c], [clock.c], the defunct list of
      [idle.c] and [__rt_ffs] of [kservice.c].
    - [KernelInv], [KernelOps]: the invariant [kernel_ok], that every
      operation keeps it, and what scheduling, yielding and a tick do.
    - [Ipc], [IpcInv], [MutexInv], [EventInv]: [ipc.c], the suspend lists,
      semaphores, mutexes and events.
    - [Mailbox], [MessageQueue]: the calls of [ipc.c] that wait in a loop with
      a shrinking timeout; what their loops share is in [IpcInv].
    - [RingBuffer]: [components/drivers/src/ringbuffer.c].
    - [Queue]: circular buffers read as lists, and the class of
      bounded queues the three kinds of queue are instances of.
    - [KernelCheck], [KernelExamples]: the invariant decided by computation,
      and the theorems about the kernel applied to concrete systems.
    - [KernelSystem]: the calls of [scheduler.c], [thread.c] and [ipc.c], the
      tick and the boot as steps ([kernel_call], [kernel_step]).
    - [KernelFrame]: what a call leaves alone: the waiting lists of other
      objects, the lives of other threads, the timers of sleepers; the kernel
      with its mutexes as one system.

    Life of threads, and the start of the system:
    - [LifeFrame]: which calls of [Kernel] leave the set of threads
      and their ends alone, and what those change that begin or end one.
    - [ThreadLife]: [thread.c] and [idle.c] over [Kernel], [Object] and [Heap]
      together, with the memory of object and stack; the idle thread's loop.
    - [ThreadInv], [ThreadMake]: the invariant that ties the three, kept by
      taking threads apart and by making them.
    - [Idle]: threads, clients of the heap and of the registry, and the idle
      thread as one transition system.
    - [Startup]: [rtthread_startup] and [rt_application_init] of
      [components.c] and [rt_thread_idle_init].

    ** How the model corresponds to the code

    Unsigned integers are [Z] reduced at their width wherever C stores them;
    a signed result that may leave 32 bits is checked in the calendar functions
    ([int32], undefined on overflow) and bounded by the theorems elsewhere.  A thread, timer or IPC object is known by a number, 0 being
    [RT_NULL]; the kernel's globals and the fields reached through pointers
    are one record, an intrusive list the list of its members.  Undefined
    behaviour (an index outside an array, a missing block) is [None], and
    theorems of the form [... = Some ...] show it does not occur.

    A kernel call runs to its end in one step.  This is the code's own
    discipline where it disables interrupts; where it enables them between two
    critical sections of one call, an interrupt in that gap is not interleaved.
    A blocking call ends at its call of [rt_schedule]; what it does when its
    thread next runs is a second definition, applied to the state of that
    moment ([outcome], [waited]).  [Watch.prog] cuts the application's threads
    finer: at each point where the scheduler may run something else.

    ** What the theorems show

    - Whole system: no interleaving of the threads, button presses and serial
      commands, from power-up on, does anything undefined but two things: a
      number of two digits written into an array of two bytes with no unused
      byte behind it, and setting the date with month 0 ([watch_never_wrong]);
      both can happen ([two_digits_overrun], [month_zero_reached]).  Every state
      the kernel calls reach satisfies the scheduler's invariant, and every
      mutex is consistent ([kernel_always_ok]).
    - Scheduling: after [rt_schedule] the running thread is one of the highest
      ready priority ([schedule_highest]); a sleeping thread is ready again at
      the tick it asked for and not earlier, whatever calls that do not act on
      it come in between ([sleep_wakes_on_time]); a tick
      fires the timers that are due and no others ([tick_fires_due]).
    - Life of threads: the idle thread takes every ended thread apart and gives
      back all its memory ([idle_reclaims]); no list of the kernel ever leads
      into memory given back ([lists_in_memory]); a thread is created with both
      its blocks or leaves nothing behind ([create_all_or_nothing]).
    - IPC: a semaphore counts or hands over to the first waiter, which returns
      success ([semaphore_release]), a mutex excludes, nests and passes
      priority on, an event wakes exactly the waiters a pass over the list in
      its order satisfies ([event_send], [serve]); mailboxes, message queues and ring buffers refine a bounded
      first-in-first-out queue over any sequence of calls.
    - Memory: after any sequence of calls of the allocator the blocks handed
      out are aligned, disjoint and hold what was stored in them, the next
      call returns, and what is freed is merged ([heap_serves_clients],
      [heap_blocks_safe]); an allocation is first fit ([rt_malloc_first_fit]).
    - Services: the word-wise [rt_memset] and [rt_memcpy] are the byte-wise
      ones; formatted output stays in its buffer and is the text of the format
      cut to it ([vsnprintf_bounded], [printf_numbers]).
    - Shell: it refines an editor that knows no buffers ([shell_refines_editor]),
      a line runs its command with its arguments ([shell_runs_command],
      [msh_split_tokens]), the arrows and Tab bring back
      and complete lines ([history_recalled], [tab_completes]), the terminal
      shows what the buffer holds ([display_in_sync]), and the clock can be set
      from the prompt ([shell_sets_clock]).
    - Console: an open serial device is a queue of the latest characters
      ([serial_delivers]); no interleaving of interrupts and threads loses a
      character or a wake-up as long as the line is not 63 characters ahead
      ([console_loses_nothing]), and when the shell is idle again the wire has
      carried what the editor prints for the keys ([console_answers]).
    - Objects: the registry is a list of what is registered
      ([registry_refines]) and well typed ([registry_well_typed]).
    - Pins: attaching and enabling an interrupt connects the edges of that pin,
      and of no other, to the handler ([pin_irq_routed]); after the set-up of the
      watch each button reaches its own handler ([buttons_reach_handlers]).
    - Accelerometer: whatever the latency of the bus, [MPU_Init] leaves the
      sensor with its settings and a reading is the six registers, the last
      byte not acknowledged ([mpu_init_configures], [mpu_reading]).
    - Calendar: [timegm] inverts [gmtime_r] up to the last second of 2^31
      ([timegm_gmtime_r]); a date that is set, its month not 0 and its year
      before 2037, with no second ending in between, is the date that is read
      back, and the one that is shown ([set_time_is_shown]).
    - Display: each drawing routine paints its pixels and no others; its calls
      put its events on the wires in their order ([lcd_on_registers]), and they
      paint the same on a link that delays the bytes, except for the last pixel
      of a rectangle ([slow_link_paints]).
    - Battery: after its set-up a reading is the voltage of the channel asked
      for, measured after the call ([battery_measured]).
    - Start: from the board, the scheduler is started with [main]'s thread
      running and the idle thread ready ([startup_runs_main]); [main] returns, with the panel black, every peripheral set up, the
      clock set and three threads ready ([main_starts_watch]).
    - Serial commands: from [Main_Threads] on, every character received is
      answered and its colour set, in order ([commands_served]); the thread that
      does it never waits, so nothing of lower priority runs again
      ([serial_thread_never_waits]); the callback can end the display thread
      ([interrupt_ends_display]).
    - Limits: where the code does something other than its comments or its
      purpose (month 0, the two-byte string buffers, the uptime's wrap, forced
      writes to a ring buffer, requests at the limits of the heap, a sensor
      that does not answer, a line of 80 characters, years a 32-bit clock does
      not reach, midnight while the clock is set), a theorem states what it does.

    ** Bounds and fuel

    A C loop without a structural measure is a recursion on fuel, [None] when
    it is spent.  [rt_timer_check] gets the length of the timer list, which
    each iteration shortens ([timer_check_spec], [tick_total]); releasing all
    waiters or all messages gets the length of the list
    ([resume_all_spec], [release_all_spec]); [gm_year] one more than the days
    over 365 ([gm_fuel_enough]); [timegm_carry] more than the days it carries;
    [str_at] the longest string the buffers hold; the loops over memory the
    number of bytes; [rt_defunct_execute] the number of ended threads; the formatter the length of the format; the loops of the shell over a line
    its length; [rt_malloc] the
    size of the heap, which holds fewer blocks than bytes ([heap_fuel],
    [blocks_fuel]); a polling loop the number of polls within which the
    peripheral is assumed to answer ([ready_law], [tc_law], [spi_law],
    [adc_law]); the receive
    interrupt one more than the bytes a line can bring while it runs ([burst]).  The theorems give the value
    a call produces, so spent fuel is excluded in each.

    ** Not modelled

    The clocks, the system timer, the function tables of [rt_components_init]
    and the banner, the vendor libraries beyond what the program calls, and the
    context switch in assembly.  The port is not in the repository: the first
    frame of a stack is the parameter [rt_hw_stack_init], which writes inside
    the stack it is given and nowhere else ([stack_init_ok]).  A call that makes
    or ends a thread, and the taking apart of one thread by the idle loop, is
    one step; what an interrupt does between the critical sections of such a
    step is not interleaved.  Of what [rt_hw_board_init] does, [Startup] takes
    the heap and any registered objects ([board_ready]).  [main] of [Main] runs
    alone: during its delays the shell waits for keys.  The peripherals are parameters with laws: configuration registers
    hold what is written to them, a flag that is polled comes up in time, the
    converter does what its control bits say ([watch_hw]).  On the link to the
    panel ([arrives]) at most two bytes are under way and a delay of a
    millisecond outlasts them.  What [SPI_SendData] makes of the shift C leaves
    undefined is the parameter [dff].  Of the shell: the
    heap behind [finsh_set_prompt] and the commands of [cmd.c]; a command is a
    parameter of the dispatch.  Of the pins: that configuration registers hold
    what is written to them is a hypothesis ([bank]).  Of the console and of the serial
    commands: what threads other than the one that serves them print between
    its outputs; and the characters that come in are those
    the driver fetches, [uart_isr] itself clearing the receive flag once more
    after it has fetched them.
    Authentication, file systems and the C-expression shell are configured out.  The readings are arguments of the sampling thread.  On
    the I2C bus a START or STOP bit may read as set while that request is the
    last event, and writing it back asks for the same again ([ctlr1_law]); that
    the request is not carried out between the read and the write of one such
    access is assumed, and a transfer begins with none pending ([no_start]).
    Timers are those of the threads: the program makes none of its own, and a
    client's timer is not modelled.
    [memheap.c], soft timers, SMP, DMA and the stack-overflow check are
    configured out; so are assertions, [RT_DEBUG] being undefined.  Hooks are
    never set.  The application theorems take readings whose squares sum
    within [int]; the clock starts between 1973 and July 2036 ([clock_ok]), so
    that no date the watch computes leaves a 32-bit [time_t].  A mutex is used
    by its own calls and no thread ends that owns one ([system_step]).  [main]
    starts from objects, heap and peripherals as the boot leaves them, with
    room for what it allocates ([prepared], [fresh]). *)
From stdpp Require Export base numbers list gmap option strings.
From Stdlib Require Export ZArith Lia.

#[export] Set Default Goal Selector "!".
Global Open Scope Z_scope.

(** ** Machine integers

    C's fixed-width unsigned types are [Z] reduced modulo [2^w] at every
    point where the C code stores into (or converts to) such a type; the
    signed conversions wrap two's-complement, as every compiler for this
    target does. *)

Definition u8 (z : Z) : Z := z `mod` 256.
Definition u16 (z : Z) : Z := z `mod` 65536.
Definition u32 (z : Z) : Z := z `mod` 4294967296.
Definition s16 (z : Z) : Z := (z + 32768) `mod` 65536 - 32768.
Definition s32 (z : Z) : Z := (z + 2147483648) `mod` 4294967296 - 2147483648.

Declare Scope cint_scope.
Delimit Scope cint_scope with cint.
Infix ".&" := Z.land (at level 45, right associativity) : cint_scope.
Infix ".|" := Z.lor (at level 46, right associativity) : cint_scope.
Global Open Scope cint_scope.

(** [zlia]: [lia] with division and modulo by constants spelled out. *)
Ltac zlia := solve [lia | Z.div_mod_to_equations; lia | Z.div_mod_to_equations; nia].

(** Simplify the integer tests [=?], [<?], [<=?] ... of a definition by case
    analysis on the order they decide. *)
Ltac case_Z :=
  match goal with
  | |- context [Z.eqb ?a ?b] => destruct (Z.eqb_spec a b)
  | |- context [Z.ltb ?a ?b] => destruct (Z.ltb_spec a b)
  | |- context [Z.leb ?a ?b] => destruct (Z.leb_spec a b)
  | |- context [Z.gtb ?a ?b] => rewrite (Z.gtb_ltb a b); destruct (Z.ltb_spec b a)
  | |- context [Z.geb ?a ?b] => rewrite (Z.geb_leb a b); destruct (Z.leb_spec b a)
  end.
Ltac case_Zs := repeat (case_Z; cbn [negb andb orb]).

(** The same on hypotheses. *)
Ltac case_Z_in H :=
  match type of H with
  | context [Z.eqb ?a ?b] => destruct (Z.eqb_spec a b)
  | context [Z.ltb ?a ?b] => destruct (Z.ltb_spec a b)
  | context [Z.leb ?a ?b] => destruct (Z.leb_spec a b)
  | context [Z.gtb ?a ?b] => rewrite (Z.gtb_ltb a b) in H; destruct (Z.ltb_spec b a)
  | context [Z.geb ?a ?b] => rewrite (Z.geb_leb a b) in H; destruct (Z.leb_spec b a)
  end.

Lemma u8_range z : 0 <= u8 z < 256.
Proof. apply Z.mod_pos_bound; lia. Qed.
Lemma u16_range z : 0 <= u16 z < 65536.
Proof. apply Z.mod_pos_bound; lia. Qed.
Lemma u32_range z : 0 <= u32 z < 4294967296.
Proof. apply Z.mod_pos_bound; lia. Qed.
Lemma s16_range z : -32768 <= s16 z < 32768.
Proof. unfold s16. pose proof (Z.mod_pos_bound (z + 32768) 65536). lia. Qed.
Lemma s32_range z : -2147483648 <= s32 z < 2147483648.
Proof. unfold s32. pose proof (Z.mod_pos_bound (z + 2147483648) 4294967296). lia. Qed.

Lemma u8_small z : 0 <= z < 256 -> u8 z = z.
Proof. apply Z.mod_small. Qed.
Lemma u16_small z : 0 <= z < 65536 -> u16 z = z.
Proof. apply Z.mod_small. Qed.
Lemma u32_small z : 0 <= z < 4294967296 -> u32 z = z.
Proof. apply Z.mod_small. Qed.
Lemma s16_small z : -32768 <= z < 32768 -> s16 z = z.
Proof. intros. unfold s16. rewrite Z.mod_small; lia. Qed.
Lemma s32_small z : -2147483648 <= z < 2147483648 -> s32 z = z.
Proof. intros. unfold s32. rewrite Z.mod_small; lia. Qed.

(** The two bytes of a 16-bit value, and putting them back together: what
    every register access over the SPI and I2C buses does. *)
Definition hi8 (z : Z) : Z := u8 (z ≫ 8).
Definition lo8 (z : Z) : Z := u8 z.
Definition be16 (h l : Z) : Z := (h ≪ 8) .| l.

Lemma be16_add h l : 0 <= l < 256 -> be16 h l = 256 * h + l.
Proof.
  intros Hl. unfold be16.
  assert ((h ≪ 8) .& l = 0) as Hz.
  { apply Z.bits_inj'. intros n Hn. rewrite Z.land_spec, Z.bits_0.
    destruct (Z.ltb_spec n 8).
    - rewrite Z.shiftl_spec_low; [done|lia].
    - destruct (decide (l = 0)) as [->|]; [rewrite Z.bits_0; apply andb_false_r|].
      rewrite (Z.bits_above_log2 l); [apply andb_false_r|lia|].
      apply Z.log2_lt_pow2; [lia|].
      apply Z.lt_le_trans with (2 ^ 8); [lia|]. apply Z.pow_le_mono_r; lia. }
  pose proof (Z.add_lor_land (h ≪ 8) l) as E. rewrite Hz in E.
  rewrite Z.shiftl_mul_pow2 in * by lia. lia.
Qed.

Lemma hi8_range z : 0 <= hi8 z < 256.
Proof. apply u8_range. Qed.
Lemma lo8_range z : 0 <= lo8 z < 256.
Proof. apply u8_range. Qed.

Lemma be16_hi_lo z : 0 <= z < 65536 -> be16 (hi8 z) (lo8 z) = z.
Proof.
  intros Hz. rewrite be16_add by apply lo8_range.
  unfold hi8, lo8, u8. rewrite Z.shiftr_div_pow2 by lia. change (2 ^ 8) with 256. zlia.
Qed.

Lemma be16_range h l : 0 <= h < 256 -> 0 <= l < 256 -> 0 <= be16 h l < 65536.
Proof. intros ??. rewrite be16_add; lia. Qed.

#[global] Arguments u8 : simpl never.
#[global] Arguments u16 : simpl never.
#[global] Arguments u32 : simpl never.
#[global] Arguments s16 : simpl never.
#[global] Arguments s32 : simpl never.
#[global] Arguments hi8 : simpl never.
#[global] Arguments lo8 : simpl never.
#[global] Arguments be16 : simpl never.

Create HintDb cint discriminated.
#[export] Hint Resolve u8_range u16_range u32_range s16_range s32_range
  hi8_range lo8_range be16_range : cint.
Create Rewrite HintDb cint_rw.
#[export] Hint Rewrite be16_hi_lo using lia : cint_rw.

(** ** Bits *)

(** Masking with a single bit tests that bit. *)
Lemma land_bit x n : 0 <= n -> (x .& 2 ^ n =? 0) = negb (Z.testbit x n).
Proof.
  intros Hn. destruct (Z.testbit x n) eqn:E; cbn.
  - apply Z.eqb_neq. intros H0.
    assert (Z.testbit (x .& 2 ^ n) n = true) as H1
      by (rewrite Z.land_spec, E, Z.pow2_bits_true; [done|lia]).
    by rewrite H0, Z.bits_0 in H1.
  - apply Z.eqb_eq, Z.bits_inj'. intros m Hm. rewrite Z.land_spec, Z.bits_0.
    destruct (decide (m = n)) as [->|]; [by rewrite E|].
    rewrite Z.pow2_bits_false by lia. apply andb_false_r.
Qed.

(** A number is below [2 ^ w] exactly when its bits from [w] on are clear. *)
Lemma bits_above z w n : 0 <= z < 2 ^ w -> 0 <= w <= n -> Z.testbit z n = false.
Proof.
  intros Hz Hn. rewrite <- (Z.mod_small z (2 ^ w)) by done. by apply Z.mod_pow2_bits_high.
Qed.

Lemma bits_bound z w : 0 <= w -> (forall n, w <= n -> Z.testbit z n = false) -> 0 <= z < 2 ^ w.
Proof.
  intros Hw Hz. assert (z = z `mod` 2 ^ w) as ->.
  { apply Z.bits_inj'. intros n Hn. destruct (Z.lt_ge_cases n w).
    - by rewrite Z.mod_pow2_bits_low.
    - rewrite Z.mod_pow2_bits_high by lia. by apply Hz. }
  apply Z.mod_pos_bound. lia.
Qed.

Lemma u16_testbit x n : 0 <= n < 16 -> Z.testbit (u16 x) n = Z.testbit x n.
Proof. intros Hn. unfold u16. change 65536 with (2 ^ 16). by rewrite Z.mod_pow2_bits_low by lia. Qed.
Lemma u32_testbit x n : 0 <= n < 32 -> Z.testbit (u32 x) n = Z.testbit x n.
Proof.
  intros Hn. unfold u32. change 4294967296 with (2 ^ 32).
  apply Z.mod_pow2_bits_low. lia.
Qed.

(** ** Arrays

    [l !!z i] reads element [i] of a C array, [None] when the index is out of
    its bounds: an access the C code must never make. *)

Definition zlookup {A} (l : list A) (i : Z) : option A :=
  if decide (0 <= i) then l !! Z.to_nat i else None.
Notation "l '!!z' i" := (zlookup l i) (at level 20) : cint_scope.

Lemma zlookup_Some {A} (l : list A) i x :
  l !!z i = Some x -> 0 <= i < Z.of_nat (length l) /\ l !! Z.to_nat i = Some x.
Proof.
  unfold zlookup. case_decide; [|done]. intros E.
  pose proof (lookup_lt_Some _ _ _ E). split; [lia|done].
Qed.

Lemma zlookup_is_Some {A} (l : list A) i :
  0 <= i < Z.of_nat (length l) -> is_Some (l !!z i).
Proof. intros. unfold zlookup. rewrite decide_True by lia. apply lookup_lt_is_Some. lia. Qed.

Lemma zlookup_None {A} (l : list A) i :
  i < 0 \/ Z.of_nat (length l) <= i -> l !!z i = None.
Proof.
  intros. unfold zlookup. case_decide; [|done]. apply lookup_ge_None_2. lia.
Qed.

Lemma zlookup_of_nat {A} (l : list A) (n : nat) : l !!z (Z.of_nat n) = l !! n.
Proof. unfold zlookup. rewrite decide_True by lia. by rewrite Nat2Z.id. Qed.

(** ** Lists *)

Lemma length_concat_const {A} (n : nat) (ls : list (list A)) :
  Forall (fun l => length l = n) ls -> length (concat ls) = (length ls * n)%nat.
Proof. induction 1; [done|]. cbn. rewrite length_app. lia. Qed.

(** Row-major indexing of a list of equally long rows. *)
Lemma lookup_concat_rows {A} (w : nat) (ls : list (list A)) (i j : nat) :
  Forall (fun l => length l = w) ls -> (j < w)%nat ->
  concat ls !! (i * w + j)%nat = (l ← ls !! i; l !! j).
Proof.
  intros Hls. revert i. induction Hls as [|l ls Hl Hls IH]; intros i Hj; [done|].
  destruct i as [|i]; cbn.
  - by rewrite lookup_app_l by lia.
  - rewrite lookup_app_r by lia. rewrite <- IH by done. f_equal. lia.
Qed.

(** [mapM] over [option] succeeds exactly when every element does. *)
Lemma mapM_option_Some {A B} (f : A -> option B) (l : list A) :
  (forall x, x ∈ l -> is_Some (f x)) -> is_Some (mapM f l).
Proof.
  intros H. apply mapM_is_Some. apply Forall_forall. done.
Qed.

Lemma mapM_fmap_ext {A B} (f : A -> option B) (g : A -> B) (l : list A) :
  (forall x, x ∈ l -> f x = Some (g x)) -> mapM f l = Some (g <$> l).
Proof.
  induction l as [|x l IH]; intros H; [done|]. cbn.
  rewrite (H x) by apply list_elem_of_here. cbn.
  rewrite IH by (intros y Hy; apply H; by apply list_elem_of_further). done.
Qed.

Lemma forallb_Forall {A} (f : A -> bool) l : forallb f l = true <-> Forall f l.
Proof.
  rewrite Forall_forall. rewrite forallb_forall. setoid_rewrite list_elem_of_In.
  split; intros H x Hx; specialize (H x Hx); by rewrite Is_true_true in *.
Qed.

(** ** C strings

    A C string is the list of its character codes before the NUL; [chars]
    turns a literal into it, [cstr] cuts a buffer at its first NUL. *)
Fixpoint chars (s : string) : list Z :=
  match s with
  | EmptyString => []
  | String c s => Z.of_N (Ascii.N_of_ascii c) :: chars s
  end.

Fixpoint cstr (buf : list Z) : list Z :=
  match buf with
  | [] => []
  | c :: buf => if c =? 0 then [] else c :: cstr buf
  end.

Lemma cstr_app l rest : Forall (fun c => c <> 0) l -> cstr (l ++ 0 :: rest) = l.
Proof.
  induction 1 as [|c l Hc Hl IH]; [done|]. cbn.
  rewrite (proj2 (Z.eqb_neq c 0)) by done. by rewrite IH.
Qed.

(** [itoa(v, buf, 10)] of the C library: the decimal digits, most significant
    first, with a sign for negative values.  [fuel] bounds the digits. *)
Fixpoint digits (fuel : nat) (v : Z) : list Z :=
  match fuel with
  | O => []
  | S fuel => if v <? 10 then [48 + v] else digits fuel (v / 10) ++ [48 + v `mod` 10]
  end.
Definition itoa (v : Z) : list Z :=
  if v <? 0 then 45 :: digits 20 (- v) else digits 20 v.

(** [itoa] writes digits, and few of them. *)
Lemma digits_chars fuel : forall v, 0 <= v -> Forall (fun c => 48 <= c < 58) (digits fuel v).
Proof.
  induction fuel as [|fuel IH]; intros v Hv; [constructor|]. cbn. case_Z.
  - repeat constructor; lia.
  - apply Forall_app. split; [apply IH; zlia|]. repeat constructor; zlia.
Qed.

Lemma digits_length fuel : forall n v, 0 <= v < 10 ^ Z.of_nat n ->
  (length (digits fuel v) <= Nat.max 1 n)%nat.
Proof.
  induction fuel as [|fuel IH]; intros n v Hv; [cbn; lia|]. cbn. case_Z; [cbn; lia|].
  rewrite length_app. cbn. destruct n as [|[|n]]; [cbn in Hv; lia|cbn in Hv; lia|].
  rewrite Nat2Z.inj_succ, Z.pow_succ_r in Hv by lia.
  pose proof (IH (S n) (v / 10) ltac:(zlia)). lia.
Qed.

Lemma itoa_chars v : Forall (fun c => c = 45 \/ 48 <= c < 58) (itoa v).
Proof.
  unfold itoa. case_Z.
  - constructor; [by left|]. eapply Forall_impl; [apply digits_chars; lia|cbn; lia].
  - eapply Forall_impl; [apply digits_chars; lia|cbn; lia].
Qed.

Lemma itoa_length v : -2147483648 <= v < 2147483648 -> (length (itoa v) <= 11)%nat.
Proof.
  intros Hv. unfold itoa. case_Z; cbn [length].
  - pose proof (digits_length 20 10 (- v)). lia.
  - pose proof (digits_length 20 10 v). lia.
Qed.

Lemma itoa_two v : 0 <= v < 100 ->
  itoa v = if v <? 10 then [48 + v] else [48 + v / 10; 48 + v `mod` 10].
Proof.
  intros Hv. unfold itoa. rewrite (proj2 (Z.ltb_ge v 0)) by lia. cbn.
  destruct (Z.ltb_spec v 10); [done|].
  rewrite (proj2 (Z.ltb_lt (v / 10) 10)) by zlia. done.
Qed.

(** ** Error codes ([rtdef.h]); kernel functions return them negated. *)
Definition RT_EOK : Z := 0.
Definition RT_ERROR : Z := 1.
Definition RT_ETIMEOUT : Z := 2.
Definition RT_EFULL : Z := 3.
Definition RT_EEMPTY : Z := 4.
Definition RT_ENOMEM : Z := 5.
Definition RT_ENOSYS : Z := 6.
Definition RT_EBUSY : Z := 7.
Definition RT_EIO : Z := 8.
Definition RT_EINTR : Z := 9.
Definition RT_EINVAL : Z := 10.

Definition RT_TICK_PER_SECOND : Z := 1000.

(** ** Alignment ([rtdef.h]) *)

(** [RT_ALIGN(size, RT_ALIGN_SIZE)] of an [rt_size_t], and
    [RT_ALIGN_DOWN(size, RT_ALIGN_SIZE)]. *)
Definition RT_ALIGN_SIZE : Z := 4.
Definition align_up (size : Z) : Z := Z.ldiff (u32 (size + RT_ALIGN_SIZE - 1)) (RT_ALIGN_SIZE - 1).
Definition align_down (size : Z) : Z := Z.ldiff size (RT_ALIGN_SIZE - 1).

Lemma align_down_eq size : align_down size = 4 * (size / 4).
Proof.
  unfold align_down, RT_ALIGN_SIZE. change (4 - 1) with (Z.ones 2). rewrite Z.ldiff_ones_r by lia.
  rewrite Z.shiftl_mul_pow2, Z.shiftr_div_pow2 by lia. change (2 ^ 2) with 4. lia.
Qed.

Lemma align_up_eq size : align_up size = 4 * (u32 (size + 3) / 4).
Proof.
  unfold align_up, RT_ALIGN_SIZE. replace (size + 4 - 1) with (size + 3) by lia. apply align_down_eq.
Qed.
