(* ===== verification/Bytes.v ===== *)
(** * Bytes: memory as bytes

    Memory is a map from addresses to bytes, little-endian as the processor
    is; what nobody wrote reads as 0.  16- and 32-bit loads and stores, what
    they leave of each other, and copying between ranges. *)
From S2P Require Import Prelude.

Abbreviation memory := (gmap Z Z).
Definition rd (m : memory) (a : Z) : Z := default 0 (m !! a).

(** Store the bytes [l] from address [a] on. *)
Fixpoint store (a : Z) (l : list Z) (m : memory) : memory :=
  match l with [] => m | c :: l => <[a := c]> (store (a + 1) l m) end.

(** The bytes of a little-endian number, and the number of some bytes. *)
Definition le_byte (i v : Z) : Z := (v / 256 ^ i) `mod` 256.
Definition rd16 (m : memory) (a : Z) : Z := rd m a + 256 * rd m (a + 1).
Definition rd32 (m : memory) (a : Z) : Z := rd16 m a + 65536 * rd16 m (a + 2).
Definition wr16 (a v : Z) (m : memory) : memory := store a [le_byte 0 v; le_byte 1 v] m.
Definition wr32 (a v : Z) (m : memory) : memory :=
  store a [le_byte 0 v; le_byte 1 v; le_byte 2 v; le_byte 3 v] m.

(** Every cell holds a byte. *)
Definition bytes_ok (m : memory) : Prop := forall a, 0 <= rd m a < 256.

(** [m'] reads as [m] from [a] on for [n] bytes, and outside that range. *)
Definition same_in (a n : Z) (m m' : memory) : Prop :=
  forall x, a <= x < a + n -> rd m' x = rd m x.
Definition same_out (a n : Z) (m m' : memory) : Prop :=
  forall x, ~ a <= x < a + n -> rd m' x = rd m x.

Lemma rd_insert m a c x : rd (<[a := c]> m) x = if decide (a = x) then c else rd m x.
Proof.
  unfold rd. destruct (decide (a = x)) as [->|].
  - by rewrite lookup_insert_eq.
  - by rewrite lookup_insert_ne.
Qed.

Lemma rd_store l : forall a m x,
  rd (store a l m) x =
  if decide (a <= x < a + Z.of_nat (length l)) then nth (Z.to_nat (x - a)) l 0 else rd m x.
Proof.
  induction l as [|c l IH]; intros a m x.
  - cbn [store length nth]. by rewrite decide_False by lia.
  - cbn [store length]. rewrite rd_insert, IH. destruct (decide (a = x)) as [->|].
    + rewrite decide_True by lia. by rewrite Z.sub_diag.
    + destruct (decide (a + 1 <= x < _)).
      * rewrite decide_True by lia. replace (Z.to_nat (x - a)) with (S (Z.to_nat (x - (a + 1)))) by lia.
        done.
      * by rewrite decide_False by lia.
Qed.

Lemma le_byte_range i v : 0 <= le_byte i v < 256.
Proof. apply Z.mod_pos_bound. lia. Qed.
#[export] Hint Resolve le_byte_range : cint.

(** ** Words *)

Lemma rd_wr16 a v m x :
  rd (wr16 a v m) x = if decide (a <= x < a + 2) then le_byte (x - a) v else rd m x.
Proof.
  unfold wr16. rewrite rd_store. cbn [length Z.of_nat Pos.of_succ_nat].
  destruct (decide (a <= x < a + 2)); [|by rewrite decide_False by lia].
  rewrite decide_True by lia.
  assert (x - a = 0 \/ x - a = 1) as [-> | ->] by lia; done.
Qed.

Lemma rd_wr32 a v m x :
  rd (wr32 a v m) x = if decide (a <= x < a + 4) then le_byte (x - a) v else rd m x.
Proof.
  unfold wr32. rewrite rd_store. cbn [length Z.of_nat Pos.of_succ_nat].
  destruct (decide (a <= x < a + 4)); [|by rewrite decide_False by (cbn; lia)].
  rewrite decide_True by (cbn; lia).
  assert (x - a = 0 \/ x - a = 1 \/ x - a = 2 \/ x - a = 3) as [-> | [-> | [-> | ->]]] by lia; done.
Qed.

Lemma rd16_ext a m m' : same_in a 2 m m' -> rd16 m' a = rd16 m a.
Proof. intros H. unfold rd16. by rewrite !H by lia. Qed.
Lemma rd32_ext a m m' : same_in a 4 m m' -> rd32 m' a = rd32 m a.
Proof. intros H. unfold rd32, rd16. by rewrite !H by lia. Qed.

Lemma rd16_wr16 a v m : rd16 (wr16 a v m) a = u16 v.
Proof.
  unfold rd16. rewrite !rd_wr16, !decide_True by lia.
  rewrite Z.sub_diag, (Z.add_simpl_l a 1). unfold le_byte, u16. cbn [Z.pow Z.pow_pos Pos.iter Z.mul Pos.mul].
  zlia.
Qed.

Lemma rd32_wr32 a v m : rd32 (wr32 a v m) a = u32 v.
Proof.
  unfold rd32, rd16. rewrite !rd_wr32, !decide_True by lia.
  replace (a + 2 + 1 - a) with 3 by lia. rewrite Z.sub_diag, !Z.add_simpl_l.
  unfold le_byte, u32. change (256 ^ 0) with 1. change (256 ^ 1) with 256.
  change (256 ^ 2) with 65536. change (256 ^ 3) with 16777216. zlia.
Qed.

Lemma same_out_wr16 a v m : same_out a 2 m (wr16 a v m).
Proof. intros x Hx. by rewrite rd_wr16, decide_False. Qed.
Lemma same_out_wr32 a v m : same_out a 4 m (wr32 a v m).
Proof. intros x Hx. by rewrite rd_wr32, decide_False. Qed.

(** A word store leaves words and bytes elsewhere alone. *)
Lemma rd16_wr16_ne a b v m : b + 2 <= a \/ a + 2 <= b -> rd16 (wr16 b v m) a = rd16 m a.
Proof. intros H. apply rd16_ext. intros x Hx. apply same_out_wr16. lia. Qed.
Lemma rd16_wr32_ne a b v m : b + 4 <= a \/ a + 2 <= b -> rd16 (wr32 b v m) a = rd16 m a.
Proof. intros H. apply rd16_ext. intros x Hx. apply same_out_wr32. lia. Qed.
Lemma rd32_wr16_ne a b v m : b + 2 <= a \/ a + 4 <= b -> rd32 (wr16 b v m) a = rd32 m a.
Proof. intros H. apply rd32_ext. intros x Hx. apply same_out_wr16. lia. Qed.
Lemma rd32_wr32_ne a b v m : b + 4 <= a \/ a + 4 <= b -> rd32 (wr32 b v m) a = rd32 m a.
Proof. intros H. apply rd32_ext. intros x Hx. apply same_out_wr32. lia. Qed.

Lemma rd16_range m a : bytes_ok m -> 0 <= rd16 m a < 65536.
Proof. intros H. unfold rd16. pose proof (H a). pose proof (H (a + 1)). lia. Qed.
Lemma rd32_range m a : bytes_ok m -> 0 <= rd32 m a < 4294967296.
Proof. intros H. unfold rd32. pose proof (rd16_range m a H). pose proof (rd16_range m (a + 2) H). lia. Qed.

(** A word read and stored back moves its four bytes. *)
Lemma le_byte_rd32 m a i : bytes_ok m -> 0 <= i < 4 -> le_byte i (rd32 m a) = rd m (a + i).
Proof.
  intros Hm Hi. pose proof (Hm a). pose proof (Hm (a + 1)). pose proof (Hm (a + 2)).
  pose proof (Hm (a + 2 + 1)). unfold le_byte, rd32, rd16.
  assert (i = 0 \/ i = 1 \/ i = 2 \/ i = 3) as [-> | [-> | [-> | ->]]] by lia;
    rewrite ?Z.add_0_r; change (256 ^ 0) with 1; change (256 ^ 1) with 256;
    change (256 ^ 2) with 65536; change (256 ^ 3) with 16777216;
    try replace (a + 3) with (a + 2 + 1) by lia; zlia.
Qed.

Lemma bytes_ok_insert m a c : bytes_ok m -> 0 <= c < 256 -> bytes_ok (<[a := c]> m).
Proof. intros H Hc x. rewrite rd_insert. by destruct (decide (a = x)). Qed.
Lemma bytes_ok_wr32 m a v : bytes_ok m -> bytes_ok (wr32 a v m).
Proof. intros H x. rewrite rd_wr32. destruct (decide _); [apply le_byte_range|apply H]. Qed.
Lemma bytes_ok_wr16 m a v : bytes_ok m -> bytes_ok (wr16 a v m).
Proof. intros H x. rewrite rd_wr16. destruct (decide _); [apply le_byte_range|apply H]. Qed.
Lemma bytes_ok_store l : forall a m, bytes_ok m -> Forall (fun c => 0 <= c < 256) l -> bytes_ok (store a l m).
Proof.
  induction l as [|c l IH]; intros a m Hm Hl; [done|]. apply Forall_cons in Hl as [Hc Hl].
  cbn. apply bytes_ok_insert; [by apply IH|done].
Qed.
Lemma bytes_ok_empty : bytes_ok ∅.
Proof. intros a. unfold rd. rewrite lookup_empty. cbn. lia. Qed.
#[export] Hint Resolve bytes_ok_insert bytes_ok_wr32 bytes_ok_wr16 bytes_ok_empty : cint.

(** ** Ranges *)

(** [n] bytes at [d] in [m'] are those at [s] in [m], the rest is unchanged. *)
Definition moved (d s n : Z) (m m' : memory) : Prop :=
  forall x, rd m' x = if decide (d <= x < d + n) then rd m (s + (x - d)) else rd m x.
Definition filled_with (d n c : Z) (m m' : memory) : Prop :=
  forall x, rd m' x = if decide (d <= x < d + n) then c else rd m x.

(** The bytes of a range. *)
Definition bytes_at (m : memory) (a : Z) (n : nat) : list Z := map (fun i => rd m (a + Z.of_nat i)) (seq 0 n).

Lemma bytes_at_length m a n : length (bytes_at m a n) = n.
Proof. unfold bytes_at. by rewrite length_map, length_seq. Qed.
Lemma bytes_at_nth m a n i : (i < n)%nat -> nth i (bytes_at m a n) 0 = rd m (a + Z.of_nat i).
Proof.
  intros Hi. unfold bytes_at. set (f := fun j : nat => rd m (a + Z.of_nat j)).
  rewrite (nth_indep _ 0 (f O)) by (by rewrite length_map, length_seq).
  by rewrite (map_nth f), seq_nth.
Qed.
Lemma bytes_at_ext m m' a a' n :
  (forall i, 0 <= i < Z.of_nat n -> rd m' (a' + i) = rd m (a + i)) -> bytes_at m' a' n = bytes_at m a n.
Proof.
  intros H. unfold bytes_at. apply map_ext_in. intros i Hi%in_seq. apply H. lia.
Qed.
