(* ===== verification/St7789.v ===== *)
(** * St7789: the display driver

    [applications/ST7789.c] and [ST7789.h].  The driver has no inputs: what
    each routine does is the sequence of pin changes, SPI bytes and delays it
    produces, so every C function is a function from its arguments to a
    [trace].  The character routines index a font table; an index outside the
    table is undefined behaviour in C and [None] here.  16-bit parameters and
    intermediate stores wrap exactly where the C code stores into a
    [uint16_t]. *)
From S2P Require Import Prelude Fonts.

(** ** The wires between the MCU and the panel *)

Inductive lcd_pin := CS | DC | RST.
#[export] Instance lcd_pin_eq_dec : EqDecision lcd_pin.
Proof. solve_decision. Defined.

Inductive lcd_event :=
  | Pin (p : lcd_pin) (level : bool)
  | Spi (b : Z)
  | Delay (ms : Z).

Abbreviation trace := (list lcd_event).

(** [SPI_SendData(SPI1, buf, len)] as seen on the wire: [len] is a [uint8_t]. *)
Definition spi_send (buf : list Z) (len : Z) : trace :=
  Spi <$> take (Z.to_nat (u8 len)) buf.

Definition rt_thread_mdelay (ms : Z) : trace := [Delay ms].

Definition ST7789_HEIGHT : Z := 280.
Definition ST7789_WIDTH : Z := 240.
Definition HORIZONTAL : Z := 0.
Definition VERTICAL : Z := 1.

Definition LCD_REST_LOW : trace := [Pin RST false].
Definition LCD_REST_HIGH : trace := [Pin RST true].
Definition LCD_DC_LOW : trace := [Pin DC false].
Definition LCD_DC_HIGH : trace := [Pin DC true].
Definition LCD_CS_LOW : trace := [Pin CS false].
Definition LCD_CS_HIGH : trace := [Pin CS true].

Definition LCD_DISP_RED : Z := 0xF800.
Definition LCD_DISP_GREEN : Z := 0x07E0.
Definition LCD_DISP_BLUE : Z := 0x001F.
Definition LCD_DISP_ORANGE : Z := 0xFC40.
Definition LCD_DISP_CYAN : Z := 0x07FF.
Definition LCD_DISP_MAGENTA : Z := 0xF81F.
Definition LCD_DISP_YELLOW : Z := 0xFFE0.
Definition LCD_DISP_WHITE : Z := 0xFFFF.
Definition LCD_DISP_BLACK : Z := 0x0000.

(** ** Bytes, commands and data *)

Definition lcd_SendBytes (_dat : Z) : trace :=
  rt_thread_mdelay 1 ++ spi_send [u8 _dat] 1 ++ rt_thread_mdelay 1.

Definition LCD_command_write (command : Z) : trace :=
  LCD_DC_LOW ++ LCD_CS_LOW ++ lcd_SendBytes command ++ LCD_CS_HIGH.

Definition LCD_data_write (data : Z) : trace :=
  LCD_DC_HIGH ++ LCD_CS_LOW ++ lcd_SendBytes data ++ LCD_CS_HIGH.

Definition WriteData (buff : list Z) (buff_size : Z) : trace :=
  LCD_DC_HIGH ++ spi_send buff buff_size.

(** ** Initialisation *)

Record LCD_ATTRIBUTES := mkLCD_ATTRIBUTES {
  WIDTH : Z; HEIGHT : Z; SCAN_DIR : Z }.

Definition LCD_SetAttributes (Scan_dir : Z) : LCD_ATTRIBUTES * trace :=
  let '(attrs, MemoryAccessReg) :=
    if Scan_dir =? HORIZONTAL
    then (mkLCD_ATTRIBUTES ST7789_WIDTH ST7789_HEIGHT Scan_dir, 0x60)
    else (mkLCD_ATTRIBUTES ST7789_HEIGHT ST7789_WIDTH Scan_dir, 0x00) in
  (attrs, LCD_command_write 0x36 ++ LCD_data_write MemoryAccessReg).

Definition LCD_InitReg : trace :=
  rt_thread_mdelay 5 ++
  LCD_REST_LOW ++
  rt_thread_mdelay 10 ++
  LCD_REST_HIGH ++
  rt_thread_mdelay 120 ++
  (* Interface Pixel Format: 16bit/pixel *)
  LCD_command_write 0x3A ++ LCD_data_write 0x05 ++
  (* Porch Setting *)
  LCD_command_write 0xB2 ++
  LCD_data_write 0x0C ++ LCD_data_write 0x0C ++ LCD_data_write 0x00 ++
  LCD_data_write 0x33 ++ LCD_data_write 0x33 ++
  (* Gate Control *)
  LCD_command_write 0xB7 ++ LCD_data_write 0x35 ++
  (* VCOM Setting *)
  LCD_command_write 0xBB ++ LCD_data_write 0x32 ++
  (* LCM Control *)
  LCD_command_write 0xC2 ++ LCD_data_write 0x01 ++
  (* VRH Set *)
  LCD_command_write 0xC3 ++ LCD_data_write 0x15 ++
  (* VDV Set *)
  LCD_command_write 0xC4 ++ LCD_data_write 0x20 ++
  (* Frame Rate Control in Normal Mode: 60Hz *)
  LCD_command_write 0xC6 ++ LCD_data_write 0x0F ++
  (* Power Control 1 *)
  LCD_command_write 0xD0 ++ LCD_data_write 0xA4 ++ LCD_data_write 0xA1 ++
  (* Positive Voltage Gamma Control *)
  LCD_command_write 0xE0 ++
  LCD_data_write 0xD0 ++ LCD_data_write 0x08 ++ LCD_data_write 0x0E ++
  LCD_data_write 0x09 ++ LCD_data_write 0x09 ++ LCD_data_write 0x05 ++
  LCD_data_write 0x31 ++ LCD_data_write 0x33 ++ LCD_data_write 0x48 ++
  LCD_data_write 0x17 ++ LCD_data_write 0x14 ++ LCD_data_write 0x15 ++
  LCD_data_write 0x31 ++ LCD_data_write 0x34 ++
  (* Negative Voltage Gamma Control *)
  LCD_command_write 0xE1 ++
  LCD_data_write 0xD0 ++ LCD_data_write 0x08 ++ LCD_data_write 0x0E ++
  LCD_data_write 0x09 ++ LCD_data_write 0x09 ++ LCD_data_write 0x15 ++
  LCD_data_write 0x31 ++ LCD_data_write 0x33 ++ LCD_data_write 0x48 ++
  LCD_data_write 0x17 ++ LCD_data_write 0x14 ++ LCD_data_write 0x15 ++
  LCD_data_write 0x31 ++ LCD_data_write 0x34 ++
  (* Display Inversion On, Sleep Out *)
  LCD_command_write 0x21 ++
  LCD_command_write 0x11 ++
  rt_thread_mdelay 120 ++
  (* Display on *)
  LCD_command_write 0x29.

Definition LCD_Init (Scan_dir : Z) : LCD_ATTRIBUTES * trace :=
  let '(attrs, t) := LCD_SetAttributes Scan_dir in (attrs, t ++ LCD_InitReg).

(** ** Windows, rectangles and pixels *)

Definition LCD_SetWindows (Xstart Ystart Xend Yend : Z) : trace :=
  let Ystart := u16 (Ystart + 20) in
  let Yend := u16 (Yend + 20) in
  LCD_command_write 0x2a ++
  LCD_data_write (Xstart ≫ 8) ++ LCD_data_write Xstart ++
  LCD_data_write (Xend ≫ 8) ++ LCD_data_write Xend ++
  LCD_command_write 0x2b ++
  LCD_data_write (Ystart ≫ 8) ++ LCD_data_write Ystart ++
  LCD_data_write (Yend ≫ 8) ++ LCD_data_write Yend ++
  LCD_command_write 0x2c.

(** [uint8_t data[] = { color >> 8, color & 0xFF };] *)
Definition color_bytes (color : Z) : list Z := [u8 (color ≫ 8); u8 (color .& 0xFF)].

Definition FillRectangle (x y w h color : Z) : trace :=
  if (x >=? ST7789_WIDTH) || (y >=? ST7789_HEIGHT) then [] else
  let w := if x + w - 1 >=? ST7789_WIDTH then u16 (ST7789_WIDTH - x) else w in
  let h := if y + h - 1 >=? ST7789_HEIGHT then u16 (ST7789_HEIGHT - y) else h in
  LCD_SetWindows x y (u16 (x + w - 1)) (u16 (y + h - 1)) ++
  LCD_CS_LOW ++
  LCD_DC_HIGH ++
  concat (replicate (Z.to_nat h)
    (concat (replicate (Z.to_nat w) (spi_send (color_bytes color) 2)))) ++
  LCD_CS_HIGH ++
  LCD_DC_LOW.

Definition DrawPixel (x y color : Z) : trace :=
  if (x >=? ST7789_WIDTH) || (y >=? ST7789_HEIGHT) then [] else
  LCD_SetWindows x y x y ++
  LCD_CS_LOW ++
  rt_thread_mdelay 1 ++
  WriteData (color_bytes color) 2 ++
  rt_thread_mdelay 1 ++
  LCD_CS_HIGH.

(** ** Characters and strings

    A character is its code: [char] is unsigned on this target (RISC-V), so
    codes are 0..255.  A string is the list of its characters before the
    terminating NUL. *)

(** [(b << j) & 0x8000], [b] and [j] being [uint32_t]. *)
Definition glyph_bit (b j : Z) : bool := negb (u32 (b ≪ j) .& 0x8000 =? 0).

(** One row of a glyph: the inner loop of [WriteChar]. *)
Definition WriteChar_row (b : Z) (font : FontDef) (color bgcolor : Z) : trace :=
  concat ((fun j => if glyph_bit b j
                    then WriteData (color_bytes color) 2
                    else WriteData (color_bytes bgcolor) 2)
          <$> seqZ 0 (width font)).

Definition WriteChar (x y ch : Z) (font : FontDef) (color bgcolor : Z) : option trace :=
  rows ← mapM (fun i =>
      b ← data font !!z (u32 ((ch - 32) * height font + i));
      Some (WriteChar_row b font color bgcolor)) (seqZ 0 (height font));
  Some (LCD_SetWindows x y (u16 (x + width font - 1)) (u16 (y + height font - 1)) ++
        LCD_CS_LOW ++ concat rows).

(** The line-wrapping prologue the three string routines share. *)
Inductive wrapped := WBreak | WSkip (x y : Z) | WDraw (x y : Z).

Definition wrap (font : FontDef) (x y c : Z) : wrapped :=
  if x + width font >=? ST7789_WIDTH then
    let y := u16 (y + height font) in
    if y + height font >=? ST7789_HEIGHT then WBreak
    else if c =? 32 then WSkip 0 y
    else WDraw 0 y
  else WDraw x y.

(** The [while ( *str )] loop of the string routines.  They differ only in what a
    space does: [sp i] is [None] when the loop breaks at it and the updated
    counter [i] otherwise. *)
Fixpoint print_loop (sp : Z -> option Z) (font : FontDef) (color bgcolor : Z)
    (i x y : Z) (str : list Z) : option trace :=
  match str with
  | [] => Some []
  | c :: str =>
      match wrap font x y c with
      | WBreak => Some []
      | WSkip x y => print_loop sp font color bgcolor i x y str
      | WDraw x y =>
          if c =? 10 then print_loop sp font color bgcolor i x y str else
          match (if c =? 32 then sp i else Some i) with
          | None => Some []
          | Some i =>
              t ← WriteChar x y c font color bgcolor;
              rest ← print_loop sp font color bgcolor i (u16 (x + width font)) y str;
              Some (t ++ rest)
          end
      end
  end.

Definition sp_string (i : Z) : option Z := Some i.
Definition sp_time (i : Z) : option Z := None.
Definition sp_date (i : Z) : option Z := if i + 1 >=? 4 then None else Some (i + 1).

Definition WriteString (x y : Z) (str : list Z) (font : FontDef) (color bgcolor : Z)
    : option trace :=
  t ← print_loop sp_string font color bgcolor 0 x y str;
  Some (LCD_CS_LOW ++ t ++ LCD_CS_HIGH).

(** [str = str + 11] leaves the string when it has fewer than 11 characters. *)
Definition RTC_ST7789_Time (x y : Z) (str : list Z) (font : FontDef) (color bgcolor : Z)
    : option trace :=
  if decide (length str < 11)%nat then None else
  t ← print_loop sp_time font color bgcolor 0 x y (drop 11 str);
  Some (LCD_CS_LOW ++ t ++ LCD_CS_HIGH).

Definition RTC_ST7789_Date (x y : Z) (str : list Z) (font : FontDef) (color bgcolor : Z)
    : option trace :=
  t ← print_loop sp_date font color bgcolor 0 x y str;
  Some (LCD_CS_LOW ++ t ++ LCD_CS_HIGH).
