(* ===== verification/Panel.v ===== *)
(** * Panel: what the display driver promises

    An abstract specification of [St7789]: what the byte stream means to the
    panel, in the terms [ST7789.h] gives it (CASET 2Ah and RASET 2Bh set the
    column and row window, RAMWR 2Ch starts a row-major fill of it with 16-bit
    pixels, high byte first; DC low marks a command, CS low selects the panel).
    The refinement theorems say what each drawing routine leaves on the
    screen. *)
From S2P Require Import Prelude Fonts St7789.

Record panel := mkPanel {
  p_cs : bool; p_dc : bool;
  p_cmd : Z; p_args : list Z;
  p_xs : Z; p_xe : Z; p_ys : Z; p_ye : Z;
  p_cx : Z; p_cy : Z; p_hi : option Z;
  p_gram : gmap (Z * Z) Z }.

(** The memory pointer moves along the row, then to the next row, then back to
    the window's origin. *)
Definition advance (xs xe ys ye cx cy : Z) : Z * Z :=
  if cx <? xe then (cx + 1, cy)
  else if cy <? ye then (xs, cy + 1) else (xs, ys).

Definition put_pixel (P : panel) (c : Z) : panel :=
  let '(cx, cy) := advance (p_xs P) (p_xe P) (p_ys P) (p_ye P) (p_cx P) (p_cy P) in
  mkPanel (p_cs P) (p_dc P) (p_cmd P) (p_args P) (p_xs P) (p_xe P) (p_ys P) (p_ye P)
    cx cy None (<[(p_cx P, p_cy P) := c]> (p_gram P)).

Definition panel_command (P : panel) (b : Z) : panel :=
  if b =? 0x2c
  then mkPanel (p_cs P) (p_dc P) b [] (p_xs P) (p_xe P) (p_ys P) (p_ye P)
         (p_xs P) (p_ys P) None (p_gram P)
  else mkPanel (p_cs P) (p_dc P) b [] (p_xs P) (p_xe P) (p_ys P) (p_ye P)
         (p_cx P) (p_cy P) (p_hi P) (p_gram P).

Definition panel_data (P : panel) (b : Z) : panel :=
  let args := p_args P ++ [b] in
  let P' := mkPanel (p_cs P) (p_dc P) (p_cmd P) args (p_xs P) (p_xe P) (p_ys P) (p_ye P)
              (p_cx P) (p_cy P) (p_hi P) (p_gram P) in
  if p_cmd P =? 0x2c then
    match p_hi P with
    | None => mkPanel (p_cs P) (p_dc P) (p_cmd P) (p_args P) (p_xs P) (p_xe P)
                (p_ys P) (p_ye P) (p_cx P) (p_cy P) (Some b) (p_gram P)
    | Some h => put_pixel P (be16 h b)
    end
  else if p_cmd P =? 0x2a then
    match args with
    | [a; b; c; d] => mkPanel (p_cs P) (p_dc P) (p_cmd P) args (be16 a b) (be16 c d)
                        (p_ys P) (p_ye P) (p_cx P) (p_cy P) (p_hi P) (p_gram P)
    | _ => P'
    end
  else if p_cmd P =? 0x2b then
    match args with
    | [a; b; c; d] => mkPanel (p_cs P) (p_dc P) (p_cmd P) args (p_xs P) (p_xe P)
                        (be16 a b) (be16 c d) (p_cx P) (p_cy P) (p_hi P) (p_gram P)
    | _ => P'
    end
  else P'.

Definition panel_step (P : panel) (e : lcd_event) : panel :=
  match e with
  | Pin CS l => mkPanel l (p_dc P) (p_cmd P) (p_args P) (p_xs P) (p_xe P) (p_ys P) (p_ye P)
                  (p_cx P) (p_cy P) (p_hi P) (p_gram P)
  | Pin DC l => mkPanel (p_cs P) l (p_cmd P) (p_args P) (p_xs P) (p_xe P) (p_ys P) (p_ye P)
                  (p_cx P) (p_cy P) (p_hi P) (p_gram P)
  | Pin RST _ | Delay _ => P
  | Spi b => if p_cs P then P else if p_dc P then panel_data P b else panel_command P b
  end.

Definition panel_run (t : trace) (P : panel) : panel := foldl panel_step P t.

Lemma panel_run_app t1 t2 P : panel_run (t1 ++ t2) P = panel_run t2 (panel_run t1 P).
Proof. apply foldl_app. Qed.

Lemma panel_run_nil P : panel_run [] P = P.
Proof. done. Qed.

(** ** Opening a window *)

Definition window_open (P : panel) (x y x2 y2 : Z) : panel :=
  mkPanel true false 0x2c [] x x2 y y2 x y None (p_gram P).

(** The record of a panel that has just taken a byte, chip select raised. *)
Definition deselect (P : panel) : panel :=
  mkPanel true (p_dc P) (p_cmd P) (p_args P) (p_xs P) (p_xe P) (p_ys P) (p_ye P)
    (p_cx P) (p_cy P) (p_hi P) (p_gram P).

Section Bytes.
Context (cs dc : bool) (cmd : Z) (args : list Z) (xs xe ys ye cx cy : Z)
  (hi : option Z) (g : gmap (Z * Z) Z).

Lemma LCD_command_write_run b :
  0 <= b < 256 ->
  panel_run (LCD_command_write b) (mkPanel cs dc cmd args xs xe ys ye cx cy hi g) =
  deselect (panel_command (mkPanel false false cmd args xs xe ys ye cx cy hi g) b).
Proof. intros Hb. rewrite <- (u8_small b) at 2 by done. reflexivity. Qed.

Lemma LCD_data_write_run b :
  panel_run (LCD_data_write b) (mkPanel cs dc cmd args xs xe ys ye cx cy hi g) =
  deselect (panel_data (mkPanel false true cmd args xs xe ys ye cx cy hi g) (u8 b)).
Proof. reflexivity. Qed.
End Bytes.

(** Take one command or data byte from a panel given by its fields. *)
Ltac panel_byte :=
  first [rewrite LCD_command_write_run by lia | rewrite LCD_data_write_run];
  cbv [deselect panel_command panel_data p_cs p_dc p_cmd p_args p_xs p_xe p_ys p_ye
       p_cx p_cy p_hi p_gram Z.eqb Pos.eqb app].

Lemma LCD_SetWindows_run P x y x2 y2 :
  0 <= x < 65536 -> 0 <= x2 < 65536 ->
  panel_run (LCD_SetWindows x y x2 y2) P =
  window_open P x (u16 (y + 20)) x2 (u16 (y2 + 20)).
Proof.
  intros Hx Hx2. unfold LCD_SetWindows.
  set (ys := u16 (y + 20)). set (ye := u16 (y2 + 20)).
  assert (Hys : be16 (hi8 ys) (lo8 ys) = ys) by apply be16_hi_lo, u16_range.
  assert (Hye : be16 (hi8 ye) (lo8 ye) = ye) by apply be16_hi_lo, u16_range.
  destruct P.
  rewrite !panel_run_app. repeat panel_byte.
  unfold window_open. cbn [p_gram].
  fold (hi8 x) (hi8 x2) (hi8 ys) (hi8 ye) (lo8 x) (lo8 x2) (lo8 ys) (lo8 ye).
  by rewrite Hys, Hye, !be16_hi_lo by lia.
Qed.

(** ** Filling a window *)

Lemma foldl_put_window P l :
  p_xs (foldl put_pixel P l) = p_xs P /\ p_xe (foldl put_pixel P l) = p_xe P /\
  p_ys (foldl put_pixel P l) = p_ys P /\ p_ye (foldl put_pixel P l) = p_ye P /\
  p_cs (foldl put_pixel P l) = p_cs P /\ p_cmd (foldl put_pixel P l) = p_cmd P.
Proof.
  revert P. induction l as [|c l IH]; intros P; [done|]. cbn.
  destruct (IH (put_pixel P c)) as (-> & -> & -> & -> & -> & ->).
  unfold put_pixel. by destruct (advance _ _ _ _ _ _).
Qed.

(** From pixel number [k] of a [w] by [h] window on, the pixels [l] land at
    numbers [k], [k+1], ...: at column [n mod w] and row [n / w]. *)
Lemma foldl_put_gram l : forall P k w h,
  0 < w -> 0 <= k -> k + Z.of_nat (length l) <= w * h ->
  p_xe P = p_xs P + w - 1 -> p_ye P = p_ys P + h - 1 ->
  (k < w * h -> p_cx P = p_xs P + k `mod` w /\ p_cy P = p_ys P + k `div` w) ->
  forall X Y,
  p_gram (foldl put_pixel P l) !! (X, Y) =
  let n := (Y - p_ys P) * w + (X - p_xs P) in
  if decide (p_xs P <= X < p_xs P + w /\ k <= n < k + Z.of_nat (length l))
  then l !!z (n - k) else p_gram P !! (X, Y).
Proof.
  induction l as [|c l IH]; intros P k w h Hw Hk Hlen Hxe Hye Hptr X Y; cbn zeta.
  { cbn [foldl length]. rewrite decide_False; [done|lia]. }
  cbn [length] in Hlen. destruct Hptr as [Hcx Hcy]; [lia|].
  pose proof (Z.div_mod k w ltac:(lia)) as Hdm. pose proof (Z.mod_pos_bound k w Hw) as Hm.
  assert (Hkh : k `div` w < h) by (apply Z.div_lt_upper_bound; lia).
  cbn [foldl]. rewrite (IH _ (k + 1) w h).
  - (* the painted area *)
    unfold put_pixel. destruct (advance _ _ _ _ _ _) as [cx cy]; cbn.
    set (n := (Y - p_ys P) * w + (X - p_xs P)).
    destruct (decide (p_xs P <= X < p_xs P + w /\ k + 1 <= n < k + 1 + Z.of_nat (length l)))
      as [Hin|Hout].
    + rewrite decide_True by lia. unfold zlookup. rewrite !decide_True by lia.
      replace (Z.to_nat (n - k)) with (S (Z.to_nat (n - (k + 1)))) by lia. done.
    + destruct (decide (p_xs P <= X < p_xs P + w /\ k <= n < k + Z.of_nat (S (length l))))
        as [Hin|Hout'].
      * assert (n = k) as Hnk by lia. rewrite Hnk, Z.sub_diag.
        assert (X - p_xs P = k `mod` w) by (unfold n in Hnk; subst k;
          rewrite Z.add_comm, Z_mod_plus_full, Z.mod_small; lia).
        assert (Y - p_ys P = k `div` w) by (unfold n in Hnk; nia).
        rewrite Hcx, Hcy. replace (p_xs P + k `mod` w, p_ys P + k `div` w) with (X, Y)
          by (f_equal; lia). by rewrite lookup_insert_eq.
      * rewrite lookup_insert_ne; [done|]. intros [= H1 H2]. apply Hout'.
        rewrite Hcx in H1. rewrite Hcy in H2. subst X Y. unfold n. nia.
  - done.
  - lia.
  - lia.
  - unfold put_pixel. by destruct (advance _ _ _ _ _ _).
  - unfold put_pixel. by destruct (advance _ _ _ _ _ _).
  - intros Hlt. unfold put_pixel, advance. rewrite Hxe, Hye, Hcx, Hcy.
    destruct (Z.ltb_spec (p_xs P + k `mod` w) (p_xs P + w - 1)); cbn.
    + assert ((k + 1) `mod` w = k `mod` w + 1 /\ (k + 1) `div` w = k `div` w) as [-> ->].
      { split; symmetry; [apply Zmod_unique with (k `div` w)|
          apply Z.div_unique with (k `mod` w + 1)]; lia. }
      lia.
    + assert ((k + 1) `mod` w = 0 /\ (k + 1) `div` w = k `div` w + 1) as [-> ->].
      { split; symmetry; [apply Zmod_unique with (k `div` w + 1)|
          apply Z.div_unique with 0]; lia. }
      destruct (Z.ltb_spec (p_ys P + k `div` w) (p_ys P + h - 1)); cbn; nia.
Qed.

Definition with_dc (P : panel) : panel :=
  mkPanel (p_cs P) true (p_cmd P) (p_args P) (p_xs P) (p_xe P) (p_ys P) (p_ye P)
    (p_cx P) (p_cy P) (p_hi P) (p_gram P).

(** A selected panel inside a RAMWR, at a pixel boundary. *)
Record filling (P : panel) : Prop := {
  fl_cs : p_cs P = false;
  fl_cmd : p_cmd P = 0x2c;
  fl_hi : p_hi P = None }.

Lemma filling_put P c : filling P -> filling (put_pixel P c).
Proof. intros [H1 H2 _]. split; unfold put_pixel; by destruct (advance _ _ _ _ _ _). Qed.

Lemma filling_dc P : filling P -> filling (with_dc P).
Proof. intros [H1 H2 H3]. by split. Qed.

Lemma with_dc_put P c : with_dc (put_pixel P c) = put_pixel (with_dc P) c.
Proof. unfold put_pixel. cbn. by destruct (advance _ _ _ _ _ _). Qed.

Lemma with_dc_idem P : with_dc (with_dc P) = with_dc P.
Proof. done. Qed.

Lemma lo8_land c : u8 (c .& 0xFF) = lo8 c.
Proof. unfold lo8, u8. change 0xFF with (Z.ones 8). rewrite Z.land_ones by lia. zlia. Qed.

Lemma spi_color_run P c :
  filling P -> p_dc P = true -> 0 <= c < 65536 ->
  panel_run (spi_send (color_bytes c) 2) P = put_pixel P c.
Proof.
  intros [H1 H2 H3] Hdc Hc. unfold color_bytes. rewrite lo8_land. fold (hi8 c).
  rewrite <- (be16_hi_lo c Hc) at 3. destruct P; cbn in *; subst.
  reflexivity.
Qed.

Lemma WriteData_color_run P c :
  filling P -> 0 <= c < 65536 ->
  panel_run (WriteData (color_bytes c) 2) P = put_pixel (with_dc P) c.
Proof.
  intros Hf Hc. unfold WriteData. rewrite panel_run_app.
  change (panel_run LCD_DC_HIGH P) with (with_dc P).
  apply spi_color_run; [by apply filling_dc|done|done].
Qed.

(** A run of pixels, sent either way, fills the window. *)
Lemma pixels_run (send : Z -> trace) l : forall P,
  (forall P c, filling P -> p_dc P = true -> 0 <= c < 65536 ->
     panel_run (send c) P = put_pixel P c) ->
  filling P -> p_dc P = true -> Forall (fun c => 0 <= c < 65536) l ->
  panel_run (concat (send <$> l)) P = foldl put_pixel P l.
Proof.
  induction l as [|c l IH]; intros P Hs Hf Hdc Hl; [done|].
  apply Forall_cons in Hl as [Hc Hl].
  rewrite fmap_cons. cbn [concat foldl]. rewrite panel_run_app, Hs by done.
  apply IH; [done|by apply filling_put| |done].
  unfold put_pixel. by destruct (advance _ _ _ _ _ _).
Qed.

Lemma foldl_with_dc l P : foldl put_pixel (with_dc P) l = with_dc (foldl put_pixel P l).
Proof. revert P. induction l as [|c l IH]; intros P; [done|]. cbn. by rewrite <- with_dc_put. Qed.

Lemma foldl_with_dc_gram l P :
  p_gram (foldl put_pixel (with_dc P) l) = p_gram (foldl put_pixel P l).
Proof. by rewrite foldl_with_dc. Qed.

Lemma put_pixel_dc P c : p_dc (put_pixel P c) = p_dc P.
Proof. unfold put_pixel. by destruct (advance _ _ _ _ _ _). Qed.

Lemma WriteData_pixels_gram l P :
  filling P -> Forall (fun c => 0 <= c < 65536) l ->
  p_gram (panel_run (concat ((fun c => WriteData (color_bytes c) 2) <$> l)) P) =
  p_gram (foldl put_pixel P l).
Proof.
  intros Hf Hl. destruct l as [|c l]; [done|]. apply Forall_cons in Hl as [Hc Hl].
  rewrite fmap_cons. cbn [concat foldl]. rewrite panel_run_app, WriteData_color_run by done.
  rewrite (pixels_run (fun c => WriteData (color_bytes c) 2)); [| |by apply filling_put, filling_dc| |done].
  - by rewrite <- with_dc_put, foldl_with_dc_gram.
  - intros Q d HQ Hdc Hd. rewrite WriteData_color_run by done. f_equal.
    destruct Q; cbn in *; by subst.
  - by rewrite put_pixel_dc.
Qed.

(** ** The screen *)

(** What the panel shows, in the driver's coordinates: the visible rows of the
    module start at row 20 of the controller's memory. *)
Definition screen : Type := Z -> Z -> option Z.
Definition screen_of (P : panel) : screen := fun X Y => p_gram P !! (X, Y + 20).

Definition inside (x y w h X Y : Z) : Prop := x <= X < x + w /\ y <= Y < y + h.
#[export] Instance inside_dec x y w h X Y : Decision (inside x y w h X Y).
Proof. unfold inside. apply _. Defined.

(** Paint the picture [pix], indexed by column and row, on a rectangle. *)
Definition paint (x y w h : Z) (pix : Z -> Z -> Z) (s : screen) : screen :=
  fun X Y => if decide (inside x y w h X Y) then Some (pix (X - x) (Y - y)) else s X Y.

(** Two screens are the same when every pixel is. *)
Definition screen_eq (s1 s2 : screen) : Prop := forall X Y, s1 X Y = s2 X Y.
#[export] Instance screen_equiv : Equiv screen := screen_eq.
#[export] Instance screen_equivalence : Equivalence (≡@{screen}).
Proof.
  split.
  - by intros s X Y.
  - intros s1 s2 H X Y. by rewrite (H X Y).
  - intros s1 s2 s3 H1 H2 X Y. by rewrite (H1 X Y), (H2 X Y).
Qed.
#[export] Instance paint_proper x y w h pix :
  Proper ((≡) ==> (≡)) (paint x y w h pix).
Proof. intros s1 s2 H X Y. unfold paint. case_decide; [done|apply H]. Qed.

(** The grid of pixels of a rectangle, row by row. *)
Definition grid (w h : Z) (pix : Z -> Z -> Z) : list Z :=
  concat ((fun j => (fun i => pix i j) <$> seqZ 0 w) <$> seqZ 0 h).

Lemma grid_length w h pix : 0 <= w -> 0 <= h -> Z.of_nat (length (grid w h pix)) = w * h.
Proof.
  intros. unfold grid. rewrite (length_concat_const (Z.to_nat w)).
  - rewrite length_fmap, length_seqZ. lia.
  - apply Forall_fmap, Forall_true. intros j. cbn. by rewrite length_fmap, length_seqZ.
Qed.

Lemma grid_lookup w h pix i j :
  0 <= i < w -> 0 <= j < h -> grid w h pix !!z (j * w + i) = Some (pix i j).
Proof.
  intros Hi Hj. unfold grid, zlookup. rewrite decide_True by nia.
  replace (Z.to_nat (j * w + i)) with (Z.to_nat j * Z.to_nat w + Z.to_nat i)%nat by nia.
  rewrite (lookup_concat_rows (Z.to_nat w)).
  - rewrite list_lookup_fmap, lookup_seqZ_lt by lia. cbn.
    rewrite list_lookup_fmap, lookup_seqZ_lt by lia. cbn. do 2 f_equal; lia.
  - apply Forall_fmap, Forall_true. intros k. cbn. by rewrite length_fmap, length_seqZ.
  - lia.
Qed.

Lemma grid_range w h pix (R : Z -> Prop) :
  (forall i j, 0 <= i < w -> 0 <= j < h -> R (pix i j)) -> Forall R (grid w h pix).
Proof.
  intros H. apply Forall_concat, Forall_fmap, Forall_forall. intros j Hj. cbn.
  apply Forall_fmap, Forall_forall. intros i Hi. cbn. apply elem_of_seqZ in Hi, Hj. apply H; lia.
Qed.

(** Filling a freshly opened window with a grid paints it. *)
Lemma grid_fill P x y w h pix :
  0 < w -> 0 < h -> p_xs P = x -> p_xe P = x + w - 1 ->
  p_ys P = y + 20 -> p_ye P = y + h - 1 + 20 -> p_cx P = x -> p_cy P = y + 20 ->
  screen_of (foldl put_pixel P (grid w h pix)) ≡ paint x y w h pix (screen_of P).
Proof.
  intros Hw Hh Hxs Hxe Hys Hye Hcx Hcy X Y. unfold screen_of, paint.
  rewrite (foldl_put_gram _ P 0 w h); [|lia|lia|rewrite grid_length; lia|lia|lia|].
  2:{ intros _. rewrite Z.mod_0_l, Z.div_0_l by lia. lia. }
  cbn zeta. rewrite grid_length, Hxs, Hys, Z.sub_0_r by lia.
  replace (Y + 20 - (y + 20)) with (Y - y) by lia. unfold inside.
  destruct (decide (x <= X < x + w /\ y <= Y < y + h)) as [[HX HY]|Hout].
  - rewrite decide_True by nia. by rewrite grid_lookup by lia.
  - rewrite decide_False; [done|nia].
Qed.

(** ** Rectangles *)

Lemma window_open_filling P x y x2 y2 :
  filling (panel_run (LCD_CS_LOW ++ LCD_DC_HIGH) (window_open P x y x2 y2)).
Proof. by split. Qed.

Lemma const_grid w h c : 0 <= w -> 0 <= h ->
  grid w h (fun _ _ => c) = concat (replicate (Z.to_nat h) (replicate (Z.to_nat w) c)).
Proof.
  intros Hw Hh. unfold grid. f_equal.
  rewrite (const_fmap (fun _ => _) _ (replicate (Z.to_nat w) c)), length_seqZ; [done|].
  intros j. by rewrite (const_fmap (fun _ => c) _ c), length_seqZ.
Qed.

Lemma concat_fmap_concat {A B} (f : A -> list B) (ls : list (list A)) :
  concat (f <$> concat ls) = concat ((fun l => concat (f <$> l)) <$> ls).
Proof.
  induction ls as [|l ls IH]; [done|].
  rewrite fmap_cons. cbn [concat]. by rewrite fmap_app, concat_app, IH.
Qed.

(** The pixels [FillRectangle] sends are the grid of the constant picture. *)
Lemma FillRectangle_pixels w h c : 0 <= w -> 0 <= h ->
  concat (replicate (Z.to_nat h)
    (concat (replicate (Z.to_nat w) (spi_send (color_bytes c) 2)))) =
  concat ((fun c => spi_send (color_bytes c) 2) <$> grid w h (fun _ _ => c)).
Proof.
  intros Hw Hh. rewrite const_grid by done.
  by rewrite concat_fmap_concat, fmap_replicate, fmap_replicate.
Qed.

(** A window that holds no pixel, or a picture of no pixel. *)
Lemma paint_empty x y w h pix s : w <= 0 \/ h <= 0 -> paint x y w h pix s ≡ s.
Proof. intros H X Y. unfold paint, inside. rewrite decide_False; [done|lia]. Qed.

(** Open a window, select the panel, send a grid: the common body of the
    drawing routines. *)
Lemma fill_window P x y w h pix (pixels : trace) Q :
  0 <= x < 65536 -> 0 <= w -> 0 <= h -> 0 <= y ->
  x + w <= 65536 -> y + h + 20 <= 65536 ->
  (forall i j, 0 <= i < w -> 0 <= j < h -> 0 <= pix i j < 65536) ->
  Q = window_open P x (u16 (y + 20)) (u16 (x + w - 1)) (u16 (u16 (y + h - 1) + 20)) ->
  (forall R, filling R ->
     p_gram (panel_run pixels R) = p_gram (foldl put_pixel R (grid w h pix))) ->
  screen_of (panel_run pixels (panel_run LCD_CS_LOW Q)) ≡
  paint x y w h pix (screen_of P).
Proof.
  intros Hx Hw Hh Hy Hxw Hyh Hpix HQ Hsend.
  assert (Hfill : filling (panel_run LCD_CS_LOW Q)) by (subst Q; by split).
  intros X Y. unfold screen_of at 1. rewrite (Hsend _ Hfill).
  destruct (decide (w = 0 \/ h = 0)) as [He|Hne].
  - rewrite paint_empty by lia. subst Q.
    assert (grid w h pix = []) as ->; [|done].
    apply length_zero_iff_nil, Nat2Z.inj. rewrite grid_length; lia.
  - pose proof (grid_fill (panel_run LCD_CS_LOW Q) x y w h pix) as G.
    subst Q. apply G; cbn; rewrite ?(u16_small (y + h - 1)), ?u16_small; lia.
Qed.

(** [FillRectangle] clips the rectangle to the screen and the bytes it sends
    to the panel give every pixel of the clipped rectangle the color and leave
    every other pixel what it was. *)
Theorem FillRectangle_paints P x y w h c :
  0 <= x < ST7789_WIDTH -> 0 <= y < ST7789_HEIGHT ->
  0 <= w < 65536 -> 0 <= h < 65536 -> 0 <= c < 65536 ->
  screen_of (panel_run (FillRectangle x y w h c) P) ≡
  paint x y (Z.min w (ST7789_WIDTH - x)) (Z.min h (ST7789_HEIGHT - y)) (fun _ _ => c)
    (screen_of P).
Proof.
  unfold ST7789_WIDTH, ST7789_HEIGHT. intros Hx Hy Hw Hh Hc. unfold FillRectangle.
  unfold ST7789_WIDTH, ST7789_HEIGHT. rewrite !Z.geb_leb.
  rewrite (proj2 (Z.leb_gt _ _)), (proj2 (Z.leb_gt _ _)) by lia. cbn [orb].
  set (w' := if 240 <=? x + w - 1 then u16 (240 - x) else w).
  set (h' := if 280 <=? y + h - 1 then u16 (280 - y) else h).
  assert (w' = Z.min w (240 - x)) as Ew
    by (unfold w'; case_Z; rewrite ?u16_small; lia).
  assert (h' = Z.min h (280 - y)) as Eh
    by (unfold h'; case_Z; rewrite ?u16_small; lia).
  rewrite <- Ew, <- Eh. clearbody w' h'.
  rewrite !app_assoc, 2!panel_run_app.
  intros X Y. etransitivity; [|apply (fill_window P x y w' h' (fun _ _ => c)
    (LCD_DC_HIGH ++ concat (replicate (Z.to_nat h')
      (concat (replicate (Z.to_nat w') (spi_send (color_bytes c) 2)))))
    (panel_run (LCD_SetWindows x y (u16 (x + w' - 1)) (u16 (y + h' - 1))) P))]; try lia.
  - rewrite <- !app_assoc, !panel_run_app. done.
  - apply LCD_SetWindows_run; [lia|apply u16_range].
  - intros R HR. rewrite FillRectangle_pixels, panel_run_app by lia.
    change (panel_run LCD_DC_HIGH R) with (with_dc R).
    rewrite (pixels_run (fun c => spi_send (color_bytes c) 2)).
    + rewrite <- (foldl_with_dc_gram (grid w' h' (fun _ _ => c)) R). done.
    + intros. by apply spi_color_run.
    + by apply filling_dc.
    + done.
    + by apply grid_range.
Qed.

(** ** Characters *)

(** The picture of a character: bit [15 - i] of row [j] of its glyph. *)
Definition glyph (font : FontDef) (ch color bgcolor i j : Z) : Z :=
  match data font !!z ((ch - 32) * height font + j) with
  | Some b => if Z.testbit b (15 - i) then color else bgcolor
  | None => bgcolor
  end.

Lemma glyph_bit_testbit b j : 0 <= j -> glyph_bit b j = Z.testbit b (15 - j).
Proof.
  intros Hj. unfold glyph_bit. change 0x8000 with (2 ^ 15).
  rewrite land_bit, negb_involutive, u32_testbit by lia. by rewrite Z.shiftl_spec by lia.
Qed.

Lemma glyph_range font ch color bg i j :
  0 <= color < 65536 -> 0 <= bg < 65536 -> 0 <= glyph font ch color bg i j < 65536.
Proof. intros. unfold glyph. destruct (_ !!z _); [|done]. by destruct (Z.testbit _ _). Qed.

(** The row loop of [WriteChar] sends row [j] of the picture. *)
Lemma WriteChar_row_pixels font ch color bg j b :
  data font !!z ((ch - 32) * height font + j) = Some b ->
  WriteChar_row b font color bg =
  concat ((fun c => WriteData (color_bytes c) 2) <$>
          ((fun i => glyph font ch color bg i j) <$> seqZ 0 (width font))).
Proof.
  intros Hb. unfold WriteChar_row. f_equal. rewrite <- list_fmap_compose.
  apply list_fmap_ext. intros k i Hk. cbn. apply lookup_seqZ in Hk as [-> Hk].
  unfold glyph. rewrite Hb, glyph_bit_testbit by lia. by destruct (Z.testbit _ _).
Qed.

(** [WriteChar] of a covered character sends the grid of its picture. *)
Lemma WriteChar_trace x y ch font color bg :
  font_wf font -> covers font ch = true -> ch < 256 ->
  WriteChar x y ch font color bg =
  Some (LCD_SetWindows x y (u16 (x + width font - 1)) (u16 (y + height font - 1)) ++
        LCD_CS_LOW ++
        concat ((fun c => WriteData (color_bytes c) 2) <$>
                grid (width font) (height font) (glyph font ch color bg))).
Proof.
  intros Hwf Hcov Hch. unfold WriteChar, grid. rewrite concat_fmap_concat.
  rewrite <- list_fmap_compose.
  rewrite (mapM_fmap_ext _ (fun j => concat ((fun c => WriteData (color_bytes c) 2) <$>
    ((fun i => glyph font ch color bg i j) <$> seqZ 0 (width font))))); [done|].
  intros j Hj. apply elem_of_seqZ in Hj.
  destruct (glyph_row_lookup font ch j Hwf Hcov ltac:(lia)) as (b & Hb & _).
  rewrite glyph_row_u32 by (done || lia). rewrite Hb. cbn.
  by rewrite (WriteChar_row_pixels font ch color bg j b Hb).
Qed.

Lemma WriteChar_paints_grid P x y ch font color bg :
  font_wf font -> 0 <= x -> x + width font <= 65536 ->
  0 <= y -> y + height font + 20 <= 65536 ->
  0 <= color < 65536 -> 0 <= bg < 65536 ->
  screen_of (panel_run (LCD_SetWindows x y (u16 (x + width font - 1)) (u16 (y + height font - 1)) ++
     LCD_CS_LOW ++ concat ((fun c => WriteData (color_bytes c) 2) <$>
       grid (width font) (height font) (glyph font ch color bg))) P)
  ≡ paint x y (width font) (height font) (glyph font ch color bg) (screen_of P).
Proof.
  intros Hwf Hx Hxw Hy Hyh Hc Hb. pose proof (fw_width font Hwf).
  pose proof (fw_height font Hwf). rewrite !panel_run_app.
  apply fill_window; try lia.
  - intros. by apply glyph_range.
  - apply LCD_SetWindows_run; [lia|apply u16_range].
  - intros R HR. apply WriteData_pixels_gram; [done|].
    apply grid_range. intros. by apply glyph_range.
Qed.

(** ** Strings *)

(** Where the string routines put their characters: the specification of
    [print_loop], free of bytes and windows. *)
Fixpoint layout (sp : Z -> option Z) (font : FontDef) (i x y : Z) (str : list Z)
    : list (Z * Z * Z) :=
  match str with
  | [] => []
  | c :: str =>
      match wrap font x y c with
      | WBreak => []
      | WSkip x y => layout sp font i x y str
      | WDraw x y =>
          if c =? 10 then layout sp font i x y str else
          match (if c =? 32 then sp i else Some i) with
          | None => []
          | Some i => (x, y, c) :: layout sp font i (u16 (x + width font)) y str
          end
      end
  end.

Definition printable (font : FontDef) (c : Z) : Prop :=
  c = 10 \/ (covers font c = true /\ c < 256).

Definition char_trace (font : FontDef) (color bg : Z) (p : Z * Z * Z) : trace :=
  let '(x, y, ch) := p in
  LCD_SetWindows x y (u16 (x + width font - 1)) (u16 (y + height font - 1)) ++
  LCD_CS_LOW ++
  concat ((fun c => WriteData (color_bytes c) 2) <$>
          grid (width font) (height font) (glyph font ch color bg)).

Definition paint_char (font : FontDef) (color bg : Z) (s : screen) (p : Z * Z * Z) : screen :=
  let '(x, y, ch) := p in
  paint x y (width font) (height font) (glyph font ch color bg) s.

Definition on_screen (font : FontDef) (p : Z * Z * Z) : Prop :=
  let '(x, y, _) := p in
  0 <= x /\ x + width font <= ST7789_WIDTH /\ 0 <= y /\ y + height font <= ST7789_HEIGHT.

(** What [wrap] can answer, in one place. *)
Lemma wrap_cases font x y c :
  (wrap font x y c = WDraw x y /\ x + width font < ST7789_WIDTH) \/
  (ST7789_WIDTH <= x + width font /\
   let y' := u16 (y + height font) in
   (wrap font x y c = WBreak /\ ST7789_HEIGHT <= y' + height font) \/
   (y' + height font < ST7789_HEIGHT /\
    ((wrap font x y c = WSkip 0 y' /\ c = 32) \/
     (wrap font x y c = WDraw 0 y' /\ c <> 32)))).
Proof. unfold wrap. cbn zeta. case_Zs; eauto 10 with lia. Qed.

Lemma print_loop_layout sp font color bg str : font_wf font ->
  Forall (printable font) str -> forall i x y,
  print_loop sp font color bg i x y str =
  Some (concat (char_trace font color bg <$> layout sp font i x y str)).
Proof.
  intros Hwf. induction 1 as [|c str Hc Hstr IH]; intros i x y; [done|]. cbn.
  destruct (wrap font x y c) as [|x' y'|x' y']; [done|by apply IH|].
  destruct (Z.eqb_spec c 10) as [|Hne]; [by apply IH|].
  destruct (if c =? 32 then sp i else Some i) as [i'|]; [|done].
  destruct Hc as [|[Hcov Hlt]]; [done|].
  rewrite WriteChar_trace by done. cbn. by rewrite IH.
Qed.

(** Every character the routines draw lies wholly on the screen, whatever the
    string and the starting column, when the first line does. *)
Lemma layout_on_screen sp font str : font_wf font -> forall i x y,
  0 <= x < 65536 -> 0 <= y -> y + height font <= ST7789_HEIGHT ->
  Forall (on_screen font) (layout sp font i x y str).
Proof.
  intros Hwf. pose proof (fw_width font Hwf) as Hw. pose proof (fw_height font Hwf) as Hh.
  unfold on_screen, ST7789_WIDTH, ST7789_HEIGHT.
  induction str as [|c str IH]; intros i x y Hx Hy Hyh; [constructor|].
  assert (Hyu : u16 (y + height font) = y + height font) by (apply u16_small; lia).
  destruct (wrap_cases font x y c) as [[E ?]|[? [[E ?]|[? [[E ?]|[E ?]]]]]];
    unfold ST7789_WIDTH, ST7789_HEIGHT in *; cbn [layout]; rewrite E.
  - destruct (c =? 10); [apply IH; lia|].
    destruct (if c =? 32 then sp i else Some i); [|constructor].
    constructor; [lia|]. apply IH; [apply u16_range|lia|lia].
  - constructor.
  - apply IH; lia.
  - destruct (c =? 10); [apply IH; lia|].
    destruct (if c =? 32 then sp i else Some i); [|constructor].
    constructor; [lia|]. apply IH; [apply u16_range|lia|lia].
Qed.

Lemma paint_char_proper font color bg p :
  Proper ((≡) ==> (≡)) (fun s => paint_char font color bg s p).
Proof. intros s1 s2 H. destruct p as [[x y] c]. cbn. by rewrite H. Qed.

Lemma foldl_paint_proper font color bg l :
  Proper ((≡) ==> (≡)) (fun s => foldl (paint_char font color bg) s l).
Proof.
  induction l as [|p l IH]; intros s1 s2 H; [done|]. cbn. apply IH.
  by apply paint_char_proper.
Qed.
#[export] Existing Instances paint_char_proper foldl_paint_proper.

(** Drawing a list of placed characters paints them in order. *)
Lemma char_traces_paint font color bg l : forall P,
  font_wf font -> 0 <= color < 65536 -> 0 <= bg < 65536 ->
  Forall (on_screen font) l ->
  screen_of (panel_run (concat (char_trace font color bg <$> l)) P)
  ≡ foldl (paint_char font color bg) (screen_of P) l.
Proof.
  induction l as [|[[x y] c] l IH]; intros P Hwf Hc Hb Hl; [done|].
  apply Forall_cons in Hl as [Hp Hl]. unfold on_screen, ST7789_WIDTH, ST7789_HEIGHT in Hp.
  pose proof (fw_width font Hwf). pose proof (fw_height font Hwf).
  rewrite fmap_cons. cbn [concat foldl]. rewrite panel_run_app.
  rewrite (IH _ Hwf Hc Hb Hl). apply foldl_paint_proper.
  apply WriteChar_paints_grid; (done || lia).
Qed.

(** The pin events around a string do not touch the screen. *)
Lemma screen_of_pin P p l : screen_of (panel_step P (Pin p l)) ≡ screen_of P.
Proof. by destruct p. Qed.

(** The three string routines are [print_loop] between two pin writes. *)
Lemma print_loop_paints sp font color bg x y str P :
  font_wf font -> Forall (printable font) str ->
  0 <= color < 65536 -> 0 <= bg < 65536 ->
  0 <= x < 65536 -> 0 <= y -> y + height font <= ST7789_HEIGHT ->
  exists t, print_loop sp font color bg 0 x y str = Some t /\
  screen_of (panel_run (LCD_CS_LOW ++ t ++ LCD_CS_HIGH) P)
  ≡ foldl (paint_char font color bg) (screen_of P) (layout sp font 0 x y str).
Proof.
  intros Hwf Hstr Hc Hb Hx Hy Hyh.
  eexists. split; [by apply print_loop_layout|].
  rewrite !panel_run_app. cbn [panel_run foldl LCD_CS_HIGH LCD_CS_LOW].
  rewrite screen_of_pin. change (foldl panel_step ?P ?t) with (panel_run t P).
  rewrite char_traces_paint; [|done..|by apply layout_on_screen].
  apply foldl_paint_proper, screen_of_pin.
Qed.

(** A line that fits is laid out left to right in one row. *)
Fixpoint placed (font : FontDef) (x y : Z) (str : list Z) : list (Z * Z * Z) :=
  match str with
  | [] => []
  | c :: str => (x, y, c) :: placed font (x + width font) y str
  end.

Lemma layout_fits sp font str rest : font_wf font -> forall i x y,
  0 <= x -> x + Z.of_nat (length str) * width font < ST7789_WIDTH ->
  Forall (fun c => c <> 10 /\ c <> 32) str ->
  layout sp font i x y (str ++ rest) =
  placed font x y str ++
  layout sp font i (x + Z.of_nat (length str) * width font) y rest.
Proof.
  intros Hwf. pose proof (fw_width font Hwf) as Hw. unfold ST7789_WIDTH.
  induction str as [|c str IH]; intros i x y Hx Hfit Hstr.
  { cbn. f_equal. lia. }
  cbn [length] in Hfit. apply Forall_cons in Hstr as [[Hnl Hsp] Hstr].
  destruct (wrap_cases font x y c) as [[E ?]|[? ?]]; [|unfold ST7789_WIDTH in *; nia].
  cbn [app layout placed length]. rewrite E.
  rewrite (proj2 (Z.eqb_neq c 10)), (proj2 (Z.eqb_neq c 32)) by done.
  rewrite u16_small by nia. cbn [app]. f_equal.
  rewrite IH by (done || nia). do 2 f_equal. nia.
Qed.

(** ** What the drawing routines leave on the screen *)

(** Characters that lie on the screen change nothing outside it. *)
Lemma foldl_paint_outside font color bg l : forall s X Y,
  Forall (on_screen font) l -> ~ inside 0 0 ST7789_WIDTH ST7789_HEIGHT X Y ->
  foldl (paint_char font color bg) s l X Y = s X Y.
Proof.
  induction l as [|[[x y] c] l IH]; intros s X Y Hl Hout; [done|].
  apply Forall_cons in Hl as [Hp Hl]. cbn [foldl]. rewrite IH by done.
  unfold paint_char, paint. rewrite decide_False; [done|].
  unfold on_screen, inside in *. lia.
Qed.

(** [DrawPixel] sets exactly the pixel it is given. *)
Lemma DrawPixel_paints P x y c :
  0 <= x < ST7789_WIDTH -> 0 <= y < ST7789_HEIGHT -> 0 <= c < 65536 ->
  screen_of (panel_run (DrawPixel x y c) P) ≡ paint x y 1 1 (fun _ _ => c) (screen_of P).
Proof.
  unfold ST7789_WIDTH, ST7789_HEIGHT. intros Hx Hy Hc. unfold DrawPixel.
  unfold ST7789_WIDTH, ST7789_HEIGHT. rewrite !Z.geb_leb.
  rewrite (proj2 (Z.leb_gt _ _)), (proj2 (Z.leb_gt _ _)) by lia. cbn [orb].
  rewrite !app_assoc, panel_run_app. rewrite <- !app_assoc, 2!panel_run_app.
  change (panel_run LCD_CS_HIGH ?R) with (panel_step R (Pin CS true)). rewrite screen_of_pin.
  intros X Y. apply (fill_window P x y 1 1 (fun _ _ => c)); try lia.
  - rewrite LCD_SetWindows_run by lia. f_equal;
      rewrite ?(u16_small (y + 1 - 1)), ?u16_small by lia; lia.
  - intros R HR. change (grid 1 1 (fun _ _ => c)) with [c].
    rewrite <- (WriteData_pixels_gram [c] R HR) by (by apply Forall_cons_2; [|apply Forall_nil_2]).
    cbn [fmap list_fmap concat]. by rewrite app_nil_r.
Qed.

(** [WriteChar] of a character the font has reads only rows of its table and
    paints the glyph, foreground and background, on its rectangle and nowhere
    else. *)
Theorem WriteChar_paints P x y ch font color bg :
  font_wf font -> covers font ch = true -> ch < 256 ->
  0 <= x -> x + width font <= 65536 -> 0 <= y -> y + height font + 20 <= 65536 ->
  0 <= color < 65536 -> 0 <= bg < 65536 ->
  exists t, WriteChar x y ch font color bg = Some t /\
    screen_of (panel_run t P) ≡
    paint x y (width font) (height font) (glyph font ch color bg) (screen_of P).
Proof.
  intros Hwf Hcov Hch Hx Hxw Hy Hyh Hc Hb. eexists. split; [by apply WriteChar_trace|].
  by apply WriteChar_paints_grid.
Qed.

(** [WriteString] terminates for every string the font can print, places its
    characters by the wrapping rule of [layout], paints them in order, and
    stays on the screen: no character is cut by an edge and no pixel outside
    is touched, however long the string is. *)
Theorem WriteString_paints font color bg x y str P :
  font_wf font -> Forall (printable font) str ->
  0 <= color < 65536 -> 0 <= bg < 65536 ->
  0 <= x < 65536 -> 0 <= y -> y + height font <= ST7789_HEIGHT ->
  exists t, WriteString x y str font color bg = Some t /\
    screen_of (panel_run t P) ≡
      foldl (paint_char font color bg) (screen_of P) (layout sp_string font 0 x y str) /\
    Forall (on_screen font) (layout sp_string font 0 x y str) /\
    forall X Y, ~ inside 0 0 ST7789_WIDTH ST7789_HEIGHT X Y ->
      screen_of (panel_run t P) X Y = screen_of P X Y.
Proof.
  intros Hwf Hstr Hc Hb Hx Hy Hyh. unfold WriteString.
  destruct (print_loop_paints sp_string font color bg x y str P) as (t & -> & Hp); try done.
  pose proof (layout_on_screen sp_string font str Hwf 0 x y Hx Hy Hyh) as Hon.
  cbn [mbind option_bind]. eexists. split; [done|]. split; [done|]. split; [done|].
  intros X Y Hout. rewrite (Hp X Y). by apply foldl_paint_outside.
Qed.

(** *** At concrete points *)

Lemma printable_check font str :
  forallb (fun c => (c =? 10) || (covers font c && (c <? 256))) str = true ->
  Forall (printable font) str.
Proof.
  rewrite forallb_Forall. intros H. eapply Forall_impl; [exact H|]. intros c Hc%Is_true_true.
  apply orb_true_iff in Hc as [Hc|[Hc H']%andb_true_iff]; [left|right]; [lia|]. split; [done|lia].
Qed.

Definition blank_panel : panel := mkPanel true false 0 [] 0 0 0 0 0 0 None ∅.

Lemma FillRectangle_paints_witness :
  screen_of (panel_run (FillRectangle 200 100 60 7 LCD_DISP_RED) blank_panel) ≡
  paint 200 100 (Z.min 60 40) (Z.min 7 180) (fun _ _ => LCD_DISP_RED) (screen_of blank_panel).
Proof. apply (FillRectangle_paints blank_panel 200 100 60 7 LCD_DISP_RED); vm_compute; intuition discriminate. Defined.

Lemma WriteChar_paints_witness :
  exists t, WriteChar 100 60 65 Font_11x18 LCD_DISP_WHITE LCD_DISP_BLACK = Some t /\
    screen_of (panel_run t blank_panel) ≡
    paint 100 60 11 18 (glyph Font_11x18 65 LCD_DISP_WHITE LCD_DISP_BLACK) (screen_of blank_panel).
Proof.
  apply (WriteChar_paints blank_panel 100 60 65 Font_11x18 LCD_DISP_WHITE LCD_DISP_BLACK);
    try (vm_compute; intuition discriminate). apply Font_11x18_wf.
Defined.

Lemma WriteString_paints_witness : let str := chars "Year is 2022, long enough to wrap" in
  exists t, WriteString 150 60 str Font_11x18 LCD_DISP_WHITE LCD_DISP_BLACK = Some t /\
    screen_of (panel_run t blank_panel) ≡
      foldl (paint_char Font_11x18 LCD_DISP_WHITE LCD_DISP_BLACK) (screen_of blank_panel)
        (layout sp_string Font_11x18 0 150 60 str) /\
    Forall (on_screen Font_11x18) (layout sp_string Font_11x18 0 150 60 str) /\
    forall X Y, ~ inside 0 0 ST7789_WIDTH ST7789_HEIGHT X Y ->
      screen_of (panel_run t blank_panel) X Y = screen_of blank_panel X Y.
Proof.
  cbv zeta. apply (WriteString_paints Font_11x18 LCD_DISP_WHITE LCD_DISP_BLACK 150 60
    (chars "Year is 2022, long enough to wrap") blank_panel); try (vm_compute; intuition discriminate).
  - apply Font_11x18_wf.
  - by apply printable_check.
Defined.
