(* ===== verification/CTime.v ===== *)
(** * CTime: calendar time

    [rt-thread/components/libc/compilers/common/time.c]: conversions between
    the seconds of a [time_t] and calendar fields, and the printed form the
    display shows.  [int] is 32 bits wide, and so is [time_t]: the board is an
    RV32 one and [rtconfig.py] builds with [_USE_LONG_TIME_T], so that it is a
    [long].  C's [/] and [%] are [Z.quot] and [Z.rem].  [None] is undefined
    behaviour: a read outside a table, or a signed result that does not fit its
    32 bits.  The two loops run on fuel, shown sufficient below. *)
From S2P Require Import Prelude.

(** A signed 32-bit result: [None] if it overflows. *)
Definition int32 (z : Z) : option Z := if (-2147483648 <=? z) && (z <? 2147483648) then Some z else None.

Lemma int32_in z : -2147483648 <= z < 2147483648 -> int32 z = Some z.
Proof. intros H. unfold int32. by rewrite (proj2 (Z.leb_le _ _)), (proj2 (Z.ltb_lt _ _)) by lia. Qed.

(** Discharge the overflow checks whose operands are bounded in the context. *)
Ltac int32s := repeat (rewrite int32_in by lia; cbn [mbind option_bind]).

Definition RT_LIBC_FIXED_TIMEZONE : Z := 8.

(** [#define SPD 24*60*60], used as [x % (SPD)] and [x / (SPD)]. *)
Definition SPD : Z := 24 * 60 * 60.

(** Days before each month of a common year. *)
Definition __spm : list Z :=
  [0; 31; 31 + 28; 31 + 28 + 31; 31 + 28 + 31 + 30; 31 + 28 + 31 + 30 + 31;
   31 + 28 + 31 + 30 + 31 + 30; 31 + 28 + 31 + 30 + 31 + 30 + 31;
   31 + 28 + 31 + 30 + 31 + 30 + 31 + 31; 31 + 28 + 31 + 30 + 31 + 30 + 31 + 31 + 30;
   31 + 28 + 31 + 30 + 31 + 30 + 31 + 31 + 30 + 31;
   31 + 28 + 31 + 30 + 31 + 30 + 31 + 31 + 30 + 31 + 30;
   31 + 28 + 31 + 30 + 31 + 30 + 31 + 31 + 30 + 31 + 30 + 31].

Definition days : list Z := chars "Sun Mon Tue Wed Thu Fri Sat ".
Definition months : list Z := chars "Jan Feb Mar Apr May Jun Jul Aug Sep Oct Nov Dec ".

Record tm := mk_tm {
  tm_sec : Z; tm_min : Z; tm_hour : Z; tm_mday : Z; tm_mon : Z; tm_year : Z;
  tm_wday : Z; tm_yday : Z; tm_isdst : Z }.

Definition __isleap (year : Z) : bool :=
  (Z.rem year 4 =? 0) && (negb (Z.rem year 100 =? 0) || (Z.rem year 400 =? 0)).

(** [c[0] = i / 10 + '0'; c[1] = i % 10 + '0';] *)
Definition num2str (i : Z) : list Z := [u8 (Z.quot i 10 + 48); u8 (Z.rem i 10 + 48)].

(** ** Seconds to fields *)

(** [for (i = 1970;; ++i)]: strip whole years off the day count. *)
Fixpoint gm_year (fuel : nat) (i work : Z) : option (Z * Z) :=
  match fuel with
  | O => None
  | S fuel =>
      let k := if __isleap i then 366 else 365 in
      if work >=? k then gm_year fuel (i + 1) (work - k) else Some (i, work)
  end.

(** [for (i = 11; i && (__spm[i] > work); --i);] *)
Fixpoint gm_month (i : nat) (work : Z) : nat :=
  match i with
  | O => O
  | S i' => if __spm !!! i >? work then gm_month i' work else i
  end.

(** Month and day of the month of day [work] of a year. *)
Definition gm_month_day (leap : bool) (work : Z) : nat * Z :=
  let '(mday, work) :=
    if leap && (work >? 58)
    then (if work =? 59 then 2 else 1, work - 1)
    else (1, work) in
  let i := gm_month 11 work in
  (i, mday + work - __spm !!! i).

Definition gm_fuel (work : Z) : nat := S (Z.to_nat (work / 365)).

(** The argument is converted to a [time_t]; with it the year stays below 2039
    and no step overflows, the stores into the [int] fields included. *)
Definition gmtime_r (timep : Z) : option tm :=
  let timep := s32 timep in
  let work := Z.rem timep SPD in
  let sec := Z.rem work 60 in
  let work := Z.quot work 60 in
  let min := Z.rem work 60 in
  let hour := Z.quot work 60 in
  let work := Z.quot timep SPD in
  let wday := Z.rem (4 + work) 7 in
  '(i, work) ← gm_year (gm_fuel work) 1970 work;
  year ← int32 (i - 1900);
  let yday := work in
  let '(mon, mday) := gm_month_day (__isleap i) work in
  Some (mk_tm sec min hour mday (Z.of_nat mon) year wday yday 0).

Definition localtime_r (t : Z) : option tm :=
  local_tz ← int32 (t + RT_LIBC_FIXED_TIMEZONE * 3600);
  gmtime_r local_tz.

(** ** Fields to seconds *)

(** [while (t->tm_mday > __spm[1 + t->tm_mon])]: carry days into months. *)
Fixpoint timegm_carry (fuel : nat) (mday mon year : Z) : option (Z * Z * Z) :=
  match fuel with
  | O => None
  | S fuel =>
      lim ← __spm !!z (1 + mon);
      if mday >? lim then
        mday ← (if mon =? 1 then y ← int32 (year + 1900); int32 (if __isleap y then mday - 1 else mday)
                else Some mday);
        s ← __spm !!z mon;
        mday ← int32 (mday - s);
        let mon := mon + 1 in
        if mon >? 11 then year ← int32 (year + 1); timegm_carry fuel mday 0 year
        else timegm_carry fuel mday mon year
      else Some (mday, mon, year)
  end.

Definition carry_fuel (mday : Z) : nat := (Z.to_nat mday + 3)%nat.

(** Days from 1970 to the start of the year [1970 + years], for [years >= 0]. *)
Definition timegm_days (years : Z) : option Z :=
  y365 ← int32 (years * 365);
  y1 ← int32 (years + 1);
  day ← int32 (y365 + Z.quot y1 4);
  if years >=? 131 then
    let years := years - 131 in
    let years := Z.quot years 100 in
    day ← int32 (day - ((years ≫ 2) * 3 + 1));
    let years := years .& 3 in
    let years := if years =? 3 then years - 1 else years in
    int32 (day - years)
  else Some day.

(** [if (lo > most) { hi += lo / unit; lo %= unit; }]: the fields [hi], [lo]. *)
Definition timegm_norm (most unit hi lo : Z) : option (Z * Z) :=
  if lo >? most then hi ← int32 (hi + Z.quot lo unit); Some (hi, Z.rem lo unit) else Some (hi, lo).

(** The value and the fields [timegm] leaves in its argument. *)
Definition timegm (t : tm) : option (Z * tm) :=
  years ← int32 (tm_year t - 70);
  '(min, sec) ← timegm_norm 60 60 (tm_min t) (tm_sec t);
  '(hour, min) ← timegm_norm 60 60 (tm_hour t) min;
  '(mday, hour) ← timegm_norm 24 24 (tm_mday t) hour;
  '(year, mon) ← timegm_norm 12 12 (tm_year t) (tm_mon t);
  '(mday, mon, year) ← timegm_carry (carry_fuel mday) mday mon year;
  if year <? 70
  then Some (-1, mk_tm sec min hour mday mon year (tm_wday t) (tm_yday t) (tm_isdst t))
  else
    day ← timegm_days years;
    s ← __spm !!z mon;
    yday ← int32 (s + mday);
    yday ← int32 (yday - 1);
    y ← int32 (year + 1900);
    yday ← int32 (yday + (if __isleap y && (mon >? 1) then 1 else 0));
    day ← int32 (day + yday);
    day4 ← int32 (day + 4);
    let wday := Z.rem day4 7 in
    day ← int32 (day * 24);
    hours ← int32 (day + hour);
    hours ← int32 (hours * 60);
    minutes ← int32 (hours + min);
    minutes ← int32 (minutes * 60);
    seconds ← int32 (minutes + sec);
    Some (seconds, mk_tm sec min hour mday mon year wday yday (tm_isdst t)).

Definition mktime (t : tm) : option (Z * tm) :=
  '(timestamp, t) ← timegm t;
  timestamp ← int32 (timestamp - 3600 * RT_LIBC_FIXED_TIMEZONE);
  Some (timestamp, t).

(** ** Printing *)

(** The four bytes of a name table at [i << 2]. *)
Definition name4 (tbl : list Z) (i : Z) : option (list Z) :=
  mapM (fun k => tbl !!z ((i ≪ 2) + k)) [0; 1; 2; 3].

(** The 26 bytes of [buf]: "Wed Jun 30 21:49:08 1993\n" and the NUL. *)
Definition asctime_r (t : tm) : option (list Z) :=
  d ← name4 days (tm_wday t);
  m ← name4 months (tm_mon t);
  let mday := num2str (tm_mday t) in
  let mday := match mday with c :: r => (if c =? 48 then 32 else c) :: r | [] => [] end in
  Some (d ++ m ++ mday ++ [32] ++ num2str (tm_hour t) ++ [58] ++ num2str (tm_min t) ++
        [58] ++ num2str (tm_sec t) ++ [32] ++
        num2str (Z.quot (tm_year t + 1900) 100) ++ num2str (Z.rem (tm_year t + 1900) 100) ++
        [10; 0]).

Definition ctime_r (t : Z) : option (list Z) := r ← localtime_r t; asctime_r r.

(** ** The calendar the code implements

    [year_start y] is the number of days from 1970-01-01 to the first day of
    year [y] in the Gregorian calendar; a civil date is a year, a month and a
    day that exists in it. *)

Definition leap_len (leap : bool) : Z := if leap then 366 else 365.
Definition year_len (y : Z) : Z := leap_len (__isleap y).
Definition year_start (y : Z) : Z :=
  365 * (y - 1970) + ((y - 1) / 4 - (y - 1) / 100 + (y - 1) / 400 - 477).

Definition month_start (leap : bool) (m : nat) : Z :=
  __spm !!! m + (if leap && (1 <? Z.of_nat m) then 1 else 0).
Definition month_len (leap : bool) (m : nat) : Z :=
  [31; if leap then 29 else 28; 31; 30; 31; 30; 31; 31; 30; 31; 30; 31] !!! m.

(** Fields that denote a moment on the calendar. *)
Record tm_valid (t : tm) : Prop := {
  tv_sec : 0 <= tm_sec t < 60;
  tv_min : 0 <= tm_min t < 60;
  tv_hour : 0 <= tm_hour t < 24;
  tv_mon : 0 <= tm_mon t < 12;
  tv_mday : 1 <= tm_mday t <= month_len (__isleap (tm_year t + 1900)) (Z.to_nat (tm_mon t));
  tv_year : 70 <= tm_year t }.

(** The seconds from 1970 of the fields of [t]; the month may hold any number
    of days. *)
Definition tm_seconds (t : tm) : Z :=
  ((year_start (tm_year t + 1900) +
    (month_start (__isleap (tm_year t + 1900)) (Z.to_nat (tm_mon t)) + tm_mday t - 1)) * 24
   + tm_hour t) * 3600 + tm_min t * 60 + tm_sec t.

Lemma isleap_mod y : 0 <= y ->
  __isleap y = (y `mod` 4 =? 0) && (negb (y `mod` 100 =? 0) || (y `mod` 400 =? 0)).
Proof. intros. unfold __isleap. by rewrite !Z.rem_mod_nonneg by lia. Qed.

Lemma div_pred_step k y : 0 < k ->
  y / k - (y - 1) / k = if y `mod` k =? 0 then 1 else 0.
Proof.
  intros Hk. pose proof (Z.div_mod y k ltac:(lia)) as Hdm.
  pose proof (Z.mod_pos_bound y k Hk) as Hm.
  destruct (Z.eqb_spec (y `mod` k) 0) as [E|E].
  - rewrite <- (Z.div_unique (y - 1) k (y / k - 1) (k - 1)); lia.
  - rewrite <- (Z.div_unique (y - 1) k (y / k) (y `mod` k - 1)); lia.
Qed.

Lemma year_start_succ y : 0 <= y -> year_start (y + 1) = year_start y + year_len y.
Proof.
  intros Hy. unfold year_start, year_len, leap_len. rewrite isleap_mod by done.
  replace (y + 1 - 1) with y by lia.
  pose proof (div_pred_step 4 y ltac:(lia)) as H4.
  pose proof (div_pred_step 100 y ltac:(lia)) as H100.
  pose proof (div_pred_step 400 y ltac:(lia)) as H400.
  assert (y `mod` 400 = 0 -> y `mod` 100 = 0) by (intros; zlia).
  assert (y `mod` 100 = 0 -> y `mod` 4 = 0) by (intros; zlia).
  destruct (Z.eqb_spec (y `mod` 4) 0), (Z.eqb_spec (y `mod` 100) 0),
    (Z.eqb_spec (y `mod` 400) 0); cbn [andb orb negb]; lia.
Qed.

Lemma year_len_bounds y : 365 <= year_len y <= 366.
Proof. unfold year_len, leap_len. destruct (__isleap y); lia. Qed.

(** The closed form of [timegm] counts the days of the calendar. *)
Lemma timegm_days_correct y : 1970 <= y <= 1000000 -> timegm_days (y - 1970) = Some (year_start y).
Proof.
  intros Hy. unfold timegm_days, year_start. rewrite Z.geb_leb.
  int32s. rewrite (Z.quot_div_nonneg (y - 1970 + 1) 4) by lia.
  rewrite ?int32_in by zlia. cbn [mbind option_bind].
  destruct (Z.leb_spec 131 (y - 1970)) as [Hbig|Hsmall]; [|f_equal; zlia].
  rewrite Z.quot_div_nonneg by lia.
  set (q := (y - 1970 - 131) / 100).
  assert (Hq : (y - 1) / 100 = q + 21) by (unfold q; zlia).
  assert (Hq4 : (y - 1) / 400 = (q + 21) / 4)
    by (rewrite <- Hq, Z.div_div by lia; done).
  assert (0 <= q <= 10000) as Hqb by (unfold q; zlia).
  rewrite Hq, Hq4, Z.shiftr_div_pow2 by lia. change (2 ^ 2) with 4.
  assert (q .& 3 = q `mod` 4) as -> by (change 3 with (Z.ones 2); by rewrite Z.land_ones).
  assert ((y - 1970 + 1) / 4 = (y - 1) / 4 - 492) as -> by zlia.
  assert (0 <= (y - 1) / 4 <= 250000) by zlia. clearbody q.
  assert (0 <= q / 4 <= 2500) by zlia. assert (0 <= q `mod` 4 < 4) by zlia.
  int32s. rewrite int32_in by (case_Z; lia). f_equal.
  assert ((q + 21) / 4 = q / 4 + 5 + (if q `mod` 4 =? 3 then 1 else 0)) as ->
    by (case_Z; zlia).
  case_Z; zlia.
Qed.

(** The year loop lands in the year the day count belongs to. *)
Lemma gm_year_correct fuel : forall i work, 0 <= i -> 0 <= work ->
  work / 365 < Z.of_nat fuel ->
  exists y w, gm_year fuel i work = Some (y, w) /\ i <= y /\
    0 <= w < year_len y /\ year_start y + w = year_start i + work.
Proof.
  induction fuel as [|fuel IH]; intros i work Hi Hw Hf; [zlia|].
  cbn [gm_year]. change (if __isleap i then 366 else 365) with (year_len i). pose proof (year_len_bounds i).
  rewrite Z.geb_leb. destruct (Z.leb_spec (year_len i) work) as [Hge|Hlt].
  - destruct (IH (i + 1) (work - year_len i)) as (y & w & E & Hy & Hwy & Hsum); [lia|lia|zlia|].
    exists y, w. split; [done|]. split; [lia|]. split; [done|].
    rewrite year_start_succ in Hsum by done. lia.
  - exists i, work. eauto with lia.
Qed.

Lemma gm_fuel_enough work : 0 <= work -> work / 365 < Z.of_nat (gm_fuel work).
Proof.
  intros. unfold gm_fuel. pose proof (Z.div_pos work 365). lia.
Qed.

(** The year of a day count is unique. *)
Lemma year_start_mono i j : 0 <= i -> i <= j -> year_start i + 365 * (j - i) <= year_start j.
Proof.
  intros Hi Hij. replace j with (i + Z.of_nat (Z.to_nat (j - i))) by lia.
  generalize (Z.to_nat (j - i)) as n. intros n. induction n as [|n IH].
  { change (Z.of_nat 0) with 0. rewrite !Z.add_0_r. lia. }
  replace (i + Z.of_nat (S n)) with (i + Z.of_nat n + 1) by lia.
  rewrite year_start_succ by lia. pose proof (year_len_bounds (i + Z.of_nat n)). lia.
Qed.

Lemma year_unique y1 w1 y2 w2 : 0 <= y1 -> 0 <= y2 ->
  0 <= w1 < year_len y1 -> 0 <= w2 < year_len y2 ->
  year_start y1 + w1 = year_start y2 + w2 -> y1 = y2 /\ w1 = w2.
Proof.
  intros H1 H2 Hw1 Hw2 E.
  assert (forall a b, 0 <= a -> a < b -> year_start a + year_len a <= year_start b) as Hlt.
  { intros a b Ha Hab. rewrite <- year_start_succ by done.
    pose proof (year_start_mono (a + 1) b). lia. }
  destruct (Z.lt_trichotomy y1 y2) as [L|[->|L]].
  - pose proof (Hlt y1 y2). lia.
  - lia.
  - pose proof (Hlt y2 y1). lia.
Qed.

(** Month lookup and its inverse, checked on every day of the two kinds of
    year. *)
Definition month_day_ok (leap : bool) (w : Z) : bool :=
  let '(m, d) := gm_month_day leap w in
  bool_decide (m < 12)%nat && (1 <=? d) && (d <=? month_len leap m) &&
  (month_start leap m + d - 1 =? w).

Lemma gm_month_day_correct leap w : 0 <= w < (leap_len leap) ->
  let '(m, d) := gm_month_day leap w in
  (m < 12)%nat /\ 1 <= d <= month_len leap m /\ month_start leap m + d - 1 = w.
Proof.
  intros Hw.
  assert (month_day_ok leap w = true) as H.
  { assert (forallb (month_day_ok leap) (seqZ 0 (leap_len leap)) = true) as Hall
      by (destruct leap; by vm_compute).
    rewrite forallb_forall in Hall. apply Hall, list_elem_of_In, elem_of_seqZ. lia. }
  unfold month_day_ok in H. destruct (gm_month_day leap w) as [m d].
  rewrite !andb_true_iff, bool_decide_eq_true in H. lia.
Qed.

Definition month_day_inv_ok (leap : bool) (m : nat) : bool :=
  forallb (fun d => bool_decide (gm_month_day leap (month_start leap m + d - 1) = (m, d)) &&
    (0 <=? month_start leap m + d - 1) &&
    (month_start leap m + d - 1 <? (leap_len leap)))
    (seqZ 1 (month_len leap m)).

Lemma gm_month_day_inverse leap m d : (m < 12)%nat -> 1 <= d <= month_len leap m ->
  gm_month_day leap (month_start leap m + d - 1) = (m, d) /\
  0 <= month_start leap m + d - 1 < (leap_len leap).
Proof.
  intros Hm Hd.
  assert (forallb (month_day_inv_ok leap) (seq 0 12) = true) as Hall
    by (destruct leap; by vm_compute).
  rewrite forallb_forall in Hall. specialize (Hall m).
  unfold month_day_inv_ok in Hall. rewrite forallb_forall in Hall.
  specialize (Hall (proj2 (in_seq 12 0 m) (conj (Nat.le_0_l m) Hm)) d).
  rewrite !andb_true_iff, bool_decide_eq_true in Hall.
  destruct Hall as [[E ?] ?]; [|by split; [|lia]].
  apply list_elem_of_In, elem_of_seqZ. lia.
Qed.

(** ** [gmtime_r] *)

Lemma gmtime_r_correct t : 0 <= t < 2147483648 ->
  exists r, gmtime_r t = Some r /\ tm_valid r /\ tm_seconds r = t /\
    tm_wday r = (4 + t / 86400) `mod` 7 /\
    tm_yday r = month_start (__isleap (tm_year r + 1900)) (Z.to_nat (tm_mon r)) + tm_mday r - 1.
Proof.
  intros [Ht Ht']. unfold gmtime_r. rewrite s32_small by lia. change SPD with 86400.
  rewrite (Z.rem_mod_nonneg t 86400), (Z.quot_div_nonneg t 86400) by lia.
  pose proof (Z.div_mod t 86400 ltac:(lia)) as Et.
  pose proof (Z.mod_pos_bound t 86400 ltac:(lia)) as Hr.
  pose proof (Z.div_pos t 86400 Ht ltac:(lia)) as Hq.
  set (q := t / 86400) in *. set (s := t `mod` 86400) in *. clearbody q s. subst t.
  assert (q < 24856) as Hq' by lia.
  rewrite !(Z.quot_div_nonneg s 60) by lia. pose proof (Z.div_pos s 60 ltac:(lia) ltac:(lia)).
  rewrite !Z.quot_div_nonneg, !Z.rem_mod_nonneg by lia.
  destruct (gm_year_correct (gm_fuel q) 1970 q)
    as (y & w & -> & Hy & Hw & Hsum); [lia|done|by apply gm_fuel_enough|].
  cbn [mbind option_bind]. change (year_start 1970) with 0 in Hsum.
  pose proof (year_start_mono 1970 y ltac:(lia) Hy) as Hmono. change (year_start 1970) with 0 in Hmono.
  int32s. pose proof (gm_month_day_correct (__isleap y) w Hw) as Hmd.
  destruct (gm_month_day (__isleap y) w) as [m d]. destruct Hmd as (Hm & Hd & Hmw).
  eexists. split; [done|].
  unfold tm_seconds. cbn [tm_sec tm_min tm_hour tm_mday tm_mon tm_year tm_wday tm_yday].
  rewrite Nat2Z.id. replace (y - 1900 + 1900) with y by lia.
  rewrite Hmw, Hsum, Z.add_0_l. split; [split|split; [|split]]; try done;
    cbn [tm_sec tm_min tm_hour tm_mday tm_mon tm_year];
    rewrite ?Nat2Z.id; replace (y - 1900 + 1900) with y by lia; try done; zlia.
Qed.

(** ** [timegm] *)

(** The fields [timegm] does not touch, and the two it recomputes. *)
Definition with_days (t : tm) : tm :=
  let yday := month_start (__isleap (tm_year t + 1900)) (Z.to_nat (tm_mon t)) + tm_mday t - 1 in
  mk_tm (tm_sec t) (tm_min t) (tm_hour t) (tm_mday t) (tm_mon t) (tm_year t)
    (Z.rem (year_start (tm_year t + 1900) + yday + 4) 7) yday (tm_isdst t).

(** Fields in range, with up to 31 days in any month. *)
Record tm_set (t : tm) : Prop := {
  ts_sec : 0 <= tm_sec t < 60;
  ts_min : 0 <= tm_min t < 60;
  ts_hour : 0 <= tm_hour t < 24;
  ts_mon : 0 <= tm_mon t < 12;
  ts_mday : 0 <= tm_mday t <= 31;
  ts_year : 70 <= tm_year t }.

Lemma spm_total mon : 0 <= mon < 13 -> __spm !!z mon = Some (__spm !!! Z.to_nat mon).
Proof.
  intros H. unfold zlookup. rewrite decide_True by lia.
  destruct (lookup_lt_is_Some_2 __spm (Z.to_nat mon)) as [v Hv]; [cbn; lia|].
  by rewrite Hv, (list_lookup_total_correct _ _ _ Hv).
Qed.

Lemma spm_next_ge31 (n : nat) : (n < 12)%nat -> 31 <= __spm !!! S n.
Proof. intros H. do 12 (destruct n as [|n]; [by vm_compute|]). lia. Qed.

Lemma timegm_carry_none fuel mday mon year : fuel <> O ->
  0 <= mon < 12 -> mday <= 31 ->
  timegm_carry fuel mday mon year = Some (mday, mon, year).
Proof.
  intros Hf Hmon Hd. destruct fuel as [|fuel]; [done|]. cbn [timegm_carry].
  rewrite (spm_total (1 + mon)) by lia. cbn [mbind option_bind].
  pose proof (spm_next_ge31 (Z.to_nat mon) ltac:(lia)) as H.
  replace (Z.to_nat (1 + mon)) with (S (Z.to_nat mon)) by lia.
    rewrite (Z.gtb_ltb mday), (proj2 (Z.ltb_ge (__spm !!! S (Z.to_nat mon)) mday)) by lia. done.
Qed.

Lemma timegm_norm_small most unit hi lo : lo <= most -> timegm_norm most unit hi lo = Some (hi, lo).
Proof. intros H. unfold timegm_norm. by rewrite Z.gtb_ltb, (proj2 (Z.ltb_ge most lo)) by lia. Qed.

Lemma month_start_bounds leap n : (n < 12)%nat -> 0 <= month_start leap n <= 335.
Proof. intros Hn. do 12 (destruct n as [|n]; [by destruct leap; vm_compute|]). lia. Qed.

(** Seconds that fit a [time_t] are before the year 2039. *)
Lemma tm_seconds_fit_year t : tm_set t -> tm_seconds t < 2147483648 ->
  0 <= year_start (tm_year t + 1900) /\ 365 * (tm_year t - 70) <= year_start (tm_year t + 1900) <= 24900.
Proof.
  intros [Hs Hmi Hh Hmo Hd Hy] Hfit. unfold tm_seconds in Hfit.
  pose proof (month_start_bounds (__isleap (tm_year t + 1900)) (Z.to_nat (tm_mon t)) ltac:(lia)).
  pose proof (year_start_mono 1970 (tm_year t + 1900) ltac:(lia) ltac:(lia)) as Hm.
  change (year_start 1970) with 0 in Hm. lia.
Qed.

Lemma timegm_correct t : tm_set t -> tm_seconds t < 2147483648 ->
  timegm t = Some (tm_seconds t, with_days t).
Proof.
  intros Hset Hfit. destruct (tm_seconds_fit_year t Hset Hfit) as [Hy0 Hyb].
  destruct Hset as [Hs Hmi Hh Hmo Hd Hy]. unfold timegm. int32s.
  do 4 (rewrite timegm_norm_small by lia; cbn [mbind option_bind]).
  rewrite timegm_carry_none by (unfold carry_fuel; lia). cbn [mbind option_bind].
  rewrite (proj2 (Z.ltb_ge (tm_year t) 70)), spm_total by lia. cbn [mbind option_bind].
  replace (tm_year t - 70) with (tm_year t + 1900 - 1970) by lia.
  rewrite timegm_days_correct by lia. cbn [mbind option_bind].
  assert (0 <= __spm !!! Z.to_nat (tm_mon t) <= 334) as Hspm.
  { assert (Z.to_nat (tm_mon t) < 12)%nat as Hn by lia. revert Hn. generalize (Z.to_nat (tm_mon t)) as n.
    intros n Hn. do 12 (destruct n as [|n]; [by vm_compute|]). lia. }
  unfold with_days, tm_seconds, month_start in *. rewrite Z2Nat.id, ?Z.gtb_ltb in * by lia.
  int32s. rewrite ?Z.gtb_ltb. set (L := if __isleap _ && _ then 1 else 0) in *. assert (0 <= L <= 1) by (unfold L; destruct (_ && _); lia).
  clearbody L. set (S0 := __spm !!! _) in *. clearbody S0. set (Y := year_start _) in *. clearbody Y.
  int32s. f_equal. f_equal; [lia|]. f_equal; [f_equal; lia|lia].
Qed.

Lemma tm_valid_set t : tm_valid t -> tm_set t.
Proof.
  intros [Hs Hmi Hh Hmo Hd Hy]. split; try done.
  assert (forall leap n, (n < 12)%nat -> month_len leap n <= 31) as Hl.
  { intros leap n Hn. do 12 (destruct n as [|n]; [by destruct leap|]). lia. }
  pose proof (Hl (__isleap (tm_year t + 1900)) (Z.to_nat (tm_mon t)) ltac:(lia)). lia.
Qed.

(** ** Calendar fields are determined by the seconds *)

Definition same_civil (r t : tm) : Prop :=
  tm_sec r = tm_sec t /\ tm_min r = tm_min t /\ tm_hour r = tm_hour t /\
  tm_mday r = tm_mday t /\ tm_mon r = tm_mon t /\ tm_year r = tm_year t.

Lemma tm_valid_yday t : tm_valid t ->
  let leap := __isleap (tm_year t + 1900) in
  let yd := month_start leap (Z.to_nat (tm_mon t)) + tm_mday t - 1 in
  gm_month_day leap yd = (Z.to_nat (tm_mon t), tm_mday t) /\
  0 <= yd < year_len (tm_year t + 1900).
Proof. intros Hv. apply gm_month_day_inverse; destruct Hv; lia. Qed.

Lemma tm_seconds_nonneg t : tm_valid t -> 0 <= tm_seconds t.
Proof.
  intros Hv. destruct (tm_valid_yday t Hv) as [_ Hyd].
  destruct Hv. unfold tm_seconds.
  pose proof (year_start_mono 1970 (tm_year t + 1900) ltac:(lia) ltac:(lia)) as Hm.
  change (year_start 1970) with 0 in Hm. lia.
Qed.

Lemma tm_seconds_inj r t : tm_valid r -> tm_valid t ->
  tm_seconds r = tm_seconds t -> same_civil r t.
Proof.
  intros Hr Ht E. destruct (tm_valid_yday r Hr) as [Er Hyr].
  destruct (tm_valid_yday t Ht) as [Et Hyt]. unfold tm_seconds in E.
  set (yr := month_start _ (Z.to_nat (tm_mon r)) + tm_mday r - 1) in *.
  set (yt := month_start _ (Z.to_nat (tm_mon t)) + tm_mday t - 1) in *.
  destruct Hr as [Hs1 Hm1 Hh1 Hmo1 _ Hy1], Ht as [Hs2 Hm2 Hh2 Hmo2 _ Hy2].
  assert (tm_sec r = tm_sec t) as Hs by lia.
  assert (tm_min r = tm_min t) as Hmi by lia.
  assert (tm_hour r = tm_hour t) as Hh by lia.
  destruct (year_unique (tm_year r + 1900) yr (tm_year t + 1900) yt) as [Hy Hd]; try lia.
  rewrite Hy, Hd, Et in Er. injection Er as Hmo Hmd.
  unfold same_civil. lia.
Qed.

(** Reading back a moment that was set gives the fields that were set. *)
Lemma gmtime_r_tm_seconds t : tm_valid t -> tm_seconds t < 2147483648 ->
  exists r, gmtime_r (tm_seconds t) = Some r /\ tm_valid r /\ same_civil r t.
Proof.
  intros Hv Hfit. destruct (gmtime_r_correct (tm_seconds t) (conj (tm_seconds_nonneg t Hv) Hfit))
    as (r & E & Hr & Hs & _).
  exists r. split; [done|]. split; [done|]. by apply tm_seconds_inj.
Qed.

(** ** [asctime_r] *)

Lemma num2str_range i : 0 <= i < 100 ->
  num2str i = [48 + i / 10; 48 + i `mod` 10].
Proof.
  intros Hi. unfold num2str. rewrite Z.quot_div_nonneg, Z.rem_mod_nonneg by lia.
  rewrite !u8_small by zlia. rewrite (Z.add_comm (i / 10)), (Z.add_comm (i `mod` 10)). done.
Qed.

(** "HH:MM:SS". *)
Definition two_digits (i : Z) : list Z := [48 + i / 10; 48 + i `mod` 10].
Definition clock_text (h m s : Z) : list Z :=
  two_digits h ++ [58] ++ two_digits m ++ [58] ++ two_digits s.

Lemma two_digits_range i : 0 <= i < 100 -> Forall (fun c => 48 <= c < 58) (two_digits i).
Proof. intros. unfold two_digits. repeat constructor; zlia. Qed.

Lemma clock_text_length h m s : length (clock_text h m s) = 8%nat.
Proof. done. Qed.

Lemma clock_text_chars h m s : 0 <= h < 24 -> 0 <= m < 60 -> 0 <= s < 60 ->
  Forall (fun c => 48 <= c <= 58) (clock_text h m s).
Proof.
  intros. unfold clock_text. repeat apply Forall_app_2; try (by repeat constructor);
    (eapply Forall_impl; [apply two_digits_range; lia|cbn; lia]).
Qed.

Definition name_text (c : Z) : Prop := 32 <= c < 127.

Lemma name4_days w : 0 <= w < 7 ->
  exists n, name4 days w = Some n /\ length n = 4%nat /\ Forall name_text n.
Proof.
  intros H. assert (w = 0 \/ w = 1 \/ w = 2 \/ w = 3 \/ w = 4 \/ w = 5 \/ w = 6)
    as [->|[->|[->|[->|[->|[->| ->]]]]]] by lia;
  (eexists; split; [reflexivity|split; [done|repeat constructor; done]]).
Qed.

Lemma name4_months m : 0 <= m < 12 ->
  exists n, name4 months m = Some n /\ length n = 4%nat /\ Forall name_text n.
Proof.
  intros H. rewrite <- (Z2Nat.id m) by lia. assert (Z.to_nat m < 12)%nat as Hm by lia.
  revert Hm. generalize (Z.to_nat m) as n. clear. intros n Hn.
  do 12 (destruct n as [|n];
    [eexists; split; [reflexivity|split; [done|repeat constructor; done]]|]). lia.
Qed.

(** The printed form: eleven characters of date, the clock, the year. *)
Lemma asctime_r_form t : tm_valid t -> 0 <= tm_wday t < 7 -> tm_year t + 1900 < 10000 ->
  exists d, length d = 11%nat /\ Forall name_text d /\
  asctime_r t = Some (d ++ clock_text (tm_hour t) (tm_min t) (tm_sec t) ++ [32] ++
    two_digits ((tm_year t + 1900) / 100) ++ two_digits ((tm_year t + 1900) `mod` 100) ++
    [10; 0]).
Proof.
  intros Hv Hw Hy9. pose proof (tm_valid_set t Hv) as Hs.
  destruct Hv as [Hsec Hmin Hhour Hmon Hmd Hy], Hs as [_ _ _ _ Hmd31 _].
  unfold asctime_r.
  destruct (name4_days (tm_wday t) Hw) as (n & -> & Hn & Fn).
  destruct (name4_months (tm_mon t) Hmon) as (n' & -> & Hn' & Fn'). cbn [mbind option_bind].
  rewrite Z.quot_div_nonneg, Z.rem_mod_nonneg by lia.
  assert (0 <= (tm_year t + 1900) / 100 < 100) by zlia.
  assert (0 <= (tm_year t + 1900) `mod` 100 < 100) by zlia.
  rewrite !num2str_range by lia.
  exists (n ++ n' ++ [if 48 + tm_mday t / 10 =? 48 then 32 else 48 + tm_mday t / 10;
                      48 + tm_mday t `mod` 10] ++ [32]).
  split; [rewrite !length_app, Hn, Hn'; done|]. split.
  - repeat apply Forall_app_2; try done; repeat constructor; unfold name_text;
      try case_Z; zlia.
  - unfold clock_text, two_digits. by rewrite <- !app_assoc.
Qed.

(** ** The calendar *)

(** Fields that agree with their date keep it under [with_days]. *)
Lemma with_days_same r t : tm_valid r -> tm_seconds r = t ->
  tm_wday r = (4 + t / 86400) `mod` 7 ->
  tm_yday r = month_start (__isleap (tm_year r + 1900)) (Z.to_nat (tm_mon r)) + tm_mday r - 1 ->
  with_days r = r.
Proof.
  intros Hv Es Hw Hy. pose proof (tm_seconds_nonneg r Hv) as Hnn.
  destruct (tm_valid_yday r Hv) as [_ Hyd]. cbv zeta in Hyd. unfold with_days.
  rewrite <- Hy in Hyd |- *.
  assert (t / 86400 = year_start (tm_year r + 1900) + tm_yday r) as Ed.
  { rewrite <- Es. unfold tm_seconds. rewrite <- Hy. destruct Hv. zlia. }
  assert (0 <= t / 86400) by zlia.
  rewrite Z.rem_mod_nonneg by lia.
  replace (year_start (tm_year r + 1900) + tm_yday r + 4) with (4 + t / 86400) by lia.
  rewrite <- Hw. by destruct r.
Qed.

(** C39 Every moment a [time_t] can hold from 1970 on - [time_t] is a 32-bit
    [long] on this board, so up to January 2038 - is broken into fields that are
    in range for their month and year, without an overflow, and [timegm] turns
    these fields back into exactly the same moment without changing one of
    them and without an overflow: the year and month loops terminate within
    their fuel and the two conversions are inverse. *)
Theorem timegm_gmtime_r t : 0 <= t < 2 ^ 31 ->
  exists r, gmtime_r t = Some r /\ tm_valid r /\ timegm r = Some (t, r).
Proof.
  change (2 ^ 31) with 2147483648. intros Ht. destruct (gmtime_r_correct t Ht) as (r & E & Hv & Es & Hw & Hy).
  exists r. split; [done|]. split; [done|].
  rewrite timegm_correct by (by apply tm_valid_set || lia). by rewrite Es, (with_days_same r t).
Qed.

Lemma timegm_gmtime_r_witness : 0 <= 1657000000 < 2 ^ 31 /\
  exists r, gmtime_r 1657000000 = Some r /\ tm_valid r /\ timegm r = Some (1657000000, r).
Proof. split; [lia|]. apply (timegm_gmtime_r 1657000000). lia. Defined.

(** The last moment, and the first local one that has none. *)
Example gmtime_r_last : gmtime_r 2147483647 = Some (mk_tm 7 14 3 19 0 138 2 18 0).
Proof. by vm_compute. Qed.
Example timegm_overflows : timegm (mk_tm 8 14 3 19 0 138 2 18 0) = None.
Proof. by vm_compute. Qed.

(** Conversely a valid civil date and time of day whose seconds fit survives
    [mktime] and [localtime_r], both in the fixed time zone of the watch: what
    the user sets is what is read back. *)
Theorem localtime_r_mktime t : tm_valid t -> 28800 <= tm_seconds t < 2147483648 ->
  exists s t' r, mktime t = Some (s, t') /\ 0 <= s /\ localtime_r s = Some r /\ same_civil r t.
Proof.
  intros Hv Hz. unfold mktime, localtime_r, RT_LIBC_FIXED_TIMEZONE.
  rewrite timegm_correct by (by apply tm_valid_set || lia). cbn [mbind option_bind]. int32s.
  destruct (gmtime_r_tm_seconds t Hv) as (r & E & _ & Hsame); [lia|].
  exists (tm_seconds t - 3600 * 8), (with_days t), r. split; [done|]. split; [lia|].
  int32s. split; [|done]. by replace (tm_seconds t - 3600 * 8 + 8 * 3600) with (tm_seconds t) by lia.
Qed.

Lemma localtime_r_mktime_witness : let t' := mk_tm 8 49 21 28 1 122 0 0 0 in
  exists s t1 r, mktime t' = Some (s, t1) /\ 0 <= s /\ localtime_r s = Some r /\ same_civil r t'.
Proof.
  cbv zeta. apply (localtime_r_mktime (mk_tm 8 49 21 28 1 122 0 0 0)).
  - split; vm_compute; intuition discriminate.
  - vm_compute. intuition discriminate.
Defined.

(** [asctime_r] writes exactly the 26 bytes its callers' buffers have: a
    text without NUL and the NUL that ends it, whatever valid date before the
    year 10000 it is given. *)
Theorem asctime_r_fits t : tm_valid t -> 0 <= tm_wday t < 7 -> tm_year t + 1900 < 10000 ->
  exists buf, asctime_r t = Some buf /\ length buf = 26%nat /\ length (cstr buf) = 25%nat /\
    buf = cstr buf ++ [0].
Proof.
  intros Hv Hw Hy. destruct (asctime_r_form t Hv Hw Hy) as (d & Hd & Fd & E).
  set (body := d ++ clock_text (tm_hour t) (tm_min t) (tm_sec t) ++ [32] ++
    two_digits ((tm_year t + 1900) / 100) ++ two_digits ((tm_year t + 1900) `mod` 100) ++ [10]) in *.
  exists (body ++ [0]). assert (length body = 25%nat) as Hb
    by (unfold body; rewrite !length_app, Hd; done).
  assert (cstr (body ++ [0]) = body) as Ec.
  { apply cstr_app. unfold body. destruct Hv as [H1 H2 H3 _ _ H6].
    assert (forall n, 0 <= n < 100 -> Forall (fun c => c <> 0) (two_digits n)) as Ht
      by (intros n Hn; eapply Forall_impl; [by apply two_digits_range|cbn; lia]).
    repeat apply Forall_app_2; try (by repeat constructor); try (apply Ht; zlia).
    - eapply Forall_impl; [exact Fd|]. unfold name_text. lia. }
  rewrite Ec. split; [|split; [by rewrite length_app, Hb|done]].
  rewrite E. unfold body. by rewrite <- !app_assoc.
Qed.

Lemma asctime_r_fits_witness : let t := mk_tm 8 49 21 28 1 122 1 58 0 in
  exists buf, asctime_r t = Some buf /\ length buf = 26%nat /\ length (cstr buf) = 25%nat /\
    buf = cstr buf ++ [0].
Proof.
  apply (asctime_r_fits (mk_tm 8 49 21 28 1 122 1 58 0)).
  - split; vm_compute; intuition discriminate.
  - vm_compute. intuition discriminate.
  - vm_compute. reflexivity.
Defined.
