(* ===== verification/SoftRtc.v ===== *)
(** * SoftRtc: the software clock

    [rt-thread/components/drivers/rtc/soft_rtc.c] (the "rtc" device of this
    configuration), the [time] function of [time.c] over it, and [set_date],
    [set_time] and the shell's [date] of [rtc.c].  The tick counter is an
    argument: each function takes the value [rt_tick_get] returns at each of
    its reads.  [time_t] is 32 bits wide: a tick difference is unsigned, so the
    sums with it are taken modulo 2^32 and stored in a [time_t].  [None] is
    undefined behaviour of [time.c]: an access outside a table, a signed
    overflow. *)
From S2P Require Import Prelude CTime.

(** The statics of [soft_rtc.c], and whether "rtc" is a registered device. *)
Record rtc := mk_rtc { init_ok : bool; registered : bool; init_tick : Z; init_time : Z }.

Definition boot : rtc := mk_rtc false false 0 0.

(** [SOFT_RTC_TIME_DEFAULT]: 2018-01-01 00:00:00. *)
Definition SOFT_RTC_TIME_DEFAULT : tm := mk_tm 0 0 0 1 (1 - 1) (2018 - 1900) 0 0 0.

Definition rt_soft_rtc_init (r : rtc) (tick : Z) : option (Z * rtc) :=
  if init_ok r then Some (0, r) else
  '(t, _) ← timegm SOFT_RTC_TIME_DEFAULT;
  Some (0, mk_rtc true true tick t).

(** Whole seconds since the clock was started: a 32-bit tick difference. *)
Definition uptime (r : rtc) (tick : Z) : Z := u32 (tick - init_tick r) / RT_TICK_PER_SECOND.

Inductive rtc_cmd :=
  | RT_DEVICE_CTRL_RTC_GET_TIME
  | RT_DEVICE_CTRL_RTC_SET_TIME
  | RT_DEVICE_CTRL_RTC_OTHER.

(** [soft_rtc_control]: the new state, the value left in the argument (seconds
    in, seconds out), the result. *)
Definition soft_rtc_control (r : rtc) (cmd : rtc_cmd) (arg tick : Z) : rtc * Z * Z :=
  match cmd with
  | RT_DEVICE_CTRL_RTC_GET_TIME => (r, s32 (init_time r + uptime r tick), RT_EOK)
  | RT_DEVICE_CTRL_RTC_SET_TIME =>
      (mk_rtc (init_ok r) (registered r) (init_tick r) (s32 (arg - uptime r tick)), arg, RT_EOK)
  | RT_DEVICE_CTRL_RTC_OTHER => (r, arg, RT_EOK)
  end.

(** [get_timeval]: the error code and [tv_sec]. *)
Definition get_timeval (r : rtc) (tick : Z) : Z * Z :=
  if registered r then
    let '(_, tv_sec, rst) := soft_rtc_control r RT_DEVICE_CTRL_RTC_GET_TIME 0 tick in
    (rst, tv_sec)
  else (- RT_ENOSYS, 0).

(** [time(RT_NULL)]. *)
Definition time (r : rtc) (tick : Z) : Z :=
  let '(err, tv_sec) := get_timeval r tick in
  if err =? RT_EOK then tv_sec else -1.

(** The update [set_date] and [set_time] share after editing the fields. *)
Definition rtc_update (r : rtc) (tm_new : tm) (tick : Z) : option (Z * rtc) :=
  '(now, _) ← mktime tm_new;
  if registered r then
    let '(r', _, ret) := soft_rtc_control r RT_DEVICE_CTRL_RTC_SET_TIME now tick in
    Some (ret, r')
  else Some (- RT_ERROR, r).

(** [t1] is the tick when the time is read, [t2] the tick when it is written;
    the parameters are [rt_uint32_t], the fields [int]. *)
Definition set_date (r : rtc) (t1 t2 : Z) (year month day : Z) : option (Z * rtc) :=
  let now := time r t1 in
  tm_new ← localtime_r now;
  rtc_update r (mk_tm (tm_sec tm_new) (tm_min tm_new) (tm_hour tm_new)
    (s32 (u32 day)) (s32 (u32 (month - 1))) (s32 (u32 (year - 1900)))
    (tm_wday tm_new) (tm_yday tm_new) (tm_isdst tm_new)) t2.

Definition set_time (r : rtc) (t1 t2 : Z) (hour minute second : Z) : option (Z * rtc) :=
  let now := time r t1 in
  tm_new ← localtime_r now;
  rtc_update r (mk_tm (s32 (u32 second)) (s32 (u32 minute)) (s32 (u32 hour))
    (tm_mday tm_new) (tm_mon tm_new) (tm_year tm_new)
    (tm_wday tm_new) (tm_yday tm_new) (tm_isdst tm_new)) t2.

(** The setting branch of the [date] command, its arguments already through
    [atoi]; [Some (inl _)] is the usage message of a range check. *)
Inductive date_msg := year_range | month_range | day_range | hour_range | minute_range | second_range.

Definition date_set (r : rtc) (t1 t2 t3 t4 : Z) (year month day hour min sec : Z)
    : option (date_msg + rtc) :=
  let year := u16 year in let month := u8 month in let day := u8 day in
  let hour := u8 hour in let min := u8 min in let sec := u8 sec in
  if (year >? 2099) || (year <? 2000) then Some (inl year_range)
  else if (month =? 0) || (month >? 12) then Some (inl month_range)
  else if (day =? 0) || (day >? 31) then Some (inl day_range)
  else if hour >? 23 then Some (inl hour_range)
  else if min >? 59 then Some (inl minute_range)
  else if sec >? 59 then Some (inl second_range)
  else
    '(_, r) ← set_time r t1 t2 hour min sec;
    '(_, r) ← set_date r t3 t4 year month day;
    Some (inr r).

(** ** What the clock promises *)

(** A running clock: registered, and at a time whose local time a [time_t] holds
    for as long as the tick difference counts, 4294967 seconds. *)
Record running (r : rtc) : Prop := {
  rn_ok : init_ok r = true;
  rn_reg : registered r = true;
  rn_time : - (RT_LIBC_FIXED_TIMEZONE * 3600) <= init_time r /\
            init_time r + 4294967 + RT_LIBC_FIXED_TIMEZONE * 3600 < 2147483648 }.

(** The local civil time the clock shows at a tick. *)
Definition shows (r : rtc) (tick : Z) (t : tm) : Prop :=
  exists l, localtime_r (time r tick) = Some l /\ same_civil l t /\ tm_valid l.

Lemma uptime_bound r tick : 0 <= uptime r tick <= 4294967.
Proof.
  unfold uptime, RT_TICK_PER_SECOND. pose proof (u32_range (tick - init_tick r)). zlia.
Qed.

Lemma time_running r tick : running r -> time r tick = init_time r + uptime r tick.
Proof.
  intros [_ Hr Ht]. unfold time, get_timeval. rewrite Hr. cbn [soft_rtc_control Z.eqb RT_EOK].
  pose proof (uptime_bound r tick). unfold RT_LIBC_FIXED_TIMEZONE in Ht. rewrite s32_small by lia. done.
Qed.

(** The local time of a running clock is a [time_t]. *)
Lemma local_running r tick : running r ->
  0 <= time r tick + RT_LIBC_FIXED_TIMEZONE * 3600 < 2147483648.
Proof.
  intros Hr. rewrite time_running by done. pose proof (uptime_bound r tick). pose proof (rn_time r Hr). lia.
Qed.

Lemma localtime_running r tick : running r ->
  exists l, localtime_r (time r tick) = Some l /\ tm_valid l /\
    tm_seconds l = time r tick + RT_LIBC_FIXED_TIMEZONE * 3600 /\ 0 <= tm_wday l < 7.
Proof.
  intros Hr. pose proof (local_running r tick Hr) as Hp. unfold localtime_r. int32s.
  destruct (gmtime_r_correct _ Hp) as (l & E & Hv & Hs & Hw & _).
  exists l. rewrite Hw. split; [done|]. split; [done|]. split; [done|].
  apply Z.mod_pos_bound. lia.
Qed.

(** Seconds that can be written to a clock whose uptime is [up]: not before the
    local 1970, and early enough for the clock to run on. *)
Definition settable (secs up : Z) : Prop := up <= secs /\ secs - up + 4294967 < 2147483648 /\ secs < 2147483648.

(** Writing fields: the clock then shows them, advanced by the seconds that
    have passed since the write. *)
Lemma rtc_update_correct r t tick : running r -> tm_set t -> settable (tm_seconds t) (uptime r tick) ->
  exists r', rtc_update r t tick = Some (RT_EOK, r') /\ running r' /\
    init_tick r' = init_tick r /\
    (forall tick', time r' tick' =
       tm_seconds t - RT_LIBC_FIXED_TIMEZONE * 3600 + (uptime r tick' - uptime r tick)).
Proof.
  intros [Hok Hreg Ht] Hset (Hpos & Hend & Hfit). pose proof (uptime_bound r tick) as Hu.
  unfold rtc_update, mktime. rewrite timegm_correct by done. cbn [mbind option_bind].
  unfold RT_LIBC_FIXED_TIMEZONE in *. int32s. rewrite Hreg. cbn [soft_rtc_control]. rewrite s32_small by lia.
  eexists. split; [done|].
  assert (running (mk_rtc (init_ok r) (registered r) (init_tick r)
    (tm_seconds t - 3600 * 8 - uptime r tick))) as Hrun.
  { split; cbn; [done|done|unfold RT_LIBC_FIXED_TIMEZONE; lia]. }
  split; [exact Hrun|]. split; [done|]. intros tick'.
  rewrite time_running by done. unfold uptime. cbn. lia.
Qed.

Lemma uptime_init_tick r r' tick : init_tick r' = init_tick r -> uptime r' tick = uptime r tick.
Proof. intros H. unfold uptime. by rewrite H. Qed.

(** A clock whose time is a valid local moment shows it. *)
Lemma shows_of_seconds r tick t : tm_valid t -> tm_seconds t < 2147483648 ->
  time r tick = tm_seconds t - RT_LIBC_FIXED_TIMEZONE * 3600 -> shows r tick t.
Proof.
  intros Hv Hfit E. unfold shows, localtime_r. rewrite E.
  replace (_ - _ + _) with (tm_seconds t) by lia. pose proof (tm_seconds_nonneg t Hv). int32s.
  destruct (gmtime_r_tm_seconds t Hv Hfit) as (l & ? & ? & ?). by exists l.
Qed.

(** The years 1971 to 2036 can be written whatever the uptime. *)
Lemma tm_seconds_year t : tm_set t -> 71 <= tm_year t <= 136 ->
  31449600 <= tm_seconds t < 2114467200.
Proof.
  intros [? ? ? ? ? ?] Hy. unfold tm_seconds.
  pose proof (year_start_mono 1971 (tm_year t + 1900) ltac:(lia) ltac:(lia)) as Hm.
  pose proof (year_start_mono (tm_year t + 1900) 2036 ltac:(lia) ltac:(lia)) as Hm'.
  change (year_start 1971) with 365 in Hm. change (year_start 2036) with 24106 in Hm'.
  pose proof (month_start_bounds (__isleap (tm_year t + 1900)) (Z.to_nat (tm_mon t)) ltac:(lia)). lia.
Qed.

Lemma settable_year t up : tm_set t -> 71 <= tm_year t <= 136 -> 0 <= up <= 4294967 ->
  settable (tm_seconds t) up.
Proof. intros Ht Hy Hu. pose proof (tm_seconds_year t Ht Hy). unfold settable. lia. Qed.

(** The year of a moment, from its seconds. *)
Lemma tm_seconds_year_bounds t : tm_valid t ->
  86400 * year_start (tm_year t + 1900) <= tm_seconds t <
  86400 * year_start (tm_year t + 1900 + 1).
Proof.
  intros Hv. destruct (tm_valid_yday t Hv) as [_ Hyd]. destruct Hv.
  unfold tm_seconds. rewrite year_start_succ by lia. lia.
Qed.

(** A clock set between 1973 and July 2036: what the application keeps. *)
Definition clock_ok (c : rtc) : Prop :=
  running c /\ 100000000 <= init_time c <= 2100000000.

Lemma clock_ok_local c tick : clock_ok c ->
  exists l, localtime_r (time c tick) = Some l /\ tm_valid l /\ 0 <= tm_wday l < 7 /\
    tm_seconds l = time c tick + RT_LIBC_FIXED_TIMEZONE * 3600 /\ 71 <= tm_year l <= 136.
Proof.
  intros [Hr Hc]. destruct (localtime_running c tick Hr) as (l & E & Hv & Hs & Hw).
  exists l. split; [done|]. split; [done|]. split; [done|]. split; [done|].
  pose proof (tm_seconds_year_bounds l Hv) as Hb. pose proof (tv_year l Hv).
  rewrite time_running in Hs by done. pose proof (uptime_bound c tick) as Hu.
  unfold RT_LIBC_FIXED_TIMEZONE in Hs.
  split; [|destruct (Z.le_gt_cases (tm_year l) 136) as [|Hge]; [done|]].
  - destruct (Z.lt_ge_cases (tm_year l) 71); [|done].
    assert (tm_year l = 70) as E70 by lia. rewrite E70 in Hb.
    change (year_start (70 + 1900 + 1)) with 365 in Hb. lia.
  - pose proof (year_start_mono 2037 (tm_year l + 1900) ltac:(lia) ltac:(lia)) as Hm.
    change (year_start 2037) with 24472 in Hm. lia.
Qed.

Lemma u32_s32_small z : 0 <= z < 2147483648 -> s32 (u32 z) = z.
Proof. intros. rewrite u32_small, s32_small; lia. Qed.

Definition set_clock (l : tm) (h m s : Z) : tm :=
  mk_tm s m h (tm_mday l) (tm_mon l) (tm_year l) (tm_wday l) (tm_yday l) (tm_isdst l).
Definition set_day (l : tm) (y mo d : Z) : tm :=
  mk_tm (tm_sec l) (tm_min l) (tm_hour l) d (mo - 1) (y - 1900)
    (tm_wday l) (tm_yday l) (tm_isdst l).

Lemma set_clock_valid l h m s : tm_valid l -> 0 <= h < 24 -> 0 <= m < 60 -> 0 <= s < 60 ->
  tm_valid (set_clock l h m s).
Proof. intros [? ? ? ? ? ?] ???. by split. Qed.

(** [set_time] keeps the local date and replaces the time of day. *)
Lemma set_time_correct r t1 t2 h m s l :
  running r -> localtime_r (time r t1) = Some l -> tm_valid l -> 71 <= tm_year l <= 136 ->
  0 <= h < 24 -> 0 <= m < 60 -> 0 <= s < 60 ->
  exists r', set_time r t1 t2 h m s = Some (RT_EOK, r') /\ running r' /\
    init_tick r' = init_tick r /\
    (forall t3, time r' t3 = tm_seconds (set_clock l h m s) - RT_LIBC_FIXED_TIMEZONE * 3600
                             + (uptime r t3 - uptime r t2)).
Proof.
  intros Hr Hl Hv Hy Hh Hm Hs. unfold set_time. rewrite Hl. cbn [mbind option_bind].
  rewrite !u32_s32_small by lia.
  pose proof (set_clock_valid l h m s Hv Hh Hm Hs) as Hv'.
  pose proof (tm_valid_set _ Hv') as Hset'.
  apply (rtc_update_correct r (set_clock l h m s)); [done|done|].
  apply settable_year; [done|done|apply uptime_bound].
Qed.

(** [set_date] keeps the time of day; a day past the end of the month, or a
    day zero, is carried by the calendar. *)
Lemma set_date_correct r t1 t2 y mo d l :
  running r -> localtime_r (time r t1) = Some l -> tm_valid l ->
  1971 <= y <= 2036 -> 1 <= mo <= 12 -> 0 <= d <= 31 ->
  exists r', set_date r t1 t2 y mo d = Some (RT_EOK, r') /\ running r' /\
    init_tick r' = init_tick r /\
    (forall t3, time r' t3 = tm_seconds (set_day l y mo d) - RT_LIBC_FIXED_TIMEZONE * 3600
                             + (uptime r t3 - uptime r t2)).
Proof.
  intros Hr Hl Hv Hy Hmo Hd. unfold set_date. rewrite Hl. cbn [mbind option_bind].
  rewrite !u32_s32_small by lia.
  assert (tm_set (set_day l y mo d)) as Hset by (destruct Hv; split; cbn; lia).
  apply (rtc_update_correct r (set_day l y mo d)); [done|done|].
  apply settable_year; [done|cbn; lia|apply uptime_bound].
Qed.

(** Setting the time and then the date, as the application and the shell do. *)
Definition commit (r : rtc) (t1 t2 t3 t4 : Z) (y mo d h m s : Z) : option rtc :=
  '(_, r) ← set_time r t1 t2 h m s;
  '(_, r) ← set_date r t3 t4 y mo d;
  Some r.

Lemma commit_correct r t1 t2 t3 t4 y mo d h m s l :
  running r -> localtime_r (time r t1) = Some l -> 71 <= tm_year l <= 136 ->
  1971 <= y <= 2036 -> 1 <= mo <= 12 -> 0 <= d <= 31 ->
  0 <= h < 24 -> 0 <= m < 60 -> 0 <= s < 60 ->
  uptime r t3 = uptime r t2 ->
  exists r', commit r t1 t2 t3 t4 y mo d h m s = Some r' /\ running r' /\
    init_tick r' = init_tick r /\
    (forall t5, time r' t5 =
       tm_seconds (mk_tm s m h d (mo - 1) (y - 1900) 0 0 0) - RT_LIBC_FIXED_TIMEZONE * 3600
       + (uptime r t5 - uptime r t4)).
Proof.
  intros Hr Hl Hyl Hy Hmo Hd Hh Hm Hs Hup.
  destruct (localtime_running r t1 Hr) as (l' & El & Hv & _). rewrite Hl in El.
  injection El as <-.
  destruct (set_time_correct r t1 t2 h m s l) as (r1 & E1 & Hr1 & Hi1 & Ht1); [done..|].
  unfold commit. rewrite E1. cbn [mbind option_bind].
  assert (shows r1 t3 (set_clock l h m s)) as (l1 & El1 & Hc1 & Hv1).
  { pose proof (set_clock_valid l h m s Hv Hh Hm Hs) as Hv'.
    apply shows_of_seconds; [done| |rewrite Ht1; lia].
    pose proof (tm_seconds_year _ (tm_valid_set _ Hv') Hyl). lia. }
  destruct (set_date_correct r1 t3 t4 y mo d l1) as (r2 & E2 & Hr2 & Hi2 & Ht2); [done..|].
  rewrite E2. cbn [mbind option_bind]. exists r2. split; [done|]. split; [done|].
  split; [congruence|]. intros t5. rewrite Ht2, !(uptime_init_tick r r1) by done.
  f_equal. f_equal. destruct Hc1 as (Hcs & Hcm & Hch & _).
  unfold tm_seconds. cbn in *. by rewrite Hcs, Hcm, Hch.
Qed.

(** A date of 2022 always leaves a clock the application can keep. *)
Lemma set_date_2022 c t1 t2 mo d l : running c -> localtime_r (time c t1) = Some l -> tm_valid l ->
  1 <= mo <= 12 -> 0 <= d <= 31 ->
  exists c', set_date c t1 t2 2022 mo d = Some (RT_EOK, c') /\ clock_ok c' /\ init_tick c' = init_tick c /\
    1640900000 <= tm_seconds (set_day l 2022 mo d) <= 1673000000 /\
    (forall t3, time c' t3 = tm_seconds (set_day l 2022 mo d) - RT_LIBC_FIXED_TIMEZONE * 3600
                             + (uptime c t3 - uptime c t2)).
Proof.
  intros Hr El Hv Hmo Hd.
  destruct (set_date_correct c t1 t2 2022 mo d l) as (c' & E & Hr' & Hi & Ht); [done..|lia|lia|lia|].
  assert (1640900000 <= tm_seconds (set_day l 2022 mo d) <= 1673000000) as Hsec.
  { unfold tm_seconds. cbn [set_day tm_sec tm_min tm_hour tm_mday tm_mon tm_year].
    change (2022 - 1900 + 1900) with 2022. change (year_start 2022) with 18993.
    pose proof (month_start_bounds (__isleap 2022) (Z.to_nat (mo - 1)) ltac:(lia)). destruct Hv. lia. }
  exists c'. split_and!; try done; try lia. split; [done|].
  pose proof (Ht t2) as Ht2. rewrite time_running in Ht2 by done.
  rewrite (uptime_init_tick c c') in Ht2 by done. pose proof (uptime_bound c t2).
  unfold RT_LIBC_FIXED_TIMEZONE in Ht2. lia.
Qed.

Lemma commit_clock_ok c t1 t2 t3 t4 mo d h m s : clock_ok c ->
  1 <= mo <= 12 -> 0 <= d <= 31 -> 0 <= h < 24 -> 0 <= m < 60 -> 0 <= s < 60 ->
  exists c', commit c t1 t2 t3 t4 2022 mo d h m s = Some c' /\ clock_ok c'.
Proof.
  intros Hc Hmo Hd Hh Hm Hs.
  destruct (clock_ok_local c t1 Hc) as (l & E & Hv & _ & _ & Hy). destruct Hc as [Hr _].
  destruct (set_time_correct c t1 t2 h m s l) as (c1 & E1 & Hr1 & _); [done..|].
  destruct (localtime_running c1 t3 Hr1) as (l1 & E2 & Hv1 & _).
  destruct (set_date_2022 c1 t3 t4 mo d l1) as (c2 & E3 & Hc2 & _); [done..|].
  unfold commit. rewrite E1. cbn [mbind option_bind]. rewrite E3. by exists c2.
Qed.

(** The date first and then the time of day, as [rtc_sample] does: the same
    moment when no second ends in between, whatever the time was before. *)
Lemma date_then_time c t1 t2 t3 t4 mo d h m s : clock_ok c ->
  1 <= mo <= 12 -> 0 <= d <= 31 -> 0 <= h < 24 -> 0 <= m < 60 -> 0 <= s < 60 ->
  exists c1 c2, set_date c t1 t2 2022 mo d = Some (RT_EOK, c1) /\ set_time c1 t3 t4 h m s = Some (RT_EOK, c2) /\
    clock_ok c2 /\ init_tick c2 = init_tick c /\
    (uptime c t3 = uptime c t2 -> forall t, time c2 t =
       tm_seconds (mk_tm s m h d (mo - 1) 122 0 0 0) - RT_LIBC_FIXED_TIMEZONE * 3600 + (uptime c t - uptime c t4)).
Proof.
  intros Hc Hmo Hd Hh Hm Hs.
  destruct (clock_ok_local c t1 Hc) as (l & E & Hv & _).
  destruct (set_date_2022 c t1 t2 mo d l) as (c1 & E1 & Hc1 & Hi1 & Hsec & Ht1); [apply Hc|done..|].
  destruct (clock_ok_local c1 t3 Hc1) as (l1 & El1 & Hv1 & _ & Hs1 & Hy1).
  destruct (set_time_correct c1 t3 t4 h m s l1) as (c2 & E2 & Hr2 & Hi2 & Ht2); [apply Hc1|done..|].
  exists c1, c2. split; [done|]. split; [done|]. split; [|split; [congruence|]].
  - split; [done|]. pose proof (Ht2 t4) as Ht. rewrite time_running, (uptime_init_tick c c2) in Ht by congruence || done.
    rewrite Ht1 in Hs1. rewrite !(uptime_init_tick c c1) in Ht by done.
    pose proof (uptime_bound c t2). pose proof (uptime_bound c t3). pose proof (uptime_bound c t4).
    unfold RT_LIBC_FIXED_TIMEZONE in *. unfold tm_seconds at 1 in Hs1. unfold tm_seconds at 1 in Ht.
    cbn [set_clock tm_sec tm_min tm_hour tm_mday tm_mon tm_year] in Ht. destruct Hv1. lia.
  - intros Hup t. rewrite Ht2, !(uptime_init_tick c c1) by done. do 2 f_equal.
    rewrite Ht1, Hup in Hs1.
    unfold tm_seconds at 1 in Hs1. unfold tm_seconds at 1 in Hs1. unfold tm_seconds.
    cbn [set_day set_clock tm_sec tm_min tm_hour tm_mday tm_mon tm_year] in *.
    change (2022 - 1900 + 1900) with (122 + 1900) in Hs1. destruct Hv, Hv1.
    set (a := year_start (tm_year l1 + 1900) + _) in *. set (b := year_start (122 + 1900) + _) in *.
    clearbody a b. assert (a = b) as -> by lia. done.
Qed.

(** ** The clock after the boot *)

(** The state [rt_soft_rtc_init] leaves when it is run at tick 0. *)
Definition booted : rtc := mk_rtc true true 0 1514764800.

Lemma booted_init : rt_soft_rtc_init boot 0 = Some (0, booted).
Proof. reflexivity. Qed.

Lemma booted_ok : clock_ok booted.
Proof. split; [|cbn; lia]. split; [done|done|by vm_compute]. Qed.

(** ** Setting the clock *)

Definition in_ranges (year month day hour min sec : Z) : Prop :=
  2000 <= year <= 2099 /\ 1 <= month <= 12 /\ 1 <= day <= 31 /\
  hour <= 23 /\ min <= 59 /\ sec <= 59.

(** The shell's [date] command refuses, with the clock untouched, exactly
    the arguments whose 8- and 16-bit values are out of range; otherwise, for
    the years up to 2036, it sets the clock if the two writes fall in the same
    second: from then on [time] is the set local time plus the seconds that
    passed, and nothing reads outside a calendar table or overflows. *)
Theorem date_set_correct c t1 t2 t3 t4 year month day hour min sec :
  clock_ok c -> uptime c t3 = uptime c t2 -> ~ 2037 <= u16 year <= 2099 ->
  let y := u16 year in let mo := u8 month in let d := u8 day in
  let h := u8 hour in let m := u8 min in let s := u8 sec in
  match date_set c t1 t2 t3 t4 year month day hour min sec with
  | None => False
  | Some (inl _) => ~ in_ranges y mo d h m s
  | Some (inr c') => in_ranges y mo d h m s /\ running c' /\
      forall t5, time c' t5 =
        tm_seconds (mk_tm s m h d (mo - 1) (y - 1900) 0 0 0) - RT_LIBC_FIXED_TIMEZONE * 3600
        + (uptime c t5 - uptime c t4)
  end.
Proof.
  intros Hc Hup Hyr. cbv zeta. unfold date_set, in_ranges.
  pose proof (u8_range month). pose proof (u8_range day). pose proof (u8_range hour).
  pose proof (u8_range min). pose proof (u8_range sec).
  set (y := u16 year) in *. set (mo := u8 month) in *. set (d := u8 day) in *.
  set (h := u8 hour) in *. set (m := u8 min) in *. set (s := u8 sec) in *.
  repeat match goal with |- context [if ?b then Some (inl _) else _] =>
    destruct b eqn:?; [lia|] end.
  destruct (clock_ok_local c t1 Hc) as (l & E & _ & _ & _ & Hy).
  destruct (commit_correct c t1 t2 t3 t4 y mo d h m s l) as (c' & Ec & Hr & _ & Ht);
    try lia; [apply Hc|done|].
  unfold commit in Ec. destruct (set_time c t1 t2 h m s) as [[e c1]|]; [|done].
  cbn [mbind option_bind] in *. destruct (set_date c1 t3 t4 y mo d) as [[e2 c2]|]; [|done].
  cbn [mbind option_bind] in *. injection Ec as ->. split; [lia|done].
Qed.

Lemma date_set_correct_witness :
  match date_set booted 10 20 30 40 2022 7 5 6 7 8 with
  | None => False
  | Some (inl _) => ~ in_ranges (u16 2022) (u8 7) (u8 5) (u8 6) (u8 7) (u8 8)
  | Some (inr c') => in_ranges (u16 2022) (u8 7) (u8 5) (u8 6) (u8 7) (u8 8) /\ running c' /\
      forall t5, time c' t5 =
        tm_seconds (mk_tm 8 7 6 5 (7 - 1) (2022 - 1900) 0 0 0) - RT_LIBC_FIXED_TIMEZONE * 3600
        + (uptime booted t5 - uptime booted 40)
  end.
Proof. apply (date_set_correct booted 10 20 30 40 2022 7 5 6 7 8); [apply booted_ok|reflexivity|].
  change (u16 2022) with 2022. lia.
Defined.

(** The last years the command accepts are past the end of a 32-bit [time_t]:
    [timegm] overflows. *)
Example date_overflows : date_set booted 10 20 30 40 2050 7 5 6 7 8 = None.
Proof. by vm_compute. Qed.

(** The command sets the time of day first and the date from the clock after:
    if the second ends in between, 23:59:59 on July 5th becomes 00:00:00 on
    that same day, 24 hours behind. *)
Example date_midnight :
  date_set booted 998 999 1000 1001 2022 7 5 23 59 59 =
  Some (inr (mk_rtc true true 0 (tm_seconds (mk_tm 0 0 0 5 6 122 0 0 0) - 8 * 3600 - 1))).
Proof. by vm_compute. Qed.
