(* ===== verification/Buttons.v ===== *)
(** * Buttons: the menus behind the three push buttons

    [up_btn], [down_btn] and [select_btn] of [applications/watch.c]: interrupt
    handlers over the menu counters and, for the last menu, the clock. *)
From S2P Require Import Prelude CTime SoftRtc.

(** The counters the handlers share with the display thread. *)
Record ui := mk_ui {
  menu_index : Z;
  hoursbutton : Z; minutesbutton : Z; secondsbutton : Z; monthbutton : Z; daysbutton : Z;
  Hour : Z; Minute : Z; Second : Z; Month : Z; Day : Z }.

(** The initialisers of [watch.c]. *)
Definition ui_boot : ui := mk_ui 0 0 0 0 0 0 0 0 0 1 1.

(** A case of the handlers ends by copying its counter: [Hour = hoursbutton]
    and so on, after the counter has its new value. *)
Definition set_hours (u : ui) (v : Z) : ui :=
  mk_ui (menu_index u) v (minutesbutton u) (secondsbutton u) (monthbutton u) (daysbutton u)
    v (Minute u) (Second u) (Month u) (Day u).
Definition set_minutes (u : ui) (v : Z) : ui :=
  mk_ui (menu_index u) (hoursbutton u) v (secondsbutton u) (monthbutton u) (daysbutton u)
    (Hour u) v (Second u) (Month u) (Day u).
Definition set_seconds (u : ui) (v : Z) : ui :=
  mk_ui (menu_index u) (hoursbutton u) (minutesbutton u) v (monthbutton u) (daysbutton u)
    (Hour u) (Minute u) v (Month u) (Day u).
Definition set_months (u : ui) (v : Z) : ui :=
  mk_ui (menu_index u) (hoursbutton u) (minutesbutton u) (secondsbutton u) v (daysbutton u)
    (Hour u) (Minute u) (Second u) v (Day u).
Definition set_days (u : ui) (v : Z) : ui :=
  mk_ui (menu_index u) (hoursbutton u) (minutesbutton u) (secondsbutton u) (monthbutton u) v
    (Hour u) (Minute u) (Second u) (Month u) v.
Definition set_menu (u : ui) (v : Z) : ui :=
  mk_ui v (hoursbutton u) (minutesbutton u) (secondsbutton u) (monthbutton u) (daysbutton u)
    (Hour u) (Minute u) (Second u) (Month u) (Day u).

Definition up_btn (u : ui) : ui :=
  match menu_index u with
  | 1 => let h := hoursbutton u + 1 in set_hours u (if h >? 23 then 0 else h)
  | 2 => let m := minutesbutton u + 1 in set_minutes u (if m >? 59 then 0 else m)
  | 3 => let s := secondsbutton u + 1 in set_seconds u (if s >? 59 then 0 else s)
  | 4 => let m := monthbutton u + 1 in set_months u (if m >? 12 then 1 else m)
  | 5 => let d := daysbutton u + 1 in set_days u (if d >? 31 then 1 else d)
  | _ => set_hours u (hoursbutton u)
  end.

Definition down_btn (u : ui) : ui :=
  match menu_index u with
  | 1 => let h := hoursbutton u - 1 in set_hours u (if h <? 0 then 0 else h)
  | 2 => let m := minutesbutton u - 1 in set_minutes u (if m <? 0 then 0 else m)
  | 3 => let s := secondsbutton u - 1 in set_seconds u (if s <? 0 then 0 else s)
  | 4 => let m := monthbutton u - 1 in set_months u (if m <? 0 then 1 else m)
  | 5 => let d := daysbutton u - 1 in set_days u (if d <? 0 then 1 else d)
  | _ => set_hours u (hoursbutton u)
  end.

(** [select_btn]: the ticks are those at which the clock is read and written
    by [set_time] and then by [set_date]. *)
Definition select_btn (t1 t2 t3 t4 : Z) (u : ui) (c : rtc) : option (ui * rtc) :=
  let menu := menu_index u + 1 in
  if menu >? 5 then
    c ← commit c t1 t2 t3 t4 2022 (Month u) (Day u) (Hour u) (Minute u) (Second u);
    Some (set_menu u 0, c)
  else Some (set_menu u menu, c).

Inductive press := Up | Down | Select (t1 t2 t3 t4 : Z).

Definition press_step (p : press) (u : ui) (c : rtc) : option (ui * rtc) :=
  match p with
  | Up => Some (up_btn u, c)
  | Down => Some (down_btn u, c)
  | Select t1 t2 t3 t4 => select_btn t1 t2 t3 t4 u c
  end.

Fixpoint presses (ps : list press) (u : ui) (c : rtc) : option (ui * rtc) :=
  match ps with
  | [] => Some (u, c)
  | p :: ps => '(u, c) ← press_step p u c; presses ps u c
  end.

(** ** What the counters can be *)

Record ui_ok (u : ui) : Prop := {
  uo_menu : 0 <= menu_index u <= 5;
  uo_hour : 0 <= Hour u < 24; uo_hours : hoursbutton u = Hour u;
  uo_minute : 0 <= Minute u < 60; uo_minutes : minutesbutton u = Minute u;
  uo_second : 0 <= Second u < 60; uo_seconds : secondsbutton u = Second u;
  uo_month : 0 <= Month u <= 12;
  uo_months : monthbutton u = Month u \/ (monthbutton u = 0 /\ Month u = 1);
  uo_day : 0 <= Day u <= 31;
  uo_days : daysbutton u = Day u \/ (daysbutton u = 0 /\ Day u = 1) }.

Lemma ui_boot_ok : ui_ok ui_boot.
Proof. split; cbn; lia. Qed.

Lemma menu_cases u : ui_ok u ->
  menu_index u = 0 \/ menu_index u = 1 \/ menu_index u = 2 \/ menu_index u = 3 \/
  menu_index u = 4 \/ menu_index u = 5.
Proof. intros []. lia. Qed.

(** Case analysis on the menu a handler sees. *)
Ltac menus Hok :=
  let E := fresh "Emenu" in
  destruct (menu_cases _ Hok) as [E|[E|[E|[E|[E|E]]]]]; rewrite E; cbn [Z.eqb Pos.eqb].

Lemma up_btn_ok u : ui_ok u -> ui_ok (up_btn u).
Proof.
  intros Hok. unfold up_btn. menus Hok; cbn zeta; case_Zs; destruct Hok; split; cbn; lia.
Qed.

Lemma down_btn_ok u : ui_ok u -> ui_ok (down_btn u).
Proof.
  intros Hok. unfold down_btn. menus Hok; cbn zeta; case_Zs; destruct Hok; split; cbn; lia.
Qed.

Lemma set_menu_ok u m : ui_ok u -> 0 <= m <= 5 -> ui_ok (set_menu u m).
Proof. intros [] ?. split; cbn; lia. Qed.

Lemma press_step_ok p u c u' c' : ui_ok u -> press_step p u c = Some (u', c') -> ui_ok u'.
Proof.
  intros Hok. destruct p; cbn [press_step].
  - intros [= <- <-]. by apply up_btn_ok.
  - intros [= <- <-]. by apply down_btn_ok.
  - unfold select_btn. case_Z.
    + destruct (commit _ _ _ _ _ _ _ _ _ _ _); cbn; [|done]. intros [= <- <-].
      by apply set_menu_ok; [|lia].
    + intros [= <- <-]. apply set_menu_ok; [done|]. pose proof (uo_menu u Hok). lia.
Qed.

Lemma presses_ok ps : forall u c u' c', ui_ok u -> presses ps u c = Some (u', c') -> ui_ok u'.
Proof.
  induction ps as [|p ps IH]; intros u c u' c' Hok; cbn.
  - by intros [= <- <-].
  - destruct (press_step p u c) as [[u1 c1]|] eqn:E; cbn; [|done]. intros H.
    apply (IH u1 c1 u' c'); [|done]. by apply (press_step_ok p u c u1 c1).
Qed.

Lemma presses_app ps qs u c :
  presses (ps ++ qs) u c = ('(u, c) ← presses ps u c; presses qs u c).
Proof.
  revert u c. induction ps as [|p ps IH]; intros u c; [done|]. cbn.
  destruct (press_step p u c) as [[u1 c1]|]; cbn; [apply IH|done].
Qed.

(** The handlers never move the menu except through Select. *)
Lemma up_menu u : menu_index (up_btn u) = menu_index u.
Proof.
  unfold up_btn. destruct (menu_index u) as [|p|p] eqn:E; [done| |done].
  do 3 (destruct p as [p|p|]; try done).
Qed.
Lemma down_menu u : menu_index (down_btn u) = menu_index u.
Proof.
  unfold down_btn. destruct (menu_index u) as [|p|p] eqn:E; [done| |done].
  do 3 (destruct p as [p|p|]; try done).
Qed.

(** [n] presses of one button. *)
Fixpoint press_n (f : ui -> ui) (n : nat) (u : ui) : ui :=
  match n with O => u | S n => f (press_n f n u) end.

Lemma press_n_ok f n u : (forall u, ui_ok u -> ui_ok (f u)) -> ui_ok u -> ui_ok (press_n f n u).
Proof. intros Hf Hu. induction n; [done|]. by apply Hf. Qed.

Lemma press_n_menu f n u : (forall u, menu_index (f u) = menu_index u) ->
  menu_index (press_n f n u) = menu_index u.
Proof. intros Hf. induction n; [done|]. cbn. by rewrite Hf. Qed.

(** Up wraps around: the counter a menu edits, after [n] presses. *)
Lemma up_hours n u : ui_ok u -> menu_index u = 1 ->
  Hour (press_n up_btn n u) = (Hour u + Z.of_nat n) `mod` 24.
Proof.
  intros Hok Hm. induction n as [|n IH].
  - cbn. pose proof (uo_hour u Hok). rewrite Z.mod_small; lia.
  - pose proof (press_n_ok up_btn n u up_btn_ok Hok) as Hok'.
    cbn [press_n]. unfold up_btn at 1. rewrite press_n_menu, Hm by apply up_menu.
    cbn zeta. rewrite (uo_hours _ Hok'), IH. case_Z; cbn; zlia.
Qed.

Lemma up_minutes n u : ui_ok u -> menu_index u = 2 ->
  Minute (press_n up_btn n u) = (Minute u + Z.of_nat n) `mod` 60.
Proof.
  intros Hok Hm. induction n as [|n IH].
  - cbn. pose proof (uo_minute u Hok). rewrite Z.mod_small; lia.
  - pose proof (press_n_ok up_btn n u up_btn_ok Hok) as Hok'.
    cbn [press_n]. unfold up_btn at 1. rewrite press_n_menu, Hm by apply up_menu.
    cbn zeta. rewrite (uo_minutes _ Hok'), IH. case_Z; cbn; zlia.
Qed.

(** Months count from one. *)
Lemma up_months n u : ui_ok u -> menu_index u = 4 -> 1 <= monthbutton u ->
  Month (press_n up_btn n u) = (Month u - 1 + Z.of_nat n) `mod` 12 + 1.
Proof.
  intros Hok Hm H1.
  assert (Month (press_n up_btn n u) = (Month u - 1 + Z.of_nat n) `mod` 12 + 1 /\
          monthbutton (press_n up_btn n u) = Month (press_n up_btn n u)) as [? _]; [|done].
  induction n as [|n [IH1 IH2]].
  - cbn. destruct Hok. split; [|lia]. rewrite Z.mod_small; lia.
  - cbn [press_n]. unfold up_btn at 1 3 5. rewrite press_n_menu, Hm by apply up_menu.
    cbn zeta. rewrite IH2, IH1. split; [|done]. case_Z; cbn; zlia.
Qed.

Lemma down_hours n u : ui_ok u -> menu_index u = 1 ->
  Hour (press_n down_btn n u) = Z.max 0 (Hour u - Z.of_nat n).
Proof.
  intros Hok Hm. induction n as [|n IH].
  - cbn. pose proof (uo_hour u Hok). lia.
  - pose proof (press_n_ok down_btn n u down_btn_ok Hok) as Hok'.
    cbn [press_n]. unfold down_btn at 1. rewrite press_n_menu, Hm by apply down_menu.
    cbn zeta. rewrite (uo_hours _ Hok'), IH. case_Z; cbn; lia.
Qed.

(** ** Committing the menus to the clock *)

(** Under valid fields the last Select sets the clock to what was entered. *)
Lemma select_commits u c t1 t2 t3 t4 l : ui_ok u -> running c ->
  localtime_r (time c t1) = Some l -> 71 <= tm_year l <= 136 ->
  menu_index u = 5 -> 1 <= Month u -> uptime c t3 = uptime c t2 ->
  exists c', select_btn t1 t2 t3 t4 u c = Some (set_menu u 0, c') /\ running c' /\
    init_tick c' = init_tick c /\
    (forall t5, time c' t5 =
       tm_seconds (mk_tm (Second u) (Minute u) (Hour u) (Day u) (Month u - 1) 122 0 0 0)
       - RT_LIBC_FIXED_TIMEZONE * 3600 + (uptime c t5 - uptime c t4)).
Proof.
  intros Hok Hc Hl Hy Hm Hmo Hup. destruct Hok.
  destruct (commit_correct c t1 t2 t3 t4 2022 (Month u) (Day u) (Hour u) (Minute u) (Second u) l)
    as (c' & E & Hc' & Hi & Ht); try done; try lia.
  unfold select_btn. rewrite Hm. cbn [Z.gtb Z.compare Z.add]. rewrite E. cbn.
  exists c'. split; [done|]. split; [done|]. split; [done|]. apply Ht.
Qed.

(** With month zero the calendar reads the entry before its table. *)
Lemma timegm_carry_month_minus_one fuel mday year :
  timegm_carry fuel mday (-1) year = None \/
  timegm_carry fuel mday (-1) year = Some (mday, -1, year).
Proof.
  destruct fuel as [|fuel]; [by left|]. cbn [timegm_carry].
  change (__spm !!z (1 + -1)) with (Some 0). change (__spm !!z (-1)) with (@None Z).
  cbn [mbind option_bind Z.eqb Pos.eqb]. destruct (mday >? 0); [by left|by right].
Qed.

Lemma timegm_month_minus_one t : tm_mon t = -1 -> 0 <= tm_sec t < 60 -> 0 <= tm_min t < 60 ->
  0 <= tm_hour t < 24 -> 70 <= tm_year t -> timegm t = None.
Proof.
  intros Hmo Hs Hmi Hh Hy. unfold timegm. destruct (int32 (tm_year t - 70)) as [ys|]; [|done].
  cbn [mbind option_bind]. rewrite Hmo.
  do 4 (rewrite timegm_norm_small by lia; cbn [mbind option_bind]).
  destruct (timegm_carry_month_minus_one (carry_fuel (tm_mday t)) (tm_mday t) (tm_year t))
    as [-> | ->]; [done|].
  cbn [mbind option_bind]. rewrite (proj2 (Z.ltb_ge (tm_year t) 70)) by lia. by destruct (timegm_days ys).
Qed.

Lemma set_date_month_zero c t1 t2 y d : running c -> 1970 <= y < 10000 ->
  set_date c t1 t2 y 0 d = None.
Proof.
  intros Hc Hy. destruct (localtime_running c t1 Hc) as (l & E & Hv & _).
  unfold set_date, rtc_update, mktime. rewrite E. cbn [mbind option_bind].
  replace (s32 (u32 (0 - 1))) with (-1) by done. rewrite (u32_s32_small (y - 1900)) by lia.
  destruct Hv. rewrite timegm_month_minus_one; cbn [tm_mon tm_sec tm_min tm_hour tm_year]; (done || lia).
Qed.

(** Stepping the month down from its initial value twice and leaving the menus
    asks the clock for month zero. *)
Definition month_zero_presses (t1 t2 t3 t4 : Z) : list press :=
  let S := Select t1 t2 t3 t4 in [S; S; S; S; Down; Down; S; S].

(** From the boot state, five presses of "select" and two of "down" are
    enough to hand month zero to the clock: the down handler stops the month
    at 0 instead of 1, and [timegm] then reads its month table at index -1. *)
Theorem month_zero_reached c t1 t2 t3 t4 l : running c ->
  localtime_r (time c t1) = Some l -> 71 <= tm_year l <= 136 ->
  presses (month_zero_presses t1 t2 t3 t4) ui_boot c = None.
Proof.
  intros Hc El Hy. destruct (localtime_running c t1 Hc) as (l' & El' & Hv & _).
  rewrite El in El'. injection El' as <-.
  destruct (set_time_correct c t1 t2 0 0 0 l) as (c' & E & Hc' & _); [done..|].
  unfold month_zero_presses. unfold presses, press_step, select_btn, commit.
  lazy -[set_time set_date]. rewrite E.
  by rewrite set_date_month_zero.
Qed.

Lemma month_zero_reached_witness :
  presses (month_zero_presses 100 200 300 400) ui_boot booted = None.
Proof.
  apply (month_zero_reached booted 100 200 300 400 (mk_tm 0 0 8 1 0 118 1 0 0)).
  - apply booted_ok.
  - vm_compute. reflexivity.
  - vm_compute. intuition discriminate.
Defined.

(** That is the only press that is undefined. *)
Lemma press_undefined p u c : ui_ok u -> clock_ok c ->
  press_step p u c = None <->
  exists t1 t2 t3 t4, p = Select t1 t2 t3 t4 /\ menu_index u = 5 /\ Month u = 0.
Proof.
  intros Hu Hc. destruct p as [| |t1 t2 t3 t4]; cbn [press_step].
  { split; [done|by intros (?&?&?&?&?&_)]. } { split; [done|by intros (?&?&?&?&?&_)]. }
  unfold select_btn. destruct (clock_ok_local c t1 Hc) as (l & El & Hv & _ & _ & Hy).
  pose proof (uo_menu u Hu). rewrite Z.gtb_ltb. destruct (Z.ltb_spec 5 (menu_index u + 1)) as [H5|H5].
  2:{ split; [done|]. intros (?&?&?&?&_&E&_). lia. }
  destruct (decide (Month u = 0)) as [H0|H0].
  - split; [intros _; exists t1, t2, t3, t4; split_and!; [done|lia|done]|intros _].
    destruct Hc as [Hr _]. destruct Hu.
    destruct (set_time_correct c t1 t2 (Hour u) (Minute u) (Second u) l) as (c2 & E2 & Hr2 & _); try done.
    unfold commit. rewrite E2, H0. cbn [mbind option_bind]. by rewrite set_date_month_zero.
  - destruct Hu.
    destruct (commit_clock_ok c t1 t2 t3 t4 (Month u) (Day u) (Hour u) (Minute u) (Second u))
      as (c2 & E2 & _); try done; try lia.
    rewrite E2. split; [done|]. by intros (?&?&?&?&_&_&E).
Qed.

(** ** What any sequence of presses can do *)

(** Whatever is pressed after the boot, the menu stays among the six the
    display knows and every counter in the range its field can show. *)
Theorem buttons_in_range ps c u c' : presses ps ui_boot c = Some (u, c') ->
  0 <= menu_index u <= 5 /\ 0 <= Hour u < 24 /\ 0 <= Minute u < 60 /\ 0 <= Second u < 60 /\
  0 <= Month u <= 12 /\ 0 <= Day u <= 31.
Proof. intros H. destruct (presses_ok ps ui_boot c u c' ui_boot_ok H). lia. Qed.

Lemma buttons_in_range_witness :
  let S := Select 1 2 3 4 in
  match presses [S; Up; Up; S; Down; Up; S; S; Up; S; Up; S] ui_boot booted with
  | Some (u, c') => 0 <= menu_index u <= 5 /\ 0 <= Hour u < 24 /\ 0 <= Minute u < 60 /\
      0 <= Second u < 60 /\ 0 <= Month u <= 12 /\ 0 <= Day u <= 31
  | None => False
  end.
Proof.
  cbv zeta. destruct (presses _ ui_boot booted) as [[u c']|] eqn:E; [|by vm_compute in E].
  by apply (buttons_in_range _ booted u c' E).
Defined.

(** In its menu, [n] presses of "up" advance a counter by [n] round its range
    (hours modulo 24, minutes modulo 60, months 1 to 12), and [n] presses of
    "down" take the hours down by [n] and stop at zero. *)
Theorem buttons_count n u : ui_ok u ->
  (menu_index u = 1 -> Hour (press_n up_btn n u) = (Hour u + Z.of_nat n) `mod` 24 /\
     Hour (press_n down_btn n u) = Z.max 0 (Hour u - Z.of_nat n)) /\
  (menu_index u = 2 -> Minute (press_n up_btn n u) = (Minute u + Z.of_nat n) `mod` 60) /\
  (menu_index u = 4 -> 1 <= monthbutton u ->
     Month (press_n up_btn n u) = (Month u - 1 + Z.of_nat n) `mod` 12 + 1).
Proof.
  intros H. split; [intros Hm; split; [by apply up_hours|by apply down_hours]|].
  split; intros; [by apply up_minutes|by apply up_months].
Qed.

Lemma buttons_count_witness :
  let u := mk_ui 1 22 0 0 0 0 22 0 0 1 1 in
  Hour (press_n up_btn 5 u) = 3 /\ Hour (press_n down_btn 30 u) = 0.
Proof.
  destruct (buttons_count 5 (mk_ui 1 22 0 0 0 0 22 0 0 1 1)) as [H _]; [split; cbn; lia|].
  destruct (buttons_count 30 (mk_ui 1 22 0 0 0 0 22 0 0 1 1)) as [H' _]; [split; cbn; lia|].
  split; [apply (proj1 (H eq_refl))|apply (proj2 (H' eq_refl))].
Defined.
