(* ===== verification/Watch.v ===== *)
(** * Watch: the application's threads

    [applications/watch.c].  A thread is a [prog]: a sequence of actions, each
    a stretch of C code between two points where the scheduler may run
    something else, reading and writing the shared globals.  The branch
    conditions of a thread are evaluated in the state it is resumed in, so
    button interrupts and the other threads may run between any two actions.
    [None] is undefined behaviour: a character outside its font, a string
    read through a null pointer, a signed overflow, a number written past the
    end of its buffer. *)
From S2P Require Import Prelude Bytes Fonts St7789 CTime SoftRtc Buttons.

(** ** Memory of the small string buffers

    The buffers [itoa] writes are objects placed by the linker: where they are
    is a parameter, and so is [spare], the bytes behind each of the two-byte
    ones that no object uses.  C promises none; a linker that puts each on a
    word of its own leaves two.  Bytes nobody wrote are the zeros of [.bss]. *)
Record buffers := mk_buffers {
  stepString : Z; battString : Z;
  Hour_str : Z; Minute_str : Z; Second_str : Z; Day_str : Z;
  spare : nat }.

(** The room a number has in [char stepString[20]], [char battString[20]] and
    in [char Hour_str[2]] and its siblings. *)
Definition text_room : nat := 20.
Definition field_room (b : buffers) : nat := (2 + spare b)%nat.

(** [itoa(v, buf, 10)]: digits and a NUL, whatever the buffer's size. *)
Definition itoa_to (v a : Z) (m : memory) : memory := store a (itoa v ++ [0]) m.

(** The characters from [a] to the first NUL; [None] if there is none within
    [fuel] bytes. *)
Fixpoint str_at (fuel : nat) (m : memory) (a : Z) : option (list Z) :=
  match fuel with
  | O => None
  | S fuel =>
      if rd m a =? 0 then Some []
      else s ← str_at fuel m (a + 1); Some (rd m a :: s)
  end.

(** ** The globals of [watch.c] *)
Record watch := mk_watch {
  Theme : Z; Background : Z; themeChanged : Z;
  string : option (list Z);     (* what [string] points at; [None]: NULL *)
  steps : Z; aacx : Z; aacy : Z; aacz : Z; Batt : Z;
  w_ui : ui;
  mem : memory;
  w_clock : rtc;
  dynamic_sem : Z }.

Definition set_mem (m : memory) (w : watch) : watch :=
  mk_watch (Theme w) (Background w) (themeChanged w) (string w) (steps w)
    (aacx w) (aacy w) (aacz w) (Batt w) (w_ui w) m (w_clock w) (dynamic_sem w).
Definition set_theme (t : Z) (c : Z) (w : watch) : watch :=
  mk_watch t (Background w) c (string w) (steps w)
    (aacx w) (aacy w) (aacz w) (Batt w) (w_ui w) (mem w) (w_clock w) (dynamic_sem w).
Definition set_string (s : list Z) (w : watch) : watch :=
  mk_watch (Theme w) (Background w) (themeChanged w) (Some s) (steps w)
    (aacx w) (aacy w) (aacz w) (Batt w) (w_ui w) (mem w) (w_clock w) (dynamic_sem w).
Definition set_accel (x y z : Z) (w : watch) : watch :=
  mk_watch (Theme w) (Background w) (themeChanged w) (string w) (steps w)
    x y z (Batt w) (w_ui w) (mem w) (w_clock w) (dynamic_sem w).
Definition set_steps (n : Z) (w : watch) : watch :=
  mk_watch (Theme w) (Background w) (themeChanged w) (string w) n
    (aacx w) (aacy w) (aacz w) (Batt w) (w_ui w) (mem w) (w_clock w) (dynamic_sem w).
Definition set_batt (b : Z) (w : watch) : watch :=
  mk_watch (Theme w) (Background w) (themeChanged w) (string w) (steps w)
    (aacx w) (aacy w) (aacz w) b (w_ui w) (mem w) (w_clock w) (dynamic_sem w).
Definition set_ui (u : ui) (c : rtc) (w : watch) : watch :=
  mk_watch (Theme w) (Background w) (themeChanged w) (string w) (steps w)
    (aacx w) (aacy w) (aacz w) (Batt w) u (mem w) c (dynamic_sem w).
Definition set_sem (n : Z) (w : watch) : watch :=
  mk_watch (Theme w) (Background w) (themeChanged w) (string w) (steps w)
    (aacx w) (aacy w) (aacz w) (Batt w) (w_ui w) (mem w) (w_clock w) n.

(** ** Threads as sequences of actions *)
Definition action := watch -> option (watch * trace).

Inductive prog :=
  | Ret
  | Act (f : action) (k : watch -> prog).

(** Running a thread alone. *)
Fixpoint exec (p : prog) (w : watch) : option (watch * trace) :=
  match p with
  | Ret => Some (w, [])
  | Act f k => '(w, t) ← f w; '(w, t') ← exec (k w) w; Some (w, t ++ t')
  end.

Definition delay (ms : Z) (k : watch -> prog) : prog :=
  Act (fun w => Some (w, rt_thread_mdelay ms)) k.
Definition update (f : watch -> watch) (k : watch -> prog) : prog :=
  Act (fun w => Some (f w, [])) k.
Definition draw (d : watch -> option trace) (k : watch -> prog) : prog :=
  Act (fun w => t ← d w; Some (w, t)) k.

(** [itoa(val, buf, 10)] as a step of a thread: undefined when the digits and
    the NUL do not fit the room there is. *)
Definition write_number (room : nat) (val : watch -> Z) (a : Z) : action := fun w =>
  if (room <? length (itoa (val w)) + 1)%nat then None
  else Some (set_mem (itoa_to (val w) a (mem w)) w, []).

(** ** The clock at the start

    [rtc_sample], which [main] calls before the threads exist; [t1] to [t5] are
    the ticks at which the clock is read and written.  The text it prints is
    its last result. *)
Definition rtc_sample (t1 t2 t3 t4 t5 : Z) (u : ui) (c : rtc) : option (rtc * Z * list Z) :=
  '(ret, c) ← set_date c t1 t2 2022 (Month u) (Day u);
  if negb (ret =? RT_EOK) then Some (c, ret, chars "set RTC date failed") else
  '(ret, c) ← set_time c t3 t4 (Hour u) (Minute u) (Second u);
  if negb (ret =? RT_EOK) then Some (c, ret, chars "set RTC time failed") else
  buf ← ctime_r (time c t5);
  Some (c, ret, cstr buf).

(** ** The serial thread's command: [switch(ch)] of [serial_thread_entry]; the
    second component is what is written back after the echo. *)
Definition serial_command (ch : Z) (w : watch) : watch * list Z :=
  if ch =? 82 then (set_theme LCD_DISP_RED 1 w, [])            (* 'R' *)
  else if ch =? 71 then (set_theme LCD_DISP_GREEN 1 w, [])     (* 'G' *)
  else if ch =? 66 then (set_theme LCD_DISP_BLUE 1 w, [])      (* 'B' *)
  else if ch =? 89 then (set_theme LCD_DISP_YELLOW 1 w, [])    (* 'Y' *)
  else if ch =? 67 then (set_theme LCD_DISP_CYAN 1 w, [])      (* 'C' *)
  else if ch =? 77 then (set_theme LCD_DISP_MAGENTA 1 w, [])   (* 'M' *)
  else if ch =? 79 then (set_theme LCD_DISP_ORANGE 1 w, [])    (* 'O' *)
  else if ch =? 87 then (set_theme LCD_DISP_WHITE 1 w, [])     (* 'W' *)
  else (w, chars "Color Changed" ++ [13; 10]).

(** ** The sensors *)

Definition threshold : Z := 10500.

(** The movement measured by one accelerometer sample: [int] products and sum,
    a double square root truncated to [uint16_t], half of it. *)
Definition accel_sum (x y z : Z) : Z := x * x + y * y + z * z.
Definition totalvector (x y z : Z) : option Z :=
  let sum := accel_sum x y z in
  if sum >? 2147483647 then None else
  let vectorprevious := 0 in
  let vector := u16 (Z.sqrt sum) in
  Some (u16 (Z.quot (vector - vectorprevious) 2)).

(** Battery: the ADC value rescaled, every store a [uint16_t]. *)
Definition batt_scale (adc : Z) : Z :=
  let Batt := u16 adc in
  let Batt := u16 (Batt - 1800) in
  u16 (Z.quot (Batt * 100) 806).

(** One iteration of [getValues_entry]'s loop.  [tick] is the time of the
    clock read, [(x, y, z)] the sample the accelerometer delivers (16-bit
    registers read into [short]s), [adc] the converter's. *)
Definition getValues_body (b : buffers) (tick : Z) (x y z : Z) (adc : Z) : prog :=
  Act (fun w => buf ← ctime_r (time (w_clock w) tick); Some (set_string (cstr buf) w, []))
  (fun _ => update (set_accel (s16 x) (s16 y) (s16 z))
  (fun _ => delay 3
  (fun _ => Act (fun w => total ← totalvector (aacx w) (aacy w) (aacz w);
              if total >? threshold
              then Some (set_steps (s32 (steps w + 1)) w, rt_thread_mdelay 500)
              else Some (w, []))
  (fun _ => Act (write_number text_room steps (stepString b))
  (fun _ => update (set_batt (batt_scale adc))
  (fun _ => Act (write_number text_room (fun w => Batt w - 1) (battString b))
  (fun _ => delay 2
  (fun _ => update (fun w => if dynamic_sem w <? 65535
                             then set_sem (dynamic_sem w + 1) w else w)
  (fun _ => Ret))))))))).

(** ** The display thread *)

Definition str_fuel : nat := 20.

(** Colours: normal, or inverted for the field being edited. *)
Definition show_mem (x y : Z) (a : Z) (font : FontDef) (inv : bool) (w : watch) : option trace :=
  s ← str_at str_fuel (mem w) a;
  if inv then WriteString x y s font (Background w) (Theme w)
  else WriteString x y s font (Theme w) (Background w).

Definition show_lit (x y : Z) (s : list Z) (font : FontDef) (inv : bool) (w : watch)
    : option trace :=
  if inv then WriteString x y s font (Background w) (Theme w)
  else WriteString x y s font (Theme w) (Background w).

(** "If the value is below 10, this puts a 0 before the selected value". *)
Definition show_field (x y : Z) (val : watch -> Z) (a : Z) (font : FontDef) (inv : bool)
    (k : watch -> prog) : watch -> prog := fun w =>
  if val w <? 10 then
    draw (show_lit x y (chars "0") font inv) (fun _ => delay 1
    (fun _ => draw (show_mem (x + width font) y a font inv) (fun _ => delay 1 k)))
  else draw (show_mem x y a font inv) (fun _ => delay 1 k).

Definition symbols (k : watch -> prog) : prog :=
  draw (show_lit 210 10 (chars "%") Font_7x10 false) (fun _ => delay 1
  (fun _ => draw (show_lit 85 180 (chars "!") Clock_font false) (fun _ => delay 1 k))).

Definition basic_screen (b : buffers) : prog :=
  draw (show_mem 190 10 (battString b) Font_7x10 false) (fun _ => delay 1
  (fun _ => draw (fun w => s ← string w; RTC_ST7789_Time 40 60 s Clock_font (Theme w) (Background w))
  (fun _ => delay 1
  (fun _ => draw (fun w => s ← string w; RTC_ST7789_Date 65 120 s Font_11x18 (Theme w) (Background w))
  (fun _ => delay 1
  (fun _ => draw (show_mem 105 180 (stepString b) Font_11x18 false) (fun _ => delay 1
  (fun _ => Ret)))))))).

Definition month_name (m : Z) : list Z :=
  match m with
  | 1 => chars "Jan" | 2 => chars "Feb" | 3 => chars "Mar" | 4 => chars "Apr"
  | 5 => chars "May" | 6 => chars "Jun" | 7 => chars "Jul" | 8 => chars "Aug"
  | 9 => chars "Sep" | 10 => chars "Oct" | 11 => chars "Nov" | 12 => chars "Dec"
  | _ => chars "Jan"
  end.

Definition show_month (w : watch) : option trace :=
  RTC_ST7789_Date 109 120 (month_name (monthbutton (w_ui w))) Font_11x18
    (Background w) (Theme w).

(** [switch (menu_index)]. *)
Definition show_menu (b : buffers) (w : watch) : prog :=
  let u := w_ui w in
  match menu_index u with
  | 1 =>
      Act (write_number (field_room b) (fun w => Hour (w_ui w)) (Hour_str b))
      (show_field 40 60 (fun w => hoursbutton (w_ui w)) (Hour_str b) Clock_font true
      (fun _ => Ret))
  | 2 =>
      Act (write_number (field_room b) (fun w => Minute (w_ui w)) (Minute_str b))
      (show_field 40 60 (fun w => hoursbutton (w_ui w)) (Hour_str b) Clock_font false
      (show_field 100 60 (fun w => minutesbutton (w_ui w)) (Minute_str b) Clock_font true
      (fun _ => Ret)))
  | 3 =>
      Act (write_number (field_room b) (fun w => Second (w_ui w)) (Second_str b))
      (show_field 100 60 (fun w => minutesbutton (w_ui w)) (Minute_str b) Clock_font false
      (show_field 160 60 (fun w => secondsbutton (w_ui w)) (Second_str b) Clock_font true
      (fun _ => Ret)))
  | 4 =>
      show_field 160 60 (fun w => secondsbutton (w_ui w)) (Second_str b) Clock_font false
      (fun _ => draw show_month (fun _ => delay 1 (fun _ => Ret))) w
  | 5 =>
      Act (write_number (field_room b) (fun w => Day (w_ui w)) (Day_str b))
      (show_field 153 120 (fun w => daysbutton (w_ui w)) (Day_str b) Font_11x18 true
      (fun _ => Ret))
  | _ => basic_screen b
  end.

(** The body of [showValues_entry]'s loop after a successful take. *)
Definition showValues_body (b : buffers) (w : watch) : prog :=
  if themeChanged w =? 1 then
    symbols (fun w => update (fun w => set_theme (Theme w) 0 w) (show_menu b))
  else show_menu b w.
