(* ===== verification/WatchSystem.v ===== *)
(** * WatchSystem: the threads together

    The transition system of [applications/watch.c]: [getValues], [showValues],
    the serial thread and the button interrupts over the shared globals, with
    an invariant showing what the display threads can do wrong in any
    interleaving: write a two-digit number into a two-byte buffer. *)
From S2P Require Import Prelude Bytes Fonts St7789 Panel CTime SoftRtc Buttons Watch.

(** ** The string buffers *)

Definition itoa_char (c : Z) : Prop := c = 45 \/ 48 <= c < 58.

(** The characters [l] and the NUL behind them at [a]. *)
Definition holds (m : memory) (a : Z) (l : list Z) : Prop :=
  forall i, (i <= length l)%nat -> rd m (a + Z.of_nat i) = nth i l 0.

Lemma holds_store l a m : holds (store a (l ++ [0]) m) a l.
Proof.
  intros i Hi. rewrite rd_store, length_app. cbn [length].
  rewrite decide_True by lia. replace (Z.to_nat (a + Z.of_nat i - a)) with i by lia.
  destruct (decide (i < length l)%nat).
  - by rewrite app_nth1.
  - rewrite app_nth2, (nth_overflow l) by lia. by replace (i - length l)%nat with O by lia.
Qed.

Lemma holds_store_other l a m l' a' :
  a + Z.of_nat (length l) < a' \/ a' + Z.of_nat (length l') < a ->
  holds m a l -> holds (store a' (l' ++ [0]) m) a l.
Proof.
  intros Hd H i Hi. rewrite rd_store, length_app. cbn [length].
  rewrite decide_False by lia. by apply H.
Qed.

Lemma str_at_holds l : forall fuel a m, Forall itoa_char l -> (length l < fuel)%nat ->
  holds m a l -> str_at fuel m a = Some l.
Proof.
  induction l as [|c l IH]; intros fuel a m Hl Hf H; (destruct fuel as [|fuel]; [cbn in Hf; lia|]).
  - cbn. pose proof (H O ltac:(done)) as H0. cbn in H0. rewrite Z.add_0_r in H0. by rewrite H0.
  - apply Forall_cons in Hl as [Hc Hl]. cbn [str_at].
    pose proof (H O ltac:(cbn; lia)) as H0. cbn in H0. rewrite Z.add_0_r in H0. rewrite H0.
    rewrite (proj2 (Z.eqb_neq c 0)) by (unfold itoa_char in Hc; lia).
    rewrite (IH fuel (a + 1) m); [done|done|cbn in Hf; lia|].
    intros i Hi. pose proof (H (S i) ltac:(cbn; lia)) as HS. cbn in HS.
    rewrite <- HS. f_equal. lia.
Qed.

(** A buffer: where it is, its bytes as it is declared ([watch.c:29], [:34] and
    [:42]), and the unused bytes behind it. *)
Record region := mk_region { r_addr : Z; r_len : nat; r_pad : nat }.

Definition regions (b : buffers) : list region :=
  [mk_region (stepString b) text_room 0; mk_region (battString b) text_room 0;
   mk_region (Hour_str b) 2 (spare b); mk_region (Minute_str b) 2 (spare b);
   mk_region (Second_str b) 2 (spare b); mk_region (Day_str b) 2 (spare b)].

(** No byte of a buffer, or behind it, is another one's. *)
Definition buffers_wf (b : buffers) : Prop :=
  forall i j r1 r2, regions b !! i = Some r1 -> regions b !! j = Some r2 -> i <> j ->
  r_addr r1 + Z.of_nat (r_len r1 + r_pad r1) <= r_addr r2 \/
  r_addr r2 + Z.of_nat (r_len r2 + r_pad r2) <= r_addr r1.

(** A number with its digits inside the buffer and its NUL there or in the
    unused bytes. *)
Definition text_at (m : memory) (r : region) : Prop :=
  exists l, (length l <= r_len r)%nat /\ (length l < r_len r + r_pad r)%nat /\
    Forall itoa_char l /\ holds m (r_addr r) l.

Definition texts (b : buffers) (m : memory) : Prop :=
  forall i r, regions b !! i = Some r -> text_at m r.

Lemma itoa_itoa_char v : Forall itoa_char (itoa v).
Proof. apply itoa_chars. Qed.

(** [itoa] of a number that fits its buffer keeps every buffer a number. *)
Lemma texts_itoa b m v i r : buffers_wf b -> texts b m -> regions b !! i = Some r ->
  (length (itoa v) <= r_len r)%nat -> (length (itoa v) < r_len r + r_pad r)%nat ->
  texts b (itoa_to v (r_addr r) m).
Proof.
  intros Hb Ht Hi Hlen Hpad j r' Hj. unfold itoa_to. destruct (decide (i = j)) as [<-|Hne].
  - rewrite Hi in Hj. injection Hj as <-. exists (itoa v).
    split; [done|]. split; [done|]. split; [apply itoa_itoa_char|apply holds_store].
  - destruct (Ht j r' Hj) as (l & Hl & Hl' & Hc & Hh). exists l. split; [done|]. split; [done|].
    split; [done|]. apply holds_store_other; [|done].
    destruct (Hb i j r r' Hi Hj Hne); lia.
Qed.

(** Cases on the six buffers. *)
Tactic Notation "buffers" ident(i) hyp(H) tactic(tac) :=
  do 6 (destruct i as [|i]; [injection H as <-; solve [tac]|]); done.

Lemma texts_empty b : texts b ∅.
Proof.
  intros i r Hr. exists []. split_and!.
  - cbn; lia.
  - buffers i Hr (cbn; unfold text_room; lia).
  - done.
  - intros i' Hi'. unfold rd. by destruct i'.
Qed.

(** A field shows at most two digits. *)
Lemma itoa_field_length v : 0 <= v < 100 -> length (itoa v) = if v <? 10 then 1%nat else 2%nat.
Proof. intros Hv. rewrite itoa_two by done. by destruct (v <? 10). Qed.

Lemma str_at_text b m i r : texts b m -> regions b !! i = Some r ->
  exists s, str_at str_fuel m (r_addr r) = Some s /\ Forall itoa_char s.
Proof.
  intros Ht Hr. destruct (Ht i r Hr) as (l & Hl & Hl' & Hc & Hh). exists l. split; [|done].
  apply str_at_holds; [done| |done].
  buffers i Hr (cbn in *; unfold str_fuel, text_room in *; lia).
Qed.

(** ** Drawing succeeds *)

Lemma itoa_char_printable font c : covers font 45 = true -> covers font 57 = true ->
  0 <= height font -> itoa_char c -> printable font c.
Proof.
  unfold printable, covers, itoa_char. rewrite !andb_true_iff, !Z.leb_le. intros. right.
  nia.
Qed.

Lemma print_loop_total sp font color bg i x y s : font_wf font -> Forall (printable font) s ->
  is_Some (print_loop sp font color bg i x y s).
Proof. intros Hf Hs. by rewrite print_loop_layout. Qed.

Lemma WriteString_total font color bg x y s : font_wf font -> Forall (printable font) s ->
  is_Some (WriteString x y s font color bg).
Proof.
  intros Hf Hs. unfold WriteString.
  destruct (print_loop_total sp_string font color bg 0 x y s Hf Hs) as [t ->]. by eexists.
Qed.

(** The fonts the watch uses for numbers. *)
Definition number_font (font : FontDef) : Prop :=
  font_wf font /\ forall c, itoa_char c -> printable font c.

Lemma number_font_7x10 : number_font Font_7x10.
Proof. split; [auto with cint|]. intros c. by apply itoa_char_printable. Qed.
Lemma number_font_11x18 : number_font Font_11x18.
Proof. split; [auto with cint|]. intros c. by apply itoa_char_printable. Qed.
Lemma number_font_clock : number_font Clock_font.
Proof. split; [auto with cint|]. intros c. by apply itoa_char_printable. Qed.
Create HintDb watch discriminated.
#[export] Hint Resolve number_font_7x10 number_font_11x18 number_font_clock : watch.

(** ** The invariant of the globals *)

Definition date_text (s : list Z) : Prop :=
  (11 <= length s)%nat /\ Forall (printable Font_11x18) s /\
  Forall (printable Clock_font) (drop 11 s).

Record watch_ok (b : buffers) (w : watch) : Prop := {
  wo_theme : 0 <= Theme w < 65536;
  wo_back : 0 <= Background w < 65536;
  wo_accel : accel_sum (aacx w) (aacy w) (aacz w) <= 2147483647;
  wo_steps : -2147483648 <= steps w < 2147483648;
  wo_batt : 0 <= Batt w < 65536;
  wo_ui : ui_ok (w_ui w);
  wo_clock : clock_ok (w_clock w);
  wo_texts : texts b (mem w);
  wo_string : forall s, string w = Some s -> date_text s;
  wo_sem : 0 <= dynamic_sem w <= 65535;
  wo_ready : 0 < dynamic_sem w -> is_Some (string w) }.

(** The text [ctime] leaves for a running clock suits both fonts. *)
Lemma ctime_r_date_text c tick : clock_ok c ->
  exists buf, ctime_r (time c tick) = Some buf /\ date_text (cstr buf).
Proof.
  intros Hc. destruct (clock_ok_local c tick Hc) as (l & E & Hv & Hw & _ & Hy).
  destruct (asctime_r_form l Hv Hw ltac:(lia)) as (d & Hd & Hdt & Ea).
  unfold ctime_r. rewrite E. cbn [mbind option_bind]. rewrite Ea. eexists. split; [done|].
  pose proof (clock_text_chars (tm_hour l) (tm_min l) (tm_sec l) (tv_hour l Hv)
    (tv_min l Hv) (tv_sec l Hv)) as Hclk.
  pose proof (two_digits_range ((tm_year l + 1900) / 100) ltac:(zlia)) as Hy1.
  pose proof (two_digits_range ((tm_year l + 1900) `mod` 100) ltac:(zlia)) as Hy2.
  set (clk := clock_text _ _ _) in *. set (y1 := two_digits _) in *.
  set (y2 := two_digits ((tm_year l + 1900) `mod` 100)) in *.
  clearbody clk y1 y2.
  set (rest := clk ++ [32] ++ y1 ++ y2 ++ [10]).
  replace (d ++ clk ++ [32] ++ y1 ++ y2 ++ [10; 0]) with ((d ++ rest) ++ 0 :: [])
    by (unfold rest; rewrite <- !app_assoc; done).
  assert (Forall (fun c => c = 10 \/ 32 <= c <= 58) rest) as Hrest.
  { unfold rest. repeat apply Forall_app_2.
    - eapply Forall_impl; [apply Hclk|cbn; lia].
    - repeat constructor; lia.
    - eapply Forall_impl; [apply Hy1|cbn; lia].
    - eapply Forall_impl; [apply Hy2|cbn; lia].
    - repeat constructor; lia. }
  rewrite cstr_app.
  2:{ apply Forall_app_2; (eapply Forall_impl; [eassumption|]); unfold name_text; cbn; lia. }
  assert (forall c, 32 <= c < 127 -> printable Font_11x18 c) as P11.
  { intros x Hx. right. unfold covers. rewrite andb_true_iff, !Z.leb_le.
    assert (Z.of_nat (length (data Font_11x18)) = 95 * 18) as -> by (by vm_compute).
    cbn [height Font_11x18]. lia. }
  assert (forall c, 32 <= c <= 58 -> printable Clock_font c) as PC.
  { intros x Hx. right. unfold covers. rewrite andb_true_iff, !Z.leb_le.
    assert (Z.of_nat (length (data Clock_font)) = 27 * 50) as -> by (by vm_compute).
    cbn [height Clock_font]. lia. }
  split; [rewrite length_app; lia|]. split.
  - apply Forall_app_2; (eapply Forall_impl; [eassumption|]).
    + intros x Hx. by apply P11.
    + intros x [->|Hx]; [by left|]. apply P11. lia.
  - rewrite <- Hd, drop_app_length. eapply Forall_impl; [exact Hrest|].
    intros x [->|Hx]; [by left|]. by apply PC.
Qed.

(** ** Threads that can only overrun a two-byte buffer

    [safe b P p]: from every state satisfying [P], each action of [p] is
    defined and keeps [P], whatever the other threads did before it - or writes
    a two-digit number into a two-byte buffer with nothing spare behind it. *)
Definition field_buffers (b : buffers) : list ((watch -> Z) * Z) :=
  [(fun w => Hour (w_ui w), Hour_str b); (fun w => Minute (w_ui w), Minute_str b);
   (fun w => Second (w_ui w), Second_str b); (fun w => Day (w_ui w), Day_str b)].

Definition overruns (b : buffers) (f : action) (w : watch) : Prop :=
  spare b = O /\ exists i val a, field_buffers b !! i = Some (val, a) /\
    f = write_number (field_room b) val a /\ 10 <= val w.

Definition good (b : buffers) (w : watch) : Prop := watch_ok b w /\ is_Some (string w).

Definition safe_act (b : buffers) (P : watch -> Prop) (f : action) : Prop :=
  forall w, P w -> (exists w' t, f w = Some (w', t) /\ P w') \/ (f w = None /\ overruns b f w).

Fixpoint safe (b : buffers) (P : watch -> Prop) (p : prog) : Prop :=
  match p with
  | Ret => True
  | Act f k => safe_act b P f /\ forall w, P w -> safe b P (k w)
  end.

Section Safe.
Context (b : buffers) (P : watch -> Prop).

Lemma safe_delay ms k : (forall w, P w -> safe b P (k w)) -> safe b P (delay ms k).
Proof. intros Hk. split; [|done]. intros w Hw. left. by exists w, (rt_thread_mdelay ms). Qed.

Lemma safe_update f k : (forall w, P w -> P (f w)) ->
  (forall w, P w -> safe b P (k w)) -> safe b P (update f k).
Proof. intros Hf Hk. split; [|done]. intros w Hw. left. exists (f w), []. split; [done|by apply Hf]. Qed.

Lemma safe_draw d k : (forall w, P w -> is_Some (d w)) ->
  (forall w, P w -> safe b P (k w)) -> safe b P (draw d k).
Proof.
  intros Hd Hk. split; [|done]. intros w Hw. left. destruct (Hd w Hw) as [t E]. exists w, t.
  by rewrite E.
Qed.

End Safe.

(** Changing the memory under the invariant. *)
Lemma good_mem b w m : good b w -> texts b m -> good b (set_mem m w).
Proof. intros [[] Hs] Ht. by split; [split|]. Qed.

Lemma good_itoa b w v i r : buffers_wf b -> good b w -> regions b !! i = Some r ->
  (length (itoa v) <= r_len r)%nat -> (length (itoa v) < r_len r + r_pad r)%nat ->
  good b (set_mem (itoa_to v (r_addr r) (mem w)) w).
Proof.
  intros Hb Hw Hi Hl Hp. apply good_mem; [done|]. eapply texts_itoa; [done| |done..].
  apply (wo_texts b w), Hw.
Qed.

(** A number of any [int] fits a twenty-byte buffer. *)
Lemma safe_text b i val a k : buffers_wf b -> regions b !! i = Some (mk_region a text_room 0) ->
  (forall w, good b w -> -2147483648 <= val w < 2147483648) ->
  (forall w, good b w -> safe b (good b) (k w)) ->
  safe b (good b) (Act (write_number text_room val a) k).
Proof.
  intros Hb Hr Hv Hk. split; [|done]. intros w Hw. left. unfold write_number.
  pose proof (itoa_length (val w) (Hv w Hw)) as Hl.
  rewrite (proj2 (Nat.ltb_ge _ _)) by (unfold text_room; lia). do 2 eexists. split; [done|].
  apply (good_itoa b w _ i (mk_region a text_room 0)); cbn; unfold text_room; (done || lia).
Qed.

(** A field fits when it has one digit, or the buffer a byte to spare. *)
Lemma safe_field b i j val a k : buffers_wf b ->
  field_buffers b !! i = Some (val, a) -> regions b !! j = Some (mk_region a 2 (spare b)) ->
  (forall w, good b w -> 0 <= val w < 100) ->
  (forall w, good b w -> safe b (good b) (k w)) ->
  safe b (good b) (Act (write_number (field_room b) val a) k).
Proof.
  intros Hb Hf Hr Hv Hk. split; [|done]. intros w Hw. specialize (Hv w Hw). unfold write_number, field_room.
  pose proof (itoa_field_length (val w) Hv) as Hl.
  destruct (Nat.ltb_spec (2 + spare b) (length (itoa (val w)) + 1)) as [Hlt|Hge].
  - right. split; [done|]. destruct (Z.ltb_spec (val w) 10); [lia|].
    split; [lia|]. exists i, val, a. done.
  - left. do 2 eexists. split; [done|].
    apply (good_itoa b w _ j (mk_region a 2 (spare b))); cbn; try done; [|lia].
    rewrite Hl. destruct (val w <? 10); lia.
Qed.

Lemma show_mem_total b w x y i r font inv : good b w -> regions b !! i = Some r ->
  number_font font -> is_Some (show_mem x y (r_addr r) font inv w).
Proof.
  intros [Hw _] Hr [Hf Hc]. unfold show_mem.
  destruct (str_at_text b (mem w) i r (wo_texts b w Hw) Hr) as (s & -> & Hs).
  cbn [mbind option_bind].
  destruct inv; apply WriteString_total; try done; by eapply Forall_impl.
Qed.

Lemma show_lit_total w x y s font inv : font_wf font -> Forall (printable font) s ->
  is_Some (show_lit x y s font inv w).
Proof. intros Hf Hs. unfold show_lit. by destruct inv; apply WriteString_total. Qed.

Lemma show_field_safe b x y val i r font inv k : regions b !! i = Some r ->
  number_font font -> (forall w, good b w -> safe b (good b) (k w)) ->
  forall w, good b w -> safe b (good b) (show_field x y val (r_addr r) font inv k w).
Proof.
  intros Hr Hf Hk w Hw. unfold show_field. destruct (val w <? 10).
  - apply safe_draw.
    { intros w1 _. apply show_lit_total; [apply Hf|]. apply Forall_singleton, Hf. right.
      done. }
    intros _ _. apply safe_delay. intros _ _. apply safe_draw; [|intros; by apply safe_delay].
    intros w1 Hw1. by eapply show_mem_total.
  - apply safe_draw; [|intros; by apply safe_delay]. intros w1 Hw1. by eapply show_mem_total.
Qed.

Lemma RTC_Time_total x y s color bg : date_text s ->
  is_Some (RTC_ST7789_Time x y s Clock_font color bg).
Proof.
  intros (Hl & _ & Hs). unfold RTC_ST7789_Time. rewrite decide_False by lia.
  destruct (print_loop_total sp_time Clock_font color bg 0 x y (drop 11 s)
    ltac:(auto with cint) Hs) as [t ->]. by eexists.
Qed.

Lemma RTC_Date_total x y s color bg : Forall (printable Font_11x18) s ->
  is_Some (RTC_ST7789_Date x y s Font_11x18 color bg).
Proof.
  intros Hs. unfold RTC_ST7789_Date.
  destruct (print_loop_total sp_date Font_11x18 color bg 0 x y s ltac:(auto with cint) Hs)
    as [t ->]. by eexists.
Qed.

Lemma basic_screen_safe b : safe b (good b) (basic_screen b).
Proof.
  unfold basic_screen.
  apply safe_draw; [intros w Hw; by apply (show_mem_total b w _ _ 1 (mk_region (battString b) text_room 0)); auto with watch|].
  intros _ _. apply safe_delay. intros _ _.
  apply safe_draw.
  { intros w [Hw [s Es]]. rewrite Es. cbn. by apply RTC_Time_total, (wo_string b w Hw). }
  intros _ _. apply safe_delay. intros _ _.
  apply safe_draw.
  { intros w [Hw [s Es]]. rewrite Es. cbn. by apply RTC_Date_total, (wo_string b w Hw). }
  intros _ _. apply safe_delay. intros _ _.
  apply safe_draw; [intros w Hw; by apply (show_mem_total b w _ _ 0 (mk_region (stepString b) text_room 0)); auto with watch|].
  intros _ _. by apply safe_delay.
Qed.

Lemma month_name_printable m : Forall (printable Font_11x18) (month_name m).
Proof.
  assert (forall a c d, covers Font_11x18 a && covers Font_11x18 c && covers Font_11x18 d = true ->
    a < 256 -> c < 256 -> d < 256 -> Forall (printable Font_11x18) [a; c; d]) as H3.
  { intros a c d H ???. apply andb_true_iff in H as [[? ?]%andb_true_iff ?].
    repeat apply Forall_cons_2; try apply Forall_nil_2; by right. }
  unfold month_name.
  destruct m as [|p|p]; [by apply H3| |by apply H3].
  do 4 (destruct p as [p|p|]; try by apply H3).
Qed.

Definition field_region (b : buffers) (a : Z) : region := mk_region a 2 (spare b).

Lemma show_menu_safe b w : buffers_wf b -> good b w -> safe b (good b) (show_menu b w).
Proof.
  intros Hb Hw. unfold show_menu.
  assert (forall w, good b w -> ui_ok (w_ui w)) as Hui by (intros ? []; by eapply wo_ui).
  pose proof (Hui w Hw) as Hu.
  assert (forall x y val i a font inv k, regions b !! i = Some (field_region b a) ->
    number_font font -> (forall w, good b w -> safe b (good b) (k w)) ->
    forall w, good b w -> safe b (good b) (show_field x y val a font inv k w)) as Hfield.
  { intros x y val i a font inv k Hi. exact (show_field_safe b x y val i (field_region b a) font inv k Hi). }
  assert (forall v lo hi, (forall u, ui_ok u -> lo <= v u < hi) -> 0 <= lo -> hi <= 100 ->
    forall w, good b w -> 0 <= v (w_ui w) < 100) as Hrange.
  { intros v lo hi Hv Hlo Hhi w1 Hw1. specialize (Hv _ (Hui w1 Hw1)). lia. }
  menus Hu; cbn zeta.
  - apply basic_screen_safe.
  - apply (safe_field b 0 2); try done; [apply (Hrange Hour 0 24); try lia; apply uo_hour|].
    apply (Hfield _ _ _ 2%nat); auto with watch. done.
  - apply (safe_field b 1 3); try done; [apply (Hrange Minute 0 60); try lia; apply uo_minute|].
    apply (Hfield _ _ _ 2%nat); auto with watch. apply (Hfield _ _ _ 3%nat); auto with watch. done.
  - apply (safe_field b 2 4); try done; [apply (Hrange Second 0 60); try lia; apply uo_second|].
    apply (Hfield _ _ _ 3%nat); auto with watch. apply (Hfield _ _ _ 4%nat); auto with watch. done.
  - apply (Hfield _ _ _ 4%nat); auto with watch.
    intros w1 _. apply safe_draw; [|intros; by apply safe_delay].
    intros w2 _. apply RTC_Date_total, month_name_printable.
  - apply (safe_field b 3 5); try done.
    { apply (Hrange Day 0 32); try lia. intros u Hu1. pose proof (uo_day u Hu1). lia. }
    apply (Hfield _ _ _ 5%nat); auto with watch. done.
Qed.

Lemma symbols_safe b (P : watch -> Prop) k : (forall w, P w -> safe b P (k w)) -> safe b P (symbols k).
Proof.
  intros Hk. unfold symbols. apply safe_draw.
  { intros; apply show_lit_total; auto with cint. apply Forall_singleton. right. done. }
  intros _ _. apply safe_delay. intros _ _. apply safe_draw.
  { intros; apply show_lit_total; auto with cint. apply Forall_singleton. right. done. }
  intros _ _. by apply safe_delay.
Qed.

Lemma showValues_body_safe b w : buffers_wf b -> good b w -> safe b (good b) (showValues_body b w).
Proof.
  intros Hb Hw. unfold showValues_body. destruct (themeChanged w =? 1); [|by apply show_menu_safe].
  apply symbols_safe. intros w1 Hw1. apply safe_update.
  - intros w2 [[] Hs]. by split; [split|].
  - intros w2 Hw2. by apply show_menu_safe.
Qed.

(** ** The sensor thread *)

Lemma accel_sum_nonneg x y z : 0 <= accel_sum x y z.
Proof. unfold accel_sum. nia. Qed.

Lemma totalvector_total x y z : accel_sum x y z <= 2147483647 -> is_Some (totalvector x y z).
Proof. intros H. unfold totalvector. rewrite Z.gtb_ltb, (proj2 (Z.ltb_ge _ _)) by done. by eexists. Qed.

(** The rest of an iteration of [getValues], after the time was read. *)
Definition getValues_rest (b : buffers) (tick x y z adc : Z) : prog :=
  match getValues_body b tick x y z adc with
  | Ret => Ret
  | Act _ k => k (mk_watch 0 0 0 None 0 0 0 0 0 ui_boot ∅ boot 0)
  end.

Lemma getValues_body_unfold b tick x y z adc :
  getValues_body b tick x y z adc =
  Act (fun w => buf ← ctime_r (time (w_clock w) tick); Some (set_string (cstr buf) w, []))
      (fun _ => getValues_rest b tick x y z adc).
Proof. done. Qed.

Lemma getValues_rest_safe b tick x y z adc : buffers_wf b ->
  accel_sum (s16 x) (s16 y) (s16 z) <= 2147483647 -> safe b (good b) (getValues_rest b tick x y z adc).
Proof.
  intros Hb Hsum. unfold getValues_rest, getValues_body.
  apply safe_update; [intros w [[] ?]; by split; [split|]|]. intros _ _.
  apply safe_delay. intros _ _. split.
  { intros w Hw. pose proof (wo_accel b w (proj1 Hw)) as Ha.
    destruct (totalvector_total _ _ _ Ha) as [v ->]. cbn [mbind option_bind].
    left. destruct (v >? threshold); do 2 eexists; (split; [done|]); [|done].
    destruct Hw as [[] ?]. split; [split; cbn; try done; apply s32_range|done]. }
  intros _ _. apply (safe_text b 0); [done|done|intros w [Hw _]; by apply (wo_steps b)|].
  intros _ _. apply safe_update.
  { intros w [[] ?]. split; [split; cbn; try done; apply u16_range|done]. }
  intros _ _. apply (safe_text b 1); [done|done| |].
  { intros w [Hw _]. pose proof (wo_batt b w Hw). lia. }
  intros _ _. apply safe_delay. intros _ _. apply safe_update; [|done].
  intros w Hw. destruct (Z.ltb_spec (dynamic_sem w) 65535); [|done].
  destruct Hw as [[] ?]. split; [split; cbn; try done; lia|done].
Qed.

(** Reading the time makes the string, from any state of the invariant. *)
Lemma read_time_good b w tick : watch_ok b w ->
  exists buf, ctime_r (time (w_clock w) tick) = Some buf /\ good b (set_string (cstr buf) w).
Proof.
  intros Hw. destruct (ctime_r_date_text (w_clock w) tick (wo_clock b w Hw)) as (buf & E & Hd).
  exists buf. split; [done|]. destruct Hw. split; [|by eexists].
  split; cbn; try done. by intros s [= <-].
Qed.

(** ** The whole application

    [get] and [show] are what is left of the current iteration of the two
    threads, as functions of the state they are resumed in. *)
Record system := mk_sys { g : watch; get : watch -> prog; show : watch -> prog }.

Definition idle : watch -> prog := fun _ => Ret.

(** [showValues_entry] before its loop: the two symbols are drawn once. *)
Definition showValues_start : watch -> prog := fun _ => symbols idle.

Inductive sys_step (b : buffers) : system -> trace -> system -> Prop :=
  | get_act s f k w t : get s (g s) = Act f k -> f (g s) = Some (w, t) ->
      sys_step b s t (mk_sys w k (show s))
  | get_loop s tick x y z adc : get s (g s) = Ret ->
      accel_sum (s16 x) (s16 y) (s16 z) <= 2147483647 ->
      sys_step b s [] (mk_sys (g s) (fun _ => getValues_body b tick x y z adc) (show s))
  | show_act s f k w t : show s (g s) = Act f k -> f (g s) = Some (w, t) ->
      sys_step b s t (mk_sys w (get s) k)
  | show_take s : show s (g s) = Ret -> 0 < dynamic_sem (g s) ->
      sys_step b s [] (mk_sys (set_sem (dynamic_sem (g s) - 1) (g s)) (get s) (showValues_body b))
  | button s p u c : press_step p (w_ui (g s)) (w_clock (g s)) = Some (u, c) ->
      sys_step b s [] (mk_sys (set_ui u c (g s)) (get s) (show s))
  | serial s ch : sys_step b s [] (mk_sys (fst (serial_command ch (g s))) (get s) (show s)).

Inductive sys_reach (b : buffers) (s0 : system) : system -> Prop :=
  | reach_refl : sys_reach b s0 s0
  | reach_step s t s' : sys_reach b s0 s -> sys_step b s t s' -> sys_reach b s0 s'.

(** The globals as [Main_Threads] leaves them, the clock running. *)
Definition watch_boot (c : rtc) : watch :=
  mk_watch LCD_DISP_GREEN LCD_DISP_BLACK 0 None 0 0 0 0 0 ui_boot ∅ c 0.
Definition sys_boot (c : rtc) : system := mk_sys (watch_boot c) idle showValues_start.

(** The next action of a thread. *)
Definition pending (s : system) (f : action) : Prop :=
  exists k, get s (g s) = Act f k \/ show s (g s) = Act f k.

(** [s] is about to do something undefined: in a thread, or in a button's
    handler if that button is pressed. *)
Definition thread_wrong (s : system) : Prop := exists f, pending s f /\ f (g s) = None.
Definition press_wrong (s : system) (p : press) : Prop := press_step p (w_ui (g s)) (w_clock (g s)) = None.

(** A thread that leaves the globals alone needs no string; any other runs when
    there is one. *)
Fixpoint quiet (p : prog) : Prop :=
  match p with
  | Ret => True
  | Act f k => (forall w, exists t, f w = Some (w, t)) /\ forall w, quiet (k w)
  end.

Definition thread_safe (b : buffers) (w : watch) (k : watch -> prog) : Prop :=
  (forall w, quiet (k w)) \/ (is_Some (string w) /\ forall w, good b w -> safe b (good b) (k w)).

Lemma showValues_start_quiet w : quiet (showValues_start w).
Proof.
  assert (forall x y c font w, font_wf font -> printable font c ->
    exists t, (t ← show_lit x y [c] font false w; Some (w, t)) = Some (w, t)) as Hlit.
  { intros x y c font w1 Hf Hc. destruct (show_lit_total w1 x y [c] font false Hf) as [t ->];
      [by apply Forall_singleton|]. by exists t. }
  cbn. split_and!; intros w1; [apply Hlit; [auto with cint|by right]|].
  split_and!; intros w2; [by eexists|].
  split_and!; intros w3; [apply Hlit; [auto with cint|by right]|].
  split_and!; intros w4; [by eexists|done].
Qed.

Record sys_ok (b : buffers) (s : system) : Prop := {
  so_globals : watch_ok b (g s);
  so_show : thread_safe b (g s) (show s);
  so_get : thread_safe b (g s) (get s) \/
    exists tick x y z adc, accel_sum (s16 x) (s16 y) (s16 z) <= 2147483647 /\
      get s = fun _ => getValues_body b tick x y z adc }.

Lemma watch_boot_ok b c : clock_ok c -> watch_ok b (watch_boot c).
Proof.
  intros Hc. split; cbn; try done; try lia.
  - apply ui_boot_ok.
  - apply texts_empty.
Qed.

Lemma press_clock_ok p u c u' c' : ui_ok u -> clock_ok c -> press_step p u c = Some (u', c') ->
  clock_ok c'.
Proof.
  intros Hu Hc. destruct p as [| |t1 t2 t3 t4]; cbn [press_step]; [by intros [= <- <-]..|].
  unfold select_btn. case_Z; [|by intros [= <- <-]].
  destruct (commit c t1 t2 t3 t4 2022 (Month u) (Day u) (Hour u) (Minute u) (Second u))
    as [c1|] eqn:E; cbn; [|done]. intros [= <- <-].
  destruct (decide (Month u = 0)) as [H0|H0].
  - destruct (clock_ok_local c t1 Hc) as (l & El & Hv & _ & _ & Hy). destruct Hc as [Hr _], Hu.
    destruct (set_time_correct c t1 t2 (Hour u) (Minute u) (Second u) l)
      as (c2 & E2 & Hr2 & _); [done..|lia|lia|lia|lia|].
    unfold commit in E. rewrite E2, H0 in E. cbn [mbind option_bind] in E.
    by rewrite set_date_month_zero in E.
  - destruct Hu.
    destruct (commit_clock_ok c t1 t2 t3 t4 (Month u) (Day u) (Hour u) (Minute u) (Second u))
      as (c2 & E2 & Hc2); try done; try lia. congruence.
Qed.

Lemma thread_safe_string b w w' k : (is_Some (string w) -> is_Some (string w')) ->
  thread_safe b w k -> thread_safe b w' k.
Proof. intros Hs [H|[H1 H2]]; [by left|right; auto]. Qed.

(** One action of a safe thread. *)
Definition acted (b : buffers) (w : watch) (f : action) (k : watch -> prog) : Prop :=
  (exists w' t, f w = Some (w', t) /\ watch_ok b w' /\ (is_Some (string w) -> is_Some (string w')) /\
     thread_safe b w' k) \/
  (f w = None /\ overruns b f w).

Lemma thread_act b w k f k' : thread_safe b w k -> watch_ok b w -> k w = Act f k' -> acted b w f k'.
Proof.
  intros [Hk|[Hs Hk]] Hw E.
  - pose proof (Hk w) as Hq. rewrite E in Hq. destruct Hq as [Hf Hk']. destruct (Hf w) as [t Ef].
    left. exists w, t. split_and!; [done..|]. by left.
  - pose proof (Hk w (conj Hw Hs)) as Hsafe. rewrite E in Hsafe. destruct Hsafe as [Hf Hk'].
    destruct (Hf w (conj Hw Hs)) as [(w' & t & Ef & Hg)|Hbad]; [left|by right].
    exists w', t. split_and!; [done|apply Hg|intros _; apply Hg|]. right. split; [apply Hg|done].
Qed.

Lemma set_ui_ok b w u c : watch_ok b w -> ui_ok u -> clock_ok c -> watch_ok b (set_ui u c w).
Proof. intros [] ??. by split. Qed.

Lemma serial_command_ok b ch w : watch_ok b w -> watch_ok b (fst (serial_command ch w)).
Proof.
  intros [].
  assert (forall t, 0 <= t < 65536 -> watch_ok b (set_theme t 1 w)) as Ht by (intros; by split).
  unfold serial_command. repeat (case_Z; [by apply Ht|]). by split.
Qed.

Lemma serial_command_string ch w : string (fst (serial_command ch w)) = string w.
Proof. unfold serial_command. by repeat (case_Z; [done|]). Qed.

Lemma get_alt_or b w w' k : (is_Some (string w) -> is_Some (string w')) ->
  (thread_safe b w k \/ exists tick x y z adc, accel_sum (s16 x) (s16 y) (s16 z) <= 2147483647 /\
      k = fun _ => getValues_body b tick x y z adc) ->
  (thread_safe b w' k \/ exists tick x y z adc, accel_sum (s16 x) (s16 y) (s16 z) <= 2147483647 /\
      k = fun _ => getValues_body b tick x y z adc).
Proof. intros Hs [H|H]; [left; by eapply thread_safe_string|by right]. Qed.

(** The pending action of [getValues], whether it is the first of an
    iteration or a later one. *)
Lemma get_pending b s f k : buffers_wf b -> sys_ok b s -> get s (g s) = Act f k -> acted b (g s) f k.
Proof.
  intros Hb [Hg Hsh [Hget|(tick & x & y & z & adc & Hsum & Hget)]] E; [by eapply thread_act|].
  rewrite Hget, getValues_body_unfold in E. injection E as <- <-.
  destruct (read_time_good b (g s) tick Hg) as (buf & Eb & Hgood).
  left. rewrite Eb. do 2 eexists. split_and!; [done|apply Hgood|intros _; apply Hgood|].
  right. split; [apply Hgood|]. intros w _. by apply getValues_rest_safe.
Qed.

Lemma sys_ok_step b s t s' : buffers_wf b -> sys_ok b s -> sys_step b s t s' -> sys_ok b s'.
Proof.
  intros Hb Hok Hstep. pose proof Hok as [Hg Hsh Hget]. destruct Hstep as
    [s f k w t E Ef|s tick x y z adc E Hsum|s f k w t E Ef|s E Hsem|s p u c E|s ch]; cbn.
  - destruct (get_pending b s f k Hb Hok E) as [(w' & t' & Ef' & Hw & Hs & Hk)|[Ef' _]]; [|congruence].
    rewrite Ef in Ef'. injection Ef' as <- <-. split; cbn; [done| |by left].
    by eapply thread_safe_string.
  - split; cbn; [done|done|]. right. by repeat eexists.
  - destruct (thread_act b (g s) (show s) f k Hsh Hg E) as [(w' & t' & Ef' & Hw & Hs & Hk)|[Ef' _]];
      [|congruence].
    rewrite Ef in Ef'. injection Ef' as <- <-. split; cbn; [done|done|]. by eapply get_alt_or.
  - pose proof (wo_ready b (g s) Hg Hsem) as Hs. split; cbn.
    + destruct Hg. split; cbn; try done; lia.
    + right. split; [done|]. intros w Hw. by apply showValues_body_safe.
    + by eapply get_alt_or; [|exact Hget].
  - split; cbn.
    + apply set_ui_ok; [done| |].
      * eapply press_step_ok; [apply (wo_ui b (g s) Hg)|exact E].
      * eapply press_clock_ok; [apply (wo_ui b (g s) Hg)|apply (wo_clock b (g s) Hg)|exact E].
    + by eapply thread_safe_string; [|exact Hsh].
    + by eapply get_alt_or; [|exact Hget].
  - split; cbn.
    + by apply serial_command_ok.
    + eapply thread_safe_string; [|exact Hsh]. by rewrite serial_command_string.
    + eapply get_alt_or; [|exact Hget]. by rewrite serial_command_string.
Qed.

Lemma sys_reach_ok b c s : buffers_wf b -> clock_ok c -> sys_reach b (sys_boot c) s -> sys_ok b s.
Proof.
  intros Hb Hc. induction 1 as [|s t s' _ IH Hstep].
  - split; cbn; [by apply watch_boot_ok|left; apply showValues_start_quiet|by left; left].
  - by eapply sys_ok_step.
Qed.

Lemma sys_ok_pending b s f : buffers_wf b -> sys_ok b s -> pending s f -> f (g s) = None ->
  overruns b f (g s).
Proof.
  intros Hb Hok (k & [E|E]) Ef.
  - destruct (get_pending b s f k Hb Hok E) as [(w & t & Ef' & _)|[_ Hv]]; [congruence|done].
  - destruct Hok as [Hg Hsh _].
    destruct (thread_act b (g s) (show s) f k Hsh Hg E) as [(w & t & Ef' & _)|[_ Hv]]; [congruence|done].
Qed.

(** ** What holds of the running application *)

(** From any clock of the application and menu counters that name a month,
    [rtc_sample] sets the clock and prints it, whenever it runs; the clock is
    then at the time of the counters if no second ends between its two steps. *)
Lemma rtc_sample_runs t1 t2 t3 t4 t5 u c : clock_ok c -> ui_ok u -> 1 <= Month u ->
  exists c' text, rtc_sample t1 t2 t3 t4 t5 u c = Some (c', RT_EOK, text) /\ clock_ok c' /\
    (uptime c t3 = uptime c t2 -> forall t, time c' t =
       tm_seconds (mk_tm (Second u) (Minute u) (Hour u) (Day u) (Month u - 1) 122 0 0 0)
       - RT_LIBC_FIXED_TIMEZONE * 3600 + (uptime c t - uptime c t4)).
Proof.
  intros Hc [] Hmo.
  destruct (date_then_time c t1 t2 t3 t4 (Month u) (Day u) (Hour u) (Minute u) (Second u))
    as (c1 & c2 & E1 & E2 & Hc2 & _ & Ht); try done; try lia.
  destruct (ctime_r_date_text c2 t5 Hc2) as (buf & Eb & _).
  exists c2, (cstr buf). split; [|done]. unfold rtc_sample. rewrite E1. cbn [mbind option_bind negb Z.eqb RT_EOK].
  rewrite E2. cbn [mbind option_bind negb Z.eqb RT_EOK]. by rewrite Eb.
Qed.

Lemma uptime_first_second c t : init_tick c = 0 -> 0 <= t < 1000 -> uptime c t = 0.
Proof.
  intros E Ht. unfold uptime, RT_TICK_PER_SECOND. rewrite E, Z.sub_0_r, u32_small by lia.
  apply Z.div_small. lia.
Qed.

(** Started in the first second after the clock, [rtc_sample] sets it to the
    initial values of the menu counters, prints that date, and leaves a clock
    the application can keep. *)
Theorem rtc_sample_sets_clock t1 t2 t3 t4 t5 :
  Forall (fun t => 0 <= t < 1000) [t1; t2; t3; t4; t5] ->
  exists c, rtc_sample t1 t2 t3 t4 t5 ui_boot booted =
      Some (c, RT_EOK, chars "Sat Jan  1 00:00:00 2022" ++ [10]) /\ clock_ok c.
Proof.
  intros H. assert (forall c t, init_tick c = 0 -> t ∈ [t1; t2; t3; t4; t5] -> uptime c t = 0) as Hu.
  { intros c t E Hin. rewrite Forall_forall in H. by apply uptime_first_second, H. }
  set (c0 := mk_rtc true true 0 1640995200). set (c1 := mk_rtc true true 0 1640966400).
  assert (set_date booted t1 t2 2022 1 1 = Some (RT_EOK, c0)) as E1.
  { unfold set_date, rtc_update, time, get_timeval, soft_rtc_control.
    cbn [registered booted init_ok init_time init_tick].
    rewrite !Hu by (done || (rewrite !elem_of_cons; tauto)). by vm_compute. }
  assert (set_time c0 t3 t4 0 0 0 = Some (RT_EOK, c1)) as E2.
  { unfold set_time, rtc_update, time, get_timeval, soft_rtc_control.
    cbn [registered c0 init_ok init_time init_tick].
    rewrite !Hu by (done || (rewrite !elem_of_cons; tauto)). by vm_compute. }
  assert (clock_ok c1) as Hc1 by (split; [split; [done|done|by vm_compute]|cbn; lia]).
  assert (time c1 t5 = 1640966400) as E3.
  { rewrite time_running by apply Hc1. rewrite Hu by (done || (rewrite !elem_of_cons; tauto)). done. }
  exists c1. split; [|done].
  unfold rtc_sample. cbn [ui_boot Month Day Hour Minute Second].
  rewrite E1. cbn [mbind option_bind negb Z.eqb RT_EOK].
  rewrite E2. cbn [mbind option_bind negb Z.eqb RT_EOK]. rewrite E3. by vm_compute.
Qed.

Lemma rtc_sample_sets_clock_witness :
  exists c, rtc_sample 10 11 12 13 513 ui_boot booted =
      Some (c, RT_EOK, chars "Sat Jan  1 00:00:00 2022" ++ [10]) /\ clock_ok c.
Proof. apply (rtc_sample_sets_clock 10 11 12 13 513). repeat constructor; lia. Defined.


(** Buffers that each start on a word, and buffers without a gap. *)
Definition word_buffers : buffers := mk_buffers 1000 1020 1040 1044 1048 1052 2.
Definition packed_buffers : buffers := mk_buffers 1000 1020 1040 1042 1044 1046 0.

Ltac buffers_apart :=
  let i := fresh "i" in let j := fresh "j" in
  intros i j ? ? Hi Hj Hne;
  do 6 (destruct i as [|i]; [do 6 (destruct j as [|j]; [cbn in *; simplify_eq/=; lia|]); done|]); done.

Lemma word_buffers_wf : buffers_wf word_buffers.
Proof. buffers_apart. Qed.
Lemma packed_buffers_wf : buffers_wf packed_buffers.
Proof. buffers_apart. Qed.


(** ** The overrun is reached

    A scheduler: which thread, button or command is next. *)
Inductive choice :=
  | Get | Loop (tick x y z adc : Z) | Show | Take | Press (p : press) | Key (ch : Z).

Definition sched (b : buffers) (s : system) (ch : choice) : option system :=
  match ch with
  | Get => match get s (g s) with
           | Act f k => '(w, _) ← f (g s); Some (mk_sys w k (show s))
           | Ret => None
           end
  | Loop tick x y z adc =>
      match get s (g s) with
      | Act _ _ => None
      | Ret => if accel_sum (s16 x) (s16 y) (s16 z) <=? 2147483647
               then Some (mk_sys (g s) (fun _ => getValues_body b tick x y z adc) (show s)) else None
      end
  | Show => match show s (g s) with
            | Act f k => '(w, _) ← f (g s); Some (mk_sys w (get s) k)
            | Ret => None
            end
  | Take =>
      match show s (g s) with
      | Act _ _ => None
      | Ret => if 0 <? dynamic_sem (g s)
               then Some (mk_sys (set_sem (dynamic_sem (g s) - 1) (g s)) (get s) (showValues_body b)) else None
      end
  | Press p => '(u, c) ← press_step p (w_ui (g s)) (w_clock (g s)); Some (mk_sys (set_ui u c (g s)) (get s) (show s))
  | Key ch => Some (mk_sys (fst (serial_command ch (g s))) (get s) (show s))
  end.

Fixpoint scheds (b : buffers) (s : system) (l : list choice) : option system :=
  match l with [] => Some s | ch :: l => s ← sched b s ch; scheds b s l end.

Lemma sched_step b s ch s' : sched b s ch = Some s' -> exists t, sys_step b s t s'.
Proof.
  intros E. destruct ch as [|tick x y z adc| | |p|ch]; cbn [sched] in E.
  - destruct (get s (g s)) as [|f k] eqn:Ek; [done|]. destruct (f (g s)) as [[w t]|] eqn:Ef; [|done].
    injection E as <-. exists t. by eapply get_act.
  - destruct (get s (g s)) as [|f k] eqn:Ek; [|done]. case_Z_in E; [|done].
    injection E as <-. exists []. by apply get_loop.
  - destruct (show s (g s)) as [|f k] eqn:Ek; [done|]. destruct (f (g s)) as [[w t]|] eqn:Ef; [|done].
    injection E as <-. exists t. by eapply show_act.
  - destruct (show s (g s)) as [|f k] eqn:Ek; [|done]. case_Z_in E; [|done].
    injection E as <-. exists []. by apply show_take.
  - destruct (press_step p (w_ui (g s)) (w_clock (g s))) as [[u c]|] eqn:Ep; [|done].
    injection E as <-. exists []. by eapply button.
  - injection E as <-. exists []. apply serial.
Qed.

Lemma scheds_reach b s0 l : forall s s', sys_reach b s0 s -> scheds b s l = Some s' -> sys_reach b s0 s'.
Proof.
  induction l as [|ch l IH]; intros s s' Hr E; cbn [scheds] in E; [by injection E as <-|].
  destruct (sched b s ch) as [s1|] eqn:E1; [|done]. destruct (sched_step b s ch s1 E1) as [t Ht].
  by apply (IH s1); [eapply reach_step|].
Qed.

(** The symbols are drawn, the hours menu entered and "up" pressed ten times;
    one sample later the display thread comes to write "10". *)
Definition ten_hours : list choice :=
  repeat Show 4 ++ [Press (Select 1 2 3 4)] ++ repeat (Press Up) 10 ++
  [Loop 100 0 0 0 2203] ++ repeat Get 9 ++ [Take].

Definition show_wrong (s : system) : bool :=
  match show s (g s) with
  | Act f _ => match f (g s) with None => true | Some _ => false end
  | Ret => false
  end.

(** With the buffers one behind the other, a watch set to ten o'clock reaches
    the write of two digits and a NUL into [Hour_str]. *)
Theorem two_digits_overrun :
  exists s, sys_reach packed_buffers (sys_boot booted) s /\ thread_wrong s.
Proof.
  assert (match scheds packed_buffers (sys_boot booted) ten_hours with
          | Some s => show_wrong s | None => false end = true) as Hw by (by vm_compute).
  destruct (scheds packed_buffers (sys_boot booted) ten_hours) as [s|] eqn:E; [|done].
  exists s. split; [by eapply scheds_reach; [apply reach_refl|exact E]|].
  unfold show_wrong in Hw. destruct (show s (g s)) as [|f k] eqn:Ek; [done|].
  destruct (f (g s)) eqn:Ef; [done|]. exists f. split; [by exists k; right|done].
Qed.
