(* ===== verification/WatchDisplay.v ===== *)
(** * WatchDisplay: what the watch shows

    The pixels [showValues] produces on the panel for the home screen and for
    the fields being edited, and what one iteration of [getValues] computes. *)
From S2P Require Import Prelude Bytes Fonts St7789 Panel CTime SoftRtc Buttons Watch WatchSystem.

(** ** A string that fits on its line *)

Definition text_painted (font : FontDef) (color bg x y : Z) (s : list Z) (scr : screen) : screen :=
  foldl (paint_char font color bg) scr (placed font x y s).

#[export] Instance text_painted_proper font color bg x y s :
  Proper ((≡) ==> (≡)) (text_painted font color bg x y s).
Proof. intros s1 s2 H. unfold text_painted. by apply foldl_paint_proper. Qed.

Definition plain (font : FontDef) (c : Z) : Prop := printable font c /\ c <> 10 /\ c <> 32.

Record colors_ok (color bg : Z) : Prop := { co_c : 0 <= color < 65536; co_b : 0 <= bg < 65536 }.

Lemma WriteString_fits font color bg x y s P : font_wf font -> Forall (plain font) s ->
  colors_ok color bg -> 0 <= x -> x + Z.of_nat (length s) * width font < ST7789_WIDTH ->
  0 <= y -> y + height font <= ST7789_HEIGHT ->
  exists t, WriteString x y s font color bg = Some t /\
    screen_of (panel_run t P) ≡ text_painted font color bg x y s (screen_of P).
Proof.
  intros Hf Hs [Hc Hb] Hx Hfit Hy Hyh.
  destruct (print_loop_paints sp_string font color bg x y s P) as (t & E & Ht); try done.
  - eapply Forall_impl; [exact Hs|]. by intros c [? _].
  - unfold ST7789_WIDTH in Hfit. pose proof (fw_width font Hf). nia.
  - unfold WriteString. rewrite E. eexists. split; [done|]. rewrite Ht.
    pose proof (layout_fits sp_string font s [] Hf 0 x y Hx Hfit) as L.
    rewrite app_nil_r in L. rewrite L.
    + cbn [layout]. rewrite app_nil_r. done.
    + eapply Forall_impl; [exact Hs|]. by intros c [_ ?].
Qed.

Lemma plain_digit font c : number_font font -> 48 <= c < 58 -> plain font c.
Proof. intros [_ H] Hc. split; [|lia]. apply H. by right. Qed.

Lemma delay_run ms t P : screen_of (panel_run (rt_thread_mdelay ms ++ t) P) = screen_of (panel_run t P).
Proof. done. Qed.

(** ** Two-digit fields *)

Definition pick (inv : bool) (w : watch) : Z * Z :=
  if inv then (Background w, Theme w) else (Theme w, Background w).

Lemma show_mem_fits w x y a font inv v P : colors_ok (Theme w) (Background w) -> number_font font ->
  0 <= v < 100 -> holds (mem w) a (itoa v) -> 0 <= x ->
  x + 2 * width font < ST7789_WIDTH -> 0 <= y -> y + height font <= ST7789_HEIGHT ->
  exists t, show_mem x y a font inv w = Some t /\
    screen_of (panel_run t P) ≡
    text_painted font (fst (pick inv w)) (snd (pick inv w)) x y (itoa v) (screen_of P).
Proof.
  intros Hw Hf Hv Hm Hx Hfit Hy Hyh. unfold show_mem.
  assert (length (itoa v) <= 2)%nat as Hlen by (rewrite itoa_two by done; destruct (v <? 10); cbn; lia).
  rewrite (str_at_holds (itoa v)); [|apply itoa_itoa_char|unfold str_fuel; lia|done].
  cbn [mbind option_bind].
  assert (Forall (plain font) (itoa v)) as Hp.
  { rewrite itoa_two by done. destruct (Z.ltb_spec v 10); repeat apply Forall_cons_2;
      try apply Forall_nil_2; apply plain_digit; try done; zlia. }
  assert (x + Z.of_nat (length (itoa v)) * width font < ST7789_WIDTH)
    by (pose proof (fw_width font (proj1 Hf)); nia).
  destruct Hw, inv; (apply WriteString_fits; try done; [apply Hf]).
Qed.

Lemma two_digits_pad v : 0 <= v < 100 ->
  (if v <? 10 then chars "0" ++ itoa v else itoa v) = two_digits v.
Proof.
  intros Hv. rewrite itoa_two by done. unfold two_digits.
  destruct (Z.ltb_spec v 10); [|done]. cbn [chars app].
  rewrite Z.div_small, Z.mod_small by lia. done.
Qed.

Lemma text_painted_app font color bg x y s1 s2 scr :
  text_painted font color bg x y (s1 ++ s2) scr =
  text_painted font color bg (x + Z.of_nat (length s1) * width font) y s2
    (text_painted font color bg x y s1 scr).
Proof.
  unfold text_painted. revert x scr. induction s1 as [|c s1 IH]; intros x scr.
  - cbn. by rewrite Z.add_0_r.
  - cbn [app placed foldl length]. rewrite IH. do 2 f_equal. lia.
Qed.

(** A field drawn by the display thread: its two digits, whatever the value,
    then the rest of the thread. *)
Lemma show_field_paints w x y val a font inv P : colors_ok (Theme w) (Background w) -> number_font font ->
  0 <= val w < 100 -> holds (mem w) a (itoa (val w)) -> 0 <= x ->
  x + 3 * width font < ST7789_WIDTH -> 0 <= y -> y + height font <= ST7789_HEIGHT ->
  exists t,
    (forall k, exec (show_field x y val a font inv k w) w =
               ('(w', t') ← exec (k w) w; Some (w', t ++ t'))) /\
    screen_of (panel_run t P) ≡
    text_painted font (fst (pick inv w)) (snd (pick inv w)) x y (two_digits (val w)) (screen_of P).
Proof.
  intros Hw Hf Hv Hm Hx Hfit Hy Hyh. pose proof (fw_width font (proj1 Hf)) as Hwd.
  rewrite <- two_digits_pad by done. unfold show_field.
  destruct (val w <? 10) eqn:E10.
  - destruct (WriteString_fits font (fst (pick inv w)) (snd (pick inv w)) x y (chars "0") P)
      as (t1 & E1 & S1); try done.
    { apply Hf. } { apply Forall_singleton. by apply plain_digit. }
    { destruct Hw, inv; by split. } { cbn; lia. }
    set (P1 := panel_run t1 P) in *.
    destruct (show_mem_fits w (x + width font) y a font inv (val w) P1)
      as (t2 & E2 & S2); try done; try lia.
    exists (t1 ++ rt_thread_mdelay 1 ++ t2 ++ rt_thread_mdelay 1). split.
    + intros k. cbn [exec draw delay]. unfold show_lit.
      replace (if inv then _ else _) with (Some t1) by (by destruct inv; rewrite <- E1).
      cbn [mbind option_bind]. rewrite E2. cbn [mbind option_bind].
      destruct (exec (k w) w) as [[w' t']|]; cbn; [|done].
      by repeat (rewrite <- ?app_assoc; cbn).
    + rewrite panel_run_app. fold P1. rewrite delay_run, panel_run_app.
      rewrite (delay_run 1 []). rewrite S2, text_painted_app. cbn [length].
      rewrite Z.mul_1_l. by rewrite S1.
  - destruct (show_mem_fits w x y a font inv (val w) P) as (t2 & E2 & S2); try done; try lia.
    exists (t2 ++ rt_thread_mdelay 1). split.
    + intros k. cbn [exec draw delay]. rewrite E2. cbn [mbind option_bind].
      destruct (exec (k w) w) as [[w' t']|]; cbn; [|done].
      by repeat (rewrite <- ?app_assoc; cbn).
    + rewrite panel_run_app. by rewrite (delay_run 1 []).
Qed.

(** ** The menus *)

Definition field_painted (w : watch) (inv : bool) (font : FontDef) (x y v : Z) (s : screen) : screen :=
  text_painted font (fst (pick inv w)) (snd (pick inv w)) x y (two_digits v) s.

Lemma watch_colors b w : watch_ok b w -> colors_ok (Theme w) (Background w).
Proof. intros []. by split. Qed.

(** Editing a field: the number is written to its buffer and its two digits
    are shown inverted, whatever they are. *)
Lemma edit_paints w x y val a font v P k : colors_ok (Theme w) (Background w) ->
  number_font font -> 0 <= v < 100 ->
  val (set_mem (itoa_to v a (mem w)) w) = v -> 0 <= x ->
  x + 3 * width font < ST7789_WIDTH -> 0 <= y -> y + height font <= ST7789_HEIGHT ->
  exists t, exec (show_field x y val a font true k (set_mem (itoa_to v a (mem w)) w))
                 (set_mem (itoa_to v a (mem w)) w) =
      ('(w', t') ← exec (k (set_mem (itoa_to v a (mem w)) w)) (set_mem (itoa_to v a (mem w)) w);
       Some (w', t ++ t')) /\
    screen_of (panel_run t P) ≡ field_painted w true font x y v (screen_of P).
Proof.
  intros Hc Hf Hv Hval Hx Hfit Hy Hyh.
  destruct (show_field_paints (set_mem (itoa_to v a (mem w)) w) x y val a font true P)
    as (t & E & S); try done; try (by rewrite Hval).
  { rewrite Hval. apply holds_store. }
  exists t. split; [apply E|]. rewrite S, Hval. done.
Qed.

(** With a byte to spare behind the buffers, every field can be written. *)
Lemma write_field_runs b val a w : (1 <= spare b)%nat -> 0 <= val w < 100 ->
  write_number (field_room b) val a w = Some (set_mem (itoa_to (val w) a (mem w)) w, []).
Proof.
  intros Hs Hv. unfold write_number, field_room. rewrite (itoa_field_length _ Hv).
  by rewrite (proj2 (Nat.ltb_ge _ _)) by (destruct (val w <? 10); lia).
Qed.

Lemma menu_hour_paints b w P : (1 <= spare b)%nat -> watch_ok b w -> menu_index (w_ui w) = 1 ->
  exists w' t, exec (show_menu b w) w = Some (w', t) /\
    screen_of (panel_run t P) ≡
    field_painted w true Clock_font 40 60 (Hour (w_ui w)) (screen_of P).
Proof.
  intros Hsp Hw Hm. unfold show_menu. rewrite Hm. cbn zeta. pose proof (wo_ui b w Hw) as Hu.
  destruct (edit_paints w 40 60 (fun w => hoursbutton (w_ui w)) (Hour_str b) Clock_font
    (Hour (w_ui w)) P (fun _ => Ret)) as (t & E & S); try done; auto with watch.
  { by eapply watch_colors. } { destruct Hu; lia. } { destruct Hu; cbn; lia. }
  exists (set_mem (itoa_to (Hour (w_ui w)) (Hour_str b) (mem w)) w), t. split; [|exact S].
  cbn [exec]. rewrite write_field_runs by (done || (pose proof (uo_hour _ Hu); lia)).
  cbn [mbind option_bind]. rewrite E. cbn. by rewrite app_nil_r.
Qed.

Lemma menu_minute_paints b w P : (1 <= spare b)%nat -> buffers_wf b -> watch_ok b w -> menu_index (w_ui w) = 2 ->
  holds (mem w) (Hour_str b) (itoa (Hour (w_ui w))) ->
  exists w' t, exec (show_menu b w) w = Some (w', t) /\
    screen_of (panel_run t P) ≡
    field_painted w true Clock_font 100 60 (Minute (w_ui w))
      (field_painted w false Clock_font 40 60 (Hour (w_ui w)) (screen_of P)).
Proof.
  intros Hsp Hb Hw Hm Hh. unfold show_menu. rewrite Hm. cbn zeta.
  pose proof (wo_ui b w Hw) as Hu. pose proof (watch_colors b w Hw) as Hc.
  set (w1 := set_mem (itoa_to (Minute (w_ui w)) (Minute_str b) (mem w)) w).
  destruct (show_field_paints w1 40 60 (fun w => hoursbutton (w_ui w)) (Hour_str b)
    Clock_font false P) as (t1 & E1 & S1); try done; auto with watch.
  { destruct Hu; cbn; lia. }
  { cbn. rewrite (uo_hours _ Hu). apply holds_store_other; [|done].
    pose proof (itoa_field_length (Hour (w_ui w)) ltac:(destruct Hu; lia)).
    pose proof (itoa_field_length (Minute (w_ui w)) ltac:(destruct Hu; lia)).
    destruct (Hb 2%nat 3%nat (field_region b (Hour_str b)) (field_region b (Minute_str b))) as [H1|H1];
      try done; cbn in H1; do 2 case_match; lia. }
  destruct (edit_paints w 100 60 (fun w => minutesbutton (w_ui w)) (Minute_str b) Clock_font
    (Minute (w_ui w)) (panel_run t1 P) (fun _ => Ret)) as (t2 & E2 & S2); try done; auto with watch.
  { destruct Hu; lia. } { destruct Hu; cbn; lia. }
  exists w1, (t1 ++ t2). split.
  - cbn [exec]. rewrite write_field_runs by (done || (pose proof (uo_minute _ Hu); lia)).
    cbn [mbind option_bind]. fold w1 in E2 |- *. rewrite E1, E2. cbn.
    by rewrite app_nil_r.
  - rewrite panel_run_app, S2. unfold field_painted at 1 3. apply text_painted_proper.
    rewrite S1. cbn [w_ui w1 set_mem]. by rewrite (uo_hours _ Hu).
Qed.

(** ** The clock on the home screen *)

Lemma plain_clock c : 48 <= c <= 58 -> plain Clock_font c.
Proof.
  intros Hc. split; [|lia]. right. unfold covers. rewrite andb_true_iff, !Z.leb_le.
  assert (Z.of_nat (length (data Clock_font)) = 27 * 50) as -> by (by vm_compute).
  cbn [height Clock_font]. lia.
Qed.

(** [RTC_ST7789_Time] on the text of a moment draws exactly its clock. *)
Lemma RTC_Time_paints d h m s rest color bg P : length d = 11%nat ->
  0 <= h < 24 -> 0 <= m < 60 -> 0 <= s < 60 -> Forall (printable Clock_font) rest ->
  colors_ok color bg ->
  exists t, RTC_ST7789_Time 40 60 (d ++ clock_text h m s ++ 32 :: rest) Clock_font color bg = Some t /\
    screen_of (panel_run t P) ≡
    text_painted Clock_font color bg 40 60 (clock_text h m s) (screen_of P).
Proof.
  intros Hd Hh Hm Hs Hrest [Hc Hb]. unfold RTC_ST7789_Time.
  rewrite decide_False by (rewrite length_app; lia).
  rewrite <- Hd, drop_app_length.
  pose proof (clock_text_chars h m s Hh Hm Hs) as Hclk.
  assert (Forall (plain Clock_font) (clock_text h m s)) as Hp
    by (eapply Forall_impl; [exact Hclk|apply plain_clock]).
  pose proof (clock_text_length h m s) as Hlen.
  set (clk := clock_text h m s) in *. clearbody clk.
  destruct (print_loop_paints sp_time Clock_font color bg 40 60 (clk ++ 32 :: rest) P)
    as (t & E & S); try done; auto with cint.
  { apply Forall_app_2; [eapply Forall_impl; [exact Hp|by intros c []]|].
    apply Forall_cons_2; [by right|done]. }
  rewrite E. eexists. split; [done|]. rewrite S.
  rewrite layout_fits; [|auto with cint|done|rewrite Hlen; done|].
  2:{ eapply Forall_impl; [exact Hp|by intros c []]. }
  rewrite Hlen. cbn. rewrite app_nil_r. done.
Qed.

(** The text of a valid moment, as the display sees it. *)
Lemma ctime_r_text time_ l : localtime_r time_ = Some l -> tm_valid l -> 0 <= tm_wday l < 7 ->
  tm_year l < 8100 ->
  exists d rest buf, ctime_r time_ = Some buf /\ length d = 11%nat /\
    Forall (printable Clock_font) rest /\
    cstr buf = d ++ clock_text (tm_hour l) (tm_min l) (tm_sec l) ++ 32 :: rest.
Proof.
  intros E Hv Hw Hy.
  destruct (asctime_r_form l Hv Hw ltac:(lia)) as (d & Hd & Hdt & Ea).
  unfold ctime_r. rewrite E. cbn [mbind option_bind]. rewrite Ea.
  pose proof (tv_year l Hv).
  pose proof (two_digits_range ((tm_year l + 1900) / 100) ltac:(zlia)) as Hy1.
  pose proof (two_digits_range ((tm_year l + 1900) `mod` 100) ltac:(zlia)) as Hy2.
  pose proof (clock_text_chars (tm_hour l) (tm_min l) (tm_sec l) (tv_hour l Hv)
    (tv_min l Hv) (tv_sec l Hv)) as Hclk.
  set (clk := clock_text _ _ _) in *. set (y1 := two_digits _) in *.
  set (y2 := two_digits ((tm_year l + 1900) `mod` 100)) in *. clearbody clk y1 y2.
  exists d, (y1 ++ y2 ++ [10]). eexists. split; [done|]. split; [done|]. split.
  - repeat apply Forall_app_2.
    + eapply Forall_impl; [exact Hy1|]. intros c Hc. apply plain_clock. cbn in Hc. lia.
    + eapply Forall_impl; [exact Hy2|]. intros c Hc. apply plain_clock. cbn in Hc. lia.
    + apply Forall_singleton. by left.
  - replace (d ++ clk ++ [32] ++ y1 ++ y2 ++ [10; 0])
      with ((d ++ clk ++ 32 :: y1 ++ y2 ++ [10]) ++ 0 :: [])
      by (cbn; rewrite <- !app_assoc; cbn; by rewrite <- !app_assoc).
    apply cstr_app. repeat apply Forall_app_2.
    + eapply Forall_impl; [exact Hdt|]. unfold name_text. cbn. lia.
    + eapply Forall_impl; [exact Hclk|]. cbn. lia.
    + apply Forall_cons_2; [lia|]. repeat apply Forall_app_2.
      * eapply Forall_impl; [exact Hy1|]. cbn. lia.
      * eapply Forall_impl; [exact Hy2|]. cbn. lia.
      * by repeat constructor.
Qed.

(** A watch whose clock shows [t] draws [t]'s clock. *)
Lemma time_on_screen c tick t color bg P : clock_ok c -> shows c tick t -> tm_year t <= 136 ->
  colors_ok color bg ->
  exists buf tr, ctime_r (time c tick) = Some buf /\
    RTC_ST7789_Time 40 60 (cstr buf) Clock_font color bg = Some tr /\
    screen_of (panel_run tr P) ≡
    text_painted Clock_font color bg 40 60 (clock_text (tm_hour t) (tm_min t) (tm_sec t))
      (screen_of P).
Proof.
  intros Hc (l & El & (Hs & Hm & Hh & _ & _ & Hyl) & Hv) Hy Hcol.
  destruct (clock_ok_local c tick Hc) as (l' & El' & _ & Hw & _ & Hy'). rewrite El in El'.
  injection El' as <-.
  destruct (ctime_r_text _ l El Hv Hw ltac:(lia)) as (d & rest & buf & E & Hd & Hrest & Ec).
  pose proof Hv as [Hvs Hvm Hvh _ _ _].
  destruct (RTC_Time_paints d (tm_hour l) (tm_min l) (tm_sec l) rest color bg P)
    as (tr & Et & S); try done.
  exists buf, tr. rewrite Ec, <- Hs, <- Hm, <- Hh. done.
Qed.

(** C4 The whole path of setting the watch, for a clock that runs between 1973
    and July 2036 and menu counters in their ranges that name a date there is
    (a day the month of 2022 has, and a month: the menu also lets it down to
    zero, which the calendar code has no defined answer for), when [set_time]
    writes the clock and [set_date] reads it in the same second of uptime: the
    last "select" commits the menu counters to the clock, and a refresh of the
    display in the second of the last write puts the pixels of exactly the
    entered HH:MM:SS on the panel, through [set_time], [set_date], the
    calendar, [ctime], the string routine and the bytes sent to the
    controller. *)
Theorem set_time_is_shown u c t1 t2 t3 t4 t5 color bg P : ui_ok u -> clock_ok c ->
  menu_index u = 5 -> 1 <= Month u -> uptime c t3 = uptime c t2 -> uptime c t5 = uptime c t4 ->
  tm_valid (mk_tm (Second u) (Minute u) (Hour u) (Day u) (Month u - 1) 122 0 0 0) ->
  colors_ok color bg ->
  exists c' buf tr, select_btn t1 t2 t3 t4 u c = Some (set_menu u 0, c') /\
    ctime_r (time c' t5) = Some buf /\
    RTC_ST7789_Time 40 60 (cstr buf) Clock_font color bg = Some tr /\
    screen_of (panel_run tr P) ≡
    text_painted Clock_font color bg 40 60 (clock_text (Hour u) (Minute u) (Second u)) (screen_of P).
Proof.
  intros Hu Hc Hm Hmo Hup Hup5 Hv Hcol.
  destruct (clock_ok_local c t1 Hc) as (l & El & _ & _ & _ & Hy).
  destruct (select_commits u c t1 t2 t3 t4 l) as (c' & E & Hr' & Hi & Ht); try done; try apply Hc; try lia.
  assert (clock_ok c') as Hc'.
  { eapply (press_clock_ok (Select t1 t2 t3 t4) u c); [done|done|exact E]. }
  destruct (time_on_screen c' t5
    (mk_tm (Second u) (Minute u) (Hour u) (Day u) (Month u - 1) 122 0 0 0) color bg P)
    as (buf & tr & Eb & Et & S); try done.
  { apply shows_of_seconds; [done| |rewrite Ht, Hup5; lia].
    pose proof (tm_seconds_year _ (tm_valid_set _ Hv) ltac:(cbn; lia)). lia. }
  by exists c', buf, tr.
Qed.

Lemma set_time_is_shown_witness :
  let u := mk_ui 5 21 49 8 7 5 21 49 8 7 5 in
  exists c' buf tr, select_btn 1000 1001 1002 1003 u booted = Some (set_menu u 0, c') /\
    ctime_r (time c' 1500) = Some buf /\
    RTC_ST7789_Time 40 60 (cstr buf) Clock_font LCD_DISP_GREEN LCD_DISP_BLACK = Some tr /\
    screen_of (panel_run tr blank_panel) ≡
    text_painted Clock_font LCD_DISP_GREEN LCD_DISP_BLACK 40 60 (clock_text 21 49 8)
      (screen_of blank_panel).
Proof.
  cbv zeta. apply (set_time_is_shown (mk_ui 5 21 49 8 7 5 21 49 8 7 5) booted
    1000 1001 1002 1003 1500 LCD_DISP_GREEN LCD_DISP_BLACK blank_panel);
    try reflexivity; try (vm_compute; intuition discriminate).
  - split; cbn; lia.
  - apply booted_ok.
  - split; vm_compute; intuition discriminate.
  - split; vm_compute; intuition discriminate.
Defined.

(** The hour and minute menus: the edited field is drawn inverted with two
    digits at its place, and in the minute menu the hour entered before stays
    next to it in normal colors, each written through its own buffer - given
    a byte to spare behind the two-byte buffers. *)
Theorem menu_fields_painted b w P : (1 <= spare b)%nat -> buffers_wf b -> watch_ok b w ->
  (menu_index (w_ui w) = 1 -> exists w' t, exec (show_menu b w) w = Some (w', t) /\
     screen_of (panel_run t P) ≡
     field_painted w true Clock_font 40 60 (Hour (w_ui w)) (screen_of P)) /\
  (menu_index (w_ui w) = 2 -> holds (mem w) (Hour_str b) (itoa (Hour (w_ui w))) ->
   exists w' t, exec (show_menu b w) w = Some (w', t) /\
     screen_of (panel_run t P) ≡
     field_painted w true Clock_font 100 60 (Minute (w_ui w))
       (field_painted w false Clock_font 40 60 (Hour (w_ui w)) (screen_of P))).
Proof. intros Hsp Hb Hw. split; intros; [by apply menu_hour_paints|by apply menu_minute_paints]. Qed.

Lemma menu_fields_painted_witness :
  let w := set_ui (mk_ui 1 21 0 0 0 0 21 0 0 1 1) booted (watch_boot booted) in
  exists w' t, exec (show_menu word_buffers w) w = Some (w', t) /\
     screen_of (panel_run t blank_panel) ≡
     field_painted w true Clock_font 40 60 21 (screen_of blank_panel).
Proof.
  cbv zeta. refine (proj1 (menu_fields_painted word_buffers
    (set_ui (mk_ui 1 21 0 0 0 0 21 0 0 1 1) booted (watch_boot booted)) blank_panel
    _ word_buffers_wf _) eq_refl); [cbn; lia|].
  apply set_ui_ok; [apply watch_boot_ok, booted_ok|split; cbn; lia|apply booted_ok].
Defined.
