(* ===== verification/WatchFacts.v ===== *)
(** * WatchFacts: what the watch shows and counts

    The date line, the strings of the menu when their buffers touch, the step
    counter's threshold, the battery scale, and the software clock over the
    wrap of the tick counter. *)
From S2P Require Import Prelude Bytes Fonts St7789 Panel CTime SoftRtc Buttons Watch WatchSystem WatchDisplay.

(** ** The date line *)

Definition letters (l : list Z) : Prop := length l = 3%nat /\ Forall (fun c => 65 <= c < 127) l.

Lemma day_name w : 0 <= w < 7 -> exists n, name4 days w = Some (n ++ [32]) /\ letters n.
Proof.
  intros H. assert (w = 0 \/ w = 1 \/ w = 2 \/ w = 3 \/ w = 4 \/ w = 5 \/ w = 6)
    as [->|[->|[->|[->|[->|[->| ->]]]]]] by lia;
  (eexists [_; _; _]; split; [reflexivity|split; [done|repeat constructor; done]]).
Qed.

Lemma mon_name m : 0 <= m < 12 -> exists n, name4 months m = Some (n ++ [32]) /\ letters n.
Proof.
  intros H. rewrite <- (Z2Nat.id m) by lia. assert (Z.to_nat m < 12)%nat as Hm by lia.
  revert Hm. generalize (Z.to_nat m) as n. clear. intros n Hn.
  do 12 (destruct n as [|n];
    [eexists [_; _; _]; split; [reflexivity|split; [done|repeat constructor; done]]|]). lia.
Qed.

(** The day of the month as [asctime_r] prints it. *)
Definition day_text (d : Z) : list Z := if d <? 10 then [32; 48 + d] else two_digits d.

(** [asctime_r] with its date spelled out. *)
Lemma asctime_r_date t : tm_valid t -> 0 <= tm_wday t < 7 -> tm_year t + 1900 < 10000 ->
  exists w m rest, letters w /\ letters m /\ Forall (fun c => c <> 0) rest /\
    asctime_r t = Some (w ++ [32] ++ m ++ [32] ++ day_text (tm_mday t) ++ [32] ++
      clock_text (tm_hour t) (tm_min t) (tm_sec t) ++ [32] ++ rest ++ [0]).
Proof.
  intros Hv Hw Hy9. pose proof (tm_valid_set t Hv) as Hs.
  destruct Hv as [Hsec Hmin Hhour Hmon Hmd Hy], Hs as [_ _ _ _ Hmd31 _].
  unfold asctime_r.
  destruct (day_name (tm_wday t) Hw) as (n & -> & Hn).
  destruct (mon_name (tm_mon t) Hmon) as (n' & -> & Hn'). cbn [mbind option_bind].
  rewrite Z.quot_div_nonneg, Z.rem_mod_nonneg by lia.
  assert (0 <= (tm_year t + 1900) / 100 < 100) by zlia.
  assert (0 <= (tm_year t + 1900) `mod` 100 < 100) by zlia.
  rewrite !num2str_range by lia.
  exists n, n', (two_digits ((tm_year t + 1900) / 100) ++ two_digits ((tm_year t + 1900) `mod` 100) ++ [10]).
  split; [done|]. split; [done|]. split.
  - repeat apply Forall_app_2; repeat constructor; zlia.
  - f_equal. unfold clock_text, day_text, two_digits. rewrite <- !app_assoc. do 3 f_equal.
    destruct (Z.ltb_spec (tm_mday t) 10).
    + replace (tm_mday t / 10) with 0 by zlia. rewrite Z.mod_small by lia. done.
    + by rewrite (proj2 (Z.eqb_neq _ _)) by zlia.
Qed.

(** One character at a time: a space that counts, a character that wraps. *)
Lemma layout_space sp font i i' x y rest : sp i = Some i' -> 0 <= x ->
  x + width font < ST7789_WIDTH -> font_wf font ->
  layout sp font i x y (32 :: rest) = (x, y, 32) :: layout sp font i' (x + width font) y rest.
Proof.
  intros Hs Hx Hfit Hwf. pose proof (fw_width font Hwf). cbn [layout].
  destruct (wrap_cases font x y 32) as [[E ?]|[? ?]]; [|lia]. rewrite E. cbn [Z.eqb Pos.eqb].
  rewrite Hs. unfold ST7789_WIDTH in *. by rewrite u16_small by lia.
Qed.

Lemma layout_wraps sp font i x y c rest : font_wf font -> 0 <= y -> 0 <= x ->
  ST7789_WIDTH <= x + width font -> y + 2 * height font < ST7789_HEIGHT -> c <> 10 -> c <> 32 ->
  layout sp font i x y (c :: rest) =
    (0, y + height font, c) :: layout sp font i (width font) (y + height font) rest.
Proof.
  intros Hwf Hy Hx Hw Hh Hc1 Hc2. pose proof (fw_height font Hwf). pose proof (fw_width font Hwf). cbn [layout].
  unfold ST7789_WIDTH, ST7789_HEIGHT in *.
  destruct (wrap_cases font x y c) as [[E ?]|[? Hcase]]; [unfold ST7789_WIDTH in *; lia|].
  cbv zeta in Hcase. unfold ST7789_HEIGHT in Hcase. rewrite (u16_small (y + height font)) in Hcase by lia.
  destruct Hcase as [[_ ?]|[_ [[_ ?]|[E _]]]]; [lia|done|]. rewrite E.
  rewrite (proj2 (Z.eqb_neq c 10)), (proj2 (Z.eqb_neq c 32)) by done.
  rewrite u16_small by lia. done.
Qed.

Lemma letters_plain l : letters l -> Forall (fun c => c <> 10 /\ c <> 32) l.
Proof. intros [_ H]. eapply Forall_impl; [exact H|]. cbn. lia. Qed.

(** "Www Mmm " of the date line. *)
Lemma layout_date_head w m rest : letters w -> letters m ->
  layout sp_date Font_11x18 0 65 120 (w ++ [32] ++ m ++ [32] ++ rest) =
  placed Font_11x18 65 120 (w ++ [32] ++ m ++ [32]) ++ layout sp_date Font_11x18 2 153 120 rest.
Proof.
  intros Hw Hm. pose proof Font_11x18_wf as Hwf. pose proof (letters_plain _ Hw) as Fw.
  pose proof (letters_plain _ Hm) as Fm. destruct Hw as [Lw _], Hm as [Lm _].
  rewrite layout_fits by (done || (rewrite Lw; cbn; done)). rewrite Lw. cbn [app].
  rewrite (layout_space _ _ _ 1) by done.
  rewrite layout_fits by (done || (rewrite Lm; cbn; done)). rewrite Lm. cbn [app].
  rewrite (layout_space _ _ _ 2) by done.
  destruct w as [|w1 [|w2 [|w3 [|]]]]; try done. destruct m as [|m1 [|m2 [|m3 [|]]]]; done.
Qed.

Lemma placed_app font x y l1 : forall l2,
  placed font x y (l1 ++ l2) = placed font x y l1 ++ placed font (x + Z.of_nat (length l1) * width font) y l2.
Proof.
  revert x. induction l1 as [|c l1 IH]; intros x l2; cbn; [f_equal; lia|].
  rewrite IH. do 3 f_equal. lia.
Qed.

(** What follows "Www Mmm ". *)
Lemma date_tail_short d clk rest : 1 <= d < 10 ->
  layout sp_date Font_11x18 2 153 120 (day_text d ++ [32] ++ clk ++ [32] ++ rest) =
  placed Font_11x18 153 120 (day_text d).
Proof.
  intros Hd. unfold day_text. rewrite (proj2 (Z.ltb_lt _ _)) by lia. cbn [app].
  rewrite (layout_space _ _ _ 3) by (done || apply Font_11x18_wf).
  change (48 + d :: ?l) with ([48 + d] ++ l).
  rewrite layout_fits; [|apply Font_11x18_wf|done|done|repeat constructor; lia]. done.
Qed.

Lemma date_tail_long d clk rest : 10 <= d <= 31 -> length clk = 8%nat ->
  Forall (fun c => 48 <= c <= 58) clk ->
  layout sp_date Font_11x18 2 153 120 (day_text d ++ [32] ++ clk ++ [32] ++ rest) =
  placed Font_11x18 153 120 (day_text d ++ [32] ++ take 4 clk) ++ placed Font_11x18 0 138 (drop 4 clk).
Proof.
  intros Hd Lc Fc. pose proof Font_11x18_wf as Hwf.
  assert (Forall (fun c => c <> 10 /\ c <> 32) clk) as Fp by (eapply Forall_impl; [exact Fc|cbn; lia]).
  unfold day_text. rewrite (proj2 (Z.ltb_ge _ _)) by lia.
  rewrite layout_fits; [|done|done|done|repeat constructor; zlia]. cbn [app length].
  rewrite (layout_space _ _ _ 3) by done.
  destruct clk as [|c1 [|c2 [|c3 [|c4 [|c5 [|c6 [|c7 [|c8 [|]]]]]]]]]; try done. clear Lc Fc.
  rewrite !Forall_cons in Fp. destruct Fp as (F1 & F2 & F3 & F4 & F5 & F6 & F7 & F8 & _).
  cbn [take drop app].
  change (c1 :: c2 :: c3 :: c4 :: ?l) with ([c1; c2; c3; c4] ++ l).
  rewrite layout_fits; [|done|done|done|by repeat apply Forall_cons_2].
  rewrite (layout_wraps _ _ _ _ _ c5) by (done || apply F5).
  change (c6 :: c7 :: c8 :: ?l) with ([c6; c7; c8] ++ l).
  rewrite layout_fits; [|done|done|done|by repeat apply Forall_cons_2].
  done.
Qed.

(** The date line of the main screen: [asctime] text is drawn up to its
    fourth space.  A one-digit day has two spaces before it and the line stops
    after the day; a two-digit day has one, so the clock is drawn as well and
    wraps onto the next row. *)
Theorem date_line t : tm_valid t -> 0 <= tm_wday t < 7 -> tm_year t + 1900 < 10000 ->
  exists w m buf, letters w /\ letters m /\ asctime_r t = Some buf /\
    let clk := clock_text (tm_hour t) (tm_min t) (tm_sec t) in
    layout sp_date Font_11x18 0 65 120 (cstr buf) =
      placed Font_11x18 65 120 (w ++ [32] ++ m ++ [32] ++ day_text (tm_mday t)) ++
      if tm_mday t <? 10 then []
      else placed Font_11x18 175 120 (32 :: take 4 clk) ++ placed Font_11x18 0 138 (drop 4 clk).
Proof.
  intros Hv Hwd Hy. destruct (asctime_r_date t Hv Hwd Hy) as (w & m & rest & Hw & Hm & Hrest & E).
  pose proof (tm_valid_set t Hv) as Hs. destruct Hv as [Hsec Hmin Hhour Hmon Hmd _], Hs as [_ _ _ _ Hmd31 _].
  exists w, m, (w ++ [32] ++ m ++ [32] ++ day_text (tm_mday t) ++ [32] ++
    clock_text (tm_hour t) (tm_min t) (tm_sec t) ++ [32] ++ rest ++ [0]).
  split; [done|]. split; [done|]. split; [done|]. cbv zeta.
  pose proof (clock_text_length (tm_hour t) (tm_min t) (tm_sec t)) as Lc.
  pose proof (clock_text_chars (tm_hour t) (tm_min t) (tm_sec t) Hhour Hmin Hsec) as Fc.
  generalize dependent (clock_text (tm_hour t) (tm_min t) (tm_sec t)). intros clk _ Lc Fc.
  assert (cstr (w ++ [32] ++ m ++ [32] ++ day_text (tm_mday t) ++ [32] ++ clk ++ [32] ++ rest ++ [0]) =
    w ++ [32] ++ m ++ [32] ++ day_text (tm_mday t) ++ [32] ++ clk ++ [32] ++ rest) as ->.
  { transitivity (cstr ((w ++ [32] ++ m ++ [32] ++ day_text (tm_mday t) ++ [32] ++ clk ++ [32] ++ rest) ++ 0 :: [])).
    { f_equal. by rewrite <- !app_assoc. }
    apply cstr_app. unfold day_text, two_digits.
    repeat apply Forall_app_2; try (repeat constructor; lia); try done.
    - eapply Forall_impl; [apply Hw|cbn; lia].
    - eapply Forall_impl; [apply Hm|cbn; lia].
    - case_Z; repeat constructor; zlia.
    - eapply Forall_impl; [exact Fc|cbn; lia]. }
  rewrite layout_date_head by done.
  assert (w ++ [32] ++ m ++ [32] ++ day_text (tm_mday t) = (w ++ [32] ++ m ++ [32]) ++ day_text (tm_mday t))
    as -> by (by rewrite <- !app_assoc).
  assert (length (w ++ [32] ++ m ++ [32]) = 8%nat) as Lh
    by (rewrite !length_app; by destruct Hw as [-> _], Hm as [-> _]).
  generalize dependent (w ++ [32] ++ m ++ [32]). intros hd Lh. rewrite placed_app, Lh, <- app_assoc. f_equal.
  destruct (Z.ltb_spec (tm_mday t) 10).
  - by rewrite date_tail_short, app_nil_r by lia.
  - rewrite date_tail_long by (done || lia). rewrite placed_app, <- app_assoc. do 2 f_equal.
    unfold day_text. by rewrite (proj2 (Z.ltb_ge _ _)) by lia.
Qed.

(** ** Menu strings in adjacent buffers *)

Lemma store_app l1 : forall a l2 m, store a (l1 ++ l2) m = store a l1 (store (a + Z.of_nat (length l1)) l2 m).
Proof.
  induction l1 as [|c l1 IH]; intros a l2 m; cbn [app store length]; [by rewrite Z.add_0_r|].
  rewrite IH. do 3 f_equal. lia.
Qed.

Lemma holds_two a l1 l2 m : holds m a (l1 ++ l2) <->
  (forall i, (i < length l1)%nat -> rd m (a + Z.of_nat i) = nth i l1 0) /\
  holds m (a + Z.of_nat (length l1)) l2.
Proof.
  unfold holds. rewrite length_app. split.
  - intros H. split.
    + intros i Hi. rewrite H by lia. by rewrite app_nth1.
    + intros i Hi. replace (a + Z.of_nat (length l1) + Z.of_nat i) with (a + Z.of_nat (length l1 + i)) by lia.
      rewrite H by lia. rewrite app_nth2 by lia. f_equal. lia.
  - intros [H1 H2] i Hi. destruct (decide (i < length l1)%nat).
    + rewrite H1 by done. by rewrite app_nth1.
    + rewrite app_nth2 by lia. specialize (H2 (i - length l1)%nat ltac:(lia)). rewrite <- H2. f_equal. lia.
Qed.

(** With two bytes per number, as [Hour_str] and its neighbours are declared,
    a two-digit hour has no room for its NUL: written in one order the hour
    buffer reads as hour and minute run together, in the other the minute
    buffer reads as empty. *)
Theorem adjacent_buffers h mi a m : 10 <= h < 24 -> 0 <= mi < 60 ->
  str_at str_fuel (itoa_to mi (a + 2) (itoa_to h a m)) a = Some (itoa h ++ itoa mi) /\
  str_at str_fuel (itoa_to h a (itoa_to mi (a + 2) m)) (a + 2) = Some [].
Proof.
  intros Hh Hmi. assert (length (itoa h) = 2%nat) as Lh.
  { rewrite itoa_two by lia. by rewrite (proj2 (Z.ltb_ge _ _)) by lia. }
  assert (length (itoa mi) <= 2)%nat as Lm.
  { rewrite itoa_two by lia. destruct (mi <? 10); cbn; lia. }
  split.
  - apply str_at_holds.
    + apply Forall_app_2; apply itoa_itoa_char.
    + rewrite length_app. unfold str_fuel. lia.
    + apply holds_two. rewrite Lh. split; [|apply holds_store].
      intros i Hi. unfold itoa_to. rewrite rd_store, decide_False by lia.
      rewrite rd_store, length_app, decide_True by (cbn; lia).
      replace (Z.to_nat (a + Z.of_nat i - a)) with i by lia. by rewrite app_nth1 by lia.
  - unfold str_fuel. cbn [str_at]. unfold itoa_to at 1. rewrite rd_store, length_app, Lh.
    rewrite decide_True by (cbn; lia). replace (Z.to_nat (a + 2 - a)) with 2%nat by lia.
    rewrite app_nth2 by lia. by rewrite Lh.
Qed.

(** ** Steps and battery *)

(** The step detector: the magnitude is defined exactly when the sum of
    squares fits an [int], and then passes the threshold exactly from
    [21002 * 21002] on. *)
Theorem step_counted x y z :
  match totalvector x y z with
  | None => 2147483647 < accel_sum x y z
  | Some v => accel_sum x y z <= 2147483647 /\ (threshold < v <-> 21002 * 21002 <= accel_sum x y z)
  end.
Proof.
  unfold totalvector. rewrite Z.gtb_ltb. destruct (Z.ltb_spec 2147483647 (accel_sum x y z)) as [H|H]; [done|].
  assert (0 <= accel_sum x y z) as H0 by (unfold accel_sum; nia). split; [done|].
  pose proof (Z.sqrt_spec _ H0) as [Hs1 Hs2]. pose proof (Z.sqrt_nonneg (accel_sum x y z)) as Hs0.
  set (s := Z.sqrt _) in *. assert (s < 46341) as Hs by nia.
  rewrite (u16_small s), Z.sub_0_r by lia. rewrite Z.quot_div_nonneg by lia. rewrite u16_small by zlia.
  unfold threshold. split; intros Hx.
  - assert (21002 <= s) by zlia. nia.
  - assert (21002 <= s) by nia. zlia.
Qed.

(** The battery percentage is 0 to 100 on the readings 1800 to 2606 of the
    converter, and between 7907 and 8130 on lower ones, where the 16-bit
    difference wraps. *)
Theorem battery_range adc : 0 <= adc <= 2606 ->
  if adc <? 1800 then 7907 <= batt_scale adc <= 8130
  else batt_scale adc = (adc - 1800) * 100 / 806 /\ 0 <= batt_scale adc <= 100.
Proof.
  intros Ha. unfold batt_scale. rewrite (u16_small adc) by lia. destruct (Z.ltb_spec adc 1800).
  - assert (u16 (adc - 1800) = adc - 1800 + 65536) as -> by (unfold u16; symmetry; apply (Z.mod_unique _ _ (-1)); lia).
    rewrite Z.quot_div_nonneg by lia. rewrite u16_small by zlia. zlia.
  - rewrite (u16_small (adc - 1800)) by lia. rewrite Z.quot_div_nonneg by lia.
    rewrite u16_small by zlia. split; [done|zlia].
Qed.

(** From one tick to the next the clock stands still or advances by one
    second, except when the 32-bit tick difference wraps: then it goes back
    4294967 seconds. *)
Theorem clock_next_tick c tick : running c -> 0 <= tick < 4294967296 -> 0 <= init_tick c < 4294967296 ->
  if u32 (tick - init_tick c) =? 4294967295
  then time c (u32 (tick + 1)) = time c tick - 4294967
  else time c tick <= time c (u32 (tick + 1)) <= time c tick + 1.
Proof.
  intros Hr Ht Hi. rewrite !time_running by done. unfold uptime, RT_TICK_PER_SECOND.
  assert (u32 (u32 (tick + 1) - init_tick c) = u32 (u32 (tick - init_tick c) + 1)) as ->.
  { unfold u32. rewrite Zminus_mod_idemp_l, Zplus_mod_idemp_l. f_equal. lia. }
  pose proof (u32_range (tick - init_tick c)) as Hu. set (u := u32 (tick - init_tick c)) in *.
  destruct (Z.eqb_spec u 4294967295) as [->|Hne].
  - change (u32 (4294967295 + 1)) with 0. change (0 / 1000) with 0. change (4294967295 / 1000) with 4294967. lia.
  - rewrite u32_small by lia. zlia.
Qed.

(** ** At concrete points *)

Lemma date_line_witness : let t := mk_tm 8 49 21 28 1 122 1 58 0 in
  exists w m buf, letters w /\ letters m /\ asctime_r t = Some buf /\
    layout sp_date Font_11x18 0 65 120 (cstr buf) =
      placed Font_11x18 65 120 (w ++ [32] ++ m ++ [32] ++ day_text 28) ++
      placed Font_11x18 175 120 (32 :: take 4 (clock_text 21 49 8)) ++
      placed Font_11x18 0 138 (drop 4 (clock_text 21 49 8)).
Proof.
  apply (date_line (mk_tm 8 49 21 28 1 122 1 58 0)).
  - split; vm_compute; intuition discriminate.
  - vm_compute. intuition discriminate.
  - vm_compute. reflexivity.
Defined.

Lemma adjacent_buffers_witness :
  str_at str_fuel (itoa_to 45 1002 (itoa_to 12 1000 ∅)) 1000 = Some (itoa 12 ++ itoa 45) /\
  str_at str_fuel (itoa_to 12 1000 (itoa_to 45 1002 ∅)) 1002 = Some [].
Proof. apply (adjacent_buffers 12 45 1000 ∅); lia. Defined.

Lemma battery_range_witness : batt_scale 2203 = (2203 - 1800) * 100 / 806 /\ 0 <= batt_scale 2203 <= 100.
Proof. apply (battery_range 2203). lia. Defined.

Lemma clock_next_tick_witness : time booted (u32 (4294967295 + 1)) = time booted 4294967295 - 4294967.
Proof. apply (clock_next_tick booted 4294967295); [apply booted_ok|lia|cbn; lia]. Defined.
