(* ===== verification/KService.v ===== *)
(** * KService: the kernel's memory and string functions

    [rt-thread/src/kservice.c] without [RT_KSERVICE_USING_TINY_SIZE] and
    [RT_KSERVICE_USING_STDLIB], as configured.  The memory functions work on
    addresses, a [long] having four bytes; a string argument is the list of
    bytes its pointer can reach, and reading past it is [None].  [char] is
    unsigned on this target.  Every function that answers its first argument
    has that left out of its result. *)
From S2P Require Import Prelude Bytes.

Definition LBLOCKSIZE : Z := 4.
Definition UNALIGNED (x : Z) : bool := negb (x .& (LBLOCKSIZE - 1) =? 0).

(** ** [rt_memset] *)

Fixpoint set_blocks (fuel : nat) (a buffer count : Z) (m : memory) : option (Z * Z * memory) :=
  if count >=? LBLOCKSIZE * 4 then
    match fuel with
    | O => None
    | S fuel =>
        let m := wr32 a buffer m in
        let m := wr32 (a + 4) buffer m in
        let m := wr32 (a + 8) buffer m in
        let m := wr32 (a + 12) buffer m in
        set_blocks fuel (a + 16) buffer (count - 4 * LBLOCKSIZE) m
    end
  else Some (a, count, m).

Fixpoint set_words (fuel : nat) (a buffer count : Z) (m : memory) : option (Z * Z * memory) :=
  if count >=? LBLOCKSIZE then
    match fuel with
    | O => None
    | S fuel => set_words fuel (a + 4) buffer (count - LBLOCKSIZE) (wr32 a buffer m)
    end
  else Some (a, count, m).

Fixpoint set_bytes (fuel : nat) (a d count : Z) (m : memory) : option memory :=
  if count =? 0 then Some m
  else match fuel with
       | O => None
       | S fuel => set_bytes fuel (a + 1) d (count - 1) (<[a := d]> m)
       end.

Definition rt_memset (s c count : Z) (m : memory) : option memory :=
  let fuel := Z.to_nat count in
  let d := c .& 0xff in
  if negb (count <? LBLOCKSIZE) && negb (UNALIGNED s) then
    let buffer := (d ≪ 8) .| d in
    let buffer := u32 (buffer .| (buffer ≪ 16)) in
    '(a, count, m) ← set_blocks fuel s buffer count m;
    '(a, count, m) ← set_words fuel a buffer count m;
    set_bytes fuel a d count m
  else set_bytes fuel s d count m.

(** ** [rt_memcpy] and [rt_memmove] *)

Definition BIGBLOCKSIZE : Z := 16.
Definition copy_word (d s : Z) (m : memory) : memory := wr32 d (rd32 m s) m.

(** The tests compare the [int] [len] with a [sizeof], so as unsigned. *)
Fixpoint copy_blocks (fuel : nat) (d s len : Z) (m : memory) : option (Z * Z * Z * memory) :=
  if u32 len >=? BIGBLOCKSIZE then
    match fuel with
    | O => None
    | S fuel =>
        let m := copy_word d s m in
        let m := copy_word (d + 4) (s + 4) m in
        let m := copy_word (d + 8) (s + 8) m in
        let m := copy_word (d + 12) (s + 12) m in
        copy_blocks fuel (d + 16) (s + 16) (s32 (len - BIGBLOCKSIZE)) m
    end
  else Some (d, s, len, m).

Fixpoint copy_words (fuel : nat) (d s len : Z) (m : memory) : option (Z * Z * Z * memory) :=
  if u32 len >=? LBLOCKSIZE then
    match fuel with
    | O => None
    | S fuel => copy_words fuel (d + 4) (s + 4) (s32 (len - LBLOCKSIZE)) (copy_word d s m)
    end
  else Some (d, s, len, m).

Fixpoint copy_bytes (fuel : nat) (d s len : Z) (m : memory) : option memory :=
  if len =? 0 then Some m
  else match fuel with
       | O => None
       | S fuel => copy_bytes fuel (d + 1) (s + 1) (len - 1) (<[d := rd m s]> m)
       end.

Definition rt_memcpy (dst src count : Z) (m : memory) : option memory :=
  let fuel := Z.to_nat count in
  let len := s32 count in
  if negb (u32 len <? BIGBLOCKSIZE) && negb (UNALIGNED src || UNALIGNED dst) then
    '(d, s, len, m) ← copy_blocks fuel dst src len m;
    '(d, s, len, m) ← copy_words fuel d s len m;
    copy_bytes fuel d s len m
  else copy_bytes fuel dst src len m.

(** [tmp += n; s += n; while (n--) *(--tmp) = *(--s);], [d] and [s] being the
    ends of the ranges. *)
Fixpoint copy_back (n : nat) (d s : Z) (m : memory) : memory :=
  match n with
  | O => m
  | S n => copy_back n (d - 1) (s - 1) (<[d - 1 := rd m (s - 1)]> m)
  end.
Fixpoint copy_forward (n : nat) (d s : Z) (m : memory) : memory :=
  match n with
  | O => m
  | S n => copy_forward n (d + 1) (s + 1) (<[d := rd m s]> m)
  end.

Definition rt_memmove (dest src n : Z) (m : memory) : memory :=
  if (src <? dest) && (dest <? src + n)
  then copy_back (Z.to_nat n) (dest + n) (src + n) m
  else copy_forward (Z.to_nat n) dest src m.

Fixpoint memcmp_loop (count : nat) (su1 su2 : Z) (m : memory) : Z :=
  match count with
  | O => 0
  | S count =>
      let res := rd m su1 - rd m su2 in
      if negb (res =? 0) then res else memcmp_loop count (su1 + 1) (su2 + 1) m
  end.
Definition rt_memcmp (cs ct count : Z) (m : memory) : Z := memcmp_loop (Z.to_nat count) cs ct m.

(** ** Strings *)

(** The index [sc - s] at which the loop of [rt_strlen] stops. *)
Fixpoint strlen_loop (s : list Z) (i : Z) : option Z :=
  match s with
  | [] => None
  | c :: s => if negb (c =? 0) then strlen_loop s (i + 1) else Some i
  end.
Definition rt_strlen (s : list Z) : option Z := strlen_loop s 0.

Fixpoint strnlen_loop (s : list Z) (i maxlen : Z) : option Z :=
  match s with
  | [] => None
  | c :: s => if negb (c =? 0) && (i <? maxlen) then strnlen_loop s (i + 1) maxlen else Some i
  end.
Definition rt_strnlen (s : list Z) (maxlen : Z) : option Z := strnlen_loop s 0 maxlen.

Fixpoint rt_strcmp (cs ct : list Z) : option Z :=
  match cs, ct with
  | c :: cs, d :: ct => if negb (c =? 0) && (c =? d) then rt_strcmp cs ct else Some (c - d)
  | _, _ => None
  end.

(** The difference is stored in a [signed char]. *)
Definition s8 (z : Z) : Z := (z + 128) `mod` 256 - 128.
Fixpoint strncmp_loop (count : nat) (cs ct : list Z) (res : Z) : option Z :=
  match count with
  | O => Some res
  | S count =>
      match cs, ct with
      | c :: cs, d :: ct =>
          let res := s8 (c - d) in
          if negb (res =? 0) || (c =? 0) then Some res else strncmp_loop count cs ct res
      | _, _ => None
      end
  end.
Definition rt_strncmp (cs ct : list Z) (count : Z) : option Z := strncmp_loop (Z.to_nat count) cs ct 0.

Definition lower (c : Z) : Z :=
  let c := c .& 0xff in if (c >=? 65) && (c <=? 90) then c + 32 else c.
Fixpoint rt_strcasecmp (a b : list Z) : option Z :=
  match a, b with
  | x :: a, y :: b =>
      let ca := lower x in let cb := lower y in
      if (ca =? cb) && negb (ca =? 0) then rt_strcasecmp a b else Some (ca - cb)
  | _, _ => None
  end.

(** What [rt_strncpy] stores from [dst] on. *)
Fixpoint strncpy_out (n : nat) (src : list Z) : option (list Z) :=
  match n with
  | O => Some []
  | S n =>
      match src with
      | [] => None
      | c :: src => if c =? 0 then Some (0 :: repeat 0 n) else l ← strncpy_out n src; Some (c :: l)
      end
  end.
Definition rt_strncpy (dst : Z) (src : list Z) (n : Z) (m : memory) : option memory :=
  l ← strncpy_out (Z.to_nat n) src; Some (store dst l m).

Fixpoint list_memcmp (l2 : nat) (s1 s2 : list Z) : option Z :=
  match l2 with
  | O => Some 0
  | S l2 =>
      match s1, s2 with
      | c :: s1, d :: s2 => if negb (c - d =? 0) then Some (c - d) else list_memcmp l2 s1 s2
      | _, _ => None
      end
  end.

(** The offset of the occurrence found; [Some None] is [RT_NULL]. *)
Fixpoint strstr_loop (fuel : nat) (s1 s2 : list Z) (l1 l2 i : Z) : option (option Z) :=
  if l1 >=? l2 then
    match fuel with
    | O => None
    | S fuel =>
        r ← list_memcmp (Z.to_nat l2) s1 s2;
        if r =? 0 then Some (Some i) else strstr_loop fuel (tail s1) s2 (l1 - 1) l2 (i + 1)
    end
  else Some None.
Definition rt_strstr (s1 s2 : list Z) : option (option Z) :=
  l2 ← rt_strlen s2;
  if l2 =? 0 then Some (Some 0)
  else l1 ← rt_strlen s1; strstr_loop (S (Z.to_nat l1)) s1 s2 l1 l2 0.

(** ** Memory: the word loops copy and fill like byte loops *)

Lemma moved_bytes_ok d s n m m' : bytes_ok m -> moved d s n m m' -> bytes_ok m'.
Proof. intros Hm H x. rewrite H. destruct (decide _); apply Hm. Qed.

Lemma moved_none d s m : moved d s 0 m m.
Proof. intros x. by rewrite decide_False by lia. Qed.

(** Ranges copied one after the other, upwards, the target not above the
    part of the source still to be read. *)
Lemma moved_app d s n1 n2 m m1 m2 : 0 <= n1 -> 0 <= n2 -> d <= s \/ s + (n1 + n2) <= d ->
  moved d s n1 m m1 -> moved (d + n1) (s + n1) n2 m1 m2 -> moved d s (n1 + n2) m m2.
Proof.
  intros H1 H2 Hd M1 M2 x. rewrite M2. repeat destruct (decide _); try lia.
  - rewrite M1, decide_False by lia. f_equal. lia.
  - by rewrite M1, decide_True by lia.
  - by rewrite M1, decide_False by lia.
Qed.

Lemma copy_word_moved d s m : bytes_ok m -> moved d s 4 m (copy_word d s m).
Proof.
  intros Hm x. unfold copy_word. rewrite rd_wr32. destruct (decide _); [|done].
  apply le_byte_rd32; [done|lia].
Qed.

Lemma copy_byte_moved d s m : moved d s 1 m (<[d := rd m s]> m).
Proof.
  intros x. rewrite rd_insert. repeat destruct (decide _); try lia; try done.
  f_equal. lia.
Qed.

Lemma copy_bytes_moved fuel : forall d s len m, 0 <= len <= Z.of_nat fuel ->
  d <= s \/ s + len <= d ->
  exists m', copy_bytes fuel d s len m = Some m' /\ moved d s len m m'.
Proof.
  induction fuel as [|fuel IH]; intros d s len m Hl Hd; cbn [copy_bytes];
    destruct (Z.eqb_spec len 0) as [->|Hn]; [eauto using moved_none|lia|eauto using moved_none|].
  destruct (IH (d + 1) (s + 1) (len - 1) (<[d := rd m s]> m)) as (m' & E & M); [lia|lia|].
  exists m'. split; [done|]. replace len with (1 + (len - 1)) by lia.
  eapply moved_app; [lia|lia|lia|apply copy_byte_moved|done].
Qed.

Lemma copy_words_moved fuel : forall d s len m, bytes_ok m -> 0 <= len <= Z.of_nat fuel ->
  len < 2147483648 -> d <= s \/ s + len <= d ->
  exists k m', copy_words fuel d s len m = Some (d + k, s + k, len - k, m') /\
    0 <= k <= len /\ moved d s k m m'.
Proof.
  induction fuel as [|fuel IH]; intros d s len m Hm Hl Hb Hd; cbn [copy_words];
    rewrite (u32_small len), Z.geb_leb by lia; unfold LBLOCKSIZE;
    destruct (Z.leb_spec 4 len); try lia.
  2: { rewrite s32_small by lia.
       pose proof (copy_word_moved d s m Hm) as M1.
       destruct (IH (d + 4) (s + 4) (len - 4) (copy_word d s m)) as (k & m' & E & Hk & M2);
         [eauto using moved_bytes_ok|lia..|].
       exists (4 + k), m'. rewrite E. split_and!; [by rewrite !Z.add_assoc, Z.sub_add_distr|lia|lia|].
       by eapply moved_app; [lia|lia|lia|apply M1|]. }
  all: exists 0, m; rewrite !Z.add_0_r, Z.sub_0_r; split_and!; [done|lia|lia|apply moved_none].
Qed.

Lemma copy_blocks_moved fuel : forall d s len m, bytes_ok m -> 0 <= len <= Z.of_nat fuel ->
  len < 2147483648 -> d <= s \/ s + len <= d ->
  exists k m', copy_blocks fuel d s len m = Some (d + k, s + k, len - k, m') /\
    0 <= k <= len /\ moved d s k m m'.
Proof.
  induction fuel as [|fuel IH]; intros d s len m Hm Hl Hb Hd; cbn [copy_blocks];
    rewrite (u32_small len), Z.geb_leb by lia; unfold BIGBLOCKSIZE;
    destruct (Z.leb_spec 16 len); try lia.
  2: { rewrite s32_small by lia.
       assert (forall n a b m0 m1, bytes_ok m1 -> 0 <= n -> n + 4 <= 16 -> a = d + n -> b = s + n ->
         moved d s n m0 m1 -> moved d s (n + 4) m0 (copy_word a b m1)) as Hstep.
       { intros n a b m0 m1 Hm1 H0 Hn -> -> M. eapply moved_app; [lia|lia|lia|done|].
         by apply copy_word_moved. }
       assert (moved d s 16 m (copy_word (d + 12) (s + 12) (copy_word (d + 8) (s + 8)
         (copy_word (d + 4) (s + 4) (copy_word d s m))))) as M1.
       { pose proof (copy_word_moved d s m Hm) as M4.
         pose proof (Hstep 4 _ _ _ _ (moved_bytes_ok _ _ _ _ _ Hm M4) ltac:(lia) ltac:(lia) eq_refl eq_refl M4) as M8.
         pose proof (Hstep 8 _ _ _ _ (moved_bytes_ok _ _ _ _ _ Hm M8) ltac:(lia) ltac:(lia) eq_refl eq_refl M8) as M12.
         exact (Hstep 12 _ _ _ _ (moved_bytes_ok _ _ _ _ _ Hm M12) ltac:(lia) ltac:(lia) eq_refl eq_refl M12). }
       destruct (IH (d + 16) (s + 16) (len - 16) _ (moved_bytes_ok _ _ _ _ _ Hm M1))
         as (k & m' & E & Hk & M2); [lia..|].
       exists (16 + k), m'. rewrite E. split_and!; [by rewrite !Z.add_assoc, Z.sub_add_distr|lia|lia|].
       by eapply moved_app; [lia|lia|lia|apply M1|]. }
  all: exists 0, m; rewrite !Z.add_0_r, Z.sub_0_r; split_and!; [done|lia|lia|apply moved_none].
Qed.

(** What [rt_memcpy] does, also on ranges that overlap downwards. *)
Lemma memcpy_moved dst src count m : bytes_ok m -> 0 <= count < 2147483648 ->
  dst <= src \/ src + count <= dst ->
  exists m', rt_memcpy dst src count m = Some m' /\ moved dst src count m m'.
Proof.
  intros Hm Hc Hd. unfold rt_memcpy. rewrite s32_small by lia.
  destruct (negb _ && negb _); [|by apply copy_bytes_moved; [lia|]].
  destruct (copy_blocks_moved (Z.to_nat count) dst src count m) as (k & m1 & -> & Hk & M1);
    [done|lia..|]. cbn.
  destruct (copy_words_moved (Z.to_nat count) (dst + k) (src + k) (count - k) m1)
    as (k2 & m2 & -> & Hk2 & M2); [eauto using moved_bytes_ok|lia..|]. cbn.
  destruct (copy_bytes_moved (Z.to_nat count) (dst + k + k2) (src + k + k2) (count - k - k2) m2)
    as (m3 & -> & M3); [lia..|].
  exists m3. split; [done|]. replace count with (k + (k2 + (count - k - k2))) by lia.
  eapply moved_app; [lia|lia|lia|apply M1|]. by eapply moved_app; [lia|lia|lia|apply M2|].
Qed.

Lemma copy_forward_moved n : forall d s m, d <= s \/ s + Z.of_nat n <= d ->
  moved d s (Z.of_nat n) m (copy_forward n d s m).
Proof.
  induction n as [|n IH]; intros d s m Hd; [apply moved_none|].
  cbn [copy_forward]. replace (Z.of_nat (S n)) with (1 + Z.of_nat n) by lia.
  eapply moved_app; [lia|lia|lia|apply copy_byte_moved|]. apply IH. lia.
Qed.

Lemma copy_back_moved n : forall d s m, s <= d ->
  moved (d - Z.of_nat n) (s - Z.of_nat n) (Z.of_nat n) m (copy_back n d s m).
Proof.
  induction n as [|n IH]; intros d s m Hd; [apply moved_none|].
  cbn [copy_back]. intros x. rewrite (IH (d - 1) (s - 1)) by lia.
  rewrite !rd_insert. repeat destruct (decide _); try lia; try done; f_equal; lia.
Qed.

Lemma memmove_moved dest src n m : 0 <= n -> moved dest src n m (rt_memmove dest src n m).
Proof.
  intros Hn. unfold rt_memmove. rewrite <- (Z2Nat.id n) at 1 by lia.
  destruct (Z.ltb_spec src dest), (Z.ltb_spec dest (src + n)); cbn [andb];
    [|apply copy_forward_moved; lia..].
  pose proof (copy_back_moved (Z.to_nat n) (dest + n) (src + n) m ltac:(lia)) as M.
  rewrite Z2Nat.id, !Z.add_simpl_r in M by lia. by rewrite Z2Nat.id by lia.
Qed.

Lemma filled_app a n1 n2 c m m1 m2 : 0 <= n1 -> 0 <= n2 ->
  filled_with a n1 c m m1 -> filled_with (a + n1) n2 c m1 m2 -> filled_with a (n1 + n2) c m m2.
Proof.
  intros H1 H2 F1 F2 x. rewrite F2. repeat destruct (decide _); try lia; try done;
    rewrite F1; [by rewrite decide_True by lia|by rewrite decide_False by lia].
Qed.

Lemma filled_none a c m : filled_with a 0 c m m.
Proof. intros x. by rewrite decide_False by lia. Qed.

(** Four copies of a byte in a word. *)
Definition word_of_byte (d : Z) : Z := d + 256 * d + 65536 * d + 16777216 * d.

Lemma set_word_filled a d m : 0 <= d < 256 -> filled_with a 4 d m (wr32 a (word_of_byte d) m).
Proof.
  intros Hd x. rewrite rd_wr32. destruct (decide _); [|done].
  unfold le_byte, word_of_byte.
  assert (x - a = 0 \/ x - a = 1 \/ x - a = 2 \/ x - a = 3) as [-> | [-> | [-> | ->]]] by lia;
    change (256 ^ 0) with 1; change (256 ^ 1) with 256; change (256 ^ 2) with 65536;
    change (256 ^ 3) with 16777216; zlia.
Qed.

Lemma word_of_byte_buffer d : 0 <= d < 256 ->
  u32 (((d ≪ 8) .| d) .| (((d ≪ 8) .| d) ≪ 16)) = word_of_byte d.
Proof.
  intros Hd.
  assert (forallb (fun d => u32 (((d ≪ 8) .| d) .| (((d ≪ 8) .| d) ≪ 16)) =? word_of_byte d)
    (seqZ 0 256) = true) as H by by vm_compute.
  rewrite forallb_forall in H. apply Z.eqb_eq, H, list_elem_of_In, elem_of_seqZ. lia.
Qed.

Lemma set_byte_filled a d m : filled_with a 1 d m (<[a := d]> m).
Proof. intros x. rewrite rd_insert. repeat destruct (decide _); try lia; done. Qed.

Lemma set_bytes_filled fuel : forall a d count m, 0 <= count <= Z.of_nat fuel ->
  exists m', set_bytes fuel a d count m = Some m' /\ filled_with a count d m m'.
Proof.
  induction fuel as [|fuel IH]; intros a d n m Hn; cbn [set_bytes];
    destruct (Z.eqb_spec n 0) as [->|Hz]; [eauto using filled_none|lia|eauto using filled_none|].
  destruct (IH (a + 1) d (n - 1) (<[a := d]> m)) as (m' & E & F); [lia|].
  exists m'. split; [done|]. replace n with (1 + (n - 1)) by lia.
  eapply filled_app; [lia|lia|apply set_byte_filled|done].
Qed.

Lemma set_words_filled fuel : forall a d count m, 0 <= d < 256 -> 0 <= count <= Z.of_nat fuel ->
  exists k m', set_words fuel a (word_of_byte d) count m = Some (a + k, count - k, m') /\
    0 <= k <= count /\ filled_with a k d m m'.
Proof.
  induction fuel as [|fuel IH]; intros a d n m Hd Hn; cbn [set_words];
    rewrite Z.geb_leb; unfold LBLOCKSIZE; destruct (Z.leb_spec 4 n); try lia.
  2: { destruct (IH (a + 4) d (n - 4) (wr32 a (word_of_byte d) m)) as (k & m' & E & Hk & F);
         [done|lia|].
       exists (4 + k), m'. rewrite E. split_and!; [by rewrite !Z.add_assoc, Z.sub_add_distr|lia|lia|].
       eapply filled_app; [lia|lia|by apply set_word_filled|done]. }
  all: exists 0, m; rewrite !Z.add_0_r, Z.sub_0_r; split_and!; [done|lia|lia|apply filled_none].
Qed.

Lemma set_blocks_filled fuel : forall a d count m, 0 <= d < 256 -> 0 <= count <= Z.of_nat fuel ->
  exists k m', set_blocks fuel a (word_of_byte d) count m = Some (a + k, count - k, m') /\
    0 <= k <= count /\ filled_with a k d m m'.
Proof.
  induction fuel as [|fuel IH]; intros a d n m Hd Hn; cbn [set_blocks];
    rewrite Z.geb_leb; change (LBLOCKSIZE * 4) with 16; destruct (Z.leb_spec 16 n); try lia.
  2: { assert (forall b m1, filled_with b 4 d m1 (wr32 b (word_of_byte d) m1)) as Hw
         by (intros; by apply set_word_filled).
       assert (filled_with a 16 d m (wr32 (a + 12) (word_of_byte d) (wr32 (a + 8) (word_of_byte d)
         (wr32 (a + 4) (word_of_byte d) (wr32 a (word_of_byte d) m))))) as F1.
       { eapply (filled_app a 12 4); [lia|lia| |apply Hw].
         eapply (filled_app a 8 4); [lia|lia| |apply Hw].
         eapply (filled_app a 4 4); [lia|lia|apply Hw..]. }
       change (4 * LBLOCKSIZE) with 16.
       edestruct (IH (a + 16) d (n - 16)) as (k & m' & E & Hk & F2); [done|lia|].
       exists (16 + k), m'. rewrite E. split_and!; [by rewrite !Z.add_assoc, Z.sub_add_distr|lia|lia|].
       eapply filled_app; [lia|lia|apply F1|done]. }
  all: exists 0, m; rewrite !Z.add_0_r, Z.sub_0_r; split_and!; [done|lia|lia|apply filled_none].
Qed.

Lemma memset_filled s c count m : 0 <= count ->
  exists m', rt_memset s c count m = Some m' /\ filled_with s count (u8 c) m m'.
Proof.
  intros Hn. unfold rt_memset.
  assert (c .& 0xff = u8 c) as -> by (change 0xff with (Z.ones 8); by rewrite Z.land_ones by lia).
  pose proof (u8_range c) as Hc. destruct (negb _ && negb _); [|by apply set_bytes_filled; lia].
  rewrite word_of_byte_buffer by done.
  destruct (set_blocks_filled (Z.to_nat count) s (u8 c) count m) as (k & m1 & -> & Hk & F1); [done|lia|].
  cbn. destruct (set_words_filled (Z.to_nat count) (s + k) (u8 c) (count - k) m1)
    as (k2 & m2 & -> & Hk2 & F2); [done|lia|]. cbn.
  destruct (set_bytes_filled (Z.to_nat count) (s + k + k2) (u8 c) (count - k - k2) m2)
    as (m3 & -> & F3); [lia|].
  exists m3. split; [done|]. replace count with (k + (k2 + (count - k - k2))) by lia.
  eapply filled_app; [lia|lia|apply F1|]. by eapply filled_app; [lia|lia|apply F2|].
Qed.

(** ** Strings: what the loops answer for NUL-terminated arguments *)

Definition c_string (l : list Z) : Prop := Forall (fun c => 0 < c < 256) l.

Lemma strlen_loop_spec l rest : forall i, c_string l ->
  strlen_loop (l ++ 0 :: rest) i = Some (i + Z.of_nat (length l)).
Proof.
  induction l as [|c l IH]; intros i Hl; cbn [app strlen_loop length]; [cbn; f_equal; lia|].
  apply Forall_cons in Hl as [Hc Hl]. rewrite (proj2 (Z.eqb_neq c 0)) by lia. cbn [negb].
  rewrite IH by done. f_equal. lia.
Qed.

Lemma strlen_spec l rest : c_string l -> rt_strlen (l ++ 0 :: rest) = Some (Z.of_nat (length l)).
Proof. intros Hl. unfold rt_strlen. by rewrite strlen_loop_spec. Qed.

(** With no NUL among its first [maxlen] characters, [rt_strnlen] also reads
    the character after them. *)
Lemma strnlen_reads_on l : forall i, Forall (fun c => c <> 0) l ->
  strnlen_loop l i (i + Z.of_nat (length l)) = None /\
  (forall c rest, strnlen_loop (l ++ c :: rest) i (i + Z.of_nat (length l)) =
     Some (i + Z.of_nat (length l))).
Proof.
  induction l as [|c l IH]; intros i Hl; cbn [app strnlen_loop length].
  { split; [done|]. intros c rest. rewrite Z.add_0_r, Z.ltb_irrefl, andb_false_r. done. }
  apply Forall_cons in Hl as [Hc Hl]. destruct (IH (i + 1) Hl) as [H1 H2].
  replace (i + Z.of_nat (S (length l))) with (i + 1 + Z.of_nat (length l)) by lia.
  rewrite (proj2 (Z.eqb_neq c 0)), (proj2 (Z.ltb_lt i _)) by lia. done.
Qed.

(** Comparing: the first difference decides, the NUL of a prefix too. *)
Fixpoint lex (a b : list Z) : Z :=
  match a, b with
  | [], [] => 0
  | [], d :: _ => - d
  | c :: _, [] => c
  | c :: a, d :: b => if c =? d then lex a b else c - d
  end.

Lemma strcmp_spec a b ra rb : c_string a -> c_string b ->
  rt_strcmp (a ++ 0 :: ra) (b ++ 0 :: rb) = Some (lex a b).
Proof.
  intros Ha. revert b. induction Ha as [|c a Hc Ha IH]; intros b Hb; destruct Hb as [|d b Hd Hb];
    cbn [app rt_strcmp lex]; try done.
  - by rewrite (proj2 (Z.eqb_neq c 0)), Z.sub_0_r by lia.
  - rewrite (proj2 (Z.eqb_neq c 0)) by lia. destruct (Z.eqb_spec c d) as [->|]; cbn; [by apply IH|done].
Qed.

Lemma lex_zero a : forall b, c_string a -> c_string b -> lex a b = 0 <-> a = b.
Proof.
  induction a as [|c a IH]; intros [|d b] Ha Hb; cbn; try done.
  - apply Forall_cons in Hb as [Hd _]. split; [lia|done].
  - apply Forall_cons in Ha as [Hc _]. split; [lia|done].
  - apply Forall_cons in Ha as [Hc Ha]. apply Forall_cons in Hb as [Hd Hb].
    destruct (Z.eqb_spec c d) as [->|]; [rewrite IH by done; split; congruence|].
    split; [lia|congruence].
Qed.

Lemma s8_zero c d : 0 <= c < 256 -> 0 <= d < 256 -> s8 (c - d) = 0 <-> c = d.
Proof. intros Hc Hd. unfold s8. zlia. Qed.

(** [rt_strncmp] answers 0 exactly when the first [count] characters agree. *)
Lemma strncmp_zero count a b ra rb : c_string a -> c_string b ->
  exists r, strncmp_loop count (a ++ 0 :: ra) (b ++ 0 :: rb) 0 = Some r /\
    (r = 0 <-> take count a = take count b).
Proof.
  intros Ha. revert count b. induction Ha as [|c a Hc Ha IH]; intros [|count] b Hb;
    [by exists 0| |by exists 0|]; destruct Hb as [|d b Hd Hb]; cbn [app strncmp_loop take].
  - by exists 0.
  - rewrite orb_true_r. eexists. split; [done|]. rewrite s8_zero by lia. split; [lia|done].
  - exists (s8 (c - 0)). pose proof (s8_zero c 0 ltac:(lia) ltac:(lia)) as E.
    rewrite (proj2 (Z.eqb_neq (s8 (c - 0)) 0)) by lia. split; [done|]. split; [lia|done].
  - pose proof (s8_zero c d ltac:(lia) ltac:(lia)) as E.
    destruct (Z.eqb_spec (s8 (c - d)) 0) as [Es|Es]; cbn [negb orb].
    + rewrite (proj2 (Z.eqb_neq c 0)) by lia. rewrite Es.
      destruct (IH count b Hb) as (r & Er & Hr). exists r. split; [done|].
      apply E in Es as ->. rewrite Hr. split; congruence.
    + eexists. split; [done|]. split; [done|]. intros [= -> _]. lia.
Qed.

Lemma strcasecmp_zero a : forall b ra rb, c_string a -> c_string b ->
  exists r, rt_strcasecmp (a ++ 0 :: ra) (b ++ 0 :: rb) = Some r /\
    (r = 0 <-> map lower a = map lower b).
Proof.
  assert (forall c, 0 < c < 256 -> 0 < lower c) as Hlow.
  { intros c Hc. unfold lower. change 0xff with (Z.ones 8). rewrite Z.land_ones by lia.
    change (2 ^ 8) with 256. rewrite Z.mod_small by lia. destruct (_ && _); lia. }
  assert (lower 0 = 0) as H0 by done.
  induction a as [|c a IH]; intros [|d b] ra rb Ha Hb; cbn [app rt_strcasecmp map]; rewrite ?H0;
    unfold c_string in *; rewrite ?Forall_cons in Ha; rewrite ?Forall_cons in Hb.
  - by exists 0.
  - destruct Hb as [Hd%Hlow _]. rewrite andb_false_r. eexists. split; [done|]. split; [lia|done].
  - destruct Ha as [Hc%Hlow _]. rewrite (proj2 (Z.eqb_neq (lower c) 0)) by lia. cbn [andb].
    eexists. split; [done|]. split; [lia|done].
  - destruct Ha as [Hc%Hlow Ha], Hb as [Hd%Hlow Hb].
    rewrite (proj2 (Z.eqb_neq (lower c) 0)), andb_true_r by lia.
    destruct (Z.eqb_spec (lower c) (lower d)) as [E|E].
    + destruct (IH b ra rb Ha Hb) as (r & Er & Hr). exists r. split; [done|]. rewrite Hr, E.
      split; congruence.
    + eexists. split; [done|]. split; [lia|congruence].
Qed.

(** [rt_strncpy] writes exactly [n] bytes: the characters, then zeros. *)
Lemma strncpy_spec l rest : c_string l -> forall n,
  strncpy_out n (l ++ 0 :: rest) = Some (take n l ++ repeat 0 (n - length l)).
Proof.
  induction 1 as [|c l Hc Hl IH]; intros [|n]; cbn [app strncpy_out take length]; try done.
  rewrite (proj2 (Z.eqb_neq c 0)) by lia. rewrite IH. done.
Qed.

(** The first place where [b] occurs in [a]. *)
Fixpoint find_sub (b a : list Z) (i : Z) : option Z :=
  if decide (take (length b) a = b) then Some i
  else match a with [] => None | _ :: a => find_sub b a (i + 1) end.

Lemma list_memcmp_spec b : forall s rest, (length b <= length s)%nat ->
  exists r, list_memcmp (length b) s (b ++ rest) = Some r /\ (r = 0 <-> take (length b) s = b).
Proof.
  induction b as [|d b IH]; intros [|c s] rest Hl; cbn [length] in Hl; try lia; [by exists 0..|].
  cbn [length app list_memcmp take]. destruct (Z.eqb_spec (c - d) 0) as [E|E]; cbn [negb].
  - destruct (IH s rest ltac:(lia)) as (r & Er & Hr). exists r. split; [done|].
    rewrite Hr. assert (c = d) as -> by lia. split; congruence.
  - eexists. split; [done|]. split; [done|]. intros [= -> _]. lia.
Qed.

Lemma strstr_loop_spec b rb a ra : b <> [] -> forall i fuel, (length a < fuel)%nat ->
  strstr_loop fuel (a ++ 0 :: ra) (b ++ 0 :: rb) (Z.of_nat (length a)) (Z.of_nat (length b)) i =
  Some (find_sub b a i).
Proof.
  intros Hb. induction a as [|c a IH]; intros i [|fuel] Hf; cbn [length] in Hf; try lia;
    cbn [strstr_loop]; rewrite Z.geb_leb.
  { destruct b; [done|]. cbn [length]. rewrite (proj2 (Z.leb_gt _ _)) by lia. done. }
  destruct (Z.leb_spec (Z.of_nat (length b)) (Z.of_nat (length (c :: a)))) as [Hle|Hgt]; cbn [length] in *.
  - rewrite Nat2Z.id.
    destruct (list_memcmp_spec b ((c :: a) ++ 0 :: ra) (0 :: rb)) as (r & -> & Hr);
      [rewrite length_app; cbn; lia|]. cbn [mbind option_bind].
    rewrite take_app_le in Hr by (cbn; lia).
    cbn [find_sub]. destruct (Z.eqb_spec r 0) as [E|E]; [by rewrite decide_True by by apply Hr|].
    rewrite decide_False by (intros H; by apply E, Hr). cbn [app tail].
    replace (Z.of_nat (S (length a)) - 1) with (Z.of_nat (length a)) by lia. apply IH. lia.
  - f_equal. symmetry. clear -Hgt. revert i. assert (length (c :: a) < length b)%nat as H by (cbn; lia).
    clear Hgt. generalize (c :: a) as l, H. clear. induction l as [|c l IH]; intros H i; cbn.
    + rewrite decide_False; [done|]. intros E. apply (f_equal length) in E.
      rewrite length_take in E. cbn in *. lia.
    + rewrite decide_False; [apply IH; cbn in H; lia|]. intros E. apply (f_equal length) in E.
      rewrite length_take in E. cbn in *. lia.
Qed.

Lemma strstr_spec a ra b rb : c_string a -> c_string b ->
  rt_strstr (a ++ 0 :: ra) (b ++ 0 :: rb) = Some (find_sub b a 0).
Proof.
  intros Ha Hb. unfold rt_strstr. rewrite (strlen_spec b) by done. cbn [mbind option_bind].
  destruct b as [|d b]; [by destruct a|].
  rewrite (proj2 (Z.eqb_neq _ 0)) by (cbn; lia). rewrite (strlen_spec a) by done. cbn [mbind option_bind].
  rewrite Nat2Z.id. apply strstr_loop_spec; [done|lia].
Qed.

(** ** The properties *)

(** C22 [rt_memset], [rt_memcpy] and [rt_memmove] do what the byte-by-byte
    definitions say, whatever the alignment: [count] bytes from [s] on become
    the low byte of [c]; [count] bytes from [dst] on become the old bytes from
    [src] on, for [rt_memcpy] when the target does not lie inside the source
    above its start, for [rt_memmove] always; and every other byte of memory
    stays.  The word loops end within the fuel. *)
Theorem memory_functions m : bytes_ok m ->
  (forall s c count, 0 <= count ->
     exists m', rt_memset s c count m = Some m' /\ filled_with s count (u8 c) m m') /\
  (forall dst src count, 0 <= count < 2147483648 -> dst <= src \/ src + count <= dst ->
     exists m', rt_memcpy dst src count m = Some m' /\ moved dst src count m m') /\
  (forall dest src n, 0 <= n -> moved dest src n m (rt_memmove dest src n m)).
Proof.
  intros Hm. split_and!.
  - intros. by apply memset_filled.
  - intros. by apply memcpy_moved.
  - intros. by apply memmove_moved.
Qed.

Lemma memory_functions_witness :
  (exists m', rt_memcpy 100 132 21 (store 132 [1; 2; 3; 4; 5] ∅) = Some m' /\
    moved 100 132 21 (store 132 [1; 2; 3; 4; 5] ∅) m') /\
  moved 34 32 5 (store 32 [1; 2; 3; 4; 5] ∅) (rt_memmove 34 32 5 (store 32 [1; 2; 3; 4; 5] ∅)).
Proof.
  split.
  - apply (memory_functions (store 132 [1; 2; 3; 4; 5] ∅)); [|lia|lia].
    apply bytes_ok_store; [apply bytes_ok_empty|repeat constructor; lia].
  - apply (memory_functions (store 32 [1; 2; 3; 4; 5] ∅)); [|lia].
    apply bytes_ok_store; [apply bytes_ok_empty|repeat constructor; lia].
Defined.

(** For NUL-terminated arguments the string functions stay inside them and
    answer the length, the place of the first occurrence, and a comparison
    that is 0 exactly for equal strings (for equal prefixes of [count]
    characters, or up to case); [rt_strncpy] writes exactly [n] bytes.  But [rt_strnlen]
    with no NUL among [maxlen] readable characters reads one more. *)
Theorem string_functions a b ra rb : c_string a -> c_string b ->
  rt_strlen (a ++ 0 :: ra) = Some (Z.of_nat (length a)) /\
  rt_strstr (a ++ 0 :: ra) (b ++ 0 :: rb) = Some (find_sub b a 0) /\
  (exists r, rt_strcmp (a ++ 0 :: ra) (b ++ 0 :: rb) = Some r /\ (r = 0 <-> a = b)) /\
  (forall count, exists r, rt_strncmp (a ++ 0 :: ra) (b ++ 0 :: rb) count = Some r /\
     (r = 0 <-> take (Z.to_nat count) a = take (Z.to_nat count) b)) /\
  (exists r, rt_strcasecmp (a ++ 0 :: ra) (b ++ 0 :: rb) = Some r /\
     (r = 0 <-> map lower a = map lower b)) /\
  (forall dst n m, rt_strncpy dst (a ++ 0 :: ra) n m =
     Some (store dst (take (Z.to_nat n) a ++ repeat 0 (Z.to_nat n - length a)) m)) /\
  rt_strnlen a (Z.of_nat (length a)) = None.
Proof.
  intros Ha Hb. split_and!.
  - by apply strlen_spec.
  - by apply strstr_spec.
  - exists (lex a b). split; [by apply strcmp_spec|by apply lex_zero].
  - intros count. by apply strncmp_zero.
  - by apply strcasecmp_zero.
  - intros dst n m. unfold rt_strncpy. by rewrite strncpy_spec.
  - unfold rt_strnlen. apply (strnlen_reads_on a 0). eapply Forall_impl; [exact Ha|]. cbn. lia.
Qed.

Lemma string_functions_witness :
  rt_strlen (chars "heap" ++ [0]) = Some 4 /\
  rt_strstr (chars "heap" ++ [0]) (chars "ea" ++ [0]) = Some (Some 1).
Proof.
  assert (c_string (chars "heap")) as H1 by (repeat constructor; cbn; lia).
  assert (c_string (chars "ea")) as H2 by (repeat constructor; cbn; lia).
  destruct (string_functions (chars "heap") (chars "ea") [] [] H1 H2) as (E1 & E2 & _).
  split; [exact E1|exact E2].
Defined.
