(* ===== verification/Printf.v ===== *)
(** * Printf: formatted output

    [rt_vsnprintf] and [print_number] of [rt-thread/src/kservice.c], compiled
    with [RT_PRINTF_PRECISION] and neither [RT_PRINTF_LONGLONG] nor
    [RT_PRINTF_SPECIAL].  The state is memory and the output pointer; a format
    is the list of its characters before the NUL, the variable arguments a
    list.  [None] is undefined behaviour: an argument missing or of the wrong
    kind, a signed overflow, a read past a string. *)
From S2P Require Import Prelude Bytes KService.

(** ** Output *)

(** [if (buf < end) *buf = c; ++buf;] *)
Definition put (end_ c : Z) (st : memory * Z) : memory * Z :=
  (if st.2 <? end_ then <[st.2 := c]> st.1 else st.1, st.2 + 1).
Definition emit (end_ : Z) (l : list Z) (st : memory * Z) : memory * Z :=
  foldl (fun st c => put end_ c st) st l.

(** [while (size-- > 0) put c]: the output and the value [size] is left with. *)
Definition pad (end_ c size : Z) (st : memory * Z) : (memory * Z) * Z :=
  (emit end_ (repeat c (Z.to_nat size)) st, Z.min size 0 - 1).

(** ** [print_number] *)

Definition ZEROPAD : Z := 1.
Definition SIGN : Z := 2.
Definition PLUS : Z := 4.
Definition SPACE : Z := 8.
Definition LEFT : Z := 16.
Definition SPECIAL : Z := 32.
Definition LARGE : Z := 64.

Definition flag (type f : Z) : bool := negb (type .& f =? 0).

Definition small_digits : list Z := chars "0123456789abcdef".
Definition large_digits : list Z := chars "0123456789ABCDEF".

(** [divide]: the remainder, and what is left in [*n], as unsigned. *)
Definition divide (n base : Z) : Z * Z :=
  if base =? 10 then (n `mod` 10, n / 10) else (n `mod` 16, n / 16).

(** [while (num != 0) tmp[i++] = digits[divide(&num, base)]]; the fuel is the
    room in [tmp]. *)
Fixpoint number_loop (room : nat) (digits : list Z) (num base : Z) : option (list Z) :=
  if num =? 0 then Some []
  else match room with
       | O => None
       | S room =>
           let '(res, num) := divide num base in
           c ← digits !!z res;
           tmp ← number_loop room digits num base;
           Some (c :: tmp)
       end.

(** [num] is a [long]. *)
Definition print_number (end_ num base s precision type : Z) (st : memory * Z)
    : option (memory * Z) :=
  let precision_bak := precision in
  let size := s in
  let digits := if flag type LARGE then large_digits else small_digits in
  let type := if flag type LEFT then Z.ldiff type ZEROPAD else type in
  let c := if flag type ZEROPAD then 48 else 32 in
  '(sign, num) ←
    (if flag type SIGN then
       if num <? 0 then (if num =? -2147483648 then None else Some (45, - num))
       else if flag type PLUS then Some (43, num)
       else if flag type SPACE then Some (32, num)
       else Some (0, num)
     else Some (0, num));
  tmp ← (if num =? 0 then Some [48] else number_loop 16 digits (u32 num) base);
  let i := Z.of_nat (length tmp) in
  let precision := if i >? precision then i else precision in
  let size := size - precision in
  let '(st, size) :=
    if negb (flag type (ZEROPAD .| LEFT)) then
      let size := if negb (sign =? 0) && (size >? 0) then size - 1 else size in
      pad end_ 32 size st
    else (st, size) in
  let '(st, size) := if negb (sign =? 0) then (put end_ sign st, size - 1) else (st, size) in
  let '(st, size) := if negb (flag type LEFT) then pad end_ c size st else (st, size) in
  let st := emit end_ (repeat 48 (Z.to_nat (precision - i))) st in
  let st := emit end_ (if precision_bak =? 0 then [] else reverse tmp) st in
  let '(st, size) := pad end_ 32 size st in
  Some st.

(** ** [rt_vsnprintf] *)

Inductive arg :=
  | Arg_int (z : Z)
  | Arg_str (s : option (list Z))    (* [None] is a null pointer *)
  | Arg_ptr (p : Z).

Definition _ISDIGIT (c : Z) : bool := (48 <=? c) && (c <=? 57).
Definition hd_char (fmt : list Z) : Z := default 0 (head fmt).

(** The flags after a [%]. *)
Fixpoint parse_flags (fmt : list Z) (flags : Z) : Z * list Z :=
  match fmt with
  | [] => (flags, [])
  | c :: rest =>
      if c =? 45 then parse_flags rest (flags .| LEFT)            (* '-' *)
      else if c =? 43 then parse_flags rest (flags .| PLUS)       (* '+' *)
      else if c =? 32 then parse_flags rest (flags .| SPACE)      (* ' ' *)
      else if c =? 35 then parse_flags rest (flags .| SPECIAL)    (* '#' *)
      else if c =? 48 then parse_flags rest (flags .| ZEROPAD)    (* '0' *)
      else (flags, fmt)
  end.

Fixpoint skip_atoi (fmt : list Z) (i : Z) : option (Z * list Z) :=
  match fmt with
  | c :: rest =>
      if _ISDIGIT c then
        if i * 10 + c >? 2147483647 then None else skip_atoi rest (i * 10 + c - 48)
      else Some (i, fmt)
  | [] => Some (i, fmt)
  end.

Definition va_int (args : list arg) : option (Z * list arg) :=
  match args with Arg_int z :: args => Some (z, args) | _ => None end.

Definition parse_width (fmt : list Z) (args : list arg) (flags : Z)
    : option (Z * Z * list Z * list arg) :=
  if _ISDIGIT (hd_char fmt) then
    '(w, fmt) ← skip_atoi fmt 0; Some (w, flags, fmt, args)
  else if hd_char fmt =? 42 then
    '(z, args) ← va_int args;
    let w := s32 z in
    if w <? 0 then
      if w =? -2147483648 then None else Some (- w, flags .| LEFT, tail fmt, args)
    else Some (w, flags, tail fmt, args)
  else Some (-1, flags, fmt, args).

Definition parse_precision (fmt : list Z) (args : list arg) : option (Z * list Z * list arg) :=
  if hd_char fmt =? 46 then
    let fmt := tail fmt in
    '(p, fmt, args) ←
      (if _ISDIGIT (hd_char fmt) then
         '(p, fmt) ← skip_atoi fmt 0; Some (p, fmt, args)
       else if hd_char fmt =? 42 then
         '(z, args) ← va_int args; Some (s32 z, tail fmt, args)
       else Some (-1, fmt, args));
    Some (if p <? 0 then 0 else p, fmt, args)
  else Some (-1, fmt, args).

Definition parse_qualifier (fmt : list Z) : Z * list Z :=
  let c := hd_char fmt in
  if (c =? 104) || (c =? 108) then (c, tail fmt) else (0, fmt).

(** [for (len = 0; (len != field_width) && (s[len] != '\0'); len++);] *)
Fixpoint str_len (s : list Z) (len field_width : Z) : option Z :=
  if len =? field_width then Some len
  else match s with
       | [] => None
       | c :: s => if c =? 0 then Some len else str_len s (len + 1) field_width
       end.

Definition print_char (end_ field_width flags c : Z) (st : memory * Z) : memory * Z :=
  let '(st, field_width) :=
    if negb (flag flags LEFT)
    then (emit end_ (repeat 32 (Z.to_nat (field_width - 1))) st, Z.min (field_width - 1) 0)
    else (st, field_width) in
  let st := put end_ (u8 c) st in
  emit end_ (repeat 32 (Z.to_nat (field_width - 1))) st.

Definition print_string (end_ field_width precision flags : Z) (s : option (list Z))
    (st : memory * Z) : option (memory * Z) :=
  let s := default (chars "(NULL)" ++ [0]) s in
  len ← str_len s 0 field_width;
  let len := if (precision >? 0) && (len >? precision) then precision else len in
  let '(st, field_width) :=
    if negb (flag flags LEFT)
    then (emit end_ (repeat 32 (Z.to_nat (field_width - len))) st, Z.min field_width len - 1)
    else (st, field_width) in
  let st := emit end_ (take (Z.to_nat len) s) st in
  Some (emit end_ (repeat 32 (Z.to_nat (field_width - len))) st).

(** The integer an argument converts to, before it is passed as a [long]. *)
Definition int_value (qualifier flags z : Z) : Z :=
  if qualifier =? 104 then
    if flag flags SIGN then u32 (s16 (u16 z)) else u16 z
  else u32 z.

(** The switch over the conversion character, its argument consumed. *)
Definition conversion (end_ : Z) (flags field_width precision qualifier : Z) (fmt : list Z)
    (args : list arg) (st : memory * Z) : option ((memory * Z) * list Z * list arg) :=
  let number base flags :=
    '(z, args) ← va_int args;
    st ← print_number end_ (s32 (int_value qualifier flags z)) base field_width precision flags st;
    Some (st, tail fmt, args) in
  let c := hd_char fmt in
  if c =? 99 then                                                  (* 'c' *)
    '(z, args) ← va_int args; Some (print_char end_ field_width flags z st, tail fmt, args)
  else if c =? 115 then                                            (* 's' *)
    match args with
    | Arg_str s :: args =>
        st ← print_string end_ field_width precision flags s st; Some (st, tail fmt, args)
    | _ => None
    end
  else if c =? 112 then                                            (* 'p' *)
    match args with
    | Arg_ptr p :: args =>
        let '(field_width, flags) :=
          if field_width =? -1 then (8, flags .| ZEROPAD) else (field_width, flags) in
        st ← print_number end_ (s32 p) 16 field_width precision flags st;
        Some (st, tail fmt, args)
    | _ => None
    end
  else if c =? 37 then Some (put end_ 37 st, tail fmt, args)       (* '%' *)
  else if c =? 111 then number 8 flags                             (* 'o' *)
  else if c =? 88 then number 16 (flags .| LARGE)                  (* 'X' *)
  else if c =? 120 then number 16 flags                            (* 'x' *)
  else if (c =? 100) || (c =? 105) then number 10 (flags .| SIGN)  (* 'd', 'i' *)
  else if c =? 117 then number 10 flags                            (* 'u' *)
  else
    let st := put end_ 37 st in
    match fmt with
    | [] => Some (st, [], args)
    | c :: fmt => Some (put end_ c st, fmt, args)
    end.

(** The [for] loop; every round takes at least one character. *)
Fixpoint format_loop (fuel : nat) (end_ : Z) (fmt : list Z) (args : list arg) (st : memory * Z)
    : option (memory * Z) :=
  match fmt with
  | [] => Some st
  | c :: rest =>
      match fuel with
      | O => None
      | S fuel =>
          if negb (c =? 37) then format_loop fuel end_ rest args (put end_ c st)
          else
            let '(flags, fmt) := parse_flags rest 0 in
            '(field_width, flags, fmt, args) ← parse_width fmt args flags;
            '(precision, fmt, args) ← parse_precision fmt args;
            let '(qualifier, fmt) := parse_qualifier fmt in
            '(st, fmt, args) ← conversion end_ flags field_width precision qualifier fmt args st;
            format_loop fuel end_ fmt args st
      end
  end.

Definition rt_vsnprintf (buf size : Z) (fmt : list Z) (args : list arg) (m : memory)
    : option (memory * Z) :=
  let end_ := u32 (buf + size) in
  let '(end_, size) := if end_ <? buf then (4294967295, 4294967295 - buf) else (end_, size) in
  '(m, str) ← format_loop (length fmt) end_ fmt args (m, buf);
  let m := if size >? 0 then
             if str <? end_ then <[str := 0]> m else <[end_ - 1 := 0]> m
           else m in
  Some (m, s32 (str - buf)).

Definition rt_snprintf := rt_vsnprintf.
Definition rt_vsprintf (buf : Z) (fmt : list Z) (args : list arg) (m : memory) :=
  rt_vsnprintf buf 4294967295 fmt args m.
Definition rt_sprintf := rt_vsprintf.

(** ** The text of a conversion *)

Lemma emit_app end_ l1 l2 st : emit end_ (l1 ++ l2) st = emit end_ l2 (emit end_ l1 st).
Proof. apply foldl_app. Qed.
Lemma emit_cons end_ c l st : emit end_ (c :: l) st = emit end_ l (put end_ c st).
Proof. done. Qed.

(** What [print_number] writes, whatever the room: sign, precision zeros and
    digits, padded to the width on the side the flags name.  A precision of 0
    drops the digits. *)
Definition number_text (num base s precision type : Z) : option (list Z) :=
  let type := if flag type LEFT then Z.ldiff type ZEROPAD else type in
  '(sign, num) ←
    (if flag type SIGN then
       if num <? 0 then (if num =? -2147483648 then None else Some ([45], - num))
       else if flag type PLUS then Some ([43], num)
       else if flag type SPACE then Some ([32], num)
       else Some ([], num)
     else Some ([], num));
  tmp ← (if num =? 0 then Some [48]
         else number_loop 16 (if flag type LARGE then large_digits else small_digits) (u32 num) base);
  let i := Z.of_nat (length tmp) in
  let n := Z.max i precision in
  let room := Z.to_nat (s - n - Z.of_nat (length sign)) in
  let body := repeat 48 (Z.to_nat (n - i)) ++ (if precision =? 0 then [] else reverse tmp) in
  Some (if flag type LEFT then sign ++ body ++ repeat 32 room
        else if flag type ZEROPAD then sign ++ repeat 48 room ++ body
        else repeat 32 room ++ sign ++ body).

Lemma flag_ldiff t f g : f .& g = 0 -> flag (Z.ldiff t g) f = flag t f.
Proof.
  intros H. unfold flag. do 2 f_equal. apply Z.bits_inj'. intros n Hn.
  rewrite !Z.land_spec, Z.ldiff_spec. apply (f_equal (fun z => Z.testbit z n)) in H.
  rewrite Z.land_spec, Z.bits_0 in H. destruct (Z.testbit f n), (Z.testbit g n), (Z.testbit t n); done.
Qed.

Lemma flag_ldiff_same t f : flag (Z.ldiff t f) f = false.
Proof.
  unfold flag. assert (Z.ldiff t f .& f = 0) as ->; [|done]. apply Z.bits_inj'. intros n Hn.
  rewrite Z.land_spec, Z.ldiff_spec, Z.bits_0. by destruct (Z.testbit t n), (Z.testbit f n).
Qed.

Lemma flag_lor t f g : flag t (f .| g) = flag t f || flag t g.
Proof.
  unfold flag. rewrite Z.land_lor_distr_r.
  destruct (Z.eqb_spec (t .& f) 0) as [->|Hf], (Z.eqb_spec (t .& g) 0) as [->|Hg]; try done.
  - rewrite Z.lor_0_l. by rewrite (proj2 (Z.eqb_neq _ 0)).
  - rewrite Z.lor_0_r. by rewrite (proj2 (Z.eqb_neq _ 0)).
  - rewrite (proj2 (Z.eqb_neq _ 0)); [done|]. rewrite Z.lor_eq_0_iff. tauto.
Qed.

(** The padding steps of [print_number] around zeros and digits, [size] being
    the width less both. *)
Lemma padded_emit end_ (lf zp : bool) sign size zeros ds st : (lf = true -> zp = false) ->
  (let '(st, size) :=
     if negb (zp || lf)
     then pad end_ 32 (if negb (sign =? 0) && (size >? 0) then size - 1 else size) st
     else (st, size) in
   let '(st, size) := if negb (sign =? 0) then (put end_ sign st, size - 1) else (st, size) in
   let '(st, size) := if negb lf then pad end_ (if zp then 48 else 32) size st else (st, size) in
   let '(st, size) := pad end_ 32 size (emit end_ ds (emit end_ zeros st)) in Some st) =
  let sl := if sign =? 0 then [] else [sign] in
  let room := Z.to_nat (size - Z.of_nat (length sl)) in
  Some (emit end_ (if lf then sl ++ (zeros ++ ds) ++ repeat 32 room
             else if zp then sl ++ repeat 48 room ++ zeros ++ ds
             else repeat 32 room ++ sl ++ zeros ++ ds) st).
Proof.
  intros H. unfold pad.
  assert (forall z, z <= 0 -> Z.to_nat z = O) as Hz by lia.
  destruct lf; [rewrite H by done|destruct zp]; cbn [orb negb fst]; destruct (Z.eqb_spec sign 0);
    cbn [negb andb app length Z.of_nat Pos.of_succ_nat]; rewrite ?emit_app, ?emit_cons, ?emit_app, ?Z.sub_0_r;
    change (Z.of_nat 1) with 1; change (Z.of_nat 0) with 0; rewrite ?Z.sub_0_r.
  - done.
  - done.
  - by rewrite (Hz (Z.min _ _ - 1)) by lia.
  - by rewrite (Hz (Z.min _ _ - 1)) by lia.
  - by rewrite (Hz (Z.min size 0 - 1)), (Hz (Z.min (Z.min size 0 - 1) 0 - 1)) by lia.
  - rewrite Z.gtb_ltb. destruct (Z.ltb_spec 0 size);
      rewrite !(Hz (Z.min _ 0 - 1 - 1)), (Hz (Z.min (Z.min _ 0 - 1 - 1) 0 - 1)) by lia; [done|].
    by rewrite (Hz size), (Hz (size - 1)) by lia.
Qed.

Lemma print_number_spec end_ num base s precision type st :
  print_number end_ num base s precision type st =
  (l ← number_text num base s precision type; Some (emit end_ l st)).
Proof.
  unfold print_number, number_text.
  assert (forall f, f .& ZEROPAD = 0 ->
    flag (if flag type LEFT then Z.ldiff type ZEROPAD else type) f = flag type f) as Hf.
  { intros f H. destruct (flag type LEFT); [by apply flag_ldiff|done]. }
  assert (flag type LEFT = true ->
    flag (if flag type LEFT then Z.ldiff type ZEROPAD else type) ZEROPAD = false) as Hz.
  { intros ->. apply flag_ldiff_same. }
  set (type' := if flag type LEFT then Z.ldiff type ZEROPAD else type) in *.
  rewrite !flag_lor, !(Hf SIGN), !(Hf PLUS), !(Hf SPACE), !(Hf LEFT), !(Hf LARGE) by done.
  assert (forall (i p : Z), (if i >? p then i else p) = Z.max i p) as Hmax.
  { intros i p. rewrite Z.gtb_ltb. destruct (Z.ltb_spec p i); lia. }
  repeat match goal with
  | |- context [if flag type SIGN then _ else _] => destruct (flag type SIGN)
  | |- context [if flag type PLUS then _ else _] => destruct (flag type PLUS)
  | |- context [if flag type SPACE then _ else _] => destruct (flag type SPACE)
  | |- context [if num <? 0 then _ else _] => destruct (num <? 0)
  | |- context [if num =? -2147483648 then _ else _] => destruct (num =? -2147483648)
  end; cbn [mbind option_bind]; try done.
  all: match goal with |- context [if ?n =? 0 then Some [48] else ?l] =>
         destruct (if n =? 0 then Some [48] else l) as [tmp|]; cbn [mbind option_bind]; [|done] end.
  all: cbv zeta; rewrite Hmax.
  all: match goal with |- context [negb (?sg =? 0)] =>
         rewrite (padded_emit end_ (flag type LEFT) (flag type' ZEROPAD) sg); [done|exact Hz] end.
Qed.

(** ** The text of a format

    What is written does not depend on the room: there is one text, of which
    the buffer receives as much as fits. *)

Lemma print_char_text end_ field_width flags c st :
  print_char end_ field_width flags c st =
  emit end_ ((if flag flags LEFT then [] else repeat 32 (Z.to_nat (field_width - 1))) ++
             u8 c :: (if flag flags LEFT then repeat 32 (Z.to_nat (field_width - 1)) else [])) st.
Proof.
  unfold print_char. rewrite emit_app, emit_cons. destruct (flag flags LEFT); cbn [negb]; [done|].
  by replace (Z.to_nat (Z.min (field_width - 1) 0 - 1)) with O by lia.
Qed.

Definition string_text (field_width precision flags : Z) (s : option (list Z)) : option (list Z) :=
  let s := default (chars "(NULL)" ++ [0]) s in
  len ← str_len s 0 field_width;
  let len := if (precision >? 0) && (len >? precision) then precision else len in
  let room := repeat 32 (Z.to_nat (field_width - len)) in
  Some (if flag flags LEFT then take (Z.to_nat len) s ++ room else room ++ take (Z.to_nat len) s).

Lemma print_string_text end_ field_width precision flags s st :
  print_string end_ field_width precision flags s st =
  (l ← string_text field_width precision flags s; Some (emit end_ l st)).
Proof.
  unfold print_string, string_text. destruct (str_len _ _ _) as [len|]; [|done]. cbn [mbind option_bind].
  cbv zeta. set (n := if (precision >? 0) && (len >? precision) then precision else len).
  destruct (flag flags LEFT); cbn [negb]; rewrite emit_app; [done|].
  by replace (Z.to_nat (Z.min field_width n - 1 - n)) with O by lia.
Qed.

(** The result of [f end_ st] is its text emitted. *)
Definition emits {A} (f : Z -> memory * Z -> option ((memory * Z) * A)) (o : option (list Z * A)) : Prop :=
  forall end_ st, f end_ st = ('(l, a) ← o; Some (emit end_ l st, a)).

Definition conversion_text (flags field_width precision qualifier : Z) (fmt : list Z)
    (args : list arg) : option (list Z * (list Z * list arg)) :=
  let number base flags :=
    '(z, args) ← va_int args;
    l ← number_text (s32 (int_value qualifier flags z)) base field_width precision flags;
    Some (l, (tail fmt, args)) in
  let c := hd_char fmt in
  if c =? 99 then
    '(z, args) ← va_int args;
    Some ((if flag flags LEFT then [] else repeat 32 (Z.to_nat (field_width - 1))) ++
          u8 z :: (if flag flags LEFT then repeat 32 (Z.to_nat (field_width - 1)) else []),
          (tail fmt, args))
  else if c =? 115 then
    match args with
    | Arg_str s :: args =>
        l ← string_text field_width precision flags s; Some (l, (tail fmt, args))
    | _ => None
    end
  else if c =? 112 then
    match args with
    | Arg_ptr p :: args =>
        l ← (if field_width =? -1 then number_text (s32 p) 16 8 precision (flags .| ZEROPAD)
             else number_text (s32 p) 16 field_width precision flags);
        Some (l, (tail fmt, args))
    | _ => None
    end
  else if c =? 37 then Some ([37], (tail fmt, args))
  else if c =? 111 then number 8 flags
  else if c =? 88 then number 16 (flags .| LARGE)
  else if c =? 120 then number 16 flags
  else if (c =? 100) || (c =? 105) then number 10 (flags .| SIGN)
  else if c =? 117 then number 10 flags
  else match fmt with [] => Some ([37], ([], args)) | c :: fmt => Some ([37; c], (fmt, args)) end.

Lemma conversion_emits end_ flags w p q fmt args st :
  conversion end_ flags w p q fmt args st =
  ('(l, (fmt, args)) ← conversion_text flags w p q fmt args; Some (emit end_ l st, fmt, args)).
Proof.
  unfold conversion, conversion_text.
  destruct (hd_char fmt =? 99).
  { destruct (va_int args) as [[z args']|]; [|done]. cbn [mbind option_bind]. by rewrite print_char_text. }
  destruct (hd_char fmt =? 115).
  { destruct args as [|[| |] args]; try done. rewrite print_string_text. by destruct (string_text _ _ _ _). }
  destruct (hd_char fmt =? 112).
  { destruct args as [|[| |] args]; try done.
    destruct (w =? -1); rewrite print_number_spec; by destruct (number_text _ _ _ _ _). }
  destruct (hd_char fmt =? 37); [done|].
  assert (forall base fl,
    ('(z, args) ← va_int args;
     st ← print_number end_ (s32 (int_value q fl z)) base w p fl st; Some (st, tail fmt, args)) =
    ('(l, (fmt, args)) ← ('(z, args) ← va_int args;
       l ← number_text (s32 (int_value q fl z)) base w p fl; Some (l, (tail fmt, args)));
     Some (emit end_ l st, fmt, args))) as Hn.
  { intros base fl. destruct (va_int args) as [[z args']|]; [|done]. cbn [mbind option_bind].
    rewrite print_number_spec. by destruct (number_text _ _ _ _ _). }
  cbv zeta in *. repeat match goal with |- context [if ?b then _ else _] =>
    lazymatch b with context [hd_char] => destruct b end end; try apply Hn.
  by destruct fmt.
Qed.

(** The text of a format. *)
Fixpoint format_text (fuel : nat) (fmt : list Z) (args : list arg) : option (list Z) :=
  match fmt with
  | [] => Some []
  | c :: rest =>
      match fuel with
      | O => None
      | S fuel =>
          if negb (c =? 37) then l ← format_text fuel rest args; Some (c :: l)
          else
            let '(flags, fmt) := parse_flags rest 0 in
            '(field_width, flags, fmt, args) ← parse_width fmt args flags;
            '(precision, fmt, args) ← parse_precision fmt args;
            let '(qualifier, fmt) := parse_qualifier fmt in
            '(l1, (fmt, args)) ← conversion_text flags field_width precision qualifier fmt args;
            l2 ← format_text fuel fmt args; Some (l1 ++ l2)
      end
  end.

Lemma format_loop_text fuel : forall end_ fmt args st,
  format_loop fuel end_ fmt args st = (l ← format_text fuel fmt args; Some (emit end_ l st)).
Proof.
  induction fuel as [|fuel IH]; intros end_ [|c rest] args st; try done; cbn [format_loop format_text].
  destruct (negb (c =? 37)).
  { rewrite IH. by destruct (format_text fuel rest args). }
  destruct (parse_flags rest 0) as [flags fmt].
  destruct (parse_width fmt args flags) as [[[[w flags'] fmt'] args']|]; [|done]. cbn [mbind option_bind].
  destruct (parse_precision fmt' args') as [[[p fmt''] args'']|]; [|done]. cbn [mbind option_bind].
  destruct (parse_qualifier fmt'') as [q f]. rewrite conversion_emits.
  destruct (conversion_text _ _ _ _ _ _) as [[l1 [f' a']]|]; [|done]. cbn [mbind option_bind].
  rewrite IH. destruct (format_text fuel f' a'); [|done]. cbn [mbind option_bind]. by rewrite emit_app.
Qed.

(** The fuel is enough: more of it changes nothing, so [None] is never for
    lack of it. *)
Lemma length_tail_le {A} (l : list A) : (length (tail l) <= length l)%nat.
Proof. destruct l; cbn; lia. Qed.

Lemma parse_flags_length fmt : forall flags, (length (parse_flags fmt flags).2 <= length fmt)%nat.
Proof.
  induction fmt as [|c fmt IH]; intros flags; cbn [parse_flags]; [done|].
  repeat match goal with |- context [if ?b then _ else _] => destruct b end; cbn [snd length];
    try lia; match goal with |- (length (parse_flags _ ?f).2 <= _)%nat => specialize (IH f); lia end.
Qed.

Lemma skip_atoi_length fmt : forall i w r, skip_atoi fmt i = Some (w, r) -> (length r <= length fmt)%nat.
Proof.
  induction fmt as [|c fmt IH]; intros i w r; cbn [skip_atoi]; [by intros [= _ <-]|].
  destruct (_ISDIGIT c); [|by intros [= _ <-]]. destruct (_ >? _); [done|].
  intros H. apply IH in H. cbn. lia.
Qed.

Lemma parse_width_length fmt args flags w fl r a :
  parse_width fmt args flags = Some (w, fl, r, a) -> (length r <= length fmt)%nat.
Proof.
  unfold parse_width. pose proof (length_tail_le fmt).
  destruct (_ISDIGIT _).
  - destruct (skip_atoi fmt 0) as [[w' r']|] eqn:E; [|done]. intros [= _ _ <- _]. by eapply skip_atoi_length.
  - destruct (_ =? 42); [|by intros [= _ _ <- _]].
    destruct (va_int args) as [[z a']|]; [|done]. cbn [mbind option_bind].
    repeat case_match; try done; intros; by simplify_eq.
Qed.

Lemma parse_precision_length fmt args p r a :
  parse_precision fmt args = Some (p, r, a) -> (length r <= length fmt)%nat.
Proof.
  unfold parse_precision. pose proof (length_tail_le fmt). pose proof (length_tail_le (tail fmt)).
  destruct (_ =? 46); [|by intros [= _ <- _]]. cbv zeta.
  destruct (_ISDIGIT _).
  - destruct (skip_atoi (tail fmt) 0) as [[w' r']|] eqn:E; [|done]. cbn [mbind option_bind].
    intros [= _ <- _]. apply skip_atoi_length in E. lia.
  - destruct (_ =? 42); cbn [mbind option_bind]; [|by intros [= _ <- _]].
    destruct (va_int args) as [[z a']|]; [|done]. cbn [mbind option_bind]. intros [= _ <- _]. lia.
Qed.

Lemma parse_qualifier_length fmt : (length (parse_qualifier fmt).2 <= length fmt)%nat.
Proof. unfold parse_qualifier. cbv zeta. case_match; [apply length_tail_le|done]. Qed.

Lemma conversion_text_length flags w p q fmt args l r a :
  conversion_text flags w p q fmt args = Some (l, (r, a)) -> (length r <= length fmt)%nat.
Proof.
  unfold conversion_text. cbv zeta. pose proof (length_tail_le fmt).
  assert (forall base fl,
    ('(z, args) ← va_int args;
     l ← number_text (s32 (int_value q fl z)) base w p fl; Some (l, (tail fmt, args))) =
    Some (l, (r, a)) -> (length r <= length fmt)%nat) as Hn.
  { intros base fl. destruct (va_int args) as [[z args']|]; [|done]. cbn [mbind option_bind].
    destruct (number_text _ _ _ _ _); [|done]. by intros [= _ <- _]. }
  repeat match goal with |- context [if ?b then _ else _] =>
    lazymatch b with context [hd_char] => destruct b end end; try apply Hn.
  - destruct (va_int args) as [[z args']|]; [|done]. by intros [= _ <- _].
  - destruct args as [|[| |] args]; try done. destruct (string_text _ _ _ _); [|done]. by intros [= _ <- _].
  - destruct args as [|[| |] args]; try done.
    destruct (if w =? -1 then _ else _); [|done]. by intros [= _ <- _].
  - by intros [= _ <- _].
  - destruct fmt; intros [= _ <- _]; cbn; lia.
Qed.

Lemma format_text_fuel f1 : forall f2 fmt args, (length fmt <= f1)%nat -> (length fmt <= f2)%nat ->
  format_text f1 fmt args = format_text f2 fmt args.
Proof.
  induction f1 as [|f1 IH]; intros [|f2] [|c rest] args H1 H2; cbn [length] in *; try lia; try done.
  cbn [format_text]. destruct (negb (c =? 37)); [by rewrite (IH f2) by lia|].
  pose proof (parse_flags_length rest 0) as L1. destruct (parse_flags rest 0) as [flags fmt]. cbn [snd] in L1.
  destruct (parse_width fmt args flags) as [[[[w fl] fmt'] a']|] eqn:Ew; [|done].
  apply parse_width_length in Ew. cbn [mbind option_bind].
  destruct (parse_precision fmt' a') as [[[p fmt''] a'']|] eqn:Ep; [|done].
  apply parse_precision_length in Ep. cbn [mbind option_bind].
  pose proof (parse_qualifier_length fmt'') as L2. destruct (parse_qualifier fmt'') as [q f]. cbn [snd] in L2.
  destruct (conversion_text _ _ _ _ _ _) as [[l1 [f' a3]]|] eqn:Ec; [|done].
  apply conversion_text_length in Ec. cbn [mbind option_bind]. by rewrite (IH f2) by lia.
Qed.

(** ** The buffer *)

Lemma store_insert l : forall a b c m, b < a -> store a l (<[b := c]> m) = <[b := c]> (store a l m).
Proof.
  induction l as [|d l IH]; intros a b c m H; [done|]. cbn.
  rewrite IH by lia. apply insert_insert_ne. lia.
Qed.

Lemma store_snoc l : forall a x m, store a (l ++ [x]) m = <[a + Z.of_nat (length l) := x]> (store a l m).
Proof.
  induction l as [|d l IH]; intros a x m; cbn [app store length]; [by rewrite Z.add_0_r|].
  rewrite IH. rewrite insert_insert_ne by lia. f_equal; lia.
Qed.

Lemma emit_store end_ l : forall m p,
  emit end_ l (m, p) = (store p (take (Z.to_nat (end_ - p)) l) m, p + Z.of_nat (length l)).
Proof.
  induction l as [|c l IH]; intros m p; [cbn; by rewrite take_nil, Z.add_0_r|].
  rewrite emit_cons. unfold put. cbn [fst snd]. rewrite IH. cbn [length]. f_equal; [|lia].
  destruct (Z.ltb_spec p end_) as [H|H].
  - replace (Z.to_nat (end_ - p)) with (S (Z.to_nat (end_ - (p + 1)))) by lia. cbn [take store].
    by rewrite store_insert by lia.
  - replace (Z.to_nat (end_ - p)) with O by lia. replace (Z.to_nat (end_ - (p + 1))) with O by lia. done.
Qed.

Lemma vsnprintf_text buf size fmt args l m :
  format_text (length fmt) fmt args = Some l ->
  0 <= buf -> 0 <= size -> buf + size < 4294967296 -> Z.of_nat (length l) < 2147483648 ->
  rt_vsnprintf buf size fmt args m =
  Some (if size >? 0 then store buf (take (Z.to_nat (size - 1)) l ++ [0]) m else m,
        Z.of_nat (length l)).
Proof.
  intros Hl Hb Hs He Hn. unfold rt_vsnprintf. rewrite u32_small, (proj2 (Z.ltb_ge _ _)) by lia.
  rewrite format_loop_text, Hl. cbn [mbind option_bind]. rewrite emit_store, Z.add_simpl_l.
  rewrite Z.add_simpl_l, s32_small by lia. do 2 f_equal.
  rewrite Z.gtb_ltb. destruct (Z.ltb_spec 0 size) as [H|H].
  2: { by replace (Z.to_nat size) with O by lia. }
  destruct (Z.ltb_spec (buf + Z.of_nat (length l)) (buf + size)).
  - by rewrite !take_ge, store_snoc by lia.
  - rewrite store_snoc, length_take, Nat.min_l by lia.
    replace (buf + Z.of_nat (Z.to_nat (size - 1))) with (buf + size - 1) by lia.
    destruct (lookup_lt_is_Some_2 l (Z.to_nat (size - 1))) as [x Hx]; [lia|].
    replace (Z.to_nat size) with (S (Z.to_nat (size - 1))) by lia.
    rewrite (take_S_r _ _ x Hx), store_snoc, length_take, Nat.min_l by lia.
    replace (buf + Z.of_nat (Z.to_nat (size - 1))) with (buf + size - 1) by lia.
    apply insert_insert_eq.
Qed.

(** ** Numbers *)

(** A number in base [b], most significant digit first. *)
Fixpoint numeral (fuel : nat) (b : Z) (dg : list Z) (v : Z) : list Z :=
  match fuel with
  | O => []
  | S fuel => if v <? b then [nth (Z.to_nat v) dg 0]
              else numeral fuel b dg (v / b) ++ [nth (Z.to_nat (v `mod` b)) dg 0]
  end.

Definition the_base (base : Z) : Z := if base =? 10 then 10 else 16.

Lemma number_loop_numeral room : forall fuel dg base v, length dg = 16%nat -> (room <= fuel)%nat ->
  0 < v < the_base base ^ Z.of_nat room ->
  number_loop room dg v base = Some (reverse (numeral fuel (the_base base) dg v)).
Proof.
  induction room as [|room IH]; intros [|fuel] dg base v Hdg Hf Hv; try lia; [cbn in Hv; lia..|].
  cbn [number_loop numeral]. rewrite (proj2 (Z.eqb_neq v 0)) by lia.
  assert (divide v base = (v `mod` the_base base, v / the_base base)) as ->
    by (unfold divide, the_base; by destruct (base =? 10)).
  assert (1 < the_base base <= 16) as Hb by (unfold the_base; destruct (base =? 10); lia).
  rewrite Nat2Z.inj_succ, Z.pow_succ_r in Hv by lia. set (b := the_base base) in *.
  assert (dg !!z (v `mod` b) = Some (nth (Z.to_nat (v `mod` b)) dg 0)) as ->.
  { pose proof (Z.mod_pos_bound v b ltac:(lia)). unfold zlookup.
    rewrite decide_True by lia.
    destruct (lookup_lt_is_Some_2 dg (Z.to_nat (v `mod` b))) as [x Hx]; [lia|].
    by rewrite Hx, (nth_lookup_Some _ _ 0 _ Hx). }
  cbn [mbind option_bind]. destruct (Z.ltb_spec v b).
  - rewrite Z.div_small, Z.mod_small by lia. by destruct room.
  - assert (0 < v / b) by (apply Z.div_str_pos; lia).
    assert (v / b < b ^ Z.of_nat room) by (apply Z.div_lt_upper_bound; lia).
    rewrite (IH fuel dg base (v / b)); [|done|lia|fold b; lia].
    cbn [mbind option_bind]. fold b. by rewrite reverse_snoc.
Qed.

Lemma numeral_digits fuel : forall v, 0 <= v -> numeral fuel 10 small_digits v = digits fuel v.
Proof.
  assert (forall d, 0 <= d < 10 -> nth (Z.to_nat d) small_digits 0 = 48 + d) as Hd.
  { intros d H. assert (d = 0 \/ d = 1 \/ d = 2 \/ d = 3 \/ d = 4 \/ d = 5 \/ d = 6 \/ d = 7 \/ d = 8 \/ d = 9)
      as Hc by lia. by destruct_or! Hc; subst. }
  induction fuel as [|fuel IH]; intros v Hv; [done|]. cbn [numeral digits].
  destruct (Z.ltb_spec v 10); [by rewrite Hd by lia|].
  rewrite IH, Hd by zlia. done.
Qed.

Lemma number_text_plain num base type : flag type SIGN = false -> flag type LEFT = false ->
  0 < u32 num -> num <> 0 ->
  number_text num base (-1) (-1) type =
  Some (numeral 20 (the_base base) (if flag type LARGE then large_digits else small_digits) (u32 num)).
Proof.
  intros H1 H2 Hn Hz. unfold number_text. rewrite H2, H1. cbn [mbind option_bind].
  rewrite (proj2 (Z.eqb_neq num 0)) by done.
  rewrite (number_loop_numeral 16 20); [|by destruct (flag type LARGE)|lia|].
  2: { split; [done|]. pose proof (u32_range num). unfold the_base. destruct (base =? 10); cbn; lia. }
  cbn [mbind option_bind]. cbv zeta. rewrite reverse_involutive.
  set (l := reverse _). assert (Z.max (Z.of_nat (length l)) (-1) = Z.of_nat (length l)) as -> by lia.
  rewrite Z.sub_diag. cbn [Z.to_nat repeat app length Z.eqb].
  replace (Z.to_nat (-1 - Z.of_nat (length l) - Z.of_nat 0)) with O by lia.
  rewrite ?H2. change (Z.to_nat 0) with O. cbn [repeat app]. by destruct (flag type ZEROPAD).
Qed.

(** Evaluate the tests of the flags of a plain [%d]. *)
Ltac signed_flags :=
  cbv zeta;
  do 2 (change (flag SIGN LEFT) with false; change (flag SIGN SIGN) with true;
        change (flag SIGN PLUS) with false; change (flag SIGN SPACE) with false;
        change (flag SIGN LARGE) with false; change (flag SIGN ZEROPAD) with false; cbv iota).

Lemma number_text_signed num : -2147483648 < num < 2147483648 ->
  number_text num 10 (-1) (-1) SIGN = Some (itoa num).
Proof.
  intros Hn. unfold number_text, itoa. signed_flags.
  assert (forall v sl, 0 <= v < 2147483648 ->
    (tmp ← (if v =? 0 then Some [48] else number_loop 16 small_digits (u32 v) 10);
     let i := Z.of_nat (length tmp) in let n := Z.max i (-1) in
     let room := Z.to_nat (-1 - n - Z.of_nat (length sl)) in
     let body := repeat 48 (Z.to_nat (n - i)) ++ (if -1 =? 0 then [] else reverse tmp) in
     Some (repeat 32 room ++ sl ++ body)) = Some (sl ++ digits 20 v)) as H.
  { intros v sl Hv. destruct (Z.eqb_spec v 0) as [->|Hz].
    - cbn [mbind option_bind length]. cbv zeta.
      replace (Z.to_nat (-1 - Z.max (Z.of_nat 1) (-1) - Z.of_nat (length sl))) with O by lia. done.
    - rewrite u32_small by lia. rewrite (number_loop_numeral 16 20) by (try done; cbn; lia).
      change (the_base 10) with 10. rewrite numeral_digits by lia. cbn [mbind option_bind]. cbv zeta.
      set (t := reverse (digits 20 v)).
      replace (Z.to_nat (-1 - Z.max (Z.of_nat (length t)) (-1) - Z.of_nat (length sl))) with O by lia.
      replace (Z.to_nat (Z.max (Z.of_nat (length t)) (-1) - Z.of_nat (length t))) with O by lia.
      cbn [repeat app Z.eqb]. by unfold t; rewrite reverse_involutive. }
  destruct (Z.ltb_spec num 0).
  - rewrite (proj2 (Z.eqb_neq num (-2147483648))) by lia. cbn [mbind option_bind].
    apply (H (- num) [45]). lia.
  - cbn [mbind option_bind]. apply (H num []). lia.
Qed.

(** ** The console *)

Definition RT_CONSOLEBUF_SIZE : Z := 128.

(** The bytes given to the console device; [log_buf] is the address of
    [rt_log_buf]. *)
Definition rt_kprintf (log_buf : Z) (fmt : list Z) (args : list arg) (m : memory)
    : option (memory * list Z) :=
  '(m, n) ← rt_vsnprintf log_buf (RT_CONSOLEBUF_SIZE - 1) fmt args m;
  let length := u32 n in
  let length := if length >? RT_CONSOLEBUF_SIZE - 1 then RT_CONSOLEBUF_SIZE - 1 else length in
  Some (m, bytes_at m log_buf (Z.to_nat length)).

Definition rt_kputs (str : option (list Z)) : option (list Z) :=
  match str with
  | None => Some []
  | Some s => n ← rt_strlen s; Some (take (Z.to_nat n) s)
  end.

Lemma bytes_at_store l : forall a m, bytes_at (store a l m) a (length l) = l.
Proof.
  intros a m. apply (nth_ext _ _ 0 0); [apply bytes_at_length|]. intros i Hi.
  rewrite bytes_at_length in Hi. rewrite bytes_at_nth by done.
  rewrite rd_store, decide_True by lia. f_equal. lia.
Qed.

Lemma bytes_at_app m a n1 n2 : bytes_at m a (n1 + n2) = bytes_at m a n1 ++ bytes_at m (a + Z.of_nat n1) n2.
Proof.
  unfold bytes_at. rewrite seq_app, map_app. f_equal. cbn [Nat.add].
  assert (forall k, map (fun i => rd m (a + Z.of_nat i)) (seq (n1 + k) n2) =
    map (fun i => rd m (a + Z.of_nat n1 + Z.of_nat i)) (seq k n2)) as H.
  { induction n2 as [|n2 IH]; intros k; [done|]. cbn [seq map]. f_equal; [f_equal; lia|].
    rewrite <- IH. do 2 f_equal. lia. }
  rewrite <- H. by rewrite Nat.add_0_r.
Qed.

Lemma kprintf_out log_buf fmt args l m :
  format_text (length fmt) fmt args = Some l ->
  0 <= log_buf -> log_buf + 127 < 4294967296 -> Z.of_nat (length l) < 2147483648 ->
  exists m', rt_kprintf log_buf fmt args m =
    Some (m', if decide (length l < 127)%nat then l else take 126 l ++ [0]) /\ same_out log_buf 127 m m'.
Proof.
  intros Hl Hb He Hn. unfold rt_kprintf, RT_CONSOLEBUF_SIZE. change (128 - 1) with 127.
  rewrite (vsnprintf_text _ _ _ _ l) by (done || lia). cbn [mbind option_bind].
  change (127 >? 0) with true. cbv iota. change (Z.to_nat (127 - 1)) with 126%nat.
  exists (store log_buf (take 126 l ++ [0]) m). split.
  2: { intros x Hx. rewrite rd_store, length_app, length_take, decide_False by (change (length [0]) with 1%nat; lia). done. }
  rewrite u32_small by lia. do 2 f_equal.
  rewrite Z.gtb_ltb. destruct (decide (length l < 127)%nat) as [H|H].
  - rewrite (proj2 (Z.ltb_ge _ _)) by lia. rewrite Nat2Z.id, take_ge by lia.
    pose proof (bytes_at_store (l ++ [0]) log_buf m) as E. rewrite length_app, bytes_at_app in E.
    apply app_inj_1 in E; [tauto|apply bytes_at_length].
  - pose proof (bytes_at_store (take 126 l ++ [0]) log_buf m) as E.
    rewrite length_app, length_take, Nat.min_l in E by lia.
    destruct (Z.ltb_spec 127 (Z.of_nat (length l))); [done|].
    by replace (Z.to_nat (Z.of_nat (length l))) with (126 + length [0])%nat by (cbn; lia).
Qed.

(** ** The properties *)

(** C23 [rt_vsnprintf] writes a text that does not depend on the buffer, cut to
    [size - 1] characters and closed with a NUL, and nothing else; it returns
    the length of the whole text.  The console gets the text too when it is
    shorter than 127 characters; of a longer one it gets 126 characters and a
    NUL byte. *)
Theorem vsnprintf_bounded fmt args l :
  format_text (length fmt) fmt args = Some l -> Z.of_nat (length l) < 2147483648 ->
  (forall buf size m, 0 <= buf -> 0 <= size -> buf + size < 4294967296 ->
     exists m', rt_vsnprintf buf size fmt args m = Some (m', Z.of_nat (length l)) /\
       same_out buf size m m' /\
       (0 < size -> let n := Nat.min (length l) (Z.to_nat (size - 1)) in
                    bytes_at m' buf (n + 1) = take n l ++ [0])) /\
  (forall log_buf m, 0 <= log_buf -> log_buf + 127 < 4294967296 ->
     exists m', rt_kprintf log_buf fmt args m =
       Some (m', if decide (length l < 127)%nat then l else take 126 l ++ [0]) /\
       same_out log_buf 127 m m').
Proof.
  intros Hl Hn. split; [|intros; by apply kprintf_out].
  intros buf size m Hb Hs He. rewrite (vsnprintf_text _ _ _ _ l) by done.
  eexists. split; [done|]. rewrite Z.gtb_ltb. destruct (Z.ltb_spec 0 size) as [H|H]; [|split; [done|lia]].
  split.
  - intros x Hx. rewrite rd_store, length_app, length_take, decide_False by (change (length [0]) with 1%nat; lia). done.
  - intros _. cbv zeta.
    assert (take (Z.to_nat (size - 1)) l = take (Nat.min (length l) (Z.to_nat (size - 1))) l) as ->.
    { destruct (Nat.min_spec (length l) (Z.to_nat (size - 1))) as [[? ->]|[? ->]]; [|done].
      by rewrite !take_ge by lia. }
    pose proof (bytes_at_store (take (Nat.min (length l) (Z.to_nat (size - 1))) l ++ [0]) buf m) as E.
    rewrite length_app, length_take in E. rewrite <- E at 2. f_equal. cbn. lia.
Qed.

Lemma vsnprintf_bounded_witness :
  exists m', rt_vsnprintf 1000 6 (chars "T=%d ") [Arg_int 1234] ∅ = Some (m', 7) /\
    same_out 1000 6 ∅ m' /\ (0 < 6 -> bytes_at m' 1000 6 = chars "T=123" ++ [0]).
Proof.
  apply (vsnprintf_bounded (chars "T=%d ") [Arg_int 1234] (chars "T=1234 "));
    [by vm_compute|cbn; lia|lia|lia|lia].
Defined.

Lemma str_len_spec s rest fw : forall len, c_string s -> 0 <= len <= fw ->
  str_len (s ++ 0 :: rest) len fw = Some (Z.min (len + Z.of_nat (length s)) fw).
Proof.
  induction s as [|c s IH]; intros len Hs Hl; cbn [app str_len length].
  - destruct (Z.eqb_spec len fw); cbn; f_equal; lia.
  - apply Forall_cons in Hs as [Hc Hs]. destruct (Z.eqb_spec len fw); [f_equal; lia|].
    rewrite (proj2 (Z.eqb_neq c 0)) by lia. rewrite IH by (done || lia). f_equal. lia.
Qed.

(** One conversion without flags, width and precision. *)
Lemma format_one c base fl v : In (c, base, fl) [(100, 10, SIGN); (117, 10, 0); (120, 16, 0); (111, 8, 0)] ->
  -2147483648 <= v < 2147483648 ->
  format_text 2 [37; c] [Arg_int v] = number_text v base (-1) (-1) fl.
Proof.
  intros Hc Hv.
  assert (s32 (int_value 0 fl v) = v) as Hi.
  { unfold int_value. change (0 =? 104) with false. cbv iota. unfold s32, u32. zlia. }
  transitivity ('(l1, (f, a)) ← (l ← number_text (s32 (int_value 0 fl v)) base (-1) (-1) fl;
      Some (l, ([] : list Z, [] : list arg))); l2 ← format_text 1 f a; Some (l1 ++ l2)).
  { cbn [In] in Hc. destruct_or! Hc; simplify_eq; reflexivity. }
  rewrite Hi. destruct (number_text v base (-1) (-1) fl) as [l|]; [|done].
  cbn. by rewrite app_nil_r.
Qed.

Lemma number_text_no_digits v : 0 <= v < 2147483648 -> number_text v 10 (-1) 0 SIGN = Some [].
Proof.
  intros Hv. unfold number_text. signed_flags.
  rewrite (proj2 (Z.ltb_ge v 0)) by lia. cbn [mbind option_bind].
  assert (exists tmp, (if v =? 0 then Some [48] else number_loop 16 small_digits (u32 v) 10) = Some tmp)
    as (tmp & ->).
  { destruct (Z.eqb_spec v 0); [by eexists|]. rewrite u32_small by lia.
    rewrite (number_loop_numeral 16 20) by (try done; cbn; lia). by eexists. }
  cbn [mbind option_bind]. cbv zeta. cbn [Z.eqb length app]. set (i := Z.of_nat (length tmp)).
  assert (0 <= i) by (unfold i; lia).
  replace (Z.to_nat (Z.max i 0 - i)) with O by lia.
  by replace (Z.to_nat (-1 - Z.max i 0 - Z.of_nat 0)) with O by lia.
Qed.

(** Conversions without flags, width and precision print what C defines:
    [%d] the decimal representation of every [int] but the smallest, [%u] and
    [%x] of an unsigned number.  Where they do not: [%o] prints hexadecimal
    digits, [%.0d] of any number prints no digit, [%5s] cuts a longer string,
    and [%d] of the smallest [int] negates it, which overflows. *)
Theorem printf_numbers v : -2147483648 <= v < 2147483648 ->
  format_text 2 (chars "%d") [Arg_int v] = (if v =? -2147483648 then None else Some (itoa v)) /\
  (v <> 0 -> format_text 2 (chars "%u") [Arg_int v] = Some (digits 20 (u32 v)) /\
             format_text 2 (chars "%x") [Arg_int v] = Some (numeral 20 16 small_digits (u32 v)) /\
             format_text 2 (chars "%o") [Arg_int v] = Some (numeral 20 16 small_digits (u32 v))) /\
  (0 <= v -> format_text 4 (chars "%.0d") [Arg_int v] = Some []) /\
  (forall s rest, c_string s ->
     format_text 3 (chars "%5s") [Arg_str (Some (s ++ 0 :: rest))] =
     Some (repeat 32 (5 - length s) ++ take 5 s)).
Proof.
  intros Hv. change (chars "%d") with [37; 100]. change (chars "%u") with [37; 117].
  change (chars "%x") with [37; 120]. change (chars "%o") with [37; 111]. split_and!.
  - rewrite (format_one 100 10 SIGN) by (cbn; tauto || lia).
    destruct (Z.eqb_spec v (-2147483648)) as [->|]; [by vm_compute|]. apply number_text_signed. lia.
  - intros Hz. pose proof (u32_range v) as Hr.
    assert (0 < u32 v) by (unfold u32 in *; zlia).
    rewrite (format_one 117 10 0), (format_one 120 16 0), (format_one 111 8 0) by (cbn; tauto || lia).
    rewrite !number_text_plain by done. split_and!; [|done|done].
    f_equal. apply numeral_digits. lia.
  - intros H0. transitivity ('(l1, (f, a)) ← (l ← number_text (s32 (int_value 0 SIGN v)) 10 (-1) 0 SIGN;
      Some (l, ([] : list Z, [] : list arg))); l2 ← format_text 3 f a; Some (l1 ++ l2)); [reflexivity|].
    unfold int_value. change (0 =? 104) with false. cbv iota.
    rewrite u32_small, s32_small, number_text_no_digits by lia. done.
  - intros s rest Hs. transitivity ('(l1, (f, a)) ← (l ← string_text 5 (-1) 0 (Some (s ++ 0 :: rest));
      Some (l, ([] : list Z, [] : list arg))); l2 ← format_text 2 f a; Some (l1 ++ l2)); [reflexivity|].
    unfold string_text. cbv zeta.
    change (default (chars "(NULL)" ++ [0]) (Some (s ++ 0 :: rest))) with (s ++ 0 :: rest).
    rewrite str_len_spec by (done || lia). cbn [mbind option_bind].
    change (-1 >? 0) with false. cbn [andb]. change (flag 0 LEFT) with false. cbv iota zeta.
    cbn. rewrite app_nil_r. f_equal. f_equal; [f_equal; lia|].
    destruct (Nat.le_gt_cases (length s) 5) as [Hle|Hgt].
    + rewrite Z.add_0_l, Z.min_l, Nat2Z.id by lia. rewrite take_app_le, !take_ge by lia. done.
    + rewrite Z.min_r by lia. rewrite take_app_le by (cbn; lia). done.
Qed.

Lemma printf_numbers_witness :
  format_text 2 (chars "%d") [Arg_int (-40)] = Some (chars "-40") /\
  format_text 4 (chars "%.0d") [Arg_int 7] = Some [].
Proof.
  destruct (printf_numbers (-40) ltac:(lia)) as (E & _).
  destruct (printf_numbers 7 ltac:(lia)) as (_ & _ & E2 & _).
  split; [exact E|by apply E2].
Defined.
