(* ===== verification/Heap.v ===== *)
(** * Heap: the kernel's memory allocator

    [rt-thread/src/mem.c] ([RT_USING_SMALL_MEM], without [RT_USING_MEMTRACE])
    and the functions of [kservice.c] that allocate.  The heap is a range of
    byte memory: a [struct heap_mem] of 12 bytes in front of every block, read
    and written at its address; [next] and [prev] are offsets from [heap_ptr],
    [lfree] and [heap_end] addresses.  The body of a call between
    [rt_sem_take] and [rt_sem_release] of [heap_sem] runs whole, which is what
    that semaphore is for.  [None] is spent fuel. *)
From S2P Require Import Prelude Bytes KService.

Definition HEAP_MAGIC : Z := 0x1ea0.
Definition MIN_SIZE : Z := 12.
Definition MIN_SIZE_ALIGNED : Z := 12.
Definition SIZEOF_STRUCT_MEM : Z := 12.

(** ** [struct heap_mem] at address [p] *)

Definition h_magic (m : memory) (p : Z) : Z := rd16 m p.
Definition h_used (m : memory) (p : Z) : Z := rd16 m (p + 2).
Definition h_next (m : memory) (p : Z) : Z := rd32 m (p + 4).
Definition h_prev (m : memory) (p : Z) : Z := rd32 m (p + 8).
Definition w_magic (p v : Z) (m : memory) : memory := wr16 p v m.
Definition w_used (p v : Z) (m : memory) : memory := wr16 (p + 2) v m.
Definition w_next (p v : Z) (m : memory) : memory := wr32 (p + 4) v m.
Definition w_prev (p v : Z) (m : memory) : memory := wr32 (p + 8) v m.

Record heap := mk_heap {
  hm : memory;
  heap_ptr : Z; heap_end : Z; lfree : Z;
  mem_size_aligned : Z; used_mem : Z; max_mem : Z }.

Definition on_mem (f : memory -> memory) (h : heap) : heap :=
  mk_heap (f (hm h)) (heap_ptr h) (heap_end h) (lfree h) (mem_size_aligned h) (used_mem h) (max_mem h).
Definition set_lfree (p : Z) (h : heap) : heap :=
  mk_heap (hm h) (heap_ptr h) (heap_end h) p (mem_size_aligned h) (used_mem h) (max_mem h).
Definition set_used (u x : Z) (h : heap) : heap :=
  mk_heap (hm h) (heap_ptr h) (heap_end h) (lfree h) (mem_size_aligned h) u x.

(** [used_mem += n; if (max_mem < used_mem) max_mem = used_mem;] *)
Definition count_used (n : Z) (h : heap) : heap :=
  let used := u32 (used_mem h + n) in
  set_used used (if max_mem h <? used then used else max_mem h) h.

(** ** [plug_holes] *)

(** Forward: combine with the next block when that is free and not the end. *)
Definition plug_forward (mem : Z) (h : heap) : heap :=
  let nmem := heap_ptr h + h_next (hm h) mem in
  if negb (mem =? nmem) && (h_used (hm h) nmem =? 0) && negb (nmem =? heap_end h) then
    let h := if lfree h =? nmem then set_lfree mem h else h in
    let h := on_mem (w_next mem (h_next (hm h) nmem)) h in
    on_mem (w_prev (heap_ptr h + h_next (hm h) nmem) (mem - heap_ptr h)) h
  else h.

(** Backward: combine with the previous block when that is free. *)
Definition plug_backward (mem : Z) (h : heap) : heap :=
  let pmem := heap_ptr h + h_prev (hm h) mem in
  if negb (pmem =? mem) && (h_used (hm h) pmem =? 0) then
    let h := if lfree h =? mem then set_lfree pmem h else h in
    let h := on_mem (w_next pmem (h_next (hm h) mem)) h in
    on_mem (w_prev (heap_ptr h + h_next (hm h) mem) (pmem - heap_ptr h)) h
  else h.

Definition plug_holes (mem : Z) (h : heap) : heap := plug_backward mem (plug_forward mem h).

(** ** [rt_system_heap_init] *)

Definition rt_system_heap_init (begin_addr end_addr : Z) (h : heap) : heap :=
  let begin_align := align_up begin_addr in
  let end_align := align_down end_addr in
  if (end_align >? 2 * SIZEOF_STRUCT_MEM) && (end_align - 2 * SIZEOF_STRUCT_MEM >=? begin_align) then
    let size := u32 (end_align - begin_align - 2 * SIZEOF_STRUCT_MEM) in
    let mem := begin_align in
    let m := w_magic mem HEAP_MAGIC (hm h) in
    let m := w_next mem (size + SIZEOF_STRUCT_MEM) m in
    let m := w_prev mem 0 m in
    let m := w_used mem 0 m in
    let e := begin_align + h_next m mem in
    let m := w_magic e HEAP_MAGIC m in
    let m := w_used e 1 m in
    let m := w_next e (size + SIZEOF_STRUCT_MEM) m in
    let m := w_prev e (size + SIZEOF_STRUCT_MEM) m in
    mk_heap m begin_align e begin_align size (used_mem h) (max_mem h)
  else h.

(** ** [rt_malloc] *)

(** [while (lfree->used && lfree != heap_end) lfree = &heap_ptr[lfree->next];] *)
Fixpoint lfree_loop (fuel : nat) (h : heap) : option heap :=
  if negb (h_used (hm h) (lfree h) =? 0) && negb (lfree h =? heap_end h) then
    match fuel with
    | O => None
    | S fuel => lfree_loop fuel (set_lfree (heap_ptr h + h_next (hm h) (lfree h)) h)
    end
  else Some h.

(** The block at [ptr] is free and large enough: take it, splitting it when the
    rest can hold a block. *)
Definition malloc_take (fuel : nat) (size ptr : Z) (h : heap) : option (heap * Z) :=
  let mem := heap_ptr h + ptr in
  let h :=
    if u32 (h_next (hm h) mem - u32 (ptr + SIZEOF_STRUCT_MEM)) >=?
       u32 (size + SIZEOF_STRUCT_MEM + MIN_SIZE_ALIGNED) then
      let ptr2 := u32 (ptr + SIZEOF_STRUCT_MEM + size) in
      let mem2 := heap_ptr h + ptr2 in
      let h := on_mem (w_magic mem2 HEAP_MAGIC) h in
      let h := on_mem (w_used mem2 0) h in
      let h := on_mem (w_next mem2 (h_next (hm h) mem)) h in
      let h := on_mem (w_prev mem2 ptr) h in
      let h := on_mem (w_next mem ptr2) h in
      let h := on_mem (w_used mem 1) h in
      let h :=
        if negb (h_next (hm h) mem2 =? u32 (mem_size_aligned h + SIZEOF_STRUCT_MEM))
        then on_mem (w_prev (heap_ptr h + h_next (hm h) mem2) ptr2) h else h in
      count_used (size + SIZEOF_STRUCT_MEM) h
    else
      let h := on_mem (w_used mem 1) h in
      count_used (h_next (hm h) mem - (mem - heap_ptr h)) h in
  let h := on_mem (w_magic mem HEAP_MAGIC) h in
  h ← (if mem =? lfree h then lfree_loop fuel h else Some h);
  Some (h, mem + SIZEOF_STRUCT_MEM).

(** The [for] loop from block [ptr] on; 0 is [RT_NULL]. *)
Fixpoint malloc_loop (fuel : nat) (size ptr : Z) (h : heap) : option (heap * Z) :=
  if ptr <? u32 (mem_size_aligned h - size) then
    match fuel with
    | O => None
    | S fuel' =>
        let mem := heap_ptr h + ptr in
        if (h_used (hm h) mem =? 0) && (u32 (h_next (hm h) mem - u32 (ptr + SIZEOF_STRUCT_MEM)) >=? size)
        then malloc_take fuel size ptr h
        else malloc_loop fuel' size (h_next (hm h) mem) h
    end
  else Some (h, 0).

Definition rt_malloc (fuel : nat) (size : Z) (h : heap) : option (heap * Z) :=
  if size =? 0 then Some (h, 0)
  else
    let size := align_up size in
    if size >? mem_size_aligned h then Some (h, 0)
    else
      let size := if size <? MIN_SIZE_ALIGNED then MIN_SIZE_ALIGNED else size in
      malloc_loop fuel size (u32 (lfree h - heap_ptr h)) h.

(** ** [rt_free], [rt_realloc], [rt_calloc] *)

(** A block whose header does not say it is used is only reported. *)
Definition rt_free (rmem : Z) (h : heap) : heap :=
  if rmem =? 0 then h
  else if (rmem <? heap_ptr h) || (rmem >=? heap_end h) then h
  else
    let mem := rmem - SIZEOF_STRUCT_MEM in
    let h := on_mem (w_used mem 0) h in
    let h := on_mem (w_magic mem HEAP_MAGIC) h in
    let h := if mem <? lfree h then set_lfree mem h else h in
    let h := set_used (u32 (used_mem h - (h_next (hm h) mem - (mem - heap_ptr h)))) (max_mem h) h in
    plug_holes mem h.

Definition rt_realloc (fuel : nat) (rmem newsize : Z) (h : heap) : option (heap * Z) :=
  let newsize := align_up newsize in
  if newsize >? mem_size_aligned h then Some (h, 0)
  else if newsize =? 0 then Some (rt_free rmem h, 0)
  else if rmem =? 0 then rt_malloc fuel newsize h
  else if (rmem <? heap_ptr h) || (rmem >=? heap_end h) then Some (h, rmem)
  else
    let mem := rmem - SIZEOF_STRUCT_MEM in
    let ptr := mem - heap_ptr h in
    let size := u32 (h_next (hm h) mem - ptr - SIZEOF_STRUCT_MEM) in
    if size =? newsize then Some (h, rmem)
    else if u32 (newsize + SIZEOF_STRUCT_MEM + MIN_SIZE) <? size then
      let h := set_used (u32 (used_mem h - (size - newsize))) (max_mem h) h in
      let ptr2 := u32 (ptr + SIZEOF_STRUCT_MEM + newsize) in
      let mem2 := heap_ptr h + ptr2 in
      let h := on_mem (w_magic mem2 HEAP_MAGIC) h in
      let h := on_mem (w_used mem2 0) h in
      let h := on_mem (w_next mem2 (h_next (hm h) mem)) h in
      let h := on_mem (w_prev mem2 ptr) h in
      let h := on_mem (w_next mem ptr2) h in
      let h :=
        if negb (h_next (hm h) mem2 =? u32 (mem_size_aligned h + SIZEOF_STRUCT_MEM))
        then on_mem (w_prev (heap_ptr h + h_next (hm h) mem2) ptr2) h else h in
      let h := if mem2 <? lfree h then set_lfree mem2 h else h in
      Some (plug_holes mem2 h, rmem)
    else
      '(h, nmem) ← rt_malloc fuel newsize h;
      if negb (nmem =? 0) then
        m ← rt_memcpy nmem rmem (if size <? newsize then size else newsize) (hm h);
        Some (rt_free rmem (on_mem (fun _ => m) h), nmem)
      else Some (h, nmem).

Definition rt_calloc (fuel : nat) (count size : Z) (h : heap) : option (heap * Z) :=
  '(h, p) ← rt_malloc fuel (u32 (count * size)) h;
  if negb (p =? 0) then
    m ← rt_memset p 0 (u32 (count * size)) (hm h); Some (on_mem (fun _ => m) h, p)
  else Some (h, p).

Definition rt_memory_info (h : heap) : Z * Z * Z := (mem_size_aligned h, used_mem h, max_mem h).

(** ** Allocation in [kservice.c] *)

(** [s] is the bytes the argument points at. *)
Definition rt_strdup (fuel : nat) (s : Z) (bytes : list Z) (h : heap) : option (heap * Z) :=
  n ← rt_strlen bytes;
  let len := n + 1 in
  '(h, tmp) ← rt_malloc fuel len h;
  if tmp =? 0 then Some (h, 0)
  else m ← rt_memcpy tmp s len (hm h); Some (on_mem (fun _ => m) h, tmp).

Definition rt_malloc_align (fuel : nat) (size align : Z) (h : heap) : option (heap * Z) :=
  let align := align_up align in
  let align_size := u32 (align_up size + align) in
  '(h, ptr) ← rt_malloc fuel align_size h;
  if negb (ptr =? 0) then
    let align_ptr :=
      if ptr .& (align - 1) =? 0 then u32 (ptr + align)
      else Z.ldiff (u32 (ptr + (align - 1))) (align - 1) in
    Some (on_mem (wr32 (align_ptr - 4) ptr) h, align_ptr)
  else Some (h, ptr).

Definition rt_free_align (ptr : Z) (h : heap) : heap := rt_free (rd32 (hm h) (ptr - 4)) h.
