(* ===== verification/HeapInv.v ===== *)
(** * HeapInv: the blocks of the heap

    The headers of [Heap] form a chain of blocks, each used or free, that
    tiles the range; no two neighbours are both free and [lfree] is the lowest
    free block.  The calls of [mem.c] keep this, and act on the list of blocks
    as a first-fit allocator that merges what it frees. *)
From S2P Require Import Prelude Bytes KService Heap.

Ltac unfold_fields :=
  unfold h_magic, h_used, h_next, h_prev, w_magic, w_used, w_next, w_prev in *.

(** Read a field after stores to fields: the last store to it, or past it. *)
Ltac fields :=
  unfold_fields;
  repeat first
    [ rewrite rd16_wr16 | rewrite rd32_wr32
    | rewrite rd16_wr16_ne by lia | rewrite rd16_wr32_ne by lia
    | rewrite rd32_wr16_ne by lia | rewrite rd32_wr32_ne by lia ].

(** A byte outside the stores. *)
Ltac outside :=
  unfold_fields;
  repeat first
    [ rewrite rd_wr16, decide_False by lia | rewrite rd_wr32, decide_False by lia ].

(** Projections of the record updates. *)
Section projections.
Context (f : memory -> memory) (n p u x : Z) (h : heap).
Lemma hm_on_mem : hm (on_mem f h) = f (hm h). Proof. done. Qed.
Lemma ptr_on_mem : heap_ptr (on_mem f h) = heap_ptr h. Proof. done. Qed.
Lemma end_on_mem : heap_end (on_mem f h) = heap_end h. Proof. done. Qed.
Lemma lfree_on_mem : lfree (on_mem f h) = lfree h. Proof. done. Qed.
Lemma size_on_mem : mem_size_aligned (on_mem f h) = mem_size_aligned h. Proof. done. Qed.
Lemma used_on_mem : used_mem (on_mem f h) = used_mem h. Proof. done. Qed.
Lemma max_on_mem : max_mem (on_mem f h) = max_mem h. Proof. done. Qed.
Lemma hm_set_used : hm (set_used u x h) = hm h. Proof. done. Qed.
Lemma ptr_set_used : heap_ptr (set_used u x h) = heap_ptr h. Proof. done. Qed.
Lemma end_set_used : heap_end (set_used u x h) = heap_end h. Proof. done. Qed.
Lemma lfree_set_used : lfree (set_used u x h) = lfree h. Proof. done. Qed.
Lemma size_set_used : mem_size_aligned (set_used u x h) = mem_size_aligned h. Proof. done. Qed.
Lemma used_set_used : used_mem (set_used u x h) = u. Proof. done. Qed.
Lemma max_set_used : max_mem (set_used u x h) = x. Proof. done. Qed.
Lemma hm_set_lfree : hm (set_lfree p h) = hm h. Proof. done. Qed.
Lemma ptr_set_lfree : heap_ptr (set_lfree p h) = heap_ptr h. Proof. done. Qed.
Lemma end_set_lfree : heap_end (set_lfree p h) = heap_end h. Proof. done. Qed.
Lemma lfree_set_lfree : lfree (set_lfree p h) = p. Proof. done. Qed.
Lemma size_set_lfree : mem_size_aligned (set_lfree p h) = mem_size_aligned h. Proof. done. Qed.
Lemma used_set_lfree : used_mem (set_lfree p h) = used_mem h. Proof. done. Qed.
Lemma max_set_lfree : max_mem (set_lfree p h) = max_mem h. Proof. done. Qed.
End projections.
Create Rewrite HintDb heap.
#[export] Hint Rewrite hm_on_mem ptr_on_mem end_on_mem lfree_on_mem size_on_mem used_on_mem max_on_mem
  hm_set_used ptr_set_used end_set_used lfree_set_used size_set_used used_set_used max_set_used
  hm_set_lfree ptr_set_lfree end_set_lfree lfree_set_lfree size_set_lfree used_set_lfree max_set_lfree : heap.

(** ** Lists of blocks: total size with header, and whether used *)

Abbreviation blocks := (list (Z * bool)).

Fixpoint total (bl : blocks) : Z :=
  match bl with [] => 0 | (n, _) :: bl => n + total bl end.
Fixpoint used_total (bl : blocks) : Z :=
  match bl with [] => 0 | (n, u) :: bl => (if u then n else 0) + used_total bl end.
Definition sizes_ok (bl : blocks) : Prop := Forall (fun b => 16 <= b.1 /\ b.1 `mod` 4 = 0) bl.
Definition all_used (bl : blocks) : Prop := Forall (fun b => b.2 = true) bl.

(** Offset of the first free block. *)
Fixpoint first_free (off : Z) (bl : blocks) : option Z :=
  match bl with
  | [] => None
  | (n, u) :: bl => if u then first_free (off + n) bl else Some off
  end.

Definition head_free (bl : blocks) : bool := match bl with (_, false) :: _ => true | _ => false end.
Definition last_free (bl : blocks) : bool := match last bl with Some (_, false) => true | _ => false end.

(** No two neighbours are free. *)
Fixpoint merged (bl : blocks) : Prop :=
  match bl with
  | [] => True
  | (_, u) :: bl => (u = false -> head_free bl = false) /\ merged bl
  end.

Lemma total_app l1 l2 : total (l1 ++ l2) = total l1 + total l2.
Proof. induction l1 as [|[n u] l1 IH]; cbn; lia. Qed.
Lemma used_total_app l1 l2 : used_total (l1 ++ l2) = used_total l1 + used_total l2.
Proof. induction l1 as [|[n u] l1 IH]; cbn; lia. Qed.
Lemma total_nonneg bl : sizes_ok bl -> 0 <= total bl.
Proof. induction 1 as [|[n u] bl [Hn _] _ IH]; cbn in *; lia. Qed.
Lemma used_total_bound bl : sizes_ok bl -> 0 <= used_total bl <= total bl.
Proof. induction 1 as [|[n u] bl [Hn _] _ IH]; cbn in *; [lia|]. destruct u; lia. Qed.
Lemma total_mod bl : sizes_ok bl -> total bl `mod` 4 = 0.
Proof. induction 1 as [|[n u] bl [_ Hn] _ IH]; cbn in *; [done|]. zlia. Qed.
Lemma total_pos bl : sizes_ok bl -> bl <> [] -> 16 <= total bl.
Proof.
  intros H Hn. destruct bl as [|[n u] bl]; [done|]. apply Forall_cons in H as [[H1 _] H2].
  pose proof (total_nonneg bl H2). cbn in *. lia.
Qed.

Lemma total_gap bl : sizes_ok bl -> total bl = 0 \/ 16 <= total bl.
Proof. intros H. destruct bl as [|b bl]; [by left|right]. by apply total_pos. Qed.

Lemma sizes_app l1 l2 : sizes_ok (l1 ++ l2) <-> sizes_ok l1 /\ sizes_ok l2.
Proof. apply Forall_app. Qed.

Lemma last_free_snoc l n u : last_free (l ++ [(n, u)]) = negb u.
Proof. unfold last_free. rewrite last_snoc. by destruct u. Qed.
Lemma last_free_cons n u b l : last_free ((n, u) :: b :: l) = last_free (b :: l).
Proof. done. Qed.

Lemma merged_app l1 l2 : merged (l1 ++ l2) <->
  merged l1 /\ merged l2 /\ (last_free l1 = true -> head_free l2 = false).
Proof.
  induction l1 as [|[n u] l1 IH]; [split; [done|tauto]|].
  cbn [app merged]. rewrite IH. destruct l1 as [|[n' u'] l1]; [|cbn [app head_free]].
  - cbn. destruct u; cbn; intuition (try done).
  - rewrite last_free_cons. tauto.
Qed.

Lemma first_free_app l1 l2 : forall off, first_free off (l1 ++ l2) =
  match first_free off l1 with Some x => Some x | None => first_free (off + total l1) l2 end.
Proof.
  induction l1 as [|[n u] l1 IH]; intros off; cbn; [by rewrite Z.add_0_r|].
  destruct u; [|done]. rewrite IH. by rewrite Z.add_assoc.
Qed.

Lemma first_free_None l : forall off, first_free off l = None <-> all_used l.
Proof.
  induction l as [|[n u] l IH]; intros off; cbn; [split; [constructor|done]|].
  unfold all_used in *. rewrite Forall_cons. cbn. destruct u; [rewrite IH; tauto|].
  split; [done|]. by intros [? _].
Qed.

Lemma first_free_bound l : forall off x, sizes_ok l -> first_free off l = Some x -> off <= x < off + total l.
Proof.
  induction l as [|[n u] l IH]; intros off x Hs; cbn; [done|]. apply Forall_cons in Hs as [[Hn _] Hs].
  cbn in Hn. pose proof (total_nonneg l Hs). destruct u; [|intros [= ->]; lia].
  intros H1%IH; [lia|done].
Qed.

(** ** The chain of headers *)

(** The blocks [bl] lie in memory from offset [off] on, after a block at
    offset [prev]. *)
Fixpoint seg (m : memory) (hp prev off : Z) (bl : blocks) : Prop :=
  match bl with
  | [] => True
  | (n, u) :: bl =>
      h_magic m (hp + off) = HEAP_MAGIC /\ h_used m (hp + off) = (if u then 1 else 0) /\
      h_next m (hp + off) = off + n /\ h_prev m (hp + off) = prev /\
      seg m hp off (off + n) bl
  end.

(** Offset of the last block, [prev] if there is none. *)
Fixpoint last_off (prev off : Z) (bl : blocks) : Z :=
  match bl with [] => prev | (n, _) :: bl => last_off off (off + n) bl end.

Lemma last_off_snoc l n u : forall prev off, last_off prev off (l ++ [(n, u)]) = off + total l.
Proof. induction l as [|[k w] l IH]; intros prev off; cbn; [lia|]. rewrite IH. lia. Qed.

Lemma seg_app m hp l1 l2 : forall prev off,
  seg m hp prev off (l1 ++ l2) <->
  seg m hp prev off l1 /\ seg m hp (last_off prev off l1) (off + total l1) l2.
Proof.
  induction l1 as [|[n u] l1 IH]; intros prev off; cbn [app seg total last_off];
    [rewrite Z.add_0_r; tauto|]. rewrite IH, Z.add_assoc. tauto.
Qed.

(** Stores outside the headers keep the chain. *)
Lemma seg_frame m m' hp l : sizes_ok l -> forall prev off,
  (forall x, hp + off <= x < hp + off + total l -> rd m' x = rd m x) ->
  seg m hp prev off l -> seg m' hp prev off l.
Proof.
  induction 1 as [|[n u] l [Hn _] Hs IH]; intros prev off Hx Hseg; [done|].
  cbn [fst total seg] in *. pose proof (total_nonneg l Hs).
  destruct Hseg as (H1 & H2 & H3 & H4 & H5). unfold_fields.
  rewrite (rd16_ext (hp + off) m m'), (rd16_ext (hp + off + 2) m m'), (rd32_ext (hp + off + 4) m m'),
    (rd32_ext (hp + off + 8) m m') by (intros x Hx'; apply Hx; lia).
  split_and!; [done..|]. apply IH; [|done]. intros x Hx'. apply Hx. lia.
Qed.

(** The first block of a chain takes another predecessor. *)
Lemma seg_prev m hp p p' off l : sizes_ok l -> 0 <= p' < 4294967296 ->
  seg m hp p off l -> seg (w_prev (hp + off) p' m) hp p' off l.
Proof.
  intros Hs Hp Hseg. destruct Hs as [|[n u] l [Hn _] Hs]; [done|].
  cbn [fst seg] in *. destruct Hseg as (H1 & H2 & H3 & H4 & H5). fields.
  split_and!; [done..|by apply u32_small|].
  eapply seg_frame; [done| |done]. intros x Hx. outside. done.
Qed.

(** The first block of a chain, its header written anew except [prev]. *)
Lemma seg_sizes m hp prev off l n u : seg m hp prev off ((n, u) :: l) ->
  h_next m (hp + off) = off + n /\ h_used m (hp + off) = (if u then 1 else 0) /\ h_prev m (hp + off) = prev.
Proof. by intros (_ & ? & ? & ? & _). Qed.

(** ** A heap of blocks *)

Record heap_chain (h : heap) (bl : blocks) : Prop := {
  hc_seg : seg (hm h) (heap_ptr h) 0 0 bl;
  hc_sizes : sizes_ok bl;
  hc_total : total bl = mem_size_aligned h + 12;
  hc_end : heap_end h = heap_ptr h + mem_size_aligned h + 12;
  hc_end_used : h_used (hm h) (heap_end h) = 1;
  hc_lfree : lfree h = heap_ptr h + default (total bl) (first_free 0 bl);
  hc_used : used_mem h = used_total bl;
  hc_max : used_mem h <= max_mem h;
  hc_ptr : 0 < heap_ptr h /\ heap_ptr h `mod` 4 = 0;
  hc_top : heap_end h + 12 < 4294967296;
  hc_min : 12 <= mem_size_aligned h }.

Definition heap_rep (h : heap) (bl : blocks) : Prop := heap_chain h bl /\ merged bl.

(** The parts of the heap an operation leaves. *)
Definition same_heap (h h' : heap) : Prop :=
  heap_ptr h' = heap_ptr h /\ heap_end h' = heap_end h /\ mem_size_aligned h' = mem_size_aligned h.

(** Only the headers at the given addresses change. *)
Definition only_headers (ps : list Z) (m m' : memory) : Prop :=
  forall x, Forall (fun p => ~ p <= x < p + 12) ps -> rd m' x = rd m x.

Lemma only_headers_app ps qs m m1 m2 :
  only_headers ps m m1 -> only_headers qs m1 m2 -> only_headers (ps ++ qs) m m2.
Proof. intros H1 H2 x Hx. apply Forall_app in Hx as [? ?]. by rewrite H2, H1. Qed.

Definition join_right (n : Z) (l2 : blocks) : Z * blocks :=
  match l2 with (k, false) :: l => (n + k, l) | _ => (n, l2) end.
Definition join_left (l1 : blocks) (n : Z) : blocks * Z :=
  match last l1 with Some (k, false) => (removelast l1, k + n) | _ => (l1, n) end.

Section blocks_at.
Context (h : heap) (l1 : blocks) (n : Z) (u : bool) (l2 : blocks).
Hypothesis Hc : heap_chain h (l1 ++ (n, u) :: l2).

Let hp := heap_ptr h.
Let off := total l1.

Lemma block_sizes : sizes_ok l1 /\ 16 <= n /\ n `mod` 4 = 0 /\ sizes_ok l2 /\ 0 <= off /\ 0 <= total l2.
Proof.
  pose proof (hc_sizes _ _ Hc) as H. apply sizes_app in H as [H1 H2].
  apply Forall_cons in H2 as [[Hn Hm] H2]. cbn in *.
  split_and!; try done; by apply total_nonneg.
Qed.

Lemma block_total : off + n + total l2 = mem_size_aligned h + 12.
Proof. pose proof (hc_total _ _ Hc) as H. rewrite total_app in H. cbn in H. unfold off. lia. Qed.

Lemma block_seg :
  seg (hm h) hp 0 0 l1 /\
  h_magic (hm h) (hp + off) = HEAP_MAGIC /\ h_used (hm h) (hp + off) = (if u then 1 else 0) /\
  h_next (hm h) (hp + off) = off + n /\ h_prev (hm h) (hp + off) = last_off 0 0 l1 /\
  seg (hm h) hp off (off + n) l2.
Proof.
  pose proof (hc_seg _ _ Hc) as H. apply seg_app in H as [H1 H2]. rewrite Z.add_0_l in H2. done.
Qed.

(** What follows the block: the next header, used at the end of the heap. *)
Lemma next_used : h_used (hm h) (hp + (off + n)) =
  (match l2 with (_, w) :: _ => if w then 1 else 0 | [] => 1 end).
Proof.
  destruct block_seg as (_ & _ & _ & _ & _ & H). pose proof block_total as Ht.
  destruct l2 as [|[k w] l].
  - cbn [total] in Ht. rewrite <- (hc_end_used _ _ Hc). f_equal. rewrite (hc_end _ _ Hc). fold hp. lia.
  - by destruct H as (_ & H & _).
Qed.

Lemma lfree_before : u = false -> hp <= lfree h <= hp + off.
Proof.
  intros Hu. rewrite (hc_lfree _ _ Hc). fold hp. rewrite first_free_app. cbn [first_free].
  rewrite Hu. destruct block_sizes as (Hs & _). pose proof (total_nonneg l1 Hs).
  destruct (first_free 0 l1) as [x|] eqn:E; cbn; [|unfold off; lia].
  apply first_free_bound in E; [|done]. unfold off. lia.
Qed.
End blocks_at.

Lemma plug_forward_spec h l1 n l2 : heap_chain h (l1 ++ (n, false) :: l2) ->
  let mem := heap_ptr h + total l1 in
  let '(n', l2') := join_right n l2 in
  let h' := plug_forward mem h in
  heap_chain h' (l1 ++ (n', false) :: l2') /\ same_heap h h' /\
  max_mem h' = max_mem h /\
  only_headers [mem; mem + n'] (hm h) (hm h').
Proof.
  intros Hc. destruct (block_sizes _ _ _ _ _ Hc) as (Hs1 & Hn & Hn4 & Hs2 & Ho & Ht2).
  pose proof (block_total _ _ _ _ _ Hc) as Ht.
  destruct (block_seg _ _ _ _ _ Hc) as (Hg1 & Hm & Hu & Hx & Hp & Hg2).
  pose proof (next_used _ _ _ _ _ Hc) as Hnu. pose proof (lfree_before _ _ _ _ _ Hc eq_refl) as Hlf.
  cbv zeta. unfold plug_forward. rewrite Hx, Hnu.
  destruct l2 as [|[k [|]] l]; cbn [join_right];
    [rewrite andb_false_r; by split_and!|rewrite andb_false_r; by split_and!|].
  apply Forall_cons in Hs2 as [[Hk Hk4] Hs2]. cbn [fst total] in *.
  pose proof (total_gap l Hs2) as Hgap. pose proof (hc_end _ _ Hc) as He. pose proof (hc_top _ _ Hc) as Htop.
  pose proof (hc_ptr _ _ Hc) as [Hp0 _].
  rewrite (proj2 (Z.eqb_neq _ (heap_ptr h + (total l1 + n)))) by lia.
  rewrite (proj2 (Z.eqb_neq _ (heap_end h))) by lia.
  rewrite (proj2 (Z.eqb_neq (lfree h) _)) by lia. cbn [negb andb Z.eqb].
  destruct Hg2 as (Hkm & Hku & Hkx & Hkp & Hg).
  assert (h_next (w_next (heap_ptr h + total l1) (total l1 + n + k) (hm h)) (heap_ptr h + (total l1 + n))
          = total l1 + n + k) as Hnn by (revert Hkx; fields; done).
  unfold on_mem at 1 2 3 4. cbn [hm heap_ptr heap_end lfree mem_size_aligned used_mem max_mem on_mem].
  rewrite Hkx, Hnn.
  set (m1 := w_next _ _ _). set (m2 := w_prev _ _ m1).
  assert (only_headers [heap_ptr h + total l1; heap_ptr h + total l1 + (n + k)] (hm h) m2) as Honly.
  { intros x Hxx. rewrite !Forall_cons in Hxx. destruct Hxx as (A & B & _). unfold m2, m1. outside. done. }
  split; [|by split_and!].
  split; cbn [hm heap_ptr heap_end lfree mem_size_aligned used_mem max_mem].
  - apply seg_app. rewrite Z.add_0_l. split.
    { eapply seg_frame; [done| |exact Hg1]. intros x Hxx. apply Honly. repeat constructor; lia. }
    cbn [seg]. unfold m2, m1. split_and!.
    + revert Hm. fields. done.
    + revert Hu. fields. done.
    + fields. rewrite u32_small by lia. lia.
    + revert Hp. fields. done.
    + replace (total l1 + (n + k)) with (total l1 + n + k) by lia.
      replace (heap_ptr h + total l1 - heap_ptr h) with (total l1) by lia.
      apply (seg_prev _ _ (total l1 + n)); [done|lia|].
      eapply seg_frame; [done| |exact Hg]. intros x Hxx. outside. done.
  - apply sizes_app. split; [done|]. constructor; [|done]. cbn. split; [lia|zlia].
  - rewrite total_app. cbn. lia.
  - done.
  - rewrite <- (hc_end_used _ _ Hc). unfold m2, m1. rewrite He. fields. done.
  - rewrite (hc_lfree _ _ Hc), !first_free_app, !total_app. cbn.
    destruct (first_free 0 l1); done.
  - rewrite (hc_used _ _ Hc), !used_total_app. cbn. lia.
  - apply (hc_max _ _ Hc).
  - apply (hc_ptr _ _ Hc).
  - done.
  - apply (hc_min _ _ Hc).
Qed.

Lemma join_left_snoc l k w n : join_left (l ++ [(k, w)]) n = if w then (l ++ [(k, w)], n) else (l, k + n).
Proof. unfold join_left. rewrite last_snoc. destruct w; [done|]. by rewrite removelast_last. Qed.

Lemma plug_backward_spec h l1 n l2 : heap_chain h (l1 ++ (n, false) :: l2) ->
  let mem := heap_ptr h + total l1 in
  let '(l1', n') := join_left l1 n in
  let h' := plug_backward mem h in
  heap_chain h' (l1' ++ (n', false) :: l2) /\ same_heap h h' /\
  max_mem h' = max_mem h /\
  only_headers [heap_ptr h + total l1'; mem + n] (hm h) (hm h').
Proof.
  intros Hc. destruct (block_sizes _ _ _ _ _ Hc) as (Hs1 & Hn & Hn4 & Hs2 & Ho & Ht2).
  pose proof (block_total _ _ _ _ _ Hc) as Ht.
  destruct (block_seg _ _ _ _ _ Hc) as (Hg1 & Hm & Hu & Hx & Hp & Hg2).
  pose proof (lfree_before _ _ _ _ _ Hc eq_refl) as Hlf.
  cbv zeta. unfold plug_backward. rewrite Hp.
  destruct l1 as [|[k w] l1 _] using rev_ind.
  { cbn [join_left last last_off total]. rewrite Z.eqb_refl. cbn [negb andb]. by split_and!. }
  rewrite join_left_snoc, last_off_snoc, Z.add_0_l. pose proof Hc as Hc'. rewrite <- app_assoc in Hc'.
  cbn [app] in Hc'. destruct (block_seg _ _ _ _ _ Hc') as (Hl1 & Hpm & Hpu & Hpx & Hpp & Hlg).
  rewrite Hpu. rewrite !total_app in *. cbn [total] in *.
  destruct w; [rewrite andb_false_r; by split_and!|].
  apply sizes_app in Hs1 as [Hs1 Hk]. apply Forall_cons in Hk as [[Hk Hk4] _]. cbn [fst] in *.
  pose proof (total_nonneg l1 Hs1). pose proof (total_gap l2 Hs2) as Hgap. pose proof (hc_end _ _ Hc) as He.
  pose proof (hc_top _ _ Hc) as Htop. pose proof (hc_ptr _ _ Hc) as [Hp0 _].
  pose proof (lfree_before _ _ _ _ _ Hc' eq_refl) as Hlf'.
  rewrite (proj2 (Z.eqb_neq (_ + total l1) _)) by lia.
  rewrite (proj2 (Z.eqb_neq (lfree h) _)) by lia. cbn [negb andb Z.eqb]. rewrite Z.add_0_r in *.
  unfold on_mem. cbn [hm heap_ptr heap_end lfree mem_size_aligned used_mem max_mem].
  rewrite Hx.
  assert (h_next (w_next (heap_ptr h + total l1) (total l1 + k + n) (hm h)) (heap_ptr h + (total l1 + k))
          = total l1 + k + n) as -> by (revert Hx; fields; done).
  set (m1 := w_next _ _ _). set (m2 := w_prev _ _ m1).
  assert (only_headers [heap_ptr h + total l1; heap_ptr h + (total l1 + k) + n] (hm h) m2) as Honly.
  { intros x Hxx. rewrite !Forall_cons in Hxx. destruct Hxx as (A & B & _). unfold m2, m1. outside. done. }
  split; [|by split_and!].
  split; cbn [hm heap_ptr heap_end lfree mem_size_aligned used_mem max_mem].
  - apply seg_app. rewrite Z.add_0_l. split.
    { eapply seg_frame; [done| |exact Hl1]. intros x Hxx. apply Honly. repeat constructor; lia. }
    cbn [seg]. unfold m2, m1. split_and!.
    + revert Hpm. fields. done.
    + revert Hpu. fields. done.
    + fields. rewrite u32_small by lia. lia.
    + revert Hpp. fields. done.
    + replace (total l1 + (k + n)) with (total l1 + k + n) by lia.
      replace (heap_ptr h + total l1 - heap_ptr h) with (total l1) by lia.
      apply (seg_prev _ _ (total l1 + k)); [done|lia|].
      eapply seg_frame; [done| |exact Hg2]. intros x Hxx. outside. done.
  - apply sizes_app. split; [done|]. constructor; [|done]. cbn. split; [lia|zlia].
  - rewrite total_app. cbn. lia.
  - done.
  - rewrite <- (hc_end_used _ _ Hc). unfold m2, m1. rewrite He. fields. done.
  - rewrite (hc_lfree _ _ Hc'), !first_free_app, !total_app. cbn.
    destruct (first_free 0 l1); done.
  - rewrite (hc_used _ _ Hc'), !used_total_app. cbn. lia.
  - apply (hc_max _ _ Hc).
  - apply (hc_ptr _ _ Hc).
  - done.
  - apply (hc_min _ _ Hc).
Qed.

(** ** Freeing *)

(** The list of blocks once the block between [l1] and [l2] is free. *)
Definition plug (l1 : blocks) (n : Z) (l2 : blocks) : blocks :=
  let '(n, l2) := join_right n l2 in
  let '(l1, n) := join_left l1 n in l1 ++ (n, false) :: l2.

Lemma same_heap_trans h1 h2 h3 : same_heap h1 h2 -> same_heap h2 h3 -> same_heap h1 h3.
Proof. intros (?&?&?) (?&?&?). unfold same_heap. split_and!; congruence. Qed.

(** The headers [plug_holes] touches are those of blocks of the list. *)
Definition boundary (bl : blocks) (p : Z) : Prop := exists l1 l2, bl = l1 ++ l2 /\ p = total l1.

(** Boundaries do not depend on what is used. *)
Lemma boundary_flag l1 n u w l2 p : boundary (l1 ++ (n, u) :: l2) p -> boundary (l1 ++ (n, w) :: l2) p.
Proof.
  intros (k1 & k2 & E & ->). apply app_eq_inv in E as [(k & -> & E)|(k & -> & E)].
  - exists k1, (k ++ (n, w) :: l2). by rewrite <- app_assoc.
  - destruct k as [|[n' u'] k]; cbn in E; [subst k2; exists l1, ((n, w) :: l2); by rewrite app_nil_r|].
    injection E as -> -> ->. exists (l1 ++ (n', w) :: k), k2.
    rewrite <- app_assoc, !total_app. done.
Qed.

Lemma plug_holes_spec h l1 n l2 : heap_chain h (l1 ++ (n, false) :: l2) -> merged l1 -> merged l2 ->
  let h' := plug_holes (heap_ptr h + total l1) h in
  heap_rep h' (plug l1 n l2) /\ same_heap h h' /\ max_mem h' = max_mem h /\
  exists ps, only_headers (map (Z.add (heap_ptr h)) ps) (hm h) (hm h') /\
    Forall (boundary (l1 ++ (n, false) :: l2)) ps.
Proof.
  intros Hc M1 M2. cbv zeta. unfold plug_holes, plug.
  pose proof (plug_forward_spec h l1 n l2 Hc) as HF. cbv zeta in HF.
  assert (exists l, (join_right n l2).2 = l /\ merged l /\ head_free l = false /\
    exists k, l2 = k ++ l /\ (join_right n l2).1 = n + total k) as (l & El & Ml & Hl & k & Ek & Ej).
  { destruct l2 as [|[k [|]] l2]; cbn; eexists; (split; [done|]).
    - split_and!; try done. exists []. split; [done|cbn; lia].
    - split_and!; try done. exists []. split; [done|cbn; lia].
    - destruct M2 as [A B]. split_and!; [done|by apply A|]. exists [(k, false)]. split; [done|cbn; lia]. }
  destruct (join_right n l2) as [n' l2']. cbn in El, Ej. subst l2'.
  destruct HF as (HF1 & HF2 & HF3 & HF4). set (h1 := plug_forward _ h) in *.
  pose proof (plug_backward_spec h1 l1 n' l HF1) as HB. cbv zeta in HB.
  assert (exists k', l1 = (join_left l1 n').1 ++ k' /\ merged (join_left l1 n').1 /\
    last_free (join_left l1 n').1 = false) as (k' & Ek' & Ml1 & Hl1).
  { destruct l1 as [|[c w] l1 _] using rev_ind; [by exists []|].
    rewrite join_left_snoc. destruct w; cbn [fst].
    - exists []. rewrite app_nil_r. split_and!; [done..|by rewrite last_free_snoc].
    - exists [(c, false)]. split; [done|]. apply merged_app in M1 as (A & _ & B). split; [done|].
      destruct (last_free l1); [|done]. specialize (B eq_refl). done. }
  destruct (join_left l1 n') as [l1' n'']. cbn in Ek', Ml1, Hl1.
  destruct HB as (HB1 & HB2 & HB3 & HB4). destruct HF2 as (Eptr & HF2').
  rewrite Eptr in *. split_and!.
  - split; [done|]. apply merged_app. split_and!; [done| |by rewrite Hl1].
    cbn. split; [done|done].
  - by eapply same_heap_trans.
  - congruence.
  - exists ([total l1; total l1 + n'] ++ [total l1'; total l1 + n']). split.
    + rewrite map_app. cbn [map]. rewrite !Z.add_assoc. by eapply only_headers_app.
    + assert (boundary (l1 ++ (n, false) :: l2) (total l1)) as B1 by (by eexists _, _).
      assert (boundary (l1 ++ (n, false) :: l2) (total l1 + n')) as B2.
      { exists (l1 ++ (n, false) :: k), l. split; [by rewrite <- app_assoc, Ek|].
        rewrite total_app. cbn. lia. }
      assert (boundary (l1 ++ (n, false) :: l2) (total l1')) as B3.
      { exists l1', (k' ++ (n, false) :: l2). split; [by rewrite app_assoc, <- Ek'|done]. }
      repeat constructor; done.
Qed.

(** A used block becomes free; [lfree] and the count follow. *)
Lemma mark_free_spec h l1 n l2 : heap_chain h (l1 ++ (n, true) :: l2) ->
  let mem := heap_ptr h + total l1 in
  let m := w_magic mem HEAP_MAGIC (w_used mem 0 (hm h)) in
  heap_chain (mk_heap m (heap_ptr h) (heap_end h) (if mem <? lfree h then mem else lfree h)
                (mem_size_aligned h) (u32 (used_mem h - n)) (max_mem h))
    (l1 ++ (n, false) :: l2) /\ only_headers [mem] (hm h) m.
Proof.
  intros Hc. destruct (block_sizes _ _ _ _ _ Hc) as (Hs1 & Hn & Hn4 & Hs2 & Ho & Ht2).
  pose proof (block_total _ _ _ _ _ Hc) as Ht.
  destruct (block_seg _ _ _ _ _ Hc) as (Hg1 & Hm & Hu & Hx & Hp & Hg2).
  pose proof (total_gap l2 Hs2) as Hgap. pose proof (hc_end _ _ Hc) as He.
  pose proof (hc_top _ _ Hc) as Htop. pose proof (hc_ptr _ _ Hc) as [Hp0 _]. cbv zeta.
  set (m1 := w_used _ _ _). set (m2 := w_magic _ _ m1).
  assert (only_headers [heap_ptr h + total l1] (hm h) m2) as Honly.
  { intros x Hxx. rewrite Forall_cons in Hxx. destruct Hxx as (A & _). unfold m2, m1. outside. done. }
  split; [|done].
  split; cbn [hm heap_ptr heap_end lfree mem_size_aligned used_mem max_mem].
  - apply seg_app. rewrite Z.add_0_l. split.
    { eapply seg_frame; [done| |exact Hg1]. intros x Hxx. apply Honly. repeat constructor; lia. }
    cbn [seg]. unfold m2, m1. split_and!.
    + by fields.
    + by fields.
    + revert Hx. by fields.
    + revert Hp. by fields.
    + eapply seg_frame; [done| |exact Hg2]. intros x Hxx. outside. done.
  - apply sizes_app. split; [done|]. by constructor.
  - rewrite total_app. cbn. lia.
  - done.
  - rewrite <- (hc_end_used _ _ Hc). unfold m2, m1. rewrite He. fields. done.
  - pose proof (hc_lfree _ _ Hc) as Hl. rewrite first_free_app, total_app in *. cbn [first_free] in *.
    destruct (first_free 0 l1) as [x|] eqn:E; cbn [default] in *.
    + apply first_free_bound in E; [|done]. cbn in Hl |- *.
      by rewrite (proj2 (Z.ltb_ge _ _)) by lia.
    + assert (heap_ptr h + total l1 < lfree h) as Hlt.
      { rewrite Hl. cbn [total]. destruct (first_free (0 + total l1 + n) l2) as [y|] eqn:E2.
        - apply first_free_bound in E2; [|done]. cbn. lia.
        - cbn. lia. }
      by rewrite (proj2 (Z.ltb_lt _ _)) by done.
  - pose proof (hc_used _ _ Hc) as Hused. rewrite used_total_app in *. cbn in *.
    pose proof (used_total_bound l1 Hs1). pose proof (used_total_bound l2 Hs2).
    rewrite u32_small by lia. lia.
  - pose proof (hc_used _ _ Hc) as Hused. pose proof (hc_max _ _ Hc). rewrite used_total_app in Hused.
    cbn in Hused. pose proof (used_total_bound l1 Hs1). pose proof (used_total_bound l2 Hs2).
    rewrite u32_small by lia. lia.
  - apply (hc_ptr _ _ Hc).
  - done.
  - apply (hc_min _ _ Hc).
Qed.

Lemma free_spec h l1 n l2 : heap_rep h (l1 ++ (n, true) :: l2) ->
  let h' := rt_free (heap_ptr h + total l1 + 12) h in
  heap_rep h' (plug l1 n l2) /\ same_heap h h' /\
  exists ps, only_headers (map (Z.add (heap_ptr h)) ps) (hm h) (hm h') /\
    Forall (boundary (l1 ++ (n, true) :: l2)) ps.
Proof.
  intros [Hc Hm]. apply merged_app in Hm as (M1 & [_ M2] & _).
  destruct (block_sizes _ _ _ _ _ Hc) as (Hs1 & Hn & Hn4 & Hs2 & Ho & Ht2).
  pose proof (block_total _ _ _ _ _ Hc) as Ht. pose proof (hc_ptr _ _ Hc) as [Hp0 _].
  pose proof (hc_end _ _ Hc) as He. pose proof (hc_min _ _ Hc).
  destruct (block_seg _ _ _ _ _ Hc) as (_ & _ & _ & Hx & _ & _).
  cbv zeta. unfold rt_free. rewrite (proj2 (Z.eqb_neq _ 0)) by lia.
  rewrite (proj2 (Z.ltb_ge _ _)), Z.geb_leb, (proj2 (Z.leb_gt _ _)) by lia. cbn [orb].
  unfold SIZEOF_STRUCT_MEM. rewrite Z.add_simpl_r.
  unfold on_mem, set_lfree, set_used. cbn [hm heap_ptr heap_end lfree mem_size_aligned used_mem max_mem].
  destruct (mark_free_spec h l1 n l2 Hc) as [Hc1 Honly].
  set (m := w_magic _ _ _) in *. set (h1 := mk_heap m _ _ _ _ _ _) in Hc1.
  match goal with |- heap_rep (plug_holes _ ?hh) _ /\ _ => assert (hh = h1) as -> end.
  { unfold h1. destruct (_ <? lfree h); cbn [hm heap_ptr heap_end lfree mem_size_aligned used_mem max_mem];
      f_equal; f_equal; f_equal; unfold m; revert Hx; fields; lia. }
  destruct (plug_holes_spec h1 l1 n l2 Hc1 M1 M2) as (HP1 & HP2 & _ & ps & HP3 & HP4).
  cbn [heap_ptr h1] in *. split_and!; [done|done|].
  exists (total l1 :: ps). split.
  - intros x Hxx. cbn [map] in Hxx. apply Forall_cons in Hxx as [A B]. rewrite HP3 by done.
    apply Honly. by repeat constructor.
  - constructor; [by eexists _, _|]. eapply Forall_impl; [exact HP4|].
    intros p. apply boundary_flag.
Qed.

(** ** Allocating *)

Lemma set_lfree_same h : set_lfree (lfree h) h = h.
Proof. by destruct h. Qed.

Lemma lfree_loop_spec l2 : forall fuel h l1 prev, (length l2 <= fuel)%nat ->
  sizes_ok l2 -> 0 <= total l1 ->
  seg (hm h) (heap_ptr h) prev (total l1) l2 ->
  heap_end h = heap_ptr h + (total l1 + total l2) -> h_used (hm h) (heap_end h) = 1 ->
  lfree h = heap_ptr h + total l1 ->
  lfree_loop fuel h =
  Some (set_lfree (heap_ptr h + default (total l1 + total l2) (first_free (total l1) l2)) h).
Proof.
  induction l2 as [|[n u] l2 IH]; intros fuel h l1 prev Hf Hs Ho Hg He Hu Hl.
  - cbn [total first_free default] in *. rewrite Z.add_0_r in *.
    assert (lfree h = heap_end h) as El by lia.
    destruct fuel; cbn [lfree_loop]; rewrite El, Z.eqb_refl, andb_false_r;
      cbn; rewrite <- He, <- El; by rewrite set_lfree_same.
  - apply Forall_cons in Hs as [[Hn _] Hs]. cbn [fst total first_free] in *.
    pose proof (total_nonneg l2 Hs). destruct Hg as (Hgm & Hgu & Hgx & Hgp & Hg).
    destruct u; cbn [default].
    + destruct fuel as [|fuel]; [cbn in Hf; lia|]. cbn [lfree_loop].
      rewrite Hl, Hgu, (proj2 (Z.eqb_neq _ (heap_end h))), Hgx by lia. cbn [negb andb Z.eqb].
      rewrite (IH fuel _ (l1 ++ [(n, true)]) (total l1)).
      * cbn [set_lfree heap_ptr]. rewrite total_app. cbn [total]. rewrite Z.add_0_r.
        by replace (total l1 + (n + total l2)) with (total l1 + n + total l2) by lia.
      * cbn in Hf. lia.
      * done.
      * rewrite total_app. cbn. lia.
      * cbn. rewrite total_app. cbn. by rewrite Z.add_0_r.
      * cbn. rewrite total_app. cbn. lia.
      * done.
      * cbn. rewrite total_app. cbn. lia.
    + destruct fuel; cbn [lfree_loop]; rewrite Hl, Hgu; cbn; rewrite <- Hl; by rewrite set_lfree_same.
Qed.

(** How a free block of extent [n] serves a request. *)
Definition carve (size n : Z) : blocks :=
  if n - 12 >=? size + 24 then [(size + 12, true); (n - 12 - size, false)] else [(n, true)].

Lemma carve_total size n : total (carve size n) = n.
Proof. unfold carve. case_match; cbn; lia. Qed.

Lemma carve_sizes size n : 4 <= size -> size `mod` 4 = 0 -> 16 <= n -> n `mod` 4 = 0 -> sizes_ok (carve size n).
Proof.
  intros H1 H2 H3 H4. unfold carve. rewrite Z.geb_leb. destruct (Z.leb_spec (size + 24) (n - 12));
    repeat constructor; cbn; try lia; zlia.
Qed.

Lemma carve_first size n off : first_free off (carve size n) =
  if n - 12 >=? size + 24 then Some (off + (size + 12)) else None.
Proof. unfold carve. by case_match. Qed.

(** The stores of [malloc_take] before [lfree] moves. *)
Definition taken (size ptr : Z) (h : heap) : heap :=
  let mem := heap_ptr h + ptr in
  let h :=
    if u32 (h_next (hm h) mem - u32 (ptr + SIZEOF_STRUCT_MEM)) >=?
       u32 (size + SIZEOF_STRUCT_MEM + MIN_SIZE_ALIGNED) then
      let ptr2 := u32 (ptr + SIZEOF_STRUCT_MEM + size) in
      let mem2 := heap_ptr h + ptr2 in
      let h := on_mem (w_magic mem2 HEAP_MAGIC) h in
      let h := on_mem (w_used mem2 0) h in
      let h := on_mem (w_next mem2 (h_next (hm h) mem)) h in
      let h := on_mem (w_prev mem2 ptr) h in
      let h := on_mem (w_next mem ptr2) h in
      let h := on_mem (w_used mem 1) h in
      let h :=
        if negb (h_next (hm h) mem2 =? u32 (mem_size_aligned h + SIZEOF_STRUCT_MEM))
        then on_mem (w_prev (heap_ptr h + h_next (hm h) mem2) ptr2) h else h in
      count_used (size + SIZEOF_STRUCT_MEM) h
    else
      let h := on_mem (w_used mem 1) h in
      count_used (h_next (hm h) mem - (mem - heap_ptr h)) h in
  on_mem (w_magic mem HEAP_MAGIC) h.

Lemma malloc_take_taken fuel size ptr h :
  malloc_take fuel size ptr h =
  (h' ← (if heap_ptr h + ptr =? lfree h then lfree_loop fuel (taken size ptr h) else Some (taken size ptr h));
   Some (h', heap_ptr h + ptr + SIZEOF_STRUCT_MEM)).
Proof.
  unfold malloc_take, taken. cbv zeta.
  repeat match goal with |- context [if ?b then _ else _] =>
    lazymatch b with context [lfree] => fail | _ => destruct b end end; reflexivity.
Qed.

(** Memory after taking the whole block, and after splitting one. *)
Lemma take_whole_seg h l1 n l2 : heap_chain h (l1 ++ (n, false) :: l2) ->
  let mem := heap_ptr h + total l1 in
  let m := w_magic mem HEAP_MAGIC (w_used mem 1 (hm h)) in
  seg m (heap_ptr h) 0 0 (l1 ++ (n, true) :: l2) /\ h_used m (heap_end h) = 1 /\
  h_next (w_used mem 1 (hm h)) mem = total l1 + n /\
  only_headers [mem] (hm h) m.
Proof.
  intros Hc. destruct (block_sizes _ _ _ _ _ Hc) as (Hs1 & Hn & Hn4 & Hs2 & Ho & Ht2).
  pose proof (block_total _ _ _ _ _ Hc) as Ht.
  destruct (block_seg _ _ _ _ _ Hc) as (Hg1 & Hm & Hu & Hx & Hp & Hg2).
  pose proof (total_gap l2 Hs2) as Hgap. pose proof (hc_end _ _ Hc) as He.
  pose proof (hc_end_used _ _ Hc) as Heu. cbv zeta. set (m1 := w_used _ _ _). set (m2 := w_magic _ _ m1).
  assert (only_headers [heap_ptr h + total l1] (hm h) m2) as Honly.
  { intros x Hxx. rewrite Forall_cons in Hxx. destruct Hxx as (A & _). unfold m2, m1. outside. done. }
  split_and!; [|rewrite He in *; unfold m2, m1; revert Heu; by fields|unfold m1; revert Hx; by fields|done].
  apply seg_app. rewrite Z.add_0_l. split.
  { eapply seg_frame; [done| |exact Hg1]. intros x Hxx. apply Honly. repeat constructor; lia. }
  cbn [seg]. unfold m2, m1. split_and!.
  - by fields.
  - by fields.
  - revert Hx. by fields.
  - revert Hp. by fields.
  - eapply seg_frame; [done| |exact Hg2]. intros x Hxx. outside. done.
Qed.

(** [tk]: a free block is taken and split; otherwise a used block is cut. *)
Lemma split_seg (tk : bool) h l1 n l2 size : heap_chain h (l1 ++ (n, negb tk) :: l2) ->
  4 <= size -> size + 24 <= n - 12 ->
  let mem := heap_ptr h + total l1 in
  let p2 := total l1 + 12 + size in
  let mem2 := heap_ptr h + p2 in
  let m := w_next mem p2 (w_prev mem2 (total l1) (w_next mem2 (total l1 + n)
             (w_used mem2 0 (w_magic mem2 HEAP_MAGIC (hm h))))) in
  let m := if tk then w_used mem 1 m else m in
  let m' :=
    if negb (total l1 + n =? mem_size_aligned h + 12) then w_prev (heap_ptr h + (total l1 + n)) p2 m else m in
  let m' := if tk then w_magic mem HEAP_MAGIC m' else m' in
  seg m' (heap_ptr h) 0 0 (l1 ++ (size + 12, true) :: (n - 12 - size, false) :: l2) /\
  h_used m' (heap_end h) = 1 /\ h_next m mem2 = total l1 + n /\
  (forall x, ~ mem <= x < mem + n -> ~ mem + n <= x < mem + n + 12 -> rd m' x = rd (hm h) x).
Proof.
  intros Hc Hsz Hfit. destruct (block_sizes _ _ _ _ _ Hc) as (Hs1 & Hn & Hn4 & Hs2 & Ho & Ht2).
  pose proof (block_total _ _ _ _ _ Hc) as Ht.
  destruct (block_seg _ _ _ _ _ Hc) as (Hg1 & Hm & Hu & Hx & Hp & Hg2).
  pose proof (total_gap l2 Hs2) as Hgap. pose proof (hc_end _ _ Hc) as He.
  pose proof (hc_end_used _ _ Hc) as Heu. pose proof (hc_top _ _ Hc) as Htop.
  pose proof (hc_ptr _ _ Hc) as [Hp0 _]. cbv zeta.
  set (p2 := total l1 + 12 + size). set (m0 := w_next (heap_ptr h + total l1) p2 _).
  set (m := if tk then w_used _ 1 m0 else m0). set (m' := if tk then w_magic _ _ _ else _).
  assert (forall x, ~ heap_ptr h + total l1 <= x < heap_ptr h + total l1 + n ->
    ~ heap_ptr h + total l1 + n <= x < heap_ptr h + total l1 + n + 12 -> rd m' x = rd (hm h) x) as Hout.
  { intros x A B. unfold m', m, m0, p2. destruct tk; destruct (negb (_ =? _)); outside; done. }
  split_and!; [| |unfold m, m0, p2; destruct tk; fields; apply u32_small; lia|done].
  2: { rewrite He in *. unfold m', m, m0, p2. destruct tk; destruct (negb (_ =? _)); revert Heu; by fields. }
  apply seg_app. rewrite Z.add_0_l. split.
  { eapply seg_frame; [done| |exact Hg1]. intros x Hxx. apply Hout; lia. }
  cbn [seg]. replace (total l1 + (size + 12)) with p2 by (unfold p2; lia).
  replace (p2 + (n - 12 - size)) with (total l1 + n) by (unfold p2; lia).
  split_and!.
  1-8: unfold m', m, m0, p2; destruct tk; destruct (negb (_ =? _)); revert Hm Hu Hp; fields; try done; intros; apply u32_small; lia.
  assert (seg m' (heap_ptr h) p2 (total l1 + n) l2) as H; [|done].
  destruct l2 as [|b l2]; [done|]. apply total_pos in Hs2 as Hpos; [|done].
  unfold m'. rewrite (proj2 (Z.eqb_neq (total l1 + n) _)) by lia. cbn [negb].
  apply (seg_frame (w_prev (heap_ptr h + (total l1 + n)) p2 m)); [done| |].
  { intros x Hxx. destruct tk; outside; done. }
  apply (seg_prev _ _ (total l1)); [done|unfold p2; lia|].
  eapply seg_frame; [done| |exact Hg2]. intros x Hxx. unfold m, m0, p2. destruct tk; outside; done.
Qed.

(** The chain after [taken]; [lfree] is not yet moved. *)
Lemma taken_spec h l1 n l2 size : heap_chain h (l1 ++ (n, false) :: l2) ->
  4 <= size <= n - 12 -> size `mod` 4 = 0 ->
  let h' := taken size (total l1) h in
  let bl := l1 ++ carve size n ++ l2 in
  seg (hm h') (heap_ptr h) 0 0 bl /\ h_used (hm h') (heap_end h) = 1 /\
  same_heap h h' /\ lfree h' = lfree h /\ used_mem h' = used_total bl /\ used_mem h' <= max_mem h' /\
  (forall x, ~ heap_ptr h + total l1 <= x < heap_ptr h + total l1 + n ->
     ~ heap_ptr h + total l1 + n <= x < heap_ptr h + total l1 + n + 12 -> rd (hm h') x = rd (hm h) x).
Proof.
  intros Hc Hsz Hsz4. destruct (block_sizes _ _ _ _ _ Hc) as (Hs1 & Hn & Hn4 & Hs2 & Ho & Ht2).
  pose proof (block_total _ _ _ _ _ Hc) as Ht.
  destruct (block_seg _ _ _ _ _ Hc) as (Hg1 & Hm & Hu & Hx & Hp & Hg2).
  pose proof (total_gap l2 Hs2) as Hgap. pose proof (hc_end _ _ Hc) as He.
  pose proof (hc_top _ _ Hc) as Htop. pose proof (hc_ptr _ _ Hc) as [Hp0 _].
  pose proof (hc_end_used _ _ Hc) as Heu. pose proof (hc_used _ _ Hc) as Hused.
  pose proof (hc_max _ _ Hc) as Hmax.
  rewrite used_total_app in Hused. cbn in Hused.
  pose proof (used_total_bound l1 Hs1). pose proof (used_total_bound l2 Hs2).
  assert (forall d, 0 <= d -> d <= n -> u32 (used_mem h + d) = used_mem h + d) as Hcnt
    by (intros; apply u32_small; lia).
  cbv zeta. unfold taken. cbv zeta. rewrite Hx. unfold SIZEOF_STRUCT_MEM, MIN_SIZE_ALIGNED.
  rewrite !(u32_small (total l1 + 12)), !(u32_small (size + 12 + 12)),
    !(u32_small (total l1 + n - _)), !(u32_small (total l1 + 12 + size)) by lia.
  replace (total l1 + n - (total l1 + 12)) with (n - 12) by lia.
  unfold carve. replace (size + 24) with (size + 12 + 12) by lia. rewrite Z.geb_leb.
  destruct (Z.leb_spec (size + 12 + 12) (n - 12)) as [Hfit|Hfit].
  - destruct (split_seg true h l1 n l2 size Hc ltac:(lia) ltac:(lia)) as (G1 & G2 & G3 & G4).
    cbv zeta iota in G1, G2, G3, G4.
    unfold count_used, same_heap. autorewrite with heap.
    assert (h_next (w_used (heap_ptr h + (total l1 + 12 + size)) 0
      (w_magic (heap_ptr h + (total l1 + 12 + size)) HEAP_MAGIC (hm h))) (heap_ptr h + total l1) =
      total l1 + n) as -> by (revert Hx; by fields).
    rewrite (u32_small (mem_size_aligned h + 12)) by lia.
    match goal with |- context [h_next ?mm (heap_ptr h + (total l1 + 12 + size))] =>
      change mm with (w_used (heap_ptr h + total l1) 1 (w_next (heap_ptr h + total l1) (total l1 + 12 + size)
        (w_prev (heap_ptr h + (total l1 + 12 + size)) (total l1)
        (w_next (heap_ptr h + (total l1 + 12 + size)) (total l1 + n)
        (w_used (heap_ptr h + (total l1 + 12 + size)) 0
        (w_magic (heap_ptr h + (total l1 + 12 + size)) HEAP_MAGIC (hm h))))))) end.
    rewrite G3.
    destruct (negb (total l1 + n =? mem_size_aligned h + 12));
      autorewrite with heap;
      rewrite Hcnt by lia; rewrite !used_total_app; cbn [used_total app]; split_and!; try done; try lia;
      case_match; lia.
  - destruct (take_whole_seg h l1 n l2 Hc) as (G1 & G2 & G3 & G4). cbv zeta in G1, G2, G3, G4.
    unfold count_used, same_heap. autorewrite with heap.
    rewrite G3. replace (total l1 + n - (heap_ptr h + total l1 - heap_ptr h)) with n by lia.
    rewrite Hcnt by lia. split_and!; try done.
    + rewrite !used_total_app. cbn. lia.
    + case_match; lia.
    + intros x A B. apply G4. repeat constructor. lia.
Qed.

Lemma malloc_take_spec h l1 n l2 size fuel : heap_rep h (l1 ++ (n, false) :: l2) ->
  4 <= size <= n - 12 -> size `mod` 4 = 0 -> (length l2 + 2 <= fuel)%nat ->
  exists h', malloc_take fuel size (total l1) h = Some (h', heap_ptr h + total l1 + 12) /\
    heap_rep h' (l1 ++ carve size n ++ l2) /\ same_heap h h' /\
    (forall x, ~ heap_ptr h + total l1 <= x < heap_ptr h + total l1 + n ->
       ~ heap_ptr h + total l1 + n <= x < heap_ptr h + total l1 + n + 12 -> rd (hm h') x = rd (hm h) x).
Proof.
  intros [Hc Hmg] Hsz Hsz4 Hf. destruct (block_sizes _ _ _ _ _ Hc) as (Hs1 & Hn & Hn4 & Hs2 & Ho & Ht2).
  pose proof (block_total _ _ _ _ _ Hc) as Ht. pose proof (hc_lfree _ _ Hc) as Hl.
  destruct (taken_spec h l1 n l2 size Hc Hsz Hsz4) as (T1 & T2 & (T3 & T4 & T5) & T6 & T7 & T8 & T9).
  set (t := taken size (total l1) h) in *.
  assert (sizes_ok (carve size n ++ l2)) as Hsc by (apply sizes_app; split; [by apply carve_sizes; lia|done]).
  assert (total (carve size n ++ l2) = n + total l2) as Htc by by rewrite total_app, carve_total.
  assert (merged (l1 ++ carve size n ++ l2)) as Hmg'.
  { apply merged_app in Hmg as (M1 & [M2 M3] & M4). specialize (M2 eq_refl).
    apply merged_app. split; [done|]. unfold carve. case_match; cbn [app merged head_free]; tauto. }
  assert (exists h', (if heap_ptr h + total l1 =? lfree h then lfree_loop fuel t else Some t) = Some h' /\
    h' = set_lfree (heap_ptr h + default (mem_size_aligned h + 12) (first_free 0 (l1 ++ carve size n ++ l2))) t)
    as (h' & E & Eh').
  { rewrite first_free_app, total_app in Hl. cbn [first_free total] in Hl.
    rewrite first_free_app, Z.add_0_l in *. destruct (first_free 0 l1) as [x|] eqn:Ef; cbn [default] in Hl.
    - apply first_free_bound in Ef as Hb; [|done]. rewrite (proj2 (Z.eqb_neq _ _)) by (cbn in Hl; lia).
      eexists. split; [done|]. cbn. cbn in Hl. by rewrite <- Hl, <- T6, set_lfree_same.
    - rewrite (proj2 (Z.eqb_eq _ _)) by (cbn in Hl; lia).
      eexists. split; [|done]. apply seg_app in T1 as [_ T1]. rewrite Z.add_0_l in T1.
      rewrite (lfree_loop_spec (carve size n ++ l2) fuel t l1 (last_off 0 0 l1)).
      + rewrite T3. do 4 f_equal. lia.
      + rewrite length_app. unfold carve. case_match; cbn; lia.
      + done.
      + lia.
      + by rewrite T3.
      + rewrite T4, T3, (hc_end _ _ Hc). lia.
      + by rewrite T4.
      + rewrite T6, T3. cbn in Hl. lia. }
  exists h'. rewrite malloc_take_taken. fold t. rewrite E. cbn [mbind option_bind]. split; [done|]. subst h'.
  split; [|done]. split; [|done].
  split; cbn [set_lfree hm heap_ptr heap_end lfree mem_size_aligned used_mem max_mem]; rewrite ?T3, ?T4, ?T5;
    try by apply Hc.
  - done.
  - apply sizes_app. done.
  - rewrite total_app. lia.
  - done.
  - do 2 f_equal. rewrite total_app. lia.
  - done.
  - done.
Qed.

(** First fit: the block that serves a request, and the list afterwards. The
    search stops at offset [lim]. *)
Fixpoint first_fit (lim size off : Z) (bl : blocks) : option (blocks * Z) :=
  match bl with
  | [] => None
  | (n, u) :: bl =>
      if off <? lim then
        if negb u && (n - 12 >=? size) then Some (carve size n ++ bl, off)
        else '(bl, o) ← first_fit lim size (off + n) bl; Some ((n, u) :: bl, o)
      else None
  end.

(** The free block of extent [n] between [l1] and [l2] serves the request. *)
Definition served (h h' : heap) (bl bl' : blocks) (size o : Z) : Prop :=
  exists l1 n l2, bl = l1 ++ (n, false) :: l2 /\ bl' = l1 ++ carve size n ++ l2 /\
    o = total l1 /\ size <= n - 12 /\
    heap_rep h' bl' /\ same_heap h h' /\
    (forall x, ~ heap_ptr h + total l1 <= x < heap_ptr h + total l1 + n ->
       ~ heap_ptr h + total l1 + n <= x < heap_ptr h + total l1 + n + 12 -> rd (hm h') x = rd (hm h) x).

Lemma malloc_loop_spec h size : 4 <= size <= mem_size_aligned h -> size `mod` 4 = 0 ->
  forall l2 l1 fuel, heap_rep h (l1 ++ l2) -> (length l2 + 2 <= fuel)%nat ->
  match first_fit (mem_size_aligned h - size) size (total l1) l2 with
  | Some (l2', o) => exists h', malloc_loop fuel size (total l1) h = Some (h', heap_ptr h + o + 12) /\
      served h h' (l1 ++ l2) (l1 ++ l2') size o
  | None => malloc_loop fuel size (total l1) h = Some (h, 0)
  end.
Proof.
  intros Hsz Hsz4. induction l2 as [|[n u] l2 IH]; intros l1 fuel Hr Hf.
  - destruct Hr as [Hc _]. pose proof (hc_total _ _ Hc) as Ht. pose proof (hc_end _ _ Hc).
    pose proof (hc_top _ _ Hc). pose proof (hc_ptr _ _ Hc). rewrite app_nil_r in Ht. cbn [first_fit].
    destruct fuel; cbn [malloc_loop]; rewrite u32_small, (proj2 (Z.ltb_ge _ _)) by lia; done.
  - destruct Hr as [Hc Hmg]. destruct (block_sizes _ _ _ _ _ Hc) as (Hs1 & Hn & Hn4 & Hs2 & Ho & Ht2).
    pose proof (block_total _ _ _ _ _ Hc) as Ht. pose proof (hc_end _ _ Hc).
    pose proof (hc_top _ _ Hc). pose proof (hc_ptr _ _ Hc).
    destruct (block_seg _ _ _ _ _ Hc) as (_ & _ & Hu & Hx & _ & _).
    cbn [first_fit]. destruct fuel as [|fuel]; [cbn in Hf; lia|]. cbn [malloc_loop].
    rewrite (u32_small (mem_size_aligned h - size)) by lia.
    destruct (Z.ltb_spec (total l1) (mem_size_aligned h - size)); [|done].
    rewrite Hu, Hx. unfold SIZEOF_STRUCT_MEM.
    rewrite (u32_small (total l1 + 12)), (u32_small (total l1 + n - _)) by lia.
    replace (total l1 + n - (total l1 + 12)) with (n - 12) by lia.
    assert (((if u then 1 else 0) =? 0) = negb u) as -> by by destruct u.
    destruct (negb u && (n - 12 >=? size)) eqn:Eb.
    + apply andb_true_iff in Eb as [Eu Efit]. apply negb_true_iff in Eu as ->.
      rewrite Z.geb_leb in Efit. apply Z.leb_le in Efit.
      destruct (malloc_take_spec h l1 n l2 size (S fuel) (conj Hc Hmg)) as (h' & E & R & S & B);
        [lia|done|cbn in Hf; lia|].
      exists h'. split; [done|]. exists l1, n, l2. by split_and!.
    + specialize (IH (l1 ++ [(n, u)]) fuel). rewrite <- app_assoc in IH. cbn [app] in IH.
      rewrite total_app in IH. cbn [total] in IH. rewrite Z.add_0_r in IH.
      specialize (IH (conj Hc Hmg) ltac:(cbn in Hf; lia)).
      destruct (first_fit _ _ _ _) as [[l2' o]|]; cbn [mbind option_bind]; [|done].
      by rewrite <- app_assoc in IH.
Qed.

Lemma first_fit_beyond lim size l : sizes_ok l -> forall off, lim <= off -> first_fit lim size off l = None.
Proof.
  intros _. destruct l as [|[n u] l]; intros off H; [done|]. cbn. by rewrite (proj2 (Z.ltb_ge _ _)) by lia.
Qed.

Lemma first_fit_skip lim size l1 l2 : all_used l1 -> sizes_ok l1 -> sizes_ok l2 -> forall off,
  first_fit lim size off (l1 ++ l2) =
  ('(l, o) ← first_fit lim size (off + total l1) l2; Some (l1 ++ l, o)).
Proof.
  induction l1 as [|[n u] l1 IH]; intros Hu Hs1 Hs2 off; cbn [app total].
  { rewrite Z.add_0_r. by destruct (first_fit lim size off l2) as [[]|]. }
  apply Forall_cons in Hu as [Eu Hu]. apply Forall_cons in Hs1 as [[Hn _] Hs1]. cbn in Eu, Hn. subst u.
  cbn [first_fit negb andb]. pose proof (total_nonneg l1 Hs1).
  destruct (Z.ltb_spec off lim).
  - rewrite IH by done. rewrite Z.add_assoc. by destruct (first_fit _ _ (off + n + total l1) l2) as [[]|].
  - by rewrite (first_fit_beyond lim size l2) by (done || lia).
Qed.

(** The used blocks before the first free one. *)
Lemma first_free_split bl : exists l1 l2, bl = l1 ++ l2 /\ all_used l1 /\
  default (total bl) (first_free 0 bl) = total l1.
Proof.
  assert (forall off, exists l1 l2, bl = l1 ++ l2 /\ all_used l1 /\
    default (off + total bl) (first_free off bl) = off + total l1) as H.
  { induction bl as [|[n u] bl IH]; intros off.
    - exists [], []. split_and!; [done|constructor|done].
    - cbn [first_free total]. destruct u.
      + destruct (IH (off + n)) as (l1 & l2 & -> & Hu & E). exists ((n, true) :: l1), l2.
        split_and!; [done|by constructor|]. cbn [total]. by rewrite !Z.add_assoc.
      + exists [], ((n, false) :: bl). split_and!; [done|constructor|]. cbn. lia. }
  destruct (H 0) as (l1 & l2 & E & Hu & Ed). exists l1, l2. split_and!; [done|done|]. by rewrite !Z.add_0_l in Ed.
Qed.

Definition heap_fuel (h : heap) : nat := Z.to_nat (mem_size_aligned h) + 4.

Lemma blocks_fuel h bl : heap_chain h bl -> (length bl + 2 <= heap_fuel h)%nat.
Proof.
  intros Hc. unfold heap_fuel. pose proof (hc_total _ _ Hc) as Ht. pose proof (hc_sizes _ _ Hc) as Hs.
  assert (forall l, sizes_ok l -> 16 * Z.of_nat (length l) <= total l) as H.
  { induction 1 as [|[n u] l [Hn _] _ IH]; cbn in *; lia. }
  apply H in Hs. pose proof (hc_min _ _ Hc). lia.
Qed.

(** The size a request is served with. *)
Definition request (size : Z) : Z := Z.max 12 (align_up size).

Lemma malloc_spec h bl size fuel : heap_rep h bl -> 0 < size <= 4294967292 -> (heap_fuel h <= fuel)%nat ->
  match (if request size <=? mem_size_aligned h
         then first_fit (mem_size_aligned h - request size) (request size) 0 bl else None) with
  | Some (bl', o) => exists h', rt_malloc fuel size h = Some (h', heap_ptr h + o + 12) /\
      served h h' bl bl' (request size) o
  | None => rt_malloc fuel size h = Some (h, 0)
  end.
Proof.
  intros [Hc Hmg] Hsz Hf. pose proof (blocks_fuel _ _ Hc). pose proof (hc_min _ _ Hc).
  unfold rt_malloc, request. rewrite (proj2 (Z.eqb_neq size 0)) by lia.
  assert (4 <= align_up size /\ align_up size `mod` 4 = 0) as [Ha Ha4].
  { rewrite align_up_eq, u32_small by lia. zlia. }
  rewrite Z.gtb_ltb. destruct (Z.ltb_spec (mem_size_aligned h) (align_up size)).
  { by rewrite (proj2 (Z.leb_gt _ _)) by lia. }
  rewrite (proj2 (Z.leb_le _ _)) by lia. unfold MIN_SIZE_ALIGNED.
  assert ((if align_up size <? 12 then 12 else align_up size) = Z.max 12 (align_up size)) as ->.
  { destruct (Z.ltb_spec (align_up size) 12); lia. }
  set (r := Z.max 12 (align_up size)).
  assert (r `mod` 4 = 0) as Hr4.
  { unfold r. destruct (Z.max_spec 12 (align_up size)) as [[? ->]|[? ->]]; done. }
  destruct (first_free_split bl) as (l1 & l2 & -> & Hu & E).
  rewrite (hc_lfree _ _ Hc), E, Z.add_simpl_l.
  pose proof (hc_sizes _ _ Hc) as Hs. apply sizes_app in Hs as [Hs1 Hs2].
  pose proof (total_nonneg l1 Hs1). pose proof (total_nonneg l2 Hs2).
  pose proof (hc_total _ _ Hc) as Ht. rewrite total_app in Ht. pose proof (hc_end _ _ Hc).
  pose proof (hc_top _ _ Hc). pose proof (hc_ptr _ _ Hc).
  rewrite u32_small by lia. rewrite first_fit_skip, Z.add_0_l by done.
  pose proof (malloc_loop_spec h r ltac:(lia) Hr4 l2 l1 fuel (conj Hc Hmg)
    ltac:(rewrite length_app in *; lia)) as HL.
  destruct (first_fit _ _ _ _) as [[l o]|]; done.
Qed.

(** ** Shrinking a block in place *)

(** The heap of [rt_realloc] before [plug_holes]. *)
Definition shrunk (newsize ptr size : Z) (h : heap) : heap :=
  let mem := heap_ptr h + ptr in
  let h := set_used (u32 (used_mem h - (size - newsize))) (max_mem h) h in
  let ptr2 := u32 (ptr + SIZEOF_STRUCT_MEM + newsize) in
  let mem2 := heap_ptr h + ptr2 in
  let h := on_mem (w_magic mem2 HEAP_MAGIC) h in
  let h := on_mem (w_used mem2 0) h in
  let h := on_mem (w_next mem2 (h_next (hm h) mem)) h in
  let h := on_mem (w_prev mem2 ptr) h in
  let h := on_mem (w_next mem ptr2) h in
  let h :=
    if negb (h_next (hm h) mem2 =? u32 (mem_size_aligned h + SIZEOF_STRUCT_MEM))
    then on_mem (w_prev (heap_ptr h + h_next (hm h) mem2) ptr2) h else h in
  if mem2 <? lfree h then set_lfree mem2 h else h.

(** [lfree] moves down to a block that becomes free behind [l1]. *)
Lemma lfree_lowered l1 n l2 l2' hp : sizes_ok l1 -> sizes_ok l2 -> 16 <= n ->
  total l2' = n + total l2 ->
  first_free (total l1) l2' = first_free (total l1 + n) l2 ->
  let lf := hp + default (total (l1 ++ l2')) (first_free 0 (l1 ++ l2')) in
  (if hp + total l1 <? lf then hp + total l1 else lf) =
  hp + default (total (l1 ++ (n, false) :: l2)) (first_free 0 (l1 ++ (n, false) :: l2)).
Proof.
  intros Hs1 Hs2 Hn Ht Hff. cbv zeta. rewrite !first_free_app, !total_app, Z.add_0_l. cbn [first_free total].
  destruct (first_free 0 l1) as [x|] eqn:E; cbn [default].
  - apply first_free_bound in E; [|done]. cbn. by rewrite (proj2 (Z.ltb_ge _ _)) by lia.
  - rewrite Hff. cbn. pose proof (total_nonneg l2 Hs2).
    rewrite (proj2 (Z.ltb_lt _ _)); [done|].
    destruct (first_free (total l1 + n) l2) as [y|] eqn:E2; cbn; [|lia].
    apply first_free_bound in E2; [lia|done].
Qed.

Lemma shrunk_spec h l1 n l2 ns : heap_chain h (l1 ++ (n, true) :: l2) ->
  4 <= ns -> ns `mod` 4 = 0 -> ns + 24 < n - 12 ->
  let h' := shrunk ns (total l1) (n - 12) h in
  heap_chain h' ((l1 ++ [(ns + 12, true)]) ++ (n - 12 - ns, false) :: l2) /\ same_heap h h' /\
  (forall x, ~ heap_ptr h + total l1 <= x < heap_ptr h + total l1 + 12 ->
     ~ heap_ptr h + total l1 + 12 + ns <= x < heap_ptr h + total l1 + n + 12 ->
     rd (hm h') x = rd (hm h) x).
Proof.
  intros Hc Hns Hns4 Hfit. destruct (block_sizes _ _ _ _ _ Hc) as (Hs1 & Hn & Hn4 & Hs2 & Ho & Ht2).
  pose proof (block_total _ _ _ _ _ Hc) as Ht.
  destruct (block_seg _ _ _ _ _ Hc) as (_ & _ & _ & Hx & _ & _).
  pose proof (hc_end _ _ Hc) as He. pose proof (hc_top _ _ Hc) as Htop.
  pose proof (hc_ptr _ _ Hc) as [Hp0 _]. pose proof (hc_used _ _ Hc) as Hused.
  pose proof (hc_max _ _ Hc) as Hmax. rewrite used_total_app in Hused. cbn in Hused.
  pose proof (used_total_bound l1 Hs1). pose proof (used_total_bound l2 Hs2).
  destruct (split_seg false h l1 n l2 ns Hc ltac:(lia) ltac:(lia)) as (G1 & G2 & G3 & G4).
  cbv zeta iota in G1, G2, G3, G4. cbv zeta. unfold shrunk, SIZEOF_STRUCT_MEM. cbv zeta.
  autorewrite with heap.
  rewrite (u32_small (total l1 + 12 + ns)), (u32_small (mem_size_aligned h + 12)),
    (u32_small (used_mem h - _)) by lia.
  set (m2 := w_used _ 0 _) in *.
  assert (h_next m2 (heap_ptr h + total l1) = total l1 + n) as -> by (unfold m2; revert Hx; by fields).
  rewrite G3. set (m := if negb (total l1 + n =? mem_size_aligned h + 12) then w_prev _ _ _ else _) in *.
  match goal with |- heap_chain ?hh _ /\ _ => assert (hh = mk_heap m (heap_ptr h) (heap_end h)
    (if heap_ptr h + (total l1 + 12 + ns) <? lfree h then heap_ptr h + (total l1 + 12 + ns) else lfree h)
    (mem_size_aligned h) (used_mem h - (n - 12 - ns)) (max_mem h)) as -> end.
  { unfold m. destruct (negb _); autorewrite with heap; by destruct (_ <? lfree h). }
  split; [|split; [by split_and!|]].
  2: { intros x A B. cbn [hm]. unfold m, m2. destruct (negb _); outside; done. }
  split; cbn [hm heap_ptr heap_end lfree mem_size_aligned used_mem max_mem]; try by apply Hc.
  - by rewrite <- app_assoc.
  - rewrite <- app_assoc. apply sizes_app. split; [done|]. cbn [app].
    repeat constructor; cbn; try lia; try zlia. done.
  - rewrite !total_app. cbn. lia.
  - done.
  - pose proof (hc_lfree _ _ Hc) as Hl. 
    replace (heap_ptr h + (total l1 + 12 + ns)) with (heap_ptr h + total (l1 ++ [(ns + 12, true)]))
      by (rewrite total_app; cbn; lia).
    rewrite <- (lfree_lowered (l1 ++ [(ns + 12, true)]) (n - 12 - ns) l2 ((n - 12 - ns, true) :: l2));
      [|apply sizes_app; split; [done|]; repeat constructor; cbn; [lia|zlia]|done|lia|cbn; lia|done].
    assert (lfree h = heap_ptr h + default (total ((l1 ++ [(ns + 12, true)]) ++ (n - 12 - ns, true) :: l2))
      (first_free 0 ((l1 ++ [(ns + 12, true)]) ++ (n - 12 - ns, true) :: l2))) as <-; [|done].
    rewrite Hl, !total_app, !first_free_app, !total_app. cbn [total first_free].
    destruct (first_free 0 l1); [done|]. cbn [default].
    replace (0 + (total l1 + (ns + 12 + 0)) + (n - 12 - ns)) with (0 + total l1 + n) by lia.
    destruct (first_free _ l2); [done|]. cbn. lia.
  - rewrite !used_total_app. cbn. lia.
  - lia.
Qed.
