(* ===== verification/HeapSystem.v ===== *)
(** * HeapSystem: the heap and its clients

    Clients that allocate, free, resize and write their blocks.  The heap
    implements independent arrays of bytes: [owned] maps each pointer handed
    out to the bytes its client put there, and the bytes in memory agree with
    it, whatever the sequence of calls. *)
From S2P Require Import Prelude Bytes KService Heap HeapInv.

(** ** Used blocks *)

(** A used block of extent [n] starts at offset [o]. *)
Fixpoint used_at (off : Z) (bl : blocks) (o n : Z) : Prop :=
  match bl with
  | [] => False
  | (k, u) :: bl => (u = true /\ o = off /\ n = k) \/ used_at (off + k) bl o n
  end.

Lemma used_at_app l1 l2 o n : forall off,
  used_at off (l1 ++ l2) o n <-> used_at off l1 o n \/ used_at (off + total l1) l2 o n.
Proof.
  induction l1 as [|[k u] l1 IH]; intros off; cbn [app used_at total]; [rewrite Z.add_0_r; tauto|].
  rewrite IH, Z.add_assoc. tauto.
Qed.

Lemma used_at_bounds bl o n : sizes_ok bl -> forall off, used_at off bl o n ->
  off <= o /\ o + n <= off + total bl /\ 16 <= n /\ (o - off) `mod` 4 = 0.
Proof.
  induction 1 as [|[k u] bl [Hk Hk4] Hs IH]; intros off; cbn [used_at]; [done|]. cbn in Hk, Hk4.
  pose proof (total_nonneg bl Hs). cbn [total]. intros [(-> & -> & ->)|H1].
  - rewrite Z.sub_diag. split_and!; try lia. done.
  - destruct (IH _ H1) as (A & B & C & D). split_and!; try lia. zlia.
Qed.

Lemma used_at_disjoint bl o1 n1 o2 n2 : sizes_ok bl -> forall off,
  used_at off bl o1 n1 -> used_at off bl o2 n2 ->
  (o1 = o2 /\ n1 = n2) \/ o1 + n1 <= o2 \/ o2 + n2 <= o1.
Proof.
  induction 1 as [|[k u] bl [Hk _] Hs IH]; intros off; cbn [used_at]; [done|].
  intros [(_ & -> & ->)|H1] [(_ & -> & ->)|H2].
  - lia.
  - pose proof (used_at_bounds _ _ _ Hs _ H2). lia.
  - pose proof (used_at_bounds _ _ _ Hs _ H1). lia.
  - by apply (IH (off + k)).
Qed.

Lemma used_at_split bl o n : forall off, used_at off bl o n ->
  exists l1 l2, bl = l1 ++ (n, true) :: l2 /\ o = off + total l1.
Proof.
  induction bl as [|[k u] bl IH]; intros off; cbn [used_at]; [done|].
  intros [(-> & -> & ->)|H].
  - exists [], bl. split; [done|cbn; lia].
  - apply IH in H as (l1 & l2 & -> & ->). exists ((k, u) :: l1), l2. split; [done|cbn; lia].
Qed.

Lemma used_at_boundary bl o n p : sizes_ok bl -> boundary bl p -> used_at 0 bl o n -> p <= o \/ o + n <= p.
Proof.
  intros Hs (k1 & k2 & -> & ->) H. apply sizes_app in Hs as [Hs1 Hs2].
  apply used_at_app in H as [H|H]; apply used_at_bounds in H; try done; lia.
Qed.

Lemma used_at_carve size k o n off : used_at off (carve size k) o n <->
  o = off /\ n = (if k - 12 >=? size + 24 then size + 12 else k).
Proof. unfold carve. destruct (_ >=? _); cbn; split; intros; destruct_or?; destruct_and?; try done; auto. Qed.

(** Freeing removes one used block, serving a request adds one. *)
Lemma used_at_plug l1 n l2 o k : used_at 0 (plug l1 n l2) o k <->
  used_at 0 l1 o k \/ used_at (total l1 + n) l2 o k.
Proof.
  unfold plug.
  assert (forall x l n', used_at x ((n', false) :: l) o k <-> used_at (x + n') l o k) as H0
    by (intros; cbn; split; [by intros [(? & _)|]|by right]).
  assert (let '(n', l2') := join_right n l2 in
    used_at (total l1 + n') l2' o k <-> used_at (total l1 + n) l2 o k) as H.
  { destruct l2 as [|[c [|]] l2]; cbn; try tauto. rewrite Z.add_assoc. split; [by right|by intros [(? & _)|]]. }
  destruct (join_right n l2) as [n' l2'].
  destruct l1 as [|[c w] l1 _] using rev_ind.
  - cbn [join_left last app]. rewrite H0. cbn [used_at total] in *. rewrite H. tauto.
  - rewrite join_left_snoc. rewrite total_app in H. cbn [total] in H. destruct w.
    + rewrite !used_at_app, H0, total_app. cbn [total]. rewrite <- H. cbn. tauto.
    + rewrite !used_at_app, H0, total_app. cbn [total used_at]. rewrite <- H.
      rewrite !Z.add_0_l, !Z.add_0_r, !Z.add_assoc. split; intros; destruct_or?; destruct_and?; try done; auto.
Qed.

(** The payloads of the used blocks keep their bytes. *)
Definition kept (h h' : heap) (bl : blocks) : Prop :=
  forall o n, used_at 0 bl o n -> same_in (heap_ptr h + o + 12) (n - 12) (hm h) (hm h').

Lemma only_headers_kept h h' bl ps : sizes_ok bl ->
  only_headers (map (Z.add (heap_ptr h)) ps) (hm h) (hm h') -> Forall (boundary bl) ps -> kept h h' bl.
Proof.
  intros Hs Ho Hb o n Hu x Hx. apply Ho. apply Forall_map. eapply Forall_impl; [exact Hb|].
  intros p Hp. destruct (used_at_boundary _ _ _ _ Hs Hp Hu); lia.
Qed.

Lemma served_kept h h' bl bl' size o : heap_rep h bl -> served h h' bl bl' size o -> kept h h' bl.
Proof.
  intros [Hc _] (l1 & n & l2 & -> & _ & -> & _ & _ & _ & Hout) o2 k Hu x Hx.
  pose proof (hc_sizes _ _ Hc) as Hs. apply sizes_app in Hs as [Hs1 Hs2].
  apply Forall_cons in Hs2 as [[Hn _] Hs2]. cbn in Hn. apply Hout; apply used_at_app in Hu as [Hu|[(? & _)|Hu]]; try done;
    apply used_at_bounds in Hu; try done; lia.
Qed.

Lemma served_used h h' bl bl' size o : served h h' bl bl' size o ->
  exists n, size + 12 <= n /\
  forall o' k, used_at 0 bl' o' k <-> (o' = o /\ k = n) \/ used_at 0 bl o' k.
Proof.
  intros (l1 & n & l2 & -> & -> & -> & Hn & _).
  exists (if n - 12 >=? size + 24 then size + 12 else n). split.
  { destruct (n - 12 >=? size + 24); lia. }
  intros o' k. rewrite !used_at_app, used_at_carve, carve_total, Z.add_0_l. cbn [used_at].
  split; intros; destruct_or?; destruct_and?; try done; auto.
Qed.

(** Where a request is served was not in use. *)
Lemma served_fresh h h' bl bl' size o : heap_rep h bl -> served h h' bl bl' size o ->
  forall k, ~ used_at 0 bl o k.
Proof.
  intros [Hc _] (l1 & n & l2 & -> & _ & -> & Hn & _) k Hu.
  pose proof (hc_sizes _ _ Hc) as Hs. apply sizes_app in Hs as [Hs1 Hs2].
  apply Forall_cons in Hs2 as [[H16 _] Hs2]. cbn in H16.
  apply used_at_app in Hu as [Hu|[(? & _)|Hu]]; try done; apply used_at_bounds in Hu; try done; lia.
Qed.

(** Writing in the payload of a used block is invisible to the heap. *)
Lemma payload_write h bl o n m' : heap_rep h bl -> used_at 0 bl o n ->
  (forall x, ~ heap_ptr h + o + 12 <= x < heap_ptr h + o + n -> rd m' x = rd (hm h) x) ->
  heap_rep (on_mem (fun _ => m') h) bl.
Proof.
  intros [Hc Hm] Hu Hx. split; [|done]. apply used_at_split in Hu as (l1 & l2 & -> & ->).
  destruct (block_sizes _ _ _ _ _ Hc) as (Hs1 & Hn & _ & Hs2 & Ho & Ht2).
  pose proof (block_total _ _ _ _ _ Hc) as Ht. pose proof (hc_end _ _ Hc) as He.
  destruct (block_seg _ _ _ _ _ Hc) as (Hg1 & Hmg & Hus & Hnx & Hpv & Hg2).
  rewrite Z.add_0_l in Hx.
  assert (forall a k, (a + k <= heap_ptr h + total l1 + 12 \/ heap_ptr h + total l1 + n <= a) ->
    same_in a k (hm h) m') as Hsame by (intros a k Ha x Hxx; apply Hx; lia).
  split; cbn [on_mem hm heap_ptr heap_end lfree mem_size_aligned used_mem max_mem]; try by apply Hc.
  - apply seg_app. rewrite Z.add_0_l. cbn [seg]. unfold_fields.
    rewrite (rd16_ext _ (hm h) m'), (rd16_ext _ (hm h) m'), (rd32_ext _ (hm h) m'), (rd32_ext _ (hm h) m')
      by (apply Hsame; lia).
    split_and!; try done.
    + eapply seg_frame; [done| |exact Hg1]. intros x Hxx. apply Hx. lia.
    + eapply seg_frame; [done| |exact Hg2]. intros x Hxx. apply Hx. lia.
  - rewrite <- (hc_end_used _ _ Hc). unfold_fields. apply rd16_ext, Hsame. lia.
Qed.

(** ** The initial heap *)

Lemma heap_init_rep begin_addr end_addr m h0 :
  let b := align_up begin_addr in let e := align_down end_addr in
  0 < begin_addr <= 4294967292 -> 0 <= end_addr < 4294967296 -> b + 36 <= e ->
  hm h0 = m -> used_mem h0 = 0 -> 0 <= max_mem h0 ->
  let h := rt_system_heap_init begin_addr end_addr h0 in
  heap_rep h [(mem_size_aligned h + 12, false)] /\
  heap_ptr h = b /\ mem_size_aligned h = e - b - 24 /\ heap_end h = e - 12.
Proof.
  cbv zeta. intros Hb He Hfit <- Hu Hx. unfold rt_system_heap_init, SIZEOF_STRUCT_MEM.
  assert (align_up begin_addr `mod` 4 = 0 /\ 0 < align_up begin_addr) as [Hb4 Hbp].
  { rewrite align_up_eq, u32_small by lia. zlia. }
  assert (align_down end_addr `mod` 4 = 0 /\ align_down end_addr <= end_addr) as [He4 Hel].
  { rewrite align_down_eq by lia. split; zlia. }
  set (b := align_up begin_addr) in *. set (e := align_down end_addr) in *. rewrite Z.gtb_ltb, Z.geb_leb.
  rewrite (proj2 (Z.ltb_lt _ _)), (proj2 (Z.leb_le _ _)) by lia. cbn [andb].
  rewrite u32_small by lia.
  match goal with |- context [b + h_next ?mm b] =>
    assert (h_next mm b = e - b - 2 * 12 + 12) as -> by (fields; apply u32_small; lia) end.
  split; [|split_and!; cbn; lia]. split; [|done].
  split; cbn [hm heap_ptr heap_end lfree mem_size_aligned used_mem max_mem].
  - cbn [seg]. rewrite Z.add_0_r. split_and!; try done; fields; try done; apply u32_small; lia.
  - repeat constructor; cbn; [lia|zlia].
  - cbn. lia.
  - lia.
  - by fields.
  - cbn. lia.
  - done.
  - by rewrite Hu.
  - done.
  - lia.
  - lia.
Qed.

(** ** Bytes stay bytes *)

Lemma bytes_ok_moved d s n m m' : bytes_ok m -> moved d s n m m' -> bytes_ok m'.
Proof. intros Hm H x. rewrite H. by case_decide. Qed.
Lemma bytes_ok_filled d n c m m' : bytes_ok m -> 0 <= c < 256 -> filled_with d n c m m' -> bytes_ok m'.
Proof. intros Hm Hc H x. rewrite H. by case_decide. Qed.

Ltac bytes_kept :=
  repeat match goal with
    | |- bytes_ok (hm (if ?b then _ else _)) => destruct b
    | |- bytes_ok (wr16 _ _ _) => apply bytes_ok_wr16
    | |- bytes_ok (wr32 _ _ _) => apply bytes_ok_wr32
    | |- bytes_ok _ => progress unfold w_magic, w_used, w_next, w_prev, count_used
    | |- bytes_ok (hm _) => progress autorewrite with heap
    | _ => assumption
    end.

Lemma plug_holes_bytes mem h : bytes_ok (hm h) -> bytes_ok (hm (plug_holes mem h)).
Proof.
  intros H. assert (bytes_ok (hm (plug_forward mem h))) as H1 by (unfold plug_forward; cbv zeta; bytes_kept).
  unfold plug_holes. revert H1. generalize (plug_forward mem h). intros h1 H1.
  unfold plug_backward; cbv zeta. bytes_kept.
Qed.

Lemma rt_free_bytes p h : bytes_ok (hm h) -> bytes_ok (hm (rt_free p h)).
Proof.
  intros H. unfold rt_free. do 2 (destruct (_ : bool); [done|]). cbv zeta.
  apply plug_holes_bytes. bytes_kept.
Qed.

Lemma lfree_loop_mem fuel : forall h h', lfree_loop fuel h = Some h' -> hm h' = hm h.
Proof.
  induction fuel as [|fuel IH]; intros h h'; cbn [lfree_loop]; destruct (_ && _); try done;
    [by intros [= <-]| |by intros [= <-]]. intros E%IH. done.
Qed.

Lemma malloc_loop_bytes size : forall fuel ptr h h' p, bytes_ok (hm h) ->
  malloc_loop fuel size ptr h = Some (h', p) -> bytes_ok (hm h').
Proof.
  induction fuel as [|fuel IH]; intros ptr h h' p H; cbn [malloc_loop];
    (destruct (_ <? _); [|by intros [= <- <-]]); [done|].
  destruct (_ && _); [|by apply IH]. unfold malloc_take. cbv zeta.
  match goal with |- context [_ =? lfree ?hh] => assert (bytes_ok (hm hh)) as H1; [|revert H1; generalize hh] end.
  { bytes_kept. }
  intros h1 H1. destruct (_ =? lfree h1); [|intros [= <- <-]; done].
  destruct (lfree_loop (S fuel) h1) as [h2|] eqn:E; [|done]. apply lfree_loop_mem in E.
  intros [= <- <-]. by rewrite E.
Qed.

Lemma rt_malloc_bytes fuel size h h' p : bytes_ok (hm h) ->
  rt_malloc fuel size h = Some (h', p) -> bytes_ok (hm h').
Proof.
  intros H. unfold rt_malloc. cbv zeta. do 2 (destruct (_ : bool); [by intros [= <- <-]|]).
  by apply malloc_loop_bytes.
Qed.

(** ** Clients *)

Inductive heap_call :=
  | Malloc (n : Z)
  | Calloc (count size : Z)
  | Realloc (p n : Z)
  | Free (p : Z)
  | Write (p : Z) (i : nat) (c : Z).

(** One call of a client, or one byte a client stores; the result is the
    pointer returned. *)
Definition run_call (fuel : nat) (c : heap_call) (h : heap) : option (heap * Z) :=
  match c with
  | Malloc n => rt_malloc fuel n h
  | Calloc count size => rt_calloc fuel count size h
  | Realloc p n => rt_realloc fuel p n h
  | Free p => Some (rt_free p h, 0)
  | Write p i c => Some (on_mem (store (p + Z.of_nat i) [c]) h, 0)
  end.

(** What a client may do: sizes that survive the rounding, pointers it got and
    has not given back, bytes inside its blocks. *)
Definition legal (o : gmap Z (list Z)) (c : heap_call) : Prop :=
  match c with
  | Malloc n => 0 <= n <= 4294967292
  | Calloc count size => 0 <= u32 (count * size) <= 4294967292
  | Realloc p n => 0 <= n <= 4294967292 /\ (p = 0 \/ is_Some (o !! p))
  | Free p => p = 0 \/ is_Some (o !! p)
  | Write p i c => 0 <= c < 256 /\ exists l, o !! p = Some l /\ (i < length l)%nat
  end.

(** The arrays a client owns after the call, those it gets read from memory. *)
Definition owned_after (o : gmap Z (list Z)) (c : heap_call) (r : Z) (m : memory) : gmap Z (list Z) :=
  let got p n o := if p =? 0 then o else <[p := bytes_at m p (Z.to_nat n)]> o in
  match c with
  | Malloc n => got r n o
  | Calloc count size => got r (u32 (count * size)) o
  | Realloc p n => if align_up n =? 0 then delete p o else if r =? 0 then o else got r n (delete p o)
  | Free p => delete p o
  | Write p i c => alter (fun l => <[i := c]> l) p o
  end.

(** What the heap promises for a call: a block is new or refused, zeroed by
    [rt_calloc], and keeps its contents when it is resized. *)
Definition promised (o : gmap Z (list Z)) (c : heap_call) (r : Z) (o' : gmap Z (list Z)) : Prop :=
  match c with
  | Malloc n => (r = 0 /\ o' = o) \/
      (r <> 0 /\ o !! r = None /\ exists l, o' = <[r := l]> o /\ length l = Z.to_nat n)
  | Calloc count size => (r = 0 /\ o' = o) \/
      (r <> 0 /\ o !! r = None /\ o' = <[r := repeat 0 (Z.to_nat (u32 (count * size)))]> o)
  | Realloc p n =>
      (r = 0 /\ o' = if n =? 0 then delete p o else o) \/
      (r <> 0 /\ (r = p \/ o !! r = None) /\ exists l, o' = <[r := l]> (delete p o) /\
         length l = Z.to_nat n /\
         forall old, o !! p = Some old -> forall i, (i < Nat.min (length old) (length l))%nat ->
           nth i l 0 = nth i old 0)
  | Free p => r = 0 /\ o' = delete p o
  | Write p i c => exists l, o !! p = Some l /\ o' = <[p := <[i := c]> l]> o
  end.

(** Address [p] is the payload of a used block that holds [l]. *)
Definition holds (h : heap) (bl : blocks) (p : Z) (l : list Z) : Prop :=
  exists n, used_at 0 bl (p - heap_ptr h - 12) n /\ Z.of_nat (length l) <= n - 12 /\
    bytes_at (hm h) p (length l) = l.

(** The heap represents the arrays [o]: they are its used blocks. *)
Record heap_owned (h : heap) (bl : blocks) (o : gmap Z (list Z)) : Prop := {
  ho_rep : heap_rep h bl;
  ho_bytes : bytes_ok (hm h);
  ho_holds : forall p l, o !! p = Some l -> holds h bl p l;
  ho_used : forall b n, used_at 0 bl b n -> is_Some (o !! (heap_ptr h + b + 12)) }.

Lemma heap_owned_sizes h bl o : heap_owned h bl o -> sizes_ok bl.
Proof. intros H. apply (hc_sizes _ _ (proj1 (ho_rep _ _ _ H))). Qed.

(** A block that stays in use and is not written keeps its bytes. *)
Lemma holds_kept h h' bl bl' p l : holds h bl p l -> kept h h' bl -> heap_ptr h' = heap_ptr h ->
  (forall n, used_at 0 bl (p - heap_ptr h - 12) n -> used_at 0 bl' (p - heap_ptr h - 12) n) ->
  holds h' bl' p l.
Proof.
  intros (n & Hu & Hn & Hb) Hk Hp Hstay. exists n. rewrite Hp. split_and!; [by apply Hstay|done|].
  rewrite <- Hb at 2. apply bytes_at_ext. intros i Hi.
  apply (Hk _ _ Hu). lia.
Qed.

Lemma used_at_unique bl o n1 n2 : sizes_ok bl -> used_at 0 bl o n1 -> used_at 0 bl o n2 -> n1 = n2.
Proof.
  intros Hs H1 H2. pose proof (used_at_bounds _ _ _ Hs _ H1). pose proof (used_at_bounds _ _ _ Hs _ H2).
  destruct (used_at_disjoint _ _ _ _ _ Hs _ H1 H2) as [[]|[]]; lia.
Qed.

(** A block in use becomes the owner of what its payload now holds. *)
Lemma owned_overwrite h bl o p k n m' : heap_owned h bl o ->
  used_at 0 bl (p - heap_ptr h - 12) k -> Z.of_nat n <= k - 12 -> bytes_ok m' ->
  (forall x, ~ p <= x < p + (k - 12) -> rd m' x = rd (hm h) x) ->
  heap_owned (on_mem (fun _ => m') h) bl (<[p := bytes_at m' p n]> o).
Proof.
  intros Ho Hu Hn Hb Hx. pose proof (heap_owned_sizes _ _ _ Ho) as Hs. split.
  - eapply payload_write; [apply Ho|exact Hu|]. intros x A. apply Hx. lia.
  - done.
  - intros q l. destruct (decide (p = q)) as [<-|Hpq].
    + rewrite lookup_insert_eq. intros [= <-]. exists k. rewrite bytes_at_length. by split_and!.
    + rewrite lookup_insert_ne by done. intros (n' & Hu' & Hn' & Hb')%(ho_holds _ _ _ Ho).
      exists n'. split_and!; [done..|]. rewrite <- Hb' at 2. apply bytes_at_ext. intros i Hi. cbn.
      apply Hx. destruct (used_at_disjoint _ _ _ _ _ Hs _ Hu Hu') as [[]|[]]; lia.
  - intros b n' Hu'. cbn. rewrite lookup_insert. case_decide; [done|]. by eapply ho_used.
Qed.

(** A client changes bytes of one of its arrays. *)
Lemma owned_write h bl o p l m' : heap_owned h bl o -> o !! p = Some l -> bytes_ok m' ->
  (forall x, ~ p <= x < p + Z.of_nat (length l) -> rd m' x = rd (hm h) x) ->
  heap_owned (on_mem (fun _ => m') h) bl (<[p := bytes_at m' p (length l)]> o).
Proof.
  intros Ho Hl Hb Hx. destruct (ho_holds _ _ _ Ho _ _ Hl) as (k & Hu & Hlk & _).
  apply (owned_overwrite h bl o p k); try done. intros x Hn. apply Hx. lia.
Qed.

(** Memory outside the heap is nobody's array. *)
Lemma owned_elsewhere h bl o m' : heap_owned h bl o -> bytes_ok m' ->
  (forall x, heap_ptr h <= x < heap_end h + 12 -> rd m' x = rd (hm h) x) ->
  heap_owned (on_mem (fun _ => m') h) bl o.
Proof.
  intros Ho Hb Hx. pose proof (heap_owned_sizes _ _ _ Ho) as Hs. destruct (ho_rep _ _ _ Ho) as [Hc Hm].
  pose proof (hc_total _ _ Hc) as Ht. pose proof (hc_end _ _ Hc) as He. pose proof (hc_min _ _ Hc) as Hmin.
  split; [split; [|done]|done| |exact (ho_used _ _ _ Ho)].
  - split; cbn [on_mem hm heap_ptr heap_end lfree mem_size_aligned used_mem max_mem]; try by apply Hc.
    + eapply seg_frame; [done| |apply Hc]. intros x Hr. apply Hx. lia.
    + rewrite <- (hc_end_used _ _ Hc). unfold_fields. apply rd16_ext. intros x Hr. apply Hx. lia.
  - intros p l Hp. eapply holds_kept; [by apply (ho_holds _ _ _ Ho)| |done|done].
    intros o' n Hu x Hr. apply used_at_bounds in Hu; [|done]. cbn. apply Hx. lia.
Qed.

(** Where the arrays are: behind the header of the first block and below the
    end, apart from each other and from each other's headers. *)
Lemma owned_inside h bl o p l : heap_owned h bl o -> o !! p = Some l ->
  p `mod` 4 = 0 /\ heap_ptr h + 12 <= p /\ p + Z.of_nat (length l) <= heap_end h /\
  bytes_at (hm h) p (length l) = l.
Proof.
  intros Ho (n & Hn & Hl & Hb)%(ho_holds _ _ _ Ho). pose proof (heap_owned_sizes _ _ _ Ho) as Hs.
  destruct (ho_rep _ _ _ Ho) as [Hc _]. pose proof (hc_total _ _ Hc) as Ht. pose proof (hc_end _ _ Hc) as He.
  pose proof (hc_ptr _ _ Hc) as [Hp Hp4].
  apply used_at_bounds in Hn as (A & B & C & D); [|done]. split_and!; [|lia|lia|done].
  rewrite Z.sub_0_r in D. zlia.
Qed.
Lemma owned_apart h bl o p q l1 l2 : heap_owned h bl o -> o !! p = Some l1 -> o !! q = Some l2 -> p <> q ->
  p + Z.of_nat (length l1) <= q - 12 \/ q + Z.of_nat (length l2) <= p - 12.
Proof.
  intros Ho (n1 & Hn1 & Hl1 & _)%(ho_holds _ _ _ Ho) (n2 & Hn2 & Hl2 & _)%(ho_holds _ _ _ Ho) Hpq.
  destruct (used_at_disjoint _ _ _ _ _ (heap_owned_sizes _ _ _ Ho) _ Hn1 Hn2) as [[]|[]]; lia.
Qed.

Lemma request_least n : 0 < n <= 4294967292 -> n <= request n /\ 12 <= request n.
Proof.
  intros Hn. unfold request. rewrite align_up_eq, u32_small by lia. split; zlia.
Qed.

Lemma owned_malloc h bl o n fuel : heap_owned h bl o -> 0 <= n <= 4294967292 -> (heap_fuel h <= fuel)%nat ->
  exists h' r, rt_malloc fuel n h = Some (h', r) /\
  ((r = 0 /\ h' = h) \/
   (r <> 0 /\ 0 < n /\ o !! r = None /\ same_heap h h' /\
    exists bl' k, used_at 0 bl' (r - heap_ptr h - 12) k /\ request n <= k - 12 /\
      (forall b j, used_at 0 bl b j -> used_at 0 bl' b j) /\
      heap_owned h' bl' (<[r := bytes_at (hm h') r (Z.to_nat n)]> o))).
Proof.
  intros Ho Hn Hf. pose proof (ho_rep _ _ _ Ho) as Hr.
  destruct (decide (n = 0)) as [->|Hn0]; [by exists h, 0; split; [|by left]|].
  pose proof (malloc_spec h bl n fuel Hr ltac:(lia) Hf) as HM.
  destruct (if request n <=? _ then _ else None) as [[bl' b]|]; [|by exists h, 0; split; [|by left]].
  destruct HM as (h' & E & Hsv). exists h', (heap_ptr h + b + 12). split; [done|right].
  destruct (request_least n ltac:(lia)) as [Hle _].
  pose proof (served_fresh _ _ _ _ _ _ Hr Hsv) as Hfresh.
  pose proof (served_kept _ _ _ _ _ _ Hr Hsv) as Hk.
  destruct (served_used _ _ _ _ _ _ Hsv) as (k & Hkn & Hused).
  destruct Hsv as (l1 & n1 & l2 & Ebl & _ & Eb & _ & Hr' & Hsame & _).
  pose proof (hc_sizes _ _ (proj1 Hr)) as Hs. rewrite Ebl in Hs. apply sizes_app in Hs as [Hs1 _].
  pose proof (total_nonneg _ Hs1). pose proof (hc_ptr _ _ (proj1 Hr)) as [Hp _].
  destruct Hsame as (Eptr & Hsame).
  replace (heap_ptr h + b + 12 - heap_ptr h - 12) with b by lia.
  assert (used_at 0 bl' b k) as Hu by (apply Hused; by left).
  split_and!; [lia|lia| |done|].
  { apply eq_None_not_Some. intros [l (n2 & Hu2 & _)%(ho_holds _ _ _ Ho)].
    apply (Hfresh n2). by replace (heap_ptr h + b + 12 - heap_ptr h - 12) with b in Hu2 by lia. }
  exists bl', k. split_and!; [done|lia|intros ???; apply Hused; by right|].
  split; [done|by eapply rt_malloc_bytes; [apply Ho|]| |].
  - intros p l. destruct (decide (heap_ptr h + b + 12 = p)) as [<-|Hpq].
    + rewrite lookup_insert_eq. intros [= <-]. exists k. rewrite bytes_at_length, Eptr.
      replace (heap_ptr h + b + 12 - heap_ptr h - 12) with b by lia. split_and!; [done|lia|done].
    + rewrite lookup_insert_ne by done. intros Hh%(ho_holds _ _ _ Ho).
      eapply holds_kept; [done..|]. intros n2 Hu2. apply Hused. by right.
  - intros b2 n2 [[-> ->]|Hu2]%Hused; rewrite Eptr, lookup_insert; case_decide; try done.
    by eapply ho_used.
Qed.

Lemma owned_free h bl o p l : heap_owned h bl o -> o !! p = Some l ->
  same_heap h (rt_free p h) /\ exists bl', heap_owned (rt_free p h) bl' (delete p o).
Proof.
  intros Ho Hp. destruct (ho_holds _ _ _ Ho _ _ Hp) as (n & Hu & _).
  pose proof (heap_owned_sizes _ _ _ Ho) as Hs. pose proof (ho_rep _ _ _ Ho) as Hr.
  destruct (used_at_split _ _ _ _ Hu) as (l1 & l2 & -> & Eo). rewrite Z.add_0_l in Eo.
  assert (p = heap_ptr h + total l1 + 12) as Ep by lia.
  destruct (free_spec h l1 n l2 Hr) as (Hr' & Hsame & ps & Hoh & Hb). rewrite <- Ep in Hr', Hsame, Hoh.
  split; [done|]. destruct Hsame as (Eptr & Hsame).
  assert (forall b k, used_at 0 (l1 ++ (n, true) :: l2) b k <->
    used_at 0 (plug l1 n l2) b k \/ (b = total l1 /\ k = n)) as Hused.
  { intros b k. rewrite used_at_app, used_at_plug, Z.add_0_l. cbn [used_at].
    split; intros; destruct_or?; destruct_and?; auto. }
  exists (plug l1 n l2). split; [done|apply rt_free_bytes, Ho| |].
  - intros q lq Hq. apply lookup_delete_Some in Hq as [Hpq Hq].
    eapply holds_kept; [by apply (ho_holds _ _ _ Ho)|by eapply only_headers_kept|done|].
    intros k [Hk|[Hk _]]%Hused; [done|]. lia.
  - intros b k Hk. rewrite Eptr. assert (used_at 0 (l1 ++ (n, true) :: l2) b k) as Hk0 by (apply Hused; by left).
    rewrite lookup_delete_ne; [by eapply ho_used|]. intros E.
    apply sizes_app in Hs as [Hs1 Hs2]. apply Forall_cons in Hs2 as [[Hn _] Hs2]. cbn in Hn.
    apply used_at_plug in Hk as [Hk|Hk]; apply used_at_bounds in Hk; try done; lia.
Qed.

Lemma owned_shrink h bl o p l k ns n : heap_owned h bl o -> o !! p = Some l ->
  used_at 0 bl (p - heap_ptr h - 12) k -> 4 <= ns -> ns `mod` 4 = 0 -> ns + 24 < k - 12 -> Z.of_nat n <= ns ->
  let h' := plug_holes (p + ns) (shrunk ns (p - heap_ptr h - 12) (k - 12) h) in
  same_heap h h' /\ (forall x, p <= x < p + ns -> rd (hm h') x = rd (hm h) x) /\
  exists bl', heap_owned h' bl' (<[p := bytes_at (hm h') p n]> o).
Proof.
  intros Ho Hp Hu Hns Hns4 Hfit Hn. cbv zeta.
  pose proof (heap_owned_sizes _ _ _ Ho) as Hs. pose proof (ho_rep _ _ _ Ho) as [Hc Hmg].
  destruct (used_at_split _ _ _ _ Hu) as (l1 & l2 & -> & Eo). rewrite Z.add_0_l in Eo. rewrite Eo in *.
  assert (p = heap_ptr h + total l1 + 12) as Ep by lia.
  destruct (shrunk_spec h l1 k l2 ns Hc Hns Hns4 Hfit) as (Hc1 & Hsame1 & Hout).
  assert (bytes_ok (hm (shrunk ns (total l1) (k - 12) h))) as Hb1.
  { pose proof (ho_bytes _ _ _ Ho). unfold shrunk. cbv zeta. bytes_kept. }
  set (h1 := shrunk _ _ _ h) in *. set (l1' := l1 ++ [(ns + 12, true)]) in *.
  apply merged_app in Hmg as (M1 & [_ M2] & M3).
  assert (merged l1') as M1' by (apply merged_app; split_and!; [done|done|done]).
  assert (total l1' = total l1 + ns + 12) as Et by (unfold l1'; rewrite total_app; cbn; lia).
  destruct (plug_holes_spec h1 l1' (k - 12 - ns) l2 Hc1 M1' M2) as (Hr' & Hsame & _ & ps & Hoh & Hbd).
  assert (heap_ptr h1 + total l1' = p + ns) as Em by (destruct Hsame1 as [-> _]; lia). rewrite Em in *.
  set (h' := plug_holes _ h1) in *.
  pose proof (only_headers_kept _ _ _ _ (hc_sizes _ _ Hc1) Hoh Hbd) as Hk1.
  pose proof Hsame1 as (Eptr1 & _).
  assert (forall b j, used_at 0 (plug l1' (k - 12 - ns) l2) b j <->
    used_at 0 l1 b j \/ (b = total l1 /\ j = ns + 12) \/ used_at (total l1 + k) l2 b j) as Hused.
  { intros b j. rewrite used_at_plug. unfold l1' at 1. rewrite used_at_app, Z.add_0_l, Et.
    replace (total l1 + ns + 12 + (k - 12 - ns)) with (total l1 + k) by lia. cbn [used_at].
    split; intros; destruct_or?; destruct_and?; try done; auto 8. }
  assert (forall b j, used_at 0 (plug l1' (k - 12 - ns) l2) b j ->
    used_at 0 (l1' ++ (k - 12 - ns, false) :: l2) b j) as Hnew.
  { intros b j Hj. rewrite used_at_app, Z.add_0_l. cbn [used_at]. rewrite Et.
    replace (total l1 + ns + 12 + (k - 12 - ns)) with (total l1 + k) by lia.
    apply Hused in Hj. unfold l1'. rewrite used_at_app, Z.add_0_l. cbn [used_at].
    destruct_or?; destruct_and?; try done; auto 8. }
  apply sizes_app in Hs as [Hs1 Hs2]. apply Forall_cons in Hs2 as [[Hk _] Hs2]. cbn in Hk.
  assert (forall x, p <= x < p + ns -> rd (hm h') x = rd (hm h) x) as Hpre.
  { intros x Hx. rewrite <- Hout by lia.
    apply (Hk1 (total l1) (ns + 12)); [|lia]. apply Hnew, Hused. auto. }
  split; [by eapply same_heap_trans|]. split; [done|].
  destruct Hsame as (Eptr & _). exists (plug l1' (k - 12 - ns) l2). split.
  - done.
  - by apply plug_holes_bytes.
  - intros q lq. destruct (decide (p = q)) as [<-|Hpq].
    + rewrite lookup_insert_eq. intros [= <-]. exists (ns + 12). rewrite bytes_at_length, Eptr, Eptr1.
      split_and!; [|lia|done]. apply Hused. right; left. lia.
    + rewrite lookup_insert_ne by done. intros (j & Hu' & Hj & Hb')%(ho_holds _ _ _ Ho).
      exists j. rewrite Eptr, Eptr1.
      assert (used_at 0 (plug l1' (k - 12 - ns) l2) (q - heap_ptr h - 12) j) as Hq.
      { apply Hused. rewrite used_at_app, Z.add_0_l in Hu'. cbn [used_at] in Hu'.
        destruct_or?; destruct_and?; try done; auto 8. lia. }
      split_and!; [done|done|]. rewrite <- Hb' at 2. apply bytes_at_ext. intros i Hi.
      rewrite (Hk1 _ _ (Hnew _ _ Hq)) by lia.
      apply Hused in Hq as [Hq|[[Hq _]|Hq]].
      * apply used_at_bounds in Hq; [|done]. apply Hout; lia.
      * lia.
      * apply used_at_bounds in Hq; [|done]. apply Hout; lia.
  - intros b j [Hj|[[-> ->]|Hj]]%Hused; rewrite Eptr, Eptr1, lookup_insert; case_decide; try done.
    + eapply ho_used; [done|]. apply used_at_app. by left.
    + eapply ho_used; [done|]. apply used_at_app. right. right. by rewrite Z.add_0_l.
Qed.

(** ** [rt_realloc] on a block in use *)

Lemma align_up_req n : 0 <= n <= 4294967292 ->
  n <= align_up n < n + 4 /\ align_up n `mod` 4 = 0 /\ align_up n <= 4294967292.
Proof. intros Hn. rewrite align_up_eq, u32_small by lia. split_and!; zlia. Qed.

Lemma realloc_eq fuel h bl t k n : heap_chain h bl -> used_at 0 bl t k -> 0 < n <= 4294967292 ->
  align_up n <= mem_size_aligned h ->
  let p := heap_ptr h + t + 12 in let ns := align_up n in
  rt_realloc fuel p n h =
  if k - 12 =? ns then Some (h, p)
  else if ns + 24 <? k - 12 then Some (plug_holes (p + ns) (shrunk ns t (k - 12) h), p)
  else
    '(h', q) ← rt_malloc fuel ns h;
    if negb (q =? 0) then
      m ← rt_memcpy q p (Z.min (k - 12) ns) (hm h');
      Some (rt_free p (on_mem (fun _ => m) h'), q)
    else Some (h', q).
Proof.
  intros Hc Hu Hn Hle. cbv zeta. pose proof (hc_sizes _ _ Hc) as Hs.
  destruct (used_at_split _ _ _ _ Hu) as (l1 & l2 & -> & Eo). rewrite Z.add_0_l in Eo. subst t.
  destruct (block_sizes _ _ _ _ _ Hc) as (Hs1 & Hk & Hk4 & Hs2 & Ht1 & Ht2).
  destruct (block_seg _ _ _ _ _ Hc) as (_ & _ & _ & Hx & _ & _).
  pose proof (block_total _ _ _ _ _ Hc) as Ht. pose proof (hc_ptr _ _ Hc) as [Hp _].
  pose proof (hc_end _ _ Hc) as He. pose proof (hc_top _ _ Hc).
  destruct (align_up_req n ltac:(lia)) as (Hns & Hns4 & _).
  unfold rt_realloc. cbv zeta. unfold SIZEOF_STRUCT_MEM, MIN_SIZE.
  rewrite Z.gtb_ltb, (proj2 (Z.ltb_ge _ _)), (proj2 (Z.eqb_neq (align_up n) 0)),
    (proj2 (Z.eqb_neq (heap_ptr h + _ + 12) 0)), (proj2 (Z.ltb_ge (_ + 12) (heap_ptr h))), Z.geb_leb,
    (proj2 (Z.leb_gt (heap_end h) _)) by lia. cbn [orb].
  rewrite Z.add_simpl_r, Z.add_simpl_l, Hx. rewrite (u32_small (total l1 + k - _ - 12)) by lia.
  replace (total l1 + k - total l1 - 12) with (k - 12) by lia.
  rewrite (u32_small (align_up n + 12 + 12)) by lia.
  replace (align_up n + 12 + 12) with (align_up n + 24) by lia.
  destruct (Z.eqb_spec (k - 12) (align_up n)); [done|].
  destruct (Z.ltb_spec (align_up n + 24) (k - 12)).
  - do 2 f_equal. unfold shrunk. cbv zeta. unfold SIZEOF_STRUCT_MEM. autorewrite with heap. f_equal.
    rewrite u32_small by lia. lia.
  - destruct (rt_malloc fuel (align_up n) h) as [[h' q]|]; [|done]. cbn [mbind option_bind].
    destruct (negb _); [|done].
    assert ((if k - 12 <? align_up n then k - 12 else align_up n) = Z.min (k - 12) (align_up n)) as ->; [|done].
    destruct (Z.ltb_spec (k - 12) (align_up n)); lia.
Qed.

Lemma nth_bytes_at_of m p l i : bytes_at m p (length l) = l -> (i < length l)%nat ->
  nth i l 0 = rd m (p + Z.of_nat i).
Proof. intros <- Hi. rewrite bytes_at_length in Hi. by rewrite bytes_at_nth. Qed.

(** A resized block: the promise about its contents, from the bytes kept. *)
Lemma resized_promise (o : gmap Z (list Z)) h bl p n r m' : heap_owned h bl o -> r <> 0 -> 0 < n <= 4294967292 ->
  (r = p \/ o !! r = None) ->
  (forall l i, o !! p = Some l -> 0 <= i < Z.of_nat (Nat.min (length l) (Z.to_nat n)) ->
     rd m' (r + i) = rd (hm h) (p + i)) ->
  promised o (Realloc p n) r (owned_after o (Realloc p n) r m').
Proof.
  intros Ho Hr Hn Hrp Hkeep. destruct (align_up_req n ltac:(lia)) as [Ha _].
  unfold owned_after. rewrite (proj2 (Z.eqb_neq (align_up n) 0)), (proj2 (Z.eqb_neq r 0)) by lia.
  right. split; [done|]. split; [done|]. eexists. split; [done|]. split; [apply bytes_at_length|].
  intros old Hold i Hi. rewrite bytes_at_length in Hi. rewrite bytes_at_nth by lia.
  destruct (ho_holds _ _ _ Ho _ _ Hold) as (_ & _ & _ & Hb).
  rewrite (nth_bytes_at_of _ _ _ _ Hb) by lia. by apply (Hkeep old); [|lia].
Qed.

Lemma owned_after_realloc (o : gmap Z (list Z)) p n r m : r <> 0 -> 0 < n <= 4294967292 ->
  owned_after o (Realloc p n) r m = <[r := bytes_at m r (Z.to_nat n)]> (delete p o).
Proof.
  intros Hr Hn. destruct (align_up_req n ltac:(lia)) as [Ha _]. unfold owned_after.
  by rewrite (proj2 (Z.eqb_neq (align_up n) 0)), (proj2 (Z.eqb_neq r 0)) by lia.
Qed.

(** The block moves: allocate, copy, free. *)
Lemma owned_move h bl o p l n fuel t k : heap_owned h bl o -> o !! p = Some l -> 0 < n <= 4294967292 ->
  (heap_fuel h <= fuel)%nat -> p = heap_ptr h + t + 12 -> used_at 0 bl t k -> 
  exists h' r bl',
  ('(h', q) ← rt_malloc fuel (align_up n) h;
   if negb (q =? 0) then
     m ← rt_memcpy q p (Z.min (k - 12) (align_up n)) (hm h');
     Some (rt_free p (on_mem (fun _ => m) h'), q)
   else Some (h', q)) = Some (h', r) /\
  let o' := owned_after o (Realloc p n) r (hm h') in
  promised o (Realloc p n) r o' /\ same_heap h h' /\ heap_owned h' bl' o'.
Proof.
  intros Ho Hp Hn Hf Et Hu. destruct (align_up_req n ltac:(lia)) as (Ha & Ha4 & Ha2).
  destruct (owned_malloc h bl o (align_up n) fuel Ho ltac:(lia) Hf)
    as (h1 & q & E & [[-> ->]|(Hq & _ & Hfresh & Hsame1 & bl1 & k1 & Hu1 & Hk1 & Hstay & Ho1)]).
  { exists h, 0, bl. rewrite E. cbn [mbind option_bind]. rewrite Z.eqb_refl. cbn [negb].
    split; [done|]. cbv zeta. unfold owned_after. rewrite (proj2 (Z.eqb_neq (align_up n) 0)) by lia.
    rewrite Z.eqb_refl. split_and!; [|by split_and!|done]. left. split; [done|].
    by rewrite (proj2 (Z.eqb_neq n 0)) by lia. }
  rewrite E. cbn [mbind option_bind]. rewrite (proj2 (Z.eqb_neq q 0)) by done. cbn [negb].
  pose proof (heap_owned_sizes _ _ _ Ho1) as Hs1. pose proof (proj1 (ho_rep _ _ _ Ho1)) as Hc1.
  destruct (request_least (align_up n) ltac:(lia)) as [Hra _].
  assert (q <> p) as Hqp by (intros ->; by rewrite Hp in Hfresh).
  assert (o !! p = Some l) as Hp1 by done.
  rewrite <- (lookup_insert_ne o q p (bytes_at (hm h1) q (Z.to_nat (align_up n)))) in Hp1 by done.
  pose proof Hsame1 as (Eptr & _).
  destruct (ho_holds _ _ _ Ho1 _ _ Hp1) as (_ & _ & _ & Hb1).
  destruct (ho_holds _ _ _ Ho _ _ Hp) as (k3 & Hu3 & Hl & Hb).
  replace (p - heap_ptr h - 12) with t in Hu3 by lia.
  pose proof (used_at_unique _ _ _ _ (heap_owned_sizes _ _ _ Ho) Hu Hu3) as <-. apply Hstay in Hu.
  pose proof (used_at_bounds _ _ _ Hs1 _ Hu) as Bt. pose proof (used_at_bounds _ _ _ Hs1 _ Hu1) as Bq.
  pose proof (hc_total _ _ Hc1) as Htot. pose proof (hc_end _ _ Hc1). pose proof (hc_top _ _ Hc1).
  pose proof (hc_ptr _ _ Hc1) as [Hp0 _].
  assert (t + k <= q - heap_ptr h - 12 \/ q - heap_ptr h - 12 + k1 <= t) as Hd.
  { destruct (used_at_disjoint _ _ _ _ _ Hs1 _ Hu Hu1) as [[? _]|?]; [lia|done]. }
  set (count := Z.min (k - 12) (align_up n)).
  assert (0 <= count <= k - 12 /\ count <= k1 - 12) as [Hc0 Hc2] by (unfold count; lia).
  destruct (memcpy_moved q p count (hm h1) (ho_bytes _ _ _ Ho1)) as (m2 & -> & Hm2); [lia|lia|].
  cbn [mbind option_bind].
  pose proof (owned_overwrite h1 bl1 _ q k1 (Z.to_nat n) m2 Ho1) as Ho2. rewrite Eptr in Ho2.
  specialize (Ho2 Hu1 ltac:(lia) (bytes_ok_moved _ _ _ _ _ (ho_bytes _ _ _ Ho1) Hm2)).
  rewrite insert_insert_eq in Ho2.
  specialize (Ho2 ltac:(intros x Hx; rewrite Hm2; by rewrite decide_False by lia)).
  destruct (owned_free _ bl1 _ p l Ho2) as (Hsame3 & bl3 & Ho3); [by rewrite lookup_insert_ne|].
  set (h3 := rt_free p _) in *. rewrite delete_insert_ne in Ho3 by done.
  assert (bytes_at (hm h3) q (Z.to_nat n) = bytes_at m2 q (Z.to_nat n)) as Eb.
  { destruct (ho_holds _ _ _ Ho3 q (bytes_at m2 q (Z.to_nat n))) as (_ & _ & _ & Hb3);
      [by rewrite lookup_insert_eq|]. by rewrite bytes_at_length in Hb3. }
  exists h3, q, bl3. split; [done|]. split; [|split].
  - eapply resized_promise; [done|done|done|by right|]. intros l' i Hl' Hi. rewrite Hp in Hl'. injection Hl' as <-.
    pose proof (f_equal (fun x => nth (Z.to_nat i) x 0) Eb) as Ei. cbv beta in Ei. rewrite !bytes_at_nth in Ei by lia.
    rewrite Z2Nat.id in Ei by lia. rewrite Ei, Hm2, decide_True by (unfold count; lia).
    rewrite Z.add_simpl_l. replace i with (Z.of_nat (Z.to_nat i)) by lia.
    by rewrite <- (nth_bytes_at_of _ _ _ _ Hb1), <- (nth_bytes_at_of _ _ _ _ Hb) by lia.
  - eapply same_heap_trans; [exact Hsame1|]. done.
  - by rewrite owned_after_realloc, Eb.
Qed.

(** ** Every call *)

(** What one call does: it returns, keeps its promise and the representation. *)
Definition call_ok (fuel : nat) (h : heap) (o : gmap Z (list Z)) (c : heap_call) : Prop :=
  exists h' r bl', run_call fuel c h = Some (h', r) /\
    let o' := owned_after o c r (hm h') in
    promised o c r o' /\ same_heap h h' /\ heap_owned h' bl' o'.

Section calls.
Context (fuel : nat) (h : heap) (bl : blocks) (o : gmap Z (list Z)).
Hypothesis Ho : heap_owned h bl o.
Hypothesis Hf : (heap_fuel h <= fuel)%nat.

Lemma same_heap_refl : same_heap h h.
Proof. done. Qed.

Lemma owned_nonzero p l : o !! p = Some l -> p <> 0.
Proof.
  intros (n & Hu & _)%(ho_holds _ _ _ Ho). pose proof (heap_owned_sizes _ _ _ Ho) as Hs.
  apply used_at_bounds in Hu; [|done]. pose proof (hc_ptr _ _ (proj1 (ho_rep _ _ _ Ho))). lia.
Qed.

Lemma delete_null : delete 0 o = o.
Proof. apply delete_id. apply eq_None_not_Some. by intros [l Hl%owned_nonzero]. Qed.

Lemma malloc_ok n : legal o (Malloc n) -> call_ok fuel h o (Malloc n).
Proof.
  intros Hn. destruct (owned_malloc h bl o n fuel Ho Hn Hf) as (h' & r & E & [[-> ->]|H]).
  - exists h, 0, bl. split; [done|]. cbn. split; [by left|by split].
  - destruct H as (Hr & Hn0 & Hfr & Hsame & bl' & k & _ & _ & _ & Ho'). exists h', r, bl'.
    split; [done|]. cbn. rewrite (proj2 (Z.eqb_neq r 0)) by done. split; [|by split].
    right. split_and!; [done..|]. eexists. split; [done|]. apply bytes_at_length.
Qed.

Lemma free_ok p : legal o (Free p) -> call_ok fuel h o (Free p).
Proof.
  intros [->|[l Hl]]; cbn [run_call owned_after].
  - exists h, 0, bl. split; [done|]. cbn. rewrite delete_null. by split_and!.
  - destruct (owned_free _ _ _ _ _ Ho Hl) as (Hsame & bl' & Ho').
    exists (rt_free p h), 0, bl'. by split_and!.
Qed.

Lemma write_ok p i c : legal o (Write p i c) -> call_ok fuel h o (Write p i c).
Proof.
  intros [Hc (l & Hl & Hi)]. exists (on_mem (store (p + Z.of_nat i) [c]) h), 0, bl.
  split; [done|]. cbn [owned_after promised].
  assert (alter (fun l => <[i := c]> l) p o = <[p := <[i := c]> l]> o) as ->.
  { apply map_eq. intros q. destruct (decide (p = q)) as [<-|Hpq].
    - by rewrite lookup_alter_eq, lookup_insert_eq, Hl.
    - by rewrite lookup_alter_ne, lookup_insert_ne. }
  split; [by eexists|]. split; [done|].
  destruct (ho_holds _ _ _ Ho _ _ Hl) as (_ & _ & _ & Hb).
  set (m' := store (p + Z.of_nat i) [c] (hm h)).
  assert (forall x, rd m' x = if decide (p + Z.of_nat i = x) then c else rd (hm h) x) as Hm'
    by (intros x; apply rd_insert).
  assert (<[i := c]> l = bytes_at m' p (length l)) as ->.
  { apply nth_ext with 0 0; [by rewrite length_insert, bytes_at_length|].
    intros j Hj. rewrite length_insert in Hj. rewrite bytes_at_nth, Hm' by done.
    destruct (decide (i = j)) as [<-|Hij].
    - by rewrite nth_lookup, list_lookup_insert_eq, decide_True.
    - rewrite nth_lookup, list_lookup_insert_ne, <- nth_lookup, decide_False by (done || lia).
      by apply nth_bytes_at_of. }
  apply (owned_write h bl o p l m' Ho Hl); [by apply bytes_ok_insert; [apply Ho|]|].
  intros x Hx. rewrite Hm'. by rewrite decide_False by lia.
Qed.

Lemma calloc_ok count size : legal o (Calloc count size) -> call_ok fuel h o (Calloc count size).
Proof.
  intros Hn. cbn [legal] in Hn. set (n := u32 (count * size)) in *.
  unfold call_ok. cbn [run_call]. unfold rt_calloc. fold n.
  destruct (owned_malloc h bl o n fuel Ho Hn Hf) as (h' & r & E & [[-> ->]|H]);
    rewrite E; cbn [mbind option_bind].
  - exists h, 0, bl. rewrite Z.eqb_refl. cbn. split; [done|]. split; [by left|by split].
  - destruct H as (Hr & Hn0 & Hfr & Hsame & bl' & k & Hu & Hk & _ & Ho').
    rewrite (proj2 (Z.eqb_neq r 0)) by done. cbn [negb].
    destruct (memset_filled r 0 n (hm h')) as (m' & -> & Hm'); [lia|]. cbn [mbind option_bind].
    exists (on_mem (fun _ => m') h'), r, bl'. split; [done|].
    cbn [owned_after promised on_mem hm]. fold n. rewrite (proj2 (Z.eqb_neq r 0)) by done.
    assert (bytes_at m' r (Z.to_nat n) = repeat 0 (Z.to_nat n)) as Eb.
    { apply nth_ext with 0 0; [by rewrite bytes_at_length, repeat_length|].
      intros i Hi. rewrite bytes_at_length in Hi. rewrite bytes_at_nth, Hm', decide_True by lia.
      by rewrite nth_repeat. }
    split; [right; split; [done|]; split; [done|]; by rewrite Eb|]. split; [done|].
    destruct (request_least n ltac:(lia)) as [Hrl _]. pose proof Hsame as (Eptr & _).
    rewrite <- Eptr in Hu.
    pose proof (owned_overwrite h' bl' _ r k (Z.to_nat n) m' Ho' Hu ltac:(lia)) as Ho2.
    rewrite insert_insert_eq in Ho2. apply Ho2.
    + eapply bytes_ok_filled; [apply Ho'| |done]. rewrite u8_small; lia.
    + intros x Hx. by rewrite Hm', decide_False by lia.
Qed.

Lemma on_mem_same h' : on_mem (fun _ => hm h') h' = h'.
Proof. by destruct h'. Qed.

(** [rt_realloc] on a block that is owned, by the way it takes. *)
Lemma realloc_owned p l n : o !! p = Some l -> 0 < n <= 4294967292 -> align_up n <= mem_size_aligned h ->
  call_ok fuel h o (Realloc p n).
Proof.
  intros Hl Hn Hle. destruct (align_up_req n ltac:(lia)) as (Ha & Ha4 & _).
  pose proof (owned_nonzero _ _ Hl) as Hp0.
  destruct (ho_holds _ _ _ Ho _ _ Hl) as (k & Hu & Hlk & Hb).
  set (t := p - heap_ptr h - 12) in *. assert (p = heap_ptr h + t + 12) as Ep by lia.
  pose proof (realloc_eq fuel h bl t k n (proj1 (ho_rep _ _ _ Ho)) Hu Hn Hle) as HR.
  cbv zeta in HR. rewrite <- Ep in HR. unfold call_ok. cbn [run_call]. rewrite HR. cbv zeta.
  destruct (Z.eqb_spec (k - 12) (align_up n)) as [Ek|].
  { exists h, p, bl. split; [done|]. split; [|split; [done|]].
    - eapply resized_promise; try done; by left.
    - rewrite owned_after_realloc, insert_delete_eq by done.
      pose proof (owned_overwrite h bl o p k (Z.to_nat n) (hm h) Ho Hu ltac:(lia) (ho_bytes _ _ _ Ho)
        (fun _ _ => eq_refl)) as H. by rewrite on_mem_same in H. }
  destruct (Z.ltb_spec (align_up n + 24) (k - 12)).
  { destruct (owned_shrink h bl o p l k (align_up n) (Z.to_nat n) Ho Hl Hu) as (Hsame & Hpre & bl' & Ho');
      [zlia|done|lia|lia|]. fold t in Hsame, Hpre, Ho'. set (h' := plug_holes _ _) in *.
    exists h', p, bl'. split; [done|]. split; [|split; [done|]].
    - eapply resized_promise; try done; [by left|]. intros l' i _ Hi. apply Hpre. lia.
    - by rewrite owned_after_realloc, insert_delete_eq by done. }
  by apply (owned_move h bl o p l n fuel t k).
Qed.

Lemma realloc_ok p n : legal o (Realloc p n) -> call_ok fuel h o (Realloc p n).
Proof.
  intros [Hn Hp]. destruct (align_up_req n Hn) as (Ha & Ha4 & Ha2).
  pose proof (hc_min _ _ (proj1 (ho_rep _ _ _ Ho))) as Hmin.
  assert ((p = 0 /\ 0 < n /\ align_up n <= mem_size_aligned h) \/ mem_size_aligned h < align_up n \/ n = 0 \/
    (exists l, o !! p = Some l /\ 0 < n /\ align_up n <= mem_size_aligned h)) as [(-> & Hn0 & Hle)|[Hgt|[->|H]]].
  { destruct (decide (n = 0)); [by auto|]. destruct (Z.lt_ge_cases (mem_size_aligned h) (align_up n)); [by auto|].
    destruct Hp as [->|[l Hl]]; [left|right; right; right; exists l]; split_and!; done || lia. }
  - unfold call_ok. cbn [run_call]. unfold rt_realloc. cbv zeta.
    rewrite Z.gtb_ltb, (proj2 (Z.ltb_ge _ _)), (proj2 (Z.eqb_neq (align_up n) 0)), Z.eqb_refl by lia.
    destruct (owned_malloc h bl o (align_up n) fuel Ho ltac:(lia) Hf) as (h' & r & E & [[-> ->]|H]).
    + exists h, 0, bl. split; [done|]. cbn [owned_after promised].
      rewrite (proj2 (Z.eqb_neq (align_up n) 0)), (proj2 (Z.eqb_neq n 0)), Z.eqb_refl by lia.
      split; [by left|by split].
    + destruct H as (Hr & _ & Hfr & Hsame & bl' & k & Hu & Hk & _ & Ho').
      exists h', r, bl'. split; [done|]. rewrite owned_after_realloc by (done || lia). rewrite delete_null.
      destruct (request_least (align_up n) ltac:(lia)) as [Hra _]. pose proof Hsame as (Eptr & _).
      rewrite <- Eptr in Hu.
      pose proof (owned_overwrite h' bl' _ r k (Z.to_nat n) (hm h') Ho' Hu ltac:(lia) (ho_bytes _ _ _ Ho')
        (fun _ _ => eq_refl)) as H. rewrite on_mem_same, insert_insert_eq in H.
      split; [|done]. right. rewrite delete_null. split; [done|]. split; [by right|].
      eexists. split; [done|]. split; [apply bytes_at_length|].
      intros old Hold. by apply owned_nonzero in Hold.
  - exists h, 0, bl. unfold run_call, rt_realloc. cbv zeta.
    rewrite Z.gtb_ltb, (proj2 (Z.ltb_lt _ _)) by lia. split; [done|]. cbn [owned_after promised].
    rewrite (proj2 (Z.eqb_neq (align_up n) 0)), (proj2 (Z.eqb_neq n 0)), Z.eqb_refl by lia.
    split; [by left|by split].
  - destruct (free_ok p Hp) as (h' & r & bl' & E & [-> _] & Hsame & Ho').
    exists h', 0, bl'. unfold run_call, rt_realloc. cbv zeta.
    rewrite Z.gtb_ltb, (proj2 (Z.ltb_ge _ _)) by (change (align_up 0) with 0; lia).
    change (align_up 0) with 0. cbn [Z.eqb].
    split; [cbn in E; by injection E as <-|]. split; [|split; [done|exact Ho']].
    left. split; [done|]. reflexivity.
  - destruct H as (l & Hl & Hn0 & Hle). apply (realloc_owned p l); [done|lia|done].
Qed.

Lemma every_call_ok c : legal o c -> call_ok fuel h o c.
Proof.
  destruct c; [apply malloc_ok|apply calloc_ok|apply realloc_ok|apply free_ok|apply write_ok].
Qed.
End calls.

(** ** Sessions: the heap from its initialisation on *)

(** The range given to [rt_system_heap_init] holds the two headers and one
    least block, and nothing is counted yet. *)
Definition heap_start (begin_addr end_addr : Z) (h0 : heap) : Prop :=
  0 < begin_addr <= 4294967292 /\ 0 <= end_addr < 4294967296 /\
  align_up begin_addr + 36 <= align_down end_addr /\
  bytes_ok (hm h0) /\ used_mem h0 = 0 /\ 0 <= max_mem h0.

Inductive session (begin_addr end_addr : Z) (h0 : heap) : heap -> gmap Z (list Z) -> Prop :=
  | session_init : session begin_addr end_addr h0 (rt_system_heap_init begin_addr end_addr h0) ∅
  | session_call h o c h' r :
      session begin_addr end_addr h0 h o -> legal o c -> run_call (heap_fuel h) c h = Some (h', r) ->
      session begin_addr end_addr h0 h' (owned_after o c r (hm h')).

Lemma session_owned b e h0 h o : heap_start b e h0 -> session b e h0 h o -> exists bl, heap_owned h bl o.
Proof.
  intros (Hb & He & Hfit & Hbytes & Hu & Hx). induction 1 as [|h o c h' r _ [bl IH] Hl E].
  - destruct (heap_init_rep b e (hm h0) h0 Hb He Hfit eq_refl Hu Hx) as (Hr & _).
    exists [(mem_size_aligned (rt_system_heap_init b e h0) + 12, false)]. split; [done| |done|].
    + unfold rt_system_heap_init. destruct (_ && _); [|done]. cbn [hm]. bytes_kept.
    + intros bb n [(? & _)|[]]. done.
  - destruct (every_call_ok _ _ _ _ IH (le_n _) c Hl) as (h2 & r2 & bl' & E2 & _ & _ & Ho').
    rewrite E in E2. injection E2 as <- <-. by exists bl'.
Qed.

(** A list without two free neighbours and without used blocks is one block. *)
Lemma merged_unused bl : merged bl -> bl <> [] -> (forall b n, ~ used_at 0 bl b n) -> exists n, bl = [(n, false)].
Proof.
  destruct bl as [|[n u] bl]; [done|]. intros [Hm _] _ Hu.
  destruct u; [exfalso; apply (Hu 0 n); by left|]. specialize (Hm eq_refl).
  destruct bl as [|[k [|]] bl]; [by exists n| |done].
  exfalso. apply (Hu (0 + n) k). right. by left.
Qed.

(** A heap nobody has anything of is a single free block. *)
Lemma owned_none h bl : heap_owned h bl ∅ ->
  used_mem h = 0 /\ lfree h = heap_ptr h /\ h_used (hm h) (heap_ptr h) = 0 /\
  heap_ptr h + h_next (hm h) (heap_ptr h) = heap_end h.
Proof.
  intros Ho. destruct (ho_rep _ _ _ Ho) as [Hc Hm]. pose proof (hc_total _ _ Hc) as Ht.
  pose proof (hc_end _ _ Hc) as He. pose proof (hc_used _ _ Hc) as Hu. pose proof (hc_min _ _ Hc) as Hmin.
  destruct (merged_unused bl Hm) as [n ->].
  { intros ->. cbn in Ht. lia. }
  { intros b n Hn. by destruct (ho_used _ _ _ Ho _ _ Hn) as [l Hl]. }
  cbn in Hu, Ht. split; [done|]. split; [pose proof (hc_lfree _ _ Hc) as Hl; cbn in Hl; lia|].
  destruct (hc_seg _ _ Hc) as (_ & Hus & Hnx & _). rewrite Z.add_0_r in *. split; [done|]. lia.
Qed.

(** C20 After any sequence of legal calls, the next legal call of [rt_malloc],
    [rt_calloc], [rt_realloc], [rt_free] or a store into a block returns: the
    loops of [rt_malloc] end.  The heap then implements independent arrays:
    [rt_malloc] gives a block nobody has or NULL, [rt_calloc] one of zeros,
    [rt_realloc] a block with the old contents up to the smaller of the two
    lengths or NULL and the old block untouched, [rt_free] and stores change
    the one block they name. *)
Theorem heap_serves_clients b e h0 h o c :
  heap_start b e h0 -> session b e h0 h o -> legal o c ->
  exists h' r, run_call (heap_fuel h) c h = Some (h', r) /\
    promised o c r (owned_after o c r (hm h')) /\ session b e h0 h' (owned_after o c r (hm h')).
Proof.
  intros Hs Hr Hl. destruct (session_owned _ _ _ _ _ Hs Hr) as [bl Ho].
  destruct (every_call_ok _ _ _ _ Ho (le_n _) c Hl) as (h' & r & _ & E & Hp & _).
  exists h', r. split_and!; [done|done|]. by eapply session_call.
Qed.

(** C21 Whatever the sequence of legal calls: every block handed out is aligned
    to 4, lies between [heap_ptr] and [heap_end] behind a header, and holds
    exactly the bytes its client put there; two blocks never overlap, nor does
    one overlap the header of the other; the count of used bytes stays within
    the heap and below [max_mem]; and once all is given back, the heap is a
    single free block again and the count is 0. *)
Theorem heap_blocks_safe b e h0 h o : heap_start b e h0 -> session b e h0 h o ->
  (forall p l, o !! p = Some l ->
     p `mod` 4 = 0 /\ heap_ptr h + 12 <= p /\ p + Z.of_nat (length l) <= heap_end h /\
     bytes_at (hm h) p (length l) = l) /\
  (forall p q l1 l2, o !! p = Some l1 -> o !! q = Some l2 -> p <> q ->
     p + Z.of_nat (length l1) <= q - 12 \/ q + Z.of_nat (length l2) <= p - 12) /\
  0 <= used_mem h <= mem_size_aligned h + 12 /\ used_mem h <= max_mem h /\
  (o = ∅ -> used_mem h = 0 /\ lfree h = heap_ptr h /\ h_used (hm h) (heap_ptr h) = 0 /\
     heap_ptr h + h_next (hm h) (heap_ptr h) = heap_end h).
Proof.
  intros Hst Hr. destruct (session_owned _ _ _ _ _ Hst Hr) as [bl Ho].
  pose proof (heap_owned_sizes _ _ _ Ho) as Hs. destruct (ho_rep _ _ _ Ho) as [Hc Hm].
  pose proof (hc_total _ _ Hc) as Ht. pose proof (hc_end _ _ Hc) as He. pose proof (hc_ptr _ _ Hc) as [Hp Hp4].
  pose proof (used_total_bound bl Hs) as Hub. pose proof (hc_used _ _ Hc) as Hu.
  split; [|split; [|split; [|split]]].
  - intros p l. by apply (owned_inside h bl o).
  - intros p q l1 l2. by apply (owned_apart h bl o).
  - lia.
  - apply (hc_max _ _ Hc).
  - intros ->. by apply (owned_none h bl).
Qed.

(** [rt_malloc] is first fit: the block it takes is the lowest free one whose
    payload holds the request, rounded up to 4 and at least 12; the rest is
    split off when it can hold a header and 12 bytes; NULL means that no free
    block below the limit [mem_size_aligned - request] fits.  The search ends
    within [heap_fuel] steps. *)
Theorem rt_malloc_first_fit h bl size fuel :
  heap_rep h bl -> 0 < size <= 4294967292 -> (heap_fuel h <= fuel)%nat ->
  match (if request size <=? mem_size_aligned h
         then first_fit (mem_size_aligned h - request size) (request size) 0 bl else None) with
  | Some (bl', o) => exists h', rt_malloc fuel size h = Some (h', heap_ptr h + o + 12) /\
      heap_rep h' bl' /\ mem_size_aligned h' = mem_size_aligned h
  | None => rt_malloc fuel size h = Some (h, 0)
  end.
Proof.
  intros Hr Hs Hf. pose proof (malloc_spec h bl size fuel Hr Hs Hf) as H.
  destruct (if request size <=? _ then _ else _) as [[bl' o]|]; [|done].
  destruct H as (h' & E & (l1 & n & l2 & _ & _ & _ & _ & Hr' & (_ & _ & Em) & _)). by exists h'.
Qed.

(** The search never leaves the end block of a heap with a block under 12. *)
Lemma malloc_loop_stuck h e fuel : 0 <= e < 4294967296 ->
  e < u32 (mem_size_aligned h - 12) -> h_used (hm h) (heap_ptr h + e) = 1 ->
  h_next (hm h) (heap_ptr h + e) = e -> malloc_loop fuel 12 e h = None.
Proof.
  intros He Hlt Hu Hn. induction fuel as [|fuel IH]; cbn [malloc_loop];
    rewrite (proj2 (Z.ltb_lt _ _)) by done; [done|].
  rewrite Hu, Hn. done.
Qed.

(** Where [rt_malloc] does not do what was asked: a request within 3 bytes of
    the end of [rt_size_t] wraps when it is rounded and is served as one of 12
    bytes; the whole payload of a free heap is refused although it fits; and
    in a heap with room for a block of only 4 or 8 bytes any request that
    passes the size test makes [rt_malloc] loop for ever. *)
Theorem rt_malloc_edges :
  (forall fuel h size, 4294967292 < size < 4294967296 -> 12 <= mem_size_aligned h ->
     rt_malloc fuel size h = rt_malloc fuel 12 h) /\
  (forall fuel h, heap_rep h [(mem_size_aligned h + 12, false)] -> (heap_fuel h <= fuel)%nat ->
     rt_malloc fuel (mem_size_aligned h) h = Some (h, 0) /\
     (16 <= mem_size_aligned h ->
      exists h', rt_malloc fuel (mem_size_aligned h - 4) h = Some (h', heap_ptr h + 12))) /\
  (forall b e h0 fuel, 0 < b <= 4294967292 -> 0 <= e < 4294967296 ->
     align_down e - align_up b = 28 \/ align_down e - align_up b = 32 ->
     rt_malloc fuel 4 (rt_system_heap_init b e h0) = None).
Proof.
  split; [|split].
  - intros fuel h size Hs Hm. unfold rt_malloc. cbv zeta.
    rewrite (proj2 (Z.eqb_neq size 0)) by lia. rewrite !align_up_eq.
    assert (4 * (u32 (size + 3) / 4) = 0) as -> by (unfold u32; zlia).
    change (4 * (u32 (12 + 3) / 4)) with 12. cbn [Z.eqb Z.ltb Z.compare].
    rewrite !Z.gtb_ltb, (proj2 (Z.ltb_ge (mem_size_aligned h) 0)),
      (proj2 (Z.ltb_ge (mem_size_aligned h) 12)) by lia. done.
  - intros fuel h Hr Hf. destruct Hr as [Hc Hm] eqn:E; clear E.
    pose proof (hc_min _ _ Hc). pose proof (hc_sizes _ _ Hc) as Hs. apply Forall_cons in Hs as [[_ Hs] _]. cbn in Hs.
    pose proof (hc_top _ _ Hc). pose proof (hc_end _ _ Hc). pose proof (hc_ptr _ _ Hc).
    assert (forall d, (d = 0 \/ d = 4) -> 12 <= mem_size_aligned h - d ->
      request (mem_size_aligned h - d) = mem_size_aligned h - d) as Hreq.
    { intros d Hd Hge. unfold request. rewrite align_up_eq, u32_small by lia. zlia. }
    split.
    + pose proof (malloc_spec h _ (mem_size_aligned h) fuel Hr ltac:(lia) Hf) as HM.
      pose proof (Hreq 0 ltac:(by left) ltac:(lia)) as E0. rewrite Z.sub_0_r in E0.
      rewrite E0, Z.leb_refl, Z.sub_diag in HM. done.
    + intros H16. pose proof (malloc_spec h _ (mem_size_aligned h - 4) fuel Hr ltac:(lia) Hf) as HM.
      rewrite Hreq, (proj2 (Z.leb_le _ _)) in HM by lia. cbn [first_fit negb andb] in HM.
      rewrite (proj2 (Z.ltb_lt 0 _)), Z.geb_leb, (proj2 (Z.leb_le _ _)) in HM by lia.
      destruct HM as (h' & E & _). exists h'. by rewrite E, Z.add_0_r.
  - intros b e h0 fuel Hb He Hd.
    assert (exists ms, (ms = 4 \/ ms = 8) /\ align_down e - align_up b = ms + 24) as (ms & Hms & Ed).
    { destruct Hd; [exists 4|exists 8]; lia. }
    assert (align_down e <= e /\ 0 < align_up b) as [Hde Hub].
    { rewrite align_down_eq, align_up_eq, u32_small by lia. split; zlia. }
    unfold rt_system_heap_init, SIZEOF_STRUCT_MEM. cbv zeta.
    rewrite Z.gtb_ltb, Z.geb_leb, (proj2 (Z.ltb_lt _ _)), (proj2 (Z.leb_le _ _)) by lia. cbn [andb].
    rewrite u32_small by lia. replace (align_down e - align_up b - 2 * 12) with ms by lia.
    match goal with |- context [align_up b + h_next ?mm (align_up b)] =>
      assert (h_next mm (align_up b) = ms + 12) as -> by (fields; apply u32_small; lia) end.
    match goal with |- rt_malloc _ _ ?hh = _ => set (h := hh) end.
    assert (mem_size_aligned h = ms /\ heap_ptr h = align_up b /\ lfree h = align_up b) as (E1 & E2 & E3) by done.
    assert (h_used (hm h) (heap_ptr h) = 0 /\ h_next (hm h) (heap_ptr h) = ms + 12) as [U0 N0].
    { unfold h. cbn [hm heap_ptr]. split; fields; [done|apply u32_small; lia]. }
    assert (h_used (hm h) (heap_ptr h + (ms + 12)) = 1 /\ h_next (hm h) (heap_ptr h + (ms + 12)) = ms + 12) as [U1 N1].
    { unfold h. cbn [hm heap_ptr]. split; fields; [done|apply u32_small; lia]. }
    clearbody h. unfold rt_malloc. change (align_up 4) with 4. cbn [Z.eqb]. cbv zeta. unfold MIN_SIZE_ALIGNED.
    rewrite E1, E3, E2, Z.sub_diag, Z.gtb_ltb, (proj2 (Z.ltb_ge ms 4)) by lia.
    change (4 <? 12) with true. change (u32 0) with 0. cbv iota.
    assert (ms + 12 < u32 (ms - 12)) as Hlim by (unfold u32; destruct Hms as [-> | ->]; done).
    destruct fuel as [|fuel]; cbn [malloc_loop]; rewrite E1, (proj2 (Z.ltb_lt 0 (u32 (ms - 12)))) by lia; [done|].
    rewrite Z.add_0_r, U0, N0. change (u32 (0 + SIZEOF_STRUCT_MEM)) with 12.
    rewrite (u32_small (ms + 12 - 12)), Z.geb_leb, (proj2 (Z.leb_gt _ _)) by lia. cbn [andb Z.eqb].
    apply malloc_loop_stuck; [lia|by rewrite E1|done|done].
Qed.

(** ** A heap of 72 bytes *)

Definition empty_heap : heap := mk_heap ∅ 0 0 0 0 0 0.
Definition demo : heap := rt_system_heap_init 1001 1102 empty_heap.
Definition step_heap (c : heap_call) (h : heap) : heap :=
  match run_call (heap_fuel h) c h with Some (h', _) => h' | None => h end.
Definition demo1 : heap := step_heap (Malloc 10) demo.
Definition demo2 : heap := step_heap (Malloc 20) demo1.
Definition demo_owned : gmap Z (list Z) :=
  <[1040 := repeat 0 20]> (<[1016 := repeat 0 10]> ∅).

Lemma demo_start : heap_start 1001 1102 empty_heap.
Proof. unfold heap_start. split_and!; try (vm_compute; congruence). apply bytes_ok_empty. Qed.

Lemma demo_rep : heap_rep demo [(mem_size_aligned demo + 12, false)] /\ mem_size_aligned demo = 72.
Proof.
  split; [|by vm_compute].
  destruct demo_start as (A & B & C & _ & D & E).
  exact (proj1 (heap_init_rep 1001 1102 ∅ empty_heap A B C eq_refl D E)).
Qed.

Lemma demo_session : session 1001 1102 empty_heap demo2 demo_owned.
Proof.
  assert (session 1001 1102 empty_heap demo1 (<[1016 := repeat 0 10]> ∅)) as H1.
  { assert (<[1016 := repeat 0 10]> ∅ = owned_after ∅ (Malloc 10) 1016 (hm demo1)) as ->
      by by vm_compute.
    apply session_call with demo; [constructor|cbn; lia|by vm_compute]. }
  assert (demo_owned = owned_after (<[1016 := repeat 0 10]> ∅) (Malloc 20) 1040 (hm demo2)) as -> by by vm_compute.
  apply session_call with demo1; [done|cbn; lia|by vm_compute].
Qed.

Lemma heap_serves_clients_witness :
  exists h' r, run_call (heap_fuel demo2) (Realloc 1016 4) demo2 = Some (h', r) /\
    promised demo_owned (Realloc 1016 4) r (owned_after demo_owned (Realloc 1016 4) r (hm h')) /\
    session 1001 1102 empty_heap h' (owned_after demo_owned (Realloc 1016 4) r (hm h')).
Proof.
  apply heap_serves_clients; [apply demo_start|apply demo_session|].
  split; [lia|right]. eexists; vm_compute; reflexivity.
Defined.

Lemma heap_blocks_safe_witness :
  (forall p l, demo_owned !! p = Some l ->
     p `mod` 4 = 0 /\ heap_ptr demo2 + 12 <= p /\ p + Z.of_nat (length l) <= heap_end demo2 /\
     bytes_at (hm demo2) p (length l) = l) /\ used_mem demo2 = 56.
Proof.
  split; [|by vm_compute].
  exact (proj1 (heap_blocks_safe 1001 1102 empty_heap demo2 demo_owned demo_start demo_session)).
Defined.

Lemma rt_malloc_first_fit_witness :
  request 10 = 12 /\ first_fit 60 12 0 [(84, false)] = Some ([(24, true); (60, false)], 0) /\
  exists h', rt_malloc (heap_fuel demo) 10 demo = Some (h', 1016).
Proof.
  split; [by vm_compute|]. split; [by vm_compute|].
  pose proof (rt_malloc_first_fit demo _ 10 (heap_fuel demo) (proj1 demo_rep) ltac:(lia) (le_n _)) as H.
  destruct H as (h' & E & _). exists h'. exact E.
Defined.

Lemma rt_malloc_edges_witness :
  rt_malloc (heap_fuel demo) 4294967293 demo = rt_malloc (heap_fuel demo) 12 demo /\
  rt_malloc (heap_fuel demo) 72 demo = Some (demo, 0) /\
  rt_malloc 1000 4 (rt_system_heap_init 1000 1032 empty_heap) = None.
Proof.
  destruct rt_malloc_edges as (A & B & C). split; [|split].
  - apply A; [lia|vm_compute; congruence].
  - exact (proj1 (B (heap_fuel demo) demo (proj1 demo_rep) (le_n _))).
  - apply C; [lia|lia|]. right. by vm_compute.
Defined.
