(* ===== verification/Periph.v ===== *)
(** * Periph: peripheral registers and the vendor library's access to them

    A program reads and writes device registers; a read is answered by the
    device, which is a parameter: any function of everything accessed so far.
    The functions below are those of
    [libraries/hal_libraries/ch32v307_hal/source] the accelerometer driver
    calls: [ch32v30x_i2c.c], [ch32v30x_gpio.c] and [ch32v30x_rcc.c]. *)
From S2P Require Import Prelude.

(** ** Register access *)

Inductive port := GPIOA | GPIOB | GPIOC | GPIOD | GPIOE.

(** USART1 to 3 and UART4 to 8. *)
Inductive usart := USART1 | USART2 | USART3 | UART4 | UART5 | UART6 | UART7 | UART8.
Inductive usart_reg := U_STATR | U_DATAR | U_BRR | U_CTLR1 | U_CTLR2 | U_CTLR3.
Inductive spi := SPI1 | SPI2 | SPI3.
Inductive spi_reg := S_CTLR1 | S_CTLR2 | S_STATR | S_DATAR | S_CRCR | S_I2SCFGR.
Inductive adc := ADC1 | ADC2.
Inductive adc_reg := A_STATR | A_CTLR1 | A_CTLR2 | A_SAMPTR1 | A_SAMPTR2 | A_RSQR1 | A_RSQR2 | A_RSQR3 | A_RDATAR.

Inductive reg :=
  (* I2C2 *)
  | CTLR1 | CTLR2 | OADDR1 | DATAR | STAR1 | STAR2 | CKCFGR | RTR
  (* RCC, EXTEN and the word that tells the chip family, at 0x1FFFF70C *)
  | CFGR0 | APB1PCENR | APB2PCENR | EXTEN_CTR | CHIP
  (* GPIO *)
  | CFGLR (p : port) | CFGHR (p : port) | BSHR (p : port) | BCR (p : port)
  (* serial ports, and the registers of the interrupt controller *)
  | USART (u : usart) (r : usart_reg) | IENR (i : Z) | IRER (i : Z) | IPRIOR (irq : Z)
  (* pins read, and external interrupt lines *)
  | INDR (p : port) | INTENR | EVENR | RTENR | FTENR | SWIEVR | INTFR | EXTICR (i : Z)
  (* serial peripheral interfaces, converters, and the resets of APB2 *)
  | SPI (x : spi) (r : spi_reg) | ADC (x : adc) (r : adc_reg) | APB2PRSTR.

(** An access, or a delay of the thread. *)
Inductive mmio := Rd (r : reg) (v : Z) | Wr (r : reg) (v : Z) | Delay (ms : Z).

(** Registers of I2C, serial ports and SPI have 16 bits, the others 32. *)
Definition width (r : reg) (v : Z) : Z :=
  match r with
  | CTLR1 | CTLR2 | OADDR1 | DATAR | STAR1 | STAR2 | CKCFGR | RTR | USART _ _ | SPI _ _ => u16 v
  | _ => u32 v
  end.

(** A program on the log of accesses, the latest first; [None] is spent fuel. *)
Definition M (A : Type) : Type := list mmio -> option (A * list mmio).
#[export] Instance M_ret : MRet M := fun A a t => Some (a, t).
#[export] Instance M_bind : MBind M := fun A B k m t => '(a, t) ← m t; k a t.

Inductive FunctionalState := DISABLE | ENABLE.
Definition enabled (s : FunctionalState) : bool := match s with ENABLE => true | DISABLE => false end.

Section vendor.
Context (dev : list mmio -> reg -> Z).

Definition load (r : reg) : M Z := fun t => let v := width r (dev t r) in Some (v, Rd r v :: t).
Definition write (r : reg) (v : Z) : M unit := fun t => Some (tt, Wr r (width r v) :: t).
Definition modify (r : reg) (f : Z -> Z) : M unit := v ← load r; write r (f v).
Definition delay_ms (ms : Z) : M unit := fun t => Some (tt, Delay ms :: t).

(** [while (!c);] *)
Fixpoint until (fuel : nat) (c : M bool) : M unit :=
  match fuel with
  | O => fun _ => None
  | S fuel => b ← c; if b : bool then mret tt else until fuel c
  end.

(** ** [ch32v30x_rcc.c] *)

Definition RCC_APB2PeriphClockCmd (RCC_APB2Periph : Z) (NewState : FunctionalState) : M unit :=
  if enabled NewState then modify APB2PCENR (fun v => v .| RCC_APB2Periph)
  else modify APB2PCENR (fun v => Z.ldiff v RCC_APB2Periph).
Definition RCC_APB1PeriphClockCmd (RCC_APB1Periph : Z) (NewState : FunctionalState) : M unit :=
  if enabled NewState then modify APB1PCENR (fun v => v .| RCC_APB1Periph)
  else modify APB1PCENR (fun v => Z.ldiff v RCC_APB1Periph).

Definition RCC_APB2Periph_GPIOA : Z := 0x00000004.
Definition RCC_APB2Periph_GPIOC : Z := 0x00000010.
Definition RCC_APB2Periph_GPIOB : Z := 0x00000008.

Definition HSE_VALUE : Z := 8000000.
Definition HSI_VALUE : Z := 8000000.
Definition APBAHBPrescTable : list Z := [0; 0; 0; 0; 1; 2; 3; 4; 1; 2; 3; 4; 6; 7; 8; 9].
Definition ADCPrescTable : list Z := [2; 4; 6; 8].

Record clocks := mk_clocks {
  SYSCLK_Frequency : Z; HCLK_Frequency : Z; PCLK1_Frequency : Z; PCLK2_Frequency : Z; ADCCLK_Frequency : Z }.

(** [pllmull] and [Pll_6_5] from the PLL bits, by chip family. *)
Definition pll_factor (chip pllmull : Z) : Z * bool :=
  let pllmull := pllmull + 2 in
  if chip .& 0x4000 =? 0 then (if pllmull =? 17 then 18 else pllmull, false)
  else
    let pllmull := if pllmull =? 2 then 18 else pllmull in
    let '(pllmull, half) := if pllmull =? 15 then (13, true) else (pllmull, false) in
    let pllmull := if pllmull =? 16 then 15 else pllmull in
    (if pllmull =? 17 then 16 else pllmull, half).

Definition sysclk : M Z :=
  cfg ← load CFGR0;
  let tmp := cfg .& 0xC in
  if tmp =? 0 then mret HSI_VALUE
  else if tmp =? 4 then mret HSE_VALUE
  else if tmp =? 8 then
    c1 ← load CFGR0; c2 ← load CFGR0; chip ← load CHIP;
    let '(pllmull, half) := pll_factor chip ((c1 .& 0x3C0000) ≫ 18) in
    freq ← (if c2 .& 0x10000 =? 0 then
              e ← load EXTEN_CTR;
              mret (if negb (e .& 0x10 =? 0) then u32 (HSI_VALUE * pllmull)
                    else u32 ((HSI_VALUE ≫ 1) * pllmull))
            else
              c3 ← load CFGR0;
              mret (if negb (c3 .& 0x20000 =? 0) then u32 ((HSE_VALUE ≫ 1) * pllmull)
                    else u32 (HSE_VALUE * pllmull)));
    mret (if half : bool then freq / 2 else freq)
  else mret HSI_VALUE.

(** A table looked up at bits of [CFGR0]; the masks keep it in range. *)
Definition presc (table : list Z) (mask shift : Z) : M Z :=
  c ← load CFGR0; mret (nth (Z.to_nat ((c .& mask) ≫ shift)) table 0).

Definition RCC_GetClocksFreq : M clocks :=
  sys ← sysclk;
  p ← presc APBAHBPrescTable 0xF0 4;
  let hclk := sys ≫ p in
  p ← presc APBAHBPrescTable 0x700 8;
  let pclk1 := hclk ≫ p in
  p ← presc APBAHBPrescTable 0x3800 11;
  let pclk2 := hclk ≫ p in
  p ← presc ADCPrescTable 0xC000 14;
  mret (mk_clocks sys hclk pclk1 pclk2 (pclk2 / p)).

(** ** [ch32v30x_gpio.c] *)

Inductive GPIOMode :=
  | GPIO_Mode_AIN | GPIO_Mode_IN_FLOATING | GPIO_Mode_IPD | GPIO_Mode_IPU
  | GPIO_Mode_Out_OD | GPIO_Mode_Out_PP | GPIO_Mode_AF_OD | GPIO_Mode_AF_PP.
Definition mode_bits (m : GPIOMode) : Z :=
  match m with
  | GPIO_Mode_AIN => 0 | GPIO_Mode_IN_FLOATING => 0x04 | GPIO_Mode_IPD => 0x28 | GPIO_Mode_IPU => 0x48
  | GPIO_Mode_Out_OD => 0x14 | GPIO_Mode_Out_PP => 0x10 | GPIO_Mode_AF_OD => 0x1C | GPIO_Mode_AF_PP => 0x18
  end.
Definition GPIO_Speed_50MHz : Z := 3.
Definition GPIO_Pin_2 : Z := 0x0004.
Definition GPIO_Pin_3 : Z := 0x0008.
Definition GPIO_Pin_9 : Z := 0x0200.
Definition GPIO_Pin_10 : Z := 0x400.
Definition GPIO_Pin_11 : Z := 0x800.

(** One of the two loops over eight pins: [base] is 0 or 8. *)
Fixpoint gpio_loop (n : nat) (p : port) (GPIO_Pin currentmode base : Z) (mode : GPIOMode)
    (pinpos tmpreg : Z) : M Z :=
  match n with
  | O => mret tmpreg
  | S n =>
      let pos := 1 ≪ (pinpos + base) in
      if GPIO_Pin .& pos =? pos then
        let pos := pinpos ≪ 2 in
        let pinmask := 0xF ≪ pos in
        let tmpreg := Z.ldiff tmpreg pinmask in
        let tmpreg := tmpreg .| (currentmode ≪ pos) in
        _ ← (if mode_bits mode =? mode_bits GPIO_Mode_IPD then write (BCR p) (1 ≪ (pinpos + base))
             else if mode_bits mode =? mode_bits GPIO_Mode_IPU then write (BSHR p) (1 ≪ (pinpos + base))
             else mret tt);
        gpio_loop n p GPIO_Pin currentmode base mode (pinpos + 1) tmpreg
      else gpio_loop n p GPIO_Pin currentmode base mode (pinpos + 1) tmpreg
  end.

Definition GPIO_Init (p : port) (GPIO_Pin GPIO_Speed : Z) (mode : GPIOMode) : M unit :=
  let currentmode := mode_bits mode .& 0xF in
  let currentmode :=
    if negb (mode_bits mode .& 0x10 =? 0) then currentmode .| GPIO_Speed else currentmode in
  _ ← (if negb (GPIO_Pin .& 0xFF =? 0) then
         tmpreg ← load (CFGLR p);
         tmpreg ← gpio_loop 8 p GPIO_Pin currentmode 0 mode 0 tmpreg;
         write (CFGLR p) tmpreg
       else mret tt);
  if GPIO_Pin >? 0xFF then
    tmpreg ← load (CFGHR p);
    tmpreg ← gpio_loop 8 p GPIO_Pin currentmode 8 mode 0 tmpreg;
    write (CFGHR p) tmpreg
  else mret tt.

(** ** [ch32v30x_i2c.c] *)

Definition CTLR1_PE_Set : Z := 0x0001.
Definition CTLR1_START_Set : Z := 0x0100.
Definition CTLR1_STOP_Set : Z := 0x0200.
Definition CTLR1_ACK_Set : Z := 0x0400.
Definition CTLR1_CLEAR_Mask : Z := 0xFBF5.
Definition CTLR2_FREQ_Reset : Z := 0xFFC0.
Definition CKCFGR_FS_Set : Z := 0x8000.
Definition CKCFGR_CCR_Set : Z := 0x0FFF.
Definition FLAG_Mask : Z := 0x00FFFFFF.

Definition I2C_EVENT_MASTER_MODE_SELECT : Z := 0x00030001.
Definition I2C_EVENT_MASTER_TRANSMITTER_MODE_SELECTED : Z := 0x00070082.
Definition I2C_EVENT_MASTER_RECEIVER_MODE_SELECTED : Z := 0x00030002.
Definition I2C_EVENT_MASTER_BYTE_TRANSMITTED : Z := 0x00070084.
Definition I2C_FLAG_TXE : Z := 0x10000080.
Definition I2C_FLAG_RXNE : Z := 0x10000040.

Inductive I2C_Direction := I2C_Direction_Transmitter | I2C_Direction_Receiver.

(** [set] or clear the bits of [CTLR1]. *)
Definition ctlr1_cmd (bits : Z) (NewState : FunctionalState) : M unit :=
  if enabled NewState then modify CTLR1 (fun v => v .| bits) else modify CTLR1 (fun v => Z.ldiff v bits).
Definition I2C_Cmd : FunctionalState -> M unit := ctlr1_cmd CTLR1_PE_Set.
Definition I2C_GenerateSTART : FunctionalState -> M unit := ctlr1_cmd CTLR1_START_Set.
Definition I2C_GenerateSTOP : FunctionalState -> M unit := ctlr1_cmd CTLR1_STOP_Set.
Definition I2C_AcknowledgeConfig : FunctionalState -> M unit := ctlr1_cmd CTLR1_ACK_Set.

Definition I2C_SendData (Data : Z) : M unit := write DATAR (u8 Data).
Definition I2C_ReceiveData : M Z := v ← load DATAR; mret (u8 v).

Definition I2C_Send7bitAddress (Address : Z) (d : I2C_Direction) : M unit :=
  let Address := u8 Address in
  write DATAR (match d with
               | I2C_Direction_Receiver => Address .| 1
               | I2C_Direction_Transmitter => Address .& 0xFE
               end).

Definition I2C_CheckEvent (I2C_EVENT : Z) : M bool :=
  flag1 ← load STAR1;
  flag2 ← load STAR2;
  let lastevent := (flag1 .| (flag2 ≪ 16)) .& FLAG_Mask in
  mret (lastevent .& I2C_EVENT =? I2C_EVENT).

(** The 32-bit load takes in 16 reserved bits, which no flag of [STAR1] or
    [STAR2] selects. *)
Definition I2C_GetFlagStatus (I2C_FLAG : Z) : M bool :=
  let i2creg := I2C_FLAG ≫ 28 in
  let flag := I2C_FLAG .& FLAG_Mask in
  if negb (i2creg =? 0) then v ← load STAR1; mret (negb (v .& flag =? 0))
  else v ← load STAR2; mret (negb (v .& (flag ≫ 16) =? 0)).

Record I2C_InitTypeDef := mk_i2c_init {
  I2C_ClockSpeed : Z; I2C_Mode : Z; I2C_DutyCycle : Z; I2C_OwnAddress1 : Z; I2C_Ack : Z;
  I2C_AcknowledgedAddress : Z }.
Definition I2C_Mode_I2C : Z := 0.
Definition I2C_DutyCycle_16_9 : Z := 0x4000.
Definition I2C_DutyCycle_2 : Z := 0xBFFF.
Definition I2C_Ack_Enable : Z := 0x0400.
Definition I2C_AcknowledgedAddress_7bit : Z := 0x4000.

(** The clock register and the rise time for a bus speed. *)
Definition i2c_timing (pclk1 freqrange : Z) (i : I2C_InitTypeDef) : Z * Z :=
  if I2C_ClockSpeed i <=? 100000 then
    let result := u16 (pclk1 / u32 (I2C_ClockSpeed i ≪ 1)) in
    let result := if result <? 4 then 4 else result in
    (result, u16 (freqrange + 1))
  else
    let result :=
      if I2C_DutyCycle i =? I2C_DutyCycle_2 then u16 (pclk1 / u32 (I2C_ClockSpeed i * 3))
      else u16 (pclk1 / u32 (I2C_ClockSpeed i * 25)) .| I2C_DutyCycle_16_9 in
    let result := if result .& CKCFGR_CCR_Set =? 0 then result .| 1 else result in
    (result .| CKCFGR_FS_Set, u16 (freqrange * 300 / 1000 + 1)).

Definition I2C_Init (i : I2C_InitTypeDef) : M unit :=
  tmpreg ← load CTLR2;
  let tmpreg := tmpreg .& CTLR2_FREQ_Reset in
  rcc_clocks ← RCC_GetClocksFreq;
  let pclk1 := PCLK1_Frequency rcc_clocks in
  let freqrange := u16 (pclk1 / 1000000) in
  let tmpreg := tmpreg .| freqrange in
  _ ← write CTLR2 tmpreg;
  _ ← modify CTLR1 (fun v => Z.ldiff v CTLR1_PE_Set);
  let '(ckcfgr, rtr) := i2c_timing pclk1 freqrange i in
  _ ← write RTR rtr;
  _ ← write CKCFGR ckcfgr;
  _ ← modify CTLR1 (fun v => v .| CTLR1_PE_Set);
  tmpreg ← load CTLR1;
  let tmpreg := tmpreg .& CTLR1_CLEAR_Mask in
  let tmpreg := tmpreg .| u16 (I2C_Mode i .| I2C_Ack i) in
  _ ← write CTLR1 tmpreg;
  write OADDR1 (I2C_AcknowledgedAddress i .| I2C_OwnAddress1 i).
End vendor.
