(* ===== verification/Registers.v ===== *)
(** * Registers: what was last written to a register, and what is left alone

    The registers of [Periph] compared, and the value of one according to the
    log of accesses.  Then a relation between the logs before and after that
    accesses to some registers do not disturb: programs that touch only those
    keep it, and always end; the functions of [Periph] that initialise clocks
    and pins are such programs. *)
From S2P Require Import Prelude Periph.

#[export] Instance port_eq : EqDecision port.
Proof. solve_decision. Defined.
#[export] Instance usart_eq : EqDecision usart.
Proof. solve_decision. Defined.
#[export] Instance usart_reg_eq : EqDecision usart_reg.
Proof. solve_decision. Defined.
#[export] Instance spi_eq : EqDecision spi.
Proof. solve_decision. Defined.
#[export] Instance spi_reg_eq : EqDecision spi_reg.
Proof. solve_decision. Defined.
#[export] Instance adc_eq : EqDecision adc.
Proof. solve_decision. Defined.
#[export] Instance adc_reg_eq : EqDecision adc_reg.
Proof. solve_decision. Defined.
#[export] Instance reg_eq : EqDecision reg.
Proof. solve_decision. Defined.

(** What was last written, zero from reset. *)
Fixpoint value (r : reg) (t : list mmio) : Z :=
  match t with
  | [] => 0
  | Wr r' v :: t => if decide (r' = r) then u32 v else value r t
  | _ :: t => value r t
  end.

Lemma value_range r t : 0 <= value r t < 4294967296.
Proof.
  induction t as [|[] t IH]; cbn [value]; [done|done| |done]. destruct (decide _); [apply u32_range|done].
Qed.

(** The bit of [APB2PRSTR] that holds a peripheral in reset. *)
Definition reset_bit (r : reg) : option Z :=
  match r with
  | CFGLR p | CFGHR p | BSHR p | BCR p | INDR p =>
      Some (match p with GPIOA => 2 | GPIOB => 3 | GPIOC => 4 | GPIOD => 5 | GPIOE => 6 end)
  | ADC ADC1 _ => Some 9
  | ADC ADC2 _ => Some 10
  | SPI SPI1 _ => Some 12
  | _ => None
  end.
Definition in_reset (r : reg) (t : list mmio) : bool :=
  match reset_bit r with Some n => Z.testbit (value APB2PRSTR t) n | None => false end.

(** A register that, out of reset, holds what is written to it and is changed
    by nothing else. *)
Definition latches (hw : list mmio -> reg -> Z) (r : reg) : Prop := forall a t,
  in_reset r t = false -> in_reset r (a :: t) = false ->
  width r (hw (a :: t) r) = match a with Wr r' v => if decide (r' = r) then width r v else width r (hw t r)
                                       | _ => width r (hw t r) end.

(** Accesses other than to [APB2PRSTR] reset nothing. *)
Lemma in_reset_cons r a t : (forall v, a <> Wr APB2PRSTR v) -> in_reset r (a :: t) = in_reset r t.
Proof.
  intros Ha. unfold in_reset. destruct (reset_bit r); [|done]. f_equal. destruct a as [r' v|r' v|ms]; cbn [value]; try done.
  rewrite decide_False; [done|]. intros ->. by apply (Ha v).
Qed.

(** ** Four bits of a register *)

Definition nibble (v k : Z) : Z := (v ≫ (4 * k)) .& 15.

Lemma small_bits p n : 0 <= p < 16 -> 4 <= n -> Z.testbit p n = false.
Proof. intros Hp Hn. apply (bits_above p 4); [by change (2 ^ 4) with 16|lia]. Qed.
Lemma nibble_testbit v k n : 0 <= k -> 0 <= n -> Z.testbit (nibble v k) n = (n <? 4) && Z.testbit v (n + 4 * k).
Proof.
  intros Hk Hn. unfold nibble. change 15 with (Z.ones 4).
  by rewrite Z.land_spec, Z.testbit_ones_nonneg, Z.shiftr_spec, andb_comm by lia.
Qed.
Lemma nibble_lor v w k : nibble (v .| w) k = nibble v k .| nibble w k.
Proof. unfold nibble. by rewrite Z.shiftr_lor, Z.land_lor_distr_l. Qed.
Lemma nibble_u32 v k : 0 <= k < 8 -> nibble (u32 v) k = nibble v k.
Proof.
  intros Hk. apply Z.bits_inj'. intros n Hn. rewrite !nibble_testbit by lia.
  destruct (Z.ltb_spec n 4); [|done]. by rewrite u32_testbit by lia.
Qed.

(** One replaced. *)
Lemma nibble_put v p k k' : 0 <= p < 16 -> 0 <= k -> 0 <= k' ->
  nibble (Z.ldiff v (0xF ≪ (4 * k)) .| (p ≪ (4 * k))) k' = if k' =? k then p else nibble v k'.
Proof.
  intros Hp Hk Hk'. apply Z.bits_inj'. intros n Hn. change 0xF with (Z.ones 4).
  rewrite nibble_testbit, Z.lor_spec, Z.ldiff_spec, !Z.shiftl_spec by lia.
  destruct (Z.eqb_spec k' k) as [->|Hne]; [|rewrite nibble_testbit by lia]; destruct (Z.ltb_spec n 4) as [H4|H4].
  - replace (n + 4 * k - 4 * k) with n by lia. rewrite Z.testbit_ones_nonneg, (proj2 (Z.ltb_lt n 4)) by lia.
    by rewrite andb_false_r.
  - by rewrite (small_bits p n) by lia.
  - cbn [andb]. destruct (Z.lt_ge_cases (n + 4 * k' - 4 * k) 0) as [Hs|Hs].
    + rewrite !(Z.testbit_neg_r _ (n + 4 * k' - 4 * k)) by lia. by rewrite andb_true_r, orb_false_r.
    + rewrite (Z.testbit_ones_nonneg 4), (proj2 (Z.ltb_ge (n + 4 * k' - 4 * k) 4)), (small_bits p) by lia.
      by rewrite andb_true_r, orb_false_r.
  - done.
Qed.

Lemma value_latches hw r : (forall t, hw t r = value r t) -> latches hw r.
Proof.
  intros Hv a t _ _. rewrite !Hv. destruct a as [r' v|r' v|]; cbn [value]; try done.
  destruct (decide _); [|done]. destruct r; cbn [width]; unfold u16, u32; zlia.
Qed.

(** ** Programs that leave alone what one looks at *)

(** [R] is preserved by accesses to the registers in [still]. *)
Class Undisturbed (R : list mmio -> list mmio -> Prop) (still : reg -> bool) := {
  und_order :: PreOrder R;
  und_rd r v t : still r = true -> R t (Rd r v :: t);
  und_wr r v t : still r = true -> R t (Wr r v :: t) }.

Definition steady (R : list mmio -> list mmio -> Prop) {A} (m : M A) : Prop :=
  forall t, exists a t', m t = Some (a, t') /\ R t t'.

(** Registers of the clocks and of the pins. *)
Definition pin_or_clock (r : reg) : bool :=
  match r with
  | CFGR0 | APB1PCENR | APB2PCENR | EXTEN_CTR | CHIP | CFGLR _ | CFGHR _ | BSHR _ | BCR _ => true
  | _ => false
  end.

Create HintDb steady.

Section steady.
Context {R : list mmio -> list mmio -> Prop} {still : reg -> bool} `{Undisturbed R still}.
Context (hw : list mmio -> reg -> Z).

Lemma steady_ret {A} (a : A) : steady R (mret a).
Proof. intros t. exists a, t. split; [done|reflexivity]. Qed.
Lemma steady_bind {A B} (m : M A) (k : A -> M B) : steady R m -> (forall a, steady R (k a)) -> steady R (mbind k m).
Proof.
  intros Hm Hk t. destruct (Hm t) as (a & t' & E & Hr), (Hk a t') as (b & t2 & E2 & Hr2).
  exists b, t2. unfold mbind, M_bind. rewrite E. split; [done|by etrans].
Qed.
Lemma steady_load r : still r = true -> steady R (load hw r).
Proof. intros Hr t. do 2 eexists. split; [done|by apply und_rd]. Qed.
Lemma steady_write r v : still r = true -> steady R (write r v).
Proof. intros Hr t. do 2 eexists. split; [done|by apply und_wr]. Qed.
Lemma steady_modify r f : still r = true -> steady R (modify hw r f).
Proof. intros Hr. apply steady_bind; [by apply steady_load|]. intros v. by apply steady_write. Qed.

(** A program that ends with a value whatever it read. *)
Lemma steady_then {A B} (m : M A) (b : B) : steady R m -> forall t, exists t', (_ ← m; mret b) t = Some (b, t') /\ R t t'.
Proof. intros Hm t. destruct (Hm t) as (a & t' & E & Hr). exists t'. unfold mbind, M_bind. by rewrite E. Qed.
End steady.

#[export] Hint Resolve steady_ret steady_load steady_write steady_modify : steady.

Ltac steady := repeat first
  [ progress (eauto with steady typeclass_instances)
  | apply steady_bind; [|intros ?]
  | match goal with
    | |- steady _ (match ?b with _ => _ end) => destruct b
    | |- steady _ (let '(_, _) := ?p in _) => destruct p
    end ].

(** ** Programs that may not end

    [leaves]: the same, when the program ends, for the programs that poll. *)
Definition leaves (R : list mmio -> list mmio -> Prop) {A} (m : M A) : Prop :=
  forall t a t', m t = Some (a, t') -> R t t'.

(** A delay does not disturb either. *)
Class Patient (R : list mmio -> list mmio -> Prop) := und_wait ms t : R t (Delay ms :: t).

Section leaves.
Context {R : list mmio -> list mmio -> Prop} {still : reg -> bool} `{Undisturbed R still}.
Context (hw : list mmio -> reg -> Z).

Lemma steady_leaves {A} (m : M A) : steady R m -> leaves R m.
Proof. intros Hm t a t' E. destruct (Hm t) as (? & ? & E1 & ?). rewrite E in E1. by injection E1 as <- <-. Qed.
Lemma leaves_ret {A} (a : A) : leaves R (mret a).
Proof. apply steady_leaves, steady_ret. Qed.
Lemma leaves_bind {A B} (m : M A) (k : A -> M B) : leaves R m -> (forall a, leaves R (k a)) -> leaves R (mbind k m).
Proof.
  intros Hm Hk t a t' E. unfold mbind, M_bind in E. destruct (m t) as [[x t1]|] eqn:E1; [|done].
  etrans; [by eapply Hm|by eapply Hk].
Qed.
Lemma leaves_load r : still r = true -> leaves R (load hw r).
Proof. intros Hr. by apply steady_leaves, steady_load. Qed.
Lemma leaves_write r v : still r = true -> leaves R (write r v).
Proof. intros Hr. by apply steady_leaves, steady_write. Qed.
Lemma leaves_modify r f : still r = true -> leaves R (modify hw r f).
Proof. intros Hr. by apply steady_leaves, steady_modify. Qed.
Lemma leaves_none {A} : leaves R ((fun _ => None) : M A).
Proof. by intros t a t'. Qed.
Lemma leaves_delay `{Patient R} ms : leaves R (delay_ms ms).
Proof. intros t a t' [= _ <-]. apply und_wait. Qed.
Lemma leaves_until (c : M bool) f : leaves R c -> leaves R (until f c).
Proof.
  intros Hc. induction f as [|f IH]; [apply leaves_none|]. cbn [until]. apply leaves_bind; [done|].
  intros []; [apply leaves_ret|done].
Qed.
End leaves.

#[export] Hint Resolve leaves_ret leaves_load leaves_write leaves_modify leaves_none leaves_delay leaves_until : steady.

Ltac leaves := repeat first
  [ progress (eauto with steady typeclass_instances)
  | apply leaves_bind; [|intros ?]
  | apply leaves_until
  | match goal with
    | |- leaves _ (match ?b with _ => _ end) => destruct b
    | |- leaves _ (let '(_, _) := ?p in _) => destruct p
    end ].

(** ** Programs that end, from a condition to another *)

Definition triple {A} (P : list mmio -> Prop) (m : M A) (Q : A -> list mmio -> Prop) : Prop :=
  forall t, P t -> exists a t', m t = Some (a, t') /\ Q a t'.

Lemma triple_bind {A B} P (m : M A) Q (k : A -> M B) S :
  triple P m Q -> (forall a, triple (Q a) (k a) S) -> triple P (mbind k m) S.
Proof.
  intros Hm Hk t Ht. destruct (Hm t Ht) as (a & t1 & E & H1), (Hk a t1 H1) as (b & t2 & E2 & H2).
  exists b, t2. unfold mbind, M_bind. by rewrite E.
Qed.
Lemma triple_seq {A B} P (m : M A) Q (k : A -> M B) S :
  triple P m (fun _ => Q) -> (forall a, triple Q (k a) S) -> triple P (mbind k m) S.
Proof. intros Hm Hk. by eapply triple_bind. Qed.
Lemma triple_ret {A} P (a : A) : triple P (mret a) (fun b t => b = a /\ P t).
Proof. intros t Ht. by exists a, t. Qed.

(** The first of two programs run. *)
Lemma bind_run {A B} (m : M A) (k : A -> M B) t a t' : m t = Some (a, t') -> mbind k m t = k a t'.
Proof. intros E. unfold mbind, M_bind. by rewrite E. Qed.

(** What does not disturb keeps what is not disturbed. *)
Lemma steady_triple R {A} (m : M A) (P : list mmio -> Prop) : steady R m ->
  (forall t t', R t t' -> P t -> P t') -> triple P m (fun _ => P).
Proof. intros Hm HR t Ht. destruct (Hm t) as (a & t' & E & Hr). exists a, t'. split; [done|by eapply HR]. Qed.

(** ** Clocks and pins *)

(** Setting up the pins of a port touches the registers of that port. *)
Definition port_reg (p : port) (r : reg) : Prop := r = CFGLR p \/ r = CFGHR p \/ r = BSHR p \/ r = BCR p.

Section gpio.
Context {R : list mmio -> list mmio -> Prop} {still : reg -> bool} `{Undisturbed R still}.
Context (hw : list mmio -> reg -> Z) (p : port) (Hstill : forall r, port_reg p r -> still r = true).

#[local] Hint Extern 1 (still _ = true) => apply Hstill; unfold port_reg; tauto : steady.
Lemma steady_gpio_loop n : forall pin mode base m pos tmp, steady R (gpio_loop n p pin mode base m pos tmp).
Proof. induction n as [|n IH]; intros; cbn [gpio_loop]; steady. Qed.
#[local] Hint Resolve steady_gpio_loop : steady.
Lemma steady_gpio_port pin sp m : steady R (GPIO_Init hw p pin sp m).
Proof. unfold GPIO_Init. steady. Qed.
End gpio.

Section vendor.
Context {R : list mmio -> list mmio -> Prop} {still : reg -> bool} `{Undisturbed R still}.
Context (Hstill : forall r, pin_or_clock r = true -> still r = true) (hw : list mmio -> reg -> Z).

Lemma steady_gpio p pin sp m : steady R (GPIO_Init hw p pin sp m).
Proof. apply steady_gpio_port. intros r Hr. apply Hstill. by destruct Hr as [->|[->|[->| ->]]]. Qed.
Lemma steady_clock1 x s : steady R (RCC_APB1PeriphClockCmd hw x s).
Proof. unfold RCC_APB1PeriphClockCmd. steady. Qed.
Lemma steady_clock2 x s : steady R (RCC_APB2PeriphClockCmd hw x s).
Proof. unfold RCC_APB2PeriphClockCmd. steady. Qed.
Lemma steady_freq : steady R (RCC_GetClocksFreq hw).
Proof. unfold RCC_GetClocksFreq, sysclk, presc. steady. Qed.
End vendor.
