(* ===== verification/Mpu6050.v ===== *)
(** * Mpu6050: the accelerometer driver

    [applications/MPU6050.c] and [MPU6050.h]: the I2C transfers of the driver as
    accesses to the peripheral registers ([Periph]), each polling loop with
    fuel.  A buffer argument is the list of bytes it holds at the end. *)
From S2P Require Import Prelude Periph.

Definition MPU_SAMPLE_RATE_REG : Z := 0x19.
Definition MPU_CFG_REG : Z := 0x1A.
Definition MPU_GYRO_CFG_REG : Z := 0x1B.
Definition MPU_ACCEL_CFG_REG : Z := 0x1C.
Definition MPU_FIFO_EN_REG : Z := 0x23.
Definition MPU_INTBP_CFG_REG : Z := 0x37.
Definition MPU_INT_EN_REG : Z := 0x38.
Definition MPU_ACCEL_XOUTH_REG : Z := 0x3B.
Definition MPU_GYRO_XOUTH_REG : Z := 0x43.
Definition MPU_USER_CTRL_REG : Z := 0x6A.
Definition MPU_PWR_MGMT1_REG : Z := 0x6B.
Definition MPU_PWR_MGMT2_REG : Z := 0x6C.
Definition MPU_DEVICE_ID_REG : Z := 0x75.
Definition MPU_ADDR : Z := 0x68.

Section driver.
Context (dev : list mmio -> reg -> Z) (fuel : nat).

Let wait_event (ev : Z) : M unit := until fuel (I2C_CheckEvent dev ev).
Let wait_flag (fl : Z) : M unit := until fuel (I2C_GetFlagStatus dev fl).

(** ** Transfers *)

Definition MPU_Write_Byte (reg data : Z) : M Z :=
  _ ← I2C_AcknowledgeConfig dev ENABLE;
  _ ← I2C_GenerateSTART dev ENABLE;
  _ ← wait_event I2C_EVENT_MASTER_MODE_SELECT;
  _ ← I2C_Send7bitAddress (MPU_ADDR ≪ 1) I2C_Direction_Transmitter;
  _ ← wait_event I2C_EVENT_MASTER_TRANSMITTER_MODE_SELECTED;
  _ ← wait_flag I2C_FLAG_TXE;
  _ ← I2C_SendData reg;
  _ ← wait_event I2C_EVENT_MASTER_BYTE_TRANSMITTED;
  _ ← wait_flag I2C_FLAG_TXE;
  _ ← I2C_SendData data;
  _ ← I2C_GenerateSTOP dev ENABLE;
  mret 0.

Definition MPU_Read_Byte (reg : Z) : M Z :=
  _ ← I2C_AcknowledgeConfig dev ENABLE;
  _ ← I2C_GenerateSTART dev ENABLE;
  _ ← wait_event I2C_EVENT_MASTER_MODE_SELECT;
  _ ← I2C_Send7bitAddress (MPU_ADDR ≪ 1) I2C_Direction_Transmitter;
  _ ← wait_event I2C_EVENT_MASTER_TRANSMITTER_MODE_SELECTED;
  _ ← I2C_SendData reg;
  _ ← wait_event I2C_EVENT_MASTER_BYTE_TRANSMITTED;
  _ ← I2C_GenerateSTART dev ENABLE;
  _ ← wait_event I2C_EVENT_MASTER_MODE_SELECT;
  _ ← I2C_Send7bitAddress ((MPU_ADDR ≪ 1) .| 1) I2C_Direction_Receiver;
  _ ← wait_event I2C_EVENT_MASTER_RECEIVER_MODE_SELECTED;
  _ ← wait_flag I2C_FLAG_RXNE;
  res ← I2C_ReceiveData dev;
  _ ← I2C_GenerateSTOP dev ENABLE;
  mret res.

(** [while(i < len)]: every round polls [TXE] once and sends when it is set. *)
Fixpoint write_loop (f : nat) (buf : list Z) : M unit :=
  match buf with
  | [] => mret tt
  | c :: rest =>
      match f with
      | O => fun _ => None
      | S f =>
          txe ← I2C_GetFlagStatus dev I2C_FLAG_TXE;
          if txe : bool then _ ← I2C_SendData c; write_loop f rest else write_loop f buf
      end
  end.

Definition MPU_Write_Len (addr reg : Z) (buf : list Z) : M Z :=
  _ ← I2C_AcknowledgeConfig dev ENABLE;
  _ ← I2C_GenerateSTART dev ENABLE;
  _ ← wait_event I2C_EVENT_MASTER_MODE_SELECT;
  _ ← I2C_Send7bitAddress (addr ≪ 1) I2C_Direction_Transmitter;
  _ ← wait_event I2C_EVENT_MASTER_TRANSMITTER_MODE_SELECTED;
  _ ← wait_flag I2C_FLAG_TXE;
  _ ← I2C_SendData reg;
  _ ← write_loop (fuel * length buf) buf;
  _ ← wait_flag I2C_FLAG_TXE;
  _ ← I2C_GenerateSTOP dev ENABLE;
  mret 0.

(** [while(i < len)]: reads [len - i] bytes; the acknowledge is switched off
    before the last byte but one is fetched. *)
Fixpoint read_loop (f : nat) (i len : Z) : M (list Z) :=
  if i <? len then
    match f with
    | O => fun _ => None
    | S f =>
        rxne ← I2C_GetFlagStatus dev I2C_FLAG_RXNE;
        if rxne : bool then
          c ← (if i =? len - 2 then _ ← I2C_AcknowledgeConfig dev DISABLE; I2C_ReceiveData dev
               else I2C_ReceiveData dev);
          rest ← read_loop f (i + 1) len;
          mret (c :: rest)
        else read_loop f i len
    end
  else mret [].

Definition MPU_Read_Len (addr reg len : Z) : M (Z * list Z) :=
  _ ← I2C_AcknowledgeConfig dev ENABLE;
  _ ← I2C_GenerateSTART dev ENABLE;
  _ ← wait_event I2C_EVENT_MASTER_MODE_SELECT;
  _ ← I2C_Send7bitAddress (addr ≪ 1) I2C_Direction_Transmitter;
  _ ← wait_event I2C_EVENT_MASTER_TRANSMITTER_MODE_SELECTED;
  _ ← I2C_SendData reg;
  _ ← I2C_GenerateSTART dev ENABLE;
  _ ← wait_event I2C_EVENT_MASTER_MODE_SELECT;
  _ ← I2C_Send7bitAddress ((addr ≪ 1) .| 1) I2C_Direction_Receiver;
  _ ← wait_event I2C_EVENT_MASTER_RECEIVER_MODE_SELECTED;
  buf ← read_loop (fuel * Z.to_nat len) 0 len;
  _ ← I2C_GenerateSTOP dev ENABLE;
  mret (0, buf).

(** ** Settings *)

Definition RCC_APB1Periph_I2C2 : Z := 0x400000.

Definition I2C_Accelerometer_Init (bound address : Z) : M unit :=
  _ ← RCC_APB2PeriphClockCmd dev RCC_APB2Periph_GPIOB ENABLE;
  _ ← RCC_APB1PeriphClockCmd dev RCC_APB1Periph_I2C2 ENABLE;
  _ ← GPIO_Init dev GPIOB GPIO_Pin_10 GPIO_Speed_50MHz GPIO_Mode_AF_OD;
  _ ← GPIO_Init dev GPIOB GPIO_Pin_11 GPIO_Speed_50MHz GPIO_Mode_AF_OD;
  _ ← I2C_Init dev (mk_i2c_init bound I2C_Mode_I2C I2C_DutyCycle_16_9 address I2C_Ack_Enable
                      I2C_AcknowledgedAddress_7bit);
  _ ← I2C_Cmd dev ENABLE;
  I2C_AcknowledgeConfig dev ENABLE.

Definition MPU_Init : M Z :=
  _ ← I2C_Accelerometer_Init 100000 2;
  _ ← delay_ms 200;
  _ ← MPU_Write_Byte MPU_PWR_MGMT1_REG 0;
  _ ← MPU_Write_Byte MPU_SAMPLE_RATE_REG 7;
  _ ← MPU_Write_Byte MPU_CFG_REG 6;
  _ ← MPU_Write_Byte MPU_ACCEL_CFG_REG 0;
  _ ← MPU_Write_Byte MPU_GYRO_CFG_REG 0;
  _ ← MPU_Write_Byte MPU_INT_EN_REG 0;
  _ ← MPU_Write_Byte MPU_USER_CTRL_REG 0;
  _ ← MPU_Write_Byte MPU_FIFO_EN_REG 0;
  _ ← MPU_Write_Byte MPU_INTBP_CFG_REG 0x80;
  res ← MPU_Read_Byte MPU_DEVICE_ID_REG;
  if res =? MPU_ADDR then
    _ ← MPU_Write_Byte MPU_PWR_MGMT1_REG 1;
    _ ← MPU_Write_Byte MPU_PWR_MGMT2_REG 0;
    _ ← MPU_Write_Byte MPU_SAMPLE_RATE_REG 7;
    mret 0
  else mret 1.

Definition MPU_Set_Gyro_Fsr (fsr : Z) : M Z := MPU_Write_Byte MPU_GYRO_CFG_REG (u8 (fsr ≪ 3)).
Definition MPU_Set_Accel_Fsr (fsr : Z) : M Z := MPU_Write_Byte MPU_ACCEL_CFG_REG (u8 (fsr ≪ 3)).

(** The filter setting for a bandwidth. *)
Definition lpf_data (lpf : Z) : Z :=
  if lpf >=? 188 then 1
  else if lpf >=? 98 then 2
  else if lpf >=? 42 then 3
  else if lpf >=? 20 then 4
  else if lpf >=? 10 then 5
  else 6.
Definition MPU_Set_LPF (lpf : Z) : M Z := MPU_Write_Byte MPU_CFG_REG (lpf_data lpf).

Definition clamp_rate (rate : Z) : Z :=
  let rate := if rate >? 1000 then 1000 else rate in if rate <? 4 then 4 else rate.
Definition MPU_Set_Rate (rate : Z) : M Z :=
  let rate := clamp_rate rate in
  _ ← MPU_Write_Byte MPU_SAMPLE_RATE_REG (u8 (1000 / rate - 1));
  MPU_Set_LPF (rate / 2).

(** ** Readings *)

(** [((u16)buf[i]<<8)|buf[i+1]] *)
Definition word_be (buf : list Z) (i : nat) : Z := (nth i buf 0 ≪ 8) .| nth (S i) buf 0.

(** The result and, where it is 0, what is stored through the three pointers. *)
Definition read_axes (reg : Z) : M (Z * option (Z * Z * Z)) :=
  '(res, buf) ← MPU_Read_Len MPU_ADDR reg 6;
  mret (res, if res =? 0 then Some (word_be buf 0, word_be buf 2, word_be buf 4) else None).
Definition MPU_Get_Gyroscope : M (Z * option (Z * Z * Z)) := read_axes MPU_GYRO_XOUTH_REG.
Definition MPU_Get_Accelerometer : M (Z * option (Z * Z * Z)) := read_axes MPU_ACCEL_XOUTH_REG.
End driver.
