(* ===== verification/MpuBus.v ===== *)
(** * MpuBus: the accelerometer driver on the bus

    What the register accesses of [Mpu6050] mean on the I2C bus and to the
    sensor at its other end.  The peripheral and the sensor are not code of
    this repository: what the driver relies on is stated as laws of the device
    parameter, the documented behaviour of an I2C master and of a sensor with
    a register file whose address advances after each byte. *)
From S2P Require Import Prelude Bytes Periph Mpu6050.

(** ** The bus *)

Inductive ev := START | STOP | SEND (v : Z) | RECV (v : Z) (acked : bool).

(** What was on the bus, the latest first; the acknowledge bit; and its value
    when the byte now on its way began. *)
Record bus := mk_bus { log : list ev; ack : bool; latch : bool }.

(** The request bits of [CTLR1], start (8) and stop (9), are set by the program
    and cleared by the peripheral when the condition has been generated: until
    then they read as set, and a read-modify-write writes them back.  [again] is
    what [CTLR1] read if that was the access before: a request bit that was set
    there is the request that is already pending, not another one.  (So a
    request is taken not to complete between the read and the write of one
    read-modify-write.) *)
Definition again (t : list mmio) : Z := match t with Rd CTLR1 v :: _ => v | _ => 0 end.
Definition requests (prev v bit : Z) : bool := Z.testbit v bit && negb (Z.testbit prev bit).

Definition bus_step (prev : Z) (b : bus) (a : mmio) : bus :=
  match a with
  | Wr CTLR1 v =>
      let l := if requests prev v 8 then START :: log b else log b in
      let l := if requests prev v 9 then STOP :: l else l in
      mk_bus l (Z.testbit v 10) (latch b)
  | Wr DATAR v => mk_bus (SEND v :: log b) (ack b) (ack b)
  | Rd DATAR v => mk_bus (RECV (u8 v) (latch b) :: log b) (ack b) (ack b)
  | _ => b
  end.
Fixpoint bus_of (t : list mmio) : bus :=
  match t with [] => mk_bus [] false false | a :: t => bus_step (again t) (bus_of t) a end.

(** What happened last is not a start condition, perhaps still to come. *)
Definition no_start (b : bus) : Prop := head (log b) <> Some START.

(** ** The sensor *)

Inductive phase := Idle | Addressed | Pointer | Writing | Reading.
Record sensor := mk_sensor { regs : memory; ptr : Z; mode : phase }.

Definition sensor_step (s : sensor) (e : ev) : sensor :=
  match e with
  | START => mk_sensor (regs s) (ptr s) Addressed
  | STOP => mk_sensor (regs s) (ptr s) Idle
  | SEND v =>
      match mode s with
      | Addressed =>
          mk_sensor (regs s) (ptr s)
            (if v =? 2 * MPU_ADDR then Pointer else if v =? 2 * MPU_ADDR + 1 then Reading else Idle)
      | Pointer => mk_sensor (regs s) v Writing
      | Writing => mk_sensor (<[ptr s := u8 v]> (regs s)) (ptr s + 1) Writing
      | _ => s
      end
  | RECV _ acked =>
      match mode s with
      | Reading => mk_sensor (regs s) (ptr s + 1) (if acked then Reading else Idle)
      | _ => s
      end
  end.
Fixpoint sensor_of (s0 : sensor) (l : list ev) : sensor :=
  match l with [] => s0 | e :: l => sensor_step (sensor_of s0 l) e end.

(** ** Laws *)

Inductive poll := Event (e : Z) | Flag (f : Z).
Definition poll_cond (dev : list mmio -> reg -> Z) (p : poll) : M bool :=
  match p with Event e => I2C_CheckEvent dev e | Flag f => I2C_GetFlagStatus dev f end.

(** The conditions the peripheral raises after what happened last, the sensor
    answering to its address. *)
Definition ready (l : list ev) : list poll :=
  match l with
  | START :: _ => [Event I2C_EVENT_MASTER_MODE_SELECT]
  | SEND v :: START :: _ =>
      if v =? 2 * MPU_ADDR then [Event I2C_EVENT_MASTER_TRANSMITTER_MODE_SELECTED; Flag I2C_FLAG_TXE]
      else if v =? 2 * MPU_ADDR + 1 then [Event I2C_EVENT_MASTER_RECEIVER_MODE_SELECTED; Flag I2C_FLAG_RXNE]
      else []
  | SEND _ :: _ => [Event I2C_EVENT_MASTER_BYTE_TRANSMITTED; Flag I2C_FLAG_TXE]
  | RECV _ true :: _ => [Flag I2C_FLAG_RXNE]
  | _ => []
  end.

(** What [CTLR1] may read in a state of the bus: the acknowledge bit as written;
    the start bit set only if a start condition was the last thing asked for,
    the stop bit only if a stop condition was. *)
Definition ctlr1_reads (b : bus) (v : Z) : Prop :=
  (Z.testbit v 8 = true -> head (log b) = Some START) /\
  (Z.testbit v 9 = true -> head (log b) = Some STOP) /\ Z.testbit v 10 = ack b.

(** [dev] is an I2C master with the sensor on its bus: [CTLR1] reads as above - a
    stop condition may be pending or over when the next transfer begins -, a
    condition that is due shows within [N] polls, and a byte received is the
    register the sensor's pointer is at. *)
Record i2c_sensor (dev : list mmio -> reg -> Z) (N : nat) (s0 : sensor) : Prop := {
  ctlr1_law : forall t, ctlr1_reads (bus_of t) (dev t CTLR1);
  ready_law : forall t p, In p (ready (log (bus_of t))) -> is_Some (until N (poll_cond dev p) t);
  data_law : forall t, mode (sensor_of s0 (log (bus_of t))) = Reading ->
    u8 (dev t DATAR) = rd (regs (sensor_of s0 (log (bus_of t)))) (ptr (sensor_of s0 (log (bus_of t)))) }.

(** ** Programs on the bus *)

(** From any log that puts the bus in state [b], [m] returns [a] and leaves the
    bus in [b']. *)
Definition runs {A} (m : M A) (b : bus) (a : A) (b' : bus) : Prop :=
  forall t, bus_of t = b -> exists t', m t = Some (a, t') /\ bus_of t' = b'.

Lemma runs_ret {A} (a : A) b : runs (mret a) b a b.
Proof. intros t <-. by exists t. Qed.
Lemma runs_bind {A B} (m : M A) (k : A -> M B) b1 a b2 c b3 :
  runs m b1 a b2 -> runs (k a) b2 c b3 -> runs (m ≫= k) b1 c b3.
Proof.
  intros Hm Hk t Ht. destruct (Hm t Ht) as (t1 & E & H1). destruct (Hk t1 H1) as (t2 & E2 & H2).
  exists t2. split; [|done]. unfold mbind, M_bind. by rewrite E.
Qed.

Lemma until_quiet c : (forall t b t', c t = Some (b, t') -> bus_of t' = bus_of t) ->
  forall n t t', until n c t = Some (tt, t') -> bus_of t' = bus_of t.
Proof.
  intros Hc. induction n as [|n IH]; intros t t'; [done|]. cbn [until]. unfold mbind, M_bind.
  destruct (c t) as [[b t1]|] eqn:E; [|done]. cbn [mbind option_bind]. apply Hc in E. destruct b.
  - intros [= <-]. done.
  - intros H%IH. congruence.
Qed.

Lemma poll_quiet dev p t b t' : poll_cond dev p t = Some (b, t') -> bus_of t' = bus_of t.
Proof.
  destruct p as [e|f]; cbn [poll_cond].
  - unfold I2C_CheckEvent, load. by intros [= _ <-].
  - unfold I2C_GetFlagStatus, load. by destruct (negb _); intros [= _ <-].
Qed.

Section on_bus.
Context (dev : list mmio -> reg -> Z) (N : nat) (s0 : sensor).
Hypothesis Hdev : i2c_sensor dev N s0.

Definition sens (b : bus) : sensor := sensor_of s0 (log b).

Lemma runs_poll p b : In p (ready (log b)) -> runs (until N (poll_cond dev p)) b tt b.
Proof.
  intros Hp t <-. destruct (ready_law _ _ _ Hdev t p Hp) as [[[] t'] E]. exists t'. split; [done|].
  by eapply until_quiet; [apply poll_quiet|].
Qed.
Lemma runs_event e b : In (Event e) (ready (log b)) -> runs (until N (I2C_CheckEvent dev e)) b tt b.
Proof. apply (runs_poll (Event e)). Qed.
Lemma runs_flag f b : In (Flag f) (ready (log b)) -> runs (until N (I2C_GetFlagStatus dev f)) b tt b.
Proof. apply (runs_poll (Flag f)). Qed.

(** A read-modify-write of [CTLR1]. *)
Lemma ctlr1_reads_u16 b v : ctlr1_reads b v -> ctlr1_reads b (u16 v).
Proof. unfold ctlr1_reads. by rewrite !u16_testbit by lia. Qed.

Lemma runs_modify f b l a :
  (forall v, ctlr1_reads b v -> bus_step v b (Wr CTLR1 (u16 (f v))) = mk_bus l a (latch b)) ->
  runs (modify dev CTLR1 f) b tt (mk_bus l a (latch b)).
Proof.
  intros H t <-. unfold modify, load, write. cbn [mbind M_bind option_bind width].
  eexists. split; [done|]. change (bus_of (Wr CTLR1 (u16 (f (u16 (dev t CTLR1)))) :: Rd CTLR1 (u16 (dev t CTLR1)) :: t))
    with (bus_step (u16 (dev t CTLR1)) (bus_of t) (Wr CTLR1 (u16 (f (u16 (dev t CTLR1)))))).
  apply H, ctlr1_reads_u16, (ctlr1_law _ _ _ Hdev).
Qed.

(** Bits written back as they were read ask for nothing. *)
Lemma requests_same v w bit : Z.testbit w bit = Z.testbit v bit -> requests v w bit = false.
Proof. unfold requests. intros ->. apply andb_negb_r. Qed.

(** One that keeps the two request bits. *)
Lemma runs_kept f b a :
  (forall v, ctlr1_reads b v -> Z.testbit (f v) 8 = Z.testbit v 8 /\ Z.testbit (f v) 9 = Z.testbit v 9 /\
     Z.testbit (f v) 10 = a) ->
  runs (modify dev CTLR1 f) b tt (mk_bus (log b) a (latch b)).
Proof.
  intros H. apply runs_modify. intros v Hv. destruct (H v Hv) as (H8 & H9 & Ha). cbn [bus_step].
  rewrite (requests_same v _ 8), (requests_same v _ 9), u16_testbit, Ha by (by rewrite ?u16_testbit by lia). done.
Qed.

Ltac ctlr1_bits := rewrite ?Z.lor_spec, ?Z.ldiff_spec; rewrite ?orb_false_r, ?andb_true_r; try done;
  by rewrite ?orb_true_r, ?andb_false_r.

Lemma runs_ack b : runs (I2C_AcknowledgeConfig dev ENABLE) b tt (mk_bus (log b) true (latch b)).
Proof. apply runs_kept. intros v _. split_and!; ctlr1_bits. Qed.
Lemma runs_nack b : runs (I2C_AcknowledgeConfig dev DISABLE) b tt (mk_bus (log b) false (latch b)).
Proof. apply runs_kept. intros v _. split_and!; ctlr1_bits. Qed.

(** A request, where the same one is not pending. *)
Lemma runs_start b : no_start b ->
  runs (I2C_GenerateSTART dev ENABLE) b tt (mk_bus (START :: log b) (ack b) (latch b)).
Proof.
  intros Hs. apply runs_modify. intros v (H8 & _ & Ha). cbn [bus_step].
  rewrite (requests_same v _ 9) by (rewrite u16_testbit by lia; ctlr1_bits). unfold requests.
  assert (Z.testbit v 8 = false) as -> by (destruct (Z.testbit v 8); [by destruct Hs; apply H8|done]).
  rewrite !u16_testbit by lia. rewrite <- Ha. f_equal; ctlr1_bits.
Qed.
Lemma runs_stop b : head (log b) <> Some STOP ->
  runs (I2C_GenerateSTOP dev ENABLE) b tt (mk_bus (STOP :: log b) (ack b) (latch b)).
Proof.
  intros Hs. apply runs_modify. intros v (_ & H9 & Ha). cbn [bus_step].
  rewrite (requests_same v _ 8) by (rewrite u16_testbit by lia; ctlr1_bits). unfold requests.
  assert (Z.testbit v 9 = false) as -> by (destruct (Z.testbit v 9); [by destruct Hs; apply H9|done]).
  rewrite !u16_testbit by lia. rewrite <- Ha. f_equal; ctlr1_bits.
Qed.

Lemma runs_send v b : 0 <= v < 256 -> runs (I2C_SendData v) b tt (mk_bus (SEND v :: log b) (ack b) (ack b)).
Proof.
  intros Hv t <-. eexists. split; [done|]. cbn [bus_of bus_step width].
  by rewrite u8_small, u16_small by lia.
Qed.

Lemma address_bytes addr : 0 <= addr < 128 ->
  u8 (addr ≪ 1) .& 0xFE = 2 * addr /\ u8 ((addr ≪ 1) .| 1) .| 1 = 2 * addr + 1.
Proof.
  intros Ha.
  assert (forallb (fun a => (u8 (a ≪ 1) .& 0xFE =? 2 * a) && (u8 ((a ≪ 1) .| 1) .| 1 =? 2 * a + 1))
    (map Z.of_nat (seq 0 128)) = true) as H by by vm_compute.
  rewrite forallb_forall in H. specialize (H addr). rewrite andb_true_iff, !Z.eqb_eq in H.
  apply H, in_map_iff. exists (Z.to_nat addr). split; [lia|]. apply in_seq. lia.
Qed.

Lemma runs_addr_w addr b : 0 <= addr < 128 ->
  runs (I2C_Send7bitAddress (addr ≪ 1) I2C_Direction_Transmitter) b tt
    (mk_bus (SEND (2 * addr) :: log b) (ack b) (ack b)).
Proof.
  intros Ha t <-. eexists. split; [done|]. cbn [bus_of bus_step width].
  rewrite (proj1 (address_bytes addr Ha)). by rewrite u16_small by lia.
Qed.
Lemma runs_addr_r addr b : 0 <= addr < 128 ->
  runs (I2C_Send7bitAddress ((addr ≪ 1) .| 1) I2C_Direction_Receiver) b tt
    (mk_bus (SEND (2 * addr + 1) :: log b) (ack b) (ack b)).
Proof.
  intros Ha t <-. eexists. split; [done|]. cbn [bus_of bus_step width].
  rewrite (proj2 (address_bytes addr Ha)). by rewrite u16_small by lia.
Qed.

Lemma runs_recv b : mode (sens b) = Reading ->
  runs (I2C_ReceiveData dev) b (rd (regs (sens b)) (ptr (sens b)))
    (mk_bus (RECV (rd (regs (sens b)) (ptr (sens b))) (latch b) :: log b) (ack b) (ack b)).
Proof.
  intros Hm t <-.
  pose proof (data_law _ _ _ Hdev t Hm) as Hd.
  assert (u8 (u16 (dev t DATAR)) = u8 (dev t DATAR)) as E by (unfold u8, u16; zlia).
  exists (Rd DATAR (u16 (dev t DATAR)) :: t). split.
  - change (Some (u8 (u16 (dev t DATAR)), Rd DATAR (u16 (dev t DATAR)) :: t) =
      Some (rd (regs (sens (bus_of t))) (ptr (sens (bus_of t))), Rd DATAR (u16 (dev t DATAR)) :: t)).
    by rewrite E, Hd.
  - cbn [bus_of bus_step]. by rewrite E, Hd.
Qed.

(** ** The transfers *)

Ltac is_due := first [left; reflexivity | right; left; reflexivity].

Ltac run_step :=
  lazymatch goal with
  | |- runs (mret _) _ _ _ => apply runs_ret
  | |- runs _ _ _ _ =>
      eapply runs_bind;
      [ first
          [ apply runs_ack | apply runs_nack | apply runs_start; by unfold no_start | apply runs_stop; by cbn
          | apply runs_event; is_due | apply runs_flag; is_due
          | apply runs_addr_w; unfold MPU_ADDR; lia | apply runs_addr_r; unfold MPU_ADDR; lia
          | apply runs_send; assumption ] | cbn [log ack latch] ]
  end.

(** The log after a register was written, and after a byte was read. *)
Definition wrote (reg data : Z) (b : bus) : bus :=
  mk_bus (STOP :: SEND data :: SEND reg :: SEND (2 * MPU_ADDR) :: START :: log b) true true.

Lemma write_byte_runs reg data b : no_start b -> 0 <= reg < 256 -> 0 <= data < 256 ->
  runs (MPU_Write_Byte dev N reg data) b 0 (wrote reg data b).
Proof. intros Hs Hr Hd. unfold MPU_Write_Byte. repeat run_step. Qed.

Definition read_byte (reg : Z) (b : bus) : bus :=
  mk_bus (STOP :: RECV (rd (regs (sens b)) reg) true :: SEND (2 * MPU_ADDR + 1) :: START :: SEND reg ::
    SEND (2 * MPU_ADDR) :: START :: log b) true true.

Lemma read_byte_runs reg b : no_start b -> 0 <= reg < 256 ->
  runs (MPU_Read_Byte dev N reg) b (rd (regs (sens b)) reg) (read_byte reg b).
Proof.
  intros Hs Hr. unfold MPU_Read_Byte. repeat run_step. eapply runs_bind; [by apply runs_recv|].
  cbn [log ack latch]. repeat run_step.
Qed.

(** The rounds of [read_loop] that only poll. *)
Lemma read_loop_polls i len n : i < len -> forall f t t1, (n <= f)%nat ->
  until n (I2C_GetFlagStatus dev I2C_FLAG_RXNE) t = Some (tt, t1) ->
  exists f', (f - n <= f')%nat /\ read_loop dev f i len t =
    (c ← (if i =? len - 2 then _ ← I2C_AcknowledgeConfig dev DISABLE; I2C_ReceiveData dev
          else I2C_ReceiveData dev);
     rest ← read_loop dev f' (i + 1) len; mret (c :: rest)) t1.
Proof.
  intros Hi. induction n as [|n IH]; intros f t t1 Hf; [done|]. destruct f as [|f]; [lia|].
  cbn [until read_loop]. rewrite (proj2 (Z.ltb_lt _ _)) by done.
  unfold mbind at 1 2, M_bind at 1 2.
  destruct (I2C_GetFlagStatus dev I2C_FLAG_RXNE t) as [[b t2]|]; [|done]. cbn [mbind option_bind].
  destruct b.
  - intros [= <-]. exists f. split; [lia|done].
  - intros H. destruct (IH f t2 t1 ltac:(lia) H) as (f' & Hf' & E). exists f'. split; [lia|done].
Qed.

(** Bytes received in a row, all but the last acknowledged. *)
Fixpoint received (vs : list Z) (l : list ev) : list ev :=
  match vs with
  | [] => l
  | [v] => RECV v false :: l
  | v :: vs => received vs (RECV v true :: l)
  end.
Lemma received_head vs : forall l, head l <> Some STOP -> head (received vs l) <> Some STOP.
Proof.
  induction vs as [|v vs IH]; intros l Hl; [done|]. destruct vs as [|w vs]; [done|].
  change (received (v :: w :: vs) l) with (received (w :: vs) (RECV v true :: l)). by apply IH.
Qed.
Definition from_ptr (s : sensor) (k : nat) : list Z := map (fun i => rd (regs s) (ptr s + Z.of_nat i)) (seq 0 k).

Lemma from_ptr_cons s k : from_ptr s (S k) =
  rd (regs s) (ptr s) :: from_ptr (mk_sensor (regs s) (ptr s + 1) Reading) k.
Proof.
  unfold from_ptr. cbn [seq map regs ptr]. rewrite Z.add_0_r. f_equal.
  rewrite <- seq_shift, map_map. apply map_ext. intros i. f_equal. lia.
Qed.

Lemma read_loop_runs k : forall i len b f, (0 < k)%nat -> len - i = Z.of_nat k ->
  mode (sens b) = Reading -> In (Flag I2C_FLAG_RXNE) (ready (log b)) ->
  (if decide (k = 1%nat) then ack b = false /\ latch b = false else ack b = true /\ latch b = true) ->
  (N * k <= f)%nat ->
  runs (read_loop dev f i len) b (from_ptr (sens b) k) (mk_bus (received (from_ptr (sens b) k) (log b)) false false).
Proof.
  induction k as [|k IH]; intros i len b f Hk Hlen Hm Hrx Hack Hf t Ht; [lia|].
  destruct (runs_flag _ _ Hrx t Ht) as (t1 & E & Ht1).
  destruct (read_loop_polls i len N ltac:(lia) f t t1 ltac:(lia) E) as (f' & Hf' & ->).
  revert t1 E Ht1. intros t1 _. rewrite from_ptr_cons. set (v := rd (regs (sens b)) (ptr (sens b))).
  revert t1. change (runs (c ← (if i =? len - 2 then _ ← I2C_AcknowledgeConfig dev DISABLE; I2C_ReceiveData dev
          else I2C_ReceiveData dev);
     rest ← read_loop dev f' (i + 1) len; mret (c :: rest)) b
    (v :: from_ptr (mk_sensor (regs (sens b)) (ptr (sens b) + 1) Reading) k)
    (mk_bus (received (v :: from_ptr (mk_sensor (regs (sens b)) (ptr (sens b) + 1) Reading) k) (log b)) false false)).
  destruct k as [|k].
  - rewrite decide_True in Hack by done. destruct Hack as [Ha Hl].
    rewrite (proj2 (Z.eqb_neq i (len - 2))) by lia.
    eapply runs_bind; [by apply runs_recv|]. fold v. rewrite Ha, Hl.
    eapply runs_bind; [|apply runs_ret]. intros t0 Ht0. exists t0. split; [|done].
    destruct f'; cbn [read_loop]; by rewrite (proj2 (Z.ltb_ge _ _)) by lia.
  - rewrite decide_False in Hack by lia. destruct Hack as [Ha Hl].
    set (a := if decide (S k = 1%nat) then false else true).
    assert (runs (rest ← read_loop dev f' (i + 1) len; mret (v :: rest))
      (mk_bus (RECV v true :: log b) a a)
      (v :: from_ptr (mk_sensor (regs (sens b)) (ptr (sens b) + 1) Reading) (S k))
      (mk_bus (received (from_ptr (mk_sensor (regs (sens b)) (ptr (sens b) + 1) Reading) (S k))
        (RECV v true :: log b)) false false)) as Hrest.
    { eapply runs_bind; [|apply runs_ret].
      assert (sens (mk_bus (RECV v true :: log b) a a) =
        mk_sensor (regs (sens b)) (ptr (sens b) + 1) Reading) as Es.
      { unfold sens at 1. cbn [log sensor_of sensor_step]. fold (sens b). by rewrite Hm. }
      rewrite <- Es. apply IH; [lia|lia|by rewrite Es|by left| |lia].
      cbn [ack latch]. unfold a. by case_decide. }
    eapply runs_bind; [|exact Hrest]. unfold a. destruct k as [|k].
    + rewrite (proj2 (Z.eqb_eq i (len - 2))) by lia. rewrite decide_True by done.
      eapply runs_bind; [apply runs_nack|].
      pose proof (runs_recv (mk_bus (log b) false (latch b)) Hm) as H. cbn [log ack latch] in H.
      rewrite Hl in H |- *. exact H.
    + rewrite (proj2 (Z.eqb_neq i (len - 2))), decide_False by lia.
      pose proof (runs_recv b Hm) as H. rewrite Ha, Hl in H. exact H.
Qed.

(** The log after [n] registers were read from [reg] on. *)
Definition read_len (addr reg : Z) (n : nat) (b : bus) : bus :=
  let vs := from_ptr (mk_sensor (regs (sens b)) reg Reading) n in
  mk_bus (STOP :: received vs (SEND (2 * addr + 1) :: START :: SEND reg :: SEND (2 * addr) :: START :: log b))
    false false.

Lemma read_len_runs reg len b : no_start b -> 0 <= reg < 256 -> 2 <= len < 256 ->
  runs (MPU_Read_Len dev N MPU_ADDR reg len) b
    (0, from_ptr (mk_sensor (regs (sens b)) reg Reading) (Z.to_nat len)) (read_len MPU_ADDR reg (Z.to_nat len) b).
Proof.
  intros Hs Hr Hlen. unfold MPU_Read_Len. repeat run_step. eapply runs_bind.
  - apply (read_loop_runs (Z.to_nat len)); [lia|lia|done|is_due| |lia]. by rewrite decide_False by lia.
  - eapply runs_bind; [by apply runs_stop, received_head|]. repeat run_step.
Qed.

Lemma read_axes_runs reg b : no_start b -> 0 <= reg < 256 ->
  let r i := rd (regs (sens b)) (reg + i) in
  runs (read_axes dev N reg) b
    (0, Some ((r 0 ≪ 8) .| r 1, (r 2 ≪ 8) .| r 3, (r 4 ≪ 8) .| r 5)) (read_len MPU_ADDR reg 6 b).
Proof.
  intros Hs Hr. cbv zeta. unfold read_axes. eapply runs_bind; [by apply read_len_runs|]. cbv beta iota.
  apply runs_ret.
Qed.

(** The rounds of [write_loop] that only poll. *)
Lemma write_loop_polls c rest n : forall f t t1, (n <= f)%nat ->
  until n (I2C_GetFlagStatus dev I2C_FLAG_TXE) t = Some (tt, t1) ->
  exists f', (f - n <= f')%nat /\ write_loop dev f (c :: rest) t = (_ ← I2C_SendData c; write_loop dev f' rest) t1.
Proof.
  induction n as [|n IH]; intros f t t1 Hf; [done|]. destruct f as [|f]; [lia|].
  cbn [until write_loop]. unfold mbind at 1 2, M_bind at 1 2.
  destruct (I2C_GetFlagStatus dev I2C_FLAG_TXE t) as [[b t2]|]; [|done]. cbn [mbind option_bind].
  destruct b.
  - intros [= <-]. exists f. split; [lia|done].
  - intros H. destruct (IH f t2 t1 ltac:(lia) H) as (f' & Hf' & E). exists f'. split; [lia|done].
Qed.

Definition sent (buf : list Z) (l : list ev) : list ev := foldl (fun l c => SEND c :: l) l buf.

Lemma write_loop_runs buf : forall f b v w l, log b = SEND v :: SEND w :: l -> ack b = true -> latch b = true ->
  Forall (fun c => 0 <= c < 256) buf -> (N * length buf <= f)%nat ->
  runs (write_loop dev f buf) b tt (mk_bus (sent buf (log b)) true true).
Proof.
  induction buf as [|c buf IH]; intros f b v w l Hl Ha Hla Hb Hf t Ht.
  - exists t. split; [by destruct f|]. rewrite Ht. destruct b. cbn in *. by subst.
  - apply Forall_cons in Hb as [Hc Hb]. cbn [length] in Hf.
    assert (In (Flag I2C_FLAG_TXE) (ready (log b))) as Htx by (rewrite Hl; is_due).
    destruct (runs_flag _ _ Htx t Ht) as (t1 & E & Ht1).
    destruct (write_loop_polls c buf N f t t1 ltac:(lia) E) as (f' & Hf' & ->).
    revert Ht1. generalize t1. change (runs (_ ← I2C_SendData c; write_loop dev f' buf) b tt
      (mk_bus (sent (c :: buf) (log b)) true true)).
    eapply runs_bind; [by apply runs_send|]. rewrite Ha.
    apply (IH f' (mk_bus (SEND c :: log b) true true) c v (SEND w :: l)); [by rewrite Hl|done|done|done|lia].
Qed.

Lemma write_len_runs reg buf b : no_start b -> 0 <= reg < 256 -> Forall (fun c => 0 <= c < 256) buf ->
  runs (MPU_Write_Len dev N MPU_ADDR reg buf) b 0
    (mk_bus (STOP :: sent buf (SEND reg :: SEND (2 * MPU_ADDR) :: START :: log b)) true true).
Proof.
  intros Hs Hr Hb. unfold MPU_Write_Len. repeat run_step. eapply runs_bind.
  - eapply write_loop_runs; [done|done|done|done|lia].
  - assert (exists v w l, sent buf (SEND reg :: SEND (2 * MPU_ADDR) :: START :: log b) = SEND v :: SEND w :: l)
      as (v & w & l & E).
    { destruct buf as [|c buf _] using rev_ind; [by eexists _, _, _|].
      unfold sent. rewrite foldl_snoc.
      destruct buf as [|d buf _] using rev_ind; [by eexists _, _, _|]. rewrite foldl_snoc. by eexists _, _, _. }
    cbn [log]. rewrite E. repeat run_step.
Qed.
End on_bus.
