(* ===== verification/MpuFacts.v ===== *)
(** * MpuFacts: what the accelerometer driver achieves

    Theorems on whole calls: initialisation, settings and readings with a
    sensor on the bus, and what happens without one. *)
From S2P Require Import Prelude Bytes Periph Mpu6050 MpuBus.

(** ** Initialising the peripheral *)

(** From any log that puts the bus in [b], [m] ends with the bus in [b']. *)
Definition keeps {A} (m : M A) (b b' : bus) : Prop :=
  forall t, bus_of t = b -> exists a t', m t = Some (a, t') /\ bus_of t' = b'.

Lemma keeps_runs (m : M unit) b b' : keeps m b b' -> runs m b tt b'.
Proof. intros H t Ht. destruct (H t Ht) as ([] & t' & E & Hb). by exists t'. Qed.
Lemma runs_keeps {A} (m : M A) b a b' : runs m b a b' -> keeps m b b'.
Proof. intros H t Ht. destruct (H t Ht) as (t' & E & Hb). by exists a, t'. Qed.
Lemma keeps_ret {A} (a : A) b : keeps (mret a) b b.
Proof. eapply runs_keeps, runs_ret. Qed.
Lemma keeps_bind {A B} (m : M A) (k : A -> M B) b1 b2 b3 :
  keeps m b1 b2 -> (forall a, keeps (k a) b2 b3) -> keeps (m ≫= k) b1 b3.
Proof.
  intros Hm Hk t Ht. destruct (Hm t Ht) as (a & t1 & E & H1). destruct (Hk a t1 H1) as (c & t2 & E2 & H2).
  exists c, t2. split; [|done]. unfold mbind, M_bind. by rewrite E.
Qed.

(** Bytes stored at ascending addresses, one after the other. *)
Fixpoint store_up (a : Z) (l : list Z) (m : memory) : memory :=
  match l with [] => m | c :: l => store_up (a + 1) l (<[a := u8 c]> m) end.

Lemma rd_store_up l : forall a m x, Forall (fun c => 0 <= c < 256) l ->
  rd (store_up a l m) x =
  if decide (a <= x < a + Z.of_nat (length l)) then nth (Z.to_nat (x - a)) l 0 else rd m x.
Proof.
  induction l as [|c l IH]; intros a m x Hl; cbn [store_up length nth].
  - by rewrite decide_False by lia.
  - apply Forall_cons in Hl as [Hc Hl]. rewrite IH, rd_insert, u8_small by done.
    destruct (decide (a = x)) as [->|].
    + rewrite decide_False, decide_True by lia. by rewrite Z.sub_diag.
    + destruct (decide (a + 1 <= x < _)).
      * rewrite decide_True by lia. replace (Z.to_nat (x - a)) with (S (Z.to_nat (x - (a + 1)))) by lia. done.
      * by rewrite decide_False by lia.
Qed.

Section calls.
Context (dev : list mmio -> reg -> Z) (N : nat) (s0 : sensor).
Hypothesis Hdev : i2c_sensor dev N s0.

(** Accesses that mean nothing to the bus. *)
Definition quiet (r : reg) : bool := match r with CTLR1 | DATAR => false | _ => true end.

Lemma keeps_load r b : r <> DATAR -> keeps (load dev r) b b.
Proof. intros Hr t <-. eexists _, _. split; [done|]. by destruct r. Qed.
Lemma keeps_write r v b : quiet r = true -> keeps (write r v) b b.
Proof. intros Hr t <-. eexists _, _. split; [done|]. by destruct r. Qed.
Lemma keeps_modify r f b : quiet r = true -> keeps (modify dev r f) b b.
Proof.
  intros Hr. eapply keeps_bind; [apply keeps_load; by intros ->|]. intros v. by apply keeps_write.
Qed.
Lemma keeps_delay ms b : keeps (delay_ms ms) b b.
Proof. intros t <-. by eexists _, _. Qed.

Lemma keeps_if {A} (c : bool) (m1 m2 : M A) b b' : keeps m1 b b' -> keeps m2 b b' -> keeps (if c then m1 else m2) b b'.
Proof. by destruct c. Qed.

(** A quiet program, step by step. *)
Ltac quiet_step :=
  lazymatch goal with
  | |- keeps (mret _) _ _ => apply keeps_ret
  | |- keeps (if _ then _ else _) _ _ => apply keeps_if
  | |- keeps (mbind _ (load _ _)) _ _ => eapply keeps_bind; [by apply keeps_load|intros ?]
  | |- keeps (load _ _) _ _ => by apply keeps_load
  | |- keeps (write _ _) _ _ => by apply keeps_write
  | |- keeps (modify _ _ _) _ _ => by apply keeps_modify
  | |- keeps (mbind _ _) _ _ => eapply keeps_bind; [|intros ?]
  | |- keeps (let '(_, _) := ?p in _) _ _ => destruct p
  end.

Lemma gpio_loop_keeps p pins cm base md b : forall n pinpos tmp,
  keeps (gpio_loop n p pins cm base md pinpos tmp) b b.
Proof.
  induction n as [|n IH]; intros pinpos tmp; cbn [gpio_loop]; repeat (quiet_step || apply IH).
Qed.
Lemma gpio_init_keeps p pins speed md b : keeps (GPIO_Init dev p pins speed md) b b.
Proof. unfold GPIO_Init. cbv zeta. repeat (quiet_step || apply gpio_loop_keeps). Qed.
Lemma clocks_keeps b : keeps (RCC_GetClocksFreq dev) b b.
Proof. unfold RCC_GetClocksFreq, sysclk, presc. cbv zeta. repeat quiet_step. Qed.

(** A value read from [CTLR1] and written back, its request bits kept. *)
Lemma keeps_ctlr1 {A} f (k : Z -> M A) b a b' :
  (forall v, Z.testbit (f v) 8 = Z.testbit v 8 /\ Z.testbit (f v) 9 = Z.testbit v 9 /\ Z.testbit (f v) 10 = a) ->
  (forall v, keeps (k v) (mk_bus (log b) a (latch b)) b') ->
  keeps (v ← load dev CTLR1; _ ← write CTLR1 (f v); k v) b b'.
Proof.
  intros Hf Hk t Ht. set (v := u16 (dev t CTLR1)). destruct (Hf v) as (H8 & H9 & Ha).
  destruct (Hk v (Wr CTLR1 (u16 (f v)) :: Rd CTLR1 v :: t)) as (x & t' & E & Ht'); [|by exists x, t'].
  change (bus_step v (bus_of t) (Wr CTLR1 (u16 (f v))) = mk_bus (log b) a (latch b)). rewrite Ht. cbn [bus_step].
  rewrite (requests_same v _ 8), (requests_same v _ 9), u16_testbit, Ha by (by rewrite ?u16_testbit by lia). done.
Qed.

Lemma i2c_init_keeps i b : I2C_Mode i = I2C_Mode_I2C -> I2C_Ack i = I2C_Ack_Enable ->
  keeps (I2C_Init dev i) b (mk_bus (log b) true (latch b)).
Proof.
  intros Hm Ha. unfold I2C_Init. cbv zeta. rewrite Hm, Ha.
  quiet_step. eapply keeps_bind; [apply clocks_keeps|intros c].
  eapply keeps_bind; [by apply keeps_write|intros _].
  eapply keeps_bind.
  { eapply runs_keeps, (runs_kept dev N s0 Hdev _ b (ack b)). intros v (_ & _ & Hk).
    rewrite !Z.ldiff_spec, Hk. by destruct (Z.testbit v 8), (Z.testbit v 9), (ack b). }
  intros _. destruct (i2c_timing _ _ _) as [ck rtr]. do 2 (eapply keeps_bind; [by apply keeps_write|intros _]).
  eapply keeps_bind.
  { eapply runs_keeps, (runs_kept dev N s0 Hdev _ _ (ack b)). intros v (_ & _ & Hk). cbn [ack] in Hk.
    rewrite !Z.lor_spec, Hk. by destruct (Z.testbit v 8), (Z.testbit v 9), (ack b). }
  intros _. cbn [log latch].
  eapply (keeps_ctlr1 (fun v => (v .& CTLR1_CLEAR_Mask) .| u16 (I2C_Mode_I2C .| I2C_Ack_Enable)) _ _ true);
    [|intros v; by apply keeps_write].
  intros v. rewrite !Z.lor_spec, !Z.land_spec.
  change (Z.testbit CTLR1_CLEAR_Mask 8) with true. change (Z.testbit CTLR1_CLEAR_Mask 9) with true.
  change (Z.testbit CTLR1_CLEAR_Mask 10) with false. rewrite !andb_true_r, andb_false_r. by rewrite !orb_false_r.
Qed.

Lemma accelerometer_init_keeps bound address b :
  runs (I2C_Accelerometer_Init dev bound address) b tt (mk_bus (log b) true (latch b)).
Proof.
  unfold I2C_Accelerometer_Init.
  do 2 (eapply runs_bind; [apply keeps_runs; by apply keeps_modify|]).
  do 2 (eapply runs_bind; [apply keeps_runs, gpio_init_keeps|]).
  eapply runs_bind; [by apply keeps_runs, i2c_init_keeps|].
  eapply runs_bind.
  { apply (runs_kept dev N s0 Hdev _ _ true). intros v (_ & _ & Hk). cbn [ack] in Hk.
    rewrite !Z.lor_spec, Hk. by rewrite !orb_false_r. }
  exact (runs_ack dev N s0 Hdev (mk_bus (log b) true (latch b))).
Qed.

(** ** What the calls do to the sensor *)

Lemma wrote_regs reg data b : 0 <= data < 256 ->
  regs (sens s0 (wrote reg data b)) = <[reg := data]> (regs (sens s0 b)).
Proof.
  intros Hd. change (<[reg := u8 data]> (regs (sens s0 b)) = <[reg := data]> (regs (sens s0 b))).
  by rewrite u8_small.
Qed.

Lemma read_byte_regs reg b : regs (sens s0 (read_byte s0 reg b)) = regs (sens s0 b).
Proof. done. Qed.

Lemma received_regs vs : forall l, mode (sensor_of s0 l) = Reading ->
  regs (sensor_of s0 (received vs l)) = regs (sensor_of s0 l).
Proof.
  induction vs as [|v vs IH]; intros l Hm; [done|]. destruct vs as [|w vs].
  - cbn [received sensor_of sensor_step]. by rewrite Hm.
  - change (received (v :: w :: vs) l) with (received (w :: vs) (RECV v true :: l)).
    rewrite IH; cbn [sensor_of sensor_step]; by rewrite Hm.
Qed.

Lemma read_len_regs reg n b : regs (sens s0 (read_len s0 MPU_ADDR reg n b)) = regs (sens s0 b).
Proof. unfold sens at 1, read_len. cbn [log sensor_of sensor_step regs]. by rewrite received_regs. Qed.

(** The registers [MPU_Init] sets, in order, before and after the identity is
    found to be right. *)
Definition first_settings : list (Z * Z) :=
  [(0x6B, 0); (0x19, 7); (0x1A, 6); (0x1C, 0); (0x1B, 0); (0x38, 0); (0x6A, 0); (0x23, 0); (0x37, 0x80)].
Definition last_settings : list (Z * Z) := [(0x6B, 1); (0x6C, 0); (0x19, 7)].
Definition set_regs (l : list (Z * Z)) (m : memory) : memory := foldl (fun m p => <[p.1 := p.2]> m) m l.

Definition wrote_all (l : list (Z * Z)) (b : bus) : bus := foldl (fun b p => wrote p.1 p.2 b) b l.
Lemma wrote_all_regs l : forall b, Forall (fun p => 0 <= p.2 < 256) l ->
  regs (sens s0 (wrote_all l b)) = set_regs l (regs (sens s0 b)).
Proof.
  induction l as [|p l IH]; intros b Hl; [done|]. apply Forall_cons in Hl as [Hp Hl].
  cbn [wrote_all set_regs foldl]. fold (wrote_all l (wrote p.1 p.2 b)). by rewrite IH, wrote_regs.
Qed.

Ltac write_steps :=
  repeat lazymatch goal with
    | |- runs (MPU_Write_Byte _ _ _ _ ≫= _) _ _ _ =>
        eapply runs_bind; [apply (write_byte_runs dev N s0 Hdev); [done|..]; unfold
          MPU_PWR_MGMT1_REG, MPU_PWR_MGMT2_REG, MPU_SAMPLE_RATE_REG, MPU_CFG_REG, MPU_ACCEL_CFG_REG,
          MPU_GYRO_CFG_REG, MPU_INT_EN_REG, MPU_USER_CTRL_REG, MPU_FIFO_EN_REG, MPU_INTBP_CFG_REG; lia|]
    end.

Lemma mpu_init_runs b : no_start b ->
  let id := rd (regs (sens s0 b)) MPU_DEVICE_ID_REG in
  let b1 := wrote_all first_settings (mk_bus (log b) true (latch b)) in
  let b2 := read_byte s0 MPU_DEVICE_ID_REG b1 in
  runs (MPU_Init dev N) b (if id =? MPU_ADDR then 0 else 1)
    (if id =? MPU_ADDR then wrote_all last_settings b2 else b2).
Proof.
  intros Hs. cbv zeta. unfold MPU_Init.
  eapply runs_bind; [apply accelerometer_init_keeps|].
  eapply runs_bind; [apply keeps_runs, keeps_delay|]. write_steps.
  eapply runs_bind; [apply (read_byte_runs dev N s0 Hdev); [done|unfold MPU_DEVICE_ID_REG; lia]|].
  assert (wrote_all first_settings (mk_bus (log b) true (latch b)) =
    wrote MPU_INTBP_CFG_REG 128 (wrote MPU_FIFO_EN_REG 0 (wrote MPU_USER_CTRL_REG 0 (wrote MPU_INT_EN_REG 0
    (wrote MPU_GYRO_CFG_REG 0 (wrote MPU_ACCEL_CFG_REG 0 (wrote MPU_CFG_REG 6 (wrote MPU_SAMPLE_RATE_REG 7
    (wrote MPU_PWR_MGMT1_REG 0 (mk_bus (log b) true (latch b))))))))))) as <- by done.
  set (b1 := wrote_all first_settings _).
  assert (rd (regs (sens s0 b1)) MPU_DEVICE_ID_REG = rd (regs (sens s0 b)) MPU_DEVICE_ID_REG) as ->.
  { unfold b1. rewrite wrote_all_regs by (repeat constructor; cbn; lia).
    unfold set_regs, first_settings. cbn [foldl fst snd]. rewrite !rd_insert.
    repeat (rewrite decide_False by (unfold MPU_DEVICE_ID_REG; lia)). done. }
  clearbody b1. set (b2 := read_byte s0 _ b1). assert (no_start b2) as Hs2 by done. clearbody b2.
  destruct (_ =? MPU_ADDR); [write_steps|]; apply runs_ret.
Qed.

Lemma mpu_init_regs b :
  let id := rd (regs (sens s0 b)) MPU_DEVICE_ID_REG in
  let b1 := wrote_all first_settings (mk_bus (log b) true (latch b)) in
  let b2 := read_byte s0 MPU_DEVICE_ID_REG b1 in
  regs (sens s0 (if id =? MPU_ADDR then wrote_all last_settings b2 else b2)) =
  set_regs (first_settings ++ if id =? MPU_ADDR then last_settings else []) (regs (sens s0 b)).
Proof.
  cbv zeta. destruct (_ =? MPU_ADDR); rewrite ?wrote_all_regs, read_byte_regs, wrote_all_regs
    by (repeat constructor; cbn; lia); unfold set_regs; by rewrite ?foldl_app, ?app_nil_r.
Qed.

Lemma sent_sensor buf : forall l, mode (sensor_of s0 l) = Writing ->
  regs (sensor_of s0 (sent buf l)) = store_up (ptr (sensor_of s0 l)) buf (regs (sensor_of s0 l)).
Proof.
  induction buf as [|c buf IH]; intros l Hm; [done|].
  cbn [sent foldl store_up]. fold (sent buf (SEND c :: l)).
  rewrite IH; cbn [sensor_of sensor_step]; by rewrite Hm.
Qed.

(** ** Properties *)

(** C34 [MPU_Init] with the sensor answering, on an I2C master that shows each
    condition that is due within [N] polls: whatever was on the bus before, as
    long as no start condition is under way, it returns, writes its settings
    register by register in the order of the source and nothing else, and
    answers 0, with the sensor woken on its gyro clock, when the identity
    register reads 0x68; otherwise it answers 1 and leaves the last three
    settings out.  Each transfer begins without waiting for the stop condition
    of the one before, which may still be pending when [CTLR1] is read and
    written back; assumed is that it does not complete between that read and
    the write, which would then ask for a second stop. *)
Theorem mpu_init_configures b : no_start b ->
  let id := rd (regs (sens s0 b)) MPU_DEVICE_ID_REG in
  exists b', runs (MPU_Init dev N) b (if id =? MPU_ADDR then 0 else 1) b' /\
    regs (sens s0 b') =
    set_regs (first_settings ++ if id =? MPU_ADDR then last_settings else []) (regs (sens s0 b)).
Proof. intros Hs. cbv zeta. eexists. split; [by apply mpu_init_runs|apply mpu_init_regs]. Qed.

(** [MPU_Get_Accelerometer] answers 0 and the three big-endian words of the
    registers from 0x3B on, each within 16 bits; on the bus it selects that
    register, turns the bus round and takes six bytes, every one acknowledged
    but the last, as the sensor needs to let go of the bus; no register
    changes. *)
Theorem mpu_reading b : no_start b -> bytes_ok (regs (sens s0 b)) ->
  let r i := rd (regs (sens s0 b)) (MPU_ACCEL_XOUTH_REG + i) in
  exists b', runs (MPU_Get_Accelerometer dev N) b
      (0, Some (be16 (r 0) (r 1), be16 (r 2) (r 3), be16 (r 4) (r 5))) b' /\
    log b' = STOP :: RECV (r 5) false :: RECV (r 4) true :: RECV (r 3) true :: RECV (r 2) true ::
      RECV (r 1) true :: RECV (r 0) true :: SEND 0xD1 :: START :: SEND 0x3B :: SEND 0xD0 :: START :: log b /\
    regs (sens s0 b') = regs (sens s0 b) /\
    0 <= be16 (r 0) (r 1) < 65536 /\ 0 <= be16 (r 2) (r 3) < 65536 /\ 0 <= be16 (r 4) (r 5) < 65536.
Proof.
  intros Hs Hb. cbv zeta. eexists.
  split; [apply (read_axes_runs dev N s0 Hdev); [done|unfold MPU_ACCEL_XOUTH_REG; lia]|].
  split; [done|]. split; [apply read_len_regs|].
  split_and!; apply be16_range; apply Hb.
Qed.

(** A block of registers written with [MPU_Write_Len] reads back with
    [MPU_Read_Len] as the bytes written. *)
Theorem mpu_write_read reg buf b : no_start b -> 0 <= reg < 256 -> (2 <= length buf < 256)%nat ->
  Forall (fun c => 0 <= c < 256) buf ->
  exists b', runs (_ ← MPU_Write_Len dev N MPU_ADDR reg buf;
                   MPU_Read_Len dev N MPU_ADDR reg (Z.of_nat (length buf))) b (0, buf) b'.
Proof.
  intros Hs Hr Hlen Hb. eexists. eapply runs_bind; [by apply (write_len_runs dev N s0 Hdev)|].
  pose proof (read_len_runs dev N s0 Hdev reg (Z.of_nat (length buf))
    (mk_bus (STOP :: sent buf (SEND reg :: SEND (2 * MPU_ADDR) :: START :: log b)) true true)
    ltac:(done) Hr ltac:(lia)) as H.
  rewrite Nat2Z.id in H.
  assert (from_ptr (mk_sensor (regs (sens s0 (mk_bus (STOP :: sent buf (SEND reg :: SEND (2 * MPU_ADDR) :: START
    :: log b)) true true))) reg Reading) (length buf) = buf) as E; [|rewrite E in H; exact H].
  unfold from_ptr. cbn [regs ptr]. unfold sens. cbn [log].
  change (regs (sensor_of s0 (STOP :: sent buf (SEND reg :: SEND (2 * MPU_ADDR) :: START :: log b))))
    with (regs (sensor_of s0 (sent buf (SEND reg :: SEND (2 * MPU_ADDR) :: START :: log b)))).
  rewrite sent_sensor by done. change (ptr (sensor_of s0 (SEND reg :: _))) with reg.
  apply nth_ext with 0 0; [by rewrite length_map, length_seq|].
  intros i Hi. rewrite length_map, length_seq in Hi.
  rewrite (nth_indep _ 0 (rd (store_up reg buf (regs (sensor_of s0 (SEND reg :: SEND (2 * MPU_ADDR) :: START :: log b))))
    (reg + Z.of_nat 0))) by (by rewrite length_map, length_seq).
  rewrite (map_nth (fun i => rd _ (reg + Z.of_nat i))), seq_nth by done. cbn [Nat.add].
  by rewrite rd_store_up, decide_True, Z.add_simpl_l, Nat2Z.id by (done || lia).
Qed.

(** The bandwidth of a filter setting, and the settings written by
    [MPU_Set_Rate]. *)
Definition bandwidth (data : Z) : Z := nth (Z.to_nat data) [256; 188; 98; 42; 20; 10; 5] 0.

(** [MPU_Set_Rate] writes a divider whose rate 1000/(1+divider) is the
    requested one within 4..1000, or the next the divider allows above it, and
    fits the 8-bit register; then the filter with the largest bandwidth not
    above half the rate, from 10 Hz on. *)
Theorem mpu_rate rate b : no_start b -> 0 <= rate < 65536 ->
  let r := clamp_rate rate in let d := 1000 / r - 1 in let f := lpf_data (r / 2) in
  runs (MPU_Set_Rate dev N rate) b 0 (wrote MPU_CFG_REG f (wrote MPU_SAMPLE_RATE_REG d b)) /\
  4 <= r <= 1000 /\ (4 <= rate <= 1000 -> r = rate) /\
  0 <= d <= 249 /\ r <= 1000 / (1 + d) /\ (0 < d -> 1000 / (2 + d) < r) /\
  (10 <= r -> bandwidth f <= r / 2) /\ (1 < f -> r / 2 < bandwidth (f - 1)).
Proof.
  intros Hs Hr. cbv zeta.
  assert (4 <= clamp_rate rate <= 1000 /\ (4 <= rate <= 1000 -> clamp_rate rate = rate)) as [Hc Hid].
  { unfold clamp_rate. rewrite Z.gtb_ltb. destruct (Z.ltb_spec 1000 rate); cbn [Z.ltb Z.compare Pos.compare];
      [|destruct (Z.ltb_spec rate 4)]; cbn; lia. }
  assert (0 <= 1000 / clamp_rate rate - 1 <= 249) as Hd.
  { assert (1 <= 1000 / clamp_rate rate) by (apply Z.div_le_lower_bound; lia).
    assert (1000 / clamp_rate rate <= 250) by (apply Z.div_le_upper_bound; lia). lia. }
  assert (1 <= lpf_data (clamp_rate rate / 2) <= 6) as Hf by (unfold lpf_data; repeat case_match; lia).
  split.
  { unfold MPU_Set_Rate, MPU_Set_LPF. cbv zeta. rewrite u8_small by lia.
    eapply runs_bind; (apply (write_byte_runs dev N s0 Hdev); [done|..]; unfold MPU_SAMPLE_RATE_REG, MPU_CFG_REG; lia). }
  assert (bandwidth 1 = 188 /\ bandwidth 2 = 98 /\ bandwidth 3 = 42 /\ bandwidth 4 = 20 /\ bandwidth 5 = 10 /\
    bandwidth 6 = 5) as (B1 & B2 & B3 & B4 & B5 & B6) by done.
  set (r := clamp_rate rate) in *. split_and!; try done; try lia.
  - rewrite Zplus_minus. apply Z.div_le_lower_bound; [lia|]. rewrite Z.mul_comm. apply Z.mul_div_le. lia.
  - intros _. replace (2 + (1000 / r - 1)) with (1000 / r + 1) by lia.
    apply Z.div_lt_upper_bound; [pose proof (Z.div_pos 1000 r); lia|].
    pose proof (Z.mul_succ_div_gt 1000 r). lia.
  - intros H10. assert (5 <= r / 2) by (apply Z.div_le_lower_bound; lia).
    unfold lpf_data. repeat case_match; lia.
  - assert (bandwidth (2 - 1) = 188 /\ bandwidth (3 - 1) = 98 /\ bandwidth (4 - 1) = 42 /\
      bandwidth (5 - 1) = 20 /\ bandwidth (6 - 1) = 10) as (C2 & C3 & C4 & C5 & C6) by done.
    unfold lpf_data. repeat case_match; lia.
Qed.
End calls.

(** ** Without the sensor *)

Definition stuck {A} (m : M A) : Prop := forall t, m t = None.

Lemma stuck_bind_l {A B} (m : M A) (k : A -> M B) : stuck m -> stuck (m ≫= k).
Proof. intros H t. unfold mbind, M_bind. by rewrite H. Qed.
Lemma stuck_bind_r {A B} (m : M A) (k : A -> M B) : (forall a, stuck (k a)) -> stuck (m ≫= k).
Proof. intros H t. unfold mbind, M_bind. destruct (m t) as [[a t']|]; [apply H|done]. Qed.

Lemma stuck_event dev fuel e : (forall t, Z.testbit (dev t STAR1) 1 = false) -> Z.testbit e 1 = true ->
  stuck (until fuel (I2C_CheckEvent dev e)).
Proof.
  intros Hdev He. induction fuel as [|fuel IH]; intros t; [done|]. cbn [until].
  unfold mbind at 1, M_bind at 1.
  assert (exists t', I2C_CheckEvent dev e t = Some (false, t')) as [t' ->]; [|apply IH].
  set (t1 := Rd STAR1 (u16 (dev t STAR1)) :: t). set (w := u16 (dev t1 STAR2)).
  exists (Rd STAR2 w :: t1). set (v := u16 (dev t STAR1) .| (w ≪ 16)).
  change (Some (((v .& FLAG_Mask) .& e) =? e, Rd STAR2 w :: t1) = Some (false, Rd STAR2 w :: t1)).
  assert ((((v .& FLAG_Mask) .& e) =? e) = false) as ->; [|done].
  apply Z.eqb_neq. intros E. apply (f_equal (fun z => Z.testbit z 1)) in E.
  unfold v in E. rewrite !Z.land_spec, Z.lor_spec, u16_testbit, Hdev, Z.shiftl_spec_low, He in E by lia. done.
Qed.

(** C40 If the sensor never acknowledges its address, so that [STAR1] never shows
    the address flag, none of the four transfers returns, whatever the number
    of polls, and neither does [MPU_Init]: its result 1 for a missing sensor is
    out of reach, and [main] stays in it. *)
Theorem mpu_absent_hangs dev fuel : (forall t, Z.testbit (dev t STAR1) 1 = false) ->
  (forall reg data t, MPU_Write_Byte dev fuel reg data t = None) /\
  (forall reg t, MPU_Read_Byte dev fuel reg t = None) /\
  (forall addr reg buf t, MPU_Write_Len dev fuel addr reg buf t = None) /\
  (forall addr reg len t, MPU_Read_Len dev fuel addr reg len t = None) /\
  (forall t, MPU_Init dev fuel t = None).
Proof.
  intros Hdev.
  assert (stuck (until fuel (I2C_CheckEvent dev I2C_EVENT_MASTER_TRANSMITTER_MODE_SELECTED))) as Hev
    by by apply stuck_event.
  assert (forall reg data, stuck (MPU_Write_Byte dev fuel reg data)) as Hw.
  { intros reg data. do 4 (apply stuck_bind_r; intros ?). by apply stuck_bind_l. }
  split; [exact Hw|]. split; [|split; [|split]].
  - intros reg. change (stuck (MPU_Read_Byte dev fuel reg)).
    do 4 (apply stuck_bind_r; intros ?). by apply stuck_bind_l.
  - intros addr reg buf. change (stuck (MPU_Write_Len dev fuel addr reg buf)).
    do 4 (apply stuck_bind_r; intros ?). by apply stuck_bind_l.
  - intros addr reg len. change (stuck (MPU_Read_Len dev fuel addr reg len)).
    do 4 (apply stuck_bind_r; intros ?). by apply stuck_bind_l.
  - change (stuck (MPU_Init dev fuel)). do 2 (apply stuck_bind_r; intros ?). apply stuck_bind_l, Hw.
Qed.

(** ** A simulated peripheral and sensor

    It answers at once, but the stop bit still reads as set when the next
    transfer begins; the identity is right and the axes read 1, 2 and 3. *)
Definition sensor0 : sensor :=
  mk_sensor (store 0x3B [0; 1; 0; 2; 0; 3] (<[MPU_DEVICE_ID_REG := MPU_ADDR]> ∅)) 0 Idle.

Definition status (l : list ev) : Z :=
  match l with
  | START :: _ => 0x30001
  | SEND v :: START :: _ => if v =? 2 * MPU_ADDR then 0x70082 else if v =? 2 * MPU_ADDR + 1 then 0x30042 else 0
  | SEND _ :: _ => 0x70084
  | RECV _ true :: _ => 0x30040
  | _ => 0
  end.

Definition sim (t : list mmio) (r : reg) : Z :=
  let b := bus_of t in
  match r with
  | CTLR1 => (if ack b then 0x400 else 0) .| match head (log b) with Some STOP => 0x200 | _ => 0 end
  | STAR1 => status (log b) .& 0xFFFF
  | STAR2 => status (log b) ≫ 16
  | DATAR => rd (regs (sens sensor0 b)) (ptr (sens sensor0 b))
  | _ => 0
  end.

Lemma sensor_bytes l : bytes_ok (regs (sensor_of sensor0 l)).
Proof.
  induction l as [|e l IH]; cbn [sensor_of].
  - apply bytes_ok_store; [|repeat constructor; lia]. apply bytes_ok_insert; [apply bytes_ok_empty|].
    unfold MPU_ADDR. lia.
  - destruct e; cbn [sensor_step]; try done; destruct (mode _); try done.
    cbn [regs]. apply bytes_ok_insert; [done|apply u8_range].
Qed.

Lemma sim_ok : i2c_sensor sim 1 sensor0.
Proof.
  split.
  - intros t. cbn [sim]. unfold ctlr1_reads. rewrite !Z.lor_spec.
    by destruct (ack (bus_of t)), (log (bus_of t)) as [|[] l].
  - intros t p Hp.
    assert (poll_cond sim p t =
      Some (true, match p with Event _ => Rd STAR2 (status (log (bus_of t)) ≫ 16) ::
                    Rd STAR1 (status (log (bus_of t)) .& 0xFFFF) :: t
                  | Flag _ => Rd STAR1 (status (log (bus_of t)) .& 0xFFFF) :: t end)) as E.
    { assert (forall e, I2C_CheckEvent sim e t =
        let s1 := u16 (status (log (bus_of t)) .& 0xFFFF) in let s2 := u16 (status (log (bus_of t)) ≫ 16) in
        Some ((((s1 .| (s2 ≪ 16)) .& FLAG_Mask) .& e) =? e, Rd STAR2 s2 :: Rd STAR1 s1 :: t)) as Hev by done.
      assert (forall f, f ≫ 28 <> 0 -> I2C_GetFlagStatus sim f t =
        let s1 := u16 (status (log (bus_of t)) .& 0xFFFF) in
        Some (negb (s1 .& (f .& FLAG_Mask) =? 0), Rd STAR1 s1 :: t)) as Hfl.
      { intros f Hf. unfold I2C_GetFlagStatus. by rewrite (proj2 (Z.eqb_neq _ _)) by done. }
      destruct (log (bus_of t)) as [|[| |v|v [|]] l]; cbn [ready] in Hp; try done.
      - destruct Hp as [<-|[]]. cbn [poll_cond]. by rewrite Hev.
      - destruct l as [|[| |w|w a] l]; cbn [ready] in Hp.
        + destruct Hp as [<-|[<-|[]]]; cbn [poll_cond]; [by rewrite Hev|by rewrite Hfl].
        + destruct (v =? 2 * MPU_ADDR) eqn:E1; [|destruct (v =? 2 * MPU_ADDR + 1) eqn:E2; [|done]];
            destruct Hp as [<-|[<-|[]]]; cbn [poll_cond]; (rewrite Hev || rewrite Hfl by done);
            cbn [status]; rewrite ?E1, ?E2; done.
        + destruct Hp as [<-|[<-|[]]]; cbn [poll_cond]; [by rewrite Hev|by rewrite Hfl].
        + destruct Hp as [<-|[<-|[]]]; cbn [poll_cond]; [by rewrite Hev|by rewrite Hfl].
        + destruct Hp as [<-|[<-|[]]]; cbn [poll_cond]; [by rewrite Hev|by rewrite Hfl].
      - destruct Hp as [<-|[]]. cbn [poll_cond]. by rewrite Hfl. }
    cbn [until]. unfold mbind at 1, M_bind at 1. rewrite E. by eexists.
  - intros t _. cbn [sim]. apply u8_small. apply sensor_bytes.
Qed.

Definition bus0 : bus := mk_bus [] false false.

Lemma mpu_init_configures_witness :
  exists b', runs (MPU_Init sim 1) bus0 0 b' /\
    regs (sens sensor0 b') = set_regs (first_settings ++ last_settings) (regs sensor0).
Proof. by apply (mpu_init_configures sim 1 sensor0 sim_ok bus0). Defined.

Lemma mpu_reading_witness :
  exists b', runs (MPU_Get_Accelerometer sim 1) bus0 (0, Some (1, 2, 3)) b' /\ 0 <= be16 0 1 < 65536.
Proof.
  destruct (mpu_reading sim 1 sensor0 sim_ok bus0 ltac:(done) (sensor_bytes [])) as (b' & H & _ & _ & R & _).
  exists b'. split; [exact H|exact R].
Defined.

Lemma mpu_write_read_witness :
  exists b', runs (_ ← MPU_Write_Len sim 1 MPU_ADDR 0x13 [5; 6; 7]; MPU_Read_Len sim 1 MPU_ADDR 0x13 3)
    bus0 (0, [5; 6; 7]) b'.
Proof.
  apply (mpu_write_read sim 1 sensor0 sim_ok 0x13 [5; 6; 7] bus0); [done|lia|cbn; lia|]. repeat constructor; lia.
Defined.

Lemma mpu_rate_witness :
  runs (MPU_Set_Rate sim 1 50) bus0 0 (wrote MPU_CFG_REG 4 (wrote MPU_SAMPLE_RATE_REG 19 bus0)) /\
  bandwidth 4 <= 25.
Proof.
  destruct (mpu_rate sim 1 sensor0 sim_ok 50 bus0 ltac:(done) ltac:(lia)) as (A & _ & _ & _ & _ & _ & B & _).
  split; [exact A|]. apply B. vm_compute. congruence.
Defined.

(** A master that sends its start condition and gets no acknowledge. *)
Definition alone (t : list mmio) (r : reg) : Z := match r with STAR1 => 1 | STAR2 => 3 | _ => 0 end.
Lemma mpu_absent_hangs_witness : MPU_Init alone 1000 [] = None.
Proof. apply (mpu_absent_hangs alone 1000). done. Defined.
