(* ===== verification/Output.v ===== *)
(** * Output: programs that write to the console

    [rt_kprintf] and the calls of commands are logged as events; a program is
    a result with the events it caused, or [None] where it accesses memory out
    of range. *)
From S2P Require Import Prelude Bytes KService Printf.

(** What the console receives, and the call of a command: its function, the
    arguments as indices into the buffer, and the buffer. *)
Inductive event := Out (l : list Z) | Run (func : Z) (argv : list Z) (buf : list Z).

Definition W (A : Type) : Type := option (A * list event).
#[export] Instance W_ret : MRet W := fun A a => Some (a, []).
#[export] Instance W_bind : MBind W := fun A B k m =>
  match m with
  | None => None
  | Some (a, t) => match k a with None => None | Some (b, t') => Some (b, t ++ t') end
  end.
Definition lift {A} (o : option A) : W A := match o with None => None | Some a => Some (a, []) end.
Definition tell (l : list event) : W unit := Some (tt, l).

(** A result after earlier output. *)
Definition after {A} (t : list event) (o : W A) : W A :=
  match o with None => None | Some (a, t') => Some (a, t ++ t') end.
Lemma bind_some {A B} (a : A) t (k : A -> W B) : mbind (M := W) k (Some (a, t)) = after t (k a).
Proof. done. Qed.
Lemma bind_ret {A B} (a : A) (k : A -> W B) : mbind (M := W) k (mret a) = k a.
Proof. unfold mbind, W_bind, mret, W_ret. by destruct (k a) as [[]|]. Qed.
Lemma bind_lift {A B} (a : A) (k : A -> W B) : mbind (M := W) k (lift (Some a)) = k a.
Proof. apply bind_ret. Qed.
Lemma after_some {A} t (a : A) t' : after t (Some (a, t')) = Some (a, t ++ t').
Proof. done. Qed.
Lemma after_ret {A} t (a : A) : after t (mret a) = Some (a, t).
Proof. unfold mret, W_ret. by rewrite after_some, app_nil_r. Qed.
Lemma after_after {A} t t' (o : W A) : after t (after t' o) = after (t ++ t') o.
Proof. destruct o as [[a l]|]; [|done]. cbn. by rewrite app_assoc. Qed.
Lemma after_nil {A} (o : W A) : after [] o = o.
Proof. by destruct o as [[a l]|]. Qed.
Create Rewrite HintDb w.
#[export] Hint Rewrite @bind_some @bind_ret @bind_lift @after_some @after_ret @after_after @after_nil
  @app_nil_l @app_nil_r : w.
(** Run a program whose calls are known as far as possible. *)
Ltac run := autorewrite with w.

(** [rt_kprintf]; its static buffer carries nothing from call to call. *)
Definition kprintf (fmt : list Z) (args : list arg) : W unit :=
  '(_, out) ← lift (rt_kprintf 0 fmt args ∅); tell [Out out].
