(* ===== verification/Msh.v ===== *)
(** * Msh: splitting and dispatching a command line

    [components/finsh/msh.c] with [FINSH_USING_MSH_ONLY] and neither a file
    system nor modules.  A command line is a range of a buffer, the list of
    its bytes; a pointer is an index into it and [None] an access outside.
    The commands themselves are a parameter: what is called with which
    arguments is part of the output. *)
From S2P Require Import Prelude Bytes KService Printf Output.

(** ** The C library on arrays *)

Definition get_range (s n : Z) (buf : list Z) : option (list Z) :=
  if decide (0 <= s /\ 0 <= n /\ s + n <= Z.of_nat (length buf))
  then Some (take (Z.to_nat n) (drop (Z.to_nat s) buf)) else None.
Definition put_range (d : Z) (l buf : list Z) : option (list Z) :=
  if decide (0 <= d /\ d + Z.of_nat (length l) <= Z.of_nat (length buf))
  then Some (take (Z.to_nat d) buf ++ l ++ drop (Z.to_nat d + length l) buf) else None.
(** What is reachable from index [p] on. *)
Definition from (p : Z) (buf : list Z) : list Z := drop (Z.to_nat p) buf.

Fixpoint strncmp (n : nat) (a b : list Z) : option Z :=
  match n with
  | O => Some 0
  | S n =>
      match a, b with
      | c :: a, d :: b => if negb (c =? d) || (c =? 0) then Some (c - d) else strncmp n a b
      | _, _ => None
      end
  end.

(** ** The command table *)

Record finsh_syscall := mk_syscall { name : list Z; desc : list Z; func : Z }.

Definition FINSH_ARG_MAX : Z := 8.
Definition blank (c : Z) : bool := (c =? 32) || (c =? 9).

Section msh.
(** The table between [_syscall_table_begin] and [_syscall_table_end], and
    what a command does with its arguments: its output, the buffer it leaves
    and its result. *)
Context (table : list finsh_syscall) (call : Z -> list Z -> list Z -> list Z * list Z * Z).

Definition c_name (index : finsh_syscall) : list Z := name index ++ [0].
Definition is_cmd (index : finsh_syscall) : option bool :=
  r ← strncmp 6 (c_name index) (chars "__cmd_" ++ [0]); Some (r =? 0).

Fixpoint msh_help_loop (l : list finsh_syscall) : W unit :=
  match l with
  | [] => mret tt
  | index :: l =>
      b ← lift (is_cmd index);
      _ ← (if b : bool
           then kprintf (chars "%-16s - %s" ++ [10])
                  [Arg_str (Some (from 6 (c_name index))); Arg_str (Some (desc index ++ [0]))]
           else mret tt);
      msh_help_loop l
  end.
Definition msh_help : W unit :=
  _ ← kprintf (chars "RT-Thread shell commands:" ++ [10]) [];
  _ ← msh_help_loop table;
  kprintf [10] [].

(** ** [msh_split] *)

(** The loop that puts NULs over blanks and tabs. *)
Fixpoint strip_blanks (fuel : nat) (buf : list Z) (ptr position length : Z)
    : option (list Z * Z * Z) :=
  c ← buf !!z ptr;
  if blank c && (position <? length) then
    match fuel with
    | O => None
    | S fuel => buf ← put_range ptr [0] buf; strip_blanks fuel buf (ptr + 1) (position + 1) length
    end
  else Some (buf, ptr, position).

(** The loop to the closing quote; a backslash before a quote skips it. *)
Fixpoint skip_string (fuel : nat) (buf : list Z) (ptr position length : Z) : option (Z * Z) :=
  c ← buf !!z ptr;
  if negb (c =? 34) && (position <? length) then
    match fuel with
    | O => None
    | S fuel =>
        '(ptr, position) ←
          (if c =? 92 then
             d ← buf !!z (ptr + 1);
             Some (if d =? 34 then (ptr + 1, position + 1) else (ptr, position))
           else Some (ptr, position));
        skip_string fuel buf (ptr + 1) (position + 1) length
    end
  else Some (ptr, position).

(** The loop to the end of a word. *)
Fixpoint skip_word (fuel : nat) (buf : list Z) (ptr position length : Z) : option (Z * Z) :=
  c ← buf !!z ptr;
  if negb (blank c) && (position <? length) then
    match fuel with
    | O => None
    | S fuel => skip_word fuel buf (ptr + 1) (position + 1) length
    end
  else Some (ptr, position).

Fixpoint print_argv (argv : list Z) (buf : list Z) : W unit :=
  match argv with
  | [] => mret tt
  | p :: argv => _ ← kprintf (chars "%s ") [Arg_str (Some (from p buf))]; print_argv argv buf
  end.

(** The outer loop; [argv] holds the [argc] entries filled so far. *)
Fixpoint split_loop (fuel : nat) (buf : list Z) (ptr position length : Z) (argv : list Z)
    : W (list Z * list Z) :=
  if position <? length then
    match fuel with
    | O => lift None
    | S fuel =>
        '(buf, ptr, position) ← lift (strip_blanks (Z.to_nat length) buf ptr position length);
        if Z.of_nat (List.length argv) >=? FINSH_ARG_MAX then
          _ ← kprintf (chars "Too many args ! We only Use:" ++ [10]) [];
          _ ← print_argv argv buf;
          _ ← kprintf [10] [];
          mret (argv, buf)
        else if position >=? length then mret (argv, buf)
        else
          c ← lift (buf !!z ptr);
          if c =? 34 then
            let argv := argv ++ [ptr + 1] in
            '(ptr, position) ← lift (skip_string (Z.to_nat length) buf (ptr + 1) (position + 1) length);
            if position >=? length then mret (argv, buf)
            else
              buf ← lift (put_range ptr [0] buf);
              split_loop fuel buf (ptr + 1) (position + 1) length argv
          else
            let argv := argv ++ [ptr] in
            '(ptr, position) ← lift (skip_word (Z.to_nat length) buf ptr position length);
            if position >=? length then mret (argv, buf)
            else split_loop fuel buf ptr position length argv
    end
  else mret (argv, buf).

Definition msh_split (buf : list Z) (cmd length : Z) : W (list Z * list Z) :=
  split_loop (Z.to_nat length) buf cmd 0 length [].

(** ** Dispatch *)

Fixpoint get_cmd_loop (l : list finsh_syscall) (cmd : list Z) (size : Z) : option (option Z) :=
  match l with
  | [] => Some None
  | index :: l =>
      b ← is_cmd index;
      if negb b then get_cmd_loop l cmd size
      else
        r ← strncmp (Z.to_nat size) (from 6 (c_name index)) cmd;
        if r =? 0 then
          c ← c_name index !!z (6 + size);
          if c =? 0 then Some (Some (func index)) else get_cmd_loop l cmd size
        else get_cmd_loop l cmd size
  end.
Definition msh_get_cmd (cmd : list Z) (size : Z) : option (option Z) := get_cmd_loop table cmd size.

(** The loop that measures the first word. *)
Fixpoint cmd0_loop (fuel : nat) (buf : list Z) (cmd cmd0_size length : Z) : option Z :=
  c ← buf !!z (cmd + cmd0_size);
  if negb (blank c) && (cmd0_size <? length) then
    match fuel with
    | O => None
    | S fuel => cmd0_loop fuel buf cmd (cmd0_size + 1) length
    end
  else Some cmd0_size.

(** The result, and [*retp] when it is 0. *)
Definition _msh_exec_cmd (buf : list Z) (cmd length : Z) : W (Z * Z * list Z) :=
  cmd0_size ← lift (cmd0_loop (Z.to_nat length) buf cmd 0 length);
  if cmd0_size =? 0 then mret (- RT_ERROR, 0, buf)
  else
    f ← lift (msh_get_cmd (from cmd buf) cmd0_size);
    match f with
    | None => mret (- RT_ERROR, 0, buf)
    | Some cmd_func =>
        '(argv, buf) ← msh_split buf cmd length;
        match argv with
        | [] => mret (- RT_ERROR, 0, buf)
        | _ =>
            let '(out, buf', r) := call cmd_func argv buf in
            _ ← tell [Run cmd_func argv buf; Out out];
            mret (0, r, buf')
        end
    end.

(** The loop that skips leading blanks: [cmd] and [length]. *)
Fixpoint strim (fuel : nat) (buf : list Z) (cmd length : Z) : option (Z * Z) :=
  if length >? 0 then
    c ← buf !!z cmd;
    if blank c then
      match fuel with
      | O => None
      | S fuel => strim fuel buf (cmd + 1) (length - 1)
      end
    else Some (cmd, length)
  else Some (cmd, length).

(** The loop to the first space or NUL. *)
Fixpoint first_space (l : list Z) (i : Z) : option Z :=
  match l with
  | [] => None
  | c :: l => if negb (c =? 32) && negb (c =? 0) then first_space l (i + 1) else Some i
  end.

Definition msh_exec (buf : list Z) (cmd length : Z) : W (Z * list Z) :=
  '(cmd, length) ← lift (strim (Z.to_nat length) buf cmd length);
  if length =? 0 then mret (0, buf)
  else
    '(r, cmd_ret, buf) ← _msh_exec_cmd buf cmd length;
    if r =? 0 then mret (cmd_ret, buf)
    else
      tcmd ← lift (first_space (from cmd buf) cmd);
      buf ← lift (put_range tcmd [0] buf);
      _ ← kprintf (chars "%s: command not found." ++ [10]) [Arg_str (Some (from cmd buf))];
      mret (-1, buf).

(** ** Completion *)

Fixpoint str_common (str1 str2 : list Z) : option Z :=
  match str1, str2 with
  | c :: str1, d :: str2 =>
      if negb (c =? 0) && negb (d =? 0) && (c =? d)
      then n ← str_common str1 str2; Some (n + 1) else Some 0
  | _, _ => None
  end.

(** The loop over the table, with [name_ptr] and [min_length]. *)
Fixpoint complete_loop (l : list finsh_syscall) (prefix : list Z) (name_ptr : option (list Z))
    (min_length : Z) : W (option (list Z) * Z) :=
  match l with
  | [] => mret (name_ptr, min_length)
  | index :: l =>
      b ← lift (is_cmd index);
      if negb b then complete_loop l prefix name_ptr min_length
      else
        let cmd_name := from 6 (c_name index) in
        n ← lift (rt_strlen prefix);
        r ← lift (strncmp (Z.to_nat n) prefix cmd_name);
        if r =? 0 then
          '(name_ptr, min_length) ←
            (if min_length =? 0 then
               n ← lift (rt_strlen cmd_name); mret (Some cmd_name, n)
             else mret (name_ptr, min_length));
          length ← lift (m ← name_ptr; str_common m cmd_name);
          let min_length := if length <? min_length then length else min_length in
          _ ← kprintf (chars "%s" ++ [10]) [Arg_str (Some cmd_name)];
          complete_loop l prefix name_ptr min_length
        else complete_loop l prefix name_ptr min_length
  end.

Definition msh_auto_complete (prefix : list Z) : W (list Z) :=
  c ← lift (prefix !!z 0);
  if c =? 0 then _ ← msh_help; mret prefix
  else
    '(name_ptr, min_length) ← complete_loop table prefix None 0;
    match name_ptr with
    | None => mret prefix
    | Some p => l ← lift (strncpy_out (Z.to_nat min_length) p); lift (put_range 0 l prefix)
    end.

End msh.
