(* ===== verification/MshFacts.v ===== *)
(** * MshFacts: what a command line means to the shell

    A reference tokenizer, that [msh_split] cuts a line into its tokens, and
    what [msh_exec] does with a line. *)
From S2P Require Import Prelude Bytes KService Printf Output Msh.

(** ** Arrays *)

Lemma get_range_all l r : get_range 0 (Z.of_nat (length l)) (l ++ r) = Some l.
Proof.
  unfold get_range. rewrite decide_True by (rewrite length_app; lia).
  by rewrite Nat2Z.id, drop_0, take_app_length.
Qed.

Lemma put_range_app l1 x l2 y : length x = length y ->
  put_range (Z.of_nat (length l1)) y (l1 ++ x ++ l2) = Some (l1 ++ y ++ l2).
Proof.
  intros Hxy. unfold put_range. rewrite decide_True by (rewrite !length_app; lia).
  rewrite Nat2Z.id, take_app_length. rewrite <- Hxy, <- length_app.
  by rewrite (app_assoc l1 x l2), drop_app_length.
Qed.

Lemma drop_repeat {A} (x : A) n : forall k, drop n (repeat x k) = repeat x (k - n).
Proof. induction n as [|n IH]; intros [|k]; try done. apply IH. Qed.

Lemma from_app l1 l2 : from (Z.of_nat (length l1)) (l1 ++ l2) = l2.
Proof. unfold from. by rewrite Nat2Z.id, drop_app_length. Qed.

Lemma zlookup_app {A} (l1 : list A) x l2 : (l1 ++ x :: l2) !!z Z.of_nat (length l1) = Some x.
Proof. rewrite zlookup_of_nat. by rewrite list_lookup_middle. Qed.

(** ** Formats *)

Lemma kprintf_text fmt args l : format_text (length fmt) fmt args = Some l -> (length l < 127)%nat ->
  kprintf fmt args = Some (tt, [Out l]).
Proof.
  intros Hf Hl. unfold kprintf.
  destruct (kprintf_out 0 fmt args l ∅ Hf) as (m' & E & _); [lia..|]. rewrite E.
  by rewrite decide_True by done.
Qed.

Lemma format_plain l : forall fuel args, (length l <= fuel)%nat -> Forall (fun c => c <> 37) l ->
  format_text fuel l args = Some l.
Proof.
  induction l as [|c l IH]; intros [|fuel] args Hf Hl; cbn [length] in Hf; try lia; try done.
  apply Forall_cons in Hl as [Hc Hl]. cbn [format_text]. rewrite (proj2 (Z.eqb_neq c 37)) by done.
  cbn [negb]. by rewrite IH by (done || lia).
Qed.

Lemma str_len_free t r : forall len, 0 <= len -> c_string t ->
  str_len (t ++ 0 :: r) len (-1) = Some (len + Z.of_nat (length t)).
Proof.
  induction t as [|c t IH]; intros len Hl Ht; cbn [app str_len length];
    rewrite (proj2 (Z.eqb_neq len (-1))) by lia; [cbn; f_equal; lia|].
  apply Forall_cons in Ht as [Hc Ht]. rewrite (proj2 (Z.eqb_neq c 0)) by lia.
  rewrite IH by (done || lia). f_equal. lia.
Qed.

(** A [%s] conversion without flags prints its string. *)
Lemma format_s fuel rest t r args : c_string t ->
  format_text (S fuel) (37 :: 115 :: rest) (Arg_str (Some (t ++ 0 :: r)) :: args) =
  (l ← format_text fuel rest args; Some (t ++ l)).
Proof.
  intros Ht.
  transitivity ('(l1, (f, a)) ← (l ← string_text (-1) (-1) 0 (Some (t ++ 0 :: r)); Some (l, (rest, args)));
    l2 ← format_text fuel f a; Some (l1 ++ l2)); [done|].
  unfold string_text. cbn [from_option id]. rewrite str_len_free by (done || lia). cbn [mbind option_bind].
  cbv zeta. cbn [Z.gtb Z.compare andb].
  replace (Z.to_nat (-1 - (0 + Z.of_nat (length t)))) with O by lia.
  replace (Z.to_nat (0 + Z.of_nat (length t))) with (length t) by lia.
  rewrite take_app_length. by destruct (format_text fuel rest args).
Qed.

Lemma format_c c : 0 <= c < 256 -> format_text 2 (chars "%c") [Arg_int c] = Some [c].
Proof.
  intros Hc.
  transitivity ('(l1, (f, a)) ← Some (u8 c :: [] : list Z, ([] : list Z, [] : list arg));
    l2 ← format_text 1 f a; Some (l1 ++ l2)); [done|].
  cbn. by rewrite u8_small.
Qed.

Lemma kprintf_s t r rest : c_string t -> Forall (fun c => c <> 37) rest ->
  (length t + length rest < 127)%nat ->
  kprintf (37 :: 115 :: rest) [Arg_str (Some (t ++ 0 :: r))] = Some (tt, [Out (t ++ rest)]).
Proof.
  intros Ht Hr Hl. apply kprintf_text; [|rewrite length_app; lia].
  cbn [length]. rewrite format_s by done. by rewrite format_plain by (done || cbn; lia).
Qed.

Lemma kprintf_plain l : Forall (fun c => c <> 37) l -> (length l < 127)%nat ->
  kprintf l [] = Some (tt, [Out l]).
Proof. intros Hl Hn. apply kprintf_text; [by apply format_plain|done]. Qed.

(** ** The reference tokenizer *)

Fixpoint skip_blanks (l : list Z) : list Z :=
  match l with c :: l' => if blank c then skip_blanks l' else l | [] => [] end.

(** A word and what follows it, the first blank included. *)
Fixpoint word (l : list Z) : list Z * list Z :=
  match l with
  | [] => ([], [])
  | c :: l' => if blank c then ([], l) else let '(t, r) := word l' in (c :: t, r)
  end.

(** A quoted string, from after its opening quote, and what follows its
    closing quote; a backslash keeps the quote after it in the string. *)
Fixpoint quoted (l : list Z) : list Z * list Z :=
  match l with
  | [] => ([], [])
  | c :: l' =>
      if c =? 34 then ([], l')
      else match l' with
           | d :: l'' =>
               if (c =? 92) && (d =? 34) then let '(t, r) := quoted l'' in (c :: d :: t, r)
               else let '(t, r) := quoted l' in (c :: t, r)
           | [] => ([c], [])
           end
  end.

(** At most [n] tokens of a line, and what is left of it. *)
Fixpoint tokens (n : nat) (l : list Z) : list (list Z) * list Z :=
  match n with
  | O => ([], l)
  | S n =>
      match skip_blanks l with
      | [] => ([], [])
      | c :: l' =>
          let '(t, r) := if c =? 34 then quoted l' else word (c :: l') in
          let '(ts, r) := tokens n r in
          (t :: ts, r)
      end
  end.

Lemma skip_blanks_split l : exists k, l = k ++ skip_blanks l /\ Forall (fun c => blank c = true) k /\
  match skip_blanks l with c :: _ => blank c = false | [] => True end.
Proof.
  induction l as [|c l (k & E & Hk & Hh)]; [by exists []|]. cbn [skip_blanks].
  destruct (blank c) eqn:Ec; [|by exists []]. exists (c :: k).
  split_and!; [by rewrite E at 1|by constructor|done].
Qed.

Lemma word_split l t r : word l = (t, r) ->
  l = t ++ r /\ Forall (fun c => blank c = false) t /\
  match r with c :: _ => blank c = true | [] => True end.
Proof.
  revert t r. induction l as [|c l IH]; intros t r; cbn [word]; [by intros [= <- <-]|].
  destruct (blank c) eqn:Ec; [by intros [= <- <-]|]. destruct (word l) as [t' r'].
  intros [= <- <-]. destruct (IH t' r' eq_refl) as (-> & Ht & Hr). split_and!; [done|by constructor|done].
Qed.

Lemma quoted_cons c d l : c <> 34 ->
  quoted (c :: d :: l) =
  if (c =? 92) && (d =? 34) then let '(t, r) := quoted l in (c :: d :: t, r)
  else let '(t, r) := quoted (d :: l) in (c :: t, r).
Proof. intros Hc. cbn [quoted]. by rewrite (proj2 (Z.eqb_neq c 34)). Qed.

Lemma quoted_split l : forall t r, quoted l = (t, r) -> l = t ++ 34 :: r \/ l = t /\ r = [].
Proof.
  induction l as [l IH] using (induction_ltof1 _ (@length Z)); unfold ltof in IH.
  intros t r. destruct l as [|c l]; [intros [= <- <-]; by right|].
  destruct (Z.eq_dec c 34) as [->|Hc]; [intros [= <- <-]; by left|].
  destruct l as [|d l]; [cbn; rewrite (proj2 (Z.eqb_neq c 34)) by done; intros [= <- <-]; by right|].
  rewrite quoted_cons by done. destruct ((c =? 92) && (d =? 34)).
  - destruct (quoted l) as [t' r'] eqn:E. intros [= <- <-].
    destruct (IH l ltac:(cbn; lia) _ _ E) as [H|(H & ->)]; rewrite H; [by left|by right].
  - destruct (quoted (d :: l)) as [t' r'] eqn:E. intros [= <- <-].
    destruct (IH (d :: l) ltac:(cbn; lia) _ _ E) as [H|(H & ->)]; rewrite H; [by left|by right].
Qed.

(** ** The loops of [msh_split] on a buffer [D ++ L ++ 0 :: P], [L] being what
    is left of the line *)

Lemma c_string_app l1 l2 : c_string (l1 ++ l2) <-> c_string l1 /\ c_string l2.
Proof. apply Forall_app. Qed.
Lemma c_string_cons c l : c_string (c :: l) <-> 0 < c < 256 /\ c_string l.
Proof. unfold c_string. by rewrite Forall_cons. Qed.

Lemma put_range_one l1 x y l2 : put_range (Z.of_nat (length l1)) [y] (l1 ++ x :: l2) = Some (l1 ++ y :: l2).
Proof. by apply (put_range_app l1 [x] l2 [y]). Qed.

Lemma lookup_head (D L P : list Z) : exists c, (D ++ L ++ 0 :: P) !!z Z.of_nat (length D) = Some c /\
  match L with d :: _ => c = d | [] => c = 0 end.
Proof. destruct L as [|d L]; [exists 0|exists d]; (split; [apply zlookup_app|done]). Qed.

Lemma strip_spec fuel : forall D k L P pos n, (length k <= fuel)%nat ->
  Forall (fun c => blank c = true) k -> match L with c :: _ => blank c = false | [] => True end ->
  n = pos + Z.of_nat (length k + length L) ->
  strip_blanks fuel (D ++ (k ++ L) ++ 0 :: P) (Z.of_nat (length D)) pos n =
  Some ((D ++ repeat 0 (length k)) ++ L ++ 0 :: P, Z.of_nat (length D + length k), pos + Z.of_nat (length k)).
Proof.
  induction fuel as [|fuel IH]; intros D [|b k] L P pos n Hf Hk HL ->; cbn [length] in Hf; try lia.
  all: cbn [strip_blanks app length repeat Nat.add];
    rewrite ?app_nil_r, ?Nat.add_0_r, ?Z.add_0_r.
  1, 2: destruct (lookup_head D L P) as (c & -> & Hc); cbn [mbind option_bind];
    destruct L; subst; [|by rewrite HL]; by rewrite (proj2 (Z.ltb_ge _ _)), andb_false_r by (cbn; lia).
  apply Forall_cons in Hk as [Hb Hk]. rewrite zlookup_app. cbn [mbind option_bind].
  rewrite Hb, (proj2 (Z.ltb_lt _ _)) by lia. cbn [andb].
  rewrite put_range_one. cbn [mbind option_bind].
  pose proof (IH (D ++ [0]) k L P (pos + 1) (pos + Z.of_nat (S (length k + length L))) ltac:(lia) Hk HL ltac:(lia)) as E.
  rewrite length_app in E. cbn [length] in E. rewrite <- !app_assoc in E. cbn [app] in E.
  replace (Z.of_nat (length D) + 1) with (Z.of_nat (length D + 1)) by lia. rewrite <- app_assoc, E.
  rewrite <- app_assoc. cbn [app]. do 2 f_equal; [f_equal|]; lia.
Qed.

Lemma skip_word_spec fuel : forall D t r P pos n, (length t <= fuel)%nat ->
  Forall (fun c => blank c = false) t -> match r with c :: _ => blank c = true | [] => True end ->
  n = pos + Z.of_nat (length t + length r) ->
  skip_word fuel (D ++ (t ++ r) ++ 0 :: P) (Z.of_nat (length D)) pos n =
  Some (Z.of_nat (length D + length t), pos + Z.of_nat (length t)).
Proof.
  induction fuel as [|fuel IH]; intros D [|b t] r P pos n Hf Ht Hr ->; cbn [length] in Hf; try lia.
  all: cbn [skip_word app length Nat.add]; rewrite ?Nat.add_0_r, ?Z.add_0_r.
  1, 2: destruct (lookup_head D r P) as (c & -> & Hc); cbn [mbind option_bind];
    destruct r; subst; [|by rewrite Hr]; by rewrite (proj2 (Z.ltb_ge _ _)), andb_false_r by (cbn; lia).
  apply Forall_cons in Ht as [Hb Ht]. rewrite zlookup_app. cbn [mbind option_bind].
  rewrite Hb, (proj2 (Z.ltb_lt _ _)) by lia. cbn [andb negb].
  pose proof (IH (D ++ [b]) t r P (pos + 1) (pos + Z.of_nat (S (length t + length r))) ltac:(lia) Ht Hr ltac:(lia)) as E.
  rewrite length_app in E. cbn [length] in E. rewrite <- !app_assoc in E. cbn [app] in E.
  replace (Z.of_nat (length D) + 1) with (Z.of_nat (length D + 1)) by lia. rewrite <- app_assoc, E.
  do 2 f_equal; lia.
Qed.

(** One character further into the line. *)
Lemma move_head (D L : list Z) c : D ++ (c :: L) = (D ++ [c]) ++ L.
Proof. by rewrite <- app_assoc. Qed.
Lemma length_snoc (D : list Z) c : Z.of_nat (length (D ++ [c])) = Z.of_nat (length D) + 1.
Proof. rewrite length_app. cbn. lia. Qed.

Lemma skip_string_spec L : forall D P pos n t r fuel, c_string L -> quoted L = (t, r) ->
  (length L <= fuel)%nat -> n = pos + Z.of_nat (length L) ->
  skip_string fuel (D ++ L ++ 0 :: P) (Z.of_nat (length D)) pos n =
  Some (Z.of_nat (length D) + Z.of_nat (length t), pos + Z.of_nat (length t)).
Proof.
  induction L as [L IH] using (induction_ltof1 _ (@length Z)); unfold ltof in IH.
  intros D P pos n t r fuel HL Hq Hf ->.
  destruct L as [|c L]; [injection Hq as <- <-; cbn [app length]; rewrite !Z.add_0_r|].
  { destruct fuel; cbn [skip_string]; rewrite zlookup_app; cbn [mbind option_bind];
      by rewrite Z.ltb_irrefl, andb_false_r. }
  destruct fuel as [|fuel]; cbn [length] in Hf; [lia|]. apply c_string_cons in HL as [Hc HL].
  cbn [skip_string app]. rewrite zlookup_app. cbn [mbind option_bind].
  destruct (Z.eqb_spec c 34) as [->|Hc34]; cbn [negb andb].
  { injection Hq as <- <-. by rewrite !Z.add_0_r. }
  rewrite (proj2 (Z.ltb_lt _ _)) by (cbn [length]; lia). rewrite move_head, <- (length_snoc D c).
  destruct (lookup_head (D ++ [c]) L P) as (d & Ed & Hd). rewrite Ed. cbn [mbind option_bind].
  destruct L as [|d' L].
  { subst d. cbn in Hq. rewrite (proj2 (Z.eqb_neq c 34)) in Hq by done. injection Hq as <- <-.
    cbn [Z.eqb]. transitivity (skip_string fuel ((D ++ [c]) ++ [] ++ 0 :: P) (Z.of_nat (length (D ++ [c]))) (pos + 1)
      (pos + 1 + Z.of_nat (length ([] : list Z)))).
    { cbn [length Z.of_nat]. rewrite Z.add_0_r, length_snoc. destruct (c =? 92); done. }
    rewrite (IH [] ltac:(cbn; lia) _ _ _ _ [] []) by first [by constructor | done | cbn; lia].
    rewrite length_snoc. cbn. do 2 f_equal; lia. }
  subst d. rewrite quoted_cons in Hq by done.
  destruct (c =? 92) eqn:E1; [destruct (Z.eqb_spec d' 34) as [->|]|]; cbn [andb] in Hq; cbn [mbind option_bind];
    rewrite <- ?(length_snoc D c).
  - destruct (quoted L) as [t' r'] eqn:Eq. injection Hq as <- <-. cbn [app]. rewrite move_head, <- (length_snoc (D ++ [c]) 34).
    apply c_string_cons in HL as [_ HL].
    rewrite (IH L ltac:(cbn; lia) _ _ _ _ t' r') by (done || cbn [length] in *; lia).
    rewrite !length_snoc. cbn [length]. do 2 f_equal; lia.
  - destruct (quoted (d' :: L)) as [t' r'] eqn:Eq. injection Hq as <- <-.
    rewrite (IH (d' :: L) ltac:(cbn; lia) _ _ _ _ t' r') by (done || cbn [length] in *; lia).
    rewrite !length_snoc. cbn [length]. do 2 f_equal; lia.
  - destruct (quoted (d' :: L)) as [t' r'] eqn:Eq. injection Hq as <- <-.
    rewrite (IH (d' :: L) ltac:(cbn; lia) _ _ _ _ t' r') by (done || cbn [length] in *; lia).
    rewrite !length_snoc. cbn [length]. do 2 f_equal; lia.
Qed.

(** ** Arguments as strings *)

(** The string at [p], with its NUL. *)
Definition string_at (B : list Z) (p : Z) (t : list Z) : Prop :=
  exists B1 B2, B = B1 ++ t ++ 0 :: B2 /\ p = Z.of_nat (length B1) /\ c_string t.

Lemma string_at_app B X p t : string_at B p t -> string_at (B ++ X) p t.
Proof. intros (B1 & B2 & -> & Hp & Ht). exists B1, (B2 ++ X). by rewrite <- !app_assoc. Qed.
Lemma strings_app B X argv ts : Forall2 (string_at B) argv ts -> Forall2 (string_at (B ++ X)) argv ts.
Proof. intros H. eapply Forall2_impl; [exact H|]. intros. by apply string_at_app. Qed.

Lemma string_at_from B p t : string_at B p t -> exists r, from p B = t ++ 0 :: r.
Proof. intros (B1 & B2 & -> & -> & _). exists B2. apply from_app. Qed.

(** A string of [D], or one at its end that the line's next character or its
    end closes. *)
Definition ready (D L : list Z) (p : Z) (t : list Z) : Prop :=
  string_at D p t \/
  (exists D1, D = D1 ++ t /\ p = Z.of_nat (length D1) /\ c_string t) /\
  match L with c :: _ => blank c = true | [] => True end.

Lemma ready_end D P p t : ready D [] p t -> string_at (D ++ 0 :: P) p t.
Proof.
  intros [H | [(D1 & -> & Hp & Ht) _]]; [by apply string_at_app|].
  exists D1, P. by rewrite <- app_assoc.
Qed.

(** Skipping the blanks closes it. *)
Lemma ready_strip D k L p t : k ++ L <> [] -> Forall (fun c => blank c = true) k ->
  match L with c :: _ => blank c = false | [] => True end ->
  ready D (k ++ L) p t -> string_at (D ++ repeat 0 (length k)) p t.
Proof.
  intros Hne Hk HL [H | [(D1 & -> & Hp & Ht) Hb]]; [by apply string_at_app|].
  destruct k as [|c k].
  - cbn in *. destruct L; [done|]. congruence.
  - exists D1, (repeat 0 (length k)). by rewrite <- app_assoc.
Qed.

(** What is printed when tokens are left over. *)
Definition too_many (ts : list (list Z)) : list event :=
  Out (chars "Too many args ! We only Use:" ++ [10]) :: map (fun t => Out (t ++ [32])) ts ++ [Out [10]].

Lemma print_argv_strings B argv ts : (length B <= 126)%nat -> Forall2 (string_at B) argv ts ->
  print_argv argv B = Some (tt, map (fun t => Out (t ++ [32])) ts).
Proof.
  intros HB. induction 1 as [|p t argv ts H _ IH]; [done|]. cbn [print_argv map].
  destruct H as (B1 & B2 & -> & -> & Ht). rewrite from_app. change (chars "%s ") with [37; 115; 32].
  rewrite !length_app in HB. cbn [length] in HB.
  rewrite kprintf_s by first [done | cbn; lia | repeat constructor; done].
  run. by rewrite IH.
Qed.

(** Every line is cut into its tokens; only the line itself is written to. *)
Definition split_result (L : list Z) (argv : list Z) (ts0 : list (list Z)) (D P : list Z)
    (o : W (list Z * list Z)) : Prop :=
  let '(ts, r) := tokens (8 - length argv) L in
  exists argv' L', o = Some ((argv ++ argv', D ++ L' ++ 0 :: P),
      match r with [] => [] | _ => too_many (ts0 ++ ts) end) /\
    length L' = length L /\ Forall2 (string_at (D ++ L' ++ 0 :: P)) (argv ++ argv') (ts0 ++ ts).

Lemma split_ret D P argv ts0 : Forall2 (ready D []) argv ts0 ->
  split_result [] argv ts0 D P (mret (argv, D ++ 0 :: P)).
Proof.
  intros Hr. unfold split_result.
  assert (tokens (8 - length argv) [] = ([], [])) as -> by by destruct (8 - length argv)%nat.
  exists [], []. rewrite !app_nil_r. split_and!; [done..|].
  eapply Forall2_impl; [exact Hr|]. intros p t. apply ready_end.
Qed.

Lemma split_cons D X L L2 P argv p ts0 t o :
  tokens (8 - length argv) L =
    (let '(ts, r) := tokens (8 - length (argv ++ [p])) L2 in (t :: ts, r)) ->
  (length X + length L2 = length L)%nat ->
  split_result L2 (argv ++ [p]) (ts0 ++ [t]) (D ++ X) P o -> split_result L argv ts0 D P o.
Proof.
  unfold split_result. intros -> HX. destruct (tokens _ L2) as [ts r].
  intros (argv' & L' & -> & HL & HF). exists (p :: argv'), (X ++ L').
  rewrite <- !app_assoc in *. cbn [app] in *. split_and!; [done|rewrite length_app; lia|done].
Qed.

Lemma strip_strings D k L argv ts : k ++ L <> [] -> Forall (fun c => blank c = true) k ->
  match L with c :: _ => blank c = false | [] => True end ->
  Forall2 (ready D (k ++ L)) argv ts -> Forall2 (string_at (D ++ repeat 0 (length k))) argv ts.
Proof. intros H1 H2 H3 HF. eapply Forall2_impl; [exact HF|]. intros p t. by apply ready_strip. Qed.

Lemma strings_ready D L argv ts : Forall2 (string_at D) argv ts -> Forall2 (ready D L) argv ts.
Proof. intros HF. eapply Forall2_impl; [exact HF|]. intros p t H. by left. Qed.

(** The first token of [L], which begins with it, put into the array; the
    rest by [rest]. *)
Lemma word_step D L P argv ts0 pos m fuel t r (rest : list Z -> Z -> Z -> list Z -> W (list Z * list Z)) :
  word L = (t, r) -> c_string L -> (length L <= fuel)%nat -> m = pos + Z.of_nat (length L) ->
  Forall2 (string_at D) argv ts0 ->
  (forall p pos', Forall2 (ready (D ++ t) r) (argv ++ [p]) (ts0 ++ [t]) -> pos' = pos + Z.of_nat (length t) ->
    split_result r (argv ++ [p]) (ts0 ++ [t]) (D ++ t) P
      (rest ((D ++ t) ++ r ++ 0 :: P) (Z.of_nat (length (D ++ t))) pos' (argv ++ [p]))) ->
  exists p, split_result r (argv ++ [p]) (ts0 ++ [t]) (D ++ t) P
    ('(ptr, position) ← lift (skip_word fuel (D ++ L ++ 0 :: P) (Z.of_nat (length D)) pos m);
     if position >=? m then mret (argv ++ [Z.of_nat (length D)], D ++ L ++ 0 :: P)
     else rest (D ++ L ++ 0 :: P) ptr position (argv ++ [Z.of_nat (length D)])).
Proof.
  intros Hw HL Hf -> Hs Hrest. destruct (word_split L t r Hw) as (-> & Ht & Hr).
  rewrite length_app in Hf |- *. rewrite skip_word_spec by (done || lia). run.
  replace (D ++ (t ++ r) ++ 0 :: P) with ((D ++ t) ++ r ++ 0 :: P) by (by rewrite <- !app_assoc).
  exists (Z.of_nat (length D)).
  assert (Forall2 (ready (D ++ t) r) (argv ++ [Z.of_nat (length D)]) (ts0 ++ [t])) as Hready.
  { apply Forall2_app; [by apply strings_ready, strings_app|]. constructor; [|done]. right.
    split; [|done]. exists D. apply c_string_app in HL as [HL _]. done. }
  rewrite <- (length_app D t).
  rewrite Z.geb_leb. destruct (Z.leb_spec (pos + Z.of_nat (length t + length r)) (pos + Z.of_nat (length t)))
    as [Hle|Hlt].
  - destruct r; [|cbn in Hle; lia]. by apply split_ret.
  - by apply Hrest.
Qed.

Lemma quote_step D L P argv ts0 pos m fuel t r (rest : list Z -> Z -> Z -> list Z -> W (list Z * list Z)) :
  quoted L = (t, r) -> c_string L -> (length L <= fuel)%nat -> m = pos + Z.of_nat (length L) ->
  Forall2 (string_at D) argv ts0 ->
  (forall p pos' D', Forall2 (ready D' r) (argv ++ [p]) (ts0 ++ [t]) ->
    length D' = (length D + length t + 1)%nat -> length L = (length t + 1 + length r)%nat ->
    pos' = pos + Z.of_nat (length t) + 1 ->
    split_result r (argv ++ [p]) (ts0 ++ [t]) D' P
      (rest (D' ++ r ++ 0 :: P) (Z.of_nat (length D')) pos' (argv ++ [p]))) ->
  exists p X, (length X + length r = length L)%nat /\ split_result r (argv ++ [p]) (ts0 ++ [t]) (D ++ X) P
    ('(ptr, position) ← lift (skip_string fuel (D ++ L ++ 0 :: P) (Z.of_nat (length D)) pos m);
     if position >=? m then mret (argv ++ [Z.of_nat (length D)], D ++ L ++ 0 :: P)
     else
       buf ← lift (put_range ptr [0] (D ++ L ++ 0 :: P));
       rest buf (ptr + 1) (position + 1) (argv ++ [Z.of_nat (length D)])).
Proof.
  intros Hq HL Hf -> Hs Hrest. rewrite (skip_string_spec L _ _ _ _ t r) by done. run.
  exists (Z.of_nat (length D)). rewrite Z.geb_leb. destruct (quoted_split L t r Hq) as [-> | [<- ->]].
  - exists (t ++ [0]). rewrite !length_app in *. cbn [length] in *. split; [lia|].
    rewrite (proj2 (Z.leb_gt _ _)) by lia. apply c_string_app in HL as [Ht _].
    replace (D ++ (t ++ 34 :: r) ++ 0 :: P) with ((D ++ t) ++ 34 :: r ++ 0 :: P) by (by rewrite <- !app_assoc).
    rewrite <- Nat2Z.inj_add, <- length_app, put_range_one. run.
    replace ((D ++ t) ++ 0 :: r ++ 0 :: P) with ((D ++ t ++ [0]) ++ r ++ 0 :: P) by (by rewrite <- !app_assoc).
    replace (Z.of_nat (length (D ++ t)) + 1) with (Z.of_nat (length (D ++ t ++ [0]))) by (rewrite !length_app; cbn; lia).
    apply Hrest; [|rewrite !length_app; cbn; lia|lia|lia].
    apply Forall2_app; [by apply strings_ready, strings_app|]. constructor; [|done]. left.
    exists D, []. done.
  - exists L. rewrite Nat.add_0_r. split; [done|]. rewrite (proj2 (Z.leb_le _ _)) by lia.
    rewrite app_assoc. apply split_ret.
    apply Forall2_app; [by apply strings_ready, strings_app|]. constructor; [|done]. right.
    split; [|done]. by exists D.
Qed.

Lemma split_loop_spec n : forall (argv D L P : list Z) ts0 pos fuel m, (length argv + n = 8)%nat ->
  Forall2 (ready D L) argv ts0 -> c_string L -> (length L <= fuel)%nat ->
  Z.of_nat (length (D ++ L ++ 0 :: P)) <= 126 -> 0 <= pos -> m = pos + Z.of_nat (length L) ->
  split_result L argv ts0 D P (split_loop fuel (D ++ L ++ 0 :: P) (Z.of_nat (length D)) pos m argv).
Proof.
  induction n as [|n IH]; intros argv D L P ts0 pos fuel m Hn Hr HL Hf HB Hp ->;
    (destruct (decide (L = [])) as [->|Hne];
      [rewrite Z.add_0_r; destruct fuel; cbn [split_loop]; rewrite Z.ltb_irrefl; by apply split_ret|]);
    (destruct fuel as [|fuel]; [destruct L; cbn in Hf; [done|lia]|]);
    cbn [split_loop]; rewrite (proj2 (Z.ltb_lt _ _)) by (destruct L; [done|cbn; lia]).
  all: destruct (skip_blanks_split L) as (k & E & Hk & Hh);
    pose proof (f_equal length E) as El; rewrite length_app in El;
    rewrite E in Hr; pose proof (strip_strings _ _ _ _ _ ltac:(by rewrite <- E) Hk Hh Hr) as Hs;
    assert (c_string (skip_blanks L)) as HL' by (rewrite E in HL; by apply c_string_app in HL as [_ HL]);
    replace (D ++ L ++ 0 :: P) with (D ++ (k ++ skip_blanks L) ++ 0 :: P) by (by rewrite <- E);
    rewrite (strip_spec _ D k) by (done || lia); run;
    replace (Z.of_nat (length D + length k)) with (Z.of_nat (length (D ++ repeat 0 (length k))))
      by (rewrite length_app, repeat_length; lia);
    rewrite Z.geb_leb; unfold FINSH_ARG_MAX.
  - (* the array is full *)
    rewrite (proj2 (Z.leb_le _ _)) by lia. unfold split_result.
    replace (8 - length argv)%nat with O by lia. cbn [tokens].
    rewrite !kprintf_plain by first [cbn; lia | repeat constructor; done]. run.
    rewrite (print_argv_strings _ argv ts0);
      [|rewrite !length_app in *; rewrite repeat_length; cbn [length] in *; lia|by apply strings_app]. run.
    exists [], (repeat 0 (length k) ++ skip_blanks L). rewrite !app_nil_r.
    split_and!; [|rewrite length_app, repeat_length; lia|].
    + rewrite <- !app_assoc. by destruct L.
    + rewrite <- !app_assoc. rewrite (app_assoc D). by apply strings_app.
  - rewrite (proj2 (Z.leb_gt _ _)) by lia. rewrite Z.geb_leb.
    set (D' := D ++ repeat 0%Z (length k)) in *.
    assert (length D' = length D + length k)%nat as HD by (unfold D'; rewrite length_app, repeat_length; lia).
    assert (tokens (8 - length argv) L = match skip_blanks L with [] => ([], []) | c :: l' =>
          let '(t, r) := if c =? 34 then quoted l' else word (c :: l') in
          let '(ts, r) := tokens n r in (t :: ts, r) end) as Htok
      by (replace (8 - length argv)%nat with (S n) by lia; done).
    destruct (skip_blanks L) as [|c l] eqn:Esk.
    { rewrite (proj2 (Z.leb_le _ _)) by (cbn in *; lia). unfold split_result. rewrite Htok.
      exists [], (repeat 0 (length k)). rewrite !app_nil_r. split_and!; [|rewrite repeat_length; cbn in *; lia|].
      - by unfold D'; rewrite <- !app_assoc.
      - rewrite app_assoc. by apply strings_app. }
    cbn [length] in El. rewrite (proj2 (Z.leb_gt _ _)) by lia. cbn [app]. rewrite zlookup_app. run.
    destruct (Z.eqb_spec c 34) as [->|Hc].
    + destruct (quoted l) as [t r] eqn:Eq. apply c_string_cons in HL' as [_ Hl].
      rewrite (move_head D' (l ++ 0 :: P) 34), <- (length_snoc D' 34).
      edestruct (quote_step (D' ++ [34]) l P argv ts0 (pos + Z.of_nat (length k) + 1)) with (t := t) (r := r) (m := pos + Z.of_nat (length L))
        (rest := fun buf ptr position argv => split_loop fuel buf ptr position (pos + Z.of_nat (length L)) argv)
        as (p & X & HX & Hres); [done|done| |lia|by apply strings_app| |]; cycle 2.
      * eapply (split_cons D (repeat 0%Z (length k) ++ [34] ++ X) L r P argv p ts0 t);
          [|rewrite !length_app, repeat_length; cbn; lia|].
        -- rewrite Htok, length_app. by replace (8 - (length argv + length [p]))%nat with n by (cbn; lia).
        -- replace (D ++ repeat 0%Z (length k) ++ [34] ++ X) with ((D' ++ [34]) ++ X)
             by (unfold D'; by rewrite <- !app_assoc). exact Hres.
      * lia.
      * intros p pos' D2 HF HD2 Hl2 ->. rewrite length_app in HD2. cbn in HD2.
        apply IH; [rewrite length_app; cbn; lia|done| |lia| |lia|lia].
        -- destruct (quoted_split l t r Eq) as [-> | [_ ->]]; [|by constructor].
           apply c_string_app in Hl as [_ Hl]. by apply c_string_cons in Hl as [_ Hl].
        -- rewrite !length_app in *. cbn [length] in *. lia.
    + destruct (word (c :: l)) as [t r] eqn:Eq.
      edestruct (word_step D' (c :: l) P argv ts0 (pos + Z.of_nat (length k))) with (t := t) (r := r) (m := pos + Z.of_nat (length L))
        (rest := fun buf ptr position argv => split_loop fuel buf ptr position (pos + Z.of_nat (length L)) argv)
        as (p & Hres); [done|done| |cbn; lia|done| |]; cycle 2.
      * destruct (word_split _ t r Eq) as (El2 & _). apply (f_equal length) in El2.
        rewrite length_app in El2. cbn [length] in El2.
        eapply (split_cons D (repeat 0%Z (length k) ++ t) L r P argv p ts0 t);
          [|rewrite !length_app, repeat_length; cbn; lia|].
        -- rewrite Htok, length_app. by replace (8 - (length argv + length [p]))%nat with n by (cbn; lia).
        -- rewrite app_assoc. exact Hres.
      * cbn. lia.
      * intros p pos' HF ->. destruct (word_split _ t r Eq) as (El2 & Ht & _).
        rewrite El2 in HL'. apply c_string_app in HL' as [_ Hl].
        assert (t <> []) as Hnt by (intros ->; cbn in El2; subst r; cbn in Eq; rewrite Hh in Eq; by destruct (word l)).
        apply (f_equal length) in El2. rewrite length_app in El2. cbn [length] in El2.
        assert (length t <> O) by (by destruct t).
        apply IH; [rewrite length_app; cbn; lia|done|done|lia| |lia|lia].
        rewrite !length_app in *. cbn [length] in *. lia.
Qed.

(** C30 [msh_split] cuts a line into the tokens of the reference tokenizer, at
    most eight: every entry of [argv] is the address of its token, ended by a
    NUL; only the line is written to; and text left over is announced, after
    the tokens that are used.  A line that fits its buffer is never read or
    written outside of it, and the loops end. *)
Theorem msh_split_tokens A L P : c_string L -> Z.of_nat (length (A ++ L ++ 0 :: P)) <= 126 ->
  let '(ts, r) := tokens 8 L in
  exists argv L',
    msh_split (A ++ L ++ 0 :: P) (Z.of_nat (length A)) (Z.of_nat (length L)) =
      Some ((argv, A ++ L' ++ 0 :: P), match r with [] => [] | _ => too_many ts end) /\
    length L' = length L /\ Forall2 (string_at (A ++ L' ++ 0 :: P)) argv ts.
Proof.
  intros HL HB. unfold msh_split. rewrite Nat2Z.id.
  apply (split_loop_spec 8 [] A L P [] 0); first [done | by constructor | lia].
Qed.

Lemma msh_split_tokens_witness :
  exists argv L',
    msh_split (chars "set  " ++ [34] ++ chars "a b" ++ [34] ++ chars " 1" ++ [0]) 0 12 = Some ((argv, L' ++ [0]), []) /\
    length L' = 12%nat /\ Forall2 (string_at (L' ++ [0])) argv [chars "set"; chars "a b"; chars "1"].
Proof.
  apply (msh_split_tokens [] (chars "set  " ++ [34] ++ chars "a b" ++ [34] ++ chars " 1") []); [|cbn; lia].
  repeat constructor; cbn; lia.
Defined.

(** ** Writing arguments so that they are read back *)

Lemma word_app w r : Forall (fun c => blank c = false) w ->
  match r with c :: _ => blank c = true | [] => True end -> word (w ++ r) = (w, r).
Proof.
  induction 1 as [|c w Hc Hw IH]; intros Hr; cbn [app word].
  - destruct r as [|c r]; [done|]. cbn [word]. by rewrite Hr.
  - rewrite Hc, IH by done. done.
Qed.

Lemma quoted_app w r : Forall (fun c => c <> 34 /\ c <> 92) w -> quoted (w ++ 34 :: r) = (w, r).
Proof.
  induction 1 as [|c w [Hq Hb] Hw IH]; [done|]. cbn [app].
  destruct (w ++ 34 :: r) as [|d l] eqn:E; [by destruct w|].
  rewrite quoted_cons by done. rewrite (proj2 (Z.eqb_neq c 92)) by done. cbn [andb]. by rewrite IH.
Qed.

(** An argument as it is, or between quotes. *)
Inductive written : list Z -> list Z -> Prop :=
  | plain_written w : w <> [] -> Forall (fun c => blank c = false /\ c <> 34) w -> written w w
  | quoted_written w : Forall (fun c => c <> 34 /\ c <> 92) w -> written w (34 :: w ++ [34]).

Lemma tokens_cons n t s L : written t s -> match L with c :: _ => blank c = true | [] => True end ->
  tokens (S n) (32 :: s ++ L) = (let '(ts, r) := tokens n L in (t :: ts, r)).
Proof.
  intros Hw HL. cbn [tokens skip_blanks]. change (blank 32) with true. cbv iota. destruct Hw as [w Hne Hw|w Hw].
  - destruct w as [|c w]; [done|]. apply Forall_cons in Hw as [[Hb Hq] Hw]. cbn [app skip_blanks].
    rewrite Hb. cbv iota. rewrite (proj2 (Z.eqb_neq c 34)) by done.
    change (c :: w ++ L) with ((c :: w) ++ L). rewrite word_app; [done| |done].
    constructor; [done|]. eapply Forall_impl; [exact Hw|]. by intros ? [? _].
  - cbn [app skip_blanks Z.eqb]. change (blank 34) with false. cbv iota. change (34 =? 34) with true. cbv iota.
    rewrite <- app_assoc. cbn [app]. by rewrite quoted_app.
Qed.

(** What was written is read back, and nothing is left over. *)
Lemma tokens_written ts ss : Forall2 written ts ss -> forall n, (length ts <= n)%nat ->
  tokens n (concat (map (cons 32) ss)) = (ts, []).
Proof.
  induction 1 as [|t s ts ss Hw H IH]; intros n Hn; [by destruct n|].
  destruct n as [|n]; cbn [length] in Hn; [lia|]. cbn [map concat app].
  rewrite (tokens_cons n t s) by (done || by destruct ss). by rewrite IH by lia.
Qed.

(** Up to eight arguments, each written as it is (no blank or quote in it) or
    between quotes (no quote or backslash in it) and separated by spaces, come
    out of [msh_split] as they were: each entry of [argv] is the address of
    its argument, and nothing is printed. *)
Theorem arguments_roundtrip ts ss P : Forall2 written ts ss -> (length ts <= 8)%nat ->
  let L := concat (map (cons 32) ss) in
  c_string L -> Z.of_nat (length (L ++ 0 :: P)) <= 126 ->
  exists argv L', msh_split (L ++ 0 :: P) 0 (Z.of_nat (length L)) = Some ((argv, L' ++ 0 :: P), []) /\
    length L' = length L /\ Forall2 (string_at (L' ++ 0 :: P)) argv ts.
Proof.
  intros Hw Hn L HL HB.
  pose proof (split_loop_spec 8 [] [] L P [] 0 (length L) (Z.of_nat (length L))) as H.
  unfold split_result in H. cbn [length Nat.sub] in H.
  assert (tokens 8 L = (ts, [])) as Et by by apply tokens_written. rewrite Et in H. unfold msh_split. rewrite Nat2Z.id.
  apply H; first [done | by constructor | lia].
Qed.

Lemma arguments_roundtrip_witness :
  exists argv L', msh_split (chars " say " ++ [34] ++ chars "hello all" ++ [34; 32; 34; 34] ++ [0]) 0 19 =
      Some ((argv, L' ++ [0]), []) /\ length L' = 19%nat /\
    Forall2 (string_at (L' ++ [0])) argv [chars "say"; chars "hello all"; []].
Proof.
  apply (arguments_roundtrip [chars "say"; chars "hello all"; []]
    [chars "say"; 34 :: chars "hello all" ++ [34]; [34; 34]] []); [|cbn; lia| |cbn; lia].
  - repeat constructor; done.
  - repeat constructor; cbn; lia.
Defined.

(** ** Dispatch *)

Lemma strncmp_prefix w : forall x rest, c_string w -> c_string x ->
  exists r, strncmp (length w) (x ++ [0]) (w ++ rest) = Some r /\ (r = 0 <-> take (length w) x = w).
Proof.
  induction w as [|c w IH]; intros x rest Hw Hx; [by exists 0; destruct x|].
  apply c_string_cons in Hw as [Hc Hw]. destruct x as [|d x]; cbn [app length strncmp take].
  - rewrite (proj2 (Z.eqb_neq 0 c)) by lia. eexists. split; [done|]. split; [lia|done].
  - apply c_string_cons in Hx as [Hd Hx]. rewrite (proj2 (Z.eqb_neq d 0)), orb_false_r by lia.
    destruct (Z.eqb_spec d c) as [->|Hdc]; cbn [negb].
    + destruct (IH x rest Hw Hx) as (r & E & Hr). exists r. split; [done|]. rewrite Hr. split; congruence.
    + eexists. split; [done|]. split; [lia|congruence].
Qed.

Section table.
Context (table : list finsh_syscall).

(** The commands have names without NUL. *)
Definition table_ok : Prop := Forall (fun i => c_string (name i)) table.

Definition cmd_name (w : list Z) : list Z := chars "__cmd_" ++ w.
(** The first command of that name. *)
Definition find_cmd (w : list Z) : option Z :=
  func <$> head (filter (fun i => name i = cmd_name w) table).
End table.

Lemma is_cmd_spec i : c_string (name i) ->
  is_cmd i = Some (bool_decide (take 6 (name i) = chars "__cmd_")).
Proof.
  intros Hi. unfold is_cmd, c_name.
  destruct (strncmp_prefix (chars "__cmd_") (name i) [0]) as (r & E & Hr);
    [by repeat constructor|done|].
  change (strncmp 6) with (strncmp (length (chars "__cmd_"))). rewrite E. cbn [mbind option_bind]. f_equal.
  destruct (Z.eqb_spec r 0); symmetry;
    [apply bool_decide_eq_true_2|apply bool_decide_eq_false_2]; rewrite <- Hr; done.
Qed.

Lemma is_cmd_name i : take 6 (name i) = chars "__cmd_" -> exists x, name i = cmd_name x.
Proof. intros H. exists (drop 6 (name i)). unfold cmd_name. by rewrite <- H, take_drop. Qed.

Lemma from_cmd_name x : from 6 (cmd_name x ++ [0]) = x ++ [0].
Proof. done. Qed.

Lemma get_cmd_spec table w rest : table_ok table -> c_string w ->
  get_cmd_loop table (w ++ rest) (Z.of_nat (length w)) = Some (find_cmd table w).
Proof.
  intros Ht Hw. unfold find_cmd. induction Ht as [|i table Hi Ht IH]; [done|].
  cbn [get_cmd_loop]. rewrite is_cmd_spec by done. cbn [mbind option_bind].
  destruct (decide (name i = cmd_name w)) as [E|E].
  - rewrite filter_cons_True by done. rewrite E. cbn [bool_decide decide_rel negb].
    unfold c_name. rewrite E, from_cmd_name, Nat2Z.id.
    destruct (strncmp_prefix w w rest Hw Hw) as (r & Er & Hr). rewrite Er. cbn [mbind option_bind].
    rewrite firstn_all in Hr. rewrite (proj2 (Z.eqb_eq r 0)) by by apply Hr.
    replace (6 + Z.of_nat (length w)) with (Z.of_nat (length (cmd_name w))) by (cbn; lia).
    by rewrite zlookup_app.
  - rewrite filter_cons_False by done.
    case_bool_decide as H6; cbn [negb]; [|exact IH].
    apply is_cmd_name in H6 as (x & Ex). unfold c_name. rewrite Ex, from_cmd_name, Nat2Z.id.
    assert (c_string x) as Hx by (rewrite Ex in Hi; by do 6 apply c_string_cons in Hi as [_ Hi]).
    destruct (strncmp_prefix w x rest Hw Hx) as (r & Er & Hr). rewrite Er. cbn [mbind option_bind].
    destruct (Z.eqb_spec r 0) as [->|]; [|exact IH].
    destruct Hr as [Hr _]. specialize (Hr eq_refl).
    assert (length w < length x)%nat as Hlt.
    { destruct (decide (length x <= length w)%nat) as [Hle|]; [|lia].
      rewrite firstn_all2 in Hr by done. congruence. }
    destruct (lookup_lt_is_Some_2 x (length w) Hlt) as [c Hc].
    assert ((cmd_name x ++ [0]) !!z (6 + Z.of_nat (length w)) = Some c) as ->.
    { replace (6 + Z.of_nat (length w)) with (Z.of_nat (6 + length w)) by lia.
      rewrite zlookup_of_nat. cbn [cmd_name chars app]. cbn [Nat.add]. rewrite !lookup_cons.
      by rewrite lookup_app_l. }
    cbn [mbind option_bind]. unfold c_string in Hx. rewrite Forall_lookup in Hx. specialize (Hx _ _ Hc).
    rewrite (proj2 (Z.eqb_neq c 0)) by (cbn in Hx; lia). exact IH.
Qed.

Lemma cmd0_spec fuel : forall A t r P n i, (length t <= fuel)%nat ->
  Forall (fun c => blank c = false) t -> match r with c :: _ => blank c = true | [] => True end ->
  n = i + Z.of_nat (length t + length r) -> 0 <= i ->
  cmd0_loop fuel (A ++ (t ++ r) ++ 0 :: P) (Z.of_nat (length A) - i) i n = Some (i + Z.of_nat (length t)).
Proof.
  induction fuel as [|fuel IH]; intros A [|b t] r P n i Hf Ht Hr -> Hi; cbn [length] in Hf; try lia.
  all: cbn [cmd0_loop app length Nat.add]; rewrite ?Z.sub_add, ?Z.add_0_r.
  1, 2: destruct (lookup_head A r P) as (c & -> & Hc); cbn [mbind option_bind];
    destruct r; subst; [|by rewrite Hr]; by rewrite (proj2 (Z.ltb_ge _ _)), andb_false_r by (cbn; lia).
  apply Forall_cons in Ht as [Hb Ht]. rewrite zlookup_app. cbn [mbind option_bind].
  rewrite Hb, (proj2 (Z.ltb_lt _ _)) by lia. cbn [andb negb].
  rewrite (move_head A _ b). replace (Z.of_nat (length A) - i) with (Z.of_nat (length (A ++ [b])) - (i + 1))
    by (rewrite length_snoc; lia).
  rewrite IH by (done || lia). f_equal. lia.
Qed.

Lemma strim_spec fuel : forall A k L P n, (length k <= fuel)%nat ->
  Forall (fun c => blank c = true) k -> match L with c :: _ => blank c = false | [] => True end ->
  n = Z.of_nat (length k + length L) ->
  strim fuel (A ++ (k ++ L) ++ 0 :: P) (Z.of_nat (length A)) n =
  Some (Z.of_nat (length (A ++ k)), Z.of_nat (length L)).
Proof.
  induction fuel as [|fuel IH]; intros A [|b k] L P n Hf Hk HL ->; cbn [length] in Hf; try lia.
  all: cbn [strim app length Nat.add]; rewrite ?app_nil_r, Z.gtb_ltb.
  1, 2: destruct L as [|c L]; cbn [length app]; [done|]; rewrite (proj2 (Z.ltb_lt _ _)) by lia;
    rewrite zlookup_app; cbn [mbind option_bind]; by rewrite HL.
  apply Forall_cons in Hk as [Hb Hk]. rewrite (proj2 (Z.ltb_lt _ _)) by lia.
  rewrite zlookup_app. cbn [mbind option_bind]. rewrite Hb, (move_head A _ b), <- (length_snoc A b).
  rewrite IH by (done || lia). by rewrite <- app_assoc.
Qed.

(** ** [msh_exec] *)

(** A line up to its first space. *)
Fixpoint to_space (l : list Z) : list Z :=
  match l with c :: l' => if c =? 32 then [] else c :: to_space l' | [] => [] end.

Lemma to_space_prefix l : exists r, l = to_space l ++ r.
Proof.
  induction l as [|c l (r & E)]; [by exists []|]. cbn [to_space]. destruct (c =? 32); [by exists (c :: l)|].
  exists r. cbn. by rewrite <- E.
Qed.

Lemma first_space_spec L P : c_string L -> forall i,
  first_space (L ++ 0 :: P) i = Some (i + Z.of_nat (length (to_space L))).
Proof.
  induction 1 as [|c L Hc HL IH]; intros i; cbn [app first_space to_space].
  - cbn. f_equal; lia.
  - rewrite (proj2 (Z.eqb_neq c 0)), andb_true_r by lia. destruct (c =? 32); cbn [negb length]; [f_equal; lia|].
    rewrite IH. f_equal. lia.
Qed.

Section exec.
Context (table : list finsh_syscall) (call : Z -> list Z -> list Z -> list Z * list Z * Z).
Hypothesis Htable : table_ok table.
(** A command writes to the line within its buffer only. *)
Hypothesis Hcall : forall f argv buf, length (call f argv buf).1.2 = length buf.

(** What a line makes the shell do: nothing when it is blank; run the command
    its first word names on its tokens; or name what it did not find. *)
Definition line_events (L : list Z) (evs : list event) : Prop :=
  match skip_blanks L with
  | [] => evs = []
  | L' =>
      match find_cmd table (word L').1 with
      | None => evs = [Out (to_space L' ++ chars ": command not found." ++ [10])]
      | Some f =>
          let '(ts, r) := tokens 8 L' in
          exists argv buf, Forall2 (string_at buf) argv ts /\
            evs = match r with [] => [] | _ => too_many ts end ++
                  [Run f argv buf; Out (call f argv buf).1.1]
      end
  end.

Lemma not_found_text A L P : c_string L -> (length L <= 104)%nat ->
  exists B, (tcmd ← lift (first_space (from (Z.of_nat (length A)) (A ++ L ++ 0 :: P)) (Z.of_nat (length A)));
     buf ← lift (put_range tcmd [0] (A ++ L ++ 0 :: P));
     _ ← kprintf (chars "%s: command not found." ++ [10]) [Arg_str (Some (from (Z.of_nat (length A)) buf))];
     mret (-1, buf)) =
  Some ((-1, B), [Out (to_space L ++ chars ": command not found." ++ [10])]) /\
  length B = length (A ++ L ++ 0 :: P).
Proof.
  intros HL Hn. rewrite from_app, first_space_spec by done. run.
  destruct (to_space_prefix L) as (r & E). set (t := to_space L) in *.
  assert (exists d R, r ++ 0 :: P = d :: R) as (d & R & ER) by (destruct r; eauto).
  assert (A ++ L ++ 0 :: P = (A ++ t) ++ d :: R) as ->
    by (rewrite E, <- !app_assoc; by rewrite ER).
  rewrite <- Nat2Z.inj_add, <- length_app, put_range_one. run. rewrite <- app_assoc, from_app.
  change (chars "%s: command not found." ++ [10]) with (37 :: 115 :: chars ": command not found." ++ [10]).
  apply (f_equal length) in E as El. rewrite length_app in El.
  rewrite kprintf_s; [|rewrite E in HL; by apply c_string_app in HL as [HL _]
    |repeat constructor; done|cbn; lia].
  run. eexists. split; [done|]. rewrite !length_app. cbn. lia.
Qed.

Lemma msh_exec_line L P : c_string L -> Z.of_nat (length (L ++ 0 :: P)) <= 104 ->
  exists r B evs, msh_exec table call (L ++ 0 :: P) 0 (Z.of_nat (length L)) = Some ((r, B), evs) /\
    length B = length (L ++ 0 :: P) /\ line_events L evs.
Proof.
  intros HL HB. unfold msh_exec, line_events. rewrite Nat2Z.id.
  destruct (skip_blanks_split L) as (k & E & Hk & Hh). pose proof (f_equal length E) as El.
  rewrite length_app in El.
  replace (L ++ 0 :: P) with ([] ++ (k ++ skip_blanks L) ++ 0 :: P) in * by (by rewrite <- E).
  assert (c_string (skip_blanks L)) as HL' by (rewrite E in HL; by apply c_string_app in HL as [_ HL]).
  pose proof (strim_spec (length L) [] k (skip_blanks L) P (Z.of_nat (length L))) as Es.
  change (Z.of_nat (length [])) with 0 in Es. rewrite Es by (done || lia). run. cbn [app] in *. rewrite <- app_assoc in *.
  rewrite length_app in HB. cbn [length] in HB. rewrite length_app in HB.
  destruct (skip_blanks L) as [|c l].
  { exists 0, (k ++ 0 :: P), []. done. }
  set (L' := c :: l) in *. rewrite (proj2 (Z.eqb_neq (Z.of_nat (length L')) 0)) by (cbn; lia).
  unfold _msh_exec_cmd. rewrite Nat2Z.id. destruct (word L') as [w rw] eqn:Ew.
  destruct (word_split L' w rw Ew) as (El' & Hw & Hrw). cbn [fst].
  assert (c_string w) as Hcw by (rewrite El' in HL'; by apply c_string_app in HL' as [HL' _]).
  pose proof (cmd0_spec (length L') k w rw P (Z.of_nat (length L')) 0) as E0. rewrite <- El', Z.sub_0_r in E0.
  pose proof (f_equal length El') as Elw. rewrite length_app in Elw.
  rewrite E0 by (done || lia). run.
  assert (w <> []) as Hwn by (intros ->; cbn in El'; subst L' rw; cbn in Ew; rewrite Hh in Ew; by destruct (word l)).
  rewrite Z.add_0_l, (proj2 (Z.eqb_neq (Z.of_nat (length w)) 0)) by (destruct w; [done|cbn; lia]).
  assert (msh_get_cmd table (from (Z.of_nat (length k)) (k ++ L' ++ 0 :: P)) (Z.of_nat (length w)) =
    Some (find_cmd table w)) as ->.
  { rewrite from_app, El', <- app_assoc. by apply get_cmd_spec. }
  run. destruct (find_cmd table w) as [f|].
  - pose proof (split_loop_spec 8 [] k L' P [] 0 (length L') (Z.of_nat (length L'))) as Hs.
    unfold split_result in Hs. cbn [length Nat.sub] in Hs. unfold msh_split. rewrite Nat2Z.id.
    assert (exists t ts r, tokens 8 L' = (t :: ts, r)) as (t & ts & r & Et).
    { subst L'. cbn [tokens skip_blanks]. rewrite Hh.
      destruct (if c =? 34 then _ else _) as [t r]. cbn [fst].
      match goal with |- context [let '(ts, r) := ?x in _] => destruct x as [ts r'] end. by exists t, ts, r'. }
    rewrite Et in Hs |- *. edestruct Hs as (argv & L2 & -> & HL2 & HF); [done|by constructor|done|lia| |lia|lia|].
    { rewrite !length_app. lia. }
    inversion HF as [|p t' argv' ts' Hp HF' Ea Et']; subst. run. cbn [app].
    destruct (call f _ _) as [[out B] rr] eqn:Ec. unfold tell. run. cbn [Z.eqb]. run.
    exists rr, B. eexists. split; [done|]. split.
    + pose proof (Hcall f (p :: argv') (k ++ L2 ++ 0 :: P)) as HlB. rewrite Ec in HlB. cbn [fst snd] in HlB.
      rewrite HlB, !length_app. lia.
    + exists (p :: argv'), (k ++ L2 ++ 0 :: P). rewrite Ec. split; [by constructor|done].
  - run. change (- RT_ERROR =? 0) with false. cbv iota.
    destruct (not_found_text k L' P HL' ltac:(lia)) as (B & -> & HlB). run.
    by exists (-1), B, [Out (to_space L' ++ chars ": command not found." ++ [10])].
Qed.
End exec.
