(* ===== verification/MshComplete.v ===== *)
(** * MshComplete: completing a command name

    [msh_auto_complete] extends what was typed to the longest common prefix
    of the commands that begin with it, and lists them; [msh_help] lists all. *)
From S2P Require Import Prelude Bytes KService Printf Output Msh MshFacts.

(** ** Longest common prefixes *)

Fixpoint lcp (a b : list Z) : list Z :=
  match a, b with c :: a, d :: b => if c =? d then c :: lcp a b else [] | _, _ => [] end.

Lemma lcp_prefix_l a : forall b, lcp a b `prefix_of` a.
Proof.
  induction a as [|c a IH]; intros [|d b]; cbn; try apply prefix_nil.
  destruct (c =? d); [by apply prefix_cons|apply prefix_nil].
Qed.
Lemma lcp_prefix_r a : forall b, lcp a b `prefix_of` b.
Proof.
  induction a as [|c a IH]; intros [|d b]; cbn; try apply prefix_nil.
  destruct (Z.eqb_spec c d) as [->|]; [by apply prefix_cons|apply prefix_nil].
Qed.
Lemma lcp_max q a : forall b, q `prefix_of` a -> q `prefix_of` b -> q `prefix_of` lcp a b.
Proof.
  revert a. induction q as [|c q IH]; intros a b [x ->] [y ->]; [apply prefix_nil|].
  cbn. rewrite Z.eqb_refl. apply prefix_cons, IH; by eexists.
Qed.

Lemma lcps_prefix xs : forall x, foldl lcp x xs `prefix_of` x /\ Forall (fun y => foldl lcp x xs `prefix_of` y) xs.
Proof.
  induction xs as [|y xs IH]; intros x; [done|]. cbn [foldl]. destruct (IH (lcp x y)) as [H1 H2]. split.
  - etrans; [exact H1|apply lcp_prefix_l].
  - constructor; [|exact H2]. etrans; [exact H1|apply lcp_prefix_r].
Qed.
Lemma lcps_max q xs : forall x, q `prefix_of` x -> Forall (fun y => q `prefix_of` y) xs ->
  q `prefix_of` foldl lcp x xs.
Proof.
  induction xs as [|y xs IH]; intros x Hx Hxs; [done|]. apply Forall_cons in Hxs as [Hy Hxs].
  cbn [foldl]. apply IH; [by apply lcp_max|done].
Qed.

(** Cutting one side first. *)
Lemma lcp_take m a : forall b, lcp (take m a) b = take (Nat.min m (length (lcp a b))) a.
Proof.
  revert m. induction a as [|c a IH]; intros [|m] [|d b]; try done. cbn [take lcp].
  destruct (c =? d); [cbn [length Nat.min take]; by rewrite IH|done].
Qed.

(** ** Candidates *)

Section table.
Context (table : list finsh_syscall).
Hypothesis Htable : table_ok table.

Definition suffix_of (i : finsh_syscall) : option (list Z) :=
  if decide (take 6 (name i) = chars "__cmd_") then Some (drop 6 (name i)) else None.

(** The commands of the table, in its order, and those a prefix may stand for. *)
Definition commands : list (list Z) := omap suffix_of table.
Definition candidates (p : list Z) : list (list Z) := filter (fun x => take (length p) x = p) commands.

Definition completion (p : list Z) : list Z :=
  match candidates p with [] => p | x :: xs => foldl lcp x xs end.

Lemma candidate_prefix p x : x ∈ candidates p -> p `prefix_of` x.
Proof.
  intros [Hx _]%list_elem_of_filter. exists (drop (length p) x). by rewrite <- Hx, take_drop at 1.
Qed.

Lemma completion_extends p : p `prefix_of` completion p.
Proof.
  unfold completion. pose proof (candidate_prefix p) as Hc. destruct (candidates p) as [|x xs]; [done|].
  apply lcps_max; [apply Hc, list_elem_of_here|].
  apply Forall_forall. intros y Hy. by apply Hc, list_elem_of_further.
Qed.

(** ** The loop over the table *)

Lemma str_common_spec a : forall b, c_string a -> c_string b ->
  str_common (a ++ [0]) (b ++ [0]) = Some (Z.of_nat (length (lcp a b))).
Proof.
  induction a as [|c a IH]; intros [|d b] Ha Hb; cbn [app str_common lcp]; try done.
  - apply c_string_cons in Ha as [Hc Ha]. by rewrite andb_false_r.
  - apply c_string_cons in Ha as [Hc Ha]. apply c_string_cons in Hb as [Hd Hb].
    rewrite (proj2 (Z.eqb_neq c 0)), (proj2 (Z.eqb_neq d 0)) by lia. cbn [negb andb].
    destruct (c =? d); [|done]. rewrite IH by done. cbn [mbind option_bind length]. f_equal. lia.
Qed.

Lemma strncmp_prefix_l p : forall x rest, c_string p -> c_string x ->
  exists r, strncmp (length p) (p ++ rest) (x ++ [0]) = Some r /\ (r = 0 <-> take (length p) x = p).
Proof.
  induction p as [|c p IH]; intros x rest Hp Hx; [by exists 0; destruct x|].
  apply c_string_cons in Hp as [Hc Hp]. destruct x as [|d x]; cbn [app length strncmp take].
  - rewrite (proj2 (Z.eqb_neq c 0)) by lia. eexists. split; [done|]. split; [lia|done].
  - apply c_string_cons in Hx as [Hd Hx]. rewrite (proj2 (Z.eqb_neq c 0)), orb_false_r by lia.
    destruct (Z.eqb_spec c d) as [->|Hdc]; cbn [negb].
    + destruct (IH x rest Hp Hx) as (r & E & Hr). exists r. split; [done|]. rewrite Hr. split; congruence.
    + eexists. split; [done|]. split; [lia|congruence].
Qed.

Definition listing (xs : list (list Z)) : list event := map (fun x => Out (x ++ [10])) xs.

(** One entry of the table: the loop passes over it, or it is a candidate. *)
Lemma complete_step p rest i l name_ptr m : c_string p -> c_string (name i) ->
  complete_loop (i :: l) (p ++ 0 :: rest) name_ptr m =
  match suffix_of i with
  | Some x =>
      if decide (take (length p) x = p) then
        '(name_ptr, m) ←
          (if m =? 0 then mret (Some (x ++ [0]), Z.of_nat (length x)) else mret (name_ptr, m) : W _);
        length ← lift (n ← name_ptr; str_common n (x ++ [0]));
        _ ← kprintf (chars "%s" ++ [10]) [Arg_str (Some (x ++ [0]))];
        complete_loop l (p ++ 0 :: rest) name_ptr (if length <? m then length else m)
      else complete_loop l (p ++ 0 :: rest) name_ptr m
  | None => complete_loop l (p ++ 0 :: rest) name_ptr m
  end.
Proof.
  intros Hp Hi. cbn [complete_loop]. rewrite is_cmd_spec by done. run. unfold suffix_of.
  destruct (decide (take 6 (name i) = chars "__cmd_")) as [E|E];
    [rewrite bool_decide_eq_true_2 by done|by rewrite bool_decide_eq_false_2 by done].
  cbn [negb]. rewrite strlen_spec by done. run. rewrite Nat2Z.id.
  destruct (is_cmd_name i E) as (x & Ex). unfold c_name. rewrite Ex, from_cmd_name.
  replace (drop 6 (cmd_name x)) with x by done.
  assert (c_string x) as Hx by (rewrite Ex in Hi; by do 6 apply c_string_cons in Hi as [_ Hi]).
  destruct (strncmp_prefix_l p x (0 :: rest) Hp Hx) as (r & Er & Hr). rewrite Er. run.
  destruct (Z.eqb_spec r 0) as [H|H].
  - rewrite decide_True by by apply Hr. destruct (m =? 0); [|done].
    rewrite strlen_spec by done. by run.
  - rewrite decide_False by (intros H'; by apply H, Hr). done.
Qed.
End table.

Lemma candidates_cons i l p : candidates (i :: l) p =
  match suffix_of i with
  | Some x => if decide (take (length p) x = p) then x :: candidates l p else candidates l p
  | None => candidates l p
  end.
Proof.
  unfold candidates, commands. cbn [omap list_omap]. destruct (suffix_of i) as [x|]; [|done].
  by rewrite filter_cons.
Qed.

(** The names fit a line, the descriptions the console's buffer. *)
Record entry_ok (i : finsh_syscall) : Prop := {
  en_name : c_string (name i);
  en_short : (length (name i) <= 85)%nat;
  en_desc : c_string (desc i);
  en_desc_short : (length (desc i) <= 100)%nat }.
Definition names_ok (table : list finsh_syscall) : Prop := Forall entry_ok table.

Lemma names_table table : names_ok table -> table_ok table.
Proof. intros H. eapply Forall_impl; [exact H|]. apply en_name. Qed.

Lemma suffix_ok i x : entry_ok i -> suffix_of i = Some x -> c_string x /\ (length x <= 79)%nat.
Proof.
  intros [Hi Hl _ _]. unfold suffix_of. destruct (decide _) as [E|]; [|done]. intros [= <-].
  split; [|rewrite length_drop; lia]. rewrite <- (take_drop 6 (name i)) in Hi.
  by apply c_string_app in Hi as [_ Hi].
Qed.

Lemma print_candidate x : c_string x -> (length x <= 79)%nat ->
  kprintf (chars "%s" ++ [10]) [Arg_str (Some (x ++ [0]))] = Some (tt, [Out (x ++ [10])]).
Proof.
  intros Hx Hl. change (chars "%s" ++ [10]) with [37; 115; 10].
  rewrite kprintf_s; [done|done|repeat constructor; done|cbn; lia].
Qed.

(** With a first candidate [x0] found, [m] characters of it being common so
    far. *)
Lemma complete_more table p rest x0 : names_ok table -> c_string p -> p <> [] -> c_string x0 ->
  p `prefix_of` x0 -> forall m, (length p <= m <= length x0)%nat ->
  complete_loop table (p ++ 0 :: rest) (Some (x0 ++ [0])) (Z.of_nat m) =
  Some ((Some (x0 ++ [0]), Z.of_nat (length (foldl lcp (take m x0) (candidates table p)))),
        listing (candidates table p)).
Proof.
  intros Ht Hp Hpn Hx0 Hpx. induction Ht as [|i table Hi Ht IH]; intros m Hm.
  { cbn. rewrite length_take, Nat.min_l by lia. done. }
  assert (length p <> O) by (by destruct p). rewrite complete_step, candidates_cons by first [done | by apply en_name].
  destruct (suffix_of i) as [x|] eqn:Ex; [|by apply IH]. destruct (suffix_ok i x Hi Ex) as [Hx Hxl].
  destruct (decide (take (length p) x = p)) as [Epx|]; [|by apply IH].
  rewrite (proj2 (Z.eqb_neq _ 0)) by lia. run. cbn [mbind option_bind]. rewrite str_common_spec by done. run.
  rewrite print_candidate by done. run. cbn [listing map foldl]. rewrite lcp_take.
  set (n := length (lcp x0 x)).
  assert (length p <= n)%nat as Hn.
  { apply prefix_length, lcp_max; [done|]. exists (drop (length p) x). by rewrite <- Epx, take_drop at 1. }
  replace (if Z.of_nat n <? Z.of_nat m then Z.of_nat n else Z.of_nat m) with (Z.of_nat (Nat.min m n))
    by (destruct (Z.ltb_spec (Z.of_nat n) (Z.of_nat m)); lia).
  rewrite IH by lia. by run.
Qed.

Lemma lcp_refl x : lcp x x = x.
Proof. induction x as [|c x IH]; [done|]. cbn. by rewrite Z.eqb_refl, IH. Qed.

Lemma complete_all table p rest : names_ok table -> c_string p -> p <> [] ->
  complete_loop table (p ++ 0 :: rest) None 0 =
  Some (match candidates table p with
        | [] => (None, 0)
        | x :: xs => (Some (x ++ [0]), Z.of_nat (length (foldl lcp x xs)))
        end, listing (candidates table p)).
Proof.
  intros Ht Hp Hpn. induction Ht as [|i table Hi Ht IH]; [done|].
  rewrite complete_step, candidates_cons by first [done | by apply en_name].
  destruct (suffix_of i) as [x|] eqn:Ex; [|done]. destruct (suffix_ok i x Hi Ex) as [Hx Hxl].
  destruct (decide (take (length p) x = p)) as [Epx|]; [|done].
  cbn [Z.eqb]. run. cbn [mbind option_bind]. rewrite str_common_spec, lcp_refl by done. run.
  rewrite print_candidate by done. run. rewrite Z.ltb_irrefl.
  assert (p `prefix_of` x) as Hpx by (exists (drop (length p) x); by rewrite <- Epx, take_drop at 1).
  rewrite complete_more by first [done | split; [by apply prefix_length|done]]. rewrite firstn_all. by run.
Qed.

(** A text written over the beginning of a line that it extends. *)
Lemma put_extension q p k : p `prefix_of` q -> (length q <= length p + k)%nat ->
  put_range 0 q (p ++ repeat 0 k) = Some (q ++ repeat 0 (length p + k - length q)).
Proof.
  intros [x ->] Hl. rewrite length_app in *. unfold put_range.
  rewrite decide_True by (rewrite !length_app, repeat_length; lia). cbn [take Z.to_nat Nat.add app].
  change (Z.to_nat 0) with O. cbn [take Nat.add app].
  rewrite length_app, drop_app_ge by lia. rewrite drop_repeat.
  by replace (k - (length p + length x - length p))%nat with (length p + k - (length p + length x))%nat by lia.
Qed.

Lemma candidates_ok table p : names_ok table ->
  Forall (fun x => c_string x /\ (length x <= 79)%nat /\ p `prefix_of` x) (candidates table p).
Proof.
  intros Ht. apply Forall_forall. intros x Hx. pose proof (candidate_prefix table p x Hx) as Hp.
  unfold candidates in Hx. apply list_elem_of_filter in Hx as [_ Hx]. unfold commands in Hx.
  apply list_elem_of_omap in Hx as (i & Hi & Ei). unfold names_ok in Ht. rewrite Forall_forall in Ht.
  destruct (suffix_ok i x (Ht i Hi) Ei). done.
Qed.

Lemma completion_ok table p : names_ok table -> c_string p -> (length p <= 79)%nat ->
  c_string (completion table p) /\ (length (completion table p) <= 79)%nat.
Proof.
  intros Ht Hp Hl. pose proof (candidates_ok table p Ht) as Hc. unfold completion.
  destruct (candidates table p) as [|x xs]; [done|]. apply Forall_cons in Hc as [(Hx & Hxl & _) _].
  destruct (lcps_prefix xs x) as [[r E] _]. split.
  - rewrite E in Hx. by apply c_string_app in Hx as [Hx _].
  - apply (f_equal length) in E. rewrite length_app in E. lia.
Qed.

(** The buffer holds the completion and zeros. *)
Lemma auto_complete_line table p : names_ok table -> c_string p -> p <> [] -> (length p <= 79)%nat ->
  msh_auto_complete table (p ++ repeat 0 (81 - length p)) =
  Some (completion table p ++ repeat 0 (81 - length (completion table p)), listing (candidates table p)).
Proof.
  intros Ht Hp Hpn Hl. pose proof (candidates_ok table p Ht) as Hc.
  pose proof (completion_ok table p Ht Hp Hl) as [_ Hcl]. pose proof (completion_extends table p) as Hext.
  unfold msh_auto_complete, completion in *.
  assert ((p ++ repeat 0 (81 - length p)) !!z 0 = head p) as -> by (by destruct p).
  destruct (81 - length p)%nat as [|k] eqn:Ek; [lia|]. cbn [repeat].
  assert (exists c, head p = Some c /\ c <> 0) as (c & -> & Hc0).
  { destruct p as [|c p]; [done|]. apply c_string_cons in Hp as [Hcc _]. exists c. split; [done|lia]. }
  run. rewrite (proj2 (Z.eqb_neq c 0)) by done. rewrite complete_all by done. run.
  destruct (candidates table p) as [|x xs].
  - run. by rewrite Ek.
  - apply Forall_cons in Hc as [(Hx & Hxl & Hpx) _].
    destruct (lcps_prefix xs x) as [[r E] _]. set (q := foldl lcp x xs) in *.
    rewrite Nat2Z.id, strncpy_spec by done. run.
    assert (length q <= length x)%nat as Hq by (rewrite E, length_app; lia).
    replace (length q - length x)%nat with O by lia. rewrite app_nil_r.
    replace (take (length q) x) with q by (by rewrite E, take_app_length).
    change (0 :: repeat 0 k) with (repeat 0 (S k)). rewrite put_extension by (done || lia). run.
    replace (length p + S k)%nat with 81%nat by lia. apply after_ret.
Qed.

(** ** [msh_help] *)

(** A command and its description, the name cut or padded to 16 characters. *)
Definition help_line (i : finsh_syscall) : list event :=
  match suffix_of i with
  | Some x => [Out (take 16 x ++ repeat 32 (16 - length x) ++ chars " - " ++ desc i ++ [10])]
  | None => []
  end.
Definition help_text (table : list finsh_syscall) : list event :=
  Out (chars "RT-Thread shell commands:" ++ [10]) :: concat (map help_line table) ++ [Out [10]].

Lemma format_name fuel x rest args : c_string x ->
  format_text (S fuel) (chars "%-16s" ++ rest) (Arg_str (Some (x ++ [0])) :: args) =
  (l ← format_text fuel rest args; Some (take 16 x ++ repeat 32 (16 - length x) ++ l)).
Proof.
  intros Hx.
  transitivity ('(l1, (f, a)) ← (l ← string_text 16 (-1) LEFT (Some (x ++ [0])); Some (l, (rest, args)));
    l2 ← format_text fuel f a; Some (l1 ++ l2)); [done|].
  unfold string_text. cbn [from_option id]. rewrite str_len_spec by (done || lia). cbn [mbind option_bind].
  cbv zeta. cbn [Z.gtb Z.compare andb]. change (flag LEFT LEFT) with true. cbv iota.
  assert (take (Z.to_nat (Z.min (0 + Z.of_nat (length x)) 16)) (x ++ [0]) = take 16 x) as ->.
  { destruct (decide (length x <= 16)%nat).
    - replace (Z.to_nat _) with (length x) by lia. by rewrite take_app_length, firstn_all2.
    - replace (Z.to_nat _) with 16%nat by lia. by rewrite take_app_le by lia. }
  replace (Z.to_nat (16 - _)) with (16 - length x)%nat by lia.
  destruct (format_text fuel rest args) as [l|]; [|done]. cbn [mbind option_bind]. by rewrite <- app_assoc.
Qed.

Lemma help_loop_spec table : names_ok table ->
  msh_help_loop table = Some (tt, concat (map help_line table)).
Proof.
  induction 1 as [|i table Hi Ht IH]; [done|]. cbn [msh_help_loop map concat]. destruct Hi as [Hi Hl Hd Hdl].
  rewrite is_cmd_spec by done. run. unfold help_line, suffix_of.
  destruct (decide (take 6 (name i) = chars "__cmd_")) as [E|E];
    [rewrite bool_decide_eq_true_2 by done|rewrite bool_decide_eq_false_2 by done; run; by rewrite IH].
  destruct (is_cmd_name i E) as (x & Ex). unfold c_name. rewrite Ex, from_cmd_name.
  replace (drop 6 (cmd_name x)) with x by done. rewrite Ex in Hi, Hl.
  assert (c_string x) as Hx by (by do 6 apply c_string_cons in Hi as [_ Hi]).
  rewrite (kprintf_text _ _ (take 16 x ++ repeat 32 (16 - length x) ++ chars " - " ++ desc i ++ [10])).
  - run. by rewrite IH.
  - change (chars "%-16s - %s" ++ [10]) with (chars "%-16s" ++ chars " - %s" ++ [10]).
    cbn [length chars app]. change (S (S (S (S (S (S (S (S (S (S (S O))))))))))) with 11%nat.
    etrans; [exact (format_name 10 x (chars " - %s" ++ [10]) _ Hx)|].
    assert (format_text 10 (chars " - %s" ++ [10]) [Arg_str (Some (desc i ++ [0]))] =
      Some (chars " - " ++ desc i ++ [10])) as ->; [|done].
    transitivity (l3 ← (l2 ← (l1 ← format_text 7 (chars "%s" ++ [10]) [Arg_str (Some (desc i ++ [0]))];
      Some (32 :: l1)); Some (45 :: l2)); Some (32 :: l3)); [done|].
    change (chars "%s" ++ [10]) with [37; 115; 10]. by rewrite (format_s 6 [10] (desc i) [] [] Hd).
  - rewrite !length_app, length_take, repeat_length. change (length (chars " - ")) with 3%nat.
    change (length [10]) with 1%nat. lia.
Qed.

Lemma help_spec table : names_ok table -> msh_help table = Some (tt, help_text table).
Proof.
  intros Ht. unfold msh_help. rewrite !kprintf_plain by first [cbn; lia | repeat constructor; done]. run.
  rewrite help_loop_spec by done. by run.
Qed.
