(* ===== verification/Shell.v ===== *)
(** * Shell: the line editor and history of the console shell

    [components/finsh/shell.c], configured with [FINSH_USING_HISTORY] and
    [FINSH_USING_MSH_ONLY] and without authentication, POSIX or a file system.
    [finsh_key] is one round of the loop of [finsh_thread_entry], from a
    character received to the next call of [finsh_getchar].  [memcpy],
    [memset], [memcmp] and [strlen] are the C library's, [rt_memmove] and
    [rt_strncpy] the kernel's. *)
From S2P Require Import Prelude Bytes KService Printf Output Msh.

Definition FINSH_CMD_SIZE : Z := 80.
Definition FINSH_HISTORY_LINES : Z := 5.

Inductive input_stat := WAIT_NORMAL | WAIT_SPEC_KEY | WAIT_FUNC_KEY.

(** [struct finsh_shell] without its semaphore and device, and the string
    [finsh_prompt_custom] points to.  [echo_mode] and [prompt_mode] are fields
    of one bit. *)
Record finsh_shell := mk_shell {
  stat : input_stat;
  echo_mode : bool;
  prompt_mode : bool;
  current_history : Z;
  history_count : Z;
  cmd_history : list (list Z);
  line : list Z;
  line_position : Z;
  line_curpos : Z;
  prompt_custom : option (list Z) }.

Definition set_stat (x : input_stat) (s : finsh_shell) : finsh_shell :=
  mk_shell x (echo_mode s) (prompt_mode s) (current_history s) (history_count s) (cmd_history s)
    (line s) (line_position s) (line_curpos s) (prompt_custom s).
Definition set_modes (e p : bool) (s : finsh_shell) : finsh_shell :=
  mk_shell (stat s) e p (current_history s) (history_count s) (cmd_history s)
    (line s) (line_position s) (line_curpos s) (prompt_custom s).
Definition set_history (cur count : Z) (h : list (list Z)) (s : finsh_shell) : finsh_shell :=
  mk_shell (stat s) (echo_mode s) (prompt_mode s) cur count h
    (line s) (line_position s) (line_curpos s) (prompt_custom s).
(** The line buffer with [line_position] and [line_curpos], which are
    [rt_uint16_t]. *)
Definition set_line (l : list Z) (position curpos : Z) (s : finsh_shell) : finsh_shell :=
  mk_shell (stat s) (echo_mode s) (prompt_mode s) (current_history s) (history_count s) (cmd_history s)
    l (u16 position) (u16 curpos) (prompt_custom s).
Definition set_custom (p : option (list Z)) (s : finsh_shell) : finsh_shell :=
  mk_shell (stat s) (echo_mode s) (prompt_mode s) (current_history s) (history_count s) (cmd_history s)
    (line s) (line_position s) (line_curpos s) p.

(** ** Modes and prompt *)

Definition finsh_set_prompt_mode (mode : Z) (s : finsh_shell) : finsh_shell :=
  set_modes (echo_mode s) (Z.odd mode) s.
Definition finsh_get_prompt_mode (s : finsh_shell) : Z := Z.b2z (prompt_mode s).
Definition finsh_set_echo (echo : Z) (s : finsh_shell) : finsh_shell :=
  set_modes (Z.odd (u8 echo)) (prompt_mode s) s.
Definition finsh_get_echo (s : finsh_shell) : Z := Z.b2z (echo_mode s).

(** [got] tells whether [rt_malloc] finds room for the copy. *)
Definition finsh_set_prompt (got : bool) (prompt : option (list Z)) (s : finsh_shell) : finsh_shell :=
  let s := set_custom None s in
  match prompt with
  | Some p => if got then set_custom (Some p) s else s
  | None => s
  end.

(** The string in [finsh_prompt], whose last byte nothing overwrites. *)
Definition finsh_get_prompt (s : finsh_shell) : list Z :=
  if negb (prompt_mode s) then []
  else match prompt_custom s with
       | Some p => take (Z.to_nat RT_CONSOLEBUF_SIZE) p
       | None => chars "msh " ++ chars ">"
       end.

(** [rt_kprintf(FINSH_PROMPT)]: the prompt is the format. *)
Definition print_prompt (s : finsh_shell) : W unit := kprintf (finsh_get_prompt s) [].
Definition print_prompt_and (l : list Z) (s : finsh_shell) : W unit :=
  kprintf (chars "%s%s") [Arg_str (Some (finsh_get_prompt s ++ [0])); Arg_str (Some l)].

(** The state [rt_calloc] and [finsh_system_init] leave, and the first steps of
    the thread, with [FINSH_ECHO_DISABLE_DEFAULT] undefined. *)
Definition finsh_system_init : finsh_shell :=
  finsh_set_prompt_mode 1
    (mk_shell WAIT_NORMAL false false 0 0 (repeat (repeat 0 80) 5) (repeat 0 81) 0 0 None).
Definition finsh_thread_start (s : finsh_shell) : W finsh_shell :=
  let s := set_modes true (prompt_mode s) s in
  _ ← print_prompt s; mret s.

(** The effect of [finsh_set_device] on the line when the device changes. *)
Definition finsh_clear_line (s : finsh_shell) : option finsh_shell :=
  l ← put_range 0 (repeat 0 81) (line s); Some (set_line l 0 0 s).

(** ** Moving text within the line *)

Definition line_move (dest src n : Z) (l : list Z) : option (list Z) :=
  if decide (0 <= dest /\ 0 <= src /\ 0 <= n /\
             dest + n <= Z.of_nat (length l) /\ src + n <= Z.of_nat (length l))
  then Some (bytes_at (rt_memmove dest src n (store 0 l ∅)) 0 (length l)) else None.

Fixpoint times (n : nat) (m : W unit) : W unit :=
  match n with O => mret tt | S n => _ ← m; times n m end.
(** [for (i = from; i < to; i++) rt_kprintf] of a backspace. *)
Definition backspaces (n : Z) : W unit := times (Z.to_nat n) (kprintf [8] []).

Section shell.
Context (table : list finsh_syscall) (call : Z -> list Z -> list Z -> list Z * list Z * Z).

(** ** History *)

Definition shell_handle_history (s : finsh_shell) : W unit :=
  _ ← kprintf ([27] ++ chars "[2K" ++ [13]) [];
  print_prompt_and (line s) s.

(** [memcmp] of a history line with the current one; only whether it is 0
    matters. *)
Definition same_line (h : list (list Z)) (i : Z) (l : list Z) : option bool :=
  r ← h !!z i; a ← get_range 0 FINSH_CMD_SIZE r; b ← get_range 0 FINSH_CMD_SIZE l;
  Some (bool_decide (a = b)).

Definition set_row (i : Z) (r : list Z) (h : list (list Z)) : option (list (list Z)) :=
  if decide (0 <= i < Z.of_nat (length h)) then Some (<[Z.to_nat i := r]> h) else None.

(** [memset(row, 0, FINSH_CMD_SIZE); memcpy(row, line, position)] *)
Definition store_row (i : Z) (s : finsh_shell) (h : list (list Z)) : option (list (list Z)) :=
  r ← h !!z i;
  r ← put_range 0 (repeat 0 (Z.to_nat FINSH_CMD_SIZE)) r;
  l ← get_range 0 (line_position s) (line s);
  r ← put_range 0 l r;
  set_row i r h.

Fixpoint move_rows (n : nat) (index : Z) (h : list (list Z)) : option (list (list Z)) :=
  match n with
  | O => Some h
  | S n =>
      r ← h !!z index; src ← h !!z (index + 1);
      l ← get_range 0 FINSH_CMD_SIZE src;
      r ← put_range 0 l r;
      h ← set_row index r h;
      move_rows n (index + 1) h
  end.

Definition shell_push_history (s : finsh_shell) : option finsh_shell :=
  s ← (if negb (line_position s =? 0) then
         if history_count s >=? FINSH_HISTORY_LINES then
           same ← same_line (cmd_history s) (FINSH_HISTORY_LINES - 1) (line s);
           if negb same then
             h ← move_rows (Z.to_nat (FINSH_HISTORY_LINES - 1)) 0 (cmd_history s);
             h ← store_row (FINSH_HISTORY_LINES - 1) s h;
             Some (set_history (current_history s) FINSH_HISTORY_LINES h s)
           else Some s
         else
           push ← (if history_count s =? 0 then Some true
                   else same ← same_line (cmd_history s) (history_count s - 1) (line s);
                        Some (negb same));
           if push : bool then
             h ← store_row (history_count s) s (cmd_history s);
             Some (set_history (history_count s) (u16 (history_count s + 1)) h s)
           else Some s
       else Some s);
  Some (set_history (history_count s) (history_count s) (cmd_history s) s).

(** Copy the history line at [current_history] and print it. *)
Definition recall (s : finsh_shell) : W finsh_shell :=
  r ← lift (cmd_history s !!z current_history s);
  h ← lift (get_range 0 FINSH_CMD_SIZE r);
  l ← lift (put_range 0 h (line s));
  n ← lift (rt_strlen l);
  let s := set_line l n n s in
  _ ← shell_handle_history s;
  mret s.

Definition set_current (i : Z) (s : finsh_shell) : finsh_shell :=
  set_history i (history_count s) (cmd_history s) s.

(** ** Keys *)

Definition key_up (s : finsh_shell) : W finsh_shell :=
  if current_history s >? 0 then recall (set_current (current_history s - 1) s)
  else mret (set_current 0 s).

Definition key_down (s : finsh_shell) : W finsh_shell :=
  if current_history s <? history_count s - 1 then recall (set_current (current_history s + 1) s)
  else if negb (history_count s =? 0) then recall (set_current (history_count s - 1) s)
  else mret s.

Definition key_left (s : finsh_shell) : W finsh_shell :=
  if negb (line_curpos s =? 0) then
    _ ← kprintf [8] [];
    mret (set_line (line s) (line_position s) (line_curpos s - 1) s)
  else mret s.

Definition key_right (s : finsh_shell) : W finsh_shell :=
  if line_curpos s <? line_position s then
    c ← lift (line s !!z line_curpos s);
    _ ← kprintf (chars "%c") [Arg_int c];
    mret (set_line (line s) (line_position s) (line_curpos s + 1) s)
  else mret s.

Definition shell_auto_complete (prefix : list Z) (s : finsh_shell) : W (list Z) :=
  _ ← kprintf [10] [];
  prefix ← msh_auto_complete table prefix;
  _ ← print_prompt_and prefix s;
  mret prefix.

Definition key_tab (s : finsh_shell) : W finsh_shell :=
  _ ← backspaces (line_curpos s);
  l ← shell_auto_complete (line s) s;
  n ← lift (rt_strlen l);
  mret (set_line l n n s).

Definition key_backspace (s : finsh_shell) : W finsh_shell :=
  if line_curpos s =? 0 then mret s
  else
    let position := u16 (line_position s - 1) in
    let curpos := u16 (line_curpos s - 1) in
    if position >? curpos then
      l ← lift (line_move curpos (curpos + 1) (position - curpos) (line s));
      l ← lift (put_range position [0] l);
      _ ← kprintf ([8] ++ chars "%s  " ++ [8]) [Arg_str (Some (from curpos l))];
      _ ← backspaces (position + 1 - curpos);
      mret (set_line l position curpos s)
    else
      _ ← kprintf [8; 32; 8] [];
      l ← lift (put_range position [0] (line s));
      mret (set_line l position curpos s).

Definition key_enter (s : finsh_shell) : W finsh_shell :=
  s ← lift (shell_push_history s);
  _ ← (if echo_mode s then kprintf [10] [] else mret tt);
  '(_, l) ← msh_exec table call (line s) 0 (line_position s);
  _ ← print_prompt s;
  l ← lift (put_range 0 (repeat 0 81) l);
  mret (set_line l 0 0 s).

Definition key_normal (ch : Z) (s : finsh_shell) : W finsh_shell :=
  (* it's a large line, discard it *)
  let position := if line_position s >=? FINSH_CMD_SIZE then 0 else line_position s in
  let curpos := line_curpos s in
  l ← (if curpos <? position then
         l ← lift (line_move (curpos + 1) curpos (position - curpos) (line s));
         l ← lift (put_range curpos [ch] l);
         _ ← (if echo_mode s then kprintf (chars "%s") [Arg_str (Some (from curpos l))] else mret tt);
         _ ← backspaces (position - curpos);
         mret l
       else
         l ← lift (put_range position [ch] (line s));
         _ ← (if echo_mode s then kprintf (chars "%c") [Arg_int ch] else mret tt);
         mret l);
  let position := u16 (position + 1) in
  let curpos := u16 (curpos + 1) in
  if position >=? FINSH_CMD_SIZE then mret (set_line l 0 0 s)
  else mret (set_line l position curpos s).

(** What follows the handling of escape sequences. *)
Definition finsh_char (ch : Z) (s : finsh_shell) : W finsh_shell :=
  if (ch =? 0) || (ch =? 0xff) then mret s
  else if ch =? 9 then key_tab s
  else if (ch =? 0x7f) || (ch =? 8) then key_backspace s
  else if (ch =? 13) || (ch =? 10) then key_enter s
  else key_normal ch s.

Definition finsh_key (ch : Z) (s : finsh_shell) : W finsh_shell :=
  if ch <? 0 then mret s
  else if ch =? 0x1b then mret (set_stat WAIT_SPEC_KEY s)
  else match stat s with
       | WAIT_SPEC_KEY =>
           if ch =? 0x5b then mret (set_stat WAIT_FUNC_KEY s)
           else finsh_char ch (set_stat WAIT_NORMAL s)
       | WAIT_FUNC_KEY =>
           let s := set_stat WAIT_NORMAL s in
           if ch =? 0x41 then key_up s
           else if ch =? 0x42 then key_down s
           else if ch =? 0x44 then key_left s
           else if ch =? 0x43 then key_right s
           else finsh_char ch s
       | WAIT_NORMAL => finsh_char ch s
       end.

Fixpoint finsh_keys (l : list Z) (s : finsh_shell) : W finsh_shell :=
  match l with
  | [] => mret s
  | ch :: l => s ← finsh_key ch s; finsh_keys l s
  end.

End shell.
