(* ===== verification/Editor.v ===== *)
(** * Editor: what the shell's line editor promises

    An abstract editor: the text on both sides of a cursor, the last lines
    entered, and a position among them.  The shell's buffer, counters and
    escape sequences represent it, and every key does to the one what it does
    to the other, with the output that keeps a terminal in step. *)
From S2P Require Import Prelude Bytes KService Printf Output Msh MshFacts MshComplete Shell.

(** ** The abstract editor *)

(** The text before the cursor, nearest character first, and after it. *)
Record editor := mk_editor { behind : list Z; ahead : list Z; hist : list (list Z); at_line : nat }.
Definition text (e : editor) : list Z := rev (behind e) ++ ahead e.

Inductive key := Char (c : Z) | Backspace | Left | Right | Up | Down | Enter | Tab.

Definition codes (k : key) : list Z :=
  match k with
  | Char c => [c]
  | Backspace => [8]
  | Left => [27; 91; 68]
  | Right => [27; 91; 67]
  | Up => [27; 91; 65]
  | Down => [27; 91; 66]
  | Enter => [13]
  | Tab => [9]
  end.

(** The characters that are text to the shell. *)
Definition typable (c : Z) : Prop :=
  0 < c < 255 /\ c <> 8 /\ c <> 9 /\ c <> 10 /\ c <> 13 /\ c <> 27 /\ c <> 127.

Definition empty_editor : editor := mk_editor [] [] [] 0.

(** Entered lines are kept, the last five of them, but not empty ones, nor one
    that repeats the line before. *)
Definition remember (l : list Z) (h : list (list Z)) : list (list Z) :=
  if decide (l = [] \/ last h = Some l) then h
  else (if decide (length h < 5)%nat then h else tail h) ++ [l].

Definition show_line (i : nat) (e : editor) : editor :=
  mk_editor (rev (default [] (hist e !! i))) [] (hist e) i.

Section press.
Context (table : list finsh_syscall).

(** The line the Tab key leaves, and what it lists. *)
Definition completed (l : list Z) : list Z := match l with [] => [] | _ => completion table l end.
Definition listed (l : list Z) : list event :=
  match l with [] => help_text table | _ => listing (candidates table l) end.

Definition press (k : key) (e : editor) : editor :=
  match k with
  | Char c => mk_editor (c :: behind e) (ahead e) (hist e) (at_line e)
  | Backspace => mk_editor (tail (behind e)) (ahead e) (hist e) (at_line e)
  | Left =>
      match behind e with
      | c :: b => mk_editor b (c :: ahead e) (hist e) (at_line e)
      | [] => e
      end
  | Right =>
      match ahead e with
      | c :: a => mk_editor (c :: behind e) a (hist e) (at_line e)
      | [] => e
      end
  | Up => match at_line e with S i => show_line i e | O => e end
  | Down =>
      if decide (at_line e + 1 < length (hist e))%nat then show_line (at_line e + 1) e
      else match hist e with [] => e | _ => show_line (length (hist e) - 1) e end
  | Enter =>
      let h := remember (text e) (hist e) in mk_editor [] [] h (length h)
  | Tab => mk_editor (rev (completed (text e))) [] (hist e) (at_line e)
  end.

(** A character is only typed while the line has room for it. *)
Definition fits (k : key) (e : editor) : Prop :=
  match k with Char c => typable c /\ (length (text e) < 79)%nat | _ => True end.

Fixpoint all_fit (ks : list key) (e : editor) : Prop :=
  match ks with [] => True | k :: ks => fits k e /\ all_fit ks (press k e) end.

(** ** What is printed, with the prompt [P] *)

Context (call : Z -> list Z -> list Z -> list Z * list Z * Z) (P : list Z).

Definition clear_row : list Z := [27] ++ chars "[2K" ++ [13].
Definition show_history (e : editor) : list event := [Out clear_row; Out (P ++ text e)].

Definition printed (k : key) (e : editor) (evs : list event) : Prop :=
  match k with
  | Char c => evs = Out (c :: ahead e) :: repeat (Out [8]) (length (ahead e))
  | Backspace =>
      evs = match behind e, ahead e with
            | [], _ => []
            | _, [] => [Out [8; 32; 8]]
            | _, a => Out ([8] ++ a ++ [32; 32; 8]) :: repeat (Out [8]) (length a + 1)
            end
  | Left => evs = match behind e with [] => [] | _ => [Out [8]] end
  | Right => evs = match ahead e with [] => [] | c :: _ => [Out [c]] end
  | Up => evs = match at_line e with O => [] | _ => show_history (press Up e) end
  | Down => evs = match hist e with [] => [] | _ => show_history (press Down e) end
  | Enter => exists evs', line_events table call (text e) evs' /\ evs = Out [10] :: evs' ++ [Out P]
  | Tab =>
      evs = repeat (Out [8]) (length (behind e)) ++ [Out [10]] ++ listed (text e) ++
            [Out (P ++ text (press Tab e))]
  end.

(** Several keys, one after the other. *)
Inductive session : editor -> list key -> list event -> editor -> Prop :=
  | session_nil e : session e [] [] e
  | session_cons e k ks evs evs' e' : printed k e evs -> session (press k e) ks evs' e' ->
      session e (k :: ks) (evs ++ evs') e'.
End press.

(** ** The state of the shell that represents it *)

Definition pad (l : list Z) : list Z := l ++ repeat 0 (80 - length l).

Record represents (P : list Z) (s : finsh_shell) (e : editor) : Prop := {
  re_stat : stat s = WAIT_NORMAL;
  re_echo : echo_mode s = true;
  re_prompt : finsh_get_prompt s = P;
  re_line : line s = text e ++ repeat 0 (81 - length (text e));
  re_pos : line_position s = Z.of_nat (length (text e));
  re_cur : line_curpos s = Z.of_nat (length (behind e));
  re_chars : c_string (text e);
  re_len : (length (text e) <= 79)%nat;
  re_rows : exists rows, cmd_history s = map pad (hist e) ++ rows /\ Forall (fun r => length r = 80%nat) rows /\
    (length (hist e) + length rows = 5)%nat;
  re_count : history_count s = Z.of_nat (length (hist e));
  re_at : current_history s = Z.of_nat (at_line e);
  re_at_le : (at_line e <= length (hist e))%nat;
  re_hist : Forall (fun l => c_string l /\ l <> [] /\ (length l <= 79)%nat) (hist e) }.

(** A prompt is a format, so without percent sign, and leaves room for a line. *)
Definition prompt_ok (P : list Z) : Prop :=
  c_string P /\ Forall (fun c => c <> 37) P /\ (length P <= 40)%nat.

(** ** Lines as buffers *)

Definition buffer (l : list Z) : list Z := l ++ repeat 0 (81 - length l).

Lemma length_buffer l : (length l <= 81)%nat -> length (buffer l) = 81%nat.
Proof. intros H. unfold buffer. rewrite length_app, repeat_length. lia. Qed.
Lemma length_pad l : (length l <= 80)%nat -> length (pad l) = 80%nat.
Proof. intros H. unfold pad. rewrite length_app, repeat_length. lia. Qed.

Lemma pad_inj a b : c_string a -> c_string b -> (length a <= 79)%nat -> (length b <= 79)%nat ->
  pad a = pad b -> a = b.
Proof.
  intros Ha Hb La Lb E. apply (f_equal cstr) in E. unfold pad in E.
  destruct (80 - length a)%nat eqn:Ea; [lia|]. destruct (80 - length b)%nat eqn:Eb; [lia|].
  cbn [repeat] in E. rewrite !cstr_app in E; [done|..];
    (eapply Forall_impl; [eassumption|]; cbn; lia).
Qed.

Lemma get_range_pad l : (length l <= 80)%nat -> get_range 0 FINSH_CMD_SIZE (buffer l) = Some (pad l).
Proof.
  intros H. unfold FINSH_CMD_SIZE.
  replace (buffer l) with (pad l ++ [0]).
  - replace 80 with (Z.of_nat (length (pad l))) by (rewrite length_pad; lia). apply get_range_all.
  - unfold buffer, pad. rewrite <- app_assoc. f_equal. rewrite <- (repeat_app 0 _ 1). f_equal. lia.
Qed.
Lemma get_range_row r : length r = 80%nat -> get_range 0 FINSH_CMD_SIZE r = Some r.
Proof.
  intros H. unfold FINSH_CMD_SIZE. replace 80 with (Z.of_nat (length r)) by lia.
  rewrite <- (app_nil_r r) at 2. apply get_range_all.
Qed.

(** Writing over the beginning of an array. *)
Lemma put_range_start l r : (length l <= length r)%nat -> put_range 0 l r = Some (l ++ drop (length l) r).
Proof. intros H. unfold put_range. by rewrite decide_True by lia. Qed.

Lemma strlen_buffer l : c_string l -> (length l <= 80)%nat -> rt_strlen (buffer l) = Some (Z.of_nat (length l)).
Proof.
  intros Hl H. unfold buffer. destruct (81 - length l)%nat eqn:E; [lia|]. cbn [repeat]. by apply strlen_spec.
Qed.

(** Text from a place in the buffer on. *)
Lemma from_buffer a b : (length (a ++ b) <= 80)%nat ->
  from (Z.of_nat (length a)) (buffer (a ++ b)) = b ++ 0 :: repeat 0 (80 - length (a ++ b)).
Proof.
  intros H. unfold buffer. rewrite <- app_assoc, from_app. f_equal.
  destruct (81 - length (a ++ b))%nat eqn:E; [lia|]. cbn. do 2 f_equal. lia.
Qed.

(** ** Moving text *)

Lemma rd_list l i : 0 <= i < Z.of_nat (length l) -> rd (store 0 l ∅) i = nth (Z.to_nat i) l 0.
Proof. intros Hi. rewrite rd_store, decide_True by lia. by rewrite Z.sub_0_r. Qed.

Lemma line_move_eq d s n l : (d + n <= length l)%nat -> (s + n <= length l)%nat ->
  line_move (Z.of_nat d) (Z.of_nat s) (Z.of_nat n) l =
  Some (take d l ++ take n (drop s l) ++ drop (d + n) l).
Proof.
  intros Hd Hs. unfold line_move. rewrite decide_True by lia. f_equal.
  apply (nth_ext _ _ 0 0).
  { rewrite bytes_at_length, !length_app, !length_take, !length_drop. lia. }
  intros i Hi. rewrite bytes_at_length in Hi. rewrite bytes_at_nth by done.
  rewrite memmove_moved by lia. rewrite Z.add_0_l.
  destruct (decide (Z.of_nat d <= Z.of_nat i < Z.of_nat d + Z.of_nat n)).
  - rewrite rd_list by lia. replace (Z.to_nat _) with (s + (i - d))%nat by lia.
    rewrite app_nth2 by (rewrite length_take; lia). rewrite length_take, Nat.min_l by lia.
    rewrite app_nth1 by (rewrite length_take, length_drop; lia).
    rewrite nth_firstn. rewrite (proj2 (Nat.ltb_lt _ _)) by lia. by rewrite nth_skipn.
  - rewrite rd_list by lia. rewrite Nat2Z.id. destruct (decide (i < d)%nat).
    + rewrite app_nth1 by (rewrite length_take; lia). rewrite nth_firstn.
      by rewrite (proj2 (Nat.ltb_lt _ _)) by lia.
    + rewrite app_nth2 by (rewrite length_take; lia). rewrite length_take, Nat.min_l by lia.
      rewrite app_nth2 by (rewrite length_take, length_drop; lia).
      rewrite length_take, length_drop, Nat.min_l by lia. rewrite nth_skipn. f_equal. lia.
Qed.

(** Moved up by one, from and to the cursor. *)
Lemma line_move_up b a y Z0 : line_move (Z.of_nat (length b + 1)) (Z.of_nat (length b)) (Z.of_nat (length a))
    (b ++ a ++ y :: Z0) = Some (b ++ hd y a :: a ++ Z0).
Proof.
  rewrite line_move_eq by (rewrite !length_app; cbn; lia). f_equal.
  rewrite drop_app_length, take_app_length.
  assert (exists T, a ++ y :: Z0 = hd y a :: T) as (T & E) by (destruct a; eauto).
  rewrite E at 1. rewrite take_app_ge by lia. replace (length b + 1 - length b)%nat with 1%nat by lia.
  cbn [take]. rewrite take_0, <- app_assoc. cbn [app]. do 3 f_equal.
  rewrite drop_app_ge by lia. replace (length b + 1 + length a - length b)%nat with (length a + 1)%nat by lia.
  rewrite drop_app_ge by lia. by replace (length a + 1 - length a)%nat with 1%nat by lia.
Qed.

(** Moved down by one. *)
Lemma line_move_down b x a y Z0 : exists z,
  line_move (Z.of_nat (length b)) (Z.of_nat (length b + 1)) (Z.of_nat (length a)) (b ++ x :: a ++ y :: Z0) =
  Some (b ++ a ++ z :: y :: Z0).
Proof.
  rewrite line_move_eq by (rewrite !length_app; cbn; rewrite length_app; cbn; lia).
  rewrite take_app_length. rewrite drop_app_ge by lia.
  replace (length b + 1 - length b)%nat with 1%nat by lia. cbn [drop]. rewrite drop_0, take_app_length.
  rewrite drop_app_ge by lia. replace (length b + length a - length b)%nat with (length a) by lia.
  assert (exists z, drop (length a) (x :: a ++ y :: Z0) = z :: y :: Z0) as (z & ->); [|by exists z].
  clear. revert x. induction a as [|c a IH]; intros x; [by exists x|]. cbn [length drop app]. apply IH.
Qed.

Lemma buffer_split b a : (length (b ++ a) <= 79)%nat ->
  buffer (b ++ a) = b ++ a ++ 0 :: 0 :: repeat 0 (79 - length (b ++ a)).
Proof.
  intros H. unfold buffer. rewrite <- app_assoc.
  by replace (81 - length (b ++ a))%nat with (S (S (79 - length (b ++ a)))) by lia.
Qed.

(** Making room at the cursor, and closing the gap a character leaves. *)
Lemma line_insert b a c : (length (b ++ a) <= 79)%nat -> exists l,
  line_move (Z.of_nat (length b) + 1) (Z.of_nat (length b)) (Z.of_nat (length a)) (buffer (b ++ a)) = Some l /\
  put_range (Z.of_nat (length b)) [c] l = Some (buffer (b ++ c :: a)).
Proof.
  intros H. replace (Z.of_nat (length b) + 1) with (Z.of_nat (length b + 1)) by lia.
  rewrite buffer_split, line_move_up by done. eexists. split; [done|]. rewrite put_range_one.
  unfold buffer. rewrite <- app_assoc. cbn [app]. do 4 f_equal.
  rewrite !length_app in *. cbn [length].
  by replace (81 - (length b + S (length a)))%nat with (S (79 - (length b + length a))) by lia.
Qed.

Lemma line_delete b x a : (length (b ++ x :: a) <= 79)%nat -> exists l,
  line_move (Z.of_nat (length b)) (Z.of_nat (length b) + 1) (Z.of_nat (length a)) (buffer (b ++ x :: a)) = Some l /\
  put_range (Z.of_nat (length (b ++ a))) [0] l = Some (buffer (b ++ a)).
Proof.
  intros H. replace (Z.of_nat (length b) + 1) with (Z.of_nat (length b + 1)) by lia.
  rewrite buffer_split by done. cbn [app].
  destruct (line_move_down b x a 0 (0 :: repeat 0 (79 - length (b ++ x :: a)))) as (z & ->).
  eexists. split; [done|]. rewrite app_assoc, put_range_one.
  unfold buffer. do 2 f_equal. rewrite !length_app in *. cbn [length] in *.
  by replace (81 - (length b + length a))%nat with (S (S (S (79 - (length b + S (length a)))))) by lia.
Qed.

(** ** One key *)

Lemma backspaces_out n : backspaces (Z.of_nat n) = Some (tt, repeat (Out [8]) n).
Proof.
  unfold backspaces. rewrite Nat2Z.id, kprintf_plain by first [cbn; lia | repeat constructor; done].
  induction n as [|n IH]; [done|]. cbn [times repeat]. run. by rewrite IH.
Qed.

Section keys.
Context (table : list finsh_syscall) (call : Z -> list Z -> list Z -> list Z * list Z * Z) (P : list Z).
Hypothesis Htable : names_ok table.
Hypothesis Hcall : forall f argv buf, length (call f argv buf).1.2 = length buf.
Hypothesis HP : prompt_ok P.

(** The keys [k] take [s] to a state that represents [e], printing [evs]. *)
Definition key_does (m : W finsh_shell) (e : editor) (evs : list event) : Prop :=
  exists s, m = Some (s, evs) /\ represents P s e.

Lemma represents_line s e b a p c : represents P s e -> c_string (rev b ++ a) ->
  (length (rev b ++ a) <= 79)%nat -> p = Z.of_nat (length (rev b ++ a)) -> c = Z.of_nat (length b) ->
  represents P (set_line (buffer (rev b ++ a)) p c s) (mk_editor b a (hist e) (at_line e)).
Proof.
  intros [] Hc Hl -> ->. rewrite length_app, length_rev in *.
  constructor; unfold text; cbn; rewrite ?u16_small by (rewrite ?length_app, ?length_rev; lia); try done.
  all: rewrite length_app, length_rev; lia.
Qed.

Lemma text_buffer s e : represents P s e -> line s = buffer (rev (behind e) ++ ahead e).
Proof. intros H. rewrite (re_line P s e H). done. Qed.

Lemma text_length e : length (text e) = (length (behind e) + length (ahead e))%nat.
Proof. unfold text. by rewrite length_app, length_rev. Qed.

Lemma one_key c s : stat s = WAIT_NORMAL -> 0 <= c -> c <> 27 ->
  finsh_keys table call [c] s = finsh_char table call c s.
Proof.
  intros Hs Hc H27. cbn [finsh_keys]. unfold finsh_key.
  rewrite (proj2 (Z.ltb_ge c 0)), (proj2 (Z.eqb_neq c 27)), Hs by done.
  destruct (finsh_char table call c s) as [[s' t]|]; [|done]. by run.
Qed.

Lemma escape_key c s : stat s = WAIT_NORMAL -> 65 <= c <= 68 ->
  finsh_keys table call [27; 91; c] s =
  (if c =? 65 then key_up s else if c =? 66 then key_down s else if c =? 68 then key_left s else key_right s).
Proof.
  intros Hs Hc. cbn [finsh_keys]. unfold finsh_key.
  change (27 <? 0) with false. change (91 <? 0) with false. change (27 =? 27) with true. change (91 =? 27) with false.
  change (91 =? 91) with true. cbv iota. rewrite (proj2 (Z.ltb_ge c 0)), (proj2 (Z.eqb_neq c 27)) by lia. run.
  cbn [stat set_stat]. run. cbn [stat set_stat].
  assert (set_stat WAIT_NORMAL (set_stat WAIT_FUNC_KEY (set_stat WAIT_SPEC_KEY s)) = s) as ->
    by (destruct s; cbn in *; by subst).
  assert (c = 65 \/ c = 66 \/ c = 67 \/ c = 68) as Hcs by lia.
  destruct_or! Hcs; subst; cbn [Z.eqb Pos.eqb];
    match goal with |- mbind _ ?m = _ => destruct m as [[s' t]|]; [|done]; by run end.
Qed.

Lemma small_line n : (n < 80)%nat -> (Z.of_nat n >=? FINSH_CMD_SIZE) = false.
Proof. intros H. unfold FINSH_CMD_SIZE. rewrite Z.geb_leb. apply Z.leb_gt. lia. Qed.

(** The buffer with the character at the cursor, and the echo. *)
Lemma char_line b a c : c_string (b ++ c :: a) -> (length (b ++ c :: a) <= 79)%nat ->
  (if Z.of_nat (length b) <? Z.of_nat (length (b ++ a)) then
     l ← lift (line_move (Z.of_nat (length b) + 1) (Z.of_nat (length b))
                 (Z.of_nat (length (b ++ a)) - Z.of_nat (length b)) (buffer (b ++ a)));
     l ← lift (put_range (Z.of_nat (length b)) [c] l);
     _ ← kprintf (chars "%s") [Arg_str (Some (from (Z.of_nat (length b)) l))];
     _ ← backspaces (Z.of_nat (length (b ++ a)) - Z.of_nat (length b));
     mret l
   else
     l ← lift (put_range (Z.of_nat (length (b ++ a))) [c] (buffer (b ++ a)));
     _ ← kprintf (chars "%c") [Arg_int c];
     mret l) =
  Some (buffer (b ++ c :: a), Out (c :: a) :: repeat (Out [8]) (length a)).
Proof.
  intros Hc Hl. rewrite length_app in Hl |- *. cbn [length] in Hl.
  destruct (Z.ltb_spec (Z.of_nat (length b)) (Z.of_nat (length b + length a))).
  - replace (Z.of_nat (length b + length a) - Z.of_nat (length b)) with (Z.of_nat (length a)) by lia.
    destruct (line_insert b a c) as (l & El & Ep); [rewrite length_app; lia|].
    rewrite El. run. rewrite Ep. run. rewrite from_buffer by (rewrite length_app; cbn; lia).
    change (chars "%s") with (37 :: 115 :: ([] : list Z)).
    rewrite kprintf_s; [|by apply c_string_app in Hc as [_ Hc]|done|cbn; lia]. run.
    rewrite backspaces_out. by run.
  - destruct a; [|cbn in *; lia]. rewrite app_nil_r, Nat.add_0_r in *.
    apply c_string_app in Hc as [_ Hc]. apply c_string_cons in Hc as [Hc _].
    replace (put_range (Z.of_nat (length b)) [c] (buffer b)) with (Some (buffer (b ++ [c]))).
    + run. rewrite (kprintf_text _ _ [c]) by first [by apply format_c; lia | cbn; lia]. by run.
    + unfold buffer. rewrite length_app. cbn [length]. destruct (81 - length b)%nat eqn:E; [lia|].
      cbn [repeat]. rewrite put_range_one. rewrite <- app_assoc. cbn [app]. do 4 f_equal. lia.
Qed.

Lemma char_key c s e : represents P s e -> fits (Char c) e ->
  key_does (finsh_keys table call (codes (Char c)) s) (press table (Char c) e)
    (Out (c :: ahead e) :: repeat (Out [8]) (length (ahead e))).
Proof.
  intros Hr [(Hc & H8 & H9 & H10 & H13 & H27 & H127) Hl]. pose proof (re_chars P s e Hr) as Hch.
  cbn [codes]. rewrite one_key by (done || lia || apply Hr). unfold finsh_char.
  rewrite !(proj2 (Z.eqb_neq _ _)) by lia. cbn [orb]. unfold key_normal.
  rewrite (re_pos P s e Hr), (re_cur P s e Hr), (re_echo P s e Hr), (text_buffer s e Hr), small_line by lia.
  unfold text in *. rewrite <- (length_rev (behind e)).
  assert (c_string (rev (behind e) ++ c :: ahead e)) as Hc2.
  { apply c_string_app in Hch as [H1 H2]. apply c_string_app. split; [done|]. apply c_string_cons. split; [lia|done]. }
  assert (length (rev (behind e) ++ c :: ahead e) = S (length (rev (behind e) ++ ahead e))) as El
    by (rewrite !length_app; cbn; lia).
  rewrite char_line by (done || lia). run.
  replace (Z.of_nat (length (rev (behind e) ++ ahead e)) + 1) with (Z.of_nat (length (rev (behind e) ++ c :: ahead e))) by lia.
  rewrite u16_small, small_line by lia. run.
  eexists. split; [done|]. cbn [press].
  replace (rev (behind e) ++ c :: ahead e) with (rev (c :: behind e) ++ ahead e) in * by (cbn; by rewrite <- app_assoc).
  apply represents_line; [done|done|lia|lia|].
  rewrite length_app, length_rev in *. rewrite u16_small; cbn [length]; lia.
Qed.
(** The text stays, the cursor moves. *)
Lemma moved_cursor s e b a c : represents P s e -> rev b ++ a = text e -> c = Z.of_nat (length b) ->
  represents P (set_line (line s) (line_position s) c s) (mk_editor b a (hist e) (at_line e)).
Proof.
  intros Hr E ->. rewrite (text_buffer s e Hr), (re_pos P s e Hr). change (rev (behind e) ++ ahead e) with (text e).
  rewrite <- E. apply represents_line; rewrite ?E; try done; apply Hr.
Qed.

Lemma left_key s e : represents P s e ->
  key_does (finsh_keys table call (codes Left) s) (press table Left e)
    (match behind e with [] => [] | _ => [Out [8]] end).
Proof.
  intros Hr. cbn [codes]. rewrite escape_key by (done || lia || apply Hr). cbn [Z.eqb Pos.eqb].
  unfold key_left. rewrite (re_cur P s e Hr). cbn [press]. destruct (behind e) as [|c b] eqn:Eb.
  { eexists. split; [done|]. exact Hr. }
  cbn [length]. rewrite (proj2 (Z.eqb_neq _ 0)) by lia. cbn [negb].
  rewrite kprintf_plain by first [cbn; lia | repeat constructor; done]. run.
  eexists. split; [done|]. apply (moved_cursor s e); [done| |lia].
  unfold text. rewrite Eb. cbn [rev]. by rewrite <- app_assoc.
Qed.

Lemma right_key s e : represents P s e ->
  key_does (finsh_keys table call (codes Right) s) (press table Right e)
    (match ahead e with [] => [] | c :: _ => [Out [c]] end).
Proof.
  intros Hr. cbn [codes]. rewrite escape_key by (done || lia || apply Hr). cbn [Z.eqb Pos.eqb].
  unfold key_right. rewrite (re_cur P s e Hr), (re_pos P s e Hr), text_length. cbn [press].
  destruct (ahead e) as [|c a] eqn:Ea; cbn [length].
  { rewrite Nat.add_0_r, Z.ltb_irrefl. eexists. split; [done|]. exact Hr. }
  rewrite (proj2 (Z.ltb_lt _ _)) by lia.
  assert (0 < c < 256) as Hc.
  { pose proof (re_chars P s e Hr) as Hc. unfold text in Hc. rewrite Ea in Hc.
    apply c_string_app in Hc as [_ Hc]. by apply c_string_cons in Hc as [Hc _]. }
  assert (line s !!z Z.of_nat (length (behind e)) = Some c) as ->.
  { rewrite (text_buffer s e Hr), Ea. unfold buffer. rewrite <- app_assoc, <- (length_rev (behind e)).
    apply zlookup_app. }
  run. rewrite (kprintf_text _ _ [c]) by first [by apply format_c; lia | cbn; lia]. run.
  eexists. split; [done|].
  assert (set_line (line s) (Z.of_nat (length (behind e) + S (length a))) (Z.of_nat (length (behind e)) + 1) s =
    set_line (line s) (line_position s) (Z.of_nat (length (c :: behind e))) s) as ->.
  { rewrite (re_pos P s e Hr), text_length, Ea. cbn [length]. f_equal; lia. }
  apply (moved_cursor s e); [done| |done]. unfold text. rewrite Ea. cbn [rev]. by rewrite <- app_assoc.
Qed.

Lemma backspace_key s e : represents P s e ->
  key_does (finsh_keys table call (codes Backspace) s) (press table Backspace e)
    (match behind e, ahead e with
     | [], _ => []
     | _, [] => [Out [8; 32; 8]]
     | _, a => Out ([8] ++ a ++ [32; 32; 8]) :: repeat (Out [8]) (length a + 1)
     end).
Proof.
  intros Hr. cbn [codes]. rewrite one_key by (done || lia || apply Hr). unfold finsh_char. cbn [Z.eqb Pos.eqb orb].
  unfold key_backspace. rewrite (re_cur P s e Hr), (re_pos P s e Hr), (text_buffer s e Hr), text_length.
  pose proof (re_chars P s e Hr) as Hch. pose proof (re_len P s e Hr) as Hl. rewrite text_length in Hl.
  cbn [press]. destruct (behind e) as [|x b] eqn:Eb.
  { eexists. split; [done|]. cbn [tail]. rewrite <- Eb. by destruct e. }
  cbn [length tail] in *. rewrite (proj2 (Z.eqb_neq _ 0)) by lia.
  replace (Z.of_nat (S (length b) + length (ahead e)) - 1) with (Z.of_nat (length (rev b ++ ahead e)))
    by (rewrite length_app, length_rev; lia).
  replace (Z.of_nat (S (length b)) - 1) with (Z.of_nat (length (rev b))) by (rewrite length_rev; lia).
  assert (length (rev b ++ ahead e) = length b + length (ahead e))%nat as Ell by (by rewrite length_app, length_rev).
  rewrite !u16_small by (rewrite ?Ell, ?length_rev; lia).
  unfold text in Hch. rewrite Eb in Hch. cbn [rev] in Hch |- *. rewrite <- app_assoc in Hch. rewrite <- app_assoc.
  cbn [app] in *. apply c_string_app in Hch as [Hcb Hca]. apply c_string_cons in Hca as [_ Hca].
  assert (forall s' : finsh_shell, s' = set_line (buffer (rev b ++ ahead e)) (Z.of_nat (length (rev b ++ ahead e)))
      (Z.of_nat (length (rev b))) s -> represents P s' (mk_editor b (ahead e) (hist e) (at_line e))) as Hend.
  { intros s' ->. apply represents_line; [done|by apply c_string_app|lia|done|by rewrite length_rev]. }
  rewrite Z.gtb_ltb. destruct (Z.ltb_spec (Z.of_nat (length (rev b))) (Z.of_nat (length (rev b ++ ahead e)))) as [Hlt|Hge].
  - replace (Z.of_nat (length (rev b ++ ahead e)) - Z.of_nat (length (rev b))) with (Z.of_nat (length (ahead e)))
      by (rewrite Ell, length_rev; lia).
    destruct (line_delete (rev b) x (ahead e)) as (l & E1 & E2); [rewrite length_app, length_rev; cbn; lia|].
    rewrite E1. run. rewrite E2. run. rewrite from_buffer by lia.
    assert (kprintf (8 :: chars "%s  " ++ [8]) [Arg_str (Some (ahead e ++ 0 :: repeat 0 (80 - length (rev b ++ ahead e))))]
      = Some (tt, [Out ([8] ++ ahead e ++ [32; 32; 8])])) as ->.
    { apply kprintf_text; [|rewrite !length_app; cbn; lia].
      transitivity (l ← format_text 5 (37 :: 115 :: [32; 32; 8])
        [Arg_str (Some (ahead e ++ 0 :: repeat 0 (80 - length (rev b ++ ahead e))))]; Some (8 :: l)); [done|].
      rewrite format_s by done. by rewrite format_plain by (repeat constructor; done || cbn; lia). }
    run. replace (Z.of_nat (length (rev b ++ ahead e)) + 1 - Z.of_nat (length (rev b)))
      with (Z.of_nat (length (ahead e) + 1)) by (rewrite Ell, length_rev; lia).
    rewrite backspaces_out. run. eexists. split; [|by apply Hend].
    destruct (ahead e); [exfalso; rewrite app_nil_r in Hlt; lia|done].
  - destruct (ahead e) as [|y a]; [|rewrite Ell, length_rev in Hge; cbn in Hge; lia].
    rewrite app_nil_r in *. rewrite kprintf_plain by first [cbn; lia | repeat constructor; done]. run.
    replace (put_range (Z.of_nat (length (rev b))) [0] (buffer (rev b ++ [x]))) with (Some (buffer (rev b))).
    + run. eexists. split; [done|]. by apply Hend.
    + unfold buffer. rewrite <- app_assoc. cbn [app]. rewrite put_range_one. rewrite length_app. cbn [length].
      destruct (81 - length (rev b))%nat eqn:E; [rewrite length_rev in E; lia|]. cbn [repeat].
      do 4 f_equal. lia.
Qed.
(** ** History *)

Lemma buffer_pad l : (length l <= 80)%nat -> buffer l = pad l ++ [0].
Proof.
  intros H. unfold buffer, pad. rewrite <- app_assoc. f_equal. rewrite <- (repeat_app 0 _ 1). f_equal. lia.
Qed.

Lemma prompt_and_line s l : finsh_get_prompt s = P -> c_string l -> (length l <= 79)%nat ->
  print_prompt_and (buffer l) s = Some (tt, [Out (P ++ l)]).
Proof.
  intros Hs Hl Hn. destruct HP as (HP1 & HP2 & HP3). unfold print_prompt_and. rewrite Hs. apply kprintf_text.
  - change (chars "%s%s") with [37; 115; 37; 115]. cbn [length].
    change (format_text 4 [37; 115; 37; 115]) with (format_text 4 (37 :: 115 :: [37; 115])).
    rewrite (format_s 3 [37; 115] P [] _ HP1). unfold buffer.
    destruct (81 - length l)%nat eqn:E; [lia|]. cbn [repeat].
    change (format_text 3 [37; 115]) with (format_text 3 (37 :: 115 :: [])).
    rewrite (format_s 2 [] l _ _ Hl). cbn. by rewrite app_nil_r.
  - rewrite length_app. lia.
Qed.

Lemma set_line_prompt l p c s : finsh_get_prompt (set_line l p c s) = finsh_get_prompt s.
Proof. done. Qed.

(** The line of the history at [i] replaces the text. *)
Lemma recall_line s e i : represents P s e -> (i < length (hist e))%nat ->
  key_does (recall (set_current (Z.of_nat i) s)) (show_line i e) (show_history P (show_line i e)).
Proof.
  intros Hr Hi. destruct (lookup_lt_is_Some_2 (hist e) i Hi) as [h Eh].
  pose proof (re_hist P s e Hr) as Hh. rewrite Forall_lookup in Hh. destruct (Hh i h Eh) as (Hc & Hne & Hl).
  unfold recall. cbn [cmd_history set_current set_history current_history line].
  destruct (re_rows P s e Hr) as (rows & Er & _ & _). rewrite Er, zlookup_of_nat.
  rewrite lookup_app_l by by rewrite length_map.
  assert (map pad (hist e) !! i = Some (pad h)) as -> by (change (map pad (hist e)) with (pad <$> hist e); by rewrite list_lookup_fmap, Eh).
  run. rewrite get_range_row by (apply length_pad; lia). run.
  rewrite (text_buffer s e Hr), put_range_start.
  2: { rewrite length_pad, length_buffer by (try lia; pose proof (re_len P s e Hr); unfold text in *; lia). lia. }
  replace (pad h ++ drop (length (pad h)) (buffer (rev (behind e) ++ ahead e))) with (buffer h).
  2: { rewrite (buffer_pad h), (buffer_pad (_ ++ _)), length_pad by (pose proof (re_len P s e Hr); unfold text in *; lia).
       f_equal. rewrite <- (length_pad (rev (behind e) ++ ahead e)) by (pose proof (re_len P s e Hr); unfold text in *; lia).
       by rewrite drop_app_length. }
  run. rewrite strlen_buffer by (done || lia). run.
  unfold shell_handle_history. rewrite kprintf_plain by first [cbn; lia | repeat constructor; done]. run.
  assert (default [] (hist e !! i) = h) as Ed by by rewrite Eh.
  cbn [line set_line]. rewrite prompt_and_line by (done || apply (re_prompt P s e Hr)). run.
  assert (text (show_line i e) = h) as Et.
  { unfold text, show_line. cbn [behind ahead]. by rewrite Ed, rev_involutive, app_nil_r. }
  eexists. split; [unfold show_history; by rewrite Et|].
  destruct Hr. constructor; rewrite ?Et; cbn [stat echo_mode line line_position line_curpos cmd_history history_count
    current_history set_line set_current set_history show_line behind ahead hist at_line]; try done.
  - by rewrite u16_small by lia.
  - by rewrite u16_small, Ed, length_rev by lia.
  - lia.
Qed.

Lemma up_key s e : represents P s e ->
  key_does (finsh_keys table call (codes Up) s) (press table Up e)
    (match at_line e with O => [] | _ => show_history P (press table Up e) end).
Proof.
  intros Hr. cbn [codes]. rewrite escape_key by (done || lia || apply Hr). cbn [Z.eqb Pos.eqb].
  unfold key_up. rewrite (re_at P s e Hr). cbn [press]. pose proof (re_at_le P s e Hr) as Hle.
  destruct (at_line e) as [|i] eqn:Ei.
  - cbn. eexists. split; [done|]. destruct Hr. constructor; try done. by rewrite Ei.
  - rewrite Z.gtb_ltb, (proj2 (Z.ltb_lt _ _)) by lia.
    replace (Z.of_nat (S i) - 1) with (Z.of_nat i) by lia. apply recall_line; [done|lia].
Qed.

Lemma down_key s e : represents P s e ->
  key_does (finsh_keys table call (codes Down) s) (press table Down e)
    (match hist e with [] => [] | _ => show_history P (press table Down e) end).
Proof.
  intros Hr. cbn [codes]. rewrite escape_key by (done || lia || apply Hr). cbn [Z.eqb Pos.eqb].
  unfold key_down. rewrite (re_at P s e Hr), (re_count P s e Hr). cbn [press].
  destruct (decide (at_line e + 1 < length (hist e))%nat) as [Hlt|Hge].
  - rewrite (proj2 (Z.ltb_lt _ _)) by lia.
    replace (Z.of_nat (at_line e) + 1) with (Z.of_nat (at_line e + 1)) by lia.
    destruct (hist e) eqn:Eh; [cbn in Hlt; lia|]. rewrite <- Eh in *. by apply recall_line.
  - rewrite (proj2 (Z.ltb_ge _ _)) by lia. destruct (hist e) as [|h hs] eqn:Eh.
    + eexists. split; [done|]. done.
    + rewrite <- Eh in *. assert (length (hist e) <> O) by by rewrite Eh.
      rewrite (proj2 (Z.eqb_neq _ 0)) by lia. cbn [negb].
      replace (Z.of_nat (length (hist e)) - 1) with (Z.of_nat (length (hist e) - 1)) by lia.
      apply recall_line; [done|lia].
Qed.
Lemma same_line_spec h i l t : h !!z i = Some (pad l) -> c_string l -> c_string t ->
  (length l <= 79)%nat -> (length t <= 79)%nat ->
  same_line h i (buffer t) = Some (bool_decide (l = t)).
Proof.
  intros Hi Hl Ht Ll Lt. unfold same_line. rewrite Hi. cbn [mbind option_bind].
  rewrite (get_range_row (pad l)) by (apply length_pad; lia). cbn [mbind option_bind].
  rewrite get_range_pad by lia. cbn [mbind option_bind]. f_equal. apply bool_decide_ext.
  split; [by apply pad_inj|by intros ->].
Qed.

Lemma store_row_spec s e i h r : represents P s e -> h !! i = Some r -> length r = 80%nat ->
  store_row (Z.of_nat i) s h = Some (<[i := pad (text e)]> h).
Proof.
  intros Hr Hi Hl. pose proof (re_len P s e Hr) as Hn. unfold store_row. rewrite zlookup_of_nat, Hi.
  cbn [mbind option_bind]. change (Z.to_nat FINSH_CMD_SIZE) with 80%nat.
  rewrite put_range_start by (rewrite repeat_length; lia). cbn [mbind option_bind].
  rewrite repeat_length, drop_ge, app_nil_r by lia.
  rewrite (re_line P s e Hr), (re_pos P s e Hr), get_range_all. cbn [mbind option_bind].
  rewrite put_range_start by (rewrite repeat_length; lia). cbn [mbind option_bind]. rewrite drop_repeat.
  unfold set_row. rewrite decide_True by (apply lookup_lt_Some in Hi; lia). by rewrite Nat2Z.id.
Qed.

Lemma move_step n A x y B : length x = 80%nat -> length y = 80%nat ->
  move_rows (S n) (Z.of_nat (length A)) (A ++ x :: y :: B) =
  move_rows n (Z.of_nat (length (A ++ [y]))) ((A ++ [y]) ++ y :: B).
Proof.
  intros Hx Hy. cbn [move_rows]. rewrite zlookup_app. cbn [mbind option_bind].
  assert ((A ++ x :: y :: B) !!z (Z.of_nat (length A) + 1) = Some y) as ->.
  { replace (A ++ x :: y :: B) with ((A ++ [x]) ++ y :: B) by (by rewrite <- app_assoc).
    replace (Z.of_nat (length A) + 1) with (Z.of_nat (length (A ++ [x]))) by (rewrite length_app; cbn; lia).
    apply zlookup_app. }
  cbn [mbind option_bind]. rewrite get_range_row by done. cbn [mbind option_bind].
  rewrite put_range_start by lia. cbn [mbind option_bind]. rewrite drop_ge, app_nil_r by lia.
  unfold set_row. rewrite decide_True by (rewrite length_app; cbn; lia). cbn [mbind option_bind].
  rewrite Nat2Z.id, insert_app_r_alt, Nat.sub_diag by lia. cbn [insert list_insert].
  rewrite <- app_assoc. cbn [app]. f_equal. rewrite length_app. cbn. lia.
Qed.

Lemma move_rows_spec r0 r1 r2 r3 r4 : Forall (fun r => length r = 80%nat) [r0; r1; r2; r3; r4] ->
  move_rows 4 0 [r0; r1; r2; r3; r4] = Some [r1; r2; r3; r4; r4].
Proof.
  rewrite !Forall_cons. intros (H0 & H1 & H2 & H3 & H4 & _).
  etrans; [exact (move_step 3 [] r0 r1 [r2; r3; r4] H0 H1)|].
  etrans; [exact (move_step 2 [r1] r1 r2 [r3; r4] H1 H2)|].
  etrans; [exact (move_step 1 [r1; r2] r2 r3 [r4] H2 H3)|].
  exact (move_step 0 [r1; r2; r3] r3 r4 [] H3 H4).
Qed.

(** The rows hold the padded lines and then rows not used yet. *)
Definition rows_hold (h : list (list Z)) (all : list (list Z)) : Prop :=
  exists rows, all = map pad h ++ rows /\ Forall (fun r => length r = 80%nat) rows /\
    (length h + length rows = 5)%nat.

(** Comparing with the line entered last. *)
Lemma same_as_last s e h : represents P s e -> last (hist e) = Some h ->
  same_line (cmd_history s) (Z.of_nat (length (hist e)) - 1) (buffer (text e)) = Some (bool_decide (h = text e)).
Proof.
  intros Hr [hs E]%last_Some. pose proof (re_hist P s e Hr) as Hh. rewrite E in Hh.
  apply Forall_app in Hh as [_ Hh]. apply Forall_cons in Hh as [(Hc & _ & Hl) _].
  apply same_line_spec; [|done|apply (re_chars P s e Hr)|done|apply (re_len P s e Hr)].
  destruct (re_rows P s e Hr) as (rows & -> & _). rewrite E, map_app, <- app_assoc, length_app. cbn [length].
  replace (Z.of_nat (length hs + 1) - 1) with (Z.of_nat (length (map pad hs))) by (rewrite length_map; lia).
  apply zlookup_app.
Qed.

(** Storing a line in a history with room, and in a full one. *)
Lemma push_room s e : represents P s e -> (length (hist e) < 5)%nat ->
  exists all, store_row (Z.of_nat (length (hist e))) s (cmd_history s) = Some all /\
    rows_hold (hist e ++ [text e]) all.
Proof.
  intros Hr Hl. destruct (re_rows P s e Hr) as (rows & Er & Hrows & Hsum).
  destruct rows as [|r rows]; [cbn in Hsum; lia|]. apply Forall_cons in Hrows as [H0 Hrows].
  eexists. split.
  - apply (store_row_spec s e _ _ r); [done| |done].
    by rewrite Er, lookup_app_r, length_map, Nat.sub_diag by (rewrite length_map; lia).
  - exists rows. rewrite Er, insert_app_r_alt, length_map, Nat.sub_diag by (rewrite length_map; lia).
    cbn [insert list_insert]. split_and!; [by rewrite map_app, <- app_assoc|done|].
    rewrite length_app. cbn in *. lia.
Qed.

Lemma push_full s e : represents P s e -> (5 <= length (hist e))%nat ->
  exists all, (h ← move_rows 4 0 (cmd_history s); store_row 4 s h) = Some all /\
    rows_hold (tail (hist e) ++ [text e]) all.
Proof.
  intros Hr Hl. destruct (re_rows P s e Hr) as (rows & Er & _ & Hsum).
  destruct rows as [|r rows]; [|cbn in Hsum; lia]. rewrite app_nil_r in Er.
  assert (Forall (fun r => length r = 80%nat) (map pad (hist e))) as H80.
  { apply Forall_map. eapply Forall_impl; [apply (re_hist P s e Hr)|]. intros l (_ & _ & H). apply length_pad. lia. }
  destruct (hist e) as [|h0 [|h1 [|h2 [|h3 [|h4 [|]]]]]] eqn:Eh; cbn in Hl, Hsum; try lia.
  rewrite Er. cbn [map] in *. rewrite move_rows_spec by done. cbn [mbind option_bind].
  eexists. split; [apply (store_row_spec s e 4 _ (pad h4)); [done|done|]|].
  - by do 4 apply Forall_cons in H80 as [_ H80]; apply Forall_cons in H80 as [H80 _].
  - exists []. split_and!; [done|done|]. cbn. lia.
Qed.

Lemma push_spec s e : represents P s e ->
  let h := remember (text e) (hist e) in
  exists all, shell_push_history s = Some (set_history (Z.of_nat (length h)) (Z.of_nat (length h)) all s) /\
    rows_hold h all.
Proof.
  intros Hr. pose proof (re_count P s e Hr) as Hcount. pose proof (same_as_last s e) as Hsame.
  assert (exists all, Some (set_history (history_count s) (history_count s) (cmd_history s) s) =
    Some (set_history (Z.of_nat (length (hist e))) (Z.of_nat (length (hist e))) all s) /\
    rows_hold (hist e) all) as Hold.
  { exists (cmd_history s). rewrite Hcount. split; [done|]. apply (re_rows P s e Hr). }
  assert (length (hist e) <= 5)%nat as H5 by (destruct (re_rows P s e Hr) as (rows & _ & _ & H); lia).
  unfold shell_push_history, remember, FINSH_HISTORY_LINES. rewrite (re_pos P s e Hr).
  rewrite (text_buffer s e Hr). fold (text e).
  destruct (decide (text e = [] \/ last (hist e) = Some (text e))) as [Hno|Hnew].
  - destruct (decide (text e = [])) as [->|Hne]; [exact Hold|].
    destruct Hno as [|Hlast]; [done|]. specialize (Hsame _ Hr Hlast). rewrite bool_decide_eq_true_2 in Hsame by done.
    rewrite <- Hcount in Hsame.
    assert (length (hist e) <> O) by (apply last_Some in Hlast as [hs ->]; rewrite length_app; cbn; lia).
    rewrite (proj2 (Z.eqb_neq (Z.of_nat (length (text e))) 0)) by (destruct (text e); [done|cbn; lia]).
    cbn [negb]. rewrite (proj2 (Z.eqb_neq (history_count s) 0)) by lia. rewrite Z.geb_leb.
    destruct (Z.leb_spec 5 (history_count s)).
    + replace (5 - 1) with (history_count s - 1) by lia. rewrite Hsame. exact Hold.
    + rewrite Hsame. exact Hold.
  - assert (text e <> []) as Hne by tauto.
    rewrite (proj2 (Z.eqb_neq (Z.of_nat (length (text e))) 0)) by (destruct (text e); [done|cbn; lia]).
    cbn [negb]. rewrite Z.geb_leb. destruct (Z.leb_spec 5 (history_count s)) as [Hfull|Hroom].
    + rewrite decide_False by lia. destruct (push_full s e Hr ltac:(lia)) as (all & E & Hall).
      destruct (last (hist e)) as [h|] eqn:El; [|apply last_None in El; rewrite El in Hcount; cbn in Hcount; lia].
      specialize (Hsame h Hr eq_refl). rewrite bool_decide_eq_false_2 in Hsame by (intros ->; tauto).
      replace (Z.of_nat (length (hist e)) - 1) with 4 in Hsame by lia.
      change (5 - 1) with 4. change (Z.to_nat 4) with 4%nat. rewrite Hsame. cbn [mbind option_bind negb].
      destruct (move_rows 4 0 (cmd_history s)) as [h'|]; [|done]. cbn [mbind option_bind] in E |- *.
      rewrite E. cbn [mbind option_bind]. exists all. split; [|done].
      assert (Z.of_nat (length (tail (hist e) ++ [text e])) = 5) as -> by
        (rewrite length_app; destruct (hist e); cbn in *; lia).
      done.
    + rewrite decide_True by lia. destruct (push_room s e Hr ltac:(lia)) as (all & E & Hall).
      assert ((if history_count s =? 0 then Some true else
        same ← same_line (cmd_history s) (history_count s - 1) (buffer (text e)); Some (negb same)) = Some true) as ->.
      { destruct (Z.eqb_spec (history_count s) 0); [done|].
        destruct (last (hist e)) as [h|] eqn:El; [|apply last_None in El; rewrite El in Hcount; cbn in Hcount; lia].
        by rewrite Hcount, (Hsame h Hr eq_refl), bool_decide_eq_false_2 by (intros ->; tauto). }
      cbn [mbind option_bind]. rewrite Hcount, E. cbn [mbind option_bind]. exists all. split; [|done].
      cbn [history_count set_history cmd_history]. rewrite u16_small by lia.
      replace (Z.of_nat (length (hist e)) + 1) with (Z.of_nat (length (hist e ++ [text e])))
        by (rewrite length_app; cbn; lia).
      done.
Qed.

Lemma remember_ok t h : c_string t -> (length t <= 79)%nat ->
  Forall (fun l => c_string l /\ l <> [] /\ (length l <= 79)%nat) h ->
  Forall (fun l => c_string l /\ l <> [] /\ (length l <= 79)%nat) (remember t h).
Proof.
  intros Ht Hl Hh. unfold remember. destruct (decide _) as [|Hn]; [done|]. apply Forall_app.
  split; [destruct (decide _); [done|by destruct Hh]|]. constructor; [|done]. tauto.
Qed.
(** ** Completion and the end of a line *)

Lemma buffer_nil : buffer [] = 0 :: repeat 0 80.
Proof. done. Qed.

Lemma complete_buffer l : c_string l -> (length l <= 79)%nat ->
  msh_auto_complete table (buffer l) = Some (buffer (completed table l), listed table l) /\
  c_string (completed table l) /\ (length (completed table l) <= 79)%nat.
Proof.
  intros Hc Hl. destruct l as [|c l].
  - split; [|split; [done|cbn; lia]]. unfold msh_auto_complete. rewrite buffer_nil.
    change ((0 :: repeat 0 80) !!z 0) with (Some 0). run. rewrite help_spec by done. by run.
  - split; [by apply auto_complete_line|]. by apply completion_ok.
Qed.

Lemma tab_key s e : represents P s e ->
  key_does (finsh_keys table call (codes Tab) s) (press table Tab e)
    (repeat (Out [8]) (length (behind e)) ++ [Out [10]] ++ listed table (text e) ++
      [Out (P ++ text (press table Tab e))]).
Proof.
  intros Hr. cbn [codes]. rewrite one_key by (done || lia || apply Hr). unfold finsh_char. cbn [Z.eqb Pos.eqb orb].
  unfold key_tab, shell_auto_complete. rewrite (re_cur P s e Hr), backspaces_out. run.
  rewrite kprintf_plain by first [cbn; lia | repeat constructor; done]. run.
  rewrite (text_buffer s e Hr). fold (text e).
  destruct (complete_buffer (text e) (re_chars P s e Hr) (re_len P s e Hr)) as (-> & Hc & Hl).
  cbn [press]. set (l' := completed table (text e)) in *. run.
  rewrite prompt_and_line by (done || apply (re_prompt P s e Hr)). run.
  rewrite strlen_buffer by (done || lia). run.
  assert (rev (rev l') ++ [] = l') as El by by rewrite rev_involutive, app_nil_r.
  assert (text (mk_editor (rev l') [] (hist e) (at_line e)) = l') as -> by exact El.
  exists (set_line (buffer l') (Z.of_nat (length l')) (Z.of_nat (length l')) s). split.
  - by rewrite <- !app_assoc.
  - pose proof (represents_line s e (rev l') [] (Z.of_nat (length l')) (Z.of_nat (length l')) Hr) as H.
    rewrite El in H. apply H; [done|done|done|by rewrite length_rev].
Qed.

Lemma prompt_only s : finsh_get_prompt s = P -> print_prompt s = Some (tt, [Out P]).
Proof. intros Hs. unfold print_prompt. rewrite Hs. destruct HP as (_ & H1 & H2). apply kprintf_plain; [done|lia]. Qed.

Lemma enter_key s e : represents P s e -> exists evs, printed table call P Enter e evs /\
  key_does (finsh_keys table call (codes Enter) s) (press table Enter e) evs.
Proof.
  intros Hr. cbn [codes]. rewrite one_key by (done || lia || apply Hr). unfold finsh_char. cbn [Z.eqb Pos.eqb orb].
  unfold key_enter. destruct (push_spec s e Hr) as (all & -> & Hall). run.
  cbn [echo_mode set_history line line_position]. rewrite (re_echo P s e Hr).
  rewrite kprintf_plain by first [cbn; lia | repeat constructor; done]. run.
  pose proof (re_len P s e Hr) as Hl. rewrite (re_line P s e Hr), (re_pos P s e Hr).
  destruct (msh_exec_line table call (names_table _ Htable) Hcall (text e) (repeat 0 (80 - length (text e))))
    as (r & B & evs & E & HB & Hev); [apply (re_chars P s e Hr)|rewrite length_app; cbn; rewrite repeat_length; lia|].
  replace (text e ++ repeat 0 (81 - length (text e))) with (text e ++ 0 :: repeat 0 (80 - length (text e)))
    by (by replace (81 - length (text e))%nat with (S (80 - length (text e))) by lia).
  rewrite E. run. rewrite prompt_only by apply (re_prompt P s e Hr). run.
  assert (length B = 81%nat) as HB81 by (rewrite HB, length_app; cbn; rewrite repeat_length; lia).
  rewrite put_range_start by (rewrite repeat_length; lia). rewrite repeat_length, drop_ge, app_nil_r by lia. run.
  exists (Out [10] :: evs ++ [Out P]). split; [by exists evs|]. eexists. split; [by rewrite <- ?app_assoc|].
  cbn [press]. pose proof (remember_ok _ _ (re_chars P s e Hr) Hl (re_hist P s e Hr)) as Hok.
  destruct Hr. constructor; try done; [by constructor|cbn; lia].
Qed.

(** Any key. *)
Lemma key_step k s e : represents P s e -> fits k e -> exists evs, printed table call P k e evs /\
  key_does (finsh_keys table call (codes k) s) (press table k e) evs.
Proof.
  intros Hr Hf. destruct k; [..|by apply enter_key|]; eexists; (split; [reflexivity|]).
  - by apply char_key.
  - by apply backspace_key.
  - by apply left_key.
  - by apply right_key.
  - by apply up_key.
  - by apply down_key.
  - by apply tab_key.
Qed.

Lemma finsh_keys_app l1 : forall l2 s,
  finsh_keys table call (l1 ++ l2) s = (s ← finsh_keys table call l1 s; finsh_keys table call l2 s).
Proof.
  induction l1 as [|c l1 IH]; intros l2 s; cbn [app finsh_keys]; [by run|].
  destruct (finsh_key table call c s) as [[s' t]|]; [|done]. run. rewrite IH.
  destruct (finsh_keys table call l1 s') as [[s2 t2]|]; [|done]. by run.
Qed.

Lemma keys_session ks : forall s e, represents P s e -> all_fit table ks e ->
  exists s' evs e', finsh_keys table call (concat (map codes ks)) s = Some (s', evs) /\
    session table call P e ks evs e' /\ represents P s' e'.
Proof.
  induction ks as [|k ks IH]; intros s e Hr Hf.
  - exists s, [], e. split_and!; [done|constructor|done].
  - destruct Hf as [Hk Hf]. destruct (key_step k s e Hr Hk) as (evs & Hp & s1 & E1 & Hr1).
    destruct (IH s1 _ Hr1 Hf) as (s2 & evs' & e' & E2 & Hs & Hr2).
    exists s2, (evs ++ evs'), e'. cbn [map concat]. rewrite finsh_keys_app, E1. run. rewrite E2.
    split_and!; [done|by econstructor|done].
Qed.
End keys.
