(* ===== verification/ShellFacts.v ===== *)
(** * ShellFacts: the shell at work

    From the boot on the shell is the abstract editor of [Editor]; a terminal
    shows that editor's line; a line typed and entered runs its command; the
    arrow keys bring back what was entered; Tab completes.  And what happens
    when a line outgrows its buffer. *)
From S2P Require Import Prelude Bytes KService Printf Output Msh MshFacts MshComplete Shell Editor.

(** The prompt as it is after the boot. *)
Definition msh_prompt : list Z := chars "msh >".

Lemma msh_prompt_ok : prompt_ok msh_prompt.
Proof. split_and!; [repeat constructor; cbn; lia|repeat constructor; done|cbn; lia]. Qed.

Definition finsh_boot : W finsh_shell := finsh_thread_start finsh_system_init.

Lemma boot_represents : exists s, finsh_boot = Some (s, [Out msh_prompt]) /\
  represents msh_prompt s empty_editor.
Proof.
  eexists. split; [reflexivity|]. constructor; try reflexivity; cbn; try lia; try by constructor.
  exists (repeat (repeat 0 80) 5). split_and!; [done| |done]. by repeat constructor.
Qed.

Section shell.
Context (table : list finsh_syscall) (call : Z -> list Z -> list Z -> list Z * list Z * Z).
Hypothesis Htable : names_ok table.
(** A command that changes its arguments stays within the line. *)
Hypothesis Hcall : forall f argv buf, length (call f argv buf).1.2 = length buf.

(** C24 From the boot on, for every sequence of keys, escape sequences
    included, during which no line reaches 80 characters: the shell never
    reads or writes outside its line, its history or its argument array; it
    ends in a state that represents the abstract editor after those keys
    (text on both sides of the cursor, at most five lines of history); and
    what it printed and ran is, key by key, what the specification says. *)
Theorem shell_refines_editor ks : all_fit table ks empty_editor ->
  exists s evs e, (s ← finsh_boot; finsh_keys table call (concat (map codes ks)) s) =
      Some (s, Out msh_prompt :: evs) /\
    session table call msh_prompt empty_editor ks evs e /\ represents msh_prompt s e.
Proof.
  intros Hf. destruct boot_represents as (s0 & -> & Hr). run.
  destruct (keys_session table call msh_prompt Htable Hcall msh_prompt_ok ks s0 _ Hr Hf)
    as (s & evs & e & -> & H). exists s, evs, e. done.
Qed.

(** ** Typing a line *)

Definition typed (l : list Z) (e : editor) : editor :=
  mk_editor (rev l ++ behind e) [] (hist e) (at_line e).
Definition echoed (l : list Z) : list event := map (fun c => Out [c]) l.

Lemma typed_text l e : ahead e = [] -> text (typed l e) = text e ++ l.
Proof.
  intros Ha. unfold text, typed. cbn [behind ahead]. by rewrite Ha, !app_nil_r, rev_app_distr, rev_involutive.
Qed.

Lemma type_line P l : prompt_ok P -> forall s e, represents P s e -> ahead e = [] -> Forall typable l ->
  (length (text e) + length l <= 79)%nat ->
  key_does P (finsh_keys table call l s) (typed l e) (echoed l).
Proof.
  intros HP. induction l as [|c l IH]; intros s e Hr Ha Hl Hn.
  { exists s. split; [done|]. destruct e; cbn in *; by subst. }
  apply Forall_cons in Hl as [Hc Hl]. cbn [length] in Hn.
  destruct (char_key table call P c s e Hr) as (s1 & E1 & Hr1); [by split; [|lia]|].
  rewrite Ha in E1. cbn [length repeat] in E1.
  destruct (IH s1 (press table (Char c) e) Hr1) as (s2 & E2 & Hr2); [done|done| |].
  { cbn [press]. rewrite text_length in *. cbn [behind ahead length] in *. lia. }
  exists s2. change (c :: l) with ([c] ++ l). change [c] with (codes (Char c)) at 1.
  rewrite finsh_keys_app, E1. run. rewrite E2. split; [done|].
  replace (typed ([c] ++ l) e) with (typed l (press table (Char c) e)); [done|].
  unfold typed. cbn [press behind hist at_line rev app]. by rewrite <- app_assoc.
Qed.

(** A line typed and entered. *)
Definition entered (l : list Z) (h : list (list Z)) : editor :=
  mk_editor [] [] (remember l h) (length (remember l h)).

Lemma enter_line P l s e : prompt_ok P -> represents P s e -> text e = [] -> Forall typable l ->
  (length l <= 79)%nat -> exists evs, line_events table call l evs /\
  key_does P (finsh_keys table call (l ++ [13]) s) (entered l (hist e)) (echoed l ++ Out [10] :: evs ++ [Out P]).
Proof.
  intros HP Hr He Hl Hn.
  assert (ahead e = []) as Ha by (unfold text in He; by apply app_eq_nil in He as [_ He]).
  destruct (type_line P l HP s e Hr Ha Hl) as (s1 & E1 & Hr1); [rewrite He; cbn; lia|].
  destruct (enter_key table call P Htable Hcall HP s1 _ Hr1) as (evs & (evs' & Hev & ->) & s2 & E2 & Hr2).
  rewrite typed_text, He in Hev by done. cbn [press] in Hr2. rewrite typed_text, He in Hr2 by done.
  exists evs'. split; [done|]. exists s2. rewrite finsh_keys_app, E1. run. change [13] with (codes Enter).
  rewrite E2. by run.
Qed.

(** C27 A command and its arguments, written as they are or between quotes and
    typed at the prompt, are echoed and entered: exactly the function that the
    table has under that name is called, its [argv] being the command and the
    arguments as strings; then the prompt is back, the line is empty and
    remembered. *)
Theorem shell_runs_command P s e w f ts ss : prompt_ok P -> represents P s e -> text e = [] ->
  find_cmd table w = Some f -> w <> [] -> Forall (fun c => blank c = false /\ c <> 34) w -> Forall2 written ts ss -> (length ts <= 7)%nat ->
  let l := w ++ concat (map (cons 32) ss) in
  Forall typable l -> (length l <= 79)%nat ->
  exists s' argv buf, finsh_keys table call (l ++ [13]) s =
      Some (s', echoed l ++ [Out [10]; Run f argv buf; Out (call f argv buf).1.1; Out P]) /\
    Forall2 (string_at buf) argv (w :: ts) /\ represents P s' (entered l (hist e)).
Proof.
  intros HP Hr He Hf Hne Hw Hts Hn l Hl Hlen.
  destruct (enter_line P l s e HP Hr He Hl Hlen) as (evs & Hev & s' & E & Hr'). rewrite E.
  assert (match concat (map (cons 32) ss) with c :: _ => blank c = true | [] => True end) as Hb by by destruct ss.
  pose proof (tokens_cons 7 w w (concat (map (cons 32) ss)) (plain_written w Hne Hw) Hb) as Ht.
  rewrite (tokens_written ts ss Hts 7 Hn) in Ht.
  assert ((word l).1 = w) as Hword.
  { unfold l. rewrite word_app; [done| |done]. eapply Forall_impl; [exact Hw|]. by intros ? [? _]. }
  destruct w as [|c w]; [done|]. apply Forall_cons in Hw as [[Hc _] _].
  assert (skip_blanks l = l) as Hs by (unfold l; cbn [app skip_blanks]; by rewrite Hc).
  unfold line_events in Hev. rewrite Hs in Hev.
  assert (tokens 8 l = ((c :: w) :: ts, [])) as Ht' by exact Ht.
  destruct l as [|c' l'] eqn:El; [done|].
  rewrite Hword, Hf, Ht' in Hev. destruct Hev as (argv & buf & HF & ->).
  exists s', argv, buf. split_and!; [by rewrite <- ?app_assoc|done|done].
Qed.

(** ** History *)

(** Lines none of which is empty or repeats the one before. *)
Fixpoint no_repeat (prev : option (list Z)) (ls : list (list Z)) : Prop :=
  match ls with [] => True | l :: ls => l <> [] /\ prev <> Some l /\ no_repeat (Some l) ls end.

Lemma remember_all ls : forall h, (length h <= 5)%nat -> no_repeat (last h) ls ->
  foldl (fun h l => remember l h) h ls = drop (length h + length ls - 5) (h ++ ls).
Proof.
  induction ls as [|l ls IH]; intros h Hh Hn.
  { cbn. rewrite app_nil_r, Nat.add_0_r. by replace (length h - 5)%nat with O by lia. }
  destruct Hn as (Hl & Hp & Hn). cbn [foldl length]. unfold remember at 2.
  rewrite decide_False by tauto. destruct (decide (length h < 5)%nat) as [Hlt|Hge].
  - rewrite IH by (try rewrite last_snoc; try rewrite length_app; cbn; done || lia).
    rewrite length_app, <- app_assoc. cbn [length app]. f_equal. lia.
  - destruct h as [|h0 h]; [cbn in Hge; lia|]. cbn [tail length app] in *.
    rewrite IH by (try rewrite last_snoc; try rewrite length_app; cbn; done || lia).
    rewrite length_app, <- app_assoc. cbn [length app].
    replace (S (length h) + S (length ls) - 5)%nat with (S (length h + 1 + length ls - 5)) by lia. done.
Qed.

Definition key_line (l : list Z) : list Z := l ++ [13].

Lemma enter_lines P ls : prompt_ok P -> Forall (fun l => Forall typable l /\ (length l <= 79)%nat) ls ->
  forall s e, represents P s e -> text e = [] -> exists evs n,
  key_does P (finsh_keys table call (concat (map key_line ls)) s)
    (mk_editor [] [] (foldl (fun h l => remember l h) (hist e) ls) n) evs /\
  (ls <> [] -> n = length (foldl (fun h l => remember l h) (hist e) ls)).
Proof.
  intros HP. induction 1 as [|l ls [Hl Hn] Hls IH]; intros s e Hr He.
  - exists [], (at_line e). split; [|done]. exists s. split; [done|].
    unfold text in He. apply app_eq_nil in He as [Hb Ha]. destruct e as [b a h n]. cbn in *.
    destruct b; [|by apply app_eq_nil in Hb as [_ ?]]. by subst.
  - destruct (enter_line P l s e HP Hr He Hl Hn) as (evs & _ & s1 & E1 & Hr1).
    destruct (IH s1 _ Hr1 eq_refl) as (evs2 & n & (s2 & E2 & Hr2) & Hln). cbn [map concat foldl].
    eexists _, n. split.
    + exists s2. unfold key_line at 1. rewrite finsh_keys_app, E1. run. rewrite E2. run. split; [done|]. exact Hr2.
    + intros _. destruct ls; [|by apply Hln].
      cbn [map concat finsh_keys foldl] in *. unfold mret, W_ret in E2. injection E2 as <- <-.
      pose proof (re_at P _ _ Hr1) as H1. pose proof (re_at P _ _ Hr2) as H2. cbn [at_line entered] in *. lia.
Qed.

Lemma ups P k : prompt_ok P -> forall s e, represents P s e -> (k < at_line e)%nat ->
  exists evs s', finsh_keys table call (concat (repeat (codes Up) (S k))) s = Some (s', evs) /\
    represents P s' (show_line (at_line e - S k) e).
Proof.
  intros HP. induction k as [|k IH]; intros s e Hr Hk.
  - destruct (up_key table call P HP s e Hr) as (s1 & E1 & Hr1). eexists _, s1. split; [exact E1|].
    cbn [press] in Hr1. destruct (at_line e) as [|i]; [lia|]. by replace (S i - 1)%nat with i by lia.
  - destruct (up_key table call P HP s e Hr) as (s1 & E1 & Hr1). cbn [press] in Hr1.
    destruct (at_line e) as [|i] eqn:Ei; [lia|].
    destruct (IH s1 _ Hr1) as (evs & s2 & E2 & Hr2); [cbn; lia|].
    eexists _, s2. change (concat (repeat (codes Up) (S (S k)))) with (codes Up ++ concat (repeat (codes Up) (S k))).
    rewrite finsh_keys_app, E1. run. rewrite E2. split; [done|]. exact Hr2.
Qed.

(** The up key brings back what was entered: after lines none of which is
    empty or repeats the one before it, the k-th press of the key, for k up
    to five and the number of lines, puts the k-th last line into the buffer,
    with the cursor at its end. *)
Theorem history_recalled ls k : Forall (fun l => Forall typable l /\ (length l <= 79)%nat) ls ->
  no_repeat None ls -> (1 <= k <= Nat.min 5 (length ls))%nat ->
  exists s evs l, ls !! (length ls - k)%nat = Some l /\
    (s ← finsh_boot; finsh_keys table call (concat (map key_line ls) ++ concat (repeat (codes Up) k)) s) =
      Some (s, evs) /\
    line s = buffer l /\ line_position s = Z.of_nat (length l) /\ line_curpos s = Z.of_nat (length l).
Proof.
  intros Hls Hn Hk. destruct boot_represents as (s0 & -> & Hr). run.
  destruct (enter_lines msh_prompt ls msh_prompt_ok Hls s0 _ Hr eq_refl) as (evs1 & n & (s1 & E1 & Hr1) & Hln).
  cbn [hist empty_editor] in *. rewrite remember_all in Hr1, Hln by (done || cbn; lia). cbn [length app Nat.add] in *.
  assert (ls <> []) as Hne by (intros ->; cbn in Hk; lia). specialize (Hln Hne). rewrite length_drop in Hln.
  destruct k as [|k]; [lia|].
  destruct (ups msh_prompt k msh_prompt_ok s1 _ Hr1) as (evs2 & s2 & E2 & Hr2); [cbn; lia|].
  cbn [at_line] in Hr2.
  destruct (lookup_lt_is_Some_2 ls (length ls - S k)) as [l El]; [lia|].
  assert (text (show_line (n - S k) (mk_editor [] [] (drop (length ls - 5) ls) n)) = l) as Et.
  { unfold text, show_line. cbn [behind ahead hist]. rewrite lookup_drop.
    replace (length ls - 5 + (n - S k))%nat with (length ls - S k)%nat by lia. rewrite El. cbn.
    by rewrite rev_involutive, app_nil_r. }
  eexists s2, _, l. rewrite finsh_keys_app, E1. run. rewrite E2. run.
  split_and!; [done|done| | |].
  - rewrite (re_line _ _ _ Hr2), Et. done.
  - by rewrite (re_pos _ _ _ Hr2), Et.
  - rewrite (re_cur _ _ _ Hr2). rewrite <- Et. unfold text, show_line. cbn [behind ahead]. by rewrite app_nil_r, !length_rev.
Qed.

(** ** Completion *)

Lemma candidates_spec p x : x ∈ candidates table p <->
  (exists i, i ∈ table /\ name i = cmd_name x) /\ p `prefix_of` x.
Proof.
  unfold candidates, commands. rewrite list_elem_of_filter, list_elem_of_omap. split.
  - intros [Hp (i & Hi & E)]. unfold suffix_of in E. destruct (decide _) as [H6|]; [|done]. injection E as <-.
    split; [exists i; split; [done|]|].
    + unfold cmd_name. by rewrite <- H6, take_drop.
    + exists (drop (length p) (drop 6 (name i))). by rewrite <- Hp, take_drop at 1.
  - intros [(i & Hi & E) [r ->]]. split; [by rewrite take_app_length|]. exists i. split; [done|].
    unfold suffix_of. by rewrite E, decide_True.
Qed.

(** Tab replaces the text by the longest text that all commands beginning
    with it begin with, keeps it when there is none, puts the cursor at its
    end, lists exactly those commands and shows prompt and text again. *)
Theorem tab_completes P s e : prompt_ok P -> represents P s e -> text e <> [] ->
  exists s' q xs, finsh_keys table call [9] s =
      Some (s', repeat (Out [8]) (length (behind e)) ++ [Out [10]] ++ listing xs ++ [Out (P ++ q)]) /\
    line s' = buffer q /\ line_position s' = Z.of_nat (length q) /\ line_curpos s' = Z.of_nat (length q) /\
    (forall x, x ∈ xs <-> (exists i, i ∈ table /\ name i = cmd_name x) /\ text e `prefix_of` x) /\
    (xs = [] -> q = text e) /\
    (forall x, x ∈ xs -> q `prefix_of` x) /\
    (forall r, xs <> [] -> (forall x, x ∈ xs -> r `prefix_of` x) -> r `prefix_of` q).
Proof.
  intros HP Hr He. destruct (tab_key table call P Htable HP s e Hr) as (s' & E & Hr').
  set (q := completed table (text e)) in *.
  assert (text (press table Tab e) = q) as Et.
  { unfold text at 1. cbn [press behind ahead]. by rewrite rev_involutive, app_nil_r. }
  rewrite Et in E. exists s', q, (candidates table (text e)).
  assert (q = completion table (text e)) as Eq by (unfold q; by destruct (text e)).
  assert (listed table (text e) = listing (candidates table (text e))) as El by by destruct (text e).
  rewrite El in E. split_and!; [exact E| | | |apply candidates_spec|..].
  - rewrite (re_line _ _ _ Hr'), Et. done.
  - by rewrite (re_pos _ _ _ Hr'), Et.
  - rewrite (re_cur _ _ _ Hr'). cbn [press behind]. by rewrite length_rev.
  - intros H0. rewrite Eq. unfold completion. by rewrite H0.
  - intros x Hx. rewrite Eq. unfold completion. destruct (candidates table (text e)) as [|y ys]; [by inversion Hx|].
    destruct (lcps_prefix ys y) as [H1 H2]. apply elem_of_cons in Hx as [->|Hx]; [done|].
    rewrite Forall_forall in H2. by apply H2.
  - intros r Hne Hall. rewrite Eq. unfold completion. destruct (candidates table (text e)) as [|y ys]; [done|].
    apply lcps_max; [apply Hall, list_elem_of_here|]. apply Forall_forall. intros z Hz.
    by apply Hall, list_elem_of_further.
Qed.

(** ** A line that outgrows its buffer *)

(** The state after 80 characters: the counters are reset, the text is not. *)
Lemma line_80 P s e L : prompt_ok P -> represents P s e -> text e = [] -> Forall typable L -> length L = 80%nat ->
  exists s' evs, finsh_keys table call L s = Some (s', evs) /\
    s' = set_line (L ++ [0]) 0 0 s' /\ stat s' = WAIT_NORMAL /\ echo_mode s' = true /\
    finsh_get_prompt s' = P.
Proof.
  intros HP Hr He HL Hn. destruct (exists_last (l := L)) as (L1 & d & ->); [by intros ->|].
  apply Forall_app in HL as [HL1 Hd]. apply Forall_cons in Hd as [Hd _]. rewrite length_app in Hn. cbn in Hn.
  assert (ahead e = []) as Ha by (unfold text in He; by apply app_eq_nil in He as [_ He]).
  destruct (type_line P L1 HP s e Hr Ha HL1) as (s1 & E1 & Hr1); [rewrite He; cbn; lia|].
  pose proof (text_buffer _ _ _ Hr1) as Hb. fold (text (typed L1 e)) in Hb.
  pose proof (re_pos _ _ _ Hr1) as Hpos. pose proof (re_cur _ _ _ Hr1) as Hcur.
  rewrite typed_text, He in * by done. cbn [app typed behind] in *.
  assert (behind e = []) as Hbe by (unfold text in He; apply app_eq_nil in He as [H _]; destruct (behind e);
    [done|by apply app_eq_nil in H as [_ ?]]).
  rewrite Hbe, app_nil_r, length_rev in Hcur.
  rewrite finsh_keys_app, E1. run. destruct Hd as (Hd & H8 & H9 & H10 & H13 & H27 & H127).
  rewrite one_key by (lia || apply (re_stat _ _ _ Hr1)). unfold finsh_char.
  rewrite !(proj2 (Z.eqb_neq d _)) by lia. cbn [orb]. unfold key_normal.
  rewrite Hpos, Hcur, (re_echo _ _ _ Hr1), small_line, Z.ltb_irrefl, Hb by lia.
  unfold buffer. replace (81 - length L1)%nat with 2%nat by lia. cbn [repeat]. rewrite put_range_one. run.
  rewrite (kprintf_text _ _ [d]) by first [by apply format_c; lia | cbn; lia]. run.
  replace (Z.of_nat (length L1)) with 79 by lia. change (u16 (79 + 1) >=? FINSH_CMD_SIZE) with true. cbv iota. run.
  eexists _, _. split; [done|]. split_and!; [|apply (re_stat _ _ _ Hr1)|apply (re_echo _ _ _ Hr1)|apply (re_prompt _ _ _ Hr1)].
  unfold set_line. cbn. by rewrite <- app_assoc.
Qed.

Lemma no_candidate L : length L = 80%nat -> candidates table L = [].
Proof.
  intros Hn. pose proof (candidates_ok table L Htable) as H. destruct (candidates table L) as [|x xs]; [done|].
  apply Forall_cons in H as [(_ & Hl & Hp) _]. apply prefix_length in Hp. lia.
Qed.

(** Tab then takes the whole old line for the text. *)
Lemma tab_80 P s L : prompt_ok P -> finsh_get_prompt s = P -> c_string L -> length L = 80%nat ->
  s = set_line (L ++ [0]) 0 0 s -> stat s = WAIT_NORMAL ->
  exists evs, finsh_keys table call [9] s = Some (set_line (L ++ [0]) 80 80 s, evs).
Proof.
  intros HP Hs HL Hn Es Hst. rewrite one_key by (done || lia). unfold finsh_char. cbn [Z.eqb Pos.eqb orb].
  assert (line_curpos s = 0) as Hcur by by rewrite Es. assert (line s = L ++ [0]) as Hl by by rewrite Es at 1.
  unfold key_tab. rewrite Hcur. change (backspaces 0) with (Some (tt, [] : list event)). run.
  unfold shell_auto_complete. rewrite kprintf_plain by first [cbn; lia | repeat constructor; done]. run.
  rewrite Hl. assert (L <> []) as Hne by (intros ->; cbn in Hn; lia).
  assert (msh_auto_complete table (L ++ [0]) = Some (L ++ [0], [])) as ->.
  { unfold msh_auto_complete. assert (exists c, (L ++ [0]) !!z 0 = Some c /\ c <> 0) as (c & -> & Hc).
    { destruct L as [|c L]; [done|]. exists c. apply c_string_cons in HL as [Hc _]. split; [done|lia]. }
    run. rewrite (proj2 (Z.eqb_neq c 0)) by done. rewrite complete_all by done. run.
    rewrite no_candidate by done. by run. }
  run. assert (print_prompt_and (L ++ [0]) s = Some (tt, [Out (P ++ L)])) as ->.
  { destruct HP as (HP1 & HP2 & HP3). unfold print_prompt_and. rewrite Hs. apply kprintf_text.
    - change (format_text (length (chars "%s%s")) (chars "%s%s")) with (format_text 4 (37 :: 115 :: [37; 115])).
      rewrite (format_s 3 [37; 115] P [] _ HP1).
      change (format_text 3 [37; 115]) with (format_text 3 (37 :: 115 :: [])).
      rewrite (format_s 2 [] L _ _ HL). cbn. by rewrite app_nil_r.
    - rewrite length_app. lia. }
  run. rewrite strlen_spec, Hn by done. by run; eexists.
Qed.

(** A line that reaches 80 characters is meant to be discarded; its text stays
    in the buffer, and Tab takes it for the line again.  The next character
    then moves the cursor past the end of the line and a backspace leaves the
    two counters apart; a second backspace makes the unsigned counter of
    characters wrap, and the shell moves 65,456 bytes within a buffer of 81. *)
Theorem line_overrun P s e L c : prompt_ok P -> represents P s e -> text e = [] ->
  Forall typable L -> length L = 80%nat -> typable c ->
  (exists s' evs, finsh_keys table call (L ++ [9; c; 8]) s = Some (s', evs) /\
     line_position s' = 0 /\ line_curpos s' = 80) /\
  finsh_keys table call (L ++ [9; c; 8; 8]) s = None.
Proof.
  intros HP Hr He HL Hn Hc.
  destruct (line_80 P s e L HP Hr He HL Hn) as (s1 & evs1 & E1 & Hs1 & Hst & Hecho & Hpr).
  assert (c_string L) as HcL by (eapply Forall_impl; [exact HL|]; intros x (Hx & _); cbn; lia).
  destruct (tab_80 P s1 L HP Hpr HcL Hn Hs1 Hst) as (evs2 & E2).
  destruct Hc as (Hc & H8 & H9 & H10 & H13 & H27 & H127).
  set (s2 := set_line (L ++ [0]) 80 80 s1) in *.
  assert (exists l evs, finsh_keys table call [c; 8] s2 = Some (set_line l 0 80 s2, evs) /\ length l = 81%nat)
    as (l & evs3 & E3 & Hl).
  { change [c; 8] with ([c] ++ [8]). rewrite finsh_keys_app, one_key by (done || lia). unfold finsh_char.
    rewrite !(proj2 (Z.eqb_neq c _)) by lia. cbn [orb]. unfold key_normal.
    change (line_position s2) with 80. change (line_curpos s2) with 80. change (80 >=? FINSH_CMD_SIZE) with true.
    cbv iota. change (80 <? 0) with false. cbv iota. change (line s2) with (L ++ [0]).
    rewrite put_range_start by (rewrite length_app; cbn; lia). run. change (echo_mode s2) with (echo_mode s1).
    rewrite Hecho, (kprintf_text _ _ [c]) by first [by apply format_c; lia | cbn; lia]. run.
    change (u16 (0 + 1) >=? FINSH_CMD_SIZE) with false. cbv iota. run.
    rewrite one_key by (done || lia). unfold finsh_char. cbn [Z.eqb Pos.eqb orb]. unfold key_backspace.
    cbn [line_curpos line_position set_line line]. change (u16 (u16 (0 + 1))) with 1. change (u16 (u16 (80 + 1))) with 81.
    change (u16 (1 - 1)) with 0. change (u16 (81 - 1)) with 80. cbn [Z.eqb Z.gtb Z.compare].
    rewrite kprintf_plain by first [cbn; lia | repeat constructor; done]. run.
    rewrite put_range_start by (cbn; rewrite length_drop, length_app; cbn; lia). run.
    eexists _, _. split; [reflexivity|]. cbn. rewrite !length_drop, length_app. cbn. lia. }
  change [9; c; 8; 8] with ([9] ++ [c; 8] ++ [8]). change [9; c; 8] with ([9] ++ [c; 8]).
  rewrite !finsh_keys_app, E1. run. rewrite !finsh_keys_app, E2. run. rewrite E3. run.
  split; [by eexists _, _|].
  rewrite finsh_keys_app, E3. run. rewrite one_key by (done || lia). unfold finsh_char. cbn [Z.eqb Pos.eqb orb].
  unfold key_backspace. cbn [line_curpos line_position set_line line].
  change (u16 80) with 80. change (u16 0) with 0. change (u16 (0 - 1)) with 65535. change (u16 (80 - 1)) with 79.
  cbn [Z.eqb Z.gtb Z.compare]. change (65535 >? 79) with true. cbv iota.
  unfold line_move. rewrite decide_False by lia. done.
Qed.
End shell.

(** ** The theorems at work on a small table *)

Definition example_table : list finsh_syscall :=
  [mk_syscall (chars "list_thread") (chars "list thread") 1;
   mk_syscall (chars "__cmd_free") (chars "Show the memory usage in the system.") 2;
   mk_syscall (chars "__cmd_date") (chars "get date and time or set") 3;
   mk_syscall (chars "__cmd_data") (chars "show data") 4].
(** Commands that print their number. *)
Definition example_call (f : Z) (argv buf : list Z) : list Z * list Z * Z := (itoa f, buf, 0).

Lemma example_table_ok : names_ok example_table.
Proof. repeat constructor; cbn; lia. Qed.
Lemma example_call_ok f argv buf : length (example_call f argv buf).1.2 = length buf.
Proof. done. Qed.

Lemma shell_refines_editor_witness :
  let ks := [Char 100; Char 97; Tab; Char 97; Enter; Char 120; Left; Up; Backspace; Char 101; Enter; Down; Enter] in
  exists s evs e, (s ← finsh_boot; finsh_keys example_table example_call (concat (map codes ks)) s) =
      Some (s, Out msh_prompt :: evs) /\
    session example_table example_call msh_prompt empty_editor ks evs e /\ represents msh_prompt s e.
Proof.
  intros ks. apply (shell_refines_editor example_table example_call example_table_ok example_call_ok ks).
  repeat split; try lia; vm_compute; lia.
Defined.

Lemma shell_runs_command_witness :
  let l := chars "free " ++ [34] ++ chars "a b" ++ [34] in
  exists s s' argv buf, finsh_keys example_table example_call (l ++ [13]) s =
      Some (s', echoed l ++ [Out [10]; Run 2 argv buf; Out [50]; Out msh_prompt]) /\
    Forall2 (string_at buf) argv [chars "free"; chars "a b"] /\ represents msh_prompt s' (entered l []).
Proof.
  intros l. destruct boot_represents as (s & _ & Hr). exists s.
  apply (shell_runs_command example_table example_call example_table_ok example_call_ok msh_prompt s empty_editor
    (chars "free") 2 [chars "a b"] [34 :: chars "a b" ++ [34]]).
  - apply msh_prompt_ok.
  - exact Hr.
  - reflexivity.
  - reflexivity.
  - done.
  - repeat constructor; done.
  - repeat constructor; done.
  - cbn; lia.
  - repeat (constructor; [unfold typable; cbn; lia|]). constructor.
  - cbn; lia.
Defined.

Lemma history_recalled_witness :
  exists s evs l, [chars "free"; chars "date"; chars "free"] !! 1%nat = Some l /\
    (s ← finsh_boot; finsh_keys example_table example_call
      (concat (map key_line [chars "free"; chars "date"; chars "free"]) ++ concat (repeat (codes Up) 2)) s) =
      Some (s, evs) /\
    line s = buffer l /\ line_position s = Z.of_nat (length l) /\ line_curpos s = Z.of_nat (length l).
Proof.
  apply (history_recalled example_table example_call example_table_ok example_call_ok
    [chars "free"; chars "date"; chars "free"] 2).
  - repeat (constructor; [split; [repeat (constructor; [unfold typable; cbn; lia|]); constructor|cbn; lia]|]). constructor.
  - by repeat split.
  - cbn; lia.
Defined.

Lemma tab_completes_witness :
  exists s s' q xs, finsh_keys example_table example_call [9] s =
      Some (s', repeat (Out [8]) 1 ++ [Out [10]] ++ listing xs ++ [Out (msh_prompt ++ q)]) /\
    line s' = buffer q /\ line_position s' = Z.of_nat (length q) /\ line_curpos s' = Z.of_nat (length q) /\
    (forall x, x ∈ xs <-> (exists i, i ∈ example_table /\ name i = cmd_name x) /\ chars "d" `prefix_of` x) /\
    (xs = [] -> q = chars "d") /\
    (forall x, x ∈ xs -> q `prefix_of` x) /\
    (forall r, xs <> [] -> (forall x, x ∈ xs -> r `prefix_of` x) -> r `prefix_of` q).
Proof.
  destruct boot_represents as (s0 & _ & Hr0).
  destruct (char_key example_table example_call msh_prompt 100 s0 _ Hr0) as (s & _ & Hr);
    [split; [unfold typable; lia|cbn; lia]|].
  exists s. apply (tab_completes example_table example_call example_table_ok msh_prompt s
    (press example_table (Char 100) empty_editor)); [apply msh_prompt_ok|exact Hr|done].
Defined.

Lemma line_overrun_witness :
  exists s, (exists s' evs, finsh_keys example_table example_call (repeat 97 80 ++ [9; 98; 8]) s = Some (s', evs) /\
     line_position s' = 0 /\ line_curpos s' = 80) /\
  finsh_keys example_table example_call (repeat 97 80 ++ [9; 98; 8; 8]) s = None.
Proof.
  destruct boot_represents as (s & _ & Hr). exists s.
  apply (line_overrun example_table example_call example_table_ok msh_prompt s empty_editor (repeat 97 80) 98).
  - apply msh_prompt_ok.
  - exact Hr.
  - reflexivity.
  - apply Forall_forall. intros x Hx. apply list_elem_of_In, repeat_spec in Hx. subst. unfold typable. lia.
  - reflexivity.
  - unfold typable. lia.
Defined.

(** The text of a discarded line also reaches the next command: entered after
    80 characters, a command finds them behind its last argument, which
    nothing ends. *)
Definition calls (evs : list event) : list (Z * list (list Z)) :=
  omap (fun e => match e with
                 | Run f argv buf => Some (f, map (fun p => cstr (from p buf)) argv)
                 | Out _ => None
                 end) evs.

Lemma stale_argument :
  option_map (fun r => calls r.2)
    (s ← finsh_boot; finsh_keys example_table example_call (repeat 97 80 ++ chars "free" ++ [13]) s) =
  Some [(2, [chars "free" ++ repeat 97 76])].
Proof. by vm_compute. Qed.

(** Modes are fields of one bit: an even number other than 0 turns the prompt
    off. *)
Lemma prompt_mode_even s m : Z.even m = true -> finsh_get_prompt_mode (finsh_set_prompt_mode m s) = 0.
Proof.
  intros H. unfold finsh_get_prompt_mode, finsh_set_prompt_mode. cbn [prompt_mode set_modes].
  by rewrite <- Z.negb_even, H.
Qed.
