(* ===== verification/Terminal.v ===== *)
(** * Terminal: what the user sees while editing

    A terminal takes bytes and shows a row of cells with a cursor.  Its laws
    are those of the few controls the shell sends (ECMA-48).  While a line is
    edited the row shows the prompt and the line, the cursor in its place. *)
From S2P Require Import Prelude Output Msh MshComplete Shell Editor ShellFacts.

(** [ground]: no escape sequence is open.  The laws say nothing of a character
    in the last column, where terminals differ. *)
Class Terminal (T : Type) := {
  send : T -> list Z -> T;
  ground : T -> Prop;
  row : T -> nat -> Z;
  col : T -> nat;
  width : nat;
  send_app : forall t a b, send t (a ++ b) = send (send t a) b;
  send_char : forall t c, ground t -> 32 <= c <= 126 -> (col t + 1 < width)%nat ->
    ground (send t [c]) /\ col (send t [c]) = S (col t) /\
    forall i, row (send t [c]) i = if decide (i = col t) then c else row t i;
  send_backspace : forall t, ground t -> ground (send t [8]) /\ col (send t [8]) = pred (col t) /\
    forall i, row (send t [8]) i = row t i;
  send_clear : forall t, ground t -> let t' := send t clear_row in
    ground t' /\ col t' = O /\ forall i, row t' i = 32 }.

(** What the shell printed, sent to the terminal. *)
Definition feed {T} `{Terminal T} (t : T) (evs : list event) : T :=
  foldl (fun t e => match e with Out l => send t l | Run _ _ _ => t end) t evs.

Definition printable (l : list Z) : Prop := Forall (fun c => 32 <= c <= 126) l.

Section terminal.
Context {T : Type} `{Terminal T}.

(** The row holds [f], the cursor is in column [n]. *)
Record shows (t : T) (f : nat -> Z) (n : nat) : Prop := {
  sh_ground : ground t;
  sh_col : col t = n;
  sh_row : forall i, row t i = f i }.

Lemma shows_ext t f g n m : shows t f n -> n = m -> (forall i, f i = g i) -> shows t g m.
Proof. intros [Hg Hc Hr] -> E. split; [done|done|]. intros i. by rewrite Hr, E. Qed.

(** The row with [x] written over it from column [n] on. *)
Definition over (n : nat) (x : list Z) (f : nat -> Z) (i : nat) : Z :=
  if decide (n <= i < n + length x)%nat then nth (i - n) x 32 else f i.

Lemma send_text x : forall t f n, shows t f n -> printable x -> x <> [] -> (n + length x < width)%nat ->
  shows (send t x) (over n x f) (n + length x).
Proof.
  induction x as [|c x IH]; intros t f n Hs Hx Hne Hw; [done|].
  apply Forall_cons in Hx as [Hc Hx]. cbn [length] in *. destruct Hs as [Hg0 <- Hr0].
  destruct (send_char t c Hg0 Hc ltac:(lia)) as (Hg & Hcol & Hrow).
  assert (shows (send t [c]) (over (col t) [c] f) (col t + 1)) as H1.
  { split; [done|lia|]. intros i. rewrite Hrow, Hr0. unfold over. cbn [length].
    destruct (decide (i = col t)) as [->|]; [|by rewrite decide_False by lia].
    by rewrite decide_True, Nat.sub_diag by lia. }
  destruct x as [|d x]; [exact H1|].
  change (c :: d :: x) with ([c] ++ (d :: x)). rewrite send_app.
  eapply shows_ext; [apply (IH _ _ _ H1); [done|done|lia]|lia|].
  intros i. unfold over. cbn [length app].
  repeat destruct (decide (_ /\ _)%nat); try lia; try done.
  - replace (i - col t)%nat with (S (i - (col t + 1))) by lia. done.
  - replace (i - col t)%nat with O by lia. done.
Qed.

Lemma send_back t f n : shows t f n -> shows (send t [8]) f (n - 1).
Proof.
  intros [Hg <- Hr]. destruct (send_backspace t Hg) as (Hg' & Hc & Hr').
  split; [done|lia|intros i; by rewrite Hr'].
Qed.

Lemma feed_backspaces k : forall t f n, shows t f n -> shows (feed t (repeat (Out [8]) k)) f (n - k).
Proof.
  induction k as [|k IH]; intros t f n Hs; [by rewrite Nat.sub_0_r|]. cbn [repeat feed foldl].
  replace (n - S k)%nat with (n - 1 - k)%nat by lia. apply IH. by apply send_back.
Qed.

Lemma feed_cons t l evs : feed t (Out l :: evs) = feed (send t l) evs.
Proof. done. Qed.
Lemma feed_app t a b : feed t (a ++ b) = feed (feed t a) b.
Proof. apply foldl_app. Qed.

Lemma send_clear_shows t f n : shows t f n -> shows (send t clear_row) (fun _ => 32) 0.
Proof. intros [Hg _ _]. destruct (send_clear t Hg) as (H1 & H2 & H3). by split. Qed.

(** Overwriting a text. *)
Lemma over_text A x B i : over (length A) x (fun i => nth i (A ++ B) 32) i = nth i (A ++ x ++ drop (length x) B) 32.
Proof.
  unfold over. destruct (decide _) as [Hi|Hi].
  - rewrite app_nth2, app_nth1 by lia. done.
  - destruct (decide (i < length A)%nat); [by rewrite !app_nth1 by lia|].
    rewrite !app_nth2 by lia. rewrite nth_skipn. f_equal. lia.
Qed.

Lemma nth_blanks l k i : nth i (l ++ repeat 32 k) 32 = nth i l 32.
Proof.
  destruct (decide (i < length l)%nat); [by rewrite app_nth1|]. rewrite app_nth2, nth_repeat by lia.
  by rewrite nth_overflow by lia.
Qed.

(** ** One key *)

Section prompt.
Context (table : list finsh_syscall) (call : Z -> list Z -> list Z -> list Z * list Z * Z) (P : list Z).
Hypothesis HP : printable P /\ P <> [].

(** The prompt and the line, the cursor in the line. *)
Definition displays (t : T) (e : editor) : Prop :=
  shows t (fun i => nth i (P ++ text e) 32) (length P + length (behind e)).

(** The line leaves two columns free. *)
Definition narrow (e : editor) : Prop := (length P + length (text e) + 2 < width)%nat.
Definition all_printable (e : editor) : Prop := printable (text e) /\ Forall printable (hist e).

(** Keys that edit the line, on a terminal wide enough. *)
Definition edits (k : key) (e : editor) : Prop :=
  match k with Enter | Tab => False | Char c => 32 <= c <= 126 | _ => True end /\ narrow (press table k e).

Lemma printable_app a b : printable (a ++ b) <-> printable a /\ printable b.
Proof. apply Forall_app. Qed.
Lemma printable_cons c l : printable (c :: l) <-> 32 <= c <= 126 /\ printable l.
Proof. unfold printable. by rewrite Forall_cons. Qed.

Lemma printable_one c : 32 <= c <= 126 -> printable [c].
Proof. intros Hc. apply printable_cons. split; [done|constructor]. Qed.

Lemma prefix_length e : length (P ++ rev (behind e)) = (length P + length (behind e))%nat.
Proof. by rewrite length_app, length_rev. Qed.

(** Typing [x] at the cursor, [B] being what follows it, and going back [k]. *)
Lemma type_at t A x B k n : shows t (fun i => nth i (A ++ B) 32) (length A) -> printable x -> x <> [] ->
  (length A + length x < width)%nat -> n = (length A + length x - k)%nat ->
  shows (feed (send t x) (repeat (Out [8]) k)) (fun i => nth i (A ++ x ++ drop (length x) B) 32) n.
Proof.
  intros Hs Hx Hne Hw ->. apply feed_backspaces.
  eapply shows_ext; [by apply send_text|done|]. intros i. apply over_text.
Qed.

Lemma history_displays t e f n : shows t f n -> all_printable e -> narrow e -> ahead e = [] ->
  displays (feed t (show_history P e)) e.
Proof.
  intros Hs [Hp _] Hw Ha. unfold show_history. rewrite !feed_cons. unfold displays.
  destruct HP as [HP1 HP2]. unfold narrow in Hw.
  pose proof (send_clear_shows t f n Hs) as H0.
  assert (shows (send t clear_row) (fun i => nth i ([] ++ []) 32) (length ([] : list Z))) as H1.
  { eapply shows_ext; [exact H0|done|]. by intros [|i]. }
  eapply shows_ext; [apply (type_at _ [] (P ++ text e) [] 0 _ H1); [by apply printable_app| | |done]| |].
  - by destruct P.
  - rewrite length_app. cbn. lia.
  - rewrite length_app, text_length, Ha. cbn. lia.
  - intros i. by rewrite drop_nil, app_nil_r.
Qed.
Lemma press_printable k e : all_printable e -> edits k e -> all_printable (press table k e).
Proof.
  unfold all_printable, text. intros [Ht Hh] [Hk _]. rewrite printable_app in Ht. destruct Ht as [Hb Ha].
  assert (forall i, printable (rev (rev (default [] (hist e !! i))) ++ [])) as Hline.
  { intros i. rewrite rev_involutive, app_nil_r. destruct (hist e !! i) as [h|] eqn:E; [|by constructor].
    rewrite Forall_lookup in Hh. by apply (Hh i). }
  destruct k; cbn [press show_line behind ahead hist]; try done.
  - split; [|done]. rewrite printable_app. cbn [behind rev]. rewrite printable_app.
    split_and!; [done|by apply printable_one|done].
  - split; [|done]. cbn [behind ahead]. rewrite printable_app. split; [|done].
    destruct (behind e); [done|]. cbn [rev] in Hb. by apply printable_app in Hb as [Hb _].
  - destruct (behind e) as [|c b] eqn:Eb; [by rewrite Eb, printable_app|]. split; [|done].
    cbn [behind ahead rev] in *. apply printable_app in Hb as [Hb Hc]. rewrite printable_app, printable_cons.
    apply printable_cons in Hc as [Hc _]. done.
  - destruct (ahead e) as [|c a] eqn:Ea; [by rewrite Ea, app_nil_r|]. split; [|done].
    cbn [behind ahead rev] in *. apply printable_cons in Ha as [Hc Ha]. rewrite !printable_app.
    split_and!; [done|by apply printable_one|done].
  - destruct (at_line e) as [|i]; [by rewrite printable_app|]. split; [apply Hline|done].
  - destruct (decide _); [split; [apply Hline|done]|].
    destruct (hist e) as [|h hs] eqn:Eh; [by rewrite Eh, printable_app|]. rewrite <- Eh in *.
    split; [apply Hline|done].
Qed.

Lemma key_displays k e t evs : all_printable e -> narrow e -> edits k e -> displays t e ->
  printed table call P k e evs -> displays (feed t evs) (press table k e).
Proof.
  intros Hp Hw He Hd Hev. pose proof (press_printable k e Hp He) as Hp'.
  destruct He as [Hk Hw']. destruct Hp as [Ht _]. unfold text in Ht. apply printable_app in Ht as [Hb Ha].
  pose proof Hd as Hd0. unfold displays, text in Hd. unfold narrow in Hw. rewrite text_length in Hw.
  destruct k as [c| | | | | | |]; cbn [printed] in Hev; try done; subst evs.
  - cbn [press]. rewrite feed_cons. rewrite app_assoc in Hd. rewrite <- prefix_length in Hd.
    eapply shows_ext; [apply (type_at _ _ (c :: ahead e) _ _ _ Hd)| |]; [by apply printable_cons|done| |done| |].
    + rewrite prefix_length. cbn. lia.
    + rewrite prefix_length. cbn. lia.
    + intros i. unfold text. cbn [behind ahead rev]. rewrite drop_ge, app_nil_r by (cbn; lia).
      by rewrite <- !app_assoc.
  - cbn [press]. destruct (behind e) as [|x b] eqn:Eb; [cbn; rewrite <- Eb; by destruct e|]. cbn [tail].
    cbn [rev length] in *. apply printable_app in Hb as [Hb Hx].
    assert (shows (send t [8]) (fun i => nth i ((P ++ rev b) ++ x :: ahead e) 32) (length (P ++ rev b))) as H1.
    { eapply shows_ext; [exact (send_back _ _ _ Hd)|rewrite length_app, length_rev; lia|].
      intros i. by rewrite <- !app_assoc. }
    assert (length (P ++ rev b) = length P + length b)%nat as HA by by rewrite length_app, length_rev.
    destruct (ahead e) as [|y a] eqn:Ea.
    + rewrite feed_cons. change [8; 32; 8] with ([8] ++ [32] ++ [8]). rewrite !send_app.
      change (feed (send (send (send t [8]) [32]) [8]) []) with (feed (send (send t [8]) [32]) (repeat (Out [8]) 1)).
      eapply shows_ext; [apply (type_at _ _ [32] _ _ _ H1)| |]; [by apply printable_one|done|cbn in *; lia|done|cbn; lia|].
      intros i. cbn [length drop]. unfold text. cbn [behind ahead]. rewrite !app_nil_r.
      apply (nth_blanks _ 1).
    + rewrite feed_cons, send_app. change [32; 32; 8] with ([32; 32] ++ [8]). rewrite app_assoc, send_app.
      change (displays (feed (send (send t [8]) ((y :: a) ++ [32; 32])) (repeat (Out [8]) (S (S (length a) + 1))))
        (mk_editor b (y :: a) (hist e) (at_line e))).
      assert (length ((y :: a) ++ [32; 32]%Z) = length a + 3)%nat as Hlen by (rewrite length_app; cbn; lia).
      eapply shows_ext; [apply (type_at _ _ ((y :: a) ++ [32; 32]) _ _ _ H1)| |]; [|done|cbn in *; lia|done| |].
      * apply printable_app. split; [done|]. apply printable_cons. split; [lia|by apply printable_one].
      * cbn [behind]. lia.
      * intros i. rewrite drop_ge, app_nil_r by (cbn in *; lia). unfold text. cbn [behind ahead].
        rewrite <- (nth_blanks (P ++ rev b ++ y :: a) 2). by rewrite <- !app_assoc.
  - cbn [press]. destruct (behind e) as [|c b] eqn:Eb; [exact Hd0|]. rewrite feed_cons. cbn [length] in *.
    eapply shows_ext; [exact (send_back _ _ _ Hd)|cbn [behind]; lia|].
    intros i. unfold text. cbn [behind ahead rev]. by rewrite <- !app_assoc.
  - cbn [press]. destruct (ahead e) as [|c a] eqn:Ea; [exact Hd0|]. rewrite feed_cons.
    rewrite app_assoc, <- prefix_length in Hd. apply printable_cons in Ha as [Hc Ha]. cbn [length] in Hw.
    eapply shows_ext; [apply (type_at _ _ [c] _ 0 _ Hd)| |]; [by apply printable_one|done| |done| |].
    + rewrite prefix_length. cbn. lia.
    + rewrite prefix_length. cbn. lia.
    + intros i. unfold text. cbn [behind ahead rev length drop]. by rewrite <- !app_assoc.
  - destruct (at_line e) as [|j] eqn:Ej; [cbn [press]; by rewrite Ej|].
    eapply history_displays; [exact Hd0|done|done|]. cbn [press]. by rewrite Ej.
  - destruct (hist e) as [|h hs] eqn:Eh.
    + cbn [press]. rewrite Eh. by rewrite decide_False by (cbn; lia).
    + eapply history_displays; [exact Hd0|done|done|]. cbn [press]. rewrite Eh.
      by destruct (decide _).
Qed.

(** The keys of [ks] edit the line. *)
Fixpoint all_edit (ks : list key) (e : editor) : Prop :=
  match ks with [] => True | k :: ks => edits k e /\ all_edit ks (press table k e) end.

Lemma session_displays e ks evs e' : session table call P e ks evs e' -> forall t,
  all_printable e -> narrow e -> all_edit ks e -> displays t e -> displays (feed t evs) e'.
Proof.
  induction 1 as [|e k ks evs evs' e' Hp Hs IH]; intros t Ha Hn He Hd; [done|]. destruct He as [Hk He].
  rewrite feed_app. apply IH; [by apply press_printable|by destruct Hk|done|by apply key_displays].
Qed.
End prompt.

(** C29 While a line is edited (characters, backspace, the four arrows) on a
    terminal wide enough, the row always shows the prompt and the line with
    the cursor where the next character will go, whatever was typed before:
    the shell's output keeps the terminal in step with its buffer. *)
Theorem display_in_sync table call P ks s e (t : T) :
  names_ok table -> (forall f argv buf, length (call f argv buf).1.2 = length buf) ->
  prompt_ok P -> printable P /\ P <> [] ->
  represents P s e -> all_printable e -> narrow P e -> displays P t e ->
  all_fit table ks e -> all_edit table P ks e ->
  exists s' evs e', finsh_keys table call (concat (map codes ks)) s = Some (s', evs) /\
    session table call P e ks evs e' /\ represents P s' e' /\ displays P (feed t evs) e'.
Proof.
  intros Ht Hcall HP1 HP2 Hr Ha Hn Hd Hf He.
  destruct (keys_session table call P Ht Hcall HP1 ks s e Hr Hf) as (s' & evs & e' & E & Hs & Hr').
  exists s', evs, e'. split_and!; [done|done|done|]. by eapply session_displays.
Qed.
End terminal.

(** ** A terminal *)

(** Cells, column, and the escape sequence received so far. *)
Definition vt : Type := (nat -> Z) * nat * list Z.

Definition vt_step (t : vt) (c : Z) : vt :=
  let '(f, n, esc) := t in
  match esc with
  | [] =>
      if c =? 27 then (f, n, [27])
      else if c =? 8 then (f, pred n, [])
      else if c =? 13 then (f, O, [])
      else (fun i => if decide (i = n) then c else f i, S n, [])
  | _ => if decide (esc ++ [c] = [27; 91; 50; 75]) then (fun _ => 32, n, []) else (f, n, esc ++ [c])
  end.

#[export] Instance vt_terminal : Terminal vt.
Proof.
  refine {| send := fun t l => foldl vt_step t l; ground := fun t => t.2 = [];
            row := fun t => t.1.1; col := fun t => t.1.2; width := 132%nat |}.
  - intros t a b. apply foldl_app.
  - intros [[f n] esc] c Hg Hc _. cbn in Hg. subst esc. cbn.
    rewrite !(proj2 (Z.eqb_neq c _)) by lia. done.
  - intros [[f n] esc] Hg. cbn in Hg. by subst esc.
  - intros [[f n] esc] Hg. cbn in Hg. by subst esc.
Defined.

Lemma display_in_sync_witness :
  let ks := [Char 97; Char 99; Left; Char 98; Right; Char 100; Backspace; Left; Backspace] in
  exists s0 s' evs e', finsh_keys [] (fun _ _ b => ([], b, 0)) (concat (map codes ks)) s0 = Some (s', evs) /\
    session [] (fun _ _ b => ([], b, 0)) (chars "msh >") empty_editor ks evs e' /\
    represents (chars "msh >") s' e' /\
    displays (chars "msh >") (feed (fun i => nth i (chars "msh >") 32, 5%nat, []) evs) e'.
Proof.
  intros ks. destruct boot_represents as (s0 & _ & Hr). exists s0.
  apply (display_in_sync [] (fun _ _ b => ([], b, 0)) (chars "msh >") ks s0 empty_editor).
  - constructor.
  - done.
  - apply msh_prompt_ok.
  - split; [cbn; repeat (apply printable_cons; split; [lia|]); constructor|done].
  - exact Hr.
  - split; constructor.
  - vm_compute; lia.
  - by split.
  - cbn; unfold typable; lia.
  - repeat split; first [lia | unfold narrow; vm_compute; lia].
Defined.
