(* ===== verification/DateCmd.v ===== *)
(** * DateCmd: setting the clock from the console

    The [date] command of [components/drivers/rtc/rtc.c] as the shell calls
    it, and the whole way from the keys typed at the prompt to the clock. *)
From S2P Require Import Prelude CTime SoftRtc Bytes KService Printf Output Msh MshFacts MshComplete Shell Editor ShellFacts.

(** ** [atoi] of the C library

    White space, a sign, digits up to the first other character; [None] is a
    value that is no [int], for which the function is undefined. *)
Definition isspace (c : Z) : bool := (c =? 32) || ((9 <=? c) && (c <=? 13)).

Fixpoint skip_space (l : list Z) : list Z :=
  match l with c :: l' => if isspace c then skip_space l' else l | [] => [] end.

Fixpoint atoi_digits (l : list Z) (v : Z) : option Z :=
  match l with
  | [] => None
  | c :: l =>
      if _ISDIGIT c then
        let v := 10 * v + (c - 48) in
        if v >? 2147483648 then None else atoi_digits l v
      else Some v
  end.

Definition atoi (l : list Z) : option Z :=
  let l := skip_space l in
  match l with
  | [] => None
  | c :: l' =>
      if c =? 45 then v ← atoi_digits l' 0; Some (- v)
      else v ← atoi_digits (if c =? 43 then l' else l) 0; if v >? 2147483647 then None else Some v
  end.

(** ** [date] *)

Definition range_text (m : date_msg) : list Z :=
  match m with
  | year_range => chars "year is out of range [2000-2099]"
  | month_range => chars "month is out of range [1-12]"
  | day_range => chars "day is out of range [1-31]"
  | hour_range => chars "hour is out of range [0-23]"
  | minute_range => chars "minute is out of range [0-59]"
  | second_range => chars "second is out of range [0-59]"
  end ++ [10].

(** [argc] is an [uint8_t]; [t0] is the tick at which the time is read to be
    printed, [t1] to [t4] those at which [set_time] and [set_date] read and
    write it. *)
Definition date (t0 t1 t2 t3 t4 : Z) (argv buf : list Z) (c : rtc) : W rtc :=
  let arg i := p ← argv !!z i; atoi (from p buf) in
  let argc := u8 (Z.of_nat (length argv)) in
  if argc =? 1 then
    text ← lift (ctime_r (time c t0));
    _ ← kprintf (chars "%.*s") [Arg_int 25; Arg_str (Some text)];
    mret c
  else if argc >=? 7 then
    year ← lift (arg 1);
    month ← lift (arg 2);
    day ← lift (arg 3);
    hour ← lift (arg 4);
    min ← lift (arg 5);
    sec ← lift (arg 6);
    r ← lift (date_set c t1 t2 t3 t4 year month day hour min sec);
    match r with
    | inl m => _ ← kprintf (range_text m) []; mret c
    | inr c => mret c
    end
  else
    _ ← kprintf (chars "please input: date [year month day hour min sec] or date" ++ [10]) [];
    _ ← kprintf (chars "e.g: date 2018 01 01 23 59 59 or date" ++ [10]) [];
    mret c.

(** ** Numbers written and read *)

Lemma atoi_digits_digits fuel : forall v r, 0 <= v < 10 ^ Z.of_nat fuel -> v <= 2147483647 -> (0 < fuel)%nat ->
  atoi_digits (digits fuel v ++ r) 0 = atoi_digits r v.
Proof.
  induction fuel as [|fuel IH]; intros v r Hv Hb Hf; [lia|]. cbn [digits].
  destruct (Z.ltb_spec v 10) as [Hlt|Hge].
  - cbn [app atoi_digits]. assert (_ISDIGIT (48 + v) = true) as -> by (unfold _ISDIGIT; lia).
    cbv zeta. rewrite Z.gtb_ltb, (proj2 (Z.ltb_ge _ _)) by lia. f_equal. lia.
  - rewrite Nat2Z.inj_succ, Z.pow_succ_r in Hv by lia.
    destruct fuel as [|fuel']; [cbn in Hv; lia|].
    rewrite <- app_assoc, IH by (zlia || lia). cbn [app atoi_digits].
    assert (_ISDIGIT (48 + v `mod` 10) = true) as -> by (unfold _ISDIGIT; zlia).
    cbv zeta. replace (10 * (v / 10) + (48 + v `mod` 10 - 48)) with v by zlia.
    by rewrite Z.gtb_ltb, (proj2 (Z.ltb_ge _ _)) by lia.
Qed.

Lemma digits_head fuel : forall v, 0 <= v -> (0 < fuel)%nat -> exists c l, digits fuel v = c :: l /\ 48 <= c < 58.
Proof.
  intros v Hv Hf. pose proof (digits_chars fuel v Hv) as H.
  destruct (digits fuel v) as [|c l] eqn:E; [|apply Forall_cons in H as [H _]; by exists c, l].
  destruct fuel as [|fuel]; [lia|]. cbn in E. destruct (v <? 10); [done|]. by apply app_eq_nil in E as [_ E].
Qed.

Lemma atoi_itoa v r : 0 <= v <= 2147483647 -> atoi (itoa v ++ 0 :: r) = Some v.
Proof.
  intros Hv. unfold itoa. rewrite (proj2 (Z.ltb_ge v 0)) by lia. unfold atoi.
  destruct (digits_head 20 v ltac:(lia) ltac:(lia)) as (c & l & E & Hc).
  assert (skip_space (digits 20 v ++ 0 :: r) = digits 20 v ++ 0 :: r) as ->.
  { rewrite E. cbn [app skip_space]. assert (isspace c = false) as -> by (unfold isspace; lia). done. }
  pose proof (atoi_digits_digits 20 v (0 :: r) ltac:(lia) ltac:(lia) ltac:(lia)) as H.
  rewrite E in H |- *. cbn [app] in *. rewrite !(proj2 (Z.eqb_neq c _)) by lia. rewrite H.
  cbn [atoi_digits]. change (_ISDIGIT 0) with false. cbn [mbind option_bind].
  by rewrite Z.gtb_ltb, (proj2 (Z.ltb_ge _ _)) by lia.
Qed.

Lemma itoa_typable v : 0 <= v -> Forall (fun c => typable c /\ blank c = false /\ c <> 34) (itoa v).
Proof.
  intros Hv. unfold itoa. rewrite (proj2 (Z.ltb_ge v 0)) by lia.
  eapply Forall_impl; [apply digits_chars; lia|]. intros c Hc. cbn in Hc. unfold typable, blank. lia.
Qed.

Lemma itoa_written v : 0 <= v -> written (itoa v) (itoa v).
Proof.
  intros Hv. constructor.
  - unfold itoa. rewrite (proj2 (Z.ltb_ge v 0)) by lia. by destruct (digits_head 20 v Hv ltac:(lia)) as (c & l & -> & _).
  - eapply Forall_impl; [by apply itoa_typable|]. by intros c (_ & H1 & H2).
Qed.

(** ** From the keys to the clock *)

(** Seven arguments, the command and six numbers. *)
Lemma date_arguments t0 t1 t2 t3 t4 argv buf c w n1 n2 n3 n4 n5 n6 :
  Forall2 (string_at buf) argv (w :: map itoa [n1; n2; n3; n4; n5; n6]) ->
  Forall (fun n => 0 <= n <= 2147483647) [n1; n2; n3; n4; n5; n6] ->
  date t0 t1 t2 t3 t4 argv buf c =
  (r ← lift (date_set c t1 t2 t3 t4 n1 n2 n3 n4 n5 n6);
   match r with
   | inl m => _ ← kprintf (range_text m) []; mret c
   | inr c => mret c
   end).
Proof.
  intros HF Hn. unfold date. pose proof (Forall2_length _ _ _ HF) as Hl. rewrite Hl. cbn [length map].
  change (u8 (Z.of_nat 7) =? 1) with false. change (u8 (Z.of_nat 7) >=? 7) with true. cbv iota.
  assert (forall k i n, k = Z.of_nat (S i) -> map itoa [n1; n2; n3; n4; n5; n6] !! i = Some (itoa n) ->
    0 <= n <= 2147483647 -> (p ← argv !!z k; atoi (from p buf)) = Some n) as Harg.
  { intros k i n -> Hi Hr. rewrite zlookup_of_nat.
    destruct (Forall2_lookup_r _ _ _ (S i) _ HF Hi) as (p & -> & Hp). cbn [mbind option_bind].
    destruct (string_at_from _ _ _ Hp) as (r & ->). by apply atoi_itoa. }
  rewrite !Forall_cons in Hn. destruct Hn as (H1 & H2 & H3 & H4 & H5 & H6 & _).
  rewrite (Harg 1 0%nat n1), (Harg 2 1%nat n2), (Harg 3 2%nat n3), (Harg 4 3%nat n4), (Harg 5 4%nat n5),
    (Harg 6 5%nat n6) by done.
  by run.
Qed.

(** The keys for [date] with six numbers. *)
Definition date_line (y mo d h m s : Z) : list Z :=
  chars "date" ++ concat (map (cons 32) (map itoa [y; mo; d; h; m; s])).

Lemma numbers_written ns : Forall (fun n => 0 <= n <= 2147483647) ns -> Forall2 written (map itoa ns) (map itoa ns).
Proof.
  induction 1 as [|n ns Hn _ IH]; [constructor|]. cbn [map]. constructor; [apply itoa_written; lia|done].
Qed.

Lemma date_line_typable y mo d h m s : Forall (fun n => 0 <= n <= 2147483647) [y; mo; d; h; m; s] ->
  Forall typable (date_line y mo d h m s).
Proof.
  intros Hn. unfold date_line. apply Forall_app. split.
  - cbn. repeat (constructor; [unfold typable; lia|]). constructor.
  - induction Hn as [|n ns Hn _ IH]; [constructor|]. cbn [map concat]. apply Forall_app. split; [|done].
    constructor; [unfold typable; lia|]. eapply Forall_impl; [apply itoa_typable; lia|]. by intros c (H & _).
Qed.

Lemma date_line_length y mo d h m s : Forall (fun n => 0 <= n <= 2147483647) [y; mo; d; h; m; s] ->
  (length (date_line y mo d h m s) <= 79)%nat.
Proof.
  intros Hn. unfold date_line. rewrite length_app. cbn [length chars].
  assert (forall ns, Forall (fun n => 0 <= n <= 2147483647) ns ->
    (length (concat (map (cons 32%Z) (map itoa ns))) <= 12 * length ns)%nat) as H.
  { induction 1 as [|n ns Hn' _ IH]; [cbn; lia|]. cbn [map concat]. rewrite length_app. cbn [length].
    pose proof (itoa_length n ltac:(lia)). lia. }
  specialize (H _ Hn). cbn [length] in H. lia.
Qed.

(** C28 Setting the watch from the console, all the way, for a clock that runs
    between 1973 and July 2036, numbers of at most two digits after a year
    below 10000 that is not one of 2037 to 2099 (the command accepts these, but
    a 32-bit [time_t] ends in 2038), and when the tick at which the command
    writes the time of day and the tick at which it reads it back for the date
    fall in the same second of uptime (across midnight the date would
    otherwise be a day off): a date and time in range, typed at the prompt
    after [date] and entered, are echoed; the function the table has for
    [date] is called with seven arguments; and called with these, [date]
    prints nothing and sets the clock, which from then on is the time typed
    plus the seconds that passed.  Out of range, the clock is left alone and
    the reason printed. *)
Theorem shell_sets_clock table call P st e f c t0 t1 t2 t3 t4 y mo d h m s :
  names_ok table -> (forall f argv buf, length (call f argv buf).1.2 = length buf) ->
  prompt_ok P -> represents P st e -> text e = [] -> find_cmd table (chars "date") = Some f ->
  clock_ok c -> uptime c t3 = uptime c t2 ->
  0 <= y < 10000 -> ~ 2037 <= y <= 2099 -> Forall (fun n => 0 <= n < 100) [mo; d; h; m; s] ->
  exists st' argv buf, finsh_keys table call (date_line y mo d h m s ++ [13]) st =
      Some (st', echoed (date_line y mo d h m s) ++ [Out [10]; Run f argv buf; Out (call f argv buf).1.1; Out P]) /\
    represents P st' (entered (date_line y mo d h m s) (hist e)) /\
    exists c' evs, date t0 t1 t2 t3 t4 argv buf c = Some (c', evs) /\
    if decide (in_ranges y mo d h m s) then
      evs = [] /\ running c' /\
      forall t5, time c' t5 =
        tm_seconds (mk_tm s m h d (mo - 1) (y - 1900) 0 0 0) - RT_LIBC_FIXED_TIMEZONE * 3600
        + (uptime c t5 - uptime c t4)
    else c' = c /\ exists why, evs = [Out (range_text why)].
Proof.
  intros Ht Hcall HP Hr He Hf Hc Hup Hy Hyr Hns.
  assert (Forall (fun n => 0 <= n <= 2147483647) [y; mo; d; h; m; s]) as Hall
    by (constructor; [lia|eapply Forall_impl; [exact Hns|]; cbn; lia]).
  destruct (shell_runs_command table call Ht Hcall P st e (chars "date") f (map itoa [y; mo; d; h; m; s])
    (map itoa [y; mo; d; h; m; s])) as (st' & argv & buf & E & HF & Hr'); try done.
  - repeat constructor; done.
  - apply numbers_written. exact Hall.
  - cbn; lia.
  - by apply date_line_typable.
  - by apply date_line_length.
  - exists st', argv, buf. split_and!; [exact E|exact Hr'|].
    rewrite (date_arguments t0 t1 t2 t3 t4 argv buf c (chars "date") y mo d h m s) by done.
    assert (~ 2037 <= u16 y <= 2099) as Hyr' by (by rewrite u16_small by lia).
    pose proof (date_set_correct c t1 t2 t3 t4 y mo d h m s Hc Hup Hyr') as Hset. cbv zeta in Hset.
    rewrite !Forall_cons in Hns. destruct Hns as (H1 & H2 & H3 & H4 & H5 & _).
    rewrite u16_small, !u8_small in Hset by lia.
    destruct (date_set c t1 t2 t3 t4 y mo d h m s) as [[why|c']|]; [| |done].
    + run.
      assert (kprintf (range_text why) [] = Some (tt, [Out (range_text why)])) as ->
        by (destruct why; apply kprintf_plain; first [cbn; lia | repeat constructor; done]).
      run. eexists _, _. split; [done|]. rewrite decide_False by done. split; [done|by eexists].
    + destruct Hset as (Hin & Hrun & Htime). run.
      eexists _, _. split; [done|]. by rewrite decide_True by done.
Qed.

Lemma shell_sets_clock_witness :
  exists st st' argv buf, finsh_keys example_table example_call (date_line 2022 7 5 6 7 8 ++ [13]) st =
      Some (st', echoed (date_line 2022 7 5 6 7 8) ++ [Out [10]; Run 3 argv buf; Out [51]; Out msh_prompt]) /\
    represents msh_prompt st' (entered (date_line 2022 7 5 6 7 8) []) /\
    exists c' evs, date 5 10 20 30 40 argv buf booted = Some (c', evs) /\
    if decide (in_ranges 2022 7 5 6 7 8) then
      evs = [] /\ running c' /\
      forall t5, time c' t5 =
        tm_seconds (mk_tm 8 7 6 5 (7 - 1) (2022 - 1900) 0 0 0) - RT_LIBC_FIXED_TIMEZONE * 3600
        + (uptime booted t5 - uptime booted 40)
    else c' = booted /\ exists why, evs = [Out (range_text why)].
Proof.
  destruct boot_represents as (st & _ & Hr). exists st.
  apply (shell_sets_clock example_table example_call msh_prompt st empty_editor 3 booted 5 10 20 30 40 2022 7 5 6 7 8).
  - apply example_table_ok.
  - apply example_call_ok.
  - apply msh_prompt_ok.
  - exact Hr.
  - reflexivity.
  - reflexivity.
  - apply booted_ok.
  - reflexivity.
  - lia.
  - lia.
  - repeat (constructor; [lia|]). constructor.
Defined.

(** [date] alone prints the 25 characters of the time. *)
Lemma date_prints t0 t1 t2 t3 t4 p buf c txt rest : c_string txt -> length txt = 25%nat ->
  ctime_r (time c t0) = Some (txt ++ 0 :: rest) ->
  date t0 t1 t2 t3 t4 [p] buf c = Some (c, [Out txt]).
Proof.
  intros Ht Hl E. unfold date. change (u8 (Z.of_nat (length [p])) =? 1) with true. cbv iota. rewrite E. run.
  rewrite (kprintf_text _ _ txt); [by run| |lia]. change (length (chars "%.*s")) with 4%nat.
  transitivity ('(l1, (f, a)) ← (l ← string_text (-1) 25 0 (Some (txt ++ 0 :: rest)); Some (l, ([] : list Z, [] : list arg)));
    l2 ← format_text 3 f a; Some (l1 ++ l2)); [done|].
  unfold string_text. cbn [from_option id]. rewrite str_len_free, Hl by (done || lia). cbn [mbind option_bind].
  cbv zeta. change (_ && _) with false. cbv iota.
  change (Z.to_nat (-1 - (0 + Z.of_nat 25))) with O. change (Z.to_nat (0 + Z.of_nat 25)) with 25%nat.
  rewrite <- Hl, take_app_length. cbn. by rewrite !app_nil_r.
Qed.
