(* ===== verification/Timer.v ===== *)
(** * Timer: the kernel's timer list

    [rt-thread/src/timer.c] in this configuration: one level of list
    ([RT_TIMER_SKIP_LIST_LEVEL] is 1), no soft timers.  A timer is known by an
    identifier; the list is the list of identifiers in its order.  Ticks are
    32-bit and compared by their difference, as in the source. *)
From S2P Require Import Prelude.
From Stdlib Require Import Sorted.

Definition RT_TICK_MAX : Z := 0xffffffff.

(** The bits of [parent.flag] this configuration uses, and the two ticks. *)
Record rt_timer := mk_timer {
  periodic : bool; activated : bool; timeout_tick : Z; init_tick : Z }.

#[export] Instance rt_timer_inhabited : Inhabited rt_timer := populate (mk_timer false false 0 0).

(** [rt_timer_list], and the list [rt_timer_check] keeps the timer it is
    firing in. *)
Record timers := mk_timers { tab : gmap Z rt_timer; rt_timer_list : list Z; firing : list Z }.

Definition no_timers : timers := mk_timers ∅ [] [].

Definition tmr (ts : timers) (t : Z) : rt_timer := tab ts !!! t.
Definition set_timer (t : Z) (r : rt_timer) (ts : timers) : timers :=
  mk_timers (<[t := r]> (tab ts)) (rt_timer_list ts) (firing ts).
Definition set_activated (a : bool) (t : Z) (ts : timers) : timers :=
  let r := tmr ts t in
  set_timer t (mk_timer (periodic r) a (timeout_tick r) (init_tick r)) ts.

Definition rt_timer_init (t : Z) (time : Z) (is_periodic : bool) (ts : timers) : timers :=
  set_timer t (mk_timer is_periodic false 0 time) ts.

(** [rt_list_remove] takes the node out of whichever list it is in. *)
Definition _rt_timer_remove (t : Z) (ts : timers) : timers :=
  mk_timers (tab ts) (filter (fun x => x <> t) (rt_timer_list ts))
    (filter (fun x => x <> t) (firing ts)).

Definition rt_timer_detach (t : Z) (ts : timers) : timers * Z :=
  (set_activated false t (_rt_timer_remove t ts), RT_EOK).

(** [rt_timer_delete] does the same to a timer of the heap. *)
Definition rt_timer_delete (t : Z) (ts : timers) : timers * Z :=
  (set_activated false t (_rt_timer_remove t ts), RT_EOK).

(** [(t->timeout_tick - timer->timeout_tick)] is not zero and less than half
    the tick range: [t] fires after [timer]. *)
Definition fires_after (a b : Z) : bool :=
  negb (u32 (a - b) =? 0) && (u32 (a - b) <? RT_TICK_MAX / 2).

(** The scan of the list for the place of a timer firing at [to_]. *)
Fixpoint timer_insert (tb : gmap Z rt_timer) (to_ t : Z) (l : list Z) : list Z :=
  match l with
  | [] => [t]
  | x :: l =>
      if fires_after (timeout_tick (tb !!! x)) to_ then t :: x :: l
      else x :: timer_insert tb to_ t l
  end.

(** [rt_timer_start]; the assertion on [init_tick] is a precondition. *)
Definition rt_timer_start (tick : Z) (t : Z) (ts : timers) : timers * Z :=
  let ts := set_activated false t (_rt_timer_remove t ts) in
  let r := tmr ts t in
  let to_ := u32 (tick + init_tick r) in
  let ts := set_timer t (mk_timer (periodic r) false to_ (init_tick r)) ts in
  let ts := mk_timers (tab ts) (timer_insert (tab ts) to_ t (rt_timer_list ts)) (firing ts) in
  (set_activated true t ts, RT_EOK).

Definition rt_timer_stop (t : Z) (ts : timers) : timers * Z :=
  if activated (tmr ts t) then
    (set_activated false t (_rt_timer_remove t ts), RT_EOK)
  else (ts, - RT_ERROR).

Inductive timer_cmd :=
  | RT_TIMER_CTRL_GET_TIME | RT_TIMER_CTRL_SET_TIME (time : Z)
  | RT_TIMER_CTRL_SET_ONESHOT | RT_TIMER_CTRL_SET_PERIODIC
  | RT_TIMER_CTRL_GET_STATE | RT_TIMER_CTRL_OTHER.

(** The new state, what the command leaves in its argument, the result. *)
Definition rt_timer_control (t : Z) (cmd : timer_cmd) (ts : timers) : timers * option Z * Z :=
  let r := tmr ts t in
  match cmd with
  | RT_TIMER_CTRL_GET_TIME => (ts, Some (init_tick r), RT_EOK)
  | RT_TIMER_CTRL_SET_TIME time =>
      (set_timer t (mk_timer (periodic r) (activated r) (timeout_tick r) (u32 time)) ts, None, RT_EOK)
  | RT_TIMER_CTRL_SET_ONESHOT =>
      (set_timer t (mk_timer false (activated r) (timeout_tick r) (init_tick r)) ts, None, RT_EOK)
  | RT_TIMER_CTRL_SET_PERIODIC =>
      (set_timer t (mk_timer true (activated r) (timeout_tick r) (init_tick r)) ts, None, RT_EOK)
  | RT_TIMER_CTRL_GET_STATE => (ts, Some (if activated r then 1 else 0), RT_EOK)
  | RT_TIMER_CTRL_OTHER => (ts, None, RT_EOK)
  end.

(** The tick of the first timer of the list. *)
Definition rt_timer_next_timeout_tick (ts : timers) : Z :=
  match rt_timer_list ts with
  | [] => RT_TICK_MAX
  | t :: _ => timeout_tick (tmr ts t)
  end.

(** [(current_tick - t->timeout_tick) < RT_TICK_MAX / 2]. *)
Definition expired (now : Z) (r : rt_timer) : bool :=
  u32 (now - timeout_tick r) <? RT_TICK_MAX / 2.

(** ** The order of the list

    [due now r] is how many ticks from [now] the timer fires, negative when it
    is overdue. *)
Definition due (now : Z) (r : rt_timer) : Z := s32 (timeout_tick r - now).

(** Running timers, nearest first; [lo] bounds how much one may be overdue. *)
Record timers_at (lo now : Z) (ts : timers) : Prop := {
  to_nodup : NoDup (rt_timer_list ts);
  to_sorted : StronglySorted (fun a b => due now (tmr ts a) <= due now (tmr ts b)) (rt_timer_list ts);
  to_due : forall t, t ∈ rt_timer_list ts ->
    lo <= due now (tmr ts t) < RT_TICK_MAX / 2 /\ 0 <= timeout_tick (tmr ts t) < 4294967296;
  to_active : forall t, t ∈ rt_timer_list ts -> activated (tmr ts t) = true;
  to_now : 0 <= now < 4294967296 }.
(** None is overdue. *)
Abbreviation timers_ok := (timers_at 0).

Lemma fires_after_due now a b : 0 <= now < 4294967296 ->
  0 <= timeout_tick a < 4294967296 -> 0 <= timeout_tick b < 4294967296 ->
  0 <= due now a < RT_TICK_MAX / 2 -> 0 <= due now b < RT_TICK_MAX / 2 ->
  fires_after (timeout_tick a) (timeout_tick b) = (due now b <? due now a).
Proof.
  unfold fires_after, due, s32, u32. change (RT_TICK_MAX / 2) with 2147483647.
  intros. case_Zs; zlia.
Qed.

Lemma expired_due now r : 0 <= now < 4294967296 -> 0 <= timeout_tick r < 4294967296 ->
  - 2147483646 <= due now r <= 2147483647 -> expired now r = (due now r <=? 0).
Proof.
  unfold expired, due, s32, u32. change (RT_TICK_MAX / 2) with 2147483647.
  intros. case_Zs; zlia.
Qed.

(** Starting a timer now makes it due in [init_tick] ticks. *)
Lemma due_started now i : 0 <= now < 4294967296 -> 0 <= i < RT_TICK_MAX / 2 ->
  s32 (u32 (now + i) - now) = i.
Proof. unfold s32, u32. change (RT_TICK_MAX / 2) with 2147483647. intros. zlia. Qed.

(** ** What starting and stopping do to the list *)

Lemma tmr_set_timer t r ts x : tmr (set_timer t r ts) x = if decide (t = x) then r else tmr ts x.
Proof.
  unfold tmr, set_timer. cbn. destruct (decide (t = x)) as [->|].
  - by rewrite lookup_total_insert_eq.
  - by rewrite lookup_total_insert_ne.
Qed.

Lemma tmr_set_activated a t ts x :
  timeout_tick (tmr (set_activated a t ts) x) = timeout_tick (tmr ts x) /\
  init_tick (tmr (set_activated a t ts) x) = init_tick (tmr ts x) /\
  periodic (tmr (set_activated a t ts) x) = periodic (tmr ts x) /\
  activated (tmr (set_activated a t ts) x) = if decide (t = x) then a else activated (tmr ts x).
Proof.
  unfold set_activated. rewrite tmr_set_timer. by destruct (decide (t = x)) as [->|].
Qed.

Lemma tmr_remove t ts x : tmr (_rt_timer_remove t ts) x = tmr ts x.
Proof. done. Qed.

(** Only the due date of a timer matters to the order. *)
Lemma due_timeout now a b : timeout_tick a = timeout_tick b -> due now a = due now b.
Proof. unfold due. by intros ->. Qed.

Lemma sorted_filter (R : Z -> Z -> Prop) (P : Z -> Prop) `{!forall x, Decision (P x)} l :
  StronglySorted R l -> StronglySorted R (filter P l).
Proof.
  induction 1 as [|x l Hl IH Hx]; [constructor|]. rewrite filter_cons.
  destruct (decide (P x)); [|done]. constructor; [done|].
  apply Forall_forall. intros y Hy. apply list_elem_of_filter in Hy as [_ Hy].
  by apply (proj1 (Forall_forall _ _) Hx).
Qed.

Lemma sorted_ext (R S : Z -> Z -> Prop) l :
  (forall x y, x ∈ l -> y ∈ l -> R x y -> S x y) -> StronglySorted R l -> StronglySorted S l.
Proof.
  induction l as [|x l IH]; intros H Hs; [constructor|]. inversion Hs as [|? ? Hl Hx]; subst.
  constructor.
  - apply IH; [|done]. intros a b Ha Hb. apply H; by apply list_elem_of_further.
  - apply Forall_forall. intros y Hy. apply H; [apply list_elem_of_here|by apply list_elem_of_further|].
    by apply (proj1 (Forall_forall _ _) Hx).
Qed.

(** The place [timer_insert] chooses: after everything due no later, before
    everything due later. *)
Lemma timer_insert_split now tb to_ t l :
  0 <= now < 4294967296 -> 0 <= to_ < 4294967296 -> 0 <= s32 (to_ - now) < RT_TICK_MAX / 2 ->
  (forall x, x ∈ l -> 0 <= timeout_tick (tb !!! x) < 4294967296 /\
                      0 <= due now (tb !!! x) < RT_TICK_MAX / 2) ->
  StronglySorted (fun a b => due now (tb !!! a) <= due now (tb !!! b)) l ->
  exists l1 l2, timer_insert tb to_ t l = l1 ++ t :: l2 /\ l = l1 ++ l2 /\
    Forall (fun x => due now (tb !!! x) <= s32 (to_ - now)) l1 /\
    Forall (fun x => s32 (to_ - now) < due now (tb !!! x)) l2.
Proof.
  intros Hn Hto Hd Hl Hs. induction Hs as [|x l Hs IH Hx]; [by exists [], []|].
  cbn [timer_insert].
  pose proof (Hl x ltac:(apply list_elem_of_here)) as [Hx1 Hx2].
  rewrite (fires_after_due now (tb !!! x) (mk_timer false false to_ 0)) by done.
  change (due now (mk_timer false false to_ 0)) with (s32 (to_ - now)).
  destruct (Z.ltb_spec (s32 (to_ - now)) (due now (tb !!! x))) as [Hlt|Hge].
  - exists [], (x :: l). split; [done|]. split; [done|]. split; [constructor|].
    constructor; [done|]. eapply Forall_impl; [exact Hx|]. cbn. lia.
  - destruct IH as (l1 & l2 & E1 & E2 & F1 & F2).
    { intros y Hy. apply Hl. by apply list_elem_of_further. }
    exists (x :: l1), l2. rewrite E1, E2. split; [done|]. split; [done|]. by split; [constructor|].
Qed.

Lemma sorted_insert (R : Z -> Z -> Prop) t l1 l2 :
  StronglySorted R (l1 ++ l2) -> Forall (fun x => R x t) l1 -> Forall (R t) l2 ->
  StronglySorted R (l1 ++ t :: l2).
Proof.
  induction l1 as [|x l1 IH]; intros Hs H1 H2; cbn in *; [by constructor|].
  inversion Hs as [|? ? Hl Hx]; subst. apply Forall_cons in H1 as [H1 H1'].
  constructor; [by apply IH|]. rewrite Forall_app in Hx |- *. destruct Hx.
  split; [done|]. by constructor.
Qed.

(** The list after a start. *)
Lemma rt_timer_start_split now t ts : timers_ok now ts ->
  0 <= init_tick (tmr ts t) < RT_TICK_MAX / 2 ->
  exists l1 l2,
    rt_timer_list (fst (rt_timer_start now t ts)) = l1 ++ t :: l2 /\
    filter (fun x => x <> t) (rt_timer_list ts) = l1 ++ l2 /\
    Forall (fun x => due now (tmr ts x) <= init_tick (tmr ts t)) l1 /\
    Forall (fun x => init_tick (tmr ts t) < due now (tmr ts x)) l2.
Proof.
  intros Hok Hi. unfold rt_timer_start.
  set (ts1 := set_activated false t (_rt_timer_remove t ts)).
  assert (Hr : init_tick (tmr ts1 t) = init_tick (tmr ts t)).
  { unfold ts1. by destruct (tmr_set_activated false t (_rt_timer_remove t ts) t) as (_ & -> & _). }
  cbv zeta. rewrite Hr. set (to_ := u32 (now + init_tick (tmr ts t))).
  set (ts2 := set_timer t _ ts1).
  assert (forall x, x ∈ filter (fun x => x <> t) (rt_timer_list ts) ->
    timeout_tick (tab ts2 !!! x) = timeout_tick (tmr ts x)) as Hto.
  { intros x Hx. apply list_elem_of_filter in Hx as [Hx _].
    change (tab ts2 !!! x) with (tmr ts2 x). unfold ts2. rewrite tmr_set_timer, decide_False by done.
    unfold ts1. by destruct (tmr_set_activated false t (_rt_timer_remove t ts) x) as (-> & _). }
  pose proof (due_started now (init_tick (tmr ts t)) (to_now _ _ _ Hok) Hi) as Hdue. fold to_ in Hdue.
  destruct (timer_insert_split now (tab ts2) to_ t (filter (fun x => x <> t) (rt_timer_list ts)))
    as (l1 & l2 & E1 & E2 & F1 & F2).
  - apply (to_now _ _ _ Hok).
  - apply u32_range.
  - lia.
  - intros x Hx. rewrite (due_timeout now _ (tmr ts x)), Hto by (by apply Hto || done).
    apply list_elem_of_filter in Hx as [_ Hx]. destruct (to_due _ _ _ Hok x Hx). done.
  - eapply sorted_ext; [|apply sorted_filter, (to_sorted _ _ _ Hok)].
    intros a b Ha Hb. cbn. by rewrite !(due_timeout now (tab ts2 !!! _) (tmr ts _)) by (by apply Hto).
  - exists l1, l2. cbn [fst rt_timer_list set_activated set_timer]. rewrite Hdue in F1, F2.
    assert (forall x, x ∈ l1 ++ l2 -> due now (tab ts2 !!! x) = due now (tmr ts x)) as Heq.
    { intros x Hx. apply due_timeout, Hto. by rewrite E2. }
    split; [exact E1|]. split; [exact E2|]. split.
    + rewrite Forall_forall in F1 |- *. intros x Hx. rewrite <- Heq; [by apply F1|].
      apply elem_of_app. by left.
    + rewrite Forall_forall in F2 |- *. intros x Hx. rewrite <- Heq; [by apply F2|].
      apply elem_of_app. by right.
Qed.

(** The fields of every timer after a start. *)
Lemma rt_timer_start_tmr now t ts x :
  let ts' := fst (rt_timer_start now t ts) in
  timeout_tick (tmr ts' x) =
    (if decide (t = x) then u32 (now + init_tick (tmr ts t)) else timeout_tick (tmr ts x)) /\
  init_tick (tmr ts' x) = init_tick (tmr ts x) /\
  activated (tmr ts' x) = if decide (t = x) then true else activated (tmr ts x).
Proof.
  cbv zeta. unfold rt_timer_start. cbv zeta. cbn [fst].
  match goal with |- context [set_activated true t ?T] => set (ts2 := T) end.
  destruct (tmr_set_activated true t ts2 x) as (E1 & E2 & _ & E3).
  rewrite E1, E2, E3. unfold ts2.
  change (tmr (mk_timers (tab ?a) ?b ?c)) with (tmr a).
  rewrite !tmr_set_timer.
  destruct (tmr_set_activated false t (_rt_timer_remove t ts) x) as (A1 & A2 & A3 & A4).
  destruct (tmr_set_activated false t (_rt_timer_remove t ts) t) as (B1 & B2 & B3 & B4).
  destruct (decide (t = x)) as [<-|]; cbn [timeout_tick init_tick activated].
  - by rewrite B2.
  - by rewrite A1, A2, A4.
Qed.

Lemma rt_timer_start_ok now t ts : timers_ok now ts ->
  0 <= init_tick (tmr ts t) < RT_TICK_MAX / 2 -> timers_ok now (fst (rt_timer_start now t ts)).
Proof.
  intros Hok Hi. destruct (rt_timer_start_split now t ts Hok Hi) as (l1 & l2 & E & Ef & F1 & F2).
  pose proof (rt_timer_start_tmr now t ts) as Ht. cbv zeta in Ht.
  set (ts' := fst (rt_timer_start now t ts)) in *.
  assert (forall x, x ∈ l1 ++ l2 -> x <> t /\ x ∈ rt_timer_list ts) as Hin.
  { intros x Hx. rewrite <- Ef in Hx. by apply list_elem_of_filter in Hx. }
  assert (forall x, x ∈ l1 ++ l2 -> due now (tmr ts' x) = due now (tmr ts x)) as Hdue.
  { intros x Hx. apply due_timeout. destruct (Ht x) as (-> & _). rewrite decide_False; [done|].
    destruct (Hin x Hx). congruence. }
  assert (due now (tmr ts' t) = init_tick (tmr ts t)) as Hdt.
  { unfold due. destruct (Ht t) as (-> & _). rewrite decide_True by done.
    apply due_started; [apply (to_now _ _ _ Hok)|done]. }
  assert (forall x, x ∈ l1 ++ t :: l2 -> x = t \/ x ∈ l1 ++ l2) as Hsplit.
  { intros x. rewrite !elem_of_app, elem_of_cons. tauto. }
  split; [| | | |apply (to_now _ _ _ Hok)]; rewrite E.
  - rewrite NoDup_app. pose proof (NoDup_filter (fun x => x <> t) _ (to_nodup _ _ _ Hok)) as Hnd.
    rewrite Ef, NoDup_app in Hnd. destruct Hnd as (N1 & N2 & N3).
    split; [done|]. split.
    + intros x Hx. rewrite elem_of_cons. intros [->|H2]; [|by eapply N2].
      destruct (Hin t ltac:(apply elem_of_app; by left)). done.
    + constructor; [|done]. intros H2. destruct (Hin t ltac:(apply elem_of_app; by right)). done.
  - apply sorted_insert.
    + rewrite <- Ef. eapply sorted_ext; [|apply sorted_filter, (to_sorted _ _ _ Hok)].
      intros a b Ha Hb. cbn. rewrite Ef in Ha, Hb. by rewrite !Hdue.
    + rewrite Forall_forall in F1 |- *. intros x Hx. rewrite Hdt, Hdue; [by apply F1|].
      apply elem_of_app. by left.
    + rewrite Forall_forall in F2 |- *. intros x Hx. rewrite Hdt, Hdue.
      { specialize (F2 x Hx). cbn in F2. lia. }
      apply elem_of_app. by right.
  - intros x Hx. destruct (Hsplit x Hx) as [->|Hx'].
    + rewrite Hdt. split; [done|]. destruct (Ht t) as (-> & _). rewrite decide_True by done.
      apply u32_range.
    + rewrite (Hdue x Hx'). destruct (Hin x Hx') as [Hne Hx'']. destruct (Ht x) as (-> & _).
      rewrite decide_False by congruence. by apply (to_due _ _ _ Hok).
  - intros x Hx. destruct (Ht x) as (_ & _ & ->). destruct (decide (t = x)); [done|].
    destruct (Hsplit x Hx) as [->|Hx']; [done|]. apply (to_active _ _ _ Hok), Hin, Hx'.
Qed.

(** Taking timers out keeps the order. *)
Lemma timers_remove_ok lo now t ts : timers_at lo now ts ->
  timers_at lo now (set_activated false t (_rt_timer_remove t ts)).
Proof.
  intros [Hnd Hs Hd Ha Hn].
  assert (forall x, due now (tmr (set_activated false t (_rt_timer_remove t ts)) x) = due now (tmr ts x)) as E.
  { intros x. apply due_timeout.
    by destruct (tmr_set_activated false t (_rt_timer_remove t ts) x) as (-> & _). }
  split; cbn [rt_timer_list set_activated set_timer _rt_timer_remove].
  - by apply NoDup_filter.
  - eapply sorted_ext; [|by apply sorted_filter]. intros a b _ _. cbn. by rewrite !E.
  - intros x Hx. rewrite E. apply list_elem_of_filter in Hx as [_ Hx].
    destruct (tmr_set_activated false t (_rt_timer_remove t ts) x) as (-> & _). by apply Hd.
  - intros x Hx. apply list_elem_of_filter in Hx as [Hne Hx].
    destruct (tmr_set_activated false t (_rt_timer_remove t ts) x) as (_ & _ & _ & ->).
    rewrite decide_False by congruence. by apply Ha.
  - done.
Qed.

Lemma rt_timer_stop_ok lo now t ts : timers_at lo now ts -> timers_at lo now (fst (rt_timer_stop t ts)).
Proof. intros H. unfold rt_timer_stop. destruct (activated _); [by apply timers_remove_ok|done]. Qed.

(** The next timeout is the earliest of all running timers. *)
Lemma next_timeout_earliest lo now ts t : timers_at lo now ts -> t ∈ rt_timer_list ts ->
  s32 (rt_timer_next_timeout_tick ts - now) <= due now (tmr ts t).
Proof.
  intros [_ Hs _ _ _]. unfold rt_timer_next_timeout_tick.
  destruct (rt_timer_list ts) as [|x l]; [by intros ?%not_elem_of_nil|].
  inversion Hs as [|? ? Hl Hx]; subst. intros [->|Ht]%elem_of_cons; [done|].
  by apply (proj1 (Forall_forall _ _) Hx).
Qed.

(** ** Starting a timer *)

(** [rt_timer_start] keeps the list sorted by time to go, none overdue: the
    timer, taken out if it was running, goes after every timer due no later
    and before every timer due later, the others keep their order, and the
    tick [rt_timer_next_timeout_tick] answers is due no later than any timer
    of the list, also across a wrap of the tick counter. *)
Theorem timer_start now t ts : timers_ok now ts -> 0 <= init_tick (tmr ts t) < RT_TICK_MAX / 2 ->
  let ts' := fst (rt_timer_start now t ts) in
  timers_ok now ts' /\
  (exists l1 l2, rt_timer_list ts' = l1 ++ t :: l2 /\
    filter (fun x => x <> t) (rt_timer_list ts) = l1 ++ l2 /\
    Forall (fun x => due now (tmr ts x) <= init_tick (tmr ts t)) l1 /\
    Forall (fun x => init_tick (tmr ts t) < due now (tmr ts x)) l2) /\
  due now (tmr ts' t) = init_tick (tmr ts t) /\
  forall x, x ∈ rt_timer_list ts' -> s32 (rt_timer_next_timeout_tick ts' - now) <= due now (tmr ts' x).
Proof.
  intros Hok Hi. cbv zeta. pose proof (rt_timer_start_ok now t ts Hok Hi) as Hok'.
  split; [done|]. split; [by apply rt_timer_start_split|]. split.
  - destruct (rt_timer_start_tmr now t ts t) as (E & _). cbv zeta in E. rewrite decide_True in E by done.
    unfold due. rewrite E. apply due_started; [apply (to_now _ _ _ Hok)|done].
  - intros x Hx. by apply (next_timeout_earliest 0).
Qed.

(** Two timers, started one after the other with the counter about to wrap. *)
Definition two_timers : timers :=
  let ts := rt_timer_init 7 300 false (rt_timer_init 5 100 false no_timers) in
  fst (rt_timer_start 4294967290 7 ts).

Lemma timer_start_witness :
  rt_timer_list (fst (rt_timer_start 4294967290 5 two_timers)) = [5; 7] /\
  timers_ok 4294967290 (fst (rt_timer_start 4294967290 5 two_timers)).
Proof.
  split; [by vm_compute|]. apply (timer_start 4294967290 5 two_timers).
  - split.
    + apply (bool_decide_eq_true_1 _). by vm_compute.
    + change (rt_timer_list two_timers) with [7]. repeat constructor.
    + change (rt_timer_list two_timers) with [7]. intros t ->%list_elem_of_singleton.
      vm_compute. intuition discriminate.
    + change (rt_timer_list two_timers) with [7]. intros t ->%list_elem_of_singleton. done.
    + lia.
  - vm_compute. intuition discriminate.
Defined.
