(* ===== verification/Kernel.v ===== *)
(** * Kernel: threads and the scheduler

    [rt-thread/src/scheduler.c], [thread.c], [clock.c], the defunct list of
    [idle.c] and [__rt_ffs] of [kservice.c], for one core and 32 priorities.
    A thread is known by its identifier; [RT_NULL] is 0.  Its list node
    [tlist] is in at most one list, so [rt_list_remove] takes it out of
    whichever list that is; [rt_list_insert_before(head, node)] appends.
    Every function here runs its critical sections whole; the scheduler's
    effect is on [rt_current_thread], the code after a call to [rt_schedule]
    running when the thread is current again. *)
From S2P Require Import Prelude Timer.
From Stdlib Require Import Sorted.

Definition RT_NULL : Z := 0.
Definition RT_THREAD_PRIORITY_MAX : Z := 32.

(** ** [__rt_ffs] *)

(** [__lowest_bit_bitmap]: rows of sixteen. *)
Definition __lowest_bit_bitmap : list Z :=
  let row h := [h; 0; 1; 0; 2; 0; 1; 0; 3; 0; 1; 0; 2; 0; 1; 0] in
  concat (row <$> [0; 4; 5; 4; 6; 4; 5; 4; 7; 4; 5; 4; 6; 4; 5; 4]).

Definition lowest_bit (v : Z) : Z := __lowest_bit_bitmap !!! Z.to_nat v.

Definition __rt_ffs (value : Z) : Z :=
  if value =? 0 then 0
  else if negb (value .& 0xff =? 0) then lowest_bit (value .& 0xff) + 1
  else if negb (value .& 0xff00 =? 0) then lowest_bit ((value .& 0xff00) ≫ 8) + 9
  else if negb (value .& 0xff0000 =? 0) then lowest_bit ((value .& 0xff0000) ≫ 16) + 17
  else lowest_bit ((value .& 0xff000000) ≫ 24) + 25.

(** ** Threads *)

Definition RT_THREAD_INIT : Z := 0.
Definition RT_THREAD_READY : Z := 1.
Definition RT_THREAD_SUSPEND : Z := 2.
Definition RT_THREAD_RUNNING : Z := 3.
Definition RT_THREAD_CLOSE : Z := 4.
Definition RT_THREAD_STAT_MASK : Z := 7.
Definition RT_THREAD_STAT_YIELD : Z := 8.

Record rt_thread := mk_thread {
  error : Z; stat : Z; current_priority : Z; init_priority : Z; number_mask : Z;
  event_set : Z; event_info : Z; init_slice : Z; remaining_tick : Z;
  systemobject : bool }.

Definition thread0 : rt_thread := mk_thread 0 0 0 0 0 0 0 0 0 false.
#[export] Instance rt_thread_inhabited : Inhabited rt_thread := populate thread0.

(** The lists a thread can be in. *)
Inductive qname :=
  | Ready (p : Z)          (* rt_thread_priority_table[p] *)
  | Suspended (o : Z)      (* suspend_thread of the IPC object o *)
  | Senders (o : Z)        (* suspend_sender_thread of o *)
  | Defunct.               (* _rt_thread_defunct *)

#[export] Instance qname_eq_dec : EqDecision qname.
Proof. solve_decision. Defined.

#[export] Instance qname_countable : Countable qname.
Proof.
  refine (inj_countable'
    (fun q => match q with
              | Ready p => inl (inl p) | Suspended o => inl (inr o)
              | Senders o => inr (inl o) | Defunct => inr (inr tt) end)
    (fun s => match s with
              | inl (inl p) => Ready p | inl (inr o) => Suspended o
              | inr (inl o) => Senders o | inr (inr tt) => Defunct end) _).
  by intros [].
Defined.

Record kernel := mk_kernel {
  threads : gmap Z rt_thread;
  queues : gmap qname (list Z);
  rt_thread_ready_priority_group : Z;
  rt_current_thread : Z;
  rt_current_priority : Z;
  rt_scheduler_lock_nest : Z;
  rt_tick : Z;
  k_timers : timers }.     (* a thread's timer has the thread's identifier *)

Definition thr (k : kernel) (t : Z) : rt_thread := threads k !!! t.
Definition queue (k : kernel) (h : qname) : list Z := default [] (queues k !! h).

Definition set_threads (m : gmap Z rt_thread) (k : kernel) : kernel :=
  mk_kernel m (queues k) (rt_thread_ready_priority_group k) (rt_current_thread k)
    (rt_current_priority k) (rt_scheduler_lock_nest k) (rt_tick k) (k_timers k).
Definition set_queues (q : gmap qname (list Z)) (k : kernel) : kernel :=
  mk_kernel (threads k) q (rt_thread_ready_priority_group k) (rt_current_thread k)
    (rt_current_priority k) (rt_scheduler_lock_nest k) (rt_tick k) (k_timers k).
Definition set_group (g : Z) (k : kernel) : kernel :=
  mk_kernel (threads k) (queues k) g (rt_current_thread k)
    (rt_current_priority k) (rt_scheduler_lock_nest k) (rt_tick k) (k_timers k).
Definition set_current (c p : Z) (k : kernel) : kernel :=
  mk_kernel (threads k) (queues k) (rt_thread_ready_priority_group k) c
    p (rt_scheduler_lock_nest k) (rt_tick k) (k_timers k).
Definition set_lock (n : Z) (k : kernel) : kernel :=
  mk_kernel (threads k) (queues k) (rt_thread_ready_priority_group k) (rt_current_thread k)
    (rt_current_priority k) n (rt_tick k) (k_timers k).
Definition set_tick (n : Z) (k : kernel) : kernel :=
  mk_kernel (threads k) (queues k) (rt_thread_ready_priority_group k) (rt_current_thread k)
    (rt_current_priority k) (rt_scheduler_lock_nest k) n (k_timers k).
Definition set_timers (ts : timers) (k : kernel) : kernel :=
  mk_kernel (threads k) (queues k) (rt_thread_ready_priority_group k) (rt_current_thread k)
    (rt_current_priority k) (rt_scheduler_lock_nest k) (rt_tick k) ts.

(** Assignments to one field of a thread. *)
Definition upd_thread (t : Z) (f : rt_thread -> rt_thread) (k : kernel) : kernel :=
  set_threads (<[t := f (thr k t)]> (threads k)) k.
Definition with_error (e : Z) (th : rt_thread) : rt_thread :=
  mk_thread e (stat th) (current_priority th) (init_priority th) (number_mask th)
    (event_set th) (event_info th) (init_slice th) (remaining_tick th) (systemobject th).
Definition with_stat (s : Z) (th : rt_thread) : rt_thread :=
  mk_thread (error th) s (current_priority th) (init_priority th) (number_mask th)
    (event_set th) (event_info th) (init_slice th) (remaining_tick th) (systemobject th).
Definition with_priority (p : Z) (th : rt_thread) : rt_thread :=
  mk_thread (error th) (stat th) p (init_priority th) (u32 (1 ≪ p))
    (event_set th) (event_info th) (init_slice th) (remaining_tick th) (systemobject th).
Definition with_event (s i : Z) (th : rt_thread) : rt_thread :=
  mk_thread (error th) (stat th) (current_priority th) (init_priority th) (number_mask th)
    s i (init_slice th) (remaining_tick th) (systemobject th).
Definition with_remaining (r : Z) (th : rt_thread) : rt_thread :=
  mk_thread (error th) (stat th) (current_priority th) (init_priority th) (number_mask th)
    (event_set th) (event_info th) (init_slice th) r (systemobject th).

Definition set_error (t e : Z) (k : kernel) : kernel := upd_thread t (with_error e) k.

(** [stat & RT_THREAD_STAT_MASK], and replacing those bits. *)
Definition state_of (th : rt_thread) : Z := stat th .& RT_THREAD_STAT_MASK.
Definition to_state (s : Z) (th : rt_thread) : rt_thread :=
  with_stat (s .| Z.ldiff (stat th) RT_THREAD_STAT_MASK) th.

(** List nodes. *)
Definition rt_list_remove (t : Z) (k : kernel) : kernel :=
  set_queues (filter (fun x => x <> t) <$> queues k) k.
Definition rt_list_insert_before (h : qname) (t : Z) (k : kernel) : kernel :=
  set_queues (<[h := queue k h ++ [t]]> (queues k)) k.
Definition rt_list_insert_after (h : qname) (t : Z) (k : kernel) : kernel :=
  set_queues (<[h := t :: queue k h]> (queues k)) k.

(** ** [scheduler.c] *)

(** The entry at the head of the list of the lowest set bit, and its priority. *)
Definition _get_highest_priority_thread (k : kernel) : Z * Z :=
  let highest := __rt_ffs (rt_thread_ready_priority_group k) - 1 in
  (hd RT_NULL (queue k (Ready highest)), highest).

Definition rt_system_scheduler_init (k : kernel) : kernel :=
  set_group 0 (set_lock 0 (set_queues
    (foldr (fun p q => <[Ready (Z.of_nat p) := []]> q) (queues k) (seq 0 32)) k)).

Definition rt_schedule_insert_thread (t : Z) (k : kernel) : kernel :=
  if t =? rt_current_thread k then upd_thread t (to_state RT_THREAD_RUNNING) k
  else
    let k := upd_thread t (to_state RT_THREAD_READY) k in
    let k := rt_list_insert_before (Ready (current_priority (thr k t))) t k in
    set_group (rt_thread_ready_priority_group k .| number_mask (thr k t)) k.

Definition rt_schedule_remove_thread (t : Z) (k : kernel) : kernel :=
  let k := rt_list_remove t k in
  if decide (queue k (Ready (current_priority (thr k t))) = [])
  then set_group (Z.ldiff (rt_thread_ready_priority_group k) (number_mask (thr k t))) k
  else k.

Definition rt_system_scheduler_start (k : kernel) : kernel :=
  let '(to_thread, _) := _get_highest_priority_thread k in
  let k := set_current to_thread (rt_current_priority k) k in
  let k := rt_schedule_remove_thread to_thread k in
  upd_thread to_thread (with_stat RT_THREAD_RUNNING) k.

Definition rt_schedule (k : kernel) : kernel :=
  if rt_scheduler_lock_nest k =? 0 then
    if negb (rt_thread_ready_priority_group k =? 0) then
      let '(highest_thread, highest) := _get_highest_priority_thread k in
      let cur := rt_current_thread k in
      let running := state_of (thr k cur) =? RT_THREAD_RUNNING in
      let cur_prio := current_priority (thr k cur) in
      let yields := negb (stat (thr k cur) .& RT_THREAD_STAT_YIELD =? 0) in
      let stays := running && ((cur_prio <? highest) || ((cur_prio =? highest) && negb yields)) in
      let to_thread := if stays then cur else highest_thread in
      let need_insert_from_thread := running && negb stays in
      let k := if running
               then upd_thread cur (fun th => with_stat (Z.ldiff (stat th) RT_THREAD_STAT_YIELD) th) k
               else k in
      if negb (to_thread =? cur) then
        let k := set_current to_thread (u8 highest) k in
        let k := if need_insert_from_thread then rt_schedule_insert_thread cur k else k in
        let k := rt_schedule_remove_thread to_thread k in
        upd_thread to_thread (to_state RT_THREAD_RUNNING) k
      else
        let k := rt_schedule_remove_thread cur k in
        upd_thread cur (to_state RT_THREAD_RUNNING) k
    else k
  else k.

(** The nest counter is an [rt_int16_t]. *)
Definition rt_enter_critical (k : kernel) : kernel :=
  set_lock (s16 (rt_scheduler_lock_nest k + 1)) k.

Definition rt_exit_critical (k : kernel) : kernel :=
  let k := set_lock (s16 (rt_scheduler_lock_nest k - 1)) k in
  if rt_scheduler_lock_nest k <=? 0 then
    let k := set_lock 0 k in
    if negb (rt_current_thread k =? RT_NULL) then rt_schedule k else k
  else k.

Definition rt_critical_level (k : kernel) : Z := u16 (rt_scheduler_lock_nest k).

(** ** Thread timers *)

Definition timer_op (f : timers -> timers) (k : kernel) : kernel := set_timers (f (k_timers k)) k.

(** [rt_timer_control(&thread->thread_timer, SET_TIME, &time)] and
    [rt_timer_start]: the two calls every timed wait makes. *)
Definition start_thread_timer (t time : Z) (k : kernel) : kernel :=
  let k := timer_op (fun ts => (rt_timer_control t (RT_TIMER_CTRL_SET_TIME time) ts).1.1) k in
  timer_op (fun ts => fst (rt_timer_start (rt_tick k) t ts)) k.

(** ** [thread.c] *)

(** [_rt_thread_init] on a fresh object; entry, stack and name do not appear
    in the model. *)
Definition _rt_thread_init (t : Z) (static : bool) (priority tick : Z) (k : kernel) : kernel :=
  let th := mk_thread RT_EOK RT_THREAD_INIT priority priority 0 0 0 tick tick static in
  let k := rt_list_remove t (set_threads (<[t := th]> (threads k)) k) in
  timer_op (rt_timer_init t 0 false) k.

Definition rt_thread_init (t priority tick : Z) (k : kernel) : kernel * Z :=
  (_rt_thread_init t true priority tick k, RT_EOK).

Definition rt_thread_self (k : kernel) : Z := rt_current_thread k.

Definition rt_thread_suspend (t : Z) (k : kernel) : kernel * Z :=
  let st := state_of (thr k t) in
  if negb (st =? RT_THREAD_READY) && negb (st =? RT_THREAD_RUNNING) then (k, - RT_ERROR)
  else
    let k := rt_schedule_remove_thread t k in
    let k := upd_thread t (to_state RT_THREAD_SUSPEND) k in
    let k := timer_op (fun ts => fst (rt_timer_stop t ts)) k in
    (k, RT_EOK).

Definition rt_thread_resume (t : Z) (k : kernel) : kernel * Z :=
  if negb (state_of (thr k t) =? RT_THREAD_SUSPEND) then (k, - RT_ERROR)
  else
    let k := rt_list_remove t k in
    let k := timer_op (fun ts => fst (rt_timer_stop t ts)) k in
    (rt_schedule_insert_thread t k, RT_EOK).

Definition rt_thread_startup (t : Z) (k : kernel) : kernel * Z :=
  let k := upd_thread t (fun th => with_priority (init_priority th) th) k in
  let k := upd_thread t (with_stat RT_THREAD_SUSPEND) k in
  let k := fst (rt_thread_resume t k) in
  let k := if negb (rt_thread_self k =? RT_NULL) then rt_schedule k else k in
  (k, RT_EOK).

(** Detaching a static thread or queueing a dynamic one for the idle thread. *)
Definition thread_retire (t : Z) (k : kernel) : kernel :=
  if systemobject (thr k t) then k else rt_list_insert_after Defunct t k.

Definition _rt_thread_exit (k : kernel) : kernel :=
  let t := rt_thread_self k in
  let k := rt_schedule_remove_thread t k in
  let k := upd_thread t (with_stat RT_THREAD_CLOSE) k in
  let k := timer_op (fun ts => fst (rt_timer_detach t ts)) k in
  rt_schedule (thread_retire t k).

Definition rt_thread_detach (t : Z) (k : kernel) : kernel * Z :=
  if state_of (thr k t) =? RT_THREAD_CLOSE then (k, RT_EOK)
  else
    let k := if negb (state_of (thr k t) =? RT_THREAD_INIT)
             then rt_schedule_remove_thread t k else k in
    let k := timer_op (fun ts => fst (rt_timer_detach t ts)) k in
    let k := upd_thread t (with_stat RT_THREAD_CLOSE) k in
    (thread_retire t k, RT_EOK).

(** [rt_thread_create]: the object allocator answers an identifier or
    nothing, the heap whether the stack was allocated. *)
Definition rt_thread_create (alloc : option Z) (stack_ok : bool) (priority tick : Z) (k : kernel)
    : kernel * Z :=
  match alloc with
  | None => (k, RT_NULL)
  | Some t =>
      if stack_ok then (_rt_thread_init t false priority tick k, t) else (k, RT_NULL)
  end.

Definition rt_thread_delete (t : Z) (k : kernel) : kernel * Z :=
  if state_of (thr k t) =? RT_THREAD_CLOSE then (k, RT_EOK)
  else
    let k := if negb (state_of (thr k t) =? RT_THREAD_INIT)
             then rt_schedule_remove_thread t k else k in
    let k := timer_op (fun ts => fst (rt_timer_detach t ts)) k in
    let k := upd_thread t (with_stat RT_THREAD_CLOSE) k in
    (rt_list_insert_after Defunct t k, RT_EOK).

Definition rt_thread_yield (k : kernel) : kernel * Z :=
  let t := rt_thread_self k in
  let k := upd_thread t (fun th => with_remaining (init_slice th) th) k in
  let k := upd_thread t (fun th => with_stat (stat th .| RT_THREAD_STAT_YIELD) th) k in
  (rt_schedule k, RT_EOK).

(** Up to the call of [rt_schedule], and what runs when the thread is current
    again. *)
Definition rt_thread_sleep (tick : Z) (k : kernel) : kernel :=
  let t := rt_thread_self k in
  let k := fst (rt_thread_suspend t k) in
  rt_schedule (start_thread_timer t tick k).

Definition rt_thread_sleep_end (t : Z) (k : kernel) : kernel * Z :=
  let k := if error (thr k t) =? - RT_ETIMEOUT then set_error t RT_EOK k else k in
  (k, RT_EOK).

Definition rt_thread_delay (tick : Z) (k : kernel) : kernel := rt_thread_sleep tick k.

(** The new value of [*tick], and whether the thread slept. *)
Definition rt_thread_delay_until (tick inc_tick : Z) (k : kernel) : kernel * Z * bool :=
  let t := rt_thread_self k in
  let cur_tick := rt_tick k in
  if u32 (cur_tick - tick) <? inc_tick then
    let tick := u32 (tick + inc_tick) in
    let left_tick := u32 (tick - cur_tick) in
    let k := fst (rt_thread_suspend t k) in
    (rt_schedule (start_thread_timer t left_tick k), tick, true)
  else (k, cur_tick, false).

(** [clock.c]; nothing calls [rt_tick_set]. *)
Definition rt_tick_get (k : kernel) : Z := rt_tick k.
Definition rt_tick_set (tick : Z) (k : kernel) : kernel := set_tick (u32 tick) k.
Definition rt_tick_get_millisecond (k : kernel) : Z := u32 (rt_tick_get k * (1000 / RT_TICK_PER_SECOND)).
Definition rt_tick_from_millisecond (ms : Z) : Z :=
  if ms <? 0 then u32 (-1)
  else u32 (u32 (RT_TICK_PER_SECOND * Z.quot ms 1000) +
            Z.quot (RT_TICK_PER_SECOND * Z.rem ms 1000 + 999) 1000).

Definition rt_thread_mdelay (ms : Z) (k : kernel) : kernel :=
  rt_thread_sleep (rt_tick_from_millisecond ms) k.

Inductive thread_cmd :=
  | RT_THREAD_CTRL_CHANGE_PRIORITY (priority : Z)
  | RT_THREAD_CTRL_STARTUP | RT_THREAD_CTRL_CLOSE | RT_THREAD_CTRL_OTHER.

Definition change_priority (t priority : Z) (k : kernel) : kernel :=
  if state_of (thr k t) =? RT_THREAD_READY then
    let k := rt_schedule_remove_thread t k in
    let k := upd_thread t (with_priority priority) k in
    rt_schedule_insert_thread t k
  else upd_thread t (with_priority priority) k.

Definition rt_thread_control (t : Z) (cmd : thread_cmd) (k : kernel) : kernel * Z :=
  match cmd with
  | RT_THREAD_CTRL_CHANGE_PRIORITY priority => (change_priority t priority k, RT_EOK)
  | RT_THREAD_CTRL_STARTUP => rt_thread_startup t k
  | RT_THREAD_CTRL_CLOSE =>
      let '(k, rt_err) :=
        if systemobject (thr k t) then rt_thread_detach t k else rt_thread_delete t k in
      (rt_schedule k, rt_err)
  | RT_THREAD_CTRL_OTHER => (k, RT_EOK)
  end.

Definition rt_thread_timeout (t : Z) (k : kernel) : kernel :=
  let k := set_error t (- RT_ETIMEOUT) k in
  let k := rt_list_remove t k in
  rt_schedule (rt_schedule_insert_thread t k).

(** [rt_thread_defunct_dequeue]. *)
Definition rt_thread_defunct_dequeue (k : kernel) : kernel * Z :=
  match queue k Defunct with
  | [] => (k, RT_NULL)
  | t :: _ => (rt_list_remove t k, t)
  end.

(** ** The tick *)

(** [rt_timer_check]: every timer is a thread's, its [timeout_func] is
    [rt_thread_timeout].  [None] when the fuel is out. *)
Fixpoint rt_timer_check (fuel : nat) (k : kernel) : option kernel :=
  match rt_timer_list (k_timers k) with
  | [] => Some k
  | t :: _ =>
      if expired (rt_tick k) (tmr (k_timers k) t) then
        match fuel with
        | O => None
        | S fuel =>
            let k := timer_op (_rt_timer_remove t) k in
            let k := if periodic (tmr (k_timers k) t) then k
                     else timer_op (set_activated false t) k in
            let k := timer_op (fun ts => mk_timers (tab ts) (rt_timer_list ts) [t]) k in
            let k := rt_thread_timeout t k in
            if decide (firing (k_timers k) = []) then rt_timer_check fuel k
            else
              let k := timer_op (_rt_timer_remove t) k in
              if periodic (tmr (k_timers k) t) && activated (tmr (k_timers k) t) then
                let k := timer_op (set_activated false t) k in
                rt_timer_check fuel (timer_op (fun ts => fst (rt_timer_start (rt_tick k) t ts)) k)
              else rt_timer_check fuel k
        end
      else Some k
  end.

Definition rt_tick_increase (fuel : nat) (k : kernel) : option kernel :=
  let k := set_tick (u32 (rt_tick k + 1)) k in
  let t := rt_thread_self k in
  let k := upd_thread t (fun th => with_remaining (u32 (remaining_tick th - 1)) th) k in
  let k :=
    if remaining_tick (thr k t) =? 0 then
      let k := upd_thread t (fun th => with_remaining (init_slice th) th) k in
      let k := upd_thread t (fun th => with_stat (stat th .| RT_THREAD_STAT_YIELD) th) k in
      rt_schedule k
    else k in
  rt_timer_check fuel k.
