(* ===== verification/KernelInv.v ===== *)
(** * KernelInv: the invariant of the scheduler

    The ready bitmap mirrors the ready lists, a thread is in at most one list
    and its state says which kind, and the functions of [scheduler.c] and
    [thread.c] keep it so. *)
From S2P Require Import Prelude Timer Kernel.
From Stdlib Require Import Sorted.

(** ** [__rt_ffs] finds the lowest set bit *)

Definition byte_at (v s : Z) : Z := (v .& (255 ≪ s)) ≫ s.

Lemma byte_at_testbit v s i : 0 <= s -> 0 <= i ->
  Z.testbit (byte_at v s) i = Z.testbit v (i + s) && (i <? 8).
Proof.
  intros Hs Hi. unfold byte_at. rewrite Z.shiftr_spec, Z.land_spec, Z.shiftl_spec by lia.
  f_equal. change 255 with (Z.ones 8). replace (i + s - s) with i by lia.
  rewrite Z.testbit_ones_nonneg by lia. done.
Qed.

Lemma byte_at_range v s : 0 <= s -> 0 <= byte_at v s < 256.
Proof.
  intros Hs. unfold byte_at. rewrite Z.shiftr_land, Z.shiftr_shiftl_l by lia.
  rewrite Z.sub_diag. change (255 ≪ 0) with (Z.ones 8). rewrite Z.land_ones by lia.
  change (2 ^ 8) with 256. apply Z.mod_pos_bound. lia.
Qed.

Lemma byte_at_zero v s : 0 <= s -> (v .& (255 ≪ s) =? 0) = (byte_at v s =? 0).
Proof.
  intros Hs. unfold byte_at. destruct (Z.eqb_spec (v .& (255 ≪ s)) 0) as [->|Hne].
  - by rewrite Z.shiftr_0_l.
  - symmetry. apply Z.eqb_neq. intros H0. apply Hne. apply Z.bits_inj'. intros n Hn.
    rewrite Z.bits_0. destruct (Z.lt_ge_cases n s).
    + rewrite Z.land_spec, Z.shiftl_spec_low by lia. by rewrite andb_false_r.
    + replace n with ((n - s) + s) by lia. rewrite <- Z.shiftr_spec by lia.
      by rewrite H0, Z.bits_0.
Qed.

(** Every entry of the table, checked. *)
Definition lowest_bit_ok (b : Z) : bool :=
  (0 <=? lowest_bit b) && (lowest_bit b <? 8) && Z.testbit b (lowest_bit b) &&
  forallb (fun i => negb (Z.testbit b i)) (seqZ 0 (lowest_bit b)).

Lemma lowest_bit_correct b : 0 < b < 256 ->
  0 <= lowest_bit b < 8 /\ Z.testbit b (lowest_bit b) = true /\
  (forall i, 0 <= i < lowest_bit b -> Z.testbit b i = false).
Proof.
  intros Hb. assert (forallb lowest_bit_ok (seqZ 1 255) = true) as Hall by (by vm_compute).
  apply forallb_Forall in Hall. rewrite Forall_forall in Hall.
  specialize (Hall b ltac:(apply elem_of_seqZ; lia)). apply Is_true_true in Hall.
  unfold lowest_bit_ok in Hall. rewrite !andb_true_iff in Hall.
  destruct Hall as [[[H1 H2] H3] H4]. split; [lia|]. split; [done|]. intros i Hi.
  apply forallb_Forall in H4. rewrite Forall_forall in H4.
  specialize (H4 i ltac:(apply elem_of_seqZ; lia)). by apply Is_true_true, negb_true_iff in H4.
Qed.

(** One branch of [__rt_ffs]: byte [s/8] is the first that is not zero. *)
Lemma ffs_byte v s : 0 <= s -> byte_at v s <> 0 ->
  (forall i, 0 <= i < s -> Z.testbit v i = false) ->
  let p := lowest_bit (byte_at v s) + s in
  s <= p < s + 8 /\ Z.testbit v p = true /\ (forall i, 0 <= i < p -> Z.testbit v i = false).
Proof.
  intros Hs Hne Hlow. pose proof (byte_at_range v s Hs).
  destruct (lowest_bit_correct (byte_at v s)) as (Hr & Hb & Hz); [lia|].
  rewrite byte_at_testbit in Hb by lia. apply andb_true_iff in Hb as [Hb _].
  cbn zeta. split; [lia|]. split; [done|]. intros i Hi.
  destruct (Z.lt_ge_cases i s); [apply Hlow; lia|].
  pose proof (Hz (i - s) ltac:(lia)) as Hzi. rewrite byte_at_testbit in Hzi by lia.
  replace (i - s + s) with i in Hzi by lia. rewrite (proj2 (Z.ltb_lt (i - s) 8)) in Hzi by lia.
  by rewrite andb_true_r in Hzi.
Qed.

Lemma byte_zero_bits v s i : 0 <= s -> byte_at v s = 0 -> s <= i < s + 8 -> Z.testbit v i = false.
Proof.
  intros Hs H0 Hi. pose proof (byte_at_testbit v s (i - s) Hs ltac:(lia)) as H.
  rewrite H0, Z.bits_0 in H. replace (i - s + s) with i in H by lia.
  rewrite (proj2 (Z.ltb_lt (i - s) 8)) in H by lia. by rewrite andb_true_r in H.
Qed.

Lemma rt_ffs_correct v : 0 < v < 4294967296 ->
  let p := __rt_ffs v - 1 in
  0 <= p < 32 /\ Z.testbit v p = true /\ (forall i, 0 <= i < p -> Z.testbit v i = false).
Proof.
  intros Hv. unfold __rt_ffs. rewrite (proj2 (Z.eqb_neq v 0)) by lia.
  change (v .& 0xff00) with (v .& (255 ≪ 8)). change (v .& 0xff0000) with (v .& (255 ≪ 16)).
  change (v .& 0xff000000) with (v .& (255 ≪ 24)). change (v .& 0xff) with (v .& (255 ≪ 0)).
  rewrite !byte_at_zero by lia.
  assert (v .& (255 ≪ 0) = byte_at v 0) as -> by (unfold byte_at; by rewrite Z.shiftr_0_r).
  fold (byte_at v 8) (byte_at v 16) (byte_at v 24).
  assert (forall i, 0 <= i < 0 -> Z.testbit v i = false) as L0 by lia.
  destruct (Z.eqb_spec (byte_at v 0) 0) as [E0|E0]; cbn [negb].
  2:{ pose proof (ffs_byte v 0 ltac:(lia) E0 L0) as H. cbn zeta in H |- *.
      replace (_ + 1 - 1) with (lowest_bit (byte_at v 0) + 0) by lia. split; [lia|apply H]. }
  assert (forall i, 0 <= i < 8 -> Z.testbit v i = false) as L1
    by (intros i Hi; apply (byte_zero_bits v 0); lia || done).
  destruct (Z.eqb_spec (byte_at v 8) 0) as [E1|E1]; cbn [negb].
  2:{ pose proof (ffs_byte v 8 ltac:(lia) E1 L1) as H. cbn zeta in H |- *.
      replace (_ + 9 - 1) with (lowest_bit (byte_at v 8) + 8) by lia. split; [lia|apply H]. }
  assert (forall i, 0 <= i < 16 -> Z.testbit v i = false) as L2.
  { intros i Hi. destruct (Z.lt_ge_cases i 8); [apply L1; lia|]. apply (byte_zero_bits v 8); lia || done. }
  destruct (Z.eqb_spec (byte_at v 16) 0) as [E2|E2]; cbn [negb].
  2:{ pose proof (ffs_byte v 16 ltac:(lia) E2 L2) as H. cbn zeta in H |- *.
      replace (_ + 17 - 1) with (lowest_bit (byte_at v 16) + 16) by lia. split; [lia|apply H]. }
  assert (forall i, 0 <= i < 24 -> Z.testbit v i = false) as L3.
  { intros i Hi. destruct (Z.lt_ge_cases i 16); [apply L2; lia|]. apply (byte_zero_bits v 16); lia || done. }
  assert (byte_at v 24 <> 0) as E3.
  { intros E3. assert (v = 0); [|lia]. apply Z.bits_inj'. intros n Hn. rewrite Z.bits_0.
    destruct (Z.lt_ge_cases n 24); [apply L3; lia|].
    destruct (Z.lt_ge_cases n 32); [apply (byte_zero_bits v 24); lia || done|].
    apply Z.bits_above_log2; [lia|]. apply Z.log2_lt_pow2; [lia|].
    apply Z.lt_le_trans with (2 ^ 32); [lia|]. apply Z.pow_le_mono_r; lia. }
  pose proof (ffs_byte v 24 ltac:(lia) E3 L3) as H. cbn zeta in H |- *.
  replace (_ + 25 - 1) with (lowest_bit (byte_at v 24) + 24) by lia. split; [lia|apply H].
Qed.

(** ** Fields after each elementary step *)

Lemma thr_upd t f k x : thr (upd_thread t f k) x = if decide (t = x) then f (thr k t) else thr k x.
Proof.
  unfold upd_thread, thr. cbn. destruct (decide (t = x)) as [->|].
  - by rewrite lookup_total_insert_eq.
  - by rewrite lookup_total_insert_ne.
Qed.

Lemma thr_upd_same t f k : thr (upd_thread t f k) t = f (thr k t).
Proof. by rewrite thr_upd, decide_True. Qed.

Lemma thr_upd_other t f k x : t <> x -> thr (upd_thread t f k) x = thr k x.
Proof. intros. by rewrite thr_upd, decide_False. Qed.

Lemma queue_upd t f k h : queue (upd_thread t f k) h = queue k h.
Proof. done. Qed.

Lemma queue_remove t k h : queue (rt_list_remove t k) h = filter (fun x => x <> t) (queue k h).
Proof.
  unfold queue, rt_list_remove. cbn. rewrite lookup_fmap. by destruct (queues k !! h).
Qed.

Lemma queue_append h t k h' :
  queue (rt_list_insert_before h t k) h' = if decide (h = h') then queue k h ++ [t] else queue k h'.
Proof.
  unfold queue, rt_list_insert_before. cbn. destruct (decide (h = h')) as [->|].
  - by rewrite lookup_insert_eq.
  - by rewrite lookup_insert_ne.
Qed.

Lemma queue_push h t k h' :
  queue (rt_list_insert_after h t k) h' = if decide (h = h') then t :: queue k h else queue k h'.
Proof.
  unfold queue, rt_list_insert_after. cbn. destruct (decide (h = h')) as [->|].
  - by rewrite lookup_insert_eq.
  - by rewrite lookup_insert_ne.
Qed.

Definition known (k : kernel) (t : Z) : Prop := is_Some (threads k !! t).

Lemma known_upd t f k x : known (upd_thread t f k) x <-> t = x \/ known k x.
Proof.
  unfold known, upd_thread. cbn. destruct (decide (t = x)) as [->|Hne].
  - rewrite lookup_insert_eq. split; [by left|by eexists].
  - rewrite lookup_insert_ne by done. split; [by right|by intros [?|?]].
Qed.

Lemma filter_all {A} (P : A -> Prop) `{!forall x, Decision (P x)} (l : list A) :
  Forall P l -> filter P l = l.
Proof.
  induction 1 as [|x l Hx Hl IH]; [done|]. rewrite filter_cons, decide_True by done. by rewrite IH.
Qed.

Lemma unknown_upd t f k x : known k t -> ~ known k x -> ~ known (upd_thread t f k) x.
Proof. intros Ht Hx [->|H]%known_upd; done. Qed.

(** The state bits. *)
Lemma state_of_to_state s th : 0 <= s < 8 -> state_of (to_state s th) = s.
Proof.
  intros Hs. unfold state_of, to_state, with_stat. cbn [stat].
  apply Z.bits_inj'. intros n Hn. unfold RT_THREAD_STAT_MASK. change 7 with (Z.ones 3).
  rewrite Z.land_spec, Z.lor_spec, Z.ldiff_spec, Z.testbit_ones_nonneg by lia.
  destruct (Z.ltb_spec n 3).
  - cbn. by rewrite andb_true_r, andb_false_r, orb_false_r.
  - cbn. rewrite andb_false_r. destruct (decide (s = 0)) as [->|]; [by rewrite Z.bits_0|].
    symmetry. apply Z.bits_above_log2; [lia|]. apply Z.log2_lt_pow2; [lia|].
    apply Z.lt_le_trans with (2 ^ 3); [lia|]. apply Z.pow_le_mono_r; lia.
Qed.

Lemma state_of_with_stat s th : 0 <= s < 8 -> state_of (with_stat s th) = s.
Proof.
  intros Hs. unfold state_of, with_stat, RT_THREAD_STAT_MASK. cbn [stat].
  change 7 with (Z.ones 3). rewrite Z.land_ones by lia. apply Z.mod_small. lia.
Qed.

Lemma state_of_yield_off th :
  state_of (with_stat (Z.ldiff (stat th) RT_THREAD_STAT_YIELD) th) = state_of th.
Proof.
  unfold state_of, with_stat. cbn [stat]. apply Z.bits_inj'. intros n Hn.
  unfold RT_THREAD_STAT_MASK, RT_THREAD_STAT_YIELD. change 7 with (Z.ones 3). change 8 with (2 ^ 3).
  rewrite !Z.land_spec, Z.ldiff_spec, Z.testbit_ones_nonneg by lia.
  destruct (Z.ltb_spec n 3); [|by rewrite !andb_false_r].
  rewrite Z.pow2_bits_false by lia. by rewrite andb_true_r.
Qed.

Lemma state_of_yield_on th :
  state_of (with_stat (stat th .| RT_THREAD_STAT_YIELD) th) = state_of th.
Proof.
  unfold state_of, with_stat. cbn [stat]. apply Z.bits_inj'. intros n Hn.
  unfold RT_THREAD_STAT_MASK, RT_THREAD_STAT_YIELD. change 7 with (Z.ones 3). change 8 with (2 ^ 3).
  rewrite !Z.land_spec, Z.lor_spec, Z.testbit_ones_nonneg by lia.
  destruct (Z.ltb_spec n 3); [|by rewrite !andb_false_r].
  rewrite Z.pow2_bits_false by lia. by rewrite orb_false_r.
Qed.

(** ** The invariant *)

(** A started thread that has not ended: its priority mask is set. *)
Abbreviation live s := (s <> RT_THREAD_INIT /\ s <> RT_THREAD_CLOSE).

(** The list a thread's state allows it to be in. *)
Definition listed (th : rt_thread) (h : qname) : Prop :=
  match h with
  | Ready p => state_of th = RT_THREAD_READY /\ current_priority th = p
  | Suspended _ | Senders _ => state_of th = RT_THREAD_SUSPEND
  | Defunct => state_of th = RT_THREAD_CLOSE
  end.

(** [but x k]: the invariant for every thread except [x], which is in no list.
    The functions below take a thread out, change it and put it back. *)
Record but (x : Z) (k : kernel) : Prop := {
  bt_prio : forall t, known k t -> t <> x ->
    0 <= current_priority (thr k t) < 32 /\ 0 <= init_priority (thr k t) < 32;
  bt_mask : forall t, known k t -> t <> x -> live (state_of (thr k t)) ->
    number_mask (thr k t) = 2 ^ current_priority (thr k t);
  bt_in : forall t h, t ∈ queue k h -> known k t /\ t <> x /\ listed (thr k t) h;
  bt_ready : forall t, known k t -> t <> x -> state_of (thr k t) = RT_THREAD_READY ->
    t ∈ queue k (Ready (current_priority (thr k t)));
  bt_running : forall t, known k t -> t <> x -> state_of (thr k t) = RT_THREAD_RUNNING ->
    t = rt_current_thread k;
  bt_nodup : forall h, NoDup (queue k h);
  bt_one : forall t h1 h2, t ∈ queue k h1 -> t ∈ queue k h2 -> h1 = h2;
  bt_group : forall p, 0 <= p < 32 ->
    Z.testbit (rt_thread_ready_priority_group k) p = true <-> queue k (Ready p) <> [];
  bt_group_range : 0 <= rt_thread_ready_priority_group k < 4294967296;
  bt_null : ~ known k RT_NULL }.

(** Nothing is detached: no thread is called [-1]. *)
Definition NOBODY : Z := -1.
Definition core (k : kernel) : Prop := but NOBODY k /\ ~ known k NOBODY.
Definition kernel_ok (k : kernel) : Prop :=
  core k /\ state_of (thr k (rt_current_thread k)) <> RT_THREAD_READY.

Lemma elem_of_remove t x (l : list Z) : x ∈ filter (fun y => y <> t) l <-> x <> t /\ x ∈ l.
Proof. rewrite list_elem_of_filter. done. Qed.

(** Taking a thread out of its list, when that list is not a ready list. *)
Lemma but_remove k t : core k -> known k t -> state_of (thr k t) <> RT_THREAD_READY ->
  but t (rt_list_remove t k).
Proof.
  intros [[Hp Hm Hin Hr Hrun Hnd Hone Hg Hgr Hnull] Hno] Ht Hst.
  assert (NOBODY <> t) as Hnt by (intros <-; done).
  split; try done.
  - intros x Hx Hxt. apply Hp; [done|]. intros ->; done.
  - intros x Hx Hxt. apply Hm; [done|]. intros ->; done.
  - intros x h. rewrite queue_remove, elem_of_remove. intros [Hxt Hx].
    destruct (Hin x h Hx) as (? & ? & ?). done.
  - intros x Hx Hxt Hs. rewrite queue_remove, elem_of_remove. split; [done|].
    apply Hr; [done| |done]. intros ->; done.
  - intros x Hx Hxt. apply Hrun; [done|]. intros ->; done.
  - intros h. rewrite queue_remove. by apply NoDup_filter.
  - intros x h1 h2. rewrite !queue_remove, !elem_of_remove. intros [_ ?] [_ ?]. by apply (Hone x).
  - intros p Hpr. rewrite queue_remove. change (rt_thread_ready_priority_group (rt_list_remove t k))
      with (rt_thread_ready_priority_group k). rewrite Hg by done.
    assert (filter (fun y => y <> t) (queue k (Ready p)) = queue k (Ready p)) as ->; [|done].
    apply filter_all, Forall_forall. intros y Hy ->.
    by destruct (Hin t (Ready p) Hy) as (_ & _ & ? & _).
Qed.

(** Taking any started thread out of its list the way the scheduler does. *)
Lemma but_schedule_remove k t : core k -> known k t -> live (state_of (thr k t)) ->
  but t (rt_schedule_remove_thread t k).
Proof.
  intros [[Hp Hm Hin Hr Hrun Hnd Hone Hg Hgr Hnull] Hno] Ht Hst.
  assert (NOBODY <> t) as Hnt by (intros <-; done).
  assert (forall x, known k x -> x <> NOBODY) as Hk by (intros x Hx ->; done).
  set (p0 := current_priority (thr k t)).
  pose proof (Hp t Ht (Hk t Ht)) as [Hp0 _]. fold p0 in Hp0.
  pose proof (Hm t Ht (Hk t Ht) Hst) as Hmask. fold p0 in Hmask.
  assert (forall p, p <> p0 -> filter (fun y => y <> t) (queue k (Ready p)) = queue k (Ready p)) as Hoth.
  { intros p Hne. apply filter_all, Forall_forall. intros y Hy ->.
    destruct (Hin t (Ready p) Hy) as (_ & _ & _ & <-). done. }
  unfold rt_schedule_remove_thread.
  change (thr (rt_list_remove t k) t) with (thr k t). fold p0. rewrite queue_remove.
  set (g := rt_thread_ready_priority_group k) in *.
  set (k1 := rt_list_remove t k).
  assert (forall g', 
    (forall p, 0 <= p < 32 -> Z.testbit g' p = true <-> queue k1 (Ready p) <> []) ->
    0 <= g' < 4294967296 -> but t (set_group g' k1)) as Hbut.
  { intros g' Hg' Hr'. split; try done.
    - intros x Hx Hxt. apply Hp; [done|by apply Hk].
    - intros x Hx Hxt. apply Hm; [done|by apply Hk].
    - intros x h. change (queue (set_group g' k1) h) with (queue (rt_list_remove t k) h).
      rewrite queue_remove, elem_of_remove. intros [Hxt Hx].
      destruct (Hin x h Hx) as (? & ? & ?). done.
    - intros x Hx Hxt Hs. change (queue (set_group g' k1) ?h) with (queue (rt_list_remove t k) h).
      rewrite queue_remove, elem_of_remove. split; [done|]. apply Hr; [done|by apply Hk|done].
    - intros x Hx Hxt. apply Hrun; [done|by apply Hk].
    - intros h. change (queue (set_group g' k1) h) with (queue (rt_list_remove t k) h).
      rewrite queue_remove. by apply NoDup_filter.
    - intros x h1 h2. change (queue (set_group g' k1)) with (queue (rt_list_remove t k)).
      rewrite !queue_remove, !elem_of_remove. intros [_ ?] [_ ?]. by apply (Hone x). }
  case_decide as He.
  - change (set_group _ k1) with (set_group (Z.ldiff g (number_mask (thr k t))) k1).
    apply Hbut; rewrite Hmask.
    + intros p Hpr. unfold k1. rewrite queue_remove, Z.ldiff_spec.
      destruct (decide (p = p0)) as [->|Hne].
      * rewrite He, Z.pow2_bits_true by lia. by rewrite andb_false_r.
      * rewrite Hoth, Z.pow2_bits_false, andb_true_r by (lia || done). by apply Hg.
    + apply (bits_bound _ 32); [lia|]. intros n Hn. rewrite Z.ldiff_spec.
      by rewrite (bits_above g 32) by lia.
  - replace k1 with (set_group g k1) by done.
    apply Hbut; [|done]. intros p Hpr. unfold k1. rewrite queue_remove.
    destruct (decide (p = p0)) as [->|Hne].
    + split; [done|]. intros _. apply Hg; [done|]. intros E. by rewrite E in He.
    + rewrite Hoth by done. by apply Hg.
Qed.

(** Changing only the detached thread. *)
Lemma but_upd k t f : but t k -> known k t -> but t (upd_thread t f k).
Proof.
  intros [Hp Hm Hin Hr Hrun Hnd Hone Hg Hgr Hnull] Ht.
  assert (forall x, known (upd_thread t f k) x -> known k x) as Hk
    by (intros x [->|?]%known_upd; done).
  split; try done.
  - intros x Hx Hne. rewrite thr_upd_other by done. by apply Hp; [apply Hk|].
  - intros x Hx Hne. rewrite thr_upd_other by done. by apply Hm; [apply Hk|].
  - intros x h Hx. destruct (Hin x h Hx) as (? & ? & ?). rewrite thr_upd_other by done.
    split; [|done]. apply known_upd. by right.
  - intros x Hx Hne. rewrite thr_upd_other by done. by apply Hr; [apply Hk|].
  - intros x Hx Hne. rewrite thr_upd_other by done. by apply Hrun; [apply Hk|].
  - by intros ?%Hk.
Qed.

(** Timers and the tick do not matter to the scheduler. *)
Lemma but_timer_op t f k : but t k -> but t (timer_op f k).
Proof. intros [? ? ? ? ? ? ? ? ? ?]. by split. Qed.
Lemma core_timer_op f k : core k -> core (timer_op f k).
Proof. intros [? ?]. split; [by apply but_timer_op|done]. Qed.

(** The fields a started thread needs. *)
Definition thread_ok (th : rt_thread) : Prop :=
  0 <= current_priority th < 32 /\ 0 <= init_priority th < 32 /\
  (live (state_of th) -> number_mask th = 2 ^ current_priority th).

Lemma core_thread k t : core k -> known k t -> thread_ok (thr k t).
Proof.
  intros [Hb Hno] Ht. assert (t <> NOBODY) as Hne by (intros ->; done).
  destruct (bt_prio _ _ Hb t Ht Hne). split; [done|]. split; [done|]. by apply (bt_mask _ _ Hb).
Qed.

(** Leaving the detached thread out of every list is fine unless it is ready,
    or running without being current. *)
Lemma but_rest k t : but t k -> ~ known k NOBODY -> known k t -> thread_ok (thr k t) ->
  state_of (thr k t) <> RT_THREAD_READY ->
  (state_of (thr k t) = RT_THREAD_RUNNING -> t = rt_current_thread k) -> core k.
Proof.
  intros [Hp Hm Hin Hr Hrun Hnd Hone Hg Hgr Hnull] Hno Ht (Hp0 & Hi0 & Hm0) Hs Hru.
  split; [|done]. split; try done.
  - intros x Hx _. destruct (decide (x = t)) as [->|]; [done|by apply Hp].
  - intros x Hx _. destruct (decide (x = t)) as [->|]; [done|by apply Hm].
  - intros x h Hx. destruct (Hin x h Hx) as (? & ? & ?). split; [done|]. split; [|done].
    intros ->; done.
  - intros x Hx _. destruct (decide (x = t)) as [->|]; [done|by apply Hr].
  - intros x Hx _. destruct (decide (x = t)) as [->|]; [done|by apply Hrun].
Qed.

(** Putting the detached thread anywhere in a list its state allows. *)
Definition put_in (h : qname) (l : list Z) (k : kernel) : kernel :=
  set_queues (<[h := l]> (queues k)) k.

Lemma queue_put_in h l k h' : queue (put_in h l k) h' = if decide (h = h') then l else queue k h'.
Proof.
  unfold queue, put_in. cbn. destruct (decide (h = h')) as [->|].
  - by rewrite lookup_insert_eq.
  - by rewrite lookup_insert_ne.
Qed.

Lemma but_put k t h l1 l2 g : but t k -> ~ known k NOBODY -> known k t -> thread_ok (thr k t) ->
  queue k h = l1 ++ l2 ->
  listed (thr k t) h -> state_of (thr k t) <> RT_THREAD_RUNNING ->
  g = match h with Ready p => rt_thread_ready_priority_group k .| 2 ^ p
      | _ => rt_thread_ready_priority_group k end ->
  core (set_group g (put_in h (l1 ++ t :: l2) k)).
Proof.
  intros [Hp Hm Hin Hr Hrun Hnd Hone Hg Hgr Hnull] Hno Ht (Hp0 & Hi0 & Hm0) Eh Hl Hru Eg.
  set (k' := set_group g (put_in h (l1 ++ t :: l2) k)).
  assert (forall h', queue k' h' = if decide (h = h') then l1 ++ t :: l2 else queue k h') as Hq
    by (intros h'; apply queue_put_in).
  assert (forall h', t ∉ queue k h') as Hnot by (intros h' Hx; by destruct (Hin t h' Hx) as (_ & ? & _)).
  assert (forall x h', x ∈ queue k' h' <-> x ∈ queue k h' \/ (x = t /\ h' = h)) as Hel.
  { intros x h'. rewrite Hq. case_decide as Hh.
    - subst h'. rewrite Eh, !elem_of_app, elem_of_cons. tauto.
    - split; [by left|]. intros [?|[_ ->]]; done. }
  split; [|done]. split; try done.
  - intros x Hx _. destruct (decide (x = t)) as [->|]; [done|by apply Hp].
  - intros x Hx _. destruct (decide (x = t)) as [->|]; [done|by apply Hm].
  - intros x h'. rewrite Hel. intros [Hx|[-> ->]].
    + destruct (Hin x h' Hx) as (? & ? & ?). split; [done|]. split; [|done]. intros ->; done.
    + split; [done|]. split; [|done]. intros ->; done.
  - intros x Hx _ Hs. rewrite Hel. destruct (decide (x = t)) as [->|]; [|left; by apply Hr].
    right. split; [done|]. change (thr k' t) with (thr k t) in *.
    destruct h; cbn in Hl; [by destruct Hl as [_ ->]|..]; by rewrite Hs in Hl.
  - intros x Hx _. destruct (decide (x = t)) as [->|]; [done|by apply Hrun].
  - intros h'. rewrite Hq. case_decide; [|done].
    rewrite <- Permutation_middle. apply NoDup_cons. rewrite <- Eh. split; [apply Hnot|done].
  - intros x h1 h2. rewrite !Hel. intros [H1|[-> ->]] [H2|[E ->]]; subst.
    + by apply (Hone x).
    + by destruct (Hnot h1).
    + by destruct (Hnot h2).
    + done.
  - intros p Hpr. change (rt_thread_ready_priority_group k') with g. rewrite Hq, Eg.
    destruct h as [p'| | |]; try (rewrite decide_False by done; by apply Hg).
    cbn in Hl. destruct Hl as [_ <-]. rewrite Z.lor_spec.
    destruct (decide (current_priority (thr k t) = p)) as [->|Hne].
    + rewrite decide_True by done. rewrite Z.pow2_bits_true by lia. rewrite orb_true_r.
      split; [|done]. intros _ E. by apply app_eq_nil in E as [_ ?].
    + rewrite decide_False by congruence. rewrite Z.pow2_bits_false by done.
      rewrite orb_false_r. by apply Hg.
  - change (rt_thread_ready_priority_group k') with g. rewrite Eg.
    destruct h as [p'| | |]; try done. cbn in Hl. destruct Hl as [_ <-].
    apply (bits_bound _ 32); [lia|]. intros n Hn. rewrite Z.lor_spec.
    rewrite (bits_above _ 32) by lia. rewrite Z.pow2_bits_false by lia. done.
Qed.

(** Appending it. *)
Lemma but_append k t h g : but t k -> ~ known k NOBODY -> known k t -> thread_ok (thr k t) ->
  listed (thr k t) h -> state_of (thr k t) <> RT_THREAD_RUNNING ->
  g = match h with Ready p => rt_thread_ready_priority_group k .| 2 ^ p
      | _ => rt_thread_ready_priority_group k end ->
  core (set_group g (rt_list_insert_before h t k)).
Proof. intros. apply (but_put k t h (queue k h) []); try done. by rewrite app_nil_r. Qed.

(** ** The functions of the scheduler *)

Lemma insert_core k t : but t k -> ~ known k NOBODY -> known k t ->
  0 <= current_priority (thr k t) < 32 -> 0 <= init_priority (thr k t) < 32 ->
  number_mask (thr k t) = 2 ^ current_priority (thr k t) ->
  core (rt_schedule_insert_thread t k).
Proof.
  intros Hb Hno Ht Hp Hi Hm. unfold rt_schedule_insert_thread.
  destruct (Z.eqb_spec t (rt_current_thread k)) as [->|Hne].
  - set (c := rt_current_thread k). set (k1 := upd_thread c _ k).
    assert (state_of (thr k1 c) = RT_THREAD_RUNNING) as Hs
      by (unfold k1; rewrite thr_upd_same; by apply state_of_to_state).
    apply (but_rest k1 c); unfold k1.
    + by apply but_upd.
    + by apply unknown_upd.
    + apply known_upd. by left.
    + rewrite thr_upd_same. done.
    + fold k1. by rewrite Hs.
    + done.
  - set (k1 := upd_thread t (to_state RT_THREAD_READY) k).
    assert (state_of (thr k1 t) = RT_THREAD_READY) as Hs
      by (unfold k1; rewrite thr_upd_same; by apply state_of_to_state).
    change (thr (rt_list_insert_before ?h t k1) t) with (thr k1 t).
    apply (but_append k1 t); unfold k1.
    + by apply but_upd.
    + by apply unknown_upd.
    + apply known_upd. by left.
    + rewrite thr_upd_same. done.
    + fold k1. by split.
    + fold k1. by rewrite Hs.
    + rewrite thr_upd_same. cbn [to_state with_stat number_mask current_priority]. by rewrite Hm.
Qed.

Lemma insert_fields k t : let k' := rt_schedule_insert_thread t k in
  rt_current_thread k' = rt_current_thread k /\ k_timers k' = k_timers k /\
  rt_tick k' = rt_tick k /\ rt_scheduler_lock_nest k' = rt_scheduler_lock_nest k /\
  (forall x, t <> x -> thr k' x = thr k x) /\
  state_of (thr k' t) = (if t =? rt_current_thread k then RT_THREAD_RUNNING else RT_THREAD_READY).
Proof.
  cbv zeta. unfold rt_schedule_insert_thread. destruct (t =? rt_current_thread k); cbv zeta;
    (split_and!; try done; [intros x Hx; by apply thr_upd_other|]).
  - rewrite thr_upd_same. by apply state_of_to_state.
  - change (state_of (thr (upd_thread t (to_state RT_THREAD_READY) k) t) = RT_THREAD_READY).
    rewrite thr_upd_same. by apply state_of_to_state.
Qed.

Lemma remove_fields k t : let k' := rt_schedule_remove_thread t k in
  threads k' = threads k /\ rt_current_thread k' = rt_current_thread k /\
  k_timers k' = k_timers k /\ rt_tick k' = rt_tick k /\
  rt_scheduler_lock_nest k' = rt_scheduler_lock_nest k /\
  (forall h, queue k' h = filter (fun x => x <> t) (queue k h)).
Proof.
  cbv zeta. unfold rt_schedule_remove_thread. case_decide; split_and!; try done;
    intros h; by rewrite <- queue_remove.
Qed.

Lemma threads_thr k k' : threads k' = threads k -> thr k' = thr k.
Proof. intros E. unfold thr. by rewrite E. Qed.
Lemma threads_known k k' x : threads k' = threads k -> known k' x <-> known k x.
Proof. intros E. unfold known. by rewrite E. Qed.

(** Closing a change of thread [t]: it keeps its priority, its new state puts
    it in no list. *)
Lemma but_done k t s f : but t k -> ~ known k NOBODY -> known k t -> thread_ok (thr k t) ->
  current_priority (f (thr k t)) = current_priority (thr k t) ->
  init_priority (f (thr k t)) = init_priority (thr k t) ->
  number_mask (f (thr k t)) = number_mask (thr k t) ->
  live (state_of (thr k t)) ->
  state_of (f (thr k t)) = s -> s <> RT_THREAD_READY ->
  (s = RT_THREAD_RUNNING -> t = rt_current_thread k) -> core (upd_thread t f k).
Proof.
  intros Hb Hno Ht (Hp & Hi & Hm) Ep Ei Em Hinit Es Hs Hrun.
  apply (but_rest _ t).
  - by apply but_upd.
  - by apply unknown_upd.
  - apply known_upd. by left.
  - rewrite thr_upd_same. unfold thread_ok. rewrite Ep, Ei, Em. split; [done|]. split; [done|].
    intros _. by apply Hm.
  - rewrite thr_upd_same. by rewrite Es.
  - rewrite thr_upd_same, Es. done.
Qed.

(** [rt_thread_suspend]. *)
Lemma suspend_spec k t : kernel_ok k -> known k t ->
  state_of (thr k t) = RT_THREAD_READY \/ state_of (thr k t) = RT_THREAD_RUNNING ->
  exists k', rt_thread_suspend t k = (k', RT_EOK) /\ but t k' /\ ~ known k' NOBODY /\
    known k' t /\ thread_ok (thr k' t) /\
    thr k' t = to_state RT_THREAD_SUSPEND (thr k t) /\
    (forall x, x <> t -> thr k' x = thr k x) /\
    (forall x, known k' x <-> known k x) /\
    rt_current_thread k' = rt_current_thread k /\ rt_tick k' = rt_tick k /\
    rt_scheduler_lock_nest k' = rt_scheduler_lock_nest k /\
    k_timers k' = fst (rt_timer_stop t (k_timers k)) /\
    (forall h, queue k' h = filter (fun x => x <> t) (queue k h)).
Proof.
  intros [Hcore Hcur] Ht Hs. unfold rt_thread_suspend.
  pose proof (core_thread k t Hcore Ht) as (Hp & Hi & Hm).
  assert (live (state_of (thr k t))) as Hinit by (destruct Hs as [-> | ->]; done).
  replace (negb _ && negb _) with false
    by (destruct Hs as [-> | ->]; cbn; by rewrite ?andb_false_r).
  pose proof (remove_fields k t) as (E1 & E2 & E3 & E4 & E5 & E6). cbv zeta in *.
  pose proof (but_schedule_remove k t Hcore Ht Hinit) as Hb.
  set (k1 := rt_schedule_remove_thread t k) in *.
  eexists. split; [done|].
  assert (known k1 t) as Ht1 by (by apply (threads_known k)).
  assert (~ known k1 NOBODY) as Hno1 by (rewrite (threads_known k k1) by done; apply Hcore).
  assert (thr k1 = thr k) as Eth by (by apply threads_thr).
  set (k2 := upd_thread t (to_state RT_THREAD_SUSPEND) k1).
  assert (thr k2 t = to_state RT_THREAD_SUSPEND (thr k t)) as Et
    by (unfold k2; by rewrite thr_upd_same, Eth).
  split; [apply but_timer_op, but_upd; done|].
  split; [by apply (unknown_upd t _ k1)|].
  split; [apply (known_upd t _ k1); by left|].
  change (thr (timer_op ?f k2)) with (thr k2). rewrite Et.
  split; [split; [done|]; split; [done|]; intros _; by apply Hm|].
  split; [done|].
  split; [intros x Hx; unfold k2; rewrite thr_upd_other by done; by rewrite Eth|].
  split.
  { intros x. change (known (timer_op ?f k2) x) with (known k2 x). unfold k2.
    rewrite known_upd, (threads_known k k1) by done. split; [by intros [->|?]|by right]. }
  split_and!; try done.
  cbn. by rewrite E3.
Qed.

(** [rt_thread_resume]. *)
Lemma resume_ok k t : kernel_ok k -> known k t -> kernel_ok (fst (rt_thread_resume t k)).
Proof.
  intros [Hcore Hcur] Ht. unfold rt_thread_resume.
  destruct (Z.eqb_spec (state_of (thr k t)) RT_THREAD_SUSPEND) as [Hs|]; [|done]. cbn [negb fst].
  pose proof (core_thread k t Hcore Ht) as (Hp & Hi & Hm).
  set (k1 := timer_op _ (rt_list_remove t k)).
  assert (but t k1) as Hb by (apply but_timer_op, but_remove; [done|done|by rewrite Hs]).
  split.
  - apply insert_core; [done|apply Hcore|done|done|done|]. apply Hm. by rewrite Hs.
  - pose proof (insert_fields k1 t) as (E1 & _ & _ & _ & E5 & E6). cbv zeta in *. rewrite E1.
    destruct (decide (t = rt_current_thread k1)) as [Ec|Hne].
    + rewrite <- Ec, E6, (proj2 (Z.eqb_eq _ _) Ec). done.
    + rewrite E5 by done. done.
Qed.

Lemma resume_fields k t : state_of (thr k t) = RT_THREAD_SUSPEND ->
  let k' := fst (rt_thread_resume t k) in
  rt_current_thread k' = rt_current_thread k /\ rt_tick k' = rt_tick k /\
  rt_scheduler_lock_nest k' = rt_scheduler_lock_nest k /\
  snd (rt_thread_resume t k) = RT_EOK /\
  (forall x, t <> x -> thr k' x = thr k x) /\
  state_of (thr k' t) = (if t =? rt_current_thread k then RT_THREAD_RUNNING else RT_THREAD_READY) /\
  current_priority (thr k' t) = current_priority (thr k t) /\ error (thr k' t) = error (thr k t) /\
  (forall h, queue k' h = filter (fun x => x <> t) (queue k h) ++
     (if negb (t =? rt_current_thread k) && bool_decide (h = Ready (current_priority (thr k t)))
      then [t] else [])) /\
  (forall x, known k' x <-> t = x \/ known k x).
Proof.
  intros Hs. cbv zeta. unfold rt_thread_resume. rewrite Hs. cbn [Z.eqb Pos.eqb negb fst snd RT_THREAD_SUSPEND].
  set (k1 := timer_op _ (rt_list_remove t k)).
  pose proof (insert_fields k1 t) as (E1 & _ & E3 & E4 & E5 & E6). cbv zeta in *.
  split_and!; try done.
  - unfold rt_schedule_insert_thread. destruct (t =? rt_current_thread k1).
    + by rewrite thr_upd_same.
    + change (current_priority (thr (upd_thread t (to_state RT_THREAD_READY) k1) t)
        = current_priority (thr k t)). by rewrite thr_upd_same.
  - unfold rt_schedule_insert_thread. destruct (t =? rt_current_thread k1).
    + by rewrite thr_upd_same.
    + change (error (thr (upd_thread t (to_state RT_THREAD_READY) k1) t)
        = error (thr k t)). by rewrite thr_upd_same.
  - intros h. unfold rt_schedule_insert_thread.
    change (rt_current_thread k1) with (rt_current_thread k).
    destruct (t =? rt_current_thread k); cbn [negb andb].
    + rewrite app_nil_r, queue_upd. apply queue_remove.
    + set (k2 := upd_thread t _ k1). cbv zeta.
      change (queue (set_group ?g ?x) h) with (queue x h). rewrite queue_append.
      assert (current_priority (thr k2 t) = current_priority (thr k t)) as ->
        by (unfold k2; by rewrite thr_upd_same).
      assert (forall h, queue k2 h = filter (fun x => x <> t) (queue k h)) as Eq
        by (intros h'; apply queue_remove).
      case_decide as Hh.
      * subst h. rewrite bool_decide_eq_true_2 by done. by rewrite Eq.
      * rewrite bool_decide_eq_false_2 by congruence. by rewrite app_nil_r, Eq.
  - intros x. unfold rt_schedule_insert_thread. destruct (t =? rt_current_thread k1); cbv zeta.
    + apply (known_upd t _ k1).
    + apply (known_upd t _ k1).
Qed.

(** The head of the highest ready list. *)
Lemma highest_spec k : core k -> rt_thread_ready_priority_group k <> 0 ->
  exists t p rest, _get_highest_priority_thread k = (t, p) /\ 0 <= p < 32 /\
    queue k (Ready p) = t :: rest /\ (forall q x, x ∈ queue k (Ready q) -> p <= q).
Proof.
  intros [Hb Hno] Hg. pose proof (bt_group_range _ _ Hb) as Hr.
  destruct (rt_ffs_correct (rt_thread_ready_priority_group k)) as (Hp & Hbit & Hlow); [lia|].
  set (p := __rt_ffs _ - 1) in *. apply (bt_group _ _ Hb p Hp) in Hbit.
  unfold _get_highest_priority_thread. fold p.
  destruct (queue k (Ready p)) as [|t rest] eqn:E; [done|].
  exists t, p, rest. split; [done|]. split; [done|]. split; [done|].
  intros q x Hx. destruct (bt_in _ _ Hb x (Ready q) Hx) as (Hk & Hne & _ & Hq).
  destruct (bt_prio _ _ Hb x Hk Hne) as [Hqr _]. rewrite Hq in Hqr.
  destruct (Z.lt_ge_cases q p) as [Hlt|]; [|done].
  assert (queue k (Ready q) <> []) as Hne' by (intros E'; rewrite E' in Hx; by apply not_elem_of_nil in Hx).
  apply (bt_group _ _ Hb q Hqr) in Hne'. by rewrite Hlow in Hne' by lia.
Qed.

(** Changing a thread's other fields. *)
Lemma core_upd_same k t f : core k -> known k t ->
  state_of (f (thr k t)) = state_of (thr k t) ->
  current_priority (f (thr k t)) = current_priority (thr k t) ->
  init_priority (f (thr k t)) = init_priority (thr k t) ->
  number_mask (f (thr k t)) = number_mask (thr k t) -> core (upd_thread t f k).
Proof.
  intros [[Hp Hm Hin Hr Hrun Hnd Hone Hg Hgr Hnull] Hno] Ht Es Ec Ei Em.
  assert (forall x, known (upd_thread t f k) x -> known k x) as Hk
    by (intros x [->|?]%known_upd; done).
  assert (forall x, state_of (thr (upd_thread t f k) x) = state_of (thr k x) /\
    current_priority (thr (upd_thread t f k) x) = current_priority (thr k x) /\
    init_priority (thr (upd_thread t f k) x) = init_priority (thr k x) /\
    number_mask (thr (upd_thread t f k) x) = number_mask (thr k x)) as Hsame
    by (intros x; rewrite thr_upd; destruct (decide (t = x)) as [->|]; done).
  split; [|by apply unknown_upd]. split; try done.
  - intros x Hx Hne. destruct (Hsame x) as (_ & -> & -> & _). by apply Hp; [apply Hk|].
  - intros x Hx Hne. destruct (Hsame x) as (-> & -> & _ & ->). by apply Hm; [apply Hk|].
  - intros x h Hx. destruct (Hin x h Hx) as (? & ? & Hl). destruct (Hsame x) as (Hs & Hc & _).
    split; [apply known_upd; by right|]. split; [done|].
    unfold listed in *. by rewrite Hs, Hc.
  - intros x Hx Hne. destruct (Hsame x) as (-> & -> & _ & _). by apply Hr; [apply Hk|].
  - intros x Hx Hne. destruct (Hsame x) as (-> & _). by apply Hrun; [apply Hk|].
  - by intros ?%Hk.
Qed.

(** A thread outside every list can be considered detached. *)
Lemma core_no_list k t : core k -> state_of (thr k t) = RT_THREAD_RUNNING ->
  forall h, t ∉ queue k h.
Proof.
  intros [Hb _] Hs h Hx. destruct (bt_in _ _ Hb t h Hx) as (_ & _ & Hl).
  destruct h; cbn in Hl; [destruct Hl as [Hl _]|..]; by rewrite Hs in Hl.
Qed.

Lemma but_set_current k n p : core k -> known k (rt_current_thread k) ->
  (forall h, rt_current_thread k ∉ queue k h) -> but (rt_current_thread k) (set_current n p k).
Proof.
  intros [[Hp Hm Hin Hr Hrun Hnd Hone Hg Hgr Hnull] Hno] Hc Hnot.
  assert (forall x, known k x -> x <> NOBODY) as Hk by (intros x Hx ->; done).
  split; try done.
  - intros x Hx Hne. apply Hp; [done|by apply Hk].
  - intros x Hx Hne. apply Hm; [done|by apply Hk].
  - intros x h Hx. destruct (Hin x h Hx) as (? & ? & ?). split; [done|]. split; [|done].
    intros ->. by apply (Hnot h).
  - intros x Hx Hne. apply Hr; [done|by apply Hk].
  - intros x Hx Hne Hs. exfalso. apply Hne. apply Hrun; [done|by apply Hk|done].
Qed.

Lemma core_set_current k n p : core k -> known k (rt_current_thread k) ->
  state_of (thr k (rt_current_thread k)) <> RT_THREAD_RUNNING -> core (set_current n p k).
Proof.
  intros [[Hp Hm Hin Hr Hrun Hnd Hone Hg Hgr Hnull] Hno] Hc Hst.
  split; [|done]. split; try done.
  intros x Hx Hne Hs. exfalso. apply Hst. rewrite <- (Hrun x Hx Hne Hs). done.
Qed.

(** Making the thread at the head of a list run. *)
Lemma switch_core k t : core k -> known k t -> t = rt_current_thread k ->
  live (state_of (thr k t)) ->
  kernel_ok (upd_thread t (to_state RT_THREAD_RUNNING) (rt_schedule_remove_thread t k)) /\
  state_of (thr (upd_thread t (to_state RT_THREAD_RUNNING) (rt_schedule_remove_thread t k)) t)
    = RT_THREAD_RUNNING.
Proof.
  intros Hcore Ht Ecur Hinit.
  pose proof (remove_fields k t) as (E1 & E2 & _). cbv zeta in *.
  pose proof (but_schedule_remove k t Hcore Ht Hinit) as Hb.
  set (k1 := rt_schedule_remove_thread t k) in *.
  pose proof (threads_thr k k1 E1) as Eth.
  assert (state_of (thr (upd_thread t (to_state RT_THREAD_RUNNING) k1) t) = RT_THREAD_RUNNING) as Hrun
    by (rewrite thr_upd_same; by apply state_of_to_state).
  split; [|done]. split.
  - apply (but_done k1 t RT_THREAD_RUNNING); try done; rewrite ?Eth; try done.
    + rewrite (threads_known k k1) by done. apply Hcore.
    + by apply (threads_known k k1).
    + by apply core_thread.
    + by apply state_of_to_state.
    + intros _. by rewrite E2.
  - change (rt_current_thread (upd_thread ?a ?b k1)) with (rt_current_thread k1).
    rewrite E2, <- Ecur, Hrun. done.
Qed.

(** ** [rt_schedule] *)

Definition stays (k : kernel) : bool :=
  let c := rt_current_thread k in
  let highest := snd (_get_highest_priority_thread k) in
  (state_of (thr k c) =? RT_THREAD_RUNNING) &&
  ((current_priority (thr k c) <? highest) ||
   ((current_priority (thr k c) =? highest) &&
    (stat (thr k c) .& RT_THREAD_STAT_YIELD =? 0))).

(** [rt_schedule] in the three cases it distinguishes. *)
Lemma schedule_unfold k : rt_scheduler_lock_nest k = 0 -> rt_thread_ready_priority_group k <> 0 ->
  let c := rt_current_thread k in
  let running := state_of (thr k c) =? RT_THREAD_RUNNING in
  let k1 := if running
            then upd_thread c (fun th => with_stat (Z.ldiff (stat th) RT_THREAD_STAT_YIELD) th) k
            else k in
  let '(n, p) := _get_highest_priority_thread k in
  rt_schedule k =
    if stays k || (n =? c) then
      upd_thread c (to_state RT_THREAD_RUNNING) (rt_schedule_remove_thread c k1)
    else
      let k2 := set_current n (u8 p) k1 in
      let k3 := if running then rt_schedule_insert_thread c k2 else k2 in
      upd_thread n (to_state RT_THREAD_RUNNING) (rt_schedule_remove_thread n k3).
Proof.
  intros Hl Hg. cbv zeta. unfold rt_schedule. rewrite Hl. cbn [Z.eqb].
  rewrite (proj2 (Z.eqb_neq _ _)) by done. cbn [negb].
  unfold stays. destruct (_get_highest_priority_thread k) as [n p]. cbn [snd].
  rewrite negb_involutive. set (c := rt_current_thread k).
  destruct (state_of (thr k c) =? RT_THREAD_RUNNING); cbn [andb orb negb].
  - destruct ((current_priority (thr k c) <? p) || _); cbn [andb orb negb].
    + by rewrite Z.eqb_refl.
    + destruct (n =? c); done.
  - destruct (n =? c); done.
Qed.

(** The thread that runs after [rt_schedule]. *)
Definition next_thread (k : kernel) : Z :=
  if stays k then rt_current_thread k else fst (_get_highest_priority_thread k).

Lemma schedule_spec k : kernel_ok k -> known k (rt_current_thread k) ->
  rt_scheduler_lock_nest k = 0 -> rt_thread_ready_priority_group k <> 0 ->
  let k' := rt_schedule k in let n := next_thread k in
  kernel_ok k' /\ rt_current_thread k' = n /\ known k' n /\
  state_of (thr k' n) = RT_THREAD_RUNNING /\
  rt_scheduler_lock_nest k' = 0 /\ rt_tick k' = rt_tick k /\ k_timers k' = k_timers k.
Proof.
  intros [Hcore Hcur] Hc Hl Hg. cbv zeta.
  pose proof (schedule_unfold k Hl Hg) as Hu. cbv zeta in Hu. unfold next_thread.
  destruct (highest_spec k Hcore Hg) as (n & p & rest & Eh & Hp & Eq & Hhigh).
  rewrite Eh in Hu |- *. cbn [fst]. set (c := rt_current_thread k) in *.
  assert (n ∈ queue k (Ready p)) as Hn by (rewrite Eq; apply list_elem_of_here).
  destruct (bt_in _ _ (proj1 Hcore) n (Ready p) Hn) as (Hkn & _ & Hsn & _).
  assert (n <> c) as Hnc by (intros ->; done).
  rewrite (proj2 (Z.eqb_neq n c)), orb_false_r in Hu by done.
  assert (core (if state_of (thr k c) =? RT_THREAD_RUNNING
    then upd_thread c (fun th => with_stat (Z.ldiff (stat th) RT_THREAD_STAT_YIELD) th) k else k)
    /\ ((state_of (thr k c) =? RT_THREAD_RUNNING) = true -> forall h, c ∉ queue k h)) as [Hcore1 Hnot].
  { destruct (Z.eqb_spec (state_of (thr k c)) RT_THREAD_RUNNING) as [Hr|]; [|done].
    split; [apply core_upd_same; try done; apply state_of_yield_off|].
    intros _. by apply core_no_list. }
  destruct (stays k) eqn:Est.
  - unfold stays in Est. apply andb_true_iff in Est as [Hr _]. fold c in Hr.
    rewrite Hr in Hu, Hcore1. rewrite Hu. set (k1 := upd_thread c _ k) in *.
    assert (known k1 c) as Hc1 by (apply known_upd; by left).
    assert (state_of (thr k1 c) = RT_THREAD_RUNNING) as Hs1.
    { unfold k1. rewrite thr_upd_same, state_of_yield_off. by apply Z.eqb_eq. }
    destruct (switch_core k1 c Hcore1 Hc1) as [Hok Hrun]; [done|by rewrite Hs1|].
    pose proof (remove_fields k1 c) as (E1 & E2 & E3 & E4 & E5 & _). cbv zeta in *.
    split; [done|]. split; [exact E2|]. split; [apply known_upd; by left|]. split; [done|].
    cbn [rt_scheduler_lock_nest rt_tick k_timers upd_thread set_threads].
    rewrite E3, E4, E5. done.
  - rewrite Hu. set (k1 := if state_of (thr k c) =? RT_THREAD_RUNNING then _ else k) in *.
    set (k2 := set_current n (u8 p) k1).
    set (k3 := if state_of (thr k c) =? RT_THREAD_RUNNING then _ else k2).
    assert (core k3 /\ known k3 n /\ rt_current_thread k3 = n /\
      state_of (thr k3 n) = RT_THREAD_READY /\ rt_scheduler_lock_nest k3 = 0 /\
      rt_tick k3 = rt_tick k /\ k_timers k3 = k_timers k)
      as (Hcore3 & Hkn3 & Ecur3 & Hs3 & El3 & Et3 & Etm3).
    { unfold k3, k2, k1 in *. destruct (Z.eqb_spec (state_of (thr k c)) RT_THREAD_RUNNING) as [Hr|Hr].
      - set (k1' := upd_thread c _ k) in *.
        assert (but c (set_current n (u8 p) k1')) as Hb.
        { apply (but_set_current k1' n (u8 p) Hcore1); [apply known_upd; by left|exact (Hnot eq_refl)]. }
        pose proof (core_thread k c Hcore Hc) as (Hpc & Hic & Hmc).
        assert (thr (set_current n (u8 p) k1') c =
          with_stat (Z.ldiff (stat (thr k c)) RT_THREAD_STAT_YIELD) (thr k c)) as Etc
          by (change (thr (set_current n (u8 p) k1') c) with (thr k1' c); unfold k1'; by rewrite thr_upd_same).
        split_and!.
        + apply insert_core; rewrite ?Etc; try done.
          * by apply (unknown_upd c _ k); [|apply Hcore].
          * apply (known_upd c _ k). by left.
          * apply Hmc. by rewrite Hr.
        + unfold rt_schedule_insert_thread. cbn [rt_current_thread set_current].
          rewrite (proj2 (Z.eqb_neq c n)) by done.
          apply (known_upd c _ (set_current n (u8 p) k1')). right. apply known_upd. by right.
        + by pose proof (insert_fields (set_current n (u8 p) k1') c) as (-> & _).
        + pose proof (insert_fields (set_current n (u8 p) k1') c) as (_ & _ & _ & _ & E5 & _).
          cbv zeta in E5. rewrite E5 by done.
          change (thr (set_current n (u8 p) k1') n) with (thr k1' n). unfold k1'.
          by rewrite thr_upd_other by done.
        + by pose proof (insert_fields (set_current n (u8 p) k1') c) as (_ & _ & _ & -> & _).
        + by pose proof (insert_fields (set_current n (u8 p) k1') c) as (_ & _ & -> & _).
        + by pose proof (insert_fields (set_current n (u8 p) k1') c) as (_ & -> & _).
      - split_and!; try done. by apply core_set_current. }
    destruct (switch_core k3 n Hcore3 Hkn3) as [Hok Hrun]; [done|by rewrite Hs3|].
    pose proof (remove_fields k3 n) as (E1 & E2 & E3 & E4 & E5 & _). cbv zeta in *.
    split; [done|]. split; [etrans; [exact E2|exact Ecur3]|].
    split; [apply known_upd; by left|]. split; [done|].
    cbn [rt_scheduler_lock_nest rt_tick k_timers upd_thread set_threads].
    rewrite E3, E4, E5. done.
Qed.

(** Scheduling changes nothing of a thread but its state. *)
Definition same_but_stat (a b : rt_thread) : Prop := with_stat 0 a = with_stat 0 b.

Lemma same_priority a b : same_but_stat a b -> current_priority a = current_priority b.
Proof. intros H. by injection H. Qed.
Lemma same_error a b : same_but_stat a b -> error a = error b.
Proof. intros H. by injection H. Qed.

Lemma remove_thr k t x : thr (rt_schedule_remove_thread t k) x = thr k x.
Proof. pose proof (remove_fields k t) as (E & _). by rewrite (threads_thr k). Qed.

Lemma insert_thr k t x : thr (rt_schedule_insert_thread t k) x =
  if decide (t = x)
  then to_state (if t =? rt_current_thread k then RT_THREAD_RUNNING else RT_THREAD_READY) (thr k t)
  else thr k x.
Proof.
  unfold rt_schedule_insert_thread. destruct (t =? rt_current_thread k); [apply thr_upd|].
  change (thr _ x) with (thr (upd_thread t (to_state RT_THREAD_READY) k) x) at 1. apply thr_upd.
Qed.

Lemma schedule_threads k : kernel_ok k -> known k (rt_current_thread k) ->
  rt_scheduler_lock_nest k = 0 -> rt_thread_ready_priority_group k <> 0 ->
  forall x, same_but_stat (thr (rt_schedule k) x) (thr k x) /\
    (x <> rt_current_thread k -> x <> next_thread k -> thr (rt_schedule k) x = thr k x) /\
    (x = rt_current_thread k -> x <> next_thread k ->
     state_of (thr (rt_schedule k) x) =
       if state_of (thr k x) =? RT_THREAD_RUNNING then RT_THREAD_READY else state_of (thr k x)).
Proof.
  intros [Hcore Hcur] Hc Hl Hg x.
  pose proof (schedule_unfold k Hl Hg) as Hu. cbv zeta in Hu. unfold next_thread.
  destruct (highest_spec k Hcore Hg) as (n & p & rest & Eh & Hp & Eq & _).
  rewrite Eh in Hu |- *. cbn [fst]. set (c := rt_current_thread k) in *.
  assert (n ∈ queue k (Ready p)) as Hn by (rewrite Eq; apply list_elem_of_here).
  destruct (bt_in _ _ (proj1 Hcore) n (Ready p) Hn) as (_ & _ & Hsn & _).
  assert (n <> c) as Hnc by (intros ->; done).
  rewrite (proj2 (Z.eqb_neq n c)), orb_false_r in Hu by done.
  destruct (stays k) eqn:Est; rewrite Hu.
  - unfold stays in Est. apply andb_true_iff in Est as [Hr _]. fold c in Hr. rewrite Hr.
    rewrite thr_upd, !remove_thr, !thr_upd. destruct (decide (c = x)) as [<-|]; [|done].
    rewrite decide_True by done. done.
  - rewrite thr_upd, !remove_thr.
    destruct (Z.eqb_spec (state_of (thr k c)) RT_THREAD_RUNNING) as [Hr|Hr].
    + rewrite !insert_thr. cbn [rt_current_thread set_current].
      rewrite (proj2 (Z.eqb_neq c n)) by done.
      change (thr (set_current n (u8 p) ?K)) with (thr K). rewrite !thr_upd.
      rewrite !(decide_True (P := c = c)) by done.
      destruct (decide (n = x)) as [<-|].
      * rewrite !decide_False by done. split; [done|]. done.
      * destruct (decide (c = x)) as [<-|]; [|by rewrite ?decide_False].
        split; [done|]. split; [done|]. intros _ _. rewrite Hr. cbn [Z.eqb Pos.eqb RT_THREAD_RUNNING].
        by apply state_of_to_state.
    + change (thr (set_current n (u8 p) k)) with (thr k).
      destruct (decide (n = x)) as [<-|]; [done|]. split; [done|]. split; [done|].
      intros -> _. by rewrite (proj2 (Z.eqb_neq _ _)).
Qed.

(** No ready thread has a higher priority than the one that runs. *)
Lemma highest_runs k : kernel_ok k -> known k (rt_current_thread k) ->
  rt_scheduler_lock_nest k = 0 -> rt_thread_ready_priority_group k <> 0 ->
  forall x, known (rt_schedule k) x -> state_of (thr (rt_schedule k) x) = RT_THREAD_READY ->
  current_priority (thr (rt_schedule k) (rt_current_thread (rt_schedule k)))
  <= current_priority (thr (rt_schedule k) x).
Proof.
  intros Hok Hc Hl Hg x Hx Hs.
  destruct (schedule_spec k Hok Hc Hl Hg) as (Hok' & Ecur & Hkn & Hrun & _). cbv zeta in *.
  pose proof (schedule_threads k Hok Hc Hl Hg) as Hth.
  destruct (Hth x) as (Hsx & Hother & Hcx).
  destruct (Hth (next_thread k)) as (Hsn & _ & _).
  rewrite Ecur, (same_priority _ _ Hsx), (same_priority _ _ Hsn).
  assert (x <> next_thread k) as Hxn by (intros ->; by rewrite Hrun in Hs).
  destruct Hok as [Hcore Hcur].
  destruct (highest_spec k Hcore Hg) as (n & p & rest & Eh & Hp & Eq & Hhigh).
  assert (current_priority (thr k (next_thread k)) <= p) as Hle.
  { unfold next_thread. destruct (stays k) eqn:Est.
    - unfold stays in Est. rewrite Eh in Est. cbn [snd] in Est.
      apply andb_true_iff in Est as [_ [H|[H _]%andb_true_iff]%orb_true_iff]; lia.
    - rewrite Eh. cbn [fst].
      assert (n ∈ queue k (Ready p)) as Hn by (rewrite Eq; apply list_elem_of_here).
      destruct (bt_in _ _ (proj1 Hcore) n (Ready p) Hn) as (_ & _ & _ & ->). done. }
  destruct (decide (x = rt_current_thread k)) as [->|Hne].
  - rewrite (Hcx eq_refl Hxn) in Hs.
    destruct (Z.eqb_spec (state_of (thr k (rt_current_thread k))) RT_THREAD_RUNNING) as [Hr|]; [|done].
    unfold next_thread in Hxn. destruct (stays k) eqn:Est; [done|].
    unfold stays in Est. rewrite Hr, Z.eqb_refl, Eh in Est. cbn [andb snd] in Est.
    apply orb_false_iff in Est as [H _]. lia.
  - rewrite (Hother Hne Hxn) in Hs.
    assert (known k x) as Hkx.
    { destruct (threads k !! x) as [th|] eqn:E; [by eexists|]. exfalso.
      unfold thr in Hs. rewrite lookup_total_alt, E in Hs. done. }
    assert (x <> NOBODY) by (intros ->; by destruct (proj2 Hcore)).
    pose proof (bt_ready _ _ (proj1 Hcore) x Hkx ltac:(done) Hs) as Hin.
    specialize (Hhigh _ _ Hin). lia.
Qed.

(** C14 After [rt_schedule] with the scheduler unlocked and a thread ready, no
    ready thread has a higher priority (a smaller number) than the thread that
    runs, whether it preempted, yielded or went on. *)
Theorem schedule_highest k : kernel_ok k -> known k (rt_current_thread k) ->
  rt_scheduler_lock_nest k = 0 -> rt_thread_ready_priority_group k <> 0 ->
  forall x, known (rt_schedule k) x -> state_of (thr (rt_schedule k) x) = RT_THREAD_READY ->
  current_priority (thr (rt_schedule k) (rt_current_thread (rt_schedule k)))
  <= current_priority (thr (rt_schedule k) x).
Proof. apply highest_runs. Qed.

Lemma schedule_ok k : kernel_ok k -> known k (rt_current_thread k) -> kernel_ok (rt_schedule k).
Proof.
  intros Hok Hc. destruct (decide (rt_scheduler_lock_nest k = 0)) as [Hl|Hl].
  - destruct (decide (rt_thread_ready_priority_group k = 0)) as [Hg|Hg].
    + unfold rt_schedule. rewrite Hl, Hg. done.
    + apply (schedule_spec k Hok Hc Hl Hg).
  - unfold rt_schedule. by rewrite (proj2 (Z.eqb_neq _ _)).
Qed.

(** A thread in no list. *)
Lemma core_but k t : core k -> (forall h, t ∉ queue k h) -> but t k.
Proof.
  intros [[Hp Hm Hin Hr Hrun Hnd Hone Hg Hgr Hnull] Hno] Hnot.
  assert (forall x, known k x -> x <> NOBODY) as Hk by (intros x Hx ->; done).
  split; try done.
  - intros x Hx Hne. apply Hp; [done|by apply Hk].
  - intros x Hx Hne. apply Hm; [done|by apply Hk].
  - intros x h Hx. destruct (Hin x h Hx) as (? & ? & ?). split; [done|]. split; [|done].
    intros ->. by apply (Hnot h).
  - intros x Hx Hne. apply Hr; [done|by apply Hk].
  - intros x Hx Hne. apply Hrun; [done|by apply Hk].
Qed.

Lemma core_no_list_init k t : core k -> state_of (thr k t) = RT_THREAD_INIT ->
  forall h, t ∉ queue k h.
Proof.
  intros [Hb _] Hs h Hx. destruct (bt_in _ _ Hb t h Hx) as (_ & _ & Hl).
  destruct h; cbn in Hl; [destruct Hl as [Hl _]|..]; by rewrite Hs in Hl.
Qed.

(** ** The functions of [thread.c] keep the invariant *)

Lemma upd_ok k t s f : kernel_ok k -> known k t -> (forall h, t ∉ queue k h) ->
  0 <= current_priority (f (thr k t)) < 32 -> 0 <= init_priority (f (thr k t)) < 32 ->
  (live s -> number_mask (f (thr k t)) = 2 ^ current_priority (f (thr k t))) ->
  state_of (f (thr k t)) = s -> s <> RT_THREAD_READY ->
  (s = RT_THREAD_RUNNING -> t = rt_current_thread k) -> kernel_ok (upd_thread t f k).
Proof.
  intros [Hcore Hcur] Ht Hnot Hp Hi Hm Es Hs Hrun. split.
  - apply (but_rest _ t).
    + by apply but_upd, Ht; apply core_but.
    + apply unknown_upd; [done|apply Hcore].
    + apply known_upd. by left.
    + rewrite thr_upd_same. split; [done|]. split; [done|]. intros H. apply Hm. by rewrite <- Es.
    + rewrite thr_upd_same. by rewrite Es.
    + rewrite thr_upd_same, Es. done.
  - change (rt_current_thread (upd_thread t f k)) with (rt_current_thread k).
    rewrite thr_upd. destruct (decide (t = _)); [by rewrite Es|done].
Qed.

Lemma kernel_ok_timers k f : kernel_ok k -> kernel_ok (timer_op f k).
Proof. intros [? ?]. split; [by apply core_timer_op|done]. Qed.

Lemma kernel_ok_upd_same k t f : kernel_ok k -> known k t ->
  state_of (f (thr k t)) = state_of (thr k t) ->
  current_priority (f (thr k t)) = current_priority (thr k t) ->
  init_priority (f (thr k t)) = init_priority (thr k t) ->
  number_mask (f (thr k t)) = number_mask (thr k t) -> kernel_ok (upd_thread t f k).
Proof.
  intros [Hcore Hcur] Ht E1 E2 E3 E4. split; [by apply core_upd_same|].
  change (rt_current_thread (upd_thread t f k)) with (rt_current_thread k).
  rewrite thr_upd. destruct (decide (t = _)) as [->|]; [by rewrite E1|done].
Qed.

Lemma shiftl_mask p : 0 <= p < 32 -> u32 (1 ≪ p) = 2 ^ p.
Proof.
  intros Hp. rewrite Z.shiftl_1_l. apply u32_small. split; [lia|].
  change 4294967296 with (2 ^ 32). apply Z.pow_lt_mono_r; lia.
Qed.

(** The thread prepared: its priority and mask set, suspended, in no list. *)
Lemma startup_prepared k t : kernel_ok k -> known k t -> state_of (thr k t) = RT_THREAD_INIT ->
  let k2 := upd_thread t (with_stat RT_THREAD_SUSPEND)
              (upd_thread t (fun th => with_priority (init_priority th) th) k) in
  kernel_ok k2 /\ known k2 t /\ state_of (thr k2 t) = RT_THREAD_SUSPEND.
Proof.
  intros Hok Ht Hs. cbv zeta.
  pose proof (core_no_list_init k t (proj1 Hok) Hs) as Hnot.
  pose proof (core_thread k t (proj1 Hok) Ht) as (Hp & Hi & Hm).
  set (k1 := upd_thread t (fun th => with_priority (init_priority th) th) k).
  assert (kernel_ok k1) as Hok1.
  { apply (upd_ok k t RT_THREAD_INIT); try done. by intros [? _]. }
  assert (known k1 t) as Ht1 by (apply known_upd; by left).
  set (k2 := upd_thread t (with_stat RT_THREAD_SUSPEND) k1).
  assert (thr k1 t = with_priority (init_priority (thr k t)) (thr k t)) as E1
    by (unfold k1; by rewrite thr_upd_same).
  split.
  { apply (upd_ok k1 t RT_THREAD_SUSPEND); try done; rewrite ?E1; try done.
    intros _. cbn [with_stat with_priority number_mask current_priority]. by apply shiftl_mask. }
  split; [apply known_upd; by left|]. unfold k2. rewrite thr_upd_same. by apply state_of_with_stat.
Qed.

Lemma startup_ok k t : kernel_ok k -> known k t -> state_of (thr k t) = RT_THREAD_INIT ->
  rt_current_thread k = RT_NULL \/ known k (rt_current_thread k) ->
  kernel_ok (fst (rt_thread_startup t k)).
Proof.
  intros Hok Ht Hs Hstart. unfold rt_thread_startup.
  destruct (startup_prepared k t Hok Ht Hs) as (Hok2 & Ht2 & Hs2). cbv zeta in *.
  set (k2 := upd_thread t (with_stat RT_THREAD_SUSPEND) _) in *.
  pose proof (resume_ok k2 t Hok2 Ht2) as Hok3.
  destruct (resume_fields k2 t Hs2) as (Ecur & _ & _ & _ & _ & _ & _ & _ & _ & Hkn). cbv zeta in *.
  destruct (Z.eqb_spec (rt_thread_self (fst (rt_thread_resume t k2))) RT_NULL) as [|Hne];
    cbn [negb fst]; [done|].
  apply schedule_ok; [done|]. unfold rt_thread_self in Hne. rewrite Ecur in *.
  apply Hkn. right. apply known_upd. right. apply known_upd. right.
  by destruct Hstart as [H|H].
Qed.

(** Starting a thread's timer does not touch the scheduler. *)
Lemma start_thread_timer_fields t time k : let k' := start_thread_timer t time k in
  threads k' = threads k /\ queues k' = queues k /\
  rt_thread_ready_priority_group k' = rt_thread_ready_priority_group k /\
  rt_current_thread k' = rt_current_thread k /\
  rt_scheduler_lock_nest k' = rt_scheduler_lock_nest k /\ rt_tick k' = rt_tick k.
Proof. done. Qed.

Lemma but_start_timer t x time k : but x k -> but x (start_thread_timer t time k).
Proof. intros H. unfold start_thread_timer. by apply but_timer_op, but_timer_op. Qed.

(** The current thread suspended, in no list yet. *)
Lemma suspend_current k : kernel_ok k -> known k (rt_current_thread k) ->
  state_of (thr k (rt_current_thread k)) = RT_THREAD_RUNNING ->
  kernel_ok (fst (rt_thread_suspend (rt_current_thread k) k)).
Proof.
  intros Hok Hc Hs.
  destruct (suspend_spec k (rt_current_thread k) Hok Hc (or_intror Hs))
    as (k' & E & Hb & Hno & Hk & Hth & Et & _ & _ & Ecur & _).
  rewrite E. cbn [fst]. assert (state_of (thr k' (rt_current_thread k)) = RT_THREAD_SUSPEND) as Es
    by (rewrite Et; by apply state_of_to_state).
  split; [|rewrite Ecur; by rewrite Es].
  apply (but_rest k' (rt_current_thread k)); try done; by rewrite Es.
Qed.

Lemma sleep_ok k tick : kernel_ok k -> known k (rt_current_thread k) ->
  state_of (thr k (rt_current_thread k)) = RT_THREAD_RUNNING -> kernel_ok (rt_thread_sleep tick k).
Proof.
  intros Hok Hc Hs. unfold rt_thread_sleep, rt_thread_self.
  pose proof (suspend_current k Hok Hc Hs) as Hok1.
  destruct (suspend_spec k (rt_current_thread k) Hok Hc (or_intror Hs))
    as (k' & E & _ & _ & Hk & _ & _ & _ & _ & Ecur & _).
  rewrite E in *. cbn [fst] in *. apply schedule_ok.
  - by apply kernel_ok_timers, kernel_ok_timers.
  - change (known k' (rt_current_thread k')). by rewrite Ecur.
Qed.

Lemma timeout_ok k t : kernel_ok k -> known k t -> state_of (thr k t) = RT_THREAD_SUSPEND ->
  known k (rt_current_thread k) -> kernel_ok (rt_thread_timeout t k).
Proof.
  intros Hok Ht Hs Hc. unfold rt_thread_timeout.
  set (k1 := set_error t (- RT_ETIMEOUT) k).
  assert (kernel_ok k1) as Hok1 by (by apply kernel_ok_upd_same).
  assert (known k1 t) as Ht1 by (apply known_upd; by left).
  assert (thr k1 t = with_error (- RT_ETIMEOUT) (thr k t)) as E1 by apply thr_upd_same.
  pose proof (core_thread k t (proj1 Hok) Ht) as (Hp & Hi & Hm).
  assert (state_of (thr k1 t) = RT_THREAD_SUSPEND) as Hs1 by (rewrite E1; done).
  set (k2 := rt_list_remove t k1).
  assert (but t k2) as Hb by (apply but_remove; [apply Hok1|done|by rewrite Hs1]).
  pose proof (insert_fields k2 t) as (E2 & _ & _ & _ & E5 & E6). cbv zeta in *.
  apply schedule_ok.
  - split.
    + assert (thr k2 t = thr k1 t) as E12 by done.
      apply insert_core; rewrite ?E12, ?E1; try done.
      * apply (unknown_upd t _ k); [done|apply Hok].
      * cbn [with_error number_mask current_priority]. apply Hm. by rewrite Hs.
    + rewrite E2. destruct (decide (t = rt_current_thread k2)) as [Ec|Hne].
      * rewrite <- Ec, E6, (proj2 (Z.eqb_eq _ _) Ec). done.
      * rewrite E5 by done. apply Hok1.
  - rewrite E2. change (rt_current_thread k2) with (rt_current_thread k).
    unfold rt_schedule_insert_thread. destruct (t =? rt_current_thread k2).
    + apply (known_upd t _ k2). right. apply (known_upd t _ k). by right.
    + apply (known_upd t _ k2). right. apply (known_upd t _ k). by right.
Qed.

Lemma change_priority_ok k t p : kernel_ok k -> known k t -> 0 <= p < 32 ->
  live (state_of (thr k t)) -> kernel_ok (change_priority t p k).
Proof.
  intros Hok Ht Hp Hinit. unfold change_priority.
  pose proof (core_thread k t (proj1 Hok) Ht) as (Hp0 & Hi & Hm). destruct Hok as [Hcore Hcur].
  destruct (Z.eqb_spec (state_of (thr k t)) RT_THREAD_READY) as [Hs|Hs].
  - pose proof (remove_fields k t) as (E1 & E2 & _). cbv zeta in *.
    pose proof (but_schedule_remove k t Hcore Ht Hinit) as Hb.
    set (k1 := rt_schedule_remove_thread t k) in *.
    set (k2 := upd_thread t (with_priority p) k1).
    assert (thr k2 t = with_priority p (thr k t)) as Et
      by (unfold k2; rewrite thr_upd_same; by rewrite (threads_thr k k1)).
    pose proof (insert_fields k2 t) as (F2 & _ & _ & _ & F5 & F6). cbv zeta in *.
    assert (t <> rt_current_thread k) as Hne by (intros ->; done). split.
    + apply insert_core; rewrite ?Et; try done.
      * apply but_upd; [done|]. by apply (threads_known k k1).
      * apply unknown_upd; rewrite (threads_known k k1) by done; [done|apply Hcore].
      * apply known_upd. by left.
      * cbn. by apply shiftl_mask.
    + rewrite F2. change (rt_current_thread k2) with (rt_current_thread k1). rewrite E2, F5 by done.
      unfold k2. rewrite thr_upd_other by done. by rewrite (threads_thr k k1).
  - split.
    + destruct Hcore as [[Xp Xm Xin Xr Xrun Xnd Xone Xg Xgr Xnull] Xno].
      assert (forall x, known (upd_thread t (with_priority p) k) x -> known k x) as Hk
        by (intros x [->|?]%known_upd; done).
      assert (forall x, state_of (thr (upd_thread t (with_priority p) k) x) = state_of (thr k x)) as Es
        by (intros x; rewrite thr_upd; by destruct (decide (t = x)) as [->|]).
      assert (forall x, x <> t -> thr (upd_thread t (with_priority p) k) x = thr k x) as Eo
        by (intros x Hx; by apply thr_upd_other).
      pose proof (thr_upd_same t (with_priority p) k) as Et.
      split; [|by apply unknown_upd]. split; try done.
      * intros x Hx Hne. destruct (decide (x = t)) as [->|]; [by rewrite Et|].
        rewrite Eo by done. by apply Xp; [apply Hk|].
      * intros x Hx Hne. rewrite Es. destruct (decide (x = t)) as [->|].
        { rewrite Et. intros _. cbn. by apply shiftl_mask. }
        rewrite Eo by done. by apply Xm; [apply Hk|].
      * intros x h Hx. destruct (Xin x h Hx) as (? & ? & Hl).
        split; [apply known_upd; by right|]. split; [done|].
        destruct (decide (x = t)) as [->|Hne]; [|by rewrite Eo].
        destruct h; cbn in Hl |- *; [by destruct Hl|by rewrite Es..].
      * intros x Hx Hne. rewrite Es. destruct (decide (x = t)) as [->|]; [done|].
        rewrite Eo by done. by apply Xr; [apply Hk|].
      * intros x Hx Hne. rewrite Es. by apply Xrun; [apply Hk|].
      * by intros ?%Hk.
    + change (rt_current_thread (upd_thread t (with_priority p) k)) with (rt_current_thread k).
      rewrite thr_upd. destruct (decide (t = _)) as [->|]; [done|done].
Qed.

(** [__rt_ffs] finds the lowest bit set of a 32-bit word, counted from 1, by
    its byte table, and answers 0 for 0. *)
Theorem rt_ffs_lowest v : 0 <= v < 4294967296 ->
  if v =? 0 then __rt_ffs v = 0
  else 1 <= __rt_ffs v <= 32 /\ Z.testbit v (__rt_ffs v - 1) = true /\
       forall i, 0 <= i < __rt_ffs v - 1 -> Z.testbit v i = false.
Proof.
  intros H. destruct (Z.eqb_spec v 0) as [->|Hv]; [done|].
  destruct (rt_ffs_correct v) as (H1 & H2 & H3); [lia|]. split; [lia|done].
Qed.

Lemma rt_ffs_lowest_witness : 1 <= __rt_ffs 0x80100000 <= 32 /\
  Z.testbit 0x80100000 (__rt_ffs 0x80100000 - 1) = true /\
  forall i, 0 <= i < __rt_ffs 0x80100000 - 1 -> Z.testbit 0x80100000 i = false.
Proof. apply (rt_ffs_lowest 0x80100000). lia. Defined.
