(* ===== verification/KernelOps.v ===== *)
(** * KernelOps: yielding, ending threads, and the tick

    The rest of [thread.c] and the tick handler of [clock.c] keep the
    scheduler's invariant; what a yield and a time slice do to the ready list;
    [rt_timer_check] ends and fires exactly the timers that are due. *)
From S2P Require Import Prelude Timer Kernel KernelInv.
From Stdlib Require Import Sorted.

Lemma yield_ok k : kernel_ok k -> known k (rt_current_thread k) ->
  kernel_ok (fst (rt_thread_yield k)).
Proof.
  intros Hok Hc. unfold rt_thread_yield, rt_thread_self. cbn [fst].
  set (c := rt_current_thread k) in *.
  set (k1 := upd_thread c (fun th => with_remaining (init_slice th) th) k).
  assert (kernel_ok k1) as Hok1 by (by apply kernel_ok_upd_same).
  assert (known k1 c) as Hc1 by (apply known_upd; by left).
  apply schedule_ok.
  - apply kernel_ok_upd_same; try done. apply state_of_yield_on.
  - apply known_upd. by left.
Qed.

(** Ending a thread: taken out of its list, closed, and queued for the idle
    thread when it came from the heap. *)
Lemma close_core k t : but t k -> ~ known k NOBODY -> known k t ->
  0 <= current_priority (thr k t) < 32 -> 0 <= init_priority (thr k t) < 32 ->
  let k1 := upd_thread t (with_stat RT_THREAD_CLOSE) k in
  core k1 /\ core (rt_list_insert_after Defunct t k1).
Proof.
  intros Hb Hno Ht Hp Hi. cbv zeta.
  set (k1 := upd_thread t (with_stat RT_THREAD_CLOSE) k).
  assert (but t k1) as Hb1 by (by apply but_upd).
  assert (~ known k1 NOBODY) as Hno1 by (by apply unknown_upd).
  assert (known k1 t) as Ht1 by (apply known_upd; by left).
  assert (thr k1 t = with_stat RT_THREAD_CLOSE (thr k t)) as Et by apply thr_upd_same.
  assert (state_of (thr k1 t) = RT_THREAD_CLOSE) as Es by (rewrite Et; by apply state_of_with_stat).
  assert (thread_ok (thr k1 t)) as Hok.
  { split; [by rewrite Et|]. split; [by rewrite Et|]. intros [_ H]. by rewrite Es in H. }
  split.
  - apply (but_rest k1 t); try done; by rewrite Es.
  - apply (but_put k1 t Defunct [] (queue k1 Defunct) (rt_thread_ready_priority_group k1)); try done.
    by rewrite Es.
Qed.

Lemma close_known k t x : known k t ->
  (known (upd_thread t (with_stat RT_THREAD_CLOSE) k) x <-> known k x).
Proof. intros Ht. rewrite known_upd. split; [by intros [->|?]|by right]. Qed.

(** The end of [rt_thread_detach] and [rt_thread_delete]. *)
Lemma retire_ok k t (heap : bool) : but t k -> ~ known k NOBODY -> known k t ->
  0 <= current_priority (thr k t) < 32 -> 0 <= init_priority (thr k t) < 32 ->
  state_of (thr k (rt_current_thread k)) <> RT_THREAD_READY \/ t = rt_current_thread k ->
  let k1 := upd_thread t (with_stat RT_THREAD_CLOSE) k in
  kernel_ok (if heap then rt_list_insert_after Defunct t k1 else k1).
Proof.
  intros Hb Hno Ht Hp Hi Hcur. cbv zeta.
  destruct (close_core k t Hb Hno Ht Hp Hi) as [H1 H2]. cbv zeta in *.
  assert (state_of (thr (upd_thread t (with_stat RT_THREAD_CLOSE) k) (rt_current_thread k))
    <> RT_THREAD_READY) as Hc.
  { rewrite thr_upd. destruct (decide (t = rt_current_thread k)) as [->|].
    - by rewrite state_of_with_stat.
    - by destruct Hcur. }
  by destruct heap; split.
Qed.

Lemma detached_but k t : kernel_ok k -> known k t -> state_of (thr k t) <> RT_THREAD_CLOSE ->
  let k1 := if negb (state_of (thr k t) =? RT_THREAD_INIT)
            then rt_schedule_remove_thread t k else k in
  but t k1 /\ threads k1 = threads k /\ rt_current_thread k1 = rt_current_thread k.
Proof.
  intros [Hcore Hcur] Ht Hs. cbv zeta.
  destruct (Z.eqb_spec (state_of (thr k t)) RT_THREAD_INIT) as [Hi|Hi]; cbn [negb].
  - split; [|done]. apply core_but; [done|]. by apply core_no_list_init.
  - pose proof (remove_fields k t) as (E1 & E2 & _). cbv zeta in *.
    split; [by apply but_schedule_remove|done].
Qed.

Lemma detach_ok k t : kernel_ok k -> known k t -> kernel_ok (fst (rt_thread_detach t k)).
Proof.
  intros Hok Ht. unfold rt_thread_detach.
  destruct (Z.eqb_spec (state_of (thr k t)) RT_THREAD_CLOSE) as [|Hs]; [done|]. cbn [fst].
  destruct (detached_but k t Hok Ht Hs) as (Hb & E1 & E2). cbv zeta in *.
  set (k1 := if negb _ then _ else k) in *.
  pose proof (core_thread k t (proj1 Hok) Ht) as (Hp & Hi & _).
  pose proof (threads_thr k k1 E1) as Eth.
  unfold thread_retire.
  set (k2 := timer_op _ k1).
  assert (kernel_ok (if negb (systemobject (thr (upd_thread t (with_stat RT_THREAD_CLOSE) k2) t))
    then rt_list_insert_after Defunct t (upd_thread t (with_stat RT_THREAD_CLOSE) k2)
    else upd_thread t (with_stat RT_THREAD_CLOSE) k2)) as H.
  { apply retire_ok.
    - by apply but_timer_op.
    - change (~ known k1 NOBODY). rewrite (threads_known k k1) by done. apply Hok.
    - change (known k1 t). by apply (threads_known k k1).
    - change (thr k2 t) with (thr k1 t). by rewrite Eth.
    - change (thr k2 t) with (thr k1 t). by rewrite Eth.
    - left. change (state_of (thr k1 (rt_current_thread k1)) <> RT_THREAD_READY).
      rewrite E2, Eth. apply Hok. }
  by destruct (systemobject _).
Qed.

Lemma delete_ok k t : kernel_ok k -> known k t -> kernel_ok (fst (rt_thread_delete t k)).
Proof.
  intros Hok Ht. unfold rt_thread_delete.
  destruct (Z.eqb_spec (state_of (thr k t)) RT_THREAD_CLOSE) as [|Hs]; [done|]. cbn [fst].
  destruct (detached_but k t Hok Ht Hs) as (Hb & E1 & E2). cbv zeta in *.
  set (k1 := if negb _ then _ else k) in *.
  pose proof (core_thread k t (proj1 Hok) Ht) as (Hp & Hi & _).
  pose proof (threads_thr k k1 E1) as Eth.
  apply (retire_ok (timer_op _ k1) t true).
  - by apply but_timer_op.
  - change (~ known k1 NOBODY). rewrite (threads_known k k1) by done. apply Hok.
  - change (known k1 t). by apply (threads_known k k1).
  - change (thr (timer_op _ k1) t) with (thr k1 t). by rewrite Eth.
  - change (thr (timer_op _ k1) t) with (thr k1 t). by rewrite Eth.
  - left. change (state_of (thr k1 (rt_current_thread k1)) <> RT_THREAD_READY).
    rewrite E2, Eth. apply Hok.
Qed.

(** A thread's entry function returning. *)
(** The exiting thread closed, before the switch away from it. *)
Lemma exit_closed_ok k : kernel_ok k -> known k (rt_current_thread k) ->
  live (state_of (thr k (rt_current_thread k))) ->
  let c := rt_current_thread k in
  let k1 := upd_thread c (with_stat RT_THREAD_CLOSE) (rt_schedule_remove_thread c k) in
  let k' := thread_retire c (timer_op (fun ts => fst (rt_timer_detach c ts)) k1) in
  kernel_ok k' /\ rt_current_thread k' = c /\ known k' c /\ rt_tick k' = rt_tick k /\
  k_timers k' = fst (rt_timer_detach c (k_timers k)) /\ (forall x, x <> c -> thr k' x = thr k x).
Proof.
  intros Hok Hc Hs c. cbv zeta. unfold thread_retire. fold c in Hc, Hs.
  pose proof (remove_fields k c) as (E1 & E2 & E3 & E4 & _). cbv zeta in *.
  pose proof (but_schedule_remove k c (proj1 Hok) Hc Hs) as Hb.
  set (k1 := rt_schedule_remove_thread c k) in *.
  pose proof (core_thread k c (proj1 Hok) Hc) as (Hp & Hi & _).
  pose proof (threads_thr k k1 E1) as Eth.
  assert (forall heap : bool, kernel_ok (if heap
    then rt_list_insert_after Defunct c (upd_thread c (with_stat RT_THREAD_CLOSE) k1)
    else upd_thread c (with_stat RT_THREAD_CLOSE) k1)) as H.
  { intros heap. apply retire_ok; rewrite ?Eth; try done.
    - rewrite (threads_known k k1) by done. apply Hok.
    - by apply (threads_known k k1).
    - right. by rewrite E2. }
  assert (known (upd_thread c (with_stat RT_THREAD_CLOSE) k1) c) as Hc1 by (apply known_upd; by left).
  assert (forall x, x <> c -> thr (upd_thread c (with_stat RT_THREAD_CLOSE) k1) x = thr k x) as Hoth
    by (intros x Hx; rewrite thr_upd_other by done; by rewrite Eth).
  set (k2 := timer_op _ (upd_thread c (with_stat RT_THREAD_CLOSE) k1)).
  assert (k_timers k2 = fst (rt_timer_detach c (k_timers k))) as Etm
    by (unfold k2; cbn [k_timers timer_op set_timers upd_thread set_threads]; by rewrite E3).
  destruct (systemobject (thr k2 c)).
  - split; [apply kernel_ok_timers, (H false)|]. done.
  - split; [exact (kernel_ok_timers _ (fun ts => fst (rt_timer_detach c ts)) (H true))|]. done.
Qed.

Lemma exit_ok k : kernel_ok k -> known k (rt_current_thread k) ->
  live (state_of (thr k (rt_current_thread k))) -> kernel_ok (_rt_thread_exit k).
Proof.
  intros Hok Hc Hs. pose proof (exit_closed_ok k Hok Hc Hs) as Hx. cbv zeta in Hx.
  set (k' := thread_retire _ _) in Hx. destruct Hx as (H & E & Hk & _).
  apply (schedule_ok k'); [done|by rewrite E].
Qed.

(** ** Scheduling and the threads that do not run *)

Lemma thr_unknown k x : ~ known k x -> thr k x = thread0.
Proof.
  intros H. unfold thr. rewrite lookup_total_alt.
  destruct (threads k !! x) eqn:E; [|done]. destruct H. unfold known. rewrite E. by eexists.
Qed.

Lemma known_of_state k x : state_of (thr k x) <> RT_THREAD_INIT -> known k x.
Proof.
  intros H. destruct (threads k !! x) as [th|] eqn:E; [by eexists|].
  rewrite thr_unknown in H; [done|]. unfold known. by rewrite E.
Qed.

Definition awake (th : rt_thread) : Prop :=
  state_of th = RT_THREAD_READY \/ state_of th = RT_THREAD_RUNNING.

(** Nothing happens with the scheduler locked or nothing ready. *)
Lemma schedule_off k : rt_scheduler_lock_nest k <> 0 \/ rt_thread_ready_priority_group k = 0 ->
  rt_schedule k = k.
Proof.
  unfold rt_schedule. intros [H|H].
  - by rewrite (proj2 (Z.eqb_neq _ _)).
  - rewrite H. by destruct (_ =? 0).
Qed.

(** [rt_schedule] neither suspends nor wakes a thread, and changes nothing
    else of it. *)
Lemma schedule_keeps k : kernel_ok k -> known k (rt_current_thread k) ->
  let k' := rt_schedule k in
  known k' (rt_current_thread k') /\ k_timers k' = k_timers k /\ rt_tick k' = rt_tick k /\
  (forall x, same_but_stat (thr k' x) (thr k x)) /\
  (forall x, state_of (thr k x) = RT_THREAD_SUSPEND -> state_of (thr k' x) = RT_THREAD_SUSPEND) /\
  (forall x, awake (thr k x) -> awake (thr k' x)).
Proof.
  intros Hok Hc. cbv zeta.
  destruct (decide (rt_scheduler_lock_nest k = 0)) as [Hl|Hl]; [|by rewrite schedule_off by (by left)].
  destruct (decide (rt_thread_ready_priority_group k = 0)) as [Hg|Hg];
    [by rewrite schedule_off by (by right)|].
  destruct (schedule_spec k Hok Hc Hl Hg) as (Hok' & Ecur & Hkn & Hrun & _ & Et & Etm). cbv zeta in *.
  pose proof (schedule_threads k Hok Hc Hl Hg) as Hth.
  split; [by rewrite Ecur|]. split; [done|]. split; [done|].
  split; [intros x; by destruct (Hth x)|].
  assert (awake (thr k (next_thread k))) as Hnext.
  { unfold next_thread. destruct (stays k) eqn:Est.
    - right. unfold stays in Est. apply andb_true_iff in Est as [H _]. by apply Z.eqb_eq.
    - left. destruct (highest_spec k (proj1 Hok) Hg) as (n & p & rest & Eh & _ & Eq & _).
      rewrite Eh. cbn [fst].
      assert (n ∈ queue k (Ready p)) as Hn by (rewrite Eq; apply list_elem_of_here).
      by destruct (bt_in _ _ (proj1 (proj1 Hok)) n (Ready p) Hn) as (_ & _ & ? & _). }
  split; intros x Hx.
  - assert (x <> next_thread k) as Hne.
    { intros ->. destruct Hnext as [H|H]; by rewrite H in Hx. }
    destruct (Hth x) as (_ & Ho & Hcx). destruct (decide (x = rt_current_thread k)) as [Ex|Hnc].
    + rewrite (Hcx Ex Hne), Hx. done.
    + by rewrite Ho.
  - destruct (decide (x = next_thread k)) as [->|Hne]; [by right|].
    destruct (Hth x) as (_ & Ho & Hcx). destruct (decide (x = rt_current_thread k)) as [Ex|Hnc].
    + left. rewrite (Hcx Ex Hne). by destruct Hx as [-> | ->].
    + unfold awake. by rewrite Ho.
Qed.

(** What [rt_thread_timeout] does to the threads. *)
Lemma timeout_threads k t : kernel_ok k -> known k t -> state_of (thr k t) = RT_THREAD_SUSPEND ->
  known k (rt_current_thread k) ->
  let k' := rt_thread_timeout t k in
  known k' (rt_current_thread k') /\ k_timers k' = k_timers k /\ rt_tick k' = rt_tick k /\
  awake (thr k' t) /\ error (thr k' t) = - RT_ETIMEOUT /\
  (forall x, x <> t -> state_of (thr k x) = RT_THREAD_SUSPEND -> state_of (thr k' x) = RT_THREAD_SUSPEND) /\
  (forall x, awake (thr k x) -> awake (thr k' x)) /\
  (forall x, x <> t -> error (thr k' x) = error (thr k x)).
Proof.
  intros Hok Ht Hs Hc. cbv zeta. unfold rt_thread_timeout.
  set (k2 := rt_list_remove t (set_error t (- RT_ETIMEOUT) k)).
  set (k3 := rt_schedule_insert_thread t k2).
  assert (thr k2 = thr (set_error t (- RT_ETIMEOUT) k)) as E2 by done.
  assert (kernel_ok k3) as Hok3.
  { pose proof (core_thread k t (proj1 Hok) Ht) as (Hp & Hi & Hm).
    assert (kernel_ok (set_error t (- RT_ETIMEOUT) k)) as Hok1 by (by apply kernel_ok_upd_same).
    assert (thr k2 t = with_error (- RT_ETIMEOUT) (thr k t)) as Et by (rewrite E2; apply thr_upd_same).
    pose proof (insert_fields k2 t) as (F2 & _ & _ & _ & F5 & F6). cbv zeta in *. split.
    - apply insert_core; rewrite ?Et; try done.
      + apply but_remove; [apply Hok1|apply known_upd; by left|]. rewrite <- E2, Et.
        change (state_of (thr k t) <> RT_THREAD_READY). by rewrite Hs.
      + apply (unknown_upd t _ k); [done|apply Hok].
      + apply (known_upd t _ k). by left.
      + cbn [with_error number_mask current_priority]. apply Hm. by rewrite Hs.
    - unfold k3. rewrite F2. destruct (decide (t = rt_current_thread k2)) as [Ec|Hne].
      + rewrite <- Ec, F6, (proj2 (Z.eqb_eq _ _) Ec). done.
      + rewrite F5 by done. apply Hok1. }
  assert (rt_current_thread k3 = rt_current_thread k /\ k_timers k3 = k_timers k /\ rt_tick k3 = rt_tick k)
    as (Ec3 & Em3 & Et3).
  { pose proof (insert_fields k2 t) as (F2 & F3 & F4 & _). done. }
  assert (forall x, thr k3 x = if decide (t = x)
    then to_state (if t =? rt_current_thread k2 then RT_THREAD_RUNNING else RT_THREAD_READY)
           (with_error (- RT_ETIMEOUT) (thr k t)) else thr k x) as Hth3.
  { intros x. unfold k3. rewrite insert_thr, E2. unfold set_error. rewrite thr_upd_same.
    destruct (decide (t = x)); [done|]. by rewrite thr_upd_other. }
  assert (known k3 (rt_current_thread k3)) as Hc3.
  { rewrite Ec3. unfold k3, rt_schedule_insert_thread.
    destruct (t =? rt_current_thread k2); apply (known_upd t _ k2); right; apply (known_upd t _ k); by right. }
  destruct (schedule_keeps k3 Hok3 Hc3) as (Hc' & Em & Et & Hsame & Hsusp & Haw). cbv zeta in *.
  assert (awake (thr k3 t)) as Haw3.
  { rewrite Hth3, decide_True by done. unfold awake.
    destruct (t =? rt_current_thread k2); [right|left]; by apply state_of_to_state. }
  split; [done|]. split; [by rewrite Em|]. split; [by rewrite Et|]. split; [by apply Haw|].
  split; [rewrite (same_error _ _ (Hsame t)), Hth3; by rewrite decide_True|].
  split; [intros x Hx Hxs; apply Hsusp; rewrite Hth3; by rewrite decide_False|].
  split.
  - intros x Hx. apply Haw. destruct (decide (x = t)) as [->|Hne]; [done|].
    rewrite Hth3. by rewrite decide_False.
  - intros x Hx. rewrite (same_error _ _ (Hsame x)), Hth3. by rewrite decide_False.
Qed.

(** ** [rt_timer_check] *)

(** Running timers belong to suspended threads and fire once; one may be
    overdue by the tick that has just passed. *)
Record timers_linked (k : kernel) : Prop := {
  tl_ok : timers_at (-1) (rt_tick k) (k_timers k);
  tl_thread : forall t, t ∈ rt_timer_list (k_timers k) ->
    known k t /\ state_of (thr k t) = RT_THREAD_SUSPEND /\ periodic (tmr (k_timers k) t) = false;
  tl_firing : firing (k_timers k) = [] }.

Lemma timers_expired k t : timers_linked k -> t ∈ rt_timer_list (k_timers k) ->
  expired (rt_tick k) (tmr (k_timers k) t) = (due (rt_tick k) (tmr (k_timers k) t) <=? 0).
Proof.
  intros [Hok _ _] Ht. destruct (to_due _ _ _ Hok t Ht) as [Hd Hto].
  apply expired_due; [apply (to_now _ _ _ Hok)|done|]. change (RT_TICK_MAX / 2) with 2147483647 in Hd. lia.
Qed.

(** The state after one timer has fired. *)
Definition fired (t : Z) (k : kernel) : kernel :=
  let k := timer_op (_rt_timer_remove t) k in
  let k := timer_op (set_activated false t) k in
  let k := timer_op (fun ts => mk_timers (tab ts) (rt_timer_list ts) [t]) k in
  timer_op (_rt_timer_remove t) (rt_thread_timeout t k).

Lemma fired_timers k t l : kernel_ok k -> known k (rt_current_thread k) -> timers_linked k ->
  rt_timer_list (k_timers k) = t :: l ->
  rt_timer_list (k_timers (fired t k)) = l /\ firing (k_timers (fired t k)) = [] /\
  (forall x, due (rt_tick k) (tmr (k_timers (fired t k)) x) = due (rt_tick k) (tmr (k_timers k) x) /\
    timeout_tick (tmr (k_timers (fired t k)) x) = timeout_tick (tmr (k_timers k) x) /\
    periodic (tmr (k_timers (fired t k)) x) = periodic (tmr (k_timers k) x) /\
    (x <> t -> activated (tmr (k_timers (fired t k)) x) = activated (tmr (k_timers k) x))).
Proof.
  intros Hok Hc Htl El.
  destruct (tl_thread _ Htl t ltac:(rewrite El; apply list_elem_of_here)) as (Ht & Hs & Hp).
  unfold fired.
  set (k0 := timer_op (fun ts => mk_timers (tab ts) (rt_timer_list ts) [t])
    (timer_op (set_activated false t) (timer_op (_rt_timer_remove t) k))).
  assert (kernel_ok k0) as Hok0 by (by apply kernel_ok_timers, kernel_ok_timers, kernel_ok_timers).
  destruct (timeout_threads k0 t Hok0 Ht Hs Hc) as (_ & Em & _). cbv zeta in *.
  cbn [k_timers timer_op set_timers]. rewrite Em. cbn [k_timers timer_op set_timers k0].
  pose proof (to_nodup _ _ _ (tl_ok _ Htl)) as Hnd. rewrite El in Hnd.
  apply NoDup_cons in Hnd as [Hnot Hnd].
  assert (filter (fun x => x <> t) l = l) as Ef
    by (apply filter_all, Forall_forall; intros y Hy ->; done).
  split; [|split].
  - change (filter (fun x => x <> t) (filter (fun x => x <> t) (rt_timer_list (k_timers k))) = l).
    rewrite El, filter_cons, decide_False by (by intros ?). by rewrite !Ef.
  - change (filter (fun x => x <> t) [t] = []). by rewrite filter_cons, decide_False by (by intros ?).
  - intros x.
    destruct (tmr_set_activated false t (_rt_timer_remove t (k_timers k)) x) as (A1 & A2 & A3 & A4).
    change (tmr (_rt_timer_remove t _) x) with
      (tmr (set_activated false t (_rt_timer_remove t (k_timers k))) x).
    split; [by apply due_timeout|]. split; [done|]. split; [done|]. intros Hx. rewrite A4.
    by rewrite decide_False.
Qed.

Lemma fired_ok k t l : kernel_ok k -> known k (rt_current_thread k) -> timers_linked k ->
  rt_timer_list (k_timers k) = t :: l ->
  kernel_ok (fired t k) /\ known (fired t k) (rt_current_thread (fired t k)) /\
  rt_tick (fired t k) = rt_tick k /\ timers_linked (fired t k) /\
  awake (thr (fired t k) t) /\ error (thr (fired t k) t) = - RT_ETIMEOUT /\
  (forall x, awake (thr k x) -> awake (thr (fired t k) x)) /\
  (forall x, x <> t -> error (thr (fired t k) x) = error (thr k x)).
Proof.
  intros Hok Hc Htl El.
  destruct (tl_thread _ Htl t ltac:(rewrite El; apply list_elem_of_here)) as (Ht & Hs & Hp).
  destruct (fired_timers k t l Hok Hc Htl El) as (Fl & Ff & Fx).
  set (k0 := timer_op (fun ts => mk_timers (tab ts) (rt_timer_list ts) [t])
    (timer_op (set_activated false t) (timer_op (_rt_timer_remove t) k))).
  assert (kernel_ok k0) as Hok0 by (by apply kernel_ok_timers, kernel_ok_timers, kernel_ok_timers).
  pose proof (timeout_ok k0 t Hok0 Ht Hs Hc) as Hok1.
  destruct (timeout_threads k0 t Hok0 Ht Hs Hc) as (Hc1 & _ & Et & Haw & Her & Hsus & Hawx & Herx).
  cbv zeta in *.
  assert (rt_tick (fired t k) = rt_tick k) as Etick by exact Et.
  split; [by apply kernel_ok_timers|]. split; [exact Hc1|]. split; [done|].
  split; [|done].
  pose proof (to_nodup _ _ _ (tl_ok _ Htl)) as Hnd. rewrite El in Hnd.
  apply NoDup_cons in Hnd as [Hnot Hnd].
  assert (forall x, x ∈ l -> x <> t /\ x ∈ rt_timer_list (k_timers k)) as Hl.
  { intros x Hx. split; [by intros ->|]. rewrite El. by apply list_elem_of_further. }
  split; [|intros x Hx|done].
  - pose proof (to_sorted _ _ _ (tl_ok _ Htl)) as Hsrt. rewrite El in Hsrt.
    inversion Hsrt as [|? ? Hsl _]; subst.
    split; rewrite ?Fl, ?Etick.
    + done.
    + eapply sorted_ext; [|exact Hsl]. intros a b Ha Hb. cbv beta.
      destruct (Fx a) as (-> & _), (Fx b) as (-> & _). done.
    + intros x Hx. destruct (Fx x) as (-> & -> & _). apply (to_due _ _ _ (tl_ok _ Htl)). by apply Hl.
    + intros x Hx. destruct (Fx x) as (_ & _ & _ & ->); [|by apply Hl].
      apply (to_active _ _ _ (tl_ok _ Htl)). by apply Hl.
    + apply (to_now _ _ _ (tl_ok _ Htl)).
  - rewrite Fl in Hx. destruct (Hl x Hx) as [Hne Hxl].
    destruct (tl_thread _ Htl x Hxl) as (Hkx & Hsx & Hpx).
    destruct (Fx x) as (_ & _ & -> & _). split; [|split; [|done]].
    + apply known_of_state. change (thr (fired t k) x) with (thr (rt_thread_timeout t k0) x).
      by rewrite (Hsus x Hne Hsx).
    + by apply Hsus.
Qed.

(** One iteration of the loop. *)
Lemma timer_check_step k t l fuel : kernel_ok k -> known k (rt_current_thread k) ->
  timers_linked k -> rt_timer_list (k_timers k) = t :: l ->
  rt_timer_check (S fuel) k =
    if due (rt_tick k) (tmr (k_timers k) t) <=? 0 then rt_timer_check fuel (fired t k) else Some k.
Proof.
  intros Hok Hc Htl El. cbn [rt_timer_check]. rewrite El.
  assert (t ∈ rt_timer_list (k_timers k)) as Hin by (rewrite El; apply list_elem_of_here).
  rewrite (timers_expired k t Htl Hin). destruct (_ <=? 0); [|done].
  destruct (tl_thread _ Htl t Hin) as (Ht & Hs & Hp). cbv zeta.
  change (periodic (tmr (k_timers (timer_op (_rt_timer_remove t) k)) t))
    with (periodic (tmr (k_timers k) t)). rewrite Hp.
  set (k0 := timer_op (fun ts => mk_timers (tab ts) (rt_timer_list ts) [t])
    (timer_op (set_activated false t) (timer_op (_rt_timer_remove t) k))).
  assert (kernel_ok k0) as Hok0 by (by apply kernel_ok_timers, kernel_ok_timers, kernel_ok_timers).
  destruct (timeout_threads k0 t Hok0 Ht Hs Hc) as (_ & Em & _). cbv zeta in *.
  rewrite decide_False by (by rewrite Em).
  destruct (fired_timers k t l Hok Hc Htl El) as (_ & _ & Fx). destruct (Fx t) as (_ & _ & Hpf & _).
  change (timer_op (_rt_timer_remove t) (rt_thread_timeout t k0)) with (fired t k).
  by rewrite Hpf, Hp.
Qed.

(** The loop ends, having fired exactly the timers that were due, in order. *)
Lemma timer_check_spec fuel : forall k, kernel_ok k -> known k (rt_current_thread k) ->
  timers_linked k -> (length (rt_timer_list (k_timers k)) <= fuel)%nat ->
  exists k' gone, rt_timer_check fuel k = Some k' /\
    rt_timer_list (k_timers k) = gone ++ rt_timer_list (k_timers k') /\
    kernel_ok k' /\ known k' (rt_current_thread k') /\ timers_linked k' /\ rt_tick k' = rt_tick k /\
    Forall (fun t => due (rt_tick k) (tmr (k_timers k) t) <= 0) gone /\
    Forall (fun t => 0 < due (rt_tick k) (tmr (k_timers k) t)) (rt_timer_list (k_timers k')) /\
    (forall t, t ∈ gone -> awake (thr k' t) /\ error (thr k' t) = - RT_ETIMEOUT) /\
    (forall x, awake (thr k x) -> awake (thr k' x)) /\
    (forall x, x ∉ gone -> error (thr k' x) = error (thr k x)) /\
    (forall x, due (rt_tick k) (tmr (k_timers k') x) = due (rt_tick k) (tmr (k_timers k) x) /\
       periodic (tmr (k_timers k') x) = periodic (tmr (k_timers k) x)).
Proof.
  induction fuel as [|fuel IH]; intros k Hok Hc Htl Hlen.
  - destruct (rt_timer_list (k_timers k)) as [|t l] eqn:El; [|cbn in Hlen; lia].
    exists k, []. cbn [rt_timer_check]. rewrite El. split_and!; try done. by intros t ?%not_elem_of_nil.
  - destruct (rt_timer_list (k_timers k)) as [|t l] eqn:El.
    { exists k, []. cbn [rt_timer_check]. rewrite El. split_and!; try done. by intros t ?%not_elem_of_nil. }
    rewrite (timer_check_step k t l fuel Hok Hc Htl El).
    destruct (Z.leb_spec (due (rt_tick k) (tmr (k_timers k) t)) 0) as [Hd|Hd].
    + destruct (fired_ok k t l Hok Hc Htl El) as (Hok1 & Hc1 & Et1 & Htl1 & Haw1 & Her1 & Hawx1 & Herx1).
      destruct (fired_timers k t l Hok Hc Htl El) as (Fl & _ & Fx).
      destruct (IH (fired t k) Hok1 Hc1 Htl1) as
        (k' & gone & E & El' & Hok' & Hc' & Htl' & Et' & F1 & F2 & Hg & Haw & Her & Hdue).
      { rewrite Fl. cbn in Hlen. lia. }
      rewrite Fl in El'. rewrite Et1 in *.
      assert (forall x, due (rt_tick k) (tmr (k_timers (fired t k)) x) =
                        due (rt_tick k) (tmr (k_timers k) x)) as Fd by (intros x; apply Fx).
      pose proof (to_nodup _ _ _ (tl_ok _ Htl)) as Hnd. rewrite El in Hnd.
      apply NoDup_cons in Hnd as [Hnot _].
      assert (t ∉ gone) as Htg by (intros H; apply Hnot; rewrite El'; apply elem_of_app; by left).
      exists k', (t :: gone). rewrite El'. split_and!; try done.
      * constructor; [done|]. eapply Forall_impl; [exact F1|]. intros x Hx. cbn in Hx. by rewrite <- Fd.
      * eapply Forall_impl; [exact F2|]. intros x Hx. cbn in Hx. by rewrite <- Fd.
      * intros x [->|Hx]%elem_of_cons; [|by apply Hg].
        split; [by apply Haw|]. by rewrite Her.
      * intros x Hx. by apply Haw, Hawx1.
      * intros x Hx. rewrite elem_of_cons in Hx. rewrite Her by tauto. apply Herx1. tauto.
      * intros x. destruct (Hdue x) as [-> ->]. rewrite Fd. by destruct (Fx x) as (_ & _ & -> & _).
    + exists k, []. split_and!; try done.
      * rewrite El. pose proof (to_sorted _ _ _ (tl_ok _ Htl)) as Hs. rewrite El in Hs.
        inversion Hs as [|? ? _ Hall]; subst. constructor; [done|].
        eapply Forall_impl; [exact Hall|]. cbn. lia.
      * by intros x ?%not_elem_of_nil.
Qed.

(** ** [rt_tick_increase] *)

Lemma due_tick now r : 0 <= now < 4294967296 -> 0 <= due now r < RT_TICK_MAX / 2 ->
  due (u32 (now + 1)) r = due now r - 1.
Proof. unfold due, s32, u32. change (RT_TICK_MAX / 2) with 2147483647. intros. zlia. Qed.

(** The part of the handler before the timers: the tick and the time slice. *)
Definition tick_slice (k : kernel) : kernel :=
  let k := set_tick (u32 (rt_tick k + 1)) k in
  let t := rt_thread_self k in
  let k := upd_thread t (fun th => with_remaining (u32 (remaining_tick th - 1)) th) k in
  if remaining_tick (thr k t) =? 0 then
    let k := upd_thread t (fun th => with_remaining (init_slice th) th) k in
    let k := upd_thread t (fun th => with_stat (stat th .| RT_THREAD_STAT_YIELD) th) k in
    rt_schedule k
  else k.

Lemma rt_tick_increase_unfold fuel k : rt_tick_increase fuel k = rt_timer_check fuel (tick_slice k).
Proof. done. Qed.

Lemma kernel_ok_set_tick n k : kernel_ok k -> kernel_ok (set_tick n k).
Proof. intros [[[? ? ? ? ? ? ? ? ? ?] ?] ?]. split; [split; [by split|done]|done]. Qed.

Lemma tick_slice_spec k : kernel_ok k -> known k (rt_current_thread k) ->
  let k' := tick_slice k in
  kernel_ok k' /\ known k' (rt_current_thread k') /\ rt_tick k' = u32 (rt_tick k + 1) /\
  k_timers k' = k_timers k /\
  (forall x, error (thr k' x) = error (thr k x)) /\
  (forall x, state_of (thr k x) = RT_THREAD_SUSPEND -> state_of (thr k' x) = RT_THREAD_SUSPEND) /\
  (forall x, awake (thr k x) -> awake (thr k' x)).
Proof.
  intros Hok Hc. cbv zeta. unfold tick_slice.
  set (k1 := set_tick _ k).
  assert (kernel_ok k1) as Hok1 by (by apply kernel_ok_set_tick).
  change (rt_thread_self k1) with (rt_current_thread k). set (c := rt_current_thread k) in *.
  cbv zeta. set (k2 := upd_thread c (fun th => with_remaining (u32 (remaining_tick th - 1)) th) k1).
  assert (kernel_ok k2) as Hok2 by (by apply kernel_ok_upd_same).
  assert (known k2 c) as Hc2 by (apply known_upd; by left).
  assert (forall x, error (thr k2 x) = error (thr k x) /\ state_of (thr k2 x) = state_of (thr k x)) as H2.
  { intros x. unfold k2. rewrite thr_upd. by destruct (decide (c = x)) as [<-|]. }
  unfold awake.
  destruct (remaining_tick (thr k2 c) =? 0).
  - set (k3 := upd_thread c (fun th => with_remaining (init_slice th) th) k2).
    assert (kernel_ok k3) as Hok3 by (by apply kernel_ok_upd_same).
    assert (known k3 c) as Hc3 by (apply known_upd; by left).
    set (k4 := upd_thread c (fun th => with_stat (stat th .| RT_THREAD_STAT_YIELD) th) k3).
    assert (kernel_ok k4) as Hok4 by (apply kernel_ok_upd_same; try done; apply state_of_yield_on).
    assert (known k4 c) as Hc4 by (apply known_upd; by left).
    assert (forall x, error (thr k4 x) = error (thr k x) /\ state_of (thr k4 x) = state_of (thr k x)) as H4.
    { intros x. unfold k4. rewrite thr_upd. destruct (decide (c = x)) as [<-|].
      - rewrite state_of_yield_on. unfold k3. rewrite thr_upd_same. apply H2.
      - unfold k3. rewrite thr_upd_other by done. apply H2. }
    destruct (schedule_keeps k4 Hok4 Hc4) as (Hck & Etm & Et & Hs & Hsus & Haw). cbv zeta in *.
    split; [by apply schedule_ok|]. split; [done|]. split; [by rewrite Et|]. split; [by rewrite Etm|].
    split; [intros x; rewrite (same_error _ _ (Hs x)); apply H4|].
    split; intros x Hx; [apply Hsus|apply Haw; unfold awake]; destruct (H4 x) as [_ ->]; done.
  - split; [done|]. split; [done|]. split; [done|]. split; [done|].
    split; [intros x; apply H2|]. split; intros x; destruct (H2 x) as [_ ->]; done.
Qed.

(** The timers come one tick closer. *)
Lemma tick_slice_timers k : kernel_ok k -> known k (rt_current_thread k) -> timers_linked k ->
  (forall t, t ∈ rt_timer_list (k_timers k) -> 0 <= due (rt_tick k) (tmr (k_timers k) t)) ->
  (forall t, t ∈ rt_timer_list (k_timers k) ->
     due (rt_tick (tick_slice k)) (tmr (k_timers k) t) = due (rt_tick k) (tmr (k_timers k) t) - 1) /\
  timers_linked (tick_slice k).
Proof.
  intros Hok Hc Htl Hpos.
  destruct (tick_slice_spec k Hok Hc) as (Hok1 & Hc1 & Et1 & Em1 & Her1 & Hs1 & Haw1). cbv zeta in *.
  pose proof (to_now _ _ _ (tl_ok _ Htl)) as Hnow.
  assert (forall t, t ∈ rt_timer_list (k_timers k) ->
    due (rt_tick (tick_slice k)) (tmr (k_timers k) t) = due (rt_tick k) (tmr (k_timers k) t) - 1) as Hd.
  { intros t Ht. rewrite Et1. apply due_tick; [done|]. split; [by apply Hpos|].
    apply (to_due _ _ _ (tl_ok _ Htl) t Ht). }
  split; [done|]. split; rewrite ?Em1; [| |apply Htl].
  - destruct (tl_ok _ Htl) as [Hnd Hsrt Hdue Hact _]. split; try done.
    + eapply sorted_ext; [|exact Hsrt]. intros a b Ha Hb. cbv beta. rewrite !Hd by done. lia.
    + intros t Ht. rewrite Hd by done. destruct (Hdue t Ht). split; [|done].
      pose proof (Hpos t Ht). lia.
    + rewrite Et1. apply u32_range.
  - intros t Ht. destruct (tl_thread _ Htl t Ht) as (Hk & Hst & Hp).
    split; [|split; [by apply Hs1|done]]. apply known_of_state. by rewrite (Hs1 t Hst).
Qed.

(** One tick: exactly the timers due now fire, the others come one tick
    closer. *)
Lemma tick_spec k fuel : kernel_ok k -> known k (rt_current_thread k) -> timers_linked k ->
  (forall t, t ∈ rt_timer_list (k_timers k) -> 0 <= due (rt_tick k) (tmr (k_timers k) t)) ->
  (length (rt_timer_list (k_timers k)) <= fuel)%nat ->
  exists k', rt_tick_increase fuel k = Some k' /\ kernel_ok k' /\ timers_linked k' /\
    known k' (rt_current_thread k') /\ rt_tick k' = u32 (rt_tick k + 1) /\
    (forall t, t ∈ rt_timer_list (k_timers k) ->
      if due (rt_tick k) (tmr (k_timers k) t) <=? 1
      then awake (thr k' t) /\ error (thr k' t) = - RT_ETIMEOUT /\ t ∉ rt_timer_list (k_timers k')
      else t ∈ rt_timer_list (k_timers k') /\ error (thr k' t) = error (thr k t) /\
           due (rt_tick k') (tmr (k_timers k') t) = due (rt_tick k) (tmr (k_timers k) t) - 1) /\
    (forall t, t ∈ rt_timer_list (k_timers k') -> 0 <= due (rt_tick k') (tmr (k_timers k') t)) /\
    (forall t, periodic (tmr (k_timers k') t) = periodic (tmr (k_timers k) t)).
Proof.
  intros Hok Hc Htl Hpos Hfuel. rewrite rt_tick_increase_unfold.
  destruct (tick_slice_spec k Hok Hc) as (Hok1 & Hc1 & Et1 & Em1 & Her1 & Hs1 & Haw1). cbv zeta in *.
  destruct (tick_slice_timers k Hok Hc Htl Hpos) as [Hd Htl1].
  destruct (timer_check_spec fuel (tick_slice k)) as
    (k' & gone & E & El & Hok' & Hc' & Htl' & Et' & F1 & F2 & Hg & _ & Her & Hdue); try done.
  { by rewrite Em1. }
  rewrite Em1 in El, F1, F2, Hdue.
  exists k'. split; [done|]. split; [done|]. split; [done|]. split; [done|].
  split; [by rewrite Et'|]. split; [|split].
  2: { intros t Ht. rewrite Et'. destruct (Hdue t) as [-> _]. rewrite Forall_forall in F2.
       specialize (F2 t Ht). cbv beta in F2. lia. }
  2: { intros t. apply Hdue. }
  intros t Ht.
  pose proof (to_nodup _ _ _ (tl_ok _ Htl)) as Hnd. rewrite El in Hnd, Ht.
  apply NoDup_app in Hnd as (_ & Hdisj & _).
  rewrite Forall_forall in F1, F2. apply elem_of_app in Ht as [Ht|Ht].
  - pose proof (F1 t Ht) as H1. cbv beta in H1.
    rewrite Hd in H1 by (rewrite El; apply elem_of_app; by left).
    rewrite (proj2 (Z.leb_le _ _)) by lia. destruct (Hg t Ht). split; [done|]. split; [done|].
    by apply Hdisj.
  - pose proof (F2 t Ht) as H1. cbv beta in H1.
    rewrite Hd in H1 by (rewrite El; apply elem_of_app; by right).
    rewrite (proj2 (Z.leb_gt _ _)) by lia. split; [done|]. split.
    + rewrite Her; [apply Her1|]. intros Hgone. by apply (Hdisj t Hgone).
    + rewrite Et'. destruct (Hdue t) as [-> _]. apply Hd. rewrite El. apply elem_of_app. by right.
Qed.

(** ** Milliseconds *)

(** A tick is a millisecond, so a wait is neither shortened nor stretched; a
    negative one is the longest there is. *)
Lemma tick_from_millisecond_eq ms : -2147483648 <= ms < 2147483648 ->
  rt_tick_from_millisecond ms = if ms <? 0 then RT_TICK_MAX else ms.
Proof.
  intros H. unfold rt_tick_from_millisecond, RT_TICK_PER_SECOND, RT_TICK_MAX. case_Z; [done|].
  rewrite Z.quot_div_nonneg, Z.rem_mod_nonneg by lia. pose proof (Z.mod_pos_bound ms 1000).
  rewrite Z.quot_div_nonneg by lia. rewrite (u32_small (1000 * _)) by zlia. rewrite u32_small by zlia. zlia.
Qed.
Lemma millisecond_roundtrip k : 0 <= rt_tick k < 2147483648 ->
  rt_tick_from_millisecond (rt_tick_get_millisecond k) = rt_tick_get k.
Proof.
  intros H. unfold rt_tick_get_millisecond, rt_tick_get. change (1000 / RT_TICK_PER_SECOND) with 1.
  rewrite Z.mul_1_r, u32_small, tick_from_millisecond_eq by lia. by rewrite (proj2 (Z.ltb_ge _ _)) by lia.
Qed.
