(* ===== verification/Ipc.v ===== *)
(** * Ipc: suspend lists, semaphores, mutexes and events

    [rt-thread/src/ipc.c].  An object is known by an identifier naming its
    suspend list; its own fields are a record passed along with the kernel.  A
    call that may block returns [Blocked] at its call of [rt_schedule]; the
    [_end] functions are what runs when the thread is current again. *)
From S2P Require Import Prelude Timer Kernel.

Definition RT_IPC_FLAG_FIFO : Z := 0.
Definition RT_IPC_FLAG_PRIO : Z := 1.
Definition RT_SEM_VALUE_MAX : Z := 65535.
Definition RT_MUTEX_VALUE_MAX : Z := 65535.
Definition RT_MUTEX_HOLD_MAX : Z := 255.

Inductive outcome := Done (e : Z) | Blocked.

Inductive ipc_cmd := RT_IPC_CMD_RESET | RT_IPC_CMD_OTHER.

(** ** Suspend lists *)

(** The position [RT_IPC_FLAG_PRIO] looks for: before the first thread of
    lower priority. *)
Fixpoint prio_insert (k : kernel) (t : Z) (l : list Z) : list Z :=
  match l with
  | [] => [t]
  | x :: l =>
      if current_priority (thr k t) <? current_priority (thr k x) then t :: x :: l
      else x :: prio_insert k t l
  end.

Definition rt_ipc_list_suspend (h : qname) (t flag : Z) (k : kernel) : kernel :=
  let k := fst (rt_thread_suspend t k) in
  if flag =? RT_IPC_FLAG_FIFO then rt_list_insert_before h t k
  else if flag =? RT_IPC_FLAG_PRIO then
    set_queues (<[h := prio_insert k t (queue k h)]> (queues k)) k
  else k.

Definition rt_ipc_list_resume (h : qname) (k : kernel) : kernel :=
  fst (rt_thread_resume (hd RT_NULL (queue k h)) k).

(** The [while (!rt_list_isempty(list))] loop; [None] when the fuel is out. *)
Fixpoint resume_all_loop (fuel : nat) (h : qname) (k : kernel) : option kernel :=
  match queue k h with
  | [] => Some k
  | t :: _ =>
      match fuel with
      | O => None
      | S fuel => resume_all_loop fuel h (fst (rt_thread_resume t (set_error t (- RT_ERROR) k)))
      end
  end.
Definition rt_ipc_list_resume_all (h : qname) (k : kernel) : option kernel :=
  resume_all_loop (length (queue k h)) h k.

(** "Has waiting time, start thread timer". *)
Definition wait_timer (t time : Z) (k : kernel) : kernel :=
  if time >? 0 then start_thread_timer t time k else k.

(** The value a blocked call returns once its thread runs again. *)
Definition blocked_end (t : Z) (k : kernel) : Z := error (thr k t).

(** ** Semaphores *)

Record rt_semaphore := mk_sem { sem_value : Z; sem_flag : Z }.

(** [rt_ipc_object_init]: an empty suspend list. *)
Definition rt_ipc_object_init (o : Z) (k : kernel) : kernel :=
  set_queues (<[Suspended o := []]> (queues k)) k.

Definition rt_sem_init (o value flag : Z) (k : kernel) : kernel * rt_semaphore * Z :=
  (rt_ipc_object_init o k, mk_sem (u16 value) flag, RT_EOK).

(** Waking everybody is all [rt_sem_detach] and [rt_sem_delete] do before the
    object goes. *)
Definition rt_sem_detach (o : Z) (k : kernel) : option (kernel * Z) :=
  k ← rt_ipc_list_resume_all (Suspended o) k; Some (k, RT_EOK).

Definition rt_sem_create (alloc : option Z) (value flag : Z) (k : kernel)
    : kernel * option (Z * rt_semaphore) :=
  match alloc with
  | None => (k, None)
  | Some o => (rt_ipc_object_init o k, Some (o, mk_sem (u16 value) flag))
  end.

Definition rt_sem_delete (o : Z) (k : kernel) : option (kernel * Z) :=
  k ← rt_ipc_list_resume_all (Suspended o) k; Some (k, RT_EOK).

Definition rt_sem_take (o time : Z) (k : kernel) (s : rt_semaphore)
    : kernel * rt_semaphore * outcome :=
  if sem_value s >? 0 then (k, mk_sem (u16 (sem_value s - 1)) (sem_flag s), Done RT_EOK)
  else if time =? 0 then (k, s, Done (- RT_ETIMEOUT))
  else
    let t := rt_thread_self k in
    let k := set_error t RT_EOK k in
    let k := rt_ipc_list_suspend (Suspended o) t (sem_flag s) k in
    let k := wait_timer t time k in
    (rt_schedule k, s, Blocked).

Definition rt_sem_trytake (o : Z) (k : kernel) (s : rt_semaphore) := rt_sem_take o 0 k s.

Definition rt_sem_release (o : Z) (k : kernel) (s : rt_semaphore)
    : kernel * rt_semaphore * Z :=
  match queue k (Suspended o) with
  | _ :: _ =>
      let k := rt_ipc_list_resume (Suspended o) k in
      (rt_schedule k, s, RT_EOK)
  | [] =>
      if sem_value s <? RT_SEM_VALUE_MAX
      then (k, mk_sem (u16 (sem_value s + 1)) (sem_flag s), RT_EOK)
      else (k, s, - RT_EFULL)
  end.

Definition rt_sem_control (o : Z) (cmd : ipc_cmd) (value : Z) (k : kernel) (s : rt_semaphore)
    : option (kernel * rt_semaphore * Z) :=
  match cmd with
  | RT_IPC_CMD_RESET =>
      k ← rt_ipc_list_resume_all (Suspended o) k;
      Some (rt_schedule k, mk_sem (u16 value) (sem_flag s), RT_EOK)
  | RT_IPC_CMD_OTHER => Some (k, s, - RT_ERROR)
  end.

(** ** Mutexes *)

Record rt_mutex := mk_mutex { m_value : Z; m_owner : Z; original_priority : Z; hold : Z }.

(** A mutex always queues by priority, whatever [flag] says. *)
Definition rt_mutex_init (o : Z) (k : kernel) : kernel * rt_mutex * Z :=
  (rt_ipc_object_init o k, mk_mutex 1 RT_NULL 0xff 0, RT_EOK).

Definition rt_mutex_detach (o : Z) (k : kernel) : option (kernel * Z) :=
  k ← rt_ipc_list_resume_all (Suspended o) k; Some (k, RT_EOK).

Definition rt_mutex_create (alloc : option Z) (k : kernel) : kernel * option (Z * rt_mutex) :=
  match alloc with
  | None => (k, None)
  | Some o => (rt_ipc_object_init o k, Some (o, mk_mutex 1 RT_NULL 0xff 0))
  end.

Definition rt_mutex_delete (o : Z) (k : kernel) : option (kernel * Z) :=
  k ← rt_ipc_list_resume_all (Suspended o) k; Some (k, RT_EOK).

Definition rt_mutex_take (o time : Z) (k : kernel) (m : rt_mutex) : kernel * rt_mutex * outcome :=
  let t := rt_thread_self k in
  let k := set_error t RT_EOK k in
  if m_owner m =? t then
    if hold m <? RT_MUTEX_HOLD_MAX
    then (k, mk_mutex (m_value m) (m_owner m) (original_priority m) (hold m + 1), Done RT_EOK)
    else (k, m, Done (- RT_EFULL))
  else if m_value m >? 0 then
    let m := mk_mutex (m_value m - 1) t (current_priority (thr k t)) (hold m) in
    if hold m <? RT_MUTEX_HOLD_MAX
    then (k, mk_mutex (m_value m) (m_owner m) (original_priority m) (hold m + 1), Done RT_EOK)
    else (k, m, Done (- RT_EFULL))
  else if time =? 0 then (set_error t (- RT_ETIMEOUT) k, m, Done (- RT_ETIMEOUT))
  else
    let p := current_priority (thr k t) in
    let k := if p <? current_priority (thr k (m_owner m))
             then change_priority (m_owner m) p k else k in
    let k := rt_ipc_list_suspend (Suspended o) t RT_IPC_FLAG_PRIO k in
    let k := wait_timer t time k in
    (rt_schedule k, m, Blocked).

Definition rt_mutex_trytake (o : Z) (k : kernel) (m : rt_mutex) := rt_mutex_take o 0 k m.

Definition rt_mutex_release (o : Z) (k : kernel) (m : rt_mutex) : kernel * rt_mutex * Z :=
  let t := rt_thread_self k in
  if negb (t =? m_owner m) then (set_error t (- RT_ERROR) k, m, - RT_ERROR)
  else
    let m := mk_mutex (m_value m) (m_owner m) (original_priority m) (u8 (hold m - 1)) in
    if hold m =? 0 then
      let k := if negb (original_priority m =? current_priority (thr k (m_owner m)))
               then change_priority (m_owner m) (original_priority m) k else k in
      match queue k (Suspended o) with
      | w :: _ =>
          let m := mk_mutex (m_value m) w (current_priority (thr k w)) (hold m) in
          if hold m <? RT_MUTEX_HOLD_MAX then
            let m := mk_mutex (m_value m) (m_owner m) (original_priority m) (hold m + 1) in
            (rt_schedule (rt_ipc_list_resume (Suspended o) k), m, RT_EOK)
          else (k, m, - RT_EFULL)
      | [] =>
          if m_value m <? RT_MUTEX_VALUE_MAX
          then (k, mk_mutex (m_value m + 1) RT_NULL 0xff (hold m), RT_EOK)
          else (k, m, - RT_EFULL)
      end
    else (k, m, RT_EOK).

Definition rt_mutex_control (m : rt_mutex) : rt_mutex * Z := (m, - RT_ERROR).

(** ** Events *)

Definition RT_EVENT_FLAG_AND : Z := 1.
Definition RT_EVENT_FLAG_OR : Z := 2.
Definition RT_EVENT_FLAG_CLEAR : Z := 4.

Record rt_event := mk_event { e_set : Z; e_flag : Z }.

Definition has (flags f : Z) : bool := negb (flags .& f =? 0).

Definition rt_event_init (o flag : Z) (k : kernel) : kernel * rt_event * Z :=
  (rt_ipc_object_init o k, mk_event 0 flag, RT_EOK).

Definition rt_event_detach (o : Z) (k : kernel) : option (kernel * Z) :=
  k ← rt_ipc_list_resume_all (Suspended o) k; Some (k, RT_EOK).

Definition rt_event_create (alloc : option Z) (flag : Z) (k : kernel)
    : kernel * option (Z * rt_event) :=
  match alloc with
  | None => (k, None)
  | Some o => (rt_ipc_object_init o k, Some (o, mk_event 0 flag))
  end.

Definition rt_event_delete (o : Z) (k : kernel) : option (kernel * Z) :=
  k ← rt_ipc_list_resume_all (Suspended o) k; Some (k, RT_EOK).

(** What the loop of [rt_event_send] finds for a waiting thread: nothing, the
    [event_set] it leaves in the thread, or neither AND nor OR. *)
Inductive event_match := NoMatch | Match (event_set : Z) | BadOption.

Definition event_test (set ev_set ev_info : Z) : event_match :=
  if has ev_info RT_EVENT_FLAG_AND then
    if ev_set .& set =? ev_set then Match ev_set else NoMatch
  else if has ev_info RT_EVENT_FLAG_OR then
    if negb (ev_set .& set =? 0) then Match (ev_set .& set) else NoMatch
  else BadOption.

(** The loop over the suspended threads, in list order; the result is the new
    kernel, the new set, whether a thread was resumed, and the early error. *)
Fixpoint event_send_loop (l : list Z) (k : kernel) (set : Z) (need : bool)
    : kernel * Z * bool * option Z :=
  match l with
  | [] => (k, set, need, None)
  | t :: l =>
      match event_test set (event_set (thr k t)) (event_info (thr k t)) with
      | BadOption => (k, set, need, Some (- RT_EINVAL))
      | NoMatch => event_send_loop l k set need
      | Match es =>
          let k := upd_thread t (fun th => with_event es (event_info th) th) k in
          let set := if has (event_info (thr k t)) RT_EVENT_FLAG_CLEAR
                     then Z.ldiff set (event_set (thr k t)) else set in
          event_send_loop l (fst (rt_thread_resume t k)) set true
      end
  end.

Definition rt_event_send (o set : Z) (k : kernel) (e : rt_event) : kernel * rt_event * Z :=
  if set =? 0 then (k, e, - RT_ERROR)
  else
    let s := e_set e .| set in
    let '(k, s, need, err) := event_send_loop (queue k (Suspended o)) k s false in
    let e := mk_event s (e_flag e) in
    match err with
    | Some r => (k, e, r)
    | None => (if need then rt_schedule k else k, e, RT_EOK)
    end.

(** The third component is [*recved] when it is written. *)
Definition rt_event_recv (o set opt timeout : Z) (k : kernel) (e : rt_event)
    : kernel * rt_event * outcome * option Z :=
  if set =? 0 then (k, e, Done (- RT_ERROR), None)
  else
    let t := rt_thread_self k in
    let k := set_error t RT_EOK k in
    let received :=
      if has opt RT_EVENT_FLAG_AND then e_set e .& set =? set
      else if has opt RT_EVENT_FLAG_OR then negb (e_set e .& set =? 0)
      else false in
    if received then
      let got := e_set e .& set in
      let k := upd_thread t (with_event got opt) k in
      let s := if has opt RT_EVENT_FLAG_CLEAR then Z.ldiff (e_set e) set else e_set e in
      (k, mk_event s (e_flag e), Done (error (thr k t)), Some got)
    else if timeout =? 0 then (set_error t (- RT_ETIMEOUT) k, e, Done (- RT_ETIMEOUT), None)
    else
      let k := upd_thread t (with_event set opt) k in
      let k := rt_ipc_list_suspend (Suspended o) t (e_flag e) k in
      let k := wait_timer t timeout k in
      (rt_schedule k, e, Blocked, None).

Definition rt_event_recv_end (t : Z) (k : kernel) : Z * option Z :=
  if negb (error (thr k t) =? RT_EOK) then (error (thr k t), None)
  else (error (thr k t), Some (event_set (thr k t))).

Definition rt_event_control (o : Z) (cmd : ipc_cmd) (k : kernel) (e : rt_event)
    : option (kernel * rt_event * Z) :=
  match cmd with
  | RT_IPC_CMD_RESET =>
      k ← rt_ipc_list_resume_all (Suspended o) k;
      Some (rt_schedule k, mk_event 0 (e_flag e), RT_EOK)
  | RT_IPC_CMD_OTHER => Some (k, e, - RT_ERROR)
  end.
