(* ===== verification/IpcInv.v ===== *)
(** * IpcInv: blocking and waking

    The suspend lists keep the scheduler's invariant, first-come or by
    priority; semaphores refine a counting semaphore with a queue of waiters;
    what the calls that wait in a loop share. *)
From S2P Require Import Prelude Timer Kernel KernelInv KernelOps Ipc.
From Stdlib Require Import Sorted.

(** ** Lists other than the ready lists under scheduling *)

Lemma filter_absent (c : Z) (l : list Z) : c ∉ l -> filter (fun x => x <> c) l = l.
Proof. intros Hcl. apply filter_all, Forall_forall. intros x Hx ->. done. Qed.

Definition waiting_list (h : qname) : Prop :=
  match h with Ready _ => False | _ => True end.

Lemma schedule_queue k h : kernel_ok k -> known k (rt_current_thread k) -> waiting_list h ->
  queue (rt_schedule k) h = queue k h.
Proof.
  intros Hok Hc Hh.
  destruct (decide (rt_scheduler_lock_nest k = 0)) as [Hl|Hl]; [|by rewrite schedule_off by (by left)].
  destruct (decide (rt_thread_ready_priority_group k = 0)) as [Hg|Hg];
    [by rewrite schedule_off by (by right)|].
  pose proof (schedule_unfold k Hl Hg) as Hu. cbv zeta in Hu.
  destruct Hok as [Hcore Hcur].
  destruct (highest_spec k Hcore Hg) as (n & p & rest & Eh & _ & Eq & _). rewrite Eh in Hu.
  assert (n ∈ queue k (Ready p)) as Hn by (rewrite Eq; apply list_elem_of_here).
  pose proof filter_absent as Hf.
  assert (n ∉ queue k h) as Hnh.
  { intros H. pose proof (bt_one _ _ (proj1 Hcore) n _ _ Hn H) as <-. done. }
  assert (rt_current_thread k ∉ queue k h \/ state_of (thr k (rt_current_thread k)) <> RT_THREAD_RUNNING)
    as Hcl.
  { destruct (decide (state_of (thr k (rt_current_thread k)) = RT_THREAD_RUNNING)) as [Hr|]; [|by right].
    left. by apply core_no_list. }
  assert (n <> rt_current_thread k) as Hnc.
  { intros ->. by destruct (bt_in _ _ (proj1 Hcore) _ _ Hn) as (_ & _ & ? & _). }
  rewrite (proj2 (Z.eqb_neq _ _)), orb_false_r in Hu by done.
  rewrite Hu. destruct (stays k) eqn:Est.
  - unfold stays in Est. apply andb_true_iff in Est as [Hr _]. rewrite Hr. apply Z.eqb_eq in Hr.
    rewrite queue_upd. pose proof (remove_fields) as Hrf.
    destruct (Hrf (upd_thread (rt_current_thread k)
      (fun th => with_stat (Z.ldiff (stat th) RT_THREAD_STAT_YIELD) th) k) (rt_current_thread k))
      as (_ & _ & _ & _ & _ & ->).
    rewrite queue_upd. apply Hf. by apply core_no_list.
  - rewrite queue_upd.
    match goal with |- queue (rt_schedule_remove_thread n ?K) h = _ => set (k3 := K) end.
    destruct (remove_fields k3 n) as (_ & _ & _ & _ & _ & ->).
    assert (queue k3 h = queue k h) as ->; [|by apply Hf].
    unfold k3. destruct (state_of (thr k (rt_current_thread k)) =? RT_THREAD_RUNNING); [|done].
    unfold rt_schedule_insert_thread. cbn [rt_current_thread set_current].
    rewrite (proj2 (Z.eqb_neq (rt_current_thread k) n)) by done. cbv zeta.
    match goal with |- queue (set_group _ (rt_list_insert_before ?R ?c ?K)) h = _ =>
      change (queue (rt_list_insert_before R c K) h = queue k h) end.
    rewrite queue_append, decide_False; [done|]. by intros <-.
Qed.

(** ** [rt_ipc_list_suspend] *)

(** The order a list is kept in: by priority, first-come among equals. *)
Definition by_priority (k : kernel) (l : list Z) : Prop :=
  StronglySorted (fun a b => current_priority (thr k a) <= current_priority (thr k b)) l.

Lemma prio_insert_split k t l :
  exists l1 l2, prio_insert k t l = l1 ++ t :: l2 /\ l = l1 ++ l2 /\
    Forall (fun x => current_priority (thr k x) <= current_priority (thr k t)) l1 /\
    match l2 with [] => True | x :: _ => current_priority (thr k t) < current_priority (thr k x) end.
Proof.
  induction l as [|x l IH]; [by exists [], []|]. cbn.
  destruct (Z.ltb_spec (current_priority (thr k t)) (current_priority (thr k x))) as [H|H].
  - by exists [], (x :: l).
  - destruct IH as (l1 & l2 & E1 & E2 & F1 & F2). exists (x :: l1), l2.
    rewrite E1, E2. split; [done|]. split; [done|]. by split; [constructor|].
Qed.

Lemma prio_insert_sorted k t l : by_priority k l -> by_priority k (prio_insert k t l).
Proof.
  intros Hs. destruct (prio_insert_split k t l) as (l1 & l2 & E1 & E2 & F1 & F2).
  rewrite E1. unfold by_priority in *. rewrite E2 in Hs. apply sorted_insert; [done|done|].
  destruct l2 as [|x l2]; [constructor|].
  assert (StronglySorted (fun a b => current_priority (thr k a) <= current_priority (thr k b)) (x :: l2))
    as Hs2.
  { clear -Hs. induction l1 as [|y l1 IH]; [done|]. inversion Hs; subst. by apply IH. }
  inversion Hs2 as [|? ? _ Hx]; subst. constructor; [lia|].
  eapply Forall_impl; [exact Hx|]. cbn. lia.
Qed.

(** The list after a thread has been queued. *)
Definition queued (k : kernel) (t flag : Z) (l : list Z) : list Z :=
  if flag =? RT_IPC_FLAG_FIFO then l ++ [t] else prio_insert k t l.

Lemma list_suspend_spec k h flag : let t := rt_current_thread k in
  kernel_ok k -> known k t -> state_of (thr k t) = RT_THREAD_RUNNING ->
  (exists o, h = Suspended o \/ h = Senders o) ->
  flag = RT_IPC_FLAG_FIFO \/ flag = RT_IPC_FLAG_PRIO ->
  let k' := rt_ipc_list_suspend h t flag k in
  kernel_ok k' /\ rt_current_thread k' = t /\ known k' t /\ rt_tick k' = rt_tick k /\
  rt_scheduler_lock_nest k' = rt_scheduler_lock_nest k /\
  state_of (thr k' t) = RT_THREAD_SUSPEND /\ same_but_stat (thr k' t) (thr k t) /\
  (forall x, x <> t -> thr k' x = thr k x) /\
  queue k' h = queued k t flag (queue k h) /\
  (forall h', h' <> h -> queue k' h' = queue k h') /\
  k_timers k' = fst (rt_timer_stop t (k_timers k)).
Proof.
  intros t Hok Ht Hs Hh Hflag. cbv zeta. unfold rt_ipc_list_suspend.
  destruct (suspend_spec k t Hok Ht (or_intror Hs)) as
    (k1 & E & Hb & Hno & Hk1 & Hth & Et & Hoth & Hkn & Ecur & Etick & Elock & Etm & Hq).
  rewrite E. cbn [fst].
  assert (state_of (thr k1 t) = RT_THREAD_SUSPEND) as Es by (rewrite Et; by apply state_of_to_state).
  assert (forall h, queue k1 h = queue k h) as Hq1.
  { intros h'. rewrite Hq. apply filter_all, Forall_forall. intros x Hx ->.
    by apply (core_no_list k t (proj1 Hok) Hs h'). }
  assert (listed (thr k1 t) h) as Hl by (destruct Hh as [o [-> | ->]]; done).
  assert (prio_insert k1 t (queue k1 h) = prio_insert k t (queue k1 h)) as Epi.
  { assert (forall x, current_priority (thr k1 x) = current_priority (thr k x)) as Hp.
    { intros x. destruct (decide (x = t)) as [->|]; [by rewrite Et|by rewrite Hoth]. }
    generalize (queue k1 h). intros l. induction l as [|x l IH]; [done|]. cbn. by rewrite !Hp, IH. }
  assert (exists l1 l2, queue k1 h = l1 ++ l2 /\ queued k t flag (queue k1 h) = l1 ++ t :: l2)
    as (l1 & l2 & El & Elq).
  { unfold queued. destruct Hflag as [-> | ->]; cbn [Z.eqb RT_IPC_FLAG_FIFO RT_IPC_FLAG_PRIO].
    - exists (queue k1 h), []. by rewrite app_nil_r.
    - destruct (prio_insert_split k t (queue k1 h)) as (l1 & l2 & H1 & H2 & _). by exists l1, l2. }
  assert ((if flag =? RT_IPC_FLAG_FIFO then rt_list_insert_before h t k1
    else if flag =? RT_IPC_FLAG_PRIO
         then set_queues (<[h := prio_insert k1 t (queue k1 h)]> (queues k1)) k1 else k1)
    = put_in h (l1 ++ t :: l2) k1) as ->.
  { rewrite <- Elq. unfold queued, put_in. rewrite <- Epi.
    by destruct Hflag as [-> | ->]. }
  assert (kernel_ok (put_in h (l1 ++ t :: l2) k1)) as Hok'.
  { split.
    - apply (but_put k1 t h l1 l2 (rt_thread_ready_priority_group k1)); try done; [by rewrite Es|].
      by destruct Hh as [o [-> | ->]].
    - change (state_of (thr k1 (rt_current_thread k1)) <> RT_THREAD_READY). rewrite Ecur. fold t.
      by rewrite Es. }
  split; [done|]. split; [done|]. split; [done|]. split; [done|]. split; [done|]. split; [done|].
  split; [change (same_but_stat (thr k1 t) (thr k t)); by rewrite Et|].
  split; [done|]. split.
  { rewrite queue_put_in, decide_True by done. by rewrite <- Hq1, Elq. }
  split; [|done]. intros h' Hne. rewrite queue_put_in, decide_False by congruence. apply Hq1.
Qed.

(** ** Blocking and waking *)

Lemma wait_timer_fields t time k : let k' := wait_timer t time k in
  threads k' = threads k /\ queues k' = queues k /\ rt_current_thread k' = rt_current_thread k /\
  rt_scheduler_lock_nest k' = rt_scheduler_lock_nest k /\ rt_tick k' = rt_tick k.
Proof. cbv zeta. unfold wait_timer. by destruct (time >? 0). Qed.

Lemma wait_timer_ok t time k : kernel_ok k -> kernel_ok (wait_timer t time k).
Proof.
  intros H. unfold wait_timer. destruct (time >? 0); [|done]. by apply kernel_ok_timers, kernel_ok_timers.
Qed.

(** What the running thread may assume when it calls into the kernel. *)
Record running_ok (k : kernel) : Prop := {
  ro_ok : kernel_ok k;
  ro_known : known k (rt_current_thread k);
  ro_running : state_of (thr k (rt_current_thread k)) = RT_THREAD_RUNNING }.

(** A thread that has started and not ended. *)
Definition alive (th : rt_thread) : Prop := awake th \/ state_of th = RT_THREAD_SUSPEND.

Lemma alive_live th : alive th -> live (state_of th).
Proof. by intros [[-> | ->]| ->]. Qed.

Lemma schedule_alive k : kernel_ok k -> known k (rt_current_thread k) ->
  forall x, alive (thr k x) -> alive (thr (rt_schedule k) x).
Proof.
  intros Hok Hc x. destruct (schedule_keeps k Hok Hc) as (_ & _ & _ & _ & Hsus & Haw).
  intros [H|H]; [left; by apply Haw|right; by apply Hsus].
Qed.

(** The tail every blocking call shares. *)
Definition block (h : qname) (t flag time : Z) (k : kernel) : kernel :=
  rt_schedule (wait_timer t time (rt_ipc_list_suspend h t flag k)).

Lemma block_spec k h flag time : let t := rt_current_thread k in
  running_ok k -> (exists o, h = Suspended o \/ h = Senders o) ->
  flag = RT_IPC_FLAG_FIFO \/ flag = RT_IPC_FLAG_PRIO ->
  let k' := block h t flag time k in
  kernel_ok k' /\ known k' (rt_current_thread k') /\
  state_of (thr k' t) = RT_THREAD_SUSPEND /\ same_but_stat (thr k' t) (thr k t) /\
  (forall x, same_but_stat (thr k' x) (thr k x)) /\
  queue k' h = queued k t flag (queue k h) /\
  (forall h', waiting_list h' -> h' <> h -> queue k' h' = queue k h') /\
  (forall x, alive (thr k x) -> alive (thr k' x)).
Proof.
  intros t [Hok Hc Hs] Hh Hflag. cbv zeta. unfold block.
  destruct (list_suspend_spec k h flag Hok Hc Hs Hh Hflag)
    as (Hok1 & Ec1 & Hk1 & Et1 & El1 & Hs1 & Hsame1 & Hoth1 & Hq1 & Hqo1 & _). cbv zeta in *.
  fold t in Hok1, Ec1, Hk1, Et1, El1, Hs1, Hsame1, Hoth1, Hq1, Hqo1.
  set (k1 := rt_ipc_list_suspend h t flag k) in *.
  pose proof (wait_timer_ok t time k1 Hok1) as Hok2.
  pose proof (wait_timer_fields t time k1) as (F1 & F2 & F3 & _). cbv zeta in *.
  set (k2 := wait_timer t time k1) in *.
  assert (thr k2 = thr k1) as Eth by (by apply threads_thr).
  assert (known k2 (rt_current_thread k2)) as Hc2.
  { rewrite F3, Ec1. by apply (threads_known k1 k2). }
  assert (forall h, queue k2 h = queue k1 h) as Eq2 by (intros h'; unfold queue; by rewrite F2).
  destruct (schedule_keeps k2 Hok2 Hc2) as (Hc3 & _ & _ & Hsame & Hsus & _). cbv zeta in *.
  assert (waiting_list h) as Hwl by (by destruct Hh as [o [-> | ->]]).
  assert (forall x, same_but_stat (thr k2 x) (thr k x)) as Hsame2.
  { intros x. rewrite Eth. destruct (decide (x = t)) as [->|]; [done|]. by rewrite Hoth1. }
  assert (forall x, same_but_stat (thr (rt_schedule k2) x) (thr k x)) as Hsame3.
  { intros x. unfold same_but_stat in *. by rewrite Hsame. }
  split; [by apply schedule_ok|]. split; [done|]. split; [apply Hsus; by rewrite Eth|].
  split; [done|]. split; [done|]. split.
  - rewrite schedule_queue by done. by rewrite Eq2.
  - split.
    + intros h' Hw Hne. rewrite schedule_queue by done. rewrite Eq2. by apply Hqo1.
    + intros x Hx. apply schedule_alive; [done|done|]. rewrite Eth.
      destruct (decide (x = t)) as [->|Hne]; [by right|by rewrite Hoth1].
Qed.

(** Waking the first thread of a list. *)
Lemma list_resume_spec k h w ws : kernel_ok k -> waiting_list h -> h <> Defunct ->
  queue k h = w :: ws ->
  let k' := rt_ipc_list_resume h k in
  kernel_ok k' /\ rt_current_thread k' = rt_current_thread k /\ rt_tick k' = rt_tick k /\
  awake (thr k' w) /\ error (thr k' w) = error (thr k w) /\
  current_priority (thr k' w) = current_priority (thr k w) /\ queue k' h = ws /\
  (forall x, x <> w -> thr k' x = thr k x) /\ (forall x, known k' x <-> known k x) /\
  (forall h', waiting_list h' -> h' <> h -> queue k' h' = queue k h').
Proof.
  intros Hok Hwl Hdef Hq. cbv zeta. unfold rt_ipc_list_resume. rewrite Hq. cbn [hd].
  assert (w ∈ queue k h) as Hw by (rewrite Hq; apply list_elem_of_here).
  destruct (bt_in _ _ (proj1 (proj1 Hok)) w h Hw) as (Hkw & _ & Hl).
  assert (state_of (thr k w) = RT_THREAD_SUSPEND) as Hs by (by destruct h).
  pose proof (resume_ok k w Hok Hkw) as Hok1.
  destruct (resume_fields k w Hs) as (Ec & Et & _ & _ & Hoth & Hst & Hp & He & Hqs & Hkn). cbv zeta in *.
  pose proof (bt_nodup _ _ (proj1 (proj1 Hok)) h) as Hnd. rewrite Hq in Hnd.
  apply NoDup_cons in Hnd as [Hnot _].
  assert (forall h', waiting_list h' ->
    (if negb (w =? rt_current_thread k) && bool_decide (h' = Ready (current_priority (thr k w)))
     then [w] else []) = []) as Hnr.
  { intros h' Hw'. rewrite bool_decide_eq_false_2 by (by intros ->). by rewrite andb_false_r. }
  split; [done|]. split; [done|]. split; [done|].
  split. { unfold awake. rewrite Hst. destruct (_ =? _); [by right|by left]. }
  split; [done|]. split; [done|]. split.
  { rewrite Hqs, Hnr, app_nil_r, Hq, filter_cons, decide_False by (done || by intros ?).
    by apply filter_absent. }
  split; [intros x Hx; by apply Hoth|]. split.
  { intros x. rewrite Hkn. split; [by intros [<-|?]|by right]. }
  intros h' Hw' Hne. rewrite Hqs, Hnr, app_nil_r by done. apply filter_absent.
  intros Hin. apply Hne. by apply (bt_one _ _ (proj1 (proj1 Hok)) w).
Qed.

(** ... and scheduling. *)
Lemma resume_schedule_spec k h w ws : kernel_ok k -> known k (rt_current_thread k) ->
  waiting_list h -> h <> Defunct -> queue k h = w :: ws ->
  let k' := rt_schedule (rt_ipc_list_resume h k) in
  kernel_ok k' /\ known k' (rt_current_thread k') /\
  awake (thr k' w) /\ (forall x, same_but_stat (thr k' x) (thr k x)) /\ queue k' h = ws /\
  (forall h', waiting_list h' -> h' <> h -> queue k' h' = queue k h') /\
  (forall x, alive (thr k x) -> alive (thr k' x)).
Proof.
  intros Hok Hc Hwl Hdef Hq. cbv zeta.
  destruct (list_resume_spec k h w ws Hok Hwl Hdef Hq) as
    (Hok1 & Ec & Et & Haw & He & Hp & Hq1 & Hoth & Hkn & Hqo). cbv zeta in *.
  set (k1 := rt_ipc_list_resume h k) in *.
  assert (known k1 (rt_current_thread k1)) as Hc1 by (rewrite Ec; by apply Hkn).
  destruct (schedule_keeps k1 Hok1 Hc1) as (Hc2 & _ & _ & Hsame & _ & Hawx). cbv zeta in *.
  assert (same_but_stat (thr k1 w) (thr k w)) as Hsw.
  { unfold k1, rt_ipc_list_resume. rewrite Hq. cbn [hd]. unfold rt_thread_resume.
    destruct (negb _); [done|]. cbn [fst]. rewrite insert_thr, decide_True by done. done. }
  split; [by apply schedule_ok|]. split; [done|]. split; [by apply Hawx|]. split.
  { intros x. unfold same_but_stat in *. rewrite Hsame.
    destruct (decide (x = w)) as [->|]; [done|]. by rewrite Hoth. }
  split; [by rewrite schedule_queue|]. split.
  - intros h' Hw' Hne. rewrite schedule_queue by done. by apply Hqo.
  - intros x Hx. apply schedule_alive; [done|done|].
    destruct (decide (x = w)) as [->|Hne]; [by left|by rewrite Hoth].
Qed.

(** Waking everybody empties the list, ends, and marks each thread with an
    error. *)
Lemma resume_all_spec h : waiting_list h -> h <> Defunct -> forall l k, kernel_ok k -> queue k h = l ->
  known k (rt_current_thread k) ->
  exists k', resume_all_loop (length l) h k = Some k' /\ kernel_ok k' /\ queue k' h = [] /\
    rt_current_thread k' = rt_current_thread k /\ known k' (rt_current_thread k') /\
    (forall x, x ∈ l -> awake (thr k' x) /\ error (thr k' x) = - RT_ERROR) /\
    (forall x, x ∉ l -> thr k' x = thr k x) /\
    (forall h', waiting_list h' -> h' <> h -> queue k' h' = queue k h').
Proof.
  intros Hwl Hdef. induction l as [|w ws IH]; intros k Hok Hq Hc.
  - exists k. cbn [length resume_all_loop]. rewrite Hq. split_and!; try done. by intros x ?%not_elem_of_nil.
  - cbn [length resume_all_loop]. rewrite Hq.
    assert (w ∈ queue k h) as Hw by (rewrite Hq; apply list_elem_of_here).
    destruct (bt_in _ _ (proj1 (proj1 Hok)) w h Hw) as (Hkw & _ & _).
    set (k1 := set_error w (- RT_ERROR) k).
    assert (kernel_ok k1) as Hok1 by (by apply kernel_ok_upd_same).
    assert (queue k1 h = w :: ws) as Hq1 by done.
    destruct (list_resume_spec k1 h w ws Hok1 Hwl Hdef Hq1) as
      (Hok2 & Ec & _ & Haw & He & _ & Hq2 & Hoth & Hkn & Hqo). cbv zeta in *.
    unfold rt_ipc_list_resume in *. rewrite Hq1 in *. cbn [hd] in *.
    set (k2 := fst (rt_thread_resume w k1)) in *.
    assert (known k2 (rt_current_thread k2)) as Hc2.
    { rewrite Ec. apply Hkn, known_upd. by right. }
    destruct (IH k2 Hok2 Hq2 Hc2) as (k' & E & Hok' & Hq' & Ec' & Hc' & Hg & Hoth' & Hqo').
    pose proof (bt_nodup _ _ (proj1 (proj1 Hok)) h) as Hnd. rewrite Hq in Hnd.
    apply NoDup_cons in Hnd as [Hnot _].
    exists k'. split; [done|]. split; [done|]. split; [done|]. split; [by rewrite Ec', Ec|].
    split; [done|]. split.
    + intros x [->|Hx]%elem_of_cons; [|by apply Hg]. rewrite Hoth' by done. split; [done|].
      rewrite He. unfold k1, set_error. by rewrite thr_upd_same.
    + split.
      * intros x. rewrite elem_of_cons. intros Hx. rewrite Hoth', Hoth by tauto.
        unfold k1, set_error. rewrite thr_upd_other; [done|]. intros ->. tauto.
      * intros h' Hw' Hne. rewrite Hqo' by done. by apply Hqo.
Qed.

(** ** A new object *)

Lemma queue_ipc_init o k h : queue (rt_ipc_object_init o k) h = if decide (h = Suspended o) then [] else queue k h.
Proof.
  unfold rt_ipc_object_init, queue. cbn [queues set_queues]. destruct (decide (h = Suspended o)) as [->|Hne].
  - by rewrite lookup_insert_eq.
  - by rewrite lookup_insert_ne.
Qed.

Lemma ipc_init_ok k o : kernel_ok k -> kernel_ok (rt_ipc_object_init o k).
Proof.
  intros [[[Hp Hm Hin Hr Hrun Hnd Hone Hg Hgr Hnull] Hno] Hc].
  assert (forall t h, t ∈ queue (rt_ipc_object_init o k) h -> t ∈ queue k h) as Hq.
  { intros t h. rewrite queue_ipc_init. destruct (decide _); [by intros ?%not_elem_of_nil|done]. }
  split; [|done]. split; [|done]. split; try done.
  - intros t h Ht. apply (Hin t h). by apply Hq.
  - intros t Ht Hne Hst. rewrite queue_ipc_init, decide_False by done. by apply Hr.
  - intros h. rewrite queue_ipc_init. destruct (decide _); [constructor|apply Hnd].
  - intros t h1 h2 H1 H2. apply (Hone t); by apply Hq.
  - intros p Hp'. rewrite queue_ipc_init, decide_False by done. by apply Hg.
Qed.

(** ** Semaphores *)

Record sem_ok (k : kernel) (o : Z) (s : rt_semaphore) : Prop := {
  so_value : 0 <= sem_value s <= 65535;
  so_idle : 0 < sem_value s -> queue k (Suspended o) = [];
  so_flag : sem_flag s = RT_IPC_FLAG_FIFO \/ sem_flag s = RT_IPC_FLAG_PRIO }.

Lemma running_set_error k t e : running_ok k -> known k t -> running_ok (set_error t e k).
Proof.
  intros [Hok Hc Hs] Ht. split.
  - by apply kernel_ok_upd_same.
  - apply known_upd. by right.
  - change (rt_current_thread (set_error t e k)) with (rt_current_thread k).
    unfold set_error. rewrite thr_upd. by destruct (decide (t = _)) as [->|].
Qed.

Lemma queued_same k k' t flag l : (forall x, current_priority (thr k' x) = current_priority (thr k x)) ->
  queued k' t flag l = queued k t flag l.
Proof.
  intros Hp. unfold queued. destruct (flag =? _); [done|].
  induction l as [|x l IH]; [done|]. cbn. by rewrite !Hp, IH.
Qed.

Lemma set_error_priority k t e x :
  current_priority (thr (set_error t e k) x) = current_priority (thr k x).
Proof. unfold set_error. rewrite thr_upd. by destruct (decide (t = x)) as [->|]. Qed.

Lemma sem_take_now k o s time : running_ok k -> sem_ok k o s -> 0 < sem_value s ->
  rt_sem_take o time k s = (k, mk_sem (sem_value s - 1) (sem_flag s), Done RT_EOK) /\
  sem_ok k o (mk_sem (sem_value s - 1) (sem_flag s)).
Proof.
  intros Hr [Hv Hi Hf] Hpos. unfold rt_sem_take.
  rewrite Z.gtb_ltb, (proj2 (Z.ltb_lt _ _)), u16_small by lia.
  split; [done|]. split; cbn; [lia| |done]. intros _. by apply Hi.
Qed.

Lemma sem_take_blocks k o s time : running_ok k -> sem_ok k o s -> sem_value s = 0 -> time <> 0 ->
  let t := rt_current_thread k in
  exists k', rt_sem_take o time k s = (k', s, Blocked) /\ sem_ok k' o s /\
    kernel_ok k' /\ known k' (rt_current_thread k') /\
    state_of (thr k' t) = RT_THREAD_SUSPEND /\ blocked_end t k' = RT_EOK /\
    queue k' (Suspended o) = queued k t (sem_flag s) (queue k (Suspended o)).
Proof.
  intros Hr [Hv Hi Hf] H0 Ht. cbv zeta. unfold rt_sem_take, rt_thread_self.
  rewrite H0. cbn [Z.gtb Z.compare]. rewrite (proj2 (Z.eqb_neq time 0)) by done.
  set (t := rt_current_thread k). set (k1 := set_error t RT_EOK k).
  assert (running_ok k1) as Hr1 by (apply running_set_error; [done|apply Hr]).
  destruct (block_spec k1 (Suspended o) (sem_flag s) time Hr1) as
    (Hok & Hc & Hs & Hsame & _ & Hq & _); [by exists o; left|done|]. cbv zeta in *.
  unfold block in *. change (rt_current_thread k1) with t in *.
  eexists. split; [done|]. split; [|split; [done|split; [done|split; [done|split]]]].
  - split; cbn; [lia|lia|done].
  - unfold blocked_end. rewrite (same_error _ _ Hsame). unfold k1, set_error. by rewrite thr_upd_same.
  - rewrite Hq. apply queued_same. intros x. apply set_error_priority.
Qed.

Lemma sem_release_hands k o s w ws : kernel_ok k -> known k (rt_current_thread k) ->
  sem_ok k o s -> queue k (Suspended o) = w :: ws ->
  exists k', rt_sem_release o k s = (k', s, RT_EOK) /\ sem_ok k' o s /\
    kernel_ok k' /\ known k' (rt_current_thread k') /\
    awake (thr k' w) /\ (forall x, blocked_end x k' = blocked_end x k) /\ queue k' (Suspended o) = ws.
Proof.
  intros Hok Hc [Hv Hi Hf] Hq. unfold rt_sem_release. rewrite Hq.
  destruct (resume_schedule_spec k (Suspended o) w ws Hok Hc) as
    (Hok' & Hc' & Haw & Hsame & Hq' & _); try done. cbv zeta in *.
  eexists. split; [done|]. split; [|split; [done|split; [done|split; [done|split; [|done]]]]].
  - split; [done| |done]. intros H. rewrite Hi in Hq by done. done.
  - intros x. unfold blocked_end. by rewrite (same_error _ _ (Hsame x)).
Qed.

Lemma sem_release_counts k o s : sem_ok k o s -> queue k (Suspended o) = [] ->
  if sem_value s <? RT_SEM_VALUE_MAX
  then rt_sem_release o k s = (k, mk_sem (sem_value s + 1) (sem_flag s), RT_EOK) /\
       sem_ok k o (mk_sem (sem_value s + 1) (sem_flag s))
  else rt_sem_release o k s = (k, s, - RT_EFULL).
Proof.
  intros [Hv Hi Hf] Hq. unfold rt_sem_release. rewrite Hq. unfold RT_SEM_VALUE_MAX.
  destruct (Z.ltb_spec (sem_value s) 65535); [|done]. rewrite u16_small by lia.
  split; [done|]. split; cbn; [lia|done|done].
Qed.

(** ** Semaphores on every branch *)

(** [rt_sem_take] decrements a positive count and returns at once; at zero
    it fails without a trace when it may not wait, and otherwise suspends the
    caller, alone, in the place of the queue its flag and priority ask for,
    keeping the scheduler's invariant. *)
Theorem semaphore_take k o s time : running_ok k -> sem_ok k o s ->
  let t := rt_current_thread k in
  if 0 <? sem_value s then
    rt_sem_take o time k s = (k, mk_sem (sem_value s - 1) (sem_flag s), Done RT_EOK) /\
    sem_ok k o (mk_sem (sem_value s - 1) (sem_flag s))
  else if time =? 0 then rt_sem_take o time k s = (k, s, Done (- RT_ETIMEOUT))
  else exists k', rt_sem_take o time k s = (k', s, Blocked) /\ sem_ok k' o s /\
    kernel_ok k' /\ known k' (rt_current_thread k') /\
    state_of (thr k' t) = RT_THREAD_SUSPEND /\ blocked_end t k' = RT_EOK /\
    queue k' (Suspended o) = queued k t (sem_flag s) (queue k (Suspended o)).
Proof.
  intros Hr Hs. cbv zeta. destruct (Z.ltb_spec 0 (sem_value s)) as [H|H]; [by apply sem_take_now|].
  assert (sem_value s = 0) as H0 by (destruct Hs; lia).
  destruct (Z.eqb_spec time 0) as [->|Ht]; [|by apply sem_take_blocks].
  unfold rt_sem_take. by rewrite H0.
Qed.

(** Whoever waits will return success unless something but a release ends the
    wait: a timeout and a deletion write an error as they take the thread out of
    the list. *)
Definition waits_ok (k : kernel) (o : Z) : Prop :=
  forall x, x ∈ queue k (Suspended o) -> blocked_end x k = RT_EOK.

Lemma elem_of_queued k t flag l x : x ∈ queued k t flag l -> x = t \/ x ∈ l.
Proof.
  unfold queued. destruct (flag =? RT_IPC_FLAG_FIFO).
  - intros [Hx|Hx]%elem_of_app; [by right|]. apply list_elem_of_singleton in Hx. by left.
  - induction l as [|y l IH]; cbn [prio_insert]; [intros Hx%list_elem_of_singleton; by left|].
    destruct (_ <? _); rewrite !elem_of_cons; [tauto|]. intros [->|Hx]; [tauto|]. destruct (IH Hx); tauto.
Qed.

Lemma sem_take_waits k o s time : running_ok k -> sem_ok k o s -> waits_ok k o ->
  waits_ok (rt_sem_take o time k s).1.1 o.
Proof.
  intros Hr [Hv Hi Hf] Hw. unfold rt_sem_take, rt_thread_self.
  destruct (sem_value s >? 0); [done|]. destruct (time =? 0); [done|]. cbn [fst].
  set (t := rt_current_thread k). set (k1 := set_error t RT_EOK k).
  assert (running_ok k1) as Hr1 by (apply running_set_error; [done|apply Hr]).
  destruct (block_spec k1 (Suspended o) (sem_flag s) time Hr1) as
    (_ & _ & _ & _ & Hsame & Hq & _); [by exists o; left|done|]. cbv zeta in *.
  unfold block in *. change (rt_current_thread k1) with t in *.
  intros x Hx. rewrite Hq in Hx. unfold blocked_end. rewrite (same_error _ _ (Hsame x)).
  unfold k1, set_error. rewrite thr_upd. destruct (decide (t = x)) as [|Hne]; [done|].
  destruct (elem_of_queued _ _ _ _ _ Hx) as [->|Hx']; [done|]. by apply Hw.
Qed.

(** C17 [rt_sem_release] hands the unit to the first waiting thread, which is
    ready or running afterwards and returns success from its take, and leaves
    the count alone; with nobody waiting it counts up, and reports overflow at
    65535 instead of wrapping.  A unit is never both counted and handed over.
    What makes the take succeed, that every waiting thread has no error
    recorded, is kept by this call and by every [rt_sem_take]. *)
Theorem semaphore_release k o s : kernel_ok k -> known k (rt_current_thread k) -> sem_ok k o s ->
  waits_ok k o ->
  (forall time, running_ok k -> waits_ok (rt_sem_take o time k s).1.1 o) /\
  match queue k (Suspended o) with
  | w :: ws => exists k', rt_sem_release o k s = (k', s, RT_EOK) /\ sem_ok k' o s /\
      kernel_ok k' /\ known k' (rt_current_thread k') /\
      awake (thr k' w) /\ blocked_end w k' = RT_EOK /\ queue k' (Suspended o) = ws /\ waits_ok k' o
  | [] => if sem_value s <? RT_SEM_VALUE_MAX
      then rt_sem_release o k s = (k, mk_sem (sem_value s + 1) (sem_flag s), RT_EOK) /\
           sem_ok k o (mk_sem (sem_value s + 1) (sem_flag s))
      else rt_sem_release o k s = (k, s, - RT_EFULL)
  end.
Proof.
  intros Hok Hc Hs Hw. split; [intros time Hr; by apply sem_take_waits|].
  destruct (queue k (Suspended o)) as [|w ws] eqn:E; [by apply sem_release_counts|].
  destruct (sem_release_hands k o s w ws Hok Hc Hs E) as (k' & Er & Hs' & Hok' & Hc' & Ha & He & Hq).
  exists k'. split_and!; try done.
  - rewrite He. apply Hw. rewrite E. apply list_elem_of_here.
  - intros x Hx. rewrite He. apply Hw. rewrite E, Hq in *. by apply list_elem_of_further.
Qed.

(** ** Waiting in a loop

    [rt_mb_send_wait], [rt_mb_recv], [rt_mq_send_wait] and [rt_mq_recv] of
    [ipc.c] wait in a [while] loop with a timeout that shrinks each time the
    thread wakes.  Here is what their bodies share: going to sleep, waking one
    thread of a list, and the rest of the timeout. *)

(** A call either returns, or waits with the two locals its loop needs when
    the thread runs again. *)
Inductive waited := Returned (e : Z) | Waiting (timeout tick_delta : Z).

(** "suspend current thread ... re-schedule" *)
Definition sleep_on (h : qname) (flag timeout tick_delta : Z) (k : kernel) : kernel * waited :=
  let t := rt_thread_self k in
  let k := rt_ipc_list_suspend h t flag k in
  let tick_delta := if timeout >? 0 then rt_tick k else tick_delta in
  let k := wait_timer t timeout k in
  (rt_schedule k, Waiting timeout tick_delta).

(** "if it's not waiting forever and then re-calculate timeout tick" *)
Definition remaining (timeout tick_delta now : Z) : Z :=
  if timeout >? 0 then
    let tick_delta := u32 (now - tick_delta) in
    let timeout := s32 (timeout - tick_delta) in
    if timeout <? 0 then 0 else timeout
  else timeout.

(** "resume suspended thread" *)
Definition wake_one (h : qname) (k : kernel) : kernel :=
  match queue k h with [] => k | _ :: _ => rt_schedule (rt_ipc_list_resume h k) end.

(** "resume all waiting thread / also resume all ... private suspended thread" *)
Definition resume_both (o : Z) (k : kernel) : option kernel :=
  k ← rt_ipc_list_resume_all (Suspended o) k; rt_ipc_list_resume_all (Senders o) k.

(** ** Their specifications *)

(** A call that is woken without what it wanted waits again only for the part
    of its timeout that has not gone by, to the tick, also when the tick
    counter wraps in between. *)
Theorem remaining_spec timeout start e : 0 < timeout < 2147483648 -> 0 <= e < 2147483648 ->
  remaining timeout start (u32 (start + e)) = Z.max 0 (timeout - e).
Proof.
  intros Ht He. unfold remaining. rewrite (proj2 (Z.gtb_lt _ _)) by lia.
  assert (u32 (u32 (start + e) - start) = e) as ->.
  { unfold u32. rewrite Zminus_mod_idemp_l. replace (start + e - start) with e by lia.
    apply Z.mod_small. lia. }
  rewrite s32_small by lia. cbv zeta. case_Z; lia.
Qed.

Lemma remaining_spec_witness : remaining 500 4294967200 (u32 (4294967200 + 200)) = 300.
Proof. apply (remaining_spec 500 4294967200 200); lia. Defined.

Lemma remaining_forever timeout start now : timeout <= 0 -> remaining timeout start now = timeout.
Proof. intros H. unfold remaining. by rewrite Z.gtb_ltb, (proj2 (Z.ltb_ge _ _)) by lia. Qed.

Lemma sleep_on_spec k h flag timeout tick_delta : let t := rt_current_thread k in
  running_ok k -> (exists o, h = Suspended o \/ h = Senders o) ->
  flag = RT_IPC_FLAG_FIFO \/ flag = RT_IPC_FLAG_PRIO ->
  exists k', sleep_on h flag timeout tick_delta (set_error t RT_EOK k) =
      (k', Waiting timeout (if timeout >? 0 then rt_tick k else tick_delta)) /\
    kernel_ok k' /\ known k' (rt_current_thread k') /\
    state_of (thr k' t) = RT_THREAD_SUSPEND /\ error (thr k' t) = RT_EOK /\
    queue k' h = queued k t flag (queue k h) /\
    (forall h', waiting_list h' -> h' <> h -> queue k' h' = queue k h') /\
    (forall x, alive (thr k x) -> alive (thr k' x)).
Proof.
  intros t Hr Hh Hf. set (k1 := set_error t RT_EOK k).
  assert (running_ok k1) as Hr1 by (apply running_set_error; [done|apply Hr]).
  destruct (block_spec k1 h flag timeout Hr1 Hh Hf) as
    (Hok & Hc & Hs & Hsame & _ & Hq & Hqo & Hal). cbv zeta in *.
  change (rt_current_thread k1) with t in *.
  destruct (list_suspend_spec k1 h flag (ro_ok _ Hr1) (ro_known _ Hr1) (ro_running _ Hr1) Hh Hf)
    as (_ & _ & _ & Et & _). cbv zeta in Et.
  exists (block h t flag timeout k1). split.
  { unfold sleep_on, block, rt_thread_self. change (rt_current_thread k1) with t in *. by rewrite Et. }
  split; [done|]. split; [done|]. split; [done|]. split.
  { rewrite (same_error _ _ Hsame). unfold k1, set_error. by rewrite thr_upd_same. }
  split. { rewrite Hq. apply queued_same. intros x. apply set_error_priority. }
  split; [done|]. intros x Hx. apply Hal. unfold k1, set_error. rewrite thr_upd.
  by destruct (decide (t = x)) as [->|].
Qed.

Lemma wake_one_spec h k : kernel_ok k -> known k (rt_current_thread k) ->
  waiting_list h -> h <> Defunct ->
  let k' := wake_one h k in
  kernel_ok k' /\ known k' (rt_current_thread k') /\ queue k' h = tail (queue k h) /\
  (forall w, head (queue k h) = Some w -> awake (thr k' w) /\ error (thr k' w) = error (thr k w)) /\
  (queue k h = [] -> k' = k) /\
  (forall h', waiting_list h' -> h' <> h -> queue k' h' = queue k h') /\
  (forall x, alive (thr k x) -> alive (thr k' x)).
Proof.
  intros Hok Hc Hwl Hd. cbv zeta. unfold wake_one. destruct (queue k h) as [|w ws] eqn:Hq.
  - by rewrite Hq.
  - destruct (resume_schedule_spec k h w ws Hok Hc Hwl Hd Hq) as
      (Hok' & Hc' & Haw & Hsame & Hq' & Hqo & Hal). cbv zeta in *.
    split; [done|]. split; [done|]. split; [done|]. split.
    { intros x [= <-]. split; [done|]. by apply same_error. }
    done.
Qed.

(** After a reset nobody waits, and whoever did has been told. *)
Lemma resume_both_spec o k : kernel_ok k -> known k (rt_current_thread k) ->
  exists k1, resume_both o k = Some k1 /\ kernel_ok (rt_schedule k1) /\
    queue (rt_schedule k1) (Suspended o) = [] /\ queue (rt_schedule k1) (Senders o) = [] /\
    forall x, x ∈ queue k (Suspended o) \/ x ∈ queue k (Senders o) ->
      awake (thr (rt_schedule k1) x) /\ error (thr (rt_schedule k1) x) = - RT_ERROR.
Proof.
  intros Hok Hc. unfold resume_both, rt_ipc_list_resume_all.
  destruct (resume_all_spec (Suspended o) I ltac:(done) _ k Hok eq_refl Hc) as
    (k1 & -> & Hok1 & Hq1 & _ & Hc1 & Haw1 & Hoth1 & Hqo1). cbn [mbind option_bind].
  destruct (resume_all_spec (Senders o) I ltac:(done) _ k1 Hok1 eq_refl Hc1) as
    (k2 & -> & Hok2 & Hq2 & _ & Hc2 & Haw2 & Hoth2 & Hqo2).
  destruct (schedule_keeps k2 Hok2 Hc2) as (_ & _ & _ & Hsame & _ & Haw3). cbv zeta in *.
  exists k2. split; [done|]. split; [by apply schedule_ok|].
  rewrite !schedule_queue by done. rewrite Hqo2, Hq1, Hq2 by done.
  split; [done|]. split; [done|]. intros x Hx. rewrite (same_error _ _ (Hsame x)).
  assert (awake (thr k2 x) /\ error (thr k2 x) = - RT_ERROR) as [H1 H2]; [|by split; [apply Haw3|]].
  rewrite Hqo1 in Haw2, Hoth2 by done.
  destruct (decide (x ∈ queue k (Senders o))) as [Hin|Hin]; [by apply Haw2|].
  destruct Hx as [Hx|]; [|done]. rewrite Hoth2 by done. by apply Haw1.
Qed.
