(* ===== verification/MutexInv.v ===== *)
(** * MutexInv: mutual exclusion, nesting and priority inheritance

    The mutexes of [ipc.c]: the owner and the counters agree, blocking lends
    the caller's priority to the owner, the last release gives it back and
    hands the mutex to the first waiter. *)
From S2P Require Import Prelude Timer Kernel KernelInv KernelOps Ipc IpcInv.
From Stdlib Require Import Sorted.

Record mutex_ok (k : kernel) (o : Z) (m : rt_mutex) : Prop := {
  mo_state :
    (m_value m = 1 /\ m_owner m = RT_NULL /\ hold m = 0 /\ queue k (Suspended o) = []) \/
    (m_value m = 0 /\ alive (thr k (m_owner m)) /\ 1 <= hold m <= 255 /\
     0 <= original_priority m < 32 /\ m_owner m ∉ queue k (Suspended o)) }.

(** ** Changing a priority *)

Lemma change_priority_spec k t p : kernel_ok k -> known k t -> live (state_of (thr k t)) ->
  let k' := change_priority t p k in
  current_priority (thr k' t) = p /\ state_of (thr k' t) = state_of (thr k t) /\
  error (thr k' t) = error (thr k t) /\ (forall x, x <> t -> thr k' x = thr k x) /\
  rt_current_thread k' = rt_current_thread k /\ (forall x, known k' x <-> known k x) /\
  (forall h, waiting_list h -> queue k' h = queue k h).
Proof.
  intros Hok Ht Hl. cbv zeta. unfold change_priority.
  destruct (Z.eqb_spec (state_of (thr k t)) RT_THREAD_READY) as [Hs|Hs].
  - pose proof (remove_fields k t) as (E1 & E2 & _ & _ & _ & E6). cbv zeta in *.
    set (k1 := rt_schedule_remove_thread t k) in *.
    set (k2 := upd_thread t (with_priority p) k1).
    assert (thr k2 t = with_priority p (thr k t)) as Et
      by (unfold k2; rewrite thr_upd_same; by rewrite (threads_thr k k1)).
    assert (t <> rt_current_thread k) as Hne by (intros ->; by apply (proj2 Hok)).
    pose proof (insert_fields k2 t) as (F2 & _ & _ & _ & F5 & F6). cbv zeta in *.
    assert ((t =? rt_current_thread k2) = false) as Eb
      by (apply Z.eqb_neq; change (rt_current_thread k2) with (rt_current_thread k1); by rewrite E2).
    rewrite insert_thr, decide_True, Et, Eb by done.
    split; [done|]. split; [by rewrite state_of_to_state|]. split; [done|].
    split; [intros x Hx; rewrite F5 by done; unfold k2; rewrite thr_upd_other by done;
            by rewrite (threads_thr k k1)|].
    split; [rewrite F2; exact E2|]. split.
    + intros x. unfold rt_schedule_insert_thread. rewrite Eb. cbv zeta.
      change (known (upd_thread t (to_state RT_THREAD_READY) k2) x <-> known k x).
      rewrite known_upd. unfold k2. rewrite known_upd, (threads_known k k1) by done.
      split; [by intros [<-|[<-|?]]|by right; right].
    + intros h Hw. unfold rt_schedule_insert_thread. rewrite Eb. cbv zeta.
      match goal with |- queue (set_group _ (rt_list_insert_before ?R ?c ?K)) h = _ =>
        change (queue (rt_list_insert_before R c K) h = queue k h) end.
      rewrite queue_append, decide_False by (by intros <-).
      change (queue k1 h = queue k h). rewrite E6. apply filter_absent. intros Hin.
      assert (t ∈ queue k (Ready (current_priority (thr k t)))) as Hin'.
      { apply (bt_ready _ _ (proj1 (proj1 Hok))); [done| |done].
        intros ->. by apply (proj2 (proj1 Hok)). }
      by pose proof (bt_one _ _ (proj1 (proj1 Hok)) t _ _ Hin Hin') as ->.
  - rewrite thr_upd_same. split; [done|]. split; [done|]. split; [done|].
    split; [intros x Hx; by apply thr_upd_other|]. split; [done|]. split; [|done].
    intros x. rewrite known_upd. split; [by intros [<-|?]|by right].
Qed.

Lemma known_alive k t : alive (thr k t) -> known k t.
Proof. intros [[H|H]|H]; apply known_of_state; by rewrite H. Qed.

Lemma alive_state a b : state_of a = state_of b -> alive a -> alive b.
Proof. unfold alive, awake. by intros ->. Qed.

(** ** Taking *)

(** The kernel a take works in, its thread's error cleared. *)
Definition entered (k : kernel) : kernel := set_error (rt_current_thread k) RT_EOK k.

Lemma entered_running k : running_ok k -> running_ok (entered k).
Proof. intros H. apply running_set_error; [done|apply H]. Qed.


Lemma set_error_state k t e x : state_of (thr (set_error t e k) x) = state_of (thr k x).
Proof. unfold set_error. rewrite thr_upd. by destruct (decide (t = x)) as [->|]. Qed.

Lemma mutex_ok_entered k o m : mutex_ok k o m -> mutex_ok (entered k) o m.
Proof.
  intros [[H|(H1 & H2 & H3 & H4 & H5)]]; split; [by left|right].
  split; [done|]. split; [|done]. eapply alive_state; [|exact H2]. symmetry. apply set_error_state.
Qed.

Lemma owner_not_null k m : kernel_ok k -> alive (thr k (m_owner m)) -> m_owner m <> RT_NULL.
Proof.
  intros Hok Ha E. apply known_alive in Ha. rewrite E in Ha. by apply (bt_null _ _ (proj1 (proj1 Hok))).
Qed.

Lemma running_not_null k : running_ok k -> rt_current_thread k <> RT_NULL.
Proof. intros [Hok Hc _] E. rewrite E in Hc. by apply (bt_null _ _ (proj1 (proj1 Hok))). Qed.

(** A free mutex is taken. *)
Lemma mutex_take_free k o m time : running_ok k -> mutex_ok k o m -> m_value m = 1 ->
  let t := rt_current_thread k in
  let m' := mk_mutex 0 t (current_priority (thr k t)) 1 in
  rt_mutex_take o time k m = (entered k, m', Done RT_EOK) /\ mutex_ok (entered k) o m'.
Proof.
  intros Hr Hm Hv. cbv zeta. destruct (mo_state _ _ _ Hm) as [(_ & Ho & Hh & Hq)|(H & _)]; [|lia].
  unfold rt_mutex_take, rt_thread_self. fold (entered k).
  rewrite Ho, (proj2 (Z.eqb_neq _ _)) by (intros E; by apply (running_not_null k)).
  rewrite Hv, Hh. cbn [Z.gtb Z.compare Z.sub Z.add].
  assert (current_priority (thr (entered k) (rt_current_thread k)) =
          current_priority (thr k (rt_current_thread k))) as -> by apply set_error_priority.
  split; [done|]. split. right. cbn. split; [done|]. split.
  - left. right. destruct (entered_running k Hr) as [_ _ H]. exact H.
  - split; [lia|]. split; [apply (core_thread k); [apply (ro_ok k Hr)|apply (ro_known k Hr)]|].
    change (queue (entered k) (Suspended o)) with (queue k (Suspended o)). rewrite Hq.
    apply not_elem_of_nil.
Qed.

(** The owner takes it again, up to 255 times; it never blocks. *)
Lemma mutex_take_owner k o m time : running_ok k -> mutex_ok k o m ->
  m_owner m = rt_current_thread k ->
  let m' := mk_mutex 0 (m_owner m) (original_priority m) (hold m + 1) in
  if hold m <? RT_MUTEX_HOLD_MAX
  then rt_mutex_take o time k m = (entered k, m', Done RT_EOK) /\ mutex_ok (entered k) o m'
  else rt_mutex_take o time k m = (entered k, m, Done (- RT_EFULL)).
Proof.
  intros Hr Hm Ho. cbv zeta.
  destruct (mo_state _ _ _ Hm) as [(_ & H & _)|(Hv & Ha & Hh & Hp & Hq)].
  { exfalso. apply (running_not_null k Hr). congruence. }
  unfold rt_mutex_take, rt_thread_self. fold (entered k).
  rewrite (proj2 (Z.eqb_eq _ _) Ho). unfold RT_MUTEX_HOLD_MAX. rewrite Hv.
  destruct (Z.ltb_spec (hold m) 255); [|done].
  split; [done|]. destruct (mutex_ok_entered k o m Hm) as [[(_ & H' & _)|(_ & Ha' & _ & _ & Hq')]].
  { exfalso. apply (running_not_null k Hr). congruence. }
  split. right. cbn. split; [done|]. split; [done|]. split; [lia|]. done.
Qed.

(** Somebody else's mutex, without waiting. *)
Lemma mutex_take_busy k o m : running_ok k -> mutex_ok k o m -> m_value m = 0 ->
  m_owner m <> rt_current_thread k ->
  rt_mutex_take o 0 k m = (set_error (rt_current_thread k) (- RT_ETIMEOUT) (entered k), m,
                           Done (- RT_ETIMEOUT)).
Proof.
  intros Hr Hm Hv Ho. unfold rt_mutex_take, rt_thread_self. fold (entered k).
  by rewrite (proj2 (Z.eqb_neq _ _)), Hv.
Qed.

(** Waiting for it: the caller is suspended in the queue by priority, and the
    owner runs at least at the caller's priority. *)
Lemma mutex_take_blocks k o m time : running_ok k -> mutex_ok k o m -> m_value m = 0 ->
  m_owner m <> rt_current_thread k -> time <> 0 ->
  let t := rt_current_thread k in
  exists k', rt_mutex_take o time k m = (k', m, Blocked) /\ mutex_ok k' o m /\ kernel_ok k' /\
    known k' (rt_current_thread k') /\
    state_of (thr k' t) = RT_THREAD_SUSPEND /\ blocked_end t k' = RT_EOK /\
    t ∈ queue k' (Suspended o) /\
    current_priority (thr k' (m_owner m)) =
      Z.min (current_priority (thr k (m_owner m))) (current_priority (thr k t)) /\
    (forall x, x <> m_owner m -> current_priority (thr k' x) = current_priority (thr k x)).
Proof.
  intros Hr Hm Hv Ho Htime. cbv zeta.
  set (t := rt_current_thread k).
  unfold rt_mutex_take, rt_thread_self. fold (entered k). fold t.
  rewrite (proj2 (Z.eqb_neq _ _)), Hv by done. cbn [Z.gtb Z.compare].
  rewrite (proj2 (Z.eqb_neq time 0)) by done. set (k1 := entered k).
  pose proof (entered_running k Hr) as Hr1. fold k1 in Hr1.
  pose proof (mutex_ok_entered k o m Hm) as Hm1. fold k1 in Hm1.
  destruct (mo_state _ _ _ Hm1) as [(H & _)|(_ & Ha & Hh & Hp & Hq)]; [lia|].
  assert (forall x, current_priority (thr k1 x) = current_priority (thr k x)) as Hpk1
    by (intros x; apply set_error_priority).
  set (k2 := if current_priority (thr k1 t) <? current_priority (thr k1 (m_owner m)) then _ else k1).
  assert (running_ok k2 /\ rt_current_thread k2 = t /\
    queue k2 (Suspended o) = queue k1 (Suspended o) /\
    (forall x, alive (thr k1 x) -> alive (thr k2 x)) /\
    error (thr k2 t) = RT_EOK /\
    current_priority (thr k2 (m_owner m)) =
      Z.min (current_priority (thr k (m_owner m))) (current_priority (thr k t)) /\
    (forall x, x <> m_owner m -> current_priority (thr k2 x) = current_priority (thr k x)))
    as (Hr2 & Ec2 & Hq2 & Ha2 & He2 & Hp2 & Hpo2).
  { assert (error (thr k1 t) = RT_EOK) as He1
      by (unfold k1, entered, set_error; by rewrite thr_upd_same).
    unfold k2. rewrite !Hpk1.
    destruct (Z.ltb_spec (current_priority (thr k t)) (current_priority (thr k (m_owner m)))) as [Hlt|Hge].
    - pose proof (known_alive _ _ Ha) as Hko. pose proof (alive_live _ Ha) as Hlo.
      destruct (core_thread k1 t (proj1 (ro_ok _ Hr1)) (ro_known _ Hr1)) as (Hpt & _).
      rewrite Hpk1 in Hpt.
      pose proof (change_priority_ok k1 (m_owner m) (current_priority (thr k t))
        (ro_ok _ Hr1) Hko Hpt Hlo) as Hok2.
      destruct (change_priority_spec k1 (m_owner m) (current_priority (thr k t)) (ro_ok _ Hr1) Hko Hlo)
        as (P1 & P2 & P3 & P4 & P5 & P6 & P7). cbv zeta in *.
      split.
      { split; [done| |].
        - rewrite P5. apply P6. apply Hr1.
        - rewrite P5. rewrite P4 by (intros E; by apply Ho). apply Hr1. }
      split; [done|]. split; [by apply P7|]. split.
      { intros x Hx. destruct (decide (x = m_owner m)) as [->|Hne]; [|by rewrite P4].
        eapply alive_state; [|exact Hx]. done. }
      split; [rewrite P4; [done|by intros E; apply Ho]|]. split; [rewrite P1; lia|].
      intros x Hx. rewrite P4 by done. apply Hpk1.
    - split; [done|]. split; [done|]. split; [done|]. split; [done|]. split; [done|].
      split; [rewrite Hpk1; lia|]. intros x _. apply Hpk1. }
  destruct (block_spec k2 (Suspended o) RT_IPC_FLAG_PRIO time Hr2) as
    (Hok & Hc & Hs & Hsame & Hsamex & Hqb & _ & Hab); [by exists o; left|by right|]. cbv zeta in *.
  unfold block in *. rewrite Ec2 in *.
  eexists. split; [done|]. split; [|split; [done|split; [done|split; [done|split; [|split; [|split]]]]]].
  - split. right. split; [done|]. split; [by apply Hab, Ha2|]. split; [done|]. split; [done|].
    rewrite Hqb, Hq2. unfold queued. cbn [Z.eqb RT_IPC_FLAG_PRIO RT_IPC_FLAG_FIFO Pos.eqb].
    destruct (prio_insert_split k2 t (queue k1 (Suspended o))) as (l1 & l2 & E1 & E2 & _).
    rewrite E1. rewrite E2 in Hq. rewrite elem_of_app, elem_of_cons in *. tauto.
  - unfold blocked_end. by rewrite (same_error _ _ Hsame).
  - rewrite Hqb. unfold queued. cbn [Z.eqb RT_IPC_FLAG_PRIO RT_IPC_FLAG_FIFO Pos.eqb].
    destruct (prio_insert_split k2 t (queue k2 (Suspended o))) as (l1 & l2 & E1 & _).
    rewrite E1. apply elem_of_app. right. apply list_elem_of_here.
  - by rewrite (same_priority _ _ (Hsamex (m_owner m))).
  - intros x Hx. rewrite (same_priority _ _ (Hsamex x)). by apply Hpo2.
Qed.

(** ** Releasing *)

Lemma mutex_release_other k o m : rt_current_thread k <> m_owner m ->
  rt_mutex_release o k m = (set_error (rt_current_thread k) (- RT_ERROR) k, m, - RT_ERROR).
Proof. intros H. unfold rt_mutex_release, rt_thread_self. by rewrite (proj2 (Z.eqb_neq _ _)). Qed.

Lemma mutex_release_nested k o m : running_ok k -> mutex_ok k o m ->
  m_owner m = rt_current_thread k -> 1 < hold m ->
  let m' := mk_mutex 0 (m_owner m) (original_priority m) (hold m - 1) in
  rt_mutex_release o k m = (k, m', RT_EOK) /\ mutex_ok k o m'.
Proof.
  intros Hr Hm Ho Hh. cbv zeta.
  destruct (mo_state _ _ _ Hm) as [(_ & H & _)|(Hv & Ha & Hhr & Hp & Hq)].
  { exfalso. apply (running_not_null k Hr). congruence. }
  unfold rt_mutex_release, rt_thread_self. rewrite <- Ho, Z.eqb_refl. cbn [negb].
  rewrite u8_small by lia. cbn [hold]. rewrite (proj2 (Z.eqb_neq _ _)), Hv by lia.
  split; [done|]. split. right. cbn. split; [done|]. split; [done|]. split; [lia|]. done.
Qed.

(** The owner gets its priority back. *)
Definition restored (k : kernel) (m : rt_mutex) : kernel :=
  if negb (original_priority m =? current_priority (thr k (m_owner m)))
  then change_priority (m_owner m) (original_priority m) k else k.

Lemma restored_spec k o m : running_ok k -> mutex_ok k o m -> m_owner m = rt_current_thread k ->
  let k' := restored k m in
  running_ok k' /\ rt_current_thread k' = rt_current_thread k /\
  current_priority (thr k' (m_owner m)) = original_priority m /\
  (forall x, x <> m_owner m -> thr k' x = thr k x) /\
  (forall h, waiting_list h -> queue k' h = queue k h).
Proof.
  intros Hr Hm Ho. cbv zeta. unfold restored.
  destruct (Z.eqb_spec (original_priority m) (current_priority (thr k (m_owner m)))) as [E|E]; cbn [negb].
  { by split_and!. }
  destruct (mo_state _ _ _ Hm) as [(_ & H & _)|(Hv & Ha & Hh & Hp & Hq)].
  { exfalso. apply (running_not_null k Hr). congruence. }
  pose proof (known_alive _ _ Ha) as Hk. pose proof (alive_live _ Ha) as Hl.
  pose proof (change_priority_ok k (m_owner m) (original_priority m) (ro_ok _ Hr) Hk Hp Hl) as Hok'.
  destruct (change_priority_spec k (m_owner m) (original_priority m) (ro_ok _ Hr) Hk Hl)
    as (P1 & P2 & P3 & P4 & P5 & P6 & P7). cbv zeta in *.
  split_and!; try done. split; [done| |].
  - rewrite P5. apply P6, Hr.
  - rewrite P5, <- Ho, P2, Ho. apply Hr.
Qed.

Lemma mutex_release_free k o m : running_ok k -> mutex_ok k o m ->
  m_owner m = rt_current_thread k -> hold m = 1 -> queue k (Suspended o) = [] ->
  let m' := mk_mutex 1 RT_NULL 0xff 0 in
  rt_mutex_release o k m = (restored k m, m', RT_EOK) /\ mutex_ok (restored k m) o m'.
Proof.
  intros Hr Hm Ho Hh Hq. cbv zeta.
  destruct (restored_spec k o m Hr Hm Ho) as (_ & _ & _ & _ & Eq). cbv zeta in *.
  destruct (mo_state _ _ _ Hm) as [(_ & H & _)|(Hv & _)].
  { exfalso. apply (running_not_null k Hr). congruence. }
  unfold rt_mutex_release, rt_thread_self. rewrite <- Ho, Z.eqb_refl. cbn [negb].
  rewrite Hh, u8_small by lia. cbn [hold m_owner original_priority m_value].
  change (1 - 1 =? 0) with true. cbv iota. fold (restored k m).
  rewrite Eq, Hq, Hv by done. split; [done|]. split. left. rewrite Eq; done.
Qed.

(** The first waiter becomes the owner, once, and wakes. *)
Lemma mutex_release_hands k o m w ws : running_ok k -> mutex_ok k o m ->
  m_owner m = rt_current_thread k -> hold m = 1 -> queue k (Suspended o) = w :: ws ->
  exists k', let m' := mk_mutex 0 w (current_priority (thr k w)) 1 in
    rt_mutex_release o k m = (k', m', RT_EOK) /\ mutex_ok k' o m' /\ kernel_ok k' /\
    known k' (rt_current_thread k') /\ awake (thr k' w) /\
    blocked_end w k' = blocked_end w k /\ queue k' (Suspended o) = ws /\
    current_priority (thr k' (m_owner m)) = original_priority m.
Proof.
  intros Hr Hm Ho Hh Hq.
  destruct (restored_spec k o m Hr Hm Ho) as (Hr' & Ec & Ep & Eth & Eq). cbv zeta in *.
  destruct (mo_state _ _ _ Hm) as [(_ & H & _)|(Hv & Ha & _ & Hp & Hnot)].
  { exfalso. apply (running_not_null k Hr). congruence. }
  unfold rt_mutex_release, rt_thread_self. rewrite <- Ho, Z.eqb_refl. cbn [negb].
  rewrite Hh, u8_small by lia. cbn [hold m_owner original_priority m_value].
  change (1 - 1 =? 0) with true. cbv iota. fold (restored k m).
  assert (queue (restored k m) (Suspended o) = w :: ws) as Hq' by (rewrite Eq; done).
  rewrite Hq'. cbn [hold m_owner original_priority m_value].
  assert (w <> m_owner m) as Hne by (intros ->; apply Hnot; rewrite Hq; apply list_elem_of_here).
  rewrite Eth, Hv by done.
  destruct (resume_schedule_spec (restored k m) (Suspended o) w ws (ro_ok _ Hr') (ro_known _ Hr'))
    as (Hok2 & Hc2 & Haw & Hsame & Hq2 & _ & Hal); try done. cbv zeta in *.
  pose proof (bt_nodup _ _ (proj1 (proj1 (ro_ok _ Hr))) (Suspended o)) as Hnd. rewrite Hq in Hnd.
  apply NoDup_cons in Hnd as [Hwws _].
  assert (known k w) as Hkw.
  { assert (w ∈ queue k (Suspended o)) as Hin by (rewrite Hq; apply list_elem_of_here).
    by destruct (bt_in _ _ (proj1 (proj1 (ro_ok _ Hr))) w _ Hin). }
  destruct (core_thread k w (proj1 (ro_ok _ Hr)) Hkw) as (Hpw & _).
  eexists. split; [done|]. split.
  { split. right. cbn. split; [done|]. split; [by left|]. split; [lia|]. split; [done|]. by rewrite Hq2. }
  split; [done|]. split; [done|]. split; [done|]. split.
  { unfold blocked_end. rewrite (same_error _ _ (Hsame w)). by rewrite Eth. }
  split; [done|]. by rewrite (same_priority _ _ (Hsame (m_owner m))).
Qed.

(** ** Mutexes on every branch *)

(** C15 [rt_mutex_take]: a free mutex is taken and the owner's priority
    remembered; the owner takes it again, up to 255 times; another thread
    fails without waiting, or blocks in the queue with the owner raised to at
    least its priority (priority inheritance) and no other priority changed. *)
Theorem mutex_take k o m time : running_ok k -> mutex_ok k o m ->
  let t := rt_current_thread k in
  if m_value m =? 1 then
    let m' := mk_mutex 0 t (current_priority (thr k t)) 1 in
    rt_mutex_take o time k m = (entered k, m', Done RT_EOK) /\ mutex_ok (entered k) o m'
  else if m_owner m =? t then
    let m' := mk_mutex 0 (m_owner m) (original_priority m) (hold m + 1) in
    if hold m <? RT_MUTEX_HOLD_MAX
    then rt_mutex_take o time k m = (entered k, m', Done RT_EOK) /\ mutex_ok (entered k) o m'
    else rt_mutex_take o time k m = (entered k, m, Done (- RT_EFULL))
  else if time =? 0 then
    rt_mutex_take o time k m = (set_error t (- RT_ETIMEOUT) (entered k), m, Done (- RT_ETIMEOUT))
  else exists k', rt_mutex_take o time k m = (k', m, Blocked) /\ mutex_ok k' o m /\ kernel_ok k' /\
    known k' (rt_current_thread k') /\
    state_of (thr k' t) = RT_THREAD_SUSPEND /\ blocked_end t k' = RT_EOK /\
    t ∈ queue k' (Suspended o) /\
    current_priority (thr k' (m_owner m)) =
      Z.min (current_priority (thr k (m_owner m))) (current_priority (thr k t)) /\
    (forall x, x <> m_owner m -> current_priority (thr k' x) = current_priority (thr k x)).
Proof.
  intros Hr Hm. cbv zeta. destruct (Z.eqb_spec (m_value m) 1) as [H|H]; [by apply mutex_take_free|].
  assert (m_value m = 0) as H0 by (by destruct (mo_state _ _ _ Hm) as [[? _]|[? _]]).
  destruct (Z.eqb_spec (m_owner m) (rt_current_thread k)) as [Ho|Ho]; [by apply mutex_take_owner|].
  destruct (Z.eqb_spec time 0) as [->|Ht]; [by apply mutex_take_busy|by apply mutex_take_blocks].
Qed.

(** C16 [rt_mutex_release]: only the owner may; a nested release counts down; the
    last one restores the owner's original priority and frees the mutex or
    hands it to the first waiting thread, whose priority becomes the new
    original one. *)
Theorem mutex_release k o m : running_ok k -> mutex_ok k o m ->
  let t := rt_current_thread k in
  if negb (t =? m_owner m) then
    rt_mutex_release o k m = (set_error t (- RT_ERROR) k, m, - RT_ERROR)
  else if 1 <? hold m then
    let m' := mk_mutex 0 (m_owner m) (original_priority m) (hold m - 1) in
    rt_mutex_release o k m = (k, m', RT_EOK) /\ mutex_ok k o m'
  else match queue k (Suspended o) with
  | [] => let m' := mk_mutex 1 RT_NULL 0xff 0 in
      rt_mutex_release o k m = (restored k m, m', RT_EOK) /\ mutex_ok (restored k m) o m' /\
      current_priority (thr (restored k m) t) = original_priority m
  | w :: ws => exists k', let m' := mk_mutex 0 w (current_priority (thr k w)) 1 in
      rt_mutex_release o k m = (k', m', RT_EOK) /\ mutex_ok k' o m' /\ kernel_ok k' /\
      known k' (rt_current_thread k') /\ awake (thr k' w) /\
      blocked_end w k' = blocked_end w k /\ queue k' (Suspended o) = ws /\
      current_priority (thr k' t) = original_priority m
  end.
Proof.
  intros Hr Hm. cbv zeta. destruct (Z.eqb_spec (rt_current_thread k) (m_owner m)) as [Ho|Ho]; cbn [negb].
  2: by apply mutex_release_other.
  assert (1 <= hold m) as Hh.
  { destruct (mo_state _ _ _ Hm) as [(_ & E & _)|(_ & _ & ? & _)]; [|lia].
    rewrite E in Ho. by destruct (running_not_null k Hr). }
  destruct (Z.ltb_spec 1 (hold m)); [by apply mutex_release_nested|].
  assert (hold m = 1) as H1 by lia. symmetry in Ho.
  destruct (queue k (Suspended o)) as [|w ws] eqn:E.
  - destruct (mutex_release_free k o m) as [E1 E2]; try done.
    destruct (restored_spec k o m Hr Hm Ho) as (_ & _ & Hp & _). rewrite Ho in Hp. done.
  - destruct (mutex_release_hands k o m w ws) as (k' & H'); try done. cbv zeta in H'.
    exists k'. by rewrite Ho in H'.
Qed.
