(* ===== verification/EventInv.v ===== *)
(** * EventInv: event sets

    The events of [ipc.c]: what a receive takes and clears, and that a send
    serves the waiting threads one after the other, each with the flags the
    ones before it left. *)
From S2P Require Import Prelude Timer Kernel KernelInv KernelOps Ipc IpcInv.

(** ** Subsets of a set of flags *)

Definition flags_in (a b : Z) : Prop := a .& b = a.

Lemma flags_in_refl a : flags_in a a.
Proof. apply Z.land_diag. Qed.

Lemma flags_in_trans a b c : flags_in a b -> flags_in b c -> flags_in a c.
Proof. unfold flags_in. intros H1 H2. rewrite <- H1, <- Z.land_assoc, H2. done. Qed.

Lemma flags_in_ldiff a b : flags_in (Z.ldiff a b) a.
Proof.
  unfold flags_in. apply Z.bits_inj'. intros n Hn. rewrite Z.land_spec, Z.ldiff_spec.
  by destruct (Z.testbit a n), (Z.testbit b n).
Qed.

(** With fewer flags set, a thread that was not satisfied still is not. *)
Lemma event_test_mono s s' ev info : flags_in s' s ->
  event_test s ev info = NoMatch -> event_test s' ev info = NoMatch.
Proof.
  unfold event_test, flags_in. intros Hs. destruct (has info RT_EVENT_FLAG_AND).
  - destruct (Z.eqb_spec (ev .& s) ev) as [|Hne]; [done|]. intros _.
    destruct (Z.eqb_spec (ev .& s') ev) as [E|]; [|done]. exfalso. apply Hne.
    rewrite <- E, <- Z.land_assoc, Hs. done.
  - destruct (has info RT_EVENT_FLAG_OR); [|done].
    destruct (Z.eqb_spec (ev .& s) 0) as [E|]; [|done]. intros _.
    assert (ev .& s' = 0) as ->; [|done].
    rewrite <- Hs, (Z.land_comm s'), Z.land_assoc, E. done.
Qed.

(** ** The loop of [rt_event_send] *)

(** Every waiting thread asked for AND or for OR: [rt_event_recv] asserts it. *)
Definition asked (th : rt_thread) : Prop :=
  has (event_info th) RT_EVENT_FLAG_AND = true \/ has (event_info th) RT_EVENT_FLAG_OR = true.

Lemma event_test_asked s th : asked th -> event_test s (event_set th) (event_info th) <> BadOption.
Proof.
  unfold event_test. intros [-> | H].
  - by destruct (_ =? _).
  - destruct (has _ RT_EVENT_FLAG_AND); [by destruct (_ =? _)|]. rewrite H. by destruct (negb _).
Qed.

(** Resuming one waiting thread after its event set was written. *)
Lemma wake_spec k o t es l1 l2 : kernel_ok k -> queue k (Suspended o) = l1 ++ t :: l2 ->
  let k1 := upd_thread t (fun th => with_event es (event_info th) th) k in
  let k' := fst (rt_thread_resume t k1) in
  kernel_ok k' /\ awake (thr k' t) /\ error (thr k' t) = error (thr k t) /\
  event_set (thr k' t) = es /\ (forall x, x <> t -> thr k' x = thr k x) /\
  queue k' (Suspended o) = l1 ++ l2 /\ rt_current_thread k' = rt_current_thread k /\
  (forall x, known k x -> known k' x).
Proof.
  intros Hok Hq. cbv zeta. set (k1 := upd_thread t _ k).
  assert (t ∈ queue k (Suspended o)) as Hin
    by (rewrite Hq; apply elem_of_app; right; apply list_elem_of_here).
  destruct (bt_in _ _ (proj1 (proj1 Hok)) t _ Hin) as (Hk & _ & Hs). cbn in Hs.
  assert (kernel_ok k1) as Hok1 by (by apply kernel_ok_upd_same).
  assert (known k1 t) as Hk1 by (apply known_upd; by left).
  assert (thr k1 t = with_event es (event_info (thr k t)) (thr k t)) as Et
    by (unfold k1; by rewrite thr_upd_same).
  assert (state_of (thr k1 t) = RT_THREAD_SUSPEND) as Hs1 by (by rewrite Et).
  destruct (resume_fields k1 t Hs1) as (Ec & _ & _ & _ & Hoth & Hst & _ & He & Hqs & Hkn). cbv zeta in *.
  split; [by apply resume_ok|]. split.
  { unfold awake. rewrite Hst. destruct (_ =? _); [by right|by left]. }
  split; [by rewrite He, Et|]. split.
  { unfold rt_thread_resume. rewrite Hs1. cbn [Z.eqb Pos.eqb negb fst RT_THREAD_SUSPEND].
    rewrite insert_thr, decide_True by done.
    match goal with |- event_set (to_state _ (thr ?K t)) = es => change (thr K t) with (thr k1 t) end.
    by rewrite Et. }
  split. { intros x Hx. rewrite Hoth by done. unfold k1. by rewrite thr_upd_other. }
  split; [|split; [done|]].
  - rewrite Hqs. change (queue k1 (Suspended o)) with (queue k (Suspended o)).
    rewrite bool_decide_eq_false_2 by done. rewrite andb_false_r, app_nil_r, Hq.
    pose proof (bt_nodup _ _ (proj1 (proj1 Hok)) (Suspended o)) as Hnd. rewrite Hq in Hnd.
    apply NoDup_app in Hnd as (_ & Hd & Hnd2). apply NoDup_cons in Hnd2 as [H2 _].
    rewrite filter_app, filter_cons, decide_False by (by intros ?).
    rewrite !filter_absent; [done|done|].
    intros H1. apply (Hd t H1). apply list_elem_of_here.
  - intros x Hx. apply Hkn. right. apply known_upd. by right.
Qed.

(** ** Serving the waiting threads

    What a thread waits for is there, under flags [s]; what it is given, and
    what is left of the flags if it asked for them to be cleared. *)
Definition satisfied (s set opt : Z) : bool :=
  if has opt RT_EVENT_FLAG_AND then s .& set =? set
  else if has opt RT_EVENT_FLAG_OR then negb (s .& set =? 0) else false.

Definition given (s set opt : Z) : Z := if has opt RT_EVENT_FLAG_AND then set else set .& s.
Definition left_over (s set opt : Z) : Z :=
  if has opt RT_EVENT_FLAG_CLEAR then Z.ldiff s (given s set opt) else s.

(** The threads of [l], in order: those whose condition holds under the flags
    left at their turn, with what each is given; those who go on waiting; the
    flags left at the end. *)
Fixpoint serve (th : Z -> rt_thread) (l : list Z) (s : Z) : list (Z * Z) * list Z * Z :=
  match l with
  | [] => ([], [], s)
  | t :: l =>
      let set := event_set (th t) in let opt := event_info (th t) in
      if satisfied s set opt then
        let '(woken, waiting, s') := serve th l (left_over s set opt) in
        ((t, given s set opt) :: woken, waiting, s')
      else
        let '(woken, waiting, s') := serve th l s in (woken, t :: waiting, s')
  end.

Lemma event_test_satisfied s th : asked th ->
  event_test s (event_set th) (event_info th) =
  if satisfied s (event_set th) (event_info th) then Match (given s (event_set th) (event_info th)) else NoMatch.
Proof.
  unfold event_test, satisfied, given, asked. rewrite (Z.land_comm s). intros [-> | H]; [done|].
  destruct (has _ RT_EVENT_FLAG_AND); [done|]. by rewrite H.
Qed.

Lemma satisfied_mono s s' th : asked th -> flags_in s' s ->
  satisfied s (event_set th) (event_info th) = false -> satisfied s' (event_set th) (event_info th) = false.
Proof.
  intros Ha Hs Hn. pose proof (event_test_satisfied s th Ha) as H1. pose proof (event_test_satisfied s' th Ha) as H2.
  rewrite Hn in H1. pose proof (event_test_mono s s' _ _ Hs H1) as H3. rewrite H2 in H3.
  by destruct (satisfied s' _ _).
Qed.

Lemma serve_ext th th' l : forall s, (forall t, t ∈ l -> th' t = th t) -> serve th' l s = serve th l s.
Proof.
  induction l as [|t l IH]; intros s Ht; [done|]. cbn [serve]. rewrite Ht by apply list_elem_of_here.
  destruct (satisfied _ _ _); rewrite IH; try done; intros x Hx; apply Ht; by apply list_elem_of_further.
Qed.

(** Everybody is woken or goes on waiting; no flag appears; nobody who goes on
    waiting is satisfied by the flags that are left. *)
Lemma pass_spec th l : forall s woken waiting s', serve th l s = (woken, waiting, s') ->
  Forall (fun t => asked (th t)) l ->
  flags_in s' s /\ sublist waiting l /\ sublist woken.*1 l /\
  (forall t, t ∈ l <-> t ∈ woken.*1 \/ t ∈ waiting) /\
  (forall t, t ∈ waiting -> satisfied s' (event_set (th t)) (event_info (th t)) = false).
Proof.
  induction l as [|t l IH]; intros s woken waiting s' E Ha; cbn [serve] in E.
  { injection E as <- <- <-. split_and!; try done; try apply flags_in_refl; [|by intros t ?%not_elem_of_nil].
    intros t. cbn. split; [tauto|]. by intros [?|?]. }
  apply Forall_cons in Ha as [Ht Ha].
  destruct (satisfied s (event_set (th t)) (event_info (th t))) eqn:Hs.
  - destruct (serve th l _) as [[wo wa] s1] eqn:E1. injection E as <- <- <-.
    destruct (IH _ _ _ _ E1 Ha) as (Hf & Hw & Hk & Hall & Hn). split_and!; [|by constructor|by constructor| |done].
    + eapply flags_in_trans; [exact Hf|]. unfold left_over. destruct (has _ _); [apply flags_in_ldiff|apply flags_in_refl].
    + intros x. cbn [fmap list_fmap fst]. rewrite !elem_of_cons, Hall. tauto.
  - destruct (serve th l s) as [[wo wa] s1] eqn:E1. injection E as <- <- <-.
    destruct (IH _ _ _ _ E1 Ha) as (Hf & Hw & Hk & Hall & Hn). split_and!; [done|by constructor|by constructor| |].
    + intros x. rewrite !elem_of_cons, Hall. tauto.
    + intros x [->|Hx]%elem_of_cons; [by eapply satisfied_mono|by apply Hn].
Qed.

Lemma serve_disjoint th l : forall s woken waiting s', serve th l s = (woken, waiting, s') -> NoDup l ->
  forall t, t ∈ woken.*1 -> t ∈ waiting -> False.
Proof.
  induction l as [|t l IH]; intros s woken waiting s' E Hnd; cbn [serve] in E.
  { injection E as <- <- <-. by intros t ?%not_elem_of_nil. }
  apply NoDup_cons in Hnd as [Hnot Hnd].
  assert (forall s woken waiting s', serve th l s = (woken, waiting, s') ->
    (t ∉ woken.*1) /\ (t ∉ waiting)) as Hout.
  { intros s1 wo wa s2 E1. split; intros Hin; apply Hnot; clear - E1 Hin; revert s1 wo wa s2 E1 Hin;
      induction l as [|x l IHl]; intros s1 wo wa s2 E1 Hin; cbn [serve] in E1; [by injection E1 as <- <- <-| |
        by injection E1 as <- <- <-|];
      (destruct (satisfied _ _ _); destruct (serve th l _) as [[wo' wa'] s'] eqn:E2; injection E1 as <- <- <-;
       cbn [fmap list_fmap fst] in Hin; rewrite ?elem_of_cons in Hin |- *;
       [| ]); try (destruct Hin as [->|Hin]; [by left|]); right; by eapply IHl. }
  destruct (satisfied _ _ _); destruct (serve th l _) as [[wo wa] s1] eqn:E1; injection E as <- <- <-;
    destruct (Hout _ _ _ _ E1) as [H1 H2]; intros x; cbn [fmap list_fmap fst]; rewrite elem_of_cons.
  - intros [->|Hx]; [done|by eapply IH].
  - intros Hx [->|Hx']; [done|by eapply IH].
Qed.

Lemma event_send_loop_spec o l : forall k s need pre woken waiting s',
  kernel_ok k -> queue k (Suspended o) = pre ++ l -> NoDup l -> Forall (fun t => asked (thr k t)) l ->
  serve (thr k) l s = (woken, waiting, s') ->
  exists k' need',
    event_send_loop l k s need = (k', s', need', None) /\ kernel_ok k' /\
    queue k' (Suspended o) = pre ++ waiting /\
    (forall x es, (x, es) ∈ woken -> awake (thr k' x) /\ error (thr k' x) = error (thr k x) /\
       event_set (thr k' x) = es) /\
    (forall x, x ∉ woken.*1 -> thr k' x = thr k x) /\
    rt_current_thread k' = rt_current_thread k /\ (forall x, known k x -> known k' x).
Proof.
  induction l as [|t l IH]; intros k s need pre woken waiting s' Hok Hq Hnd Hask Es; cbn [serve] in Es.
  - injection Es as <- <- <-. exists k, need. split_and!; try done. by intros x es ?%not_elem_of_nil.
  - apply NoDup_cons in Hnd as [Hnot Hnd]. apply Forall_cons in Hask as [Ht Hask].
    cbn [event_send_loop]. rewrite (event_test_satisfied s _ Ht).
    destruct (satisfied s (event_set (thr k t)) (event_info (thr k t))) eqn:Esat.
    + destruct (serve (thr k) l _) as [[wo wa] s1] eqn:E1. injection Es as <- <- <-.
      set (es := given s _ _) in *.
      pose proof (wake_spec k o t es pre l Hok Hq) as (Hok1 & Haw & He & Hes & Hot & Hq1 & Hc1 & Hkn1).
      cbv zeta in *. set (k1 := upd_thread t _ k) in *. set (k2 := fst (rt_thread_resume t k1)) in *.
      assert (thr k1 t = with_event es (event_info (thr k t)) (thr k t)) as Et
        by (unfold k1; by rewrite thr_upd_same).
      assert (forall x, x ∈ l -> x <> t) as Hlt by (intros x Hx ->; done).
      assert (t ∉ wo.*1) as Hwt.
      { intros Hin. apply Hnot. destruct (pass_spec _ _ _ _ _ _ E1 Hask) as (_ & _ & _ & Hall & _). apply Hall. by left. }
      destruct (IH k2 (left_over s (event_set (thr k t)) (event_info (thr k t))) true pre wo wa s1) as
        (k' & need' & E & Hok' & Hq' & Hwok & Hoth & Hc & Hkn); try done.
      { rewrite Forall_forall in Hask |- *. intros x Hx. rewrite Hot by by apply Hlt. by apply Hask. }
      { rewrite <- E1. apply serve_ext. intros x Hx. apply Hot. by apply Hlt. }
      exists k', need'. split.
      { rewrite <- E. rewrite Et. done. }
      split; [done|]. split; [done|]. split; [|split; [|split; [by rewrite Hc|intros x Hx; by apply Hkn, Hkn1]]].
      * intros x e [[= -> ->]|Hx]%elem_of_cons; [by rewrite Hoth|].
        destruct (Hwok x e Hx) as (H1 & H2 & H3). rewrite Hot in H2; [done|]. intros ->. apply Hwt.
        apply list_elem_of_fmap. by exists (t, e).
      * intros x Hx. cbn [fmap list_fmap fst] in Hx. rewrite not_elem_of_cons in Hx. destruct Hx as [Hxt Hxl].
        rewrite Hoth by done. by apply Hot.
    + destruct (serve (thr k) l s) as [[wo wa] s1] eqn:E1. injection Es as <- <- <-.
      destruct (IH k s need (pre ++ [t]) wo wa s1) as
        (k' & need' & E & Hok' & Hq' & Hwok & Hoth & Hc & Hkn);
        try done; [by rewrite Hq, <- app_assoc|].
      exists k', need'. split_and!; try done. by rewrite Hq', <- app_assoc.
Qed.

(** ** [rt_event_send] *)

(** C18 [rt_event_send] adds the sent flags and goes through the waiting threads
    in the order of the queue, each having asked for all or for any of some
    flags ([rt_event_recv] asserts one of the two): exactly the threads whose
    condition holds under the flags left at their turn are woken - ready or
    running, with the error they had and the flags they are given recorded, the
    ones they asked for under AND and those of them that are set under OR, so
    that a receive without an error returns these -, a thread that asked for it
    takes its flags out of what is left for the ones behind it, and the others
    go on waiting in the same order, untouched.  The event keeps the flags left
    at the end: all of them were set or sent, and nobody who goes on waiting is
    satisfied by them. *)
Theorem event_send o set k e : set <> 0 -> kernel_ok k -> known k (rt_current_thread k) ->
  Forall (fun t => asked (thr k t)) (queue k (Suspended o)) ->
  let '(woken, waiting, s) := serve (thr k) (queue k (Suspended o)) (e_set e .| set) in
  exists k', rt_event_send o set k e = (k', mk_event s (e_flag e), RT_EOK) /\ kernel_ok k' /\
    known k' (rt_current_thread k') /\ queue k' (Suspended o) = waiting /\
    (forall x es, (x, es) ∈ woken -> awake (thr k' x) /\ blocked_end x k' = blocked_end x k /\
       event_set (thr k' x) = es /\ (blocked_end x k = RT_EOK -> rt_event_recv_end x k' = (RT_EOK, Some es))) /\
    (forall x, x ∉ woken.*1 -> same_but_stat (thr k' x) (thr k x)) /\
    flags_in s (e_set e .| set) /\
    (forall x, x ∈ waiting -> satisfied s (event_set (thr k' x)) (event_info (thr k' x)) = false).
Proof.
  intros Hset Hok Hc Hask. unfold rt_event_send. rewrite (proj2 (Z.eqb_neq _ _)) by done.
  pose proof (bt_nodup _ _ (proj1 (proj1 Hok)) (Suspended o)) as Hnd.
  destruct (serve (thr k) (queue k (Suspended o)) (e_set e .| set)) as [[woken waiting] s] eqn:Es.
  destruct (pass_spec _ _ _ _ _ _ Es Hask) as (Hfl & _ & Hk & Hall & Hno).
  destruct (event_send_loop_spec o (queue k (Suspended o)) k (e_set e .| set) false [] _ _ _ Hok eq_refl Hnd Hask Es)
    as (k1 & need & E & Hok1 & Hq1 & Hwok & Hoth & Hc1 & Hkn).
  rewrite E. cbn [app] in Hq1.
  assert (known k1 (rt_current_thread k1)) as Hck by (rewrite Hc1; by apply Hkn).
  destruct (schedule_keeps k1 Hok1 Hck) as (Hc2 & _ & _ & Hsame & Hsus & Haw). cbv zeta in *.
  assert (forall kf, kf = k1 \/ kf = rt_schedule k1 ->
    kernel_ok kf /\ known kf (rt_current_thread kf) /\ queue kf (Suspended o) = waiting /\
    (forall x, same_but_stat (thr kf x) (thr k1 x)) /\
    (forall x, awake (thr k1 x) -> awake (thr kf x))) as Hf.
  { intros kf [-> | ->]; [done|].
    split; [by apply schedule_ok|]. split; [done|]. split; [by rewrite schedule_queue|]. done. }
  destruct (Hf (if need then rt_schedule k1 else k1)) as (Hokf & Hcf & Hqf & Hsf & Hawf);
    [by destruct need; [right|left]|].
  set (kf := if need then rt_schedule k1 else k1) in *.
  assert (forall x, event_set (thr kf x) = event_set (thr k1 x) /\ event_info (thr kf x) = event_info (thr k1 x)) as Hev.
  { intros x. pose proof (Hsf x) as Hx. unfold same_but_stat in Hx. by injection Hx. }
  exists kf. split; [done|]. split; [done|]. split; [done|]. split; [done|]. split; [|split; [|split; [done|]]].
  - intros x es Hx. destruct (Hwok x es Hx) as (H1 & H2 & H3). destruct (Hev x) as [Hs _].
    assert (error (thr kf x) = error (thr k x)) as He by (by rewrite (same_error _ _ (Hsf x))).
    split; [by apply Hawf|]. split; [done|]. split; [by rewrite Hs|]. intros H0.
    unfold rt_event_recv_end, blocked_end in *. rewrite He, H0, Hs, H3. done.
  - intros x Hx. pose proof (Hsf x) as Hs. by rewrite (Hoth x Hx) in Hs.
  - intros x Hx. destruct (Hev x) as [-> ->]. rewrite Hoth; [by apply Hno|].
    intros Hw. apply list_elem_of_lookup in Hx as [i Hi].
    pose proof (serve_disjoint _ _ _ _ _ _ Es Hnd) as Hd. by apply (Hd x); [|apply list_elem_of_lookup; exists i].
Qed.

(** ** [rt_event_recv] *)

Lemma event_recv_now o set opt time k e : set <> 0 -> satisfied (e_set e) set opt = true ->
  exists k', rt_event_recv o set opt time k e =
    (k', mk_event (if has opt RT_EVENT_FLAG_CLEAR then Z.ldiff (e_set e) set else e_set e) (e_flag e),
     Done RT_EOK, Some (e_set e .& set)) /\ queues k' = queues k.
Proof.
  intros Hset Hs. unfold rt_event_recv. rewrite (proj2 (Z.eqb_neq _ _)) by done.
  unfold satisfied in Hs. rewrite Hs. unfold rt_thread_self.
  exists (upd_thread (rt_current_thread k) (with_event (e_set e .& set) opt)
    (set_error (rt_current_thread k) RT_EOK k)). split; [|done].
  assert (error (thr (upd_thread (rt_current_thread k) (with_event (e_set e .& set) opt)
    (set_error (rt_current_thread k) RT_EOK k)) (rt_current_thread k)) = RT_EOK) as Her
    by (rewrite thr_upd_same; cbn; unfold set_error; by rewrite thr_upd_same).
  by rewrite Her.
Qed.

Lemma running_upd_same k t f : running_ok k -> known k t ->
  state_of (f (thr k t)) = state_of (thr k t) ->
  current_priority (f (thr k t)) = current_priority (thr k t) ->
  init_priority (f (thr k t)) = init_priority (thr k t) ->
  number_mask (f (thr k t)) = number_mask (thr k t) -> running_ok (upd_thread t f k).
Proof.
  intros [Hok Hc Hs] Ht H1 H2 H3 H4. split.
  - by apply kernel_ok_upd_same.
  - apply known_upd. by right.
  - change (rt_current_thread (upd_thread t f k)) with (rt_current_thread k).
    rewrite thr_upd. destruct (decide (t = _)) as [->|]; [by rewrite H1|done].
Qed.

Lemma event_recv_blocks o set opt time k e : running_ok k -> set <> 0 ->
  satisfied (e_set e) set opt = false -> time <> 0 ->
  e_flag e = RT_IPC_FLAG_FIFO \/ e_flag e = RT_IPC_FLAG_PRIO ->
  let t := rt_current_thread k in
  exists k', rt_event_recv o set opt time k e = (k', e, Blocked, None) /\ kernel_ok k' /\
    state_of (thr k' t) = RT_THREAD_SUSPEND /\ event_set (thr k' t) = set /\
    event_info (thr k' t) = opt /\ t ∈ queue k' (Suspended o) /\
    rt_event_recv_end t k' = (RT_EOK, Some set).
Proof.
  intros Hr Hset Hs Ht Hfl. cbv zeta. unfold rt_event_recv, rt_thread_self.
  rewrite (proj2 (Z.eqb_neq set 0)) by done. unfold satisfied in Hs. rewrite Hs.
  rewrite (proj2 (Z.eqb_neq time 0)) by done. set (t := rt_current_thread k).
  set (k1 := upd_thread t (with_event set opt) (set_error t RT_EOK k)).
  assert (running_ok k1) as Hr1.
  { apply running_upd_same; try done; [apply running_set_error; [done|apply Hr]|].
    apply known_upd. by left. }
  destruct (block_spec k1 (Suspended o) (e_flag e) time Hr1) as
    (Hok & Hc & Hst & Hsame & _ & Hq & _); [by exists o; left|done|]. cbv zeta in *.
  unfold block in *. change (rt_current_thread k1) with t in *.
  assert (thr k1 t = with_event set opt (with_error RT_EOK (thr k t))) as Et
    by (unfold k1, set_error; by rewrite !thr_upd_same).
  set (k' := rt_schedule _) in *.
  assert (event_set (thr k' t) = set /\ event_info (thr k' t) = opt /\ error (thr k' t) = RT_EOK)
    as (H1 & H2 & H3).
  { unfold same_but_stat in Hsame. rewrite Et in Hsame. by injection Hsame. }
  exists k'. split; [done|]. split; [done|]. split; [done|]. split; [done|]. split; [done|].
  split.
  - rewrite Hq. unfold queued. destruct (e_flag e =? RT_IPC_FLAG_FIFO).
    + apply elem_of_app. right. apply list_elem_of_here.
    + destruct (prio_insert_split k1 t (queue k1 (Suspended o))) as (l1 & l2 & E1 & _).
      rewrite E1. apply elem_of_app. right. apply list_elem_of_here.
  - unfold rt_event_recv_end. rewrite H3. cbn. by rewrite H1.
Qed.

(** ** Waiting for flags *)

(** [rt_event_recv]: with the flags it asks for already set it returns them
    at once, clearing them only when asked; otherwise, unless it may not wait,
    it suspends the caller with what it asked for recorded for the sender, and
    the event untouched. *)
Theorem event_recv o set opt time k e : running_ok k -> set <> 0 ->
  e_flag e = RT_IPC_FLAG_FIFO \/ e_flag e = RT_IPC_FLAG_PRIO ->
  let t := rt_current_thread k in
  if satisfied (e_set e) set opt then
    exists k', rt_event_recv o set opt time k e =
      (k', mk_event (if has opt RT_EVENT_FLAG_CLEAR then Z.ldiff (e_set e) set else e_set e) (e_flag e),
       Done RT_EOK, Some (e_set e .& set)) /\ queues k' = queues k
  else if time =? 0 then
    exists k', rt_event_recv o set opt time k e = (k', e, Done (- RT_ETIMEOUT), None) /\
      queues k' = queues k
  else exists k', rt_event_recv o set opt time k e = (k', e, Blocked, None) /\ kernel_ok k' /\
    state_of (thr k' t) = RT_THREAD_SUSPEND /\ event_set (thr k' t) = set /\
    event_info (thr k' t) = opt /\ t ∈ queue k' (Suspended o) /\
    rt_event_recv_end t k' = (RT_EOK, Some set).
Proof.
  intros Hr Hs Hf. cbv zeta. destruct (satisfied (e_set e) set opt) eqn:E; [by apply event_recv_now|].
  destruct (Z.eqb_spec time 0) as [->|Ht]; [|by apply event_recv_blocks].
  eexists. unfold rt_event_recv. rewrite (proj2 (Z.eqb_neq set 0)) by done.
  unfold satisfied in E. rewrite E. split; [done|]. done.
Qed.
