(* ===== verification/Queue.v ===== *)
(** * Queue: circular buffers, and what the firmware's queues promise

    Mailboxes and ring buffers keep a queue in an array, starting at an offset
    and running past the end of the array to its beginning.  [ring p o n] is
    the list of the [n] elements from offset [o]; [written] is what storing a
    block in such an array does, however the stores are split.

    Mailboxes, message queues and ring buffers are each a bounded queue.  The
    class states it of their non-blocking operations; that nothing is lost,
    duplicated or reordered over any sequence of calls is proved once, against
    the class. *)
From S2P Require Import Prelude.

Section ring.
Local Open Scope nat_scope.

Definition ring (p : list Z) (o n : nat) : list Z :=
  map (fun i => p !!! ((o + i) mod length p)) (seq 0 n).

Lemma ring_length p o n : length (ring p o n) = n.
Proof. unfold ring. by rewrite length_map, length_seq. Qed.

Lemma ring_lookup p o n i : i < n -> ring p o n !! i = Some (p !!! ((o + i) mod length p)).
Proof.
  intros Hi. unfold ring. change (map ?f ?l) with (f <$> l).
  rewrite list_lookup_fmap, lookup_seq_lt by done. done.
Qed.

Lemma ring_eq p o n (l : list Z) : length l = n ->
  (forall i, i < n -> l !! i = Some (p !!! ((o + i) mod length p))) -> ring p o n = l.
Proof.
  intros Hl H. apply (list_eq_same_length _ _ n); [done|by rewrite ring_length|].
  intros i x y Hi. rewrite ring_lookup, H by done. congruence.
Qed.

Lemma ring_mod p o n : ring p (o mod length p) n = ring p o n.
Proof.
  destruct (decide (length p = 0)) as [H0|H0].
  { unfold ring. by rewrite H0. }
  apply ring_eq; [apply ring_length|]. intros i Hi. rewrite ring_lookup by done.
  by rewrite Nat.Div0.add_mod_idemp_l.
Qed.

Lemma ring_app p o a b : ring p o (a + b) = ring p o a ++ ring p (o + a) b.
Proof.
  apply ring_eq; [by rewrite length_app, !ring_length|]. intros i Hi.
  destruct (decide (i < a)).
  - by rewrite lookup_app_l, ring_lookup by (rewrite ?ring_length; lia).
  - rewrite lookup_app_r, ring_length, ring_lookup by (rewrite ?ring_length; lia).
    do 2 f_equal. f_equal. lia.
Qed.

Lemma ring_cons p o n : ring p o (S n) = p !!! (o mod length p) :: ring p (S o) n.
Proof. change (S n) with (1 + n). rewrite (ring_app p o 1 n). cbn. by rewrite Nat.add_0_r, Nat.add_1_r. Qed.

Lemma ring_drop p o n d : d <= n -> drop d (ring p o n) = ring p (o + d) (n - d).
Proof.
  intros Hd. replace n with (d + (n - d)) at 1 by lia. rewrite ring_app.
  apply drop_app_length'. by rewrite ring_length.
Qed.

Lemma ring_take p o n d : d <= n -> take d (ring p o n) = ring p o d.
Proof.
  intros Hd. replace n with (d + (n - d)) at 1 by lia. rewrite ring_app.
  apply take_app_length'. by rewrite ring_length.
Qed.

(** The two ways a block lies in the array. *)
Lemma ring_straight p o n : o + n <= length p -> ring p o n = take n (drop o p).
Proof.
  intros H. apply ring_eq; [rewrite length_take, length_drop; lia|]. intros i Hi.
  rewrite lookup_take_lt, lookup_drop, Nat.mod_small by lia.
  rewrite list_lookup_lookup_total_lt by lia. done.
Qed.

Lemma ring_wrapped p o n : o < length p -> length p <= o + n -> n <= length p ->
  ring p o n = drop o p ++ take (o + n - length p) p.
Proof.
  intros Ho Hn Hn'. apply ring_eq; [rewrite length_app, length_take, length_drop; lia|].
  intros i Hi. destruct (decide (o + i < length p)).
  - rewrite lookup_app_l, lookup_drop, Nat.mod_small by (rewrite ?length_drop; lia).
    by apply list_lookup_lookup_total_lt.
  - rewrite lookup_app_r, length_drop, lookup_take_lt by (rewrite ?length_drop; lia).
    replace ((o + i) mod length p) with (o + i - length p)
      by (apply (Nat.mod_unique _ _ 1); lia).
    replace (i - (length p - o)) with (o + i - length p) by lia.
    apply list_lookup_lookup_total_lt. lia.
Qed.

(** ** Storing a block *)

Record written (p p' : list Z) (o : nat) (xs : list Z) : Prop := {
  wr_length : length p' = length p;
  wr_in : forall i, i < length xs -> p' !! ((o + i) mod length p) = xs !! i;
  wr_out : forall i, length xs <= i < length p ->
    p' !! ((o + i) mod length p) = p !! ((o + i) mod length p) }.

Lemma mod_same (len a b : nat) : a mod len = b mod len -> forall i, (a + i) mod len = (b + i) mod len.
Proof.
  intros H i. rewrite <- (Nat.Div0.add_mod_idemp_l a), H, Nat.Div0.add_mod_idemp_l. done.
Qed.

(** What was queued keeps its place, the block follows it, and what does not
    fit any more is lost from the front. *)
Lemma written_ring p p' r n o xs : 0 < length p -> written p p' o xs -> n <= length p ->
  length xs <= length p -> (r + n) mod length p = o mod length p ->
  ring p' (r + (n + length xs - length p)) (Nat.min (n + length xs) (length p)) =
  drop (n + length xs - length p) (ring p r n) ++ xs.
Proof.
  intros Hpos [Hlen Hin Hout] Hn Hxs Hro. set (d := n + length xs - length p).
  assert (forall i, i < length xs -> p' !! ((r + n + i) mod length p) = xs !! i) as Hin'.
  { intros i Hi. rewrite (mod_same _ _ _ Hro). by apply Hin. }
  assert (forall i, d <= i < n -> p' !! ((r + i) mod length p) = p !! ((r + i) mod length p)) as Hout'.
  { intros i Hi. specialize (Hout (length p - n + i) ltac:(lia)).
    rewrite <- (mod_same _ _ _ Hro) in Hout.
    replace (r + n + (length p - n + i)) with (r + i + 1 * length p) in Hout by lia.
    by rewrite Nat.Div0.mod_add in Hout. }
  rewrite ring_drop by lia. apply ring_eq; [rewrite length_app, ring_length; lia|].
  intros i Hi. rewrite Hlen. destruct (decide (i < n - d)).
  - rewrite lookup_app_l, ring_lookup by (rewrite ?ring_length; lia). f_equal.
    rewrite <- !Nat.add_assoc. rewrite !list_lookup_total_alt. f_equal. symmetry. apply Hout'. lia.
  - rewrite lookup_app_r, ring_length by (rewrite ring_length; lia).
    rewrite <- Hin' by lia. replace (r + n + (i - (n - d))) with (r + d + i) by lia.
    apply list_lookup_lookup_total_lt. rewrite Hlen. apply Nat.mod_upper_bound. lia.
Qed.

(** Storing before the queue, as urgent messages are. *)
Lemma written_front p p' r n o xs : 0 < length p -> written p p' o xs ->
  n + length xs <= length p -> r mod length p = (o + length xs) mod length p ->
  ring p' o (length xs + n) = xs ++ ring p r n.
Proof.
  intros Hpos [Hlen Hin Hout] Hn Hro.
  apply ring_eq; [rewrite length_app, ring_length; lia|].
  intros i Hi. rewrite Hlen. destruct (decide (i < length xs)).
  - rewrite lookup_app_l by done. rewrite <- Hin by done.
    apply list_lookup_lookup_total_lt. rewrite Hlen. apply Nat.mod_upper_bound. lia.
  - rewrite lookup_app_r, ring_lookup by lia. f_equal.
    rewrite (mod_same _ _ _ Hro). replace (o + length xs + (i - length xs)) with (o + i) by lia.
    rewrite !list_lookup_total_alt. f_equal. symmetry. apply Hout. lia.
Qed.

Lemma written_one p o v : o < length p -> written p (<[o := v]> p) o [v].
Proof.
  intros Ho. split; [apply length_insert| |].
  - intros i Hi. cbn in Hi. assert (i = 0) as -> by lia.
    rewrite Nat.add_0_r, Nat.mod_small by done. by rewrite list_lookup_insert_eq.
  - intros i Hi. cbn in Hi. apply list_lookup_insert_ne.
    intros E. destruct (decide (o + i < length p)).
    + rewrite Nat.mod_small in E by done. lia.
    + rewrite <- (Nat.mod_unique (o + i) (length p) 1 (o + i - length p)) in E by lia. lia.
Qed.

(** [memcpy] of a block that fits before the end of the array, ... *)
Lemma written_straight p o xs : o + length xs <= length p ->
  written p (take o p ++ xs ++ drop (o + length xs) p) o xs.
Proof.
  intros H. split; [rewrite !length_app, length_take, length_drop; lia| |].
  - intros i Hi. rewrite Nat.mod_small by lia.
    rewrite lookup_app_r, length_take by (rewrite length_take; lia).
    replace (o + i - o `min` length p) with i by lia. by apply lookup_app_l.
  - intros i Hi. destruct (decide (o + i < length p)).
    + rewrite Nat.mod_small by done.
      rewrite lookup_app_r, length_take by (rewrite length_take; lia).
      rewrite lookup_app_r, lookup_drop by lia. f_equal. lia.
    + rewrite <- (Nat.mod_unique (o + i) (length p) 1 (o + i - length p)) by lia.
      rewrite lookup_app_l by (rewrite length_take; lia). apply lookup_take_lt. lia.
Qed.

(** ... and the two copies of one that does not. *)
Lemma written_wrapped p o xs : o < length p -> length p <= o + length xs -> length xs <= length p ->
  let a := length p - o in
  written p (drop a xs ++ take (o - (length xs - a)) (drop (length xs - a) p) ++ take a xs) o xs.
Proof.
  intros Ho H Hxs a. split.
  - rewrite !length_app, !length_take, !length_drop. lia.
  - intros i Hi. destruct (decide (i < a)).
    + rewrite Nat.mod_small by lia.
      rewrite lookup_app_r, length_drop by (rewrite length_drop; lia).
      rewrite lookup_app_r, length_take, length_drop by (rewrite length_take, length_drop; lia).
      rewrite lookup_take_lt by lia. f_equal. lia.
    + rewrite <- (Nat.mod_unique (o + i) (length p) 1 (o + i - length p)) by lia.
      rewrite lookup_app_l by (rewrite length_drop; lia). rewrite lookup_drop. f_equal. lia.
  - intros i Hi. rewrite <- (Nat.mod_unique (o + i) (length p) 1 (o + i - length p)) by lia.
    rewrite lookup_app_r, length_drop by (rewrite length_drop; lia).
    rewrite lookup_app_l by (rewrite length_take, length_drop; lia).
    rewrite lookup_take_lt, lookup_drop by lia. f_equal. lia.
Qed.

End ring.

(** ** The class of bounded queues *)

(** [q_put] and [q_get] are the calls, [None] an access outside the object's
    memory; [q_get] takes nothing when the queue is empty, [q_put] answers
    [false] when it is full. *)
Class Queue (S A : Type) := {
  q_ok : S -> Prop;
  q_item : A -> Prop;
  q_capacity : S -> nat;
  q_elems : S -> list A;
  q_put : A -> S -> option (S * bool);
  q_get : S -> option (S * option A) }.

Class QueueLaws (S A : Type) `{Queue S A} := {
  q_put_room s a : q_ok s -> q_item a -> (length (q_elems s) < q_capacity s)%nat ->
    exists s', q_put a s = Some (s', true) /\ q_ok s' /\ q_elems s' = q_elems s ++ [a] /\
      q_capacity s' = q_capacity s;
  q_put_full s a : q_ok s -> q_item a -> length (q_elems s) = q_capacity s ->
    q_put a s = Some (s, false);
  q_get_some s a l : q_ok s -> q_elems s = a :: l ->
    exists s', q_get s = Some (s', Some a) /\ q_ok s' /\ q_elems s' = l /\
      q_capacity s' = q_capacity s;
  q_get_none s : q_ok s -> q_elems s = [] -> q_get s = Some (s, None);
  q_bounded s : q_ok s -> (length (q_elems s) <= q_capacity s)%nat }.

Section client.
Context {S A : Type} `{QueueLaws S A}.

Inductive qcall := Put (a : A) | Get.
Definition call_ok (c : qcall) : Prop := match c with Put a => q_item a | Get => True end.

(** Run the calls; the items that were accepted, and those that were taken. *)
Fixpoint q_run (cs : list qcall) (s : S) : option (S * list A * list A) :=
  match cs with
  | [] => Some (s, [], [])
  | Put a :: cs =>
      '(s, done) ← q_put a s;
      '(s, accepted, taken) ← q_run cs s;
      Some (s, (if done : bool then [a] else []) ++ accepted, taken)
  | Get :: cs =>
      '(s, got) ← q_get s;
      '(s, accepted, taken) ← q_run cs s;
      Some (s, accepted, (match got with Some a => [a] | None => [] end) ++ taken)
  end.

Lemma q_run_spec cs : forall s, q_ok s -> Forall call_ok cs ->
  exists s' accepted taken, q_run cs s = Some (s', accepted, taken) /\ q_ok s' /\
    q_elems s ++ accepted = taken ++ q_elems s' /\ q_capacity s' = q_capacity s.
Proof.
  induction cs as [|c cs IH]; intros s Hs Hcs.
  - exists s, [], []. split_and!; try done. by rewrite app_nil_r.
  - apply Forall_cons in Hcs as [Hc Hcs]. destruct c as [a|]; cbn [q_run].
    + destruct (decide (length (q_elems s) < q_capacity s)%nat) as [Hl|Hl].
      * destruct (q_put_room s a Hs Hc Hl) as (s1 & -> & Hs1 & E1 & Ec1). cbn [mbind option_bind].
        destruct (IH s1 Hs1 Hcs) as (s' & acc & tk & -> & Hs' & E & Ec). cbn [mbind option_bind].
        exists s', (a :: acc), tk. rewrite E1, <- app_assoc in E. rewrite Ec, Ec1. done.
      * pose proof (q_bounded s Hs). rewrite q_put_full by (done || lia). cbn [mbind option_bind].
        destruct (IH s Hs Hcs) as (s' & acc & tk & -> & Hs' & E & Ec). by exists s', acc, tk.
    + destruct (q_elems s) as [|a l] eqn:El.
      * rewrite q_get_none by done. cbn [mbind option_bind].
        destruct (IH s Hs Hcs) as (s' & acc & tk & -> & Hs' & E & Ec). rewrite El in E. by exists s', acc, tk.
      * destruct (q_get_some s a l Hs El) as (s1 & -> & Hs1 & E1 & Ec1). cbn [mbind option_bind].
        destruct (IH s1 Hs1 Hcs) as (s' & acc & tk & -> & Hs' & E & Ec). cbn [mbind option_bind].
        exists s', acc, (a :: tk). rewrite E1 in E. cbn. rewrite E, Ec, Ec1. done.
Qed.
End client.
