(* ===== verification/RingBuffer.v ===== *)
(** * RingBuffer: the byte queue of the device drivers

    [rt-thread/components/drivers/src/ringbuffer.c]: a circular buffer whose
    indices carry a mirror bit to tell a full buffer from an empty one.  The
    operations refine a bounded queue of bytes ([contents]); the exception is
    [rt_ringbuffer_put_force], which empties the buffer in one case. *)
From S2P Require Import Prelude Queue.

(** ** The buffer

    A mirror is a 1-bit field ([~] flips it) and an index a 15-bit one.
    [buffer_ptr] holds the [buffer_size] bytes in use; an access outside them
    is [None]. *)

Record rt_ringbuffer := mk_rb {
  buffer_ptr : list Z;
  read_mirror : bool; read_index : Z;
  write_mirror : bool; write_index : Z;
  buffer_size : Z }.

Definition u15 (z : Z) : Z := z `mod` 32768.

Definition set_read (m : bool) (i : Z) (rb : rt_ringbuffer) : rt_ringbuffer :=
  mk_rb (buffer_ptr rb) m (u15 i) (write_mirror rb) (write_index rb) (buffer_size rb).
Definition set_write (m : bool) (i : Z) (rb : rt_ringbuffer) : rt_ringbuffer :=
  mk_rb (buffer_ptr rb) (read_mirror rb) (read_index rb) m (u15 i) (buffer_size rb).
Definition set_bytes (p : list Z) (rb : rt_ringbuffer) : rt_ringbuffer :=
  mk_rb p (read_mirror rb) (read_index rb) (write_mirror rb) (write_index rb) (buffer_size rb).

(** [memcpy(&p[i], xs, length xs)], and the bytes [memcpy(_, &p[i], n)] reads. *)
Definition copy_to (p : list Z) (i : Z) (xs : list Z) : option (list Z) :=
  if (0 <=? i) && (i + Z.of_nat (length xs) <=? Z.of_nat (length p))
  then Some (take (Z.to_nat i) p ++ xs ++ drop (Z.to_nat i + length xs) p) else None.
Definition copy_from (p : list Z) (i n : Z) : option (list Z) :=
  if (0 <=? i) && (0 <=? n) && (i + n <=? Z.of_nat (length p))
  then Some (take (Z.to_nat n) (drop (Z.to_nat i) p)) else None.

Inductive rt_ringbuffer_state :=
  RT_RINGBUFFER_EMPTY | RT_RINGBUFFER_FULL | RT_RINGBUFFER_HALFFULL.

Definition rt_ringbuffer_status (rb : rt_ringbuffer) : rt_ringbuffer_state :=
  if read_index rb =? write_index rb then
    if Bool.eqb (read_mirror rb) (write_mirror rb) then RT_RINGBUFFER_EMPTY else RT_RINGBUFFER_FULL
  else RT_RINGBUFFER_HALFFULL.

Definition rt_ringbuffer_data_len (rb : rt_ringbuffer) : Z :=
  match rt_ringbuffer_status rb with
  | RT_RINGBUFFER_EMPTY => 0
  | RT_RINGBUFFER_FULL => buffer_size rb
  | RT_RINGBUFFER_HALFFULL =>
      if write_index rb >? read_index rb then write_index rb - read_index rb
      else buffer_size rb - (read_index rb - write_index rb)
  end.
Definition rt_ringbuffer_space_len (rb : rt_ringbuffer) : Z :=
  buffer_size rb - rt_ringbuffer_data_len rb.

Definition rt_ringbuffer_init (pool : list Z) (size : Z) : rt_ringbuffer :=
  let n := s16 (align_down size) in
  mk_rb (take (Z.to_nat n) pool) false 0 false 0 n.

(** [alloc_rb] and [pool]: what the two [rt_malloc] calls return. *)
Definition rt_ringbuffer_create (alloc_rb : bool) (pool : Z -> option (list Z)) (size : Z)
    : option rt_ringbuffer :=
  let size := u16 (align_down size) in
  if negb alloc_rb then None
  else match pool size with None => None | Some p => Some (rt_ringbuffer_init p (s16 size)) end.

Definition rt_ringbuffer_reset (rb : rt_ringbuffer) : rt_ringbuffer :=
  mk_rb (buffer_ptr rb) false 0 false 0 (buffer_size rb).

(** ** Blocks *)

(** The stores [rt_ringbuffer_put] and [rt_ringbuffer_put_force] share. *)
Definition rb_store (ptr : list Z) (length : Z) (rb : rt_ringbuffer) : option rt_ringbuffer :=
  let room := buffer_size rb - write_index rb in
  if room >? length then
    xs ← copy_from ptr 0 length;
    p ← copy_to (buffer_ptr rb) (write_index rb) xs;
    Some (set_write (write_mirror rb) (write_index rb + length) (set_bytes p rb))
  else
    xs ← copy_from ptr 0 room;
    p ← copy_to (buffer_ptr rb) (write_index rb) xs;
    ys ← copy_from ptr room (length - room);
    p ← copy_to p 0 ys;
    Some (set_write (negb (write_mirror rb)) (length - room) (set_bytes p rb)).

Definition rt_ringbuffer_put (rb : rt_ringbuffer) (ptr : list Z) (length : Z)
    : option (rt_ringbuffer * Z) :=
  let size := u16 (rt_ringbuffer_space_len rb) in
  if size =? 0 then Some (rb, 0)
  else
    let length := if size <? length then size else length in
    rb ← rb_store ptr length rb; Some (rb, length).

Definition rt_ringbuffer_put_force (rb : rt_ringbuffer) (ptr : list Z) (length : Z)
    : option (rt_ringbuffer * Z) :=
  let space_length := u16 (rt_ringbuffer_space_len rb) in
  let '(ptr, length) :=
    if length >? buffer_size rb
    then (drop (Z.to_nat (length - buffer_size rb)) ptr, u16 (buffer_size rb)) else (ptr, length) in
  let wraps := negb (buffer_size rb - write_index rb >? length) in
  rb ← rb_store ptr length rb;
  let rb :=
    if length >? space_length
    then set_read (if wraps then negb (read_mirror rb) else read_mirror rb) (write_index rb) rb
    else rb in
  Some (rb, length).

Definition rt_ringbuffer_get (rb : rt_ringbuffer) (length : Z)
    : option (rt_ringbuffer * list Z * Z) :=
  let size := rt_ringbuffer_data_len rb in
  if size =? 0 then Some (rb, [], 0)
  else
    let length := if size <? length then u16 size else length in
    let room := buffer_size rb - read_index rb in
    if room >? length then
      xs ← copy_from (buffer_ptr rb) (read_index rb) length;
      Some (set_read (read_mirror rb) (read_index rb + length) rb, xs, length)
    else
      xs ← copy_from (buffer_ptr rb) (read_index rb) room;
      ys ← copy_from (buffer_ptr rb) 0 (length - room);
      Some (set_read (negb (read_mirror rb)) (length - room) rb, xs ++ ys, length).

(** [peak] hands out the index of the first byte instead of a pointer to it. *)
Definition rt_ringbuffer_peak (rb : rt_ringbuffer) : rt_ringbuffer * option Z * Z :=
  let size := rt_ringbuffer_data_len rb in
  if size =? 0 then (rb, None, 0)
  else
    let ptr := Some (read_index rb) in
    if buffer_size rb - read_index rb >? size
    then (set_read (read_mirror rb) (read_index rb + size) rb, ptr, size)
    else (set_read (negb (read_mirror rb)) 0 rb, ptr, buffer_size rb - read_index rb).

(** ** Single bytes *)

(** [rb->buffer_ptr[i] = ch] *)
Definition store_byte (i ch : Z) (rb : rt_ringbuffer) : option rt_ringbuffer :=
  p ← copy_to (buffer_ptr rb) i [ch]; Some (set_bytes p rb).

Definition rt_ringbuffer_putchar (rb : rt_ringbuffer) (ch : Z) : option (rt_ringbuffer * Z) :=
  if rt_ringbuffer_space_len rb =? 0 then Some (rb, 0)
  else
    rb ← store_byte (write_index rb) ch rb;
    Some (if write_index rb =? buffer_size rb - 1
          then set_write (negb (write_mirror rb)) 0 rb
          else set_write (write_mirror rb) (write_index rb + 1) rb, 1).

Definition rt_ringbuffer_putchar_force (rb : rt_ringbuffer) (ch : Z) : option (rt_ringbuffer * Z) :=
  let full := match rt_ringbuffer_status rb with RT_RINGBUFFER_FULL => true | _ => false end in
  rb ← store_byte (write_index rb) ch rb;
  Some (if write_index rb =? buffer_size rb - 1 then
          let rb := set_write (negb (write_mirror rb)) 0 rb in
          if full then set_read (negb (read_mirror rb)) (write_index rb) rb else rb
        else
          let rb := set_write (write_mirror rb) (write_index rb + 1) rb in
          if full then set_read (read_mirror rb) (write_index rb) rb else rb, 1).

Definition rt_ringbuffer_getchar (rb : rt_ringbuffer) : option (rt_ringbuffer * option Z * Z) :=
  if rt_ringbuffer_data_len rb =? 0 then Some (rb, None, 0)
  else
    xs ← copy_from (buffer_ptr rb) (read_index rb) 1;
    Some (if read_index rb =? buffer_size rb - 1
          then set_read (negb (read_mirror rb)) 0 rb
          else set_read (read_mirror rb) (read_index rb + 1) rb, head xs, 1).

(** ** The queue it refines *)

Record rb_ok (rb : rt_ringbuffer) : Prop := {
  rb_len : Z.of_nat (length (buffer_ptr rb)) = buffer_size rb;
  rb_size : 0 < buffer_size rb <= 32767;
  rb_r : 0 <= read_index rb < buffer_size rb;
  rb_w : 0 <= write_index rb < buffer_size rb;
  rb_mirrors : if Bool.eqb (read_mirror rb) (write_mirror rb)
               then read_index rb <= write_index rb else write_index rb <= read_index rb }.

Definition contents (rb : rt_ringbuffer) : list Z :=
  ring (buffer_ptr rb) (Z.to_nat (read_index rb)) (Z.to_nat (rt_ringbuffer_data_len rb)).

Lemma data_len_eq rb : rb_ok rb ->
  rt_ringbuffer_data_len rb =
    if Bool.eqb (read_mirror rb) (write_mirror rb) then write_index rb - read_index rb
    else buffer_size rb - (read_index rb - write_index rb).
Proof.
  intros [Hl Hs Hr Hw Hm]. unfold rt_ringbuffer_data_len, rt_ringbuffer_status.
  destruct (Bool.eqb _ _); repeat case_Z; lia.
Qed.

Lemma data_len_range rb : rb_ok rb -> 0 <= rt_ringbuffer_data_len rb <= buffer_size rb.
Proof.
  intros H. rewrite data_len_eq by done. destruct H as [Hl Hs Hr Hw Hm].
  destruct (Bool.eqb _ _); lia.
Qed.

Lemma contents_length rb : rb_ok rb -> Z.of_nat (length (contents rb)) = rt_ringbuffer_data_len rb.
Proof.
  intros H. unfold contents. rewrite ring_length. pose proof (data_len_range rb H). lia.
Qed.

Lemma space_small rb : rb_ok rb -> u16 (rt_ringbuffer_space_len rb) = rt_ringbuffer_space_len rb.
Proof.
  intros H. pose proof (data_len_range rb H). destruct H as [Hl Hs Hr Hw Hm].
  unfold rt_ringbuffer_space_len. apply u16_small. lia.
Qed.

(** Where an index and its mirror go after [n] bytes. *)
Definition step_mirror (size i n : Z) (m : bool) : bool := if size - i >? n then m else negb m.
Definition step_index (size i n : Z) : Z := if size - i >? n then i + n else n - (size - i).

Lemma step_index_mod size i n : 0 < size -> 0 <= i < size -> 0 <= n <= size ->
  step_index size i n = (i + n) `mod` size /\ 0 <= step_index size i n < size.
Proof.
  intros Hs Hi Hn. unfold step_index. case_Z.
  - split; [|lia]. rewrite Z.mod_small; lia.
  - split; [|lia]. apply (Z.mod_unique _ _ 1); lia.
Qed.

Lemma to_nat_mod a b : 0 <= a -> 0 < b -> Z.to_nat (a `mod` b) = (Z.to_nat a `mod` Z.to_nat b)%nat.
Proof. intros. apply Z2Nat.inj_mod; lia. Qed.

Lemma copy_to_some p i xs : 0 <= i -> i + Z.of_nat (length xs) <= Z.of_nat (length p) ->
  copy_to p i xs = Some (take (Z.to_nat i) p ++ xs ++ drop (Z.to_nat i + length xs) p).
Proof.
  intros. unfold copy_to. by rewrite (proj2 (Z.leb_le _ _)), (proj2 (Z.leb_le _ _)) by lia.
Qed.

Lemma copy_from_some p i n : 0 <= i -> 0 <= n -> i + n <= Z.of_nat (length p) ->
  copy_from p i n = Some (take (Z.to_nat n) (drop (Z.to_nat i) p)).
Proof.
  intros. unfold copy_from.
  by rewrite (proj2 (Z.leb_le 0 i)), (proj2 (Z.leb_le 0 n)), (proj2 (Z.leb_le _ _)) by lia.
Qed.

Lemma rb_store_spec ptr n rb : rb_ok rb -> 0 <= n <= buffer_size rb -> n <= Z.of_nat (length ptr) ->
  exists p', rb_store ptr n rb =
      Some (set_write (step_mirror (buffer_size rb) (write_index rb) n (write_mirror rb))
             (step_index (buffer_size rb) (write_index rb) n) (set_bytes p' rb)) /\
    written (buffer_ptr rb) p' (Z.to_nat (write_index rb)) (take (Z.to_nat n) ptr).
Proof.
  intros [Hl Hs Hr Hw Hm] Hn Hp. unfold rb_store, step_mirror, step_index. case_Z.
  - rewrite copy_from_some by lia. cbn [mbind option_bind]. change (drop (Z.to_nat 0) ptr) with ptr.
    rewrite copy_to_some by (rewrite ?length_take; lia). cbn [mbind option_bind].
    eexists. split; [done|]. apply written_straight. rewrite length_take. lia.
  - set (room := buffer_size rb - write_index rb) in *.
    rewrite (copy_from_some ptr 0 room) by lia. cbn [mbind option_bind]. change (drop (Z.to_nat 0) ptr) with ptr.
    rewrite copy_to_some by (rewrite ?length_take; lia). cbn [mbind option_bind].
    rewrite copy_from_some by lia. cbn [mbind option_bind].
    rewrite copy_to_some by
      (rewrite ?length_app, ?length_take, ?length_drop, ?length_take, ?length_drop; lia).
    cbn [mbind option_bind]. eexists. split; [done|].
    pose proof (written_wrapped (buffer_ptr rb) (Z.to_nat (write_index rb)) (take (Z.to_nat n) ptr)) as Hwr.
    rewrite length_take in Hwr. specialize (Hwr ltac:(lia) ltac:(lia) ltac:(lia)). cbv zeta in Hwr.
    match goal with |- written _ ?P _ _ => match type of Hwr with written _ ?Q _ _ =>
      assert (P = Q) as ->; [|done] end end.
    replace (Z.to_nat (n - room)) with (Z.to_nat n - (length (buffer_ptr rb) - Z.to_nat (write_index rb)))%nat by lia.
    replace (Z.to_nat room) with (length (buffer_ptr rb) - Z.to_nat (write_index rb))%nat by lia.
    set (a := (length (buffer_ptr rb) - Z.to_nat (write_index rb))%nat).
    change (Z.to_nat 0) with 0%nat. rewrite take_0. cbn [app Nat.add]. rewrite skipn_firstn_comm.
    rewrite take_take, (Nat.min_l a) by lia. rewrite !length_take, !length_drop.
    rewrite !(Nat.min_l (Z.to_nat n)), (Nat.min_l (_ - _)) by lia. f_equal.
    assert (drop (Z.to_nat (write_index rb) + a `min` length ptr) (buffer_ptr rb) = []) as ->
      by (apply drop_ge; lia).
    rewrite app_nil_r, drop_app_le by (rewrite length_take; lia). f_equal.
    by rewrite skipn_firstn_comm.
Qed.

Section spec.
Context (rb : rt_ringbuffer) (Hok : rb_ok rb).

(** A block of [n] bytes has been stored and the write index moved. *)
Definition stored (p' : list Z) (n : Z) : rt_ringbuffer :=
  set_write (step_mirror (buffer_size rb) (write_index rb) n (write_mirror rb))
    (step_index (buffer_size rb) (write_index rb) n) (set_bytes p' rb).

Lemma u15_index i : 0 <= i < buffer_size rb -> u15 i = i.
Proof. destruct Hok as [Hl Hs Hr Hw Hm]. intros. unfold u15. apply Z.mod_small. lia. Qed.

Lemma w_follows_r :
  ((Z.to_nat (read_index rb) + Z.to_nat (rt_ringbuffer_data_len rb)) mod length (buffer_ptr rb) =
   Z.to_nat (write_index rb) mod length (buffer_ptr rb))%nat.
Proof.
  pose proof (data_len_eq rb Hok) as E. pose proof (data_len_range rb Hok) as Hd.
  destruct Hok as [Hl Hs Hr Hw Hm]. rewrite <- Z2Nat.inj_add by lia.
  destruct (Bool.eqb _ _).
  - do 2 f_equal. lia.
  - replace (read_index rb + rt_ringbuffer_data_len rb) with (write_index rb + buffer_size rb) by lia.
    rewrite Z2Nat.inj_add, <- Hl, Nat2Z.id by lia.
    replace (length (buffer_ptr rb)) with (1 * length (buffer_ptr rb))%nat at 1 by lia.
    apply Nat.Div0.mod_add.
Qed.

Lemma stored_fits p' n xs : length xs = Z.to_nat n -> 0 <= n <= rt_ringbuffer_space_len rb ->
  written (buffer_ptr rb) p' (Z.to_nat (write_index rb)) xs ->
  rb_ok (stored p' n) /\ contents (stored p' n) = contents rb ++ xs.
Proof.
  intros Hx Hn Hw'. unfold rt_ringbuffer_space_len in Hn.
  pose proof (data_len_eq rb Hok) as E. pose proof (data_len_range rb Hok) as Hd.
  pose proof w_follows_r as Hf. destruct (Hok) as [Hl Hs Hr Hw Hm].
  destruct (step_index_mod (buffer_size rb) (write_index rb) n) as [_ Hi]; [lia..|].
  pose proof (wr_length _ _ _ _ Hw') as Hlen.
  assert (rb_ok (stored p' n)) as Hok'.
  { unfold stored. split; cbn; rewrite ?u15_index by done; try lia.
    unfold step_mirror, step_index in *.
    destruct (read_mirror rb), (write_mirror rb); cbn in *; case_Z; cbn; lia. }
  split; [done|].
  assert (rt_ringbuffer_data_len (stored p' n) = rt_ringbuffer_data_len rb + n) as Edl.
  { rewrite (data_len_eq _ Hok'). unfold stored. cbn. rewrite u15_index by done.
    unfold step_mirror, step_index.
    destruct (read_mirror rb), (write_mirror rb); cbn in *; case_Z; cbn; lia. }
  unfold contents. rewrite Edl. change (buffer_ptr (stored p' n)) with p'.
  change (read_index (stored p' n)) with (read_index rb).
  pose proof (written_ring (buffer_ptr rb) p' (Z.to_nat (read_index rb))
    (Z.to_nat (rt_ringbuffer_data_len rb)) _ xs ltac:(lia) Hw' ltac:(lia) ltac:(lia) Hf) as Hring.
  replace (_ + length xs - length (buffer_ptr rb))%nat with 0%nat in Hring by lia.
  rewrite drop_0, Nat.add_0_r, Nat.min_l in Hring by lia.
  rewrite <- Hring. f_equal. lia.
Qed.

(** The read index past [n] bytes of the queue. *)
Definition taken (n : Z) : rt_ringbuffer :=
  set_read (step_mirror (buffer_size rb) (read_index rb) n (read_mirror rb))
    (step_index (buffer_size rb) (read_index rb) n) rb.

Lemma taken_drops n : 0 <= n <= rt_ringbuffer_data_len rb ->
  rb_ok (taken n) /\ contents (taken n) = drop (Z.to_nat n) (contents rb).
Proof.
  intros Hn. pose proof (data_len_eq rb Hok) as E. pose proof (data_len_range rb Hok) as Hd.
  destruct (Hok) as [Hl Hs Hr Hw Hm].
  destruct (step_index_mod (buffer_size rb) (read_index rb) n) as [Em Hi]; [lia..|].
  assert (rb_ok (taken n)) as Hok'.
  { unfold taken. split; cbn; rewrite ?u15_index by done; try lia.
    unfold step_mirror, step_index in *.
    destruct (read_mirror rb), (write_mirror rb); cbn in *; case_Z; cbn; lia. }
  split; [done|].
  assert (rt_ringbuffer_data_len (taken n) = rt_ringbuffer_data_len rb - n) as Edl.
  { rewrite (data_len_eq _ Hok'). unfold taken. cbn. rewrite u15_index by done.
    unfold step_mirror, step_index.
    destruct (read_mirror rb), (write_mirror rb); cbn in *; case_Z; cbn; lia. }
  unfold contents. rewrite Edl, ring_drop by lia. unfold taken. cbn [buffer_ptr read_index set_read].
  rewrite u15_index by done. rewrite Em, to_nat_mod by lia.
  rewrite <- Hl, Nat2Z.id, ring_mod. f_equal; lia.
Qed.

Lemma taken_bytes n : 0 <= n <= rt_ringbuffer_data_len rb ->
  let room := buffer_size rb - read_index rb in
  take (Z.to_nat n) (contents rb) =
  if room >? n then take (Z.to_nat n) (drop (Z.to_nat (read_index rb)) (buffer_ptr rb))
  else drop (Z.to_nat (read_index rb)) (buffer_ptr rb) ++ take (Z.to_nat (n - room)) (buffer_ptr rb).
Proof.
  intros Hn room. pose proof (data_len_range rb Hok) as Hd. destruct Hok as [Hl Hs Hr Hw Hm].
  unfold contents. rewrite ring_take by lia. case_Z.
  - apply ring_straight. lia.
  - rewrite ring_wrapped by lia. do 2 f_equal. lia.
Qed.
End spec.

(** ** The operations *)

Lemma put_spec rb ptr n : rb_ok rb -> 0 <= n <= 65535 -> n <= Z.of_nat (length ptr) ->
  let m := Z.min n (rt_ringbuffer_space_len rb) in
  exists rb', rt_ringbuffer_put rb ptr n = Some (rb', m) /\ rb_ok rb' /\
    contents rb' = contents rb ++ take (Z.to_nat m) ptr.
Proof.
  intros Hok Hn Hp m. pose proof (data_len_range rb Hok) as Hd. pose proof (rb_size _ Hok) as Hs.
  unfold rt_ringbuffer_put. rewrite space_small by done. unfold rt_ringbuffer_space_len in *.
  destruct (Z.eqb_spec (buffer_size rb - rt_ringbuffer_data_len rb) 0) as [E|Hne].
  { exists rb. replace m with 0 by lia. split; [done|]. split; [done|].
    change (Z.to_nat 0) with 0%nat. by rewrite take_0, app_nil_r. }
  replace (if _ <? n then _ else n) with m by (case_Z; lia).
  destruct (rb_store_spec ptr m rb Hok) as (p' & -> & Hw); [lia|lia|]. cbn [mbind option_bind].
  destruct (stored_fits rb Hok p' m (take (Z.to_nat m) ptr)) as [H1 H2];
    [rewrite length_take; lia|unfold rt_ringbuffer_space_len; lia|done|].
  by exists (stored rb p' m).
Qed.

Lemma get_spec rb n : rb_ok rb -> 0 <= n <= 65535 ->
  let m := Z.min n (rt_ringbuffer_data_len rb) in
  exists rb', rt_ringbuffer_get rb n = Some (rb', take (Z.to_nat m) (contents rb), m) /\ rb_ok rb' /\
    contents rb' = drop (Z.to_nat m) (contents rb).
Proof.
  intros Hok Hn m. pose proof (data_len_range rb Hok) as Hd. pose proof (rb_size _ Hok) as Hs.
  unfold rt_ringbuffer_get.
  destruct (Z.eqb_spec (rt_ringbuffer_data_len rb) 0) as [E|Hne].
  { exists rb. replace m with 0 by lia. done. }
  replace (if _ <? n then _ else n) with m by (case_Z; rewrite ?u16_small; lia).
  pose proof (taken_bytes rb Hok m ltac:(lia)) as Hb. cbv zeta in Hb. rewrite Hb.
  destruct (taken_drops rb Hok m ltac:(lia)) as [H1 H2].
  pose proof (rb_len _ Hok) as Hl. pose proof (rb_r _ Hok) as Hr.
  exists (taken rb m). unfold taken, step_mirror, step_index in *.
  destruct (Z.gtb_spec (buffer_size rb - read_index rb) m).
  - by rewrite copy_from_some by lia.
  - rewrite !copy_from_some by lia. cbn [mbind option_bind].
    change (drop (Z.to_nat 0) (buffer_ptr rb)) with (buffer_ptr rb).
    rewrite (take_ge (drop _ _)) by (rewrite length_drop; lia). done.
Qed.

Lemma peak_spec rb : rb_ok rb ->
  exists rb' i n, rt_ringbuffer_peak rb = (rb', i, n) /\ rb_ok rb' /\ 0 <= n /\
    (n = 0 -> contents rb = []) /\
    contents rb = match i with
                  | Some i => take (Z.to_nat n) (drop (Z.to_nat i) (buffer_ptr rb))
                  | None => []
                  end ++ contents rb'.
Proof.
  intros Hok. pose proof (data_len_range rb Hok) as Hd.
  pose proof (rb_len _ Hok) as Hl. pose proof (rb_r _ Hok) as Hr. pose proof (contents_length rb Hok) as Hc.
  unfold rt_ringbuffer_peak.
  destruct (Z.eqb_spec (rt_ringbuffer_data_len rb) 0) as [E|Hne].
  { assert (contents rb = []) as E0 by (apply length_zero_iff_nil; lia).
    exists rb, None, 0. split; [done|]. by rewrite E0. }
  set (d := rt_ringbuffer_data_len rb) in *.
  destruct (Z.gtb_spec (buffer_size rb - read_index rb) d) as [Hg|Hg].
  - destruct (taken_drops rb Hok d ltac:(lia)) as [H1 H2].
    pose proof (taken_bytes rb Hok d ltac:(lia)) as Hb. cbv zeta in Hb.
    exists (taken rb d), (Some (read_index rb)), d.
    unfold taken, step_mirror, step_index in *.
    rewrite (proj2 (Z.gtb_lt _ _)) in * by done. rewrite <- Hb, H2, take_drop.
    split; [done|]. split; [done|]. split; [lia|]. split; [lia|done].
  - set (n := buffer_size rb - read_index rb) in *.
    destruct (taken_drops rb Hok n ltac:(lia)) as [H1 H2].
    pose proof (taken_bytes rb Hok n ltac:(lia)) as Hb. cbv zeta in Hb.
    exists (taken rb n), (Some (read_index rb)), n.
    assert ((n >? n) = false) as Hnn by (rewrite Z.gtb_ltb; apply Z.ltb_irrefl).
    unfold taken, step_mirror, step_index in *. fold n in Hb, H1, H2 |- *.
    rewrite Hnn, Z.sub_diag in *. change (take (Z.to_nat 0) (buffer_ptr rb)) with (@nil Z) in Hb.
    rewrite app_nil_r in Hb. rewrite take_ge by (rewrite length_drop; lia).
    rewrite <- Hb, H2, take_drop.
    split; [done|]. split; [done|]. split; [lia|]. split; [lia|done].
Qed.

(** A single byte is a block of one. *)
Lemma store_byte_spec rb ch : rb_ok rb ->
  exists p', store_byte (write_index rb) ch rb = Some (set_bytes p' rb) /\
    written (buffer_ptr rb) p' (Z.to_nat (write_index rb)) [ch] /\
    forall rb', rb' = (if write_index rb =? buffer_size rb - 1
          then set_write (negb (write_mirror rb)) 0 (set_bytes p' rb)
          else set_write (write_mirror rb) (write_index rb + 1) (set_bytes p' rb)) ->
      rb' = stored rb p' 1.
Proof.
  intros [Hl Hs Hr Hw Hm]. unfold store_byte. rewrite copy_to_some by (cbn; lia).
  cbn [mbind option_bind]. eexists. split; [done|]. split.
  - apply written_straight. cbn [length]. lia.
  - intros rb' ->. unfold stored, step_mirror, step_index.
    destruct (Z.eqb_spec (write_index rb) (buffer_size rb - 1)) as [E|E]; case_Z; try lia; [|done].
    f_equal. lia.
Qed.

Lemma putchar_spec rb ch : rb_ok rb ->
  if rt_ringbuffer_space_len rb =? 0 then rt_ringbuffer_putchar rb ch = Some (rb, 0)
  else exists rb', rt_ringbuffer_putchar rb ch = Some (rb', 1) /\ rb_ok rb' /\
    contents rb' = contents rb ++ [ch].
Proof.
  intros Hok. unfold rt_ringbuffer_putchar.
  destruct (Z.eqb_spec (rt_ringbuffer_space_len rb) 0) as [|Hne]; [done|].
  destruct (store_byte_spec rb ch Hok) as (p' & -> & Hw & Hst). cbn [mbind option_bind].
  pose proof (data_len_range rb Hok) as Hd.
  destruct (stored_fits rb Hok p' 1 [ch]) as [H1 H2];
    [done|unfold rt_ringbuffer_space_len in *; lia|done|].
  eexists. split; [done|].
  match goal with |- context [if ?a =? ?b then ?x else ?y] => rewrite (Hst (if a =? b then x else y) eq_refl) end.
  done.
Qed.

Lemma getchar_spec rb : rb_ok rb ->
  match contents rb with
  | [] => rt_ringbuffer_getchar rb = Some (rb, None, 0)
  | c :: rest => exists rb', rt_ringbuffer_getchar rb = Some (rb', Some c, 1) /\ rb_ok rb' /\
      contents rb' = rest
  end.
Proof.
  intros Hok. pose proof (contents_length rb Hok) as Hc. pose proof (data_len_range rb Hok) as Hd.
  unfold rt_ringbuffer_getchar. destruct (contents rb) as [|c rest] eqn:Ec.
  { cbn in Hc. by rewrite <- Hc. }
  rewrite (proj2 (Z.eqb_neq _ _)) by (cbn in Hc; lia).
  pose proof (rb_len _ Hok) as Hl. pose proof (rb_r _ Hok) as Hr.
  destruct (taken_drops rb Hok 1) as [H1 H2]; [cbn in Hc; lia|].
  rewrite Ec in H2. cbn in H2. unfold contents in Ec.
  destruct (Z.to_nat (rt_ringbuffer_data_len rb)) as [|d]; [done|]. rewrite ring_cons in Ec.
  injection Ec as E1 _. rewrite Nat.mod_small in E1 by lia.
  rewrite copy_from_some by lia. cbn [mbind option_bind].
  exists (taken rb 1). split; [|done].
  pose proof (list_lookup_lookup_total_lt (buffer_ptr rb) (Z.to_nat (read_index rb)) ltac:(lia)) as El.
  rewrite E1 in El. rewrite (drop_S _ _ _ El). change (take (Z.to_nat 1) (c :: ?l)) with [c].
  unfold taken, step_mirror, step_index.
  destruct (Z.eqb_spec (read_index rb) (buffer_size rb - 1)) as [E|E]; case_Z; try lia; [|done].
  do 3 f_equal. f_equal. lia.
Qed.

(** ** Overwriting the oldest bytes *)

(** The buffer after a block that does not fit: full, read from where the
    writer stopped. *)
Definition overrun (rb1 : rt_ringbuffer) : rt_ringbuffer :=
  set_read (negb (write_mirror rb1)) (write_index rb1) rb1.

Lemma overrun_spec rb p' n xs : rb_ok rb -> length xs = Z.to_nat n ->
  rt_ringbuffer_space_len rb < n <= buffer_size rb ->
  written (buffer_ptr rb) p' (Z.to_nat (write_index rb)) xs ->
  let rb' := overrun (stored rb p' n) in
  rb_ok rb' /\
  contents rb' = drop (length (contents rb) + length xs - length (buffer_ptr rb)) (contents rb) ++ xs.
Proof.
  intros Hok Hx Hn Hw' rb'. unfold rt_ringbuffer_space_len in Hn.
  pose proof (data_len_range rb Hok) as Hd. pose proof (w_follows_r rb Hok) as Hf.
  pose proof (contents_length rb Hok) as Hc. destruct (Hok) as [Hl Hs Hr Hw Hm].
  destruct (step_index_mod (buffer_size rb) (write_index rb) n) as [Em Hi]; [lia..|].
  pose proof (wr_length _ _ _ _ Hw') as Hlen.
  set (w' := step_index (buffer_size rb) (write_index rb) n) in *.
  assert (write_index rb' = w') as Ew by (cbn; fold w'; by rewrite (u15_index rb Hok)).
  assert (read_index rb' = w') as Er by (cbn; fold w'; by rewrite !(u15_index rb Hok w' Hi)).
  assert (Bool.eqb (read_mirror rb') (write_mirror rb') = false) as Emir by (cbn; by destruct (step_mirror _ _ _ _)).
  assert (rb_ok rb') as Hok'.
  { split; rewrite ?Emir, ?Er, ?Ew; cbn [buffer_size buffer_ptr rb' overrun set_read stored set_write set_bytes]; lia. }
  split; [done|]. unfold contents at 1. rewrite (data_len_eq _ Hok'), Emir, Er, Ew.
  change (buffer_size rb') with (buffer_size rb). change (buffer_ptr rb') with p'.
  unfold contents at 1. rewrite ring_length. unfold contents.
  rewrite <- (written_ring (buffer_ptr rb) p' (Z.to_nat (read_index rb))
    (Z.to_nat (rt_ringbuffer_data_len rb)) _ xs ltac:(lia) Hw' ltac:(lia) ltac:(lia) Hf).
  rewrite Nat.min_r by lia. rewrite <- ring_mod.
  rewrite <- (ring_mod p' (Z.to_nat (read_index rb) + _)). rewrite Hlen.
  f_equal; [|lia]. rewrite Em, to_nat_mod, <- Hl, Nat2Z.id by lia. rewrite Nat.Div0.mod_mod.
  rewrite Z2Nat.inj_add, <- Hx by lia. rewrite <- (mod_same _ _ _ Hf).
  match goal with |- (?a mod ?l = ?b mod ?l)%nat => replace a with (b + 1 * l)%nat by lia end.
  by rewrite Nat.Div0.mod_add.
Qed.

Lemma putchar_force_spec rb ch : rb_ok rb ->
  exists rb', rt_ringbuffer_putchar_force rb ch = Some (rb', 1) /\ rb_ok rb' /\
    contents rb' = (if rt_ringbuffer_space_len rb =? 0 then tail (contents rb) else contents rb) ++ [ch].
Proof.
  intros Hok. unfold rt_ringbuffer_putchar_force.
  destruct (store_byte_spec rb ch Hok) as (p' & -> & Hw & Hst). cbn [mbind option_bind].
  specialize (Hst _ eq_refl). pose proof (data_len_range rb Hok) as Hd.
  pose proof (contents_length rb Hok) as Hc. pose proof (data_len_eq rb Hok) as E.
  unfold rt_ringbuffer_space_len.
  destruct (Hok) as [Hl Hs Hr Hwi Hm]. destruct (Z.eqb_spec (buffer_size rb - rt_ringbuffer_data_len rb) 0) as [Hz|Hz].
  - assert (rt_ringbuffer_status rb = RT_RINGBUFFER_FULL /\ Bool.eqb (read_mirror rb) (write_mirror rb) = false
      /\ read_index rb = write_index rb) as (-> & Hmir & Hrw).
    { unfold rt_ringbuffer_status. destruct (Bool.eqb _ _); [lia|].
      rewrite (proj2 (Z.eqb_eq _ _)) by lia. split; [done|]. split; [done|lia]. }
    destruct (overrun_spec rb p' 1 [ch] Hok) as [H1 H2]; [done|unfold rt_ringbuffer_space_len; lia|done|].
    eexists. split; [done|].
    match goal with |- rb_ok ?X /\ _ => replace X with (overrun (stored rb p' 1)) end.
    + split; [done|]. rewrite H2. cbn [length].
      replace (_ + 1 - _)%nat with 1%nat by lia. by destruct (contents rb).
    + unfold overrun. rewrite <- Hst. clear -Hmir. destruct rb as [p rm ri wm wi sz]. cbn in *.
      by destruct rm, wm, (_ =? _).
  - assert (rt_ringbuffer_status rb <> RT_RINGBUFFER_FULL) as Hnf.
    { unfold rt_ringbuffer_status. destruct (Z.eqb_spec (read_index rb) (write_index rb)); [|done].
      destruct (Bool.eqb _ _); [done|lia]. }
    destruct (stored_fits rb Hok p' 1 [ch]) as [H1 H2]; [done|unfold rt_ringbuffer_space_len; lia|done|].
    exists (stored rb p' 1). rewrite <- Hst at 1. split; [|done].
    cbn [write_index buffer_size set_bytes].
    by destruct (rt_ringbuffer_status rb), (_ =? _).
Qed.

(** What [put_force] keeps of the bytes it is given: the last [buffer_size]. *)
Definition last_bytes (rb : rt_ringbuffer) (ptr : list Z) (n : Z) : list Z :=
  take (Z.to_nat (Z.min n (buffer_size rb))) (drop (Z.to_nat (n - buffer_size rb)) ptr).

Lemma put_force_store rb ptr n : rb_ok rb -> 0 <= n <= 65535 -> n <= Z.of_nat (length ptr) ->
  let m := Z.min n (buffer_size rb) in
  exists p', written (buffer_ptr rb) p' (Z.to_nat (write_index rb)) (last_bytes rb ptr n) /\
    length (last_bytes rb ptr n) = Z.to_nat m /\
    rt_ringbuffer_put_force rb ptr n =
      Some (if m >? rt_ringbuffer_space_len rb
            then set_read (if negb (buffer_size rb - write_index rb >? m)
                           then negb (read_mirror rb) else read_mirror rb)
                   (write_index (stored rb p' m)) (stored rb p' m)
            else stored rb p' m, m).
Proof.
  intros Hok Hn Hp m. pose proof (rb_size _ Hok) as Hs. unfold rt_ringbuffer_put_force.
  rewrite space_small by done.
  assert ((if n >? buffer_size rb then (drop (Z.to_nat (n - buffer_size rb)) ptr, u16 (buffer_size rb))
           else (ptr, n)) = (drop (Z.to_nat (n - buffer_size rb)) ptr, m)) as ->.
  { destruct (Z.gtb_spec n (buffer_size rb)).
    - rewrite u16_small by lia. f_equal. lia.
    - replace (Z.to_nat (n - buffer_size rb)) with 0%nat by lia. rewrite drop_0. f_equal. lia. }
  destruct (rb_store_spec (drop (Z.to_nat (n - buffer_size rb)) ptr) m rb Hok) as (p' & -> & Hw);
    [lia|rewrite length_drop; lia|].
  exists p'. split; [done|]. split; [|done].
  unfold last_bytes. rewrite length_take, length_drop. lia.
Qed.

Lemma put_force_spec rb ptr n : rb_ok rb -> 0 <= n <= 65535 -> n <= Z.of_nat (length ptr) ->
  let m := Z.min n (buffer_size rb) in
  read_mirror rb <> write_mirror rb \/ m <= rt_ringbuffer_space_len rb ->
  exists rb', rt_ringbuffer_put_force rb ptr n = Some (rb', m) /\ rb_ok rb' /\
    contents rb' = drop (length (contents rb) + length (last_bytes rb ptr n) - length (buffer_ptr rb))
                     (contents rb) ++ last_bytes rb ptr n.
Proof.
  intros Hok Hn Hp m Hcase. destruct (put_force_store rb ptr n Hok Hn Hp) as (p' & Hw & Hlen & ->).
  cbv zeta. fold m in Hlen |- *. pose proof (contents_length rb Hok) as Hc.
  pose proof (data_len_range rb Hok) as Hd. pose proof (data_len_eq rb Hok) as E.
  unfold rt_ringbuffer_space_len in *. eexists. split; [done|].
  destruct (Hok) as [Hl Hs Hr Hwi Hm]. destruct (Z.gtb_spec m (buffer_size rb - rt_ringbuffer_data_len rb)).
  - destruct Hcase as [Hmir|]; [|lia].
    destruct (overrun_spec rb p' m _ Hok Hlen) as [H1 H2]; [unfold rt_ringbuffer_space_len; lia|done|].
    match goal with |- rb_ok ?X /\ _ => replace X with (overrun (stored rb p' m)); [done|] end.
    unfold overrun. f_equal. unfold stored. cbn. unfold step_mirror.
    destruct (_ >? m), (read_mirror rb), (write_mirror rb); done.
  - destruct (stored_fits rb Hok p' m _ Hlen) as [H1 H2]; [unfold rt_ringbuffer_space_len; lia|done|].
    split; [done|]. rewrite H2. replace (_ + _ - _)%nat with 0%nat by lia. by rewrite drop_0.
Qed.

(** With reader and writer in the same mirror, a block that does not fit flips
    both mirrors: the buffer ends empty, not full. *)
Lemma put_force_empties rb ptr n : rb_ok rb -> 0 <= n <= 65535 -> n <= Z.of_nat (length ptr) ->
  let m := Z.min n (buffer_size rb) in
  read_mirror rb = write_mirror rb -> rt_ringbuffer_space_len rb < m ->
  exists rb', rt_ringbuffer_put_force rb ptr n = Some (rb', m) /\ contents rb' = [].
Proof.
  intros Hok Hn Hp m Hmir Hov. destruct (put_force_store rb ptr n Hok Hn Hp) as (p' & Hw & Hlen & ->).
  cbv zeta. fold m in Hlen |- *. pose proof (data_len_eq rb Hok) as E.
  unfold rt_ringbuffer_space_len in *. rewrite Hmir, Bool.eqb_reflx in E.
  destruct (Hok) as [Hl Hs Hr Hwi Hm]. rewrite Hmir, Bool.eqb_reflx in Hm.
  destruct (step_index_mod (buffer_size rb) (write_index rb) m) as [_ Hi]; [lia..|].
  eexists. split; [done|]. rewrite (proj2 (Z.gtb_lt _ _)) by lia.
  assert ((buffer_size rb - write_index rb >? m) = false) as Hg by (rewrite Z.gtb_ltb; apply Z.ltb_ge; lia).
  unfold stored, step_mirror. rewrite Hg. cbn [negb]. unfold contents.
  match goal with |- ring _ _ (Z.to_nat (rt_ringbuffer_data_len ?X)) = _ =>
    assert (rt_ringbuffer_data_len X = 0) as -> end; [|done].
  unfold rt_ringbuffer_data_len, rt_ringbuffer_status. cbn [read_index write_index read_mirror write_mirror
    set_read set_write set_bytes]. rewrite !(u15_index rb Hok _ Hi).
  by rewrite Z.eqb_refl, Hmir, Bool.eqb_reflx.
Qed.

(** ** Creation *)

Lemma init_ok pool size : 4 <= size <= 32767 -> size <= Z.of_nat (length pool) ->
  rb_ok (rt_ringbuffer_init pool size) /\ contents (rt_ringbuffer_init pool size) = [] /\
  buffer_size (rt_ringbuffer_init pool size) = size - size `mod` 4.
Proof.
  intros Hs Hp. unfold rt_ringbuffer_init. rewrite align_down_eq, s16_small by zlia.
  split; [|split; [done|cbn; zlia]].
  split; cbn; try zlia. rewrite length_take. zlia.
Qed.

(** ** As a queue of bytes *)

#[export] Instance ringbuffer_queue : Queue rt_ringbuffer Z := {
  q_ok := rb_ok;
  q_item _ := True;
  q_capacity rb := Z.to_nat (buffer_size rb);
  q_elems := contents;
  q_put ch rb := '(rb, n) ← rt_ringbuffer_putchar rb ch; Some (rb, negb (n =? 0));
  q_get rb := '(rb, c, _) ← rt_ringbuffer_getchar rb; Some (rb, c) }.

Lemma putchar_size rb ch rb' n : rt_ringbuffer_putchar rb ch = Some (rb', n) ->
  buffer_size rb' = buffer_size rb.
Proof.
  unfold rt_ringbuffer_putchar, store_byte. destruct (_ =? 0); [by intros [= <- _]|].
  destruct (copy_to _ _ _); [|done]. cbn. intros [= <- _]. by destruct (_ =? _).
Qed.

Lemma getchar_size rb rb' c n : rt_ringbuffer_getchar rb = Some (rb', c, n) ->
  buffer_size rb' = buffer_size rb.
Proof.
  unfold rt_ringbuffer_getchar. destruct (_ =? 0); [by intros [= <- _ _]|].
  destruct (copy_from _ _ _); [|done]. cbn. intros [= <- _ _]. by destruct (_ =? _).
Qed.

#[export] Instance ringbuffer_laws : QueueLaws rt_ringbuffer Z.
Proof.
  split; cbn [q_ok q_item q_capacity q_elems q_put q_get ringbuffer_queue].
  - intros rb ch Hok _ Hl. pose proof (putchar_spec rb ch Hok) as Hp.
    pose proof (contents_length rb Hok) as Hc. unfold rt_ringbuffer_space_len in Hp.
    rewrite (proj2 (Z.eqb_neq _ _)) in Hp by lia. destruct Hp as (rb' & E & Hok' & Hc').
    rewrite E. exists rb'. split_and!; try done. by rewrite (putchar_size _ _ _ _ E).
  - intros rb ch Hok _ Hl. pose proof (putchar_spec rb ch Hok) as Hp.
    pose proof (contents_length rb Hok) as Hc. pose proof (rb_size _ Hok). unfold rt_ringbuffer_space_len in Hp.
    rewrite (proj2 (Z.eqb_eq _ _)) in Hp by lia. by rewrite Hp.
  - intros rb ch l Hok Hl. pose proof (getchar_spec rb Hok) as Hg. rewrite Hl in Hg.
    destruct Hg as (rb' & E & Hok' & Hc'). rewrite E. exists rb'. split_and!; try done.
    by rewrite (getchar_size _ _ _ _ E).
  - intros rb Hok Hl. pose proof (getchar_spec rb Hok) as Hg. rewrite Hl in Hg. by rewrite Hg.
  - intros rb Hok. pose proof (contents_length rb Hok). pose proof (data_len_range rb Hok). lia.
Qed.

(** ** The promises *)

(** Byte by byte a ring buffer is a bounded first-in first-out queue over any
    sequence of [putchar] and [getchar]: nothing is lost, duplicated,
    reordered or accessed outside the pool while the mirror bits turn over. *)
Theorem ringbuffer_fifo (cs : list (@qcall Z)) rb : rb_ok rb ->
  exists rb' accepted taken,
    q_run cs rb = Some (rb', accepted, taken) /\ rb_ok rb' /\
    contents rb ++ accepted = taken ++ contents rb'.
Proof.
  intros Hok. destruct (q_run_spec (H := ringbuffer_queue) cs rb Hok) as (rb' & acc & tk & E & Hok' & Hc & _).
  - by apply Forall_forall; intros [].
  - by exists rb', acc, tk.
Qed.

(** A block write accepts as many bytes as there is room for, wherever the
    indices stand, and a block read then returns the bytes that were there
    followed by the accepted ones, leaving the buffer empty. *)
Theorem ringbuffer_put_get rb ptr n : rb_ok rb -> 0 <= n <= 65535 -> n <= Z.of_nat (length ptr) ->
  let m := Z.min n (rt_ringbuffer_space_len rb) in
  exists rb1 rb2, rt_ringbuffer_put rb ptr n = Some (rb1, m) /\ rb_ok rb1 /\
    rt_ringbuffer_get rb1 (buffer_size rb) =
      Some (rb2, contents rb ++ take (Z.to_nat m) ptr, rt_ringbuffer_data_len rb + m) /\
    rb_ok rb2 /\ contents rb2 = [].
Proof.
  intros Hok Hn Hp m. destruct (put_spec rb ptr n Hok Hn Hp) as (rb1 & E1 & Hok1 & Hc1).
  fold m in E1, Hc1. pose proof (contents_length rb Hok) as Hl. pose proof (contents_length rb1 Hok1) as Hl1.
  pose proof (rb_size _ Hok) as Hs. pose proof (data_len_range rb Hok).
  assert (rt_ringbuffer_data_len rb1 = rt_ringbuffer_data_len rb + m) as Ed.
  { rewrite <- Hl1, Hc1, length_app, length_take. unfold m, rt_ringbuffer_space_len. lia. }
  destruct (get_spec rb1 (buffer_size rb) Hok1) as (rb2 & E2 & Hok2 & Hc2); [lia|].
  rewrite Z.min_r, Ed in E2, Hc2 by (unfold m, rt_ringbuffer_space_len in *; lia).
  rewrite take_ge in E2 by lia. rewrite drop_ge in Hc2 by lia. rewrite Hc1 in E2.
  by exists rb1, rb2.
Qed.

(** A forced write of more than fits keeps the last bytes that fit, dropping
    the oldest, when reader and writer are in different mirrors; in the same
    mirror both mirror bits flip, and the buffer that was just overfilled
    reads as empty. *)
Theorem ringbuffer_put_force rb ptr n : rb_ok rb -> 0 <= n <= 65535 -> n <= Z.of_nat (length ptr) ->
  let m := Z.min n (buffer_size rb) in
  exists rb', rt_ringbuffer_put_force rb ptr n = Some (rb', m) /\
    contents rb' =
      if Bool.eqb (read_mirror rb) (write_mirror rb) && (rt_ringbuffer_space_len rb <? m) then []
      else drop (length (contents rb) + length (last_bytes rb ptr n) - length (buffer_ptr rb))
             (contents rb) ++ last_bytes rb ptr n.
Proof.
  intros Hok Hn Hp m. destruct (Bool.eqb_spec (read_mirror rb) (write_mirror rb)) as [E|E]; cbn [andb].
  - destruct (Z.ltb_spec (rt_ringbuffer_space_len rb) m); [by apply put_force_empties|].
    destruct (put_force_spec rb ptr n Hok Hn Hp) as (rb' & H1 & _ & H2); [by right|]. by exists rb'.
  - destruct (put_force_spec rb ptr n Hok Hn Hp) as (rb' & H1 & _ & H2); [by left|]. by exists rb'.
Qed.

(** *** At concrete points *)

Definition small_buffer : rt_ringbuffer := rt_ringbuffer_init (replicate 8 0) 8.

Lemma small_buffer_ok : rb_ok small_buffer.
Proof. apply (init_ok (replicate 8 0) 8); cbn; lia. Qed.

Lemma ringbuffer_fifo_witness :
  exists rb' accepted taken,
    q_run [Put 65; Put 66; Get; Put 67; Get; Get; Get] small_buffer = Some (rb', accepted, taken) /\
    rb_ok rb' /\ contents small_buffer ++ accepted = taken ++ contents rb'.
Proof. apply (ringbuffer_fifo _ small_buffer small_buffer_ok). Defined.

Lemma ringbuffer_put_get_witness : let m := Z.min 3 (rt_ringbuffer_space_len small_buffer) in
  exists rb1 rb2, rt_ringbuffer_put small_buffer [1; 2; 3] 3 = Some (rb1, m) /\ rb_ok rb1 /\
    rt_ringbuffer_get rb1 8 =
      Some (rb2, contents small_buffer ++ take (Z.to_nat m) [1; 2; 3], rt_ringbuffer_data_len small_buffer + m) /\
    rb_ok rb2 /\ contents rb2 = [].
Proof. apply (ringbuffer_put_get small_buffer [1; 2; 3] 3 small_buffer_ok); cbn; lia. Defined.

Lemma ringbuffer_put_force_witness :
  exists rb', rt_ringbuffer_put_force small_buffer [1; 2; 3; 4; 5; 6; 7; 8; 9] 9 = Some (rb', 8) /\
    contents rb' = [2; 3; 4; 5; 6; 7; 8; 9].
Proof.
  apply (ringbuffer_put_force small_buffer [1; 2; 3; 4; 5; 6; 7; 8; 9] 9 small_buffer_ok); cbn; lia.
Defined.
