(* ===== verification/Mailbox.v ===== *)
(** * Mailbox: one-word messages between threads

    The mailboxes of [ipc.c] (lines 1769-2400): a circular array of words with
    a list of waiting receivers and one of waiting senders.  The operations
    refine a bounded queue ([content]). *)
From S2P Require Import Prelude Queue Timer Kernel KernelInv KernelOps Ipc IpcInv.

Record rt_mailbox := mk_mb {
  mb_pool : list Z; mb_size : Z; mb_entry : Z; in_offset : Z; out_offset : Z; mb_flag : Z }.

Definition RT_MB_ENTRY_MAX : Z := 65535.

(** [msg_pool[i] = value]; [None] outside the pool. *)
Definition slot_set (i value : Z) (mb : rt_mailbox) : option rt_mailbox :=
  if (0 <=? i) && (i <? Z.of_nat (length (mb_pool mb)))
  then Some (mk_mb (<[Z.to_nat i := value]> (mb_pool mb)) (mb_size mb) (mb_entry mb)
               (in_offset mb) (out_offset mb) (mb_flag mb))
  else None.

Definition set_entry (n : Z) (mb : rt_mailbox) : rt_mailbox :=
  mk_mb (mb_pool mb) (mb_size mb) (u16 n) (in_offset mb) (out_offset mb) (mb_flag mb).
Definition set_in (i : Z) (mb : rt_mailbox) : rt_mailbox :=
  mk_mb (mb_pool mb) (mb_size mb) (mb_entry mb) (u16 i) (out_offset mb) (mb_flag mb).
Definition set_out (i : Z) (mb : rt_mailbox) : rt_mailbox :=
  mk_mb (mb_pool mb) (mb_size mb) (mb_entry mb) (in_offset mb) (u16 i) (mb_flag mb).

(** ** Creation and deletion *)

(** The message pool is the first [size] words of the memory given. *)
Definition rt_mb_init (o : Z) (msgpool : list Z) (size flag : Z) (k : kernel) : kernel * rt_mailbox * Z :=
  let k := rt_ipc_object_init o k in
  let k := set_queues (<[Senders o := []]> (queues k)) k in
  (k, mk_mb (take (Z.to_nat (u16 size)) msgpool) (u16 size) 0 0 0 (u8 flag), RT_EOK).

Definition rt_mb_detach (o : Z) (k : kernel) : option (kernel * Z) :=
  k ← resume_both o k; Some (k, RT_EOK).

(** [alloc] and [pool]: what the allocations return. *)
Definition rt_mb_create (alloc : option Z) (pool : Z -> option (list Z)) (size flag : Z) (k : kernel)
    : kernel * option (Z * rt_mailbox) :=
  match alloc with
  | None => (k, None)
  | Some o =>
      let k := rt_ipc_object_init o k in
      match pool (u16 size) with
      | None => (k, None)
      | Some p =>
          (set_queues (<[Senders o := []]> (queues k)) k,
           Some (o, mk_mb (take (Z.to_nat (u16 size)) p) (u16 size) 0 0 0 (u8 flag)))
      end
  end.

Definition rt_mb_delete (o : Z) (k : kernel) : option (kernel * Z) :=
  k ← resume_both o k; Some (k, RT_EOK).

(** ** Sending *)

Definition mb_put (o value : Z) (k : kernel) (mb : rt_mailbox) : option (kernel * rt_mailbox * Z) :=
  mb ← slot_set (in_offset mb) value mb;
  let mb := set_in (in_offset mb + 1) mb in
  let mb := if in_offset mb >=? mb_size mb then set_in 0 mb else mb in
  Some (if mb_entry mb <? RT_MB_ENTRY_MAX
        then (wake_one (Suspended o) k, set_entry (mb_entry mb + 1) mb, RT_EOK)
        else (k, mb, - RT_EFULL)).

(** From the head of the [while] loop. *)
Definition mb_send_loop (o value timeout tick_delta : Z) (k : kernel) (mb : rt_mailbox)
    : option (kernel * rt_mailbox * waited) :=
  if mb_entry mb =? mb_size mb then
    let k := set_error (rt_thread_self k) RT_EOK k in
    if timeout =? 0 then Some (k, mb, Returned (- RT_EFULL))
    else
      let '(k, w) := sleep_on (Senders o) (mb_flag mb) timeout tick_delta k in
      Some (k, mb, w)
  else
    '(k, mb, e) ← mb_put o value k mb;
    Some (k, mb, Returned e).

Definition rt_mb_send_wait (o value timeout : Z) (k : kernel) (mb : rt_mailbox)
    : option (kernel * rt_mailbox * waited) :=
  if (mb_entry mb =? mb_size mb) && (timeout =? 0) then Some (k, mb, Returned (- RT_EFULL))
  else mb_send_loop o value timeout 0 k mb.

(** "resume from suspend state" *)
Definition rt_mb_send_resumed (o value timeout tick_delta : Z) (k : kernel) (mb : rt_mailbox)
    : option (kernel * rt_mailbox * waited) :=
  let e := error (thr k (rt_thread_self k)) in
  if negb (e =? RT_EOK) then Some (k, mb, Returned e)
  else mb_send_loop o value (remaining timeout tick_delta (rt_tick k)) tick_delta k mb.

Definition rt_mb_send (o value : Z) (k : kernel) (mb : rt_mailbox) := rt_mb_send_wait o value 0 k mb.

Definition rt_mb_urgent (o value : Z) (k : kernel) (mb : rt_mailbox) : option (kernel * rt_mailbox * Z) :=
  if mb_entry mb =? mb_size mb then Some (k, mb, - RT_EFULL)
  else
    let mb := if out_offset mb >? 0 then set_out (out_offset mb - 1) mb else set_out (mb_size mb - 1) mb in
    mb ← slot_set (out_offset mb) value mb;
    let mb := set_entry (mb_entry mb + 1) mb in
    Some (wake_one (Suspended o) k, mb, RT_EOK).

(** ** Receiving *)

Definition mb_take (o : Z) (k : kernel) (mb : rt_mailbox) : option (kernel * rt_mailbox * Z * Z) :=
  value ← mb_pool mb !!z out_offset mb;
  let mb := set_out (out_offset mb + 1) mb in
  let mb := if out_offset mb >=? mb_size mb then set_out 0 mb else mb in
  let mb := if mb_entry mb >? 0 then set_entry (mb_entry mb - 1) mb else mb in
  Some (wake_one (Senders o) k, mb, RT_EOK, value).

Definition mb_recv_loop (o timeout tick_delta : Z) (k : kernel) (mb : rt_mailbox)
    : option (kernel * rt_mailbox * waited * option Z) :=
  if mb_entry mb =? 0 then
    let t := rt_thread_self k in
    let k := set_error t RT_EOK k in
    if timeout =? 0 then Some (set_error t (- RT_ETIMEOUT) k, mb, Returned (- RT_ETIMEOUT), None)
    else
      let '(k, w) := sleep_on (Suspended o) (mb_flag mb) timeout tick_delta k in
      Some (k, mb, w, None)
  else
    '(k, mb, e, v) ← mb_take o k mb;
    Some (k, mb, Returned e, Some v).

Definition rt_mb_recv (o timeout : Z) (k : kernel) (mb : rt_mailbox)
    : option (kernel * rt_mailbox * waited * option Z) :=
  if (mb_entry mb =? 0) && (timeout =? 0) then Some (k, mb, Returned (- RT_ETIMEOUT), None)
  else mb_recv_loop o timeout 0 k mb.

Definition rt_mb_recv_resumed (o timeout tick_delta : Z) (k : kernel) (mb : rt_mailbox)
    : option (kernel * rt_mailbox * waited * option Z) :=
  let e := error (thr k (rt_thread_self k)) in
  if negb (e =? RT_EOK) then Some (k, mb, Returned e, None)
  else mb_recv_loop o (remaining timeout tick_delta (rt_tick k)) tick_delta k mb.

Definition rt_mb_control (o : Z) (cmd : ipc_cmd) (k : kernel) (mb : rt_mailbox)
    : option (kernel * rt_mailbox * Z) :=
  match cmd with
  | RT_IPC_CMD_RESET =>
      k ← resume_both o k;
      Some (rt_schedule k, set_out 0 (set_in 0 (set_entry 0 mb)), RT_EOK)
  | RT_IPC_CMD_OTHER => Some (k, mb, - RT_ERROR)
  end.

(** ** The queue it refines *)

Record mb_ok (mb : rt_mailbox) : Prop := {
  mo_len : Z.of_nat (length (mb_pool mb)) = mb_size mb;
  mo_size : 0 <= mb_size mb <= 65535;
  mo_entry : 0 <= mb_entry mb <= mb_size mb;
  mo_out : 0 <= out_offset mb /\ (0 < mb_size mb -> out_offset mb < mb_size mb);
  mo_in : 0 < mb_size mb -> in_offset mb = (out_offset mb + mb_entry mb) `mod` mb_size mb;
  mo_flag : mb_flag mb = RT_IPC_FLAG_FIFO \/ mb_flag mb = RT_IPC_FLAG_PRIO }.

Definition content (mb : rt_mailbox) : list Z :=
  ring (mb_pool mb) (Z.to_nat (out_offset mb)) (Z.to_nat (mb_entry mb)).

Lemma content_length mb : mb_ok mb -> Z.of_nat (length (content mb)) = mb_entry mb.
Proof. intros [Hl Hs He Ho Hi Hf]. unfold content. rewrite ring_length. lia. Qed.

Lemma to_nat_mod_len a (p : list Z) n : 0 <= a -> Z.of_nat (length p) = n -> 0 < n ->
  Z.to_nat (a `mod` n) = (Z.to_nat a `mod` length p)%nat.
Proof. intros Ha <- Hn. rewrite Z2Nat.inj_mod by lia. by rewrite Nat2Z.id. Qed.

(** Going round by one. *)
Lemma wrap_mod i n : 0 <= i < n -> (if i + 1 >=? n then 0 else i + 1) = (i + 1) `mod` n.
Proof.
  intros H. rewrite Z.geb_leb. destruct (Z.leb_spec n (i + 1)).
  - apply (Z.mod_unique _ _ 1); lia.
  - rewrite Z.mod_small; lia.
Qed.

Lemma mb_put_spec o v k mb : mb_ok mb -> mb_entry mb < mb_size mb ->
  exists mb', mb_put o v k mb = Some (wake_one (Suspended o) k, mb', RT_EOK) /\ mb_ok mb' /\
    content mb' = content mb ++ [v] /\ mb_size mb' = mb_size mb.
Proof.
  intros [Hl Hs He [Ho1 Ho2] Hi Hf] Hroom. specialize (Hi ltac:(lia)).
  pose proof (Z.mod_pos_bound (out_offset mb + mb_entry mb) (mb_size mb) ltac:(lia)) as Hb.
  rewrite <- Hi in Hb. unfold mb_put, slot_set.
  rewrite (proj2 (Z.leb_le _ _)), (proj2 (Z.ltb_lt _ _)) by lia. cbn [mbind option_bind andb].
  set (p' := <[_ := v]> (mb_pool mb)). cbn [set_in in_offset mb_size mb_entry].
  rewrite (u16_small (in_offset mb + 1)) by lia.
  pose proof (wrap_mod (in_offset mb) (mb_size mb) Hb) as Hw.
  set (i' := (in_offset mb + 1) `mod` mb_size mb) in *.
  assert (i' = (out_offset mb + (mb_entry mb + 1)) `mod` mb_size mb) as Ei.
  { unfold i'. rewrite Hi, Zplus_mod_idemp_l. f_equal. lia. }
  set (mb' := mk_mb p' (mb_size mb) (mb_entry mb + 1) i' (out_offset mb) (mb_flag mb)).
  exists mb'. split; [|split; [|split; [|done]]].
  - assert (0 <= i' < mb_size mb) as Hi' by (rewrite Ei; apply Z.mod_pos_bound; lia).
    destruct (Z.geb (in_offset mb + 1) (mb_size mb)); cbn [mb_entry set_in];
      rewrite (proj2 (Z.ltb_lt _ _)) by (unfold RT_MB_ENTRY_MAX; lia);
      unfold set_entry, mb'; cbn; rewrite u16_small by lia; rewrite ?u16_small by lia; by rewrite ?Hw, <- ?Hw.
  - split; cbn; try lia. unfold p'. rewrite length_insert. lia.
  - unfold content. cbn [mb_pool mb_entry out_offset mb'].
    assert (0 < length (mb_pool mb))%nat as Hpos by lia.
    pose proof (written_one (mb_pool mb) (Z.to_nat (in_offset mb)) v ltac:(lia)) as Hwr.
    assert ((Z.to_nat (out_offset mb) + Z.to_nat (mb_entry mb)) mod length (mb_pool mb) =
            Z.to_nat (in_offset mb) mod length (mb_pool mb))%nat as Hm.
    { rewrite Hi, (to_nat_mod_len _ (mb_pool mb)), Nat.Div0.mod_mod, Z2Nat.inj_add by lia. done. }
    pose proof (written_ring _ _ (Z.to_nat (out_offset mb)) (Z.to_nat (mb_entry mb)) _ _
      Hpos Hwr ltac:(lia) ltac:(cbn; lia) Hm) as Hr.
    cbn [length] in Hr. rewrite Nat.min_l in Hr by lia.
    replace (_ + 1 - _)%nat with 0%nat in Hr by lia. rewrite Nat.add_0_r, drop_0 in Hr.
    rewrite <- Hr. f_equal. lia.
Qed.

Lemma mb_take_spec o k mb v rest : mb_ok mb -> content mb = v :: rest ->
  exists mb', mb_take o k mb = Some (wake_one (Senders o) k, mb', RT_EOK, v) /\ mb_ok mb' /\
    content mb' = rest /\ mb_size mb' = mb_size mb.
Proof.
  intros Hok Hc. pose proof (content_length mb Hok) as Hcl. rewrite Hc in Hcl. cbn [length] in Hcl.
  destruct Hok as [Hl Hs He [Ho1 Ho2] Hi Hf]. specialize (Hi ltac:(lia)). specialize (Ho2 ltac:(lia)).
  unfold content in Hc. destruct (Z.to_nat (mb_entry mb)) as [|n] eqn:En; [lia|].
  rewrite ring_cons, Nat.mod_small in Hc by lia. injection Hc as Ev Er.
  unfold mb_take, zlookup. rewrite decide_True by lia.
  rewrite (list_lookup_lookup_total_lt (mb_pool mb)), Ev by lia. cbn [mbind option_bind].
  cbn [set_out out_offset mb_size mb_entry]. rewrite (u16_small (out_offset mb + 1)) by lia.
  pose proof (wrap_mod (out_offset mb) (mb_size mb) ltac:(lia)) as Hw.
  set (i' := (out_offset mb + 1) `mod` mb_size mb) in *.
  assert (0 <= i' < mb_size mb) as Hi' by (apply Z.mod_pos_bound; lia).
  exists (mk_mb (mb_pool mb) (mb_size mb) (mb_entry mb - 1) (in_offset mb) i' (mb_flag mb)).
  split; [|split; [|split; [|done]]].
  - destruct (Z.geb (out_offset mb + 1) (mb_size mb)); cbn [mb_entry set_out];
      rewrite (proj2 (Z.gtb_lt _ _)) by lia;
      unfold set_entry; cbn; rewrite u16_small by lia; rewrite ?u16_small by lia; by rewrite <- ?Hw.
  - split; cbn; try lia. intros _. rewrite Hi. unfold i'. rewrite Zplus_mod_idemp_l. f_equal. lia.
  - unfold content. cbn [mb_pool mb_entry out_offset]. unfold i'.
    rewrite (to_nat_mod_len _ (mb_pool mb)), ring_mod by lia. rewrite <- Er. f_equal; lia.
Qed.

(** Urgent messages go before the queue. *)
Lemma mb_urgent_spec o v k mb : mb_ok mb -> mb_entry mb < mb_size mb ->
  exists mb', rt_mb_urgent o v k mb = Some (wake_one (Suspended o) k, mb', RT_EOK) /\ mb_ok mb' /\
    content mb' = v :: content mb /\ mb_size mb' = mb_size mb.
Proof.
  intros [Hl Hs He [Ho1 Ho2] Hi Hf] Hroom. specialize (Hi ltac:(lia)). specialize (Ho2 ltac:(lia)).
  unfold rt_mb_urgent. rewrite (proj2 (Z.eqb_neq _ _)) by lia.
  set (i' := (out_offset mb - 1) `mod` mb_size mb).
  assert (0 <= i' < mb_size mb) as Hi' by (apply Z.mod_pos_bound; lia).
  assert ((if out_offset mb >? 0 then set_out (out_offset mb - 1) mb else set_out (mb_size mb - 1) mb) =
          set_out i' mb) as ->.
  { unfold i'. destruct (Z.gtb_spec (out_offset mb) 0).
    - by rewrite Z.mod_small by lia.
    - f_equal. apply (Z.mod_unique _ _ (-1)); lia. }
  unfold set_out. rewrite (u16_small i') by lia. unfold slot_set. cbn [mb_pool out_offset].
  rewrite (proj2 (Z.leb_le _ _)), (proj2 (Z.ltb_lt _ _)) by lia. cbn [mbind option_bind andb].
  set (p' := <[_ := v]> (mb_pool mb)).
  exists (mk_mb p' (mb_size mb) (mb_entry mb + 1) (in_offset mb) i' (mb_flag mb)).
  split; [|split; [|split; [|done]]].
  - unfold set_entry. cbn. by rewrite u16_small by lia.
  - split; cbn; try lia.
    + unfold p'. rewrite length_insert. lia.
    + intros _. rewrite Hi. unfold i'. rewrite Zplus_mod_idemp_l. f_equal. lia.
  - unfold content. cbn [mb_pool mb_entry out_offset].
    pose proof (written_one (mb_pool mb) (Z.to_nat i') v ltac:(lia)) as Hwr.
    assert (Z.to_nat (out_offset mb) mod length (mb_pool mb) =
            (Z.to_nat i' + length [v]) mod length (mb_pool mb))%nat as Hm.
    { cbn [length]. replace (Z.to_nat i' + 1)%nat with (Z.to_nat (i' + 1)) by lia.
      rewrite <- !(to_nat_mod_len _ _ (mb_size mb)) by lia. f_equal. unfold i'.
      rewrite Zplus_mod_idemp_l. f_equal. lia. }
    pose proof (written_front (mb_pool mb) _ (Z.to_nat (out_offset mb)) (Z.to_nat (mb_entry mb)) _ _
      ltac:(lia) Hwr ltac:(cbn; lia) Hm) as Hr.
    cbn [length app] in Hr. rewrite <- Hr. f_equal. lia.
Qed.

(** ** The calls *)

Lemma mb_send_now o v timeout k mb : mb_ok mb -> mb_entry mb < mb_size mb ->
  exists mb', rt_mb_send_wait o v timeout k mb =
      Some (wake_one (Suspended o) k, mb', Returned RT_EOK) /\
    mb_ok mb' /\ content mb' = content mb ++ [v] /\ mb_size mb' = mb_size mb.
Proof.
  intros Hok Hroom. destruct (mb_put_spec o v k mb Hok Hroom) as (mb' & E & H).
  exists mb'. split; [|done]. unfold rt_mb_send_wait, mb_send_loop.
  rewrite (proj2 (Z.eqb_neq _ _)) by lia. cbn [andb]. by rewrite E.
Qed.

Lemma mb_send_full o v k mb : mb_entry mb = mb_size mb ->
  rt_mb_send_wait o v 0 k mb = Some (k, mb, Returned (- RT_EFULL)).
Proof. intros H. unfold rt_mb_send_wait. by rewrite H, Z.eqb_refl. Qed.

Lemma mb_send_blocks o v timeout k mb : running_ok k -> mb_ok mb -> mb_entry mb = mb_size mb ->
  timeout <> 0 ->
  let t := rt_current_thread k in
  exists k' tick_delta, rt_mb_send_wait o v timeout k mb = Some (k', mb, Waiting timeout tick_delta) /\
    kernel_ok k' /\ known k' (rt_current_thread k') /\ state_of (thr k' t) = RT_THREAD_SUSPEND /\
    error (thr k' t) = RT_EOK /\
    queue k' (Senders o) = queued k t (mb_flag mb) (queue k (Senders o)) /\
    queue k' (Suspended o) = queue k (Suspended o).
Proof.
  intros Hr Hok Hfull Ht t. unfold rt_mb_send_wait, mb_send_loop.
  rewrite Hfull, Z.eqb_refl, (proj2 (Z.eqb_neq timeout 0)) by done. cbn [andb].
  destruct (sleep_on_spec k (Senders o) (mb_flag mb) timeout 0 Hr) as
    (k' & E & H1 & H2 & H3 & H4 & H5 & H6 & _); [by exists o; right|apply Hok|].
  unfold rt_thread_self. rewrite E. exists k', (if timeout >? 0 then rt_tick k else 0).
  split; [done|]. split; [done|]. split; [done|]. split; [done|]. split; [done|]. split; [done|].
  by apply H6.
Qed.

Lemma mb_recv_now o timeout k mb v rest : mb_ok mb -> content mb = v :: rest ->
  exists mb', rt_mb_recv o timeout k mb =
      Some (wake_one (Senders o) k, mb', Returned RT_EOK, Some v) /\
    mb_ok mb' /\ content mb' = rest /\ mb_size mb' = mb_size mb.
Proof.
  intros Hok Hc. destruct (mb_take_spec o k mb v rest Hok Hc) as (mb' & E & H).
  exists mb'. split; [|done]. pose proof (content_length mb Hok) as Hl. rewrite Hc in Hl. cbn in Hl.
  unfold rt_mb_recv, mb_recv_loop. rewrite (proj2 (Z.eqb_neq _ _)) by lia. cbn [andb]. by rewrite E.
Qed.

Lemma mb_recv_blocks o timeout k mb : running_ok k -> mb_ok mb -> mb_entry mb = 0 -> timeout <> 0 ->
  let t := rt_current_thread k in
  exists k' tick_delta, rt_mb_recv o timeout k mb = Some (k', mb, Waiting timeout tick_delta, None) /\
    kernel_ok k' /\ known k' (rt_current_thread k') /\ state_of (thr k' t) = RT_THREAD_SUSPEND /\
    error (thr k' t) = RT_EOK /\
    queue k' (Suspended o) = queued k t (mb_flag mb) (queue k (Suspended o)) /\
    queue k' (Senders o) = queue k (Senders o).
Proof.
  intros Hr Hok He Ht t. unfold rt_mb_recv, mb_recv_loop.
  rewrite He, (proj2 (Z.eqb_neq timeout 0)) by done. cbn [andb Z.eqb].
  destruct (sleep_on_spec k (Suspended o) (mb_flag mb) timeout 0 Hr) as
    (k' & E & H1 & H2 & H3 & H4 & H5 & H6 & _); [by exists o; left|apply Hok|].
  unfold rt_thread_self. rewrite E. exists k', (if timeout >? 0 then rt_tick k else 0).
  split; [done|]. split; [done|]. split; [done|]. split; [done|]. split; [done|]. split; [done|].
  by apply H6.
Qed.

(** Waking in the loop: an error is returned as it is; without one the call
    goes on as a new one would with what is left of its time, except that a
    receiver out of time also keeps the error in its thread. *)
Lemma mb_send_resumed_error o v timeout td k mb :
  error (thr k (rt_current_thread k)) <> RT_EOK ->
  rt_mb_send_resumed o v timeout td k mb = Some (k, mb, Returned (error (thr k (rt_current_thread k)))).
Proof.
  intros H. unfold rt_mb_send_resumed, rt_thread_self. by rewrite (proj2 (Z.eqb_neq _ _)) by done.
Qed.

Lemma mb_send_resumed_room o v timeout td k mb : mb_ok mb -> mb_entry mb < mb_size mb ->
  error (thr k (rt_current_thread k)) = RT_EOK ->
  exists mb', rt_mb_send_resumed o v timeout td k mb =
      Some (wake_one (Suspended o) k, mb', Returned RT_EOK) /\
    mb_ok mb' /\ content mb' = content mb ++ [v].
Proof.
  intros Hok Hroom He. destruct (mb_put_spec o v k mb Hok Hroom) as (mb' & E & H1 & H2 & _).
  exists mb'. split; [|done]. unfold rt_mb_send_resumed, mb_send_loop, rt_thread_self.
  rewrite He. cbn [Z.eqb negb RT_EOK]. rewrite (proj2 (Z.eqb_neq (mb_entry mb) _)) by lia.
  by rewrite E.
Qed.

(** ** Creation and reset *)

Lemma mb_fresh_ok pool size flag : 0 <= size <= Z.of_nat (length pool) -> size <= 65535 ->
  flag = RT_IPC_FLAG_FIFO \/ flag = RT_IPC_FLAG_PRIO ->
  let mb := mk_mb (take (Z.to_nat (u16 size)) pool) (u16 size) 0 0 0 (u8 flag) in
  mb_ok mb /\ content mb = [] /\ mb_size mb = size.
Proof.
  intros Hs Hmax Hf. cbv zeta. rewrite u16_small by lia.
  assert (u8 flag = flag) as -> by (by destruct Hf as [-> | ->]).
  split; [|done]. split; cbn; try lia; [|done]. rewrite length_take. lia.
Qed.

Lemma mb_reset_empties o k mb : kernel_ok k -> known k (rt_current_thread k) -> mb_ok mb ->
  exists k' mb', rt_mb_control o RT_IPC_CMD_RESET k mb = Some (k', mb', RT_EOK) /\ kernel_ok k' /\
    mb_ok mb' /\ content mb' = [] /\ queue k' (Suspended o) = [] /\ queue k' (Senders o) = [] /\
    forall x, x ∈ queue k (Suspended o) \/ x ∈ queue k (Senders o) ->
      awake (thr k' x) /\ error (thr k' x) = - RT_ERROR.
Proof.
  intros Hok Hc [Hl Hs He Ho Hi Hf]. unfold rt_mb_control.
  destruct (resume_both_spec o k Hok Hc) as (k1 & -> & H). cbn [mbind option_bind].
  eexists _, _. split; [done|]. split; [apply H|]. split; [|split; [done|apply H]].
  change (mb_ok (mk_mb (mb_pool mb) (mb_size mb) 0 0 0 (mb_flag mb))).
  split; cbn; try lia. intros. by rewrite Z.mod_0_l by lia.
Qed.

(** ** As a queue of words *)

Definition returned_ok (w : waited) : bool :=
  match w with Returned e => e =? RT_EOK | Waiting _ _ => false end.

#[export] Instance mailbox_queue (o : Z) : Queue (kernel * rt_mailbox) Z := {
  q_ok s := mb_ok s.2;
  q_item _ := True;
  q_capacity s := Z.to_nat (mb_size s.2);
  q_elems s := content s.2;
  q_put v s := '(k, mb, w) ← rt_mb_send o v s.1 s.2; Some (k, mb, returned_ok w);
  q_get s := '(k, mb, _, v) ← rt_mb_recv o 0 s.1 s.2; Some (k, mb, v) }.

#[export] Instance mailbox_laws (o : Z) : @QueueLaws (kernel * rt_mailbox) Z (mailbox_queue o).
Proof.
  split; cbn [q_ok q_item q_capacity q_elems q_put q_get mailbox_queue]; intros [k mb]; cbn [fst snd].
  - intros v Hok _ Hl. pose proof (content_length mb Hok).
    destruct (mb_send_now o v 0 k mb Hok ltac:(lia)) as (mb' & E & Hok' & Hc & Hsz).
    unfold rt_mb_send. rewrite E. cbn. eexists (_, mb'). split; [done|]. cbn [snd]. by rewrite Hsz.
  - intros v Hok _ Hl. pose proof (content_length mb Hok). pose proof (mo_size _ Hok).
    unfold rt_mb_send. by rewrite mb_send_full by lia.
  - intros v l Hok Hc. destruct (mb_recv_now o 0 k mb v l Hok Hc) as (mb' & E & Hok' & Hc' & Hsz).
    rewrite E. cbn. eexists (_, mb'). split; [done|]. cbn [snd]. by rewrite Hsz.
  - intros Hok Hc. pose proof (content_length mb Hok) as Hl. rewrite Hc in Hl. cbn in Hl.
    unfold rt_mb_recv. by rewrite <- Hl.
  - intros Hok. pose proof (content_length mb Hok). destruct (mo_entry _ Hok). lia.
Qed.

(** ** The promises *)

(** Over any sequence of non-blocking sends and receives a mailbox is a
    bounded first-in first-out queue: the values received are the values
    accepted, in order, none lost, duplicated or read from outside the pool,
    and what is left is still in the mailbox. *)
Theorem mailbox_fifo o (cs : list (@qcall Z)) k mb : mb_ok mb ->
  exists k' mb' accepted taken,
    @q_run _ _ (mailbox_queue o) cs (k, mb) = Some ((k', mb'), accepted, taken) /\ mb_ok mb' /\
    content mb ++ accepted = taken ++ content mb' /\ mb_size mb' = mb_size mb.
Proof.
  intros Hok. destruct (q_run_spec (H := mailbox_queue o) cs (k, mb)) as
    ([k' mb'] & acc & tk & E & Hok' & Hc & Hn); [done|by apply Forall_forall; intros []|].
  exists k', mb', acc, tk. split_and!; try done. cbn in *.
  pose proof (mo_size _ Hok). pose proof (mo_size _ Hok'). lia.
Qed.

(** A send to a full mailbox and a receive from an empty one fail at once
    when they may not wait; otherwise the caller, and nobody else, is
    suspended in the senders' or the receivers' queue and the mailbox is
    untouched.  With room a send appends its value, and with a value a receive
    returns the oldest one, each resuming the first thread waiting for it. *)
Theorem mailbox_wait o v timeout k mb : running_ok k -> mb_ok mb ->
  let t := rt_current_thread k in
  (if mb_entry mb =? mb_size mb then
     if timeout =? 0 then rt_mb_send_wait o v timeout k mb = Some (k, mb, Returned (- RT_EFULL))
     else exists k' td, rt_mb_send_wait o v timeout k mb = Some (k', mb, Waiting timeout td) /\
       kernel_ok k' /\ state_of (thr k' t) = RT_THREAD_SUSPEND /\ error (thr k' t) = RT_EOK /\
       queue k' (Senders o) = queued k t (mb_flag mb) (queue k (Senders o)) /\
       queue k' (Suspended o) = queue k (Suspended o)
   else exists mb', rt_mb_send_wait o v timeout k mb =
         Some (wake_one (Suspended o) k, mb', Returned RT_EOK) /\
       mb_ok mb' /\ content mb' = content mb ++ [v]) /\
  (match content mb with
   | [] =>
     if timeout =? 0
     then rt_mb_recv o timeout k mb = Some (k, mb, Returned (- RT_ETIMEOUT), None)
     else exists k' td, rt_mb_recv o timeout k mb = Some (k', mb, Waiting timeout td, None) /\
       kernel_ok k' /\ state_of (thr k' t) = RT_THREAD_SUSPEND /\ error (thr k' t) = RT_EOK /\
       queue k' (Suspended o) = queued k t (mb_flag mb) (queue k (Suspended o)) /\
       queue k' (Senders o) = queue k (Senders o)
   | w :: rest => exists mb', rt_mb_recv o timeout k mb =
         Some (wake_one (Senders o) k, mb', Returned RT_EOK, Some w) /\
       mb_ok mb' /\ content mb' = rest
   end).
Proof.
  intros Hr Hok. cbv zeta. pose proof (content_length mb Hok) as Hl. split.
  - destruct (Z.eqb_spec (mb_entry mb) (mb_size mb)) as [E|E].
    + destruct (Z.eqb_spec timeout 0) as [->|Ht]; [by apply mb_send_full|].
      destruct (mb_send_blocks o v timeout k mb Hr Hok E Ht) as (k' & td & H). exists k', td. tauto.
    + destruct (mb_send_now o v timeout k mb Hok) as (mb' & H); [destruct (mo_entry _ Hok); lia|].
      exists mb'. tauto.
  - destruct (content mb) as [|w rest] eqn:E.
    + cbn in Hl. symmetry in Hl. destruct (Z.eqb_spec timeout 0) as [->|Ht].
      * unfold rt_mb_recv. by rewrite Hl.
      * destruct (mb_recv_blocks o timeout k mb Hr Hok Hl Ht) as (k' & td & H). exists k', td. tauto.
    + destruct (mb_recv_now o timeout k mb w rest Hok E) as (mb' & H). exists mb'. tauto.
Qed.
