(* ===== verification/MessageQueue.v ===== *)
(** * MessageQueue: messages of many bytes between threads

    The message queues of [ipc.c] (lines 2413-3244): a pool of blocks, each a
    link and [msg_size] bytes, on a singly linked queue or a free list.  The
    operations refine a bounded queue of messages ([messages]). *)
From S2P Require Import Prelude Queue Timer Kernel KernelInv KernelOps Ipc IpcInv Mailbox.

(** ** The pool

    A block is named by its offset in the pool; [None] is the null pointer. *)

Record rt_mq_message := mk_msg { msg_next : option Z; msg_data : list Z }.

Record rt_messagequeue := mk_mq {
  mq_pool : gmap Z rt_mq_message;
  msg_size : Z; max_msgs : Z; mq_entry : Z;
  msg_queue_head : option Z; msg_queue_tail : option Z; msg_queue_free : option Z;
  mq_flag : Z }.

Definition RT_MQ_ENTRY_MAX : Z := 65535.

Definition with_pool (p : gmap Z rt_mq_message) (mq : rt_messagequeue) : rt_messagequeue :=
  mk_mq p (msg_size mq) (max_msgs mq) (mq_entry mq) (msg_queue_head mq) (msg_queue_tail mq)
    (msg_queue_free mq) (mq_flag mq).
Definition with_entry (n : Z) (mq : rt_messagequeue) : rt_messagequeue :=
  mk_mq (mq_pool mq) (msg_size mq) (max_msgs mq) (u16 n) (msg_queue_head mq) (msg_queue_tail mq)
    (msg_queue_free mq) (mq_flag mq).
Definition with_head (b : option Z) (mq : rt_messagequeue) : rt_messagequeue :=
  mk_mq (mq_pool mq) (msg_size mq) (max_msgs mq) (mq_entry mq) b (msg_queue_tail mq)
    (msg_queue_free mq) (mq_flag mq).
Definition with_tail (b : option Z) (mq : rt_messagequeue) : rt_messagequeue :=
  mk_mq (mq_pool mq) (msg_size mq) (max_msgs mq) (mq_entry mq) (msg_queue_head mq) b
    (msg_queue_free mq) (mq_flag mq).
Definition with_free (b : option Z) (mq : rt_messagequeue) : rt_messagequeue :=
  mk_mq (mq_pool mq) (msg_size mq) (max_msgs mq) (mq_entry mq) (msg_queue_head mq) (msg_queue_tail mq)
    b (mq_flag mq).

(** [b->next = n], and [rt_memcpy(b + 1, buffer, size)]; [None] for an access
    outside the pool, the block or the buffer. *)
Definition put_next (b : Z) (n : option Z) (mq : rt_messagequeue) : option rt_messagequeue :=
  m ← mq_pool mq !! b; Some (with_pool (<[b := mk_msg n (msg_data m)]> (mq_pool mq)) mq).
Definition put_data (b : Z) (buffer : list Z) (size : Z) (mq : rt_messagequeue) : option rt_messagequeue :=
  m ← mq_pool mq !! b;
  let n := Z.to_nat size in
  if (n <=? length buffer)%nat && (n <=? length (msg_data m))%nat
  then Some (with_pool (<[b := mk_msg (msg_next m) (take n buffer ++ drop n (msg_data m))]> (mq_pool mq)) mq)
  else None.
Definition get_next (b : Z) (mq : rt_messagequeue) : option (option Z) :=
  m ← mq_pool mq !! b; Some (msg_next m).

(** ** Creation and deletion *)

(** "initialize message empty list": the loop from block [temp] on, [n] blocks. *)
Fixpoint free_blocks (n : nat) (temp : Z) (msgpool : list Z) (mq : rt_messagequeue) : rt_messagequeue :=
  match n with
  | O => mq
  | S n =>
      let head := temp * (msg_size mq + 4) in
      let data := take (Z.to_nat (msg_size mq)) (drop (Z.to_nat (head + 4)) msgpool) in
      let mq := with_pool (<[head := mk_msg (msg_queue_free mq) data]> (mq_pool mq)) mq in
      free_blocks n (temp + 1) msgpool (with_free (Some head) mq)
  end.

Definition mq_fresh (msgpool : list Z) (msg_size max_msgs flag : Z) : rt_messagequeue :=
  free_blocks (Z.to_nat max_msgs) 0 msgpool (mk_mq ∅ msg_size max_msgs 0 None None None (u8 flag)).

Definition rt_mq_init (o : Z) (msgpool : list Z) (msg_size pool_size flag : Z) (k : kernel)
    : kernel * rt_messagequeue * Z :=
  let k := rt_ipc_object_init o k in
  let ms := u16 (align_up msg_size) in
  let n := u16 (pool_size / (ms + 4)) in
  (set_queues (<[Senders o := []]> (queues k)) k, mq_fresh msgpool ms n flag, RT_EOK).

(** [alloc] and [pool]: what the allocations return. *)
Definition rt_mq_create (alloc : option Z) (pool : Z -> option (list Z)) (msg_size max_msgs flag : Z)
    (k : kernel) : kernel * option (Z * rt_messagequeue) :=
  match alloc with
  | None => (k, None)
  | Some o =>
      let k := rt_ipc_object_init o k in
      let ms := u16 (align_up msg_size) in
      let n := u16 max_msgs in
      match pool ((ms + 4) * n) with
      | None => (k, None)
      | Some p => (set_queues (<[Senders o := []]> (queues k)) k, Some (o, mq_fresh p ms n flag))
      end
  end.

Definition rt_mq_detach (o : Z) (k : kernel) : option (kernel * Z) :=
  k ← resume_both o k; Some (k, RT_EOK).
Definition rt_mq_delete (o : Z) (k : kernel) : option (kernel * Z) :=
  k ← resume_both o k; Some (k, RT_EOK).

(** ** Sending *)

(** "increase message entry ... resume suspended thread": the end of both sends. *)
Definition mq_count (o : Z) (k : kernel) (mq : rt_messagequeue) : kernel * rt_messagequeue * Z :=
  if mq_entry mq <? RT_MQ_ENTRY_MAX
  then (wake_one (Suspended o) k, with_entry (mq_entry mq + 1) mq, RT_EOK)
  else (k, mq, - RT_EFULL).

Definition mq_put (o msg : Z) (buffer : list Z) (size : Z) (k : kernel) (mq : rt_messagequeue)
    : option (kernel * rt_messagequeue * Z) :=
  next ← get_next msg mq;
  let mq := with_free next mq in
  mq ← put_next msg None mq;
  mq ← put_data msg buffer size mq;
  mq ← (match msg_queue_tail mq with Some t => put_next t (Some msg) mq | None => Some mq end);
  let mq := with_tail (Some msg) mq in
  let mq := match msg_queue_head mq with None => with_head (Some msg) mq | Some _ => mq end in
  Some (mq_count o k mq).

(** From the head of the [while] loop. *)
Definition mq_send_loop (o : Z) (buffer : list Z) (size timeout tick_delta : Z) (k : kernel)
    (mq : rt_messagequeue) : option (kernel * rt_messagequeue * waited) :=
  match msg_queue_free mq with
  | None =>
      let k := set_error (rt_thread_self k) RT_EOK k in
      if timeout =? 0 then Some (k, mq, Returned (- RT_EFULL))
      else
        let '(k, w) := sleep_on (Senders o) (mq_flag mq) timeout tick_delta k in
        Some (k, mq, w)
  | Some msg =>
      '(k, mq, e) ← mq_put o msg buffer size k mq;
      Some (k, mq, Returned e)
  end.

Definition rt_mq_send_wait (o : Z) (buffer : list Z) (size timeout : Z) (k : kernel)
    (mq : rt_messagequeue) : option (kernel * rt_messagequeue * waited) :=
  if size >? msg_size mq then Some (k, mq, Returned (- RT_ERROR))
  else
    match msg_queue_free mq, timeout =? 0 with
    | None, true => Some (k, mq, Returned (- RT_EFULL))
    | _, _ => mq_send_loop o buffer size timeout 0 k mq
    end.

(** "resume from suspend state" *)
Definition rt_mq_send_resumed (o : Z) (buffer : list Z) (size timeout tick_delta : Z) (k : kernel)
    (mq : rt_messagequeue) : option (kernel * rt_messagequeue * waited) :=
  let e := error (thr k (rt_thread_self k)) in
  if negb (e =? RT_EOK) then Some (k, mq, Returned e)
  else mq_send_loop o buffer size (remaining timeout tick_delta (rt_tick k)) tick_delta k mq.

Definition rt_mq_send (o : Z) (buffer : list Z) (size : Z) (k : kernel) (mq : rt_messagequeue) :=
  rt_mq_send_wait o buffer size 0 k mq.

Definition rt_mq_urgent (o : Z) (buffer : list Z) (size : Z) (k : kernel) (mq : rt_messagequeue)
    : option (kernel * rt_messagequeue * Z) :=
  if size >? msg_size mq then Some (k, mq, - RT_ERROR)
  else
    match msg_queue_free mq with
    | None => Some (k, mq, - RT_EFULL)
    | Some msg =>
        next ← get_next msg mq;
        let mq := with_free next mq in
        mq ← put_data msg buffer size mq;
        mq ← put_next msg (msg_queue_head mq) mq;
        let mq := with_head (Some msg) mq in
        let mq := match msg_queue_tail mq with None => with_tail (Some msg) mq | Some _ => mq end in
        Some (mq_count o k mq)
    end.

(** ** Receiving *)

(** "get message from queue ... set to NULL": unlink the first message, ... *)
Definition mq_unlink (mq : rt_messagequeue) : option (rt_messagequeue * Z) :=
  msg ← msg_queue_head mq;
  next ← get_next msg mq;
  let mq := with_head next mq in
  Some (if bool_decide (msg_queue_tail mq = Some msg) then with_tail None mq else mq, msg).

(** ... and "put message to free list". *)
Definition mq_release (msg : Z) (mq : rt_messagequeue) : option rt_messagequeue :=
  mq ← put_next msg (msg_queue_free mq) mq; Some (with_free (Some msg) mq).

Definition mq_take (o size : Z) (k : kernel) (mq : rt_messagequeue)
    : option (kernel * rt_messagequeue * Z * list Z) :=
  '(mq, msg) ← mq_unlink mq;
  let mq := if mq_entry mq >? 0 then with_entry (mq_entry mq - 1) mq else mq in
  m ← mq_pool mq !! msg;
  let buffer := take (Z.to_nat (if size >? msg_size mq then msg_size mq else size)) (msg_data m) in
  mq ← mq_release msg mq;
  Some (wake_one (Senders o) k, mq, RT_EOK, buffer).

Definition mq_recv_loop (o size timeout tick_delta : Z) (k : kernel) (mq : rt_messagequeue)
    : option (kernel * rt_messagequeue * waited * option (list Z)) :=
  if mq_entry mq =? 0 then
    let t := rt_thread_self k in
    let k := set_error t RT_EOK k in
    if timeout =? 0 then Some (set_error t (- RT_ETIMEOUT) k, mq, Returned (- RT_ETIMEOUT), None)
    else
      let '(k, w) := sleep_on (Suspended o) (mq_flag mq) timeout tick_delta k in
      Some (k, mq, w, None)
  else
    '(k, mq, e, buffer) ← mq_take o size k mq;
    Some (k, mq, Returned e, Some buffer).

Definition rt_mq_recv (o size timeout : Z) (k : kernel) (mq : rt_messagequeue)
    : option (kernel * rt_messagequeue * waited * option (list Z)) :=
  if (mq_entry mq =? 0) && (timeout =? 0) then Some (k, mq, Returned (- RT_ETIMEOUT), None)
  else mq_recv_loop o size timeout 0 k mq.

Definition rt_mq_recv_resumed (o size timeout tick_delta : Z) (k : kernel) (mq : rt_messagequeue)
    : option (kernel * rt_messagequeue * waited * option (list Z)) :=
  let e := error (thr k (rt_thread_self k)) in
  if negb (e =? RT_EOK) then Some (k, mq, Returned e, None)
  else mq_recv_loop o size (remaining timeout tick_delta (rt_tick k)) tick_delta k mq.

(** "release all message in the queue"; [None] when the fuel is out. *)
Fixpoint mq_release_all (fuel : nat) (mq : rt_messagequeue) : option rt_messagequeue :=
  match msg_queue_head mq with
  | None => Some mq
  | Some _ =>
      match fuel with
      | O => None
      | S fuel =>
          '(mq, msg) ← mq_unlink mq;
          mq ← mq_release msg mq;
          mq_release_all fuel mq
      end
  end.

Definition rt_mq_control (o : Z) (cmd : ipc_cmd) (k : kernel) (mq : rt_messagequeue)
    : option (kernel * rt_messagequeue * Z) :=
  match cmd with
  | RT_IPC_CMD_RESET =>
      k ← resume_both o k;
      mq ← mq_release_all (Z.to_nat (max_msgs mq)) mq;
      Some (rt_schedule k, with_entry 0 mq, RT_EOK)
  | RT_IPC_CMD_OTHER => Some (k, mq, - RT_ERROR)
  end.

(** ** The queue it refines *)

(** The blocks reached from a pointer by following the links. *)
Fixpoint chain (pool : gmap Z rt_mq_message) (p : option Z) (l : list Z) : Prop :=
  match l with
  | [] => p = None
  | b :: l => p = Some b /\ exists m, pool !! b = Some m /\ chain pool (msg_next m) l
  end.

Definition data_of (pool : gmap Z rt_mq_message) (b : Z) : list Z :=
  match pool !! b with Some m => msg_data m | None => [] end.

(** [q]: the blocks in use, [f]: the free ones. *)
Record mq_lists (mq : rt_messagequeue) (q f : list Z) : Prop := {
  ml_q : chain (mq_pool mq) (msg_queue_head mq) q;
  ml_f : chain (mq_pool mq) (msg_queue_free mq) f;
  ml_nodup : NoDup (q ++ f);
  ml_tail : msg_queue_tail mq = last q;
  ml_entry : mq_entry mq = Z.of_nat (length q);
  ml_max : Z.of_nat (length (q ++ f)) = max_msgs mq;
  ml_data : forall b, b ∈ q ++ f -> Z.of_nat (length (data_of (mq_pool mq) b)) = msg_size mq;
  ml_bound : max_msgs mq <= 65535;
  ml_flag : mq_flag mq = RT_IPC_FLAG_FIFO \/ mq_flag mq = RT_IPC_FLAG_PRIO }.

Definition mq_ok (mq : rt_messagequeue) : Prop := exists q f, mq_lists mq q f.

(** The messages in the queue, first to be received first. *)
Fixpoint walk (n : nat) (pool : gmap Z rt_mq_message) (p : option Z) : list (list Z) :=
  match n, p with
  | S n, Some b =>
      data_of pool b :: walk n pool (match pool !! b with Some m => msg_next m | None => None end)
  | _, _ => []
  end.
Definition messages (mq : rt_messagequeue) : list (list Z) :=
  walk (Z.to_nat (mq_entry mq)) (mq_pool mq) (msg_queue_head mq).

Lemma walk_chain pool l : forall p, chain pool p l -> walk (length l) pool p = map (data_of pool) l.
Proof.
  induction l as [|b l IH]; intros p Hc; [done|]. destruct Hc as (-> & m & Hm & Hc). cbn.
  rewrite Hm. by rewrite IH.
Qed.

Lemma messages_eq mq q f : mq_lists mq q f -> messages mq = map (data_of (mq_pool mq)) q.
Proof.
  intros H. unfold messages. rewrite (ml_entry _ _ _ H), Nat2Z.id. apply walk_chain. apply H.
Qed.

(** Writing a block leaves the other chains and their data alone. *)
Lemma chain_insert pool b x l : forall p, b ∉ l -> chain pool p l -> chain (<[b := x]> pool) p l.
Proof.
  induction l as [|c l IH]; intros p Hb Hc; [done|]. apply not_elem_of_cons in Hb as [Hbc Hb].
  destruct Hc as (-> & m & Hm & Hc). split; [done|]. exists m.
  rewrite lookup_insert_ne by done. split; [done|]. by apply IH.
Qed.

Lemma data_of_insert_ne pool b c x : b <> c -> data_of (<[b := x]> pool) c = data_of pool c.
Proof. intros H. unfold data_of. by rewrite lookup_insert_ne. Qed.

Lemma data_of_insert pool b n d : data_of (<[b := mk_msg n d]> pool) b = d.
Proof. unfold data_of. by rewrite lookup_insert_eq. Qed.

(** Writing only the link of a block keeps all data. *)
Lemma data_of_next pool b n c :
  data_of (<[b := mk_msg n (data_of pool b)]> pool) c = data_of pool c.
Proof.
  destruct (decide (b = c)) as [->|Hne]; [apply data_of_insert|by apply data_of_insert_ne].
Qed.

Lemma map_data_insert pool b x l : b ∉ l -> map (data_of (<[b := x]> pool)) l = map (data_of pool) l.
Proof.
  induction l as [|c l IH]; intros Hb; [done|]. apply not_elem_of_cons in Hb as [Hbc Hb]. cbn.
  rewrite data_of_insert_ne by done. by rewrite IH.
Qed.

Lemma chain_lookup pool l : forall p b, chain pool p l -> b ∈ l ->
  exists m, pool !! b = Some m /\ msg_data m = data_of pool b.
Proof.
  induction l as [|c l IH]; intros p b Hc Hb; [by apply not_elem_of_nil in Hb|].
  destruct Hc as (-> & m & Hm & Hc). apply elem_of_cons in Hb as [->|Hb]; [|by eapply IH].
  exists m. split; [done|]. unfold data_of. by rewrite Hm.
Qed.

(** Linking a new last block. *)
Lemma chain_snoc pool l t b d d' : forall p, chain pool p (l ++ [t]) -> NoDup (l ++ [t]) ->
  b ∉ l ++ [t] ->
  chain (<[t := mk_msg (Some b) d']> (<[b := mk_msg None d]> pool)) p ((l ++ [t]) ++ [b]).
Proof.
  induction l as [|c l IH]; intros p Hc Hnd Hb.
  - destruct Hc as (-> & m & Hm & _). cbn in Hb |- *. split; [done|].
    exists (mk_msg (Some b) d'). rewrite lookup_insert_eq. split; [done|]. split; [done|].
    exists (mk_msg None d). rewrite lookup_insert_ne, lookup_insert_eq; [done|].
    intros ->. apply Hb. apply list_elem_of_here.
  - cbn [app] in Hc, Hnd, Hb |- *. destruct Hc as (-> & m & Hm & Hc).
    apply NoDup_cons in Hnd as [Hcn Hnd]. apply not_elem_of_cons in Hb as [Hbc Hb].
    split; [done|]. exists m. rewrite !lookup_insert_ne; [split; [done|]; by apply IH|done|].
    intros ->. apply Hcn, elem_of_app. right. apply list_elem_of_here.
Qed.

(** ** The operations on the lists *)

(** What a block holds after [rt_memcpy(msg + 1, buffer, size)]. *)
Definition filled (buffer : list Z) (size : Z) (old : list Z) : list Z :=
  take (Z.to_nat size) buffer ++ drop (Z.to_nat size) old.

Lemma filled_spec buffer size old : 0 <= size <= Z.of_nat (length buffer) ->
  size <= Z.of_nat (length old) ->
  length (filled buffer size old) = length old /\
  take (Z.to_nat size) (filled buffer size old) = take (Z.to_nat size) buffer.
Proof.
  intros Hb Ho. unfold filled. split.
  - rewrite length_app, length_take, length_drop. lia.
  - rewrite take_app_le by (rewrite length_take; lia). rewrite take_take. f_equal. lia.
Qed.

Lemma put_data_some mq b m buffer size : mq_pool mq !! b = Some m ->
  0 <= size <= Z.of_nat (length buffer) -> size <= Z.of_nat (length (msg_data m)) ->
  put_data b buffer size mq =
    Some (with_pool (<[b := mk_msg (msg_next m) (filled buffer size (msg_data m))]> (mq_pool mq)) mq).
Proof.
  intros Hm Hb Hd. unfold put_data. rewrite Hm. cbn [mbind option_bind].
  by rewrite (proj2 (Nat.leb_le _ _)), (proj2 (Nat.leb_le _ _)) by lia.
Qed.

Lemma count_spec o k mq : 0 <= mq_entry mq < 65535 ->
  mq_count o k mq = (wake_one (Suspended o) k, with_entry (mq_entry mq + 1) mq, RT_EOK) /\
  mq_entry (with_entry (mq_entry mq + 1) mq) = mq_entry mq + 1.
Proof.
  intros H. unfold mq_count. rewrite (proj2 (Z.ltb_lt _ _)) by (unfold RT_MQ_ENTRY_MAX; lia).
  split; [done|]. cbn. apply u16_small. lia.
Qed.

(** A queue with one more block in use. *)
Lemma lists_grow mq mq' q msg f q' d : mq_lists mq q (msg :: f) ->
  msg_size mq' = msg_size mq -> max_msgs mq' = max_msgs mq -> mq_flag mq' = mq_flag mq ->
  mq_entry mq' = mq_entry mq + 1 -> Permutation q' (msg :: q) -> msg_queue_tail mq' = last q' ->
  chain (mq_pool mq') (msg_queue_head mq') q' -> chain (mq_pool mq') (msg_queue_free mq') f ->
  data_of (mq_pool mq') msg = d -> length d = length (data_of (mq_pool mq) msg) ->
  (forall b, b <> msg -> data_of (mq_pool mq') b = data_of (mq_pool mq) b) ->
  mq_lists mq' q' f.
Proof.
  intros [Hq Hf Hnd Ht He Hm Hd Hb Hfl] Es Em Ef Ee Hp Et Hq' Hf' Hdm Hlen Hoth.
  assert (Permutation (q' ++ f) (q ++ msg :: f)) as Hperm by (by rewrite Hp, <- Permutation_middle).
  split; try done.
  - by rewrite Hperm.
  - rewrite Ee, He, Hp. cbn. lia.
  - by rewrite Hperm, Em.
  - intros b Hin. rewrite Hperm in Hin. rewrite Es, <- (Hd b Hin).
    destruct (decide (b = msg)) as [->|Hne]; [by rewrite Hdm, Hlen|by rewrite Hoth].
  - by rewrite Em.
  - by rewrite Ef.
Qed.

Lemma lists_free_block mq q msg f : mq_lists mq q (msg :: f) ->
  msg_queue_free mq = Some msg /\ (msg ∉ q) /\ (msg ∉ f) /\ 0 <= mq_entry mq < 65535 /\
  exists m, mq_pool mq !! msg = Some m /\ chain (mq_pool mq) (msg_next m) f /\
    msg_data m = data_of (mq_pool mq) msg /\ Z.of_nat (length (msg_data m)) = msg_size mq.
Proof.
  intros [Hq (Hfree & m & Hm & Hf) Hnd Ht He Hmx Hd Hb Hfl]. split; [done|].
  apply NoDup_app in Hnd as (_ & Hdis & Hnd). apply NoDup_cons in Hnd as [Hmf _].
  split; [intros Hin; apply (Hdis _ Hin), list_elem_of_here|]. split; [done|].
  rewrite length_app in Hmx. cbn in Hmx. split; [lia|].
  exists m. split; [done|]. split; [done|].
  assert (msg_data m = data_of (mq_pool mq) msg) as E by (unfold data_of; by rewrite Hm).
  split; [done|]. rewrite E. apply Hd, elem_of_app. right. apply list_elem_of_here.
Qed.

Lemma put_next_some mq b n m : mq_pool mq !! b = Some m ->
  put_next b n mq = Some (with_pool (<[b := mk_msg n (msg_data m)]> (mq_pool mq)) mq).
Proof. intros Hm. unfold put_next. by rewrite Hm. Qed.

(** Linking the filled block behind the last one, if there is one. *)
Lemma link_tail mq q msg f d : mq_lists mq q (msg :: f) -> forall mq1,
  mq_pool mq1 = <[msg := mk_msg None d]> (mq_pool mq) ->
  exists pool2,
    match last q with Some t => put_next t (Some msg) mq1 | None => Some mq1 end =
      Some (with_pool pool2 mq1) /\
    chain pool2 (match msg_queue_head mq with None => Some msg | Some b => Some b end) (q ++ [msg]) /\
    (forall p, chain (mq_pool mq) p f -> chain pool2 p f) /\ data_of pool2 msg = d /\
    forall b, b <> msg -> data_of pool2 b = data_of (mq_pool mq) b.
Proof.
  intros Hl mq1 E1. destruct (lists_free_block _ _ _ _ Hl) as (_ & Hmq & Hmf & _).
  pose proof (ml_q _ _ _ Hl) as Hq. pose proof (ml_nodup _ _ _ Hl) as Hnd.
  set (pool1 := <[msg := mk_msg None d]> (mq_pool mq)) in *. destruct (last q) as [t|] eqn:Elast.
  - apply last_Some in Elast as [l ->].
    assert (t ∈ l ++ [t]) as Ht by (apply elem_of_app; right; apply list_elem_of_here).
    assert (t <> msg) as Htm by (intros ->; done).
    apply NoDup_app in Hnd as (Hnd & Hdis & _).
    assert (t ∉ f) as Htf by (intros H; apply (Hdis t Ht), list_elem_of_further, H).
    destruct (chain_lookup _ _ _ t Hq Ht) as (mt & Hmt & Edt).
    assert (pool1 !! t = Some mt) as Hmt1 by (unfold pool1; by rewrite lookup_insert_ne).
    exists (<[t := mk_msg (Some msg) (msg_data mt)]> pool1).
    split; [rewrite (put_next_some _ _ _ mt); by rewrite E1|]. split.
    { replace (match msg_queue_head mq with None => Some msg | Some b => Some b end)
        with (msg_queue_head mq) by (destruct l; destruct Hq as [-> _]; done).
      by apply chain_snoc. }
    split. { intros p Hp. apply chain_insert; [done|]. by apply chain_insert. }
    split. { rewrite data_of_insert_ne by done. apply data_of_insert. }
    intros b Hbm. rewrite Edt, <- (data_of_insert_ne _ msg t (mk_msg None d)) by done.
    fold pool1. rewrite data_of_next. by apply data_of_insert_ne.
  - apply last_None in Elast as ->. cbn in Hq. exists pool1.
    split; [by destruct mq1; cbn in *; subst|]. rewrite Hq. split.
    { split; [done|]. exists (mk_msg None d). unfold pool1. by rewrite lookup_insert_eq. }
    split. { intros p Hp. by apply chain_insert. }
    split; [apply data_of_insert|]. intros b Hbm. by apply data_of_insert_ne.
Qed.

Lemma map_data_same pool pool' l : (forall b, b ∈ l -> data_of pool' b = data_of pool b) ->
  map (data_of pool') l = map (data_of pool) l.
Proof.
  intros H. induction l as [|b l IH]; [done|]. cbn. rewrite H by apply list_elem_of_here.
  f_equal. apply IH. intros c Hc. apply H. by apply list_elem_of_further.
Qed.

Lemma mq_put_spec o buffer size k mq q msg f : mq_lists mq q (msg :: f) ->
  0 <= size <= msg_size mq -> size <= Z.of_nat (length buffer) ->
  exists mq', mq_put o msg buffer size k mq = Some (wake_one (Suspended o) k, mq', RT_EOK) /\
    mq_lists mq' (q ++ [msg]) f /\
    messages mq' = messages mq ++ [filled buffer size (data_of (mq_pool mq) msg)] /\
    msg_size mq' = msg_size mq /\ max_msgs mq' = max_msgs mq.
Proof.
  intros Hl Hs Hb. destruct (lists_free_block _ _ _ _ Hl) as (_ & Hmq & Hmf & He & m & Hm & Hf & Em & Hlm).
  unfold mq_put, get_next. rewrite Hm. cbn [mbind option_bind].
  rewrite (put_next_some (with_free _ _) _ _ m) by done. cbn [mbind option_bind].
  rewrite (put_data_some _ msg (mk_msg None (msg_data m)))
    by (cbn [mq_pool with_pool msg_data]; rewrite ?lookup_insert_eq; done || lia).
  cbn [mbind option_bind mq_pool with_pool with_free msg_queue_tail msg_next msg_data].
  rewrite insert_insert_eq, Em, (ml_tail _ _ _ Hl). set (d := filled buffer size _).
  assert (length d = length (data_of (mq_pool mq) msg)) as Hld by (rewrite Em in Hlm; apply filled_spec; lia).
  match goal with |- context [put_next _ _ ?M] =>
    destruct (link_tail mq q msg f d Hl M eq_refl) as (pool2 & -> & Hc2 & Hf2 & Hd2 & Ho2) end.
  cbn [mbind option_bind].
  set (mq2 := match msg_queue_head _ with None => _ | Some _ => _ end).
  assert (mq2 = mk_mq pool2 (msg_size mq) (max_msgs mq) (mq_entry mq)
    (match msg_queue_head mq with None => Some msg | Some b => Some b end) (Some msg)
    (msg_next m) (mq_flag mq)) as -> by
    (unfold mq2, with_tail, with_head, with_pool, with_free; cbn; by destruct (msg_queue_head mq)).
  destruct (count_spec o k (mk_mq pool2 (msg_size mq) (max_msgs mq) (mq_entry mq)
    (match msg_queue_head mq with None => Some msg | Some b => Some b end) (Some msg)
    (msg_next m) (mq_flag mq)) He) as [-> Ee].
  eexists. split; [done|].
  match goal with |- mq_lists ?X _ _ /\ _ => set (mq' := X) in *; assert (mq_lists mq' (q ++ [msg]) f) as Hl' end.
  { apply (lists_grow mq mq' q msg f _ d); try done.
    - by rewrite (Permutation_app_comm q [msg]).
    - by rewrite last_snoc.
    - by apply Hf2. }
  split; [done|]. split; [|done].
  rewrite (messages_eq _ _ _ Hl'), (messages_eq _ _ _ Hl), map_app. cbn [map mq_pool with_entry mq'].
  rewrite Hd2. f_equal. apply map_data_same. intros b Hbq. apply Ho2. by intros ->.
Qed.

Lemma mq_urgent_spec o buffer size k mq q msg f : mq_lists mq q (msg :: f) ->
  0 <= size <= msg_size mq -> size <= Z.of_nat (length buffer) ->
  exists mq', rt_mq_urgent o buffer size k mq = Some (wake_one (Suspended o) k, mq', RT_EOK) /\
    mq_lists mq' (msg :: q) f /\
    messages mq' = filled buffer size (data_of (mq_pool mq) msg) :: messages mq /\
    msg_size mq' = msg_size mq /\ max_msgs mq' = max_msgs mq.
Proof.
  intros Hl Hs Hb. destruct (lists_free_block _ _ _ _ Hl) as (Hfree & Hmq & Hmf & He & m & Hm & Hf & Em & Hlm).
  unfold rt_mq_urgent. rewrite Z.gtb_ltb, (proj2 (Z.ltb_ge _ _)), Hfree by lia.
  unfold get_next. rewrite Hm. cbn [mbind option_bind].
  rewrite (put_data_some _ msg m) by (done || lia). cbn [mbind option_bind].
  rewrite (put_next_some _ _ _ (mk_msg (msg_next m) (filled buffer size (msg_data m))))
    by (cbn [mq_pool with_pool]; by rewrite lookup_insert_eq).
  cbn [mbind option_bind mq_pool with_pool with_free msg_queue_tail msg_queue_head msg_next msg_data].
  rewrite insert_insert_eq, Em. set (d := filled buffer size _).
  assert (length d = length (data_of (mq_pool mq) msg)) as Hld by (rewrite Em in Hlm; apply filled_spec; lia).
  set (pool2 := <[msg := mk_msg (msg_queue_head mq) d]> (mq_pool mq)).
  set (mq2 := match msg_queue_tail _ with None => _ | Some _ => _ end).
  set (mq3 := mk_mq pool2 (msg_size mq) (max_msgs mq) (mq_entry mq) (Some msg)
    (match msg_queue_tail mq with None => Some msg | Some t => Some t end) (msg_next m) (mq_flag mq)).
  assert (mq2 = mq3) as -> by
    (unfold mq2, mq3, with_tail, with_head, with_pool, with_free; cbn; by destruct (msg_queue_tail mq)).
  destruct (count_spec o k mq3 He) as [-> Ee]. eexists. split; [done|].
  match goal with |- mq_lists ?X _ _ /\ _ => set (mq' := X) in *; assert (mq_lists mq' (msg :: q) f) as Hl' end.
  { apply (lists_grow mq mq' q msg f _ d); try done.
    - cbn [msg_queue_tail mq' mq3 with_entry]. by rewrite (ml_tail _ _ _ Hl), last_cons.
    - split; [done|]. exists (mk_msg (msg_queue_head mq) d). cbn [mq_pool mq' mq3 with_entry].
      unfold pool2. rewrite lookup_insert_eq. split; [done|]. apply chain_insert; [done|apply Hl].
    - by apply chain_insert.
    - apply data_of_insert.
    - intros b Hbm. by apply data_of_insert_ne. }
  split; [done|]. split; [|done].
  rewrite (messages_eq _ _ _ Hl'), (messages_eq _ _ _ Hl). cbn [map mq_pool with_entry mq' mq3].
  unfold pool2. rewrite data_of_insert. f_equal. by apply map_data_insert.
Qed.

(** Taking the first block off the queue and putting it on the free list. *)
Lemma unlink_spec mq msg q f : mq_lists mq (msg :: q) f ->
  exists next, mq_unlink mq = Some (with_tail (last q) (with_head next mq), msg) /\
    chain (mq_pool mq) next q.
Proof.
  intros [Hq Hf Hnd Ht He Hm Hd Hb Hfl]. destruct Hq as (Eh & m & Em & Hq).
  unfold mq_unlink, get_next. rewrite Eh. cbn [mbind option_bind]. rewrite Em. cbn [mbind option_bind].
  exists (msg_next m). split; [|done].
  change (msg_queue_tail (with_head (msg_next m) mq)) with (msg_queue_tail mq).
  rewrite Ht, last_cons. do 2 f_equal.
  destruct q as [|x q]; [by rewrite bool_decide_eq_true_2|].
  destruct (last (x :: q)) as [t|] eqn:El; [|by apply last_None in El].
  rewrite bool_decide_eq_false_2; [rewrite last_cons, El in Ht; destruct mq; cbn in *; by subst|].
  intros [= ->]. apply last_Some in El as [l El]. rewrite El in Hnd. cbn in Hnd.
  apply NoDup_cons in Hnd as [Hnd _]. apply Hnd. rewrite !elem_of_app. left. right.
  apply list_elem_of_here.
Qed.

Lemma release_spec mq msg q f next : mq_lists mq (msg :: q) f -> chain (mq_pool mq) next q ->
  forall n, u16 n = Z.of_nat (length q) ->
  let mq1 := with_entry n (with_tail (last q) (with_head next mq)) in
  exists mq', mq_release msg mq1 = Some mq' /\ mq_lists mq' q (msg :: f) /\
    messages mq' = map (data_of (mq_pool mq)) q /\ msg_size mq' = msg_size mq /\
    max_msgs mq' = max_msgs mq.
Proof.
  intros Hl Hnext n Hn mq1. destruct Hl as [Hq Hf Hnd Ht He Hm Hd Hb Hfl].
  destruct Hq as (Eh & m & Em & _).
  assert (NoDup (q ++ msg :: f)) as Hnd' by (by rewrite <- Permutation_middle).
  pose proof Hnd as Hnd2. cbn in Hnd2. apply NoDup_cons in Hnd2 as [Hnot _].
  rewrite elem_of_app in Hnot.
  unfold mq_release. rewrite (put_next_some _ _ _ m) by done. cbn [mbind option_bind].
  assert (msg_data m = data_of (mq_pool mq) msg) as Edm by (unfold data_of; by rewrite Em).
  cbn [mq_pool mq1 with_entry with_tail with_head msg_queue_free]. rewrite Edm.
  set (pool' := <[msg := _]> (mq_pool mq)).
  set (mq' := with_free _ _). assert (mq_lists mq' q (msg :: f)) as Hl'.
  { split; try done.
    - apply chain_insert; [tauto|done].
    - split; [done|]. exists (mk_msg (msg_queue_free mq) (data_of (mq_pool mq) msg)).
      cbn [mq_pool mq' with_free with_pool]. unfold pool'. rewrite lookup_insert_eq.
      split; [done|]. apply chain_insert; [tauto|done].
    - rewrite <- Permutation_middle. done.
    - intros b Hin. cbn [mq_pool mq' with_free with_pool]. unfold pool'. rewrite data_of_next.
      apply Hd. cbn. by rewrite Permutation_middle. }
  exists mq'. split; [done|]. split; [done|]. split; [|done].
  rewrite (messages_eq _ _ _ Hl'). apply map_data_insert. tauto.
Qed.

Lemma mq_take_spec o size k mq msg q f : mq_lists mq (msg :: q) f -> 0 <= size ->
  exists mq' m rest, messages mq = m :: rest /\ Z.of_nat (length m) = msg_size mq /\
    mq_take o size k mq =
      Some (wake_one (Senders o) k, mq', RT_EOK, take (Z.to_nat (Z.min size (msg_size mq))) m) /\
    mq_lists mq' q (msg :: f) /\ messages mq' = rest /\ msg_size mq' = msg_size mq /\
    max_msgs mq' = max_msgs mq.
Proof.
  intros Hl Hs. destruct (unlink_spec _ _ _ _ Hl) as (next & Eu & Hnext).
  pose proof (messages_eq _ _ _ Hl) as Emsg. cbn [map] in Emsg.
  pose proof (ml_entry _ _ _ Hl) as He. pose proof (ml_max _ _ _ Hl) as Hmx.
  pose proof (ml_bound _ _ _ Hl) as Hb. cbn [length] in He. rewrite length_app in Hmx. cbn in Hmx.
  destruct (release_spec _ _ _ _ next Hl Hnext (mq_entry mq - 1)) as (mq' & Er & Hl' & Em' & Es & Ex);
    [rewrite u16_small; lia|]. cbv zeta in Er.
  exists mq', (data_of (mq_pool mq) msg), (map (data_of (mq_pool mq)) q).
  split; [done|]. split; [apply (ml_data _ _ _ Hl), list_elem_of_here|]. split; [|done].
  unfold mq_take. rewrite Eu. cbn [mbind option_bind mq_entry with_tail with_head].
  rewrite (proj2 (Z.gtb_lt (mq_entry mq) 0)) by lia.
  set (mq1 := with_entry _ _) in *. change (mq_pool mq1) with (mq_pool mq).
  change (msg_size mq1) with (msg_size mq).
  destruct (ml_q _ _ _ Hl) as (_ & m & Em & _). rewrite Em. cbn [mbind option_bind].
  rewrite Er. cbn [mbind option_bind]. unfold data_of. rewrite Em. do 4 f_equal. case_Z; lia.
Qed.

(** Releasing every message does not look at the entry count. *)
Lemma unlink_entry n mq :
  mq_unlink (with_entry n mq) = (fun x => (with_entry n x.1, x.2)) <$> mq_unlink mq.
Proof.
  unfold mq_unlink, get_next. cbn [msg_queue_head with_entry mq_pool].
  destruct (msg_queue_head mq) as [b|]; [|done]. cbn [mbind option_bind].
  destruct (mq_pool mq !! b) as [m|]; [|done]. cbn [mbind option_bind msg_queue_tail with_entry with_head].
  by destruct (bool_decide _).
Qed.

Lemma release_entry n b mq : mq_release b (with_entry n mq) = with_entry n <$> mq_release b mq.
Proof.
  unfold mq_release, put_next. cbn [mq_pool with_entry]. by destruct (mq_pool mq !! b).
Qed.

Lemma entry_twice n n' mq : with_entry n (with_entry n' mq) = with_entry n mq.
Proof. done. Qed.

Lemma release_all_spec fuel : forall mq q f, mq_lists (with_entry (Z.of_nat (length q)) mq) q f ->
  (length q <= fuel)%nat ->
  exists mq' f', mq_release_all fuel mq = Some mq' /\ mq_lists (with_entry 0 mq') [] f' /\
    msg_size mq' = msg_size mq /\ max_msgs mq' = max_msgs mq.
Proof.
  induction fuel as [|fuel IH]; intros mq q f Hl Hf.
  - destruct q; [|cbn in Hf; lia]. exists mq, f. cbn in Hl |- *.
    pose proof (ml_q _ _ _ Hl) as Eh. cbn in Eh. by rewrite Eh.
  - destruct q as [|msg q].
    + exists mq, f. cbn in Hl |- *. pose proof (ml_q _ _ _ Hl) as Eh. cbn in Eh. by rewrite Eh.
    + cbn in Hf. pose proof (ml_max _ _ _ Hl) as Hmx. pose proof (ml_bound _ _ _ Hl) as Hb.
      cbn [max_msgs with_entry length] in Hmx, Hb. cbn in Hmx. rewrite length_app in Hmx.
      destruct (unlink_spec _ _ _ _ Hl) as (next & Eu & Hnext).
      destruct (release_spec _ _ _ _ next Hl Hnext (Z.of_nat (length q))) as
        (mq2 & Er & Hl2 & _ & Es & Ex); [rewrite u16_small; lia|]. cbv zeta in Er.
      rewrite unlink_entry in Eu. destruct (mq_unlink mq) as [[m1 b]|] eqn:Eu1; [|done].
      apply (inj Some), pair_equal_spec in Eu as [E1 E2]. cbn [fst snd] in E1, E2. subst b.
      destruct (ml_q _ _ _ Hl) as (Eh & _). cbn in Eh. cbn [mq_release_all]. rewrite Eh, Eu1.
      cbn [mbind option_bind]. rewrite <- E1, entry_twice, release_entry in Er.
      destruct (mq_release msg m1) as [m2|] eqn:Er1; [|done]. apply (inj Some) in Er.
      cbn [mbind option_bind]. rewrite <- Er in Hl2, Es, Ex.
      destruct (IH m2 q (msg :: f) Hl2 ltac:(lia)) as (mq' & f' & E & Hl' & Es' & Ex').
      exists mq', f'. split; [done|]. split; [done|]. cbn in Es, Ex. by rewrite Es', Ex'.
Qed.

(** ** The calls *)

Lemma ok_room mq : mq_ok mq ->
  if bool_decide (length (messages mq) = Z.to_nat (max_msgs mq))
  then msg_queue_free mq = None
  else exists msg q f, mq_lists mq q (msg :: f).
Proof.
  intros (q & f & Hl). rewrite (messages_eq _ _ _ Hl), length_map.
  pose proof (ml_max _ _ _ Hl) as Hm. rewrite length_app in Hm. destruct f as [|msg f]; cbn in Hm.
  - rewrite bool_decide_eq_true_2 by lia. apply Hl.
  - rewrite bool_decide_eq_false_2 by lia. by exists msg, q, f.
Qed.

(** What a receiver of a message sees of what its sender gave. *)
Definition carries (m buffer : list Z) (size : Z) : Prop :=
  take (Z.to_nat size) m = take (Z.to_nat size) buffer.

Lemma mq_send_now o buffer size timeout k mq : mq_ok mq ->
  length (messages mq) <> Z.to_nat (max_msgs mq) ->
  0 <= size <= msg_size mq -> size <= Z.of_nat (length buffer) ->
  exists mq' m, rt_mq_send_wait o buffer size timeout k mq =
      Some (wake_one (Suspended o) k, mq', Returned RT_EOK) /\
    mq_ok mq' /\ messages mq' = messages mq ++ [m] /\ carries m buffer size /\
    msg_size mq' = msg_size mq /\ max_msgs mq' = max_msgs mq.
Proof.
  intros Hok Hroom Hs Hb. pose proof (ok_room mq Hok) as Hr. rewrite bool_decide_eq_false_2 in Hr by done.
  destruct Hr as (msg & q & f & Hl).
  destruct (mq_put_spec o buffer size k mq q msg f Hl Hs Hb) as (mq' & E & Hl' & Em & Hsz & Hmx).
  destruct (lists_free_block _ _ _ _ Hl) as (Hfree & _ & _ & _ & m & _ & _ & Ed & Hd).
  exists mq', (filled buffer size (data_of (mq_pool mq) msg)). split.
  { unfold rt_mq_send_wait, mq_send_loop. rewrite Z.gtb_ltb, (proj2 (Z.ltb_ge _ _)), Hfree by lia.
    by rewrite E. }
  split; [by exists (q ++ [msg]), f|]. split; [done|]. split; [|done].
  rewrite Ed in Hd. by apply filled_spec; lia.
Qed.

Lemma mq_urgent_now o buffer size k mq : mq_ok mq ->
  length (messages mq) <> Z.to_nat (max_msgs mq) ->
  0 <= size <= msg_size mq -> size <= Z.of_nat (length buffer) ->
  exists mq' m, rt_mq_urgent o buffer size k mq =
      Some (wake_one (Suspended o) k, mq', RT_EOK) /\
    mq_ok mq' /\ messages mq' = m :: messages mq /\ carries m buffer size /\
    msg_size mq' = msg_size mq /\ max_msgs mq' = max_msgs mq.
Proof.
  intros Hok Hroom Hs Hb. pose proof (ok_room mq Hok) as Hr. rewrite bool_decide_eq_false_2 in Hr by done.
  destruct Hr as (msg & q & f & Hl).
  destruct (mq_urgent_spec o buffer size k mq q msg f Hl Hs Hb) as (mq' & E & Hl' & Em & Hsz & Hmx).
  destruct (lists_free_block _ _ _ _ Hl) as (_ & _ & _ & _ & m & _ & _ & Ed & Hd).
  exists mq', (filled buffer size (data_of (mq_pool mq) msg)). split; [done|].
  split; [by exists (msg :: q), f|]. split; [done|]. split; [|done].
  rewrite Ed in Hd. by apply filled_spec; lia.
Qed.

Lemma mq_recv_now o size timeout k mq m rest : mq_ok mq -> messages mq = m :: rest -> 0 <= size ->
  exists mq', rt_mq_recv o size timeout k mq =
      Some (wake_one (Senders o) k, mq', Returned RT_EOK,
            Some (take (Z.to_nat (Z.min size (msg_size mq))) m)) /\
    mq_ok mq' /\ messages mq' = rest /\
    msg_size mq' = msg_size mq /\ max_msgs mq' = max_msgs mq.
Proof.
  intros (q & f & Hl) Hm Hs. pose proof (messages_eq _ _ _ Hl) as E. rewrite Hm in E.
  pose proof (ml_entry _ _ _ Hl) as He. destruct q as [|msg q]; [done|]. cbn [length] in He.
  destruct (mq_take_spec o size k mq msg q f Hl Hs) as
    (mq' & m' & rest' & Em & _ & Et & Hl' & Hr & Hsz & Hmx).
  rewrite Hm in Em. injection Em as <- <-. exists mq'. split.
  { unfold rt_mq_recv, mq_recv_loop. rewrite (proj2 (Z.eqb_neq _ _)) by lia. cbn [andb]. by rewrite Et. }
  split; [by exists q, (msg :: f)|]. done.
Qed.

Lemma mq_send_blocks o buffer size timeout k mq : running_ok k -> mq_ok mq ->
  length (messages mq) = Z.to_nat (max_msgs mq) -> 0 <= size <= msg_size mq ->
  let t := rt_current_thread k in
  if timeout =? 0
  then rt_mq_send_wait o buffer size timeout k mq = Some (k, mq, Returned (- RT_EFULL))
  else exists k' tick_delta,
    rt_mq_send_wait o buffer size timeout k mq = Some (k', mq, Waiting timeout tick_delta) /\
    kernel_ok k' /\ known k' (rt_current_thread k') /\ state_of (thr k' t) = RT_THREAD_SUSPEND /\
    error (thr k' t) = RT_EOK /\
    queue k' (Senders o) = queued k t (mq_flag mq) (queue k (Senders o)) /\
    queue k' (Suspended o) = queue k (Suspended o).
Proof.
  intros Hr Hok Hfull Hs t. pose proof (ok_room mq Hok) as Hf. rewrite bool_decide_eq_true_2 in Hf by done.
  unfold rt_mq_send_wait, mq_send_loop. rewrite Z.gtb_ltb, (proj2 (Z.ltb_ge _ _)), Hf by lia.
  destruct (timeout =? 0); [done|]. destruct Hok as (q & f & Hl).
  destruct (sleep_on_spec k (Senders o) (mq_flag mq) timeout 0 Hr) as
    (k' & E & H1 & H2 & H3 & H4 & H5 & H6 & _); [by exists o; right|apply Hl|].
  unfold rt_thread_self. rewrite E. exists k', (if timeout >? 0 then rt_tick k else 0).
  split; [done|]. split; [done|]. split; [done|]. split; [done|]. split; [done|]. split; [done|].
  by apply H6.
Qed.

Lemma mq_recv_blocks o size timeout k mq : running_ok k -> mq_ok mq -> messages mq = [] ->
  let t := rt_current_thread k in
  if timeout =? 0
  then rt_mq_recv o size timeout k mq = Some (k, mq, Returned (- RT_ETIMEOUT), None)
  else exists k' tick_delta,
    rt_mq_recv o size timeout k mq = Some (k', mq, Waiting timeout tick_delta, None) /\
    kernel_ok k' /\ known k' (rt_current_thread k') /\ state_of (thr k' t) = RT_THREAD_SUSPEND /\
    error (thr k' t) = RT_EOK /\
    queue k' (Suspended o) = queued k t (mq_flag mq) (queue k (Suspended o)) /\
    queue k' (Senders o) = queue k (Senders o).
Proof.
  intros Hr (q & f & Hl) Hm t. rewrite (messages_eq _ _ _ Hl) in Hm.
  pose proof (ml_entry _ _ _ Hl) as He. destruct q; [|done]. cbn in He.
  unfold rt_mq_recv, mq_recv_loop. rewrite He. destruct (Z.eqb_spec timeout 0); [done|].
  cbn [Z.eqb andb].
  destruct (sleep_on_spec k (Suspended o) (mq_flag mq) timeout 0 Hr) as
    (k' & E & H1 & H2 & H3 & H4 & H5 & H6 & _); [by exists o; left|apply Hl|].
  unfold rt_thread_self. rewrite E. exists k', (if timeout >? 0 then rt_tick k else 0).
  split; [done|]. split; [done|]. split; [done|]. split; [done|]. split; [done|]. split; [done|].
  by apply H6.
Qed.

(** Resetting a message queue returns every block to the free list and wakes
    every waiting sender and receiver, each of which sees an error. *)
Theorem message_queue_reset o k mq : kernel_ok k -> known k (rt_current_thread k) -> mq_ok mq ->
  exists k' mq', rt_mq_control o RT_IPC_CMD_RESET k mq = Some (k', mq', RT_EOK) /\ kernel_ok k' /\
    mq_ok mq' /\ messages mq' = [] /\ queue k' (Suspended o) = [] /\ queue k' (Senders o) = [] /\
    forall x, x ∈ queue k (Suspended o) \/ x ∈ queue k (Senders o) ->
      awake (thr k' x) /\ error (thr k' x) = - RT_ERROR.
Proof.
  intros Hok Hc (q & f & Hl). unfold rt_mq_control.
  destruct (resume_both_spec o k Hok Hc) as (k1 & -> & H). cbn [mbind option_bind].
  assert (mq = with_entry (Z.of_nat (length q)) mq) as Emq.
  { pose proof (ml_entry _ _ _ Hl) as He. pose proof (ml_max _ _ _ Hl) as Hmx.
    pose proof (ml_bound _ _ _ Hl) as Hb. rewrite length_app in Hmx.
    unfold with_entry. rewrite u16_small, <- He by lia. by destruct mq. }
  destruct (release_all_spec (Z.to_nat (max_msgs mq)) mq q f) as (mq' & f' & -> & Hl' & _);
    [by rewrite <- Emq|pose proof (ml_max _ _ _ Hl) as Hmx; rewrite length_app in Hmx; lia|].
  cbn [mbind option_bind]. eexists _, _. split; [done|]. split; [apply H|].
  split; [by exists [], f'|]. split; [|apply H]. by rewrite (messages_eq _ _ _ Hl').
Qed.

(** ** Creation *)

Lemma free_blocks_spec n : forall temp pool mq f, 0 <= temp -> 0 <= msg_size mq ->
  (temp + Z.of_nat n) * (msg_size mq + 4) <= Z.of_nat (length pool) ->
  chain (mq_pool mq) (msg_queue_free mq) f -> NoDup f ->
  (forall b, b ∈ f -> b < temp * (msg_size mq + 4) /\
     Z.of_nat (length (data_of (mq_pool mq) b)) = msg_size mq) ->
  let mq' := free_blocks n temp pool mq in
  exists f', chain (mq_pool mq') (msg_queue_free mq') f' /\ NoDup f' /\
    length f' = (n + length f)%nat /\
    (forall b, b ∈ f' -> Z.of_nat (length (data_of (mq_pool mq') b)) = msg_size mq) /\
    msg_size mq' = msg_size mq /\ max_msgs mq' = max_msgs mq /\ mq_entry mq' = mq_entry mq /\
    msg_queue_head mq' = msg_queue_head mq /\ msg_queue_tail mq' = msg_queue_tail mq /\
    mq_flag mq' = mq_flag mq.
Proof.
  induction n as [|n IH]; intros temp pool mq f Ht Hs Hp Hc Hnd Hf; cbn [free_blocks].
  - exists f. split_and!; try done. intros b Hb. by apply Hf.
  - set (h := temp * (msg_size mq + 4)) in *. set (d := take _ _).
    set (pool' := <[h := _]> (mq_pool mq)). set (mq1 := with_free (Some h) (with_pool pool' mq)).
    assert (h ∉ f) as Hh by (intros Hin; destruct (Hf h Hin); lia).
    assert (0 <= h /\ h + msg_size mq + 4 <= Z.of_nat (length pool)) as [Hh0 Hh1] by (unfold h; nia).
    assert (length d = Z.to_nat (msg_size mq)) as Hd.
    { unfold d. rewrite length_take, length_drop. lia. }
    destruct (IH (temp + 1) pool mq1 (h :: f)) as (f' & H1 & H2 & H3 & H4 & H5); try done.
    + lia.
    + cbn. replace (temp + 1 + Z.of_nat n) with (temp + Z.of_nat (S n)) by lia. done.
    + split; [done|]. exists (mk_msg (msg_queue_free mq) d). cbn. unfold pool'.
      rewrite lookup_insert_eq. split; [done|]. by apply chain_insert.
    + by constructor.
    + cbn. intros b [->|Hb]%elem_of_cons.
      * split; [unfold h; nia|]. unfold pool'. rewrite data_of_insert. lia.
      * destruct (Hf b Hb). split; [unfold h in *; nia|]. unfold pool'.
        by rewrite data_of_insert_ne by (by intros ->).
    + exists f'. split; [done|]. split; [done|]. split; [cbn in H3; lia|]. done.
Qed.

Lemma mq_fresh_ok pool size n flag : 0 <= size -> 0 <= n <= 65535 ->
  n * (size + 4) <= Z.of_nat (length pool) -> flag = RT_IPC_FLAG_FIFO \/ flag = RT_IPC_FLAG_PRIO ->
  let mq := mq_fresh pool size n flag in
  mq_ok mq /\ messages mq = [] /\ msg_size mq = size /\ max_msgs mq = n.
Proof.
  intros Hs Hn Hp Hf mq.
  destruct (free_blocks_spec (Z.to_nat n) 0 pool (mk_mq ∅ size n 0 None None None (u8 flag)) []) as
    (f & H1 & H2 & H3 & H4 & H5 & H6 & H7 & H8 & H9 & H10); cbn; try done.
  - rewrite Z2Nat.id by lia. done.
  - constructor.
  - by intros b ?%not_elem_of_nil.
  - assert (mq_lists mq [] f) as Hl.
    { unfold mq, mq_fresh. split; [exact H8|exact H1|exact H2|exact H9|exact H7| | | |].
      - rewrite app_nil_l, H3, H6. cbn [length max_msgs]. lia.
      - intros b Hb. rewrite H5. by apply H4.
      - rewrite H6. cbn [max_msgs]. lia.
      - rewrite H10. by destruct Hf as [-> | ->]; [left|right]. }
    split; [by exists [], f|]. split; [by rewrite (messages_eq _ _ _ Hl)|]. done.
Qed.

(** ** As a queue of messages of [n] bytes *)

Lemma message_length mq m : mq_ok mq -> m ∈ messages mq -> Z.of_nat (length m) = msg_size mq.
Proof.
  intros (q & f & Hl) Hm. rewrite (messages_eq _ _ _ Hl) in Hm.
  change (map ?f ?l) with (f <$> l) in Hm. apply list_elem_of_fmap in Hm as (b & -> & Hb).
  apply (ml_data _ _ _ Hl). apply elem_of_app. by left.
Qed.

Lemma messages_bounded mq : mq_ok mq -> (length (messages mq) <= Z.to_nat (max_msgs mq))%nat.
Proof.
  intros (q & f & Hl). rewrite (messages_eq _ _ _ Hl), length_map.
  pose proof (ml_max _ _ _ Hl) as Hm. rewrite length_app in Hm. lia.
Qed.

#[export] Instance mq_queue (o n : Z) : Queue (kernel * rt_messagequeue) (list Z) := {
  q_ok s := mq_ok s.2 /\ msg_size s.2 = n;
  q_item b := Z.of_nat (length b) = n;
  q_capacity s := Z.to_nat (max_msgs s.2);
  q_elems s := messages s.2;
  q_put b s := '(k, mq, w) ← rt_mq_send o b n s.1 s.2; Some (k, mq, returned_ok w);
  q_get s := '(k, mq, _, b) ← rt_mq_recv o n 0 s.1 s.2; Some (k, mq, b) }.

#[export] Instance mq_laws (o n : Z) : @QueueLaws (kernel * rt_messagequeue) (list Z) (mq_queue o n).
Proof.
  split; cbn [q_ok q_item q_capacity q_elems q_put q_get mq_queue]; intros [k mq]; cbn [fst snd].
  - intros b [Hok Hn] Hb Hl.
    destruct (mq_send_now o b n 0 k mq Hok ltac:(lia) ltac:(lia) ltac:(lia))
      as (mq' & m & E & Hok' & Hm & Hcar & Hsz & Hmx).
    unfold rt_mq_send. rewrite E. cbn. eexists (_, mq'). split; [done|]. cbn [snd].
    assert (Z.of_nat (length m) = msg_size mq') as Hlm.
    { apply message_length; [done|]. rewrite Hm. apply elem_of_app. right. apply list_elem_of_here. }
    assert (m = b) as ->.
    { unfold carries in Hcar. rewrite !take_ge in Hcar by lia. done. }
    rewrite Hsz, Hmx. done.
  - intros b [Hok Hn] Hb Hl. pose proof (ok_room mq Hok) as Hf. rewrite bool_decide_eq_true_2 in Hf by done.
    unfold rt_mq_send, rt_mq_send_wait. rewrite Z.gtb_ltb, (proj2 (Z.ltb_ge _ _)), Hf by lia. done.
  - intros b l [Hok Hn] Hm.
    assert (Z.of_nat (length b) = msg_size mq) as Hb
      by (apply message_length; [done|rewrite Hm; apply list_elem_of_here]).
    destruct (mq_recv_now o n 0 k mq b l Hok Hm ltac:(lia)) as (mq' & E & Hok' & Hm' & Hsz & Hmx).
    rewrite E. cbn. rewrite take_ge by lia. eexists (_, mq'). split; [done|]. cbn [snd].
    rewrite Hsz, Hmx. done.
  - intros [Hok Hn] Hm. destruct Hok as (q & f & Hl). rewrite (messages_eq _ _ _ Hl) in Hm.
    pose proof (ml_entry _ _ _ Hl) as He. destruct q; [|done]. unfold rt_mq_recv. by rewrite He.
  - intros [Hok Hn]. by apply messages_bounded.
Qed.

(** ** The promises *)

(** C19 Over any sequence of non-blocking sends and receives of messages of the
    queue's size, a message queue is a bounded first-in first-out queue: the
    messages received are those accepted, byte for byte and in order, and the
    linked blocks never leave the pool or share a block. *)
Theorem message_queue_fifo o (cs : list (@qcall (list Z))) k mq : mq_ok mq ->
  Forall (fun c => match c with Put b => Z.of_nat (length b) = msg_size mq | Get => True end) cs ->
  exists k' mq' accepted taken,
    @q_run _ _ (mq_queue o (msg_size mq)) cs (k, mq) = Some ((k', mq'), accepted, taken) /\
    mq_ok mq' /\ messages mq ++ accepted = taken ++ messages mq' /\ msg_size mq' = msg_size mq.
Proof.
  intros Hok Hcs. destruct (q_run_spec (H := mq_queue o (msg_size mq)) cs (k, mq)) as
    ([k' mq'] & acc & tk & E & [Hok' Hsz] & Hc & Hn); [done|exact Hcs|].
  exists k', mq', acc, tk. by split_and!.
Qed.

(** A send that finds no free block and a receive that finds no message fail
    at once when they may not wait, and otherwise suspend the caller, alone,
    with the queue untouched; a message larger than a block is refused
    whatever the timeout. *)
Theorem message_queue_wait o buffer size timeout k mq : running_ok k -> mq_ok mq -> 0 <= size ->
  let t := rt_current_thread k in
  (if msg_size mq <? size then
     rt_mq_send_wait o buffer size timeout k mq = Some (k, mq, Returned (- RT_ERROR))
   else length (messages mq) = Z.to_nat (max_msgs mq) ->
     if timeout =? 0
     then rt_mq_send_wait o buffer size timeout k mq = Some (k, mq, Returned (- RT_EFULL))
     else exists k' td,
       rt_mq_send_wait o buffer size timeout k mq = Some (k', mq, Waiting timeout td) /\
       kernel_ok k' /\ state_of (thr k' t) = RT_THREAD_SUSPEND /\ error (thr k' t) = RT_EOK /\
       queue k' (Senders o) = queued k t (mq_flag mq) (queue k (Senders o)) /\
       queue k' (Suspended o) = queue k (Suspended o)) /\
  (messages mq = [] ->
     if timeout =? 0
     then rt_mq_recv o size timeout k mq = Some (k, mq, Returned (- RT_ETIMEOUT), None)
     else exists k' td,
       rt_mq_recv o size timeout k mq = Some (k', mq, Waiting timeout td, None) /\
       kernel_ok k' /\ state_of (thr k' t) = RT_THREAD_SUSPEND /\ error (thr k' t) = RT_EOK /\
       queue k' (Suspended o) = queued k t (mq_flag mq) (queue k (Suspended o)) /\
       queue k' (Senders o) = queue k (Senders o)).
Proof.
  intros Hr Hok Hs. cbv zeta. split.
  - destruct (Z.ltb_spec (msg_size mq) size).
    + unfold rt_mq_send_wait. by rewrite Z.gtb_ltb, (proj2 (Z.ltb_lt _ _)) by done.
    + intros Hfull. pose proof (mq_send_blocks o buffer size timeout k mq Hr Hok Hfull ltac:(lia)) as H'.
      cbv zeta in H'. destruct (timeout =? 0); [done|].
      destruct H' as (k' & td & H'). exists k', td. tauto.
  - intros He. pose proof (mq_recv_blocks o size timeout k mq Hr Hok He) as H'.
    cbv zeta in H'. destruct (timeout =? 0); [done|].
    destruct H' as (k' & td & H'). exists k', td. tauto.
Qed.

(** [rt_mq_urgent] puts its message in front of everything queued, so that
    the next receive returns it, and everything else keeps its order. *)
Theorem message_queue_urgent o buffer k mq : mq_ok mq ->
  length (messages mq) <> Z.to_nat (max_msgs mq) -> Z.of_nat (length buffer) = msg_size mq ->
  exists mq1 mq2, let k1 := wake_one (Suspended o) k in
    rt_mq_urgent o buffer (msg_size mq) k mq = Some (k1, mq1, RT_EOK) /\
    rt_mq_recv o (msg_size mq) 0 k1 mq1 =
      Some (wake_one (Senders o) k1, mq2, Returned RT_EOK, Some buffer) /\
    mq_ok mq2 /\ messages mq2 = messages mq.
Proof.
  intros Hok Hroom Hb.
  destruct (mq_urgent_now o buffer (msg_size mq) k mq Hok Hroom) as
    (mq1 & m & E & Hok1 & Hm & Hcar & Hsz & _); [lia|lia|].
  assert (Z.of_nat (length m) = msg_size mq) as Hlm.
  { rewrite <- Hsz. apply message_length; [done|]. rewrite Hm. apply list_elem_of_here. }
  assert (m = buffer) as -> by (unfold carries in Hcar; rewrite !take_ge in Hcar by lia; done).
  destruct (mq_recv_now o (msg_size mq) 0 (wake_one (Suspended o) k) mq1 buffer (messages mq) Hok1 Hm)
    as (mq2 & E2 & Hok2 & Hm2 & _); [lia|].
  exists mq1, mq2. cbv zeta. split; [done|]. split; [|done].
  rewrite E2, Hsz, Z.min_id, take_ge by lia. done.
Qed.
