(* ===== verification/KernelCheck.v ===== *)
(** * KernelCheck: deciding the scheduler's invariant

    [kernel_ok] of a concrete kernel by computation, and small kernels on
    which the theorems about threads and IPC are applied. *)
From S2P Require Import Prelude Timer Kernel KernelInv KernelOps Ipc IpcInv MutexInv.

#[export] Instance listed_dec th h : Decision (listed th h).
Proof. destruct h; cbn; apply _. Defined.

Definition thread_checked (k : kernel) (t : Z) (th : rt_thread) : Prop :=
  t <> NOBODY /\ t <> RT_NULL /\
  0 <= current_priority th < 32 /\ 0 <= init_priority th < 32 /\
  (live (state_of th) -> number_mask th = 2 ^ current_priority th) /\
  (state_of th = RT_THREAD_READY -> t ∈ queue k (Ready (current_priority th))) /\
  (state_of th = RT_THREAD_RUNNING -> t = rt_current_thread k).

Definition queue_checked (k : kernel) (h : qname) (l : list Z) : Prop :=
  NoDup l /\ Forall (fun t => is_Some (threads k !! t) /\ listed (thr k t) h) l.

(** No thread is in two lists. *)
Definition lists_checked (k : kernel) : Prop :=
  Forall (fun q1 => Forall (fun q2 => q1.1 = q2.1 \/ Forall (fun t => t ∉ q2.2) q1.2)
    (map_to_list (queues k))) (map_to_list (queues k)).

Definition group_checked (k : kernel) : Prop :=
  Forall (fun p => Z.testbit (rt_thread_ready_priority_group k) p = true <-> queue k (Ready p) <> [])
    (seqZ 0 32) /\
  0 <= rt_thread_ready_priority_group k < 4294967296.

Definition checked (k : kernel) : Prop :=
  map_Forall (thread_checked k) (threads k) /\ map_Forall (queue_checked k) (queues k) /\
  lists_checked k /\ group_checked k /\
  state_of (thr k (rt_current_thread k)) <> RT_THREAD_READY.

#[export] Instance checked_dec k : Decision (checked k).
Proof. unfold checked, group_checked, lists_checked, thread_checked, queue_checked. apply _. Defined.

Lemma queue_lookup k h t : t ∈ queue k h -> exists l, queues k !! h = Some l /\ t ∈ l.
Proof.
  unfold queue. destruct (queues k !! h) as [l|]; cbn; [by exists l|]. by intros ?%not_elem_of_nil.
Qed.

Lemma known_thread k t : known k t -> threads k !! t = Some (thr k t).
Proof. intros [th E]. unfold thr. by rewrite lookup_total_alt, E. Qed.

Lemma checked_ok k : checked k -> kernel_ok k.
Proof.
  intros (Ht & Hq & Hl & [Hg Hgr] & Hcur).
  assert (forall t, known k t -> thread_checked k t (thr k t)) as Hth
    by (intros t Hk; apply Ht; by apply known_thread).
  assert (forall t h, t ∈ queue k h -> known k t /\ listed (thr k t) h) as Hin.
  { intros t h (l & E & Hin)%queue_lookup. destruct (Hq h l E) as [_ F].
    rewrite Forall_forall in F. by apply F. }
  assert (~ known k NOBODY) as Hnb by (intros H; by destruct (Hth _ H)).
  split; [|done]. split; [|done]. split.
  - intros t Hk _. by destruct (Hth t Hk) as (_ & _ & H1 & H2 & _).
  - intros t Hk _. by destruct (Hth t Hk) as (_ & _ & _ & _ & H & _).
  - intros t h H. destruct (Hin t h H) as [Hk Hlst]. split; [done|]. split; [|done].
    intros ->. done.
  - intros t Hk _. by destruct (Hth t Hk) as (_ & _ & _ & _ & _ & H & _).
  - intros t Hk _. by destruct (Hth t Hk) as (_ & _ & _ & _ & _ & _ & H).
  - intros h. unfold queue. destruct (queues k !! h) as [l|] eqn:E; cbn; [|constructor].
    by destruct (Hq h l E).
  - intros t h1 h2 (l1 & E1 & H1)%queue_lookup (l2 & E2 & H2)%queue_lookup.
    unfold lists_checked in Hl. rewrite Forall_forall in Hl.
    specialize (Hl (h1, l1) (proj2 (elem_of_map_to_list _ _ _) E1)). rewrite Forall_forall in Hl.
    destruct (Hl (h2, l2) (proj2 (elem_of_map_to_list _ _ _) E2)) as [|F]; [done|].
    cbn in F. rewrite Forall_forall in F. by destruct (F t H1).
  - intros p Hp. rewrite Forall_forall in Hg. apply Hg. apply elem_of_seqZ. lia.
  - done.
  - intros H. by destruct (Hth _ H) as (_ & ? & _).
Qed.

Lemma check_ok k : bool_decide (checked k) = true -> kernel_ok k.
Proof. intros H. exact (checked_ok _ (bool_decide_eq_true_1 _ H)). Qed.
Ltac kernel_check := apply check_ok; vm_compute; reflexivity.

(** ** A small system

    The idle thread (1), and threads 2, 3 and 4 at priorities 20, 10 and 10,
    all just created and started. *)
Definition kernel_off : kernel := mk_kernel ∅ ∅ 0 RT_NULL 0 0 0 no_timers.

Definition add_thread (t priority tick : Z) (k : kernel) : kernel :=
  fst (rt_thread_startup t (_rt_thread_init t true priority tick k)).

Definition boot4 : kernel :=
  add_thread 4 10 5 (add_thread 3 10 5 (add_thread 2 20 5 (add_thread 1 31 5
    (rt_system_scheduler_init kernel_off)))).

Definition kernel4 : kernel := rt_system_scheduler_start boot4.

Example kernel4_runs : rt_current_thread kernel4 = 3 /\ kernel_ok kernel4 /\
  known kernel4 3 /\ running_ok kernel4.
Proof.
  assert (kernel_ok kernel4) by kernel_check. assert (known kernel4 3) by (by vm_compute; eexists).
  split; [by vm_compute|]. split; [done|]. split; [done|]. by split.
Qed.
