(* ===== verification/KernelSystem.v ===== *)
(** * KernelSystem: the kernel calls together

    The calls threads and interrupts make into the scheduler, the thread
    functions and the IPC objects, the tick, and the boot; each keeps the
    invariant of the scheduler and of the timer list.  The timers are those
    of the threads: a timer of a client's own is not modelled. *)
From S2P Require Import Prelude Timer Kernel KernelInv KernelOps Ipc IpcInv MutexInv EventInv.
From S2P Require Import Queue Mailbox MessageQueue KernelCheck.
From Stdlib Require Import Sorted.

(** ** The invariant *)

(** Timers are sorted and none overdue, each belongs to a sleeping thread and
    fires once, and no timeout function is running. *)
Record timers_inv (k : kernel) : Prop := {
  ti_ok : timers_ok (rt_tick k) (k_timers k);
  ti_sleeping : forall t, t ∈ rt_timer_list (k_timers k) -> state_of (thr k t) = RT_THREAD_SUSPEND;
  ti_once : forall t, periodic (tmr (k_timers k) t) = false;
  ti_firing : firing (k_timers k) = [] }.

Record kernel_inv (k : kernel) : Prop := {
  ki_ok : kernel_ok k;
  ki_current : known k (rt_current_thread k);
  ki_timers : timers_inv k }.

Lemma inv_running k : kernel_inv k -> state_of (thr k (rt_current_thread k)) = RT_THREAD_RUNNING ->
  running_ok k.
Proof. intros [H1 H2 _] H3. by split. Qed.

Lemma suspended_known k t : state_of (thr k t) = RT_THREAD_SUSPEND -> known k t.
Proof. intros H. apply known_of_state. by rewrite H. Qed.

Lemma timers_linked_inv k : timers_inv k ->
  timers_linked k /\ forall t, t ∈ rt_timer_list (k_timers k) -> 0 <= due (rt_tick k) (tmr (k_timers k) t).
Proof.
  intros [Hok Hs Ho Hf]. split.
  - split; [|intros t Ht; by split; [apply suspended_known, Hs|split; [apply Hs|]]|done].
    destruct Hok as [H1 H2 H3 H4 H5]. split; try done. intros t Ht. destruct (H3 t Ht). lia.
  - intros t Ht. apply (to_due _ _ _ Hok t Ht).
Qed.

(** ** The timer list under the operations *)

(** The timers are not touched and whoever slept still does. *)
Lemma timers_frame k k' : timers_inv k -> k_timers k' = k_timers k -> rt_tick k' = rt_tick k ->
  (forall t, t ∈ rt_timer_list (k_timers k) -> state_of (thr k' t) = RT_THREAD_SUSPEND) ->
  timers_inv k'.
Proof. intros [H1 H2 H3 H4] E1 E2 Hs. split; rewrite ?E1, ?E2; done. Qed.

(** The timer of one thread has been stopped or detached. *)
Definition timer_gone (t : Z) (ts ts' : timers) : Prop :=
  ts' = set_activated false t (_rt_timer_remove t ts) \/ (activated (tmr ts t) = false /\ ts' = ts).

Lemma timer_stop_gone t ts : timer_gone t ts (fst (rt_timer_stop t ts)).
Proof. unfold timer_gone, rt_timer_stop. destruct (activated (tmr ts t)) eqn:E; [by left|by right]. Qed.

Lemma timers_gone k k' t : timers_inv k -> timer_gone t (k_timers k) (k_timers k') ->
  rt_tick k' = rt_tick k ->
  (forall x, x ∈ rt_timer_list (k_timers k) -> x <> t -> state_of (thr k' x) = RT_THREAD_SUSPEND) ->
  timers_inv k'.
Proof.
  intros [H1 H2 H3 H4] [E1|[Ea E1]] E2 Hs.
  - split; rewrite ?E1, ?E2.
    + by apply timers_remove_ok.
    + intros x Hx. cbn in Hx. apply list_elem_of_filter in Hx as [Hne Hx]. by apply Hs.
    + intros x. destruct (tmr_set_activated false t (_rt_timer_remove t (k_timers k)) x) as (_ & _ & -> & _).
      rewrite tmr_remove. apply H3.
    + cbn. by rewrite H4.
  - eapply timers_frame; [by split|done|done|]. intros x Hx. apply Hs; [done|].
    intros ->. rewrite (to_active _ _ _ H1 t Hx) in Ea. done.
Qed.

(** A sleeping thread's timer has been set and started. *)
Lemma set_time_ok lo now t time ts : timers_at lo now ts ->
  timers_at lo now (rt_timer_control t (RT_TIMER_CTRL_SET_TIME time) ts).1.1.
Proof.
  intros [H1 H2 H3 H4 H5]. cbn. set (ts' := set_timer _ _ ts).
  assert (forall x, timeout_tick (tmr ts' x) = timeout_tick (tmr ts x) /\
    activated (tmr ts' x) = activated (tmr ts x)) as E.
  { intros x. unfold ts'. rewrite tmr_set_timer. by destruct (decide (t = x)) as [->|]. }
  assert (forall x, due now (tmr ts' x) = due now (tmr ts x)) as Ed
    by (intros x; apply due_timeout, E).
  split; try done.
  - eapply sorted_ext; [|exact H2]. intros a b _ _. cbn. by rewrite !Ed.
  - intros x Hx. rewrite Ed. destruct (E x) as [-> _]. by apply H3.
  - intros x Hx. destruct (E x) as [_ ->]. by apply H4.
Qed.

Lemma start_periodic now t ts x :
  periodic (tmr (fst (rt_timer_start now t ts)) x) = periodic (tmr ts x).
Proof.
  unfold rt_timer_start. cbv zeta. cbn [fst].
  match goal with |- context [set_activated true t ?T] =>
    destruct (tmr_set_activated true t T x) as (_ & _ & -> & _) end.
  change (tmr (mk_timers (tab ?a) ?b ?c)) with (tmr a). rewrite tmr_set_timer.
  destruct (tmr_set_activated false t (_rt_timer_remove t ts) x) as (_ & _ & E & _).
  rewrite tmr_remove in E. destruct (decide (t = x)) as [->|]; [cbn|]; by rewrite E.
Qed.

Lemma timers_started k t time : timers_inv k -> state_of (thr k t) = RT_THREAD_SUSPEND ->
  0 <= time < RT_TICK_MAX / 2 -> timers_inv (start_thread_timer t time k).
Proof.
  intros [H1 H2 H3 H4] Hs Ht. unfold start_thread_timer.
  set (ts := (rt_timer_control t (RT_TIMER_CTRL_SET_TIME time) (k_timers k)).1.1).
  pose proof (set_time_ok 0 (rt_tick k) t time (k_timers k) H1) as Hok. fold ts in Hok.
  assert (forall x, periodic (tmr ts x) = false /\ (x = t -> init_tick (tmr ts x) = time)) as E.
  { intros x. unfold ts. cbn. rewrite tmr_set_timer. destruct (decide (t = x)) as [->|]; cbn.
    - split; [apply H3|]. intros _. apply u32_small. change (RT_TICK_MAX / 2) with 2147483647 in Ht. lia.
    - split; [apply H3|]. by intros ->. }
  destruct (E t) as [_ Ei]. specialize (Ei eq_refl).
  assert (0 <= init_tick (tmr ts t) < RT_TICK_MAX / 2) as Hi by (by rewrite Ei).
  change (timers_inv (set_timers (fst (rt_timer_start (rt_tick k) t ts)) k)).
  split; cbn [k_timers set_timers rt_tick].
  - by apply rt_timer_start_ok.
  - intros x Hx. change (state_of (thr k x) = RT_THREAD_SUSPEND).
    destruct (rt_timer_start_split (rt_tick k) t ts Hok Hi) as (l1 & l2 & El & Ef & _).
    rewrite El, elem_of_app, elem_of_cons in Hx. destruct (decide (x = t)) as [->|Hne]; [done|].
    apply H2. assert (x ∈ l1 ++ l2) as Hx' by (rewrite elem_of_app; tauto).
    rewrite <- Ef in Hx'. by apply list_elem_of_filter in Hx' as [_ ?].
  - intros x. rewrite start_periodic. apply E.
  - unfold rt_timer_start. cbn. by rewrite H4.
Qed.

Lemma started_due k t time : timers_inv k -> 0 <= time < RT_TICK_MAX / 2 ->
  let k' := start_thread_timer t time k in
  t ∈ rt_timer_list (k_timers k') /\ due (rt_tick k') (tmr (k_timers k') t) = time.
Proof.
  intros [H1 _ _ _] Ht. cbv zeta. unfold start_thread_timer.
  set (ts := (rt_timer_control t (RT_TIMER_CTRL_SET_TIME time) (k_timers k)).1.1).
  pose proof (set_time_ok 0 (rt_tick k) t time (k_timers k) H1) as Hok. fold ts in Hok.
  assert (init_tick (tmr ts t) = time) as Ei.
  { unfold ts. cbn. rewrite tmr_set_timer, decide_True by done. cbn. apply u32_small.
    change (RT_TICK_MAX / 2) with 2147483647 in Ht. lia. }
  assert (0 <= init_tick (tmr ts t) < RT_TICK_MAX / 2) as Hi by (by rewrite Ei).
  cbn [timer_op set_timers k_timers rt_tick]. split.
  - destruct (rt_timer_start_split (rt_tick k) t ts Hok Hi) as (l1 & l2 & El & _).
    unfold ts in El. cbn in El |- *. rewrite El. rewrite elem_of_app, elem_of_cons. tauto.
  - destruct (rt_timer_start_tmr (rt_tick k) t ts t) as (E & _ & _). cbv zeta in E.
    rewrite decide_True in E by done. unfold due. fold ts. rewrite E, Ei.
    apply (due_started (rt_tick k) time); [apply (to_now _ _ _ H1)|done].
Qed.

Lemma timers_wait k t time : timers_inv k -> state_of (thr k t) = RT_THREAD_SUSPEND ->
  time < RT_TICK_MAX / 2 -> timers_inv (wait_timer t time k).
Proof.
  intros H1 H2 H3. unfold wait_timer. destruct (Z.gtb_spec time 0); [|done].
  apply timers_started; [done|done|lia].
Qed.

(** ** The invariant under the operations *)

Lemma inv_schedule k : kernel_inv k -> kernel_inv (rt_schedule k).
Proof.
  intros [Hok Hc Ht]. destruct (schedule_keeps k Hok Hc) as (Hc' & E1 & E2 & _ & Hs & _). cbv zeta in *.
  split; [by apply schedule_ok|done|]. eapply timers_frame; [done..|]. intros t Hin. by apply Hs, Ht.
Qed.

(** Writing fields of a known thread that leave state and priority alone. *)
Lemma inv_upd_same k t f : kernel_inv k -> known k t ->
  (forall th, state_of (f th) = state_of th) ->
  (forall th, current_priority (f th) = current_priority th) ->
  (forall th, init_priority (f th) = init_priority th) ->
  (forall th, number_mask (f th) = number_mask th) -> kernel_inv (upd_thread t f k).
Proof.
  intros [Hok Hc Ht] Hk F1 F2 F3 F4. split.
  - by apply kernel_ok_upd_same.
  - apply known_upd. by right.
  - eapply timers_frame; [done..|]. intros x Hx. rewrite thr_upd.
    destruct (decide (t = x)) as [->|]; [rewrite F1|]; by apply Ht.
Qed.

Lemma inv_set_error k t e : kernel_inv k -> known k t -> kernel_inv (set_error t e k).
Proof. intros H Hk. by apply inv_upd_same. Qed.

Lemma inv_yield k : kernel_inv k -> kernel_inv (fst (rt_thread_yield k)).
Proof.
  intros H. unfold rt_thread_yield. cbn [fst]. apply inv_schedule.
  apply inv_upd_same; try done; [|apply known_upd; by left|intros; apply state_of_yield_on].
  apply inv_upd_same; try done. apply H.
Qed.

Lemma inv_list_suspend k h flag : kernel_inv k ->
  state_of (thr k (rt_current_thread k)) = RT_THREAD_RUNNING ->
  (exists o, h = Suspended o \/ h = Senders o) ->
  flag = RT_IPC_FLAG_FIFO \/ flag = RT_IPC_FLAG_PRIO ->
  kernel_inv (rt_ipc_list_suspend h (rt_current_thread k) flag k) /\
  state_of (thr (rt_ipc_list_suspend h (rt_current_thread k) flag k) (rt_current_thread k)) = RT_THREAD_SUSPEND.
Proof.
  intros [Hok Hc Ht] Hr Hh Hf.
  destruct (list_suspend_spec k h flag Hok Hc Hr Hh Hf)
    as (Hok1 & Ec1 & Hk1 & Et1 & El1 & Hs1 & Hsame1 & Hoth1 & Hq1 & Hqo1 & Etm). cbv zeta in *.
  split; [|done]. split; [done|by rewrite Ec1|].
  apply (timers_gone k _ (rt_current_thread k)); [done|rewrite Etm; apply timer_stop_gone|done|].
  intros x Hx Hne. rewrite Hoth1 by done. by apply Ht.
Qed.

Lemma inv_block k h flag time : kernel_inv k ->
  state_of (thr k (rt_current_thread k)) = RT_THREAD_RUNNING ->
  (exists o, h = Suspended o \/ h = Senders o) ->
  flag = RT_IPC_FLAG_FIFO \/ flag = RT_IPC_FLAG_PRIO -> time < RT_TICK_MAX / 2 ->
  kernel_inv (block h (rt_current_thread k) flag time k).
Proof.
  intros H Hr Hh Hf Htime. destruct (inv_list_suspend k h flag H Hr Hh Hf) as [[Hok1 Hc1 Ht1] Hs].
  unfold block. set (k1 := rt_ipc_list_suspend _ _ _ _) in *. apply inv_schedule.
  pose proof (wait_timer_fields (rt_current_thread k) time k1) as (F1 & F2 & F3 & _). cbv zeta in *.
  split; [by apply wait_timer_ok| |by apply timers_wait]. rewrite F3. by apply (threads_known k1).
Qed.

Lemma inv_slept k n : kernel_inv k -> state_of (thr k (rt_current_thread k)) = RT_THREAD_RUNNING ->
  0 <= n < RT_TICK_MAX / 2 ->
  let t := rt_current_thread k in
  let k1 := start_thread_timer t n (fst (rt_thread_suspend t k)) in
  kernel_inv k1 /\ t ∈ rt_timer_list (k_timers k1) /\ due (rt_tick k1) (tmr (k_timers k1) t) = n.
Proof.
  intros [Hok Hc Ht] Hr Hn. cbv zeta.
  pose proof (suspend_current k Hok Hc Hr) as Hok1.
  destruct (suspend_spec k (rt_current_thread k) Hok Hc (or_intror Hr)) as
    (k1 & E & _ & _ & Hk1 & _ & Et & Hoth & Hkn & Ecur & Etick & Elock & Etm & Hq).
  rewrite E in *. cbn [fst] in *.
  assert (state_of (thr k1 (rt_current_thread k)) = RT_THREAD_SUSPEND) as Hs
    by (rewrite Et; by apply state_of_to_state).
  assert (timers_inv k1) as Ht1.
  { apply (timers_gone k _ (rt_current_thread k)); [done|rewrite Etm; apply timer_stop_gone|done|].
    intros x Hx Hne. rewrite Hoth by done. by apply Ht. }
  destruct (start_thread_timer_fields (rt_current_thread k) n k1) as (F1 & F2 & F3 & F4 & _).
  split; [|by apply started_due].
  split; [by apply kernel_ok_timers, kernel_ok_timers| |by apply timers_started].
  rewrite F4, Ecur. by apply (threads_known k1).
Qed.

Lemma inv_sleep k n : kernel_inv k -> state_of (thr k (rt_current_thread k)) = RT_THREAD_RUNNING ->
  0 <= n < RT_TICK_MAX / 2 ->
  kernel_inv (rt_schedule (start_thread_timer (rt_current_thread k) n
                             (fst (rt_thread_suspend (rt_current_thread k) k)))).
Proof. intros H Hr Hn. by apply inv_schedule, inv_slept. Qed.

Lemma inv_suspend k t : kernel_inv k -> kernel_inv (fst (rt_thread_suspend t k)).
Proof.
  intros H. pose proof H as [Hok Hc Ht]. destruct (decide (awake (thr k t))) as [Ha|Ha].
  - assert (known k t) as Hk by (apply known_of_state; by destruct Ha as [-> | ->]).
    destruct (suspend_spec k t Hok Hk Ha) as
      (k1 & E & Hb & Hno & Hk1 & Hth & Et & Hoth & Hkn & Ecur & Etick & Elock & Etm & Hq).
    assert (state_of (thr k1 t) = RT_THREAD_SUSPEND) as Es by (rewrite Et; by apply state_of_to_state).
    rewrite E. cbn [fst]. split; [split| |].
    + apply (but_rest k1 t); try done; by rewrite Es.
    + rewrite Ecur. destruct (decide (rt_current_thread k = t)) as [->|Hn]; [by rewrite Es|].
      rewrite Hoth by done. apply Hok.
    + rewrite Ecur. by apply Hkn.
    + apply (timers_gone k _ t); [done|rewrite Etm; apply timer_stop_gone|done|].
      intros x Hx Hne. rewrite Hoth by done. by apply Ht.
  - unfold rt_thread_suspend, awake in *.
    by rewrite (proj2 (Z.eqb_neq _ RT_THREAD_READY)), (proj2 (Z.eqb_neq _ RT_THREAD_RUNNING)) by tauto.
Qed.

Lemma resume_timers k t : state_of (thr k t) = RT_THREAD_SUSPEND ->
  k_timers (fst (rt_thread_resume t k)) = fst (rt_timer_stop t (k_timers k)).
Proof.
  intros Hs. unfold rt_thread_resume. rewrite Hs. cbn [Z.eqb Pos.eqb negb fst RT_THREAD_SUSPEND].
  by destruct (insert_fields (timer_op (fun ts => fst (rt_timer_stop t ts)) (rt_list_remove t k)) t)
    as (_ & -> & _).
Qed.

Lemma timers_resume k t : kernel_ok k -> timers_inv k -> timers_inv (fst (rt_thread_resume t k)).
Proof.
  intros Hok Ht. destruct (decide (state_of (thr k t) = RT_THREAD_SUSPEND)) as [Hs|Hs].
  - destruct (resume_fields k t Hs) as (_ & Et & _ & _ & Hoth & _). cbv zeta in *.
    apply (timers_gone k _ t); [done|rewrite resume_timers by done; apply timer_stop_gone|done|].
    intros x Hx Hne. rewrite Hoth by done. by apply Ht.
  - unfold rt_thread_resume. by rewrite (proj2 (Z.eqb_neq _ _)) by done.
Qed.

Lemma inv_resume k t : kernel_inv k -> known k t -> kernel_inv (fst (rt_thread_resume t k)).
Proof.
  intros [Hok Hc Ht] Hk. split; [by apply resume_ok| |by apply timers_resume].
  destruct (decide (state_of (thr k t) = RT_THREAD_SUSPEND)) as [Hs|Hs].
  - destruct (resume_fields k t Hs) as (Ec & _ & _ & _ & _ & _ & _ & _ & _ & Hkn). cbv zeta in *.
    rewrite Ec. apply Hkn. by right.
  - unfold rt_thread_resume. by rewrite (proj2 (Z.eqb_neq _ _)) by done.
Qed.

Lemma inv_list_resume k h : kernel_inv k -> waiting_list h -> h <> Defunct -> queue k h <> [] ->
  kernel_inv (rt_ipc_list_resume h k).
Proof.
  intros H Hwl Hd Hq. unfold rt_ipc_list_resume. destruct (queue k h) as [|w ws] eqn:E; [done|].
  apply inv_resume; [done|]. eapply (bt_in _ _ (proj1 (proj1 (ki_ok _ H))) w h).
  rewrite E. apply list_elem_of_here.
Qed.

Lemma inv_wake_one k h : kernel_inv k -> waiting_list h -> h <> Defunct -> kernel_inv (wake_one h k).
Proof.
  intros H Hwl Hd. unfold wake_one. destruct (queue k h) eqn:E; [done|].
  apply inv_schedule, inv_list_resume; [done|done|done|by rewrite E].
Qed.

Lemma inv_resume_all h : waiting_list h -> h <> Defunct -> forall fuel k k', kernel_inv k ->
  resume_all_loop fuel h k = Some k' -> kernel_inv k'.
Proof.
  intros Hwl Hd. induction fuel as [|fuel IH]; intros k k' H; cbn [resume_all_loop];
    destruct (queue k h) as [|t l] eqn:E; try done; try by intros [= <-].
  apply IH.
  assert (known k t) as Hk.
  { eapply (bt_in _ _ (proj1 (proj1 (ki_ok _ H))) t h). rewrite E. apply list_elem_of_here. }
  apply inv_resume; [by apply inv_set_error|]. apply known_upd. by left.
Qed.

Lemma inv_resume_both k k' o : kernel_inv k -> resume_both o k = Some k' -> kernel_inv k'.
Proof.
  intros H. unfold resume_both, rt_ipc_list_resume_all.
  destruct (resume_all_loop _ (Suspended o) k) as [k1|] eqn:E; [|done]. cbn [mbind option_bind].
  apply inv_resume_all; [done|done|]. by eapply inv_resume_all; [| |exact H|exact E].
Qed.

Lemma timers_prepared k t : timers_inv k -> state_of (thr k t) = RT_THREAD_INIT ->
  timers_inv (upd_thread t (with_stat RT_THREAD_SUSPEND)
               (upd_thread t (fun th => with_priority (init_priority th) th) k)).
Proof.
  intros Ht Hs. eapply timers_frame; [done..|]. intros x Hx. pose proof (ti_sleeping _ Ht x Hx) as Hsx.
  rewrite !thr_upd_other; [done| |]; intros ->; by rewrite Hs in Hsx.
Qed.

Lemma inv_startup k t : kernel_inv k -> known k t -> state_of (thr k t) = RT_THREAD_INIT ->
  kernel_inv (fst (rt_thread_startup t k)).
Proof.
  intros [Hok Hc Ht] Hk Hs. unfold rt_thread_startup.
  destruct (startup_prepared k t Hok Hk Hs) as (Hok2 & Hk2 & Hs2). cbv zeta in *.
  pose proof (timers_prepared k t Ht Hs) as Ht2.
  set (k2 := upd_thread t (with_stat RT_THREAD_SUSPEND) _) in *.
  assert (kernel_inv k2) as H2
    by (split; [done|apply known_upd; right; apply known_upd; by right|done]).
  pose proof (inv_resume k2 t H2 Hk2) as H3.
  destruct (negb _); cbn [fst]; [by apply inv_schedule|done].
Qed.

(** Detaching and deleting close a thread whose timer has been detached. *)
Lemma inv_closed k k' t : kernel_inv k -> kernel_ok k' -> rt_current_thread k' = rt_current_thread k ->
  (forall x, known k x -> known k' x) -> rt_tick k' = rt_tick k ->
  k_timers k' = fst (rt_timer_detach t (k_timers k)) -> (forall x, x <> t -> thr k' x = thr k x) ->
  kernel_inv k'.
Proof.
  intros [Hok Hc Ht] Hok' Ec Hkn Et Etm Hoth. split; [done|rewrite Ec; by apply Hkn|].
  apply (timers_gone k _ t); [done|by left|done|]. intros x Hx Hne. rewrite Hoth by done. by apply Ht.
Qed.

Lemma removed_fields k t : let k1 := if negb (state_of (thr k t) =? RT_THREAD_INIT)
    then rt_schedule_remove_thread t k else k in
  threads k1 = threads k /\ rt_current_thread k1 = rt_current_thread k /\
  k_timers k1 = k_timers k /\ rt_tick k1 = rt_tick k.
Proof.
  cbv zeta. destruct (negb _); [|done]. by pose proof (remove_fields k t) as (E1 & E2 & E3 & E4 & _).
Qed.

Lemma inv_detach k t : kernel_inv k -> known k t -> kernel_inv (fst (rt_thread_detach t k)).
Proof.
  intros H Hk. pose proof (detach_ok k t (ki_ok _ H) Hk) as Hok.
  unfold rt_thread_detach in *. destruct (state_of (thr k t) =? RT_THREAD_CLOSE); [done|].
  pose proof (removed_fields k t) as (E1 & E2 & E3 & E4). cbv zeta in *. cbn [fst] in *.
  set (k1 := if negb _ then _ else k) in *.
  assert (forall x, x <> t -> thr (upd_thread t (with_stat RT_THREAD_CLOSE)
    (timer_op (fun ts => fst (rt_timer_detach t ts)) k1)) x = thr k x) as Hoth.
  { intros x Hx. rewrite thr_upd_other by done. change (thr (timer_op _ k1) x) with (thr k1 x).
    by rewrite (threads_thr k k1). }
  assert (forall x, known k x -> known (upd_thread t (with_stat RT_THREAD_CLOSE)
    (timer_op (fun ts => fst (rt_timer_detach t ts)) k1)) x) as Hkn.
  { intros x Hx. apply known_upd. right. by apply (threads_known k k1). }
  apply (inv_closed k _ t H Hok); unfold thread_retire; destruct (systemobject _); try done;
    cbn [k_timers timer_op set_timers upd_thread set_threads rt_list_insert_after set_queues]; by rewrite E3.
Qed.

Lemma inv_delete k t : kernel_inv k -> known k t -> kernel_inv (fst (rt_thread_delete t k)).
Proof.
  intros H Hk. pose proof (delete_ok k t (ki_ok _ H) Hk) as Hok.
  unfold rt_thread_delete in *. destruct (state_of (thr k t) =? RT_THREAD_CLOSE); [done|].
  pose proof (removed_fields k t) as (E1 & E2 & E3 & E4). cbv zeta in *. cbn [fst] in *.
  set (k1 := if negb _ then _ else k) in *.
  apply (inv_closed k _ t H Hok); try done.
  - intros x Hx. apply known_upd. right. by apply (threads_known k k1).
  - cbn [k_timers timer_op set_timers upd_thread set_threads rt_list_insert_after set_queues]. by rewrite E3.
  - intros x Hx. change (thr (upd_thread t (with_stat RT_THREAD_CLOSE) k1) x = thr k x).
    rewrite thr_upd_other by done. by rewrite (threads_thr k k1).
Qed.

Lemma inv_exit k : kernel_inv k -> state_of (thr k (rt_current_thread k)) = RT_THREAD_RUNNING ->
  kernel_inv (_rt_thread_exit k).
Proof.
  intros H Hs. pose proof (exit_closed_ok k (ki_ok _ H) (ki_current _ H) ltac:(by rewrite Hs)) as Hx.
  cbv zeta in Hx. set (k' := thread_retire _ _) in Hx. destruct Hx as (Hok & E & Hk & Et & Etm & Hoth).
  apply (inv_schedule k').
  split; [done|by rewrite E|]. apply (timers_gone k _ (rt_current_thread k)); [apply H|by left|done|].
  intros x Hx Hne. rewrite Hoth by done. by apply H.
Qed.

Lemma inv_change_priority k t p : kernel_inv k -> known k t -> 0 <= p < 32 ->
  live (state_of (thr k t)) -> kernel_inv (change_priority t p k).
Proof.
  intros [Hok Hc Ht] Hk Hp Hl.
  destruct (change_priority_spec k t p Hok Hk Hl) as (_ & Hst & _ & Hoth & Ec & Hkn & _). cbv zeta in *.
  split; [by apply change_priority_ok|rewrite Ec; by apply Hkn|].
  assert (k_timers (change_priority t p k) = k_timers k /\ rt_tick (change_priority t p k) = rt_tick k) as [E1 E2].
  { unfold change_priority. destruct (_ =? _); [|done].
    pose proof (remove_fields k t) as (_ & _ & R3 & R4 & _).
    match goal with |- k_timers (rt_schedule_insert_thread t ?K) = _ /\ _ =>
      pose proof (insert_fields K t) as (_ & I2 & I3 & _) end.
    cbv zeta in *. by rewrite I2, I3. }
  eapply timers_frame; [done..|]. intros x Hx. pose proof (ti_sleeping _ Ht x Hx) as Hs.
  destruct (decide (x = t)) as [->|]; [by rewrite Hst|by rewrite Hoth].
Qed.

(** A tick runs every timeout that is due. *)
Lemma inv_tick fuel k k' : kernel_inv k -> (length (rt_timer_list (k_timers k)) <= fuel)%nat ->
  rt_tick_increase fuel k = Some k' -> kernel_inv k'.
Proof.
  intros [Hok Hc Ht] Hf E. destruct (timers_linked_inv k Ht) as [Htl Hpos].
  destruct (tick_spec k fuel Hok Hc Htl Hpos Hf) as (k2 & E2 & Hok2 & Htl2 & Hc2 & _ & _ & Hd2 & Hp2).
  rewrite E in E2. injection E2 as <-. split; [done|done|].
  split; [|intros t Hin; by apply (tl_thread _ Htl2)|intros t; rewrite Hp2; apply Ht|apply Htl2].
  destruct (tl_ok _ Htl2) as [H1 H2 H3 H4 H5]. split; try done.
  intros t Hin. destruct (H3 t Hin). pose proof (Hd2 t Hin). by split; [lia|].
Qed.

Lemma tick_total fuel k : kernel_inv k -> (length (rt_timer_list (k_timers k)) <= fuel)%nat ->
  is_Some (rt_tick_increase fuel k).
Proof.
  intros [Hok Hc Ht] Hf. destruct (timers_linked_inv k Ht) as [Htl Hpos].
  destruct (tick_spec k fuel Hok Hc Htl Hpos Hf) as (k2 & E2 & _). by exists k2.
Qed.

(** ** New threads *)

Lemma thread_init_fields k t static p n : (forall h, t ∉ queue k h) ->
  let k' := _rt_thread_init t static p n k in
  rt_current_thread k' = rt_current_thread k /\
  thr k' t = mk_thread RT_EOK RT_THREAD_INIT p p 0 0 0 n n static /\
  (forall x, x <> t -> thr k' x = thr k x) /\ (forall h, queue k' h = queue k h).
Proof.
  intros Hq. cbv zeta. unfold _rt_thread_init. split_and!; [done| | |].
  - unfold thr. cbn. by rewrite lookup_total_insert_eq.
  - intros x Hx. unfold thr. cbn. by rewrite lookup_total_insert_ne.
  - intros h. change (queue (timer_op ?f ?x) h) with (queue x h). rewrite queue_remove. by apply filter_absent.
Qed.

Lemma thread_init_inv k t static p n : kernel_ok k -> timers_inv k -> ~ known k t ->
  t <> rt_current_thread k -> t <> RT_NULL -> t <> NOBODY -> 0 <= p < 32 ->
  let k' := _rt_thread_init t static p n k in
  kernel_ok k' /\ timers_inv k' /\ (forall x, known k' x <-> x = t \/ known k x).
Proof.
  intros Hok Ht Hnew Hcur Hnull Hnb Hp. cbv zeta. unfold _rt_thread_init.
  set (th := mk_thread _ _ _ _ _ _ _ _ _ _). set (k1 := set_threads (<[t := th]> (threads k)) k).
  assert (forall x, x <> t -> thr k1 x = thr k x) as Hoth
    by (intros x Hx; unfold thr; cbn; by rewrite lookup_total_insert_ne).
  assert (thr k1 t = th) as Et by (unfold thr; cbn; by rewrite lookup_total_insert_eq).
  assert (forall x, known k1 x <-> x = t \/ known k x) as Hkn.
  { intros x. unfold known. cbn. destruct (decide (t = x)) as [->|Hne].
    - rewrite lookup_insert_eq. split; [by left|by eexists].
    - rewrite lookup_insert_ne by done. split; [by right|]. intros [->|]; done. }
  assert (forall x h, x ∈ queue k h -> x <> t) as Hq.
  { intros x h Hin ->. by apply Hnew, (bt_in _ _ (proj1 (proj1 Hok)) t h). }
  assert (forall h, queue (rt_list_remove t k1) h = queue k h) as Eq.
  { intros h. rewrite queue_remove. apply filter_absent. intros Hin. by apply (Hq t h). }
  split; [|split; [|exact Hkn]].
  - apply (kernel_ok_timers (rt_list_remove t k1)). split; [split|].
    + destruct (proj1 (proj1 Hok)) as [B1 B2 B3 B4 B5 B6 B7 B8 B9 B10].
      assert (forall x, thr (rt_list_remove t k1) x = thr k1 x) as Eth by done.
      split; try done.
      * intros x Hx Hne. rewrite Eth. destruct (decide (x = t)) as [->|]; [by rewrite Et|].
        rewrite Hoth by done. apply B1; [|done]. by destruct (proj1 (Hkn x) Hx).
      * intros x Hx Hne. rewrite Eth. destruct (decide (x = t)) as [->|]; [rewrite Et; by intros [? _]|].
        rewrite Hoth by done. apply B2; [|done]. by destruct (proj1 (Hkn x) Hx).
      * intros x h. rewrite Eq. intros Hin. destruct (B3 x h Hin) as (H1 & H2 & H3).
        split; [apply Hkn; by right|]. split; [done|]. rewrite Eth, Hoth by (by apply (Hq x h)). done.
      * intros x Hx Hne. rewrite Eth, Eq. destruct (decide (x = t)) as [->|]; [by rewrite Et|].
        rewrite Hoth by done. apply B4; [|done]. by destruct (proj1 (Hkn x) Hx).
      * intros x Hx Hne. rewrite Eth. destruct (decide (x = t)) as [->|]; [by rewrite Et|].
        rewrite Hoth by done. apply B5; [|done]. by destruct (proj1 (Hkn x) Hx).
      * intros h. rewrite Eq. apply B6.
      * intros x h1 h2. rewrite !Eq. apply B7.
      * intros q Hq'. rewrite Eq. by apply B8.
      * intros [H|H]%Hkn; [congruence|done].
    + intros [H|H]%Hkn; [congruence|]. by apply (proj1 Hok).
    + change (state_of (thr k1 (rt_current_thread k)) <> RT_THREAD_READY).
      rewrite Hoth by done. apply Hok.
  - destruct Ht as [H1 H2 H3 H4].
    assert (t ∉ rt_timer_list (k_timers k)) as Hnt
      by (intros Hin; by apply Hnew, suspended_known, H2).
    assert (forall x, x ∈ rt_timer_list (k_timers k) -> x <> t) as Hne by (intros x Hx ->; done).
    set (ts := set_timer t (mk_timer false false 0 0) (k_timers k)).
    change (timers_inv (set_timers ts (rt_list_remove t k1))).
    assert (forall x, x <> t -> tmr ts x = tmr (k_timers k) x)
      as E by (intros x Hx; unfold ts; rewrite tmr_set_timer; by rewrite decide_False).
    split; cbn [k_timers set_timers rt_tick]; [| | |done].
    + destruct H1 as [T1 T2 T3 T4 T5]. split; try done.
      * eapply sorted_ext; [|exact T2]. intros a b Ha Hb. cbv beta.
        rewrite (E a), (E b) by (by apply Hne). done.
      * intros x Hx. rewrite E by (by apply Hne). by apply T3.
      * intros x Hx. rewrite E by (by apply Hne). by apply T4.
    + intros x Hx. change (state_of (thr k1 x) = RT_THREAD_SUSPEND). rewrite Hoth by (by apply Hne). by apply H2.
    + intros x. unfold ts. rewrite tmr_set_timer. by destruct (decide (t = x)) as [->|].
Qed.

Lemma inv_thread_init k t static p n : kernel_inv k -> ~ known k t -> t <> RT_NULL -> t <> NOBODY ->
  0 <= p < 32 -> kernel_inv (_rt_thread_init t static p n k).
Proof.
  intros [Hok Hc Ht] Hnew Hnull Hnb Hp. assert (t <> rt_current_thread k) by (intros ->; done).
  destruct (thread_init_inv k t static p n Hok Ht) as (H1 & H2 & H3); try done.
  split; [done|apply H3; by right|done].
Qed.

(** ** The IPC calls *)

Section calls.
Context (k : kernel) (H : kernel_inv k).
Context (Hrun : state_of (thr k (rt_current_thread k)) = RT_THREAD_RUNNING).

Lemma inv_blocked h flag time e : (exists o, h = Suspended o \/ h = Senders o) ->
  flag = RT_IPC_FLAG_FIFO \/ flag = RT_IPC_FLAG_PRIO -> time < RT_TICK_MAX / 2 ->
  kernel_inv (block h (rt_current_thread k) flag time (set_error (rt_current_thread k) e k)).
Proof.
  intros Hh Hf Ht. pose proof (inv_set_error k _ e H (ki_current _ H)) as H1.
  apply (inv_block (set_error (rt_current_thread k) e k)); try done.
  change (rt_current_thread (set_error _ e k)) with (rt_current_thread k).
  by rewrite set_error_state.
Qed.

Lemma inv_sem_take o time s : sem_flag s = RT_IPC_FLAG_FIFO \/ sem_flag s = RT_IPC_FLAG_PRIO ->
  time < RT_TICK_MAX / 2 -> kernel_inv (rt_sem_take o time k s).1.1.
Proof.
  intros Hf Ht. unfold rt_sem_take. destruct (_ >? 0); [done|]. destruct (time =? 0); [done|].
  apply (inv_blocked (Suspended o)); [by exists o; left|done|done].
Qed.

Lemma inv_event_recv o set opt time e : e_flag e = RT_IPC_FLAG_FIFO \/ e_flag e = RT_IPC_FLAG_PRIO ->
  time < RT_TICK_MAX / 2 -> kernel_inv (rt_event_recv o set opt time k e).1.1.1.
Proof.
  intros Hf Ht. unfold rt_event_recv, rt_thread_self. destruct (set =? 0); [done|].
  pose proof (inv_set_error k _ RT_EOK H (ki_current _ H)) as H1.
  assert (known (set_error (rt_current_thread k) RT_EOK k) (rt_current_thread k)) as Hk
    by (apply known_upd; by left).
  destruct (if has opt RT_EVENT_FLAG_AND then _ else _); cbn [fst].
  - by apply inv_upd_same.
  - destruct (time =? 0); cbn [fst]; [by apply inv_set_error|].
    set (k1 := upd_thread _ (with_event set opt) _).
    assert (kernel_inv k1) as H2 by (by apply inv_upd_same).
    apply (inv_block k1 (Suspended o)); [done| |by exists o; left|done|done].
    change (rt_current_thread k1) with (rt_current_thread k). unfold k1. rewrite thr_upd_same.
    change (state_of (thr (set_error (rt_current_thread k) RT_EOK k) (rt_current_thread k)) = RT_THREAD_RUNNING).
    by rewrite set_error_state.
Qed.

Lemma inv_sleep_on h flag timeout td : (exists o, h = Suspended o \/ h = Senders o) ->
  flag = RT_IPC_FLAG_FIFO \/ flag = RT_IPC_FLAG_PRIO -> timeout < RT_TICK_MAX / 2 ->
  kernel_inv (fst (sleep_on h flag timeout td (set_error (rt_current_thread k) RT_EOK k))).
Proof. intros Hh Hf Ht. by apply (inv_blocked h flag timeout RT_EOK). Qed.

Lemma inv_mb_send_loop o v timeout td mb r : mb_ok mb -> timeout < RT_TICK_MAX / 2 ->
  mb_send_loop o v timeout td k mb = Some r -> kernel_inv r.1.1.
Proof.
  intros Hok Ht. unfold mb_send_loop, rt_thread_self. destruct (Z.eqb_spec (mb_entry mb) (mb_size mb)) as [E|E].
  - destruct (timeout =? 0).
    { intros [= <-]. apply inv_set_error; [done|apply H]. }
    pose proof (inv_sleep_on (Senders o) (mb_flag mb) timeout td) as Hs.
    destruct (sleep_on _ _ _ _ _) as [k' w]. intros [= <-]. apply Hs; [by exists o; right|apply Hok|done].
  - destruct (mb_put_spec o v k mb Hok) as (mb' & -> & _); [destruct (mo_entry _ Hok); lia|].
    cbn [mbind option_bind]. intros [= <-]. by apply inv_wake_one.
Qed.

Lemma inv_mb_recv_loop o timeout td mb r : mb_ok mb -> timeout < RT_TICK_MAX / 2 ->
  mb_recv_loop o timeout td k mb = Some r -> kernel_inv r.1.1.1.
Proof.
  intros Hok Ht. unfold mb_recv_loop, rt_thread_self. destruct (Z.eqb_spec (mb_entry mb) 0) as [E|E].
  - destruct (timeout =? 0).
    { intros [= <-]. apply inv_set_error; [apply inv_set_error; [done|apply H]|apply known_upd; by left]. }
    pose proof (inv_sleep_on (Suspended o) (mb_flag mb) timeout td) as Hs.
    destruct (sleep_on _ _ _ _ _) as [k' w]. intros [= <-]. apply Hs; [by exists o; left|apply Hok|done].
  - destruct (content mb) as [|v rest] eqn:Ec.
    { pose proof (content_length mb Hok) as Hl. rewrite Ec in Hl. cbn in Hl. lia. }
    destruct (mb_take_spec o k mb v rest Hok Ec) as (mb' & -> & _).
    cbn [mbind option_bind]. intros [= <-]. by apply inv_wake_one.
Qed.

Lemma inv_mq_send_loop o buffer size timeout td mq r : mq_ok mq -> timeout < RT_TICK_MAX / 2 ->
  0 <= size <= msg_size mq -> size <= Z.of_nat (length buffer) ->
  mq_send_loop o buffer size timeout td k mq = Some r -> kernel_inv r.1.1.
Proof.
  intros Hok Ht Hs Hb. unfold mq_send_loop, rt_thread_self.
  destruct Hok as (q & f & Hl). destruct f as [|msg f].
  - pose proof (ml_f _ _ _ Hl) as E. cbn in E. rewrite E. destruct (timeout =? 0).
    { intros [= <-]. apply inv_set_error; [done|apply H]. }
    pose proof (inv_sleep_on (Senders o) (mq_flag mq) timeout td) as Hss.
    destruct (sleep_on _ _ _ _ _) as [k' w]. intros [= <-]. apply Hss; [by exists o; right|apply Hl|done].
  - destruct (lists_free_block _ _ _ _ Hl) as (-> & _).
    destruct (mq_put_spec o buffer size k mq q msg f Hl Hs Hb) as (mq' & -> & _).
    cbn [mbind option_bind]. intros [= <-]. by apply inv_wake_one.
Qed.

Lemma inv_mq_recv_loop o size timeout td mq r : mq_ok mq -> timeout < RT_TICK_MAX / 2 -> 0 <= size ->
  mq_recv_loop o size timeout td k mq = Some r -> kernel_inv r.1.1.1.
Proof.
  intros (q & f & Hl) Ht Hs. unfold mq_recv_loop, rt_thread_self. pose proof (ml_entry _ _ _ Hl) as He.
  destruct q as [|msg q]; cbn [length] in He.
  - rewrite He. cbn [Z.of_nat Z.eqb]. destruct (timeout =? 0).
    { intros [= <-]. apply inv_set_error; [apply inv_set_error; [done|apply H]|apply known_upd; by left]. }
    pose proof (inv_sleep_on (Suspended o) (mq_flag mq) timeout td) as Hss.
    destruct (sleep_on _ _ _ _ _) as [k' w]. intros [= <-]. apply Hss; [by exists o; left|apply Hl|done].
  - rewrite (proj2 (Z.eqb_neq _ _)) by lia.
    destruct (mq_take_spec o size k mq msg q f Hl Hs) as (mq' & m & rest & _ & _ & -> & _).
    cbn [mbind option_bind]. intros [= <-]. by apply inv_wake_one.
Qed.

End calls.

Lemma inv_sem_release k o s : kernel_inv k -> kernel_inv (rt_sem_release o k s).1.1.
Proof.
  intros H. unfold rt_sem_release. destruct (queue k (Suspended o)) eqn:E; [by destruct (_ <? _)|].
  cbn [fst]. apply inv_schedule, inv_list_resume; [done|done|done|by rewrite E].
Qed.

Lemma inv_event_loop l : forall k s need, kernel_inv k -> (forall t, t ∈ l -> known k t) ->
  kernel_inv (event_send_loop l k s need).1.1.1.
Proof.
  induction l as [|t l IH]; intros k s need H Hl; cbn [event_send_loop]; [done|].
  assert (forall x, x ∈ l -> known k x) as Hl' by (intros x Hx; apply Hl; by apply list_elem_of_further).
  assert (known k t) as Hk by (apply Hl, list_elem_of_here).
  destruct (event_test _ _ _); [by apply IH| |done].
  apply IH.
  - apply inv_resume; [by apply inv_upd_same|apply known_upd; by left].
  - intros x Hx. set (k1 := upd_thread _ _ k).
    assert (known k1 x) as Hx1 by (apply known_upd; right; by apply Hl').
    destruct (decide (state_of (thr k1 t) = RT_THREAD_SUSPEND)) as [Hs|Hs].
    + destruct (resume_fields k1 t Hs) as (_ & _ & _ & _ & _ & _ & _ & _ & _ & Hkn). apply Hkn. by right.
    + unfold rt_thread_resume. by rewrite (proj2 (Z.eqb_neq _ _)) by done.
Qed.

Lemma inv_event_send k o set e : kernel_inv k -> kernel_inv (rt_event_send o set k e).1.1.
Proof.
  intros H. unfold rt_event_send. destruct (set =? 0); [done|].
  pose proof (inv_event_loop (queue k (Suspended o)) k (e_set e .| set) false H) as Hl.
  destruct (event_send_loop _ _ _ _) as [[[k' s] need] err]. cbn [fst] in Hl.
  assert (kernel_inv k') as H'.
  { apply Hl. intros t Ht. by apply (bt_in _ _ (proj1 (proj1 (ki_ok _ H))) t (Suspended o)). }
  destruct err; cbn [fst]; [done|]. destruct need; [by apply inv_schedule|done].
Qed.

(** The running thread lends its priority to a live one. *)
Lemma inv_lent k t o : kernel_inv k -> rt_current_thread k = t -> state_of (thr k t) = RT_THREAD_RUNNING ->
  o <> t -> alive (thr k o) ->
  let p := current_priority (thr k t) in
  let k2 := if p <? current_priority (thr k o) then change_priority o p k else k in
  kernel_inv k2 /\ state_of (thr k2 t) = RT_THREAD_RUNNING /\ rt_current_thread k2 = t.
Proof.
  intros H Ec Hs Ho Ha. cbv zeta. destruct (_ <? _); [|done].
  pose proof (known_alive _ _ Ha) as Hko. pose proof (alive_live _ Ha) as Hlo.
  destruct (change_priority_spec k o (current_priority (thr k t)) (ki_ok _ H) Hko Hlo)
    as (_ & _ & _ & Hoth & Ec2 & _). cbv zeta in *.
  split; [|split; [by rewrite Hoth|by rewrite Ec2]].
  apply inv_change_priority; [done|done| |done]. subst t. apply (core_thread k _ (proj1 (ki_ok _ H)) (ki_current _ H)).
Qed.

Lemma inv_mutex_take k o time m : kernel_inv k ->
  state_of (thr k (rt_current_thread k)) = RT_THREAD_RUNNING -> mutex_ok k o m ->
  time < RT_TICK_MAX / 2 -> kernel_inv (rt_mutex_take o time k m).1.1.
Proof.
  intros H Hrun Hm Ht. unfold rt_mutex_take, rt_thread_self. set (t := rt_current_thread k) in *.
  assert (kernel_inv (set_error t RT_EOK k)) as H1 by (apply inv_set_error; [done|apply H]).
  assert (known (set_error t RT_EOK k) t) as Hk by (apply known_upd; by left).
  destruct (Z.eqb_spec (m_owner m) t) as [Eo|Eo]; [by destruct (_ <? _)|].
  destruct (Z.gtb_spec (m_value m) 0) as [Hv|Hv]; [cbn; by destruct (_ <? _)|].
  destruct (time =? 0); [by apply inv_set_error|]. cbn [fst].
  destruct (mo_state _ _ _ Hm) as [(? & _)|(_ & Ha & _)]; [lia|].
  set (k1 := set_error t RT_EOK k) in *.
  assert (alive (thr k1 (m_owner m))) as Ha1.
  { eapply alive_state; [|exact Ha]. unfold k1. by rewrite set_error_state. }
  assert (state_of (thr k1 t) = RT_THREAD_RUNNING) as Hs1 by (unfold k1; by rewrite set_error_state).
  destruct (inv_lent k1 t (m_owner m) H1 eq_refl Hs1 Eo Ha1) as (H2 & Hs2 & Ec2). cbv zeta in *.
  set (k2 := if current_priority (thr k1 t) <? _ then _ else k1) in *.
  rewrite <- Ec2. rewrite <- Ec2 in Hs2.
  apply (inv_block k2 (Suspended o)); [done|done|by exists o; left|by right|done].
Qed.

Lemma inv_mutex_release k o m : kernel_inv k ->
  state_of (thr k (rt_current_thread k)) = RT_THREAD_RUNNING -> mutex_ok k o m ->
  kernel_inv (rt_mutex_release o k m).1.1.
Proof.
  intros H Hrun Hm. unfold rt_mutex_release, rt_thread_self.
  destruct (Z.eqb_spec (rt_current_thread k) (m_owner m)) as [Eo|Eo]; cbn [negb];
    [|apply inv_set_error; [done|apply H]].
  cbn [hold original_priority m_owner m_value]. destruct (_ =? 0); [|done].
  destruct (mo_state _ _ _ Hm) as [(_ & E & _)|(_ & Ha & _ & Hp & _)].
  { exfalso. apply (bt_null _ _ (proj1 (proj1 (ki_ok _ H)))). rewrite <- E, <- Eo. apply H. }
  set (k1 := if negb _ then _ else k).
  assert (kernel_inv k1) as H1.
  { unfold k1. destruct (negb _); [|done].
    apply inv_change_priority; [done|by apply known_alive|done|by apply alive_live]. }
  destruct (queue k1 (Suspended o)) eqn:E; [by destruct (_ <? _)|].
  destruct (0 <? RT_MUTEX_HOLD_MAX); destruct (_ <? RT_MUTEX_HOLD_MAX); cbn [fst]; try done;
    apply inv_schedule, inv_list_resume; try done; by rewrite E.
Qed.

(** Objects are created on identifiers nobody waits on. *)
Lemma inv_list_init k h : kernel_inv k -> queue k h = [] ->
  kernel_inv (set_queues (<[h := []]> (queues k)) k).
Proof.
  intros [[[Hb Hn] Hs] Hc Ht] Hq. set (q := <[h := []]> (queues k)).
  assert (forall h', queue (set_queues q k) h' = queue k h') as E.
  { intros h'. unfold queue, q. cbn. destruct (decide (h = h')) as [<-|].
    - by rewrite lookup_insert_eq.
    - by rewrite lookup_insert_ne. }
  split; [split; [split; [|done]|done]|done|by eapply timers_frame; [| | |apply Ht]].
  destruct Hb as [B1 B2 B3 B4 B5 B6 B7 B8 B9 B10].
  split; try done.
  - intros t h'. rewrite E. apply B3.
  - intros t Hk Hne Hst. rewrite E. by apply B4.
  - intros h'. rewrite E. apply B6.
  - intros t h1 h2. rewrite !E. apply B7.
  - intros p Hp. rewrite E. by apply B8.
Qed.

Lemma inv_both_init k o : kernel_inv k -> queue k (Suspended o) = [] -> queue k (Senders o) = [] ->
  kernel_inv (let k := rt_ipc_object_init o k in set_queues (<[Senders o := []]> (queues k)) k).
Proof.
  intros H H1 H2. cbv zeta. apply inv_list_init; [by apply inv_list_init|].
  unfold queue, rt_ipc_object_init. cbn. by rewrite lookup_insert_ne.
Qed.

Lemma inv_lock k n : kernel_inv k -> kernel_inv (set_lock n k).
Proof.
  intros [[[Hb Hn] Hs] Hc Ht]. split; [split; [split; [|done]|done]|done|by eapply timers_frame; [| | |apply Ht]].
  by destruct Hb; split.
Qed.

Lemma delay_left cur tick inc : 0 <= inc < RT_TICK_MAX / 2 -> u32 (cur - tick) < inc ->
  0 < u32 (u32 (tick + inc) - cur) <= inc.
Proof.
  change (RT_TICK_MAX / 2) with 2147483647. intros Hi H. pose proof (u32_range (cur - tick)) as Hr.
  assert (u32 (u32 (tick + inc) - cur) = u32 (inc - u32 (cur - tick))) as ->.
  { unfold u32. rewrite Zminus_mod_idemp_l, Zminus_mod_idemp_r. f_equal. lia. }
  rewrite u32_small; lia.
Qed.

(** ** The transition system *)

Definition running (k : kernel) : Prop := state_of (thr k (rt_current_thread k)) = RT_THREAD_RUNNING.
Definition ipc_flag (f : Z) : Prop := f = RT_IPC_FLAG_FIFO \/ f = RT_IPC_FLAG_PRIO.
Definition wait_time (t : Z) : Prop := t < RT_TICK_MAX / 2.

(** What a call may do to threads other than its caller: [On o] works on the
    IPC object [o] and may make its caller wait there, [Names t] acts on the
    thread [t], [Ends t] ends it. *)
Inductive effect := Plain | On (o : Z) | Names (t : Z) | Ends (t : Z).

(** A call made by the running thread or an interrupt, or the rest of a
    blocked call.  The IPC object a call works on is any object in a
    consistent state. *)
Inductive kernel_call (k : kernel) : effect -> kernel -> Prop :=
  | call_init t static p n : ~ known k t -> t <> RT_NULL -> t <> NOBODY -> 0 <= p < 32 ->
      kernel_call k (Names t) (_rt_thread_init t static p n k)
  | call_startup t : known k t -> state_of (thr k t) = RT_THREAD_INIT ->
      kernel_call k (Names t) (fst (rt_thread_startup t k))
  | call_schedule : kernel_call k Plain (rt_schedule k)
  | call_yield : kernel_call k Plain (fst (rt_thread_yield k))
  | call_sleep n : running k -> 0 <= n < RT_TICK_MAX / 2 -> kernel_call k Plain (rt_thread_sleep n k)
  | call_sleep_end : kernel_call k Plain (fst (rt_thread_sleep_end (rt_current_thread k) k))
  | call_delay_until tick inc : running k -> 0 <= inc < RT_TICK_MAX / 2 ->
      kernel_call k Plain (rt_thread_delay_until tick inc k).1.1
  | call_suspend t : kernel_call k (Names t) (fst (rt_thread_suspend t k))
  | call_resume t : known k t -> kernel_call k (Names t) (fst (rt_thread_resume t k))
  | call_detach t : known k t -> kernel_call k (Ends t) (fst (rt_thread_detach t k))
  | call_delete t : known k t -> kernel_call k (Ends t) (fst (rt_thread_delete t k))
  | call_exit : running k -> kernel_call k (Ends (rt_current_thread k)) (_rt_thread_exit k)
  | call_priority t p : known k t -> live (state_of (thr k t)) -> 0 <= p < 32 ->
      kernel_call k Plain (fst (rt_thread_control t (RT_THREAD_CTRL_CHANGE_PRIORITY p) k))
  | call_close t : known k t -> kernel_call k (Ends t) (fst (rt_thread_control t RT_THREAD_CTRL_CLOSE k))
  | call_enter_critical : kernel_call k Plain (rt_enter_critical k)
  | call_exit_critical : kernel_call k Plain (rt_exit_critical k)
  | call_object_init o : queue k (Suspended o) = [] -> kernel_call k (On o) (rt_ipc_object_init o k)
  | call_sem_take o time s : running k -> ipc_flag (sem_flag s) -> wait_time time ->
      kernel_call k (On o) (rt_sem_take o time k s).1.1
  | call_sem_release o s : kernel_call k (On o) (rt_sem_release o k s).1.1
  | call_event_send o set e : kernel_call k (On o) (rt_event_send o set k e).1.1
  | call_event_recv o set opt time e : running k -> ipc_flag (e_flag e) -> wait_time time ->
      kernel_call k (On o) (rt_event_recv o set opt time k e).1.1.1
  | call_mb_init o pool size flag : queue k (Suspended o) = [] -> queue k (Senders o) = [] ->
      kernel_call k (On o) (rt_mb_init o pool size flag k).1.1
  | call_mb_send o v time mb r : running k -> mb_ok mb -> wait_time time ->
      rt_mb_send_wait o v time k mb = Some r -> kernel_call k (On o) r.1.1
  | call_mb_send_resumed o v time td mb r : running k -> mb_ok mb -> wait_time time ->
      u32 (rt_tick k - td) < RT_TICK_MAX / 2 ->
      rt_mb_send_resumed o v time td k mb = Some r -> kernel_call k (On o) r.1.1
  | call_mb_urgent o v mb r : mb_ok mb -> rt_mb_urgent o v k mb = Some r -> kernel_call k (On o) r.1.1
  | call_mb_recv o time mb r : running k -> mb_ok mb -> wait_time time ->
      rt_mb_recv o time k mb = Some r -> kernel_call k (On o) r.1.1.1
  | call_mb_recv_resumed o time td mb r : running k -> mb_ok mb -> wait_time time ->
      u32 (rt_tick k - td) < RT_TICK_MAX / 2 ->
      rt_mb_recv_resumed o time td k mb = Some r -> kernel_call k (On o) r.1.1.1
  | call_mq_init o pool size psize flag : queue k (Suspended o) = [] -> queue k (Senders o) = [] ->
      kernel_call k (On o) (rt_mq_init o pool size psize flag k).1.1
  | call_mq_send o buffer size time mq r : running k -> mq_ok mq -> wait_time time ->
      0 <= size <= Z.of_nat (length buffer) ->
      rt_mq_send_wait o buffer size time k mq = Some r -> kernel_call k (On o) r.1.1
  | call_mq_send_resumed o buffer size time td mq r : running k -> mq_ok mq -> wait_time time ->
      0 <= size <= msg_size mq -> size <= Z.of_nat (length buffer) ->
      u32 (rt_tick k - td) < RT_TICK_MAX / 2 ->
      rt_mq_send_resumed o buffer size time td k mq = Some r -> kernel_call k (On o) r.1.1
  | call_mq_urgent o buffer size mq r : mq_ok mq -> rt_mq_urgent o buffer size k mq = Some r ->
      kernel_call k (On o) r.1.1
  | call_mq_recv o size time mq r : running k -> mq_ok mq -> wait_time time -> 0 <= size ->
      rt_mq_recv o size time k mq = Some r -> kernel_call k (On o) r.1.1.1
  | call_mq_recv_resumed o size time td mq r : running k -> mq_ok mq -> wait_time time -> 0 <= size ->
      u32 (rt_tick k - td) < RT_TICK_MAX / 2 ->
      rt_mq_recv_resumed o size time td k mq = Some r -> kernel_call k (On o) r.1.1.1
  | call_wake_list o k' : rt_ipc_list_resume_all (Suspended o) k = Some k' -> kernel_call k (On o) k'
  | call_wake_both o k' : resume_both o k = Some k' -> kernel_call k (On o) k'.

(** The handler of a tick; its loop is given one round per timer. *)
Definition tick_handler (k : kernel) : option kernel :=
  rt_tick_increase (length (rt_timer_list (k_timers k))) k.

Inductive kernel_step (k : kernel) : kernel -> Prop :=
  | step_call c k' : kernel_call k c k' -> kernel_step k k'
  | step_tick k' : tick_handler k = Some k' -> kernel_step k k'
  | step_mutex_take o time m : running k -> mutex_ok k o m -> wait_time time ->
      kernel_step k (rt_mutex_take o time k m).1.1
  | step_mutex_release o m : running k -> mutex_ok k o m -> kernel_step k (rt_mutex_release o k m).1.1.

(** What is left of a timeout, seen within half the tick range. *)
Lemma remaining_bound timeout td now : wait_time timeout -> u32 (now - td) < RT_TICK_MAX / 2 ->
  wait_time (remaining timeout td now).
Proof.
  unfold wait_time, remaining. change (RT_TICK_MAX / 2) with 2147483647. intros H Hd.
  destruct (Z.gtb_spec timeout 0); [|done]. cbv zeta.
  pose proof (u32_range (now - td)) as Hr. set (d := u32 (now - td)) in *.
  rewrite s32_small by lia. case_Z; lia.
Qed.

(** The two calls that put a message before the others. *)
Lemma mb_urgent_kernel o v k mb r : rt_mb_urgent o v k mb = Some r ->
  r.1.1 = k \/ r.1.1 = wake_one (Suspended o) k.
Proof.
  unfold rt_mb_urgent. destruct (_ =? _); [intros [= <-]; by left|].
  destruct (slot_set _ _ _); [|done]. intros [= <-]. by right.
Qed.
Lemma mq_urgent_kernel o buffer size k mq r : rt_mq_urgent o buffer size k mq = Some r ->
  r.1.1 = k \/ r.1.1 = wake_one (Suspended o) k.
Proof.
  unfold rt_mq_urgent. destruct (_ >? _); [intros [= <-]; by left|].
  destruct (msg_queue_free mq) as [b|]; [|intros [= <-]; by left].
  destruct (get_next b mq); [|done]. cbn [mbind option_bind].
  destruct (put_data b buffer size _); [|done]. cbn [mbind option_bind].
  destruct (put_next b _ _); [|done]. cbn [mbind option_bind].
  unfold mq_count. destruct (_ <? _); intros [= <-]; [by right|by left].
Qed.

Lemma call_inv k c k' : kernel_inv k -> kernel_call k c k' -> kernel_inv k'.
Proof.
  intros H Hcall. destruct Hcall.
  - by apply inv_thread_init.
  - by apply inv_startup.
  - by apply inv_schedule.
  - by apply inv_yield.
  - by apply inv_sleep.
  - unfold rt_thread_sleep_end. destruct (_ =? _); [|done]. apply inv_set_error; [done|apply H].
  - unfold rt_thread_delay_until, rt_thread_self. destruct (Z.ltb_spec (u32 (rt_tick k - tick)) inc); [|done].
    cbn [fst]. pose proof (delay_left (rt_tick k) tick inc). apply inv_sleep; [done|done|lia].
  - by apply inv_suspend.
  - by apply inv_resume.
  - by apply inv_detach.
  - by apply inv_delete.
  - by apply inv_exit.
  - by apply inv_change_priority.
  - cbn [rt_thread_control]. destruct (systemobject (thr k t)).
    + pose proof (inv_detach k t H) as Hd. destruct (rt_thread_detach t k). by apply inv_schedule, Hd.
    + pose proof (inv_delete k t H) as Hd. destruct (rt_thread_delete t k). by apply inv_schedule, Hd.
  - by apply inv_lock.
  - unfold rt_exit_critical. cbv zeta. destruct (_ <=? 0); [|by apply inv_lock].
    destruct (negb _); [apply inv_schedule|]; by apply inv_lock, inv_lock.
  - by apply inv_list_init.
  - by apply inv_sem_take.
  - by apply inv_sem_release.
  - by apply inv_event_send.
  - by apply inv_event_recv.
  - by apply inv_both_init.
  - unfold rt_mb_send_wait in *. destruct (_ && _); simplify_eq/=; [done|].
    by eapply inv_mb_send_loop.
  - unfold rt_mb_send_resumed in *. destruct (negb _); simplify_eq/=; [done|].
    eapply inv_mb_send_loop; [done|done|done| |eassumption]. by apply remaining_bound.
  - destruct (mb_urgent_kernel _ _ _ _ _ H1) as [-> | ->]; [done|by apply inv_wake_one].
  - unfold rt_mb_recv in *. destruct (_ && _); simplify_eq/=; [done|].
    by eapply inv_mb_recv_loop.
  - unfold rt_mb_recv_resumed in *. destruct (negb _); simplify_eq/=; [done|].
    eapply inv_mb_recv_loop; [done|done|done| |eassumption]. by apply remaining_bound.
  - by apply inv_both_init.
  - unfold rt_mq_send_wait in *. destruct (Z.gtb_spec size (msg_size mq)); simplify_eq/=; [done|].
    destruct (msg_queue_free mq), (time =? 0); simplify_eq/=; try done;
      (eapply inv_mq_send_loop; [done|done|done|done| | |eassumption]; lia).
  - unfold rt_mq_send_resumed in *. destruct (negb _); simplify_eq/=; [done|].
    eapply inv_mq_send_loop; [done|done|done| |done|done|eassumption]. by apply remaining_bound.
  - destruct (mq_urgent_kernel _ _ _ _ _ _ H1) as [-> | ->]; [done|by apply inv_wake_one].
  - unfold rt_mq_recv in *. destruct (_ && _); simplify_eq/=; [done|].
    by eapply inv_mq_recv_loop.
  - unfold rt_mq_recv_resumed in *. destruct (negb _); simplify_eq/=; [done|].
    eapply inv_mq_recv_loop; [done|done|done| |done|eassumption]. by apply remaining_bound.
  - eapply (inv_resume_all (Suspended o)); [done|done|exact H|eassumption].
  - by eapply inv_resume_both.
Qed.

Lemma kernel_step_inv k k' : kernel_inv k -> kernel_step k k' -> kernel_inv k'.
Proof.
  intros H Hstep. destruct Hstep.
  - by eapply call_inv.
  - by eapply inv_tick; [| |eassumption].
  - by apply inv_mutex_take.
  - by apply inv_mutex_release.
Qed.

(** ** The boot sequence *)

(** Before the scheduler starts: the list heads are initialised and threads
    are created and started, none of which runs yet. *)
Inductive boot_reach : kernel -> Prop :=
  | boot_init : boot_reach (rt_system_scheduler_init kernel_off)
  | boot_thread k t static p n : boot_reach k -> ~ known k t -> t <> RT_NULL -> t <> NOBODY ->
      0 <= p < 32 -> boot_reach (_rt_thread_init t static p n k)
  | boot_startup k t : boot_reach k -> known k t -> state_of (thr k t) = RT_THREAD_INIT ->
      boot_reach (fst (rt_thread_startup t k)).

Lemma no_timers_inv k : k_timers k = no_timers -> 0 <= rt_tick k < 4294967296 -> timers_inv k.
Proof.
  intros E H. split; rewrite E; try done; [split|]; cbn; try done; try (by constructor);
    intros t Ht; by apply not_elem_of_nil in Ht.
Qed.

Lemma boot_reach_ok k : boot_reach k ->
  kernel_ok k /\ timers_inv k /\ rt_current_thread k = RT_NULL.
Proof.
  induction 1 as [|k t static p n _ (Hok & Ht & Ec) Hnew Hnull Hnb Hp|k t _ (Hok & Ht & Ec) Hk Hs].
  - split; [kernel_check|]. split; [|done].
    by apply no_timers_inv.
  - destruct (thread_init_inv k t static p n Hok Ht) as (H1 & H2 & _); try done; by rewrite Ec.
  - unfold rt_thread_startup. pose proof (timers_prepared k t Ht Hs) as Ht2.
    destruct (startup_prepared k t Hok Hk Hs) as (Hok2 & Hk2 & Hs2). cbv zeta in *.
    set (k2 := upd_thread t (with_stat RT_THREAD_SUSPEND) _) in *.
    destruct (resume_fields k2 t Hs2) as (Ec2 & _). cbv zeta in *.
    unfold rt_thread_self. rewrite Ec2. change (rt_current_thread k2) with (rt_current_thread k).
    rewrite Ec. cbn [negb fst Z.eqb RT_NULL]. split; [by apply resume_ok|].
    split; [by apply timers_resume|]. by rewrite Ec2.
Qed.

(** A ready thread has its bit in the group. *)
Lemma ready_group k t : core k -> known k t -> state_of (thr k t) = RT_THREAD_READY ->
  rt_thread_ready_priority_group k <> 0.
Proof.
  intros Hcore Hk Hs Hg. pose proof (core_thread k t Hcore Hk) as (Hp & _). destruct Hcore as [Hbut Hno].
  assert (t <> NOBODY) by (intros ->; done). pose proof (bt_ready _ _ Hbut t Hk ltac:(done) Hs) as Hin.
  assert (Z.testbit (rt_thread_ready_priority_group k) (current_priority (thr k t)) = true) as Hbit
    by (apply (bt_group _ _ Hbut); [done|]; intros E; rewrite E in Hin; by apply not_elem_of_nil in Hin).
  by rewrite Hg, Z.bits_0 in Hbit.
Qed.

Lemma boot_started k t : boot_reach k -> known k t -> state_of (thr k t) = RT_THREAD_READY ->
  kernel_inv (rt_system_scheduler_start k).
Proof.
  intros Hb Hk Hs. destruct (boot_reach_ok k Hb) as (Hok & Ht & Ec).
  pose proof Hok as [Hcore _].
  assert (forall x, state_of (thr k x) <> RT_THREAD_RUNNING) as Hnorun.
  { intros x Hx. assert (known k x) as Hkx by (apply known_of_state; by rewrite Hx).
    destruct Hcore as [Hbut Hno]. assert (x <> NOBODY) by (intros ->; done).
    pose proof (bt_running _ _ Hbut x Hkx ltac:(done) Hx) as ->. rewrite Ec in Hkx.
    by apply (bt_null _ _ Hbut). }
  pose proof (ready_group k t Hcore Hk Hs) as Hg.
  destruct (highest_spec k Hcore Hg) as (n & p & rest & Eh & Hp' & Eq & _).
  unfold rt_system_scheduler_start. rewrite Eh.
  destruct (bt_in _ _ (proj1 Hcore) n (Ready p)) as (Hkn & _ & Hsn & _);
    [rewrite Eq; apply list_elem_of_here|].
  set (k1 := set_current n (rt_current_priority k) k).
  assert (core k1) as Hcore1.
  { destruct Hcore as [[B1 B2 B3 B4 B5 B6 B7 B8 B9 B10] Hno]. split; [|done]. split; try done.
    intros x Hkx Hne Hx. by destruct (Hnorun x). }
  assert (live (state_of (thr k1 n))) as Hlive
    by (change (thr k1) with (thr k); by rewrite Hsn).
  pose proof (but_schedule_remove k1 n Hcore1 Hkn Hlive) as Hbut.
  destruct (remove_fields k1 n) as (Eth & Ecur & Etm & Etk & _). cbv zeta in *.
  set (k2 := rt_schedule_remove_thread n k1) in *.
  pose proof (threads_thr k1 k2 Eth) as Ethr.
  assert (known k2 n) as Hk2 by (by apply (threads_known k1 k2 n Eth)).
  assert (core (upd_thread n (with_stat RT_THREAD_RUNNING) k2)) as Hcore3.
  { apply (but_done k2 n RT_THREAD_RUNNING); try done.
    - intros H. apply (threads_known k1 k2 NOBODY Eth) in H. by destruct Hcore1.
    - rewrite Ethr. by apply (core_thread k1 n).
    - by rewrite Ethr. }
  split.
  - split; [done|]. change (rt_current_thread (upd_thread n _ k2)) with (rt_current_thread k2).
    rewrite Ecur. cbn [rt_current_thread set_current k1]. by rewrite thr_upd_same.
  - change (rt_current_thread (upd_thread n _ k2)) with (rt_current_thread k2).
    rewrite Ecur. apply known_upd. by left.
  - apply (timers_frame k); [done|by cbn; rewrite Etm|by cbn; rewrite Etk|].
    intros x Hx. pose proof (ti_sleeping _ Ht x Hx) as Hsx. rewrite thr_upd_other; [by rewrite Ethr|].
    intros ->. by rewrite Hsn in Hsx.
Qed.

(** ** Sleeping threads wake *)

Fixpoint ticks (n : nat) (k : kernel) : option kernel :=
  match n with
  | O => Some k
  | S n => k ← rt_tick_increase (length (rt_timer_list (k_timers k))) k; ticks n k
  end.

Lemma tick_sleeper k t : kernel_inv k -> t ∈ rt_timer_list (k_timers k) ->
  exists k', rt_tick_increase (length (rt_timer_list (k_timers k))) k = Some k' /\ kernel_inv k' /\
    if due (rt_tick k) (tmr (k_timers k) t) <=? 1
    then awake (thr k' t) /\ error (thr k' t) = - RT_ETIMEOUT
    else t ∈ rt_timer_list (k_timers k') /\
         due (rt_tick k') (tmr (k_timers k') t) = due (rt_tick k) (tmr (k_timers k) t) - 1.
Proof.
  intros H Hin. pose proof H as [Hok Hc Ht]. destruct (timers_linked_inv k Ht) as [Htl Hpos].
  destruct (tick_spec k (length (rt_timer_list (k_timers k))) Hok Hc Htl Hpos ltac:(done))
    as (k' & E & _ & _ & _ & _ & Hfire & _).
  exists k'. split; [done|]. split; [by apply (inv_tick _ _ _ H (le_n _) E)|].
  specialize (Hfire t Hin). destruct (_ <=? 1); [by destruct Hfire as (? & ? & _)|].
  by destruct Hfire as (? & _ & ?).
Qed.

(** One tick: the handler ends within one round per timer, advances the
    tick counter modulo [2^32], wakes with the timeout error exactly the
    threads whose timer is due, and brings every other timer one tick nearer. *)
Theorem tick_fires_due k : kernel_inv k ->
  exists k', rt_tick_increase (length (rt_timer_list (k_timers k))) k = Some k' /\ kernel_inv k' /\
    rt_tick k' = u32 (rt_tick k + 1) /\
    forall t, t ∈ rt_timer_list (k_timers k) ->
      if due (rt_tick k) (tmr (k_timers k) t) <=? 1
      then awake (thr k' t) /\ error (thr k' t) = - RT_ETIMEOUT /\ t ∉ rt_timer_list (k_timers k')
      else t ∈ rt_timer_list (k_timers k') /\ state_of (thr k' t) = RT_THREAD_SUSPEND /\
           error (thr k' t) = error (thr k t) /\
           due (rt_tick k') (tmr (k_timers k') t) = due (rt_tick k) (tmr (k_timers k) t) - 1.
Proof.
  intros H. pose proof H as [Hok Hc Ht]. destruct (timers_linked_inv k Ht) as [Htl Hpos].
  destruct (tick_spec k (length (rt_timer_list (k_timers k))) Hok Hc Htl Hpos ltac:(done))
    as (k' & E & _ & _ & _ & Etk & Hfire & _).
  assert (kernel_inv k') as H' by (by apply (inv_tick _ _ _ H (le_n _) E)).
  exists k'. split_and!; try done. intros t Hin. specialize (Hfire t Hin).
  destruct (_ <=? 1); [done|]. destruct Hfire as (Hin' & He & Hd). split_and!; try done.
  by apply (ti_sleeping _ (ki_timers _ H')).
Qed.
