(* ===== verification/KernelFrame.v ===== *)
(** * KernelFrame: what a call leaves alone

    Only a call on an IPC object makes a thread wait, only its caller, and
    only there; only the ways to end a thread end one; and no call that does
    not name a sleeping thread touches its timer.  From the first two: the
    mutexes of a system stay consistent, so that no sequence of calls breaks
    the kernel or a mutex.  From the third: a thread sleeps for the time it
    asked, whatever the others do meanwhile. *)
From S2P Require Import Prelude Timer Kernel KernelInv KernelOps Ipc IpcInv MutexInv EventInv Queue.
From S2P Require Import Mailbox MessageQueue KernelCheck KernelSystem.

(** ** The relation *)

(** The lists of an IPC object. *)
Definition waits_of (o : Z) (h : qname) : Prop := h = Suspended o \/ h = Senders o.
Definition ipc_list (h : qname) : Prop := exists o, waits_of o h.

(** [G h x]: the thread [x] may come to wait in [h]; [E x]: it may end. *)
Record waits_frame (G : qname -> Z -> Prop) (E : Z -> Prop) (k k' : kernel) : Prop := {
  wf_queue : forall h x, ipc_list h -> x ∈ queue k' h -> x ∈ queue k h \/ G h x;
  wf_alive : forall x, alive (thr k x) -> alive (thr k' x) \/ E x }.

(** The sleep of [t] goes on. *)
Record timer_frame (t : Z) (k k' : kernel) : Prop := {
  tf_tick : rt_tick k' = rt_tick k;
  tf_list : t ∈ rt_timer_list (k_timers k) -> t ∈ rt_timer_list (k_timers k');
  tf_tmr : tmr (k_timers k') t = tmr (k_timers k) t }.

Definition frame G E t (k k' : kernel) : Prop := waits_frame G E k k' /\ timer_frame t k k'.

#[export] Instance waits_frame_preorder G E : PreOrder (waits_frame G E).
Proof.
  split; [split; [by left|by left]|]. intros k1 k2 k3 [A1 A2] [B1 B2]. split.
  - intros h x Hh Hx. destruct (B1 h x Hh Hx) as [Hx2|]; [by apply A1|by right].
  - intros x Hx. destruct (A2 x Hx) as [Hx2|]; [by apply B2|by right].
Qed.
#[export] Instance timer_frame_preorder t : PreOrder (timer_frame t).
Proof.
  split; [done|]. intros k1 k2 k3 [A1 A2 A3] [B1 B2 B3].
  split; [by rewrite B1|by intros H; apply B2, A2|by rewrite B3].
Qed.
#[export] Instance frame_preorder G E t : PreOrder (frame G E t).
Proof. split; [done|]. intros k1 k2 k3 [A1 A2] [B1 B2]. split; by etrans. Qed.

(** A thread that waits for its timer only. *)
Definition alone (t : Z) (k : kernel) : Prop := forall h, ipc_list h -> t ∉ queue k h.

Definition spares (t : Z) (f : timers -> timers) : Prop := forall ts,
  (t ∈ rt_timer_list ts -> t ∈ rt_timer_list (f ts)) /\ tmr (f ts) t = tmr ts t.

Lemma spares_remove t x : x <> t -> spares t (_rt_timer_remove x).
Proof.
  intros Hn ts. split; [|done]. intros H. cbn. apply list_elem_of_filter. split; [congruence|done].
Qed.
Lemma spares_set t x r : x <> t -> spares t (fun ts => set_timer x (r ts) ts).
Proof. intros Hn ts. split; [done|]. by rewrite tmr_set_timer, decide_False. Qed.
Lemma spares_comp t f g : spares t f -> spares t g -> spares t (fun ts => g (f ts)).
Proof.
  intros Hf Hg ts. destruct (Hf ts) as [F1 F2], (Hg (f ts)) as [G1 G2].
  split; [by intros H; apply G1, F1|by rewrite G2].
Qed.
Lemma spares_off t x : x <> t -> spares t (fun ts => set_activated false x (_rt_timer_remove x ts)).
Proof.
  intros Hn. apply (spares_comp t (_rt_timer_remove x) (set_activated false x)); [by apply spares_remove|].
  by apply (spares_set t x (fun ts => mk_timer (periodic (tmr ts x)) _ _ _)).
Qed.
Lemma spares_stop t x : x <> t -> spares t (fun ts => fst (rt_timer_stop x ts)).
Proof.
  intros Hn ts. unfold rt_timer_stop. destruct (activated _); [|done]. by apply spares_off.
Qed.
Lemma spares_control t x time : x <> t ->
  spares t (fun ts => (rt_timer_control x (RT_TIMER_CTRL_SET_TIME time) ts).1.1).
Proof. intros Hn. by apply (spares_set t x (fun ts => mk_timer (periodic (tmr ts x)) _ _ _)). Qed.

Lemma timer_insert_keeps tb to_ x l t : t ∈ l -> t ∈ timer_insert tb to_ x l.
Proof.
  induction l as [|y l IH]; [by intros ?%not_elem_of_nil|]. intros H. cbn.
  destruct (fires_after _ _); [by apply list_elem_of_further|].
  apply elem_of_cons in H as [-> | H]; [apply list_elem_of_here|by apply list_elem_of_further, IH].
Qed.

Lemma spares_start t x now : x <> t -> spares t (fun ts => fst (rt_timer_start now x ts)).
Proof.
  intros Hn ts. destruct (spares_off t x Hn ts) as [H1 H2]. unfold rt_timer_start.
  set (ts1 := set_activated false x (_rt_timer_remove x ts)) in *. cbv zeta. cbn [fst].
  set (ts2 := set_timer x _ ts1).
  assert (tmr ts2 t = tmr ts1 t) as E2 by (unfold ts2; by rewrite tmr_set_timer, decide_False).
  split; [intros H; cbn; by apply timer_insert_keeps, H1|].
  unfold set_activated. rewrite tmr_set_timer, decide_False by done. etrans; [exact E2|exact H2].
Qed.

(** ** One assignment at a time *)

Section frame.
Context (G : qname -> Z -> Prop) (E : Z -> Prop) (t : Z).
Implicit Types k : kernel.

Lemma frame_upd k x f : (alive (thr k x) -> alive (f (thr k x)) \/ E x) -> frame G E t k (upd_thread x f k).
Proof.
  intros Hf. split; [|done]. split; [by left|]. intros y Hy. rewrite thr_upd.
  destruct (decide (x = y)) as [<-|]; [by apply Hf|by left].
Qed.
Lemma frame_field k x f : (forall th, state_of (f th) = state_of th) -> frame G E t k (upd_thread x f k).
Proof. intros Hf. apply frame_upd. left. by apply (alive_state (thr k x)). Qed.
Lemma frame_to_state k x s : s = RT_THREAD_READY \/ s = RT_THREAD_RUNNING \/ s = RT_THREAD_SUSPEND ->
  frame G E t k (upd_thread x (to_state s) k).
Proof.
  intros Hs. apply frame_upd. intros _. left. unfold alive, awake.
  rewrite state_of_to_state by (destruct Hs as [-> | [-> | ->]]; done). tauto.
Qed.

Lemma frame_same k k' : threads k' = threads k -> queues k' = queues k -> rt_tick k' = rt_tick k ->
  k_timers k' = k_timers k -> frame G E t k k'.
Proof.
  intros E1 E2 E3 E4. split; [split|split]; rewrite ?E3, ?E4; try done.
  - intros h x _. unfold queue. rewrite E2. by left.
  - intros x. rewrite (threads_thr k k' E1). by left.
Qed.
Lemma frame_timer k f : spares t f -> frame G E t k (timer_op f k).
Proof. intros Hf. destruct (Hf (k_timers k)) as [F1 F2]. split; [split; by left|by split]. Qed.

Lemma frame_remove k x : frame G E t k (rt_list_remove x k).
Proof. split; [|done]. split; [|by left]. intros h y _. rewrite queue_remove, list_elem_of_filter. intros [_ ?]. by left. Qed.
Lemma frame_out k x : frame G E t k (rt_schedule_remove_thread x k).
Proof.
  etrans; [apply (frame_remove k x)|]. unfold rt_schedule_remove_thread. case_decide; [by apply frame_same|done].
Qed.
(** A list changed only by threads that may wait in it. *)
Lemma frame_list k h l : (ipc_list h -> forall x, x ∈ l -> x ∈ queue k h \/ G h x) ->
  frame G E t k (set_queues (<[h := l]> (queues k)) k).
Proof.
  intros Hl. split; [|done]. split; [|by left]. intros h' x Hh Hx. unfold queue in Hx. cbn in Hx.
  destruct (decide (h = h')) as [<-|Hn].
  - rewrite lookup_insert_eq in Hx. by apply Hl.
  - rewrite lookup_insert_ne in Hx by done. by left.
Qed.
Lemma ready_no_list p : ~ ipc_list (Ready p).
Proof. by intros (o & [?|?]). Qed.
Lemma defunct_no_list : ~ ipc_list Defunct.
Proof. by intros (o & [?|?]). Qed.
Lemma frame_in k x : frame G E t k (rt_schedule_insert_thread x k).
Proof.
  unfold rt_schedule_insert_thread. destruct (x =? _); [apply frame_to_state; tauto|]. cbv zeta.
  set (k1 := upd_thread x (to_state RT_THREAD_READY) k).
  assert (frame G E t k k1) as S1 by (apply frame_to_state; tauto).
  etrans; [exact S1|]. set (h := Ready (current_priority (thr k1 x))).
  transitivity (rt_list_insert_before h x k1); [|by apply frame_same].
  apply frame_list. by intros ?%ready_no_list.
Qed.

(** ** The calls inside the others *)

Lemma frame_schedule k : frame G E t k (rt_schedule k).
Proof.
  unfold rt_schedule. destruct (_ =? 0); [|done]. destruct (negb _); [|done].
  destruct (_get_highest_priority_thread k) as [n p]. set (c := rt_current_thread k).
  set (r := state_of (thr k c) =? RT_THREAD_RUNNING). cbv zeta.
  set (f := fun th => with_stat (Z.ldiff (stat th) RT_THREAD_STAT_YIELD) th).
  set (k1 := if r then upd_thread c f k else k). set (n' := if _ : bool then c else n).
  assert (frame G E t k k1) as S1.
  { unfold k1. destruct r; [|done]. apply frame_field. intros th. apply state_of_yield_off. }
  destruct (negb (n' =? c)).
  - set (k2 := set_current _ _ k1). assert (frame G E t k k2) as S2 by (etrans; [exact S1|by apply frame_same]).
    set (k3 := if _ : bool then rt_schedule_insert_thread c k2 else k2).
    assert (frame G E t k k3) as S3.
    { unfold k3. match goal with |- context [if ?b then _ else k2] => destruct b end; [|done]. etrans; [exact S2|apply frame_in]. }
    etrans; [exact S3|]. etrans; [apply frame_out|]. apply frame_to_state; tauto.
  - etrans; [exact S1|]. etrans; [apply frame_out|]. apply frame_to_state; tauto.
Qed.

Lemma frame_suspend k x : x <> t -> frame G E t k (fst (rt_thread_suspend x k)).
Proof.
  intros Hn. unfold rt_thread_suspend. destruct (_ && _); [done|]. cbn [fst].
  etrans; [apply (frame_out k x)|]. etrans; [apply (frame_to_state _ x RT_THREAD_SUSPEND); tauto|].
  by apply frame_timer, spares_stop.
Qed.
Lemma frame_resume k x : x <> t -> frame G E t k (fst (rt_thread_resume x k)).
Proof.
  intros Hn. unfold rt_thread_resume. destruct (negb _); [done|]. cbn [fst].
  etrans; [apply (frame_remove k x)|]. etrans; [by apply (frame_timer _ _ (spares_stop t x Hn))|]. apply frame_in.
Qed.
Lemma frame_start k x n : x <> t -> frame G E t k (start_thread_timer x n k).
Proof.
  intros Hn. unfold start_thread_timer. etrans; [by apply (frame_timer _ _ (spares_control t x n Hn))|].
  by apply frame_timer, spares_start.
Qed.
Lemma frame_wait k x n : x <> t -> frame G E t k (wait_timer x n k).
Proof. intros Hn. unfold wait_timer. destruct (_ >? 0); [by apply frame_start|done]. Qed.
Lemma frame_error k x e : frame G E t k (set_error x e k).
Proof. by apply frame_field. Qed.

Lemma frame_list_suspend k h x flag : x <> t -> G h x -> frame G E t k (rt_ipc_list_suspend h x flag k).
Proof.
  intros Hn Hg. unfold rt_ipc_list_suspend. etrans; [by apply (frame_suspend k x)|].
  set (k1 := fst _). destruct (_ =? _); [|destruct (_ =? _); [|done]]; apply frame_list; intros _ y.
  - rewrite elem_of_app, list_elem_of_singleton. intros [? | ->]; [by left|by right].
  - destruct (prio_insert_split k1 x (queue k1 h)) as (l1 & l2 & E1 & E2 & _). rewrite E1, E2.
    rewrite !elem_of_app, elem_of_cons. intros [? | [-> | ?]]; [left; by left|by right|left; by right].
Qed.
Lemma frame_block k h x flag time : x <> t -> G h x -> frame G E t k (block h x flag time k).
Proof.
  intros Hn Hg. unfold block. etrans; [by apply (frame_list_suspend k h x flag)|].
  etrans; [by apply frame_wait|]. apply frame_schedule.
Qed.

Lemma frame_priority k x p : frame G E t k (change_priority x p k).
Proof.
  unfold change_priority. destruct (_ =? _); [|by apply frame_field].
  etrans; [apply (frame_out k x)|]. etrans; [by apply (frame_field _ x (with_priority p))|]. apply frame_in.
Qed.

Lemma frame_alone k k' : (forall h, ~ G h t) -> frame G E t k k' -> alone t k -> alone t k'.
Proof. intros Hg [[Hq _] _] Ha h Hh Hx. destruct (Hq h t Hh Hx); [by apply (Ha h)|by apply (Hg h)]. Qed.

Lemma frame_list_resume k h : alone t k -> ipc_list h -> queue k h <> [] ->
  frame G E t k (rt_ipc_list_resume h k).
Proof.
  intros Ha Hh Hq. unfold rt_ipc_list_resume. destruct (queue k h) as [|w ws] eqn:Eq; [done|].
  cbn [hd]. apply frame_resume. intros ->. apply (Ha h Hh). rewrite Eq. apply list_elem_of_here.
Qed.
Lemma frame_wake k h : alone t k -> ipc_list h -> frame G E t k (wake_one h k).
Proof.
  intros Ha Hh. unfold wake_one. destruct (queue k h) eqn:Eq; [done|].
  etrans; [apply (frame_list_resume k h); [done|done|by rewrite Eq]|]. apply frame_schedule.
Qed.
Lemma frame_resume_all h fuel : (forall h, ~ G h t) -> ipc_list h -> forall k k', alone t k ->
  resume_all_loop fuel h k = Some k' -> frame G E t k k'.
Proof.
  intros Hg Hh. induction fuel as [|fuel IH]; intros k k' Ha; cbn [resume_all_loop];
    destruct (queue k h) as [|w ws] eqn:Eq; try done; try by intros [= <-].
  intros E1. assert (w <> t) as Hn by (intros ->; apply (Ha h Hh); rewrite Eq; apply list_elem_of_here).
  set (k1 := fst (rt_thread_resume w (set_error w (- RT_ERROR) k))) in *.
  assert (frame G E t k k1) as S1 by (etrans; [apply (frame_error k w)|by apply frame_resume]).
  etrans; [exact S1|]. apply IH; [|exact E1]. by apply (frame_alone k).
Qed.
Lemma frame_both k k' o : (forall h, ~ G h t) -> alone t k -> resume_both o k = Some k' -> frame G E t k k'.
Proof.
  intros Hg Ha. unfold resume_both, rt_ipc_list_resume_all.
  destruct (resume_all_loop _ (Suspended o) k) as [k1|] eqn:E1; [|done]. cbn [mbind option_bind]. intros E2.
  assert (frame G E t k k1) as S1 by (eapply (frame_resume_all (Suspended o)); [done|by exists o; left|done|done]).
  etrans; [exact S1|]. eapply (frame_resume_all (Senders o)); [done|by exists o; right| |done].
  by apply (frame_alone k).
Qed.

End frame.

(** ** Every call *)

(** What a call with this effect may make wait, and may end. *)
Definition gains (e : effect) (k : kernel) (h : qname) (x : Z) : Prop :=
  match e with On o => waits_of o h /\ running k /\ x = rt_current_thread k | _ => False end.
Definition ends (e : effect) (x : Z) : Prop := match e with Ends t => x = t | _ => False end.

Lemma ipc_suspended o : ipc_list (Suspended o).
Proof. exists o. by left. Qed.
Lemma ipc_senders o : ipc_list (Senders o).
Proof. exists o. by right. Qed.

Lemma frame_both_init G E t k o :
  frame G E t k (let k := rt_ipc_object_init o k in set_queues (<[Senders o := []]> (queues k)) k).
Proof.
  cbv zeta. etrans; [apply (frame_list G E t k (Suspended o) [])|apply frame_list];
    by intros _ x ?%not_elem_of_nil.
Qed.

Lemma frame_retire G E t k x : frame G E t k (thread_retire x k).
Proof.
  unfold thread_retire. destruct (systemobject _); [done|].
  apply frame_list. by intros ?%defunct_no_list.
Qed.
Lemma frame_closed G E t k x : E x -> frame G E t k (upd_thread x (with_stat RT_THREAD_CLOSE) k).
Proof. intros He. apply frame_upd. by right. Qed.
Lemma frame_detached G E t k x : x <> t -> frame G E t k (timer_op (fun ts => fst (rt_timer_detach x ts)) k).
Proof. intros Hn. by apply frame_timer, spares_off. Qed.

Lemma frame_detach G E t k x : x <> t -> E x -> frame G E t k (fst (rt_thread_detach x k)).
Proof.
  intros Hn He. unfold rt_thread_detach. destruct (_ =? _); [done|]. cbn [fst]. set (k1 := if negb _ then _ else k).
  assert (frame G E t k k1) as S1 by (unfold k1; destruct (negb _); [apply frame_out|done]).
  etrans; [exact S1|]. etrans; [by apply (frame_detached G E t k1 x)|]. etrans; [by apply frame_closed|apply frame_retire].
Qed.
Lemma frame_delete G E t k x : x <> t -> E x -> frame G E t k (fst (rt_thread_delete x k)).
Proof.
  intros Hn He. unfold rt_thread_delete. destruct (_ =? _); [done|]. cbn [fst]. set (k1 := if negb _ then _ else k).
  assert (frame G E t k k1) as S1 by (unfold k1; destruct (negb _); [apply frame_out|done]).
  etrans; [exact S1|]. etrans; [by apply (frame_detached G E t k1 x)|]. etrans; [by apply frame_closed|].
  apply frame_list. by intros ?%defunct_no_list.
Qed.
Lemma frame_exit G E t k : rt_current_thread k <> t -> E (rt_current_thread k) -> frame G E t k (_rt_thread_exit k).
Proof.
  intros Hn He. unfold _rt_thread_exit, rt_thread_self. set (c := rt_current_thread k) in *.
  etrans; [apply (frame_out G E t k c)|]. etrans; [by apply (frame_closed G E t _ c)|].
  etrans; [by apply (frame_detached G E t _ c)|]. etrans; [apply frame_retire|apply frame_schedule].
Qed.
Lemma frame_init G E t k x static p n : x <> t -> ~ known k x -> frame G E t k (_rt_thread_init x static p n k).
Proof.
  intros Hn Hk. unfold _rt_thread_init. set (k1 := set_threads _ k).
  assert (frame G E t k k1) as S1.
  { split; [|done]. split; [by left|]. intros y Hy. left. unfold thr, k1. cbn.
    rewrite lookup_total_insert_ne; [done|]. intros ->. by apply Hk, known_alive. }
  etrans; [exact S1|]. etrans; [apply frame_remove|]. by apply frame_timer, (spares_set t x (fun _ => _)).
Qed.
Lemma frame_yield G E t k : frame G E t k (fst (rt_thread_yield k)).
Proof.
  unfold rt_thread_yield, rt_thread_self. cbn [fst]. set (c := rt_current_thread k).
  set (k1 := upd_thread c (fun th => with_remaining (init_slice th) th) k).
  set (k2 := upd_thread c (fun th => with_stat (stat th .| RT_THREAD_STAT_YIELD) th) k1).
  assert (frame G E t k k1) as S1 by (by apply frame_field).
  assert (frame G E t k1 k2) as S2 by (apply frame_field; intros th; apply state_of_yield_on).
  etrans; [exact S1|]. etrans; [exact S2|apply frame_schedule].
Qed.
Lemma frame_exit_critical G E t k : frame G E t k (rt_exit_critical k).
Proof.
  unfold rt_exit_critical. cbv zeta. destruct (_ <=? 0); [|by apply frame_same].
  destruct (negb _); [|by apply frame_same].
  transitivity (set_lock 0 (set_lock (s16 (rt_scheduler_lock_nest k - 1)) k)); [by apply frame_same|apply frame_schedule].
Qed.
Lemma frame_startup G E t k x : x <> t -> state_of (thr k x) = RT_THREAD_INIT ->
  frame G E t k (fst (rt_thread_startup x k)).
Proof.
  intros Hn Hs. unfold rt_thread_startup. set (k1 := upd_thread x (fun th => with_priority _ th) k).
  assert (frame G E t k k1) as S1 by (by apply frame_field).
  set (k2 := upd_thread x (with_stat RT_THREAD_SUSPEND) k1).
  assert (frame G E t k k2) as S2.
  { etrans; [exact S1|]. apply frame_upd. intros _. left. right. by apply state_of_with_stat. }
  assert (frame G E t k (fst (rt_thread_resume x k2))) as S3 by (etrans; [exact S2|by apply frame_resume]).
  destruct (negb _); cbn [fst]; [|done]. etrans; [exact S3|apply frame_schedule].
Qed.

Section calls.
Context (G : qname -> Z -> Prop) (E : Z -> Prop) (t : Z) (k : kernel).
Context (Hg : forall h, ~ G h t) (Ha : alone t k).

Lemma frame_sem_release o s : frame G E t k (rt_sem_release o k s).1.1.
Proof.
  unfold rt_sem_release. destruct (queue k (Suspended o)) eqn:Eq; [by destruct (_ <? _)|]. cbn [fst].
  etrans; [apply (frame_list_resume G E t k (Suspended o)); [done|apply ipc_suspended|by rewrite Eq]|].
  apply frame_schedule.
Qed.

Lemma frame_event_loop l : t ∉ l -> forall k s need, frame G E t k (event_send_loop l k s need).1.1.1.
Proof.
  induction l as [|x l IH]; intros Hl k' s need; cbn [event_send_loop]; [done|].
  apply not_elem_of_cons in Hl as [Hx Hl]. destruct (event_test _ _ _); [by apply IH| |done].
  set (k1 := upd_thread _ _ k'). assert (frame G E t k' k1) as S1 by (by apply frame_field).
  etrans; [exact S1|]. etrans; [apply (frame_resume G E t k1 x); congruence|]. by apply IH.
Qed.

Lemma frame_event_send o set e : frame G E t k (rt_event_send o set k e).1.1.
Proof.
  unfold rt_event_send. destruct (set =? 0); [done|].
  pose proof (frame_event_loop (queue k (Suspended o)) (Ha _ (ipc_suspended o)) k (e_set e .| set) false) as Sl.
  destruct (event_send_loop _ _ _ _) as [[[k' s] need] err]. cbn [fst] in Sl.
  destruct err; cbn [fst]; [done|]. destruct need; [|done]. etrans; [exact Sl|apply frame_schedule].
Qed.

(** The calls that may wait. *)
Context (c : Z) (Ec : rt_current_thread k = c) (Hn : c <> t).

Lemma frame_sleep n : frame G E t k (rt_thread_sleep n k).
Proof.
  unfold rt_thread_sleep, rt_thread_self. rewrite Ec. etrans; [by apply (frame_suspend G E t k c)|].
  etrans; [by apply frame_start|apply frame_schedule].
Qed.

Lemma frame_sem_take o time s : G (Suspended o) c -> frame G E t k (rt_sem_take o time k s).1.1.
Proof.
  intros Hc. unfold rt_sem_take, rt_thread_self. rewrite Ec. destruct (_ >? 0); [done|]. destruct (time =? 0); [done|].
  etrans; [apply (frame_error G E t k c)|]. by apply (frame_block G E t _ (Suspended o)).
Qed.

Lemma frame_event_recv o set opt time e : G (Suspended o) c ->
  frame G E t k (rt_event_recv o set opt time k e).1.1.1.
Proof.
  intros Hc. unfold rt_event_recv, rt_thread_self. rewrite Ec. destruct (set =? 0); [done|].
  pose proof (frame_error G E t k c RT_EOK) as S1. set (k1 := set_error c RT_EOK k) in *.
  destruct (if has opt RT_EVENT_FLAG_AND then _ else _); cbn [fst].
  - etrans; [exact S1|]. by apply frame_field.
  - destruct (time =? 0); cbn [fst]; [etrans; [exact S1|]; apply frame_error|].
    etrans; [exact S1|]. etrans; [by apply (frame_field G E t k1 c (with_event set opt))|].
    by apply (frame_block G E t _ (Suspended o)).
Qed.

Lemma frame_sleep_on h flag timeout td : G h c ->
  frame G E t k (fst (sleep_on h flag timeout td (set_error c RT_EOK k))).
Proof.
  intros Hc. unfold sleep_on, rt_thread_self. change (rt_current_thread (set_error c RT_EOK k)) with (rt_current_thread k).
  rewrite Ec. cbn [fst]. etrans; [apply (frame_error G E t k c)|]. by apply (frame_block G E t _ h).
Qed.

Lemma frame_mb_send o v timeout td mb r : G (Senders o) c -> mb_ok mb ->
  mb_send_loop o v timeout td k mb = Some r -> frame G E t k r.1.1.
Proof.
  intros Hc Hok. unfold mb_send_loop, rt_thread_self. rewrite Ec.
  destruct (Z.eqb_spec (mb_entry mb) (mb_size mb)) as [He|He].
  - destruct (timeout =? 0); [intros [= <-]; apply frame_error|].
    pose proof (frame_sleep_on (Senders o) (mb_flag mb) timeout td Hc) as Hs.
    destruct (sleep_on _ _ _ _ _) as [k' w]. by intros [= <-].
  - destruct (mb_put_spec o v k mb Hok) as (mb' & -> & _); [destruct (mo_entry _ Hok); lia|].
    cbn [mbind option_bind]. intros [= <-]. apply frame_wake; [done|apply ipc_suspended].
Qed.

Lemma frame_mb_recv o timeout td mb r : G (Suspended o) c -> mb_ok mb ->
  mb_recv_loop o timeout td k mb = Some r -> frame G E t k r.1.1.1.
Proof.
  intros Hc Hok. unfold mb_recv_loop, rt_thread_self. rewrite Ec.
  destruct (Z.eqb_spec (mb_entry mb) 0) as [He|He].
  - destruct (timeout =? 0); [intros [= <-]; etrans; apply frame_error|].
    pose proof (frame_sleep_on (Suspended o) (mb_flag mb) timeout td Hc) as Hs.
    destruct (sleep_on _ _ _ _ _) as [k' w]. by intros [= <-].
  - destruct (content mb) as [|v rest] eqn:Ev.
    { pose proof (content_length mb Hok) as Hl. rewrite Ev in Hl. cbn in Hl. lia. }
    destruct (mb_take_spec o k mb v rest Hok Ev) as (mb' & -> & _).
    cbn [mbind option_bind]. intros [= <-]. apply frame_wake; [done|apply ipc_senders].
Qed.

Lemma frame_mq_send o buffer size timeout td mq r : G (Senders o) c -> mq_ok mq ->
  0 <= size <= msg_size mq -> size <= Z.of_nat (length buffer) ->
  mq_send_loop o buffer size timeout td k mq = Some r -> frame G E t k r.1.1.
Proof.
  intros Hc (q & f & Hl) Hs Hb. unfold mq_send_loop, rt_thread_self. rewrite Ec. destruct f as [|msg f].
  - pose proof (ml_f _ _ _ Hl) as Ef. cbn in Ef. rewrite Ef. destruct (timeout =? 0); [intros [= <-]; apply frame_error|].
    pose proof (frame_sleep_on (Senders o) (mq_flag mq) timeout td Hc) as Hss.
    destruct (sleep_on _ _ _ _ _) as [k' w]. by intros [= <-].
  - destruct (lists_free_block _ _ _ _ Hl) as (-> & _).
    destruct (mq_put_spec o buffer size k mq q msg f Hl Hs Hb) as (mq' & -> & _).
    cbn [mbind option_bind]. intros [= <-]. apply frame_wake; [done|apply ipc_suspended].
Qed.

Lemma frame_mq_recv o size timeout td mq r : G (Suspended o) c -> mq_ok mq -> 0 <= size ->
  mq_recv_loop o size timeout td k mq = Some r -> frame G E t k r.1.1.1.
Proof.
  intros Hc (q & f & Hl) Hs. unfold mq_recv_loop, rt_thread_self. rewrite Ec. pose proof (ml_entry _ _ _ Hl) as He.
  destruct q as [|msg q]; cbn [length] in He.
  - rewrite He. cbn [Z.of_nat Z.eqb]. destruct (timeout =? 0); [intros [= <-]; etrans; apply frame_error|].
    pose proof (frame_sleep_on (Suspended o) (mq_flag mq) timeout td Hc) as Hss.
    destruct (sleep_on _ _ _ _ _) as [k' w]. by intros [= <-].
  - rewrite (proj2 (Z.eqb_neq _ _)) by lia.
    destruct (mq_take_spec o size k mq msg q f Hl Hs) as (mq' & m & rest & _ & _ & -> & _).
    cbn [mbind option_bind]. intros [= <-]. apply frame_wake; [done|apply ipc_senders].
Qed.

Lemma frame_mutex_take o time m : G (Suspended o) c -> frame G E t k (rt_mutex_take o time k m).1.1.
Proof.
  intros Hc. unfold rt_mutex_take, rt_thread_self. rewrite Ec.
  pose proof (frame_error G E t k c RT_EOK) as S1. set (k1 := set_error c RT_EOK k) in *.
  destruct (m_owner m =? c); [by destruct (_ <? _)|]. destruct (_ >? 0); [cbn; by destruct (_ <? _)|].
  destruct (time =? 0); [etrans; [exact S1|]; apply frame_error|]. cbn [fst].
  set (k2 := if _ <? _ then _ else k1).
  assert (frame G E t k k2) as S2 by (etrans; [exact S1|]; unfold k2; destruct (_ <? _); [apply frame_priority|done]).
  etrans; [exact S2|]. by apply (frame_block G E t k2 (Suspended o)).
Qed.

Lemma frame_mutex_release o m : frame G E t k (rt_mutex_release o k m).1.1.
Proof.
  unfold rt_mutex_release, rt_thread_self. destruct (negb _); [apply frame_error|].
  cbn [hold original_priority m_owner m_value]. destruct (_ =? 0); [|done].
  set (k1 := if negb _ then _ else k).
  assert (frame G E t k k1) as S1 by (unfold k1; destruct (negb _); [apply frame_priority|done]).
  destruct (queue k1 (Suspended o)) eqn:Eq; [by destruct (_ <? _)|].
  destruct (_ <? RT_MUTEX_HOLD_MAX); cbn [fst]; [|done]. etrans; [exact S1|].
  etrans; [apply (frame_list_resume G E t k1 (Suspended o)); [|apply ipc_suspended|by rewrite Eq]|apply frame_schedule].
  by apply (frame_alone G E t k).
Qed.

End calls.

Lemma call_frame k e k' t : kernel_call k e k' -> alone t k -> (running k -> rt_current_thread k <> t) ->
  e <> Names t -> e <> Ends t -> frame (gains e k) (ends e) t k k'.
Proof.
  intros Hcall Ha Hc Hnn Hne. assert (forall h, ~ gains e k h t) as Hg.
  { destruct e; cbn; try tauto. intros h (_ & Hr & Et). symmetry in Et. by apply Hc. }
  assert (forall x, e = Names x \/ e = Ends x -> x <> t) as Hx by (intros x [-> | ->]; congruence).
  destruct Hcall.
  - apply frame_init; [apply Hx; by left|done].
  - apply frame_startup; [apply Hx; by left|done].
  - apply frame_schedule.
  - apply frame_yield.
  - eapply frame_sleep; [done|by apply Hc].
  - unfold rt_thread_sleep_end. destruct (_ =? _); [apply frame_error|done].
  - unfold rt_thread_delay_until. destruct (_ <? inc); [|done]. eapply frame_sleep; [done|by apply Hc].
  - apply frame_suspend, Hx. by left.
  - apply frame_resume, Hx. by left.
  - apply frame_detach; [apply Hx; by right|done].
  - apply frame_delete; [apply Hx; by right|done].
  - apply frame_exit; [apply Hx; by right|done].
  - apply frame_priority.
  - assert (t0 <> t) as Hn by (apply Hx; by right). cbn [rt_thread_control]. destruct (systemobject (thr k t0)).
    + pose proof (frame_detach (gains (Ends t0) k) (ends (Ends t0)) t k t0 Hn eq_refl) as S1.
      destruct (rt_thread_detach t0 k). etrans; [exact S1|apply frame_schedule].
    + pose proof (frame_delete (gains (Ends t0) k) (ends (Ends t0)) t k t0 Hn eq_refl) as S1.
      destruct (rt_thread_delete t0 k). etrans; [exact S1|apply frame_schedule].
  - by apply frame_same.
  - apply frame_exit_critical.
  - apply frame_list. by intros _ x ?%not_elem_of_nil.
  - eapply frame_sem_take; [done|by apply Hc|]. repeat split; [by left|done].
  - by apply frame_sem_release.
  - by apply frame_event_send.
  - eapply frame_event_recv; [done|by apply Hc|]. repeat split; [by left|done].
  - apply frame_both_init.
  - unfold rt_mb_send_wait in *. destruct (_ && _); simplify_eq/=; [done|].
    eapply frame_mb_send; [done|done|by apply Hc| |done|eassumption]. repeat split; [by right|done].
  - unfold rt_mb_send_resumed in *. destruct (negb _); simplify_eq/=; [done|].
    eapply frame_mb_send; [done|done|by apply Hc| |done|eassumption]. repeat split; [by right|done].
  - destruct (mb_urgent_kernel _ _ _ _ _ H0) as [-> | ->]; [done|apply frame_wake; [done|apply ipc_suspended]].
  - unfold rt_mb_recv in *. destruct (_ && _); simplify_eq/=; [done|].
    eapply frame_mb_recv; [done|done|by apply Hc| |done|eassumption]. repeat split; [by left|done].
  - unfold rt_mb_recv_resumed in *. destruct (negb _); simplify_eq/=; [done|].
    eapply frame_mb_recv; [done|done|by apply Hc| |done|eassumption]. repeat split; [by left|done].
  - apply frame_both_init.
  - unfold rt_mq_send_wait in *. destruct (Z.gtb_spec size (msg_size mq)); simplify_eq/=; [done|].
    destruct (msg_queue_free mq), (time =? 0); simplify_eq/=; try done;
      (eapply frame_mq_send; [done|done|by apply Hc| |done| | |eassumption];
         [repeat split; [by right|done]|lia|lia]).
  - unfold rt_mq_send_resumed in *. destruct (negb _); simplify_eq/=; [done|].
    eapply frame_mq_send; [done|done|by apply Hc| |done|done|done|eassumption]. repeat split; [by right|done].
  - destruct (mq_urgent_kernel _ _ _ _ _ _ H0) as [-> | ->]; [done|apply frame_wake; [done|apply ipc_suspended]].
  - unfold rt_mq_recv in *. destruct (_ && _); simplify_eq/=; [done|].
    eapply frame_mq_recv; [done|done|by apply Hc| |done|done|eassumption]. repeat split; [by left|done].
  - unfold rt_mq_recv_resumed in *. destruct (negb _); simplify_eq/=; [done|].
    eapply frame_mq_recv; [done|done|by apply Hc| |done|done|eassumption]. repeat split; [by left|done].
  - eapply (frame_resume_all _ _ t (Suspended o)); [done|apply ipc_suspended|done|eassumption].
  - by eapply frame_both.
Qed.

(** ** Ticks *)

Section ticks.
Context (G : qname -> Z -> Prop) (E : Z -> Prop).

Lemma waits_same k k' : threads k' = threads k -> queues k' = queues k -> waits_frame G E k k'.
Proof.
  intros E1 E2. split.
  - intros h x _. unfold queue. rewrite E2. by left.
  - intros x. rewrite (threads_thr k k' E1). by left.
Qed.

Lemma waits_timeout k x : waits_frame G E k (rt_thread_timeout x k).
Proof.
  unfold rt_thread_timeout. etrans; [apply (frame_error G E 0 k x)|]. etrans; [apply (frame_remove G E 0 _ x)|].
  etrans; [apply (frame_in G E 0)|apply (frame_schedule G E 0)].
Qed.

Lemma waits_timer_check fuel : forall k k', rt_timer_check fuel k = Some k' -> waits_frame G E k k'.
Proof.
  induction fuel as [|fuel IH]; intros k k'; cbn [rt_timer_check];
    destruct (rt_timer_list (k_timers k)) as [|x l]; try by intros [= <-].
  - destruct (expired _ _); [done|by intros [= <-]].
  - destruct (expired _ _); [|by intros [= <-]]. set (k1 := timer_op (_rt_timer_remove x) k).
    set (k2 := if periodic _ then k1 else timer_op (set_activated false x) k1).
    set (k3 := timer_op _ k2). assert (waits_frame G E k k3) as S3 by (by apply waits_same; unfold k3, k2; destruct (periodic _)).
    set (k4 := rt_thread_timeout x k3). assert (waits_frame G E k k4) as S4 by (etrans; [exact S3|apply waits_timeout]).
    destruct (decide _); [intros Et; etrans; [exact S4|by apply IH]|].
    destruct (_ && _); intros Et; (etrans; [exact S4|]); (etrans; [|by apply IH, Et]); by apply waits_same.
Qed.

Lemma waits_tick k k' : tick_handler k = Some k' -> waits_frame G E k k'.
Proof.
  unfold tick_handler. rewrite rt_tick_increase_unfold. intros Et. etrans; [|by eapply waits_timer_check].
  unfold tick_slice. set (k0 := set_tick (u32 (rt_tick k + 1)) k). cbv zeta.
  assert (waits_frame G E k k0) as S0 by (by apply waits_same). set (c := rt_thread_self k0).
  set (k1 := upd_thread c (fun th => with_remaining (u32 (remaining_tick th - 1)) th) k0).
  assert (waits_frame G E k0 k1) as S1 by (by apply (frame_field G E 0)).
  destruct (_ =? 0); [|by etrans].
  set (k2 := upd_thread c (fun th => with_remaining (init_slice th) th) k1).
  assert (waits_frame G E k1 k2) as S2 by (by apply (frame_field G E 0)).
  set (k3 := upd_thread c (fun th => with_stat (stat th .| RT_THREAD_STAT_YIELD) th) k2).
  assert (waits_frame G E k2 k3) as S3 by (apply (frame_field G E 0); intros th; apply state_of_yield_on).
  etrans; [exact S0|]. etrans; [exact S1|]. etrans; [exact S2|]. etrans; [exact S3|]. apply (frame_schedule G E 0).
Qed.
End ticks.

(** ** A kernel and its mutexes *)

Record system := mk_system { sys_kernel : kernel; mutexes : gmap Z rt_mutex }.

Definition owns (ms : gmap Z rt_mutex) (t : Z) : Prop := exists o m, ms !! o = Some m /\ m_owner m = t.

(** A mutex is made, taken, released and given up by its own calls; no thread
    ends that owns one. *)
Inductive system_step (k : kernel) (ms : gmap Z rt_mutex) : system -> Prop :=
  | sys_call e k' : kernel_call k e k' -> (forall o, e = On o -> ms !! o = None) ->
      (forall t, e = Ends t -> ~ owns ms t) -> system_step k ms (mk_system k' ms)
  | sys_tick k' : tick_handler k = Some k' -> system_step k ms (mk_system k' ms)
  | sys_mutex_init o : queue k (Suspended o) = [] ->
      system_step k ms (mk_system (rt_mutex_init o k).1.1 (<[o := (rt_mutex_init o k).1.2]> ms))
  | sys_mutex_take o time m : running k -> ms !! o = Some m -> wait_time time ->
      system_step k ms (mk_system (rt_mutex_take o time k m).1.1 (<[o := (rt_mutex_take o time k m).1.2]> ms))
  | sys_mutex_release o m : running k -> ms !! o = Some m ->
      system_step k ms (mk_system (rt_mutex_release o k m).1.1 (<[o := (rt_mutex_release o k m).1.2]> ms))
  | sys_mutex_detach o k' e : rt_mutex_detach o k = Some (k', e) ->
      system_step k ms (mk_system k' (delete o ms)).

Inductive system_reach (k0 : kernel) : system -> Prop :=
  | sys_start : system_reach k0 (mk_system k0 ∅)
  | sys_next s s' : system_reach k0 s -> system_step (sys_kernel s) (mutexes s) s' -> system_reach k0 s'.

Definition system_inv (s : system) : Prop :=
  kernel_inv (sys_kernel s) /\ map_Forall (mutex_ok (sys_kernel s)) (mutexes s).

(** Some identifier is not that of a thread. *)
Lemma stranger k x : kernel_inv k -> exists t, t <> x /\ alone t k /\ rt_current_thread k <> t.
Proof.
  intros H. set (t := fresh (dom (threads k) ∪ {[x]} : gset Z)).
  assert (t ∉ dom (threads k) ∪ {[x]}) as Ht by apply is_fresh. apply not_elem_of_union in Ht as [Hk Hx].
  assert (~ known k t) as Hn by (intros ?; apply Hk; by apply elem_of_dom). exists t.
  split; [set_solver|]. split.
  - intros h _ Hin. by apply Hn, (bt_in _ _ (proj1 (proj1 (ki_ok _ H))) t h).
  - intros E. apply Hn. rewrite <- E. apply H.
Qed.

Lemma call_waits k e k' : kernel_inv k -> kernel_call k e k' -> waits_frame (gains e k) (ends e) k k'.
Proof.
  intros H Hcall. destruct (stranger k (match e with Names t | Ends t => t | _ => 0 end) H) as (t & Hx & Ha & Hc).
  apply (call_frame k e k' t Hcall Ha (fun _ => Hc)); intros ->; done.
Qed.

Lemma mutex_frame G E k k' o m : waits_frame G E k k' -> (forall x, ~ G (Suspended o) x) -> ~ E (m_owner m) ->
  mutex_ok k o m -> mutex_ok k' o m.
Proof.
  intros [Hq Ha] Hg He [Hm]. split.
  assert (forall x, x ∈ queue k' (Suspended o) -> x ∈ queue k (Suspended o)) as Hs.
  { intros x Hx. destruct (Hq (Suspended o) x (ipc_suspended o) Hx); [done|by destruct (Hg x)]. }
  destruct Hm as [(H1 & H2 & H3 & H4)|(H1 & H2 & H3 & H4 & H5)].
  - left. repeat split; try done. destruct (queue k' (Suspended o)) as [|x l]; [done|].
    specialize (Hs x). rewrite H4 in Hs. destruct (not_elem_of_nil x). apply Hs, list_elem_of_here.
  - right. repeat split; try done; try lia; [by destruct (Ha _ H2)|]. intros Hx. by apply H5, Hs.
Qed.

Lemma mutexes_frame G E k k' (ms : gmap Z rt_mutex) : waits_frame G E k k' ->
  (forall o m, ms !! o = Some m -> (forall x, ~ G (Suspended o) x) /\ ~ E (m_owner m)) ->
  map_Forall (mutex_ok k) ms -> map_Forall (mutex_ok k') ms.
Proof. intros Hf Hms Hok o m Em. destruct (Hms o m Em). by eapply mutex_frame; [| | |apply Hok]. Qed.

(** The other mutexes while one of them is at work. *)
Lemma mutexes_at k k' (ms : gmap Z rt_mutex) o m E : waits_frame (gains (On o) k) E k k' -> (forall x, ~ E x) -> mutex_ok k' o m ->
  map_Forall (mutex_ok k) ms -> map_Forall (mutex_ok k') (<[o := m]> ms).
Proof.
  intros Hf He Hm Hok o' m'. destruct (decide (o = o')) as [<-|Hn].
  - rewrite lookup_insert_eq. by intros [= <-].
  - rewrite lookup_insert_ne by done. intros Em. eapply mutex_frame; [exact Hf| |done|by apply Hok].
    intros x ([Ew|Ew] & _); congruence.
Qed.

Lemma mutex_take_keeps k o time m : running_ok k -> mutex_ok k o m ->
  mutex_ok (rt_mutex_take o time k m).1.1 o (rt_mutex_take o time k m).1.2.
Proof.
  intros Hr Hm. destruct (decide (m_value m = 1)) as [H1|H1]; [by destruct (mutex_take_free k o m time) as [-> ?]|].
  assert (m_value m = 0) as H0 by (by destruct (mo_state _ _ _ Hm) as [[? _]|[? _]]).
  destruct (decide (m_owner m = rt_current_thread k)) as [Ho|Ho].
  - pose proof (mutex_take_owner k o m time Hr Hm Ho) as Ht. cbv zeta in Ht.
    destruct (_ <? _); [by destruct Ht as [-> ?]|]. rewrite Ht. by apply mutex_ok_entered.
  - destruct (decide (time = 0)) as [->|Ht].
    + rewrite (mutex_take_busy k o m) by done. pose proof (mutex_ok_entered k o m Hm) as He.
      eapply (mutex_frame (fun _ _ => False) (fun _ => False)); [|by intros x []|by intros []|exact He].
      apply (frame_error _ _ 0).
    + by destruct (mutex_take_blocks k o m time) as (k' & -> & ? & _).
Qed.

Lemma mutex_release_keeps k o m : running_ok k -> mutex_ok k o m ->
  mutex_ok (rt_mutex_release o k m).1.1 o (rt_mutex_release o k m).1.2.
Proof.
  intros Hr Hm. destruct (decide (m_owner m = rt_current_thread k)) as [Ho|Ho].
  - destruct (mo_state _ _ _ Hm) as [(_ & E & _)|(_ & _ & Hh & _)].
    { rewrite E in Ho. by destruct (running_not_null k Hr). }
    destruct (decide (1 < hold m)) as [Hl|Hl]; [by destruct (mutex_release_nested k o m) as [-> ?]|].
    assert (hold m = 1) as H1 by lia. destruct (queue k (Suspended o)) as [|w ws] eqn:Eq.
    + by destruct (mutex_release_free k o m) as [-> ?].
    + by destruct (mutex_release_hands k o m w ws) as (k' & -> & ? & _).
  - rewrite mutex_release_other by done.
    eapply (mutex_frame (fun _ _ => False) (fun _ => False)); [|by intros x []|by intros []|exact Hm].
    apply (frame_error _ _ 0).
Qed.

Lemma system_step_inv k ms s : kernel_inv k -> map_Forall (mutex_ok k) ms -> system_step k ms s -> system_inv s.
Proof.
  intros H Hms Hstep. assert (running k -> running_ok k) as Hro by (by apply inv_running).
  assert (forall x, ~ ends (On 0) x) as Hno by (by intros x []).
  destruct (stranger k 0 H) as (t & _ & Ha & Hc).
  destruct Hstep as [e k' Hcall Hon Hend|k' Htick|o Hq|o time m Hr Em Ht|o m Hr Em|o k' e Hd]; split; cbn [sys_kernel mutexes].
  - by eapply call_inv.
  - eapply mutexes_frame; [by apply call_waits| |done]. intros o m Em. split.
    + intros x. destruct e; cbn; try tauto. intros ([Ew|Ew] & _); [|done]. injection Ew as Ew. rewrite Ew in Em. by rewrite (Hon _ eq_refl) in Em.
    + destruct e; cbn; try tauto. intros <-. apply (Hend _ eq_refl). by exists o, m.
  - by eapply inv_tick; [| |eassumption].
  - eapply (mutexes_frame (fun _ _ => False) (fun _ => False)); [by apply waits_tick|by intros ? ? _; split; [intros x []|intros []]|done].
  - by apply inv_list_init.
  - eapply (mutexes_at k _ ms o _ (ends (On 0))); [|done| |done].
    + apply (frame_list _ _ 0). by intros _ x ?%not_elem_of_nil.
    + split. left. repeat split; try done. change (queue (rt_ipc_object_init o k) (Suspended o) = []). by rewrite queue_ipc_init, decide_True.
  - by apply inv_mutex_take; [| |apply Hms|].
  - pose proof (mutex_take_keeps k o time m (Hro Hr) (Hms o m Em)) as Hk.
    eapply mutexes_at; [|exact Hno|done|done]. eapply (frame_mutex_take _ _ t); [done|done|]. by split; [left|].
  - by apply inv_mutex_release; [| |apply Hms].
  - pose proof (mutex_release_keeps k o m (Hro Hr) (Hms o m Em)) as Hk.
    eapply mutexes_at; [|exact Hno|done|done].
    apply (frame_mutex_release _ _ t); [intros h (_ & _ & E); by apply Hc|done].
  - unfold rt_mutex_detach in Hd. destruct (rt_ipc_list_resume_all _ k) as [k1|] eqn:E; [|done].
    cbn in Hd. injection Hd as -> _. by eapply (inv_resume_all (Suspended o)); [| |exact H|exact E].
  - unfold rt_mutex_detach in Hd. destruct (rt_ipc_list_resume_all _ k) as [k1|] eqn:E; [|done].
    cbn in Hd. injection Hd as -> _. apply map_Forall_delete.
    eapply (mutexes_frame (fun _ _ => False) (fun _ => False)); [|by intros ? ? _; split; [intros x []|intros []]|done].
    eapply (frame_resume_all _ _ t (Suspended o)); [by intros h []|apply ipc_suspended|done|exact E].
Qed.

Lemma system_reach_inv k0 s : kernel_inv k0 -> system_reach k0 s -> system_inv s.
Proof.
  intros H. induction 1 as [|s s' _ [Hi Hms] Hstep]; [by split; [|apply map_Forall_empty]|].
  by eapply system_step_inv.
Qed.

(** C3 Threads are created and started while the kernel boots, one of them
    ready, and then the scheduler starts.  From there on no sequence of ticks
    and calls breaks the kernel: priorities stay in range, a thread is in the
    list its state asks for and in no other, the priority bitmap has the bits
    of the non-empty ready lists, only the current thread runs, and the timer
    list is sorted with no timer overdue; and every mutex is either free with
    nobody waiting or owned by a thread that is alive and does not wait for
    it.  The calls ([kernel_call] and [system_step]) are those of [thread.c],
    [scheduler.c] and [ipc.c]: initialising, starting, suspending and resuming
    any thread, yielding, sleeping, delaying, changing a priority, exiting,
    detaching, deleting and closing, critical sections; initialising and waking
    all waiters of an IPC object; taking and releasing semaphores and mutexes,
    sending and receiving events, mailbox and queue messages, urgent ones and
    the rest of a send or receive that had waited.  Assumed of the callers:
    a call that may wait is made by the running thread with a time below half
    the tick range, a thread is initialised under a new identifier, started
    once, and otherwise exists, priorities are below 32, a semaphore, event,
    mailbox or queue is handed over in a consistent state (any such state) and
    is initialised while nobody waits on it, an object that is a mutex is used
    by mutex calls only, and no thread is ended while it owns a mutex.  Timers are
    those of the threads; a client's own timer is not modelled. *)
Theorem kernel_always_ok k0 s t : boot_reach k0 -> known k0 t ->
  state_of (thr k0 t) = RT_THREAD_READY ->
  system_reach (rt_system_scheduler_start k0) s ->
  kernel_inv (sys_kernel s) /\ map_Forall (mutex_ok (sys_kernel s)) (mutexes s).
Proof. intros Hb Hk Hs. by apply system_reach_inv, (boot_started k0 t). Qed.

(** ** Sleeping threads wake *)

(** [m] ticks, and between them any calls that do not act on [t]. *)
Inductive meanwhile (t : Z) (k : kernel) : nat -> kernel -> Prop :=
  | while_start : meanwhile t k 0 k
  | while_call m k1 e k2 : meanwhile t k m k1 -> kernel_call k1 e k2 -> e <> Names t -> e <> Ends t ->
      meanwhile t k m k2
  | while_mutex_take m k1 o time mu : meanwhile t k m k1 -> running k1 -> mutex_ok k1 o mu -> wait_time time ->
      meanwhile t k m (rt_mutex_take o time k1 mu).1.1
  | while_mutex_release m k1 o mu : meanwhile t k m k1 -> running k1 -> mutex_ok k1 o mu ->
      meanwhile t k m (rt_mutex_release o k1 mu).1.1
  | while_tick m k1 k2 : meanwhile t k m k1 -> tick_handler k1 = Some k2 -> meanwhile t k (S m) k2.

(** [t] waits for its timer only, which is due in [d] ticks. *)
Record dormant (t d : Z) (k : kernel) : Prop := {
  dm_inv : kernel_inv k;
  dm_list : t ∈ rt_timer_list (k_timers k);
  dm_due : due (rt_tick k) (tmr (k_timers k) t) = d;
  dm_alone : alone t k }.

Lemma dormant_state t d k : dormant t d k -> state_of (thr k t) = RT_THREAD_SUSPEND.
Proof. intros [H Hl _ _]. by apply (ti_sleeping _ (ki_timers _ H)). Qed.
Lemma dormant_idle t d k : dormant t d k -> running k -> rt_current_thread k <> t.
Proof. intros Hd Hr E. unfold running in Hr. rewrite E, (dormant_state t d k Hd) in Hr. done. Qed.

Lemma waits_alone G E t k k' : waits_frame G E k k' -> (forall h, ~ G h t) -> alone t k -> alone t k'.
Proof. intros [Hq _] Hg Ha h Hh Hx. destruct (Hq h t Hh Hx); [by apply (Ha h)|by apply (Hg h)]. Qed.

Lemma dormant_frame G E t d k k' : dormant t d k -> kernel_inv k' -> frame G E t k k' ->
  (forall h, ~ G h t) -> dormant t d k'.
Proof.
  intros [H Hl Hd Ha] H' [Hw [F1 F2 F3]] Hg. split; [done|by apply F2|by rewrite F1, F3|by eapply waits_alone].
Qed.

Lemma dormant_gains e t d k h : dormant t d k -> ~ gains e k h t.
Proof. intros Hd. destruct e; cbn; try tauto. intros (_ & Hr & E). by apply (dormant_idle t d k Hd Hr). Qed.

Lemma dormant_call t d k e k' : dormant t d k -> kernel_call k e k' -> e <> Names t -> e <> Ends t ->
  dormant t d k'.
Proof.
  intros Hd Hcall Hn He. eapply dormant_frame; [exact Hd|by eapply call_inv; [apply Hd|]| |].
  - apply (call_frame k e k' t); [done|apply Hd|by apply (dormant_idle t d)|done|done].
  - intros h. by apply (dormant_gains e t d).
Qed.

Lemma dormant_tick t d k : dormant t d k -> exists k', tick_handler k = Some k' /\ kernel_inv k' /\
  if d <=? 1 then awake (thr k' t) /\ error (thr k' t) = - RT_ETIMEOUT else dormant t (d - 1) k'.
Proof.
  intros Hd. pose proof (dm_inv _ _ _ Hd) as H.
  destruct (tick_sleeper k t H (dm_list _ _ _ Hd)) as (k' & E & H' & Hcase). rewrite (dm_due _ _ _ Hd) in Hcase.
  exists k'. split; [done|]. split; [done|]. destruct (d <=? 1); [done|]. destruct Hcase as [Hl Hdue].
  split; [done|done|done|]. eapply (waits_alone (fun _ _ => False) (fun _ => False));
    [by apply (waits_tick _ _ k)|by intros h []|apply Hd].
Qed.

Lemma meanwhile_dormant t k n m k' : meanwhile t k m k' -> dormant t n k -> Z.of_nat m < n ->
  dormant t (n - Z.of_nat m) k'.
Proof.
  intros Hm Hd. induction Hm as [|m k1 e k2 _ IH Hcall Hn He|m k1 o time mu _ IH Hr Hok Ht
    |m k1 o mu _ IH Hr Hok|m k1 k2 _ IH Htick]; intros Hlt.
  - by rewrite Z.sub_0_r.
  - by eapply dormant_call; [apply IH| | |].
  - specialize (IH Hlt). pose proof (dormant_idle _ _ _ IH Hr) as Hc.
    eapply (dormant_frame (gains (On o) k1) (fun _ => False)); [exact IH|apply inv_mutex_take; [apply IH|done..]| |].
    + eapply frame_mutex_take; [done|done|]. repeat split; [by left|done].
    + intros h. by eapply dormant_gains.
  - specialize (IH Hlt). eapply (dormant_frame (fun _ _ => False) (fun _ => False));
      [exact IH|apply inv_mutex_release; [apply IH|done..]| |by intros h []].
    apply frame_mutex_release; [by intros h []|apply IH].
  - destruct (dormant_tick t _ k1 (IH ltac:(lia))) as (k3 & E & _ & Hcase). rewrite E in Htick. injection Htick as ->.
    rewrite (proj2 (Z.leb_gt _ _)) in Hcase by lia. replace (n - Z.of_nat (S m)) with (n - Z.of_nat m - 1) by lia. done.
Qed.

Lemma sleep_dormant k n : kernel_inv k -> running k -> 1 <= n < RT_TICK_MAX / 2 ->
  dormant (rt_current_thread k) n (rt_thread_sleep n k).
Proof.
  intros H Hr Hn. destruct (inv_slept k n H Hr) as (H1 & Hin & Hd); [lia|].
  destruct (stranger k 0 H) as (x & _ & Hx & Hc).
  assert (waits_frame (fun _ _ => False) (fun _ => False) k (rt_thread_sleep n k)) as Hw
    by (eapply (frame_sleep _ _ x); [done|done]).
  cbv zeta in *. unfold rt_thread_sleep, rt_thread_self in *. set (k1 := start_thread_timer _ _ _) in *.
  destruct (schedule_keeps k1 (ki_ok _ H1) (ki_current _ H1)) as (_ & Etm & Etk & _). cbv zeta in *.
  split; [by apply inv_schedule|by rewrite Etm|by rewrite Etk, Etm|].
  eapply waits_alone; [exact Hw|by intros h []|]. intros h _. apply (core_no_list k); [apply H|done].
Qed.

(** C12 A thread calls [rt_thread_sleep] for [n] ticks, at least one and fewer
    than half the tick range.  As long as fewer than [n] ticks have come it
    sleeps, whatever calls other threads and interrupts make between the ticks
    - they may block, wake, start and end threads, lock the scheduler, use IPC
    objects - except those that act on the sleeper itself (resuming,
    suspending, detaching, deleting or closing it); every tick's handler ends;
    and when the [n]-th tick's handler is done the thread is ready or running,
    and [rt_thread_sleep] clears the timeout error it left.  Mutexes are
    consistent when they are used; timers are those of the threads. *)
Theorem sleep_wakes_on_time k n m k' : kernel_inv k -> running k -> 1 <= Z.of_nat n < RT_TICK_MAX / 2 ->
  let t := rt_current_thread k in
  meanwhile t (rt_thread_sleep (Z.of_nat n) k) m k' -> (m < n)%nat ->
  state_of (thr k' t) = RT_THREAD_SUSPEND /\
  exists k'', tick_handler k' = Some k'' /\ kernel_inv k'' /\
    (S m = n -> awake (thr k'' t) /\ error (thr k'' t) = - RT_ETIMEOUT /\
       error (thr (fst (rt_thread_sleep_end t k'')) t) = RT_EOK).
Proof.
  intros H Hr Hn t Hm Hlt. pose proof (sleep_dormant k (Z.of_nat n) H Hr Hn) as Hd. fold t in Hd.
  pose proof (meanwhile_dormant t _ _ m k' Hm Hd ltac:(lia)) as Hd'. split; [by eapply dormant_state|].
  destruct (dormant_tick t _ k' Hd') as (k2 & E & H2 & Hcase). exists k2. split; [done|]. split; [done|].
  intros Em. rewrite (proj2 (Z.leb_le _ _)) in Hcase by lia. destruct Hcase as [Ha He]. split; [done|]. split; [done|].
  unfold rt_thread_sleep_end. rewrite He, Z.eqb_refl. cbn [fst]. unfold set_error. by rewrite thr_upd_same.
Qed.
