(* ===== verification/KernelExamples.v ===== *)
(** * KernelExamples: the theorems at concrete kernels

    The system of [KernelCheck] with four threads, threads of it blocked on a
    semaphore, a mutex and an event, a mailbox and a message queue with two
    places: each theorem about the kernel applied to one of them. *)
From S2P Require Import Prelude Timer Kernel KernelInv KernelOps Ipc IpcInv MutexInv EventInv.
From S2P Require Import Queue Mailbox MessageQueue KernelCheck KernelSystem KernelFrame.

(** ** The boot *)

Lemma boot_add k t p n : boot_reach k -> bool_decide (known k t) = false ->
  bool_decide (t <> RT_NULL /\ t <> NOBODY /\ 0 <= p < 32) = true ->
  boot_reach (add_thread t p n k).
Proof.
  intros Hb Hk Hp. apply bool_decide_eq_false in Hk. apply bool_decide_eq_true in Hp.
  assert (boot_reach (_rt_thread_init t true p n k)) as Hb1 by (by apply boot_thread; tauto || lia).
  apply boot_startup; [done| |].
  - unfold known. cbn. by rewrite lookup_insert_eq.
  - unfold thr. cbn. by rewrite lookup_total_insert_eq.
Qed.

Lemma boot4_reach : boot_reach boot4.
Proof. unfold boot4. repeat (apply boot_add; [|by vm_compute|by vm_compute]). apply boot_init. Qed.

Lemma boot4_known : known boot4 3.
Proof. apply (bool_decide_eq_true_1 _). by vm_compute. Qed.

Lemma boot4_ready : state_of (thr boot4 3) = RT_THREAD_READY.
Proof. by vm_compute. Qed.

Lemma kernel4_inv : kernel_inv kernel4.
Proof. unfold kernel4. exact (boot_started boot4 3 boot4_reach boot4_known boot4_ready). Qed.

Lemma kernel4_running_ok : running_ok kernel4.
Proof. apply kernel4_runs. Qed.

(** The running thread makes a mutex, takes it and yields. *)
Lemma kernel_always_ok_witness : exists s, system_reach kernel4 s /\ is_Some (mutexes s !! 9) /\
  kernel_inv (sys_kernel s) /\ map_Forall (mutex_ok (sys_kernel s)) (mutexes s).
Proof.
  assert (exists s, system_reach kernel4 s /\ is_Some (mutexes s !! 9)) as (s & H & Hm).
  { pose proof (sys_next kernel4 _ _ (sys_start kernel4) (sys_mutex_init kernel4 ∅ 9 ltac:(by vm_compute))) as H1.
    cbn [rt_mutex_init] in H1. set (k1 := rt_ipc_object_init 9 kernel4) in *. set (m1 := mk_mutex 1 RT_NULL 255 0) in *.
    pose proof (sys_next kernel4 _ _ H1 (sys_mutex_take k1 _ 9 (-1) m1 ltac:(by vm_compute) (lookup_insert_eq _ _ _) eq_refl)) as H2.
    eexists. split; [exact (sys_next kernel4 _ _ H2 (sys_call _ _ Plain _ (call_yield _) ltac:(done) ltac:(done)))|].
    cbn [mutexes sys_kernel]. eexists. apply lookup_insert_eq. }
  exists s. split; [exact H|]. split; [exact Hm|].
  exact (kernel_always_ok boot4 s 3 boot4_reach boot4_known boot4_ready H).
Defined.

(** ** The scheduler and the tick *)

(** Thread 3 lowers its own priority: thread 4 is next. *)
Definition lowered : kernel := fst (rt_thread_control 3 (RT_THREAD_CTRL_CHANGE_PRIORITY 25) kernel4).

Lemma schedule_highest_witness : rt_current_thread (rt_schedule lowered) = 4 /\
  current_priority (thr (rt_schedule lowered) (rt_current_thread (rt_schedule lowered))) <=
  current_priority (thr (rt_schedule lowered) 2).
Proof.
  split; [by vm_compute|]. apply (schedule_highest lowered).
  - kernel_check.
  - apply (bool_decide_eq_true_1 _). by vm_compute.
  - by vm_compute.
  - by vm_compute.
  - apply (bool_decide_eq_true_1 _). by vm_compute.
  - by vm_compute.
Defined.

Lemma kernel4_running : running kernel4.
Proof. by vm_compute. Qed.

(** A tick, a call of another thread, and the second tick wakes the sleeper. *)
Lemma sleep_wakes_on_time_witness : let t := rt_current_thread kernel4 in
  exists k' k'', meanwhile t (rt_thread_sleep 2 kernel4) 1 k' /\ state_of (thr k' t) = RT_THREAD_SUSPEND /\
    tick_handler k' = Some k'' /\ awake (thr k'' t).
Proof.
  assert (1 <= 2 < RT_TICK_MAX / 2) as Hn by (by vm_compute).
  pose proof (dm_inv _ _ _ (sleep_dormant kernel4 2 kernel4_inv kernel4_running Hn)) as H0.
  intros t. set (k0 := rt_thread_sleep 2 kernel4) in *. destruct (tick_total _ k0 H0 (le_n _)) as [k1 E].
  assert (meanwhile t k0 1 (fst (rt_thread_yield k1))) as Hm.
  { apply (while_call t k0 1 k1 Plain); [|apply call_yield|done|done]. by apply (while_tick t k0 0 k0); [apply while_start|]. }
  destruct (sleep_wakes_on_time kernel4 2 1 _ kernel4_inv kernel4_running Hn Hm ltac:(lia))
    as (Hs & k2 & E2 & _ & Hw).
  exists (fst (rt_thread_yield k1)), k2. split; [exact Hm|]. split; [exact Hs|]. split; [exact E2|]. by apply Hw.
Defined.

Lemma tick_fires_due_witness : exists k', rt_tick_increase 0 kernel4 = Some k' /\ kernel_inv k' /\
  rt_tick k' = 1.
Proof.
  assert (length (rt_timer_list (k_timers kernel4)) = 0%nat) as E by (by vm_compute).
  destruct (tick_fires_due kernel4 kernel4_inv) as (k' & E1 & H1 & H2 & _). rewrite E in E1.
  exists k'. split; [exact E1|]. split; [exact H1|]. rewrite H2. by vm_compute.
Defined.

(** ** Semaphores *)

Definition empty_sem : rt_semaphore := mk_sem 0 RT_IPC_FLAG_FIFO.
(** Thread 3 waits on semaphore 100. *)
Definition sem_waits : kernel := (rt_sem_take 100 (-1) kernel4 empty_sem).1.1.

Lemma semaphore_take_witness : exists k', rt_sem_take 100 50 kernel4 empty_sem = (k', empty_sem, Blocked) /\
  kernel_ok k' /\ state_of (thr k' (rt_current_thread kernel4)) = RT_THREAD_SUSPEND.
Proof.
  destruct (semaphore_take kernel4 100 empty_sem 50 kernel4_running_ok) as (k' & H1 & _ & H2 & _ & H3 & _).
  - split; [cbn; lia|by vm_compute|by left].
  - exact (ex_intro _ k' (conj H1 (conj H2 H3))).
Defined.

Lemma semaphore_release_witness : exists k', rt_sem_release 100 sem_waits empty_sem = (k', empty_sem, RT_EOK) /\
  awake (thr k' 3) /\ blocked_end 3 k' = RT_EOK /\ queue k' (Suspended 100) = [].
Proof.
  assert (queue sem_waits (Suspended 100) = [3]) as E by (by vm_compute).
  assert (sem_ok sem_waits 100 empty_sem) as Hs by (split; [cbn; lia|done|by left]).
  assert (kernel_ok sem_waits) as Hk by kernel_check.
  assert (known sem_waits (rt_current_thread sem_waits)) as Hc
    by (apply (bool_decide_eq_true_1 _); by vm_compute).
  assert (waits_ok sem_waits 100) as Hw.
  { intros x Hx. rewrite E in Hx. apply list_elem_of_singleton in Hx as ->. by vm_compute. }
  pose proof (semaphore_release sem_waits 100 empty_sem Hk Hc Hs Hw) as [_ H]. rewrite E in H.
  destruct H as (k' & H1 & _ & _ & _ & H2 & H3 & H4 & _).
  exact (ex_intro _ k' (conj H1 (conj H2 (conj H3 H4)))).
Defined.

(** ** Mutexes *)

(** Thread 4 owns mutex 200 at priority 10; thread 3 at priority 5 asks for it. *)
Definition owned : rt_mutex := mk_mutex 0 4 10 1.
Definition urgent3 : kernel := fst (rt_thread_control 3 (RT_THREAD_CTRL_CHANGE_PRIORITY 5) kernel4).

Lemma mutex_take_witness : exists k', rt_mutex_take 200 (-1) urgent3 owned = (k', owned, Blocked) /\
  current_priority (thr k' 4) =
    Z.min (current_priority (thr urgent3 4)) (current_priority (thr urgent3 (rt_current_thread urgent3))).
Proof.
  assert (running_ok urgent3) as Hr.
  { split; [kernel_check|apply (bool_decide_eq_true_1 _); by vm_compute|by vm_compute]. }
  assert (mutex_ok urgent3 200 owned) as Hm.
  { split. right. split; [done|]. split; [left; left; by vm_compute|]. split; [cbn; lia|].
    split; [cbn; lia|]. apply (bool_decide_eq_true_1 _). by vm_compute. }
  pose proof (mutex_take urgent3 200 owned (-1) Hr Hm) as H.
  assert ((m_owner owned =? rt_current_thread urgent3) = false) as E by (by vm_compute).
  cbv zeta in H. rewrite E in H.
  destruct H as (k' & H1 & _ & _ & _ & _ & _ & _ & H2 & _).
  exact (ex_intro _ k' (conj H1 H2)).
Defined.

Lemma mutex_release_witness :
  rt_mutex_release 200 kernel4 (mk_mutex 0 3 10 2) = (kernel4, mk_mutex 0 3 10 1, RT_EOK).
Proof.
  assert (mutex_ok kernel4 200 (mk_mutex 0 3 10 2)) as Hm.
  { split. right. split; [done|]. split; [left; right; by vm_compute|]. split; [cbn; lia|].
    split; [cbn; lia|]. apply (bool_decide_eq_true_1 _). by vm_compute. }
  pose proof (mutex_release kernel4 200 (mk_mutex 0 3 10 2) kernel4_running_ok Hm) as H.
  assert (negb (rt_current_thread kernel4 =? m_owner (mk_mutex 0 3 10 2)) = false) as E by (by vm_compute).
  cbv zeta in H. rewrite E in H. exact (proj1 H).
Defined.

(** ** Events *)

Definition flag1 : rt_event := mk_event 1 RT_IPC_FLAG_FIFO.
(** Thread 3 waits for both flags 1 and 2. *)
Definition event_waits : kernel := (rt_event_recv 300 3 RT_EVENT_FLAG_AND (-1) kernel4 flag1).1.1.1.

Lemma event_recv_witness : exists k',
  rt_event_recv 300 3 RT_EVENT_FLAG_AND (-1) kernel4 flag1 = (k', flag1, Blocked, None) /\
  event_set (thr k' (rt_current_thread kernel4)) = 3.
Proof.
  destruct (event_recv 300 3 RT_EVENT_FLAG_AND (-1) kernel4 flag1 kernel4_running_ok) as
    (k' & H1 & _ & _ & H2 & _); [lia|by left|].
  exact (ex_intro _ k' (conj H1 H2)).
Defined.

(** Sending flag 2 completes them. *)
Lemma event_send_witness : exists k', rt_event_send 300 2 event_waits flag1 = (k', mk_event 3 0, RT_EOK) /\
  queue k' (Suspended 300) = [] /\ rt_event_recv_end 3 k' = (RT_EOK, Some 3).
Proof.
  assert (kernel_ok event_waits) as Hk by kernel_check.
  assert (known event_waits (rt_current_thread event_waits)) as Hc
    by (apply (bool_decide_eq_true_1 _); by vm_compute).
  assert (queue event_waits (Suspended 300) = [3]) as E by (by vm_compute).
  assert (serve (thr event_waits) (queue event_waits (Suspended 300)) (e_set flag1 .| 2) = ([(3, 3)], [], 3)) as Es
    by (by vm_compute).
  assert (blocked_end 3 event_waits = RT_EOK) as H0 by (by vm_compute).
  pose proof (event_send 300 2 event_waits flag1 ltac:(lia) Hk Hc) as H. rewrite Es in H.
  destruct H as (k' & H1 & _ & _ & H2 & H3 & _).
  - rewrite E. apply Forall_singleton. left. by vm_compute.
  - destruct (H3 3 3 ltac:(by apply list_elem_of_here)) as (_ & _ & _ & H4).
    exact (ex_intro _ k' (conj H1 (conj H2 (H4 H0)))).
Defined.

(** ** Mailboxes *)

Definition mailbox2 : rt_mailbox := mk_mb (take (Z.to_nat (u16 2)) [0; 0]) (u16 2) 0 0 0 (u8 RT_IPC_FLAG_FIFO).

Lemma mailbox2_ok : mb_ok mailbox2.
Proof. apply (mb_fresh_ok [0; 0] 2 RT_IPC_FLAG_FIFO); [cbn; lia|lia|by left]. Qed.

Lemma mailbox_fifo_witness : exists k' mb' accepted taken,
    @q_run _ _ (mailbox_queue 400) [Put 7; Put 8; Put 9; Get; Put 9; Get] (kernel4, mailbox2) =
      Some ((k', mb'), accepted, taken) /\ mb_ok mb' /\
    content mailbox2 ++ accepted = taken ++ content mb' /\ mb_size mb' = mb_size mailbox2.
Proof. exact (mailbox_fifo 400 [Put 7; Put 8; Put 9; Get; Put 9; Get] kernel4 mailbox2 mailbox2_ok). Defined.

Lemma mailbox_wait_witness : exists k' td,
  rt_mb_recv 400 100 kernel4 mailbox2 = Some (k', mailbox2, Waiting 100 td, None) /\ kernel_ok k'.
Proof.
  destruct (mailbox_wait 400 7 100 kernel4 mailbox2 kernel4_running_ok mailbox2_ok) as [_ H].
  destruct H as (k' & td & H1 & H2 & _). exact (ex_intro _ k' (ex_intro _ td (conj H1 H2))).
Defined.

(** ** Message queues *)

Definition mq2 : rt_messagequeue := mq_fresh (replicate 16 0) 4 2 RT_IPC_FLAG_FIFO.

Lemma mq2_ok : mq_ok mq2 /\ messages mq2 = [] /\ msg_size mq2 = 4 /\ max_msgs mq2 = 2.
Proof. apply (mq_fresh_ok (replicate 16 0) 4 2 RT_IPC_FLAG_FIFO); [lia|lia|cbn; lia|by left]. Qed.

Lemma message_queue_fifo_witness : exists k' mq' accepted taken,
    @q_run _ _ (mq_queue 500 (msg_size mq2)) [Put [1; 2; 3; 4]; Get; Put [5; 6; 7; 8]] (kernel4, mq2) =
      Some ((k', mq'), accepted, taken) /\
    mq_ok mq' /\ messages mq2 ++ accepted = taken ++ messages mq' /\ msg_size mq' = msg_size mq2.
Proof.
  apply (message_queue_fifo 500 [Put [1; 2; 3; 4]; Get; Put [5; 6; 7; 8]] kernel4 mq2 (proj1 mq2_ok)).
  repeat apply Forall_cons_2; by vm_compute.
Defined.

Lemma message_queue_wait_witness : exists k' td,
  rt_mq_recv 500 4 100 kernel4 mq2 = Some (k', mq2, Waiting 100 td, None) /\ kernel_ok k'.
Proof.
  destruct (message_queue_wait 500 [] 4 100 kernel4 mq2 kernel4_running_ok (proj1 mq2_ok)) as [_ H]; [lia|].
  destruct (H (proj1 (proj2 mq2_ok))) as (k' & td & H1 & H2 & _).
  exact (ex_intro _ k' (ex_intro _ td (conj H1 H2))).
Defined.

Lemma message_queue_urgent_witness : exists mq1 mq',
  rt_mq_urgent 500 [9; 9; 9; 9] (msg_size mq2) kernel4 mq2 = Some (wake_one (Suspended 500) kernel4, mq1, RT_EOK) /\
  messages mq' = messages mq2.
Proof.
  destruct mq2_ok as (H1 & H2 & H3 & H4).
  destruct (message_queue_urgent 500 [9; 9; 9; 9] kernel4 mq2 H1) as (mq1 & mq' & E & _ & _ & Hm).
  - rewrite H2, H4. by vm_compute.
  - by rewrite H3.
  - exact (ex_intro _ mq1 (ex_intro _ mq' (conj E Hm))).
Defined.

Lemma message_queue_reset_witness : exists k' mq',
  rt_mq_control 500 RT_IPC_CMD_RESET kernel4 mq2 = Some (k', mq', RT_EOK) /\ messages mq' = [].
Proof.
  destruct (message_queue_reset 500 kernel4 mq2) as (k' & mq' & E & _ & _ & Hm & _).
  - apply kernel4_inv.
  - apply kernel4_inv.
  - apply mq2_ok.
  - exact (ex_intro _ k' (ex_intro _ mq' (conj E Hm))).
Defined.
