(* ===== verification/Object.v ===== *)
(** * Object: the registry of kernel objects

    [rt-thread/src/object.c]: every thread, semaphore, device ... is an object
    with a name of at most eight characters, in the list of its class.  An
    object is known by its address, 0 being [RT_NULL]; an intrusive list is the
    list of its members.  Assertions are compiled out, hooks are never set. *)
From S2P Require Import Prelude Bytes KService.

Definition RT_NAME_MAX : Z := 8.

Definition RT_Object_Class_Null : Z := 0x00.
Definition RT_Object_Class_Thread : Z := 0x01.
Definition RT_Object_Class_Semaphore : Z := 0x02.
Definition RT_Object_Class_Mutex : Z := 0x03.
Definition RT_Object_Class_Event : Z := 0x04.
Definition RT_Object_Class_MailBox : Z := 0x05.
Definition RT_Object_Class_MessageQueue : Z := 0x06.
Definition RT_Object_Class_Device : Z := 0x09.
Definition RT_Object_Class_Timer : Z := 0x0a.
Definition RT_Object_Class_Static : Z := 0x80.

Record rt_object := mk_object { o_name : list Z; o_type : Z; o_flag : Z }.

(** The objects in memory, and [rt_object_container]: the class of each entry
    with the members of its list. *)
Record registry := mk_registry { objects : gmap Z rt_object; rt_object_container : list (Z * list Z) }.

(** The container of a configuration without memory heaps, memory pools and
    modules. *)
Definition classes : list Z :=
  [RT_Object_Class_Thread; RT_Object_Class_Semaphore; RT_Object_Class_Mutex; RT_Object_Class_Event;
   RT_Object_Class_MailBox; RT_Object_Class_MessageQueue; RT_Object_Class_Device; RT_Object_Class_Timer].
Definition registry_boot : registry := mk_registry ∅ (map (fun c => (c, [])) classes).

Fixpoint information_loop (l : list (Z * list Z)) (type : Z) (index : nat) : option nat :=
  match l with
  | [] => None
  | (t, _) :: l => if t =? type then Some index else information_loop l type (S index)
  end.
(** The index of the entry; [None] is [RT_NULL]. *)
Definition rt_object_get_information (type : Z) (r : registry) : option nat :=
  information_loop (rt_object_container r) type 0.
(** The members of the list of an entry. *)
Definition members (i : nat) (r : registry) : list Z :=
  match rt_object_container r !! i with Some (_, l) => l | None => [] end.

Definition rt_object_get_length (type : Z) (r : registry) : Z :=
  match rt_object_get_information type r with
  | None => 0
  | Some i => Z.of_nat (length (members i r))
  end.

Fixpoint pointers_loop (l : list Z) (index maxlen : Z) : list Z :=
  match l with
  | [] => []
  | o :: l => if index + 1 >=? maxlen then [o] else o :: pointers_loop l (index + 1) maxlen
  end.
(** What is stored from [pointers] on; the result is its length. *)
Definition rt_object_get_pointers (type maxlen : Z) (r : registry) : list Z :=
  if maxlen <=? 0 then []
  else match rt_object_get_information type r with
       | None => []
       | Some i => pointers_loop (members i r) 0 maxlen
       end.

(** Whether the node of an object is linked into a list. *)
Definition linked (o : Z) (r : registry) : bool :=
  existsb (fun e => bool_decide (o ∈ e.2)) (rt_object_container r).

(** Store an object and link its node after the head of the list [i]; a node
    that is linked already would tie two lists together. *)
Definition link (i : nat) (o : Z) (obj : rt_object) (r : registry) : option registry :=
  if linked o r then None
  else Some (mk_registry (<[o := obj]> (objects r))
               (alter (fun e => (e.1, o :: e.2)) i (rt_object_container r))).
(** [rt_list_remove]; for a node in no list it changes nothing. *)
Definition unlink (o : Z) (c : list (Z * list Z)) : list (Z * list Z) :=
  map (fun e => (e.1, filter (fun x => x <> o) e.2)) c.

(** An object that was never initialised is zeroed memory. *)
Definition object_at (o : Z) (r : registry) : rt_object :=
  default (mk_object (repeat 0 8) 0 0) (objects r !! o).

Definition rt_object_init (o type : Z) (name : list Z) (r : registry) : option registry :=
  i ← rt_object_get_information type r;
  nm ← strncpy_out (Z.to_nat RT_NAME_MAX) name;
  link i o (mk_object nm (u8 (type .| RT_Object_Class_Static)) (o_flag (object_at o r))) r.

Definition rt_object_detach (o : Z) (r : registry) : option registry :=
  obj ← objects r !! o;
  Some (mk_registry (<[o := mk_object (o_name obj) 0 (o_flag obj)]> (objects r))
          (unlink o (rt_object_container r))).

(** [alloc] is what [rt_malloc] returns. *)
Definition rt_object_allocate (alloc : option Z) (type : Z) (name : list Z) (r : registry)
    : option (registry * Z) :=
  i ← rt_object_get_information type r;
  match alloc with
  | None => Some (r, 0)
  | Some o =>
      nm ← strncpy_out (Z.to_nat RT_NAME_MAX) name;
      r ← link i o (mk_object nm (u8 type) 0) r;
      Some (r, o)
  end.

(** The memory of the object is gone in the end. *)
Definition rt_object_delete (o : Z) (r : registry) : option registry :=
  _ ← objects r !! o;
  Some (mk_registry (delete o (objects r)) (unlink o (rt_object_container r))).

Definition rt_object_is_systemobject (o : Z) (r : registry) : option bool :=
  obj ← objects r !! o; Some (negb (o_type obj .& RT_Object_Class_Static =? 0)).

Definition rt_object_get_type (o : Z) (r : registry) : option Z :=
  obj ← objects r !! o; Some (Z.ldiff (o_type obj) RT_Object_Class_Static).

(** The bytes from the name on: the array is not always terminated. *)
Definition name_ptr (obj : rt_object) : list Z := o_name obj ++ [o_type obj; o_flag obj].

Fixpoint find_loop (l : list Z) (name : list Z) (r : registry) : option Z :=
  match l with
  | [] => Some 0
  | o :: l =>
      obj ← objects r !! o;
      c ← rt_strncmp (name_ptr obj) name RT_NAME_MAX;
      if c =? 0 then Some o else find_loop l name r
  end.
Definition rt_object_find (name : option (list Z)) (type : Z) (r : registry) : option Z :=
  match name, rt_object_get_information type r with
  | Some name, Some i => find_loop (members i r) name r
  | _, _ => Some 0
  end.

(** [rt-thread/src/thread.c] *)
Definition rt_thread_find (name : option (list Z)) (r : registry) : option Z :=
  rt_object_find name RT_Object_Class_Thread r.

(** ** Names *)

Lemma take_repeat {A} n m (x : A) : take n (repeat x m) = repeat x (Nat.min n m).
Proof. revert m. induction n as [|n IH]; intros [|m]; cbn; [done..|]. by rewrite IH. Qed.

Lemma object_strncmp n : forall a b x res, (n <= length a)%nat ->
  strncmp_loop n a b res = strncmp_loop n (take n a ++ x) b res.
Proof.
  induction n as [|n IH]; intros [|c a] [|d b] x res Hn; cbn [length] in Hn; try done; try lia.
  cbn [strncmp_loop take app]. case_match; [done|]. apply IH. lia.
Qed.

(** How a name is stored. *)
Definition stored (nm : list Z) : list Z := nm ++ repeat 0 (8 - length nm).

Lemma stored_name a rest : c_string a -> strncpy_out (Z.to_nat RT_NAME_MAX) (a ++ 0 :: rest) = Some (stored (take 8 a)).
Proof.
  intros Ha. rewrite strncpy_spec by done. unfold stored. rewrite length_take.
  change (Z.to_nat RT_NAME_MAX) with 8%nat. do 3 f_equal. lia.
Qed.

Lemma stored_cmp nm extra b rest : c_string nm -> (length nm <= 8)%nat -> c_string b -> exists r,
  rt_strncmp (stored nm ++ extra) (b ++ 0 :: rest) RT_NAME_MAX = Some r /\ (r = 0 <-> nm = take 8 b).
Proof.
  intros Hn Hl Hb. unfold rt_strncmp. change (Z.to_nat RT_NAME_MAX) with 8%nat.
  destruct (strncmp_zero 8 nm b (repeat 0 8) rest Hn Hb) as (r & Er & Hr). exists r.
  rewrite (take_ge nm) in Hr by done. split; [|done]. rewrite <- Er.
  rewrite (object_strncmp 8 (stored nm ++ extra) _ []) by (unfold stored; rewrite !length_app, repeat_length; lia).
  rewrite (object_strncmp 8 (nm ++ 0 :: repeat 0 8) _ []) by (rewrite length_app; cbn; lia).
  do 2 f_equal. unfold stored. rewrite <- app_assoc, !take_app. f_equal.
  change (0 :: repeat 0 8) with (repeat 0 9). rewrite !repeat_length, !take_repeat.
  replace (8 - length nm - (8 - length nm))%nat with 0%nat by lia. rewrite take_0, app_nil_r.
  f_equal. lia.
Qed.

(** ** The abstract registry

    The registered objects, the latest first, with their class and name. *)
Record entry := mk_entry { e_id : Z; e_class : Z; e_static : bool; e_name : list Z }.

Definition of_class (c : Z) (A : list entry) : list entry := filter (fun e => e_class e = c) A.
Definition ids (A : list entry) : list Z := e_id <$> A.
Definition without (o : Z) (A : list entry) : list entry := filter (fun e => e_id e <> o) A.
Definition lookup_id (o : Z) (A : list entry) : option entry := List.find (fun e => e_id e =? o) A.
Definition search (name : list Z) (A : list entry) : Z :=
  match List.find (fun e => bool_decide (e_name e = take 8 name)) A with Some e => e_id e | None => 0 end.

Definition entry_type (e : entry) : Z := e_class e + (if e_static e then 128 else 0).
Definition entry_ok (r : registry) (e : entry) : Prop :=
  e_class e ∈ classes /\ c_string (e_name e) /\ (length (e_name e) <= 8)%nat /\
  exists flag, objects r !! e_id e = Some (mk_object (stored (e_name e)) (entry_type e) flag).

Record represents (r : registry) (A : list entry) : Prop := {
  rp_lists : rt_object_container r = (fun c => (c, ids (of_class c A))) <$> classes;
  rp_ids : NoDup (ids A);
  rp_entries : Forall (entry_ok r) A;
  rp_rest : forall o obj, objects r !! o = Some obj -> o ∉ ids A -> o_type obj = RT_Object_Class_Null }.

(** The calls, with their arguments; a name is a string. *)
Inductive op :=
  | Init (o type : Z) (name : list Z)
  | Allocate (alloc : option Z) (type : Z) (name : list Z)
  | Detach (o : Z) | Delete (o : Z)
  | Find (name : list Z) (type : Z)
  | Length (type : Z) | Pointers (type maxlen : Z)
  | Type_of (o : Z) | Is_system (o : Z).
Inductive answer := Nothing | Number (n : Z) | Objects (l : list Z) | Truth (b : bool).

Definition run_op (x : op) (r : registry) : option (registry * answer) :=
  match x with
  | Init o type name => r ← rt_object_init o type (name ++ [0]) r; Some (r, Nothing)
  | Allocate a type name =>
      '(r, o) ← rt_object_allocate a type (name ++ [0]) r; Some (r, Number o)
  | Detach o => r ← rt_object_detach o r; Some (r, Nothing)
  | Delete o => r ← rt_object_delete o r; Some (r, Nothing)
  | Find name type => o ← rt_object_find (Some (name ++ [0])) type r; Some (r, Number o)
  | Length type => Some (r, Number (rt_object_get_length type r))
  | Pointers type maxlen => Some (r, Objects (rt_object_get_pointers type maxlen r))
  | Type_of o => t ← rt_object_get_type o r; Some (r, Number t)
  | Is_system o => b ← rt_object_is_systemobject o r; Some (r, Truth b)
  end.
Fixpoint run_ops (xs : list op) (r : registry) : option (registry * list answer) :=
  match xs with
  | [] => Some (r, [])
  | x :: xs => '(r, a) ← run_op x r; '(r, l) ← run_ops xs r; Some (r, a :: l)
  end.

(** What the calls mean. *)
Definition do_op (x : op) (A : list entry) : list entry * answer :=
  match x with
  | Init o type name => (mk_entry o type true (take 8 name) :: A, Nothing)
  | Allocate None _ _ => (A, Number 0)
  | Allocate (Some o) type name => (mk_entry o type false (take 8 name) :: A, Number o)
  | Detach o | Delete o => (without o A, Nothing)
  | Find name type => (A, Number (search name (of_class type A)))
  | Length type => (A, Number (Z.of_nat (length (of_class type A))))
  | Pointers type maxlen => (A, Objects (take (Z.to_nat maxlen) (ids (of_class type A))))
  | Type_of o => (A, Number (match lookup_id o A with Some e => e_class e | None => 0 end))
  | Is_system o => (A, Truth (match lookup_id o A with Some e => e_static e | None => false end))
  end.
Fixpoint do_ops (xs : list op) (A : list entry) : list entry * list answer :=
  match xs with
  | [] => (A, [])
  | x :: xs => let '(A, a) := do_op x A in let '(A, l) := do_ops xs A in (A, a :: l)
  end.

(** An object is registered once, under a class there is; what is asked about,
    detached or deleted is registered. *)
Definition allowed (x : op) (A : list entry) : Prop :=
  match x with
  | Init o type name => (o ∉ ids A) /\ type ∈ classes /\ c_string name
  | Allocate a type name => (forall o, a = Some o -> o ∉ ids A) /\ type ∈ classes /\ c_string name
  | Detach o | Delete o | Type_of o | Is_system o => o ∈ ids A
  | Find name _ => c_string name
  | Length _ | Pointers _ _ => True
  end.
Fixpoint all_allowed (xs : list op) (A : list entry) : Prop :=
  match xs with [] => True | x :: xs => allowed x A /\ all_allowed xs ((do_op x A).1) end.

#[export] Instance c_string_dec l : Decision (c_string l).
Proof. unfold c_string. apply _. Defined.
#[export] Instance allowed_dec x A : Decision (allowed x A).
Proof.
  destruct x as [| [o'|] | | | | | | |]; cbn; try apply _.
  - destruct (decide (o' ∉ ids A /\ type ∈ classes /\ c_string name)) as [H|H].
    + left. split; [|apply H]. intros o [= <-]. apply H.
    + right. intros [H1 H2]. apply H. split; [by apply H1|done].
  - destruct (decide (type ∈ classes /\ c_string name)); [left|right]; naive_solver.
Defined.
#[export] Instance all_allowed_dec xs : forall A, Decision (all_allowed xs A).
Proof. induction xs as [|x xs IH]; intros A; cbn; apply _. Defined.

(** ** Lists of a class *)

Lemma registry_boot_represents : represents registry_boot [].
Proof. split; [done|constructor|constructor|]. intros o obj H. cbn in H. by rewrite lookup_empty in H. Qed.

Lemma information_loop_map (f : Z -> list Z) cs type k : NoDup cs ->
  (type ∈ cs -> exists i, information_loop (map (fun c => (c, f c)) cs) type k = Some (k + i)%nat /\ cs !! i = Some type) /\
  (type ∉ cs -> information_loop (map (fun c => (c, f c)) cs) type k = None).
Proof.
  intros Hc. revert k. induction Hc as [|c cs Hc Hcs IH]; intros k; cbn [map information_loop].
  { split; [|done]. intros H. by apply not_elem_of_nil in H. }
  destruct (Z.eqb_spec c type) as [->|Hn].
  - split; [|set_solver]. intros _. exists 0%nat. split; [f_equal; lia|done].
  - destruct (IH (S k)) as [IH1 IH2]. split; intros Ht.
    + destruct IH1 as (i & E & Hi); [set_solver|]. exists (S i). rewrite E. split; [f_equal; lia|done].
    + apply IH2. set_solver.
Qed.

Lemma classes_nodup : NoDup classes.
Proof. apply (bool_decide_unpack _). by vm_compute. Qed.

Lemma information_spec r A type : represents r A ->
  (type ∈ classes -> exists i, rt_object_get_information type r = Some i /\ classes !! i = Some type) /\
  (type ∉ classes -> rt_object_get_information type r = None).
Proof.
  intros H. unfold rt_object_get_information. rewrite (rp_lists _ _ H).
  apply (information_loop_map (fun c => ids (of_class c A)) classes type 0 classes_nodup).
Qed.

Lemma members_spec r A i type : represents r A -> classes !! i = Some type ->
  members i r = ids (of_class type A).
Proof. intros H Hi. unfold members. rewrite (rp_lists _ _ H). rewrite list_lookup_fmap, Hi. done. Qed.

Lemma of_class_other r A type : Forall (entry_ok r) A -> type ∉ classes -> of_class type A = [].
Proof.
  intros He Ht. induction He as [|e A [Hc _] He IH]; [done|]. unfold of_class in *.
  rewrite filter_cons_False; [done|]. intros E. by rewrite E in Hc.
Qed.

Lemma linked_spec r A o : represents r A -> linked o r = bool_decide (o ∈ ids A).
Proof.
  intros H. unfold linked. rewrite (rp_lists _ _ H). apply eq_true_iff_eq.
  rewrite existsb_exists, bool_decide_eq_true. unfold ids. split.
  - intros (e & He & Hm). apply in_map_iff in He as (c & <- & _). apply bool_decide_eq_true in Hm. cbn in Hm.
    apply list_elem_of_fmap in Hm as (x & -> & Hx). apply list_elem_of_filter in Hx as [_ Hx].
    by apply list_elem_of_fmap_2.
  - intros Ho. apply list_elem_of_fmap in Ho as (x & -> & Hx).
    pose proof (proj1 (Forall_forall _ _) (rp_entries _ _ H) x Hx) as [Hc _].
    exists (e_class x, ids (of_class (e_class x) A)). split.
    + apply in_map_iff. exists (e_class x). split; [done|]. by apply list_elem_of_In.
    + apply bool_decide_eq_true. cbn. apply list_elem_of_fmap_2. by apply list_elem_of_filter.
Qed.

Lemma entry_ok_other r objs e o : e_id e <> o -> (exists obj, objs = <[o := obj]> (objects r)) \/ objs = delete o (objects r) ->
  entry_ok r e -> forall c, entry_ok (mk_registry objs c) e.
Proof.
  intros Hn Hobjs (Hc & Hs & Hl & flag & Hf) c. split_and!; [done..|]. exists flag. cbn.
  destruct Hobjs as [[obj ->]| ->]; by rewrite ?lookup_insert_ne, ?lookup_delete_ne.
Qed.

(** Registering an object that is in no list. *)
Lemma link_spec r A e flag i : represents r A -> e_id e ∉ ids A -> classes !! i = Some (e_class e) ->
  c_string (e_name e) -> (length (e_name e) <= 8)%nat -> exists r',
  link i (e_id e) (mk_object (stored (e_name e)) (entry_type e) flag) r = Some r' /\ represents r' (e :: A).
Proof.
  intros H Ho Hi Hs Hl. eexists. unfold link. rewrite (linked_spec _ _ _ H), bool_decide_false by done.
  split; [done|]. split; cbn [rt_object_container objects].
  - rewrite (rp_lists _ _ H). apply list_eq. intros j. rewrite list_lookup_fmap.
    destruct (decide (i = j)) as [<-|Hj].
    + rewrite list_lookup_alter_eq, list_lookup_fmap, Hi. unfold of_class. cbn [fmap option_fmap option_map fst snd]. by rewrite filter_cons_True.
    + rewrite list_lookup_alter_ne, list_lookup_fmap by done. destruct (classes !! j) as [c|] eqn:Hc; [|done].
      unfold of_class. cbn [fmap option_fmap option_map]. rewrite filter_cons_False; [done|]. intros <-.
      by rewrite (NoDup_lookup classes i j (e_class e) classes_nodup Hi Hc) in Hj.
  - constructor; [done|]. apply (rp_ids _ _ H).
  - constructor.
    + split_and!; [by eapply list_elem_of_lookup_2|done..|]. exists flag. cbn. by rewrite lookup_insert_eq.
    + apply Forall_forall. intros x Hx. eapply entry_ok_other; [|by left; eexists|by eapply Forall_forall, Hx; apply H].
      intros E. apply Ho. rewrite <- E. by apply list_elem_of_fmap_2.
  - intros o obj Hobj Hn. unfold ids in Hn. cbn in Hn. apply not_elem_of_cons in Hn as [Hn1 Hn2].
    rewrite lookup_insert_ne in Hobj by done. by eapply rp_rest.
Qed.


(** Taking an object out of its list. *)
Lemma filter_ids o A : filter (fun x => x <> o) (ids A) = ids (without o A).
Proof.
  unfold ids, without. induction A as [|e A IH]; [done|]. rewrite fmap_cons, !filter_cons.
  repeat case_decide; try done. by rewrite IH.
Qed.
Lemma of_class_without o c A : of_class c (without o A) = without o (of_class c A).
Proof. unfold of_class, without. rewrite !list_filter_filter. apply list_filter_iff. tauto. Qed.
Lemma without_in x o A : x ∈ without o A <-> x ∈ A /\ e_id x <> o.
Proof. unfold without. rewrite list_elem_of_filter. tauto. Qed.

Lemma object_unlinked r A o objs : represents r A ->
  ((exists obj, o_type obj = RT_Object_Class_Null /\ objs = <[o := obj]> (objects r)) \/ objs = delete o (objects r)) ->
  represents (mk_registry objs (unlink o (rt_object_container r))) (without o A).
Proof.
  intros H Hobjs. split; cbn [rt_object_container objects].
  - rewrite (rp_lists _ _ H). unfold unlink. change (map ?f) with (fmap (M := list) f). rewrite <- list_fmap_compose. apply list_fmap_ext.
    intros i c _. cbn. by rewrite filter_ids, of_class_without.
  - rewrite <- filter_ids. apply NoDup_filter, H.
  - apply Forall_forall. intros x Hx. apply without_in in Hx as [Hx Hn].
    eapply entry_ok_other; [done| |by eapply Forall_forall, Hx; apply H].
    destruct Hobjs as [(obj & _ & Eo)|Eo]; [left; by exists obj|by right].
  - intros o' obj' Ho' Hn. destruct (decide (o' = o)) as [->|Hne].
    + destruct Hobjs as [(obj & Hobj & ->)| ->]; [|by rewrite lookup_delete_eq in Ho'].
      rewrite lookup_insert_eq in Ho'. by injection Ho' as <-.
    + apply (rp_rest _ _ H o').
      * destruct Hobjs as [(obj & _ & ->)| ->]; by rewrite ?lookup_insert_ne, ?lookup_delete_ne in Ho'.
      * contradict Hn. rewrite <- filter_ids. by apply list_elem_of_filter.
Qed.

(** A registered object, found by its address. *)
Lemma lookup_id_spec r A o : represents r A -> o ∈ ids A -> exists e,
  lookup_id o A = Some e /\ e ∈ A /\ e_id e = o /\ entry_ok r e.
Proof.
  intros H Ho. pose proof (rp_entries _ _ H) as He. clear H. unfold lookup_id. induction He as [|e A He HA IH]; [by apply not_elem_of_nil in Ho|].
  cbn [List.find]. destruct (Z.eqb_spec (e_id e) o) as [E|E].
  - exists e. split_and!; [done|by left|done..].
  - apply elem_of_cons in Ho as [Ho|Ho]; [done|]. destruct (IH Ho) as (x & ? & ? & ? & ?).
    exists x. split_and!; [done|by right|done..].
Qed.

Lemma pointers_loop_take l : forall i m, i < m -> pointers_loop l i m = take (Z.to_nat (m - i)) l.
Proof.
  induction l as [|o l IH]; intros i m Hi; cbn [pointers_loop]; [by rewrite take_nil|].
  destruct (Z.geb_spec (i + 1) m).
  - by replace (Z.to_nat (m - i)) with 1%nat by lia.
  - rewrite IH by lia. replace (Z.to_nat (m - i)) with (S (Z.to_nat (m - (i + 1)))) by lia. done.
Qed.

Lemma find_loop_spec r A name rest : c_string name -> Forall (entry_ok r) A ->
  find_loop (ids A) (name ++ 0 :: rest) r = Some (search name A).
Proof.
  intros Hn He. unfold search. induction He as [|e A (_ & Hs & Hl & flag & Hf) He IH]; [done|].
  cbn [ids fmap list_fmap find_loop List.find]. rewrite Hf. cbn [mbind option_bind].
  destruct (stored_cmp (e_name e) [entry_type e; flag] name rest Hs Hl Hn) as (c & Ec & Hc).
  unfold name_ptr. cbn [o_name o_type o_flag]. rewrite Ec. cbn [mbind option_bind].
  destruct (Z.eqb_spec c 0) as [Hz|Hz].
  - by rewrite bool_decide_true by (by apply Hc).
  - rewrite bool_decide_false by (by rewrite <- Hc). exact IH.
Qed.

Lemma class_type e : e_class e ∈ classes ->
  Z.ldiff (entry_type e) RT_Object_Class_Static = e_class e /\
  negb (entry_type e .& RT_Object_Class_Static =? 0) = e_static e /\
  (e_static e = true -> u8 (e_class e .| RT_Object_Class_Static) = entry_type e) /\
  (e_static e = false -> u8 (e_class e) = entry_type e).
Proof.
  unfold entry_type. destruct e as [o c s n]. cbn. intros Hc.
  repeat (apply elem_of_cons in Hc as [->|Hc]; [by destruct s|]). by apply not_elem_of_nil in Hc.
Qed.

(** ** Every call keeps to its meaning *)

Lemma init_step r A o type name : represents r A -> allowed (Init o type name) A -> exists r',
  rt_object_init o type (name ++ [0]) r = Some r' /\ represents r' (mk_entry o type true (take 8 name) :: A).
Proof.
  intros H (Ho & Ht & Hn). destruct (proj1 (information_spec r A type H) Ht) as (i & Ei & Hi).
  unfold rt_object_init. rewrite Ei. cbn [mbind option_bind]. rewrite stored_name by done. cbn [mbind option_bind].
  destruct (class_type (mk_entry o type true (take 8 name)) Ht) as (_ & _ & Et & _).
  specialize (Et eq_refl). cbn [e_class] in Et. rewrite Et.
  by apply (link_spec r A (mk_entry o type true (take 8 name))); [| | |by apply Forall_take|apply firstn_le_length].
Qed.

Lemma allocate_step r A a type name : represents r A -> allowed (Allocate a type name) A -> exists r',
  rt_object_allocate a type (name ++ [0]) r = Some (r', default 0 a) /\
  represents r' ((do_op (Allocate a type name) A).1).
Proof.
  intros H (Ho & Ht & Hn). destruct (proj1 (information_spec r A type H) Ht) as (i & Ei & Hi).
  unfold rt_object_allocate. rewrite Ei. cbn [mbind option_bind]. destruct a as [o|]; [|by exists r].
  rewrite stored_name by done. cbn [mbind option_bind].
  destruct (class_type (mk_entry o type false (take 8 name)) Ht) as (_ & _ & _ & Et).
  specialize (Et eq_refl). cbn [e_class] in Et. rewrite Et.
  destruct (link_spec r A (mk_entry o type false (take 8 name)) 0 i) as (r' & Er & Hr);
    [done|by apply Ho|done|by apply Forall_take|apply firstn_le_length|].
  exists r'. cbn [e_id e_name] in Er. rewrite Er. done.
Qed.

Lemma remove_step r A o : represents r A -> o ∈ ids A ->
  (exists r', rt_object_detach o r = Some r' /\ represents r' (without o A)) /\
  (exists r', rt_object_delete o r = Some r' /\ represents r' (without o A)).
Proof.
  intros H Ho. destruct (lookup_id_spec r A o H Ho) as (e & _ & _ & <- & (_ & _ & _ & flag & Hf)).
  unfold rt_object_detach, rt_object_delete. rewrite Hf. cbn [mbind option_bind o_name o_flag].
  split; (eexists; split; [done|]); apply object_unlinked; [done| |done|by right].
  left. by eexists (mk_object _ 0 _).
Qed.

Lemma query_step r A x : represents r A -> allowed x A ->
  match x with Find _ _ | Length _ | Pointers _ _ | Type_of _ | Is_system _ => True | _ => False end ->
  run_op x r = Some (r, (do_op x A).2) /\ (do_op x A).1 = A.
Proof.
  intros H Hx. destruct x as [| | | |name type|type|type maxlen|o|o]; try done; intros _; (split; [|done]);
    cbn [run_op do_op snd allowed] in *.
  - unfold rt_object_find. destruct (decide (type ∈ classes)) as [Ht|Ht].
    + destruct (proj1 (information_spec r A type H) Ht) as (i & -> & Hi).
      rewrite (members_spec _ _ _ _ H Hi), find_loop_spec; [done..|]. unfold of_class.
      apply Forall_forall. intros e He. apply list_elem_of_filter in He as [_ He]. by eapply Forall_forall, He; apply H.
    + rewrite (proj2 (information_spec r A type H) Ht), (of_class_other r) by (apply H || done). done.
  - unfold rt_object_get_length. destruct (decide (type ∈ classes)) as [Ht|Ht].
    + destruct (proj1 (information_spec r A type H) Ht) as (i & -> & Hi).
      rewrite (members_spec _ _ _ _ H Hi). unfold ids. by rewrite length_fmap.
    + rewrite (proj2 (information_spec r A type H) Ht), (of_class_other r) by (apply H || done). done.
  - unfold rt_object_get_pointers. destruct (Z.leb_spec maxlen 0) as [Hm|Hm].
    + by replace (Z.to_nat maxlen) with 0%nat by lia.
    + destruct (decide (type ∈ classes)) as [Ht|Ht].
      * destruct (proj1 (information_spec r A type H) Ht) as (i & -> & Hi).
        by rewrite (members_spec _ _ _ _ H Hi), pointers_loop_take, Z.sub_0_r by done.
      * rewrite (proj2 (information_spec r A type H) Ht), (of_class_other r) by (apply H || done).
        by destruct (Z.to_nat maxlen).
  - destruct (lookup_id_spec r A o H Hx) as (e & -> & _ & <- & (Hc & _ & _ & flag & Hf)).
    unfold rt_object_get_type. rewrite Hf. cbn [mbind option_bind o_type]. by rewrite (proj1 (class_type e Hc)).
  - destruct (lookup_id_spec r A o H Hx) as (e & -> & _ & <- & (Hc & _ & _ & flag & Hf)).
    unfold rt_object_is_systemobject. rewrite Hf. cbn [mbind option_bind o_type].
    by rewrite (proj1 (proj2 (class_type e Hc))).
Qed.

Lemma op_step x r A : represents r A -> allowed x A -> exists r',
  run_op x r = Some (r', (do_op x A).2) /\ represents r' ((do_op x A).1).
Proof.
  intros H Hx. destruct x as [o type name|a type name|o|o| | | | | ];
    try (destruct (query_step _ _ _ H Hx I) as [E EA]; exists r; rewrite EA; by split).
  - destruct (init_step _ _ _ _ _ H Hx) as (r' & E & Hr). exists r'. cbn [run_op]. by rewrite E.
  - destruct (allocate_step _ _ _ _ _ H Hx) as (r' & E & Hr). exists r'. cbn [run_op]. rewrite E.
    split; [|done]. by destruct a.
  - destruct (remove_step _ _ _ H Hx) as [(r' & E & Hr) _]. exists r'. cbn [run_op]. by rewrite E.
  - destruct (remove_step _ _ _ H Hx) as [_ (r' & E & Hr)]. exists r'. cbn [run_op]. by rewrite E.
Qed.

Lemma ops_run xs : forall r A, represents r A -> all_allowed xs A -> exists r',
  run_ops xs r = Some (r', (do_ops xs A).2) /\ represents r' ((do_ops xs A).1).
Proof.
  induction xs as [|x xs IH]; intros r A H Hx; [by exists r|]. destruct Hx as [Hx Hxs].
  destruct (op_step x r A H Hx) as (r1 & E1 & H1). cbn [run_ops do_ops]. rewrite E1. cbn [mbind option_bind].
  destruct (do_op x A) as [A1 a]. cbn [fst snd] in *. destruct (IH r1 A1 H1 Hxs) as (r2 & E2 & H2).
  rewrite E2. exists r2. by destruct (do_ops xs A1).
Qed.

(** C37 The object registry is a list of what is registered, the latest first:
    for every sequence of calls that registers an object once and asks about
    registered ones, no call touches anything undefined, each answer is the one
    of the list, a lookup finding the latest object of its class whose first
    eight characters are those asked for, and the memory afterwards represents
    the list. *)
Theorem registry_refines xs : all_allowed xs [] -> exists r,
  run_ops xs registry_boot = Some (r, (do_ops xs []).2) /\ represents r ((do_ops xs []).1).
Proof. apply ops_run, registry_boot_represents. Qed.

(** C38 The registry is well typed after every such sequence: what is linked
    into the list of a class is an object in memory whose type is that class,
    with a name that fits its array; it is in no other list and in this one
    once; and an object in memory that is in no list has the null type. *)
Theorem registry_well_typed xs r answers : all_allowed xs [] -> run_ops xs registry_boot = Some (r, answers) ->
  (forall i type o, classes !! i = Some type -> o ∈ members i r ->
     rt_object_get_type o r = Some type /\ length (o_name (object_at o r)) = 8%nat) /\
  (forall i, NoDup (members i r)) /\
  (forall i j o, o ∈ members i r -> o ∈ members j r -> i = j) /\
  (forall o obj, objects r !! o = Some obj -> linked o r = false -> o_type obj = RT_Object_Class_Null).
Proof.
  intros Hx Er. destruct (ops_run xs _ _ registry_boot_represents Hx) as (r' & Er' & H).
  rewrite Er in Er'. injection Er' as <- _. set (A := (do_ops xs []).1) in *.
  assert (Hm : forall i, members i r = match classes !! i with Some c => ids (of_class c A) | None => [] end).
  { intros i. unfold members. rewrite (rp_lists _ _ H), list_lookup_fmap. by destruct (classes !! i). }
  assert (He : forall i o, o ∈ members i r -> exists e, e ∈ A /\ e_id e = o /\ classes !! i = Some (e_class e)).
  { intros i o Ho. rewrite Hm in Ho. destruct (classes !! i) as [c|]; [|by apply not_elem_of_nil in Ho].
    apply list_elem_of_fmap in Ho as (e & -> & He). apply list_elem_of_filter in He as [<- He]. by exists e. }
  assert (Hu : forall e e', e ∈ A -> e' ∈ A -> e_id e = e_id e' -> e = e').
  { intros e e' Hi Hi' Heq. apply list_elem_of_lookup in Hi as [n Hn], Hi' as [n' Hn'].
    rewrite (NoDup_lookup (ids A) n n' (e_id e) (rp_ids _ _ H)) in Hn; [congruence|..];
      unfold ids; rewrite list_lookup_fmap, ?Hn, ?Hn'; cbn; congruence. }
  split_and!.
  - intros i type o Hi Ho. destruct (He i o Ho) as (e & HA & <- & Hc). rewrite Hi in Hc. injection Hc as ->.
    destruct (proj1 (Forall_forall _ _) (rp_entries _ _ H) e HA) as (Hc & _ & Hl & flag & Hf).
    unfold rt_object_get_type, object_at. rewrite Hf. cbn. rewrite (proj1 (class_type e Hc)).
    split; [done|]. unfold stored. rewrite length_app, repeat_length. lia.
  - intros i. rewrite Hm. destruct (classes !! i); [|constructor]. unfold of_class.
    pose proof (rp_ids _ _ H) as Hd. clear -Hd. unfold ids in *. induction A as [|e A IH]; [constructor|].
    apply NoDup_cons in Hd as [Hn Hd]. rewrite filter_cons. case_decide; [|by apply IH].
    constructor; [|by apply IH]. contradict Hn. apply list_elem_of_fmap in Hn as (x & Ex & Hx).
    apply list_elem_of_filter in Hx as [_ Hx]. fold (fmap (M := list) e_id A). rewrite Ex. by apply list_elem_of_fmap_2.
  - intros i j o Hi Hj. destruct (He i o Hi) as (e & HA & Ee & Hc), (He j o Hj) as (e' & HA' & Ee' & Hc').
    rewrite (Hu e e') in Hc by congruence. exact (NoDup_lookup classes i j _ classes_nodup Hc Hc').
  - intros o obj Hobj Hl. apply (rp_rest _ _ H o obj Hobj). rewrite (linked_spec _ _ _ H) in Hl.
    by apply bool_decide_eq_false in Hl.
Qed.

(** ** At a concrete sequence *)

Definition example_ops : list op :=
  [Init 1 RT_Object_Class_Device (chars "uart1"); Allocate (Some 2) RT_Object_Class_Thread (chars "tshell");
   Init 3 RT_Object_Class_Semaphore (chars "shrx"); Allocate (Some 4) RT_Object_Class_Thread (chars "showValues");
   Init 5 RT_Object_Class_Timer (chars "tshell"); Find (chars "showValue_2") RT_Object_Class_Thread;
   Find (chars "uart") RT_Object_Class_Device; Find (chars "tshell") RT_Object_Class_Thread;
   Pointers RT_Object_Class_Thread 1; Length RT_Object_Class_Thread; Delete 4; Detach 1;
   Find (chars "showValues") RT_Object_Class_Thread; Length RT_Object_Class_Device; Allocate None 1 (chars "x")].
Lemma example_allowed : all_allowed example_ops [].
Proof. apply (bool_decide_unpack _). by vm_compute. Defined.
Definition example_answers : list answer :=
  [Nothing; Number 2; Nothing; Number 4; Nothing; Number 4; Number 0; Number 2; Objects [4]; Number 2;
   Nothing; Nothing; Number 0; Number 0; Number 0].

Lemma registry_refines_witness : exists r, run_ops example_ops registry_boot = Some (r, example_answers).
Proof. destruct (registry_refines example_ops example_allowed) as (r & E & _). by exists r. Defined.

Lemma registry_well_typed_witness : exists r answers, run_ops example_ops registry_boot = Some (r, answers) /\
  NoDup (members 0 r) /\ members 0 r = [2].
Proof.
  destruct (run_ops example_ops registry_boot) as [[r answers]|] eqn:E; [|by vm_compute in E].
  exists r, answers. split; [done|].
  split; [exact (proj1 (proj2 (registry_well_typed _ _ _ example_allowed E)) 0%nat)|].
  vm_compute in E. injection E as <- _. by vm_compute.
Defined.
