(* ===== verification/LifeFrame.v ===== *)
(** * LifeFrame: what the calls of the kernel do to the ends of threads

    Only creating, deleting, detaching and exiting make or end a thread; every
    other call leaves the threads there are, which of them have ended, and the
    list of the idle thread.  Then what [_rt_thread_init], the ways to end a
    thread and the two assignments of the idle thread, taking a thread out of
    its list and giving its memory back, do to them. *)
From S2P Require Import Prelude Timer Kernel KernelInv KernelOps Ipc IpcInv MutexInv EventInv Queue.
From S2P Require Import Mailbox MessageQueue KernelCheck KernelSystem.

#[export] Instance awake_dec th : Decision (awake th).
Proof. unfold awake. solve_decision. Defined.

Definition ended (k : kernel) (t : Z) : Prop := state_of (thr k t) = RT_THREAD_CLOSE.

Record same_life (k k' : kernel) : Prop := {
  sl_known : forall t, known k' t <-> known k t;
  sl_static : forall t, systemobject (thr k' t) = systemobject (thr k t);
  sl_ended : forall t, ended k' t <-> ended k t;
  sl_defunct : queue k' Defunct = queue k Defunct }.

#[export] Instance same_life_preorder : PreOrder same_life.
Proof.
  split; [done|]. intros k1 k2 k3 [A1 A2 A3 A4] [B1 B2 B3 B4]. split; [intros t; by rewrite B1|intros t; by rewrite B2| |by rewrite B4].
  intros t. by rewrite B3.
Qed.

(** ** One assignment at a time *)

Lemma life_same k k' : threads k' = threads k -> queues k' = queues k -> same_life k k'.
Proof.
  intros E1 E2. pose proof (threads_thr k k' E1) as Et. split.
  - intros t. by apply threads_known.
  - intros t. by rewrite Et.
  - intros t. unfold ended. by rewrite Et.
  - unfold queue. by rewrite E2.
Qed.

Lemma life_upd k t f : known k t -> systemobject (f (thr k t)) = systemobject (thr k t) ->
  (state_of (f (thr k t)) = RT_THREAD_CLOSE <-> ended k t) -> same_life k (upd_thread t f k).
Proof.
  intros Hk Hs He. split; [| | |done].
  - intros x. rewrite known_upd. split; [by intros [<-|?]|by right].
  - intros x. rewrite thr_upd. by destruct (decide (t = x)) as [<-|].
  - intros x. unfold ended. rewrite thr_upd. by destruct (decide (t = x)) as [<-|].
Qed.

(** The state is kept, or changed between others than the last one. *)
Lemma life_field k t f : known k t -> (forall th, systemobject (f th) = systemobject th) ->
  (forall th, state_of (f th) = state_of th) -> same_life k (upd_thread t f k).
Proof. intros Hk Hs He. apply life_upd; [done|done|]. unfold ended. by rewrite He. Qed.
Lemma life_state k t s f : known k t -> ~ ended k t -> s <> RT_THREAD_CLOSE ->
  (forall th, systemobject (f th) = systemobject th) -> (forall th, state_of (f th) = s) ->
  same_life k (upd_thread t f k).
Proof. intros Hk He Hs Hsys Hf. apply life_upd; [done|done|]. by rewrite Hf. Qed.

Lemma life_remove k t : t ∉ queue k Defunct -> same_life k (rt_list_remove t k).
Proof. intros H. split; [done..|]. rewrite queue_remove. by apply filter_absent. Qed.
Lemma life_out k t : t ∉ queue k Defunct -> same_life k (rt_schedule_remove_thread t k).
Proof.
  intros H. pose proof (remove_fields k t) as (E1 & _ & _ & _ & _ & Eq). cbv zeta in *.
  pose proof (threads_thr k _ E1) as Et. split.
  - intros x. by apply threads_known.
  - intros x. by rewrite Et.
  - intros x. unfold ended. by rewrite Et.
  - rewrite Eq. by apply filter_absent.
Qed.
Lemma life_lists k h l : h <> Defunct -> same_life k (set_queues (<[h := l]> (queues k)) k).
Proof. intros H. split; [done..|]. unfold queue. cbn. by rewrite lookup_insert_ne. Qed.

Lemma life_in k t : known k t -> ~ ended k t -> same_life k (rt_schedule_insert_thread t k).
Proof.
  intros Hk He. unfold rt_schedule_insert_thread. destruct (t =? rt_current_thread k).
  - apply (life_state k t RT_THREAD_RUNNING); try done. intros th. by apply state_of_to_state.
  - cbv zeta. set (k1 := upd_thread t (to_state RT_THREAD_READY) k).
    assert (same_life k k1) as S1
      by (apply (life_state k t RT_THREAD_READY); try done; intros th; by apply state_of_to_state).
    etrans; [exact S1|]. set (h := Ready (current_priority (thr k1 t))).
    etrans; [apply (life_lists k1 h (queue k1 h ++ [t])); done|]. by apply life_same.
Qed.

(** A thread that has not ended is not in the list of the idle thread. *)
Lemma not_defunct k t : core k -> ~ ended k t -> t ∉ queue k Defunct.
Proof. intros [Hb _] He Hin. by destruct (bt_in _ _ Hb t Defunct Hin) as (_ & _ & ?). Qed.
Lemma state_not_ended k t s : state_of (thr k t) = s -> s <> RT_THREAD_CLOSE -> ~ ended k t.
Proof. unfold ended. by intros ->. Qed.

(** ** Scheduling *)

Lemma life_schedule k : kernel_ok k -> same_life k (rt_schedule k).
Proof.
  intros [Hcore Hcur].
  destruct (decide (rt_scheduler_lock_nest k = 0)) as [Hl|Hl]; [|by rewrite schedule_off by (by left)].
  destruct (decide (rt_thread_ready_priority_group k = 0)) as [Hg|Hg]; [by rewrite schedule_off by (by right)|].
  pose proof (schedule_unfold k Hl Hg) as Hu. cbv zeta in Hu.
  destruct (highest_spec k Hcore Hg) as (n & p & rest & Eh & _ & Eq & _). rewrite Eh in Hu.
  destruct (bt_in _ _ (proj1 Hcore) n (Ready p)) as (Hkn & _ & Hsn & _); [rewrite Eq; apply list_elem_of_here|].
  set (c := rt_current_thread k) in *. assert (n <> c) as Hnc by (intros ->; done).
  rewrite (proj2 (Z.eqb_neq n c)), orb_false_r in Hu by done.
  set (f := fun th => with_stat (Z.ldiff (stat th) RT_THREAD_STAT_YIELD) th) in Hu.
  set (k1 := if state_of (thr k c) =? RT_THREAD_RUNNING then upd_thread c f k else k) in Hu.
  assert (state_of (thr k c) = RT_THREAD_RUNNING -> known k c) as Hkc
    by (intros E; apply known_of_state; by rewrite E).
  assert (same_life k k1) as S1.
  { unfold k1. destruct (Z.eqb_spec (state_of (thr k c)) RT_THREAD_RUNNING); [|done].
    apply life_field; [by apply Hkc|done|intros; apply state_of_yield_off]. }
  assert (forall t, ~ ended k t -> t ∉ queue k1 Defunct) as Hq
    by (intros t Ht; rewrite (sl_defunct _ _ S1); by apply not_defunct).
  assert (~ ended k n) as Hen by (by apply (state_not_ended _ _ RT_THREAD_READY)).
  destruct (stays k) eqn:Est; rewrite Hu.
  - unfold stays in Est. apply andb_true_iff in Est as [Hr%Z.eqb_eq _]. fold c in Hr.
    assert (~ ended k c) as Hec by (by apply (state_not_ended _ _ RT_THREAD_RUNNING)).
    etrans; [exact S1|]. etrans; [apply (life_out k1 c); by apply Hq|].
    pose proof (life_out k1 c (Hq c Hec)) as S2. apply (life_state _ _ RT_THREAD_RUNNING); try done.
    + apply S2, S1, Hkc, Hr.
    + by rewrite (sl_ended _ _ S2), (sl_ended _ _ S1).
    + intros th. by apply state_of_to_state.
  - set (k2 := set_current n (u8 p) k1) in *.
    assert (same_life k k2) as S2 by (etrans; [exact S1|by apply life_same]).
    set (k3 := if state_of (thr k c) =? RT_THREAD_RUNNING then rt_schedule_insert_thread c k2 else k2).
    assert (same_life k k3) as S3.
    { unfold k3. destruct (Z.eqb_spec (state_of (thr k c)) RT_THREAD_RUNNING) as [Hr|]; [|done].
      etrans; [exact S2|]. apply life_in; [by apply S2, Hkc|].
      rewrite (sl_ended _ _ S2). by apply (state_not_ended _ _ RT_THREAD_RUNNING). }
    assert (n ∉ queue k3 Defunct) as Hn3 by (rewrite (sl_defunct _ _ S3); by apply not_defunct).
    pose proof (life_out k3 n Hn3) as S4. etrans; [exact S3|]. etrans; [exact S4|].
    apply (life_state _ _ RT_THREAD_RUNNING); try done; [by apply S4, S3| |intros th; by apply state_of_to_state].
    by rewrite (sl_ended _ _ S4), (sl_ended _ _ S3).
Qed.

(** ** Suspending and resuming *)

Lemma life_suspend k t : kernel_ok k -> same_life k (fst (rt_thread_suspend t k)).
Proof.
  intros Hok. destruct (decide (awake (thr k t))) as [Ha|Ha].
  - assert (~ ended k t) as He by (unfold ended; by destruct Ha as [-> | ->]).
    assert (known k t) as Hk by (apply known_of_state; by destruct Ha as [-> | ->]).
    unfold rt_thread_suspend. replace (negb _ && negb _) with false by (destruct Ha as [E|E]; rewrite E; reflexivity). cbn [fst].
    pose proof (life_out k t (not_defunct _ _ (proj1 Hok) He)) as S1.
    etrans; [exact S1|]. set (k1 := rt_schedule_remove_thread t k) in *.
    transitivity (upd_thread t (to_state RT_THREAD_SUSPEND) k1); [|by apply life_same].
    apply (life_state _ _ RT_THREAD_SUSPEND); try done; [by apply S1|by rewrite (sl_ended _ _ S1)|].
    intros th. by apply state_of_to_state.
  - unfold rt_thread_suspend. unfold awake in Ha.
    rewrite (proj2 (Z.eqb_neq _ RT_THREAD_READY)), (proj2 (Z.eqb_neq _ RT_THREAD_RUNNING)) by tauto. done.
Qed.

Lemma life_resume k t : kernel_ok k -> same_life k (fst (rt_thread_resume t k)).
Proof.
  intros Hok. unfold rt_thread_resume. destruct (Z.eqb_spec (state_of (thr k t)) RT_THREAD_SUSPEND) as [Hs|Hs]; [|done].
  cbn [negb fst]. assert (~ ended k t) as He by (by apply (state_not_ended _ _ RT_THREAD_SUSPEND)).
  etrans; [apply (life_remove k t), not_defunct; [apply Hok|done]|].
  etrans; [by apply (life_same _ (timer_op (fun ts => fst (rt_timer_stop t ts)) (rt_list_remove t k)))|].
  apply life_in; [by apply suspended_known|done].
Qed.

Lemma life_timer k t n : same_life k (start_thread_timer t n k).
Proof. by apply life_same; apply start_thread_timer_fields. Qed.
Lemma life_wait k t n : same_life k (wait_timer t n k).
Proof. by apply life_same; apply wait_timer_fields. Qed.
Lemma life_error k t e : known k t -> same_life k (set_error t e k).
Proof. intros Hk. by apply life_field. Qed.

Lemma life_list_suspend k h t flag : kernel_ok k -> h <> Defunct -> same_life k (rt_ipc_list_suspend h t flag k).
Proof.
  intros Hok Hh. unfold rt_ipc_list_suspend. etrans; [by apply (life_suspend k t)|].
  destruct (_ =? _); [by apply life_lists|]. destruct (_ =? _); [by apply life_lists|done].
Qed.

Lemma life_block k h flag time : kernel_inv k -> running k -> (exists o, h = Suspended o \/ h = Senders o) ->
  ipc_flag flag -> wait_time time -> same_life k (block h (rt_current_thread k) flag time k).
Proof.
  intros H Hr Hh Hf Ht. assert (h <> Defunct) as Hd by (by destruct Hh as (o & [-> | ->])).
  destruct (inv_list_suspend k h flag H Hr Hh Hf) as [[Hok1 _ _] _].
  unfold block. set (k1 := rt_ipc_list_suspend _ _ _ _) in *.
  etrans; [by apply (life_list_suspend k h (rt_current_thread k) flag (ki_ok _ H))|]. fold k1.
  etrans; [apply (life_wait k1 (rt_current_thread k) time)|]. apply life_schedule. by apply wait_timer_ok.
Qed.

Lemma life_list_resume k h : kernel_ok k -> same_life k (rt_ipc_list_resume h k).
Proof. intros Hok. by apply life_resume. Qed.

Lemma life_wake k h : kernel_inv k -> waiting_list h -> h <> Defunct -> same_life k (wake_one h k).
Proof.
  intros H Hw Hh. unfold wake_one. destruct (queue k h) eqn:E; [done|]. etrans; [apply (life_list_resume k h), H|].
  apply life_schedule, inv_list_resume; try done. by rewrite E.
Qed.

Lemma life_resume_all h : waiting_list h -> h <> Defunct -> forall fuel k k', kernel_inv k ->
  resume_all_loop fuel h k = Some k' -> same_life k k'.
Proof.
  intros Hwl Hd. induction fuel as [|fuel IH]; intros k k' H; cbn [resume_all_loop];
    destruct (queue k h) as [|t l] eqn:E; try done; try by intros [= <-].
  intros E1. assert (known k t) as Hk.
  { eapply (bt_in _ _ (proj1 (proj1 (ki_ok _ H))) t h). rewrite E. apply list_elem_of_here. }
  pose proof (inv_set_error k t (- RT_ERROR) H Hk) as H1.
  etrans; [by apply (life_error k t (- RT_ERROR))|]. etrans; [apply (life_resume _ t), H1|].
  apply IH; [|done]. apply inv_resume; [done|]. apply known_upd. by left.
Qed.

Lemma life_both k k' o : kernel_inv k -> resume_both o k = Some k' -> same_life k k'.
Proof.
  intros H. unfold resume_both, rt_ipc_list_resume_all.
  destruct (resume_all_loop _ (Suspended o) k) as [k1|] eqn:E; [|done]. cbn [mbind option_bind]. intros E2.
  etrans; [by eapply (life_resume_all (Suspended o))|]. eapply (life_resume_all (Senders o)); [done|done| |done].
  by eapply inv_resume_all; [| |exact H|exact E].
Qed.

Lemma life_priority k t p : kernel_ok k -> known k t -> same_life k (change_priority t p k).
Proof.
  intros Hok Hk. unfold change_priority. destruct (Z.eqb_spec (state_of (thr k t)) RT_THREAD_READY) as [Hs|]; [|by apply life_field].
  assert (~ ended k t) as He by (by apply (state_not_ended _ _ RT_THREAD_READY)).
  pose proof (life_out k t (not_defunct _ _ (proj1 Hok) He)) as S1. etrans; [exact S1|].
  set (k1 := rt_schedule_remove_thread t k) in *.
  assert (same_life k1 (upd_thread t (with_priority p) k1)) as S2 by (apply life_field; [by apply S1|done|done]).
  etrans; [exact S2|]. apply life_in; [by apply S2, S1|]. by rewrite (sl_ended _ _ S2), (sl_ended _ _ S1).
Qed.

(** ** The tick *)

Lemma life_timeout k t : kernel_ok k -> known k (rt_current_thread k) -> state_of (thr k t) = RT_THREAD_SUSPEND ->
  same_life k (rt_thread_timeout t k).
Proof.
  intros Hok Hc Hs. assert (known k t) as Hk by (by apply suspended_known).
  assert (~ ended k t) as He by (by apply (state_not_ended _ _ RT_THREAD_SUSPEND)). unfold rt_thread_timeout.
  pose proof (life_error k t (- RT_ETIMEOUT) Hk) as S1. set (k1 := set_error t _ k) in *.
  assert (t ∉ queue k1 Defunct) as Hd by (rewrite (sl_defunct _ _ S1); by apply not_defunct; [apply Hok|]).
  pose proof (life_remove k1 t Hd) as S2. set (k2 := rt_list_remove t k1) in *.
  assert (same_life k k2) as S by (by etrans).
  assert (same_life k2 (rt_schedule_insert_thread t k2)) as S3
    by (apply life_in; [by apply S|by rewrite (sl_ended _ _ S)]).
  etrans; [exact S|]. etrans; [exact S3|]. apply life_schedule.
  assert (kernel_ok k1) as Hok1 by (by apply kernel_ok_upd_same).
  assert (thr k2 t = with_error (- RT_ETIMEOUT) (thr k t)) as Et by apply thr_upd_same.
  pose proof (core_thread k t (proj1 Hok) Hk) as (Hp & Hi & Hm).
  pose proof (insert_fields k2 t) as (F2 & _ & _ & _ & F5 & F6). cbv zeta in *. split.
  - apply insert_core; rewrite ?Et; try done.
    + apply but_remove; [apply Hok1|by apply S1|]. change (thr k1 t) with (thr k2 t). rewrite Et.
      change (state_of (thr k t) <> RT_THREAD_READY). by rewrite Hs.
    + apply (unknown_upd t _ k); [done|apply Hok].
    + by apply S.
    + cbn [with_error number_mask current_priority]. apply Hm. by rewrite Hs.
  - rewrite F2. destruct (decide (t = rt_current_thread k2)) as [Ec|Hne].
    + rewrite <- Ec, F6, (proj2 (Z.eqb_eq _ _) Ec). done.
    + rewrite F5 by done. apply Hok1.
Qed.

Lemma life_fired k t l : kernel_ok k -> known k (rt_current_thread k) -> timers_linked k ->
  rt_timer_list (k_timers k) = t :: l -> same_life k (fired t k).
Proof.
  intros Hok Hc Htl El. destruct (tl_thread _ Htl t) as (_ & Hs & _); [rewrite El; apply list_elem_of_here|].
  unfold fired. set (k0 := timer_op (fun ts => mk_timers (tab ts) (rt_timer_list ts) [t]) _).
  etrans; [by apply (life_same k k0)|]. transitivity (rt_thread_timeout t k0); [|by apply life_same].
  apply life_timeout; [|done|done]. by apply kernel_ok_timers, kernel_ok_timers, kernel_ok_timers.
Qed.

Lemma life_timer_check fuel : forall k k', kernel_ok k -> known k (rt_current_thread k) -> timers_linked k ->
  rt_timer_check fuel k = Some k' -> same_life k k'.
Proof.
  induction fuel as [|fuel IH]; intros k k' Hok Hc Htl.
  - cbn [rt_timer_check]. destruct (rt_timer_list (k_timers k)) as [|t l]; [by intros [= <-]|].
    destruct (expired _ _); [done|by intros [= <-]].
  - destruct (rt_timer_list (k_timers k)) as [|t l] eqn:El.
    { cbn [rt_timer_check]. rewrite El. by intros [= <-]. }
    rewrite (timer_check_step k t l fuel Hok Hc Htl El). destruct (_ <=? 0); [|by intros [= <-]].
    destruct (fired_ok k t l Hok Hc Htl El) as (Hok1 & Hc1 & _ & Htl1 & _). intros E.
    etrans; [by apply (life_fired k t l)|]. by apply IH.
Qed.

Lemma life_yield k : kernel_inv k -> same_life k (fst (rt_thread_yield k)).
Proof.
  intros H. unfold rt_thread_yield, rt_thread_self. cbn [fst]. set (c := rt_current_thread k).
  set (k1 := upd_thread c (fun th => with_remaining (init_slice th) th) k).
  assert (same_life k k1) as S1 by (apply life_field; [apply H|done|done]).
  assert (known k1 c) as Hc1 by (apply S1, H).
  set (k2 := upd_thread c (fun th => with_stat (stat th .| RT_THREAD_STAT_YIELD) th) k1).
  assert (same_life k1 k2) as S2 by (apply life_field; [done|done|intros; apply state_of_yield_on]).
  etrans; [exact S1|]. etrans; [exact S2|]. apply life_schedule.
  apply kernel_ok_upd_same; [|done|apply state_of_yield_on|done|done|done].
  by apply kernel_ok_upd_same; [apply H|apply H|..].
Qed.

Lemma life_tick fuel k k' : kernel_inv k -> rt_tick_increase fuel k = Some k' -> same_life k k'.
Proof.
  intros H. rewrite rt_tick_increase_unfold. intros E.
  destruct (tick_slice_spec k (ki_ok _ H) (ki_current _ H)) as (Hok & Hc & _). cbv zeta in *.
  destruct (timers_linked_inv k (ki_timers _ H)) as [Htl Hpos].
  transitivity (tick_slice k).
  - unfold tick_slice. set (k0 := set_tick (u32 (rt_tick k + 1)) k).
    change (rt_thread_self k0) with (rt_current_thread k). cbv zeta. set (c := rt_current_thread k) in *.
    set (k1 := upd_thread c (fun th => with_remaining (u32 (remaining_tick th - 1)) th) k0).
    assert (known k c) as Hkc by apply H. assert (kernel_ok k0) as Hok0 by (by apply kernel_ok_set_tick, H).
    assert (same_life k k0) as S0 by (by apply life_same).
    assert (same_life k0 k1) as S1 by (apply life_field; [by apply S0|done|done]).
    destruct (_ =? 0); [|by transitivity k0].
    set (k2 := upd_thread c (fun th => with_remaining (init_slice th) th) k1).
    assert (same_life k1 k2) as S2 by (apply life_field; [by apply S1, S0|done|done]).
    set (k3 := upd_thread c (fun th => with_stat (stat th .| RT_THREAD_STAT_YIELD) th) k2).
    assert (same_life k2 k3) as S3 by (apply life_field; [by apply S2, S1, S0|done|intros; apply state_of_yield_on]).
    transitivity k0; [done|]. transitivity k1; [done|]. transitivity k2; [done|]. transitivity k3; [done|].
    apply life_schedule. apply kernel_ok_upd_same; try done; [|by apply S2, S1, S0|apply state_of_yield_on].
    apply kernel_ok_upd_same; try done; [|by apply S1, S0]. apply kernel_ok_upd_same; try done.
  - exact (life_timer_check fuel _ k' Hok Hc (proj2 (tick_slice_timers k (ki_ok _ H) (ki_current _ H) Htl Hpos)) E).
Qed.

(** ** Every call *)

(** Ending. *)
Lemma closed_ends k t : ended (upd_thread t (with_stat RT_THREAD_CLOSE) k) t.
Proof. unfold ended. rewrite thr_upd_same. by apply state_of_with_stat. Qed.
Lemma retire_ends k t : ended k t -> ended (thread_retire t k) t.
Proof. unfold thread_retire. by destruct (systemobject _). Qed.
Lemma detach_ends k t : ended (fst (rt_thread_detach t k)) t.
Proof.
  unfold rt_thread_detach. destruct (Z.eqb_spec (state_of (thr k t)) RT_THREAD_CLOSE); [done|apply retire_ends, closed_ends].
Qed.
Lemma delete_ends k t : ended (fst (rt_thread_delete t k)) t.
Proof.
  unfold rt_thread_delete. destruct (Z.eqb_spec (state_of (thr k t)) RT_THREAD_CLOSE); [done|].
  exact (closed_ends _ t).
Qed.

Lemma life_startup k t : kernel_inv k -> known k t -> state_of (thr k t) = RT_THREAD_INIT ->
  same_life k (fst (rt_thread_startup t k)).
Proof.
  intros H Hk Hs. unfold rt_thread_startup.
  destruct (startup_prepared k t (ki_ok _ H) Hk Hs) as (Hok2 & Hk2 & Hs2). cbv zeta in *.
  pose proof (timers_prepared k t (ki_timers _ H) Hs) as Ht2.
  assert (~ ended k t) as He by (by apply (state_not_ended _ _ RT_THREAD_INIT)).
  set (k1 := upd_thread t (fun th => with_priority (init_priority th) th) k) in *.
  assert (same_life k k1) as S1 by (by apply life_field).
  set (k2 := upd_thread t (with_stat RT_THREAD_SUSPEND) k1) in *.
  assert (same_life k1 k2) as S2.
  { apply (life_state _ _ RT_THREAD_SUSPEND); [by apply S1|by rewrite (sl_ended _ _ S1)|done|done|].
    intros th. by apply state_of_with_stat. }
  assert (kernel_inv k2) as H2 by (split; [done|apply S2, S1, H|done]).
  assert (same_life k (fst (rt_thread_resume t k2))) as S3
    by (etrans; [exact S1|]; etrans; [exact S2|]; by apply life_resume).
  destruct (negb _); cbn [fst]; [|done]. etrans; [exact S3|]. by apply life_schedule, inv_resume.
Qed.

Lemma life_sleep k n : kernel_inv k -> running k -> 0 <= n < RT_TICK_MAX / 2 ->
  same_life k (rt_schedule (start_thread_timer (rt_current_thread k) n
                              (fst (rt_thread_suspend (rt_current_thread k) k)))).
Proof.
  intros H Hr Hn. destruct (inv_slept k n H Hr Hn) as [[Hok _ _] _]. cbv zeta in *.
  etrans; [apply (life_suspend k (rt_current_thread k)), H|]. etrans; [apply life_timer|]. by apply life_schedule.
Qed.

Lemma life_release k h : kernel_inv k -> waiting_list h -> h <> Defunct -> queue k h <> [] ->
  same_life k (rt_schedule (rt_ipc_list_resume h k)).
Proof. intros H **. etrans; [apply (life_list_resume k h), H|]. by apply life_schedule, inv_list_resume. Qed.

Section calls.
Context (k : kernel) (H : kernel_inv k).

Lemma life_exit_critical : same_life k (rt_exit_critical k).
Proof.
  unfold rt_exit_critical. cbv zeta. destruct (_ <=? 0); [|by apply life_same].
  destruct (negb _); [|by apply life_same].
  transitivity (set_lock 0 (set_lock (s16 (rt_scheduler_lock_nest k - 1)) k)); [by apply life_same|].
  by apply life_schedule, inv_lock, inv_lock.
Qed.

Lemma life_object_init o : same_life k (rt_ipc_object_init o k).
Proof. by apply life_lists. Qed.

Lemma life_both_init o :
  same_life k (let k := rt_ipc_object_init o k in set_queues (<[Senders o := []]> (queues k)) k).
Proof. cbv zeta. etrans; [apply life_object_init|by apply life_lists]. Qed.

Lemma life_current_error e : same_life k (set_error (rt_current_thread k) e k).
Proof. apply life_error, H. Qed.

Lemma life_sem_release o s : same_life k (rt_sem_release o k s).1.1.
Proof.
  unfold rt_sem_release. destruct (queue k (Suspended o)) eqn:E; [by destruct (_ <? _)|].
  cbn [fst]. apply life_release; [done|done|done|by rewrite E].
Qed.

Lemma life_event_loop l : forall k s need, kernel_inv k -> (forall t, t ∈ l -> known k t) ->
  same_life k (event_send_loop l k s need).1.1.1.
Proof.
  clear k H. induction l as [|t l IH]; intros k s need H Hl; cbn [event_send_loop]; [done|].
  assert (forall x, x ∈ l -> known k x) as Hl' by (intros x Hx; apply Hl; by apply list_elem_of_further).
  assert (known k t) as Hk by (apply Hl, list_elem_of_here).
  destruct (event_test _ _ _); [by apply IH| |done].
  set (k1 := upd_thread _ _ k). assert (same_life k k1) as S1 by (by apply life_field).
  assert (kernel_inv k1) as H1 by (by apply inv_upd_same).
  assert (same_life k1 (fst (rt_thread_resume t k1))) as S2 by (apply life_resume, H1).
  etrans; [exact S1|]. etrans; [exact S2|]. apply IH; [apply inv_resume; [done|by apply S1]|].
  intros x Hx. apply S2, S1. by apply Hl'.
Qed.

Lemma life_event_send o set e : same_life k (rt_event_send o set k e).1.1.
Proof.
  assert (forall t, t ∈ queue k (Suspended o) -> known k t) as Hq
    by (intros t Ht; by apply (bt_in _ _ (proj1 (proj1 (ki_ok _ H))) t (Suspended o))).
  unfold rt_event_send. destruct (set =? 0); [done|].
  pose proof (life_event_loop (queue k (Suspended o)) k (e_set e .| set) false H Hq) as Sl.
  pose proof (inv_event_loop (queue k (Suspended o)) k (e_set e .| set) false H Hq) as Hl.
  destruct (event_send_loop _ _ _ _) as [[[k' s] need] err]. cbn [fst] in Sl, Hl.
  destruct err; cbn [fst]; [done|]. destruct need; [|done]. etrans; [exact Sl|]. apply life_schedule, Hl.
Qed.

Context (Hrun : running k).

Lemma life_blocked h flag time e : (exists o, h = Suspended o \/ h = Senders o) -> ipc_flag flag -> wait_time time ->
  same_life k (block h (rt_current_thread k) flag time (set_error (rt_current_thread k) e k)).
Proof.
  intros Hh Hf Ht. etrans; [apply life_current_error|]. pose proof (inv_set_error k _ e H (ki_current _ H)) as H1.
  apply (life_block (set_error (rt_current_thread k) e k)); try done. unfold running.
  change (rt_current_thread (set_error _ e k)) with (rt_current_thread k). by rewrite set_error_state.
Qed.

Lemma life_sem_take o time s : ipc_flag (sem_flag s) -> wait_time time -> same_life k (rt_sem_take o time k s).1.1.
Proof.
  intros Hf Ht. unfold rt_sem_take. destruct (_ >? 0); [done|]. destruct (time =? 0); [done|].
  apply (life_blocked (Suspended o)); [by exists o; left|done|done].
Qed.

Lemma life_event_recv o set opt time e : ipc_flag (e_flag e) -> wait_time time ->
  same_life k (rt_event_recv o set opt time k e).1.1.1.
Proof.
  intros Hf Ht. unfold rt_event_recv, rt_thread_self. destruct (set =? 0); [done|].
  pose proof (inv_set_error k _ RT_EOK H (ki_current _ H)) as H1.
  pose proof (life_current_error RT_EOK) as S1. set (k1 := set_error _ RT_EOK k) in *.
  assert (known k1 (rt_current_thread k)) as Hk by (apply known_upd; by left).
  destruct (if has opt RT_EVENT_FLAG_AND then _ else _); cbn [fst].
  - etrans; [exact S1|]. by apply life_field.
  - destruct (time =? 0); cbn [fst]; [etrans; [exact S1|]; by apply life_error|].
    set (k2 := upd_thread _ (with_event set opt) _).
    assert (same_life k1 k2) as S2 by (by apply life_field). assert (kernel_inv k2) as H2 by (by apply inv_upd_same).
    etrans; [exact S1|]. etrans; [exact S2|].
    apply (life_block k2 (Suspended o)); [done| |by exists o; left|done|done]. unfold running.
    change (rt_current_thread k2) with (rt_current_thread k). unfold k2. rewrite thr_upd_same.
    change (state_of (thr k1 (rt_current_thread k)) = RT_THREAD_RUNNING). unfold k1. by rewrite set_error_state.
Qed.

Lemma life_sleep_on h flag timeout td : (exists o, h = Suspended o \/ h = Senders o) -> ipc_flag flag ->
  wait_time timeout -> same_life k (fst (sleep_on h flag timeout td (set_error (rt_current_thread k) RT_EOK k))).
Proof. intros Hh Hf Ht. by apply (life_blocked h flag timeout RT_EOK). Qed.

(** The loops end in one of three ways. *)
Lemma life_mb_send o v timeout td mb r : mb_ok mb -> wait_time timeout ->
  mb_send_loop o v timeout td k mb = Some r -> same_life k r.1.1.
Proof.
  intros Hok Ht. unfold mb_send_loop, rt_thread_self. destruct (Z.eqb_spec (mb_entry mb) (mb_size mb)) as [E|E].
  - destruct (timeout =? 0); [intros [= <-]; apply life_current_error|].
    pose proof (life_sleep_on (Senders o) (mb_flag mb) timeout td) as Hs.
    destruct (sleep_on _ _ _ _ _) as [k' w]. intros [= <-]. apply Hs; [by exists o; right|apply Hok|done].
  - destruct (mb_put_spec o v k mb Hok) as (mb' & -> & _); [destruct (mo_entry _ Hok); lia|].
    cbn [mbind option_bind]. intros [= <-]. by apply life_wake.
Qed.

Lemma life_mb_recv o timeout td mb r : mb_ok mb -> wait_time timeout ->
  mb_recv_loop o timeout td k mb = Some r -> same_life k r.1.1.1.
Proof.
  intros Hok Ht. unfold mb_recv_loop, rt_thread_self. destruct (Z.eqb_spec (mb_entry mb) 0) as [E|E].
  - destruct (timeout =? 0).
    { intros [= <-]. cbn [fst]. etrans; [apply (life_current_error RT_EOK)|]. apply life_error, known_upd. by left. }
    pose proof (life_sleep_on (Suspended o) (mb_flag mb) timeout td) as Hs.
    destruct (sleep_on _ _ _ _ _) as [k' w]. intros [= <-]. apply Hs; [by exists o; left|apply Hok|done].
  - destruct (content mb) as [|v rest] eqn:Ec.
    { pose proof (content_length mb Hok) as Hl. rewrite Ec in Hl. cbn in Hl. lia. }
    destruct (mb_take_spec o k mb v rest Hok Ec) as (mb' & -> & _).
    cbn [mbind option_bind]. intros [= <-]. by apply life_wake.
Qed.

Lemma life_mq_send o buffer size timeout td mq r : mq_ok mq -> wait_time timeout ->
  0 <= size <= msg_size mq -> size <= Z.of_nat (length buffer) ->
  mq_send_loop o buffer size timeout td k mq = Some r -> same_life k r.1.1.
Proof.
  intros (q & f & Hl) Ht Hs Hb. unfold mq_send_loop, rt_thread_self. destruct f as [|msg f].
  - pose proof (ml_f _ _ _ Hl) as E. cbn in E. rewrite E. destruct (timeout =? 0); [intros [= <-]; apply life_current_error|].
    pose proof (life_sleep_on (Senders o) (mq_flag mq) timeout td) as Hss.
    destruct (sleep_on _ _ _ _ _) as [k' w]. intros [= <-]. apply Hss; [by exists o; right|apply Hl|done].
  - destruct (lists_free_block _ _ _ _ Hl) as (-> & _).
    destruct (mq_put_spec o buffer size k mq q msg f Hl Hs Hb) as (mq' & -> & _).
    cbn [mbind option_bind]. intros [= <-]. by apply life_wake.
Qed.

Lemma life_mq_recv o size timeout td mq r : mq_ok mq -> wait_time timeout -> 0 <= size ->
  mq_recv_loop o size timeout td k mq = Some r -> same_life k r.1.1.1.
Proof.
  intros (q & f & Hl) Ht Hs. unfold mq_recv_loop, rt_thread_self. pose proof (ml_entry _ _ _ Hl) as He.
  destruct q as [|msg q]; cbn [length] in He.
  - rewrite He. cbn [Z.of_nat Z.eqb]. destruct (timeout =? 0).
    { intros [= <-]. cbn [fst]. etrans; [apply (life_current_error RT_EOK)|]. apply life_error, known_upd. by left. }
    pose proof (life_sleep_on (Suspended o) (mq_flag mq) timeout td) as Hss.
    destruct (sleep_on _ _ _ _ _) as [k' w]. intros [= <-]. apply Hss; [by exists o; left|apply Hl|done].
  - rewrite (proj2 (Z.eqb_neq _ _)) by lia.
    destruct (mq_take_spec o size k mq msg q f Hl Hs) as (mq' & m & rest & _ & _ & -> & _).
    cbn [mbind option_bind]. intros [= <-]. by apply life_wake.
Qed.

Lemma life_mutex_take o time m : mutex_ok k o m -> wait_time time -> same_life k (rt_mutex_take o time k m).1.1.
Proof.
  intros Hm Ht. unfold rt_mutex_take, rt_thread_self. set (t := rt_current_thread k) in *.
  pose proof (life_current_error RT_EOK) as S1. fold t in S1. set (k1 := set_error t RT_EOK k) in *.
  assert (kernel_inv k1) as H1 by (apply inv_set_error; [done|apply H]).
  assert (known k1 t) as Hk by (apply known_upd; by left).
  destruct (Z.eqb_spec (m_owner m) t) as [Eo|Eo]; [by destruct (_ <? _)|].
  destruct (Z.gtb_spec (m_value m) 0) as [Hv|Hv]; [cbn; by destruct (_ <? _)|].
  destruct (time =? 0); [etrans; [exact S1|]; by apply life_error|]. cbn [fst].
  destruct (mo_state _ _ _ Hm) as [(? & _)|(_ & Ha & _)]; [lia|].
  assert (alive (thr k1 (m_owner m))) as Ha1.
  { eapply alive_state; [|exact Ha]. unfold k1. by rewrite set_error_state. }
  assert (state_of (thr k1 t) = RT_THREAD_RUNNING) as Hs1 by (unfold k1; by rewrite set_error_state).
  destruct (inv_lent k1 t (m_owner m) H1 eq_refl Hs1 Eo Ha1) as (H2 & Hs2 & Ec2). cbv zeta in *.
  set (k2 := if current_priority (thr k1 t) <? _ then _ else k1) in *.
  assert (same_life k1 k2) as S2.
  { unfold k2. destruct (_ <? _); [|done]. apply life_priority; [apply H1|by apply known_alive]. }
  etrans; [exact S1|]. etrans; [exact S2|]. rewrite <- Ec2. rewrite <- Ec2 in Hs2.
  apply (life_block k2 (Suspended o)); [done|done|by exists o; left|by right|done].
Qed.

Lemma life_mutex_release o m : mutex_ok k o m -> same_life k (rt_mutex_release o k m).1.1.
Proof.
  intros Hm. unfold rt_mutex_release, rt_thread_self.
  destruct (Z.eqb_spec (rt_current_thread k) (m_owner m)) as [Eo|Eo]; cbn [negb]; [|apply life_current_error].
  cbn [hold original_priority m_owner m_value]. destruct (_ =? 0); [|done].
  destruct (mo_state _ _ _ Hm) as [(_ & E & _)|(_ & Ha & _ & Hp & _)].
  { exfalso. apply (bt_null _ _ (proj1 (proj1 (ki_ok _ H)))). rewrite <- E, <- Eo. apply H. }
  set (k1 := if negb _ then _ else k).
  assert (kernel_inv k1 /\ same_life k k1) as [H1 S1].
  { unfold k1. destruct (negb _); [|done]. split; [|apply life_priority; [apply H|by apply known_alive]].
    apply inv_change_priority; [done|by apply known_alive|done|by apply alive_live]. }
  destruct (queue k1 (Suspended o)) eqn:E; [by destruct (_ <? _)|].
  destruct (0 <? RT_MUTEX_HOLD_MAX); destruct (_ <? RT_MUTEX_HOLD_MAX); cbn [fst]; try done;
    (etrans; [exact S1|]; apply life_release; [done|done|done|by rewrite E]).
Qed.
End calls.

(** A call that makes and ends no thread. *)
Definition plain (k k' : kernel) : Prop :=
  kernel_step k k' /\ (forall t, known k' t -> known k t) /\ (forall t, ended k' t -> ended k t).

Lemma call_life k c k' : kernel_inv k -> kernel_call k c k' -> (forall t, known k' t -> known k t) ->
  (forall t, ended k' t -> ended k t) -> same_life k k'.
Proof.
  intros H Hcall Hnew Hend. destruct Hcall.
  - destruct (thread_init_inv k t static p n (ki_ok _ H) (ki_timers _ H)) as (_ & _ & Hk); try done.
    { intros ->. apply H0, H. }
    exfalso. by apply H0, Hnew, Hk; left.
  - by apply life_startup.
  - apply life_schedule, H.
  - by apply life_yield.
  - by apply life_sleep.
  - unfold rt_thread_sleep_end. destruct (_ =? _); [|done]. by apply life_current_error.
  - unfold rt_thread_delay_until, rt_thread_self. destruct (Z.ltb_spec (u32 (rt_tick k - tick)) inc); [|done].
    cbn [fst]. pose proof (delay_left (rt_tick k) tick inc). apply life_sleep; [done|done|lia].
  - apply life_suspend, H.
  - apply life_resume, H.
  - pose proof (Hend t (detach_ends k t)) as He. unfold rt_thread_detach. by rewrite (proj2 (Z.eqb_eq _ _) He).
  - pose proof (Hend t (delete_ends k t)) as He. unfold rt_thread_delete. by rewrite (proj2 (Z.eqb_eq _ _) He).
  - exfalso. set (c := rt_current_thread k) in *.
    destruct (exit_closed_ok k (ki_ok _ H) (ki_current _ H)) as (Hok & _ & _); [by rewrite H0|]. cbv zeta in *.
    assert (ended k c) as He; [|unfold ended, c in He; unfold running in H0; by rewrite H0 in He].
    apply Hend. unfold _rt_thread_exit. fold c. apply (sl_ended _ _ (life_schedule _ Hok)). apply retire_ends, (closed_ends _ c).
  - apply (life_priority k t p); [apply H|done].
  - cbn [rt_thread_control] in *. destruct (systemobject (thr k t)).
    + pose proof (inv_detach k t H H0) as Hd. pose proof (detach_ends k t) as Ht.
      unfold rt_thread_detach in *. destruct (Z.eqb_spec (state_of (thr k t)) RT_THREAD_CLOSE) as [|Hn]; [apply life_schedule, H|].
      exfalso. apply Hn, Hend. cbn [fst] in *. by apply (sl_ended _ _ (life_schedule _ (ki_ok _ Hd))).
    + pose proof (inv_delete k t H H0) as Hd. pose proof (delete_ends k t) as Ht.
      unfold rt_thread_delete in *. destruct (Z.eqb_spec (state_of (thr k t)) RT_THREAD_CLOSE) as [|Hn]; [apply life_schedule, H|].
      exfalso. apply Hn, Hend. cbn [fst] in *. by apply (sl_ended _ _ (life_schedule _ (ki_ok _ Hd))).
  - by apply life_same.
  - by apply life_exit_critical.
  - by apply life_object_init.
  - by apply life_sem_take.
  - by apply life_sem_release.
  - by apply life_event_send.
  - by apply life_event_recv.
  - by apply life_both_init.
  - unfold rt_mb_send_wait in *. destruct (_ && _); simplify_eq/=; [done|]. by eapply life_mb_send.
  - unfold rt_mb_send_resumed in *. destruct (negb _); simplify_eq/=; [done|].
    eapply life_mb_send; [done|done|done| |eassumption]. by apply remaining_bound.
  - destruct (mb_urgent_kernel _ _ _ _ _ H1) as [-> | ->]; [done|by apply life_wake].
  - unfold rt_mb_recv in *. destruct (_ && _); simplify_eq/=; [done|]. by eapply life_mb_recv.
  - unfold rt_mb_recv_resumed in *. destruct (negb _); simplify_eq/=; [done|].
    eapply life_mb_recv; [done|done|done| |eassumption]. by apply remaining_bound.
  - by apply life_both_init.
  - unfold rt_mq_send_wait in *. destruct (Z.gtb_spec size (msg_size mq)); simplify_eq/=; [done|].
    destruct (msg_queue_free mq), (time =? 0); simplify_eq/=; try done;
      (eapply life_mq_send; [done|done|done|done| | |eassumption]; lia).
  - unfold rt_mq_send_resumed in *. destruct (negb _); simplify_eq/=; [done|].
    eapply life_mq_send; [done|done|done| |done|done|eassumption]. by apply remaining_bound.
  - destruct (mq_urgent_kernel _ _ _ _ _ _ H1) as [-> | ->]; [done|by apply life_wake].
  - unfold rt_mq_recv in *. destruct (_ && _); simplify_eq/=; [done|]. by eapply life_mq_recv.
  - unfold rt_mq_recv_resumed in *. destruct (negb _); simplify_eq/=; [done|].
    eapply life_mq_recv; [done|done|done| |done|eassumption]. by apply remaining_bound.
  - eapply (life_resume_all (Suspended o)); [done|done|exact H|eassumption].
  - by eapply life_both.
Qed.

Lemma plain_life k k' : kernel_inv k -> plain k k' -> same_life k k'.
Proof.
  intros H (Hstep & Hnew & Hend). destruct Hstep as [c k' Hcall| | |].
  - by eapply call_life.
  - by eapply life_tick.
  - by apply life_mutex_take.
  - by apply life_mutex_release.
Qed.

(** ** How threads begin, end and are reaped *)

(** ** Ending *)

(** Thread [t] has ended; [queued] says whether it waits for the idle thread. *)
Record thread_end (t : Z) (queued : bool) (k k' : kernel) : Prop := {
  te_known : forall x, known k' x <-> known k x;
  te_static : forall x, systemobject (thr k' x) = systemobject (thr k x);
  te_ended : forall x, ended k' x <-> x = t \/ ended k x;
  te_defunct : queue k' Defunct = if queued then t :: queue k Defunct else queue k Defunct }.

Lemma life_end k k1 k2 t q : same_life k k1 -> thread_end t q k1 k2 -> thread_end t q k k2.
Proof.
  intros [A1 A2 A3 A4] [B1 B2 B3 B4]. split.
  - intros x. by rewrite B1.
  - intros x. by rewrite B2.
  - intros x. by rewrite B3, A3.
  - by rewrite B4, A4.
Qed.
Lemma end_life k k1 k2 t q : thread_end t q k k1 -> same_life k1 k2 -> thread_end t q k k2.
Proof.
  intros [B1 B2 B3 B4] [A1 A2 A3 A4]. split.
  - intros x. by rewrite A1.
  - intros x. by rewrite A2.
  - intros x. by rewrite A3, B3.
  - by rewrite A4, B4.
Qed.

Lemma end_closed k t : known k t -> thread_end t false k (upd_thread t (with_stat RT_THREAD_CLOSE) k).
Proof.
  intros Hk. split; [| | |done].
  - intros x. rewrite known_upd. split; [by intros [<-|]|by right].
  - intros x. rewrite thr_upd. by destruct (decide (t = x)) as [<-|].
  - intros x. unfold ended. rewrite thr_upd. destruct (decide (t = x)) as [<-|Hn].
    + rewrite state_of_with_stat by done. split; [by left|done].
    + split; [by right|]. by intros [->|].
Qed.

Lemma end_queued k k1 t : thread_end t false k k1 -> thread_end t true k (rt_list_insert_after Defunct t k1).
Proof. intros [A1 A2 A3 A4]. split; [done..|]. rewrite queue_push, decide_True by done. by rewrite A4. Qed.

Lemma end_retired k k1 t : thread_end t false k k1 ->
  thread_end t (negb (systemobject (thr k t))) k (thread_retire t k1).
Proof.
  intros H. unfold thread_retire. rewrite (te_static _ _ _ _ H). destruct (systemobject _); [done|by apply end_queued].
Qed.

(** Taken off the scheduler when it was started. *)
Lemma life_unscheduled k t : kernel_ok k -> ~ ended k t ->
  same_life k (if negb (state_of (thr k t) =? RT_THREAD_INIT) then rt_schedule_remove_thread t k else k).
Proof. intros Hok He. destruct (negb _); [|done]. by apply life_out, not_defunct; [apply Hok|]. Qed.

Lemma detach_end k t : kernel_ok k -> known k t -> ~ ended k t ->
  thread_end t (negb (systemobject (thr k t))) k (fst (rt_thread_detach t k)).
Proof.
  intros Hok Hk He. unfold rt_thread_detach. rewrite (proj2 (Z.eqb_neq _ _)) by exact He. cbn [fst].
  pose proof (life_unscheduled k t Hok He) as S1. set (k1 := if negb _ then _ else k) in *.
  set (k2 := timer_op _ k1). assert (same_life k k2) as S2 by (etrans; [exact S1|by apply life_same]).
  rewrite <- (sl_static _ _ S2 t). eapply life_end; [exact S2|]. apply end_retired, end_closed. by apply S2.
Qed.

Lemma delete_end k t : kernel_ok k -> known k t -> ~ ended k t ->
  thread_end t true k (fst (rt_thread_delete t k)).
Proof.
  intros Hok Hk He. unfold rt_thread_delete. rewrite (proj2 (Z.eqb_neq _ _)) by exact He. cbn [fst].
  pose proof (life_unscheduled k t Hok He) as S1. set (k1 := if negb _ then _ else k) in *.
  set (k2 := timer_op _ k1). assert (same_life k k2) as S2 by (etrans; [exact S1|by apply life_same]).
  eapply life_end; [exact S2|]. apply end_queued, end_closed. by apply S2.
Qed.

Lemma exit_end k : kernel_inv k -> running k -> let t := rt_current_thread k in
  thread_end t (negb (systemobject (thr k t))) k (_rt_thread_exit k).
Proof.
  intros H Hr t. assert (known k t) as Hk by apply H.
  assert (~ ended k t) as He by (by apply (state_not_ended _ _ RT_THREAD_RUNNING)).
  destruct (exit_closed_ok k (ki_ok _ H) Hk ltac:(by rewrite Hr)) as (Hok & _). cbv zeta in *. fold t in Hok.
  eapply end_life; [|by apply life_schedule].
  pose proof (life_out k t (not_defunct k t (proj1 (ki_ok _ H)) He)) as S1.
  assert (thread_end t false k (upd_thread t (with_stat RT_THREAD_CLOSE) (rt_schedule_remove_thread t k))) as E1
    by (eapply life_end; [exact S1|]; apply end_closed; by apply S1).
  apply end_retired. eapply end_life; [exact E1|by apply life_same].
Qed.

Lemma close_end k t : kernel_inv k -> known k t -> ~ ended k t ->
  thread_end t (negb (systemobject (thr k t))) k (fst (rt_thread_control t RT_THREAD_CTRL_CLOSE k)).
Proof.
  intros H Hk He. cbn [rt_thread_control]. destruct (systemobject (thr k t)) eqn:Es; cbn [negb].
  - pose proof (detach_end k t (ki_ok _ H) Hk He) as E. rewrite Es in E.
    pose proof (inv_detach k t H Hk) as H1. destruct (rt_thread_detach t k) as [k1 e]. cbn [fst] in *.
    eapply end_life; [exact E|]. apply life_schedule, H1.
  - pose proof (delete_end k t (ki_ok _ H) Hk He) as E.
    pose proof (inv_delete k t H Hk) as H1. destruct (rt_thread_delete t k) as [k1 e]. cbn [fst] in *.
    eapply end_life; [exact E|]. apply life_schedule, H1.
Qed.

(** ** Beginning *)

Record thread_begin (t : Z) (static : bool) (k k' : kernel) : Prop := {
  tb_known : forall x, known k' x <-> x = t \/ known k x;
  tb_static : systemobject (thr k' t) = static;
  tb_others : forall x, x <> t -> systemobject (thr k' x) = systemobject (thr k x);
  tb_ended : forall x, ended k' x <-> ended k x;
  tb_defunct : queue k' Defunct = queue k Defunct }.

Lemma not_queued k t : core k -> ~ known k t -> forall h, t ∉ queue k h.
Proof. intros [Hb _] Hn h Hh. by apply Hn, (bt_in _ _ Hb t h). Qed.
Lemma ended_known k t : ended k t -> known k t.
Proof. intros H. apply known_of_state. by rewrite H. Qed.

Lemma init_begin k t static p n : core k -> ~ known k t ->
  thread_begin t static k (_rt_thread_init t static p n k).
Proof.
  intros Hc Hn. pose proof (not_queued k t Hc Hn) as Hq.
  destruct (thread_init_fields k t static p n Hq) as (_ & Et & Eo & Eq). cbv zeta in *.
  split; [|by rewrite Et|intros x Hx; by rewrite Eo| |apply Eq].
  - intros x. unfold known, _rt_thread_init. cbn. rewrite lookup_insert. destruct (decide (t = x)) as [<-|].
    + split; [by left|by eexists].
    + split; [by right|by intros [->|]].
  - intros x. unfold ended. destruct (decide (x = t)) as [->|Hx]; [|by rewrite Eo].
    rewrite Et. split; [done|]. intros He%ended_known. done.
Qed.

(** ** Reaping *)

(** The memory of a thread is given back. *)
Definition forget_thread (t : Z) (k : kernel) : kernel := set_threads (delete t (threads k)) k.

Record thread_gone (t : Z) (k k' : kernel) : Prop := {
  tg_known : forall x, known k' x <-> x <> t /\ known k x;
  tg_static : forall x, x <> t -> systemobject (thr k' x) = systemobject (thr k x);
  tg_ended : forall x, ended k' x <-> x <> t /\ ended k x;
  tg_current : rt_current_thread k' = rt_current_thread k;
  tg_running : running k -> running k' }.

(** An ended thread taken out of the list of the idle thread. *)
Lemma dequeue_inv k t q : kernel_inv k -> queue k Defunct = t :: q ->
  rt_thread_defunct_dequeue k = (rt_list_remove t k, t) /\ kernel_inv (rt_list_remove t k) /\
  (forall h, t ∉ queue (rt_list_remove t k) h) /\ queue (rt_list_remove t k) Defunct = q.
Proof.
  intros H Eq. pose proof (ki_ok _ H) as [Hc Hcur]. pose proof Hc as [Hb Hno].
  assert (t ∈ queue k Defunct) as Hin by (rewrite Eq; apply list_elem_of_here).
  destruct (bt_in _ _ Hb t Defunct Hin) as (Hk & _ & Hs). cbn [listed] in Hs.
  unfold rt_thread_defunct_dequeue. rewrite Eq. split; [done|].
  assert (forall h, t ∉ queue (rt_list_remove t k) h) as Hout
    by (intros h; rewrite queue_remove, list_elem_of_filter; by intros [? _]).
  split; [|split; [done|]].
  - split; [|apply H|].
    + split; [|done]. apply (but_rest _ t).
      * apply but_remove; [done|done|by rewrite Hs].
      * done.
      * done.
      * exact (core_thread k t Hc Hk).
      * change (state_of (thr k t) <> RT_THREAD_READY). by rewrite Hs.
      * change (state_of (thr k t) = RT_THREAD_RUNNING -> t = rt_current_thread k). by rewrite Hs.
    + apply (timers_frame k); [apply H|done|done|]. apply (ti_sleeping _ (ki_timers _ H)).
  - rewrite queue_remove, Eq, filter_cons_False by (by intros ?).
    apply filter_absent. pose proof (bt_nodup _ _ Hb Defunct) as Hd. rewrite Eq in Hd. by apply NoDup_cons in Hd as [? _].
Qed.

Lemma forget_inv k t : kernel_inv k -> running k -> ended k t -> (forall h, t ∉ queue k h) ->
  kernel_inv (forget_thread t k) /\ thread_gone t k (forget_thread t k).
Proof.
  intros H Hr He Hq. assert (rt_current_thread k <> t) as Hne by (intros E; rewrite <- E in He; unfold running in Hr; by rewrite He in Hr).
  assert (forall x, x <> t -> thr (forget_thread t k) x = thr k x) as Et.
  { intros x Hx. unfold thr, forget_thread. cbn. by rewrite lookup_total_delete_ne. }
  assert (forall x, known (forget_thread t k) x <-> x <> t /\ known k x) as Hkn.
  { intros x. unfold known, forget_thread. cbn. rewrite lookup_delete_is_Some. naive_solver. }
  pose proof (ki_ok _ H) as [[Hb Hno] Hcur].
  assert (forall x, known (forget_thread t k) x -> known k x /\ thr (forget_thread t k) x = thr k x) as Hx.
  { intros x [Hn Hk]%Hkn. split; [done|by apply Et]. }
  split.
  - split.
    + split; [split|].
      * destruct Hb as [B1 B2 B3 B4 B5 B6 B7 B8 B9 B10]. split; try done.
        -- intros x [Hk ->]%Hx. by apply B1.
        -- intros x [Hk ->]%Hx. by apply B2.
        -- intros x h Hin. destruct (B3 x h Hin) as (Hk & Hn & Hl).
           assert (x <> t) as Hxt by (intros ->; by apply (Hq h)).
           split; [by apply Hkn|]. split; [done|]. by rewrite Et.
        -- intros x [Hk ->]%Hx. by apply B4.
        -- intros x [Hk ->]%Hx. by apply B5.
        -- by intros [_ ?]%Hkn.
      * by intros [_ ?]%Hkn.
      * change (state_of (thr (forget_thread t k) (rt_current_thread k)) <> RT_THREAD_READY). by rewrite Et.
    + apply Hkn. split; [done|apply H].
    + apply (timers_frame k); [apply H|done|done|]. intros x Hin.
      pose proof (ti_sleeping _ (ki_timers _ H) x Hin) as Hs. rewrite Et; [done|]. intros ->. by rewrite He in Hs.
  - split; [done|intros x Hn; by rewrite Et| |done|].
    + intros x. split.
      * intros He'. pose proof (ended_known _ _ He') as [Hn Hk]%Hkn. split; [done|]. unfold ended in *. by rewrite Et in He'.
      * intros [Hn He']. unfold ended in *. by rewrite Et.
    + intros _. unfold running. change (rt_current_thread (forget_thread t k)) with (rt_current_thread k). by rewrite Et.
Qed.

(** ** Before the scheduler starts *)

Lemma life_boot_startup k t : kernel_ok k -> rt_current_thread k = RT_NULL -> known k t ->
  state_of (thr k t) = RT_THREAD_INIT -> same_life k (fst (rt_thread_startup t k)).
Proof.
  intros Hok Ec Hk Hs. unfold rt_thread_startup.
  destruct (startup_prepared k t Hok Hk Hs) as (Hok2 & Hk2 & Hs2). cbv zeta in *.
  assert (~ ended k t) as He by (by apply (state_not_ended _ _ RT_THREAD_INIT)).
  set (k1 := upd_thread t (fun th => with_priority (init_priority th) th) k) in *.
  assert (same_life k k1) as S1 by (by apply life_field).
  set (k2 := upd_thread t (with_stat RT_THREAD_SUSPEND) k1) in *.
  assert (same_life k1 k2) as S2.
  { apply (life_state _ _ RT_THREAD_SUSPEND); [by apply S1|by rewrite (sl_ended _ _ S1)|done|done|].
    intros th. by apply state_of_with_stat. }
  destruct (resume_fields k2 t Hs2) as (Ec2 & _). cbv zeta in *. unfold rt_thread_self. rewrite Ec2.
  change (rt_current_thread k2) with (rt_current_thread k). rewrite Ec. cbn [negb fst Z.eqb RT_NULL].
  etrans; [exact S1|]. etrans; [exact S2|]. by apply life_resume.
Qed.

Lemma life_start k t : kernel_ok k -> known k t -> state_of (thr k t) = RT_THREAD_READY ->
  same_life k (rt_system_scheduler_start k).
Proof.
  intros [Hc Hcur] Hk Hs. pose proof Hc as [Hb Hno].
  pose proof (ready_group k t Hc Hk Hs) as Hg.
  destruct (highest_spec k Hc Hg) as (n & p & rest & Eh & _ & Eq & _).
  unfold rt_system_scheduler_start. rewrite Eh.
  destruct (bt_in _ _ Hb n (Ready p)) as (Hkn & _ & Hsn & _); [rewrite Eq; apply list_elem_of_here|].
  assert (~ ended k n) as He by (by apply (state_not_ended _ _ RT_THREAD_READY)).
  set (k1 := set_current n (rt_current_priority k) k). assert (same_life k k1) as S1 by (by apply life_same).
  assert (n ∉ queue k1 Defunct) as Hn1 by (rewrite (sl_defunct _ _ S1); by apply not_defunct).
  pose proof (life_out k1 n Hn1) as S2. etrans; [exact S1|]. etrans; [exact S2|].
  apply (life_state _ _ RT_THREAD_RUNNING); [by apply S2, S1| |done|done|].
  - by rewrite (sl_ended _ _ S2), (sl_ended _ _ S1).
  - intros th. by apply state_of_with_stat.
Qed.
