(* ===== verification/ThreadLife.v ===== *)
(** * ThreadLife: threads, their objects and their memory

    [thread.c] and [idle.c] over the three things a thread consists of: its
    record in the kernel, its entry and its timer's entry in the registry of
    objects, and, when it was created, two blocks of the heap, the
    [struct rt_thread] and the stack.  The operations of [Kernel], [Object] and
    [Heap] are composed here in the order of the code; the functions keep their
    names, those of the kernel alone are [Kernel.rt_thread_create] and so on.

    The fields of a thread are its record in [Kernel] and its entry in
    [Object], not the bytes of the heap; of the stack the heap holds the bytes.
    [rt_hw_stack_init] is the port's, which is not in the repository: it takes
    the entry, the parameter and the highest word of the stack, and gives the
    memory with the first frame and the stack pointer. *)
From S2P Require Import Prelude Bytes KService Heap HeapInv HeapSystem Object Timer Kernel KernelInv.
From S2P Require Import KernelSystem LifeFrame.

(** [struct rt_thread], without modules, signals, SMP and LWP. *)
Definition sizeof_rt_thread : Z := 128.
Definition offsetof_thread_timer : Z := 76.

(** The fields of a thread the scheduler does not look at; [cleanup] is
    [RT_NULL] from [_rt_thread_init] on, nothing sets it. *)
Record thread_memory := mk_memory { sp : Z; t_entry : Z; t_parameter : Z; stack_addr : Z; stack_size : Z }.
#[export] Instance thread_memory_inhabited : Inhabited thread_memory := populate (mk_memory 0 0 0 0 0).

Record world := mk_world {
  w_kernel : kernel; w_objects : registry; w_heap : heap; w_memory : gmap Z thread_memory }.
Definition set_kernel (k : kernel) (w : world) : world := mk_world k (w_objects w) (w_heap w) (w_memory w).
Definition set_objects (r : registry) (w : world) : world := mk_world (w_kernel w) r (w_heap w) (w_memory w).
Definition set_heap (h : heap) (w : world) : world := mk_world (w_kernel w) (w_objects w) h (w_memory w).
Definition set_memory (m : gmap Z thread_memory) (w : world) : world := mk_world (w_kernel w) (w_objects w) (w_heap w) m.
Definition timer_of (t : Z) : Z := t + offsetof_thread_timer.
Definition stack_of (w : world) (t : Z) : Z := stack_addr (w_memory w !!! t).

(** ** [object.c] with the heap *)

(** The [struct rt_object]s in a range that is set to zero. *)
Definition clear_objects (p size : Z) (r : registry) : registry :=
  mk_registry (filter (fun '(o, _) => ~ p <= o < p + size) (objects r)) (rt_object_container r).

Definition rt_object_allocate (type size : Z) (name : list Z) (w : world) : option (world * Z) :=
  _ ← rt_object_get_information type (w_objects w);
  '(h, o) ← rt_malloc (heap_fuel (w_heap w)) size (w_heap w);
  if o =? 0 then Some (set_heap h w, RT_NULL)
  else
    m ← rt_memset o 0 size (hm h);
    '(r, o) ← Object.rt_object_allocate (Some o) type name (clear_objects o size (w_objects w));
    Some (set_objects r (set_heap (on_mem (fun _ => m) h) w), o).

(** The record of a thread goes with its memory. *)
Definition rt_object_delete (t : Z) (w : world) : option world :=
  r ← Object.rt_object_delete t (w_objects w);
  Some (mk_world (forget_thread t (w_kernel w)) r (rt_free t (w_heap w)) (delete t (w_memory w))).

(** ** [thread.c] *)

Section operations.
Context (rt_hw_stack_init : Z -> Z -> Z -> memory -> memory * Z).

(** The name of the timer is that of the thread: [thread->name]. *)
Definition _rt_thread_init (t : Z) (static : bool) (entry parameter stack_start stack_size priority tick : Z)
    (w : world) : option world :=
  m ← rt_memset stack_start 35 stack_size (hm (w_heap w));
  let '(m, sp) := rt_hw_stack_init entry parameter (stack_start + stack_size - 4) m in
  let w := set_heap (on_mem (fun _ => m) (w_heap w)) w in
  let w := set_memory (<[t := mk_memory sp entry parameter stack_start stack_size]> (w_memory w)) w in
  let w := set_kernel (Kernel._rt_thread_init t static priority tick (w_kernel w)) w in
  r ← rt_object_init (timer_of t) RT_Object_Class_Timer (name_ptr (object_at t (w_objects w))) (w_objects w);
  Some (set_objects r w).

Definition rt_thread_init (t : Z) (name : list Z) (entry parameter stack_start stack_size priority tick : Z)
    (w : world) : option world :=
  r ← rt_object_init t RT_Object_Class_Thread name (w_objects w);
  _rt_thread_init t true entry parameter stack_start stack_size priority tick (set_objects r w).

Definition rt_thread_create (name : list Z) (entry parameter stack_size priority tick : Z) (w : world)
    : option (world * Z) :=
  '(w, t) ← rt_object_allocate RT_Object_Class_Thread sizeof_rt_thread name w;
  if t =? RT_NULL then Some (w, RT_NULL)
  else
    '(h, stack_start) ← rt_malloc (heap_fuel (w_heap w)) stack_size (w_heap w);
    let w := set_heap h w in
    if stack_start =? 0 then w ← rt_object_delete t w; Some (w, RT_NULL)
    else
      w ← _rt_thread_init t false entry parameter stack_start stack_size priority tick w;
      Some (w, t).

(** The timer's object, and a static thread's own, leave the registry: what
    [rt_timer_detach] and the test of [rt_object_is_systemobject] do beside the
    kernel. *)
Definition detach_objects (t : Z) (r : registry) : option registry :=
  r ← rt_object_detach (timer_of t) r;
  system ← rt_object_is_systemobject t r;
  if system : bool then rt_object_detach t r else Some r.

Definition _rt_thread_exit (w : world) : option world :=
  r ← detach_objects (rt_thread_self (w_kernel w)) (w_objects w);
  Some (set_objects r (set_kernel (Kernel._rt_thread_exit (w_kernel w)) w)).

Definition rt_thread_detach (t : Z) (w : world) : option (world * Z) :=
  if state_of (thr (w_kernel w) t) =? RT_THREAD_CLOSE then Some (w, RT_EOK)
  else
    r ← detach_objects t (w_objects w);
    let '(k, e) := Kernel.rt_thread_detach t (w_kernel w) in
    Some (set_objects r (set_kernel k w), e).

Definition rt_thread_delete (t : Z) (w : world) : option (world * Z) :=
  if state_of (thr (w_kernel w) t) =? RT_THREAD_CLOSE then Some (w, RT_EOK)
  else
    r ← rt_object_detach (timer_of t) (w_objects w);
    let '(k, e) := Kernel.rt_thread_delete t (w_kernel w) in
    Some (set_objects r (set_kernel k w), e).

(** [rt_thread_control] with [RT_THREAD_CTRL_CLOSE]. *)
Definition rt_thread_close (t : Z) (w : world) : option (world * Z) :=
  system ← rt_object_is_systemobject t (w_objects w);
  '(w, e) ← (if system : bool then rt_thread_detach t w else rt_thread_delete t w);
  Some (set_kernel (rt_schedule (w_kernel w)) w, e).

(** ** [idle.c] *)

(** One round of the loop, [None] when no thread is left; and the loop. *)
Definition reap (t : Z) (w : world) : option world :=
  system ← rt_object_is_systemobject t (w_objects w);
  if system : bool then
    r ← rt_object_detach t (w_objects w); Some (set_objects r w)
  else rt_object_delete t (set_heap (rt_free (stack_of w t) (w_heap w)) w).

Fixpoint rt_defunct_execute (fuel : nat) (w : world) : option world :=
  let '(k, t) := rt_thread_defunct_dequeue (w_kernel w) in
  if t =? RT_NULL then Some w
  else
    match fuel with
    | O => None
    | S fuel => w ← reap t (set_kernel k w); rt_defunct_execute fuel w
    end.
End operations.

(** [idle_hook_list] has [RT_IDLE_HOOK_LIST_SIZE] slots, 0 is [RT_NULL]. *)
Definition RT_IDLE_HOOK_LIST_SIZE : nat := 4.
Definition idle_hooks_none : list Z := replicate RT_IDLE_HOOK_LIST_SIZE RT_NULL.

Fixpoint rt_thread_idle_sethook (hook : Z) (l : list Z) : list Z * Z :=
  match l with
  | [] => ([], - RT_EFULL)
  | h :: l =>
      if h =? RT_NULL then (hook :: l, RT_EOK)
      else let '(l, e) := rt_thread_idle_sethook hook l in (h :: l, e)
  end.
Fixpoint rt_thread_idle_delhook (hook : Z) (l : list Z) : list Z * Z :=
  match l with
  | [] => ([], - RT_ENOSYS)
  | h :: l =>
      if h =? hook then (RT_NULL :: l, RT_EOK)
      else let '(l, e) := rt_thread_idle_delhook hook l in (h :: l, e)
  end.

(** One round of the loop of [rt_thread_idle_entry]; [run] is what a hook does. *)
Fixpoint idle_hooks (run : Z -> world -> option world) (l : list Z) (w : world) : option world :=
  match l with
  | [] => Some w
  | h :: l => w ← (if h =? RT_NULL then Some w else run h w); idle_hooks run l w
  end.
Definition idle_round (run : Z -> world -> option world) (hooks : list Z) (w : world) : option world :=
  w ← idle_hooks run hooks w;
  rt_defunct_execute (length (queue (w_kernel w) Defunct)) w.
