(* ===== verification/ThreadInv.v ===== *)
(** * ThreadInv: every thread has its object and its blocks

    The invariant that ties the kernel's threads, the registry and the heap
    together, and that the operations of [ThreadLife] keep it. *)
From S2P Require Import Prelude Bytes KService Heap HeapInv HeapSystem Object Timer Kernel KernelInv.
From S2P Require Import IpcInv KernelSystem LifeFrame ThreadLife.

(** ** The invariant *)

Definition dynamic (k : kernel) (t : Z) : Prop := known k t /\ systemobject (thr k t) = false.
(** Ended, and the idle thread is done with it. *)
Definition gone (k : kernel) (t : Z) : Prop := ended k t /\ t ∉ queue k Defunct.

(** The blocks of the kernel: the object and the stack of each thread [D]. *)
Record owns (D : Z -> Prop) (m : gmap Z thread_memory) (os : gmap Z (list Z)) : Prop := {
  ow_object : forall t, D t -> exists l, os !! t = Some l /\ Z.of_nat (length l) = sizeof_rt_thread;
  ow_stack : forall t, D t -> exists l, os !! stack_addr (m !!! t) = Some l /\ Z.of_nat (length l) = stack_size (m !!! t);
  ow_only : forall p, is_Some (os !! p) -> exists t, D t /\ (p = t \/ p = stack_addr (m !!! t));
  ow_apart : forall t u, D t -> D u -> stack_addr (m !!! t) <> u;
  ow_inj : forall t u, D t -> D u -> stack_addr (m !!! t) = stack_addr (m !!! u) -> t = u }.

(** An address outside the heap, or in an array of a client. *)
Definition outside (h : heap) (a : Z) : Prop := a < heap_ptr h \/ heap_end h + 12 <= a.
Definition placed (h : heap) (oc : gmap Z (list Z)) (a : Z) : Prop :=
  outside h a \/ exists p l, oc !! p = Some l /\ p <= a < p + Z.of_nat (length l).

(** What an entry of the registry can be. *)
Definition accounted (k : kernel) (h : heap) (oc : gmap Z (list Z)) (e : entry) : Prop :=
  (e_class e = RT_Object_Class_Thread /\ known k (e_id e) /\ ~ gone k (e_id e) /\
     e_static e = systemobject (thr k (e_id e))) \/
  (e_class e = RT_Object_Class_Timer /\ exists t, known k t /\ ~ ended k t /\ e_id e = timer_of t) \/
  (e_class e <> RT_Object_Class_Thread /\ e_class e <> RT_Object_Class_Timer /\ placed h oc (e_id e)).

(** [oc] are the arrays of the clients of the heap, [os] those of the kernel,
    [A] the registered objects. *)
Record life_inv (w : world) (oc os : gmap Z (list Z)) (A : list entry) : Prop := {
  li_kernel : boot_reach (w_kernel w) \/ kernel_inv (w_kernel w);
  li_objects : represents (w_objects w) A;
  li_heap : exists bl, heap_owned (w_heap w) bl (oc ∪ os);
  li_clients : oc ##ₘ os;
  li_owns : owns (dynamic (w_kernel w)) (w_memory w) os;
  li_static : forall t, known (w_kernel w) t -> systemobject (thr (w_kernel w) t) = true ->
    outside (w_heap w) t /\ outside (w_heap w) (timer_of t);
  li_defunct : forall t, dynamic (w_kernel w) t -> ended (w_kernel w) t -> t ∈ queue (w_kernel w) Defunct;
  li_threads : forall t, known (w_kernel w) t -> ~ gone (w_kernel w) t ->
    exists e, e ∈ A /\ e_id e = t /\ e_class e = RT_Object_Class_Thread;
  li_timers : forall t, known (w_kernel w) t -> ~ ended (w_kernel w) t ->
    exists e, e ∈ A /\ e_id e = timer_of t /\ e_class e = RT_Object_Class_Timer;
  li_entries : forall e, e ∈ A -> accounted (w_kernel w) (w_heap w) oc e }.

Lemma entry_unique r A e e' : represents r A -> e ∈ A -> e' ∈ A -> e_id e = e_id e' -> e = e'.
Proof.
  intros H Hi Hi' Heq. apply list_elem_of_lookup in Hi as [n Hn], Hi' as [n' Hn'].
  rewrite (NoDup_lookup (ids A) n n' (e_id e) (rp_ids _ _ H)) in Hn; [congruence|..];
    unfold ids; rewrite list_lookup_fmap, ?Hn, ?Hn'; cbn; congruence.
Qed.

Lemma in_ids e A : e ∈ A -> e_id e ∈ ids A.
Proof. apply list_elem_of_fmap_2. Qed.

(** ** What only touches the kernel *)

Lemma life_known k k' t : same_life k k' -> (dynamic k' t <-> dynamic k t) /\ (gone k' t <-> gone k t).
Proof. intros [A B C D]. unfold dynamic, gone. by rewrite A, B, C, D. Qed.

Lemma life_accounted k k' h oc e : same_life k k' -> accounted k h oc e -> accounted k' h oc e.
Proof.
  intros S. unfold accounted. rewrite (sl_known _ _ S), (sl_static _ _ S).
  destruct (life_known _ _ (e_id e) S) as [_ ->]. intros [H|[(H1 & t & H2 & H3 & H4)|H]]; auto.
  right. left. split; [done|]. exists t. by rewrite (sl_known _ _ S), (sl_ended _ _ S).
Qed.

Lemma owns_ext D D' m m' os : owns D m os -> (forall t, D' t <-> D t) ->
  (forall t, D t -> m' !!! t = m !!! t) -> owns D' m' os.
Proof.
  intros [H1 H2 H3 H4 H5] HD Hs. split.
  - intros t Ht%HD. by apply H1.
  - intros t Ht%HD. rewrite Hs by done. by apply H2.
  - intros p (t & Ht & Hp)%H3. exists t. split; [by apply HD|]. by rewrite Hs.
  - intros t u Ht%HD Hu%HD. rewrite Hs by done. by apply H4.
  - intros t u Ht%HD Hu%HD. rewrite !Hs by done. by apply H5.
Qed.

Lemma keeps_life w oc os A k' : life_inv w oc os A -> same_life (w_kernel w) k' ->
  boot_reach k' \/ kernel_inv k' -> life_inv (set_kernel k' w) oc os A.
Proof.
  intros H S Hk. destruct H as [_ H2 H3 H4 H5 H6 H7 H8 H9 H10]. split; cbn [w_kernel w_objects w_heap set_kernel]; try done.
  - eapply owns_ext; [exact H5| |done]. intros t. by apply life_known.
  - intros t. rewrite (sl_known _ _ S), (sl_static _ _ S). apply H6.
  - intros t Hd He. rewrite (sl_defunct _ _ S). apply H7; [by apply (life_known _ _ t S)|by apply S].
  - intros t Hk' Hg. apply H8; [by apply S|]. by destruct (life_known _ _ t S) as [_ <-].
  - intros t Hk' He. apply H9; [by apply S|]. by rewrite <- (sl_ended _ _ S).
  - intros e He. by apply (life_accounted (w_kernel w)), H10.
Qed.

(** ** Clients of the heap *)

Section client.
Context (oc os : gmap Z (list Z)) (Hd : oc ##ₘ os).

Lemma client_legal c : legal oc c -> legal (oc ∪ os) c.
Proof.
  assert (forall p, is_Some (oc !! p) -> is_Some ((oc ∪ os) !! p)) as Hu.
  { intros p [l Hl]. exists l. by apply lookup_union_Some_l. }
  destruct c; cbn [legal]; try done.
  - intros [? [|]]; auto.
  - intros [|]; auto.
  - intros (Hc & l & Hl & Hi). split; [done|]. exists l. split; [by apply lookup_union_Some_l|done].
Qed.

(** The arrays of the kernel are none of the pointers a client names. *)
Lemma client_delete p : p = 0 \/ is_Some (oc !! p) -> os !! 0 = None ->
  delete p (oc ∪ os) = delete p oc ∪ os.
Proof.
  intros Hp H0. rewrite delete_union. f_equal. apply delete_id.
  destruct Hp as [->|[l Hl]]; [done|]. by eapply map_disjoint_Some_r.
Qed.

Lemma client_after c r m : legal oc c -> os !! 0 = None -> owned_after (oc ∪ os) c r m = owned_after oc c r m ∪ os.
Proof.
  intros Hl H0. destruct c as [n|count size|p n|p|p i c]; cbn [owned_after legal] in *.
  - destruct (r =? 0); [done|apply insert_union_l].
  - destruct (r =? 0); [done|apply insert_union_l].
  - destruct Hl as [_ Hp]. rewrite (client_delete p) by done. destruct (align_up n =? 0); [done|].
    destruct (r =? 0); [done|apply insert_union_l].
  - by apply client_delete.
  - destruct Hl as (_ & l & Hl & _). apply map_eq. intros q. destruct (decide (p = q)) as [<-|Hn].
    + rewrite lookup_alter_eq, !lookup_union, lookup_alter_eq, Hl. cbn. by destruct (os !! p).
    + by rewrite lookup_alter_ne, !lookup_union, lookup_alter_ne by done.
Qed.

(** The pointer a call names. *)
Definition named (c : heap_call) (p : Z) : Prop :=
  match c with Realloc q _ | Free q | Write q _ _ => p = q | _ => False end.

(** Where the array of a successful allocation is. *)
Lemma client_fresh c r o' : legal oc c -> os !! 0 = None -> promised (oc ∪ os) c r o' -> r <> 0 ->
  match c with Write _ _ _ => True | _ => os !! r = None /\ (oc !! r = None \/ named c r) end.
Proof.
  intros Hl H0 Hp Hr. assert ((oc ∪ os) !! r = None -> os !! r = None /\ (oc !! r = None \/ named c r)) as Hf
    by (intros [? ?]%lookup_union_None; auto).
  destruct c as [n|count size|p n|p|p i c]; cbn [promised named legal] in *; try done.
  - destruct Hp as [[]|(_ & H & _)]; [done|by apply Hf].
  - destruct Hp as [[]|(_ & H & _)]; [done|by apply Hf].
  - destruct Hp as [[]|(_ & [->|H] & _)]; [done| |by apply Hf].
    split; [|by right]. destruct Hl as [_ [->|[l Hl]]]; [done|]. by eapply map_disjoint_Some_r.
  - by destruct Hp as [? _].
Qed.

Lemma client_others c r o' m p l : legal oc c -> os !! 0 = None -> promised (oc ∪ os) c r o' ->
  oc !! p = Some l -> ~ named c p -> owned_after oc c r m !! p = Some l.
Proof.
  intros Hl H0 Hp Hop Hn. pose proof (client_fresh c r o' Hl H0 Hp) as Hf.
  assert (r <> 0 -> oc !! r = None \/ named c r -> r <> p) as Hne by (intros _ [H| H] ->; [by rewrite H in Hop|done]).
  destruct c as [n|count size|q n|q|q i c]; cbn [owned_after named] in *.
  - destruct (Z.eqb_spec r 0); [done|]. rewrite lookup_insert_ne; [done|]. by apply Hne, Hf.
  - destruct (Z.eqb_spec r 0); [done|]. rewrite lookup_insert_ne; [done|]. by apply Hne, Hf.
  - destruct (align_up n =? 0); [by rewrite lookup_delete_ne by (by intros ->)|].
    destruct (Z.eqb_spec r 0); [done|]. rewrite lookup_insert_ne; [|by apply Hne, Hf].
    by rewrite lookup_delete_ne by (by intros ->).
  - by rewrite lookup_delete_ne by (by intros ->).
  - by rewrite lookup_alter_ne by (by intros ->).
Qed.

Lemma client_disjoint c r o' m : legal oc c -> os !! 0 = None -> promised (oc ∪ os) c r o' ->
  owned_after oc c r m ##ₘ os.
Proof.
  intros Hl H0 Hp. pose proof (client_fresh c r o' Hl H0 Hp) as Hf.
  assert (forall p, delete p oc ##ₘ os) as Hdel by (intros p; by apply map_disjoint_delete_l).
  destruct c as [n|count size|p n|p|p i c]; cbn [owned_after] in *.
  - destruct (Z.eqb_spec r 0); [done|]. by apply map_disjoint_insert_l_2; [apply Hf|].
  - destruct (Z.eqb_spec r 0); [done|]. by apply map_disjoint_insert_l_2; [apply Hf|].
  - destruct (align_up n =? 0); [done|].
    destruct (Z.eqb_spec r 0); [done|]. by apply map_disjoint_insert_l_2; [apply Hf|].
  - done.
  - apply map_disjoint_spec. intros q x y Hx Hy. destruct (decide (p = q)) as [<-|Hn].
    + rewrite lookup_alter_eq in Hx. destruct (oc !! p) eqn:E; [|done]. by eapply map_disjoint_spec.
    + rewrite lookup_alter_ne in Hx by done. by eapply map_disjoint_spec.
Qed.
End client.

(** The array a call names holds no kernel object. *)
Definition quiet (oc : gmap Z (list Z)) (A : list entry) (c : heap_call) : Prop :=
  forall p l e, named c p -> oc !! p = Some l -> e ∈ A -> ~ p <= e_id e < p + Z.of_nat (length l).

Lemma null_not_owned h bl o : heap_owned h bl o -> o !! 0 = None.
Proof. intros H. destruct (o !! 0) eqn:E; [|done]. by apply (owned_nonzero _ h bl o H (le_n _)) in E. Qed.
Lemma kernel_no_null w oc os A : life_inv w oc os A -> os !! 0 = None.
Proof.
  intros H. destruct (li_heap _ _ _ _ H) as (bl & Ho). apply null_not_owned in Ho.
  by apply lookup_union_None in Ho as [_ ?].
Qed.

Lemma client_step w oc os A c : life_inv w oc os A -> legal oc c -> quiet oc A c -> exists h' r,
  run_call (heap_fuel (w_heap w)) c (w_heap w) = Some (h', r) /\
  promised (oc ∪ os) c r (owned_after oc c r (hm h') ∪ os) /\
  life_inv (set_heap h' w) (owned_after oc c r (hm h')) os A.
Proof.
  intros H Hl Hq. pose proof (kernel_no_null _ _ _ _ H) as H0. destruct (li_heap _ _ _ _ H) as (bl & Ho).
  destruct (every_call_ok _ _ _ _ Ho (le_n _) c (client_legal oc os c Hl)) as (h' & r & bl' & E & Hp & Hs & Ho').
  cbv zeta in *. pose proof (li_clients _ _ _ _ H) as Hd. rewrite (client_after oc os Hd c r _ Hl H0) in Hp, Ho'.
  exists h', r. split; [done|]. split; [done|].
  assert (forall a, outside (w_heap w) a -> outside h' a) as Hout
    by (intros a; unfold outside; destruct Hs as (-> & -> & _); done).
  destruct H as [H1 H2 H3 H4 H5 H6 H7 H8 H9 H10]. split; cbn [w_kernel w_objects w_heap set_heap]; try done.
  - by exists bl'.
  - by eapply client_disjoint.
  - intros t Hk Hs'. destruct (H6 t Hk Hs'). auto.
  - intros e He. destruct (H10 e He) as [|[|(Hc1 & Hc2 & Hpl)]]; [by left|right; by left|right; right].
    split; [done|]. split; [done|]. destruct Hpl as [?|(p & l & Hop & Ha)]; [left; by apply Hout|right].
    exists p, l. split; [|done]. eapply client_others; try done. intros Hn. by apply (Hq p l e Hn Hop He).
Qed.

(** ** The registry *)

Lemma registered_system r A e : represents r A -> e ∈ A -> rt_object_is_systemobject (e_id e) r = Some (e_static e).
Proof.
  intros H He. pose proof (in_ids _ _ He) as Hin. destruct (query_step r A (Is_system (e_id e)) H Hin I) as [E _].
  cbn [run_op do_op snd] in E. destruct (lookup_id_spec r A (e_id e) H Hin) as (e' & El & He' & Ee & _).
  rewrite El, (entry_unique r A e' e H He' He Ee) in E.
  destruct (rt_object_is_systemobject _ r); [|done]. cbn [mbind option_bind] in E. by injection E as ->.
Qed.

Lemma detached r A o : represents r A -> o ∈ ids A -> exists r',
  rt_object_detach o r = Some r' /\ represents r' (without o A).
Proof. intros H Ho. apply (remove_step r A o H Ho). Qed.

Lemma placed_step w oc os A o type name : life_inv w oc os A -> o ∉ ids A -> type ∈ classes ->
  type <> RT_Object_Class_Thread -> type <> RT_Object_Class_Timer -> c_string name -> placed (w_heap w) oc o ->
  exists r', rt_object_init o type (name ++ [0]) (w_objects w) = Some r' /\
    life_inv (set_objects r' w) oc os (mk_entry o type true (take 8 name) :: A).
Proof.
  intros H Ho Ht Hn1 Hn2 Hs Hp. destruct (init_step _ A o type name (li_objects _ _ _ _ H)) as (r' & E & Hr); [done|].
  exists r'. split; [done|]. destruct H as [H1 _ H3 H4 H5 H6 H7 H8 H9 H10].
  split; cbn [w_kernel w_objects w_heap set_objects]; try done.
  - intros t Hk Hg. destruct (H8 t Hk Hg) as (e & He & ?). exists e. split; [by right|done].
  - intros t Hk Hg. destruct (H9 t Hk Hg) as (e & He & ?). exists e. split; [by right|done].
  - intros e [->|He]%elem_of_cons; [right; right; by split_and!|by apply H10].
Qed.

Lemma unplaced_step w oc os A e : life_inv w oc os A -> e ∈ A ->
  e_class e <> RT_Object_Class_Thread -> e_class e <> RT_Object_Class_Timer -> exists r',
  rt_object_detach (e_id e) (w_objects w) = Some r' /\ life_inv (set_objects r' w) oc os (without (e_id e) A).
Proof.
  intros H He Hn1 Hn2. destruct (detached _ A (e_id e) (li_objects _ _ _ _ H) (in_ids _ _ He)) as (r' & E & Hr).
  exists r'. split; [done|]. pose proof (li_objects _ _ _ _ H) as Hrep. destruct H as [H1 _ H3 H4 H5 H6 H7 H8 H9 H10].
  assert (forall x, x ∈ A -> e_class x <> e_class e -> x ∈ without (e_id e) A) as Hw.
  { intros x Hx Hne. apply without_in. split; [done|]. intros E'. by rewrite (entry_unique _ _ _ _ Hrep Hx He E') in Hne. }
  split; cbn [w_kernel w_objects w_heap set_objects]; try done.
  - intros t Hk Hg. destruct (H8 t Hk Hg) as (x & Hx & Ex & Ec). exists x. split; [|done]. apply Hw; [done|by rewrite Ec].
  - intros t Hk Hg. destruct (H9 t Hk Hg) as (x & Hx & Ex & Ec). exists x. split; [|done]. apply Hw; [done|by rewrite Ec].
  - intros x [Hx _]%without_in. by apply H10.
Qed.

(** ** Ending a thread *)

Section ending.
Context (w : world) (oc os : gmap Z (list Z)) (A : list entry) (H : life_inv w oc os A).
#[local] Abbreviation k := (w_kernel w).
Context (t : Z) (Hk : known k t).

Lemma thread_entry : ~ gone k t ->
  exists e, e ∈ A /\ e_id e = t /\ e_class e = RT_Object_Class_Thread /\ e_static e = systemobject (thr k t).
Proof.
  intros Hg. destruct (li_threads _ _ _ _ H t Hk Hg) as (e & He & <- & Hc). exists e. split_and!; try done.
  destruct (li_entries _ _ _ _ H e He) as [(_ & _ & _ & Hs)|[(Hc' & _)|(Hc' & _)]]; [done|by rewrite Hc in Hc'|done].
Qed.

Lemma timer_entry : ~ ended k t ->
  exists e, e ∈ A /\ e_id e = timer_of t /\ e_class e = RT_Object_Class_Timer.
Proof. apply (li_timers _ _ _ _ H t Hk). Qed.

Context (Ha : ~ ended k t).
Lemma not_gone : ~ gone k t.
Proof. by intros [? _]. Qed.

(** The entries of the timers and of the other threads are not those taken out. *)
Lemma other_entries (q : bool) e : e ∈ A -> (e_class e = RT_Object_Class_Timer -> e_id e <> timer_of t) ->
  (q = false -> e_class e = RT_Object_Class_Thread -> e_id e <> t) ->
  e_class e = RT_Object_Class_Timer \/ e_class e = RT_Object_Class_Thread ->
  e ∈ (if q then without (timer_of t) A else without t (without (timer_of t) A)).
Proof.
  intros He H1 H2 Hc. pose proof (li_objects _ _ _ _ H) as Hr.
  destruct (timer_entry Ha) as (et & Het & Eet & Cet). destruct (thread_entry not_gone) as (eh & Heh & Eeh & Ceh & _).
  assert (e ∈ without (timer_of t) A) as Hw.
  { apply without_in. split; [done|]. intros E. pose proof (entry_unique _ _ e et Hr He Het) as Eu.
    rewrite Eet in Eu. specialize (Eu E). subst et. by apply H1. }
  destruct q; [done|]. apply without_in. split; [done|]. intros E.
  pose proof (entry_unique _ _ e eh Hr He Heh) as Eu. rewrite Eeh in Eu. specialize (Eu E). subst eh. by apply H2.
Qed.

Lemma end_inv q k' r' : thread_end t q k k' -> kernel_inv k' -> (q = false -> systemobject (thr k t) = true) ->
  let A' := if q then without (timer_of t) A else without t (without (timer_of t) A) in
  represents r' A' -> life_inv (set_objects r' (set_kernel k' w)) oc os A'.
Proof.
  intros [E1 E2 E3 E4] Hk' Hq A' Hr'. pose proof other_entries as Hoth.
  assert (t ∉ queue k Defunct) as Htd by (apply not_defunct; [|done]; destruct (li_kernel _ _ _ _ H) as [Hb|Hb];
    [apply (boot_reach_ok _ Hb)|apply (ki_ok _ Hb)]).
  assert (forall x, x <> t -> (gone k' x <-> gone k x)) as Eg.
  { intros x Hx. unfold gone. rewrite E3, E4. destruct q; rewrite ?not_elem_of_cons; tauto. }
  assert (gone k' t <-> q = false) as Egt.
  { unfold gone. rewrite E3, E4. destruct q; [rewrite not_elem_of_cons|].
    - split; [by intros (_ & ? & _)|done].
    - split; [done|]. intros _. split; [by left|done]. }
  assert (forall x, dynamic k' x <-> dynamic k x) as Ed by (intros x; unfold dynamic; by rewrite E1, E2).
  destruct H as [_ _ H3 H4 H5 H6 H7 H8 H9 H10]. split; cbn [w_kernel w_objects w_heap set_kernel set_objects]; try done.
  - by right.
  - by eapply owns_ext.
  - intros x. rewrite E1, E2. apply H6.
  - intros x Hd [->|He]%E3; rewrite E4.
    + destruct q; [apply list_elem_of_here|]. apply Ed in Hd as [_ Hd]. by rewrite Hq in Hd.
    + assert (x ∈ queue k Defunct) as Hx by (apply H7; [by apply Ed|exact He]). destruct q; [by apply list_elem_of_further|done].
  - intros x Hkx Hgx. apply E1 in Hkx. assert (~ gone k x) as Hg.
    { destruct (decide (x = t)) as [->|Hn]; [apply not_gone|by rewrite <- Eg]. }
    destruct (H8 x Hkx Hg) as (e & He & Ee & Hc). exists e. split; [|done]. apply (Hoth q e He); rewrite ?Hc; [done| |by right].
    intros -> _ E. apply Hgx. rewrite <- Ee, E. by apply Egt.
  - intros x Hkx Hex. rewrite E1, E3 in *. destruct (H9 x Hkx ltac:(tauto)) as (e & He & Ee & Hc).
    exists e. split; [|done]. apply (Hoth q e He); rewrite ?Hc; [|done|by left].
    intros _ E. apply Hex. left. rewrite Ee in E. unfold timer_of in E. lia.
  - intros e HeA'. assert (e ∈ A /\ e_id e <> timer_of t /\ (q = false -> e_id e <> t)) as (He & Hn1 & Hn2).
    { unfold A' in HeA'. destruct q; rewrite ?without_in in HeA'; [by destruct HeA'|tauto]. }
    destruct (H10 e He) as [(C1 & C2 & C3 & C4)|[(C1 & x & C2 & C3 & C4)|C]].
    + left. split_and!; [done|by apply E1| |by rewrite E2]. destruct (decide (e_id e = t)) as [Et|Hn].
      * rewrite Et, Egt. intros Hf. by apply Hn2.
      * by rewrite Eg.
    + right. left. split; [done|]. exists x. rewrite E1, E3. split_and!; [done| |done].
      intros [->|]; done.
    + by right; right.
Qed.
End ending.

(** ** Giving memory back *)

Lemma lookup_delete_two (os : gmap Z (list Z)) a b p :
  is_Some (delete a (delete b os) !! p) <-> p <> a /\ p <> b /\ is_Some (os !! p).
Proof. rewrite !lookup_delete_is_Some. intuition congruence. Qed.

Lemma owns_drop D m os t : owns D m os -> D t ->
  owns (fun x => x <> t /\ D x) m (delete t (delete (stack_addr (m !!! t)) os)).
Proof.
  intros [H1 H2 H3 H4 H5] Ht. split.
  - intros x [Hx Hd]. destruct (H1 x Hd) as (l & Hl & Hn). exists l.
    rewrite !lookup_delete_ne; [done| |done]. by apply H4.
  - intros x [Hx Hd]. rewrite !lookup_delete_ne; [by apply H2| |intros E; by apply (H4 x t Hd Ht)].
    intros E. by apply Hx, H5.
  - intros p (Hp1 & Hp2 & (x & Hd & Hp)%H3)%lookup_delete_two. exists x. split; [|done].
    split; [|done]. intros ->. by destruct Hp.
  - intros x u [_ Hx] [_ Hu]. by apply H4.
  - intros x u [_ Hx] [_ Hu]. by apply H5.
Qed.

Lemma owns_add D (m m' : gmap Z thread_memory) os t s lt ls : owns D m os -> ~ D t -> os !! t = None -> os !! s = None ->
  t <> s -> Z.of_nat (length lt) = sizeof_rt_thread -> stack_addr (m' !!! t) = s ->
  stack_size (m' !!! t) = Z.of_nat (length ls) -> (forall x, D x -> m' !!! x = m !!! x) ->
  owns (fun x => x = t \/ D x) m' (<[s := ls]> (<[t := lt]> os)).
Proof.
  intros [H1 H2 H3 H4 H5] Hd Ht Hs Hts Hn Est Esz Eo.
  assert (forall x, D x -> x <> t /\ x <> s /\ stack_addr (m !!! x) <> t /\ stack_addr (m !!! x) <> s) as Hne.
  { intros x Hx. destruct (H1 x Hx) as (l & Hl & _), (H2 x Hx) as (l' & Hl' & _). split_and!; congruence. }
  split.
  - intros x [->|Hx]; [exists lt; by rewrite lookup_insert_ne, lookup_insert_eq|].
    destruct (Hne x Hx) as (? & ? & _). destruct (H1 x Hx) as (l & Hl & ?). exists l. by rewrite !lookup_insert_ne.
  - intros x [->|Hx]; [exists ls; by rewrite Est, lookup_insert_eq|]. rewrite Eo by done.
    destruct (Hne x Hx) as (_ & _ & ? & ?). rewrite !lookup_insert_ne by done. by apply H2.
  - intros p. rewrite !lookup_insert. destruct (decide (s = p)) as [<-|Hp]; [exists t; auto|].
    destruct (decide (t = p)) as [<-|Hp']; [exists t; auto|]. intros (x & Hx & Hxp)%H3. exists x. rewrite Eo by done. auto.
  - intros x u [->|Hx] [->|Hu]; rewrite ?Est, ?Eo by done; [done| |by apply Hne|by apply H4].
    intros E. by destruct (Hne u Hu) as (_ & ? & _).
  - intros x u [->|Hx] [->|Hu]; rewrite ?Est, ?Eo by done; [done| | |by apply H5].
    + intros E. by destruct (Hne u Hu) as (_ & _ & _ & ?).
    + intros E. by destruct (Hne x Hx) as (_ & _ & _ & ?).
Qed.

(** What the kernel looks like without the ended threads [l]. *)
Record reaped (l : list Z) (k k' : kernel) : Prop := {
  rd_inv : kernel_inv k';
  rd_known : forall x, known k' x <-> known k x /\ (x ∈ l -> systemobject (thr k x) = true);
  rd_threads : forall x, known k' x -> thr k' x = thr k x;
  rd_current : rt_current_thread k' = rt_current_thread k;
  rd_lists : forall h, h <> Defunct -> queue k' h = queue k h }.

Lemma reaped_running l k k' : reaped l k k' -> running k -> running k'.
Proof.
  intros H Hr. unfold running in *. rewrite (rd_threads _ _ _ H) by apply (ki_current _ (rd_inv _ _ _ H)).
  by rewrite (rd_current _ _ _ H).
Qed.

Lemma reaped_cons t l k k1 k' : reaped [t] k k1 -> reaped l k1 k' -> reaped (t :: l) k k'.
Proof.
  intros [_ A2 A3 A4 A5] [B1 B2 B3 B4 B5].
  assert (forall x, known k' x -> known k1 x) as Hk by (intros x Hx; by apply B2).
  split; [done| | |by rewrite B4|].
  - intros x. rewrite elem_of_cons. split.
    + intros Hx. pose proof (Hk x Hx) as Hx1. apply B2 in Hx as [_ Hx]. rewrite (A3 x Hx1) in Hx.
      apply A2 in Hx1 as [Hx1 Ht]. split; [done|]. intros [->|?]; [by apply Ht, list_elem_of_here|auto].
    + intros [Hx Hs]. assert (known k1 x) as Hx1 by (apply A2; split; [done|]; intros ->%list_elem_of_singleton; auto).
      apply B2. split; [done|]. rewrite (A3 x Hx1). auto.
  - intros x Hx. by rewrite B3, A3 by auto.
  - intros h Hh. by rewrite B5, A5.
Qed.

Section reaping.
Context (w : world) (oc os : gmap Z (list Z)) (A : list entry) (H : life_inv w oc os A).
#[local] Abbreviation k := (w_kernel w).
Context (Hi : kernel_inv k) (Hr : running k) (t : Z) (q : list Z) (Hq : queue k Defunct = t :: q).

Lemma dequeued_reaped : let k1 := rt_list_remove t k in
  (systemobject (thr k t) = true -> reaped [t] k k1) /\
  (systemobject (thr k t) = false -> reaped [t] k (forget_thread t k1)).
Proof.
  intros k1. destruct (dequeue_inv k t q Hi Hq) as (_ & Hi1 & Hout & _). fold k1 in Hi1, Hout.
  assert (t ∈ queue k Defunct) as Hin by (rewrite Hq; apply list_elem_of_here).
  destruct (bt_in _ _ (proj1 (proj1 (ki_ok _ Hi))) t Defunct Hin) as (_ & _ & He). cbn [listed] in He.
  assert (forall h, h <> Defunct -> queue k1 h = queue k h) as Hl.
  { intros h Hh. unfold k1. rewrite queue_remove. apply filter_absent. intros Ht.
    by apply Hh, (bt_one _ _ (proj1 (proj1 (ki_ok _ Hi))) t h Defunct). }
  split; intros Hs.
  - split; try done. intros x. change (known k1 x) with (known k x). split; [|by intros [? _]].
    intros Hx. split; [done|]. by intros ->%list_elem_of_singleton.
  - destruct (forget_inv k1 t Hi1 Hr He Hout) as [Hi2 [G1 _ _ _ _]]. split; try done.
    + intros x. rewrite G1, list_elem_of_singleton. change (known k1 x) with (known k x). split.
      * intros [Hn Hx]. split; [done|]. by intros ->.
      * intros [Hx Hn]. split; [|done]. intros ->. rewrite Hs in Hn. by specialize (Hn eq_refl).
    + intros x [Hn _]%G1. unfold thr, forget_thread. cbn. by rewrite lookup_total_delete_ne.
Qed.

(** The invariant once [t] is out of the list, the registry and, unless it is
    static, the kernel. *)
Lemma reaped_inv k' r' h' m' os' : reaped [t] k k' -> queue k' Defunct = q ->
  represents r' (without t A) -> (exists bl, heap_owned h' bl (oc ∪ os')) -> oc ##ₘ os' -> same_heap (w_heap w) h' ->
  owns (dynamic k') m' os' -> life_inv (mk_world k' r' h' m') oc os' (without t A).
Proof.
  intros [R1 R2 R3 R4 R5] Eq Hr' Hh Hd Hs Ho. pose proof (bt_nodup _ _ (proj1 (proj1 (ki_ok _ Hi))) Defunct) as Hnd.
  rewrite Hq in Hnd. apply NoDup_cons in Hnd as [Htq _].
  assert (ended k t) as Het by (apply (bt_in _ _ (proj1 (proj1 (ki_ok _ Hi))) t Defunct); rewrite Hq; apply list_elem_of_here).
  assert (forall x, known k' x -> known k x /\ (ended k' x <-> ended k x) /\ (x <> t -> (gone k' x <-> gone k x))) as Hx.
  { intros x Hx. assert (ended k' x <-> ended k x) as E by (unfold ended; by rewrite R3).
    split; [by apply R2|]. split; [done|]. intros Hn. unfold gone. rewrite E, Eq, Hq, not_elem_of_cons. tauto. }
  assert (forall x, known k x -> x <> t -> known k' x) as Hback.
  { intros x Hkx Hn. apply R2. split; [done|]. by intros ->%list_elem_of_singleton. }
  destruct H as [_ H2 _ _ H5 H6 H7 H8 H9 H10]. split; cbn [w_kernel w_objects w_heap]; try done.
  - by right.
  - intros x Hkx Hsx. rewrite R3 in Hsx by done. unfold outside. destruct Hs as (-> & -> & _). apply H6; [by apply Hx|done].
  - intros x [Hkx Hsx] Hex. rewrite R3 in Hsx by done. destruct (Hx x Hkx) as (Hk & He & _). apply He in Hex.
    pose proof (H7 x (conj Hk Hsx) Hex) as Hin. rewrite Hq in Hin. rewrite Eq. apply elem_of_cons in Hin as [->|]; [|done].
    apply R2 in Hkx as [_ Hkx]. specialize (Hkx (list_elem_of_here _ _)). by rewrite Hkx in Hsx.
  - intros x Hkx Hgx. assert (x <> t) as Hn by (intros ->; apply Hgx; split; [exact (proj2 (proj1 (proj2 (Hx t Hkx))) Het)|by rewrite Eq]).
    destruct (Hx x Hkx) as (Hk & _ & Hg). specialize (Hg Hn). destruct (H8 x Hk ltac:(tauto)) as (e & He & Ee & Hc).
    exists e. split; [|done]. apply without_in. by rewrite Ee.
  - intros x Hkx Hex. destruct (Hx x Hkx) as (Hk & He' & _). destruct (H9 x Hk ltac:(tauto)) as (e & He & Ee & Hc).
    exists e. split; [|done]. apply without_in. split; [done|]. intros E. destruct (H10 e He) as [(C & _)|[(_ & u & Hu & Heu & Eu)|(_ & C & _)]]; [by rewrite Hc in C| |done].
    destruct (H8 t) as (et & Het' & Eet & Cet).
    { by apply (bt_in _ _ (proj1 (proj1 (ki_ok _ Hi))) t Defunct); rewrite Hq; apply list_elem_of_here. }
    { intros [_ Hn]. apply Hn. rewrite Hq. apply list_elem_of_here. }
    rewrite (entry_unique _ _ e et H2 He Het') in Hc by congruence. by rewrite Cet in Hc.
  - intros e [He Hn]%without_in. unfold accounted, placed, outside. destruct Hs as (-> & -> & _).
    destruct (H10 e He) as [(C1 & C2 & C3 & C4)|[(C1 & x & C2 & C3 & C4)|C]]; [left|right; left|by right; right].
    + pose proof (Hback _ C2 Hn) as Hkx. split; [done|]. split; [done|].
      split; [by rewrite (proj2 (proj2 (Hx _ Hkx)) Hn)|by rewrite R3].
    + assert (x <> t) as Hxt by (by intros ->). pose proof (Hback _ C2 Hxt) as Hkx. split; [done|]. exists x.
      split; [done|]. split; [by rewrite (proj1 (proj2 (Hx _ Hkx)))|done].
Qed.

Lemma reap_spec : exists w' os', reap t (set_kernel (rt_list_remove t k) w) = Some w' /\
  life_inv w' oc os' (without t A) /\ reaped [t] k (w_kernel w') /\ queue (w_kernel w') Defunct = q /\
  forall x, x <> t -> w_memory w' !!! x = w_memory w !!! x.
Proof.
  destruct (dequeue_inv k t q Hi Hq) as (_ & _ & _ & Eq1). destruct dequeued_reaped as [Hst Hdy]. cbv zeta in *.
  assert (t ∈ queue k Defunct) as Hin by (rewrite Hq; apply list_elem_of_here).
  destruct (bt_in _ _ (proj1 (proj1 (ki_ok _ Hi))) t Defunct Hin) as (Hk & _ & _).
  destruct (thread_entry w oc os A H t Hk) as (e & He & Ee & _ & Es); [by intros [_ Hn]|].
  pose proof (li_objects _ _ _ _ H) as Hrep. pose proof (in_ids _ _ He) as Hid. rewrite Ee in Hid.
  pose proof (registered_system _ _ _ Hrep He) as Esys. rewrite Ee, Es in Esys.
  destruct (remove_step _ _ t Hrep Hid) as [(r1 & E1 & Hr1) (r2 & E2 & Hr2)].
  unfold reap. cbn [w_objects set_kernel]. rewrite Esys. cbn [mbind option_bind].
  destruct (systemobject (thr k t)) eqn:Hs.
  - rewrite E1. cbn [mbind option_bind]. eexists _, os. split; [done|]. specialize (Hst eq_refl).
    split; [|by split_and!]. apply reaped_inv; try done; [apply (li_heap _ _ _ _ H)|apply (li_clients _ _ _ _ H)|].
    eapply owns_ext; [exact (li_owns _ _ _ _ H)| |done]. intros x. done.
  - specialize (Hdy eq_refl). unfold rt_object_delete, stack_of. cbn [w_objects w_kernel w_heap w_memory set_kernel set_heap].
    rewrite E2. cbn [mbind option_bind]. fold (stack_of w t). set (s := stack_of w t).
    eexists _, (delete t (delete s os)). split; [done|].
    split; [|split_and!; [done..|]; intros x Hx; cbn [w_memory]; by rewrite lookup_total_delete_ne].
    pose proof (li_owns _ _ _ _ H) as Ho. assert (dynamic k t) as Hdt by done.
    destruct (li_heap _ _ _ _ H) as (bl & Hh). pose proof (li_clients _ _ _ _ H) as Hd.
    destruct (ow_object _ _ _ Ho t Hdt) as (lt & Hlt & _), (ow_stack _ _ _ Ho t Hdt) as (ls & Hls & _). change (os !! s = Some ls) in Hls.
    assert (s <> t) as Hst' by (by apply (ow_apart _ _ _ Ho)).
    assert (oc !! t = None /\ oc !! s = None) as [Ht0 Hs0] by (split; by eapply map_disjoint_Some_l).
    destruct (owned_free (w_heap w) bl (oc ∪ os) s ls Hh) as (Hsame1 & bl1 & Hh1); [by rewrite lookup_union_r|].
    rewrite delete_union, (delete_id oc s) in Hh1 by done.
    destruct (owned_free (rt_free s (w_heap w)) bl1 _ t lt Hh1) as (Hsame2 & bl2 & Hh2).
    { by rewrite lookup_union_r, lookup_delete_ne. }
    rewrite delete_union, (delete_id oc t) in Hh2 by done.
    apply reaped_inv; try done; [by exists bl2|by apply map_disjoint_delete_r, map_disjoint_delete_r|by eapply same_heap_trans|].
    eapply owns_ext; [exact (owns_drop _ _ _ t Ho Hdt)| |].
    + intros x. unfold dynamic. rewrite (rd_known _ _ _ Hdy), list_elem_of_singleton. split.
      * intros [[Hx Hn] Hsx]. assert (x <> t) as Hxt by (intros ->; rewrite Hs in Hn; by specialize (Hn eq_refl)).
        split; [done|]. split; [done|]. rewrite <- Hsx. symmetry. f_equal. apply (rd_threads _ _ _ Hdy), (rd_known _ _ _ Hdy).
        split; [done|]. by intros ->%list_elem_of_singleton.
      * intros (Hn & Hx & Hsx). split; [split; [done|by intros ->]|]. rewrite <- Hsx. f_equal.
        apply (rd_threads _ _ _ Hdy), (rd_known _ _ _ Hdy). split; [done|]. by intros ->%list_elem_of_singleton.
    + intros x [Hn _]. cbn [w_memory]. by rewrite lookup_total_delete_ne.
Qed.
End reaping.

(** The loop of the idle thread ends with the list empty. *)
Lemma defunct_spec oc q : forall w os A fuel, life_inv w oc os A -> kernel_inv (w_kernel w) -> running (w_kernel w) ->
  queue (w_kernel w) Defunct = q -> (length q <= fuel)%nat -> exists w' os',
  rt_defunct_execute fuel w = Some w' /\ life_inv w' oc os' (filter (fun e => e_id e ∉ q) A) /\
  reaped q (w_kernel w) (w_kernel w') /\ queue (w_kernel w') Defunct = [] /\
  forall x, x ∉ q -> w_memory w' !!! x = w_memory w !!! x.
Proof.
  induction q as [|t q IH]; intros w os A fuel H Hi Hr Hq Hf.
  - exists w, os. split; [destruct fuel; cbn [rt_defunct_execute]; unfold rt_thread_defunct_dequeue; by rewrite Hq|].
    rewrite filter_all by (apply Forall_forall; intros e _; apply not_elem_of_nil). split; [done|].
    split; [|done]. split; try done. intros x. split; [|by intros [? _]]. intros Hx. split; [done|]. by intros ?%not_elem_of_nil.
  - destruct fuel as [|fuel]; cbn [length] in Hf; [lia|]. cbn [rt_defunct_execute].
    destruct (dequeue_inv _ t q Hi Hq) as (-> & _). 
    assert (t <> RT_NULL) as Hn.
    { intros ->. apply (bt_null _ _ (proj1 (proj1 (ki_ok _ Hi)))).
      apply (bt_in _ _ (proj1 (proj1 (ki_ok _ Hi))) RT_NULL Defunct). rewrite Hq. apply list_elem_of_here. }
    rewrite (proj2 (Z.eqb_neq _ _)) by done.
    destruct (reap_spec w oc os A H Hi Hr t q Hq) as (w1 & os1 & -> & H1 & Hrd & Hq1 & Hm1). cbn [mbind option_bind].
    destruct (IH w1 os1 (without t A) fuel H1 (rd_inv _ _ _ Hrd) (reaped_running _ _ _ Hrd Hr) Hq1) as
      (w' & os' & E & H' & Hrd' & Hq' & Hm'); [lia|].
    exists w', os'. split; [done|]. split; [|split; [by eapply reaped_cons|split; [done|]]].
    2: { intros x [Hx Hxq]%not_elem_of_cons. by rewrite Hm', Hm1. }
    unfold without in H'. rewrite list_filter_filter in H'.
    erewrite list_filter_iff; [exact H'|]. intros e. cbv beta. rewrite not_elem_of_cons. tauto.
Qed.

(** ** The calls that end a thread *)

Section ends.
Context (w : world) (oc os : gmap Z (list Z)) (A : list entry) (H : life_inv w oc os A).
#[local] Abbreviation k := (w_kernel w).
Context (Hi : kernel_inv k) (t : Z) (Hk : known k t) (Ha : ~ ended k t).

(** The entries that are left. *)
Definition left_over (queued : bool) : list entry :=
  if queued then without (timer_of t) A else without t (without (timer_of t) A).

Lemma timer_detached : exists r', rt_object_detach (timer_of t) (w_objects w) = Some r' /\
  represents r' (without (timer_of t) A) /\
  exists e, e ∈ without (timer_of t) A /\ e_id e = t /\ e_static e = systemobject (thr k t).
Proof.
  destruct (timer_entry w oc os A H t Hk Ha) as (et & Het & Eet & Cet). pose proof (in_ids _ _ Het) as Hid. rewrite Eet in Hid.
  destruct (detached _ A _ (li_objects _ _ _ _ H) Hid) as (r' & E & Hr). exists r'. split; [done|]. split; [done|].
  destruct (thread_entry w oc os A H t Hk (not_gone w t Ha)) as (e & He & Ee & _ & Es). exists e. split; [|done].
  apply without_in. split; [done|]. rewrite Ee. unfold timer_of, offsetof_thread_timer. lia.
Qed.

Lemma detach_objects_spec : exists r', detach_objects t (w_objects w) = Some r' /\
  represents r' (left_over (negb (systemobject (thr k t)))).
Proof.
  destruct timer_detached as (r1 & E1 & Hr1 & e & He & Ee & Es). unfold detach_objects, left_over.
  rewrite E1. cbn [mbind option_bind]. pose proof (registered_system _ _ _ Hr1 He) as Esys. rewrite Ee, Es in Esys.
  rewrite Esys. cbn [mbind option_bind]. destruct (systemobject (thr k t)); cbn [negb]; [|by exists r1].
  pose proof (in_ids _ _ He) as Hid. rewrite Ee in Hid. by destruct (detached r1 _ t Hr1 Hid) as (r2 & -> & Hr2); exists r2.
Qed.

Lemma detach_spec : exists w', rt_thread_detach t w = Some (w', RT_EOK) /\
  life_inv w' oc os (left_over (negb (systemobject (thr k t)))) /\
  w_kernel w' = fst (Kernel.rt_thread_detach t k).
Proof.
  destruct detach_objects_spec as (r' & E & Hr'). unfold rt_thread_detach. rewrite (proj2 (Z.eqb_neq _ _)) by exact Ha.
  rewrite E. cbn [mbind option_bind]. pose proof (detach_end k t (ki_ok _ Hi) Hk Ha) as He. pose proof (inv_detach k t Hi Hk) as Hi'.
  assert (snd (Kernel.rt_thread_detach t k) = RT_EOK) as Ev by (unfold Kernel.rt_thread_detach; by destruct (_ =? _)).
  destruct (Kernel.rt_thread_detach t k) as [k' e]. cbn [fst snd] in *. subst e. eexists. split; [done|]. split; [|done].
  apply (end_inv w oc os A H t Hk Ha _ k' r' He Hi'); [|done]. by destruct (systemobject _).
Qed.

Lemma delete_spec : exists w', rt_thread_delete t w = Some (w', RT_EOK) /\ life_inv w' oc os (left_over true) /\
  w_kernel w' = fst (Kernel.rt_thread_delete t k).
Proof.
  destruct timer_detached as (r' & E & Hr' & _). unfold rt_thread_delete. rewrite (proj2 (Z.eqb_neq _ _)) by exact Ha.
  rewrite E. cbn [mbind option_bind]. pose proof (delete_end k t (ki_ok _ Hi) Hk Ha) as He. pose proof (inv_delete k t Hi Hk) as Hi'.
  assert (snd (Kernel.rt_thread_delete t k) = RT_EOK) as Ev by (unfold Kernel.rt_thread_delete; by destruct (_ =? _)).
  destruct (Kernel.rt_thread_delete t k) as [k' e]. cbn [fst snd] in *. subst e. eexists. split; [done|]. split; [|done].
  by apply (end_inv w oc os A H t Hk Ha true k' r' He Hi').
Qed.

Lemma close_spec : exists w', rt_thread_close t w = Some (w', RT_EOK) /\
  life_inv w' oc os (left_over (negb (systemobject (thr k t)))) /\
  w_kernel w' = fst (rt_thread_control t RT_THREAD_CTRL_CLOSE k).
Proof.
  destruct (thread_entry w oc os A H t Hk (not_gone w t Ha)) as (e & He & Ee & _ & Es).
  pose proof (registered_system _ _ _ (li_objects _ _ _ _ H) He) as Esys. rewrite Ee, Es in Esys.
  unfold rt_thread_close. rewrite Esys. cbn [mbind option_bind rt_thread_control].
  destruct (systemobject (thr k t)) eqn:Hs; cbn [negb].
  - destruct detach_spec as (w1 & -> & H1 & E1). rewrite Hs in H1. cbn [mbind option_bind negb] in *. eexists. split; [done|].
    pose proof (inv_detach k t Hi Hk) as Hi'. rewrite <- E1 in Hi'.
    split; [apply keeps_life; [done|apply life_schedule, Hi'|right; by apply inv_schedule]|].
    cbn [w_kernel set_kernel]. rewrite E1. by destruct (Kernel.rt_thread_detach t k).
  - destruct delete_spec as (w1 & -> & H1 & E1). cbn [mbind option_bind negb] in *. eexists. split; [done|].
    pose proof (inv_delete k t Hi Hk) as Hi'. rewrite <- E1 in Hi'.
    split; [apply keeps_life; [done|apply life_schedule, Hi'|right; by apply inv_schedule]|].
    cbn [w_kernel set_kernel]. rewrite E1. by destruct (Kernel.rt_thread_delete t k).
Qed.
End ends.

Lemma exit_spec w oc os A : life_inv w oc os A -> kernel_inv (w_kernel w) -> running (w_kernel w) ->
  let t := rt_current_thread (w_kernel w) in exists w', _rt_thread_exit w = Some w' /\
  life_inv w' oc os (left_over A t (negb (systemobject (thr (w_kernel w) t)))) /\
  w_kernel w' = Kernel._rt_thread_exit (w_kernel w).
Proof.
  intros H Hi Hr t. assert (known (w_kernel w) t) as Hk by apply Hi.
  assert (~ ended (w_kernel w) t) as Ha by (by apply (state_not_ended _ _ RT_THREAD_RUNNING)).
  destruct (detach_objects_spec w oc os A H t Hk Ha) as (r' & E & Hr'). unfold _rt_thread_exit, rt_thread_self.
  fold t. rewrite E. cbn [mbind option_bind]. eexists. split; [done|]. split; [|done].
  apply (end_inv w oc os A H t Hk Ha _ _ r' (exit_end _ Hi Hr)); [by apply inv_exit| |done]. by destruct (systemobject _).
Qed.
