(* ===== verification/ThreadMake.v ===== *)
(** * ThreadMake: threads are made

    [rt_thread_init] and [rt_thread_create] keep the invariant of [ThreadInv];
    a creation that finds no memory leaves everything as it was. *)
From S2P Require Import Prelude Bytes KService Heap HeapInv HeapSystem Object Timer Kernel KernelInv.
From S2P Require Import IpcInv KernelSystem LifeFrame ThreadLife ThreadInv.

(** ** Names *)

Lemma object_strncpy n : forall a x, (n <= length a)%nat -> strncpy_out n a = strncpy_out n (take n a ++ x).
Proof.
  induction n as [|n IH]; intros [|c a] x Hl; cbn [length] in Hl; try done; try lia.
  cbn [strncpy_out take app]. destruct (c =? 0); [done|]. rewrite (IH a x) by lia. done.
Qed.

(** An object named after another. *)
Lemma stored_copied nm l : c_string nm -> (length nm <= 8)%nat ->
  strncpy_out (Z.to_nat RT_NAME_MAX) (stored nm ++ l) = strncpy_out (Z.to_nat RT_NAME_MAX) (nm ++ [0]).
Proof.
  intros Hs Hl. rewrite stored_name, (take_ge nm) by done. change (Z.to_nat RT_NAME_MAX) with 8%nat.
  assert (length (stored nm) = 8%nat) as Hn by (unfold stored; rewrite length_app, repeat_length; lia).
  rewrite (object_strncpy 8 _ [0]) by (rewrite length_app; lia). rewrite take_app_le, take_ge by lia.
  unfold stored. destruct (8 - length nm)%nat as [|k] eqn:E; cbn [repeat].
  - rewrite app_nil_r, strncpy_spec by done. rewrite E, take_ge by lia. cbn [repeat]. by rewrite app_nil_r.
  - rewrite <- app_assoc. cbn [app]. rewrite strncpy_spec, take_ge, E by (done || lia). done.
Qed.

Lemma name_step r A e o type : represents r A -> e ∈ A -> o ∉ ids A -> type ∈ classes -> exists r',
  rt_object_init o type (name_ptr (object_at (e_id e) r)) r = Some r' /\
  represents r' (mk_entry o type true (e_name e) :: A).
Proof.
  intros H He Ho Ht. destruct (proj1 (Forall_forall _ _) (rp_entries _ _ H) e He) as (_ & Hs & Hl & flag & Hf).
  unfold object_at. rewrite Hf. unfold name_ptr. cbn [default from_option id o_name o_type o_flag].
  destruct (init_step r A o type (e_name e) H) as (r' & E & Hr); [done|]. rewrite take_ge in Hr by done.
  exists r'. split; [|done]. unfold rt_object_init in *. by rewrite stored_copied.
Qed.

(** ** A new thread in the invariant *)

Lemma made_kernel k t static p n : boot_reach k \/ kernel_inv k -> ~ known k t -> t <> RT_NULL -> t <> NOBODY ->
  0 <= p < 32 -> boot_reach (Kernel._rt_thread_init t static p n k) \/ kernel_inv (Kernel._rt_thread_init t static p n k).
Proof. intros [H|H] **; [left; by constructor|right; by apply inv_thread_init]. Qed.

Lemma made_inv w oc os A t (static : bool) p n r' h' m' os' nm nm' : life_inv w oc os A ->
  ~ known (w_kernel w) t -> t <> RT_NULL -> t <> NOBODY -> 0 <= p < 32 ->
  let k' := Kernel._rt_thread_init t static p n (w_kernel w) in
  let A' := mk_entry (timer_of t) RT_Object_Class_Timer true nm' :: mk_entry t RT_Object_Class_Thread static nm :: A in
  represents r' A' -> (exists bl, heap_owned h' bl (oc ∪ os')) -> oc ##ₘ os' -> same_heap (w_heap w) h' ->
  (thread_begin t static (w_kernel w) k' -> owns (dynamic k') m' os') ->
  (static = true -> outside (w_heap w) t /\ outside (w_heap w) (timer_of t)) ->
  life_inv (mk_world k' r' h' m') oc os' A'.
Proof.
  intros H Hn H0 Hnb Hp k' A' Hr Hh Hd Hs Ho Hst.
  assert (core (w_kernel w)) as Hc.
  { destruct (li_kernel _ _ _ _ H) as [Hb|Hb]; [apply (boot_reach_ok _ Hb)|apply (ki_ok _ Hb)]. }
  pose proof (init_begin _ t static p n Hc Hn) as Hb. fold k' in Hb. specialize (Ho Hb).
  pose proof (made_kernel _ t static p n (li_kernel _ _ _ _ H) Hn H0 Hnb Hp) as Hk'. fold k' in Hk'.
  destruct Hb as [B1 B2 B3 B4 B5].
  assert (~ ended k' t) as Hnt by (rewrite B4; intros He; by apply Hn, ended_known).
  assert (forall x, known (w_kernel w) x -> x <> t) as Hne by (by intros x Hx ->).
  assert (forall x, gone k' x <-> gone (w_kernel w) x) as Hg by (intros x; unfold gone; by rewrite B4, B5).
  destruct H as [_ _ _ _ _ H6 H7 H8 H9 H10]. split; cbn [w_kernel w_objects w_heap]; try done.
  - intros x Hx Hsx. unfold outside. destruct Hs as (-> & -> & _). apply B1 in Hx as [->|Hx].
    + apply Hst. by rewrite B2 in Hsx.
    + apply H6; [done|]. by rewrite <- B3 by auto.
  - intros x [Hx Hsx] He. rewrite B5. apply B1 in Hx as [->|Hx]; [done|].
    apply H7; [split; [done|]; by rewrite <- B3 by auto|by apply B4].
  - intros x Hx Hgx. apply B1 in Hx as [->|Hx].
    + eexists. split; [apply list_elem_of_further, list_elem_of_here|done].
    + destruct (H8 x Hx) as (e & He & ?); [by rewrite <- Hg|]. exists e. split; [by do 2 apply list_elem_of_further|done].
  - intros x Hx Hex. apply B1 in Hx as [->|Hx].
    + eexists. split; [apply list_elem_of_here|done].
    + destruct (H9 x Hx) as (e & He & ?); [by rewrite <- B4|]. exists e. split; [by do 2 apply list_elem_of_further|done].
  - intros e He. apply elem_of_cons in He as [->|He].
    { right. left. split; [done|]. exists t. split; [apply B1; by left|done]. }
    apply elem_of_cons in He as [->|He].
    { left. cbn [e_class e_id e_static]. split; [done|]. split; [apply B1; by left|]. split; [by intros [? _]|by rewrite B2]. }
    unfold accounted, placed, outside. destruct Hs as (-> & -> & _).
    destruct (H10 e He) as [(C1 & C2 & C3 & C4)|[(C1 & x & C2 & C3 & C4)|C]]; [left|right; left|by right; right].
    + split; [done|]. split; [apply B1; by right|]. rewrite Hg, B3 by auto. done.
    + split; [done|]. exists x. rewrite B4. split; [apply B1; by right|done].
Qed.

(** The blocks of a created thread. *)
Lemma made_owns w oc os A t s lt ls k' (m' : gmap Z thread_memory) : life_inv w oc os A -> thread_begin t false (w_kernel w) k' ->
  ~ known (w_kernel w) t -> os !! t = None -> os !! s = None -> t <> s -> Z.of_nat (length lt) = sizeof_rt_thread ->
  stack_addr (m' !!! t) = s -> stack_size (m' !!! t) = Z.of_nat (length ls) -> (forall x, known (w_kernel w) x -> m' !!! x = w_memory w !!! x) ->
  owns (dynamic k') m' (<[s := ls]> (<[t := lt]> os)).
Proof.
  intros H [B1 B2 B3 B4 B5] Hk Ht Hs Hts Hl Est Esz Hm.
  eapply owns_ext; [eapply (owns_add _ _ m' os t s lt ls (li_owns _ _ _ _ H))| |done]; try done.
  - by intros [? _].
  - intros x [Hx _]. by apply Hm.
  - intros x. unfold dynamic. rewrite B1. destruct (decide (x = t)) as [->|Hn]; [tauto|]. rewrite B3 by done. tauto.
Qed.

(** ** A block for the thread *)

(** A new block of the heap is nobody's: no thread and no object is in it. *)
Lemma fresh_block w oc os A h' bl t l : life_inv w oc os A -> same_heap (w_heap w) h' -> (oc ∪ os) !! t = None ->
  heap_owned h' bl (<[t := l]> (oc ∪ os)) -> Z.of_nat (length l) = sizeof_rt_thread ->
  ~ known (w_kernel w) t /\ t <> RT_NULL /\ t <> NOBODY /\
  forall e, e ∈ A -> ~ t <= e_id e < t + sizeof_rt_thread.
Proof.
  intros H Hs Hf Ho Hl. unfold sizeof_rt_thread in *.
  destruct (owned_inside _ _ _ t l Ho) as (_ & Hlo & Hhi & _); [by rewrite lookup_insert_eq|].
  assert (0 < heap_ptr h') as Hp by (apply (hc_ptr _ _ (proj1 (ho_rep _ _ _ Ho)))).
  pose proof Hs as (Ep & Ee & _). rewrite Hl, Ep, Ee in *.
  assert (forall p lp, (oc ∪ os) !! p = Some lp -> p <> t /\ (t + 128 <= p \/ p + Z.of_nat (length lp) <= t)) as Hap.
  { intros p lp Hlp. assert (p <> t) as Hn by congruence. split; [done|].
    destruct (owned_apart _ _ _ t p l lp Ho) as [Ha|Ha]; [by rewrite lookup_insert_eq|by rewrite lookup_insert_ne|done|lia|lia]. }
  assert (forall a, outside (w_heap w) a -> ~ t <= a < t + 128) as Hout by (intros a; unfold outside; lia).
  assert (forall u, known (w_kernel w) u -> u <> t /\ ~ t <= u < t + 128 /\ ~ t <= timer_of u < t + 128) as Hth.
  { intros u Hu. destruct (systemobject (thr (w_kernel w) u)) eqn:Es.
    - destruct (li_static _ _ _ _ H u Hu Es) as [H1%Hout H2%Hout]. split; [lia|done].
    - destruct (ow_object _ _ _ (li_owns _ _ _ _ H) u (conj Hu Es)) as (lu & Hlu & Hn). unfold sizeof_rt_thread in Hn.
      destruct (Hap u lu) as [? Ha]; [apply lookup_union_Some; [apply (li_clients _ _ _ _ H)|by right]|].
      split; [done|]. unfold timer_of, offsetof_thread_timer. lia. }
  split; [by intros [? _]%Hth|]. split; [unfold RT_NULL; lia|]. split; [unfold NOBODY; lia|].
  intros e He. destruct (li_entries _ _ _ _ H e He) as [(_ & C & _)|[(_ & u & C & _ & ->)|(_ & _ & [C|(p & lp & Hlp & C)])]].
  - by apply Hth.
  - by apply Hth.
  - by apply Hout.
  - destruct (Hap p lp) as [? Ha]; [by apply lookup_union_Some_l|]. lia.
Qed.

Lemma cleared r A p size : represents r A -> (forall e, e ∈ A -> ~ p <= e_id e < p + size) ->
  represents (clear_objects p size r) A.
Proof.
  intros [H1 H2 H3 H4] Hn. split; [done|done| |].
  - apply Forall_forall. intros e He. destruct (proj1 (Forall_forall _ _) H3 e He) as (Hc & Hs & Hl & flag & Hf).
    split_and!; [done..|]. exists flag. cbn [clear_objects objects]. apply map_lookup_filter_Some. split; [done|by apply Hn].
  - intros o obj [Ho _]%map_lookup_filter_Some. by apply H4.
Qed.

Lemma set_heap_same w : set_heap (w_heap w) w = w.
Proof. by destruct w. Qed.

(** The object of a thread, and the block it is in. *)
Record allocated (w : world) (oc os : gmap Z (list Z)) (A : list entry) (t : Z) (name : list Z) (w' : world) : Prop := {
  al_known : ~ known (w_kernel w) t;
  al_null : t <> RT_NULL;
  al_nobody : t <> NOBODY;
  al_kernel : w_kernel w' = w_kernel w;
  al_memory : w_memory w' = w_memory w;
  al_heap : same_heap (w_heap w) (w_heap w');
  al_new : (oc ∪ os) !! t = None;
  al_objects : represents (w_objects w') (mk_entry t RT_Object_Class_Thread false (take 8 name) :: A);
  al_apart : (t ∉ ids A) /\ (timer_of t ∉ ids A);
  al_blocks : exists bl lt, Z.of_nat (length lt) = sizeof_rt_thread /\ heap_owned (w_heap w') bl (<[t := lt]> (oc ∪ os)) }.

Lemma allocate_spec w oc os A name : life_inv w oc os A -> c_string name -> exists w' t,
  rt_object_allocate RT_Object_Class_Thread sizeof_rt_thread (name ++ [0]) w = Some (w', t) /\
  ((t = RT_NULL /\ w' = w) \/ allocated w oc os A t name w').
Proof.
  intros H Hn. pose proof (li_objects _ _ _ _ H) as Hrep. destruct (li_heap _ _ _ _ H) as (bl & Ho).
  assert (RT_Object_Class_Thread ∈ classes) as Hcl by apply list_elem_of_here.
  destruct (proj1 (information_spec _ _ RT_Object_Class_Thread Hrep) Hcl) as (i & Ei & _).
  unfold rt_object_allocate. rewrite Ei. cbn [mbind option_bind].
  destruct (owned_malloc _ _ _ sizeof_rt_thread (heap_fuel (w_heap w)) Ho) as (h1 & t & -> & Hm); [done|done|].
  cbn [mbind option_bind]. destruct Hm as [[-> ->]|(Ht & _ & Hf & Hs & bl1 & b & _ & _ & _ & Ho1)].
  { exists w, 0. cbn [Z.eqb]. rewrite set_heap_same. split; [done|by left]. }
  rewrite (proj2 (Z.eqb_neq _ _)) by done.
  destruct (memset_filled t 0 sizeof_rt_thread (hm h1)) as (m & -> & Hm); [done|]. cbn [mbind option_bind].
  set (lt := bytes_at (hm h1) t (Z.to_nat sizeof_rt_thread)) in *.
  assert (length lt = 128%nat) as Hlt by apply bytes_at_length.
  destruct (fresh_block w oc os A h1 bl1 t lt H Hs Hf Ho1) as (Hk & H0 & Hnb & Hap); [by rewrite Hlt|].
  assert ((t ∉ ids A) /\ (timer_of t ∉ ids A)) as [Hi1 Hi2].
  { split; intros (e & Ee & He)%list_elem_of_fmap; apply (Hap e He); unfold timer_of, offsetof_thread_timer, sizeof_rt_thread in *; lia. }
  destruct (allocate_step _ A (Some t) RT_Object_Class_Thread name (cleared _ _ t sizeof_rt_thread Hrep Hap)) as (r & -> & Hr).
  { split; [by intros o [= <-]|done]. }
  cbn [mbind option_bind default from_option id]. eexists _, t. split; [done|]. right.
  assert (heap_owned (on_mem (fun _ => m) h1) bl1 (<[t := bytes_at m t (length lt)]> (<[t := lt]> (oc ∪ os)))) as Ho2.
  { apply owned_write; [done|by rewrite lookup_insert_eq| |].
    - eapply bytes_ok_filled; [apply Ho1| |done]. done.
    - intros x Hx. rewrite Hm, decide_False; [done|]. rewrite Hlt in Hx. unfold sizeof_rt_thread. lia. }
  rewrite insert_insert_eq in Ho2.
  split; try done. exists bl1. eexists. split; [|exact Ho2]. rewrite bytes_at_length. by rewrite Hlt.
Qed.

(** ** The stack *)

Section making.
Context (rt_hw_stack_init : Z -> Z -> Z -> memory -> memory * Z) (frame : Z).
(** The port writes its frame below the end of the stack, nothing else. *)
Definition stack_init_ok : Prop := 0 <= frame /\ forall entry parameter top m, bytes_ok m ->
  let m' := fst (rt_hw_stack_init entry parameter top m) in
  bytes_ok m' /\ forall x, ~ top + 4 - frame <= x < top + 4 -> rd m' x = rd m x.
Context (Hport : stack_init_ok).

Lemma stack_filled h entry parameter s size : bytes_ok (hm h) -> frame <= size -> exists m1,
  rt_memset s 35 size (hm h) = Some m1 /\
  let m := fst (rt_hw_stack_init entry parameter (s + size - 4) m1) in
  bytes_ok m /\ forall x, ~ s <= x < s + size -> rd m x = rd (hm h) x.
Proof.
  destruct Hport as [Hf Hw]. intros Hb Hfr. destruct (memset_filled s 35 size (hm h)) as (m1 & E & Hm1); [lia|].
  exists m1. split; [done|]. destruct (Hw entry parameter (s + size - 4) m1) as [Hb' Hx]; [by eapply (bytes_ok_filled _ _ (u8 35))|].
  split; [done|]. intros x Hn. rewrite Hx by lia. rewrite Hm1, decide_False; [done|]. lia.
Qed.

(** The rest of the initialisation, the object being there. *)
Lemma rest_of_init w t static entry parameter s size p n nm A : bytes_ok (hm (w_heap w)) -> frame <= size ->
  represents (w_objects w) (mk_entry t RT_Object_Class_Thread static nm :: A) -> timer_of t ∉ ids A -> exists r m sp,
  _rt_thread_init rt_hw_stack_init t static entry parameter s size p n w =
    Some (mk_world (Kernel._rt_thread_init t static p n (w_kernel w)) r (on_mem (fun _ => m) (w_heap w))
            (<[t := mk_memory sp entry parameter s size]> (w_memory w))) /\
  represents r (mk_entry (timer_of t) RT_Object_Class_Timer true nm :: mk_entry t RT_Object_Class_Thread static nm :: A) /\
  bytes_ok m /\ forall x, ~ s <= x < s + size -> rd m x = rd (hm (w_heap w)) x.
Proof.
  intros Hb Hfr Hr Hn. destruct (stack_filled (w_heap w) entry parameter s size Hb Hfr) as (m1 & E1 & Hm).
  unfold _rt_thread_init. rewrite E1. cbn [mbind option_bind].
  destruct (rt_hw_stack_init entry parameter (s + size - 4) m1) as [m sp]. cbv zeta in Hm. cbn [fst] in Hm.
  destruct (name_step _ _ _ (timer_of t) RT_Object_Class_Timer Hr (list_elem_of_here _ _)) as (r & E & Hr').
  { cbn [ids fmap list_fmap e_id]. apply not_elem_of_cons. split; [|done]. unfold timer_of, offsetof_thread_timer. lia. }
  { by apply (bool_decide_unpack _); vm_compute. }
  cbn [e_id e_name] in *. cbn [w_objects set_kernel set_memory set_heap]. rewrite E. cbn [mbind option_bind].
  exists r, m, sp. by destruct Hm.
Qed.

(** ** [rt_thread_create] *)

(** What a creation that succeeds makes. *)
Record created (w : world) (oc os : gmap Z (list Z)) (t entry parameter stack_size p n : Z) (w' : world)
    (os' : gmap Z (list Z)) : Prop := {
  cr_known : ~ known (w_kernel w) t;
  cr_null : t <> RT_NULL;
  cr_kernel : w_kernel w' = Kernel._rt_thread_init t false p n (w_kernel w);
  cr_memory : let m := w_memory w' !!! t in
    t_entry m = entry /\ t_parameter m = parameter /\ ThreadLife.stack_size m = stack_size;
  cr_heap : same_heap (w_heap w) (w_heap w');
  cr_new : (oc ∪ os) !! t = None /\ (oc ∪ os) !! stack_of w' t = None;
  cr_blocks : exists lt ls, Z.of_nat (length lt) = sizeof_rt_thread /\ Z.of_nat (length ls) = stack_size /\
    os' = <[stack_of w' t := ls]> (<[t := lt]> os) }.

Lemma without_new r A e : represents r (e :: A) -> without (e_id e) (e :: A) = A.
Proof.
  intros H. unfold without. rewrite filter_cons_False by (by intros ?). apply filter_all, Forall_forall.
  intros x Hx E. pose proof (rp_ids _ _ H) as Hd. apply NoDup_cons in Hd as [Hd _]. apply Hd. rewrite <- E. by apply in_ids.
Qed.

Lemma forget_unknown k t : ~ known k t -> forget_thread t k = k.
Proof.
  intros Hn. unfold forget_thread, set_threads. rewrite delete_id; [by destruct k|].
  destruct (threads k !! t) eqn:E; [|done]. exfalso. apply Hn. by eexists.
Qed.

(** Without memory for the stack the object is given back. *)
Lemma unallocated w oc os A t name w1 : life_inv w oc os A -> allocated w oc os A t name w1 ->
  exists w2, rt_object_delete t w1 = Some w2 /\ life_inv w2 oc os A /\ w_kernel w2 = w_kernel w.
Proof.
  intros H [Hk _ _ Ek Em Hs Hf Hr [Hi _] (bl & lt & Hlt & Ho)].
  destruct (remove_step _ _ t Hr (list_elem_of_here _ _)) as [_ (r & E & Hr')].
  pose proof (without_new _ _ _ Hr) as Ew. cbn [e_id] in Ew. rewrite Ew in Hr'. unfold rt_object_delete. rewrite E. cbn [mbind option_bind].
  destruct (owned_free _ _ _ t lt Ho) as (Hs' & bl' & Ho'); [by rewrite lookup_insert_eq|].
  rewrite delete_insert_id in Ho' by done.
  eexists. split; [done|]. rewrite Ek, forget_unknown by done. split; [|done].
  assert (same_heap (w_heap w) (rt_free t (w_heap w1))) as Hs2 by (by eapply same_heap_trans).
  destruct H as [H1 _ _ H4 H5 H6 H7 H8 H9 H10]. split; cbn [w_kernel w_objects w_heap]; try done; try by exists bl'.
  - eapply owns_ext; [exact H5|done|]. intros x [Hx _]. unfold stack_of. cbn [w_memory]. rewrite Em.
    rewrite lookup_total_delete_ne; [done|]. by intros ->.
  - intros x Hx Hsx. unfold outside. destruct Hs2 as (-> & -> & _). by apply H6.
  - intros e He. unfold accounted, placed, outside. destruct Hs2 as (-> & -> & _). by apply H10.
Qed.

Lemma created_spec w oc os A name entry parameter stack_size p n : life_inv w oc os A -> c_string name ->
  0 <= p < 32 -> frame <= stack_size -> 0 <= stack_size <= 4294967292 -> exists w' t,
  rt_thread_create rt_hw_stack_init (name ++ [0]) entry parameter stack_size p n w = Some (w', t) /\
  ((t = RT_NULL /\ life_inv w' oc os A /\ w_kernel w' = w_kernel w) \/
   exists os', created w oc os t entry parameter stack_size p n w' os' /\
     life_inv w' oc os' (mk_entry (timer_of t) RT_Object_Class_Timer true (take 8 name) ::
       mk_entry t RT_Object_Class_Thread false (take 8 name) :: A)).
Proof.
  intros H Hn Hp Hfr Hsz. unfold rt_thread_create.
  destruct (allocate_spec w oc os A name H Hn) as (w1 & t & -> & [[-> ->]|Hal]); cbn [mbind option_bind].
  { exists w, RT_NULL. cbn [Z.eqb RT_NULL]. split; [done|by left]. }
  pose proof Hal as [Hk H0 Hnb Ek Em Hs Hf Hr [Hi1 Hi2] (bl & lt & Hlt & Ho)].
  rewrite (proj2 (Z.eqb_neq _ _)) by done.
  destruct (owned_malloc _ _ _ stack_size (heap_fuel (w_heap w1)) Ho Hsz (le_n _)) as (h2 & s & -> & Hm). cbn [mbind option_bind].
  destruct Hm as [[-> ->]|(Hs0 & _ & Hfs & Hs2 & bl2 & b & _ & _ & _ & Ho2)].
  { cbn [Z.eqb]. rewrite set_heap_same. destruct (unallocated w oc os A t name w1 H Hal) as (w2 & -> & H2 & Ek2).
    cbn [mbind option_bind]. exists w2, RT_NULL. split; [done|by left]. }
  rewrite (proj2 (Z.eqb_neq _ _)) by done. set (ls := bytes_at (hm h2) s (Z.to_nat stack_size)) in *.
  assert (length ls = Z.to_nat stack_size) as Hls by apply bytes_at_length.
  destruct (rest_of_init (set_heap h2 w1) t false entry parameter s stack_size p n (take 8 name) A) as
    (r & m & sp & -> & Hr' & Hb & Hx); [apply Ho2|done|done|done|].
  cbn [mbind option_bind w_kernel w_heap w_memory set_heap]. eexists _, t. split; [done|]. right.
  apply lookup_insert_None in Hfs as [Hfs Hts].
  set (ls' := bytes_at m s (length ls)).
  assert (length ls' = length ls) as Hls' by apply bytes_at_length.
  assert (stack_of (mk_world (Kernel._rt_thread_init t false p n (w_kernel w1)) r (on_mem (fun _ => m) h2)
    (<[t := mk_memory sp entry parameter s stack_size]> (w_memory w1))) t = s) as Est
    by (unfold stack_of; cbn [w_memory]; by rewrite lookup_total_insert_eq).
  exists (<[s := ls']> (<[t := lt]> os)). split.
  { split; [done|done|cbn [w_kernel]; by rewrite Ek| | |by rewrite Est|].
    { cbv zeta. cbn [w_memory]. by rewrite lookup_total_insert_eq. }
    { by eapply same_heap_trans. }
    exists lt, ls'. rewrite Est. split_and!; [done| |done]. lia. }
  assert (heap_owned (on_mem (fun _ => m) h2) bl2 (oc ∪ <[s := ls']> (<[t := lt]> os))) as Ho3.
  { pose proof (owned_write h2 bl2 _ s ls m Ho2 ltac:(by rewrite lookup_insert_eq) Hb) as Ho3.
    rewrite insert_insert_eq in Ho3. apply lookup_union_None in Hf as [Hf1 Hf2]. apply lookup_union_None in Hfs as [Hfs1 Hfs2].
    rewrite <- !insert_union_r by done. apply Ho3. intros x Hxx. apply Hx. lia. }
  apply lookup_union_None in Hf as [Hf1 Hf2]. apply lookup_union_None in Hfs as [Hfs1 Hfs2]. rewrite Ek.
  apply (made_inv w oc os A t false p n); try done.
  - by exists bl2.
  - apply map_disjoint_insert_r_2; [done|]. apply map_disjoint_insert_r_2; [done|apply H].
  - by eapply same_heap_trans.
  - intros Hb1. apply (made_owns w oc os A t s lt ls' _ _ H Hb1); try done; [rewrite lookup_total_insert_eq; cbn; lia|].
    intros x Hx'. rewrite Em. rewrite lookup_total_insert_ne; [done|]. by intros ->.
Qed.

(** ** [rt_thread_init] *)

(** A static thread: the object and the stack are outside the heap. *)
Record static_room (w : world) (A : list entry) (t s size : Z) : Prop := {
  sr_known : ~ known (w_kernel w) t;
  sr_null : t <> RT_NULL /\ t <> NOBODY;
  sr_apart : (t ∉ ids A) /\ (timer_of t ∉ ids A);
  sr_object : outside (w_heap w) t /\ outside (w_heap w) (timer_of t);
  sr_stack : s + size <= heap_ptr (w_heap w) \/ heap_end (w_heap w) + 12 <= s }.

Lemma init_spec w oc os A t name entry parameter s size p n : life_inv w oc os A -> c_string name ->
  static_room w A t s size -> 0 <= p < 32 -> frame <= size -> exists w',
  rt_thread_init rt_hw_stack_init t (name ++ [0]) entry parameter s size p n w = Some w' /\
  life_inv w' oc os (mk_entry (timer_of t) RT_Object_Class_Timer true (take 8 name) ::
    mk_entry t RT_Object_Class_Thread true (take 8 name) :: A) /\
  w_kernel w' = Kernel._rt_thread_init t true p n (w_kernel w) /\
  (forall x, x <> t -> w_memory w' !!! x = w_memory w !!! x).
Proof.
  intros H Hn [Hk [H0 Hnb] [Hi1 Hi2] Hout Hst] Hp Hfr. unfold rt_thread_init.
  destruct (init_step _ A t RT_Object_Class_Thread name (li_objects _ _ _ _ H)) as (r & -> & Hr).
  { split; [done|]. split; [apply list_elem_of_here|done]. }
  cbn [mbind option_bind]. destruct (li_heap _ _ _ _ H) as (bl & Ho).
  destruct (rest_of_init (set_objects r w) t true entry parameter s size p n (take 8 name) A) as
    (r' & m & sp & -> & Hr' & Hb & Hx); [apply Ho|done|done|done|].
  cbn [w_kernel w_heap w_memory set_objects] in *. eexists. split; [done|].
  split; [|split; [done|intros x Hne; cbn [w_memory]; by rewrite lookup_total_insert_ne]].
  apply (made_inv w oc os A t true p n); try done.
  - exists bl. apply owned_elsewhere; [done|done|]. intros x Hxx. apply Hx. lia.
  - apply H.
  - intros [B1 B2 B3 B4 B5]. eapply owns_ext; [exact (li_owns _ _ _ _ H)| |].
    + intros x. unfold dynamic. rewrite B1. destruct (decide (x = t)) as [->|Hne].
      * rewrite B2. split; [by intros [_ ?]|by intros [? _]].
      * rewrite B3 by done. tauto.
    + intros x [Hkx _]. unfold stack_of. rewrite lookup_total_insert_ne; [done|]. by intros ->.
Qed.
End making.
