(* ===== verification/Idle.v ===== *)
(** * Idle: the life of threads, and the idle thread that ends it

    From the empty kernel, registry and heap on: threads are made, run and end,
    clients use the heap and register objects of their own, and the idle thread
    takes the ended threads apart.  Every block the kernel has is the object or
    the stack of a thread that is not taken apart, and no list holds a thread or
    an object whose memory was given back. *)
From S2P Require Import Prelude Bytes KService Heap HeapInv HeapSystem Object Timer Kernel KernelInv.
From S2P Require Import IpcInv KernelCheck KernelSystem LifeFrame ThreadLife ThreadInv ThreadMake.

(** ** Hooks *)

(** A hook goes into the first free slot; the first slot that holds it is
    cleared. *)
Lemma sethook_first hook l : rt_thread_idle_sethook hook l =
  match list_find (fun h => h = RT_NULL) l with Some (i, _) => (<[i := hook]> l, RT_EOK) | None => (l, - RT_EFULL) end.
Proof.
  induction l as [|h l IH]; [done|]. cbn [rt_thread_idle_sethook list_find]. destruct (Z.eqb_spec h RT_NULL).
  - by rewrite decide_True.
  - rewrite decide_False, IH by done. by destruct (list_find _ l) as [[i x]|].
Qed.
Lemma delhook_first hook l : rt_thread_idle_delhook hook l =
  match list_find (fun h => h = hook) l with Some (i, _) => (<[i := RT_NULL]> l, RT_EOK) | None => (l, - RT_ENOSYS) end.
Proof.
  induction l as [|h l IH]; [done|]. cbn [rt_thread_idle_delhook list_find]. destruct (Z.eqb_spec h hook).
  - by rewrite decide_True.
  - rewrite decide_False, IH by done. by destruct (list_find _ l) as [[i x]|].
Qed.

Section system.
Context (rt_hw_stack_init : Z -> Z -> Z -> memory -> memory * Z) (frame : Z).
Context (begin_addr end_addr : Z) (h0 : heap).

Definition boot_world : world :=
  mk_world (rt_system_scheduler_init kernel_off) registry_boot (rt_system_heap_init begin_addr end_addr h0) ∅.

Definition started (k : kernel) : Prop := rt_current_thread k <> RT_NULL.

(** No registered object is in the array a call of a client names. *)
Definition unshared (r : registry) (oc : gmap Z (list Z)) (c : heap_call) : Prop :=
  forall p l o, named c p -> oc !! p = Some l -> linked o r = true -> ~ p <= o < p + Z.of_nat (length l).

(** What can happen; [oc] are the arrays clients of the heap have. *)
Inductive system : world -> gmap Z (list Z) -> Prop :=
  | sys_boot : system boot_world ∅
  | sys_heap w oc c h' r : system w oc -> legal oc c -> unshared (w_objects w) oc c ->
      run_call (heap_fuel (w_heap w)) c (w_heap w) = Some (h', r) ->
      system (set_heap h' w) (owned_after oc c r (hm h'))
  | sys_register w oc o type name r' : system w oc -> linked o (w_objects w) = false -> type ∈ classes ->
      type <> RT_Object_Class_Thread -> type <> RT_Object_Class_Timer -> c_string name -> placed (w_heap w) oc o ->
      rt_object_init o type (name ++ [0]) (w_objects w) = Some r' -> system (set_objects r' w) oc
  | sys_unregister w oc o type r' : system w oc -> linked o (w_objects w) = true ->
      rt_object_get_type o (w_objects w) = Some type -> type <> RT_Object_Class_Thread -> type <> RT_Object_Class_Timer ->
      rt_object_detach o (w_objects w) = Some r' -> system (set_objects r' w) oc
  | sys_init w oc t name entry parameter s size p n w' : system w oc -> c_string name -> 0 <= p < 32 ->
      frame <= size -> ~ known (w_kernel w) t -> t <> RT_NULL -> t <> NOBODY ->
      linked t (w_objects w) = false -> linked (timer_of t) (w_objects w) = false ->
      outside (w_heap w) t -> outside (w_heap w) (timer_of t) ->
      s + size <= heap_ptr (w_heap w) \/ heap_end (w_heap w) + 12 <= s ->
      rt_thread_init rt_hw_stack_init t (name ++ [0]) entry parameter s size p n w = Some w' -> system w' oc
  | sys_create w oc name entry parameter size p n w' t : system w oc -> c_string name -> 0 <= p < 32 ->
      frame <= size -> 0 <= size <= 4294967292 ->
      rt_thread_create rt_hw_stack_init (name ++ [0]) entry parameter size p n w = Some (w', t) -> system w' oc
  | sys_startup w oc t : system w oc -> ~ started (w_kernel w) -> known (w_kernel w) t ->
      state_of (thr (w_kernel w) t) = RT_THREAD_INIT -> system (set_kernel (fst (rt_thread_startup t (w_kernel w))) w) oc
  | sys_start w oc t : system w oc -> ~ started (w_kernel w) -> known (w_kernel w) t ->
      state_of (thr (w_kernel w) t) = RT_THREAD_READY -> system (set_kernel (rt_system_scheduler_start (w_kernel w)) w) oc
  | sys_kernel w oc k' : system w oc -> started (w_kernel w) -> plain (w_kernel w) k' -> system (set_kernel k' w) oc
  | sys_exit w oc w' : system w oc -> started (w_kernel w) -> running (w_kernel w) ->
      _rt_thread_exit w = Some w' -> system w' oc
  | sys_detach w oc t w' e : system w oc -> started (w_kernel w) -> known (w_kernel w) t ->
      rt_thread_detach t w = Some (w', e) -> system w' oc
  | sys_delete w oc t w' e : system w oc -> started (w_kernel w) -> known (w_kernel w) t ->
      rt_thread_delete t w = Some (w', e) -> system w' oc
  | sys_close w oc t w' e : system w oc -> started (w_kernel w) -> known (w_kernel w) t ->
      rt_thread_close t w = Some (w', e) -> system w' oc
  | sys_reap w oc k' t w' : system w oc -> started (w_kernel w) -> running (w_kernel w) ->
      rt_thread_defunct_dequeue (w_kernel w) = (k', t) -> t <> RT_NULL -> reap t (set_kernel k' w) = Some w' -> system w' oc.

Context (Hport : stack_init_ok rt_hw_stack_init frame) (Hheap : heap_start begin_addr end_addr h0).

Lemma boot_life : life_inv boot_world ∅ ∅ [].
Proof.
  destruct (session_owned _ _ _ _ _ Hheap (session_init begin_addr end_addr h0)) as [bl Ho].
  assert (forall t, ~ known (rt_system_scheduler_init kernel_off) t) as Hn by (intros t [x Hx]; cbn in Hx; by rewrite lookup_empty in Hx).
  split; cbn [w_kernel w_objects w_heap w_memory boot_world]; try done.
  - left. constructor.
  - apply registry_boot_represents.
  - exists bl. by rewrite map_empty_union.
  - split; [intros t [Ht _]| intros t [Ht _]|intros p [l Hl]|intros t u [Ht _]|intros t u [Ht _]];
      [by apply Hn in Ht..| |by apply Hn in Ht|by apply Hn in Ht]. by rewrite lookup_empty in Hl.
  - intros t Ht. by apply Hn in Ht.
  - intros t Ht. by apply Hn in Ht.
  - intros e He. by apply not_elem_of_nil in He.
Qed.

Lemma started_inv w oc os A : life_inv w oc os A -> started (w_kernel w) -> kernel_inv (w_kernel w).
Proof. intros H Hs. destruct (li_kernel _ _ _ _ H) as [Hb|]; [|done]. by apply boot_reach_ok in Hb as (_ & _ & Hb). Qed.
Lemma unstarted_boot w oc os A : life_inv w oc os A -> ~ started (w_kernel w) ->
  boot_reach (w_kernel w) /\ kernel_ok (w_kernel w) /\ rt_current_thread (w_kernel w) = RT_NULL.
Proof.
  intros H Hs. destruct (li_kernel _ _ _ _ H) as [Hb|Hk].
  - destruct (boot_reach_ok _ Hb) as (Hok & _ & E). done.
  - exfalso. apply Hs. intros E. apply (bt_null _ _ (proj1 (proj1 (ki_ok _ Hk)))). rewrite <- E. apply Hk.
Qed.

Lemma unlinked_ids w oc os A o : life_inv w oc os A -> linked o (w_objects w) = false <-> o ∉ ids A.
Proof. intros H. rewrite (linked_spec _ _ _ (li_objects _ _ _ _ H)). by rewrite bool_decide_eq_false. Qed.
Lemma linked_ids w oc os A o : life_inv w oc os A -> linked o (w_objects w) = true <-> o ∈ ids A.
Proof. intros H. rewrite (linked_spec _ _ _ (li_objects _ _ _ _ H)). by rewrite bool_decide_eq_true. Qed.

(** An entry and its class, as the registry knows them. *)
Lemma linked_entry w oc os A o : life_inv w oc os A -> linked o (w_objects w) = true ->
  exists e, e ∈ A /\ e_id e = o /\ rt_object_get_type o (w_objects w) = Some (e_class e).
Proof.
  intros H Hl. pose proof (proj1 (linked_ids _ _ _ _ _ H) Hl) as Hin. pose proof (li_objects _ _ _ _ H) as Hr.
  destruct (lookup_id_spec _ A o Hr Hin) as (e & El & He & Ee & _). exists e. split; [done|]. split; [done|].
  destruct (query_step _ A (Type_of o) Hr Hin I) as [E _]. cbn [run_op do_op snd] in E. rewrite El in E.
  destruct (rt_object_get_type o _); [|done]. cbn [mbind option_bind] in E. by injection E as ->.
Qed.

(** An ended thread is ended only once. *)
Lemma ended_again w oc os A t : life_inv w oc os A -> started (w_kernel w) -> ended (w_kernel w) t ->
  rt_thread_detach t w = Some (w, RT_EOK) /\ rt_thread_delete t w = Some (w, RT_EOK) /\
  forall w' e, rt_thread_close t w = Some (w', e) -> life_inv w' oc os A.
Proof.
  intros H Hs He. unfold rt_thread_close, rt_thread_detach, rt_thread_delete. rewrite (proj2 (Z.eqb_eq _ _) He).
  split; [done|]. split; [done|]. intros w' e. destruct (rt_object_is_systemobject _ _) as [s|]; [|done].
  assert (life_inv (set_kernel (rt_schedule (w_kernel w)) w) oc os A) as H'.
  { pose proof (started_inv _ _ _ _ H Hs) as Hi. apply keeps_life; [done|apply life_schedule, Hi|right; by apply inv_schedule]. }
  destruct s; cbn [mbind option_bind]; by intros [= <- _].
Qed.

Lemma dequeued k k' t : rt_thread_defunct_dequeue k = (k', t) -> t <> RT_NULL ->
  exists q, queue k Defunct = t :: q /\ k' = rt_list_remove t k.
Proof.
  unfold rt_thread_defunct_dequeue. destruct (queue k Defunct) as [|x q]; [by intros [= _ <-]|].
  intros [= <- <-] _. by exists q.
Qed.

Lemma system_inv w oc : system w oc -> exists os A, life_inv w oc os A.
Proof.
  induction 1 as [|w oc c h' r _ (os & A & H) Hl Hu E|w oc o type name r' _ (os & A & H) Hl Ht Hn1 Hn2 Hn Hp E
    |w oc o type r' _ (os & A & H) Hl Et Hn1 Hn2 E
    |w oc t name entry parameter s size p n w' _ (os & A & H) Hn Hp Hf Hk H0 Hnb Hl1 Hl2 Ho1 Ho2 Hs E
    |w oc name entry parameter size p n w' t _ (os & A & H) Hn Hp Hf Hs E
    |w oc t _ (os & A & H) Hst Hk Hs|w oc t _ (os & A & H) Hst Hk Hs|w oc k' _ (os & A & H) Hst Hp
    |w oc w' _ (os & A & H) Hst Hr E|w oc t w' e _ (os & A & H) Hst Hk E|w oc t w' e _ (os & A & H) Hst Hk E
    |w oc t w' e _ (os & A & H) Hst Hk E|w oc k' t w' _ (os & A & H) Hst Hr Hd H0 E].
  - exists ∅, []. apply boot_life.
  - exists os, A. destruct (client_step w oc os A c H Hl) as (h2 & r2 & E2 & _ & H2).
    { intros p l e Hnm Hop He. apply (Hu p l (e_id e) Hnm Hop). by apply (linked_ids _ _ _ _ _ H), in_ids. }
    rewrite E in E2. by injection E2 as <- <-.
  - destruct (placed_step w oc os A o type name H) as (r2 & E2 & H2); try done; [by apply (unlinked_ids _ _ _ _ _ H)|].
    rewrite E in E2. injection E2 as <-. by eexists _, _.
  - destruct (linked_entry _ _ _ _ _ H Hl) as (e & He & <- & Et'). rewrite Et in Et'. injection Et' as ->.
    destruct (unplaced_step w oc os A e H He Hn1 Hn2) as (r2 & E2 & H2). rewrite E in E2. injection E2 as <-. by eexists _, _.
  - destruct (init_spec _ _ Hport w oc os A t name entry parameter s size p n H Hn) as (w2 & E2 & H2 & _); [|done|done|].
    { split; try done; split; by apply (unlinked_ids _ _ _ _ _ H). }
    rewrite E in E2. injection E2 as <-. by eexists _, _.
  - destruct (created_spec _ _ Hport w oc os A name entry parameter size p n H Hn Hp Hf Hs) as (w2 & t2 & E2 & H2).
    rewrite E in E2. injection E2 as <- <-. destruct H2 as [(_ & H2 & _)|(os2 & _ & H2)]; by eexists _, _.
  - destruct (unstarted_boot _ _ _ _ H Hst) as (Hb & Hok & Ec). exists os, A. apply keeps_life; [done|by apply life_boot_startup|].
    left. by constructor.
  - destruct (unstarted_boot _ _ _ _ H Hst) as (Hb & Hok & Ec). exists os, A. apply keeps_life; [done|by eapply life_start|].
    right. by eapply boot_started.
  - pose proof (started_inv _ _ _ _ H Hst) as Hi. exists os, A. apply keeps_life; [done|by apply plain_life|].
    right. eapply kernel_step_inv; [done|]. apply Hp.
  - destruct (exit_spec w oc os A H (started_inv _ _ _ _ H Hst) Hr) as (w2 & E2 & H2 & _). rewrite E in E2.
    injection E2 as <-. by eexists _, _.
  - destruct (decide (state_of (thr (w_kernel w) t) = RT_THREAD_CLOSE)) as [He|He].
    + destruct (ended_again _ _ _ _ t H Hst He) as (E2 & _). rewrite E in E2. injection E2 as -> _. by eexists _, _.
    + destruct (detach_spec w oc os A H (started_inv _ _ _ _ H Hst) t Hk He) as (w2 & E2 & H2 & _). rewrite E in E2.
      injection E2 as <- _. by eexists _, _.
  - destruct (decide (state_of (thr (w_kernel w) t) = RT_THREAD_CLOSE)) as [He|He].
    + destruct (ended_again _ _ _ _ t H Hst He) as (_ & E2 & _). rewrite E in E2. injection E2 as -> _. by eexists _, _.
    + destruct (delete_spec w oc os A H (started_inv _ _ _ _ H Hst) t Hk He) as (w2 & E2 & H2 & _). rewrite E in E2.
      injection E2 as <- _. by eexists _, _.
  - destruct (decide (state_of (thr (w_kernel w) t) = RT_THREAD_CLOSE)) as [He|He].
    + destruct (ended_again _ _ _ _ t H Hst He) as (_ & _ & E2). eexists _, _. by eapply E2.
    + destruct (close_spec w oc os A H (started_inv _ _ _ _ H Hst) t Hk He) as (w2 & E2 & H2 & _). rewrite E in E2.
      injection E2 as <- _. by eexists _, _.
  - destruct (dequeued (w_kernel w) k' t Hd H0) as (q & Hq & ->).
    destruct (reap_spec w oc os A H (started_inv _ _ _ _ H Hst) Hr t q Hq) as (w2 & os2 & E2 & H2 & _).
    rewrite E in E2. injection E2 as <-. by eexists _, _.
Qed.

(** The loop of the idle thread is a sequence of such steps. *)
Lemma system_defunct oc fuel : forall w w', system w oc -> started (w_kernel w) -> running (w_kernel w) ->
  rt_defunct_execute fuel w = Some w' -> system w' oc.
Proof.
  induction fuel as [|fuel IH]; intros w w' Hsys Hst Hr; cbn [rt_defunct_execute];
    destruct (rt_thread_defunct_dequeue (w_kernel w)) as [k' t] eqn:Hd;
    destruct (Z.eqb_spec t RT_NULL) as [->|H0]; try done; try by intros [= <-].
  destruct (system_inv w oc Hsys) as (os & A & H). destruct (dequeued _ _ _ Hd H0) as (q & Hq & ->).
  destruct (reap_spec w oc os A H (started_inv _ _ _ _ H Hst) Hr t q Hq) as (w1 & os1 & E1 & _ & Hrd & _).
  rewrite E1. cbn [mbind option_bind]. apply IH.
  - by eapply sys_reap.
  - unfold started. by rewrite (rd_current _ _ _ Hrd).
  - by eapply reaped_running.
Qed.

(** ** What is in memory *)

Lemma kernel_core w oc os A : life_inv w oc os A -> core (w_kernel w).
Proof. intros H. destruct (li_kernel _ _ _ _ H) as [Hb|Hb]; [apply (boot_reach_ok _ Hb)|apply (ki_ok _ Hb)]. Qed.
Lemma kernel_timers w oc os A : life_inv w oc os A -> timers_inv (w_kernel w).
Proof. intros H. destruct (li_kernel _ _ _ _ H) as [Hb|Hb]; [apply (boot_reach_ok _ Hb)|apply (ki_timers _ Hb)]. Qed.

(** The object of a thread is outside the heap or in a block the kernel has. *)
Lemma thread_placed w oc os A t : life_inv w oc os A -> known (w_kernel w) t ->
  placed (w_heap w) (oc ∪ os) t /\ placed (w_heap w) (oc ∪ os) (timer_of t).
Proof.
  intros H Hk. destruct (systemobject (thr (w_kernel w) t)) eqn:Es.
  - destruct (li_static _ _ _ _ H t Hk Es). split; by left.
  - destruct (ow_object _ _ _ (li_owns _ _ _ _ H) t (conj Hk Es)) as (l & Hl & Hn). unfold sizeof_rt_thread in Hn.
    assert ((oc ∪ os) !! t = Some l) as Hu by (apply lookup_union_Some; [apply H|by right]).
    unfold timer_of, offsetof_thread_timer. split; right; exists t, l; split; try done; lia.
Qed.

Lemma entry_placed w oc os A e : life_inv w oc os A -> e ∈ A -> placed (w_heap w) (oc ∪ os) (e_id e).
Proof.
  intros H He. destruct (li_entries _ _ _ _ H e He) as [(_ & C & _)|[(_ & u & C & _ & ->)|(_ & _ & [C|(p & l & Hl & C)])]].
  - by eapply thread_placed.
  - by eapply thread_placed.
  - by left.
  - right. exists p, l. split; [by apply lookup_union_Some_l|done].
Qed.

(** C10 No list leads into memory that was given back.  Whatever happened since
    the boot, the heap is the arrays of its clients and blocks of the kernel,
    two arrays never overlapping; a thread in a list of the scheduler or of an
    IPC object, a timer in the timer list and a registered object are outside
    the heap or in one of these blocks; and the stacks of two threads from the
    heap are apart. *)
Theorem lists_in_memory w oc : system w oc -> exists os bl,
  heap_owned (w_heap w) bl (oc ∪ os) /\ oc ##ₘ os /\
  (forall t h, t ∈ queue (w_kernel w) h -> placed (w_heap w) (oc ∪ os) t) /\
  (forall t, t ∈ rt_timer_list (k_timers (w_kernel w)) -> placed (w_heap w) (oc ∪ os) (timer_of t)) /\
  (forall o, linked o (w_objects w) = true -> placed (w_heap w) (oc ∪ os) o) /\
  (forall t u, dynamic (w_kernel w) t -> dynamic (w_kernel w) u -> t <> u ->
     let T := w_memory w !!! t in let U := w_memory w !!! u in
     stack_addr T + stack_size T <= stack_addr U - 12 \/ stack_addr U + stack_size U <= stack_addr T - 12).
Proof.
  intros Hsys. destruct (system_inv w oc Hsys) as (os & A & H). destruct (li_heap _ _ _ _ H) as (bl & Ho).
  exists os, bl. split; [done|]. split; [apply H|]. split_and!.
  - intros t h Hin. by apply (thread_placed _ _ _ _ _ H), (bt_in _ _ (proj1 (kernel_core _ _ _ _ H)) t h).
  - intros t Hin. apply (thread_placed _ _ _ _ _ H), suspended_known. by apply (ti_sleeping _ (kernel_timers _ _ _ _ H)).
  - intros o (e & -> & He)%(linked_ids _ _ _ _ _ H)%list_elem_of_fmap. by eapply entry_placed.
  - intros t u Ht Hu Hn. cbv zeta. pose proof (li_owns _ _ _ _ H) as Hw.
    destruct (ow_stack _ _ _ Hw t Ht) as (lt & Hlt & <-), (ow_stack _ _ _ Hw u Hu) as (lu & Hlu & <-).
    apply (owned_apart _ _ _ _ _ _ _ Ho); try (apply lookup_union_Some; [apply H|by right]).
    intros E. by apply Hn, (ow_inj _ _ _ Hw).
Qed.

(** ** The idle thread *)

(** C9 The idle thread takes every ended thread apart.  With no hook set, a
    round of its loop returns; nobody is left in its list; of the threads there
    were, those from the heap that had ended are gone, the others are as they
    were; and the heap is what it would be had the ended threads never been:
    the arrays of the clients and, for each thread from the heap that has not
    ended, its object and its stack.  In the registry the entries of the ended
    threads are gone and nothing else. *)
Theorem idle_reclaims w oc run : system w oc -> started (w_kernel w) -> running (w_kernel w) -> exists w' os bl,
  idle_round run idle_hooks_none w = Some w' /\ system w' oc /\ queue (w_kernel w') Defunct = [] /\
  (forall t, known (w_kernel w') t <->
     known (w_kernel w) t /\ (ended (w_kernel w) t -> systemobject (thr (w_kernel w) t) = true)) /\
  (forall t, known (w_kernel w') t -> thr (w_kernel w') t = thr (w_kernel w) t) /\
  heap_owned (w_heap w') bl (oc ∪ os) /\ oc ##ₘ os /\
  (forall p, is_Some (os !! p) <-> exists t, dynamic (w_kernel w) t /\ ~ ended (w_kernel w) t /\
     (p = t \/ p = stack_of w t)) /\
  (forall o, linked o (w_objects w') = true <-> linked o (w_objects w) = true /\ o ∉ queue (w_kernel w) Defunct).
Proof.
  intros Hsys Hst Hr. destruct (system_inv w oc Hsys) as (os & A & H). pose proof (started_inv _ _ _ _ H Hst) as Hi.
  destruct (defunct_spec oc _ w os A _ H Hi Hr eq_refl (le_n _)) as (w' & os' & E & H' & Hrd & Hq & Hm).
  destruct (li_heap _ _ _ _ H') as (bl & Ho). exists w', os', bl.
  assert (forall t, t ∈ queue (w_kernel w) Defunct -> ended (w_kernel w) t) as Hde
    by (intros t Ht; by apply (bt_in _ _ (proj1 (kernel_core _ _ _ _ H)) t Defunct)).
  assert (forall t, known (w_kernel w') t <->
     known (w_kernel w) t /\ (ended (w_kernel w) t -> systemobject (thr (w_kernel w) t) = true)) as Hkn.
  { intros t. rewrite (rd_known _ _ _ Hrd). split; (intros [Hk Hs]; split; [done|]); [|by auto].
    intros He. destruct (systemobject (thr (w_kernel w) t)) eqn:Es; [done|]. apply Hs. by apply (li_defunct _ _ _ _ H). }
  assert (forall t, dynamic (w_kernel w') t <-> dynamic (w_kernel w) t /\ ~ ended (w_kernel w) t) as Hdy.
  { intros t. unfold dynamic. split.
    - intros [Hk Hs]. rewrite (rd_threads _ _ _ Hrd) in Hs by done. apply Hkn in Hk as [Hk Hc]. split; [done|].
      intros He. by rewrite Hc in Hs.
    - intros [[Hk Hs] Hn]. assert (known (w_kernel w') t) as Hk' by (by apply Hkn). split; [done|].
      by rewrite (rd_threads _ _ _ Hrd). }
  split; [done|]. split; [by eapply system_defunct|]. split; [done|]. split; [done|].
  split; [apply (rd_threads _ _ _ Hrd)|]. split; [done|]. split; [apply H'|]. split.
  - assert (forall t, dynamic (w_kernel w') t -> w_memory w' !!! t = w_memory w !!! t) as Hmm
      by (intros t [_ Hn]%Hdy; apply Hm; by intros ?%Hde).
    intros p. split.
    + intros (t & Ht & Hp)%(ow_only _ _ _ (li_owns _ _ _ _ H')). exists t. rewrite Hmm in Hp by done. apply Hdy in Ht as [Ht Hn]. auto.
    + intros (t & Ht & Hn & Hp). assert (dynamic (w_kernel w') t) as Ht' by (by apply Hdy).
      destruct Hp as [->| ->]; [destruct (ow_object _ _ _ (li_owns _ _ _ _ H') t Ht') as (l & Hl & _); by exists l|].
      destruct (ow_stack _ _ _ (li_owns _ _ _ _ H') t Ht') as (l & Hl & _). exists l. by rewrite <- Hl, Hmm.
  - intros o. rewrite (linked_ids _ _ _ _ _ H), (linked_ids _ _ _ _ _ H'). unfold ids. rewrite !list_elem_of_fmap.
    setoid_rewrite list_elem_of_filter. split; [intros (e & -> & ? & ?)|intros [(e & -> & ?) ?]]; eauto 6.
Qed.

(** C13 [rt_thread_create] makes a thread or nothing.  It returns; when there is
    no memory for the object or for the stack the answer is [RT_NULL], the
    kernel is untouched, the same objects are registered and the blocks in use
    are those before; otherwise the thread is new, its two blocks are the only
    ones added, and [rt_thread_find] finds it under its name. *)
Theorem create_all_or_nothing w oc name entry parameter size p n : system w oc -> c_string name -> 0 <= p < 32 ->
  frame <= size -> 0 <= size <= 4294967292 -> exists w' t os bl bl',
  rt_thread_create rt_hw_stack_init (name ++ [0]) entry parameter size p n w = Some (w', t) /\ system w' oc /\
  heap_owned (w_heap w) bl (oc ∪ os) /\
  ((t = RT_NULL /\ w_kernel w' = w_kernel w /\ (forall o, linked o (w_objects w') = linked o (w_objects w)) /\
    heap_owned (w_heap w') bl' (oc ∪ os)) \/
   (exists os', created w oc os t entry parameter size p n w' os' /\ heap_owned (w_heap w') bl' (oc ∪ os') /\
    rt_thread_find (Some (name ++ [0])) (w_objects w') = Some t)).
Proof.
  intros Hsys Hn Hp Hf Hs. destruct (system_inv w oc Hsys) as (os & A & H). destruct (li_heap _ _ _ _ H) as (bl & Ho).
  destruct (created_spec _ _ Hport w oc os A name entry parameter size p n H Hn Hp Hf Hs) as (w' & t & E & Hc).
  pose proof (sys_create w oc name entry parameter size p n w' t Hsys Hn Hp Hf Hs E) as Hsys'.
  destruct Hc as [(-> & H' & Ek)|(os' & Hcr & H')]; destruct (li_heap _ _ _ _ H') as (bl' & Ho').
  - exists w', RT_NULL, os, bl, bl'. do 3 (split; [done|]). left. split_and!; try done. intros o.
    by rewrite (linked_spec _ _ _ (li_objects _ _ _ _ H)), (linked_spec _ _ _ (li_objects _ _ _ _ H')).
  - exists w', t, os, bl, bl'. do 3 (split; [done|]). right. exists os'. split; [done|]. split; [done|].
    destruct (query_step _ _ (Find name RT_Object_Class_Thread) (li_objects _ _ _ _ H') Hn I) as [Ef _].
    cbn [run_op do_op snd] in Ef. unfold of_class in Ef.
    rewrite filter_cons_False, filter_cons_True in Ef by done. unfold search in Ef. cbn [List.find e_name] in Ef.
    rewrite bool_decide_eq_true_2 in Ef by done. cbn [e_id] in Ef. unfold rt_thread_find.
    destruct (rt_object_find _ _ _); [|done]. cbn [mbind option_bind] in Ef. by injection Ef as ->.
Qed.
End system.

(** ** A thread from the heap that ends *)

Definition demo_port (entry parameter top : Z) (m : memory) : memory * Z :=
  (wr32 top entry (wr32 (top - 4) parameter m), top - 4).
Lemma demo_port_ok : stack_init_ok demo_port 8.
Proof.
  split; [done|]. intros entry parameter top m Hm. split; [by apply bytes_ok_wr32, bytes_ok_wr32|].
  intros x Hx. unfold demo_port. cbn [fst]. rewrite !rd_wr32, !decide_False by lia. done.
Qed.

Lemma demo_heap : heap_start 4096 4600 empty_heap.
Proof. unfold heap_start. split_and!; try (vm_compute; congruence). apply bytes_ok_empty. Qed.

Definition after {A} (o : option A) (f : A -> world) (w : world) : world := match o with Some x => f x | None => w end.
Definition demo0 : world := boot_world 4096 4600 empty_heap.
(** The idle thread, then a thread from the heap; both are started, the second
    runs and ends. *)
Definition demo1 : world :=
  after (rt_thread_init demo_port 131072 (chars "tidle0" ++ [0]) 1 0 135168 64 31 32 demo0) id demo0.
Definition demo2 : world :=
  after (rt_thread_create demo_port (chars "worker" ++ [0]) 2 0 64 10 5 demo1) fst demo1.
Definition demo3 : world := set_kernel (fst (rt_thread_startup 131072 (w_kernel demo2))) demo2.
Definition demo4 : world := set_kernel (fst (rt_thread_startup 4108 (w_kernel demo3))) demo3.
Definition demo5 : world := set_kernel (rt_system_scheduler_start (w_kernel demo4)) demo4.
Definition demo6 : world := after (_rt_thread_exit demo5) id demo5.
#[local] Abbreviation demo_system := (system demo_port 8 4096 4600 empty_heap).

Lemma demo_made : demo_system demo2 ∅.
Proof.
  assert (demo_system demo1 ∅) as H1.
  { eapply (sys_init _ _ _ _ _ demo0 ∅ 131072 (chars "tidle0") 1 0 135168 64 31 32); [constructor|..].
    - apply (bool_decide_unpack _). by vm_compute.
    - done.
    - done.
    - intros [x Hx]. by vm_compute in Hx.
    - done.
    - done.
    - by vm_compute.
    - by vm_compute.
    - right. by vm_compute.
    - right. by vm_compute.
    - right. by vm_compute.
    - vm_compute. reflexivity. }
  eapply (sys_create _ _ _ _ _ demo1 ∅ (chars "worker") 2 0 64 10 5 demo2 4108); [exact H1|..].
  - apply (bool_decide_unpack _). by vm_compute.
  - done.
  - done.
  - done.
  - vm_compute. reflexivity.
Qed.

Lemma demo_ended : demo_system demo6 ∅.
Proof.
  assert (demo_system demo3 ∅) as H3.
  { apply (sys_startup _ _ _ _ _ demo2 ∅ 131072 demo_made); [by vm_compute|by vm_compute; eexists|by vm_compute]. }
  assert (demo_system demo4 ∅) as H4.
  { apply (sys_startup _ _ _ _ _ demo3 ∅ 4108 H3); [by vm_compute|by vm_compute; eexists|by vm_compute]. }
  assert (demo_system demo5 ∅) as H5.
  { apply (sys_start _ _ _ _ _ demo4 ∅ 4108 H4); [by vm_compute|by vm_compute; eexists|by vm_compute]. }
  apply (sys_exit _ _ _ _ _ demo5 ∅ demo6 H5); [by vm_compute|by vm_compute|vm_compute; reflexivity].
Qed.

Lemma lists_in_memory_witness : exists os bl, heap_owned (w_heap demo6) bl (∅ ∪ os) /\
  4108 ∈ queue (w_kernel demo6) Defunct /\ placed (w_heap demo6) (∅ ∪ os) 4108.
Proof.
  destruct (lists_in_memory demo_port 8 4096 4600 empty_heap demo_port_ok demo_heap demo6 ∅ demo_ended)
    as (os & bl & Ho & _ & Hq & _).
  assert (4108 ∈ queue (w_kernel demo6) Defunct) as Hin by (apply (bool_decide_unpack _); by vm_compute).
  exists os, bl. split; [exact Ho|]. split; [exact Hin|exact (Hq 4108 Defunct Hin)].
Defined.

Lemma idle_reclaims_witness : used_mem (w_heap demo6) = 216 /\ known (w_kernel demo6) 4108 /\ exists w',
  idle_round (fun _ _ => None) idle_hooks_none demo6 = Some w' /\ queue (w_kernel w') Defunct = [] /\
  ~ known (w_kernel w') 4108.
Proof.
  split; [vm_compute; reflexivity|]. split; [vm_compute; eexists; reflexivity|].
  destruct (idle_reclaims demo_port 8 4096 4600 empty_heap demo_port_ok demo_heap demo6 ∅ (fun _ _ => None) demo_ended)
    as (w' & os & bl & E & _ & Hq & Hk & _); [by vm_compute|by vm_compute|].
  exists w'. split; [exact E|]. split; [exact Hq|]. intros H. apply Hk in H as [_ H].
  assert (systemobject (thr (w_kernel demo6) 4108) = true) as Hs by (apply H; vm_compute; reflexivity).
  vm_compute in Hs. discriminate.
Defined.

Lemma create_all_or_nothing_witness : exists w' t os bl bl',
  rt_thread_create demo_port (chars "other" ++ [0]) 3 0 64 9 5 demo2 = Some (w', t) /\ demo_system w' ∅ /\
  heap_owned (w_heap demo2) bl (∅ ∪ os) /\
  ((t = RT_NULL /\ w_kernel w' = w_kernel demo2 /\ (forall o, linked o (w_objects w') = linked o (w_objects demo2)) /\
    heap_owned (w_heap w') bl' (∅ ∪ os)) \/
   (exists os', created demo2 ∅ os t 3 0 64 9 5 w' os' /\ heap_owned (w_heap w') bl' (∅ ∪ os') /\
    rt_thread_find (Some (chars "other" ++ [0])) (w_objects w') = Some t)).
Proof.
  apply (create_all_or_nothing demo_port 8 4096 4600 empty_heap demo_port_ok demo_heap demo2 ∅ (chars "other") 3 0 64 9 5 demo_made).
  - apply (bool_decide_unpack _). by vm_compute.
  - lia.
  - lia.
  - lia.
Defined.
