(* ===== verification/Startup.v ===== *)
(** * Startup: from the board to the first thread

    [rtthread_startup] and [rt_application_init] of [components.c] and
    [rt_thread_idle_init] of [idle.c], after [rt_hw_board_init]: the main thread
    is created, the idle thread initialised, and the scheduler starts the main
    thread. *)
From S2P Require Import Prelude Bytes KService Printf Heap HeapInv HeapSystem Object Timer Kernel KernelInv.
From S2P Require Import KernelOps IpcInv KernelCheck KernelSystem LifeFrame ThreadLife ThreadInv ThreadMake Idle.

Definition RT_MAIN_THREAD_STACK_SIZE : Z := 2048.
Definition RT_MAIN_THREAD_PRIORITY : Z := 5.
Definition IDLE_THREAD_STACK_SIZE : Z := 512.

(** Addresses the linker gives. *)
Record image := mk_image { main_thread_entry : Z; rt_thread_idle_entry : Z; idle : Z; rt_thread_stack : Z }.

Section startup.
Context (rt_hw_stack_init : Z -> Z -> Z -> memory -> memory * Z) (img : image).

(** [tid] is only asserted to be a thread: [rt_thread_startup(RT_NULL)] is
    undefined. *)
Definition rt_application_init (w : world) : option world :=
  '(w, tid) ← rt_thread_create rt_hw_stack_init (chars "main" ++ [0]) (main_thread_entry img) RT_NULL
     RT_MAIN_THREAD_STACK_SIZE RT_MAIN_THREAD_PRIORITY 20 w;
  if tid =? RT_NULL then None else Some (set_kernel (fst (rt_thread_startup tid (w_kernel w))) w).

(** The name is ["tidle%d"] with 0. *)
Definition rt_thread_idle_init (w : world) : option world :=
  w ← rt_thread_init rt_hw_stack_init (idle img) (chars "tidle0" ++ [0]) (rt_thread_idle_entry img) RT_NULL
     (rt_thread_stack img) IDLE_THREAD_STACK_SIZE (RT_THREAD_PRIORITY_MAX - 1) 32 w;
  Some (set_kernel (fst (rt_thread_startup (idle img) (w_kernel w))) w).

Definition rt_system_timer_init (k : kernel) : kernel := timer_op (fun ts => mk_timers (tab ts) [] (firing ts)) k.

(** After [rt_hw_board_init] and the banner. *)
Definition rtthread_startup (w : world) : option world :=
  let w := set_kernel (rt_system_scheduler_init (rt_system_timer_init (w_kernel w))) w in
  w ← rt_application_init w;
  w ← rt_thread_idle_init w;
  Some (set_kernel (rt_system_scheduler_start (w_kernel w)) w).
End startup.

Example idle_name : (st ← rt_sprintf 4096 (chars "tidle%d" ++ [0]) [Arg_int 0] ∅; Some (bytes_at st.1 4096 7)) =
  Some (chars "tidle0" ++ [0]).
Proof. vm_compute. reflexivity. Qed.

(** ** Starting threads before the scheduler *)

Lemma boot_startup_spec k t : kernel_ok k -> rt_current_thread k = RT_NULL -> known k t ->
  state_of (thr k t) = RT_THREAD_INIT -> let k' := fst (rt_thread_startup t k) in
  rt_current_thread k' = RT_NULL /\ state_of (thr k' t) = RT_THREAD_READY /\
  current_priority (thr k' t) = init_priority (thr k t) /\ (forall x, x <> t -> thr k' x = thr k x) /\
  (forall x, known k' x <-> known k x).
Proof.
  intros Hok Ec Hk Hs. cbv zeta. unfold rt_thread_startup.
  destruct (startup_prepared k t Hok Hk Hs) as (Hok2 & Hk2 & Hs2). cbv zeta in *.
  set (k2 := upd_thread t (with_stat RT_THREAD_SUSPEND) _) in *.
  assert (t <> RT_NULL) as H0 by (intros ->; by apply (bt_null _ _ (proj1 (proj1 Hok)))).
  destruct (resume_fields k2 t Hs2) as (Ec2 & _ & _ & _ & Eo & Es & Ep & _ & _ & Hkn). cbv zeta in *.
  unfold rt_thread_self. rewrite Ec2 in *. change (rt_current_thread k2) with (rt_current_thread k) in *. rewrite Ec in *.
  cbn [negb fst Z.eqb RT_NULL]. split; [done|]. rewrite Es, Ep. rewrite (proj2 (Z.eqb_neq _ _)) by done. split; [done|].
  split; [unfold k2; by rewrite !thr_upd_same|]. split.
  - intros x Hx. rewrite Eo by done. unfold k2. by rewrite !thr_upd_other by done.
  - intros x. rewrite Hkn. unfold k2. rewrite !known_upd. split; [by intros [<-|[<-|[<-|]]]|auto].
Qed.

(** The scheduler starts the thread of the highest priority. *)
Lemma scheduler_start_spec k t : kernel_ok k -> known k t -> state_of (thr k t) = RT_THREAD_READY ->
  (forall x, x <> t -> state_of (thr k x) = RT_THREAD_READY -> current_priority (thr k t) < current_priority (thr k x)) ->
  let k' := rt_system_scheduler_start k in
  rt_current_thread k' = t /\ state_of (thr k' t) = RT_THREAD_RUNNING /\
  current_priority (thr k' t) = current_priority (thr k t) /\ (forall x, x <> t -> thr k' x = thr k x) /\
  (forall x, known k' x <-> known k x).
Proof.
  intros [Hc _] Hk Hs Hl. cbv zeta. pose proof Hc as [Hb Hno].
  destruct (highest_spec k Hc (ready_group k t Hc Hk Hs)) as (n & p & rest & Eh & _ & Eq & Hmin).
  assert (t <> NOBODY) as Hnb by (intros ->; done).
  destruct (bt_in _ _ Hb n (Ready p)) as (_ & _ & Hsn & Hpn); [rewrite Eq; apply list_elem_of_here|].
  pose proof (Hmin _ _ (bt_ready _ _ Hb t Hk Hnb Hs)) as Hle.
  assert (n = t) as ->. { destruct (decide (n = t)) as [|Hn]; [done|]. specialize (Hl n Hn Hsn). lia. }
  unfold rt_system_scheduler_start. rewrite Eh. set (k1 := set_current t (rt_current_priority k) k).
  pose proof (remove_fields k1 t) as (E1 & E2 & _). cbv zeta in *. set (k2 := rt_schedule_remove_thread t k1) in *.
  pose proof (threads_thr k1 k2 E1) as Et.
  change (rt_current_thread (upd_thread t _ k2)) with (rt_current_thread k2). rewrite E2, thr_upd_same, Et.
  split; [done|]. split; [by apply state_of_with_stat|]. split; [done|]. split.
  - intros x Hx. by rewrite thr_upd_other, Et.
  - intros x. rewrite known_upd, (threads_known k1 k2 x E1). split; [by intros [<-|]|by right].
Qed.

(** ** The first thread fits into a fresh heap *)

Lemma room_malloc h l1 k size : heap_rep h (l1 ++ [(k, false)]) -> all_used l1 -> 0 < size <= 4294967292 ->
  request size + 12 <= k -> total l1 + request size < mem_size_aligned h -> exists h',
  rt_malloc (heap_fuel h) size h = Some (h', heap_ptr h + total l1 + 12) /\
  heap_rep h' (l1 ++ carve (request size) k) /\ same_heap h h'.
Proof.
  intros Hr Hu Hs Hk Ht. pose proof (malloc_spec h _ size (heap_fuel h) Hr Hs (le_n _)) as Hm.
  pose proof (hc_sizes _ _ (proj1 Hr)) as Hsz. apply sizes_app in Hsz as [Hs1 Hs2]. pose proof (total_nonneg l1 Hs1).
  rewrite (proj2 (Z.leb_le _ _)), first_fit_skip in Hm by (done || lia). cbn [first_fit negb andb] in Hm.
  rewrite Z.add_0_l, (proj2 (Z.ltb_lt _ _)), Z.geb_leb, (proj2 (Z.leb_le _ _)) in Hm by lia.
  cbn [mbind option_bind] in Hm. destruct Hm as (h' & E & (l1' & n & l2 & _ & _ & _ & _ & Hr' & Hsame & _)).
  exists h'. split; [done|]. by rewrite app_nil_r in Hr'.
Qed.

(** The heap of the main thread: its object, its stack, and the headers. *)
Definition main_room : Z := sizeof_rt_thread + RT_MAIN_THREAD_STACK_SIZE + 60.

Section fits.
Context (rt_hw_stack_init : Z -> Z -> Z -> memory -> memory * Z).

Lemma create_fits w A n name entry parameter p tick w' t : represents (w_objects w) A ->
  heap_rep (w_heap w) [(n, false)] -> main_room <= n ->
  rt_thread_create rt_hw_stack_init name entry parameter RT_MAIN_THREAD_STACK_SIZE p tick w = Some (w', t) -> t <> RT_NULL.
Proof.
  unfold main_room, RT_MAIN_THREAD_STACK_SIZE, sizeof_rt_thread. intros Hrep Hr Hn E.
  pose proof (hc_total _ _ (proj1 Hr)) as Htot. cbn [total] in Htot. pose proof (hc_ptr _ _ (proj1 Hr)) as [Hptr _].
  destruct (room_malloc (w_heap w) [] n 128 Hr ltac:(constructor)) as (h1 & E1 & Hr1 & Hs1);
    [done|change (request 128) with 128; lia|change (request 128) with 128; cbn [total]; lia|].
  change (request 128) with 128 in Hr1. unfold carve in Hr1. rewrite Z.geb_leb, (proj2 (Z.leb_le _ _)) in Hr1 by lia.
  cbn [app total] in Hr1, E1. set (o := heap_ptr (w_heap w) + 0 + 12) in *.
  unfold rt_thread_create, rt_object_allocate in E.
  destruct (rt_object_get_information _ _); [|done]. cbn [mbind option_bind] in E.
  unfold sizeof_rt_thread in E. rewrite E1 in E. cbn [mbind option_bind] in E. rewrite (proj2 (Z.eqb_neq o 0)) in E by (unfold o; lia).
  destruct (memset_filled o 0 128 (hm h1)) as (m & Em & Hm); [done|]. rewrite Em in E. cbn [mbind option_bind] in E.
  destruct (Object.rt_object_allocate _ _ _ _) as [[r o']|] eqn:Ea; [|done]. cbn [mbind option_bind] in E.
  assert (o' = o) as ->.
  { unfold Object.rt_object_allocate in Ea. destruct (rt_object_get_information _ _); [|done]. cbn [mbind option_bind] in Ea.
    destruct (strncpy_out _ _); [|done]. cbn [mbind option_bind] in Ea. destruct (link _ _ _ _); [|done].
    cbn [mbind option_bind] in Ea. by injection Ea as _ <-. }
  rewrite (proj2 (Z.eqb_neq o RT_NULL)) in E by (unfold o, RT_NULL; lia).
  assert (heap_rep (on_mem (fun _ => m) h1) [(140, true); (n - 140, false)]) as Hr2.
  { destruct Hs1 as (Ep & _ & _).
    replace (n - 12 - 128) with (n - 140) in Hr1 by lia. eapply (payload_write h1 _ 0 140); [exact Hr1|by left|].
    intros x Hx. rewrite Hm, decide_False; [done|]. unfold o. rewrite Ep in Hx. lia. }
  destruct Hs1 as (Ep & _ & Emem).
  destruct (room_malloc (on_mem (fun _ => m) h1) [(140, true)] (n - 140) 2048 Hr2) as (h2 & E2 & _ & _);
    [by repeat constructor|done|change (request 2048) with 2048; lia|change (request 2048) with 2048; cbn; rewrite Emem; lia|].
  cbn [w_heap set_objects set_heap] in E. rewrite E2 in E. cbn [mbind option_bind] in E.
  rewrite (proj2 (Z.eqb_neq _ 0)) in E by (cbn; lia).
  destruct (_rt_thread_init _ _ _ _ _ _ _ _ _); [|done]. cbn [mbind option_bind] in E.
  injection E as _ <-. unfold o, RT_NULL. lia.
Qed.
End fits.

(** ** The start *)

Section start.
Context (rt_hw_stack_init : Z -> Z -> Z -> memory -> memory * Z) (frame : Z).
Context (begin_addr end_addr : Z) (h0 : heap) (img : image).
Context (Hport : stack_init_ok rt_hw_stack_init frame) (Hheap : heap_start begin_addr end_addr h0).
#[local] Abbreviation system := (system rt_hw_stack_init frame begin_addr end_addr h0).

(** The board is initialised: devices and their objects may be registered, the
    heap is untouched, and no thread exists. *)
Record board_ready (w : world) (oc : gmap Z (list Z)) : Prop := {
  br_system : system w oc;
  br_kernel : w_kernel w = rt_system_scheduler_init kernel_off;
  br_heap : w_heap w = rt_system_heap_init begin_addr end_addr h0;
  br_room : main_room + 12 <= align_down end_addr - align_up begin_addr;
  br_frame : frame <= IDLE_THREAD_STACK_SIZE;
  br_idle : idle img <> RT_NULL /\ idle img <> NOBODY;
  br_free : linked (idle img) (w_objects w) = false /\ linked (timer_of (idle img)) (w_objects w) = false;
  br_object : outside (w_heap w) (idle img) /\ outside (w_heap w) (timer_of (idle img));
  br_stack : rt_thread_stack img + IDLE_THREAD_STACK_SIZE <= heap_ptr (w_heap w) \/
    heap_end (w_heap w) + 12 <= rt_thread_stack img }.

Lemma board_kernel w oc : board_ready w oc ->
  set_kernel (rt_system_scheduler_init (rt_system_timer_init (w_kernel w))) w = w.
Proof. intros [_ Ek _ _ _ _ _ _ _]. rewrite Ek. destruct w as [k r h m]. cbn in *. by subst k. Qed.

Lemma board_fits w oc : board_ready w oc -> exists n, heap_rep (w_heap w) [(n, false)] /\ main_room <= n.
Proof.
  intros H. pose proof (br_room _ _ H) as Hroom. rewrite (br_heap _ _ H). destruct Hheap as (Hb & He & Hfit & _ & Hu & Hx).
  destruct (heap_init_rep begin_addr end_addr (hm h0) h0 Hb He Hfit eq_refl Hu Hx) as (Hr & _ & Em & _).
  eexists. split; [exact Hr|]. rewrite Em. lia.
Qed.

(** What is outside the heap is not in a block of a thread. *)
Lemma outside_block w oc os A t a : life_inv w oc os A -> dynamic (w_kernel w) t -> outside (w_heap w) a ->
  a <> t /\ a <> timer_of t.
Proof.
  intros H Hd Ha. destruct (ow_object _ _ _ (li_owns _ _ _ _ H) t Hd) as (l & Hl & Hn). destruct (li_heap _ _ _ _ H) as (bl & Ho).
  destruct (owned_inside _ _ _ t l Ho) as (_ & Hlo & Hhi & _); [by apply lookup_union_Some; [apply H|right]|].
  unfold outside, timer_of, offsetof_thread_timer, sizeof_rt_thread in *. lia.
Qed.

(** A thread made before the scheduler starts, then started. *)
Lemma boot_thread_started k t static p n : boot_reach k -> ~ known k t -> t <> RT_NULL -> t <> NOBODY -> 0 <= p < 32 ->
  let k1 := Kernel._rt_thread_init t static p n k in let k2 := fst (rt_thread_startup t k1) in
  boot_reach k2 /\ known k1 t /\ state_of (thr k1 t) = RT_THREAD_INIT /\ rt_current_thread k1 = RT_NULL /\
  state_of (thr k2 t) = RT_THREAD_READY /\ current_priority (thr k2 t) = p /\
  (forall x, x <> t -> thr k2 x = thr k x) /\ (forall x, known k2 x <-> x = t \/ known k x) /\ rt_current_thread k2 = RT_NULL.
Proof.
  intros Hb Hn H0 Hnb Hp k1 k2. pose proof (boot_reach_ok k Hb) as (Hok & _ & Ec).
  destruct (thread_init_fields k t static p n (not_queued k t (proj1 Hok) Hn)) as (Ec1 & Et & Eo & _). cbv zeta in *. fold k1 in Ec1, Et, Eo.
  pose proof (init_begin k t static p n (proj1 Hok) Hn) as [B1 _ _ _ _]. fold k1 in B1.
  assert (boot_reach k1) as Hb1 by (by apply boot_thread). pose proof (boot_reach_ok k1 Hb1) as (Hok1 & _ & Ecn).
  assert (known k1 t) as Hk1 by (apply B1; by left).
  assert (state_of (thr k1 t) = RT_THREAD_INIT) as Hs1 by (by rewrite Et).
  destruct (boot_startup_spec k1 t Hok1 Ecn Hk1 Hs1) as (Ec2 & Es2 & Ep2 & Eo2 & Ek2). cbv zeta in *. fold k2 in Ec2, Es2, Ep2, Eo2, Ek2.
  split; [by apply boot_startup|]. split_and!; try done.
  - by rewrite Ep2, Et.
  - intros x Hx. by rewrite Eo2, Eo.
  - intros x. by rewrite Ek2.
Qed.

(** The main thread is made and ready. *)
Record main_ready (w : world) (oc : gmap Z (list Z)) (w1 : world) (t : Z) : Prop := {
  mr_system : system w1 oc;
  mr_boot : boot_reach (w_kernel w1);
  mr_known : forall x, known (w_kernel w1) x <-> x = t;
  mr_idle : t <> idle img /\ linked (idle img) (w_objects w1) = false /\ linked (timer_of (idle img)) (w_objects w1) = false;
  mr_state : state_of (thr (w_kernel w1) t) = RT_THREAD_READY /\ current_priority (thr (w_kernel w1) t) = RT_MAIN_THREAD_PRIORITY;
  mr_dynamic : systemobject (thr (w_kernel w1) t) = false;
  mr_entry : t_entry (w_memory w1 !!! t) = main_thread_entry img;
  mr_heap : same_heap (w_heap w) (w_heap w1) }.

Lemma application_init w oc : board_ready w oc -> exists w1 t,
  rt_application_init rt_hw_stack_init img w = Some w1 /\ main_ready w oc w1 t.
Proof.
  intros H. pose proof H as [Hsys Ek Eh Hroom Hfr [H0 Hnb] [Hl1 Hl2] [Ho1 Ho2] Hst].
  destruct (system_inv _ _ _ _ _ Hport Hheap w oc Hsys) as (os & A & Hi). destruct (board_fits w oc H) as (n & Hr & Hn).
  assert (forall x, ~ known (w_kernel w) x) as Hnone.
  { rewrite Ek. intros x [y Hy]. cbn in Hy. by rewrite lookup_empty in Hy. }
  assert (frame <= RT_MAIN_THREAD_STACK_SIZE) as Hfr' by (unfold RT_MAIN_THREAD_STACK_SIZE, IDLE_THREAD_STACK_SIZE in *; lia).
  assert (c_string (chars "main")) as Hc by (by apply (bool_decide_unpack _); vm_compute).
  destruct (created_spec _ _ Hport w oc os A (chars "main") (main_thread_entry img) RT_NULL RT_MAIN_THREAD_STACK_SIZE
    RT_MAIN_THREAD_PRIORITY 20 Hi Hc ltac:(done) Hfr' ltac:(done)) as (w1 & t & E & Hcr).
  pose proof (create_fits _ _ _ _ _ _ _ _ _ _ _ (li_objects _ _ _ _ Hi) Hr Hn E) as Ht0.
  destruct Hcr as [(-> & _)|(os' & [Hk _ Ek1 (Ee & _) Hs _ _] & Hi1)]; [done|].
  assert (system w1 oc) as Hsys1 by (eapply sys_create; [exact Hsys|exact Hc| |exact Hfr'| |exact E]; done).
  assert (boot_reach (w_kernel w)) as Hb by (rewrite Ek; constructor).
  pose proof (init_begin (w_kernel w) t false RT_MAIN_THREAD_PRIORITY 20 (proj1 (proj1 (boot_reach_ok _ Hb))) Hk) as [B1 B2 _ _ _].
  rewrite <- Ek1 in B1, B2.
  assert (t <> NOBODY) as Htn by (intros ->; apply (proj2 (kernel_core _ _ _ _ Hi1)), B1; by left).
  destruct (boot_thread_started (w_kernel w) t false RT_MAIN_THREAD_PRIORITY 20 Hb Hk Ht0 Htn ltac:(done))
    as (Hb2 & Hk1 & Hs1 & Ec1 & Es2 & Ep2 & _ & Hk2 & _). cbv zeta in *. rewrite <- Ek1 in *.
  destruct (boot_reach_ok _ (boot_thread _ t false RT_MAIN_THREAD_PRIORITY 20 Hb Hk Ht0 Htn ltac:(done))) as (Hok1 & _). rewrite <- Ek1 in Hok1.
  pose proof (life_boot_startup _ t Hok1 Ec1 Hk1 Hs1) as Hlife.
  unfold rt_application_init. rewrite E. cbn [mbind option_bind]. rewrite (proj2 (Z.eqb_neq _ _)) by done.
  eexists _, t. split; [done|].
  assert (dynamic (w_kernel w1) t) as Hd by done.
  assert (outside (w_heap w1) (idle img) /\ outside (w_heap w1) (timer_of (idle img))) as [Hx1 Hx2]
    by (unfold outside; destruct Hs as (-> & -> & _); done).
  destruct (outside_block _ _ _ _ t _ Hi1 Hd Hx1) as [N1 N2], (outside_block _ _ _ _ t _ Hi1 Hd Hx2) as [N3 N4].
  apply (unlinked_ids _ _ _ _ _ Hi) in Hl1, Hl2.
  split; cbn [w_kernel w_objects w_heap w_memory set_kernel]; try done.
  - apply sys_startup; try done. by intros Hst'.
  - intros x. rewrite Hk2. split; [intros [|Hx]; [done|by apply Hnone in Hx]|by left].
  - split; [done|]. split; apply (unlinked_ids _ _ _ _ _ Hi1); cbn [ids fmap list_fmap e_id]; by rewrite !not_elem_of_cons.
  - by rewrite (sl_static _ _ Hlife).
Qed.

(** Then the idle thread. *)
Lemma idle_init w oc w1 t : board_ready w oc -> main_ready w oc w1 t -> exists w2,
  rt_thread_idle_init rt_hw_stack_init img w1 = Some w2 /\ system w2 oc /\ boot_reach (w_kernel w2) /\
  (forall x, known (w_kernel w2) x <-> x = idle img \/ x = t) /\
  state_of (thr (w_kernel w2) (idle img)) = RT_THREAD_READY /\ current_priority (thr (w_kernel w2) (idle img)) = 31 /\
  thr (w_kernel w2) t = thr (w_kernel w1) t /\ w_memory w2 !!! t = w_memory w1 !!! t.
Proof.
  intros [_ _ _ _ Hfr [H0 Hnb] _ [Ho1 Ho2] Hst] [Hsys Hb Hkn (Hti & Hl1 & Hl2) _ _ _ Hs].
  destruct (system_inv _ _ _ _ _ Hport Hheap w1 oc Hsys) as (os & A & Hi).
  assert (c_string (chars "tidle0")) as Hc by (by apply (bool_decide_unpack _); vm_compute).
  assert (~ known (w_kernel w1) (idle img)) as Hk by (intros E%Hkn; by apply Hti).
  assert (outside (w_heap w1) (idle img) /\ outside (w_heap w1) (timer_of (idle img))) as [Hx1 Hx2]
    by (unfold outside; destruct Hs as (-> & -> & _); done).
  assert (rt_thread_stack img + IDLE_THREAD_STACK_SIZE <= heap_ptr (w_heap w1) \/
    heap_end (w_heap w1) + 12 <= rt_thread_stack img) as Hstk by (destruct Hs as (-> & -> & _); done).
  destruct (init_spec _ _ Hport w1 oc os A (idle img) (chars "tidle0") (rt_thread_idle_entry img) RT_NULL
    (rt_thread_stack img) IDLE_THREAD_STACK_SIZE 31 32 Hi Hc) as (w2 & E & Hi2 & Ek2 & Em2); [|done|done|].
  { split; try done; split; by apply (unlinked_ids _ _ _ _ _ Hi). }
  assert (system w2 oc) as Hsys2 by (eapply sys_init; [exact Hsys|exact Hc| | | | | | | | | | |exact E]; done).
  destruct (boot_thread_started (w_kernel w1) (idle img) true 31 32 Hb Hk H0 Hnb ltac:(done))
    as (Hb3 & Hk2 & Hs2 & Ec2 & Es3 & Ep3 & Eo3 & Hk3 & _). cbv zeta in *. rewrite <- Ek2 in *.
  unfold rt_thread_idle_init. change (RT_THREAD_PRIORITY_MAX - 1) with 31. rewrite E. cbn [mbind option_bind].
  eexists. split; [done|]. cbn [w_kernel w_memory set_kernel]. split; [apply sys_startup; try done; by intros Hst'|].
  split; [done|]. split_and!; try done.
  - intros x. by rewrite Hk3, Hkn.
  - by apply Eo3.
  - by apply Em2.
Qed.

(** C11 The system starts.  When the board is ready and the heap has room for the
    object and the stack of the main thread, [rtthread_startup] reaches the
    scheduler: the thread that runs is the main thread, from the heap, with
    priority 5 and the entry [main_thread_entry]; the idle thread is ready with
    priority 31; there is no other thread; and what was established about the
    life of threads holds from here on. *)
Theorem startup_runs_main w oc : board_ready w oc -> exists w' t,
  rtthread_startup rt_hw_stack_init img w = Some w' /\ system w' oc /\ rt_current_thread (w_kernel w') = t /\
  running (w_kernel w') /\ dynamic (w_kernel w') t /\
  current_priority (thr (w_kernel w') t) = RT_MAIN_THREAD_PRIORITY /\
  t_entry (w_memory w' !!! t) = main_thread_entry img /\
  state_of (thr (w_kernel w') (idle img)) = RT_THREAD_READY /\
  current_priority (thr (w_kernel w') (idle img)) = 31 /\
  (forall x, known (w_kernel w') x <-> x = idle img \/ x = t).
Proof.
  intros H. destruct (application_init w oc H) as (w1 & t & E1 & H1).
  destruct (idle_init w oc w1 t H H1) as (w2 & E2 & Hsys & Hb & Hkn & Hsi & Hpi & Et & Em).
  destruct H1 as [_ _ _ (Hti & _) [Hs1 Hp1] Hd1 He1 _]. pose proof (boot_reach_ok _ Hb) as (Hok & _ & Ec).
  assert (known (w_kernel w2) t) as Hk by (apply Hkn; by right).
  assert (state_of (thr (w_kernel w2) t) = RT_THREAD_READY) as Hs2 by (by rewrite Et).
  destruct (scheduler_start_spec (w_kernel w2) t Hok Hk Hs2) as (Ec3 & Hs3 & Hp3 & Eo3 & Hk3).
  { intros x Hx Hsx. assert (known (w_kernel w2) x) as Hkx by (apply known_of_state; by rewrite Hsx).
    apply Hkn in Hkx as [->|]; [|done]. by rewrite Et, Hp1, Hpi. }
  pose proof (life_start _ t Hok Hk Hs2) as Hlife. cbv zeta in *.
  unfold rtthread_startup. rewrite (board_kernel w oc H), E1. cbn [mbind option_bind]. rewrite E2. cbn [mbind option_bind].
  eexists _, t. split; [done|]. cbn [w_kernel w_memory set_kernel].
  split; [apply (sys_start _ _ _ _ _ w2 oc t); try done; by intros Hst'|]. split; [done|].
  split; [unfold running; by rewrite Ec3|]. split; [split; [by apply Hk3|by rewrite (sl_static _ _ Hlife), Et]|].
  split; [by rewrite Hp3, Et|]. split; [by rewrite Em|]. rewrite Eo3 by (by apply not_eq_sym).
  split; [done|]. split; [done|]. intros x. by rewrite Hk3, Hkn.
Qed.
End start.

(** ** With the heap of the board *)

(** [rt_heap], [RT_HEAP_SIZE] words. *)
Definition RT_HEAP_SIZE : Z := 4096.
Definition demo_image : image := mk_image 1 2 131072 135168.
Lemma board_heap : heap_start 8192 (8192 + 4 * RT_HEAP_SIZE) empty_heap.
Proof. unfold heap_start. split_and!; try (vm_compute; congruence). apply bytes_ok_empty. Qed.
Lemma demo_ready : board_ready demo_port 8 8192 (8192 + 4 * RT_HEAP_SIZE) empty_heap demo_image
  (boot_world 8192 (8192 + 4 * RT_HEAP_SIZE) empty_heap) ∅.
Proof.
  split; try done.
  - constructor.
  - split; right; by vm_compute.
  - right. by vm_compute.
Qed.

Lemma startup_runs_main_witness : exists w' t,
  rtthread_startup demo_port demo_image (boot_world 8192 (8192 + 4 * RT_HEAP_SIZE) empty_heap) = Some w' /\
  rt_current_thread (w_kernel w') = t /\ current_priority (thr (w_kernel w') t) = 5 /\ t_entry (w_memory w' !!! t) = 1.
Proof.
  destruct (startup_runs_main demo_port 8 8192 (8192 + 4 * RT_HEAP_SIZE) empty_heap demo_image demo_port_ok board_heap _ ∅ demo_ready)
    as (w' & t & E & _ & Ec & _ & _ & Ep & Ee & _).
  exists w', t. split; [exact E|]. split; [exact Ec|]. split; [exact Ep|exact Ee].
Defined.
