(* ===== verification/Device.v ===== *)
(** * Device: the device framework

    [rt-thread/src/device.c]: devices by name, reference counts, and the calls
    forwarded to a driver.  A driver is an instance of [Driver]: a state that
    holds the [struct rt_device] and the operations, some of which may be
    missing; their output goes to the console.  [errno] is not modelled, and
    assertions are compiled out. *)
From S2P Require Import Prelude Bytes KService Printf Output Object.

Definition RT_DEVICE_FLAG_RDWR : Z := 0x003.
Definition RT_DEVICE_FLAG_STANDALONE : Z := 0x008.
Definition RT_DEVICE_FLAG_ACTIVATED : Z := 0x010.
Definition RT_DEVICE_FLAG_SUSPENDED : Z := 0x020.
Definition RT_DEVICE_FLAG_STREAM : Z := 0x040.
Definition RT_DEVICE_FLAG_INT_RX : Z := 0x100.
Definition RT_DEVICE_FLAG_DMA_RX : Z := 0x200.
Definition RT_DEVICE_FLAG_INT_TX : Z := 0x400.
Definition RT_DEVICE_FLAG_DMA_TX : Z := 0x800.
Definition RT_DEVICE_OFLAG_CLOSE : Z := 0x000.
Definition RT_DEVICE_OFLAG_RDWR : Z := 0x003.
Definition RT_DEVICE_OFLAG_OPEN : Z := 0x008.
Definition RT_DEVICE_OFLAG_MASK : Z := 0xf0f.

Definition RT_DEVICE_CTRL_RESUME : Z := 0x01.
Definition RT_DEVICE_CTRL_SUSPEND : Z := 0x02.
Definition RT_DEVICE_CTRL_CONFIG : Z := 0x03.
Definition RT_DEVICE_CTRL_CLOSE : Z := 0x04.
Definition RT_DEVICE_CTRL_SET_INT : Z := 0x10.
Definition RT_DEVICE_CTRL_CLR_INT : Z := 0x11.

(** The object part is in the registry; a callback is known by a number. *)
Record rt_device := mk_device {
  d_flag : Z; open_flag : Z; ref_count : Z; rx_indicate : option Z; tx_complete : option Z }.

Definition set_flag (f : Z) (d : rt_device) : rt_device :=
  mk_device (u16 f) (open_flag d) (ref_count d) (rx_indicate d) (tx_complete d).
Definition set_open_flag (f : Z) (d : rt_device) : rt_device :=
  mk_device (d_flag d) (u16 f) (ref_count d) (rx_indicate d) (tx_complete d).
Definition set_ref_count (n : Z) (d : rt_device) : rt_device :=
  mk_device (d_flag d) (open_flag d) (u8 n) (rx_indicate d) (tx_complete d).
Definition set_rx_indicate (c : option Z) (d : rt_device) : rt_device :=
  mk_device (d_flag d) (open_flag d) (ref_count d) c (tx_complete d).
Definition set_tx_complete (c : option Z) (d : rt_device) : rt_device :=
  mk_device (d_flag d) (open_flag d) (ref_count d) (rx_indicate d) c.

Definition on (flags bit : Z) : bool := negb (flags .& bit =? 0).

(** What a write comes to: the number of bytes written, or a wait for the
    driver with the bytes left and the number written so far. *)
Inductive written := Wrote (n : Z) | Waits (rest : list Z) (n : Z).

(** The driver of one device; [A] is what the argument of a control call
    points to. *)
Class Driver (S A : Type) := {
  dev : S -> rt_device;
  with_dev : rt_device -> S -> S;
  device_init : option (S -> W (S * Z));
  device_open : option (Z -> S -> W (S * Z));
  device_close : option (S -> W (S * Z));
  device_read : option (Z -> Z -> S -> W (S * list Z));
  device_write : option (Z -> list Z -> S -> W (S * written));
  device_control : option (Z -> A -> S -> W (S * Z)) }.

(** ** Registration *)

Definition rt_device_find (name : list Z) (r : registry) : option Z :=
  rt_object_find (Some name) RT_Object_Class_Device r.

(** [o] is the address of the device. *)
Definition rt_device_register (o : Z) (name : list Z) (flags : Z) (r : registry) (d : rt_device)
    : option (registry * rt_device * Z) :=
  if o =? 0 then Some (r, d, - RT_ERROR)
  else
    found ← rt_device_find name r;
    if negb (found =? 0) then Some (r, d, - RT_ERROR)
    else
      r ← rt_object_init o RT_Object_Class_Device name r;
      Some (r, set_open_flag 0 (set_ref_count 0 (set_flag flags d)), RT_EOK).

Definition rt_device_unregister (o : Z) (r : registry) : option (registry * Z) :=
  r ← rt_object_detach o r; Some (r, RT_EOK).

(** [alloc] is what [rt_malloc] returns; the device is zeroed. *)
Definition rt_device_create (alloc : option Z) : option (Z * rt_device) :=
  o ← alloc; Some (o, mk_device 0 0 0 None None).
Definition rt_device_destroy (o : Z) (r : registry) : option registry :=
  r ← rt_object_detach o r;
  Some (mk_registry (delete o (objects r)) (rt_object_container r)).

Section driver.
Context {S A : Type} `{Driver S A}.
(** The bytes from the device's name on. *)
Context (name : list Z).

Definition on_dev (f : rt_device -> rt_device) (s : S) : S := with_dev (f (dev s)) s.

(** ** The calls *)

Definition init_failed (result : Z) : W unit :=
  kprintf (chars "To initialize device:%s failed. The error code is %d" ++ [10])
    [Arg_str (Some name); Arg_int result].

Definition rt_device_init (s : S) : W (S * Z) :=
  match device_init with
  | Some init =>
      if negb (on (d_flag (dev s)) RT_DEVICE_FLAG_ACTIVATED) then
        '(s, result) ← init s;
        if negb (result =? RT_EOK) then _ ← init_failed result; mret (s, result)
        else mret (on_dev (fun d => set_flag (d_flag d .| RT_DEVICE_FLAG_ACTIVATED) d) s, result)
      else mret (s, RT_EOK)
  | None => mret (s, RT_EOK)
  end.

(** The first part of [rt_device_open]; [Some] is an error it returns. *)
Definition activate (s : S) : W (S * option Z) :=
  if negb (on (d_flag (dev s)) RT_DEVICE_FLAG_ACTIVATED) then
    '(s, e) ← (match device_init with
               | Some init =>
                   '(s, result) ← init s;
                   if negb (result =? RT_EOK) then _ ← init_failed result; mret (s, Some result)
                   else mret (s, None)
               | None => mret (s, None)
               end);
    match e with
    | Some result => mret (s, Some result)
    | None => mret (on_dev (fun d => set_flag (d_flag d .| RT_DEVICE_FLAG_ACTIVATED) d) s, None)
    end
  else mret (s, None).

Definition rt_device_open (oflag : Z) (s : S) : W (S * Z) :=
  '(s, e) ← activate s;
  match e with
  | Some result => mret (s, result)
  | None =>
      if on (d_flag (dev s)) RT_DEVICE_FLAG_STANDALONE && on (open_flag (dev s)) RT_DEVICE_OFLAG_OPEN
      then mret (s, - RT_EBUSY)
      else
        '(s, result) ← (match device_open with
                        | Some open => open oflag s
                        | None => mret (on_dev (set_open_flag (oflag .& RT_DEVICE_OFLAG_MASK)) s, RT_EOK)
                        end);
        if (result =? RT_EOK) || (result =? - RT_ENOSYS) then
          let s := on_dev (fun d => set_open_flag (open_flag d .| RT_DEVICE_OFLAG_OPEN) d) s in
          mret (on_dev (fun d => set_ref_count (ref_count d + 1) d) s, result)
        else mret (s, result)
  end.

Definition rt_device_close (s : S) : W (S * Z) :=
  if ref_count (dev s) =? 0 then mret (s, - RT_ERROR)
  else
    let s := on_dev (fun d => set_ref_count (ref_count d - 1) d) s in
    if negb (ref_count (dev s) =? 0) then mret (s, RT_EOK)
    else
      '(s, result) ← (match device_close with
                      | Some close => close s
                      | None => mret (s, RT_EOK)
                      end);
      if (result =? RT_EOK) || (result =? - RT_ENOSYS)
      then mret (on_dev (set_open_flag RT_DEVICE_OFLAG_CLOSE) s, result)
      else mret (s, result).

(** The bytes read. *)
Definition rt_device_read (pos size : Z) (s : S) : W (S * list Z) :=
  if ref_count (dev s) =? 0 then mret (s, [])
  else match device_read with Some read => read pos size s | None => mret (s, []) end.

Definition rt_device_write (pos : Z) (buffer : list Z) (s : S) : W (S * written) :=
  if ref_count (dev s) =? 0 then mret (s, Wrote 0)
  else match device_write with Some write => write pos buffer s | None => mret (s, Wrote 0) end.

Definition rt_device_control (cmd : Z) (arg : A) (s : S) : W (S * Z) :=
  match device_control with Some control => control cmd arg s | None => mret (s, - RT_ENOSYS) end.

Definition rt_device_set_rx_indicate (rx_ind : option Z) (s : S) : S * Z :=
  (on_dev (set_rx_indicate rx_ind) s, RT_EOK).
Definition rt_device_set_tx_complete (tx_done : option Z) (s : S) : S * Z :=
  (on_dev (set_tx_complete tx_done) s, RT_EOK).
End driver.

(** ** The console device

    [rt_console_set_device] of [rt-thread/src/kservice.c]; [devs] are the
    devices by address and [_console_device] the one in use.  The new value of
    the latter comes with the result, which is the old one. *)
Section console.
Context {S A : Type} `{Driver S A}.

Definition rt_console_set_device (name : list Z) (r : registry) (_console_device : Z) (devs : gmap Z S)
    : W (gmap Z S * Z * Z) :=
  new_device ← lift (rt_device_find name r);
  if new_device =? _console_device then mret (devs, _console_device, 0)
  else if negb (new_device =? 0) then
    devs ← (if negb (_console_device =? 0) then
              d ← lift (devs !! _console_device);
              '(d, _) ← rt_device_close d;
              mret (<[_console_device := d]> devs)
            else mret devs);
    d ← lift (devs !! new_device);
    '(d, _) ← rt_device_open (name_ptr (object_at new_device r))
               (RT_DEVICE_OFLAG_RDWR .| RT_DEVICE_FLAG_STREAM) d;
    mret (<[new_device := d]> devs, new_device, _console_device)
  else mret (devs, _console_device, _console_device).
End console.
