(* ===== verification/Serial.v ===== *)
(** * Serial: the serial port framework

    [components/drivers/serial/serial.c], version 1, without DMA and POSIX: a
    software FIFO between the receive interrupt and the reader, and output by
    polling or by interrupt.  The port itself is an instance of [Uart], the
    structure of its low-level operations. *)
From S2P Require Import Prelude Bytes KService Printf Output Object Device.

Definition RT_SERIAL_RB_BUFSZ : Z := 64.
Definition RT_SERIAL_EVENT_RX_IND : Z := 0x01.
Definition RT_SERIAL_EVENT_TX_DONE : Z := 0x02.

Record serial_configure := mk_configure {
  baud_rate : Z; data_bits : Z; stop_bits : Z; parity : Z; bit_order : Z; invert : Z; bufsz : Z }.
Definition RT_SERIAL_CONFIG_DEFAULT : serial_configure :=
  mk_configure 115200 8 0 0 0 0 RT_SERIAL_RB_BUFSZ.

Record rt_serial_rx_fifo := mk_fifo { buffer : list Z; put_index : Z; get_index : Z; is_full : bool }.

(** [struct rt_uart_ops] over the state of the port; [None] is a call that
    does not return. *)
Class Uart (H : Type) := {
  configure : serial_configure -> H -> option (H * Z);
  control : Z -> Z -> H -> option (H * Z);
  putc : Z -> H -> option (H * Z);
  getc : H -> option (H * Z) }.

(** [struct rt_serial_device] and the port.  [serial_tx] tells whether there is
    a [struct rt_serial_tx_fifo], which holds a completion only. *)
Record rt_serial_device (H : Type) := mk_serial {
  parent : rt_device;
  config : serial_configure;
  serial_rx : option rt_serial_rx_fifo;
  serial_tx : bool;
  uart_of : H }.
Arguments mk_serial {H}.
Arguments parent {H}.
Arguments config {H}.
Arguments serial_rx {H}.
Arguments serial_tx {H}.
Arguments uart_of {H}.

(** The argument of a control call. *)
Inductive serial_arg := Arg_null | Arg_flag (f : Z) | Arg_config (c : serial_configure).

(** ** The software FIFO *)

Definition no_data (f : rt_serial_rx_fifo) : bool := (get_index f =? put_index f) && negb (is_full f).

Definition next_index (i size : Z) : Z := let i := u16 (i + 1) in if i >=? size then 0 else i.

(** One round of the loop of [_serial_int_rx], when there is data. *)
Definition fifo_get (size : Z) (f : rt_serial_rx_fifo) : option (rt_serial_rx_fifo * Z) :=
  ch ← buffer f !!z get_index f;
  Some (mk_fifo (buffer f) (put_index f) (next_index (get_index f) size) false, ch .& 0xff).

(** One round of the loop of the interrupt, with a character that was read. *)
Definition fifo_put (size ch : Z) (f : rt_serial_rx_fifo) : option rt_serial_rx_fifo :=
  _ ← buffer f !!z put_index f;
  let buf := <[Z.to_nat (put_index f) := u8 ch]> (buffer f) in
  let put := next_index (put_index f) size in
  Some (if put =? get_index f then mk_fifo buf put (next_index (get_index f) size) true
        else mk_fifo buf put (get_index f) (is_full f)).

Definition rx_length (size : Z) (f : rt_serial_rx_fifo) : Z :=
  if put_index f >=? get_index f then put_index f - get_index f
  else size - (get_index f - put_index f).

Section serial.
Context {H : Type} `{Uart H}.
Implicit Type s : rt_serial_device H.

Definition set_parent (d : rt_device) s : rt_serial_device H :=
  mk_serial d (config s) (serial_rx s) (serial_tx s) (uart_of s).
Definition set_config (c : serial_configure) s : rt_serial_device H :=
  mk_serial (parent s) c (serial_rx s) (serial_tx s) (uart_of s).
Definition set_rx (f : option rt_serial_rx_fifo) s : rt_serial_device H :=
  mk_serial (parent s) (config s) f (serial_tx s) (uart_of s).
Definition set_tx (b : bool) s : rt_serial_device H :=
  mk_serial (parent s) (config s) (serial_rx s) b (uart_of s).
Definition set_port (h : H) s : rt_serial_device H :=
  mk_serial (parent s) (config s) (serial_rx s) (serial_tx s) h.

(** ** Reading *)

Fixpoint _serial_int_rx (length : nat) s : option (rt_serial_device H * list Z) :=
  match length with
  | O => Some (s, [])
  | S length =>
      f ← serial_rx s;
      if no_data f then Some (s, [])
      else
        '(f, ch) ← fifo_get (bufsz (config s)) f;
        '(s, l) ← _serial_int_rx length (set_rx (Some f) s);
        Some (s, ch :: l)
  end.

Fixpoint _serial_poll_rx (length : nat) s : option (rt_serial_device H * list Z) :=
  match length with
  | O => Some (s, [])
  | S length =>
      '(h, ch) ← getc (uart_of s);
      let s := set_port h s in
      if ch =? -1 then Some (s, [])
      else if on (open_flag (parent s)) RT_DEVICE_FLAG_STREAM && (ch =? 10) then Some (s, [u8 ch])
      else '(s, l) ← _serial_poll_rx length s; Some (s, u8 ch :: l)
  end.

(** ** Writing *)

Fixpoint _serial_poll_tx (data : list Z) s : option (rt_serial_device H * Z) :=
  match data with
  | [] => Some (s, 0)
  | c :: data =>
      s ← (if (c =? 10) && on (open_flag (parent s)) RT_DEVICE_FLAG_STREAM
           then '(h, _) ← putc 13 (uart_of s); Some (set_port h s) else Some s);
      '(h, _) ← putc c (uart_of s);
      '(s, n) ← _serial_poll_tx data (set_port h s);
      Some (s, n + 1)
  end.

(** Up to the first wait for the completion; after it the same call goes on
    with the bytes left. *)
Fixpoint _serial_int_tx (data : list Z) (n : Z) s : option (rt_serial_device H * written) :=
  match data with
  | [] => Some (s, Wrote n)
  | c :: data' =>
      '(s, r) ← (if (c =? 10) && on (open_flag (parent s)) RT_DEVICE_FLAG_STREAM
                 then '(h, r) ← putc 13 (uart_of s); Some (set_port h s, r) else Some (s, 0));
      if r =? -1 then Some (s, Waits data n)
      else
        '(h, r) ← putc c (uart_of s);
        let s := set_port h s in
        if r =? -1 then Some (s, Waits data n) else _serial_int_tx data' (n + 1) s
  end.

(** ** The device interface *)

Definition rt_serial_init s : option (rt_serial_device H * Z) :=
  let s := set_tx false (set_rx None s) in
  '(h, result) ← configure (config s) (uart_of s);
  Some (set_port h s, result).

Definition low_control (cmd arg : Z) s : option (rt_serial_device H) :=
  '(h, _) ← control cmd arg (uart_of s); Some (set_port h s).

Definition or_open_flag (bits : Z) s : rt_serial_device H :=
  set_parent (set_open_flag (open_flag (parent s) .| bits) (parent s)) s.
Definition clear_open_flag (bits : Z) s : rt_serial_device H :=
  set_parent (set_open_flag (Z.ldiff (open_flag (parent s)) bits) (parent s)) s.

(** The check of one mode flag against the flags of the device. *)
Definition refused (oflag bit : Z) s : bool := on oflag bit && negb (on (d_flag (parent s)) bit).

Definition open_rx (got : bool) (oflag : Z) s : option (rt_serial_device H) :=
  match serial_rx s with
  | None =>
      if on oflag RT_DEVICE_FLAG_INT_RX then
        if got then
          let f := mk_fifo (repeat 0 (Z.to_nat (bufsz (config s)))) 0 0 false in
          low_control RT_DEVICE_CTRL_SET_INT RT_DEVICE_FLAG_INT_RX
            (or_open_flag RT_DEVICE_FLAG_INT_RX (set_rx (Some f) s))
        else None
      else Some (set_rx None s)
  | Some _ => Some (if on oflag RT_DEVICE_FLAG_INT_RX then or_open_flag RT_DEVICE_FLAG_INT_RX s else s)
  end.

Definition open_tx (got : bool) (oflag : Z) s : option (rt_serial_device H) :=
  if negb (serial_tx s) then
    if on oflag RT_DEVICE_FLAG_INT_TX then
      if got then
        low_control RT_DEVICE_CTRL_SET_INT RT_DEVICE_FLAG_INT_TX
          (or_open_flag RT_DEVICE_FLAG_INT_TX (set_tx true s))
      else None
    else Some (set_tx false s)
  else Some (if on oflag RT_DEVICE_FLAG_INT_TX then or_open_flag RT_DEVICE_FLAG_INT_TX s else s).

(** [got_rx] and [got_tx] tell whether [rt_malloc] finds room for the two
    structures; what it returns is used without a test. *)
Definition rt_serial_open (got_rx got_tx : bool) (oflag : Z) s : option (rt_serial_device H * Z) :=
  if refused oflag RT_DEVICE_FLAG_DMA_RX s || refused oflag RT_DEVICE_FLAG_DMA_TX s ||
     refused oflag RT_DEVICE_FLAG_INT_RX s || refused oflag RT_DEVICE_FLAG_INT_TX s
  then Some (s, - RT_EIO)
  else
    let stream_flag :=
      if on oflag RT_DEVICE_FLAG_STREAM || on (open_flag (parent s)) RT_DEVICE_FLAG_STREAM
      then RT_DEVICE_FLAG_STREAM else 0 in
    let s := set_parent (set_open_flag (oflag .& 0xff) (parent s)) s in
    s ← open_rx got_rx oflag s;
    s ← open_tx got_tx oflag s;
    Some (or_open_flag stream_flag s, RT_EOK).

Definition rt_serial_close s : option (rt_serial_device H * Z) :=
  if ref_count (parent s) >? 1 then Some (s, RT_EOK)
  else
    s ← (if on (open_flag (parent s)) RT_DEVICE_FLAG_INT_RX then
           s ← low_control RT_DEVICE_CTRL_CLR_INT RT_DEVICE_FLAG_INT_RX s;
           Some (set_rx None (clear_open_flag RT_DEVICE_FLAG_INT_RX s))
         else Some s);
    s ← (if on (open_flag (parent s)) RT_DEVICE_FLAG_INT_TX then
           s ← low_control RT_DEVICE_CTRL_CLR_INT RT_DEVICE_FLAG_INT_TX s;
           Some (set_tx false (clear_open_flag RT_DEVICE_FLAG_INT_TX s))
         else Some s);
    s ← low_control RT_DEVICE_CTRL_CLOSE 0 s;
    Some (set_parent (set_flag (Z.ldiff (d_flag (parent s)) RT_DEVICE_FLAG_ACTIVATED) (parent s)) s, RT_EOK).

Definition rt_serial_read (pos size : Z) s : option (rt_serial_device H * list Z) :=
  if size =? 0 then Some (s, [])
  else if on (open_flag (parent s)) RT_DEVICE_FLAG_INT_RX then _serial_int_rx (Z.to_nat size) s
  else _serial_poll_rx (Z.to_nat size) s.

Definition rt_serial_write (pos : Z) (buf : list Z) s : option (rt_serial_device H * written) :=
  match buf with
  | [] => Some (s, Wrote 0)
  | _ =>
      if on (open_flag (parent s)) RT_DEVICE_FLAG_INT_TX then _serial_int_tx buf 0 s
      else '(s, n) ← _serial_poll_tx buf s; Some (s, Wrote n)
  end.

Definition rt_serial_control (cmd : Z) (args : serial_arg) s : option (rt_serial_device H * Z) :=
  if cmd =? RT_DEVICE_CTRL_SUSPEND then
    Some (set_parent (set_flag (d_flag (parent s) .| RT_DEVICE_FLAG_SUSPENDED) (parent s)) s, RT_EOK)
  else if cmd =? RT_DEVICE_CTRL_RESUME then
    Some (set_parent (set_flag (Z.ldiff (d_flag (parent s)) RT_DEVICE_FLAG_SUSPENDED) (parent s)) s, RT_EOK)
  else if cmd =? RT_DEVICE_CTRL_CONFIG then
    match args with
    | Arg_config pconfig =>
        if negb (bufsz pconfig =? bufsz (config s)) && negb (ref_count (parent s) =? 0)
        then Some (s, RT_EBUSY)
        else
          let s := set_config pconfig s in
          if negb (ref_count (parent s) =? 0)
          then '(h, _) ← configure pconfig (uart_of s); Some (set_port h s, RT_EOK)
          else Some (s, RT_EOK)
    | Arg_null => Some (s, RT_EOK)
    | Arg_flag _ => None
    end
  else
    '(h, ret) ← control cmd (match args with Arg_flag f => f | _ => 0 end) (uart_of s);
    Some (set_port h s, ret).

(** [rt_hw_serial_register] fills in the callbacks and registers the device. *)
Definition rt_hw_serial_register (o : Z) (name : list Z) (flag : Z) (r : registry) s
    : option (registry * rt_serial_device H * Z) :=
  let d := set_tx_complete None (set_rx_indicate None (parent s)) in
  '(r, d, ret) ← rt_device_register o name flag r d;
  Some (r, set_parent d s, ret).

(** ** The interrupt *)

(** What the interrupt leads to besides the FIFO: the receive callback with a
    size, or the completion of a transfer. *)
Inductive serial_event := Rx_indicate (callback size : Z) | Completion_done.

Fixpoint rx_loop (fuel : nat) s : option (rt_serial_device H) :=
  match fuel with
  | O => None
  | S fuel =>
      '(h, ch) ← getc (uart_of s);
      let s := set_port h s in
      if ch =? -1 then Some s
      else
        f ← serial_rx s;
        f ← fifo_put (bufsz (config s)) ch f;
        rx_loop fuel (set_rx (Some f) s)
  end.

Definition rt_hw_serial_isr (fuel : nat) (event : Z) s : option (rt_serial_device H * list serial_event) :=
  if event .& 0xff =? RT_SERIAL_EVENT_RX_IND then
    s ← rx_loop fuel s;
    match rx_indicate (parent s) with
    | Some callback =>
        f ← serial_rx s;
        let n := rx_length (bufsz (config s)) f in
        Some (s, if negb (n =? 0) then [Rx_indicate callback n] else [])
    | None => Some (s, [])
    end
  else if event .& 0xff =? RT_SERIAL_EVENT_TX_DONE then
    if serial_tx s then Some (s, [Completion_done]) else None
  else Some (s, []).

(** The driver the framework makes of a port, when there is memory. *)
#[export] Instance serial_driver : Driver (rt_serial_device H) serial_arg := {
  dev := parent;
  with_dev := set_parent;
  device_init := Some (fun s => lift (rt_serial_init s));
  device_open := Some (fun oflag s => lift (rt_serial_open true true oflag s));
  device_close := Some (fun s => lift (rt_serial_close s));
  device_read := Some (fun pos size s => lift (rt_serial_read pos size s));
  device_write := Some (fun pos buf s => lift (rt_serial_write pos buf s));
  device_control := Some (fun cmd arg s => lift (rt_serial_control cmd arg s)) }.

End serial.
