(* ===== verification/SerialFifo.v ===== *)
(** * SerialFifo: the receive FIFO keeps the latest characters

    The FIFO of a serial device as a list, and what the interrupt and the
    reader do to it. *)
From S2P Require Import Prelude Bytes KService Printf Output Object Device Queue Serial.

(** The last [n] elements. *)
Definition latest {A} (n : nat) (l : list A) : list A := drop (length l - n) l.

Lemma latest_all {A} n (l : list A) : (length l <= n)%nat -> latest n l = l.
Proof. intros H. unfold latest. by replace (length l - n)%nat with 0%nat by lia. Qed.
Lemma latest_length {A} n (l : list A) : length (latest n l) = Nat.min n (length l).
Proof. unfold latest. rewrite length_drop. lia. Qed.
Lemma latest_app {A} n (l k : list A) : latest n (latest n l ++ k) = latest n (l ++ k).
Proof.
  unfold latest. rewrite !length_app, length_drop, !drop_app, drop_drop, length_drop.
  f_equal; f_equal; lia.
Qed.

(** [f] holds the characters [l] in an array of [N]. *)
Record fifo (N : nat) (f : rt_serial_rx_fifo) (l : list Z) : Prop := {
  fi_size : 2 <= Z.of_nat N <= 65535;
  fi_array : length (buffer f) = N;
  fi_get : 0 <= get_index f < Z.of_nat N;
  fi_put : put_index f = (get_index f + Z.of_nat (length l)) `mod` Z.of_nat N;
  fi_room : (length l < N)%nat;
  fi_elems : ring (buffer f) (Z.to_nat (get_index f)) (length l) = l;
  fi_full : is_full f = true -> length l = (N - 1)%nat;
  fi_bytes : Forall (fun c => 0 <= c < 256) l }.

Lemma fifo_empty N : 2 <= Z.of_nat N <= 65535 -> fifo N (mk_fifo (repeat 0 N) 0 0 false) [].
Proof.
  intros HN. split; cbn; try done; try lia.
  - by rewrite repeat_length.
Qed.

Lemma next_index_mod i N : 0 <= i < Z.of_nat N -> Z.of_nat N <= 65535 ->
  next_index i (Z.of_nat N) = (i + 1) `mod` Z.of_nat N.
Proof.
  intros Hi HN. unfold next_index. rewrite u16_small by lia. destruct (Z.geb_spec (i + 1) (Z.of_nat N)).
  - replace (i + 1) with (Z.of_nat N) by lia. by rewrite Z_mod_same_full.
  - by rewrite Z.mod_small by lia.
Qed.

Lemma fifo_put_range N f l : fifo N f l -> 0 <= put_index f < Z.of_nat N.
Proof. intros H. rewrite (fi_put _ _ _ H). destruct (fi_size _ _ _ H). apply Z.mod_pos_bound. lia. Qed.

Lemma fifo_no_data N f l : fifo N f l -> no_data f = match l with [] => true | _ => false end.
Proof.
  intros [HN Ha Hg Hp Hr _ Hf _]. unfold no_data. rewrite Hp. destruct l as [|c l].
  - cbn [length]. rewrite Z.add_0_r, Z.mod_small, Z.eqb_refl by lia.
    destruct (is_full f); [|done]. specialize (Hf eq_refl). cbn in Hf. lia.
  - cbn [length] in *. apply andb_false_iff. left. apply Z.eqb_neq. zify. intros E.
    destruct (Z.lt_ge_cases (get_index f + (Z.of_nat (length l) + 1)) (Z.of_nat N)) as [Hlt|Hge].
    + rewrite Z.mod_small in E by lia. lia.
    + rewrite <- (Z.mod_unique _ _ 1 (get_index f + (Z.of_nat (length l) + 1) - Z.of_nat N)) in E by lia. lia.
Qed.

Lemma land_byte c : 0 <= c < 256 -> c .& 0xff = c.
Proof. intros Hc. change 0xff with (Z.ones 8). rewrite Z.land_ones by lia. by rewrite Z.mod_small. Qed.

Lemma fifo_get_spec N f c l : fifo N f (c :: l) -> exists f',
  fifo_get (Z.of_nat N) f = Some (f', c) /\ fifo N f' l.
Proof.
  intros [HN Ha Hg Hp Hr He Hf Hb]. cbn [length] in *. rewrite ring_cons, Ha in He. injection He as Hc Hl.
  apply Forall_cons in Hb as [Hcb Hb]. rewrite Nat.mod_small in Hc by lia.
  eexists. unfold fifo_get.
  assert (buffer f !!z get_index f = Some c) as ->.
  { rewrite <- (Z2Nat.id (get_index f)), zlookup_of_nat, <- Hc by lia. apply list_lookup_lookup_total_lt. lia. }
  cbn [mbind option_bind]. rewrite land_byte, next_index_mod by (done || lia). split; [done|].
  split; cbn [buffer get_index put_index is_full]; try done; try lia.
  - apply Z.mod_pos_bound. lia.
  - rewrite Hp, Zplus_mod_idemp_l. f_equal. lia.
  - rewrite Z2Nat.inj_mod, Z2Nat.inj_add, Nat2Z.id by lia. change (Z.to_nat 1) with 1%nat.
    rewrite <- Ha, ring_mod, Nat.add_1_r. done.
Qed.

Lemma latest_snoc N (l : list Z) c : (1 <= N)%nat -> (length l <= N)%nat ->
  latest N (l ++ [c]) = drop (length l + 1 - N) l ++ [c].
Proof.
  intros HN Hl. unfold latest. rewrite length_app, drop_app. cbn [length]. f_equal.
  by replace (length l + 1 - N - length l)%nat with 0%nat by lia.
Qed.

Lemma fifo_put_spec N f l c : fifo N f l -> 0 <= c < 256 -> exists f',
  fifo_put (Z.of_nat N) c f = Some f' /\ fifo N f' (latest (N - 1) (l ++ [c])).
Proof.
  intros H Hc. pose proof (fifo_put_range _ _ _ H) as Hpr. destruct H as [HN Ha Hg Hp Hr He Hf Hb].
  unfold fifo_put. destruct (zlookup_is_Some (buffer f) (put_index f)) as [x ->]; [lia|].
  cbn [mbind option_bind]. rewrite next_index_mod, u8_small by lia.
  assert (HM : (put_index f + 1) `mod` Z.of_nat N = (get_index f + Z.of_nat (length l + 1)) `mod` Z.of_nat N).
  { rewrite Hp, Zplus_mod_idemp_l. f_equal. lia. }
  rewrite HM. set (buf := <[_ := c]> _). eexists. split; [done|].
  pose proof (written_one (buffer f) (Z.to_nat (put_index f)) c ltac:(lia)) as Hw. fold buf in Hw.
  assert (Hro : ((Z.to_nat (get_index f) + length l) mod length (buffer f) =
                 Z.to_nat (put_index f) mod length (buffer f))%nat).
  { rewrite Ha. apply Nat2Z.inj. rewrite !Nat2Z.inj_mod, Nat2Z.inj_add, !Z2Nat.id, Hp, Zmod_mod by lia. done. }
  pose proof (written_ring (buffer f) buf (Z.to_nat (get_index f)) (length l) _ [c] ltac:(lia) Hw) as HR. cbn [length] in HR.
  specialize (HR ltac:(lia) ltac:(lia) Hro). rewrite He, Ha in HR.
  replace (length l + 1 - N)%nat with 0%nat in HR by lia. rewrite drop_0, Nat.add_0_r in HR.
  replace (Nat.min (length l + 1) N) with (length l + 1)%nat in HR by lia.
  assert (Hlen : length buf = N) by (by rewrite (wr_length _ _ _ _ Hw)).
  assert (Hbl : Forall (fun c => 0 <= c < 256) (l ++ [c])) by (apply Forall_app; split; [done|by constructor]).
  rewrite latest_snoc by lia. destruct (decide (length l = (N - 1)%nat)) as [Hl|Hl].
  - replace (length l + 1)%nat with N in * by lia.
    replace (get_index f + Z.of_nat N) with (get_index f + 1 * Z.of_nat N) by lia.
    rewrite Z_mod_plus_full, (Z.mod_small (get_index f)), Z.eqb_refl, next_index_mod by lia.
    replace (N - (N - 1))%nat with 1%nat by lia.
    destruct l as [|y l]; [cbn in Hl; lia|]. change (drop 1 (y :: l)) with l. cbn [length app] in *.
    split; cbn [buffer get_index put_index is_full]; rewrite ?length_app; cbn [length]; try done; try lia.
    + apply Z.mod_pos_bound. lia.
    + rewrite Zplus_mod_idemp_l. symmetry. rewrite <- (Z.mod_small (get_index f) (Z.of_nat N)) at 2 by lia.
      replace (get_index f + 1 + Z.of_nat (length l + 1)) with (get_index f + 1 * Z.of_nat N) by lia.
      apply Z_mod_plus_full.
    + rewrite Z2Nat.inj_mod, Z2Nat.inj_add, Nat2Z.id by lia. change (Z.to_nat 1) with 1%nat.
      rewrite <- Hlen, ring_mod. replace (length l + 1)%nat with (N - 1)%nat by lia.
      replace N with (S (N - 1)) in HR by lia. rewrite ring_cons in HR. injection HR as _ HR.
      by rewrite Nat.add_1_r.
    + by apply Forall_cons in Hbl as [_ Hbl].
  - rewrite (proj2 (Z.eqb_neq _ _)).
    + replace (length l + 1 - (N - 1))%nat with 0%nat by lia. rewrite drop_0.
      split; cbn [buffer get_index put_index is_full]; rewrite ?length_app; cbn [length]; try done; try lia.
      intros Hfull. specialize (Hf Hfull). lia.
    + intros E. destruct (Z.lt_ge_cases (get_index f + Z.of_nat (length l + 1)) (Z.of_nat N)) as [Hlt|Hge].
      * rewrite Z.mod_small in E by lia. lia.
      * rewrite <- (Z.mod_unique _ _ 1 (get_index f + Z.of_nat (length l + 1) - Z.of_nat N)) in E by lia. lia.
Qed.

Lemma fifo_rx_length N f l : fifo N f l -> rx_length (Z.of_nat N) f = Z.of_nat (length l).
Proof.
  intros [HN Ha Hg Hp Hr He Hf Hb]. unfold rx_length. rewrite Hp.
  destruct (Z.lt_ge_cases (get_index f + Z.of_nat (length l)) (Z.of_nat N)) as [Hlt|Hge].
  - rewrite Z.mod_small by lia. case_Z; lia.
  - rewrite <- (Z.mod_unique _ _ 1 (get_index f + Z.of_nat (length l) - Z.of_nat N)) by lia. case_Z; lia.
Qed.
