(* ===== verification/SerialFacts.v ===== *)
(** * SerialFacts: what a serial device delivers and sends

    The laws of a port, and the promises of the framework over any port that
    has them: the reader gets the latest characters in order, the writer sends
    every character. *)
From S2P Require Import Prelude Bytes KService Printf Output Object Device Queue Serial SerialFifo.

(** At most [n] characters are there to be fetched one after the other. *)
Fixpoint quiet {H} `{Uart H} (n : nat) (h : H) : Prop :=
  match getc h with
  | Some (h, ch) => ch = -1 \/ match n with O => False | S n => quiet n h end
  | None => False
  end.

(** [rxd] and [txd] are the characters fetched from a port and sent by it so
    far.  The laws: [getc] fetches a byte or answers -1, and does so after at
    most [burst] bytes in a row, a line being slower than the loop that reads
    it; [putc] sends its character; setting the port up moves no data. *)
Class UartLaws (H : Type) `{Uart H} := {
  rxd : H -> list Z;
  txd : H -> list Z;
  burst : nat;
  getc_law h : exists h' ch, getc h = Some (h', ch) /\ txd h' = txd h /\
    (ch = -1 /\ rxd h' = rxd h \/ 0 <= ch < 256 /\ rxd h' = rxd h ++ [ch]);
  getc_quiet h : quiet burst h;
  putc_law c h : exists h' r, putc c h = Some (h', r) /\ r <> -1 /\
    txd h' = txd h ++ [u8 c] /\ rxd h' = rxd h;
  control_law cmd arg h : exists h', control cmd arg h = Some (h', RT_EOK) /\
    txd h' = txd h /\ rxd h' = rxd h;
  configure_law c h : exists h', configure c h = Some (h', RT_EOK) /\
    txd h' = txd h /\ rxd h' = rxd h }.

(** What happens to a device that is open for reading. *)
Inductive serial_act := Interrupt | Read (n : nat).
#[export] Instance serial_act_eq : EqDecision serial_act.
Proof. solve_decision. Defined.

Section facts.
Context {H : Type} `{UartLaws H}.
Implicit Type s : rt_serial_device H.

(** [s] has the FIFO with the characters [l]. *)
Record holds (N : nat) s (l : list Z) : Prop := {
  ho_fifo : exists f, serial_rx s = Some f /\ fifo N f l;
  ho_size : bufsz (config s) = Z.of_nat N }.

(** The device apart from FIFO and port. *)
Definition same_setup s s' : Prop :=
  parent s' = parent s /\ config s' = config s /\ serial_tx s' = serial_tx s.

(** ** The receive interrupt *)

Lemma rx_loop_spec N n : forall fuel s l, holds N s l -> quiet n (uart_of s) -> (n < fuel)%nat ->
  exists s' cs, rx_loop fuel s = Some s' /\ same_setup s s' /\ holds N s' (latest (N - 1) (l ++ cs)) /\
    rxd (uart_of s') = rxd (uart_of s) ++ cs /\ txd (uart_of s') = txd (uart_of s).
Proof.
  induction n as [n IH] using lt_wf_ind. intros [|fuel] s l Hs Hq Hf; [lia|]. cbn [rx_loop].
  destruct (getc_law (uart_of s)) as (h & ch & E & Et & Hch).
  assert (Hq' : ch = -1 \/ exists m, n = S m /\ quiet m h)
  by (destruct n; cbn [quiet] in Hq; rewrite E in Hq; destruct Hq as [Hq|Hq]; [by left| |by left|right]; eauto; done).
  rewrite E. cbn [mbind option_bind]. destruct Hs as [(f & Ef & Hfi) Hsz].
  destruct (Z.eqb_spec ch (-1)) as [->|Hne].
  - destruct Hch as [[_ Er]|[? _]]; [|lia]. exists (set_port h s), []. rewrite !app_nil_r.
    rewrite latest_all by (pose proof (fi_room _ _ _ Hfi); lia).
    split_and!; try done. split; [by exists f|done].
  - destruct Hch as [[? _]|[Hb Er]]; [done|]. destruct Hq' as [|(m & -> & Hm)]; [done|].
    cbn [serial_rx set_port config]. rewrite Ef, Hsz. cbn [mbind option_bind].
    destruct (fifo_put_spec N f l ch Hfi Hb) as (f' & -> & Hf'). cbn [mbind option_bind].
    destruct (IH m ltac:(lia) fuel (set_rx (Some f') (set_port h s)) (latest (N - 1) (l ++ [ch])))
      as (s' & cs & E' & Hsame & Hh & Er' & Et'); [split; [by exists f'|done]|done|lia|].
    exists s', (ch :: cs). rewrite latest_app, <- app_assoc in Hh. split_and!; [done|done|exact Hh| |].
    + rewrite Er'. cbn. rewrite Er, <- app_assoc. done.
    + by rewrite Et'.
Qed.

Definition indication (cb : option Z) (l : list Z) : list serial_event :=
  match cb, l with Some c, _ :: _ => [Rx_indicate c (Z.of_nat (length l))] | _, _ => [] end.

Lemma isr_spec N s l : holds N s l -> exists s' cs,
  let l' := latest (N - 1) (l ++ cs) in
  rt_hw_serial_isr (S burst) RT_SERIAL_EVENT_RX_IND s = Some (s', indication (rx_indicate (parent s)) l') /\
  same_setup s s' /\ holds N s' l' /\
  rxd (uart_of s') = rxd (uart_of s) ++ cs /\ txd (uart_of s') = txd (uart_of s).
Proof.
  intros Hs. destruct (rx_loop_spec N burst (S burst) s l Hs (getc_quiet _) ltac:(lia))
    as (s' & cs & E & Hsame & Hh & Er & Et). exists s', cs. cbv zeta. split_and!; try done.
  unfold rt_hw_serial_isr. change (RT_SERIAL_EVENT_RX_IND .& 0xff =? RT_SERIAL_EVENT_RX_IND) with true.
  rewrite E. cbn [mbind option_bind]. destruct Hsame as (-> & _ & _).
  destruct (rx_indicate (parent s)) as [c|]; [|done]. destruct Hh as [(f & -> & Hf) ->].
  cbn [mbind option_bind]. rewrite (fifo_rx_length _ _ _ Hf). by destruct (latest _ _).
Qed.

(** ** Reading *)

Lemma int_rx_spec N n : forall s l, holds N s l -> exists s',
  _serial_int_rx n s = Some (s', take n l) /\ same_setup s s' /\ holds N s' (drop n l) /\ uart_of s' = uart_of s.
Proof.
  induction n as [|n IH]; intros s l Hs; [by exists s|]. cbn [_serial_int_rx].
  destruct Hs as [(f & Ef & Hf) Hsz]. rewrite Ef. cbn [mbind option_bind].
  rewrite (fifo_no_data _ _ _ Hf). destruct l as [|c l].
  - exists s. split_and!; try done. split; [by exists f|done].
  - rewrite Hsz. destruct (fifo_get_spec _ _ _ _ Hf) as (f' & -> & Hf'). cbn [mbind option_bind].
    destruct (IH (set_rx (Some f') s) l) as (s' & -> & Hsame & Hh & Hp); [split; [by exists f'|done]|].
    exists s'. by split_and!.
Qed.

(** ** Sending *)

(** A line feed goes out with a carriage return before it on a stream. *)
Definition crlf (stream : bool) (l : list Z) : list Z :=
  map u8 (flat_map (fun c => if (c =? 10) && stream then [13; c] else [c]) l).

Lemma poll_tx_spec data : forall s, exists s',
  _serial_poll_tx data s = Some (s', Z.of_nat (length data)) /\ same_setup s s' /\ serial_rx s' = serial_rx s /\
  txd (uart_of s') = txd (uart_of s) ++ crlf (on (open_flag (parent s)) RT_DEVICE_FLAG_STREAM) data /\
  rxd (uart_of s') = rxd (uart_of s).
Proof.
  induction data as [|c data IH]; intros s.
  { exists s. cbn. rewrite app_nil_r. by split_and!. }
  cbn [_serial_poll_tx]. unfold crlf. cbn [flat_map].
  set (stream := on (open_flag (parent s)) RT_DEVICE_FLAG_STREAM).
  assert (exists h, (if (c =? 10) && stream then '(h, _) ← putc 13 (uart_of s); Some (set_port h s) else Some s)
      = Some (set_port h s) /\
    txd h = txd (uart_of s) ++ (if (c =? 10) && stream then [13] else []) /\ rxd h = rxd (uart_of s)) as (h & -> & Et & Er).
  { destruct ((c =? 10) && stream).
    - destruct (putc_law 13 (uart_of s)) as (h & r & -> & _ & Et & Er). exists h. by cbn.
    - exists (uart_of s). rewrite app_nil_r. by destruct s. }
  cbn [mbind option_bind]. change (uart_of (set_port h s)) with h.
  destruct (putc_law c h) as (h' & r & -> & _ & Et' & Er'). cbn [mbind option_bind].
  destruct (IH (set_port h' (set_port h s))) as (s' & -> & Hsame & Hrx & Et2 & Er2).
  exists s'. cbn [mbind option_bind]. split_and!; [f_equal; f_equal; cbn [length]; lia|done|done| |].
  - rewrite Et2. cbn [uart_of set_port parent]. fold stream. rewrite Et', Et, <- !app_assoc. f_equal.
    rewrite map_app, app_assoc. f_equal. by destruct ((c =? 10) && stream).
  - rewrite Er2. cbn [uart_of set_port]. by rewrite Er', Er.
Qed.

Lemma crlf_app b l l' : crlf b (l ++ l') = crlf b l ++ crlf b l'.
Proof. unfold crlf. by rewrite flat_map_app, map_app. Qed.

(** ** A device open as a stream that receives by interrupt *)

Definition streaming (d : rt_device) : Prop :=
  ref_count d <> 0 /\ on (open_flag d) RT_DEVICE_FLAG_INT_RX = true /\
  on (open_flag d) RT_DEVICE_FLAG_INT_TX = false /\ on (open_flag d) RT_DEVICE_FLAG_STREAM = true.

Lemma read_char N s l : streaming (parent s) -> holds N s l -> exists s',
  rt_device_read (-1) 1 s = Some (s', take 1 l, []) /\ parent s' = parent s /\ holds N s' (drop 1 l) /\
  uart_of s' = uart_of s.
Proof.
  intros (Hrc & Hrx & _) Hs. destruct (int_rx_spec N 1 s l Hs) as (s' & E & (Ep & _) & Hh & Eu).
  exists s'. split_and!; try done. unfold rt_device_read. cbn [dev serial_driver device_read].
  rewrite (proj2 (Z.eqb_neq _ _) Hrc). unfold rt_serial_read. cbn [Z.eqb]. rewrite Hrx.
  change (Z.to_nat 1) with 1%nat. by rewrite E.
Qed.

Lemma write_text N s l data : streaming (parent s) -> holds N s l -> exists s' r,
  rt_device_write 0 data s = Some (s', r, []) /\ parent s' = parent s /\ holds N s' l /\
  rxd (uart_of s') = rxd (uart_of s) /\ txd (uart_of s') = txd (uart_of s) ++ crlf true data.
Proof.
  intros (Hrc & _ & Htx & Hst) Hs. destruct (poll_tx_spec data s) as (s' & E & (Ep & Ec & Ex) & Hrx & Et & Er).
  rewrite Hst in Et. unfold rt_device_write. cbn [dev serial_driver device_write].
  rewrite (proj2 (Z.eqb_neq _ _) Hrc). unfold rt_serial_write. destruct data as [|x data].
  - exists s, (Wrote 0). cbn. rewrite app_nil_r. by split_and!.
  - rewrite Htx, E. cbn [mbind option_bind lift]. eexists s', _. split_and!; try done.
    destruct Hs as [(f & Ef & Hf) Hsz]. split; [exists f; by rewrite Hrx|by rewrite Ec].
Qed.

(** ** Interrupts and reads interleaved *)

(** What the device delivers to its readers. *)
Fixpoint serve (acts : list serial_act) s : option (rt_serial_device H * list Z) :=
  match acts with
  | [] => Some (s, [])
  | Interrupt :: acts => '(s, _) ← rt_hw_serial_isr (S burst) RT_SERIAL_EVENT_RX_IND s; serve acts s
  | Read n :: acts => '(s, l) ← rt_serial_read (-1) (Z.of_nat n) s; '(s, l') ← serve acts s; Some (s, l ++ l')
  end.

(** A queue of [cap] characters that drops the oldest: what is delivered and
    what is left, the [i]-th interrupt bringing the characters [css !! i]. *)
Fixpoint deliver (cap : nat) (acts : list serial_act) (css : list (list Z)) (l : list Z) : list Z * list Z :=
  match acts, css with
  | Interrupt :: acts, cs :: css => deliver cap acts css (latest cap (l ++ cs))
  | Read n :: acts, css => let '(d, r) := deliver cap acts css (drop n l) in (take n l ++ d, r)
  | _, _ => ([], l)
  end.
Definition interrupts (acts : list serial_act) : nat := length (filter (eq Interrupt) acts).

Lemma serve_spec N acts : forall s l, holds N s l ->
  on (open_flag (parent s)) RT_DEVICE_FLAG_INT_RX = true -> exists s' css,
  length css = interrupts acts /\
  serve acts s = Some (s', (deliver (N - 1) acts css l).1) /\ holds N s' ((deliver (N - 1) acts css l).2) /\
  rxd (uart_of s') = rxd (uart_of s) ++ concat css.
Proof.
  induction acts as [|[|n] acts IH]; intros s l Hs Ho.
  - exists s, []. cbn. by rewrite app_nil_r.
  - destruct (isr_spec N s l Hs) as (s1 & cs & E1 & (Ep & _) & Hh1 & Er1 & _). cbv zeta in *.
    destruct (IH s1 _ Hh1) as (s' & css & Hl & E & Hh & Er); [by rewrite Ep|].
    exists s', (cs :: css). cbn [serve deliver]. rewrite E1. cbn [mbind option_bind].
    split_and!; [by cbn; rewrite Hl|done|done|]. rewrite Er, Er1, <- app_assoc. done.
  - destruct (int_rx_spec N n s l Hs) as (s1 & E1 & (Ep & _) & Hh1 & Er1).
    destruct (IH s1 _ Hh1) as (s' & css & Hl & E & Hh & Er); [by rewrite Ep|].
    exists s', css. cbn [serve deliver]. unfold rt_serial_read. rewrite Ho, Nat2Z.id.
    assert ((if Z.of_nat n =? 0 then Some (s, []) else _serial_int_rx n s) = Some (s1, take n l)) as ->.
    { rewrite <- E1. destruct n as [|n]; [done|]. by rewrite (proj2 (Z.eqb_neq _ _)) by lia. }
    cbn [mbind option_bind]. rewrite E. destruct (deliver _ acts css _) as [d r]. cbn [mbind option_bind fst snd] in *.
    split_and!; [by rewrite Hl|done|done|]. by rewrite Er, Er1.
Qed.

(** Nothing is dropped when what comes in fits behind what is there. *)
Fixpoint roomy (cap : nat) (acts : list serial_act) (css : list (list Z)) (l : list Z) : bool :=
  match acts, css with
  | Interrupt :: acts, cs :: css =>
      (length (l ++ cs) <=? cap)%nat && roomy cap acts css (l ++ cs)
  | Read n :: acts, css => roomy cap acts css (drop n l)
  | _, _ => true
  end.

Lemma deliver_all cap acts : forall css l, roomy cap acts css l = true -> length css = interrupts acts ->
  (deliver cap acts css l).1 ++ (deliver cap acts css l).2 = l ++ concat css.
Proof.
  induction acts as [|[|n] acts IH]; intros css l Hr Hl.
  - destruct css; [|done]. cbn. by rewrite app_nil_r.
  - destruct css as [|cs css]; [done|]. apply (eq_add_S (length css) (interrupts acts)) in Hl. cbn [roomy deliver] in *. apply andb_true_iff in Hr as [Hc Hr].
    apply Nat.leb_le in Hc. rewrite latest_all by done. rewrite (IH css (l ++ cs) Hr Hl).
    by rewrite <- app_assoc.
  - cbn [roomy deliver] in *. specialize (IH css (drop n l) Hr Hl). destruct (deliver cap acts css (drop n l)) as [d r].
    cbn [fst snd] in *. by rewrite <- app_assoc, IH, app_assoc, take_drop.
Qed.

(** ** Opening for reading by interrupt *)

Lemma on_bit f i : 0 <= i -> on f (2 ^ i) = Z.testbit f i.
Proof. intros Hi. unfold on. rewrite land_bit by done. by rewrite negb_involutive. Qed.
Lemma or_open_on s bits i : 0 <= i < 16 ->
  on (open_flag (parent (or_open_flag bits s))) (2 ^ i) = on (open_flag (parent s)) (2 ^ i) || on bits (2 ^ i).
Proof.
  intros Hi. cbn [or_open_flag set_parent parent set_open_flag open_flag]. rewrite !on_bit by lia.
  by rewrite u16_testbit, Z.lor_spec.
Qed.

Lemma open_spec N s oflag : 2 <= Z.of_nat N <= 65535 -> serial_rx s = None -> bufsz (config s) = Z.of_nat N ->
  on oflag RT_DEVICE_FLAG_INT_RX = true ->
  refused oflag RT_DEVICE_FLAG_DMA_RX s || refused oflag RT_DEVICE_FLAG_DMA_TX s ||
    refused oflag RT_DEVICE_FLAG_INT_RX s || refused oflag RT_DEVICE_FLAG_INT_TX s = false ->
  exists s', rt_serial_open true true oflag s = Some (s', RT_EOK) /\ holds N s' [] /\
    on (open_flag (parent s')) RT_DEVICE_FLAG_INT_RX = true /\ rxd (uart_of s') = rxd (uart_of s).
Proof.
  intros HN Hrx Hb Ho Hno. unfold rt_serial_open. rewrite Hno. set (s1 := set_parent _ s).
  unfold open_rx. change (serial_rx s1) with (serial_rx s). rewrite Hrx, Ho. unfold low_control.
  match goal with |- context [control _ _ (uart_of ?x)] => set (s2 := x) end.
  destruct (control_law RT_DEVICE_CTRL_SET_INT RT_DEVICE_FLAG_INT_RX (uart_of s2)) as (h & -> & _ & Er).
  cbn [mbind option_bind].
  assert (holds N s2 [] /\ on (open_flag (parent s2)) RT_DEVICE_FLAG_INT_RX = true) as [Hh Hon].
  { split; [split; [|done]|].
    - eexists. split; [reflexivity|]. change (config s1) with (config s). rewrite Hb, Nat2Z.id. by apply fifo_empty.
    - unfold s2. change RT_DEVICE_FLAG_INT_RX with (2 ^ 8). rewrite or_open_on by lia. by rewrite orb_true_r. }
  assert (exists s3, open_tx true oflag (set_port h s2) = Some s3 /\ holds N s3 [] /\
    on (open_flag (parent s3)) RT_DEVICE_FLAG_INT_RX = true /\ rxd (uart_of s3) = rxd h) as (s3 & -> & Hh3 & Ho3 & Er3).
  { clearbody s2. destruct Hh as [Hf Hsz]. change RT_DEVICE_FLAG_INT_RX with (2 ^ 8) in *.
    unfold open_tx. destruct (serial_tx (set_port h s2)), (on oflag RT_DEVICE_FLAG_INT_TX); cbn [negb].
    - eexists. split; [done|]. split; [by split|]. split; [|done]. rewrite or_open_on by lia. cbn [set_port parent].
      by rewrite Hon.
    - eexists. split; [done|]. split; [by split|]. by split.
    - unfold low_control.
      match goal with |- context [control ?a ?b (uart_of ?x)] => destruct (control_law a b (uart_of x)) as (h' & -> & _ & Er') end.
      cbn [mbind option_bind]. eexists. split; [done|]. split; [by split|]. split; [|exact Er'].
      change (parent (set_port h' ?x)) with (parent x). rewrite or_open_on by lia. cbn [set_port set_tx parent].
      by rewrite Hon.
    - eexists. split; [done|]. split; [by split|]. by split. }
  cbn [mbind option_bind]. eexists. split; [done|]. split; [destruct Hh3; by split|]. split.
  - change RT_DEVICE_FLAG_INT_RX with (2 ^ 8) in *. rewrite or_open_on by lia. by rewrite Ho3.
  - cbn [or_open_flag set_parent uart_of]. by rewrite Er3, Er.
Qed.

(** C35 A serial device, opened with the receive interrupt, is a queue of one
    character less than the buffer it is configured with: whatever interrupts
    and reads follow one another, the readers get the characters of the line
    in the order in which they came, and of those not yet read the latest are
    kept; as long as nothing more than that is waiting, none is lost and none
    comes twice. *)
Theorem serial_delivers N s oflag acts : 2 <= Z.of_nat N <= 65535 -> serial_rx s = None ->
  bufsz (config s) = Z.of_nat N -> on oflag RT_DEVICE_FLAG_INT_RX = true ->
  refused oflag RT_DEVICE_FLAG_DMA_RX s || refused oflag RT_DEVICE_FLAG_DMA_TX s ||
    refused oflag RT_DEVICE_FLAG_INT_RX s || refused oflag RT_DEVICE_FLAG_INT_TX s = false ->
  exists s1 s2 css, rt_serial_open true true oflag s = Some (s1, RT_EOK) /\
    length css = interrupts acts /\ rxd (uart_of s2) = rxd (uart_of s) ++ concat css /\
    let '(delivered, kept) := deliver (N - 1) acts css [] in
    serve acts s1 = Some (s2, delivered) /\ holds N s2 kept /\
    (roomy (N - 1) acts css [] = true -> delivered ++ kept = concat css).
Proof.
  intros HN Hrx Hb Ho Hno. destruct (open_spec N s oflag HN Hrx Hb Ho Hno) as (s1 & E & Hh & Hon & Er).
  destruct (serve_spec N acts s1 [] Hh Hon) as (s2 & css & Hl & Es & Hh2 & Er2). rewrite Er in Er2.
  exists s1, s2, css. pose proof (deliver_all (N - 1) acts css [] ) as Ha.
  destruct (deliver (N - 1) acts css []) as [d r]. cbn [fst snd] in *. split_and!; try done. intros Hr. by apply Ha.
Qed.
End facts.

(** ** A port played from a script

    The characters to come, how many of them were fetched since the last pause,
    and what has come and gone. *)
Record script := mk_script { coming : list Z; in_a_row : nat; script_rxd : list Z; script_txd : list Z }.

#[export] Instance script_ops : Uart script := {
  configure _ h := Some (h, RT_EOK);
  control _ _ h := Some (h, RT_EOK);
  putc c h := Some (mk_script (coming h) (in_a_row h) (script_rxd h) (script_txd h ++ [u8 c]), 1);
  getc h :=
    match coming h with
    | c :: l => if (in_a_row h <? 2)%nat
                then Some (mk_script l (S (in_a_row h)) (script_rxd h ++ [u8 c]) (script_txd h), u8 c)
                else Some (mk_script (coming h) 0 (script_rxd h) (script_txd h), -1)
    | [] => Some (mk_script [] 0 (script_rxd h) (script_txd h), -1)
    end }.

#[export] Instance script_laws : UartLaws script.
Proof.
  refine {| rxd := script_rxd; txd := script_txd; burst := 2 |}.
  - intros [l n r t]. destruct l as [|c l]; cbn [getc script_ops coming in_a_row];
      [|destruct (n <? 2)%nat]; eexists _, _; (split; [reflexivity|]); (split; [done|]); [by left| |by left].
    right. split; [apply u8_range|done].
  - intros [l n r t]. destruct l as [|c l]; [by left|]. cbn [quiet getc script_ops coming in_a_row].
    destruct (Nat.ltb_spec n 2); [right|by left].
    destruct l as [|c2 l]; [by left|]. cbn [coming in_a_row]. destruct (Nat.ltb_spec (S n) 2); [right|by left].
    destruct l as [|c3 l]; [by left|]. cbn [coming in_a_row]. destruct (Nat.ltb_spec (S (S n)) 2); [lia|by left].
  - intros c h. eexists _, _. by split_and!.
  - intros cmd arg h. by exists h.
  - intros c h. by exists h.
Defined.

Definition script_device (l : list Z) : rt_serial_device script :=
  mk_serial (mk_device (RT_DEVICE_FLAG_RDWR .| RT_DEVICE_FLAG_INT_RX) 0 0 None None)
    (mk_configure 115200 8 0 0 0 0 4) None false (mk_script l 0 [] []).

(** Three interrupts, two characters each, into a FIFO for three: the third
    interrupt drops two of them; with a longer read before it none is lost. *)
Lemma serial_delivers_witness :
  (exists s1 s2, rt_serial_open true true 0x103 (script_device [1; 2; 3; 4; 5; 6]) = Some (s1, RT_EOK) /\
     serve [Interrupt; Read 1; Interrupt; Interrupt; Read 9] s1 = Some (s2, [1; 4; 5; 6])) /\
  exists s1 s2 css, rt_serial_open true true 0x103 (script_device [1; 2; 3; 4; 5; 6]) = Some (s1, RT_EOK) /\
    length css = interrupts [Interrupt; Read 1; Interrupt; Read 2; Interrupt] /\
    rxd (uart_of s2) = rxd (uart_of (script_device [1; 2; 3; 4; 5; 6])) ++ concat css /\
    let '(delivered, kept) := deliver (4 - 1) [Interrupt; Read 1; Interrupt; Read 2; Interrupt] css [] in
    serve [Interrupt; Read 1; Interrupt; Read 2; Interrupt] s1 = Some (s2, delivered) /\ holds 4 s2 kept /\
    (roomy (4 - 1) [Interrupt; Read 1; Interrupt; Read 2; Interrupt] css [] = true -> delivered ++ kept = concat css).
Proof.
  split.
  - eexists _, _. split; [by vm_compute|by vm_compute].
  - apply (serial_delivers 4 (script_device [1; 2; 3; 4; 5; 6]) 0x103
             [Interrupt; Read 1; Interrupt; Read 2; Interrupt]); done.
Defined.
