(* ===== verification/Usart.v ===== *)
(** * Usart: the serial port driver of the board

    [libraries/hal_drivers/drv_usart.c] and the functions of
    [ch32v30x_usart.c] it calls, as register accesses.  The driver is an
    instance of [Uart] over the log of accesses. *)
From S2P Require Import Prelude Bytes KService Printf Output Object Device Serial Periph.

Definition CTLR1_UE_Set : Z := 0x2000.
Definition U_CTLR1_CLEAR_Mask : Z := 0xE9F3.
Definition CTLR2_STOP_CLEAR_Mask : Z := 0xCFFF.
Definition CTLR3_CLEAR_Mask : Z := 0xFCFF.
Definition IT_Mask : Z := 0x001F.
Definition CTLR1_OVER8_Set : Z := 0x8000.

Definition USART_WordLength_8b : Z := 0x0000.
Definition USART_WordLength_9b : Z := 0x1000.
Definition USART_StopBits_1 : Z := 0x0000.
Definition USART_StopBits_2 : Z := 0x2000.
Definition USART_Parity_No : Z := 0x0000.
Definition USART_Parity_Even : Z := 0x0400.
Definition USART_Parity_Odd : Z := 0x0600.
Definition USART_Mode_Rx : Z := 0x0004.
Definition USART_Mode_Tx : Z := 0x0008.
Definition USART_HardwareFlowControl_None : Z := 0x0000.
Definition USART_IT_RXNE : Z := 0x0525.
Definition USART_FLAG_TC : Z := 0x0040.
Definition USART_FLAG_RXNE : Z := 0x0020.

Definition RCC_APB2Periph_USART1 : Z := 0x00004000.
Definition RCC_APB1Periph_UART7 : Z := 0x00000080.

Record USART_InitTypeDef := mk_usart_init {
  USART_BaudRate : Z; USART_WordLength : Z; USART_StopBits : Z; USART_Parity : Z; USART_Mode : Z;
  USART_HardwareFlowControl : Z }.

(** [struct ch32_uart_config]; an interrupt is known by its number. *)
Record ch32_uart_config := mk_uart_config { uart_name : list Z; Instance_ : usart; irq_type : Z }.
Definition uart_config : list ch32_uart_config := [mk_uart_config (chars "uart1" ++ [0]) USART1 53].

(** The baud rate register for a clock and a rate; the mode bit is read once for
    the divider and once for its fraction. *)
Definition brr (apbclock baud : Z) (over8 over8' : bool) : Z :=
  let integerdivider := if over8 then u32 (25 * apbclock) / u32 (2 * baud)
                        else u32 (25 * apbclock) / u32 (4 * baud) in
  let tmpreg := u32 ((integerdivider / 100) ≪ 4) in
  let fractionaldivider := u32 (integerdivider - 100 * (tmpreg ≫ 4)) in
  if over8' then tmpreg .| (u32 (u32 (fractionaldivider * 8) + 50) / 100 .& 0x07)
  else tmpreg .| (u32 (u32 (fractionaldivider * 16) + 50) / 100 .& 0x0F).

Section usart.
Context (hw : list mmio -> reg -> Z).

(** ** [ch32v30x_usart.c] and [core_riscv.h] *)

Definition USART_Init (u : usart) (i : USART_InitTypeDef) : M unit :=
  tmpreg ← load hw (USART u U_CTLR2);
  let tmpreg := tmpreg .& CTLR2_STOP_CLEAR_Mask in
  _ ← write (USART u U_CTLR2) (tmpreg .| USART_StopBits i);
  tmpreg ← load hw (USART u U_CTLR1);
  let tmpreg := tmpreg .& U_CTLR1_CLEAR_Mask in
  _ ← write (USART u U_CTLR1) (tmpreg .| (USART_WordLength i .| (USART_Parity i .| USART_Mode i)));
  tmpreg ← load hw (USART u U_CTLR3);
  let tmpreg := tmpreg .& CTLR3_CLEAR_Mask in
  _ ← write (USART u U_CTLR3) (tmpreg .| USART_HardwareFlowControl i);
  rcc ← RCC_GetClocksFreq hw;
  let apbclock := match u with USART1 => PCLK2_Frequency rcc | _ => PCLK1_Frequency rcc end in
  c1 ← load hw (USART u U_CTLR1);
  c2 ← load hw (USART u U_CTLR1);
  write (USART u U_BRR)
    (brr apbclock (USART_BaudRate i) (negb (c1 .& CTLR1_OVER8_Set =? 0)) (negb (c2 .& CTLR1_OVER8_Set =? 0))).

Definition USART_Cmd (u : usart) (NewState : FunctionalState) : M unit :=
  if enabled NewState then modify hw (USART u U_CTLR1) (fun v => v .| CTLR1_UE_Set)
  else modify hw (USART u U_CTLR1) (fun v => Z.ldiff v CTLR1_UE_Set).

(** The control register of an interrupt source. *)
Definition it_reg (USART_IT : Z) : usart_reg :=
  let usartreg := u8 USART_IT ≫ 5 in
  if usartreg =? 1 then U_CTLR1 else if usartreg =? 2 then U_CTLR2 else U_CTLR3.

Definition USART_ITConfig (u : usart) (USART_IT : Z) (NewState : FunctionalState) : M unit :=
  let itmask := 1 ≪ (USART_IT .& IT_Mask) in
  if enabled NewState then modify hw (USART u (it_reg USART_IT)) (fun v => v .| itmask)
  else modify hw (USART u (it_reg USART_IT)) (fun v => Z.ldiff v itmask).

Definition USART_GetFlagStatus (u : usart) (USART_FLAG : Z) : M bool :=
  v ← load hw (USART u U_STATR); mret (negb (v .& USART_FLAG =? 0)).

Definition USART_GetITStatus (u : usart) (USART_IT : Z) : M bool :=
  c ← load hw (USART u (it_reg USART_IT));
  let itmask := (1 ≪ (USART_IT .& IT_Mask)) .& c in
  v ← load hw (USART u U_STATR);
  let bitpos := (1 ≪ (USART_IT ≫ 8)) .& v in
  mret (negb (itmask =? 0) && negb (bitpos =? 0)).

Definition USART_ClearITPendingBit (u : usart) (USART_IT : Z) : M unit :=
  write (USART u U_STATR) (Z.lnot (1 ≪ (USART_IT ≫ 8))).

Definition NVIC_EnableIRQ (IRQn : Z) : M unit := write (IENR (IRQn ≫ 5)) (1 ≪ (IRQn .& 0x1F)).
Definition NVIC_DisableIRQ (IRQn : Z) : M unit := write (IRER (IRQn ≫ 5)) (1 ≪ (IRQn .& 0x1F)).

(** ** [drv_usart.c] *)

Definition usart_init (cfg : serial_configure) : USART_InitTypeDef :=
  mk_usart_init (baud_rate cfg)
    (if data_bits cfg =? 9 then USART_WordLength_9b else USART_WordLength_8b)
    (if stop_bits cfg =? 1 then USART_StopBits_2 else USART_StopBits_1)
    (if parity cfg =? 1 then USART_Parity_Odd
     else if parity cfg =? 2 then USART_Parity_Even else USART_Parity_No)
    (USART_Mode_Rx .| USART_Mode_Tx) USART_HardwareFlowControl_None.

Definition ch32_configure (u : usart) (cfg : serial_configure) : M Z :=
  let Init := usart_init cfg in
  _ ← (match u with
       | USART1 =>
           _ ← RCC_APB2PeriphClockCmd hw (RCC_APB2Periph_USART1 .| RCC_APB2Periph_GPIOA) ENABLE;
           _ ← GPIO_Init hw GPIOA GPIO_Pin_9 GPIO_Speed_50MHz GPIO_Mode_AF_PP;
           _ ← GPIO_Init hw GPIOA GPIO_Pin_10 GPIO_Speed_50MHz GPIO_Mode_IN_FLOATING;
           _ ← USART_Init u Init;
           USART_Cmd u ENABLE
       | UART7 =>
           _ ← RCC_APB2PeriphClockCmd hw RCC_APB2Periph_GPIOC ENABLE;
           _ ← RCC_APB1PeriphClockCmd hw RCC_APB1Periph_UART7 ENABLE;
           _ ← GPIO_Init hw GPIOC GPIO_Pin_2 GPIO_Speed_50MHz GPIO_Mode_AF_PP;
           _ ← GPIO_Init hw GPIOC GPIO_Pin_3 GPIO_Speed_50MHz GPIO_Mode_IN_FLOATING;
           _ ← USART_Init u Init;
           USART_Cmd u ENABLE
       | _ => mret tt
       end);
  mret RT_EOK.

Definition ch32_control (u : usart) (irq cmd : Z) : M Z :=
  _ ← (if cmd =? RT_DEVICE_CTRL_CLR_INT then
         _ ← NVIC_DisableIRQ irq; USART_ITConfig u USART_IT_RXNE DISABLE
       else if cmd =? RT_DEVICE_CTRL_SET_INT then
         _ ← NVIC_EnableIRQ irq; USART_ITConfig u USART_IT_RXNE ENABLE
       else mret tt);
  mret RT_EOK.

Definition ch32_putc (fuel : nat) (u : usart) (c : Z) : M Z :=
  _ ← until fuel (USART_GetFlagStatus u USART_FLAG_TC);
  _ ← write (USART u U_DATAR) (u8 c);
  mret 1.

Definition ch32_getc (u : usart) : M Z :=
  b ← USART_GetFlagStatus u USART_FLAG_RXNE;
  if b : bool then v ← load hw (USART u U_DATAR); mret (v .& 0xff) else mret (-1).

(** [ch32_uart_ops]: the ports of a table entry; [fuel] bounds the polls for a
    transmission to complete. *)
Definition swap {A B} (o : option (A * B)) : option (B * A) := '(a, b) ← o; Some (b, a).
#[export] Instance ch32_uart_ops (fuel : nat) (c : ch32_uart_config) : Uart (list mmio) := {
  configure cfg t := swap (ch32_configure (Instance_ c) cfg t);
  control cmd _ t := swap (ch32_control (Instance_ c) (irq_type c) cmd t);
  putc ch t := swap (ch32_putc fuel (Instance_ c) ch t);
  getc t := swap (ch32_getc (Instance_ c) t) }.

(** [uart_isr], between [rt_interrupt_enter] and [rt_interrupt_leave] in
    [USART1_IRQHandler]. *)
Definition uart_isr (fuel loop : nat) (c : ch32_uart_config) (s : rt_serial_device (list mmio))
    : option (rt_serial_device (list mmio) * list serial_event) :=
  '(b, t) ← USART_GetITStatus (Instance_ c) USART_IT_RXNE (uart_of s);
  let s := set_port t s in
  if b : bool then
    '(s, e) ← rt_hw_serial_isr (H0 := ch32_uart_ops fuel c) loop RT_SERIAL_EVENT_RX_IND s;
    '(_, t) ← USART_ClearITPendingBit (Instance_ c) USART_IT_RXNE (uart_of s);
    Some (set_port t s, e)
  else Some (s, []).
End usart.
