(* ===== verification/UsartFacts.v ===== *)
(** * UsartFacts: the driver has the laws of a port

    From what the hardware does - a transmission completes, bytes do not come
    faster than they are read - the laws the framework relies on, and the
    precision of the baud rate. *)
From S2P Require Import Prelude Bytes KService Printf Output Object Device Serial SerialFifo SerialFacts Periph Registers Usart.

(** ** The data of a log *)


Definition fetched (u : usart) (x : mmio) : option Z :=
  match x with Rd (USART v U_DATAR) c => if decide (v = u) then Some (c .& 0xff) else None | _ => None end.
Definition stored_byte (u : usart) (x : mmio) : option Z :=
  match x with Wr (USART v U_DATAR) c => if decide (v = u) then Some c else None | _ => None end.

Definition usart_rxd (u : usart) (t : list mmio) : list Z := rev (omap (fetched u) t).
Definition usart_txd (u : usart) (t : list mmio) : list Z := rev (omap (stored_byte u) t).

(** ** Programs that move no data *)

Definition data_reg (r : reg) : bool := match r with USART _ U_DATAR => true | _ => false end.
Definition same_data (u : usart) (t t' : list mmio) : Prop :=
  usart_rxd u t' = usart_rxd u t /\ usart_txd u t' = usart_txd u t.

#[export] Instance same_data_undisturbed u : Undisturbed (same_data u) (fun r => negb (data_reg r)).
Proof.
  split.
  - split; [done|]. intros t1 t2 t3 [E1 E2] [E3 E4]. split; [by rewrite E3|by rewrite E4].
  - intros r v t Hr. unfold same_data, usart_rxd, usart_txd. cbn [omap list_omap].
    destruct r; try done. by match goal with q : usart_reg |- _ => destruct q end.
  - intros r v t Hr. unfold same_data, usart_rxd, usart_txd. cbn [omap list_omap].
    destruct r; try done. by match goal with q : usart_reg |- _ => destruct q end.
Qed.

Abbreviation calm u := (steady (same_data u)).

Section driver.
Context (hw : list mmio -> reg -> Z) (u : usart).

Lemma pins_no_data r : pin_or_clock r = true -> negb (data_reg r) = true.
Proof. by destruct r. Qed.
#[local] Hint Extern 1 (steady _ (GPIO_Init _ _ _ _ _)) => apply (steady_gpio pins_no_data) : steady.
#[local] Hint Extern 1 (steady _ (RCC_APB1PeriphClockCmd _ _ _)) => apply (steady_clock1 pins_no_data) : steady.
#[local] Hint Extern 1 (steady _ (RCC_APB2PeriphClockCmd _ _ _)) => apply (steady_clock2 pins_no_data) : steady.
#[local] Hint Extern 1 (steady _ (RCC_GetClocksFreq _)) => apply (steady_freq pins_no_data) : steady.
Lemma calm_init v i : calm u (USART_Init hw v i).
Proof. unfold USART_Init. steady. Qed.
Lemma calm_cmd v s : calm u (USART_Cmd hw v s).
Proof. unfold USART_Cmd. steady. Qed.
Lemma it_reg_control v it : negb (data_reg (USART v (it_reg it))) = true.
Proof. unfold it_reg. by repeat destruct (_ =? _). Qed.
#[local] Hint Resolve it_reg_control : steady.
Lemma calm_it v it s : calm u (USART_ITConfig hw v it s).
Proof. unfold USART_ITConfig. steady. Qed.
Lemma calm_flag v f : calm u (USART_GetFlagStatus hw v f).
Proof. unfold USART_GetFlagStatus. steady. Qed.
#[local] Hint Resolve calm_init calm_cmd calm_it calm_flag : steady.
Lemma configure_calm v cfg t : exists t', ch32_configure hw v cfg t = Some (RT_EOK, t') /\
  usart_rxd u t' = usart_rxd u t /\ usart_txd u t' = usart_txd u t.
Proof. unfold ch32_configure. apply (steady_then (R := same_data u)). steady. Qed.
Lemma control_calm v irq cmd t : exists t', ch32_control hw v irq cmd t = Some (RT_EOK, t') /\
  usart_rxd u t' = usart_rxd u t /\ usart_txd u t' = usart_txd u t.
Proof. unfold ch32_control, NVIC_EnableIRQ, NVIC_DisableIRQ. apply (steady_then (R := same_data u)). steady. Qed.

(** ** The port *)

(** What the hardware does: a transmission that has started completes within
    [fuel] polls, and after at most [n] bytes the receiver is found empty. *)
Context (fuel n : nat) (c : ch32_uart_config).
Record usart_law : Prop := {
  tc_law : forall t, is_Some (until fuel (USART_GetFlagStatus hw (Instance_ c) USART_FLAG_TC) t);
  rx_law : forall t, @quiet _ (ch32_uart_ops hw fuel c) n t }.
End driver.

Lemma calm_until fuel hw u v f t a t' : until fuel (USART_GetFlagStatus hw v f) t = Some (a, t') ->
  usart_rxd u t' = usart_rxd u t /\ usart_txd u t' = usart_txd u t.
Proof. apply (leaves_until (R := same_data u)), steady_leaves, calm_flag. Qed.
(** A driver of hardware that keeps its laws is a port. *)
#[export] Instance usart_laws hw fuel n c (Hlaw : usart_law hw fuel n c) :
  @UartLaws (list mmio) (ch32_uart_ops hw fuel c).
Proof.
  refine (Build_UartLaws _ (ch32_uart_ops hw fuel c) (usart_rxd (Instance_ c)) (usart_txd (Instance_ c)) n _ _ _ _ _).
  - intros t. cbn [getc ch32_uart_ops]. unfold ch32_getc, swap.
    destruct (calm_flag hw (Instance_ c) (Instance_ c) USART_FLAG_RXNE t) as (b & t1 & E1 & Er & Et).
    unfold mbind at 2, M_bind. rewrite E1. cbn [mbind option_bind]. destruct b; cbn.
    + do 2 eexists. split; [done|]. unfold usart_txd, usart_rxd in *. cbn [omap list_omap stored_byte fetched].
      rewrite decide_True by done. split; [done|]. right. split.
      * change 0xff with (Z.ones 8). rewrite Z.land_ones by lia. by apply Z.mod_pos_bound.
      * cbn [rev]. by rewrite Er.
    + do 2 eexists. split; [done|]. split; [done|]. by left.
  - exact (rx_law _ _ _ _ Hlaw).
  - intros ch t. cbn [putc ch32_uart_ops]. unfold ch32_putc, swap.
    destruct (tc_law _ _ _ _ Hlaw t) as [[a t1] E1].
    destruct (calm_until _ _ (Instance_ c) _ _ _ _ _ E1) as [Er Et].
    unfold mbind at 2, M_bind at 1. rewrite E1. cbn. do 2 eexists. split; [done|]. split; [done|].
    unfold usart_txd, usart_rxd in *. cbn [omap list_omap stored_byte fetched width]. rewrite decide_True by done.
    rewrite u16_small by (pose proof (u8_range ch); lia). cbn [rev]. by rewrite Et.
  - intros cmd arg t. cbn [control ch32_uart_ops]. unfold swap.
    destruct (control_calm hw (Instance_ c) (Instance_ c) (irq_type c) cmd t) as (t1 & E1 & Er & Et).
    rewrite E1. cbn. by exists t1.
  - intros cfg t. cbn [configure ch32_uart_ops]. unfold swap.
    destruct (configure_calm hw (Instance_ c) (Instance_ c) cfg t) as (t1 & E1 & Er & Et).
    rewrite E1. cbn. by exists t1.
Defined.

(** ** The baud rate *)

Lemma shiftl_lor a b k : 0 <= k -> 0 <= b < 2 ^ k -> (a ≪ k) .| b = 2 ^ k * a + b.
Proof.
  intros Hk Hb. assert ((a ≪ k) .& b = 0) as Hz.
  { apply Z.bits_inj'. intros n Hn. rewrite Z.land_spec, Z.bits_0. destruct (Z.ltb_spec n k).
    - by rewrite Z.shiftl_spec_low.
    - by rewrite (bits_above b k n), andb_false_r by lia. }
  pose proof (Z.add_lor_land (a ≪ k) b) as E. rewrite Hz in E. rewrite Z.shiftl_mul_pow2 in * by done. lia.
Qed.

(** The baud rate register, in sixteenths of the clock per bit, with
    oversampling by 16: the driver divides in hundredths and rounds the last
    two digits to sixteenths.  Unless these are 97, 98 or 99, the result is the
    nearest sixteenth; for these the rounding carries and the carry is lost, so
    the divider is almost one too small. *)
Theorem baud_rate_rounded apbclock baud : 0 < baud < 2 ^ 30 -> 0 <= 25 * apbclock < 2 ^ 32 ->
  let d := 25 * apbclock / (4 * baud) in
  let r := brr apbclock baud false false in
  (d `mod` 100 < 97 -> Z.abs (100 * r - 16 * d) <= 50) /\
  (97 <= d `mod` 100 -> 100 * r = 16 * (d - d `mod` 100)).
Proof.
  intros Hb Ha d r.
  assert (Hd : 0 <= d < 2 ^ 30) by (unfold d; split; [apply Z.div_pos; lia|apply Z.div_lt_upper_bound; lia]).
  assert (r = 16 * (d / 100) + ((16 * (d `mod` 100) + 50) / 100) `mod` 16) as ->.
  { unfold r, brr. rewrite (u32_small (25 * apbclock)), (u32_small (4 * baud)) by lia. fold d.
    rewrite (u32_small ((d / 100) ≪ 4)) by (rewrite Z.shiftl_mul_pow2 by lia; zlia).
    rewrite Z.shiftr_shiftl_l, Z.sub_diag, Z.shiftl_0_r by lia.
    assert (d - 100 * (d / 100) = d `mod` 100) as -> by zlia.
    pose proof (Z.mod_pos_bound d 100 ltac:(lia)).
    rewrite (u32_small (d `mod` 100)), (u32_small (_ * 16)), (u32_small (_ + 50)) by lia.
    change 0x0F with (Z.ones 4). rewrite Z.land_ones by lia.
    rewrite shiftl_lor by (try apply Z.mod_pos_bound; lia). do 4 f_equal. lia. }
  assert (d = 100 * (d / 100) + d `mod` 100) by zlia.
  pose proof (Z.mod_pos_bound d 100 ltac:(lia)). set (f := d `mod` 100) in *. set (q := d / 100) in *.
  split; intros Hf.
  - rewrite (Z.mod_small ((16 * f + 50) / 100)) by zlia. zlia.
  - assert ((16 * f + 50) / 100 = 16) as -> by zlia. change (16 `mod` 16) with 0. lia.
Qed.

(** At 72 MHz the console's rate is exact: 625 sixteenths are 115200 bit/s. *)
Lemma baud_rate_rounded_witness : 0 < 115200 < 2 ^ 30 /\ brr 72000000 115200 false false = 625 /\
  Z.abs (100 * brr 72000000 115200 false false - 16 * 3906) <= 50.
Proof.
  split; [lia|]. split; [by vm_compute|].
  exact (proj1 (baud_rate_rounded 72000000 115200 ltac:(lia) ltac:(lia)) ltac:(by vm_compute)).
Defined.
