(* ===== verification/Exti.v ===== *)
(** * Exti: pins and external interrupt lines

    The functions of [libraries/hal_libraries/ch32v307_hal/source/] the pin
    driver calls: [ch32v30x_exti.c] and, of [ch32v30x_gpio.c] and
    [core_riscv.h], pin levels, the choice of the port of a line and the
    priority of an interrupt. *)
From S2P Require Import Prelude Periph.

Definition GPIO_Pin_0 : Z := 0x0001.
Definition GPIO_Pin_1 : Z := 0x0002.
Definition GPIO_Pin_4 : Z := 0x0010.
Definition GPIO_Pin_5 : Z := 0x0020.
Definition GPIO_Pin_6 : Z := 0x0040.
Definition GPIO_Pin_7 : Z := 0x0080.
Definition GPIO_Pin_8 : Z := 0x0100.
Definition GPIO_Pin_12 : Z := 0x1000.
Definition GPIO_Pin_13 : Z := 0x2000.
Definition GPIO_Pin_14 : Z := 0x4000.
Definition GPIO_Pin_15 : Z := 0x8000.

Definition EXTI_Mode_Interrupt : Z := 0x00.
Definition EXTI_Trigger_Rising : Z := 0x08.
Definition EXTI_Trigger_Falling : Z := 0x0C.
Definition EXTI_Trigger_Rising_Falling : Z := 0x10.
Definition EXTI_LINENONE : Z := 0x00000.

Record EXTI_InitTypeDef := mk_exti_init {
  EXTI_Line : Z; EXTI_Mode : Z; EXTI_Trigger : Z; EXTI_LineCmd : FunctionalState }.

(** The register at an offset from [EXTI_BASE]. *)
Definition exti_at (offset : Z) : option reg :=
  match offset with
  | 0x00 => Some INTENR | 0x04 => Some EVENR | 0x08 => Some RTENR | 0x0C => Some FTENR
  | 0x10 => Some SWIEVR | 0x14 => Some INTFR | _ => None
  end.

Section exti.
Context (hw : list mmio -> reg -> Z).

(** ** [ch32v30x_exti.c] *)

Definition set_bits (r : reg) (bits : Z) : M unit := modify hw r (fun v => v .| bits).
Definition clear_bits (r : reg) (bits : Z) : M unit := modify hw r (fun v => Z.ldiff v bits).

Definition EXTI_DeInit : M unit :=
  _ ← write INTENR 0; _ ← write EVENR 0; _ ← write RTENR 0; _ ← write FTENR 0; write INTFR 0x000FFFFF.

Definition EXTI_Init (i : EXTI_InitTypeDef) : M unit :=
  let line := EXTI_Line i in
  if enabled (EXTI_LineCmd i) then
    _ ← clear_bits INTENR line;
    _ ← clear_bits EVENR line;
    _ ← (match exti_at (EXTI_Mode i) with Some r => set_bits r line | None => fun _ => None end);
    _ ← clear_bits RTENR line;
    _ ← clear_bits FTENR line;
    if EXTI_Trigger i =? EXTI_Trigger_Rising_Falling then _ ← set_bits RTENR line; set_bits FTENR line
    else match exti_at (EXTI_Trigger i) with Some r => set_bits r line | None => fun _ => None end
  else match exti_at (EXTI_Mode i) with Some r => clear_bits r line | None => fun _ => None end.

Definition EXTI_StructInit : EXTI_InitTypeDef :=
  mk_exti_init EXTI_LINENONE EXTI_Mode_Interrupt EXTI_Trigger_Falling DISABLE.

Definition EXTI_GenerateSWInterrupt (line : Z) : M unit := set_bits SWIEVR line.

Definition EXTI_GetFlagStatus (line : Z) : M bool :=
  v ← load hw INTFR; mret (negb (v .& line =? 0)).
Definition EXTI_ClearFlag (line : Z) : M unit := write INTFR line.

Definition EXTI_GetITStatus (line : Z) : M bool :=
  e ← load hw INTENR;
  v ← load hw INTFR;
  mret (negb (v .& line =? 0) && negb (e .& line =? 0)).
Definition EXTI_ClearITPendingBit (line : Z) : M unit := write INTFR line.

(** ** [ch32v30x_gpio.c] and [core_riscv.h] *)

Definition GPIO_ReadInputDataBit (p : port) (GPIO_Pin : Z) : M Z :=
  v ← load hw (INDR p); mret (if v .& GPIO_Pin =? 0 then 0 else 1).

Definition GPIO_WriteBit (p : port) (GPIO_Pin BitVal : Z) : M unit :=
  if negb (BitVal =? 0) then write (BSHR p) GPIO_Pin else write (BCR p) GPIO_Pin.

Definition GPIO_EXTILineConfig (GPIO_PortSource GPIO_PinSource : Z) : M unit :=
  let shift := 4 * (GPIO_PinSource .& 0x03) in
  _ ← clear_bits (EXTICR (GPIO_PinSource ≫ 2)) (0x0F ≪ shift);
  set_bits (EXTICR (GPIO_PinSource ≫ 2)) (GPIO_PortSource ≪ shift).

Definition NVIC_SetPriority (IRQn priority : Z) : M unit := write (IPRIOR IRQn) (u8 priority).
End exti.
