(* ===== verification/Pin.v ===== *)
(** * Pin: the pin device and its driver

    [components/drivers/misc/pin.c], the pin device over any driver, and
    [libraries/hal_drivers/drv_gpio.c], the driver of the board as register
    accesses, with the interrupt handlers of the external lines.  A handler
    attached to a pin is known by its address, 0 being [RT_NULL]. *)
From S2P Require Import Prelude Bytes KService Printf Output Object Device Periph Usart Exti.

Definition PIN_LOW : Z := 0x00.
Definition PIN_HIGH : Z := 0x01.
Definition PIN_MODE_OUTPUT : Z := 0x00.
Definition PIN_MODE_INPUT : Z := 0x01.
Definition PIN_MODE_INPUT_PULLUP : Z := 0x02.
Definition PIN_MODE_INPUT_PULLDOWN : Z := 0x03.
Definition PIN_MODE_OUTPUT_OD : Z := 0x04.
Definition PIN_IRQ_MODE_RISING : Z := 0x00.
Definition PIN_IRQ_MODE_FALLING : Z := 0x01.
Definition PIN_IRQ_MODE_RISING_FALLING : Z := 0x02.
Definition PIN_IRQ_DISABLE : Z := 0x00.
Definition PIN_IRQ_ENABLE : Z := 0x01.
Definition PIN_IRQ_PIN_NONE : Z := -1.

(** ** [pin.c] *)

(** [struct rt_pin_ops]; the last four may be missing.  [None] is a call that
    does not return. *)
Class PinOps (S : Type) := {
  pin_mode : Z -> Z -> S -> option S;
  pin_write : Z -> Z -> S -> option S;
  pin_read : Z -> S -> option (S * Z);
  pin_attach_irq : option (Z -> Z -> Z -> Z -> S -> option (S * Z));
  pin_detach_irq : option (Z -> S -> option (S * Z));
  pin_irq_enable : option (Z -> Z -> S -> option (S * Z));
  pin_get : option (list Z -> Z) }.

Record rt_device_pin_mode := mk_pin_mode { pm_pin : Z; pm_mode : Z }.
Record rt_device_pin_status := mk_pin_status { ps_pin : Z; ps_status : Z }.

Section pin.
Context {S : Type} `{PinOps S}.

Definition rt_pin_attach_irq (pin mode hdr args : Z) (s : S) : option (S * Z) :=
  match pin_attach_irq with Some f => f pin mode hdr args s | None => Some (s, - RT_ENOSYS) end.
Definition rt_pin_detach_irq (pin : Z) (s : S) : option (S * Z) :=
  match pin_detach_irq with Some f => f pin s | None => Some (s, - RT_ENOSYS) end.
Definition rt_pin_irq_enable (pin enabled : Z) (s : S) : option (S * Z) :=
  match pin_irq_enable with Some f => f pin enabled s | None => Some (s, - RT_ENOSYS) end.
Definition rt_pin_mode (pin mode : Z) (s : S) : option S := pin_mode pin mode s.
Definition rt_pin_write (pin value : Z) (s : S) : option S := pin_write pin value s.
Definition rt_pin_read (pin : Z) (s : S) : option (S * Z) := pin_read pin s.
Definition rt_pin_get (name : list Z) : Z :=
  match pin_get with Some f => f name | None => - RT_ENOSYS end.

(** The device interface: [buffer] is the structure the caller passes, of
    [size] bytes; the result is what it holds afterwards and the size. *)
Definition _pin_read (buffer : option rt_device_pin_status) (size : Z) (s : S)
    : option (S * option rt_device_pin_status * Z) :=
  match buffer with
  | Some status =>
      if negb (size =? 4) then Some (s, buffer, 0)
      else
        '(s, v) ← pin_read (ps_pin status) s;
        Some (s, Some (mk_pin_status (ps_pin status) (u16 v)), size)
  | None => Some (s, buffer, 0)
  end.
Definition _pin_write (buffer : option rt_device_pin_status) (size : Z) (s : S) : option (S * Z) :=
  match buffer with
  | Some status =>
      if negb (size =? 4) then Some (s, 0)
      else s ← pin_write (ps_pin status) (ps_status status) s; Some (s, size)
  | None => Some (s, 0)
  end.
Definition _pin_control (args : option rt_device_pin_mode) (s : S) : option (S * Z) :=
  match args with
  | None => Some (s, - RT_ERROR)
  | Some mode => s ← pin_mode (pm_pin mode) (pm_mode mode) s; Some (s, 0)
  end.
End pin.

(** [o] is the address of [_hw_pin]. *)
Definition rt_device_pin_register (o : Z) (name : list Z) (r : registry) (d : rt_device)
    : option (registry * rt_device * Z) :=
  let d := set_tx_complete None (set_rx_indicate None d) in
  '(r, d, _) ← rt_device_register o name RT_DEVICE_FLAG_RDWR r d;
  Some (r, d, 0).

(** ** [drv_gpio.c]: its tables *)

Record pin_index := mk_pin { index : Z; gpio : port; pin_bit : Z }.
Definition GPIO_Pins : list Z :=
  [GPIO_Pin_0; GPIO_Pin_1; GPIO_Pin_2; GPIO_Pin_3; GPIO_Pin_4; GPIO_Pin_5; GPIO_Pin_6; GPIO_Pin_7;
   GPIO_Pin_8; GPIO_Pin_9; GPIO_Pin_10; GPIO_Pin_11; GPIO_Pin_12; GPIO_Pin_13; GPIO_Pin_14; GPIO_Pin_15].
(** The sixteen pins of a port. *)
Definition port_pins (first : Z) (p : port) : list pin_index :=
  zip_with (fun i bit => mk_pin (first + Z.of_nat i) p bit) (seq 0 16) GPIO_Pins.
Definition pins : list pin_index :=
  port_pins 0 GPIOA ++ port_pins 16 GPIOB ++ port_pins 32 GPIOC ++ port_pins 48 GPIOD ++ port_pins 64 GPIOE.

Definition EXTI0_IRQn : Z := 22.
Definition EXTI1_IRQn : Z := 23.
Definition EXTI2_IRQn : Z := 24.
Definition EXTI3_IRQn : Z := 25.
Definition EXTI4_IRQn : Z := 26.
Definition EXTI9_5_IRQn : Z := 39.
Definition EXTI15_10_IRQn : Z := 56.

Record pin_irq_map_t := mk_irq_map { pinbit : Z; irqno : Z }.
Definition pin_irq_map : list pin_irq_map_t :=
  [mk_irq_map GPIO_Pin_0 EXTI0_IRQn; mk_irq_map GPIO_Pin_1 EXTI1_IRQn; mk_irq_map GPIO_Pin_2 EXTI2_IRQn;
   mk_irq_map GPIO_Pin_3 EXTI3_IRQn; mk_irq_map GPIO_Pin_4 EXTI4_IRQn; mk_irq_map GPIO_Pin_5 EXTI9_5_IRQn;
   mk_irq_map GPIO_Pin_6 EXTI9_5_IRQn; mk_irq_map GPIO_Pin_7 EXTI9_5_IRQn; mk_irq_map GPIO_Pin_8 EXTI9_5_IRQn;
   mk_irq_map GPIO_Pin_9 EXTI9_5_IRQn; mk_irq_map GPIO_Pin_10 EXTI15_10_IRQn; mk_irq_map GPIO_Pin_11 EXTI15_10_IRQn;
   mk_irq_map GPIO_Pin_12 EXTI15_10_IRQn; mk_irq_map GPIO_Pin_13 EXTI15_10_IRQn;
   mk_irq_map GPIO_Pin_14 EXTI15_10_IRQn; mk_irq_map GPIO_Pin_15 EXTI15_10_IRQn].

Record rt_pin_irq_hdr := mk_hdr { h_pin : Z; h_mode : Z; h_hdr : Z; h_args : Z }.
Definition free_hdr : rt_pin_irq_hdr := mk_hdr (-1) 0 0 0.

(** The driver's globals. *)
Record pin_state := mk_pin_state { pin_irq_hdr_tab : list rt_pin_irq_hdr; pin_irq_enable_mask : Z }.
Definition pin_boot : pin_state := mk_pin_state (repeat free_hdr 16) 0.
Definition set_hdr (i : Z) (h : rt_pin_irq_hdr) (st : pin_state) : pin_state :=
  mk_pin_state (<[Z.to_nat i := h]> (pin_irq_hdr_tab st)) (pin_irq_enable_mask st).
Definition set_mask (m : Z) (st : pin_state) : pin_state := mk_pin_state (pin_irq_hdr_tab st) (u32 m).

Definition get_pin (pin : Z) : option pin_index :=
  let pin := u8 pin in
  if pin <? Z.of_nat (length pins) then
    index_ ← pins !!z pin;
    if index index_ =? -1 then None else Some index_
  else None.

Fixpoint bitno_loop (n : nat) (i bit : Z) : Z :=
  match n with
  | O => -1
  | S n => if 1 ≪ i =? bit then i else bitno_loop n (i + 1) bit
  end.
Definition bit2bitno (bit : Z) : Z := bitno_loop 32 0 bit.

Definition no_line (i : Z) : bool := (i <? 0) || (i >=? Z.of_nat (length pin_irq_map)).
Definition get_pin_irq_map (pinbit : Z) : option pin_irq_map_t :=
  let mapindex := bit2bitno pinbit in
  if no_line mapindex then None else pin_irq_map !!z mapindex.

(** ** [drv_gpio.c]: the operations *)

Definition ch32_pin_attach_irq (pin mode hdr args : Z) (st : pin_state) : option (pin_state * Z) :=
  match get_pin pin with
  | None => Some (st, RT_ENOSYS)
  | Some index_ =>
      let irqindex := bit2bitno (pin_bit index_) in
      if no_line irqindex then Some (st, RT_ENOSYS)
      else
        h ← pin_irq_hdr_tab st !!z irqindex;
        if (h_pin h =? pin) && (h_hdr h =? hdr) && (h_mode h =? mode) && (h_args h =? args)
        then Some (st, RT_EOK)
        else if negb (h_pin h =? -1) then Some (st, RT_EBUSY)
        else Some (set_hdr irqindex (mk_hdr (s16 pin) (u16 mode) hdr args) st, RT_EOK)
  end.

Definition ch32_pin_dettach_irq (pin : Z) (st : pin_state) : option (pin_state * Z) :=
  match get_pin pin with
  | None => Some (st, RT_ENOSYS)
  | Some index_ =>
      let irqindex := bit2bitno (pin_bit index_) in
      if no_line irqindex then Some (st, RT_ENOSYS)
      else
        h ← pin_irq_hdr_tab st !!z irqindex;
        if h_pin h =? -1 then Some (st, RT_EOK)
        else Some (set_hdr irqindex free_hdr st, RT_EOK)
  end.

Section driver.
Context (hw : list mmio -> reg -> Z).

Definition ch32_pin_write (pin value : Z) : M unit :=
  match get_pin pin with
  | None => mret tt
  | Some index_ => GPIO_WriteBit (gpio index_) (pin_bit index_) value
  end.

Definition ch32_pin_read (pin : Z) : M Z :=
  match get_pin pin with
  | None => mret PIN_LOW
  | Some index_ => GPIO_ReadInputDataBit hw (gpio index_) (pin_bit index_)
  end.

Definition mode_of (mode : Z) : GPIOMode :=
  if mode =? PIN_MODE_OUTPUT then GPIO_Mode_Out_PP
  else if mode =? PIN_MODE_INPUT then GPIO_Mode_IN_FLOATING
  else if mode =? PIN_MODE_INPUT_PULLUP then GPIO_Mode_IPU
  else if mode =? PIN_MODE_INPUT_PULLDOWN then GPIO_Mode_IPD
  else if mode =? PIN_MODE_OUTPUT_OD then GPIO_Mode_Out_OD
  else GPIO_Mode_Out_PP.

Definition ch32_pin_mode (pin mode : Z) : M unit :=
  match get_pin pin with
  | None => mret tt
  | Some index_ => GPIO_Init hw (gpio index_) (pin_bit index_) GPIO_Speed_50MHz (mode_of mode)
  end.

(** The settings of the pin and of its line for a mode; a mode the switch does
    not know leaves both zero. *)
Definition irq_setting (mode : Z) : GPIOMode * Z :=
  if mode =? PIN_IRQ_MODE_RISING then (GPIO_Mode_IPD, EXTI_Trigger_Rising)
  else if mode =? PIN_IRQ_MODE_FALLING then (GPIO_Mode_IPU, EXTI_Trigger_Falling)
  else if mode =? PIN_IRQ_MODE_RISING_FALLING then (GPIO_Mode_IN_FLOATING, EXTI_Trigger_Rising_Falling)
  else (GPIO_Mode_AIN, 0).

Definition port_source (p : port) : Z :=
  match p with GPIOA => 0 | GPIOB => 1 | GPIOC => 2 | GPIOD => 3 | GPIOE => 4 end.

Definition irq_on (index_ : pin_index) (st : pin_state) : M (pin_state * Z) :=
  let irqindex := bit2bitno (pin_bit index_) in
  if no_line irqindex then mret (st, RT_ENOSYS)
  else
    match pin_irq_hdr_tab st !!z irqindex, pin_irq_map !!z irqindex with
    | Some h, Some irqmap =>
        if h_pin h =? -1 then mret (st, RT_ENOSYS)
        else
          let '(mode, trigger) := irq_setting (h_mode h) in
          _ ← GPIO_Init hw (gpio index_) (pin_bit index_) GPIO_Speed_50MHz mode;
          _ ← GPIO_EXTILineConfig hw (port_source (gpio index_)) (u8 irqindex);
          _ ← EXTI_Init hw (mk_exti_init (pin_bit index_) EXTI_Mode_Interrupt trigger ENABLE);
          _ ← NVIC_SetPriority (irqno irqmap) (5 ≪ 4);
          _ ← NVIC_EnableIRQ (irqno irqmap);
          mret (set_mask (pin_irq_enable_mask st .| pinbit irqmap) st, RT_EOK)
    | _, _ => fun _ => None
    end.

Definition irq_off (index_ : pin_index) (st : pin_state) : M (pin_state * Z) :=
  match get_pin_irq_map (pin_bit index_) with
  | None => mret (st, RT_ENOSYS)
  | Some irqmap =>
      let st := set_mask (Z.ldiff (pin_irq_enable_mask st) (pinbit irqmap)) st in
      _ ← (if (pinbit irqmap >=? GPIO_Pin_5) && (pinbit irqmap <=? GPIO_Pin_9) then
             if pin_irq_enable_mask st .& (GPIO_Pin_5 .| GPIO_Pin_6 .| GPIO_Pin_7 .| GPIO_Pin_8 .| GPIO_Pin_9) =? 0
             then NVIC_DisableIRQ (irqno irqmap) else mret tt
           else if (pinbit irqmap >=? GPIO_Pin_10) && (pinbit irqmap <=? GPIO_Pin_15) then
             if pin_irq_enable_mask st .& (GPIO_Pin_10 .| GPIO_Pin_11 .| GPIO_Pin_12 .| GPIO_Pin_13 .|
                                           GPIO_Pin_14 .| GPIO_Pin_15) =? 0
             then NVIC_DisableIRQ (irqno irqmap) else mret tt
           else NVIC_DisableIRQ (irqno irqmap));
      mret (st, RT_EOK)
  end.

Definition ch32_pin_irq_enable (pin enabled : Z) (st : pin_state) : M (pin_state * Z) :=
  match get_pin pin with
  | None => mret (st, RT_ENOSYS)
  | Some index_ =>
      if enabled =? PIN_IRQ_ENABLE then irq_on index_ st
      else if enabled =? PIN_IRQ_DISABLE then irq_off index_ st
      else mret (st, - RT_ENOSYS)
  end.

(** [_ch32_pin_ops]: no [pin_get]. *)
#[export] Instance ch32_pin_ops : PinOps (pin_state * list mmio) := {
  pin_mode pin mode s := '(_, t) ← ch32_pin_mode pin mode s.2; Some (s.1, t);
  pin_write pin value s := '(_, t) ← ch32_pin_write pin value s.2; Some (s.1, t);
  pin_read pin s := '(v, t) ← ch32_pin_read pin s.2; Some ((s.1, t), v);
  pin_attach_irq := Some (fun pin mode hdr args s =>
    '(st, r) ← ch32_pin_attach_irq pin mode hdr args s.1; Some ((st, s.2), r));
  pin_detach_irq := Some (fun pin s => '(st, r) ← ch32_pin_dettach_irq pin s.1; Some ((st, s.2), r));
  pin_irq_enable := Some (fun pin enabled s =>
    '((st, r), t) ← ch32_pin_irq_enable pin enabled s.1 s.2; Some ((st, t), r));
  pin_get := None }.

(** ** The interrupt handlers

    What they come to: the calls of attached handlers, address and argument. *)

Definition pin_irq_hdr (irqno : Z) (st : pin_state) : option (list (Z * Z)) :=
  h ← pin_irq_hdr_tab st !!z irqno;
  Some (if negb (h_hdr h =? 0) then [(h_hdr h, h_args h)] else []).

Definition HAL_GPIO_EXTI_Callback (GPIO_Pin : Z) (st : pin_state) : option (list (Z * Z)) :=
  pin_irq_hdr (bit2bitno GPIO_Pin) st.

(** [||] over the lines: the rest is not looked at when one is pending. *)
Fixpoint any_pending (lines : list Z) : M bool :=
  match lines with
  | [] => mret false
  | l :: lines => b ← EXTI_GetITStatus hw l; if b : bool then mret true else any_pending lines
  end.

Fixpoint callbacks_of (GPIO_Pins : list Z) (st : pin_state) : option (list (Z * Z)) :=
  match GPIO_Pins with
  | [] => Some []
  | p :: ps => c ← HAL_GPIO_EXTI_Callback p st; cs ← callbacks_of ps st; Some (c ++ cs)
  end.

(** A handler of a vector with some lines. *)
Definition exti_handler (lines : list Z) (st : pin_state) : M (list (Z * Z)) :=
  b ← any_pending lines;
  if b : bool then
    match callbacks_of lines st with
    | Some calls => _ ← EXTI_ClearITPendingBit (foldl Z.lor 0 lines); mret calls
    | None => fun _ => None
    end
  else mret [].

Definition EXTI0_IRQHandler : pin_state -> M (list (Z * Z)) := exti_handler [GPIO_Pin_0].
Definition EXTI1_IRQHandler : pin_state -> M (list (Z * Z)) := exti_handler [GPIO_Pin_1].
Definition EXTI2_IRQHandler : pin_state -> M (list (Z * Z)) := exti_handler [GPIO_Pin_2].
Definition EXTI3_IRQHandler : pin_state -> M (list (Z * Z)) := exti_handler [GPIO_Pin_3].
Definition EXTI4_IRQHandler : pin_state -> M (list (Z * Z)) := exti_handler [GPIO_Pin_4].
Definition EXTI9_5_IRQHandler : pin_state -> M (list (Z * Z)) :=
  exti_handler [GPIO_Pin_5; GPIO_Pin_6; GPIO_Pin_7; GPIO_Pin_8; GPIO_Pin_9].

(** The entries of the vector table of [startup_ch32v30x.S]; the one of lines 10
    to 15 is left at its default, which never returns. *)
Definition exti_vector (irq : Z) : option (pin_state -> M (list (Z * Z))) :=
  if irq =? EXTI0_IRQn then Some EXTI0_IRQHandler
  else if irq =? EXTI1_IRQn then Some EXTI1_IRQHandler
  else if irq =? EXTI2_IRQn then Some EXTI2_IRQHandler
  else if irq =? EXTI3_IRQn then Some EXTI3_IRQHandler
  else if irq =? EXTI4_IRQn then Some EXTI4_IRQHandler
  else if irq =? EXTI9_5_IRQn then Some EXTI9_5_IRQHandler
  else if irq =? EXTI15_10_IRQn then Some (fun _ _ => None)
  else None.

Definition RCC_APB2Periph_AFIO : Z := 0x00000001.
Definition RCC_APB2Periph_GPIOD : Z := 0x00000020.
Definition RCC_APB2Periph_GPIOE : Z := 0x00000040.

Definition rt_hw_pin_init (o : Z) (r : registry) (d : rt_device) (t : list mmio)
    : option (registry * rt_device * Z * list mmio) :=
  '(_, t) ← RCC_APB2PeriphClockCmd hw
    (RCC_APB2Periph_GPIOA .| RCC_APB2Periph_GPIOB .| RCC_APB2Periph_GPIOC .| RCC_APB2Periph_GPIOD .|
     RCC_APB2Periph_GPIOE .| RCC_APB2Periph_AFIO) ENABLE t;
  '(r, d, ret) ← rt_device_pin_register o (chars "pin" ++ [0]) r d;
  Some (r, d, ret, t).
End driver.
