(* ===== verification/PinFacts.v ===== *)
(** * PinFacts: which pin interrupts, and what is called

    The lines of the external interrupts as the driver programs them, over
    hardware whose configuration registers hold what is written to them. *)
From S2P Require Import Prelude Bytes KService Printf Output Object Device Periph Registers Usart UsartFacts Exti Pin.

(** ** Registers that hold what is written *)

Definition held (r : reg) : bool :=
  match r with INTENR | EVENR | RTENR | FTENR | EXTICR _ => true | _ => false end.
(** Zero from reset. *)
Definition bank (hw : list mmio -> reg -> Z) : Prop := forall t r, held r = true -> width r (hw t r) = value r t.

Lemma u32_idem z : u32 (u32 z) = u32 z.
Proof. unfold u32. by rewrite Z.mod_mod. Qed.

(** An interrupt is on between a write of its bit to an enable register and
    one to a disable register. *)
Fixpoint vector_on (n : Z) (t : list mmio) : bool :=
  match t with
  | [] => false
  | Wr (IENR i) v :: t => if (i =? n ≫ 5) && Z.testbit v (n .& 0x1F) then true else vector_on n t
  | Wr (IRER i) v :: t => if (i =? n ≫ 5) && Z.testbit v (n .& 0x1F) then false else vector_on n t
  | _ :: t => vector_on n t
  end.

(** ** Lines *)

Record exti_line := mk_line { on_ : bool; rises : bool; falls : bool; source : Z }.
Definition line (t : list mmio) (i : Z) : exti_line :=
  mk_line (Z.testbit (value INTENR t) i) (Z.testbit (value RTENR t) i) (Z.testbit (value FTENR t) i)
    ((value (EXTICR (i ≫ 2)) t ≫ (4 * (i .& 3))) .& 15).
Definition line_off : exti_line := mk_line false false false 0.

Lemma line_reset i : line [] i = line_off.
Proof. unfold line, line_off. cbn [value]. rewrite !Z.bits_0. f_equal. by rewrite Z.shiftr_0_l. Qed.

(** The configuration is what one looks at; pins and clocks do not touch it. *)
Definition same_lines (t t' : list mmio) : Prop :=
  (forall r, held r = true -> value r t' = value r t) /\ (forall n, vector_on n t' = vector_on n t).
Definition no_line_reg (r : reg) : bool :=
  negb (held r) && match r with IENR _ | IRER _ => false | _ => true end.

#[export] Instance same_lines_undisturbed : Undisturbed same_lines no_line_reg.
Proof.
  split.
  - split; [done|]. intros t1 t2 t3 [H1 H2] [H3 H4]. split; [intros r Hr; by rewrite H3, H1|intros n; by rewrite H4, H2].
  - done.
  - intros r v t Hr. apply andb_true_iff in Hr as [Hh Hn]. apply negb_true_iff in Hh. split.
    + intros r' Hr'. cbn [value]. rewrite decide_False; [done|]. intros ->. congruence.
    + intros n. by destruct r.
Qed.

Lemma same_line t t' i : same_lines t t' -> line t' i = line t i.
Proof. intros [Hv _]. unfold line. by rewrite !Hv. Qed.

Lemma pins_no_line r : pin_or_clock r = true -> no_line_reg r = true.
Proof. by destruct r. Qed.

(** ** One register *)

Section bank.
Context (hw : list mmio -> reg -> Z) (Hbank : bank hw).

Lemma modify_run r f t : held r = true ->
  modify hw r f t = Some (tt, Wr r (width r (f (value r t))) :: Rd r (value r t) :: t).
Proof. intros Hr. unfold modify, load, write, mbind, M_bind. by rewrite Hbank. Qed.

End bank.

(** ** Bits *)

Lemma testbit_or v i j : 0 <= i -> 0 <= j < 32 -> Z.testbit (u32 (v .| 2 ^ i)) j = (j =? i) || Z.testbit v j.
Proof.
  intros Hi Hj. rewrite u32_testbit, Z.lor_spec, Z.pow2_bits_eqb by lia. by rewrite Z.eqb_sym, orb_comm.
Qed.
Lemma testbit_clear v i j : 0 <= i -> 0 <= j < 32 -> Z.testbit (u32 (Z.ldiff v (2 ^ i))) j = negb (j =? i) && Z.testbit v j.
Proof.
  intros Hi Hj. rewrite u32_testbit, Z.ldiff_spec, Z.pow2_bits_eqb by lia. by rewrite Z.eqb_sym, andb_comm.
Qed.

(** A nibble replaced. *)
Lemma nibble_set v p k k' : 0 <= p < 16 -> 0 <= k < 4 -> 0 <= k' < 4 ->
  (u32 (u32 (Z.ldiff v (0x0F ≪ (4 * k))) .| (p ≪ (4 * k))) ≫ (4 * k')) .& 15 =
  if k' =? k then p else (v ≫ (4 * k')) .& 15.
Proof.
  intros Hp Hk Hk'. change (nibble (u32 (u32 (Z.ldiff v (0xF ≪ (4 * k))) .| (p ≪ (4 * k)))) k' = if k' =? k then p else nibble v k').
  rewrite nibble_u32, nibble_lor, nibble_u32, <- nibble_lor by lia. apply nibble_put; lia.
Qed.
(** ** The settings of a line *)

(** A line set up for edges, at a port. *)
Definition edges (trigger : Z) : bool * bool :=
  if trigger =? EXTI_Trigger_Rising_Falling then (true, true)
  else (trigger =? EXTI_Trigger_Rising, trigger =? EXTI_Trigger_Falling).
Definition set_line (trigger source : Z) : exti_line :=
  mk_line true (edges trigger).1 (edges trigger).2 source.

Section lines.
Context (hw : list mmio -> reg -> Z) (Hbank : bank hw).

Lemma bind_modify {B} r f (k : unit -> M B) t : held r = true ->
  (x ← modify hw r f; k x) t = k tt (Wr r (width r (f (value r t))) :: Rd r (value r t) :: t).
Proof. intros Hr. unfold mbind, M_bind at 1. by rewrite modify_run. Qed.

Ltac settle := cbn [value width]; repeat (first [rewrite decide_True by done | rewrite decide_False by done]);
  rewrite ?u32_idem.

Lemma exti_init_run i trigger t : 0 <= i < 16 ->
  trigger = EXTI_Trigger_Rising \/ trigger = EXTI_Trigger_Falling \/ trigger = EXTI_Trigger_Rising_Falling ->
  exists t', EXTI_Init hw (mk_exti_init (2 ^ i) EXTI_Mode_Interrupt trigger ENABLE) t = Some (tt, t') /\
  (forall j, 0 <= j < 16 -> Z.testbit (value INTENR t') j = (j =? i) || Z.testbit (value INTENR t) j /\
     Z.testbit (value RTENR t') j = (if j =? i then (edges trigger).1 else Z.testbit (value RTENR t) j) /\
     Z.testbit (value FTENR t') j = (if j =? i then (edges trigger).2 else Z.testbit (value FTENR t) j)) /\
  (forall k, value (EXTICR k) t' = value (EXTICR k) t) /\ (forall n, vector_on n t' = vector_on n t).
Proof.
  intros Hi Ht. unfold EXTI_Init, set_bits, clear_bits. cbn [EXTI_Line EXTI_LineCmd EXTI_Mode EXTI_Trigger enabled].
  change (exti_at EXTI_Mode_Interrupt) with (Some INTENR). cbv iota.
  rewrite !bind_modify by done.
  destruct Ht as [Ht|[Ht|Ht]]; subst trigger.
  all: first [change (_ =? EXTI_Trigger_Rising_Falling) with false | change (_ =? EXTI_Trigger_Rising_Falling) with true].
  all: cbv iota; try change (exti_at EXTI_Trigger_Rising) with (Some RTENR);
    try change (exti_at EXTI_Trigger_Falling) with (Some FTENR); cbv iota.
  all: rewrite ?bind_modify by done; rewrite modify_run by done; eexists; split; [reflexivity|].
  all: split; [|split; [intros k; by settle|done]].
  all: intros j Hj; settle; cbn [width]; rewrite ?testbit_or, ?testbit_clear by lia.
  all: unfold edges; cbn [fst snd].
  all: destruct (j =? i); cbn; done.
Qed.

Lemma split_bits n w : 0 <= w -> n = (n ≫ w) * 2 ^ w + (n .& Z.ones w).
Proof. intros Hw. rewrite Z.shiftr_div_pow2, Z.land_ones by done. pose proof (Z.div_mod n (2 ^ w)). lia. Qed.

Lemma line_config_run i p t : 0 <= i < 16 -> 0 <= p < 16 ->
  exists t', GPIO_EXTILineConfig hw p i t = Some (tt, t') /\
  (forall j, 0 <= j < 16 -> line t' j = mk_line (on_ (line t j)) (rises (line t j)) (falls (line t j))
     (if j =? i then p else source (line t j))) /\ (forall n, vector_on n t' = vector_on n t).
Proof.
  intros Hi Hp. unfold GPIO_EXTILineConfig, set_bits, clear_bits. rewrite bind_modify by done.
  rewrite modify_run by done. eexists. split; [reflexivity|]. split; [|done]. intros j Hj. unfold line. settle.
  cbn [on_ rises falls source]. f_equal. destruct (decide (EXTICR (i ≫ 2) = EXTICR (j ≫ 2))) as [E|E].
  - injection E as E. pose proof (split_bits i 2 ltac:(lia)). pose proof (split_bits j 2 ltac:(lia)).
    change (Z.ones 2) with 3 in *. rewrite E. settle. cbn [width]. change 0x03 with 3.
    assert (0 <= i .& 3 < 4 /\ 0 <= j .& 3 < 4) as [Hi3 Hj3]
      by (change 3 with (Z.ones 2); rewrite !Z.land_ones by lia; split; apply Z.mod_pos_bound; lia).
    rewrite nibble_set by done. replace (j .& 3 =? i .& 3) with (j =? i); [done|].
    destruct (Z.eqb_spec j i), (Z.eqb_spec (j .& 3) (i .& 3)); try done; subst; try done.
    change (2 ^ 2) with 4 in *. lia.
  - destruct (Z.eqb_spec j i) as [->|]; done.
Qed.

Lemma vector_enabled n m t : 0 <= n < 256 -> 0 <= m < 256 ->
  vector_on m (Wr (IENR (n ≫ 5)) (u32 (1 ≪ (n .& 0x1F))) :: t) = (m =? n) || vector_on m t.
Proof.
  intros Hn Hm. cbn [vector_on].
  pose proof (split_bits n 5 ltac:(lia)) as En. pose proof (split_bits m 5 ltac:(lia)) as Em.
  change (Z.ones 5) with 0x1F in *.
  assert (0 <= n .& 0x1F < 32 /\ 0 <= m .& 0x1F < 32) as [Hn5 Hm5]
    by (change 0x1F with (Z.ones 5); rewrite !Z.land_ones by lia; split; apply Z.mod_pos_bound; lia).
  rewrite Z.shiftl_1_l, u32_testbit, Z.pow2_bits_eqb by lia. change (2 ^ 5) with 32 in *.
  destruct (Z.eqb_spec (n ≫ 5) (m ≫ 5)), (Z.eqb_spec (n .& 0x1F) (m .& 0x1F)), (Z.eqb_spec m n); cbn; try done; lia.
Qed.
End lines.

(** ** Pins *)

(** The line of a pin and the interrupt of a line. *)
Definition line_of (pin : Z) : Z := pin `mod` 16.
Definition irq_of (i : Z) : Z := match pin_irq_map !!z i with Some m => irqno m | None => 0 end.

Definition pin_check (n : Z) : bool :=
  match get_pin n, pin_irq_map !!z (line_of n) with
  | Some x, Some m => (pin_bit x =? 2 ^ line_of n) && (port_source (gpio x) =? n / 16) &&
      (bit2bitno (pin_bit x) =? line_of n) && (pinbit m =? 2 ^ line_of n) && (0 <=? irqno m) && (irqno m <? 256)
  | _, _ => false
  end.

Lemma pin_spec n : 0 <= n < 80 -> exists x m, get_pin n = Some x /\ pin_irq_map !!z (line_of n) = Some m /\
  pin_bit x = 2 ^ line_of n /\ port_source (gpio x) = n / 16 /\ bit2bitno (2 ^ line_of n) = line_of n /\
  pinbit m = 2 ^ line_of n /\ 0 <= irqno m < 256.
Proof.
  intros Hn. assert (forallb pin_check (seqZ 0 80) = true) as E by (by vm_compute).
  rewrite forallb_forall in E. specialize (E n). unfold pin_check in E.
  destruct (get_pin n) as [x|]; [|by discriminate E; apply list_elem_of_In, elem_of_seqZ].
  destruct (pin_irq_map !!z line_of n) as [m|]; [|by discriminate E; apply list_elem_of_In, elem_of_seqZ].
  exists x, m. specialize (E ltac:(apply list_elem_of_In, elem_of_seqZ; lia)).
  rewrite !andb_true_iff in E. destruct E as [[[[[E1 E2] E3] E4] E5] E6].
  apply Z.eqb_eq in E1, E2, E3, E4. apply Z.leb_le in E5. apply Z.ltb_lt in E6. rewrite E1 in E3. by split_and!.
Qed.

Lemma line_of_range n : 0 <= line_of n < 16.
Proof. apply Z.mod_pos_bound. lia. Qed.
Lemma line_ok n : no_line (line_of n) = false.
Proof. pose proof (line_of_range n). unfold no_line. cbn. by rewrite (proj2 (Z.ltb_ge _ _)), Z.geb_leb, (proj2 (Z.leb_gt _ _)) by lia. Qed.

Section pins.
Context (hw : list mmio -> reg -> Z) (Hbank : bank hw).

Lemma irq_setting_trigger mode : 0 <= mode <= 2 ->
  (irq_setting mode).2 = EXTI_Trigger_Rising \/ (irq_setting mode).2 = EXTI_Trigger_Falling \/
  (irq_setting mode).2 = EXTI_Trigger_Rising_Falling.
Proof. intros Hm. assert (mode = 0 \/ mode = 1 \/ mode = 2) as [-> |[-> | ->]] by lia; cbn; tauto. Qed.

Lemma irq_on_run n st t h : 0 <= n < 80 -> pin_irq_hdr_tab st !!z line_of n = Some h -> h_pin h <> -1 ->
  0 <= h_mode h <= 2 -> exists t',
  ch32_pin_irq_enable hw n PIN_IRQ_ENABLE st t =
    Some ((set_mask (pin_irq_enable_mask st .| 2 ^ line_of n) st, RT_EOK), t') /\
  (forall j, 0 <= j < 16 -> line t' j = if j =? line_of n then set_line (irq_setting (h_mode h)).2 (n / 16) else line t j) /\
  (forall m, 0 <= m < 256 -> vector_on m t' = (m =? irq_of (line_of n)) || vector_on m t).
Proof.
  intros Hn Hh Hp Hm. destruct (pin_spec n Hn) as (x & im & Ex & Em & Eb & Es & Ebn & Epb & Hir).
  pose proof (line_of_range n) as Hl. pose proof (irq_setting_trigger _ Hm) as Htr.
  unfold ch32_pin_irq_enable. rewrite Ex. change (PIN_IRQ_ENABLE =? PIN_IRQ_ENABLE) with true. cbv iota.
  unfold irq_on. rewrite Eb, Ebn, line_ok, Hh, Em, (proj2 (Z.eqb_neq _ _)) by done.
  destruct (irq_setting (h_mode h)) as [mode trigger] eqn:Est. cbn [snd] in Htr.
  destruct (steady_gpio (R := same_lines) pins_no_line hw (gpio x) (2 ^ line_of n) GPIO_Speed_50MHz mode t)
    as ([] & t1 & E1 & Hs1).
  rewrite (bind_run _ _ _ _ _ E1). rewrite u8_small by lia.
  destruct (line_config_run hw Hbank (line_of n) (port_source (gpio x)) t1) as (t2 & E2 & Hl2 & Hv2);
    [done|rewrite Es; zlia|].
  rewrite (bind_run _ _ _ _ _ E2).
  destruct (exti_init_run hw Hbank (line_of n) trigger t2 Hl Htr) as (t3 & E3 & Hl3 & Hk3 & Hv3).
  rewrite (bind_run _ _ _ _ _ E3). unfold NVIC_SetPriority.
  erewrite (bind_run (write _ _)) by reflexivity.
  eexists. rewrite (bind_run _ _ _ tt _ eq_refl), Epb. split; [reflexivity|].
  assert (forall j, line (Wr (IENR (irqno im ≫ 5)) (u32 (1 ≪ (irqno im .& 0x1F))) ::
    Wr (IPRIOR (irqno im)) (u32 (u8 (5 ≪ 4))) :: t3) j = line t3 j) as E5 by done.
  split.
  - intros j Hj. cbn [width]. rewrite E5. destruct (Hl3 j Hj) as (Ei & Er & Ef).
    pose proof (Hl2 j Hj) as E. rewrite (same_line _ _ j Hs1) in E. unfold line in E |- *. injection E as Ei2 Er2 Ef2 Es2.
    rewrite Ei, Er, Ef, Hk3, Ei2, Er2, Ef2, Es2. destruct (j =? line_of n); [|done].
    unfold set_line. by rewrite Es.
  - intros m Hm'. cbn [width]. rewrite vector_enabled by done. cbn [vector_on].
    rewrite Hv3, Hv2, (proj2 Hs1). unfold irq_of. by rewrite Em.
Qed.

Lemma attach_run n mode hdr args st h : 0 <= n < 80 -> pin_irq_hdr_tab st !!z line_of n = Some h -> h_pin h = -1 ->
  ch32_pin_attach_irq n mode hdr args st = Some (set_hdr (line_of n) (mk_hdr n (u16 mode) hdr args) st, RT_EOK).
Proof.
  intros Hn Hh Hp. destruct (pin_spec n Hn) as (x & m & Ex & _ & Eb & _ & Ebn & _).
  unfold ch32_pin_attach_irq. rewrite Ex, Eb, Ebn, line_ok, Hh. cbn [mbind option_bind].
  rewrite Hp, (proj2 (Z.eqb_neq (-1) n)) by lia. cbn [andb]. change (negb (-1 =? -1)) with false. cbv iota.
  by rewrite s16_small by lia.
Qed.

(** ** The interrupt *)

Definition is_read (x : mmio) : Prop := match x with Rd _ _ => True | _ => False end.

(** Until something is written, the pending lines are [pend]. *)
Definition settled (t : list mmio) (pend : Z) : Prop :=
  forall x, Forall is_read x -> width INTFR (hw (x ++ t) INTFR) = pend.

Lemma reads_same x t : Forall is_read x -> (forall r, value r (x ++ t) = value r t) /\ forall n, vector_on n (x ++ t) = vector_on n t.
Proof. induction 1 as [|[] x Hx _ [IH1 IH2]]; done. Qed.

Lemma any_pending_run t pend ls : settled t pend -> Forall (fun i => 0 <= i) ls -> forall x, Forall is_read x ->
  exists y, Forall is_read y /\ any_pending hw (map (fun i => 2 ^ i) ls) (x ++ t) =
    Some (existsb (fun i => Z.testbit pend i && on_ (line t i)) ls, y ++ t).
Proof.
  intros Hs Hls. induction Hls as [|i ls Hi _ IH]; intros x Hx; [by exists x|].
  cbn [map any_pending existsb].
  assert (EXTI_GetITStatus hw (2 ^ i) (x ++ t) =
    Some (Z.testbit pend i && on_ (line t i), (Rd INTFR pend :: Rd INTENR (value INTENR t) :: x) ++ t)) as E.
  { unfold EXTI_GetITStatus, load, mbind, M_bind, mret, M_ret. rewrite Hbank by done.
    rewrite (proj1 (reads_same x t Hx)).
    pose proof (Hs (Rd INTENR (value INTENR t) :: x) ltac:(by constructor)) as Ep. cbn [app] in Ep. cbn [mbind option_bind]. rewrite Ep.
    rewrite !land_bit, !negb_involutive by done. done. }
  rewrite (bind_run _ _ _ _ _ E). destruct (Z.testbit pend i && on_ (line t i)).
  - exists (Rd INTFR pend :: Rd INTENR (value INTENR t) :: x). split; [|done]. by constructor; [|constructor].
  - apply IH. by constructor; [|constructor].
Qed.

(** The calls of the handlers attached to lines. *)
Definition attached (st : pin_state) (i : Z) : list (Z * Z) :=
  match pin_irq_hdr_tab st !!z i with
  | Some h => if h_hdr h =? 0 then [] else [(h_hdr h, h_args h)]
  | None => []
  end.

Lemma callbacks_run st ls : length (pin_irq_hdr_tab st) = 16%nat -> Forall (fun i => 0 <= i < 16) ls ->
  callbacks_of (map (fun i => 2 ^ i) ls) st = Some (concat (map (attached st) ls)).
Proof.
  intros Hl. induction 1 as [|i ls Hi _ IH]; [done|]. cbn [map callbacks_of concat]. rewrite IH.
  unfold HAL_GPIO_EXTI_Callback, pin_irq_hdr, attached.
  destruct (pin_spec i ltac:(lia)) as (_ & _ & _ & _ & _ & _ & Ebn & _).
  unfold line_of in Ebn. rewrite Z.mod_small in Ebn by lia. rewrite Ebn.
  destruct (zlookup_is_Some (pin_irq_hdr_tab st) i ltac:(lia)) as [h ->]. cbn [mbind option_bind].
  by destruct (h_hdr h =? 0).
Qed.

(** A handler calls what is attached to all the lines of its vector when one of
    them is pending and on, and clears them all. *)
Lemma handler_run t pend st ls : settled t pend -> length (pin_irq_hdr_tab st) = 16%nat -> Forall (fun i => 0 <= i < 16) ls ->
  exists t', exti_handler hw (map (fun i => 2 ^ i) ls) st t =
    Some (if existsb (fun i => Z.testbit pend i && on_ (line t i)) ls then concat (map (attached st) ls) else [], t') /\
  same_lines t t'.
Proof.
  intros Hs Hl Hls. unfold exti_handler.
  destruct (any_pending_run t pend ls Hs ltac:(by eapply Forall_impl; [exact Hls|cbn; lia]) [] ltac:(constructor))
    as (y & Hy & E). cbn [app] in E.
  rewrite (bind_run _ _ _ _ _ E). destruct (reads_same y t Hy) as [Hv Hn]. destruct (existsb _ ls).
  - rewrite callbacks_run by done. eexists. rewrite (bind_run _ _ _ tt _ eq_refl). split; [reflexivity|].
    split; [intros r Hr|intros n; cbn [vector_on]; by rewrite Hn].
    cbn [value]. rewrite decide_False; [by rewrite Hv|]. by intros <-.
  - eexists. split; [reflexivity|]. split; [intros r Hr; by rewrite Hv|done].
Qed.
End pins.

(** ** The pins of a vector *)

Definition vector_lines (i : Z) : list Z := if i <? 5 then [i] else if i <? 10 then [5; 6; 7; 8; 9] else [].

Lemma vector_spec hw i : 0 <= i < 10 ->
  exti_vector hw (irq_of i) = Some (exti_handler hw (map (fun i => 2 ^ i) (vector_lines i))).
Proof.
  intros Hi. assert (i = 0 \/ i = 1 \/ i = 2 \/ i = 3 \/ i = 4 \/ i = 5 \/ i = 6 \/ i = 7 \/ i = 8 \/ i = 9) as H by lia.
  repeat (destruct H as [->|H]; [done|]). by subst.
Qed.
Lemma vector_hangs hw i : 10 <= i < 16 -> exti_vector hw (irq_of i) = Some (fun _ _ => None).
Proof.
  intros Hi. assert (i = 10 \/ i = 11 \/ i = 12 \/ i = 13 \/ i = 14 \/ i = 15) as H by lia.
  repeat (destruct H as [->|H]; [done|]). by subst.
Qed.
Lemma vector_lines_ok i : 0 <= i < 10 -> Forall (fun j => 0 <= j < 16) (vector_lines i) /\ i ∈ vector_lines i.
Proof.
  intros Hi. unfold vector_lines. destruct (Z.ltb_spec i 5); [split; [repeat constructor; lia|by left]|].
  rewrite (proj2 (Z.ltb_lt i 10)) by lia. split; [repeat constructor; lia|].
  assert (i = 5 \/ i = 6 \/ i = 7 \/ i = 8 \/ i = 9) as H9 by lia. set_solver.
Qed.

(** What an edge of a pin needs to interrupt. *)
Definition interrupts (rising : bool) (t : list mmio) (n : Z) : bool :=
  let l := line t (line_of n) in
  on_ l && (if rising then rises l else falls l) && (source l =? n / 16) && vector_on (irq_of (line_of n)) t.

Section attached.
Context (hw : list mmio -> reg -> Z) (Hbank : bank hw).

Lemma existsb_one pend ls i f : i ∈ ls -> Z.testbit pend i = true -> f i = true ->
  existsb (fun j => Z.testbit pend j && f j) ls = true.
Proof. intros Hi Hp Hf. apply existsb_exists. exists i. rewrite Hp, Hf. split; [by apply list_elem_of_In|done]. Qed.

Lemma set_hdr_lookup i h st j : 0 <= i < 16 -> length (pin_irq_hdr_tab st) = 16%nat -> 0 <= j ->
  pin_irq_hdr_tab (set_hdr i h st) !!z j = if j =? i then Some h else pin_irq_hdr_tab st !!z j.
Proof.
  intros Hi Hl Hj. unfold zlookup. rewrite !decide_True by done. cbn [set_hdr pin_irq_hdr_tab].
  destruct (Z.eqb_spec j i) as [->|Hne].
  - apply list_lookup_insert_eq. lia.
  - apply list_lookup_insert_ne. lia.
Qed.

(** The pending line of an attached pin that is on: the interrupt of its vector. *)
Lemma isr_run st t n : 0 <= n < 80 -> line_of n < 10 -> length (pin_irq_hdr_tab st) = 16%nat ->
  on_ (line t (line_of n)) = true -> settled hw t (2 ^ line_of n) -> exists isr t',
  exti_vector hw (irq_of (line_of n)) = Some isr /\
  isr st t = Some (concat (map (attached st) (vector_lines (line_of n))), t') /\ same_lines t t'.
Proof.
  intros Hn Hl Htab Hon Hs. pose proof (line_of_range n) as Hr.
  destruct (vector_lines_ok (line_of n) ltac:(lia)) as [Hls Hin].
  destruct (handler_run hw Hbank t (2 ^ line_of n) st (vector_lines (line_of n)) Hs Htab Hls) as (t' & E & Hsame).
  rewrite (existsb_one _ _ (line_of n)) in E; [|done|apply Z.pow2_bits_true; lia|done].
  eexists _, t'. split; [apply vector_spec; lia|]. by split.
Qed.

(** C36 A pin of the chip, a line without a handler, an edge mode and a handler:
    attached and enabled, the pin interrupts at exactly the edges of its mode
    and takes its line over from the other ports, and no other line changes.
    When the line is pending, the interrupt calls the handlers of all the lines
    of its vector: for lines 0 to 4 this handler alone, for lines 5 to 9 those
    of all five.  For lines 10 to 15 there is no handler and the interrupt
    never returns. *)
Theorem pin_irq_routed n mode hdr args st t h : 0 <= n < 80 -> length (pin_irq_hdr_tab st) = 16%nat ->
  pin_irq_hdr_tab st !!z line_of n = Some h -> h_pin h = -1 -> 0 <= mode <= 2 -> hdr <> 0 ->
  let i := line_of n in
  exists st1 st2 t2, rt_pin_attach_irq (H := ch32_pin_ops hw) n mode hdr args (st, t) = Some ((st1, t), RT_EOK) /\
  rt_pin_irq_enable (H := ch32_pin_ops hw) n PIN_IRQ_ENABLE (st1, t) = Some ((st2, t2), RT_EOK) /\
  (forall rising, interrupts rising t2 n = if rising then negb (mode =? PIN_IRQ_MODE_FALLING) else negb (mode =? PIN_IRQ_MODE_RISING)) /\
  (forall rising n', 0 <= n' < 80 -> line_of n' = i -> n' <> n -> interrupts rising t2 n' = false) /\
  (forall j, 0 <= j < 16 -> j <> i -> line t2 j = line t j /\ attached st2 j = attached st j) /\
  (forall t3, same_lines t2 t3 -> settled hw t3 (2 ^ i) -> exists isr, exti_vector hw (irq_of i) = Some isr /\
     if i <? 10 then exists t4, isr st2 t3 = Some (concat (map (attached st2) (vector_lines i)), t4) /\ same_lines t3 t4
     else isr st2 t3 = None) /\
  attached st2 i = [(hdr, args)].
Proof.
  intros Hn Htab Hh Hp Hm Hhdr i. pose proof (line_of_range n) as Hl. fold i in Hl, Hh.
  set (st1 := set_hdr i (mk_hdr n (u16 mode) hdr args) st).
  assert (forall j, 0 <= j -> pin_irq_hdr_tab st1 !!z j = if j =? i then Some (mk_hdr n (u16 mode) hdr args) else pin_irq_hdr_tab st !!z j)
    as Hl1 by (intros j Hj; by apply set_hdr_lookup).
  pose proof (Hl1 i ltac:(lia)) as Hi1. rewrite Z.eqb_refl in Hi1.
  destruct (irq_on_run hw Hbank n st1 t _ Hn Hi1) as (t2 & E2 & Hline & Hvec); [cbn; lia|cbn; rewrite u16_small; lia|].
  cbn [h_mode] in Hline. rewrite u16_small in Hline by lia. fold i in Hline.
  eexists st1, _, t2. split; [cbn; by rewrite (attach_run n mode hdr args st h Hn Hh Hp)|].
  split; [cbn; rewrite E2; reflexivity|].
  assert (forall j, 0 <= j -> attached (set_mask (pin_irq_enable_mask st1 .| 2 ^ line_of n) st1) j =
    if j =? i then [(hdr, args)] else attached st j) as Hat.
  { intros j Hj. unfold attached. cbn [pin_irq_hdr_tab set_mask]. rewrite Hl1 by done.
    destruct (j =? i); [|done]. cbn. by rewrite (proj2 (Z.eqb_neq hdr 0)). }
  pose proof (Hline i Hl) as Hi. fold i in Hi. rewrite Z.eqb_refl in Hi.
  assert (Hvi : vector_on (irq_of i) t2 = true).
  { destruct (pin_spec n Hn) as (_ & m & _ & Em & _ & _ & _ & _ & Hir). unfold irq_of. unfold i. rewrite Em.
    rewrite Hvec by done. unfold irq_of. by rewrite Em, Z.eqb_refl. }
  split_and!.
  - intros rising. unfold interrupts. cbv zeta. fold i. rewrite Hi, Hvi. cbn [set_line on_ rises falls source].
    rewrite Z.eqb_refl, !andb_true_r, andb_true_l.
    assert (mode = 0 \/ mode = 1 \/ mode = 2) as [-> |[-> | ->]] by lia; by destruct rising.
  - intros rising n' Hn' En' Hne. unfold interrupts. cbv zeta. rewrite En', Hi. cbn [set_line source].
    destruct (Z.eqb_spec (n / 16) (n' / 16)); [|by rewrite andb_false_r].
    exfalso. apply Hne. unfold i, line_of in En'. zlia.
  - intros j Hj Hne. rewrite Hline, Hat by lia. by rewrite !(proj2 (Z.eqb_neq j i) Hne).
  - intros t3 Hs3 Hset. destruct (Z.ltb_spec i 10) as [H10|H10].
    + destruct (isr_run (set_mask (pin_irq_enable_mask st1 .| 2 ^ line_of n) st1) t3 n Hn H10) as (isr & t4 & Ev & Er & Hs4);
        [cbn; by rewrite length_insert|rewrite (same_line _ _ _ Hs3); fold i; by rewrite Hi|done|].
      exists isr. split; [done|]. by exists t4.
    + exists (fun _ _ => None). split; [|done]. apply vector_hangs. lia.
  - rewrite Hat by lia. by rewrite Z.eqb_refl.
Qed.
End attached.

(** ** Hardware that has the law *)

Definition ideal (pend : Z) (t : list mmio) (r : reg) : Z := match r with INTFR => pend | _ => value r t end.

Lemma ideal_bank pend : bank (ideal pend).
Proof. intros t r Hr. destruct r; try done; cbn [width ideal]; apply u32_small, value_range. Qed.

(** Pin 66 is line 2 of port E; pins 5 and 22 share the vector of lines 5 to 9. *)
Lemma pin_irq_routed_witness :
  (exists st1 st2 t2, rt_pin_attach_irq (H := ch32_pin_ops (ideal 4)) 66 PIN_IRQ_MODE_FALLING 7 0 (pin_boot, []) = Some ((st1, []), RT_EOK) /\
    rt_pin_irq_enable (H := ch32_pin_ops (ideal 4)) 66 PIN_IRQ_ENABLE (st1, []) = Some ((st2, t2), RT_EOK) /\
    interrupts false t2 66 = true /\ interrupts false t2 2 = false /\
    exists isr, exti_vector (ideal 4) (irq_of 2) = Some isr /\ exists t3, isr st2 t2 = Some ([(7, 0)], t3)).
Proof.
  destruct (pin_irq_routed (ideal 4) (ideal_bank 4) 66 PIN_IRQ_MODE_FALLING 7 0 pin_boot [] free_hdr)
    as (st1 & st2 & t2 & E1 & E2 & Hon & Hoff & _ & Hisr & Hat); try (done || lia).
  exists st1, st2, t2. split_and!; [done|done|by rewrite Hon|by rewrite Hoff|].
  destruct (Hisr t2) as (isr & Ev & t3 & Er & _); [reflexivity|by intros x Hx|].
  exists isr. split; [done|]. exists t3. rewrite Er. change (vector_lines (line_of 66)) with [line_of 66].
  cbn [map concat]. by rewrite Hat.
Defined.
