(* ===== verification/ButtonPins.v ===== *)
(** * ButtonPins: from the button to its handler

    The first part of [getValues_entry] of [applications/watch.c], which sets up
    the three buttons, over the pin driver: which edges interrupt afterwards
    and what they call. *)
From S2P Require Import Prelude Bytes KService Printf Output Object Device Periph Registers Usart UsartFacts Exti Pin PinFacts.
From S2P Require Import CTime SoftRtc Buttons.

Definition UP_PIN : Z := 66.
Definition SELECT_PIN : Z := 20.
Definition DOWN_PIN : Z := 49.

Section buttons.
(** The addresses of [up_btn], [select_btn] and [down_btn]. *)
Context (up select down : Z).

Section init.
Context {S : Type} `{PinOps S}.
(** One of the three paragraphs. *)
Definition button_init (pin hdr : Z) (s : S) : option S :=
  s ← rt_pin_mode pin PIN_MODE_INPUT_PULLUP s;
  '(s, _) ← rt_pin_attach_irq pin PIN_IRQ_MODE_FALLING hdr 0 s;
  '(s, _) ← rt_pin_irq_enable pin PIN_IRQ_ENABLE s;
  Some s.
Definition buttons_init (s : S) : option S :=
  s ← button_init UP_PIN up s; s ← button_init SELECT_PIN select s; button_init DOWN_PIN down s.
End init.

(** What a handler does, by its address; [select_btn] reads the clock at the
    ticks given. *)
Definition press_of (t1 t2 t3 t4 hdr : Z) : option press :=
  if hdr =? up then Some Up else if hdr =? down then Some Down
  else if hdr =? select then Some (Select t1 t2 t3 t4) else None.

(** The calls of an interrupt, on the menu and the clock. *)
Fixpoint run_calls (t1 t2 t3 t4 : Z) (calls : list (Z * Z)) (u : ui) (c : rtc) : option (ui * rtc) :=
  match calls with
  | [] => Some (u, c)
  | (hdr, _) :: calls =>
      p ← press_of t1 t2 t3 t4 hdr; '(u, c) ← press_step p u c; run_calls t1 t2 t3 t4 calls u c
  end.

Definition button_of (n : Z) : option Z :=
  if n =? UP_PIN then Some up else if n =? SELECT_PIN then Some select
  else if n =? DOWN_PIN then Some down else None.

Context (Hnull : up <> 0 /\ select <> 0 /\ down <> 0).
Context (hw : list mmio -> reg -> Z) (Hbank : bank hw).

(** Where the buttons stand: the lines that are on are theirs, at their ports. *)
Record wired (bs : list (Z * Z)) (st : pin_state) (t : list mmio) : Prop := {
  wi_tab : length (pin_irq_hdr_tab st) = 16%nat;
  wi_free : forall i, 0 <= i < 16 -> i ∉ (line_of ∘ fst <$> bs) -> pin_irq_hdr_tab st !!z i = Some free_hdr /\ line t i = line_off;
  wi_line : forall n hdr, (n, hdr) ∈ bs -> line t (line_of n) = set_line EXTI_Trigger_Falling (n / 16) /\
    attached st (line_of n) = [(hdr, 0)] /\ vector_on (irq_of (line_of n)) t = true }.

Lemma wired_same bs st t t' : wired bs st t -> same_lines t t' -> wired bs st t'.
Proof.
  intros [Ht Hf Hl] Hs. split; [done|intros i Hi Hn; rewrite (same_line _ _ i Hs); by apply Hf|].
  intros n hdr Hin. rewrite (same_line _ _ _ Hs), (proj2 Hs). by apply Hl.
Qed.

Lemma button_init_run bs st t n hdr : wired bs st t -> 0 <= n < 80 -> hdr <> 0 -> line_of n ∉ (line_of ∘ fst <$> bs) ->
  exists st' t', button_init (H := ch32_pin_ops hw) n hdr (st, t) = Some (st', t') /\ wired ((n, hdr) :: bs) st' t'.
Proof.
  intros Hw Hn Hh Hnew. pose proof (line_of_range n) as Hl.
  destruct (pin_spec n Hn) as (x & m & Ex & Em & _).
  destruct (steady_gpio (R := same_lines) pins_no_line hw (gpio x) (pin_bit x) GPIO_Speed_50MHz (mode_of PIN_MODE_INPUT_PULLUP) t)
    as ([] & t1 & E1 & Hs1).
  pose proof (wired_same _ _ _ _ Hw Hs1) as [Htab Hfree Hline].
  destruct (Hfree (line_of n) Hl Hnew) as [Hfr _].
  set (st1 := set_hdr (line_of n) (mk_hdr n (u16 PIN_IRQ_MODE_FALLING) hdr 0) st).
  assert (forall j, 0 <= j -> pin_irq_hdr_tab st1 !!z j =
    if j =? line_of n then Some (mk_hdr n (u16 PIN_IRQ_MODE_FALLING) hdr 0) else pin_irq_hdr_tab st !!z j)
    as Hl1 by (intros j Hj; by apply set_hdr_lookup).
  pose proof (Hl1 (line_of n) ltac:(lia)) as Hi1. rewrite Z.eqb_refl in Hi1.
  destruct (irq_on_run hw Hbank n st1 t1 _ Hn Hi1) as (t2 & E2 & Hl2 & Hv2); [cbn; lia|cbn; by rewrite u16_small|].
  eexists _, t2. split.
  { unfold button_init, rt_pin_mode, rt_pin_attach_irq, rt_pin_irq_enable.
    cbn [pin_mode pin_attach_irq pin_irq_enable ch32_pin_ops fst snd].
    unfold ch32_pin_mode. rewrite Ex, E1. cbn [mbind option_bind fst snd].
    rewrite (attach_run n PIN_IRQ_MODE_FALLING hdr 0 st free_hdr Hn Hfr eq_refl). cbn [mbind option_bind fst snd].
    fold st1. rewrite E2. reflexivity. }
  assert (forall j, 0 <= j -> attached (set_mask (pin_irq_enable_mask st1 .| 2 ^ line_of n) st1) j =
    if j =? line_of n then [(hdr, 0)] else attached st j) as Hat.
  { intros j Hj. unfold attached. cbn [pin_irq_hdr_tab set_mask]. rewrite Hl1 by done.
    destruct (j =? line_of n); [|done]. cbn. by rewrite (proj2 (Z.eqb_neq hdr 0)). }
  cbn [h_mode] in Hl2. split.
  - cbn. by rewrite length_insert.
  - intros i Hi Hni. rewrite fmap_cons, not_elem_of_cons in Hni. destruct Hni as [Hne Hni]. cbn in Hne.
    cbn [pin_irq_hdr_tab set_mask]. rewrite Hl1, Hl2, (proj2 (Z.eqb_neq i (line_of n)) Hne) by lia. by apply Hfree.
  - intros n' hdr' [[= -> ->]|Hin]%elem_of_cons.
    + rewrite Hl2, Hat, Z.eqb_refl by lia. split; [|split; [done|]].
      * by rewrite u16_small.
      * destruct (pin_spec n Hn) as (_ & m' & _ & Em' & _ & _ & _ & _ & Hir). unfold irq_of at 1. rewrite Em'.
        rewrite Hv2 by done. unfold irq_of. by rewrite Em', Z.eqb_refl.
    + assert (line_of n' <> line_of n) as Hne.
      { intros E. apply Hnew. rewrite <- E. apply list_elem_of_fmap. exists (n', hdr'). done. }
      pose proof (line_of_range n') as Hl'. destruct (Hline n' hdr' Hin) as (El & Ea & Ev).
      rewrite Hl2, Hat, (proj2 (Z.eqb_neq _ _) Hne) by lia. split; [done|split; [done|]].
      unfold irq_of in Ev |- *. destruct (pin_irq_map !!z line_of n') as [m'|] eqn:Em'.
      * rewrite Hv2; [by rewrite Ev, orb_true_r|].
        assert (Forall (fun m => 0 <= irqno m < 256) pin_irq_map) as Hall by (repeat constructor; done).
        rewrite Forall_forall in Hall. apply Hall. apply zlookup_Some in Em' as [_ Em'].
        by apply list_elem_of_lookup_2 in Em'.
      * rewrite Hv2 by done. by rewrite Ev, orb_true_r.
Qed.

(** The three buttons of the board. *)
Definition board_buttons : list (Z * Z) := [(DOWN_PIN, down); (SELECT_PIN, select); (UP_PIN, up)].
Definition press_at (t1 t2 t3 t4 n : Z) : option press :=
  if n =? UP_PIN then Some Up else if n =? SELECT_PIN then Some (Select t1 t2 t3 t4)
  else if n =? DOWN_PIN then Some Down else None.

Lemma buttons_init_run t0 : (forall i, 0 <= i < 16 -> line t0 i = line_off) ->
  exists st t, buttons_init (H := ch32_pin_ops hw) (pin_boot, t0) = Some (st, t) /\ wired board_buttons st t.
Proof.
  intros H0. destruct Hnull as (Hu & Hs & Hd).
  assert (wired [] pin_boot t0) as W0.
  { split; [done|intros i Hi _|by intros ?? ?%not_elem_of_nil]. split; [|by apply H0].
    assert (Forall (eq (Some free_hdr)) ((fun i => pin_irq_hdr_tab pin_boot !!z i) <$> seqZ 0 16)) as Hf by (repeat constructor).
    rewrite Forall_fmap, Forall_forall in Hf. symmetry. apply Hf, elem_of_seqZ. lia. }
  destruct (button_init_run [] pin_boot t0 UP_PIN up W0) as (st1 & t1 & E1 & W1); [done|done|by apply not_elem_of_nil|].
  destruct (button_init_run _ st1 t1 SELECT_PIN select W1) as (st2 & t2 & E2 & W2);
    [done|done|apply (bool_decide_unpack _); by vm_compute|].
  destruct (button_init_run _ st2 t2 DOWN_PIN down W2) as (st3 & t3 & E3 & W3);
    [done|done|apply (bool_decide_unpack _); by vm_compute|].
  exists st3, t3. split; [|done]. unfold buttons_init. rewrite E1. cbn [mbind option_bind]. rewrite E2.
  cbn [mbind option_bind]. done.
Qed.

Lemma wired_interrupts st t rising n : wired board_buttons st t -> 0 <= n < 80 ->
  interrupts rising t n = negb rising && ((n =? UP_PIN) || (n =? SELECT_PIN) || (n =? DOWN_PIN)).
Proof.
  intros [_ Hf Hl] Hn. pose proof (line_of_range n) as Hr. unfold interrupts. cbv zeta.
  assert (forall b hdr, (b, hdr) ∈ board_buttons -> line_of n = line_of b -> 0 <= b < 80 ->
    on_ (line t (line_of n)) && (if rising then rises (line t (line_of n)) else falls (line t (line_of n))) &&
      (source (line t (line_of n)) =? n / 16) && vector_on (irq_of (line_of n)) t = negb rising && (n =? b)) as Hb.
  { intros b hdr Hin E Hb. destruct (Hl b hdr Hin) as (El & _ & Ev). rewrite E, El, Ev, andb_true_r. cbn.
    destruct rising; [done|]. cbn [andb negb].
    destruct (Z.eqb_spec (b / 16) (n / 16)), (Z.eqb_spec n b); try done; [|by subst].
    unfold line_of in E. exfalso. zlia. }
  destruct (decide (line_of n ∈ (line_of ∘ fst <$> board_buttons))) as [Hin|Hni].
  - change (line_of ∘ fst <$> board_buttons) with [line_of DOWN_PIN; line_of SELECT_PIN; line_of UP_PIN] in Hin.
    rewrite !elem_of_cons, elem_of_nil in Hin.
    assert (exists b hdr, (b, hdr) ∈ board_buttons /\ line_of n = line_of b /\ 0 <= b < 80 /\
      (n =? UP_PIN) || (n =? SELECT_PIN) || (n =? DOWN_PIN) = (n =? b)) as (b & hdr & Hbb & E & Hb80 & ->).
    { destruct Hin as [E|[E|[E|[]]]]; [exists DOWN_PIN, down|exists SELECT_PIN, select|exists UP_PIN, up].
      all: split; [unfold board_buttons; rewrite !elem_of_cons; tauto|split; [done|split; [done|]]].
      all: destruct (Z.eqb_spec n UP_PIN), (Z.eqb_spec n SELECT_PIN), (Z.eqb_spec n DOWN_PIN); subst; done. }
    by apply (Hb b hdr).
  - destruct (Hf (line_of n) Hr Hni) as [_ ->]. cbn [line_off on_ andb].
    assert (forall b, b ∈ [DOWN_PIN; SELECT_PIN; UP_PIN] -> (n =? b) = false) as Hne.
    { intros b Hb'. apply Z.eqb_neq. intros ->. apply Hni.
      change (line_of ∘ fst <$> board_buttons) with (line_of <$> [DOWN_PIN; SELECT_PIN; UP_PIN]).
      by apply list_elem_of_fmap_2. }
    rewrite !Hne by set_solver. by rewrite andb_false_r.
Qed.

(** C5 After the first part of [getValues_entry], from reset: of all the edges
    of all the pins, exactly the falling ones of the three buttons interrupt;
    and while the hardware shows the line of a button pending, the interrupt
    calls the handler of that button and no other, once, with the effect of its
    press on the menu and the clock, and leaves the lines as they are. *)
Theorem buttons_reach_handlers t0 : (forall i, 0 <= i < 16 -> line t0 i = line_off) ->
  up <> select -> up <> down -> select <> down ->
  exists st t, buttons_init (H := ch32_pin_ops hw) (pin_boot, t0) = Some (st, t) /\
  forall t', same_lines t t' ->
  (forall rising n, 0 <= n < 80 ->
     interrupts rising t' n = negb rising && ((n =? UP_PIN) || (n =? SELECT_PIN) || (n =? DOWN_PIN))) /\
  (forall n p t1 t2 t3 t4 u c, press_at t1 t2 t3 t4 n = Some p -> settled hw t' (2 ^ line_of n) ->
     exists isr calls t2', exti_vector hw (irq_of (line_of n)) = Some isr /\ isr st t' = Some (calls, t2') /\
       run_calls t1 t2 t3 t4 calls u c = press_step p u c /\ same_lines t t2').
Proof.
  intros H0 Hus Hud Hsd. destruct (buttons_init_run t0 H0) as (st & t & E & W). exists st, t. split; [done|].
  intros t' Hs. pose proof (wired_same _ _ _ _ W Hs) as W'. split; [intros; by apply (wired_interrupts st)|].
  intros n p t1 t2 t3 t4 u c Hp Hset.
  assert (exists hdr, (n, hdr) ∈ board_buttons /\ press_of t1 t2 t3 t4 hdr = Some p /\ 0 <= n < 80 /\ line_of n < 5)
    as (hdr & Hin & Hpr & Hn & Hl).
  { unfold press_at, press_of, board_buttons in *.
    destruct (Z.eqb_spec n UP_PIN) as [->|]; [exists up|destruct (Z.eqb_spec n SELECT_PIN) as [->|];
      [exists select|destruct (Z.eqb_spec n DOWN_PIN) as [->|]; [exists down|done]]].
    all: split; [rewrite !elem_of_cons; tauto|].
    all: rewrite ?Z.eqb_refl, ?(proj2 (Z.eqb_neq _ _) Hsd), ?(proj2 (Z.eqb_neq select up)), ?(proj2 (Z.eqb_neq down up)) by done.
    all: by split_and!. }
  destruct (wi_line _ _ _ W' n hdr Hin) as (El & Ea & Ev).
  destruct (isr_run hw Hbank st t' n Hn ltac:(lia) (wi_tab _ _ _ W')) as (isr & t2' & Evec & Er & Hs2); [by rewrite El|done|].
  eexists isr, _, t2'. split; [done|]. split; [exact Er|]. split; [|by etrans].
  unfold vector_lines. rewrite (proj2 (Z.ltb_lt _ 5)) by done. cbn [map concat]. rewrite Ea.
  cbn [app run_calls]. rewrite Hpr. cbn [mbind option_bind]. by destruct (press_step p u c) as [[u' c']|].
Qed.
End buttons.

Lemma buttons_reach_handlers_witness : exists st t isr calls t2,
  buttons_init 7 8 9 (H := ch32_pin_ops (ideal 16)) (pin_boot, []) = Some (st, t) /\
  interrupts false t SELECT_PIN = true /\ interrupts false t 36 = false /\
  exti_vector (ideal 16) (irq_of 4) = Some isr /\ isr st t = Some (calls, t2) /\
  run_calls 7 8 9 0 0 0 0 calls ui_boot boot = Some (set_menu ui_boot 1, boot).
Proof.
  destruct (buttons_reach_handlers 7 8 9 ltac:(done) (ideal 16) (ideal_bank 16) [])
    as (st & t & E & H); [by intros; apply line_reset|done..|].
  destruct (H t ltac:(reflexivity)) as [Hi Hc].
  destruct (Hc SELECT_PIN (Select 0 0 0 0) 0 0 0 0 ui_boot boot) as (isr & calls & t2 & Ev & Er & Ec & _);
    [done|by intros x Hx|].
  exists st, t, isr, calls, t2. split; [exact E|]. split; [rewrite Hi by (unfold SELECT_PIN; lia); reflexivity|].
  split; [rewrite Hi by lia; reflexivity|].
  split; [exact Ev|]. split; [exact Er|]. rewrite Ec. reflexivity.
Defined.
