(* ===== verification/Spi.v ===== *)
(** * Spi: the serial peripheral interface of the panel

    The functions of [ch32v30x_spi.c] the display uses, one of them written for
    this program, and [SPI_7789_INIT] of [board/board.c]. *)
From S2P Require Import Prelude Periph Exti.

Definition CTLR1_SPE_Set : Z := 0x0040.
Definition CTLR1_SPE_Reset : Z := 0xFFBF.
Definition CTLR1_CLEAR_Mask : Z := 0x3040.
Definition SPI_Mode_Select : Z := 0xF7FF.

Definition SPI_Direction_1Line_Tx : Z := 0xC000.
Definition SPI_Mode_Master : Z := 0x0104.
Definition SPI_DataSize_16b : Z := 0x0800.
Definition SPI_DataSize_8b : Z := 0x0000.
Definition SPI_CPOL_Low : Z := 0x0000.
Definition SPI_CPHA_1Edge : Z := 0x0000.
Definition SPI_CPHA_2Edge : Z := 0x0001.
Definition SPI_NSS_Soft : Z := 0x0200.
Definition SPI_BaudRatePrescaler_32 : Z := 0x0020.
Definition SPI_FirstBit_MSB : Z := 0x0000.
Definition SPI_TXE_FLAG : Z := 1 ≪ 1.

Record SPI_InitTypeDef := mk_spi_init {
  SPI_Direction : Z; SPI_Mode : Z; SPI_DataSize : Z; SPI_CPOL : Z; SPI_CPHA : Z; SPI_NSS : Z;
  SPI_BaudRatePrescaler : Z; SPI_FirstBit : Z; SPI_CRCPolynomial : Z }.

Definition RCC_APB2Periph_SPI1 : Z := 0x00001000.

(** A read past the end of a buffer. *)
Definition undefined : M unit := fun _ => None.

Section spi.
Context (hw : list mmio -> reg -> Z).

(** ** [ch32v30x_spi.c] *)

Definition SPI_Init (x : spi) (i : SPI_InitTypeDef) : M unit :=
  tmpreg ← load hw (SPI x S_CTLR1);
  let tmpreg := tmpreg .& CTLR1_CLEAR_Mask in
  let tmpreg := tmpreg .| u16 (SPI_Direction i .| SPI_Mode i .| SPI_DataSize i .| SPI_CPOL i .|
                               SPI_CPHA i .| SPI_NSS i .| SPI_BaudRatePrescaler i .| SPI_FirstBit i) in
  _ ← write (SPI x S_CTLR1) tmpreg;
  _ ← modify hw (SPI x S_I2SCFGR) (fun v => v .& SPI_Mode_Select);
  write (SPI x S_CRCR) (SPI_CRCPolynomial i).

Definition SPI_Cmd (x : spi) (NewState : FunctionalState) : M unit :=
  if enabled NewState then modify hw (SPI x S_CTLR1) (fun v => v .| CTLR1_SPE_Set)
  else modify hw (SPI x S_CTLR1) (fun v => v .& CTLR1_SPE_Reset).

Definition SPI_I2S_GetFlagStatus (x : spi) (SPI_I2S_FLAG : Z) : M bool :=
  v ← load hw (SPI x S_STATR); mret (negb (v .& SPI_I2S_FLAG =? 0)).

(** [SPI_CTLR1_DFF] is the mask 0x0800, and [1 << SPI_CTLR1_DFF] a shift C leaves
    undefined: what it yields is the parameter [dff].  The buffer is the bytes
    from [pTxBuffer] on; [pTxBuffer++] moves by one byte in both branches. *)
Context (fuel : nat) (dff : Z).

Fixpoint SPI_SendData (x : spi) (pTxBuffer : list Z) (Len : Z) : M unit :=
  if Len >? 0 then
    _ ← until fuel (SPI_I2S_GetFlagStatus x SPI_TXE_FLAG);
    c ← load hw (SPI x S_CTLR1);
    if negb (c .& dff =? 0) then
      match pTxBuffer with
      | b0 :: pTxBuffer =>
          match pTxBuffer with
          | b1 :: _ =>
              _ ← write (SPI x S_DATAR) (b0 + 256 * b1);
              SPI_SendData x pTxBuffer (u8 (u8 (Len - 1) - 1))
          | [] => undefined
          end
      | [] => undefined
      end
    else
      match pTxBuffer with
      | b :: pTxBuffer => _ ← write (SPI x S_DATAR) b; SPI_SendData x pTxBuffer (u8 (Len - 1))
      | [] => undefined
      end
  else mret tt.

(** ** [board.c] *)

Definition SPI_7789_INIT : M unit :=
  _ ← RCC_APB2PeriphClockCmd hw (RCC_APB2Periph_GPIOA .| RCC_APB2Periph_SPI1) ENABLE;
  _ ← GPIO_Init hw GPIOA GPIO_Pin_5 GPIO_Speed_50MHz GPIO_Mode_AF_PP;
  _ ← GPIO_Init hw GPIOA GPIO_Pin_7 GPIO_Speed_50MHz GPIO_Mode_AF_PP;
  _ ← RCC_APB2PeriphClockCmd hw RCC_APB2Periph_GPIOC ENABLE;
  _ ← GPIO_Init hw GPIOC (GPIO_Pin_0 .| GPIO_Pin_1 .| GPIO_Pin_2) GPIO_Speed_50MHz GPIO_Mode_Out_PP;
  _ ← SPI_Init SPI1 (mk_spi_init SPI_Direction_1Line_Tx SPI_Mode_Master SPI_DataSize_8b SPI_CPOL_Low
                       SPI_CPHA_1Edge SPI_NSS_Soft SPI_BaudRatePrescaler_32 SPI_FirstBit_MSB 7);
  SPI_Cmd SPI1 ENABLE.
End spi.
