(* ===== verification/Adc.v ===== *)
(** * Adc: the converter that measures the battery

    The functions of [ch32v30x_adc.c] and [ch32v30x_rcc.c] the watch calls,
    [ADC_Batt_Init] of [board/board.c] and [Get_ADC_Val] of
    [applications/watch.c]. *)
From S2P Require Import Prelude Periph Exti.

Definition CTLR1_CLEAR_Mask : Z := 0xE0F0FEFF.
Definition CTLR2_CLEAR_Mask : Z := 0xFFF1F7FD.
Definition RSQR1_CLEAR_Mask : Z := 0xFF0FFFFF.
Definition CTLR2_ADON_Set : Z := 0x00000001.
Definition CTLR2_ADON_Reset : Z := 0xFFFFFFFE.
Definition CTLR2_RSTCAL_Set : Z := 0x00000008.
Definition CTLR2_CAL_Set : Z := 0x00000004.
Definition CTLR2_EXTTRIG_SWSTART_Set : Z := 0x00500000.
Definition CTLR2_EXTTRIG_SWSTART_Reset : Z := 0xFFAFFFFF.
Definition RSQR1_SQ_Set : Z := 0x0000001F.
Definition RSQR2_SQ_Set : Z := 0x0000001F.
Definition RSQR3_SQ_Set : Z := 0x0000001F.
Definition SAMPTR1_SMP_Set : Z := 0x00000007.
Definition SAMPTR2_SMP_Set : Z := 0x00000007.
Definition CFGR0_ADCPRE_Reset_Mask : Z := 0xFFFF3FFF.
Definition RCC_PCLK2_Div8 : Z := 0x0000C000.
Definition RCC_APB2Periph_ADC1 : Z := 0x00000200.
Definition RCC_APB2Periph_ADC2 : Z := 0x00000400.
Definition ADC_Mode_Independent : Z := 0x00000000.
Definition ADC_ExternalTrigConv_None : Z := 0x000E0000.
Definition ADC_DataAlign_Right : Z := 0x00000000.
Definition ADC_Channel_9 : Z := 0x09.
Definition ADC_SampleTime_239Cycles5 : Z := 0x07.
Definition ADC_FLAG_EOC : Z := 0x02.

Record ADC_InitTypeDef := mk_adc_init {
  ADC_Mode : Z; ADC_ScanConvMode : FunctionalState; ADC_ContinuousConvMode : FunctionalState;
  ADC_ExternalTrigConv : Z; ADC_DataAlign : Z; ADC_NbrOfChannel : Z; ADC_OutputBuffer : Z; ADC_Pga : Z }.
Definition state_bit (s : FunctionalState) : Z := if enabled s then 1 else 0.

Section adc.
Context (hw : list mmio -> reg -> Z).

(** ** [ch32v30x_rcc.c] *)

Definition RCC_ADCCLKConfig (RCC_PCLK2 : Z) : M unit :=
  modify hw CFGR0 (fun v => v .& CFGR0_ADCPRE_Reset_Mask .| RCC_PCLK2).

Definition RCC_APB2PeriphResetCmd (RCC_APB2Periph : Z) (NewState : FunctionalState) : M unit :=
  if enabled NewState then modify hw APB2PRSTR (fun v => v .| RCC_APB2Periph)
  else modify hw APB2PRSTR (fun v => Z.ldiff v RCC_APB2Periph).

(** ** [ch32v30x_adc.c] *)

Definition ADC_DeInit (x : adc) : M unit :=
  match x with
  | ADC1 => _ ← RCC_APB2PeriphResetCmd RCC_APB2Periph_ADC1 ENABLE; RCC_APB2PeriphResetCmd RCC_APB2Periph_ADC1 DISABLE
  | ADC2 => _ ← RCC_APB2PeriphResetCmd RCC_APB2Periph_ADC2 ENABLE; RCC_APB2PeriphResetCmd RCC_APB2Periph_ADC2 DISABLE
  end.

Definition ADC_Init (x : adc) (i : ADC_InitTypeDef) : M unit :=
  _ ← modify hw (ADC x A_CTLR1) (fun v => v .& CTLR1_CLEAR_Mask .|
        (ADC_Mode i .| ADC_OutputBuffer i .| ADC_Pga i .| u32 (state_bit (ADC_ScanConvMode i) ≪ 8)));
  _ ← modify hw (ADC x A_CTLR2) (fun v => v .& CTLR2_CLEAR_Mask .|
        (ADC_DataAlign i .| ADC_ExternalTrigConv i .| u32 (state_bit (ADC_ContinuousConvMode i) ≪ 1)));
  modify hw (ADC x A_RSQR1) (fun v => v .& RSQR1_CLEAR_Mask .| u32 (u8 (ADC_NbrOfChannel i - 1) ≪ 20)).

Definition ADC_Cmd (x : adc) (NewState : FunctionalState) : M unit :=
  if enabled NewState then modify hw (ADC x A_CTLR2) (fun v => v .| CTLR2_ADON_Set)
  else modify hw (ADC x A_CTLR2) (fun v => v .& CTLR2_ADON_Reset).

Definition ADC_BufferCmd (x : adc) (NewState : FunctionalState) : M unit :=
  if enabled NewState then modify hw (ADC x A_CTLR1) (fun v => v .| (1 ≪ 26))
  else modify hw (ADC x A_CTLR1) (fun v => Z.ldiff v (1 ≪ 26)).

Definition ADC_ResetCalibration (x : adc) : M unit := modify hw (ADC x A_CTLR2) (fun v => v .| CTLR2_RSTCAL_Set).
Definition ADC_GetResetCalibrationStatus (x : adc) : M bool :=
  v ← load hw (ADC x A_CTLR2); mret (negb (v .& CTLR2_RSTCAL_Set =? 0)).
Definition ADC_StartCalibration (x : adc) : M unit := modify hw (ADC x A_CTLR2) (fun v => v .| CTLR2_CAL_Set).
Definition ADC_GetCalibrationStatus (x : adc) : M bool :=
  v ← load hw (ADC x A_CTLR2); mret (negb (v .& CTLR2_CAL_Set =? 0)).

Definition ADC_SoftwareStartConvCmd (x : adc) (NewState : FunctionalState) : M unit :=
  if enabled NewState then modify hw (ADC x A_CTLR2) (fun v => v .| CTLR2_EXTTRIG_SWSTART_Set)
  else modify hw (ADC x A_CTLR2) (fun v => v .& CTLR2_EXTTRIG_SWSTART_Reset).

(** A field of a register replaced: [reg &= ~(mask << sh); reg |= v << sh]. *)
Definition set_field (r : reg) (mask v sh : Z) : M unit :=
  modify hw r (fun x => Z.ldiff x (u32 (mask ≪ sh)) .| u32 (v ≪ sh)).

Definition ADC_RegularChannelConfig (x : adc) (ADC_Channel Rank ADC_SampleTime : Z) : M unit :=
  _ ← (if ADC_Channel >? ADC_Channel_9
       then set_field (ADC x A_SAMPTR1) SAMPTR1_SMP_Set ADC_SampleTime (3 * (ADC_Channel - 10))
       else set_field (ADC x A_SAMPTR2) SAMPTR2_SMP_Set ADC_SampleTime (3 * ADC_Channel));
  if Rank <? 7 then set_field (ADC x A_RSQR3) RSQR3_SQ_Set ADC_Channel (5 * (Rank - 1))
  else if Rank <? 13 then set_field (ADC x A_RSQR2) RSQR2_SQ_Set ADC_Channel (5 * (Rank - 7))
  else set_field (ADC x A_RSQR1) RSQR1_SQ_Set ADC_Channel (5 * (Rank - 13)).

Definition ADC_GetConversionValue (x : adc) : M Z := v ← load hw (ADC x A_RDATAR); mret (u16 v).
Definition ADC_GetFlagStatus (x : adc) (ADC_FLAG : Z) : M bool :=
  v ← load hw (ADC x A_STATR); mret (negb (v .& ADC_FLAG =? 0)).

(** ** [board.c] and [watch.c] *)

Context (fuel : nat).

(** [while (c);] *)
Definition while_set (c : M bool) : M unit := until fuel (b ← c; mret (negb b)).

Definition ADC_Batt_Init : M unit :=
  _ ← RCC_APB2PeriphClockCmd hw RCC_APB2Periph_GPIOA ENABLE;
  _ ← RCC_APB2PeriphClockCmd hw RCC_APB2Periph_ADC1 ENABLE;
  _ ← RCC_ADCCLKConfig RCC_PCLK2_Div8;
  _ ← GPIO_Init hw GPIOA GPIO_Pin_3 GPIO_Speed_50MHz GPIO_Mode_Out_PP;
  _ ← GPIO_Init hw GPIOA GPIO_Pin_1 GPIO_Speed_50MHz GPIO_Mode_AIN;
  _ ← ADC_DeInit ADC1;
  _ ← ADC_Init ADC1 (mk_adc_init ADC_Mode_Independent DISABLE DISABLE ADC_ExternalTrigConv_None
                       ADC_DataAlign_Right 1 0 0);
  _ ← ADC_Cmd ADC1 ENABLE;
  _ ← ADC_BufferCmd ADC1 DISABLE;
  _ ← ADC_ResetCalibration ADC1;
  _ ← while_set (ADC_GetResetCalibrationStatus ADC1);
  _ ← ADC_StartCalibration ADC1;
  _ ← while_set (ADC_GetCalibrationStatus ADC1);
  ADC_BufferCmd ADC1 ENABLE.

Definition Get_ADC_Val (ch : Z) : M Z :=
  _ ← ADC_RegularChannelConfig ADC1 ch 1 ADC_SampleTime_239Cycles5;
  _ ← ADC_SoftwareStartConvCmd ADC1 ENABLE;
  _ ← until fuel (ADC_GetFlagStatus ADC1 ADC_FLAG_EOC);
  ADC_GetConversionValue ADC1.
End adc.
