(* ===== verification/GpioFacts.v ===== *)
(** * GpioFacts: the modes of pins

    What [GPIO_Init] makes of the configuration registers of a port, for any
    set of pins and any mode, over hardware whose configuration registers keep
    what is written to them. *)
From S2P Require Import Prelude Periph Registers.

(** The four bits that configure pin [n] of port [p]. *)
Definition cfg_reg (p : port) (n : Z) : reg := if n <? 8 then CFGLR p else CFGHR p.
Definition config (hw : list mmio -> reg -> Z) (p : port) (n : Z) (t : list mmio) : Z :=
  nibble (u32 (hw t (cfg_reg p n))) (n .& 7).

(** What a mode and a speed, which counts for outputs only, come to. *)
Definition mode_nibble (speed : Z) (mode : GPIOMode) : Z :=
  let m := mode_bits mode .& 0xF in if negb (mode_bits mode .& 0x10 =? 0) then m .| speed else m.

(** An input with a pull has its level set by a write of its bit. *)
Definition pull_write (p : port) (pins : Z) (mode : GPIOMode) (a : mmio) : Prop :=
  exists n, 0 <= n < 16 /\ Z.testbit pins n = true /\
    ((mode = GPIO_Mode_IPD /\ a = Wr (BCR p) (2 ^ n)) \/ (mode = GPIO_Mode_IPU /\ a = Wr (BSHR p) (2 ^ n))).

Lemma mode_nibble_range speed mode : 0 <= speed < 4 -> 0 <= mode_nibble speed mode < 16.
Proof.
  intros Hs. change 16 with (2 ^ 4). apply bits_bound; [lia|]. intros n Hn.
  assert (Z.testbit speed n = false) as Hspeed by (apply (bits_above speed 4); [change (2 ^ 4) with 16; lia|lia]).
  assert (Z.testbit (mode_bits mode .& 0xF) n = false) as Hm.
  { change 0xF with (Z.ones 4). rewrite Z.land_spec, Z.testbit_ones_nonneg, (proj2 (Z.ltb_ge n 4)) by lia. apply andb_false_r. }
  unfold mode_nibble. destruct (negb _); [by rewrite Z.lor_spec, Hm, Hspeed|done].
Qed.

Lemma land_pow2 z k : 0 <= k -> z .& 2 ^ k = if Z.testbit z k then 2 ^ k else 0.
Proof.
  intros Hk. destruct (Z.testbit z k) eqn:E; [|by apply Z.eqb_eq; rewrite land_bit, E].
  apply Z.bits_inj'. intros n Hn. rewrite Z.land_spec, Z.pow2_bits_eqb by lia.
  destruct (Z.eqb_spec k n) as [<-|]; [by rewrite E|apply andb_false_r].
Qed.
Lemma land_self z k : 0 <= k -> (z .& (1 ≪ k) =? 1 ≪ k) = Z.testbit z k.
Proof.
  intros Hk. rewrite Z.shiftl_1_l, land_pow2 by done.
  pose proof (Z.pow_pos_nonneg 2 k). destruct (Z.testbit z k); [apply Z.eqb_refl|]. apply Z.eqb_neq. lia.
Qed.
Lemma later pos i n : i <> pos -> (pos + 1 <=? i) && (i <? pos + 1 + n) = (pos <=? i) && (i <? pos + Z.succ n).
Proof.
  intros Hne. destruct (Z.leb_spec (pos + 1) i), (Z.leb_spec pos i), (Z.ltb_spec i (pos + 1 + n)),
    (Z.ltb_spec i (pos + Z.succ n)); done || lia.
Qed.

(** ** The loop over half a port *)

Section loop.
Context (p : port) (pins speed : Z) (mode : GPIOMode) (base : Z).
Hypothesis Hspeed : 0 <= speed < 4.
Hypothesis Hbase : base = 0 \/ base = 8.

Lemma gpio_loop_run n : forall pos tmp t, 0 <= pos -> pos + Z.of_nat n <= 8 ->
  exists v l, gpio_loop n p pins (mode_nibble speed mode) base mode pos tmp t = Some (v, l ++ t) /\
    Forall (pull_write p pins mode) l /\
    forall i, 0 <= i < 8 -> nibble v i =
      if (pos <=? i) && (i <? pos + Z.of_nat n) && Z.testbit pins (base + i) then mode_nibble speed mode else nibble tmp i.
Proof.
  induction n as [|n IH]; intros pos tmp t Hp Hn.
  { exists tmp, []. split; [done|]. split; [constructor|]. intros i Hi. rewrite Z.add_0_r.
    destruct (Z.leb_spec pos i), (Z.ltb_spec i pos); cbn; (done || lia). }
  cbn [gpio_loop]. rewrite land_self by lia. destruct (Z.testbit pins (pos + base)) eqn:Hb.
  - set (tmp' := _ .| _). set (l1 := if mode_bits mode =? mode_bits GPIO_Mode_IPD then [Wr (BCR p) (2 ^ (pos + base))]
      else if mode_bits mode =? mode_bits GPIO_Mode_IPU then [Wr (BSHR p) (2 ^ (pos + base))] else []).
    destruct (IH (pos + 1) tmp' (l1 ++ t) ltac:(lia) ltac:(lia)) as (v & l & E & Hl & Hv).
    exists v, (l ++ l1). split; [|split].
    + rewrite <- List.app_assoc, <- E. unfold mbind, M_bind, write, mret, M_ret, l1.
      rewrite Z.shiftl_1_l. cbn [width]. rewrite u32_small by (split; [apply Z.pow_nonneg; lia|];
        apply (Z.pow_lt_mono_r 2 _ 32); lia). by repeat destruct (_ =? _).
    + apply Forall_app. split; [done|]. unfold l1. destruct mode; cbn; repeat constructor; exists (pos + base);
        (split; [lia|]); (split; [done|]); auto.
    + intros i Hi. rewrite Hv by done. unfold tmp'.
      replace (pos ≪ 2) with (4 * pos) by (rewrite Z.shiftl_mul_pow2; lia).
      rewrite nibble_put by (try apply mode_nibble_range; lia || done). rewrite Nat2Z.inj_succ, (Z.add_comm base).
      destruct (Z.eqb_spec i pos) as [->|Hne].
      * rewrite Hb, Z.leb_refl, (proj2 (Z.leb_gt (pos + 1) pos)), (proj2 (Z.ltb_lt pos (pos + Z.succ _))) by lia. done.
      * by rewrite later.
  - destruct (IH (pos + 1) tmp t ltac:(lia) ltac:(lia)) as (v & l & E & Hl & Hv).
    exists v, l. split; [done|]. split; [done|]. intros i Hi. rewrite Hv by done. rewrite Nat2Z.inj_succ.
    destruct (Z.eqb_spec i pos) as [->|Hne].
    + rewrite (Z.add_comm base), Hb, !andb_false_r. done.
    + by rewrite later.
Qed.
End loop.

(** ** The whole call *)

Definition gpio_access (p : port) (pins : Z) (mode : GPIOMode) (a : mmio) : Prop :=
  (exists r v, (a = Rd r v \/ a = Wr r v) /\ (r = CFGLR p \/ r = CFGHR p)) \/ pull_write p pins mode a.

(** [hw] keeps the configuration of the port. *)
Definition port_latches (hw : list mmio -> reg -> Z) (p : port) : Prop := forall n, latches hw (cfg_reg p n).

Lemma access_reset p pins mode l t : Forall (gpio_access p pins mode) l -> in_reset (CFGLR p) (l ++ t) = in_reset (CFGLR p) t.
Proof.
  induction 1 as [|a l Ha _ IH]; [done|]. cbn [Datatypes.app]. rewrite in_reset_cons; [done|].
  destruct Ha as [(r & v & Ha & Hr)|(k & _ & _ & [[_ ->]|[_ ->]])]; try done.
  intros w ->. destruct Ha as [Ha|Ha]; [done|]. injection Ha as <-. by destruct Hr.
Qed.

Section init.
Context (hw : list mmio -> reg -> Z) (p : port) (pins speed : Z) (mode : GPIOMode).
Hypothesis Hkeep : port_latches hw p.
Hypothesis Hspeed : 0 <= speed < 4.

Lemma config_cons n a t : in_reset (CFGLR p) t = false -> in_reset (CFGLR p) (a :: t) = false -> config hw p n (a :: t) =
  match a with Wr r v => if decide (r = cfg_reg p n) then nibble (u32 v) (n .& 7) else config hw p n t
             | _ => config hw p n t end.
Proof.
  intros Hr Ha. unfold config. assert (forall x, u32 x = width (cfg_reg p n) x) as Hw by (intros x; unfold cfg_reg; by destruct (n <? 8)).
  assert (forall l, in_reset (cfg_reg p n) l = in_reset (CFGLR p) l) as Hr' by (intros l; unfold cfg_reg; by destruct (n <? 8)).
  rewrite !Hw, Hkeep by by rewrite Hr'. destruct a as [r v|r v|]; try done. by destruct (decide _); rewrite ?Hw.
Qed.
Lemma pull_reset l t : Forall (pull_write p pins mode) l -> in_reset (CFGLR p) (l ++ t) = in_reset (CFGLR p) t.
Proof.
  induction 1 as [|a l Ha _ IH]; [done|]. cbn [Datatypes.app]. rewrite in_reset_cons; [done|].
  by destruct Ha as (k & _ & _ & [[_ ->]|[_ ->]]).
Qed.
Lemma config_pull n l t : in_reset (CFGLR p) t = false -> Forall (pull_write p pins mode) l ->
  config hw p n (l ++ t) = config hw p n t.
Proof.
  intros Hr. induction 1 as [|a l Ha Hl IH]; [done|]. cbn [Datatypes.app]. pose proof (pull_reset l t Hl) as Hlt.
  destruct Ha as (k & _ & _ & [[_ ->]|[_ ->]]); rewrite config_cons, IH by (done || (by rewrite Hlt) || by rewrite in_reset_cons, ?Hlt);
    (rewrite decide_False; [done|]); unfold cfg_reg; by destruct (n <? 8).
Qed.

Lemma low3 n : 0 <= n < 16 -> 0 <= n .& 7 < 8 /\ n = (if n <? 8 then 0 else 8) + (n .& 7).
Proof. intros Hn. change 7 with (Z.ones 3). rewrite Z.land_ones by lia. change (2 ^ 3) with 8. case_Zs; zlia. Qed.

(** One of the two halves of [GPIO_Init], when it has pins. *)
Definition half (k : Z) (c : bool) : M unit :=
  if c then
    tmpreg ← load hw (cfg_reg p k);
    tmpreg ← gpio_loop 8 p pins (mode_nibble speed mode) k mode 0 tmpreg;
    write (cfg_reg p k) tmpreg
  else mret tt.

Lemma half_run k t : in_reset (CFGLR p) t = false -> k = 0 \/ k = 8 ->
  exists l, half k true t = Some (tt, l ++ t) /\
    Forall (gpio_access p pins mode) l /\
    forall n, 0 <= n < 16 -> config hw p n (l ++ t) =
      if (8 <=? n) && (k =? 0) || (n <? 8) && (k =? 8) then config hw p n t
      else if Z.testbit pins n then mode_nibble speed mode else config hw p n t.
Proof.
  intros Hrst Hk. set (r := cfg_reg p k).
  assert (forall x, width r x = u32 x) as Hw by (intros x; destruct Hk; by subst k).
  destruct (gpio_loop_run p pins speed mode k Hspeed Hk 8 0 (u32 (hw t r)) (Rd r (u32 (hw t r)) :: t)) as (v & l & E & Hl & Hv); try lia.
  exists (Wr r (u32 v) :: l ++ [Rd r (u32 (hw t r))]). split; [|split].
  - unfold half, mbind, M_bind at 1, load. fold r. rewrite Hw. cbn [mbind option_bind]. unfold M_bind. rewrite E.
    cbn [mbind option_bind]. unfold write. rewrite Hw. cbn [Datatypes.app]. by rewrite <- List.app_assoc.
  - constructor; [left; exists r, (u32 v)|apply Forall_app; split;
      [eapply Forall_impl; [exact Hl|]; intros a Ha; by right|constructor; [left; exists r, (u32 (hw t r))|constructor]]].
    all: split; [auto|]; destruct Hk; subst k; auto.
  - intros n Hn. destruct (low3 n Hn) as [Hlow Hsum]. cbn [Datatypes.app]. rewrite <- List.app_assoc. cbn [Datatypes.app].
    set (t1 := Rd r (u32 (hw t r)) :: t). assert (in_reset (CFGLR p) t1 = false) as Hr1 by by unfold t1; rewrite in_reset_cons.
    rewrite config_cons, config_pull by (done || (by rewrite pull_reset) || (rewrite in_reset_cons; [by rewrite pull_reset|destruct Hk; by subst k])).
    unfold t1. rewrite config_cons, u32_small by (done || apply u32_range).
    assert (config hw p n t = nibble (u32 (hw t (cfg_reg p n))) (n .& 7)) as Hold by done.
    unfold r, cfg_reg in *. rewrite nibble_u32, Hv, (proj2 (Z.leb_le 0 (n .& 7))), (proj2 (Z.ltb_lt (n .& 7) (0 + Z.of_nat 8))) by lia.
    destruct (Z.leb_spec 8 n), (Z.ltb_spec n 8); try lia; destruct Hk; subst k; cbn [Z.eqb Z.ltb Z.compare andb orb Pos.compare Pos.compare_cont].
    all: try (rewrite decide_False by done; done).
    all: rewrite decide_True by done; rewrite <- Hsum; by destruct (Z.testbit pins n).
Qed.

Lemma no_low_pin n : pins .& 0xFF = 0 -> 0 <= n < 8 -> Z.testbit pins n = false.
Proof.
  intros Hz Hn. assert (Z.testbit (pins .& 0xFF) n = false) as H by (rewrite Hz; apply Z.bits_0).
  change 0xFF with (Z.ones 8) in H. rewrite Z.land_spec, Z.testbit_ones_nonneg, (proj2 (Z.ltb_lt n 8)), andb_true_r in H by lia. done.
Qed.

(** [GPIO_Init], for any set of pins of a port and any mode, gives exactly
    the pins of the set that mode (and its speed, when it is an output), leaves
    the configuration of the other pins as it was, touches no register beyond
    those of the port, and sets the level of a pin only to choose between the
    pull-up and the pull-down of an input of the set. *)
Lemma gpio_init_run t : in_reset (CFGLR p) t = false -> 0 <= pins < 65536 ->
  exists l, GPIO_Init hw p pins speed mode t = Some (tt, l ++ t) /\
    Forall (gpio_access p pins mode) l /\
    forall n, 0 <= n < 16 ->
      config hw p n (l ++ t) = if Z.testbit pins n then mode_nibble speed mode else config hw p n t.
Proof.
  intros Hrst Hpins.
  assert (exists l, half 0 (negb (pins .& 0xFF =? 0)) t = Some (tt, l ++ t) /\ Forall (gpio_access p pins mode) l /\
    forall n, 0 <= n < 16 -> config hw p n (l ++ t) =
      if (n <? 8) && Z.testbit pins n then mode_nibble speed mode else config hw p n t) as (l1 & E1 & Hl1 & Hc1).
  { destruct (Z.eqb_spec (pins .& 0xFF) 0) as [Hz|Hz]; cbn [negb].
    - exists []. split; [done|]. split; [constructor|]. intros n Hn. destruct (Z.ltb_spec n 8); [|done].
      by rewrite no_low_pin by lia.
    - destruct (half_run 0 t Hrst ltac:(by left)) as (l & E & Hl & Hc). exists l. split; [exact E|]. split; [done|].
      intros n Hn. rewrite Hc by done. by destruct (Z.leb_spec 8 n), (Z.ltb_spec n 8); try lia. }
  assert (in_reset (CFGLR p) (l1 ++ t) = false) as Hrst1 by by rewrite (access_reset p pins mode).
  assert (exists l, half 8 (pins >? 0xFF) (l1 ++ t) = Some (tt, l ++ l1 ++ t) /\ Forall (gpio_access p pins mode) l /\
    forall n, 0 <= n < 16 -> config hw p n (l ++ l1 ++ t) =
      if (8 <=? n) && Z.testbit pins n then mode_nibble speed mode else config hw p n (l1 ++ t)) as (l2 & E2 & Hl2 & Hc2).
  { rewrite Z.gtb_ltb. destruct (Z.ltb_spec 0xFF pins) as [Hz|Hz].
    - destruct (half_run 8 (l1 ++ t) Hrst1 ltac:(by right)) as (l & E & Hl & Hc). exists l. split; [exact E|]. split; [done|].
      intros n Hn. rewrite Hc by done. by destruct (Z.leb_spec 8 n), (Z.ltb_spec n 8); try lia.
    - exists []. split; [done|]. split; [constructor|]. intros n Hn. destruct (Z.leb_spec 8 n); [|done].
      by rewrite (bits_above pins 8) by (change (2 ^ 8) with 256; lia). }
  exists (l2 ++ l1). rewrite <- List.app_assoc. split; [|split].
  - change (GPIO_Init hw p pins speed mode) with (_ ← half 0 (negb (pins .& 0xFF =? 0)); half 8 (pins >? 0xFF)).
    unfold mbind, M_bind. rewrite E1. exact E2.
  - by apply Forall_app.
  - intros n Hn. rewrite Hc2, Hc1 by done. destruct (Z.leb_spec 8 n), (Z.ltb_spec n 8); try lia; cbn [andb]; done.
Qed.
End init.

(** Without pulls only the configuration is touched. *)
Lemma gpio_undisturbed {R still} `{Undisturbed R still} p pins mode l t :
  still (CFGLR p) = true -> still (CFGHR p) = true -> mode <> GPIO_Mode_IPD -> mode <> GPIO_Mode_IPU ->
  Forall (gpio_access p pins mode) l -> R t (l ++ t).
Proof.
  intros HL HH Hd Hu. induction 1 as [|a l Ha _ IH]; [reflexivity|]. cbn [Datatypes.app]. etrans; [exact IH|].
  destruct Ha as [(r & v & Ha & Hr)|(k & _ & _ & [[? _]|[? _]])]; [|done|done].
  destruct Ha as [->| ->]; [apply und_rd|apply und_wr]; by destruct Hr as [->| ->].
Qed.
