(* ===== verification/Lcd.v ===== *)
(** * Lcd: the panel's wires, register by register

    The traces of [St7789] carried out by the functions the driver calls:
    [GPIO_WriteBit] for the pins and [SPI_SendData] for the bytes; what a log of
    register accesses puts on the wires; and the link between the registers and
    the panel, in which a byte takes its time to leave.  Then: an interface that
    is set up puts any trace of the driver on the wires, and every routine's
    trace is made of bytes. *)
From S2P Require Import Prelude Fonts St7789 Periph Registers Exti Spi.

(** ** The calls behind the events *)

(** [RST_PIN], [DC_PIN] and [CS_PIN], all on port C. *)
Definition pin_mask (p : lcd_pin) : Z :=
  match p with RST => GPIO_Pin_0 | DC => GPIO_Pin_1 | CS => GPIO_Pin_2 end.

Section driver.
Context (hw : list mmio -> reg -> Z) (fuel : nat) (dff : Z).

Definition lcd_call (e : lcd_event) : M unit :=
  match e with
  | Pin p level => GPIO_WriteBit GPIOC (pin_mask p) (if level then 1 else 0)
  | Spi b => SPI_SendData hw fuel dff SPI1 [b] 1
  | St7789.Delay ms => delay_ms ms
  end.
Fixpoint lcd_exec (t : trace) : M unit :=
  match t with [] => mret tt | e :: t => _ ← lcd_call e; lcd_exec t end.
End driver.

(** ** What a log puts on the wires *)

Definition pins_in (v : Z) (level : bool) : trace :=
  (fun p => Pin p level) <$> filter (fun p => v .& pin_mask p <> 0) [RST; DC; CS].
Definition on_wire (a : mmio) : trace :=
  match a with
  | Wr (BSHR GPIOC) v => pins_in v true ++ pins_in (Z.ldiff (v ≫ 16) v) false
  | Wr (BCR GPIOC) v => pins_in v false
  | Wr (SPI SPI1 S_DATAR) v => [Spi (u8 v)]
  | Delay ms => [St7789.Delay ms]
  | _ => []
  end.
Fixpoint wire (t : list mmio) : trace := match t with [] => [] | a :: t => wire t ++ on_wire a end.

(** ** The link

    Bytes written to the data register wait behind the one that is being
    shifted out, and arrive later; a pin changes at once; a delay lasts longer
    than two bytes take.  [arrives q t o]: with [q] under way, [t] on the
    registers may be [o] at the panel. *)
Inductive arrives : list Z -> trace -> trace -> Prop :=
  | arr_end : arrives [] [] []
  | arr_load b q t o : (length q < 2)%nat -> arrives (q ++ [b]) t o -> arrives q (Spi b :: t) o
  | arr_out b q t o : arrives q t o -> arrives (b :: q) t (Spi b :: o)
  | arr_pin p l q t o : arrives q t o -> arrives q (Pin p l :: t) (Pin p l :: o)
  | arr_wait ms t o : arrives [] t o -> arrives [] (St7789.Delay ms :: t) (St7789.Delay ms :: o).

(** No pin changes while a byte may be under way. *)
Fixpoint settled (busy : bool) (t : trace) : bool :=
  match t with
  | [] => true
  | Spi _ :: t => settled true t
  | Pin _ _ :: t => negb busy && settled false t
  | St7789.Delay _ :: t => settled false t
  end.

(** ** The driver's traces on the wires *)

(** ** On the registers *)

(** The interface is on, master, in frames of 8 bits, idle on the first edge,
    and out of reset. *)
Definition unreset (t : list mmio) : Prop := in_reset (SPI SPI1 S_CTLR1) t = false.
Definition spi_ready (hw : list mmio -> reg -> Z) (t : list mmio) : Prop :=
  unreset t /\ u16 (hw t (SPI SPI1 S_CTLR1)) .& 0x0945 = 0x0144.

(** The control register keeps what is written to it, and when the interface is
    on, its transmit buffer is found empty within [n] polls. *)
Record spi_law (hw : list mmio -> reg -> Z) (n : nat) : Prop := {
  ctlr1_keeps : latches hw (SPI SPI1 S_CTLR1);
  txe_law : forall t, spi_ready hw t -> is_Some (until n (SPI_I2S_GetFlagStatus hw SPI1 SPI_TXE_FLAG) t) }.

(** Accesses that neither reach the wires nor change the interface. *)
Definition off_wire (r : reg) : bool :=
  match r with BSHR GPIOC | BCR GPIOC | SPI SPI1 S_DATAR | SPI SPI1 S_CTLR1 | APB2PRSTR => false | _ => true end.
Definition same_spi (hw : list mmio -> reg -> Z) (t t' : list mmio) : Prop :=
  unreset t -> unreset t' /\ u16 (hw t' (SPI SPI1 S_CTLR1)) = u16 (hw t (SPI SPI1 S_CTLR1)).
Definition same_wire (hw : list mmio -> reg -> Z) (t t' : list mmio) : Prop :=
  wire t' = wire t /\ same_spi hw t t'.

Section exec.
Context (hw : list mmio -> reg -> Z) (n : nat) (dff : Z).
Hypothesis Hlaw : spi_law hw n.

(** C leaves [1 << 0x0800] undefined; a compiler folds it to 0, and the
    processor, which takes a shift modulo 32, gives 1. *)
Hypothesis Hdff : dff = 0 \/ dff = 1.

(** An access that writes neither the control register nor a reset. *)
Lemma same_spi_cons a t : (forall r v, a = Wr r v -> r <> APB2PRSTR /\ r <> SPI SPI1 S_CTLR1) -> same_spi hw t (a :: t).
Proof.
  intros Ha Hu. assert (unreset (a :: t)) as Hu'.
  { unfold unreset. rewrite in_reset_cons; [done|]. intros v ->. by destruct (Ha APB2PRSTR v eq_refl). }
  split; [done|]. pose proof (ctlr1_keeps _ _ Hlaw a t Hu Hu') as Hk. cbn [width] in Hk. rewrite Hk.
  destruct a as [r v|r v|ms]; try done. rewrite decide_False; [done|]. by destruct (Ha r v eq_refl).
Qed.
#[export] Instance same_spi_order : PreOrder (same_spi hw).
Proof.
  split; [done|]. intros t1 t2 t3 H1 H2 Hu. destruct (H1 Hu) as [Hu2 E1]. destruct (H2 Hu2) as [Hu3 E2].
  split; [done|congruence].
Qed.
#[export] Instance same_wire_undisturbed : Undisturbed (same_wire hw) off_wire.
Proof.
  split.
  - split; [by split|]. intros t1 t2 t3 [H1 H2] [H3 H4]. split; [congruence|by etrans].
  - intros r v t Hr. split; [apply List.app_nil_r|]. by apply same_spi_cons.
  - intros r v t Hr. split.
    + cbn [wire]. destruct r as [| | | | | | | | | | | | | | |[]|[]| | | | | | | | | | | | |[] []| |]; try done; apply List.app_nil_r.
    + apply same_spi_cons. intros r' v' [= <- <-]. by split; intros ->.
Qed.

#[export] Instance same_spi_undisturbed : Undisturbed (same_spi hw) off_wire.
Proof.
  split; [apply _| |]; intros r v t Hr; apply same_spi_cons; intros r' v' [= <- <-]. by split; intros ->.
Qed.
#[export] Instance same_spi_patient : Patient (same_spi hw).
Proof. intros ms t. by apply same_spi_cons. Qed.

Lemma until_wire t a t' : until n (SPI_I2S_GetFlagStatus hw SPI1 SPI_TXE_FLAG) t = Some (a, t') -> same_wire hw t t'.
Proof. apply leaves_until, steady_leaves. unfold SPI_I2S_GetFlagStatus. steady. Qed.
Lemma ready_dff t : spi_ready hw t -> u16 (hw t (SPI SPI1 S_CTLR1)) .& dff = 0.
Proof.
  intros [_ Hr]. destruct Hdff as [->| ->]; [apply Z.land_0_r|]. change 1 with (2 ^ 0).
  apply Z.eqb_eq. rewrite land_bit by done.
  assert (Z.testbit (u16 (hw t (SPI SPI1 S_CTLR1)) .& 0x0945) 0 = false) as Hb by by rewrite Hr.
  rewrite Z.land_spec, andb_true_r in Hb. by rewrite Hb.
Qed.

Lemma spi_ready_same t t' : same_spi hw t t' -> spi_ready hw t -> spi_ready hw t'.
Proof. intros Hs [Hu Hr]. destruct (Hs Hu) as [Hu' E]. split; [done|by rewrite E]. Qed.

(** One byte: however much is behind it, the same accesses. *)
Lemma send_step b t : 0 <= b < 256 -> spi_ready hw t ->
  exists t1, (forall rest len, 0 < len < 256 ->
      SPI_SendData hw n dff SPI1 (b :: rest) len t = SPI_SendData hw n dff SPI1 rest (len - 1) t1) /\
    wire t1 = wire t ++ [Spi b] /\ spi_ready hw t1.
Proof.
  intros Hb Hr. destruct (txe_law _ _ Hlaw t Hr) as [[[] t0] E0]. pose proof (until_wire _ _ _ E0) as Hs.
  pose proof (spi_ready_same _ _ (proj2 Hs) Hr) as Hr0. set (c := Rd (SPI SPI1 S_CTLR1) (u16 (hw t0 (SPI SPI1 S_CTLR1)))).
  exists (Wr (SPI SPI1 S_DATAR) b :: c :: t0). split; [|split].
  - intros rest len Hlen. cbn [SPI_SendData]. rewrite (proj2 (Z.gtb_lt len 0)) by lia.
    unfold mbind at 1, M_bind at 1. rewrite E0. cbn [mbind option_bind]. unfold mbind at 1, M_bind at 1, load at 1.
    cbn [mbind option_bind width]. rewrite (ready_dff _ Hr0). cbn [Z.eqb negb].
    unfold mbind, M_bind, write. cbn [mbind option_bind width]. rewrite u8_small, (u16_small b) by lia. done.
  - cbn [wire on_wire]. rewrite u8_small, List.app_nil_r by done. by destruct Hs as [-> _].
  - apply (spi_ready_same t0); [|done]. etrans; [apply (same_spi_cons c)|apply same_spi_cons]; by intros ? ? [= <- <-].
Qed.

(** A buffer, as long as its length says, is sent as its bytes one by one. *)
Lemma send_bytes buf : forall len t, Forall (fun b => 0 <= b < 256) buf -> 0 <= len <= Z.of_nat (length buf) -> len < 256 ->
  spi_ready hw t -> SPI_SendData hw n dff SPI1 buf len t = lcd_exec hw n dff (spi_send buf len) t.
Proof.
  induction buf as [|b buf IH]; intros len t Hb Hlen Hl Hr.
  { cbn in Hlen. replace len with 0 by lia. done. }
  inversion_clear Hb as [|? ? Hb1 Hb2]. unfold spi_send in *. rewrite u8_small by lia.
  destruct (Z.eqb_spec len 0) as [->|Hne]; [done|].
  replace (Z.to_nat len) with (S (Z.to_nat (len - 1))) by lia. cbn [take fmap list_fmap lcd_exec lcd_call].
  destruct (send_step b t Hb1 Hr) as (t1 & E & _ & Hr1). unfold mbind, M_bind. rewrite (E [] 1), E by lia.
  cbn in Hlen. rewrite (IH (len - 1) t1) by (done || lia). by rewrite u8_small by lia.
Qed.

(** ** Any trace *)

Definition byte_event (e : lcd_event) : Prop := match e with Spi b => 0 <= b < 256 | _ => True end.

Lemma call_wire e t : byte_event e -> spi_ready hw t ->
  exists t', lcd_call hw n dff e t = Some (tt, t') /\ wire t' = wire t ++ [e] /\ spi_ready hw t'.
Proof.
  intros He Hr. destruct e as [p l|b|ms]; cbn [lcd_call].
  - unfold GPIO_WriteBit. destruct l, p; (eexists; split; [reflexivity|]; split; [done|];
      apply (spi_ready_same t); [apply same_spi_cons; by intros ? ? [= <- <-]|done]).
  - destruct (send_step b t He Hr) as (t1 & E & Hw & Hr1). exists t1. by rewrite E.
  - eexists. split; [reflexivity|]. split; [done|]. apply (spi_ready_same t); [by apply same_spi_cons|done].
Qed.

(** Any sequence of events comes out in its order. *)
Lemma exec_run tr : forall t, Forall byte_event tr -> spi_ready hw t ->
  exists t', lcd_exec hw n dff tr t = Some (tt, t') /\ wire t' = wire t ++ tr /\ spi_ready hw t'.
Proof.
  induction tr as [|e tr IH]; intros t Ht Hr.
  { exists t. by rewrite List.app_nil_r. }
  inversion_clear Ht as [|? ? He Htr]. destruct (call_wire e t He Hr) as (t1 & E & Hw & Hr1).
  destruct (IH t1 Htr Hr1) as (t2 & E2 & Hw2 & Hr2). exists t2. cbn [lcd_exec]. unfold mbind, M_bind. rewrite E.
  split; [done|]. split; [|done]. by rewrite Hw2, Hw, <- List.app_assoc.
Qed.

(** C31 Whatever the driver does to the panel - any sequence of pin changes,
    bytes and delays - comes out on the wires in that order and nothing else
    does, when the functions it calls run on an interface that is set up and
    empties its buffer in time; no byte waits for ever, and a buffer sent by one
    call is the bytes of the buffer sent one by one. *)
Theorem lcd_on_registers t : spi_ready hw t ->
  (forall tr, Forall byte_event tr -> exists t', lcd_exec hw n dff tr t = Some (tt, t') /\
     wire t' = wire t ++ tr /\ spi_ready hw t') /\
  (forall buf, Forall (fun b => 0 <= b < 256) buf -> Z.of_nat (length buf) < 256 ->
     exists t', SPI_SendData hw n dff SPI1 buf (Z.of_nat (length buf)) t = Some (tt, t') /\
     wire t' = wire t ++ (Spi <$> buf) /\ spi_ready hw t').
Proof.
  intros Hr. split; [intros tr Htr; by apply exec_run|]. intros buf Hb Hl.
  destruct (exec_run (Spi <$> buf) t) as (t' & E & H'); [by apply Forall_fmap|done|].
  exists t'. split; [|done]. rewrite send_bytes by (done || lia). rewrite <- E. f_equal.
  unfold spi_send. by rewrite u8_small, Nat2Z.id, firstn_all by lia.
Qed.
End exec.

(** ** The traces are bytes *)

Create HintDb lcd_bytes.

Lemma spi_send_bytes buf len : Forall (fun b => 0 <= b < 256) buf -> Forall byte_event (spi_send buf len).
Proof. intros Hb. apply Forall_fmap. eapply Forall_impl; [by apply Forall_take|done]. Qed.
Lemma pin_bytes p l : Forall byte_event [Pin p l].
Proof. by repeat constructor. Qed.
Lemma delay_bytes ms : Forall byte_event (rt_thread_mdelay ms).
Proof. by repeat constructor. Qed.
Lemma color_bytes_range c : Forall (fun b => 0 <= b < 256) (color_bytes c).
Proof. repeat constructor; apply u8_range. Qed.
#[local] Hint Resolve pin_bytes delay_bytes spi_send_bytes color_bytes_range : lcd_bytes.

Ltac bytes := repeat first [progress (eauto with lcd_bytes) | apply Forall_app; split | apply Forall_nil].

Lemma command_bytes c : Forall byte_event (LCD_command_write c).
Proof. unfold LCD_command_write, lcd_SendBytes. bytes. apply spi_send_bytes. repeat constructor; apply u8_range. Qed.
Lemma data_bytes c : Forall byte_event (LCD_data_write c).
Proof. unfold LCD_data_write, lcd_SendBytes. bytes. apply spi_send_bytes. repeat constructor; apply u8_range. Qed.
#[local] Hint Resolve command_bytes data_bytes : lcd_bytes.
Lemma windows_bytes x y x2 y2 : Forall byte_event (LCD_SetWindows x y x2 y2).
Proof. unfold LCD_SetWindows. bytes. Qed.
Lemma write_data_bytes c : Forall byte_event (WriteData (color_bytes c) 2).
Proof. unfold WriteData. bytes. Qed.
#[local] Hint Resolve windows_bytes write_data_bytes : lcd_bytes.
Lemma init_bytes dir : Forall byte_event (LCD_Init dir).2.
Proof.
  unfold LCD_Init, LCD_SetAttributes. destruct (dir =? HORIZONTAL); cbn [snd]; unfold LCD_InitReg; bytes.
Qed.
Lemma rectangle_bytes x y w h c : Forall byte_event (FillRectangle x y w h c).
Proof.
  unfold FillRectangle. destruct (_ || _); [by apply Forall_nil|]. bytes.
  apply Forall_concat, Forall_replicate, Forall_concat, Forall_replicate. bytes.
Qed.
Lemma pixel_bytes x y c : Forall byte_event (DrawPixel x y c).
Proof. unfold DrawPixel. destruct (_ || _); bytes. Qed.
Lemma char_bytes x y ch font c bg t : WriteChar x y ch font c bg = Some t -> Forall byte_event t.
Proof.
  unfold WriteChar. destruct (mapM _ _) as [rows|] eqn:E; [|done]. intros H%(inj Some). subst t. bytes.
  apply Forall_concat. apply mapM_Some in E.
  eapply Forall2_Forall_r; [exact E|]. apply Forall_true. intros i row H.
  destruct (data font !!z _); [|done]. injection H as <-. unfold WriteChar_row.
  apply Forall_concat, Forall_fmap, Forall_true. intros j. cbn -[WriteData]. destruct (glyph_bit z j); apply write_data_bytes.
Qed.
#[local] Hint Resolve char_bytes : lcd_bytes.
Lemma string_bytes sp font c bg str : forall i x y t,
  print_loop sp font c bg i x y str = Some t -> Forall byte_event t.
Proof.
  induction str as [|ch str IH]; intros i x y t; cbn [print_loop]; [by intros [= <-]|].
  destruct (wrap font x y ch) as [|x' y'|x' y']; [by intros [= <-]|by apply IH|].
  destruct (ch =? 10); [by apply IH|]. destruct (if ch =? 32 then sp i else Some i); [|by intros [= <-]].
  destruct (WriteChar _ _ _ _ _ _) as [t1|] eqn:E1; [|done]. cbn [mbind option_bind].
  destruct (print_loop _ _ _ _ _ _ _ _) as [t2|] eqn:E2; [|done]. intros H%(inj Some). subst t.
  apply Forall_app. split; [by eapply char_bytes|by eapply IH].
Qed.
