(* ===== verification/LcdLink.v ===== *)
(** * LcdLink: the panel behind a slow link

    What arrives at the panel when bytes take their time and pins do not. *)
From S2P Require Import Prelude St7789 Panel Lcd.

(** ** Slow links *)

(** A link that is never late. *)
Lemma arrives_self t : arrives [] t t.
Proof.
  induction t as [|[p l|b|ms] t IH]; constructor; try done; [cbn; lia|]. cbn. by constructor.
Qed.
Lemma arrives_behind a : forall t o, arrives [] t o -> arrives [] (a ++ t) (a ++ o).
Proof.
  induction a as [|[p l|b|ms] a IH]; intros t o Ho; cbn [Datatypes.app]; [done|constructor; auto| |constructor; auto].
  constructor; [cbn; lia|]. cbn. constructor. auto.
Qed.

Fixpoint busy_after (busy : bool) (t : trace) : bool :=
  match t with [] => busy | Spi _ :: t => busy_after true t | _ :: t => busy_after false t end.

(** What is settled arrives as it was sent, before what comes behind it. *)
Lemma settled_prefix q t o : arrives q t o -> forall busy a b, t = a ++ b -> settled busy a = true ->
  (busy = false -> q = []) -> busy_after busy a = false ->
  exists o', o = (Spi <$> q) ++ a ++ o' /\ arrives [] b o'.
Proof.
  induction 1 as [|v q t o Hq Ho IH|v q t o Ho IH|p l q t o Ho IH|ms t o Ho IH];
    intros busy a b E Hs Hb Ha.
  - destruct a; [|done]. cbn in E. subst b. exists []. split; [done|constructor].
  - destruct a as [|e a]; cbn [Datatypes.app] in E.
    { rewrite (Hb Ha) in *. subst b. exists o. split; [done|by constructor]. }
    injection E as <- ->. destruct (IH true a b) as (o' & -> & Ho'); [done|done|done|done|].
    exists o'. split; [|done]. by rewrite fmap_app, <- List.app_assoc.
  - destruct busy; [|by discriminate Hb]. destruct (IH true a b) as (o' & -> & Ho'); [done|done|done|done|].
    by exists o'.
  - destruct a as [|e a]; cbn [Datatypes.app] in E.
    { rewrite (Hb Ha) in *. subst b. eexists. split; [done|by constructor]. }
    injection E as <- ->. apply andb_true_iff in Hs as [Hn Hs]. apply negb_true_iff in Hn. rewrite (Hb Hn) in *.
    destruct (IH false a b) as (o' & -> & Ho'); [done|done|done|done|]. by exists o'.
  - destruct a as [|e a]; cbn [Datatypes.app] in E.
    { subst b. eexists. split; [done|by constructor]. }
    injection E as <- ->. destruct (IH false a b) as (o' & -> & Ho'); [done|done|done|done|]. by exists o'.
Qed.

Lemma settled_arrives t o : settled false t = true -> busy_after false t = false -> arrives [] t o -> o = t.
Proof.
  intros Hs Hb Ha. destruct (settled_prefix _ _ _ Ha false t [] ltac:(by rewrite List.app_nil_r) Hs ltac:(done) Hb)
    as (o' & -> & Ho'). inversion Ho'. by rewrite List.app_nil_r.
Qed.

(** Nothing but the selection of the panel matters to one that is not selected. *)
Definition keeps_cs (e : lcd_event) : Prop := match e with Pin CS _ => False | _ => True end.
Lemma unselected_run t : forall P, p_cs P = true -> Forall keeps_cs t -> p_gram (panel_run t P) = p_gram P.
Proof.
  induction t as [|e t IH]; intros P Hp Hf; [done|]. inversion_clear Hf as [|? ? He Ht]. cbn [panel_run foldl].
  change (foldl panel_step ?x t) with (panel_run t x). rewrite IH; destruct e as [[]|b|ms]; cbn; try done; by rewrite Hp.
Qed.

Lemma arrives_keeps_cs q t o : arrives q t o -> Forall keeps_cs t -> Forall keeps_cs o.
Proof.
  induction 1 as [|v q t o Hq Ho IH|v q t o Ho IH|p l q t o Ho IH|ms t o Ho IH]; intros Hf.
  - done.
  - apply Forall_cons in Hf as [_ Hf]. auto.
  - constructor; [done|auto].
  - apply Forall_cons in Hf as [He Hf]. constructor; auto.
  - apply Forall_cons in Hf as [He Hf]. constructor; auto.
Qed.

(** Bytes and then the chip select: all but the last two are there in time. *)
Lemma late_bytes q t o : arrives q t o -> forall bs pins, t = (Spi <$> bs) ++ Pin CS true :: pins ->
  Forall keeps_cs pins -> (length q <= 2)%nat ->
  exists a rest, o = (Spi <$> take a (q ++ bs)) ++ Pin CS true :: rest /\
    (length (q ++ bs) <= a + 2)%nat /\ Forall keeps_cs rest.
Proof.
  induction 1 as [|v q t o Hq Ho IH|v q t o Ho IH|p l q t o Ho IH|ms t o Ho IH]; intros bs pins E Hp Hlen.
  - by destruct bs.
  - destruct bs as [|b bs]; [done|]. injection E as -> ->.
    destruct (IH bs pins) as (a & rest & -> & Ha & Hr); [done|done|rewrite length_app; cbn; lia|].
    exists a, rest. rewrite <- List.app_assoc in *. done.
  - destruct (IH bs pins) as (a & rest & -> & Ha & Hr); [done|done|cbn in Hlen; lia|].
    exists (S a), rest. split; [done|]. split; [cbn; lia|done].
  - destruct bs as [|b bs]; [|done]. injection E as -> -> ->. exists 0%nat, o. split; [done|].
    rewrite List.app_nil_r. split; [lia|by eapply arrives_keeps_cs].
  - destruct bs as [|b bs]; [|done]. done.
Qed.

(** ** A rectangle on a slow link *)

Definition pixel_stream (n : nat) (c : Z) : list Z := concat (replicate n (color_bytes c)).

Lemma concat_replicate {A} (x : A) b : forall a, concat (replicate a (replicate b x)) = replicate (a * b) x.
Proof. induction a as [|a IH]; [done|]. cbn [replicate concat Nat.mul]. by rewrite IH, replicate_add. Qed.
Lemma stream_spi n c : concat (replicate n (spi_send (color_bytes c) 2)) = Spi <$> pixel_stream n c.
Proof.
  induction n as [|n IH]; [done|]. unfold pixel_stream in *. cbn [replicate concat]. by rewrite fmap_app, <- IH.
Qed.

Lemma stream_length n c : length (pixel_stream n c) = (2 * n)%nat.
Proof.
  induction n as [|n IH]; [done|]. unfold pixel_stream in *. cbn [replicate concat]. rewrite length_app, IH. cbn. lia.
Qed.

(** Opening the window, on a panel in any state. *)
Definition rect_start (x y w h : Z) : trace :=
  LCD_SetWindows x y (u16 (x + w - 1)) (u16 (y + h - 1)) ++ LCD_CS_LOW ++ LCD_DC_HIGH.

Lemma rectangle_shape x y w h c : 0 <= x < ST7789_WIDTH -> 0 <= y < ST7789_HEIGHT ->
  0 <= w < 65536 -> 0 <= h < 65536 ->
  let w' := Z.min w (ST7789_WIDTH - x) in let h' := Z.min h (ST7789_HEIGHT - y) in
  FillRectangle x y w h c = rect_start x y w' h' ++ (Spi <$> pixel_stream (Z.to_nat (w' * h')) c) ++ [Pin CS true; Pin DC false].
Proof.
  unfold ST7789_WIDTH, ST7789_HEIGHT. intros Hx Hy Hw Hh. cbv zeta. unfold FillRectangle.
  unfold ST7789_WIDTH, ST7789_HEIGHT. rewrite !Z.geb_leb.
  rewrite (proj2 (Z.leb_gt _ _)), (proj2 (Z.leb_gt _ _)) by lia. cbn [orb].
  set (w' := if 240 <=? x + w - 1 then u16 (240 - x) else w).
  set (h' := if 280 <=? y + h - 1 then u16 (280 - y) else h).
  assert (w' = Z.min w (240 - x)) as <- by (unfold w'; case_Z; rewrite ?u16_small; lia).
  assert (h' = Z.min h (280 - y)) as <- by (unfold h'; case_Z; rewrite ?u16_small; lia).
  assert (0 <= w' /\ 0 <= h') as [Hw' Hh'].
  { unfold w', h'. split; case_Z; try lia; apply u16_range. }
  unfold rect_start. rewrite FillRectangle_pixels, const_grid, concat_replicate, fmap_replicate, stream_spi by done.
  rewrite <- !List.app_assoc. rewrite <- Z2Nat.inj_mul, (Z.mul_comm h') by done. done.
Qed.

Lemma rect_start_settled x y w h : settled false (rect_start x y w h) = true /\ busy_after false (rect_start x y w h) = false.
Proof. by split. Qed.

Lemma rect_start_run P x y w h : 0 <= x < 65536 ->
  let R := panel_run (rect_start x y w h) P in
  filling R /\ p_dc R = true /\ p_gram R = p_gram P /\
  p_xs R = x /\ p_xe R = u16 (x + w - 1) /\ p_ys R = u16 (y + 20) /\ p_ye R = u16 (u16 (y + h - 1) + 20) /\
  p_cx R = x /\ p_cy R = u16 (y + 20).
Proof.
  intros Hx. cbv zeta. unfold rect_start. rewrite panel_run_app, LCD_SetWindows_run by (done || apply u16_range). done.
Qed.

(** Half of the bytes are pixels. *)
Lemma stream_run c n : 0 <= c < 65536 -> forall a R, (a <= 2 * n)%nat -> filling R -> p_dc R = true ->
  p_gram (panel_run (Spi <$> take a (pixel_stream n c)) R) = p_gram (foldl put_pixel R (replicate (a / 2) c)).
Proof.
  intros Hc. induction n as [|n IH]; intros a R Ha Hf Hd.
  { by replace a with 0%nat by lia. }
  destruct a as [|[|a]]; [done| |].
  - cbn. unfold panel_data. destruct Hf as [H1 H2 H3]. rewrite H1, Hd, H2. cbn. by rewrite H3.
  - unfold pixel_stream in *. change (S (S a)) with (2 + a)%nat. cbn [replicate concat].
    rewrite take_app_add' by done. rewrite fmap_app, panel_run_app.
    change (Spi <$> color_bytes c) with (spi_send (color_bytes c) 2). rewrite spi_color_run by done.
    change (2 + a)%nat with (1 * 2 + a)%nat. rewrite Nat.div_add_l by lia. cbn [Nat.add replicate foldl].
    apply IH; [lia|by apply filling_put|by rewrite put_pixel_dc].
Qed.

Lemma zlookup_replicate {A} (x : A) n i : 0 <= i < Z.of_nat n -> replicate n x !!z i = Some x.
Proof. intros Hi. unfold zlookup. rewrite decide_True by lia. apply lookup_replicate. split; [done|lia]. Qed.

(** The first [m] pixels of a rectangle. *)
Lemma first_pixels P x y w h c m X Y : 0 <= x < ST7789_WIDTH -> 0 <= y < ST7789_HEIGHT ->
  0 < w <= ST7789_WIDTH - x -> 0 < h <= ST7789_HEIGHT - y -> 0 <= m <= w * h ->
  p_gram (foldl put_pixel (panel_run (rect_start x y w h) P) (replicate (Z.to_nat m) c)) !! (X, Y + 20) =
  if decide (inside x y w h X Y /\ (Y - y) * w + (X - x) < m) then Some c else screen_of P X Y.
Proof.
  unfold ST7789_WIDTH, ST7789_HEIGHT. intros Hx Hy Hw Hh Hm.
  destruct (rect_start_run P x y w h) as (Hf & Hd & Hg & Hxs & Hxe & Hys & Hye & Hcx & Hcy); [lia|].
  rewrite (foldl_put_gram _ _ 0 w h); rewrite ?length_replicate, ?Hxs, ?Hxe, ?Hys, ?Hye, ?Hcx, ?Hcy;
    rewrite ?(u16_small (y + h - 1)), ?u16_small by lia; try lia.
  2:{ intros _. rewrite Z.mod_0_l, Z.div_0_l by lia. lia. }
  cbv zeta. replace (Y + 20 - (y + 20)) with (Y - y) by lia. unfold inside.
  destruct (decide (x <= X < x + w /\ 0 <= (Y - y) * w + (X - x) < 0 + Z.of_nat (Z.to_nat m))) as [[HX Hn]|Hout].
  - rewrite decide_True by (split; [split; [done|nia]|lia]). apply zlookup_replicate. lia.
  - rewrite decide_False; [by rewrite Hg|]. intros [[HX HY] Hn]. apply Hout. split; [done|nia].
Qed.

(** What the panel has when the chip select rises. *)
Lemma rectangle_on_slow_link P x y w h c o : 0 <= x < ST7789_WIDTH -> 0 <= y < ST7789_HEIGHT ->
  0 <= w < 65536 -> 0 <= h < 65536 -> 0 <= c < 65536 -> arrives [] (FillRectangle x y w h c) o ->
  let w' := Z.min w (ST7789_WIDTH - x) in let h' := Z.min h (ST7789_HEIGHT - y) in
  exists m, w' * h' - 1 <= m <= w' * h' /\
  p_gram (panel_run o P) = p_gram (foldl put_pixel (panel_run (rect_start x y w' h') P) (replicate (Z.to_nat m) c)).
Proof.
  intros Hx Hy Hw Hh Hc Ha. cbv zeta. rewrite rectangle_shape in Ha by done. cbv zeta in Ha.
  set (w' := Z.min w _) in *. set (h' := Z.min h _) in *. set (n := Z.to_nat (w' * h')) in *.
  assert (0 <= w' * h') as Hn by (unfold w', h', ST7789_WIDTH, ST7789_HEIGHT in *; nia).
  destruct (settled_prefix _ _ _ Ha false _ _ eq_refl) as (o' & -> & Ho'); [done|done|done|].
  destruct (late_bytes _ _ _ Ho' (pixel_stream n c) [Pin DC false] eq_refl) as (a & rest & -> & Hlen & Hrest);
    [by repeat constructor|cbn; lia|]. cbn [Datatypes.app] in *.
  pose proof (stream_length n c) as El.
  set (b := Nat.min a (2 * n)). assert (take a (pixel_stream n c) = take b (pixel_stream n c)) as ->.
  { unfold b. destruct (Nat.le_ge_cases a (2 * n)); [by rewrite Nat.min_l|].
    rewrite Nat.min_r, !take_ge by lia. done. }
  destruct (rect_start_run P x y w' h') as (Hf & Hd & _); [unfold ST7789_WIDTH in *; lia|].
  pose proof (Nat.div_mod_eq b 2). pose proof (Nat.mod_upper_bound b 2 ltac:(lia)).
  exists (Z.of_nat (b / 2)). split; [lia|].
  rewrite Nat2Z.id, <- (stream_run c n) by (done || lia).
  cbn [fmap list_fmap Datatypes.app]. rewrite !panel_run_app.
  change (panel_run (Pin CS true :: rest) ?Q) with (panel_run rest (panel_step Q (Pin CS true))).
  by rewrite unselected_run.
Qed.

(** The end of a stream that is overtaken by both pins. *)
Lemma overtaken bs : forall b1 b2, arrives [] ((Spi <$> bs ++ [b1; b2]) ++ [Pin CS true; Pin DC false])
  ((Spi <$> bs) ++ [Pin CS true; Pin DC false; Spi b1; Spi b2]).
Proof.
  intros b1 b2. rewrite fmap_app, <- List.app_assoc. apply arrives_behind. cbn.
  repeat first [apply arr_end | apply arr_pin | apply arr_load; [cbn; lia|] | apply arr_out].
Qed.

Lemma rectangle_spec P x y w h c o : 0 <= x < ST7789_WIDTH -> 0 <= y < ST7789_HEIGHT ->
  0 <= w < 65536 -> 0 <= h < 65536 -> 0 <= c < 65536 -> arrives [] (FillRectangle x y w h c) o ->
  let w' := Z.min w (ST7789_WIDTH - x) in let h' := Z.min h (ST7789_HEIGHT - y) in
  forall X Y, (X, Y) <> (x + w' - 1, y + h' - 1) ->
    screen_of (panel_run o P) X Y = paint x y w' h' (fun _ _ => c) (screen_of P) X Y.
Proof.
  intros Hx Hy Hw Hh Hc Ha. cbv zeta. set (w' := Z.min w _). set (h' := Z.min h _). intros X Y Hne.
  destruct (rectangle_on_slow_link P x y w h c o Hx Hy Hw Hh Hc Ha) as (m & Hm & E).
  fold w' h' in Hm, E. cbv zeta in E. unfold screen_of at 1. rewrite E.
  assert (0 <= w' <= ST7789_WIDTH - x /\ 0 <= h' <= ST7789_HEIGHT - y) as [Hw' Hh'] by (unfold w', h'; lia).
  destruct (Z.eqb_spec (w' * h') 0) as [Hz|Hz].
  { replace (Z.to_nat m) with 0%nat by lia. cbn [replicate foldl].
    destruct (rect_start_run P x y w' h') as (_ & _ & -> & _); [unfold ST7789_WIDTH in *; lia|].
    change (p_gram P !! (X, Y + 20)) with (screen_of P X Y). rewrite (paint_empty x y w' h'); [done|nia]. }
  rewrite first_pixels; [|done|done|nia|nia|nia]. unfold paint, inside.
  destruct (decide (x <= X < x + w' /\ y <= Y < y + h')) as [[HX HY]|Hout]; [|by rewrite decide_False by tauto].
  rewrite decide_True; [done|]. split; [done|].
  assert ((Y - y) * w' + (X - x) <> w' * h' - 1) as Hl by (intros Hl; apply Hne; f_equal; nia). nia.
Qed.

(** C32 However late the bytes of the interface reach the panel - as late as
    the delays and the room for two bytes allow - initialising the panel, opening
    a window and drawing a pixel arrive unchanged, and a filled rectangle
    gets every pixel but perhaps its last one, at the lower right corner: the
    driver raises the chip select without waiting for the bytes under way, so
    that pixel can be lost. *)
Theorem slow_link_paints x y w h c : 0 <= x < ST7789_WIDTH -> 0 <= y < ST7789_HEIGHT ->
  0 <= w < 65536 -> 0 <= h < 65536 -> 0 <= c < 65536 ->
  let w' := Z.min w (ST7789_WIDTH - x) in let h' := Z.min h (ST7789_HEIGHT - y) in
  (forall dir o, arrives [] (LCD_Init dir).2 o -> o = (LCD_Init dir).2) /\
  (forall x2 y2 o, arrives [] (LCD_SetWindows x y x2 y2) o -> o = LCD_SetWindows x y x2 y2) /\
  (forall o, arrives [] (DrawPixel x y c) o -> o = DrawPixel x y c) /\
  (forall o P X Y, arrives [] (FillRectangle x y w h c) o -> (X, Y) <> (x + w' - 1, y + h' - 1) ->
     screen_of (panel_run o P) X Y = paint x y w' h' (fun _ _ => c) (screen_of P) X Y) /\
  (0 < w -> 0 < h -> exists o, arrives [] (FillRectangle x y w h c) o /\
     forall P, screen_of (panel_run o P) (x + w' - 1) (y + h' - 1) = screen_of P (x + w' - 1) (y + h' - 1)).
Proof.
  intros Hx Hy Hw Hh Hc. cbv zeta. split; [|split; [intros x2 y2 o; by apply settled_arrives|split; [|split]]].
  - intros dir o. apply settled_arrives; unfold LCD_Init, LCD_SetAttributes; by destruct (dir =? HORIZONTAL).
  - intros o. unfold DrawPixel. rewrite !Z.geb_leb, (proj2 (Z.leb_gt _ _)), (proj2 (Z.leb_gt _ _)) by lia.
    by apply settled_arrives.
  - intros o P X Y Ho. by apply rectangle_spec.
  - intros Hw0 Hh0. rewrite rectangle_shape by done. cbv zeta.
    set (w' := Z.min w _). set (h' := Z.min h _).
    assert (0 < w' <= ST7789_WIDTH - x /\ 0 < h' <= ST7789_HEIGHT - y) as [Hw' Hh'] by (unfold w', h'; lia).
    set (n := Z.to_nat (w' * h' - 1)). replace (Z.to_nat (w' * h')) with (n + 1)%nat by (unfold n; nia).
    unfold pixel_stream. rewrite replicate_add, concat_app. cbn [replicate concat Datatypes.app].
    exists (rect_start x y w' h' ++ (Spi <$> pixel_stream n c) ++
       [Pin CS true; Pin DC false; Spi (u8 (c ≫ 8)); Spi (u8 (c .& 0xFF))]).
    split; [apply arrives_behind, overtaken|]. intros P. rewrite !panel_run_app.
    unfold screen_of at 1. change (panel_run (Pin CS true :: ?r) ?Q) with (panel_run r (panel_step Q (Pin CS true))).
    rewrite unselected_run by (done || by repeat constructor).
    destruct (rect_start_run P x y w' h') as (Hf & Hd & _); [unfold ST7789_WIDTH in *; lia|].
    change (p_gram (panel_step ?Q (Pin CS true))) with (p_gram Q).
    rewrite <- (firstn_all (pixel_stream n c)).
    assert (length (pixel_stream n c) = 2 * n)%nat as -> by apply stream_length.
    rewrite stream_run by (done || lia). replace (2 * n / 2)%nat with n by (rewrite Nat.mul_comm, Nat.div_mul; lia).
    unfold n. rewrite first_pixels by (done || nia). rewrite decide_False; [done|]. intros [_ Hlt]. nia.
Qed.
