(* ===== verification/Console.v ===== *)
(** * Console: from the receive interrupt to the shell and back to the wire

    The shell's thread, the receive interrupt and the semaphore between them:
    [finsh_getchar], [finsh_rx_ind] and [finsh_set_device] of
    [components/finsh/shell.c], the serial device, the kernel's semaphore, and
    the shell of [Shell].  What the shell prints goes out through the same
    device. *)
From S2P Require Import Prelude Bytes KService Printf Output Msh Shell Object Device Serial SerialFifo SerialFacts.
From S2P Require Import Timer Kernel Ipc.

(** The number by which the device knows [finsh_rx_ind]. *)
Definition FINSH_RX_IND : Z := 1.
Definition RT_WAITING_FOREVER : Z := -1.

(** Where the shell's thread is: in front of the read of [finsh_getchar], of
    the wait behind an empty read, or of the output it still has to write, a
    call of [rt_kprintf] each. *)
Inductive place := Reading | Taking | Printing (todo : list (list Z)).

(** The parts of the system, and what has been handled and printed so far. *)
Record console (H : Type) := mk_console {
  c_kernel : kernel;
  rx_sem : rt_semaphore;
  device : rt_serial_device H;
  c_shell : finsh_shell;
  at_place : place;
  handled : list Z;
  c_log : list event }.
Arguments mk_console {H}.
Arguments c_kernel {H}.
Arguments rx_sem {H}.
Arguments device {H}.
Arguments c_shell {H}.
Arguments at_place {H}.
Arguments handled {H}.
Arguments c_log {H}.

Definition outputs (evs : list event) : list (list Z) :=
  omap (fun e => match e with Out l => Some l | Run _ _ _ => None end) evs.

Section console.
Context {H : Type} `{UartLaws H}.
Context (table : list finsh_syscall) (call : Z -> list Z -> list Z -> list Z * list Z * Z).
(** The semaphore [rx_sem] and the thread [tshell]. *)
Context (o tshell : Z).
Implicit Type c : console H.

Definition with_kernel (k : kernel) (s : rt_semaphore) (p : place) c : console H :=
  mk_console k s (device c) (c_shell c) p (handled c) (c_log c).
Definition with_device (d : rt_serial_device H) (p : place) c : console H :=
  mk_console (c_kernel c) (rx_sem c) d (c_shell c) p (handled c) (c_log c).

(** ** The interrupt *)

Definition finsh_rx_ind (dev size : Z) (k : kernel) (s : rt_semaphore) : kernel * rt_semaphore * Z :=
  let '(k, s, _) := rt_sem_release o k s in (k, s, RT_EOK).

(** The callbacks of the interrupt; there is one device and one callback. *)
Fixpoint callbacks (evs : list serial_event) (k : kernel) (s : rt_semaphore) : option (kernel * rt_semaphore) :=
  match evs with
  | [] => Some (k, s)
  | Rx_indicate cb n :: evs =>
      if cb =? FINSH_RX_IND then let '(k, s, _) := finsh_rx_ind 0 n k s in callbacks evs k s else None
  | Completion_done :: _ => None
  end.

Definition rx_interrupt c : option (console H) :=
  '(d, evs) ← rt_hw_serial_isr (S burst) RT_SERIAL_EVENT_RX_IND (device c);
  '(k, s) ← callbacks evs (c_kernel c) (rx_sem c);
  Some (mk_console k s d (c_shell c) (at_place c) (handled c) (c_log c)).

(** ** The thread *)

(** [finsh_getchar] is the read and, while it finds nothing, the wait. *)
Definition getchar_read c : option (rt_serial_device H * list Z) :=
  '(d, l, _) ← rt_device_read (-1) 1 (device c); Some (d, l).

(** From one place to the next. *)
Definition shell_round c : option (console H) :=
  match at_place c with
  | Reading =>
      '(d, l) ← getchar_read c;
      match l with
      | [ch] =>
          '(sh, evs) ← finsh_key table call ch (c_shell c);
          Some (mk_console (c_kernel c) (rx_sem c) d sh (Printing (outputs evs))
                  (handled c ++ [ch]) (c_log c ++ evs))
      | _ => Some (with_device d Taking c)
      end
  | Taking =>
      let '(k, s, _) := rt_sem_take o RT_WAITING_FOREVER (c_kernel c) (rx_sem c) in
      Some (with_kernel k s Reading c)
  | Printing [] => Some (with_kernel (c_kernel c) (rx_sem c) Reading c)
  | Printing (l :: todo) =>
      '(d, _, _) ← rt_device_write 0 l (device c); Some (with_device d (Printing todo) c)
  end.

(** ** Start-up *)

(** [finsh_set_device]: the device chosen and the shell's state, with the
    devices by address. *)
Definition finsh_set_device (name : list Z) (r : registry) (devs : gmap Z (rt_serial_device H))
    (shell_device : Z) (sh : finsh_shell) : W (gmap Z (rt_serial_device H) * Z * finsh_shell) :=
  dev ← lift (rt_device_find name r);
  if dev =? 0 then
    _ ← kprintf (chars "finsh: can not find device: %s" ++ [10]) [Arg_str (Some name)];
    mret (devs, shell_device, sh)
  else if dev =? shell_device then mret (devs, shell_device, sh)
  else
    d ← lift (devs !! dev);
    '(d, result) ← rt_device_open (name_ptr (object_at dev r))
      (RT_DEVICE_OFLAG_RDWR .| RT_DEVICE_FLAG_INT_RX .| RT_DEVICE_FLAG_STREAM) d;
    let devs := <[dev := d]> devs in
    if result =? RT_EOK then
      devs ← (if negb (shell_device =? 0) then
                old ← lift (devs !! shell_device);
                '(old, _) ← rt_device_close old;
                let '(old, _) := rt_device_set_rx_indicate None old in
                mret (<[shell_device := old]> devs)
              else mret devs);
      sh ← lift (finsh_clear_line sh);
      d ← lift (devs !! dev);
      let '(d, _) := rt_device_set_rx_indicate (Some FINSH_RX_IND) d in
      mret (<[dev := d]> devs, dev, sh)
    else mret (devs, shell_device, sh).

(** The state before registration: zeroed memory and the default settings. *)
Definition fresh_device (h : H) : rt_serial_device H :=
  mk_serial (mk_device 0 0 0 None None) RT_SERIAL_CONFIG_DEFAULT None false h.

(** [rt_hw_usart_init] with its one port, at the address [uart], then
    [rt_console_set_device] of [rt_hw_board_init], and the shell's start up to
    its prompt. *)
Definition RT_CONSOLE_DEVICE_NAME : list Z := chars "uart1" ++ [0].

Definition board_console (uart : Z) (h : H) : W (registry * gmap Z (rt_serial_device H) * Z) :=
  '(r, d, _) ← lift (rt_hw_serial_register uart RT_CONSOLE_DEVICE_NAME
                       (RT_DEVICE_FLAG_RDWR .| RT_DEVICE_FLAG_INT_RX) registry_boot (fresh_device h));
  '(devs, con, _) ← rt_console_set_device RT_CONSOLE_DEVICE_NAME r 0 {[ uart := d ]};
  mret (r, devs, con).

Definition console_boot (uart : Z) (k : kernel) (h : H) : option (console H) :=
  '(r, devs, con, _) ← board_console uart h;
  let '(k, s, _) := rt_sem_init o 0 RT_IPC_FLAG_FIFO k in
  '(devs, dev, sh, _) ← finsh_set_device RT_CONSOLE_DEVICE_NAME r devs 0 finsh_system_init;
  '(sh, evs) ← finsh_thread_start sh;
  d ← devs !! dev;
  Some (mk_console k s d sh (Printing (outputs evs)) [] evs).
End console.
