(* ===== verification/ConsoleFacts.v ===== *)
(** * ConsoleFacts: no input is lost between the wire and the shell

    The console as a transition system of interrupts, rounds of the shell's
    thread and anything else the kernel does in between, and the invariant
    that ties the FIFO, the semaphore and the thread together. *)
From S2P Require Import Prelude Bytes KService Printf Output Msh MshFacts MshComplete Shell Editor ShellFacts.
From S2P Require Import Object Device Serial SerialFifo SerialFacts Timer Kernel KernelInv KernelOps Ipc IpcInv Console.

(** ** Devices by name *)

Lemma find_spec r A name : Object.represents r A -> c_string name ->
  rt_device_find (name ++ [0]) r = Some (search name (of_class RT_Object_Class_Device A)).
Proof.
  intros H Hn. destruct (query_step r A (Find name RT_Object_Class_Device) H Hn I) as [E _].
  cbn [run_op do_op snd] in E. unfold rt_device_find.
  destruct (rt_object_find _ _ r) as [x|]; [|done]. cbn in E. by injection E as ->.
Qed.

Lemma register_spec r A o name flags d : Object.represents r A -> o <> 0 -> o ∉ ids A -> c_string name ->
  search name (of_class RT_Object_Class_Device A) = 0 -> exists r',
  rt_device_register o (name ++ [0]) flags r d =
    Some (r', set_open_flag 0 (set_ref_count 0 (set_flag flags d)), RT_EOK) /\
  Object.represents r' (mk_entry o RT_Object_Class_Device true (take 8 name) :: A).
Proof.
  intros H Ho Hi Hn Hs. destruct (init_step r A o RT_Object_Class_Device name H) as (r' & E & Hr).
  { split_and!; [done| |done]. apply (bool_decide_unpack _). by vm_compute. }
  exists r'. split; [|done]. unfold rt_device_register. rewrite (proj2 (Z.eqb_neq o 0)) by done.
  rewrite (find_spec r A) by done. cbn [mbind option_bind]. rewrite Hs. cbn [negb Z.eqb]. by rewrite E.
Qed.

Section console.
Context {H : Type} `{UartLaws H}.
Context (table : list finsh_syscall) (call : Z -> list Z -> list Z -> list Z * list Z * Z).
Context (o tshell : Z).
Implicit Type c : console H.

(** ** The device as the shell opens it *)

Definition open_device (d : rt_device) : Prop :=
  ref_count d = 2 /\ rx_indicate d = Some FINSH_RX_IND /\
  on (open_flag d) RT_DEVICE_FLAG_INT_RX = true /\ on (open_flag d) RT_DEVICE_FLAG_INT_TX = false /\
  on (open_flag d) RT_DEVICE_FLAG_STREAM = true.

(** Opening an inactive device that has no FIFO. *)
Lemma first_open (d : rt_serial_device H) name oflag :
  d_flag (parent d) = RT_DEVICE_FLAG_RDWR .| RT_DEVICE_FLAG_INT_RX -> ref_count (parent d) = 0 ->
  oflag = RT_DEVICE_OFLAG_RDWR .| RT_DEVICE_FLAG_STREAM ->
  exists d', rt_device_open name oflag d = Some (d', RT_EOK, []) /\
    parent d' = mk_device (RT_DEVICE_FLAG_RDWR .| RT_DEVICE_FLAG_INT_RX .| RT_DEVICE_FLAG_ACTIVATED)
      (RT_DEVICE_OFLAG_RDWR .| RT_DEVICE_FLAG_STREAM .| RT_DEVICE_OFLAG_OPEN) 1
      (rx_indicate (parent d)) (tx_complete (parent d)) /\
    serial_rx d' = None /\ serial_tx d' = false /\ config d' = config d /\
    rxd (uart_of d') = rxd (uart_of d) /\ txd (uart_of d') = txd (uart_of d).
Proof.
  destruct d as [[fl op n cb tc] cf rx tx h]. cbn [parent d_flag ref_count]. intros -> -> ->.
  destruct (configure_law cf h) as (h' & E & Et & Er).
  unfold rt_device_open, activate. cbn [device_init device_open serial_driver dev parent d_flag].
  change (negb (on _ RT_DEVICE_FLAG_ACTIVATED)) with true. cbv iota.
  unfold rt_serial_init. cbn. rewrite E. cbn. eexists. split; [reflexivity|]. by split_and!.
Qed.
(** The second open asks for the receive interrupt. *)
Lemma second_open (d : rt_serial_device H) name oflag cb tc :
  parent d = mk_device (RT_DEVICE_FLAG_RDWR .| RT_DEVICE_FLAG_INT_RX .| RT_DEVICE_FLAG_ACTIVATED)
    (RT_DEVICE_OFLAG_RDWR .| RT_DEVICE_FLAG_STREAM .| RT_DEVICE_OFLAG_OPEN) 1 cb tc ->
  serial_rx d = None -> serial_tx d = false -> bufsz (config d) = 64 ->
  oflag = RT_DEVICE_OFLAG_RDWR .| RT_DEVICE_FLAG_INT_RX .| RT_DEVICE_FLAG_STREAM ->
  exists d', rt_device_open name oflag d = Some (d', RT_EOK, []) /\
    parent d' = mk_device (RT_DEVICE_FLAG_RDWR .| RT_DEVICE_FLAG_INT_RX .| RT_DEVICE_FLAG_ACTIVATED)
      (RT_DEVICE_OFLAG_RDWR .| RT_DEVICE_FLAG_INT_RX .| RT_DEVICE_FLAG_STREAM .| RT_DEVICE_OFLAG_OPEN) 2 cb tc /\
    holds 64 d' [] /\ rxd (uart_of d') = rxd (uart_of d) /\ txd (uart_of d') = txd (uart_of d).
Proof.
  destruct d as [p cf rx tx h]. cbn [parent serial_rx serial_tx config]. intros -> -> -> Hb ->.
  destruct (control_law RT_DEVICE_CTRL_SET_INT RT_DEVICE_FLAG_INT_RX h) as (h' & E & Et & Er).
  unfold rt_device_open, activate. cbn [device_init device_open serial_driver dev parent d_flag].
  change (negb (on _ RT_DEVICE_FLAG_ACTIVATED)) with false. cbv iota.
  unfold rt_serial_open, open_rx, open_tx, low_control. cbn. rewrite E. cbn. rewrite Hb.
  eexists. split; [reflexivity|]. split_and!; try done. split; [|done]. eexists. split; [done|].
  change (Z.to_nat 64) with 64%nat. by apply fifo_empty.
Qed.

(** What the boot leaves in the registry and the devices. *)
Lemma board_spec uart h : uart <> 0 -> exists r d A,
  board_console uart h = Some (r, {[ uart := d ]}, uart, []) /\
  Object.represents r A /\ search (chars "uart1") (of_class RT_Object_Class_Device A) = uart /\
  parent d = mk_device (RT_DEVICE_FLAG_RDWR .| RT_DEVICE_FLAG_INT_RX .| RT_DEVICE_FLAG_ACTIVATED)
    (RT_DEVICE_OFLAG_RDWR .| RT_DEVICE_FLAG_STREAM .| RT_DEVICE_OFLAG_OPEN) 1 None None /\
  serial_rx d = None /\ serial_tx d = false /\ bufsz (config d) = 64 /\
  rxd (uart_of d) = rxd h /\ txd (uart_of d) = txd h.
Proof.
  intros Hu. assert (c_string (chars "uart1")) as Hn by (apply (bool_decide_unpack _); by vm_compute).
  destruct (register_spec registry_boot [] uart (chars "uart1")
              (RT_DEVICE_FLAG_RDWR .| RT_DEVICE_FLAG_INT_RX)
              (set_tx_complete None (set_rx_indicate None (parent (fresh_device h)))))
    as (r & E & Hr); [apply registry_boot_represents|done|by apply not_elem_of_nil|done|done|].
  assert (search (chars "uart1") (of_class RT_Object_Class_Device
    [mk_entry uart RT_Object_Class_Device true (take 8 (chars "uart1"))]) = uart) as Es by done.
  pose proof (find_spec r _ (chars "uart1") Hr Hn) as Ef. rewrite Es in Ef.
  change (chars "uart1" ++ [0]) with RT_CONSOLE_DEVICE_NAME in *.
  unfold board_console, rt_hw_serial_register. rewrite E. cbn [mbind option_bind lift].
  set (d0 := set_parent _ (fresh_device h)).
  destruct (first_open d0 (name_ptr (object_at uart r)) (RT_DEVICE_OFLAG_RDWR .| RT_DEVICE_FLAG_STREAM))
    as (d & Eo & Hp & Hrx & Htx & Hc & Er & Et); [done..|].
  unfold rt_console_set_device. run. rewrite Ef. run. rewrite (proj2 (Z.eqb_neq uart 0)) by done. run.
  cbn [Z.eqb negb]. run. rewrite lookup_singleton_eq. run. rewrite Eo. run.
  eexists r, d, _. rewrite insert_singleton_eq. split_and!; try done.
  all: rewrite ?Hp, ?Hc, ?Er, ?Et; done.
Qed.

(** From reset to the prompt: the port is registered, found under its name,
    opened by the console and by the shell, and the prompt is to be printed. *)
Lemma boot_spec uart k h : uart <> 0 -> exists d,
  console_boot o uart k h = Some (mk_console (rt_sem_init o 0 RT_IPC_FLAG_FIFO k).1.1 (mk_sem 0 RT_IPC_FLAG_FIFO) d
    (set_modes true true finsh_system_init) (Printing [msh_prompt]) [] [Out msh_prompt]) /\
  open_device (parent d) /\ holds 64 d [] /\ rxd (uart_of d) = rxd h /\ txd (uart_of d) = txd h.
Proof.
  intros Hu. destruct (board_spec uart h Hu) as (r & d0 & A & E & HA & Hs & Hp & Hrx & Htx & Hb & Er0 & Et0).
  assert (c_string (chars "uart1")) as Hn by (apply (bool_decide_unpack _); by vm_compute).
  pose proof (find_spec r A _ HA Hn) as Ef. rewrite Hs in Ef.
  change (chars "uart1" ++ [0]) with RT_CONSOLE_DEVICE_NAME in *.
  destruct (second_open d0 (name_ptr (object_at uart r))
    (RT_DEVICE_OFLAG_RDWR .| RT_DEVICE_FLAG_INT_RX .| RT_DEVICE_FLAG_STREAM) _ _ Hp Hrx Htx Hb eq_refl)
    as (d & Eo & Hp' & Hh & Er & Et).
  unfold console_boot. rewrite E. cbn [mbind option_bind]. cbn [rt_sem_init].
  unfold finsh_set_device. run. rewrite Ef. run. rewrite (proj2 (Z.eqb_neq uart 0)) by done. run.
  rewrite lookup_singleton_eq. run. rewrite Eo. run. cbn [Z.eqb negb RT_EOK]. run.
  assert (finsh_clear_line finsh_system_init = Some finsh_system_init) as -> by reflexivity. run.
  rewrite lookup_insert_eq. run. rewrite insert_singleton_eq.
  unfold rt_device_set_rx_indicate. run. rewrite insert_singleton_eq.
  unfold mret, W_ret. cbn [mbind option_bind].
  assert (finsh_thread_start finsh_system_init = Some (set_modes true true finsh_system_init, [Out msh_prompt]))
    as -> by reflexivity.
  cbn [mbind option_bind]. rewrite lookup_singleton_eq. cbn [mbind option_bind].
  eexists. split; [reflexivity|]. cbn [on_dev with_dev dev serial_driver parent set_parent uart_of].
  rewrite Hp'. split_and!; try (by rewrite ?Er, ?Et). destruct Hh. by split.
Qed.

(** ** The system *)

(** What has come in from the line since [h], the port at the start. *)
Definition received (h : H) c : list Z := drop (length (rxd h)) (rxd (uart_of (device c))).

(** Interrupts, [line] being what is sent over the line, that do not overtake
    the reader by more than the FIFO holds; rounds of the shell's thread when
    it is the one that runs; and whatever else the kernel does that leaves the
    semaphore alone. *)
Inductive step (line : list Z) (h : H) : console H -> console H -> Prop :=
  | step_interrupt c c' : rx_interrupt o c = Some c' -> received h c' `prefix_of` line ->
      (length (received h c') <= length (handled c) + 63)%nat -> step line h c c'
  | step_thread c c' : rt_current_thread (c_kernel c) = tshell -> running_ok (c_kernel c) ->
      shell_round table call o c = Some c' -> step line h c c'
  | step_other c k : kernel_ok k -> known k (rt_current_thread k) ->
      queue k (Suspended o) = queue (c_kernel c) (Suspended o) ->
      step line h c (with_kernel k (rx_sem c) (at_place c) c).

(** What is left to print and what has been printed. *)
Definition to_print (p : place) : list (list Z) := match p with Printing todo => todo | _ => [] end.

(** The thread waits for the semaphore. *)
Definition waiting c : Prop := queue (c_kernel c) (Suspended o) = [tshell].

(** What the shell makes of the characters [l] after its start. *)
Definition shell_after (l : list Z) : W finsh_shell := s ← finsh_boot; finsh_keys table call l s.

Record console_inv (h : H) (c : console H) (unread : list Z) : Prop := {
  ci_kernel : kernel_ok (c_kernel c);
  ci_current : known (c_kernel c) (rt_current_thread (c_kernel c));
  ci_sem : sem_ok (c_kernel c) o (rx_sem c);
  ci_fifo : sem_flag (rx_sem c) = RT_IPC_FLAG_FIFO;
  ci_queue : queue (c_kernel c) (Suspended o) = [] \/
    waiting c /\ unread = [] /\ at_place c = Reading;
  ci_holds : holds 64 (device c) unread;
  ci_open : open_device (parent (device c));
  ci_taking : at_place c = Taking -> unread <> [] -> 0 < sem_value (rx_sem c);
  ci_rxd : rxd (uart_of (device c)) = rxd h ++ handled c ++ unread;
  ci_sent : exists sent, outputs (c_log c) = sent ++ to_print (at_place c) /\
    txd (uart_of (device c)) = txd h ++ crlf true (concat sent);
  ci_shell : shell_after (handled c) = Some (c_shell c, c_log c) }.

Lemma inv_received h c l : console_inv h c l -> received h c = handled c ++ l.
Proof. intros Hi. unfold received. by rewrite (ci_rxd _ _ _ Hi), drop_app_length. Qed.

Lemma boot_inv uart k h : uart <> 0 -> kernel_ok k -> known k (rt_current_thread k) ->
  exists c, console_boot o uart k h = Some c /\ console_inv h c [].
Proof.
  intros Hu Hk Hc. destruct (boot_spec uart k h Hu) as (d & -> & Ho & Hh & Er & Et).
  assert (queue (rt_ipc_object_init o k) (Suspended o) = []) as Hq by (by rewrite queue_ipc_init, decide_True).
  eexists. split; [done|]. cbn [rt_sem_init fst].
  split; cbn [c_kernel rx_sem device at_place handled c_log c_shell]; try done.
  - by apply ipc_init_ok.
  - split; [cbn; lia|done|by left].
  - by left.
  - by rewrite Er, app_nil_r.
  - exists []. rewrite Et. cbn. by rewrite app_nil_r.
Qed.

(** ** The interrupt *)

(** The callback wakes the thread that waits, or leaves a unit for it. *)
Lemma callbacks_spec k s l : kernel_ok k -> known k (rt_current_thread k) -> sem_ok k o s ->
  queue k (Suspended o) = [] \/ queue k (Suspended o) = [tshell] -> exists k' s',
  callbacks o (indication (Some FINSH_RX_IND) l) k s = Some (k', s') /\
  kernel_ok k' /\ known k' (rt_current_thread k') /\ sem_ok k' o s' /\ sem_flag s' = sem_flag s /\
  (l = [] /\ k' = k /\ s' = s \/
   l <> [] /\ queue k' (Suspended o) = [] /\ (queue k (Suspended o) = [] -> 0 < sem_value s')).
Proof.
  intros Hk Hc Hs Hq. destruct l as [|x l].
  { exists k, s. split_and!; try done. by left. }
  cbn [indication callbacks]. change (FINSH_RX_IND =? FINSH_RX_IND) with true. unfold finsh_rx_ind.
  destruct Hq as [Hq|Hq].
  - pose proof (sem_release_counts k o s Hs Hq) as E. destruct (Z.ltb_spec (sem_value s) RT_SEM_VALUE_MAX).
    + destruct E as [-> Hs']. eexists _, _. split_and!; try done. right. split_and!; try done. cbn.
      intros _. destruct Hs. lia.
    + rewrite E. eexists _, _. split_and!; try done. right. split_and!; try done. intros _.
      unfold RT_SEM_VALUE_MAX in *. lia.
  - destruct (sem_release_hands k o s _ _ Hk Hc Hs Hq) as (k' & -> & Hs' & Hk' & Hc' & _ & _ & Hq').
    eexists _, _. split_and!; try done. right. split_and!; try done. by rewrite Hq.
Qed.

Lemma interrupt_spec h c l : console_inv h c l -> exists c' cs,
  rx_interrupt o c = Some c' /\ handled c' = handled c /\ received h c' = received h c ++ cs /\
  ((length (received h c') <= length (handled c) + 63)%nat -> console_inv h c' (l ++ cs)).
Proof.
  intros Hi. destruct (isr_spec 64 _ _ (ci_holds _ _ _ Hi)) as (d & cs & E & (Ep & _) & Hh & Er & Et).
  cbv zeta in *. unfold rx_interrupt. rewrite E. cbn [mbind option_bind].
  destruct (ci_open _ _ _ Hi) as (_ & Hcb & _). rewrite Hcb.
  destruct (callbacks_spec (c_kernel c) (rx_sem c) (latest 63 (l ++ cs)) (ci_kernel _ _ _ Hi) (ci_current _ _ _ Hi)
    (ci_sem _ _ _ Hi)) as (k & s & E2 & Hk & Hc & Hs & Hf & Hl).
  { destruct (ci_queue _ _ _ Hi) as [Hq|[Hq _]]; [by left|by right]. }
  change (64 - 1)%nat with 63%nat in *. rewrite E2. cbn [mbind option_bind]. eexists _, cs.
  assert (forall p, received h (mk_console k s d (c_shell c) p (handled c) (c_log c)) = handled c ++ l ++ cs) as Erec.
  { intros p. unfold received. cbn [device]. by rewrite Er, (ci_rxd _ _ _ Hi), <- !app_assoc, drop_app_length. }
  split_and!; [done|done| |].
  { rewrite Erec, (inv_received _ _ _ Hi). by rewrite <- app_assoc. }
  rewrite Erec, length_app. intros Hlen. rewrite latest_all in Hh, Hl by lia.
  split; cbn [c_kernel rx_sem device at_place handled c_log c_shell]; try done.
  - by rewrite Hf, (ci_fifo _ _ _ Hi).
  - unfold waiting. cbn [c_kernel]. destruct Hl as [(Hn & -> & ->)|(_ & Hq & _)]; [|by left].
    destruct (ci_queue _ _ _ Hi) as [Hq|(Hq & _ & Hp)]; [by left|right; by rewrite Hn].
  - rewrite Ep. apply Hi.
  - intros Hp Hn. destruct Hl as [(? & _)|(_ & _ & Hv)]; [done|]. apply Hv.
    destruct (ci_queue _ _ _ Hi) as [Hq|(_ & _ & Hr)]; [done|congruence].
  - by rewrite Er, (ci_rxd _ _ _ Hi), <- !app_assoc.
  - rewrite Et. apply Hi.
  - apply Hi.
Qed.

(** ** The thread *)

Lemma running_not_waiting h c l : console_inv h c l -> rt_current_thread (c_kernel c) = tshell ->
  running_ok (c_kernel c) -> queue (c_kernel c) (Suspended o) = [].
Proof.
  intros Hi Ht [[[Hb _] _] _ Hrun]. destruct (ci_queue _ _ _ Hi) as [Hq|[Hq _]]; [done|].
  destruct (bt_in _ _ Hb tshell (Suspended o)) as (_ & _ & Hs); [rewrite Hq; by left|].
  cbn [listed] in Hs. rewrite Ht in Hrun. by rewrite Hrun in Hs.
Qed.

Lemma open_streaming d : open_device d -> streaming d.
Proof. intros (Hrc & _ & Hr). split; [by rewrite Hrc|done]. Qed.

Lemma read_spec h c l : console_inv h c l -> exists d,
  getchar_read c = Some (d, take 1 l) /\ parent d = parent (device c) /\ holds 64 d (drop 1 l) /\
  uart_of d = uart_of (device c).
Proof.
  intros Hi. destruct (read_char 64 (device c) l) as (d & E & H');
    [apply open_streaming, Hi|apply Hi|]. exists d. unfold getchar_read. by rewrite E.
Qed.

Lemma write_spec h c l data : console_inv h c l -> exists d r,
  rt_device_write 0 data (device c) = Some (d, r, []) /\ parent d = parent (device c) /\ holds 64 d l /\
  rxd (uart_of d) = rxd (uart_of (device c)) /\ txd (uart_of d) = txd (uart_of (device c)) ++ crlf true data.
Proof. intros Hi. apply write_text; [apply open_streaming, Hi|apply Hi]. Qed.

Lemma shell_after_snoc l ch sh log : shell_after l = Some (sh, log) ->
  shell_after (l ++ [ch]) = '(sh, evs) ← finsh_key table call ch sh; Some (sh, log ++ evs).
Proof.
  unfold shell_after. destruct ShellFacts.boot_represents as (s0 & -> & _). run. rewrite finsh_keys_app.
  destruct (finsh_keys table call l s0) as [[s1 t]|]; [|done]. run. intros [= -> <-].
  cbn [finsh_keys]. destruct (finsh_key table call ch sh) as [[s2 t2]|]; [|done]. by run.
Qed.

Lemma shell_after_prefix l l' : l `prefix_of` l' -> is_Some (shell_after l') -> is_Some (shell_after l).
Proof.
  intros [k ->]. unfold shell_after. destruct ShellFacts.boot_represents as (s0 & -> & _). run. rewrite finsh_keys_app.
  destruct (finsh_keys table call l s0) as [[s1 t]|]; [by eexists|]. by intros [??].
Qed.

(** Every round of the thread brings it closer to its wait. *)
Definition rank (p : place) : nat :=
  match p with Printing todo => 2 + length todo | Reading => 1 | Taking => 0 end.
Definition closer c (l : list Z) c' (l' : list Z) : Prop :=
  (length l' < length l)%nat \/
  l' = l /\ (0 <= sem_value (rx_sem c') < sem_value (rx_sem c) \/
    sem_value (rx_sem c') = sem_value (rx_sem c) /\ (rank (at_place c') < rank (at_place c))%nat).

Lemma take_spec h c l : console_inv h c l -> rt_current_thread (c_kernel c) = tshell ->
  running_ok (c_kernel c) -> at_place c = Taking -> exists c',
  shell_round table call o c = Some c' /\ console_inv h c' l /\ handled c' = handled c /\
  (waiting c' /\ l = [] \/ c_kernel c' = c_kernel c /\ closer c l c' l).
Proof.
  intros Hi Ht Hr Hp. pose proof (running_not_waiting h c l Hi Ht Hr) as Hq.
  pose proof (ci_sem _ _ _ Hi) as Hs. unfold shell_round. rewrite Hp.
  destruct (Z.ltb_spec 0 (sem_value (rx_sem c))) as [Hv|Hv].
  - destruct (sem_take_now _ o _ RT_WAITING_FOREVER Hr Hs Hv) as [-> Hs'].
    eexists. split; [done|]. split; [|split; [done|]].
    + destruct Hi. split; cbn; try done; [by left|by rewrite Hp in ci_sent0].
    + right. split; [done|]. right. split; [done|]. left. cbn. lia.
  - assert (sem_value (rx_sem c) = 0) as Hv0 by (destruct Hs; lia).
    destruct (sem_take_blocks _ o _ RT_WAITING_FOREVER Hr Hs Hv0) as (k & -> & Hs' & Hk & Hc & _ & _ & Hq'); [done|].
    rewrite Ht, (ci_fifo _ _ _ Hi), Hq in Hq'. cbn [queued] in Hq'. change (queued _ _ _ _) with [tshell] in Hq'.
    assert (l = []) as -> by (destruct l as [|x l]; [done|]; pose proof (ci_taking _ _ _ Hi Hp); naive_solver lia).
    eexists. split; [done|]. split; [|split; [done|by left]].
    destruct Hi. split; cbn; try done; [by right|by rewrite Hp in ci_sent0].
Qed.

Lemma round_spec h c l : console_inv h c l -> rt_current_thread (c_kernel c) = tshell ->
  running_ok (c_kernel c) -> is_Some (shell_after (handled c ++ l)) -> exists c' l',
  shell_round table call o c = Some c' /\ console_inv h c' l' /\ handled c' ++ l' = handled c ++ l /\
  (waiting c' /\ l' = [] \/ c_kernel c' = c_kernel c /\ closer c l c' l').
Proof.
  intros Hi Ht Hr Hd. pose proof (running_not_waiting h c l Hi Ht Hr) as Hq.
  destruct (ci_sent _ _ _ Hi) as (sent & Eo & Etx). pose proof (ci_rxd _ _ _ Hi) as Erx.
  destruct (at_place c) as [| |[|out todo]] eqn:Hp.
  - destruct (read_spec h c l Hi) as (d & E & Ep & Hh & Eu). unfold shell_round. rewrite Hp, E.
    cbn [mbind option_bind]. destruct l as [|ch l].
    + eexists _, []. split; [done|]. split; [|split; [done|]].
      * destruct Hi. split; cbn; try done; [by left|by rewrite Ep|by rewrite Eu|rewrite Eu; by exists sent].
      * right. split; [done|]. right. split; [done|]. right. cbn. rewrite Hp. cbn. split; [done|lia].
    + pose proof (shell_after_snoc (handled c) ch _ _ (ci_shell _ _ _ Hi)) as Es.
      destruct (shell_after_prefix (handled c ++ [ch]) (handled c ++ ch :: l)) as [[sh evs] Ea];
        [by exists l; rewrite <- app_assoc|done|].
      rewrite Ea in Es. cbn [take]. destruct (finsh_key table call ch (c_shell c)) as [[sh' evs']|] eqn:Ek; [|done].
      cbn [mbind option_bind] in Es. injection Es as -> ->. cbn [mbind option_bind].
      eexists _, l. split; [done|]. split; [|split; [cbn; by rewrite <- app_assoc|]].
      * destruct Hi. split; cbn; try done; [by left|by rewrite Ep|by rewrite Eu, <- app_assoc|].
        exists sent. rewrite Eu. split; [|done]. unfold outputs in *. rewrite omap_app, Eo. cbn. by rewrite app_nil_r.
      * right. split; [done|]. left. cbn. lia.
  - destruct (take_spec h c l Hi Ht Hr Hp) as (c' & E & Hi' & Eh & Hm). exists c', l. rewrite Eh. by split_and!.
  - unfold shell_round. rewrite Hp. eexists _, l. split; [done|]. split; [|split; [done|]].
    + destruct Hi. split; cbn; try done; [by left|by exists sent].
    + right. split; [done|]. right. split; [done|]. right. cbn. rewrite Hp. cbn. split; [done|lia].
  - destruct (write_spec h c l out Hi) as (d & r & E & Ep & Hh & Er & Et). unfold shell_round. rewrite Hp, E.
    cbn [mbind option_bind]. eexists _, l. split; [done|]. split; [|split; [done|]].
    + destruct Hi. split; cbn; try done; [by left|by rewrite Ep|by rewrite Er|].
      exists (sent ++ [out]). rewrite Et, Etx, concat_app, crlf_app, <- !app_assoc. cbn. by rewrite app_nil_r.
    + right. split; [done|]. right. split; [done|]. right. cbn. rewrite Hp. cbn. split; [done|lia].
Qed.

(** ** Runs *)

Lemma other_inv h c l k : console_inv h c l -> kernel_ok k -> known k (rt_current_thread k) ->
  queue k (Suspended o) = queue (c_kernel c) (Suspended o) ->
  console_inv h (with_kernel k (rx_sem c) (at_place c) c) l.
Proof.
  intros Hi Hk Hc Hq. destruct Hi. split; cbn; try done.
  - destruct ci_sem0 as [Hv He Hf]. split; [done| |done]. by rewrite Hq.
  - unfold waiting. cbn [with_kernel c_kernel at_place]. by rewrite Hq.
Qed.

Section runs.
Context (line : list Z) (Hline : is_Some (shell_after line)) (h : H).

Lemma step_inv c c' l : console_inv h c l -> received h c `prefix_of` line -> step line h c c' ->
  exists l', console_inv h c' l' /\ received h c' `prefix_of` line.
Proof.
  intros Hi Hp Hstep. destruct Hstep as [c c' E Hp' Hlen|c c' Ht Hr E|c k Hk Hc Hq].
  - destruct (interrupt_spec h c l Hi) as (c1 & cs & E1 & _ & _ & Hi1). rewrite E in E1. injection E1 as <-.
    exists (l ++ cs). split; [by apply Hi1|done].
  - rewrite (inv_received _ _ _ Hi) in Hp.
    destruct (round_spec h c l Hi Ht Hr (shell_after_prefix _ _ Hp Hline)) as (c1 & l' & E1 & Hi1 & El & _).
    rewrite E in E1. injection E1 as <-. exists l'. split; [done|]. by rewrite (inv_received _ _ _ Hi1), El.
  - exists l. split; [by apply other_inv|done].
Qed.

Lemma steps_inv c c' : rtc (step line h) c c' -> forall l, console_inv h c l -> received h c `prefix_of` line ->
  exists l', console_inv h c' l' /\ received h c' `prefix_of` line.
Proof.
  induction 1 as [c|c c1 c' Hs _ IH]; intros l Hi Hp; [by exists l|].
  destruct (step_inv c c1 l Hi Hp Hs) as (l1 & Hi1 & Hp1). by apply (IH l1).
Qed.

(** The thread alone, round after round. *)
Fixpoint rounds (n : nat) c : option (console H) :=
  match n with O => Some c | S n => c ← shell_round table call o c; rounds n c end.

Lemma rounds_wait c l : console_inv h c l -> received h c `prefix_of` line ->
  rt_current_thread (c_kernel c) = tshell -> running_ok (c_kernel c) ->
  exists n c', rounds n c = Some c' /\ waiting c' /\ console_inv h c' [] /\ handled c' = handled c ++ l.
Proof.
  revert c. induction l as [l IHl] using (well_founded_induction (well_founded_ltof _ length)). intros c.
  remember (Z.to_nat (sem_value (rx_sem c))) as v eqn:Ev. revert c Ev.
  induction v as [v IHv] using lt_wf_ind. intros c.
  remember (rank (at_place c)) as r eqn:Er. revert c Er.
  induction r as [r IHr] using lt_wf_ind. intros c -> -> Hi Hp Ht Hr.
  pose proof Hp as Hp'. rewrite (inv_received _ _ _ Hi) in Hp'.
  destruct (round_spec h c l Hi Ht Hr (shell_after_prefix _ _ Hp' Hline)) as (c1 & l1 & E & Hi1 & El & Hm).
  assert (exists n c', rounds n c1 = Some c' /\ waiting c' /\ console_inv h c' [] /\ handled c' = handled c1 ++ l1)
    as (n & c' & En & H') by (destruct Hm as [[Hw ->]|[Ek Hm]];
      [exists 0%nat, c1; by rewrite app_nil_r|]; rewrite <- Ek in Ht, Hr;
      assert (received h c1 `prefix_of` line) as Hp1 by (by rewrite (inv_received _ _ _ Hi1), El);
      destruct Hm as [Hlt|[-> [Hv|[Hv Hk]]]];
      [by apply (IHl l1)
      |eapply IHv; [|done|done..]; lia
      |eapply IHr; [exact Hk|done|by rewrite Hv|done..]]).
  exists (S n), c'. cbn [rounds]. rewrite E. cbn [mbind option_bind]. by rewrite <- El.
Qed.
End runs.

(** ** The shell behind the line *)

Section answers.
Context (Htable : names_ok table)
  (Hcall : forall f argv buf, length (call f argv buf).1.2 = length buf).

Lemma keys_after ks : all_fit table ks empty_editor -> exists s evs e,
  shell_after (concat (map codes ks)) = Some (s, Out msh_prompt :: evs) /\
  session table call msh_prompt empty_editor ks evs e /\ Editor.represents msh_prompt s e.
Proof.
  intros Hf. unfold shell_after. destruct ShellFacts.boot_represents as (s0 & -> & Hr). run.
  destruct (keys_session table call msh_prompt Htable Hcall msh_prompt_ok ks s0 _ Hr Hf)
    as (s & evs & e & -> & Hs). by exists s, evs, e.
Qed.

Lemma started uart k h ks c0 c : uart <> 0 -> kernel_ok k -> known k (rt_current_thread k) ->
  console_boot o uart k h = Some c0 -> all_fit table ks empty_editor ->
  rtc (step (concat (map codes ks)) h) c0 c ->
  is_Some (shell_after (concat (map codes ks))) /\
  exists l, console_inv h c l /\ received h c `prefix_of` concat (map codes ks).
Proof.
  intros Hu Hk Hc E Hf Hs. destruct (boot_inv uart k h Hu Hk Hc) as (c1 & E1 & Hi).
  rewrite E in E1. injection E1 as <-. destruct (keys_after ks Hf) as (s & evs & e & Ea & _).
  assert (is_Some (shell_after (concat (map codes ks)))) as Hline by (by eexists). split; [done|].
  apply (steps_inv _ Hline h c0 c Hs [] Hi). rewrite (inv_received _ _ _ Hi), app_nil_r.
  destruct (boot_spec uart k h Hu) as (d & Eb & _). rewrite E in Eb. injection Eb as ->. apply prefix_nil.
Qed.

(** C25 From the prompt on, while keys that fit the line come in over the wire,
    in whatever order interrupts, rounds of the shell's thread and the rest of
    the kernel follow one another, and as long as the line is not more than 63
    characters ahead: every interrupt and every round is defined; what has come
    in is what the shell has handled followed by what is in the FIFO; the shell
    is in the state those keys lead to; and when its thread waits for the
    semaphore there is nothing it has not handled and nothing it has printed
    that is not on the wire.  No wake-up is lost. *)
Theorem console_loses_nothing uart k h ks c0 c : uart <> 0 -> kernel_ok k -> known k (rt_current_thread k) ->
  console_boot o uart k h = Some c0 -> all_fit table ks empty_editor ->
  rtc (step (concat (map codes ks)) h) c0 c ->
  exists unread, holds 64 (device c) unread /\ received h c = handled c ++ unread /\
  (s ← finsh_boot; finsh_keys table call (handled c) s) = Some (c_shell c, c_log c) /\
  (exists c', rx_interrupt o c = Some c' /\ received h c `prefix_of` received h c') /\
  (rt_current_thread (c_kernel c) = tshell -> running_ok (c_kernel c) -> is_Some (shell_round table call o c)) /\
  (tshell ∈ queue (c_kernel c) (Suspended o) ->
     unread = [] /\ txd (uart_of (device c)) = txd h ++ crlf true (concat (outputs (c_log c)))).
Proof.
  intros Hu Hk Hc E Hf Hs. destruct (started uart k h ks c0 c Hu Hk Hc E Hf Hs) as (Hline & l & Hi & Hp).
  pose proof (inv_received _ _ _ Hi) as Er. exists l. split_and!; [apply Hi|done|apply Hi| | |].
  - destruct (interrupt_spec h c l Hi) as (c' & cs & E' & _ & Er' & _). exists c'. rewrite Er'.
    split; [done|by eexists].
  - intros Ht Hr. rewrite Er in Hp.
    destruct (round_spec h c l Hi Ht Hr (shell_after_prefix _ _ Hp Hline)) as (c' & ? & -> & _). by eexists.
  - destruct (ci_queue _ _ _ Hi) as [->|(_ & -> & Ep)]; [by intros ?%not_elem_of_nil|]. intros _. split; [done|].
    destruct (ci_sent _ _ _ Hi) as (sent & -> & ->). rewrite Ep. cbn. by rewrite app_nil_r.
Qed.

(** C26 Whenever the shell's thread runs, after any such history, its rounds
    bring it back to its wait, with everything that has come in handled; when
    all the keys have come in, the shell then is what the specification of the
    editor makes of them, and what went out over the wire since the start is
    the prompt and, key by key, what the editor prints, each line feed with a
    carriage return before it. *)
Theorem console_answers uart k h ks c0 c : uart <> 0 -> kernel_ok k -> known k (rt_current_thread k) ->
  console_boot o uart k h = Some c0 -> all_fit table ks empty_editor ->
  rtc (step (concat (map codes ks)) h) c0 c ->
  rt_current_thread (c_kernel c) = tshell -> running_ok (c_kernel c) ->
  exists n c', rounds n c = Some c' /\ queue (c_kernel c') (Suspended o) = [tshell] /\
  handled c' = received h c /\
  (received h c = concat (map codes ks) -> exists evs e,
     session table call msh_prompt empty_editor ks evs e /\ Editor.represents msh_prompt (c_shell c') e /\
     txd (uart_of (device c')) = txd h ++ crlf true (concat (outputs (Out msh_prompt :: evs)))).
Proof.
  intros Hu Hk Hc E Hf Hs Ht Hr. destruct (started uart k h ks c0 c Hu Hk Hc E Hf Hs) as (Hline & l & Hi & Hp).
  destruct (rounds_wait _ Hline h c l Hi Hp Ht Hr) as (n & c' & En & Hw & Hi' & Eh).
  exists n, c'. rewrite (inv_received _ _ _ Hi). split_and!; [done|done|done|]. intros El.
  destruct (keys_after ks Hf) as (s & evs & e & Ea & Hses & Hrep). exists evs, e.
  pose proof (ci_shell _ _ _ Hi') as Es. rewrite Eh, El, Ea in Es. injection Es as -> Elog.
  split_and!; [done|done|]. rewrite Elog. destruct (ci_sent _ _ _ Hi') as (sent & -> & ->).
  destruct (ci_queue _ _ _ Hi') as [Hq|(_ & _ & Ep)]; [by rewrite Hw in Hq|]. rewrite Ep. cbn. by rewrite app_nil_r.
Qed.
End answers.
End console.
