(* ===== verification/ConsoleExamples.v ===== *)
(** * ConsoleExamples: the console theorems at work

    A port that is sent a letter and a return, the kernel of [KernelCheck] with
    its running thread as the shell's, and the shell's small command table. *)
From S2P Require Import Prelude Bytes KService Printf Output Msh MshFacts MshComplete Shell Editor ShellFacts.
From S2P Require Import Object Device Serial SerialFifo SerialFacts Timer Kernel KernelInv KernelOps Ipc IpcInv.
From S2P Require Import Console ConsoleFacts KernelCheck KernelSystem KernelExamples.

Definition demo_keys : list key := [Char 97; Enter].
Definition demo_port : script := mk_script [97; 13] 0 [] [].
Definition demo_shell : Z := rt_current_thread kernel4.

#[local] Opaque kernel4.

Lemma demo_fits : all_fit example_table demo_keys empty_editor.
Proof. repeat split; try lia; vm_compute; lia. Qed.

Lemma ipc_init_running k o : running_ok k -> running_ok (rt_ipc_object_init o k).
Proof. intros [Hk Hc Hr]. split; [by apply ipc_init_ok|done|done]. Qed.

Lemma boot_kernel {H} `{UartLaws H} o uart k (h : H) c : uart <> 0 -> console_boot o uart k h = Some c ->
  c_kernel c = rt_ipc_object_init o k /\ handled c = [].
Proof.
  intros Hu E. destruct (boot_spec o uart k h Hu) as (d & E' & _). rewrite E in E'. by injection E' as ->.
Qed.

(** The prompt is printed, then the interrupt brings both characters. *)
Definition demo_end : option (console script) :=
  c ← console_boot 100 0x4000 kernel4 demo_port;
  c ← shell_round example_table example_call 100 c;
  rx_interrupt 100 c.

Definition demo_check (c : console script) : bool :=
  bool_decide (received demo_port c = [97; 13]) && (rt_current_thread (c_kernel c) =? demo_shell) &&
  (state_of (thr (c_kernel c) (rt_current_thread (c_kernel c))) =? RT_THREAD_RUNNING).

Lemma demo_checked : from_option demo_check false demo_end = true.
Proof. vm_cast_no_check (eq_refl true). Qed.

Lemma demo_run : exists c0 c, console_boot 100 0x4000 kernel4 demo_port = Some c0 /\
  rtc (step example_table example_call 100 demo_shell (concat (map codes demo_keys)) demo_port) c0 c /\
  received demo_port c = [97; 13] /\ rt_current_thread (c_kernel c) = demo_shell /\ running_ok (c_kernel c).
Proof.
  pose proof demo_checked as E. unfold demo_end in E.
  destruct (boot_inv example_table example_call 100 demo_shell 0x4000 kernel4 demo_port)
    as (c0 & E0 & Hi0); [done|apply kernel4_inv|apply kernel4_inv|].
  destruct (boot_kernel 100 0x4000 kernel4 demo_port c0 ltac:(done) E0) as [Ek Eh].
  exists c0. rewrite E0 in E |- *. cbn [mbind option_bind] in E.
  destruct (shell_round example_table example_call 100 c0) as [c1|] eqn:E1; [|done]. cbn [mbind option_bind] in E.
  destruct (rx_interrupt 100 c1) as [c2|] eqn:E2; [|done]. exists c2. cbn [from_option] in E.
  apply andb_true_iff in E as [[Er%bool_decide_eq_true Ec%Z.eqb_eq]%andb_true_iff Est%Z.eqb_eq].
  assert (step example_table example_call 100 demo_shell (concat (map codes demo_keys)) demo_port c0 c1) as S1.
  { apply step_thread; [by rewrite Ek|rewrite Ek; apply ipc_init_running, kernel4_running_ok|done]. }
  assert (step example_table example_call 100 demo_shell (concat (map codes demo_keys)) demo_port c1 c2) as S2.
  { apply step_interrupt; [done|by rewrite Er|]. rewrite Er. cbn. lia. }
  split; [done|]. split; [by eapply rtc_l, rtc_once|]. split; [done|]. split; [done|].
  destruct (keys_after example_table example_call example_table_ok example_call_ok demo_keys demo_fits) as (s & evs & e & Ea & _).
  destruct (steps_inv example_table example_call 100 demo_shell (concat (map codes demo_keys)) ltac:(by eexists) demo_port c0 c2)
    with (l := @nil Z) as (l & Hi & _); [by eapply rtc_l, rtc_once|done| |by split; [apply Hi|apply Hi|]].
  rewrite (inv_received _ _ _ _ _ _ _ Hi0), Eh. apply prefix_nil.
Qed.

Lemma console_loses_nothing_witness : exists c unread, received demo_port c = [97; 13] /\
  received demo_port c = handled c ++ unread.
Proof.
  destruct demo_run as (c0 & c & E & Hs & Er & _). exists c.
  destruct (console_loses_nothing example_table example_call 100 demo_shell example_table_ok example_call_ok
    0x4000 kernel4 demo_port demo_keys c0 c) as (unread & _ & Eu & _);
    [done|apply kernel4_inv|apply kernel4_inv|exact E|apply demo_fits|exact Hs|].
  by exists unread.
Defined.

Lemma console_answers_witness : exists n c c' evs e,
  rounds example_table example_call 100 n c = Some c' /\ handled c' = [97; 13] /\
  session example_table example_call msh_prompt empty_editor demo_keys evs e /\
  txd (uart_of (device c')) = crlf true (concat (outputs (Out msh_prompt :: evs))).
Proof.
  destruct demo_run as (c0 & c & E & Hs & Er & Hc & Hr).
  destruct (console_answers example_table example_call 100 demo_shell example_table_ok example_call_ok
    0x4000 kernel4 demo_port demo_keys c0 c) as (n & c' & En & _ & Eh & Ha);
    [done|apply kernel4_inv|apply kernel4_inv|exact E|apply demo_fits|exact Hs|exact Hc|exact Hr|].
  destruct (Ha Er) as (evs & e & Hses & _ & Et). exists n, c, c', evs, e. rewrite Eh. by split_and!.
Defined.
