(* ===== verification/WatchMain.v ===== *)
(** * WatchMain: the start of the application and its serial thread

    [Main_Threads], [serial_thread_entry], [uart_input] and the wait of
    [showValues_entry] of [applications/watch.c], over the kernel, the device
    registry and the serial device.  The application opens the device the shell
    reads from and puts its own callback in the place of the shell's. *)
From S2P Require Import Prelude Bytes KService Printf Output St7789 Buttons Watch Object Device Serial.
From S2P Require Import SerialFacts Timer Kernel Ipc Console.

(** The number by which the device knows [uart_input]. *)
Definition UART_INPUT : Z := 2.
Definition SAMPLE_UART_NAME : list Z := chars "uart1".
Definition THREAD_PRIORITY_LOW : Z := 30.
Definition THREAD_PRIORITY_MED : Z := 25.
Definition THREAD_PRIORITY_HIGH : Z := 20.
Definition THREAD_TIMESLICE : Z := 5.
Definition THREAD_TIMESLICE_UART : Z := 10.

(** The system [Main_Threads] works on: the kernel, the devices by address,
    and the globals, those it fills in last. *)
Record board (H : Type) := mk_board {
  b_kernel : kernel;
  b_objects : registry;
  b_devices : gmap Z (rt_serial_device H);
  _console_device : Z;
  b_watch : watch;
  b_serial : Z;
  b_mutex : option (Z * rt_mutex);
  b_sem : option (Z * rt_semaphore) }.
Arguments mk_board {H}.
Arguments b_kernel {H}.
Arguments b_objects {H}.
Arguments b_devices {H}.
Arguments _console_device {H}.
Arguments b_watch {H}.
Arguments b_serial {H}.
Arguments b_mutex {H}.
Arguments b_sem {H}.

(** What the allocator answers to each creation; a thread needs its object and
    its stack. *)
Record allocated := mk_allocated {
  mutex_at : option Z; sem_at : option Z;
  uart_at : option Z * bool; get_at : option Z * bool; show_at : option Z * bool }.

Section main.
Context {H : Type} `{Uart H}.
Implicit Type b : board H.

Definition board_kernel (k : kernel) b : board H :=
  mk_board k (b_objects b) (b_devices b) (_console_device b) (b_watch b) (b_serial b)
    (b_mutex b) (b_sem b).
Definition board_device (o : Z) (d : rt_serial_device H) b : board H :=
  mk_board (b_kernel b) (b_objects b) (<[o := d]> (b_devices b)) (_console_device b) (b_watch b) (b_serial b)
    (b_mutex b) (b_sem b).
Definition board_serial (o : Z) b : board H :=
  mk_board (b_kernel b) (b_objects b) (b_devices b) (_console_device b) (b_watch b) o
    (b_mutex b) (b_sem b).
Definition board_watch (w : watch) b : board H :=
  mk_board (b_kernel b) (b_objects b) (b_devices b) (_console_device b) w (b_serial b)
    (b_mutex b) (b_sem b).
Definition board_mutex (m : option (Z * rt_mutex)) b : board H :=
  mk_board (b_kernel b) (b_objects b) (b_devices b) (_console_device b) (b_watch b) (b_serial b)
    m (b_sem b).
Definition board_sem (s : option (Z * rt_semaphore)) b : board H :=
  mk_board (b_kernel b) (b_objects b) (b_devices b) (_console_device b) (b_watch b) (b_serial b)
    (b_mutex b) s.

(** ** Printing

    [rt_kprintf] ends in a write to the console device; without one the text
    goes to [rt_hw_console_output], which does nothing on this board. *)
Definition print_event (e : event) b : option (board H) :=
  match e with
  | Out l =>
      if _console_device b =? 0 then Some b
      else
        d ← b_devices b !! _console_device b;
        '(d, _, _) ← rt_device_write 0 l d;
        Some (board_device (_console_device b) d b)
  | Run _ _ _ => None
  end.
Fixpoint print_events (evs : list event) b : option (board H) :=
  match evs with [] => Some b | e :: evs => b ← print_event e b; print_events evs b end.
Definition printf (fmt : list Z) (args : list arg) b : option (board H) :=
  '(_, evs) ← kprintf fmt args; print_events evs b.

(** ** [Main_Threads] *)

(** A thread is created and, if that went well, started. *)
Definition create_thread (a : option Z * bool) (priority slice : Z) b : board H :=
  let '(k, t) := rt_thread_create a.1 a.2 priority slice (b_kernel b) in
  board_kernel (if negb (t =? RT_NULL) then fst (rt_thread_startup t k) else k) b.

(** From the second half on, when the device and the objects are there. *)
Definition start_threads (al : allocated) b : option (board H * Z) :=
  d ← b_devices b !! b_serial b;
  '(d, _, evs) ← rt_device_open (name_ptr (object_at (b_serial b) (b_objects b))) RT_DEVICE_FLAG_INT_RX d;
  b ← print_events evs (board_device (b_serial b) d b);
  d ← b_devices b !! b_serial b;
  let '(d, _) := rt_device_set_rx_indicate (Some UART_INPUT) d in
  '(d, _, _) ← rt_device_write 0 (chars "hello RT-Thread!" ++ [13; 10]) d;
  let b := board_device (b_serial b) d b in
  let b := create_thread (uart_at al) THREAD_PRIORITY_LOW THREAD_TIMESLICE_UART b in
  let b := create_thread (get_at al) THREAD_PRIORITY_MED THREAD_TIMESLICE b in
  let b := create_thread (show_at al) THREAD_PRIORITY_HIGH THREAD_TIMESLICE b in
  Some (b, 0).

Definition initial_theme (w : watch) : watch :=
  mk_watch LCD_DISP_GREEN LCD_DISP_BLACK (themeChanged w) (string w) (steps w) (aacx w) (aacy w) (aacz w)
    (Batt w) (w_ui w) (mem w) (w_clock w) (Watch.dynamic_sem w).

(** [uart_name] is a copy of the name, read up to its NUL. *)
Definition Main_Threads (al : allocated) b : option (board H * Z) :=
  o ← rt_device_find (SAMPLE_UART_NAME ++ [0]) (b_objects b);
  let b := board_serial o b in
  if o =? 0 then
    b ← printf (chars "find %s failed!" ++ [10]) [Arg_str (Some SAMPLE_UART_NAME)] b;
    Some (b, RT_ERROR)
  else
    let b := board_watch (initial_theme (b_watch b)) b in
    let '(k, m) := rt_mutex_create (mutex_at al) (b_kernel b) in
    let b := board_mutex m (board_kernel k b) in
    match m with
    | None => b ← printf (chars "create dynamic mutex failed." ++ [10]) [] b; Some (b, -1)
    | Some _ =>
        let '(k, s) := rt_sem_create (sem_at al) 0 RT_IPC_FLAG_FIFO (b_kernel b) in
        let b := board_sem s (board_kernel k b) in
        match s with
        | None => b ← printf (chars "create dynamic semaphore failed." ++ [10]) [] b; Some (b, -1)
        | Some _ =>
            b ← printf (chars "create done. dynamic semaphore value = 0." ++ [10]) [] b;
            start_threads al b
        end
    end.
End main.

(** ** The application at work

    Where the serial thread is: in front of its read, of the wait behind an
    empty read, of the echo of a character, of the [switch], or of the text of
    its default branch. *)
Inductive serial_place := Fetching | Locking | Echoing (ch : Z) | Switching (ch : Z) | Reporting (l : list Z).

(** [a_rx_sem] is the shell's semaphore; [served] are the characters the serial
    thread is done with. *)
Record app (H : Type) := mk_app {
  a_kernel : kernel;
  a_mutex : rt_mutex;
  a_rx_sem : rt_semaphore;
  a_device : rt_serial_device H;
  a_watch : watch;
  a_place : serial_place;
  served : list Z }.
Arguments mk_app {H}.
Arguments a_kernel {H}.
Arguments a_mutex {H}.
Arguments a_rx_sem {H}.
Arguments a_device {H}.
Arguments a_watch {H}.
Arguments a_place {H}.
Arguments served {H}.

Section app.
Context {H : Type} `{UartLaws H}.
(** The mutex [dynamic_mutex] and the shell's semaphore. *)
Context (mx rx : Z).
Implicit Type c : app H.

Definition uart_input (dev size : Z) (k : kernel) (m : rt_mutex) : kernel * rt_mutex * Z :=
  let '(k, m, _) := rt_mutex_release mx k m in (k, m, RT_EOK).

(** ** The interrupt *)

Definition at_interrupt (k : kernel) (m : rt_mutex) (s : rt_semaphore) c : app H :=
  mk_app k m s (a_device c) (a_watch c) (a_place c) (served c).

Fixpoint app_callbacks (evs : list serial_event) c : option (app H) :=
  match evs with
  | [] => Some c
  | Rx_indicate cb n :: evs =>
      if cb =? FINSH_RX_IND then
        let '(k, s, _) := finsh_rx_ind rx 0 n (a_kernel c) (a_rx_sem c) in
        app_callbacks evs (at_interrupt k (a_mutex c) s c)
      else if cb =? UART_INPUT then
        let '(k, m, _) := uart_input 0 n (a_kernel c) (a_mutex c) in
        app_callbacks evs (at_interrupt k m (a_rx_sem c) c)
      else None
  | Completion_done :: _ => None
  end.

Definition put_device (d : rt_serial_device H) (p : serial_place) c : app H :=
  mk_app (a_kernel c) (a_mutex c) (a_rx_sem c) d (a_watch c) p (served c).

Definition app_interrupt c : option (app H) :=
  '(d, evs) ← rt_hw_serial_isr (S burst) RT_SERIAL_EVENT_RX_IND (a_device c);
  app_callbacks evs (put_device d (a_place c) c).

(** ** [serial_thread_entry], from one place to the next *)

Definition serial_round c : option (app H) :=
  match a_place c with
  | Fetching =>
      '(d, l, _) ← rt_device_read (-1) 1 (a_device c);
      Some (put_device d (match l with [ch] => Echoing ch | _ => Locking end) c)
  | Locking =>
      let '(k, m, _) := rt_mutex_take mx RT_WAITING_FOREVER (a_kernel c) (a_mutex c) in
      Some (mk_app k m (a_rx_sem c) (a_device c) (a_watch c) Fetching (served c))
  | Echoing ch =>
      '(d, _, _) ← rt_device_write 0 [ch] (a_device c); Some (put_device d (Switching ch) c)
  | Switching ch =>
      let '(w, l) := serial_command ch (a_watch c) in
      Some (mk_app (a_kernel c) (a_mutex c) (a_rx_sem c) (a_device c) w
        (match l with [] => Fetching | _ => Reporting l end) (served c ++ [ch]))
  | Reporting l =>
      '(d, _, _) ← rt_device_write 0 l (a_device c); Some (put_device d Fetching c)
  end.
End app.

(** ** [showValues_entry] behind its wait

    [o] is [dynamic_sem] and the current thread the display's, which
    [rt_sem_take] has put to sleep: what the call returns, and whether the
    thread goes on; leaving the entry function ends it. *)
Definition showValues_woken (o : Z) (k : kernel) : W (kernel * bool) :=
  let semaphore := blocked_end (rt_thread_self k) k in
  if negb (semaphore =? RT_EOK) then
    _ ← kprintf (chars "t2 take a dynamic semaphore, failed." ++ [10]) [];
    '(k, _) ← lift (rt_sem_delete o k);
    mret (_rt_thread_exit k, false)
  else mret (k, true).
