(* ===== verification/WatchStart.v ===== *)
(** * WatchStart: what [Main_Threads] leaves behind

    Threads started below the one that runs, and the objects, the open device,
    the greeting and the three threads at the end of [Main_Threads]. *)
From S2P Require Import Prelude Bytes KService Printf Output St7789 Buttons Watch Object Device Serial.
From S2P Require Import SerialFifo SerialFacts Timer Kernel KernelInv KernelOps Ipc IpcInv MutexInv.
From S2P Require Import KernelSystem Console ConsoleFacts WatchMain.

(** ** Starting threads below the one that runs *)

(** The running thread has a higher priority than every ready one. *)
Definition leads (k : kernel) : Prop :=
  forall x, state_of (thr k x) = RT_THREAD_READY ->
  current_priority (thr k (rt_current_thread k)) < current_priority (thr k x).

(** Then it goes on running. *)
Lemma leads_schedule k : running_ok k -> leads k ->
  let k' := rt_schedule k in
  running_ok k' /\ rt_current_thread k' = rt_current_thread k /\ leads k' /\
  (forall x, same_but_stat (thr k' x) (thr k x) /\ state_of (thr k' x) = state_of (thr k x)) /\
  (forall x, known k' x -> known k x).
Proof.
  intros [Hok Hc Hr] Hl. cbv zeta.
  destruct (decide (rt_scheduler_lock_nest k = 0)) as [Hn|Hn]; [|by rewrite schedule_off by (by left)].
  destruct (decide (rt_thread_ready_priority_group k = 0)) as [Hg|Hg]; [by rewrite schedule_off by (by right)|].
  destruct (highest_spec k (proj1 Hok) Hg) as (n & p & rest & Eh & Hp & Eq & _).
  assert (n ∈ queue k (Ready p)) as Hin by (rewrite Eq; apply list_elem_of_here).
  destruct (bt_in _ _ (proj1 (proj1 Hok)) n (Ready p) Hin) as (_ & _ & Hs & Ep). specialize (Hl n Hs) as Hlt.
  assert (stays k = true) as Hst.
  { unfold stays. rewrite Hr, Eh, Z.eqb_refl. cbn [andb snd]. by rewrite (proj2 (Z.ltb_lt _ _)) by lia. }
  assert (next_thread k = rt_current_thread k) as En.
  { unfold next_thread. by rewrite Hst. }
  assert (forall x, known (rt_schedule k) x -> known k x) as Hkn.
  { intros x. pose proof (schedule_unfold k Hn Hg) as Hu. cbv zeta in Hu. rewrite Eh, Hst in Hu. cbn [orb] in Hu. rewrite Hu.
    rewrite Hr, Z.eqb_refl, known_upd. intros [<-|Hx]; [done|].
    rewrite (threads_known _ _ x (proj1 (remove_fields _ _))), known_upd in Hx. by destruct Hx as [<-|Hx]. }
  destruct (schedule_spec k Hok Hc Hn Hg) as (Hok' & Ec & Hk' & Hr' & _). cbv zeta in *. rewrite En in *.
  assert (forall x, same_but_stat (thr (rt_schedule k) x) (thr k x) /\
    state_of (thr (rt_schedule k) x) = state_of (thr k x)) as Hth.
  { intros x. destruct (schedule_threads k Hok Hc Hn Hg x) as (Hsame & Ho & _). split; [done|].
    destruct (decide (x = rt_current_thread k)) as [->|Hne]; [by rewrite Hr', Hr|].
    rewrite Ho; [done|done|by rewrite En]. }
  split; [split; [done|by rewrite Ec|by rewrite Ec]|]. split; [done|]. split; [|by split].
  intros x. destruct (Hth x) as [Hx ->]. destruct (Hth (rt_current_thread k)) as [Hcur _].
  rewrite Ec, (same_priority _ _ Hx), (same_priority _ _ Hcur). apply Hl.
Qed.

(** A thread of lower priority created and started. *)
Lemma started_spec k t p n : kernel_inv k -> running_ok k -> leads k -> ~ known k t -> t <> RT_NULL ->
  t <> NOBODY -> current_priority (thr k (rt_current_thread k)) < p < 32 ->
  let k' := fst (rt_thread_startup t (_rt_thread_init t false p n k)) in
  kernel_inv k' /\ running_ok k' /\ rt_current_thread k' = rt_current_thread k /\ leads k' /\
  state_of (thr k' t) = RT_THREAD_READY /\ current_priority (thr k' t) = p /\
  (forall x, x <> t -> same_but_stat (thr k' x) (thr k x) /\ state_of (thr k' x) = state_of (thr k x)) /\
  (forall x, known k' x -> x = t \/ known k x) /\ (forall h, waiting_list h -> queue k' h = queue k h).
Proof.
  intros Hi Hr Hl Hnew H0 Hnb Hp. cbv zeta.
  assert (0 <= p < 32) as Hp'.
  { destruct (core_thread k _ (proj1 (ro_ok _ Hr)) (ro_known _ Hr)) as ((? & _) & _). lia. }
  assert (t <> rt_current_thread k) as Htc by (intros ->; by apply Hnew, Hr).
  assert (forall h, t ∉ queue k h) as Hq by (intros h Hh; by apply Hnew, (bt_in _ _ (proj1 (proj1 (ro_ok _ Hr))) t h)).
  destruct (thread_init_fields k t false p n Hq) as (Ec1 & Et1 & Eo1 & Eq1). cbv zeta in *.
  destruct (thread_init_inv k t false p n (ro_ok _ Hr) (ki_timers _ Hi) Hnew Htc H0 Hnb Hp') as (Hok1 & Ht1 & Hk1).
  cbv zeta in *. set (k1 := _rt_thread_init t false p n k) in *.
  assert (kernel_inv k1) as Hi1 by (split; [done|rewrite Ec1; apply Hk1; right; apply Hr|done]).
  assert (known k1 t) as Hkt by (apply Hk1; by left).
  assert (state_of (thr k1 t) = RT_THREAD_INIT) as Hs1 by (by rewrite Et1).
  pose proof (inv_startup k1 t Hi1 Hkt Hs1) as Hi4.
  destruct (startup_prepared k1 t Hok1 Hkt Hs1) as (Hok2 & Hkt2 & Hs2). cbv zeta in *.
  unfold rt_thread_startup in Hi4 |- *. set (k2 := upd_thread t (with_stat RT_THREAD_SUSPEND) _) in *.
  assert (current_priority (thr k2 t) = p) as Ep2 by (unfold k2; by rewrite !thr_upd_same, Et1).
  assert (forall x, x <> t -> thr k2 x = thr k x) as Eo2
    by (intros x Hx; unfold k2; rewrite !thr_upd_other by done; by apply Eo1).
  assert (forall h, queue k2 h = queue k h) as Eq2 by (intros h; exact (Eq1 h)).
  pose proof (resume_ok k2 t Hok2 Hkt2) as Hok3.
  destruct (resume_fields k2 t Hs2) as (Ec3 & _ & _ & _ & Eo3 & Est3 & Ep3 & _ & Eq3 & Hk3). cbv zeta in *.
  assert (rt_current_thread k2 = rt_current_thread k) as Ec2 by exact Ec1.
  set (k3 := fst (rt_thread_resume t k2)) in *. rewrite Ec2 in *. unfold rt_thread_self in *. rewrite Ec3 in *.
  rewrite (proj2 (Z.eqb_neq _ RT_NULL) (running_not_null k Hr)) in Hi4 |- *. cbn [negb fst] in Hi4 |- *.
  assert (thr k3 (rt_current_thread k) = thr k (rt_current_thread k)) as Ecur by (rewrite Eo3, Eo2; done).
  assert (running_ok k3) as Hr3.
  { split; [done| |rewrite Ec3, Ecur; apply Hr]. rewrite Ec3. apply Hk3. right. apply known_upd. right.
    apply known_upd. right. apply Hk1. right. apply Hr. }
  assert (state_of (thr k3 t) = RT_THREAD_READY) as Es3 by (rewrite Est3, (proj2 (Z.eqb_neq _ _) Htc); done).
  assert (leads k3) as Hl3.
  { intros x Hx. rewrite Ec3, Ecur. destruct (decide (x = t)) as [->|Hne].
    - rewrite Ep3, Ep2. lia.
    - rewrite Eo3, Eo2 in * by done. by apply Hl. }
  destruct (leads_schedule k3 Hr3 Hl3) as (Hr4 & Ec4 & Hl4 & Hth & Hkn). cbv zeta in *.
  split; [done|]. split; [done|]. split; [by rewrite Ec4|]. split; [done|].
  destruct (Hth t) as [Hst Est]. rewrite Est, (same_priority _ _ Hst). split; [done|]. split; [by rewrite Ep3|].
  split.
  - intros x Hx. destruct (Hth x) as [Hsx Esx]. rewrite Esx. unfold same_but_stat in *.
    rewrite Hsx, Eo3, Eo2 by done. done.
  - split.
    { intros x Hx%Hkn%Hk3. destruct Hx as [<-|Hx]; [by left|]. apply known_upd in Hx as [<-|Hx]; [by left|].
      apply known_upd in Hx as [<-|Hx]; [by left|]. by apply Hk1. }
    intros h Hh. rewrite schedule_queue by (done || apply Hr3). rewrite Eq3, Eq2.
    rewrite bool_decide_eq_false_2 by (by intros ->). rewrite andb_false_r, app_nil_r. by apply filter_absent.
Qed.

(** ** What [Main_Threads] leaves *)

Section start.
Context {H : Type} `{UartLaws H}.
Implicit Type b : board H.

Definition CREATE_DONE : list Z := chars "create done. dynamic semaphore value = 0." ++ [10].
Definition HELLO : list Z := chars "hello RT-Thread!" ++ [13; 10].

(** The device as [Main_Threads] leaves it. *)
Definition watch_device (d : rt_device) : Prop := streaming d /\ rx_indicate d = Some UART_INPUT.

(** The third open of the device, the shell's being the second. *)
Lemma third_open (d : rt_serial_device H) name l : open_device (parent d) ->
  d_flag (parent d) = RT_DEVICE_FLAG_RDWR .| RT_DEVICE_FLAG_INT_RX .| RT_DEVICE_FLAG_ACTIVATED ->
  holds 64 d l -> exists d',
  rt_device_open name RT_DEVICE_FLAG_INT_RX d = Some (d', RT_EOK, []) /\
  streaming (parent d') /\ holds 64 d' l /\ uart_of d' = uart_of d.
Proof.
  destruct d as [[fl op n cb tc] cf rxf tx p]. unfold open_device. cbn [parent d_flag ref_count rx_indicate open_flag].
  intros (-> & -> & _ & _ & Hst) -> [(f & Ef & Hf) Hsz]. cbn [serial_rx config] in *. subst rxf.
  unfold rt_device_open, activate. cbn [device_init device_open serial_driver dev parent d_flag].
  change (negb (on _ RT_DEVICE_FLAG_ACTIVATED)) with false. cbv iota.
  unfold rt_serial_open, open_rx, open_tx. cbn -[on]. rewrite Hst, orb_true_r.
  destruct tx; cbn; eexists; (split; [reflexivity|]); (split; [done|]); (split; [|done]);
    by (split; [exists f|]).
Qed.

(** The system a board is started in: the running thread has a higher priority
    than the new ones, the device is the console and the shell's, the objects
    and threads to be created are new. *)
Record prepared b (al : allocated) (u mx sx t1 t2 t3 : Z) (l : list Z) : Prop := {
  pr_inv : kernel_inv (b_kernel b);
  pr_running : running_ok (b_kernel b);
  pr_leads : leads (b_kernel b);
  pr_priority : current_priority (thr (b_kernel b) (rt_current_thread (b_kernel b))) < THREAD_PRIORITY_HIGH;
  pr_found : rt_device_find (SAMPLE_UART_NAME ++ [0]) (b_objects b) = Some u;
  pr_address : u <> 0;
  pr_console : _console_device b = u;
  pr_device : exists d, b_devices b !! u = Some d /\ open_device (parent d) /\ holds 64 d l /\
    d_flag (parent d) = RT_DEVICE_FLAG_RDWR .| RT_DEVICE_FLAG_INT_RX .| RT_DEVICE_FLAG_ACTIVATED;
  pr_allocated : al = mk_allocated (Some mx) (Some sx) (Some t1, true) (Some t2, true) (Some t3, true);
  pr_objects : mx <> sx /\ queue (b_kernel b) (Suspended mx) = [] /\ queue (b_kernel b) (Suspended sx) = [];
  pr_threads : NoDup [t1; t2; t3] /\
    Forall (fun t => ~ known (b_kernel b) t /\ t <> RT_NULL /\ t <> NOBODY) [t1; t2; t3] }.

Lemma printf_console b u d l fmt text : kprintf fmt [] = Some (tt, [Out text]) ->
  _console_device b = u -> u <> 0 -> b_devices b !! u = Some d -> streaming (parent d) -> holds 64 d l -> exists d',
  printf fmt [] b = Some (board_device u d' b) /\ parent d' = parent d /\ holds 64 d' l /\
  rxd (uart_of d') = rxd (uart_of d) /\ txd (uart_of d') = txd (uart_of d) ++ crlf true text.
Proof.
  intros Ek Eu Hu Ed Hst Hh. destruct (write_text 64 d l text Hst Hh) as (d' & r & Ew & H').
  exists d'. split; [|exact H']. unfold printf. rewrite Ek. cbn [mbind option_bind print_events print_event].
  rewrite Eu, (proj2 (Z.eqb_neq u 0) Hu), Ed. cbn [mbind option_bind]. rewrite Ew. done.
Qed.

(** One thread after the other. *)
Lemma create_spec b t p n : kernel_inv (b_kernel b) -> running_ok (b_kernel b) -> leads (b_kernel b) ->
  ~ known (b_kernel b) t -> t <> RT_NULL -> t <> NOBODY ->
  current_priority (thr (b_kernel b) (rt_current_thread (b_kernel b))) < p < 32 -> exists k',
  create_thread (Some t, true) p n b = board_kernel k' b /\
  kernel_inv k' /\ running_ok k' /\ rt_current_thread k' = rt_current_thread (b_kernel b) /\ leads k' /\
  state_of (thr k' t) = RT_THREAD_READY /\ current_priority (thr k' t) = p /\
  (forall x, x <> t -> same_but_stat (thr k' x) (thr (b_kernel b) x) /\
     state_of (thr k' x) = state_of (thr (b_kernel b) x)) /\
  (forall x, known k' x -> x = t \/ known (b_kernel b) x) /\
  (forall h, waiting_list h -> queue k' h = queue (b_kernel b) h).
Proof.
  intros Hi Hr Hl Hnew H00 Hnb Hp.
  eexists. split; [|exact (started_spec (b_kernel b) t p n Hi Hr Hl Hnew H00 Hnb Hp)].
  unfold create_thread. cbn [fst snd rt_thread_create]. by rewrite (proj2 (Z.eqb_neq t RT_NULL) H00).
Qed.

(** The kernel behind the two objects and the three threads. *)
Lemma threads_spec b t1 t2 t3 : kernel_inv (b_kernel b) -> running_ok (b_kernel b) -> leads (b_kernel b) ->
  current_priority (thr (b_kernel b) (rt_current_thread (b_kernel b))) < THREAD_PRIORITY_HIGH ->
  NoDup [t1; t2; t3] -> Forall (fun t => ~ known (b_kernel b) t /\ t <> RT_NULL /\ t <> NOBODY) [t1; t2; t3] ->
  exists k', create_thread (Some t3, true) THREAD_PRIORITY_HIGH THREAD_TIMESLICE
    (create_thread (Some t2, true) THREAD_PRIORITY_MED THREAD_TIMESLICE
      (create_thread (Some t1, true) THREAD_PRIORITY_LOW THREAD_TIMESLICE_UART b)) = board_kernel k' b /\
  kernel_inv k' /\ running_ok k' /\ rt_current_thread k' = rt_current_thread (b_kernel b) /\
  (state_of (thr k' t1) = RT_THREAD_READY /\ current_priority (thr k' t1) = THREAD_PRIORITY_LOW) /\
  (state_of (thr k' t2) = RT_THREAD_READY /\ current_priority (thr k' t2) = THREAD_PRIORITY_MED) /\
  (state_of (thr k' t3) = RT_THREAD_READY /\ current_priority (thr k' t3) = THREAD_PRIORITY_HIGH) /\
  (forall h, waiting_list h -> queue k' h = queue (b_kernel b) h).
Proof.
  intros Hi Hr Hl Hp Hnd Hf. unfold THREAD_PRIORITY_HIGH, THREAD_PRIORITY_MED, THREAD_PRIORITY_LOW in *.
  apply NoDup_cons in Hnd as [H12 Hnd]. apply NoDup_cons in Hnd as [H23 _].
  apply not_elem_of_cons in H12 as [H12 H13]. apply not_elem_of_cons in H13 as [H13 _].
  apply not_elem_of_cons in H23 as [H23 _].
  apply Forall_cons in Hf as [(N1 & Z1 & B1) Hf]. apply Forall_cons in Hf as [(N2 & Z2 & B2) Hf].
  apply Forall_cons in Hf as [(N3 & Z3 & B3) _].
  destruct (create_spec b t1 30 THREAD_TIMESLICE_UART Hi Hr Hl N1 Z1 B1 ltac:(lia))
    as (k1 & -> & I1 & R1 & C1 & L1 & S1 & P1 & O1 & K1 & Q1).
  assert (forall x, x <> t1 -> ~ known (b_kernel b) x -> ~ known k1 x) as U1 by (intros x Hx Hn Hk; by destruct (K1 x Hk)).
  assert (rt_current_thread (b_kernel b) <> t1 /\ rt_current_thread (b_kernel b) <> t2) as [Hc1 Hc2]
    by (split; intros E; [apply N1|apply N2]; rewrite <- E; apply Hr).
  assert (current_priority (thr k1 (rt_current_thread k1)) < 20) as Hp1.
  { rewrite C1. destruct (O1 (rt_current_thread (b_kernel b)) Hc1) as [Hs _]. by rewrite (same_priority _ _ Hs). }
  destruct (create_spec (board_kernel k1 b) t2 25 THREAD_TIMESLICE I1 R1 L1 (U1 t2 ltac:(done) N2) Z2 B2 ltac:(cbn; lia))
    as (k2 & -> & I2 & R2 & C2 & L2 & S2 & P2 & O2 & K2 & Q2). cbn [board_kernel b_kernel] in *.
  assert (current_priority (thr k2 (rt_current_thread k2)) < 20) as Hp2.
  { rewrite C2, C1. rewrite C1 in Hp1. destruct (O2 (rt_current_thread (b_kernel b)) Hc2) as [Hs _].
    by rewrite (same_priority _ _ Hs). }
  assert (~ known k2 t3) as U2 by (intros Hk; destruct (K2 t3 Hk) as [?|Hk']; [done|]; by apply (U1 t3)).
  destruct (create_spec (board_kernel k2 (board_kernel k1 b)) t3 20 THREAD_TIMESLICE I2 R2 L2 U2 Z3 B3 ltac:(cbn; lia))
    as (k3 & -> & I3 & R3 & C3 & L3 & S3 & P3 & O3 & K3 & Q3). cbn [board_kernel b_kernel] in *.
  exists k3. split; [done|]. split; [done|]. split; [done|]. split; [by rewrite C3, C2|].
  destruct (O2 t1 H12) as [Hs21 E21]. destruct (O3 t1 H13) as [Hs31 E31]. destruct (O3 t2 H23) as [Hs32 E32].
  rewrite (same_priority _ _ Hs31), (same_priority _ _ Hs32), (same_priority _ _ Hs21), E31, E32, E21.
  split_and!; try done. intros x Hx. by rewrite Q3, Q2, Q1.
Qed.

Definition ready_at (k : kernel) (t p : Z) : Prop :=
  state_of (thr k t) = RT_THREAD_READY /\ current_priority (thr k t) = p.

Lemma object_init_start k o : kernel_inv k -> running_ok k -> leads k -> queue k (Suspended o) = [] ->
  let k' := rt_ipc_object_init o k in
  kernel_inv k' /\ running_ok k' /\ leads k' /\ (forall h, queue k' h = queue k h).
Proof.
  intros Hi [Hok Hc Hr] Hl Hq. cbv zeta. split; [by apply inv_list_init|].
  split; [split; [by apply ipc_init_ok|done|done]|]. split; [done|].
  intros h. rewrite queue_ipc_init. destruct (decide _) as [->|]; [by rewrite Hq|done].
Qed.

(** [Main_Threads] succeeds; the two objects are there, the device is open for
    the application and its callback set, the greeting is on the wire, and the
    three threads are ready behind the one that started them. *)
Lemma start_spec b al u mx sx t1 t2 t3 l : prepared b al u mx sx t1 t2 t3 l -> exists b' d',
  Main_Threads al b = Some (b', 0) /\
  b_mutex b' = Some (mx, mk_mutex 1 RT_NULL 0xff 0) /\
  b_sem b' = Some (sx, mk_sem 0 RT_IPC_FLAG_FIFO) /\
  b_watch b' = initial_theme (b_watch b) /\
  b_serial b' = u /\ b_devices b' !! u = Some d' /\ watch_device (parent d') /\ holds 64 d' l /\
  (forall d, b_devices b !! u = Some d -> rxd (uart_of d') = rxd (uart_of d) /\
     txd (uart_of d') = txd (uart_of d) ++ crlf true (CREATE_DONE ++ HELLO)) /\
  kernel_inv (b_kernel b') /\ running_ok (b_kernel b') /\
  rt_current_thread (b_kernel b') = rt_current_thread (b_kernel b) /\
  ready_at (b_kernel b') t1 THREAD_PRIORITY_LOW /\ ready_at (b_kernel b') t2 THREAD_PRIORITY_MED /\
  ready_at (b_kernel b') t3 THREAD_PRIORITY_HIGH /\
  (forall h, waiting_list h -> queue (b_kernel b') h = queue (b_kernel b) h).
Proof.
  intros [Hi Hr Hl Hp Hf Hu Hco (d & Ed & Hop & Hh & Hfl) -> (Hne & Hqm & Hqs) (Hnd & Hth)].
  destruct (object_init_start _ mx Hi Hr Hl Hqm) as (I1 & R1 & L1 & Q1).
  destruct (object_init_start _ sx I1 R1 L1 ltac:(by rewrite Q1)) as (I2 & R2 & L2 & Q2). cbv zeta in *.
  set (k2 := rt_ipc_object_init sx (rt_ipc_object_init mx (b_kernel b))) in *.
  unfold Main_Threads. rewrite Hf. cbn [mbind option_bind]. rewrite (proj2 (Z.eqb_neq u 0) Hu).
  cbn [mutex_at sem_at rt_mutex_create rt_sem_create b_kernel board_kernel board_mutex board_watch board_serial].
  fold k2. match goal with |- context [printf _ _ ?x] => set (b2 := x) end.
  destruct (printf_console b2 u d l (chars "create done. dynamic semaphore value = 0." ++ [10]) CREATE_DONE)
    as (d1 & -> & Ep1 & Hh1 & Er1 & Et1); [by vm_compute|done|done|done|by apply open_streaming|done|].
  cbn [mbind option_bind]. unfold start_threads. change (b_serial (board_device u d1 b2)) with u.
  change (b_devices (board_device u d1 b2)) with (<[u := d1]> (b_devices b)).
  change (b_objects (board_device u d1 b2)) with (b_objects b). rewrite lookup_insert_eq. cbn [mbind option_bind].
  destruct (third_open d1 (name_ptr (object_at u (b_objects b))) l) as (d2 & -> & Hst2 & Hh2 & Eu2);
    [by rewrite Ep1|by rewrite Ep1|done|].
  cbn [mbind option_bind print_events].
  match goal with |- context [b_devices ?x !! b_serial ?x] => change (b_devices x !! b_serial x) with (<[u := d2]> (<[u := d1]> (b_devices b)) !! u) end.
  rewrite lookup_insert_eq.
  cbn [mbind option_bind rt_device_set_rx_indicate on_dev with_dev dev serial_driver].
  set (d3 := set_parent _ d2).
  destruct (write_text 64 d3 l (chars "hello RT-Thread!" ++ [13; 10])) as (d4 & r & -> & Ep4 & Hh4 & Er4 & Et4).
  { done. } { destruct Hh2. by split. }
  cbn [mbind option_bind]. cbn [uart_at get_at show_at]. match goal with |- context [create_thread _ THREAD_PRIORITY_LOW _ ?x] => set (b3 := x) end.
  destruct (threads_spec b3 t1 t2 t3 I2 R2 L2 Hp Hnd Hth) as (k' & -> & I' & R' & C' & T1 & T2 & T3 & Q').
  exists (board_kernel k' b3), d4. split_and!; try done.
  - apply lookup_insert_eq.
  - rewrite Ep4. split; [exact Hst2|done].
  - intros d' Ed'. rewrite Ed in Ed'. injection Ed' as <-. cbn [set_parent uart_of d3] in *.
    rewrite Er4, Et4. change (uart_of d3) with (uart_of d2). rewrite Eu2, Er1, Et1, crlf_app, <- app_assoc. done.
  - intros h Hw. etrans; [exact (Q' h Hw)|]. etrans; [exact (Q2 h)|exact (Q1 h)].
Qed.
End start.
