(* ===== verification/WatchMainFacts.v ===== *)
(** * WatchMainFacts: the application from its start on

    The serial thread between the receive interrupt and the colours of the
    display, and what its mutex does to the other threads. *)
From S2P Require Import Prelude Bytes KService Printf Output St7789 Buttons Watch Object Device Serial.
From S2P Require Import SerialFifo SerialFacts Timer Kernel KernelInv KernelOps Ipc IpcInv MutexInv.
From S2P Require Import KernelSystem Console ConsoleFacts WatchMain WatchStart.

(** ** The commands of the serial line *)

Definition colour (ch : Z) : option Z :=
  if ch =? 82 then Some LCD_DISP_RED else if ch =? 71 then Some LCD_DISP_GREEN
  else if ch =? 66 then Some LCD_DISP_BLUE else if ch =? 89 then Some LCD_DISP_YELLOW
  else if ch =? 67 then Some LCD_DISP_CYAN else if ch =? 77 then Some LCD_DISP_MAGENTA
  else if ch =? 79 then Some LCD_DISP_ORANGE else if ch =? 87 then Some LCD_DISP_WHITE else None.

(** What a character is answered with behind its echo, and the theme after a
    line of characters. *)
Definition remark (ch : Z) : list Z :=
  match colour ch with Some _ => [] | None => chars "Color Changed" ++ [13; 10] end.
Definition answer (l : list Z) : list Z := flat_map (fun ch => ch :: remark ch) l.
Definition theme_after (l : list Z) : Z := default LCD_DISP_GREEN (last (omap colour l)).

Lemma serial_command_spec ch w : exists w', serial_command ch w = (w', remark ch) /\
  Theme w' = default (Theme w) (colour ch).
Proof. unfold serial_command, remark, colour. repeat case_match; eexists; split; reflexivity. Qed.

Lemma theme_after_snoc l ch : theme_after (l ++ [ch]) = default (theme_after l) (colour ch).
Proof.
  unfold theme_after. rewrite omap_app. cbn. destruct (colour ch) as [t|]; cbn.
  - by rewrite last_snoc.
  - by rewrite app_nil_r.
Qed.
Lemma answer_app l l' : answer (l ++ l') = answer l ++ answer l'.
Proof. apply flat_map_app. Qed.
Lemma answer_one ch : answer [ch] = ch :: remark ch.
Proof. unfold answer. cbn. by rewrite app_nil_r. Qed.

(** ** The mutex between the interrupt and the serial thread *)

Lemma mutex_ok_same k k' o m : mutex_ok k o m ->
  (forall x, state_of (thr k' x) = state_of (thr k x)) -> queue k' (Suspended o) = queue k (Suspended o) ->
  mutex_ok k' o m.
Proof.
  intros [Hm] Hs Hq. split. rewrite Hq. destruct Hm as [Hm|(H1 & H2 & H3)]; [by left|right].
  split_and!; [done| |apply H3..]. eapply alive_state; [|exact H2]. by rewrite Hs.
Qed.

Section serving.
Context {H : Type} `{UartLaws H}.
(** The mutex, the shell's semaphore and the serial thread. *)
Context (mx rx thread : Z).
Implicit Type c : app H.

(** The mutex is free or held by the serial thread, and nobody waits for it. *)
Record polled (k : kernel) (m : rt_mutex) : Prop := {
  po_mutex : mutex_ok k mx m;
  po_queue : queue k (Suspended mx) = [];
  po_owner : m_value m = 0 -> m_owner m = thread /\ original_priority m = THREAD_PRIORITY_LOW;
  po_awake : awake (thr k thread);
  po_priority : current_priority (thr k thread) = THREAD_PRIORITY_LOW }.

Lemma polled_set_error k m t e : polled k m -> polled (set_error t e k) m.
Proof.
  intros [Hm Hq Ho Ha Hp]. split; [|done|done| |by rewrite set_error_priority].
  - eapply mutex_ok_same; [exact Hm| |done]. intros x. apply set_error_state.
  - unfold awake. by rewrite set_error_state.
Qed.

(** The release in the interrupt: it counts down when it happens to hit the
    serial thread, and marks any other thread with an error. *)
Lemma input_spec k m : running_ok k -> polled k m -> exists k' m',
  rt_mutex_release mx k m = (k', m', if rt_current_thread k =? m_owner m then RT_EOK else - RT_ERROR) /\
  running_ok k' /\ polled k' m' /\ rt_current_thread k' = rt_current_thread k /\
  (forall o, queue k' (Suspended o) = queue k (Suspended o)) /\
  (rt_current_thread k <> thread -> k' = set_error (rt_current_thread k) (- RT_ERROR) k /\ m' = m).
Proof.
  intros Hr Hp. destruct (Z.eqb_spec (rt_current_thread k) (m_owner m)) as [Ho|Ho].
  - assert (m_value m = 0) as Hv.
    { destruct (mo_state _ _ _ (po_mutex _ _ Hp)) as [(_ & E & _)|(E & _)]; [|done].
      exfalso. apply (running_not_null k Hr). congruence. }
    destruct (po_owner _ _ Hp Hv) as [Et Eo].
    destruct (mo_state _ _ _ (po_mutex _ _ Hp)) as [(? & _)|(_ & _ & Hh & _)]; [lia|].
    destruct (decide (hold m = 1)) as [Hh1|Hh1].
    + destruct (mutex_release_free k mx m Hr (po_mutex _ _ Hp) (eq_sym Ho) Hh1 (po_queue _ _ Hp)) as [E Hm'].
      assert (restored k m = k) as Er.
      { unfold restored. rewrite Et, Eo, (po_priority _ _ Hp). done. }
      rewrite Er in *. exists k, (mk_mutex 1 RT_NULL 0xff 0). split; [exact E|].
      split_and!; try done. { destruct Hp. by split. } intros Hne. congruence.
    + destruct (mutex_release_nested k mx m Hr (po_mutex _ _ Hp) (eq_sym Ho) ltac:(lia)) as [E Hm'].
      eexists k, _. split; [exact E|]. split_and!; try done. { destruct Hp. by split. } intros Hne. congruence.
  - exists (set_error (rt_current_thread k) (- RT_ERROR) k), m. split; [by apply mutex_release_other|].
    split; [apply running_set_error; [done|apply Hr]|]. split; [by apply polled_set_error|]. done.
Qed.

(** The thread's own take never waits. *)
Lemma serial_take_spec k m : running_ok k -> polled k m -> rt_current_thread k = thread -> exists k' m' e,
  rt_mutex_take mx RT_WAITING_FOREVER k m = (k', m', Done e) /\ running_ok k' /\ polled k' m' /\
  rt_current_thread k' = thread /\ (forall o, queue k' (Suspended o) = queue k (Suspended o)).
Proof.
  intros Hr Hp Ht. pose proof (polled_set_error k m (rt_current_thread k) RT_EOK Hp) as Hp'.
  fold (entered k) in Hp'. pose proof (entered_running k Hr) as Hr'.
  destruct (mo_state _ _ _ (po_mutex _ _ Hp)) as [(Hv & _)|(Hv & _ & Hh & _)].
  - destruct (mutex_take_free k mx m RT_WAITING_FOREVER Hr (po_mutex _ _ Hp) Hv) as [E Hm].
    eexists (entered k), _, _. split; [exact E|]. split_and!; try done. destruct Hp'. split; try done.
    intros _. cbn [m_owner original_priority]. rewrite Ht. by destruct Hp.
  - destruct (po_owner _ _ Hp Hv) as [Et Eo].
    pose proof (mutex_take_owner k mx m RT_WAITING_FOREVER Hr (po_mutex _ _ Hp) ltac:(congruence)) as Hk.
    cbv zeta in Hk. destruct (hold m <? RT_MUTEX_HOLD_MAX).
    + destruct Hk as [E Hm]. eexists (entered k), _, _. split; [exact E|]. split_and!; try done.
      destruct Hp'. by split.
    + eexists (entered k), m, _. split; [exact Hk|]. by split_and!.
Qed.

(** ** The system *)

(** The character the thread has in hand, and what it still has to write. *)
Definition in_hand (p : serial_place) : list Z :=
  match p with Echoing ch | Switching ch => [ch] | _ => [] end.
Definition to_write (p : serial_place) : list Z :=
  match p with Echoing ch => ch :: remark ch | Switching ch => remark ch | Reporting l => l | _ => [] end.

Section from.
(** The port at the start and what was in the FIFO then. *)
Context (h : H) (l0 : list Z).

Definition arrived c : list Z := l0 ++ drop (length (rxd h)) (rxd (uart_of (a_device c))).

Record app_inv c (unread : list Z) : Prop := {
  ai_kernel : kernel_ok (a_kernel c);
  ai_current : known (a_kernel c) (rt_current_thread (a_kernel c));
  ai_polled : polled (a_kernel c) (a_mutex c);
  ai_holds : holds 64 (a_device c) unread;
  ai_device : watch_device (parent (a_device c));
  ai_rxd : rxd h `prefix_of` rxd (uart_of (a_device c));
  ai_arrived : arrived c = served c ++ in_hand (a_place c) ++ unread;
  ai_sent : exists sent, answer (served c ++ in_hand (a_place c)) = sent ++ to_write (a_place c) /\
    txd (uart_of (a_device c)) = txd h ++ crlf true sent;
  ai_theme : Theme (a_watch c) = theme_after (served c) }.

(** Interrupts while some thread runs, that do not overtake the reader by more
    than the FIFO holds; rounds of the serial thread when it runs; and whatever
    else happens that leaves the serial thread, its mutex, the shell's semaphore
    and the theme alone. *)
Inductive io_step : app H -> app H -> Prop :=
  | io_interrupt c c' : running_ok (a_kernel c) -> app_interrupt mx rx c = Some c' ->
      (length (arrived c') <= length (served c ++ in_hand (a_place c)) + 63)%nat -> io_step c c'
  | io_thread c c' : rt_current_thread (a_kernel c) = thread -> running_ok (a_kernel c) ->
      serial_round mx c = Some c' -> io_step c c'
  | io_other c k w : kernel_ok k -> known k (rt_current_thread k) -> awake (thr k thread) ->
      current_priority (thr k thread) = THREAD_PRIORITY_LOW ->
      queue k (Suspended mx) = [] -> queue k (Suspended rx) = queue (a_kernel c) (Suspended rx) ->
      Theme w = Theme (a_watch c) ->
      io_step c (mk_app k (a_mutex c) (a_rx_sem c) (a_device c) w (a_place c) (served c)).

Lemma arrived_more c c' cs : rxd h `prefix_of` rxd (uart_of (a_device c)) ->
  rxd (uart_of (a_device c')) = rxd (uart_of (a_device c)) ++ cs -> arrived c' = arrived c ++ cs.
Proof.
  intros [l El] E. unfold arrived. rewrite E, El, <- app_assoc, !drop_app_length. by rewrite app_assoc.
Qed.

Lemma app_callbacks_spec c n : running_ok (a_kernel c) -> polled (a_kernel c) (a_mutex c) -> exists c',
  app_callbacks mx rx (indication (Some UART_INPUT) n) c = Some c' /\
  running_ok (a_kernel c') /\ polled (a_kernel c') (a_mutex c') /\
  rt_current_thread (a_kernel c') = rt_current_thread (a_kernel c) /\
  a_rx_sem c' = a_rx_sem c /\ a_device c' = a_device c /\ a_watch c' = a_watch c /\
  a_place c' = a_place c /\ served c' = served c /\
  (forall o, queue (a_kernel c') (Suspended o) = queue (a_kernel c) (Suspended o)) /\
  (n <> [] -> rt_current_thread (a_kernel c) <> thread ->
    a_kernel c' = set_error (rt_current_thread (a_kernel c)) (- RT_ERROR) (a_kernel c)).
Proof.
  intros Hr Hp. destruct n as [|x n]; [by exists c|].
  destruct (input_spec _ _ Hr Hp) as (k' & m' & E & Hr' & Hp' & Ec & Eq & Hn).
  exists (at_interrupt k' m' (a_rx_sem c) c). split.
  { cbn [indication app_callbacks]. change (UART_INPUT =? FINSH_RX_IND) with false.
    change (UART_INPUT =? UART_INPUT) with true. cbv iota. unfold uart_input. by rewrite E. }
  split_and!; try done. intros _ Hne. by destruct (Hn Hne).
Qed.

Lemma app_interrupt_spec c l : app_inv c l -> running_ok (a_kernel c) -> exists c' cs,
  app_interrupt mx rx c = Some c' /\ arrived c' = arrived c ++ cs /\
  ((length (arrived c') <= length (served c ++ in_hand (a_place c)) + 63)%nat -> app_inv c' (l ++ cs)) /\
  a_rx_sem c' = a_rx_sem c /\
  (forall o, queue (a_kernel c') (Suspended o) = queue (a_kernel c) (Suspended o)) /\
  rt_current_thread (a_kernel c') = rt_current_thread (a_kernel c) /\
  (l ++ cs <> [] -> rt_current_thread (a_kernel c) <> thread ->
    a_kernel c' = set_error (rt_current_thread (a_kernel c)) (- RT_ERROR) (a_kernel c)).
Proof.
  intros Hi Hr. destruct (isr_spec 64 _ _ (ai_holds _ _ Hi)) as (d & cs & E & (Ep & _) & Hh & Er & Et). cbv zeta in *.
  unfold app_interrupt. rewrite E. cbn [mbind option_bind]. destruct (ai_device _ _ Hi) as [Hst Hcb]. rewrite Hcb.
  change (64 - 1)%nat with 63%nat in *.
  destruct (app_callbacks_spec (put_device d (a_place c) c) (latest 63 (l ++ cs)) Hr (ai_polled _ _ Hi))
    as (c' & -> & Hr' & Hp' & Ec & Es & Ed & Ew & Epl & Esv & Eq & Hn).
  cbn [put_device a_kernel a_rx_sem a_device a_watch a_place served] in *.
  exists c', cs. split; [done|].
  assert (arrived c' = arrived c ++ cs) as Ea by (apply arrived_more; [apply Hi|by rewrite Ed]).
  split; [done|]. split; [|split_and!; try done].
  - intros Hlen. rewrite Ea, (ai_arrived _ _ Hi) in Hlen. rewrite !length_app in Hlen.
    rewrite latest_all in Hh by (rewrite length_app; lia).
    split; rewrite ?Ed, ?Ew, ?Epl, ?Esv; try done; try apply Hr'; try apply Hi.
    + split; by rewrite Ep.
    + rewrite Er. apply prefix_app_r, Hi.
    + rewrite Ea, (ai_arrived _ _ Hi). by rewrite <- !app_assoc.
    + rewrite Et. apply Hi.
  - intros Hl Hne. apply Hn; [|done]. intros E0. apply Hl. destruct (l ++ cs) as [|x r] eqn:Elr; [done|].
    apply (f_equal length) in E0. rewrite latest_length in E0. cbn in E0. lia.
Qed.

(** ** Rounds of the serial thread *)

(** How far the thread is from its take of the mutex. *)
Definition rank (p : serial_place) : nat :=
  match p with Echoing _ => 4 | Switching _ => 3 | Reporting _ => 2 | Fetching => 1 | Locking => 0 end.
Definition distance c (l : list Z) : nat := 4 * length l + rank (a_place c).

Lemma put_device_inv c l d p l' : app_inv c l -> parent d = parent (a_device c) -> holds 64 d l' ->
  rxd (uart_of d) = rxd (uart_of (a_device c)) ->
  in_hand (a_place c) ++ l = in_hand p ++ l' ->
  (exists t, answer (served c ++ in_hand p) = answer (served c ++ in_hand (a_place c)) ++ t /\
    exists w, to_write (a_place c) ++ t = w ++ to_write p /\
    txd (uart_of d) = txd (uart_of (a_device c)) ++ crlf true w) ->
  app_inv (put_device d p c) l'.
Proof.
  intros Hi Ep Hh Er Ei (t & Ea & w & Ew & Et). destruct Hi.
  destruct ai_sent0 as (sent & Es & Etx). split; cbn [put_device a_kernel a_mutex a_device a_watch a_place served]; try done.
  - by rewrite Ep.
  - by rewrite Er.
  - unfold arrived in *. cbn [a_device put_device]. by rewrite Er, ai_arrived0, Ei.
  - exists (sent ++ w). rewrite Ea, Es, Et, Etx, crlf_app, <- !app_assoc. by rewrite Ew.
Qed.

Lemma serial_round_spec c l : app_inv c l -> running_ok (a_kernel c) -> rt_current_thread (a_kernel c) = thread ->
  exists c' l', serial_round mx c = Some c' /\ app_inv c' l' /\ running_ok (a_kernel c') /\
  rt_current_thread (a_kernel c') = thread /\ a_rx_sem c' = a_rx_sem c /\
  (forall o, queue (a_kernel c') (Suspended o) = queue (a_kernel c) (Suspended o)) /\
  arrived c' = arrived c /\
  (a_place c <> Locking -> (distance c' l' < distance c l)%nat) /\
  (a_place c' = Locking -> l' = []) /\ (a_place c = Locking -> a_place c' = Fetching).
Proof.
  intros Hi Hr Ht. destruct (ai_device _ _ Hi) as [Hst _]. unfold serial_round, distance.
  destruct (a_place c) as [| |ch|ch|text] eqn:Hp.
  - destruct (read_char 64 (a_device c) l Hst (ai_holds _ _ Hi)) as (d & -> & Ep & Hh & Eu). cbn [mbind option_bind].
    eexists _, (drop 1 l). split; [reflexivity|].
    split; [|split_and!; try done; [by unfold arrived; cbn; rewrite Eu|..]].
    + eapply put_device_inv; [exact Hi|done|exact Hh|by rewrite Eu|rewrite Hp|rewrite Hp].
      * by destruct l as [|x l].
      * destruct l as [|x l]; cbn [take in_hand to_write].
        -- exists []. split; [by rewrite !app_nil_r|]. exists []. cbn. by rewrite app_nil_r, Eu.
        -- change (take 0 l) with (@nil Z). cbn [in_hand to_write]. exists (x :: remark x). rewrite app_nil_r, answer_app, answer_one. split; [done|].
           exists []. cbn. by rewrite app_nil_r, Eu.
    + intros _. destruct l as [|x l]; cbn; rewrite ?take_0, ?drop_0; cbn; lia.
    + destruct l as [|x l]; [done|]. cbn. by rewrite take_0.
  - destruct (serial_take_spec _ _ Hr (ai_polled _ _ Hi) Ht) as (k' & m' & e & -> & Hr' & Hp' & Ec & Eq).
    eexists _, l. split; [reflexivity|]. split; [|by split_and!].
    destruct Hi. rewrite Hp in *. by split; cbn; try apply Hr'.
  - destruct (write_text 64 (a_device c) l [ch] Hst (ai_holds _ _ Hi)) as (d & r & -> & Ep & Hh & Er & Et).
    cbn [mbind option_bind]. eexists _, l. split; [reflexivity|].
    split; [|split_and!; try done; [by unfold arrived; cbn; rewrite Er|cbn; lia]].
    eapply put_device_inv; [exact Hi|done|exact Hh|done|by rewrite Hp|rewrite Hp].
    exists []. split; [by rewrite !app_nil_r|]. exists [ch]. by rewrite app_nil_r.
  - destruct (serial_command_spec ch (a_watch c)) as (w & -> & Ew).
    eexists _, l. split; [reflexivity|]. split; [|split_and!; try done; [..]].
    + destruct Hi. rewrite Hp in *. destruct ai_sent0 as (sent & Es & Etx). cbn [in_hand to_write] in *.
      split; cbn [a_kernel a_mutex a_device a_watch a_place served]; try done.
      * etrans; [exact ai_arrived0|]. rewrite <- app_assoc. by destruct (remark ch).
      * exists sent. split; [|done]. revert Es. destruct (remark ch); cbn [in_hand to_write]; by rewrite !app_nil_r.
      * by rewrite Ew, ai_theme0, theme_after_snoc.
    + intros _. destruct (remark ch); cbn; lia.
    + cbn. by destruct (remark ch).
  - destruct (write_text 64 (a_device c) l text Hst (ai_holds _ _ Hi)) as (d & r & -> & Ep & Hh & Er & Et).
    cbn [mbind option_bind]. eexists _, l. split; [reflexivity|].
    split; [|split_and!; try done; [by unfold arrived; cbn; rewrite Er|cbn; lia]].
    eapply put_device_inv; [exact Hi|done|exact Hh|done|by rewrite Hp|rewrite Hp].
    exists []. split; [by rewrite !app_nil_r|]. exists text. cbn. by rewrite !app_nil_r.
Qed.

(** ** Runs *)

Lemma io_other_inv c l k w : app_inv c l -> kernel_ok k -> known k (rt_current_thread k) -> awake (thr k thread) ->
  current_priority (thr k thread) = THREAD_PRIORITY_LOW -> queue k (Suspended mx) = [] ->
  Theme w = Theme (a_watch c) ->
  app_inv (mk_app k (a_mutex c) (a_rx_sem c) (a_device c) w (a_place c) (served c)) l.
Proof.
  intros [] Hk Hc Ha Hp Hq Hw. split; cbn; try done; [|by rewrite Hw].
  destruct ai_polled0 as [[Hm] _ Hown _ _]. split; try done. split. rewrite Hq.
  destruct Hm as [(?&?&?&?)|(Hv & _ & Hh & Ho & _)]; [by left|right]. split_and!; try done; try lia.
  - destruct (Hown Hv) as [-> _]. by left.
  - by intros ?%not_elem_of_nil.
Qed.

Lemma io_step_inv c c' l : app_inv c l -> io_step c c' ->
  (exists l', app_inv c' l') /\ a_rx_sem c' = a_rx_sem c /\
  queue (a_kernel c') (Suspended rx) = queue (a_kernel c) (Suspended rx).
Proof.
  intros Hi Hs. destruct Hs as [c c' Hr E Hlen|c c' Ht Hr E|c k w Hk Hc Ha Hp Hq Hqr Hw].
  - destruct (app_interrupt_spec c l Hi Hr) as (c1 & cs & E1 & _ & Hi1 & Es & Eq & _). rewrite E in E1. injection E1 as <-.
    split; [|by rewrite Eq]. exists (l ++ cs). by apply Hi1.
  - destruct (serial_round_spec c l Hi Hr Ht) as (c1 & l1 & E1 & Hi1 & _ & _ & Es & Eq & _). rewrite E in E1. injection E1 as <-.
    split; [by exists l1|by rewrite Eq].
  - split; [|done]. exists l. by apply io_other_inv.
Qed.

Lemma io_steps_inv c c' : rtc io_step c c' -> forall l, app_inv c l ->
  (exists l', app_inv c' l') /\ a_rx_sem c' = a_rx_sem c /\
  queue (a_kernel c') (Suspended rx) = queue (a_kernel c) (Suspended rx).
Proof.
  induction 1 as [c|c c1 c' Hs _ IH]; intros l Hi; [by split; [exists l|]|].
  destruct (io_step_inv c c1 l Hi Hs) as ([l1 Hi1] & Es & Eq).
  destruct (IH l1 Hi1) as (Hx & Es' & Eq'). rewrite Es', Eq', Es, Eq. by split.
Qed.

(** The thread alone. *)
Fixpoint serial_rounds (n : nat) c : option (app H) :=
  match n with O => Some c | S n => c ← serial_round mx c; serial_rounds n c end.

Lemma rounds_idle n : forall c l, distance c l = n -> app_inv c l -> running_ok (a_kernel c) ->
  rt_current_thread (a_kernel c) = thread -> a_place c <> Locking \/ l = [] -> exists i c',
  serial_rounds i c = Some c' /\ a_place c' = Locking /\ app_inv c' [] /\ arrived c' = arrived c /\
  running_ok (a_kernel c') /\ rt_current_thread (a_kernel c') = thread.
Proof.
  induction n as [n IH] using lt_wf_ind. intros c l Hn Hi Hr Ht Hl.
  destruct (decide (rank (a_place c) = 0%nat)) as [H00|H00].
  { assert (a_place c = Locking) as Hp by (by destruct (a_place c)).
    destruct Hl as [Hl| ->]; [done|]. exists 0%nat, c. by split_and!. }
  assert (a_place c <> Locking) as Hp by (by intros E; rewrite E in H00).
  destruct (serial_round_spec c l Hi Hr Ht) as (c1 & l1 & E & Hi1 & Hr1 & Ht1 & _ & _ & Ea & Hd & Hlk & _).
  destruct (IH (distance c1 l1)) with c1 l1 as (i & c' & E' & Hp' & Hi' & Ea' & Hr'); try done.
  { rewrite <- Hn. by apply Hd. }
  { destruct (decide (rank (a_place c1) = 0%nat)) as [Hz|Hz]; [right; apply Hlk; by destruct (a_place c1)|].
    left. intros Ek. by rewrite Ek in Hz. }
  exists (S i), c'. cbn [serial_rounds]. rewrite E. cbn [mbind option_bind]. by rewrite Ea'.
Qed.

Lemma rounds_serve c l : app_inv c l -> running_ok (a_kernel c) -> rt_current_thread (a_kernel c) = thread ->
  exists i c', serial_rounds i c = Some c' /\ a_place c' = Locking /\ app_inv c' [] /\ arrived c' = arrived c /\
  running_ok (a_kernel c') /\ rt_current_thread (a_kernel c') = thread.
Proof.
  intros Hi Hr Ht. destruct (decide (rank (a_place c) = 0%nat)) as [H00|H00].
  - assert (a_place c = Locking) as Hp by (by destruct (a_place c)).
    destruct (serial_round_spec c l Hi Hr Ht) as (c1 & l1 & E & Hi1 & Hr1 & Ht1 & _ & _ & Ea & _ & _ & Hf).
    specialize (Hf Hp). destruct (rounds_idle _ c1 l1 eq_refl Hi1 Hr1 Ht1) as (i & c' & E' & Hp' & Hi' & Ea' & Hr');
      [left; by rewrite Hf|].
    exists (S i), c'. cbn [serial_rounds]. rewrite E. cbn [mbind option_bind]. by rewrite Ea'.
  - apply (rounds_idle (distance c l) c l); try done. left. intros E. by rewrite E in H00.
Qed.

(** With the scheduler unlocked it never chooses a thread of lower priority
    than the serial thread, which is always ready or running. *)
Lemma never_idle c l : app_inv c l -> rt_scheduler_lock_nest (a_kernel c) = 0 ->
  let k := rt_schedule (a_kernel c) in
  current_priority (thr k (rt_current_thread k)) <= THREAD_PRIORITY_LOW.
Proof.
  intros Hi Hl. cbv zeta. destruct (ai_polled _ _ Hi) as [_ _ _ Ha Hp]. pose proof (ai_kernel _ _ Hi) as Hok.
  pose proof (ai_current _ _ Hi) as Hc. set (k := a_kernel c) in *.
  assert (known k thread) as Hkt by (apply known_alive; by left).
  assert (thread <> NOBODY) as Hnb by (intros E; rewrite E in Hkt; by apply (proj2 (proj1 Hok))).
  destruct (schedule_keeps k Hok Hc) as (Hc' & _ & _ & Hsame & _ & Haw). cbv zeta in *.
  assert (rt_current_thread (rt_schedule k) = thread \/ state_of (thr (rt_schedule k) thread) = RT_THREAD_READY /\
    rt_thread_ready_priority_group k <> 0) as [->|[Hs Hg]].
  - destruct (decide (rt_thread_ready_priority_group k = 0)) as [Hg|Hg].
    + left. rewrite schedule_off by (by right). symmetry.
      destruct Ha as [Ha|Ha]; [|by apply (bt_running _ _ (proj1 (proj1 Hok)))]. exfalso.
      pose proof (bt_ready _ _ (proj1 (proj1 Hok)) thread Hkt Hnb Ha) as Hin.
      rewrite Hp in Hin. pose proof (proj2 (bt_group _ _ (proj1 (proj1 Hok)) THREAD_PRIORITY_LOW ltac:(done))) as Hb.
      rewrite Hg, Z.bits_0 in Hb. destruct (queue k (Ready THREAD_PRIORITY_LOW)) eqn:Eq; [by apply not_elem_of_nil in Hin|].
      by specialize (Hb ltac:(done)).
    + destruct (Haw thread Ha) as [Hr|Hr]; [by right|left].
      pose proof (schedule_ok k Hok Hc) as Hok'. symmetry.
      apply (bt_running _ _ (proj1 (proj1 Hok'))); [apply known_of_state; by rewrite Hr|done|done].
  - rewrite (same_priority _ _ (Hsame thread)), Hp. done.
  - rewrite <- Hp, <- (same_priority _ _ (Hsame thread)).
    apply highest_runs; try done. apply known_of_state. by rewrite Hs.
Qed.
End from.
End serving.

(** ** A thread that ends *)

Lemma schedule_closed k x : kernel_ok k -> known k (rt_current_thread k) ->
  state_of (thr k x) = RT_THREAD_CLOSE -> state_of (thr (rt_schedule k) x) = RT_THREAD_CLOSE.
Proof.
  intros Hok Hc Hx.
  destruct (decide (rt_scheduler_lock_nest k = 0)) as [Hl|Hl]; [|by rewrite schedule_off by (by left)].
  destruct (decide (rt_thread_ready_priority_group k = 0)) as [Hg|Hg]; [by rewrite schedule_off by (by right)|].
  destruct (schedule_threads k Hok Hc Hl Hg x) as (_ & Ho & Hcx).
  assert (x <> next_thread k) as Hne.
  { intros ->. unfold next_thread in Hx. destruct (stays k) eqn:Est.
    - unfold stays in Est. by rewrite Hx in Est.
    - destruct (highest_spec k (proj1 Hok) Hg) as (n & p & rest & Eh & _ & Eq & _). rewrite Eh in Hx. cbn [fst] in Hx.
      destruct (bt_in _ _ (proj1 (proj1 Hok)) n (Ready p)) as (_ & _ & Hs & _); [rewrite Eq; by left|].
      by rewrite Hx in Hs. }
  destruct (decide (x = rt_current_thread k)) as [Ex|Hnc]; [rewrite (Hcx Ex Hne), Hx; done|by rewrite Ho].
Qed.

Lemma exit_closes k : running_ok k ->
  kernel_ok (_rt_thread_exit k) /\ state_of (thr (_rt_thread_exit k) (rt_current_thread k)) = RT_THREAD_CLOSE.
Proof.
  intros [Hok Hc Hr]. assert (live (state_of (thr k (rt_current_thread k)))) as Hl by (by rewrite Hr).
  split; [by apply exit_ok|]. pose proof (exit_closed_ok k Hok Hc Hl) as Hx. cbv zeta in Hx.
  unfold _rt_thread_exit, rt_thread_self. set (k1 := timer_op _ _) in *. cbv zeta.
  assert (state_of (thr (thread_retire (rt_current_thread k) k1) (rt_current_thread k)) = RT_THREAD_CLOSE) as Hs.
  { unfold thread_retire. destruct (systemobject _);
      change (state_of (thr (upd_thread (rt_current_thread k) (with_stat RT_THREAD_CLOSE)
        (rt_schedule_remove_thread (rt_current_thread k) k)) (rt_current_thread k)) = RT_THREAD_CLOSE);
      rewrite thr_upd_same; by apply state_of_with_stat. }
  destruct Hx as (Hok' & Ec & Hk & _). apply schedule_closed; [done|by rewrite Ec|done].
Qed.

(** The display's thread behind its wait: it goes on when its error is clear,
    and ends otherwise. *)
Lemma woken_fails o k e : running_ok k -> e <> RT_EOK ->
  error (thr k (rt_current_thread k)) = e -> exists k',
  showValues_woken o k = Some (k', false, [Out (chars "t2 take a dynamic semaphore, failed." ++ [10])]) /\
  kernel_ok k' /\ state_of (thr k' (rt_current_thread k)) = RT_THREAD_CLOSE.
Proof.
  intros Hr He Ee. unfold showValues_woken, blocked_end, rt_thread_self. rewrite Ee.
  rewrite (proj2 (Z.eqb_neq e RT_EOK) He). cbn [negb].
  assert (kprintf (chars "t2 take a dynamic semaphore, failed." ++ [10]) [] =
    Some (tt, [Out (chars "t2 take a dynamic semaphore, failed." ++ [10])])) as -> by (by vm_compute).
  unfold rt_sem_delete, rt_ipc_list_resume_all.
  destruct (resume_all_spec (Suspended o) ltac:(done) ltac:(done) (queue k (Suspended o)) k (ro_ok _ Hr) eq_refl
    (ro_known _ Hr)) as (k1 & -> & Hok1 & _ & Ec1 & Hc1 & _ & Hoth & _).
  assert (running_ok k1) as Hr1.
  { split; [done|done|]. rewrite Ec1, Hoth; [apply Hr|]. intros Hin.
    destruct (bt_in _ _ (proj1 (proj1 (ro_ok _ Hr))) _ _ Hin) as (_ & _ & Hs). cbn [listed] in Hs.
    by rewrite (ro_running _ Hr) in Hs. }
  destruct (exit_closes k1 Hr1) as [Hok2 Hcl]. rewrite Ec1 in Hcl.
  exists (_rt_thread_exit k1). run. cbn [mbind option_bind]. run. by split_and!.
Qed.

(** ** The application from its start on *)

(** The application as [Main_Threads] leaves it, [s] being the shell's
    semaphore. *)
Definition app_of {H} (b : board H) (s : rt_semaphore) : option (app H) :=
  d ← b_devices b !! b_serial b;
  '(_, m) ← b_mutex b;
  Some (mk_app (b_kernel b) m s d (b_watch b) Fetching []).

Section application.
Context {H : Type} `{UartLaws H}.
Context (b : board H) (al : allocated) (u mx sx t1 t2 t3 rx : Z) (l : list Z) (s : rt_semaphore).
Hypothesis Hprep : prepared b al u mx sx t1 t2 t3 l.
Implicit Type c : app H.

Definition port_of c : H := uart_of (a_device c).
(** What has reached the application: what the shell had not read when it was
    started, and what has come in since. *)
Definition reached c0 c : list Z := arrived (port_of c0) l c.

(** A run of the application from its start. *)
Definition runs c0 c : Prop := exists b', Main_Threads al b = Some (b', 0) /\ app_of b' s = Some c0 /\
  rtc (io_step mx rx t1 (port_of c0) l) c0 c.

Lemma runs_inv c0 c : runs c0 c ->
  (exists unread, app_inv mx t1 (port_of c0) l c unread) /\ a_rx_sem c = s /\
  (forall w, w ∈ queue (b_kernel b) (Suspended rx) -> w ∈ queue (a_kernel c) (Suspended rx)) /\
  (exists d, b_devices b !! u = Some d /\ rxd (port_of c0) = rxd (uart_of d) /\
     txd (port_of c0) = txd (uart_of d) ++ crlf true (CREATE_DONE ++ HELLO)).
Proof.
  intros (b' & E & Ea & Hs). destruct (start_spec b al u mx sx t1 t2 t3 l Hprep)
    as (b1 & d' & E1 & Em & _ & Eth & Eu & Ed & Hd & Hh & Hio & Hi & Hr & _ & [S1 P1] & _ & _ & Hq).
  rewrite E in E1. injection E1 as <-. assert (Theme (b_watch b') = LCD_DISP_GREEN) as Eg by by rewrite Eth.
  unfold app_of in Ea. rewrite Eu, Ed, Em in Ea. cbn [mbind option_bind] in Ea. injection Ea as <-.
  set (c0 := mk_app _ _ _ _ _ _ _) in *. change (a_device c0) with d' in *.
  assert (app_inv mx t1 (port_of c0) l c0 l) as Hi0.
  { destruct (pr_objects _ _ _ _ _ _ _ _ _ Hprep) as (_ & Hqm & _).
    split; cbn [c0 a_kernel a_mutex a_rx_sem a_device a_watch a_place served in_hand to_write port_of]; try done.
    - apply Hi.
    - apply Hr.
    - assert (queue (b_kernel b') (Suspended mx) = []) as Hqm' by (by rewrite Hq).
      split; cbn [m_value]; try done; [split; by left|by left].
    - unfold arrived. change (port_of c0) with (uart_of d'). by rewrite drop_all, app_nil_r.
    - exists []. cbn. by rewrite app_nil_r. }
  destruct (io_steps_inv mx rx t1 (port_of c0) l c0 c Hs l Hi0) as (Hx & Es & Eq).
  split; [done|]. split; [done|]. split.
  - intros w Hw. rewrite Eq. cbn [c0 a_kernel]. by rewrite Hq.
  - destruct (pr_device _ _ _ _ _ _ _ _ _ Hprep) as (d & Ed0 & _). exists d. split; [done|]. by apply Hio.
Qed.

(** C6 From [Main_Threads] on, in whatever order receive interrupts, rounds of
    the serial thread and the rest of the system follow one another, and as long
    as the line is not more than 63 characters ahead: every interrupt and round
    is defined, no character is lost or served twice, and the theme is the
    colour of the last colour letter served.  Whenever the serial thread runs it
    serves, without ever waiting, everything that has reached it; then the wire
    has carried the greeting and, for each character, its echo, followed by
    "Color Changed" when it is not a colour letter. *)
Theorem commands_served c0 c : runs c0 c ->
  exists unread, holds 64 (a_device c) unread /\
  reached c0 c = served c ++ in_hand (a_place c) ++ unread /\
  Theme (a_watch c) = theme_after (served c) /\
  (running_ok (a_kernel c) -> exists c', app_interrupt mx rx c = Some c' /\
     reached c0 c `prefix_of` reached c0 c') /\
  (running_ok (a_kernel c) -> rt_current_thread (a_kernel c) = t1 ->
   exists n c', serial_rounds mx n c = Some c' /\ a_place c' = Locking /\
     running_ok (a_kernel c') /\ rt_current_thread (a_kernel c') = t1 /\
     served c' = reached c0 c /\ Theme (a_watch c') = theme_after (reached c0 c) /\
     exists d, b_devices b !! u = Some d /\
     txd (port_of c') = txd (uart_of d) ++ crlf true (CREATE_DONE ++ HELLO ++ answer (reached c0 c))).
Proof.
  intros Hruns. destruct (runs_inv c0 c Hruns) as ((unread & Hi) & _ & _ & d & Ed & _ & Etx).
  exists unread. split_and!; [apply Hi|apply Hi|apply Hi| |].
  - intros Hr. destruct (app_interrupt_spec mx rx t1 (port_of c0) l c unread Hi Hr) as (c' & cs & E & Ea & _).
    exists c'. split; [done|]. unfold reached. rewrite Ea. by eexists.
  - intros Hr Ht. destruct (rounds_serve mx t1 (port_of c0) l c unread Hi Hr Ht)
      as (n & c' & E & Hp & Hi' & Ea & Hr' & Ht').
    pose proof (ai_arrived _ _ _ _ _ _ Hi') as Es. rewrite Hp, Ea in Es. cbn [in_hand] in Es.
    rewrite !app_nil_r in Es. exists n, c'. fold (reached c0 c) in Es. rewrite Es.
    split_and!; try done; [apply Hi'|]. exists d. split; [done|].
    destruct (ai_sent _ _ _ _ _ _ Hi') as (sent & Ew & Et). rewrite Hp in Ew. cbn [in_hand to_write] in Ew.
    rewrite !app_nil_r in Ew. unfold port_of at 1. rewrite Et, Etx, <- Ew, <- app_assoc, <- crlf_app.
    by rewrite <- app_assoc.
Qed.

(** C7 The mutex of the serial thread never makes it wait: it is ready or running
    in every state of such a run, so that an unlocked scheduler never gives the
    processor to a thread of lower priority, and the idle thread never runs.
    And the shell, if it was waiting for a key when the application started,
    waits for ever: its semaphore is not released any more. *)
Theorem serial_thread_never_waits c0 c : runs c0 c ->
  awake (thr (a_kernel c) t1) /\
  (rt_scheduler_lock_nest (a_kernel c) = 0 -> let k := rt_schedule (a_kernel c) in
     current_priority (thr k (rt_current_thread k)) <= THREAD_PRIORITY_LOW) /\
  a_rx_sem c = s /\
  (forall w, w ∈ queue (b_kernel b) (Suspended rx) -> w ∈ queue (a_kernel c) (Suspended rx)).
Proof.
  intros Hruns. destruct (runs_inv c0 c Hruns) as ((unread & Hi) & Es & Hw & _).
  split_and!; [apply Hi|by apply (never_idle mx t1 (port_of c0) l c unread)|done|done].
Qed.

(** C8 A character that comes in while another thread than the serial one runs
    marks that thread with an error, because [uart_input] releases a mutex the
    interrupted thread does not own.  If this hits the display's thread between
    its wake-up and the end of [rt_sem_take], where it would have gone on, the
    call fails: the thread prints its message, deletes the semaphore and ends. *)
Theorem interrupt_ends_display c0 c : runs c0 c -> running_ok (a_kernel c) ->
  let t := rt_current_thread (a_kernel c) in
  t <> t1 -> error (thr (a_kernel c) t) = RT_EOK ->
  showValues_woken sx (a_kernel c) = Some (a_kernel c, true, []) /\
  exists c', app_interrupt mx rx c = Some c' /\
  (reached c0 c' <> served c ++ in_hand (a_place c) -> exists k',
     showValues_woken sx (a_kernel c') =
       Some (k', false, [Out (chars "t2 take a dynamic semaphore, failed." ++ [10])]) /\
     kernel_ok k' /\ state_of (thr k' t) = RT_THREAD_CLOSE).
Proof.
  intros Hruns Hr t Ht He. destruct (runs_inv c0 c Hruns) as ((unread & Hi) & _).
  split. { unfold showValues_woken, blocked_end, rt_thread_self. fold t. by rewrite He. }
  destruct (app_interrupt_spec mx rx t1 (port_of c0) l c unread Hi Hr) as (c' & cs & E & Ea & _ & _ & _ & Ec & Hn).
  exists c'. split; [done|]. unfold reached. rewrite Ea, (ai_arrived _ _ _ _ _ _ Hi). intros Hne.
  assert (unread ++ cs <> []) as Hu.
  { intros E0. apply app_eq_nil in E0 as [-> ->]. apply Hne. by rewrite !app_nil_r. }
  specialize (Hn Hu Ht). fold t in Ec, Hn. rewrite <- Ec.
  apply (woken_fails sx (a_kernel c') (- RT_ERROR)); [| |].
  - rewrite Hn. apply running_set_error; [done|apply Hr].
  - done.
  - rewrite Hn. cbn [set_error]. change (rt_current_thread (set_error t (- RT_ERROR) (a_kernel c))) with t.
    unfold set_error. by rewrite thr_upd_same.
Qed.
End application.
