(* ===== verification/WatchMainExamples.v ===== *)
(** * WatchMainExamples: the application started on a small system

    The idle thread, the shell and [main]: [main] sleeps, the shell waits for a
    key, five ticks later [main] calls [Main_Threads].  Then a character comes
    in, [main] ends, the display and the sampling thread wait and the serial
    thread runs, until the display's semaphore is released. *)
From S2P Require Import Prelude Bytes KService Printf Output St7789 SoftRtc Buttons Watch WatchSystem.
From S2P Require Import Object Device Serial SerialFifo SerialFacts Timer Kernel KernelInv KernelOps Ipc IpcInv MutexInv.
From S2P Require Import KernelCheck KernelSystem KernelExamples Console ConsoleFacts WatchMain WatchStart WatchMainFacts.

(** ** The kernel *)

Definition k_boot : kernel :=
  add_thread 3 5 20 (add_thread 2 11 10 (add_thread 1 31 5 (rt_system_scheduler_init kernel_off))).
Definition k_main : kernel := rt_system_scheduler_start k_boot.
Definition k_asleep : kernel := rt_thread_sleep 5 k_main.
Definition shell_sem : rt_semaphore := mk_sem 0 RT_IPC_FLAG_FIFO.
Definition k_waits : kernel := (rt_sem_take 100 (-1) (rt_ipc_object_init 100 k_asleep) shell_sem).1.1.
Definition k_start : kernel := default k_waits (ticks 5 k_waits).

Lemma ticks_inv n : forall k k', kernel_inv k -> ticks n k = Some k' -> kernel_inv k'.
Proof.
  induction n as [|n IH]; intros k k' Hi; cbn [ticks]; [by intros [= <-]|].
  destruct (rt_tick_increase _ k) as [k1|] eqn:E; [|done]. cbn [mbind option_bind].
  apply IH. by eapply inv_tick; [exact Hi| |exact E].
Qed.

Lemma k_main_inv : kernel_inv k_main.
Proof.
  assert (boot_reach k_boot) as Hb
    by (unfold k_boot; repeat (apply boot_add; [|by vm_compute|by vm_compute]); apply boot_init).
  apply (boot_started k_boot 3 Hb); [apply (bool_decide_eq_true_1 _)|]; by vm_compute.
Qed.

Lemma k_start_inv : kernel_inv k_start.
Proof.
  assert (kernel_inv k_asleep) as H1 by (apply inv_sleep; [apply k_main_inv|by vm_compute|done]).
  assert (kernel_inv k_waits) as H2.
  { apply inv_sem_take; [apply inv_list_init; [done|by vm_compute]|by vm_compute|by left|done]. }
  unfold k_start. destruct (ticks 5 k_waits) as [k|] eqn:E; [|done]. by apply (ticks_inv 5 k_waits).
Qed.

(** [leads] decided. *)
Definition leads_checked (k : kernel) : Prop :=
  map_Forall (fun _ th => state_of th = RT_THREAD_READY ->
    current_priority (thr k (rt_current_thread k)) < current_priority th) (threads k).
#[local] Instance leads_checked_dec k : Decision (leads_checked k).
Proof. unfold leads_checked. apply _. Defined.
Lemma leads_check k : bool_decide (leads_checked k) = true -> leads k.
Proof.
  intros H%bool_decide_eq_true_1 x Hx. apply (H x); [|done]. apply known_thread, known_of_state. by rewrite Hx.
Qed.

Lemma k_start_runs : running_ok k_start /\ leads k_start /\
  current_priority (thr k_start (rt_current_thread k_start)) < THREAD_PRIORITY_HIGH /\
  queue k_start (Suspended 100) = [2] /\ rt_current_thread k_start = 3.
Proof.
  split; [split; [apply k_start_inv|apply k_start_inv|by vm_compute]|].
  split; [apply leads_check; by vm_compute|]. by vm_compute.
Qed.

(** ** The board *)

Definition demo_line : script := mk_script [82; 120] 0 [] [].
Definition demo_alloc : allocated := mk_allocated (Some 101) (Some 102) (Some 5, true) (Some 6, true) (Some 7, true).

Definition demo_board : option (board script) :=
  c ← console_boot 100 0x4000 k_asleep demo_line;
  '(r, _, con, _) ← board_console 0x4000 demo_line;
  Some (mk_board k_start r {[ 0x4000 := device c ]} con (watch_boot booted) 0 None None).

#[local] Opaque k_start k_asleep k_main.

Lemma demo_prepared : exists b, demo_board = Some b /\ prepared b demo_alloc 0x4000 101 102 5 6 7 [] /\
  b_kernel b = k_start /\ b_watch b = watch_boot booted.
Proof.
  destruct (boot_spec 100 0x4000 k_asleep demo_line ltac:(done)) as (d & E & Ho & Hh & _).
  destruct (board_spec 0x4000 demo_line ltac:(done)) as (r & d0 & A & E0 & HA & Hs & _).
  pose proof (find_spec r A (chars "uart1") HA ltac:(apply (bool_decide_unpack _); by vm_compute)) as Ef.
  rewrite Hs in Ef.
  assert (from_option (fun c => d_flag (parent (device c))) 0 (console_boot 100 0x4000 k_asleep demo_line) =
    RT_DEVICE_FLAG_RDWR .| RT_DEVICE_FLAG_INT_RX .| RT_DEVICE_FLAG_ACTIVATED) as Efl by (by vm_compute).
  rewrite E in Efl. cbn [from_option device] in Efl.
  unfold demo_board. rewrite E, E0. cbn [mbind option_bind device]. eexists. split; [done|].
  split; [|exact (conj eq_refl eq_refl)]. destruct k_start_runs as (Hr & Hl & Hp & Hq & Hc).
  split.
  - exact k_start_inv.
  - exact Hr.
  - exact Hl.
  - exact Hp.
  - exact Ef.
  - done.
  - reflexivity.
  - exists d. split; [apply lookup_singleton_eq|]. exact (conj Ho (conj Hh Efl)).
  - reflexivity.
  - split; [done|]. split; by vm_compute.
  - split; [apply (bool_decide_eq_true_1 _); by vm_compute|].
    assert (forall t, bool_decide (is_Some (threads k_start !! t)) = false -> ~ known k_start t) as Hn
      by (intros t Ht; exact (bool_decide_eq_false_1 _ Ht)).
    repeat constructor; solve [apply Hn; by vm_compute|discriminate].
Qed.

(** ** The run *)

Definition other (k : kernel) (c : app script) : app script :=
  mk_app k (a_mutex c) (a_rx_sem c) (a_device c) (a_watch c) (a_place c) (served c).

Definition demo_run : option (app script * app script * app script * app script) :=
  b ← demo_board;
  '(b, _) ← Main_Threads demo_alloc b;
  c0 ← app_of b shell_sem;
  c1 ← app_interrupt 101 100 c0;
  let k := _rt_thread_exit (a_kernel c1) in
  let k := (rt_sem_take 102 (-1) k shell_sem).1.1 in
  let c2 := other (rt_thread_sleep 3 k) c1 in
  Some (c0, c1, c2, other (rt_sem_release 102 (a_kernel c2) shell_sem).1.1 c2).

(** The conditions of the last kind of step. *)
Definition other_ok (c c' : app script) : Prop :=
  let k := a_kernel c' in
  checked k /\ is_Some (threads k !! rt_current_thread k) /\
  (state_of (thr k 5) = RT_THREAD_READY \/ state_of (thr k 5) = RT_THREAD_RUNNING) /\
  current_priority (thr k 5) = THREAD_PRIORITY_LOW /\ queue k (Suspended 101) = [] /\
  queue k (Suspended 100) = queue (a_kernel c) (Suspended 100).

Definition demo_ok (r : app script * app script * app script * app script) : Prop :=
  let '(c0, c1, c2, c3) := r in
  (length (reached [] c0 c1) <= length (served c0 ++ in_hand (a_place c0)) + 63)%nat /\
  other_ok c1 c2 /\ other_ok c2 c3 /\ reached [] c0 c2 = [82; 120] /\ served c3 ++ in_hand (a_place c3) = [] /\
  rt_current_thread (a_kernel c2) = 5 /\ state_of (thr (a_kernel c2) 5) = RT_THREAD_RUNNING /\
  rt_current_thread (a_kernel c3) = 7 /\ state_of (thr (a_kernel c3) 7) = RT_THREAD_RUNNING /\
  error (thr (a_kernel c3) 7) = RT_EOK.
#[local] Instance demo_ok_dec r : Decision (demo_ok r).
Proof. unfold demo_ok, other_ok. destruct r as [[[c0 c1] c2] c3]. apply _. Defined.

Lemma start_checked : from_option (fun r => bool_decide (demo_ok r)) false demo_run = true.
Proof. vm_cast_no_check (eq_refl true). Qed.

Lemma other_step h l c c' : other_ok c c' -> c' = other (a_kernel c') c -> io_step 101 100 5 h l c c'.
Proof.
  intros (Hk & Hc & Ha & Hp & Hq & Hr) ->. apply io_other; [by apply checked_ok|exact Hc|exact Ha|exact Hp|exact Hq| |done].
  exact Hr.
Qed.

Lemma demo_runs : exists b c0 c2 c3, prepared b demo_alloc 0x4000 101 102 5 6 7 [] /\
  runs b demo_alloc 101 5 100 [] shell_sem c0 c2 /\ runs b demo_alloc 101 5 100 [] shell_sem c0 c3 /\
  queue (b_kernel b) (Suspended 100) = [2] /\ reached [] c0 c2 = [82; 120] /\
  served c3 ++ in_hand (a_place c3) = [] /\ reached [] c0 c3 = [82; 120] /\
  (rt_current_thread (a_kernel c2) = 5 /\ running_ok (a_kernel c2)) /\
  rt_current_thread (a_kernel c3) = 7 /\ running_ok (a_kernel c3) /\ error (thr (a_kernel c3) 7) = RT_EOK.
Proof.
  pose proof start_checked as E. unfold demo_run in E.
  destruct demo_prepared as (b & Eb & Hb & Ek & _). rewrite Eb in E. cbn [mbind option_bind] in E.
  destruct (start_spec b demo_alloc 0x4000 101 102 5 6 7 [] Hb) as (b' & d' & Em & _ & _ & _ & _ & _ & _ & _ & _ & _ & Hr & _).
  rewrite Em in E. cbn [mbind option_bind] in E.
  destruct (app_of b' shell_sem) as [c0|] eqn:E0; [|discriminate E]. cbn [mbind option_bind] in E.
  assert (a_kernel c0 = b_kernel b') as Ek0.
  { unfold app_of in E0. destruct (b_devices b' !! b_serial b'); [|discriminate E0]. cbn [mbind option_bind] in E0.
    destruct (b_mutex b') as [[? ?]|]; [|discriminate E0]. cbn [mbind option_bind] in E0. injection E0 as <-. reflexivity. }
  destruct (app_interrupt 101 100 c0) as [c1|] eqn:E1; [|discriminate E]. cbn [mbind option_bind from_option] in E.
  apply bool_decide_eq_true_1 in E. destruct E as (Hlen & H12 & H23 & Er & Esv & Hc2 & Hr2 & Hc3 & Hr3 & He3).
  set (c2 := other _ c1) in *. set (c3 := other _ c2) in *.
  assert (relations.rtc (io_step 101 100 5 (port_of c0) []) c0 c2) as S2.
  { eapply rtc_l; [|apply rtc_once, (other_step _ _ c1 c2 H12 eq_refl)].
    apply io_interrupt; [rewrite Ek0; exact Hr|exact E1|exact Hlen]. }
  exists b, c0, c2, c3. split; [exact Hb|].
  split; [exact (ex_intro _ b' (conj Em (conj E0 S2)))|].
  split. { refine (ex_intro _ b' (conj Em (conj E0 _))). eapply rtc_r; [exact S2|exact (other_step _ _ c2 c3 H23 eq_refl)]. }
  split; [rewrite Ek; apply k_start_runs|]. split; [exact Er|]. split; [exact Esv|]. split; [exact Er|].
  destruct H12 as (K2 & C2 & _). destruct H23 as (K3 & C3 & _).
  split; [|split; [exact Hc3|split; [|exact He3]]].
  - split; [exact Hc2|]. split; [by apply checked_ok|exact C2|by rewrite Hc2].
  - split; [by apply checked_ok|exact C3|by rewrite Hc3].
Qed.

Lemma commands_served_witness : exists n (c c' : app script) d,
  serial_rounds 101 n c = Some c' /\ served c' = [82; 120] /\ Theme (a_watch c') = LCD_DISP_RED /\
  txd (uart_of (a_device c')) =
    txd (uart_of d) ++ crlf true (CREATE_DONE ++ HELLO ++ [82; 120] ++ chars "Color Changed" ++ [13; 10]).
Proof.
  destruct demo_runs as (b & c0 & c2 & c3 & Hb & R2 & _ & _ & Er & _ & _ & (Hc & Hr) & _).
  destruct (commands_served b demo_alloc 0x4000 101 102 5 6 7 100 [] shell_sem Hb c0 c2 R2)
    as (unread & _ & _ & _ & _ & Hs).
  destruct (Hs Hr Hc) as (n & c' & En & _ & _ & _ & Es & Et & d & _ & Ed). rewrite Er in Es, Et, Ed.
  exists n, c2, c', d. exact (conj En (conj Es (conj Et Ed))).
Defined.

Lemma serial_thread_never_waits_witness : exists c : app script,
  awake (thr (a_kernel c) 5) /\ a_rx_sem c = shell_sem /\ 2 ∈ queue (a_kernel c) (Suspended 100).
Proof.
  destruct demo_runs as (b & c0 & c2 & c3 & Hb & R2 & _ & Eq & _).
  destruct (serial_thread_never_waits b demo_alloc 0x4000 101 102 5 6 7 100 [] shell_sem Hb c0 c2 R2)
    as (Ha & _ & Es & Hw).
  exists c2. split; [exact Ha|]. split; [exact Es|]. apply Hw. rewrite Eq. by left.
Defined.

Lemma interrupt_ends_display_witness : exists (c c' : app script) k',
  showValues_woken 102 (a_kernel c) = Some (a_kernel c, true, []) /\ app_interrupt 101 100 c = Some c' /\
  showValues_woken 102 (a_kernel c') =
    Some (k', false, [Out (chars "t2 take a dynamic semaphore, failed." ++ [10])]) /\
  state_of (thr k' 7) = RT_THREAD_CLOSE.
Proof.
  destruct demo_runs as (b & c0 & c2 & c3 & Hb & _ & R3 & _ & _ & Esv & Er & _ & Hc & Hr & He).
  destruct (interrupt_ends_display b demo_alloc 0x4000 101 102 5 6 7 100 [] shell_sem Hb c0 c3 R3 Hr)
    as (Hgo & c' & E & Hend); [rewrite Hc; discriminate|rewrite Hc; exact He|].
  destruct (runs_inv b demo_alloc 0x4000 101 102 5 6 7 100 [] shell_sem Hb c0 c3 R3) as ((unread & Hi) & _).
  destruct (app_interrupt_spec 101 100 5 (port_of c0) [] c3 unread Hi Hr) as (c1 & cs & E1 & Ea & _).
  rewrite E in E1. injection E1 as <-. fold (reached [] c0 c3) (reached [] c0 c') in Ea. rewrite Er in Ea.
  destruct Hend as (k' & Ek & _ & Hs); [rewrite Esv, Ea; discriminate|]. rewrite Hc in Hs.
  exists c3, c', k'. exact (conj Hgo (conj E (conj Ek Hs))).
Defined.
