(* ===== verification/AdcFacts.v ===== *)
(** * AdcFacts: the battery is measured on its channel

    What the converter does according to the accesses, the laws of the
    hardware, and the two calls of the watch. *)
From S2P Require Import Prelude Periph Registers Exti GpioFacts Adc.

(** ** The converter *)

Inductive conversion :=
  | Resting | Running (since : list mmio) (ch : Z) | Complete (since : list mmio) (ch : Z) | Unclear.

Definition starts (v : Z) : bool := Z.testbit v 20 && Z.testbit v 22.

Section converter.
Context (hw : list mmio -> reg -> Z).

(** The channel that is first in the sequence, and the length of the sequence
    less one. *)
Definition first_channel (t : list mmio) : Z := u32 (hw t (ADC ADC1 A_RSQR3)) .& 31.
Definition sequence (t : list mmio) : Z := nibble (u32 (hw t (ADC ADC1 A_RSQR1))) 5.
Definition ctlr2_bit (t : list mmio) (i : Z) : bool := Z.testbit (hw t (ADC ADC1 A_CTLR2)) i.

(** Switching off and a reset end everything.  A start while the converter is on
    and rests, one channel long, not continuous and aligned to the right, begins
    a conversion; a read of the status that shows its end completes it; reading
    the result frees the converter. *)
Definition conv_step (before : list mmio) (s : conversion) (a : mmio) : conversion :=
  match a with
  | Wr (ADC ADC1 A_CTLR2) v =>
      if negb (Z.testbit v 0) then Resting
      else if starts v then
        match s with
        | Resting =>
            if ctlr2_bit before 0 && negb (Z.testbit v 1) && negb (Z.testbit v 11) && (sequence before =? 0)
            then Running before (first_channel before) else Unclear
        | _ => Unclear
        end
      else s
  | Rd (ADC ADC1 A_STATR) v =>
      match s with Running t ch => if Z.testbit v 1 then Complete t ch else s | _ => s end
  | Rd (ADC ADC1 A_RDATAR) _ => match s with Complete _ _ => Resting | _ => s end
  | Wr APB2PRSTR v => if Z.testbit v 9 then Resting else s
  | _ => s
  end.
Fixpoint conv_of (t : list mmio) : conversion :=
  match t with [] => Resting | a :: t => conv_step t (conv_of t) a end.

Definition unreset (t : list mmio) : Prop := in_reset (ADC ADC1 A_CTLR2) t = false.

(** Ready for a measurement. *)
Record adc_ready (t : list mmio) : Prop := {
  ar_unreset : unreset t;
  ar_resting : conv_of t = Resting;
  ar_bits : ctlr2_bit t 0 = true /\ ctlr2_bit t 1 = false /\ ctlr2_bit t 11 = false;
  ar_one : sequence t = 0 }.

(** Sequence and switch hold what is written to them, resets are as written from
    power-up, the start bit clears itself; calibrations and conversions end
    within [n] polls; the result is what [analog] says of the channel of the
    conversion at its start. *)
Record adc_law (n : nat) (analog : list mmio -> Z -> Z) : Prop := {
  prst_law : forall t, u32 (hw t APB2PRSTR) = value APB2PRSTR t;
  rsqr3_keeps : latches hw (ADC ADC1 A_RSQR3);
  rsqr1_keeps : latches hw (ADC ADC1 A_RSQR1);
  ctlr2_law : forall a t i, i = 0 \/ i = 1 \/ i = 11 -> unreset t -> unreset (a :: t) ->
    ctlr2_bit (a :: t) i = match a with Wr (ADC ADC1 A_CTLR2) v => Z.testbit v i | _ => ctlr2_bit t i end;
  start_law : forall t, ctlr2_bit t 22 = false;
  calibration_law : forall t, adc_ready t ->
    is_Some (while_set n (ADC_GetResetCalibrationStatus hw ADC1) t) /\
    is_Some (while_set n (ADC_GetCalibrationStatus hw ADC1) t);
  end_law : forall t since ch, conv_of t = Running since ch ->
    is_Some (until n (ADC_GetFlagStatus hw ADC1 ADC_FLAG_EOC) t);
  result_law : forall t since ch, conv_of t = Complete since ch -> u16 (hw t (ADC ADC1 A_RDATAR)) = analog since ch }.

(** ** What leaves the converter alone *)

Definition off_adc (r : reg) : bool :=
  match r with
  | ADC ADC1 A_STATR | ADC ADC1 A_CTLR2 | ADC ADC1 A_RDATAR | ADC ADC1 A_RSQR1 | APB2PRSTR => false
  | _ => true
  end.
Definition harmless (a : mmio) : bool :=
  match a with
  | Rd (ADC ADC1 A_STATR) _ | Rd (ADC ADC1 A_RDATAR) _ => false
  | Wr (ADC ADC1 A_CTLR2) _ | Wr (ADC ADC1 A_RSQR1) _ | Wr APB2PRSTR _ => false
  | _ => true
  end.
Definition same_adc (t t' : list mmio) : Prop :=
  unreset t -> unreset t' /\ conv_of t' = conv_of t /\ sequence t' = sequence t /\
    forall i, i = 0 \/ i = 1 \/ i = 11 -> ctlr2_bit t' i = ctlr2_bit t i.

Context (n : nat) (analog : list mmio -> Z -> Z) (Hlaw : adc_law n analog).

#[export] Instance same_adc_order : PreOrder same_adc.
Proof.
  split; [done|]. intros t1 t2 t3 H1 H2 Hu. destruct (H1 Hu) as (Hu2 & C2 & S2 & B2), (H2 Hu2) as (Hu3 & C3 & S3 & B3).
  split; [done|]. split; [congruence|]. split; [congruence|]. intros i Hi. by rewrite B3, B2.
Qed.
Lemma same_adc_cons a t : harmless a = true -> same_adc t (a :: t).
Proof.
  intros Ha Hu. assert (unreset (a :: t)) as Hu' by (unfold unreset; rewrite in_reset_cons; [done|]; by intros v ->).
  split; [done|]. split; [|split].
  - cbn [conv_of]. unfold conv_step.
    by destruct a as [[| | | | | | | | | | | | | | | | | | | | | | | | | | | | | |[] []|] v
                     |[| | | | | | | | | | | | | | | | | | | | | | | | | | | | | |[] []|] v|ms].
  - unfold sequence. pose proof (rsqr1_keeps _ _ Hlaw a t Hu Hu') as Hk. cbn [width] in Hk. rewrite Hk.
    destruct a as [r v|r v|ms]; try done. rewrite decide_False; [done|]. by intros ->.
  - intros i Hi. rewrite (ctlr2_law _ _ Hlaw) by done.
    by destruct a as [r v|[| | | | | | | | | | | | | | | | | | | | | | | | | | | | | |[] []|] v|ms].
Qed.
#[export] Instance same_adc_undisturbed : Undisturbed same_adc off_adc.
Proof.
  split; [apply _| |]; intros r v t Hr; apply same_adc_cons;
    by destruct r as [| | | | | | | | | | | | | | | | | | | | | | | | | | | | | |[] []|].
Qed.

#[export] Instance same_adc_patient : Patient same_adc.
Proof. intros ms t. by apply same_adc_cons. Qed.

Lemma adc_ready_same t t' : same_adc t t' -> adc_ready t -> adc_ready t'.
Proof.
  intros Hs [Hu Hr (B0 & B1 & B11) Ho]. destruct (Hs Hu) as (Hu' & C & S & B). split; [done|congruence| |congruence].
  rewrite !B by tauto. done.
Qed.

(** ** Steps of the two calls *)

Lemma u32_bit v i : 0 <= i < 32 -> Z.testbit (width (ADC ADC1 A_CTLR2) v) i = Z.testbit v i.
Proof. apply u32_testbit. Qed.

(** A change of the control register that starts nothing. *)
Lemma ctlr2_run f t : unreset t -> conv_of t = Resting ->
  (forall v, Z.testbit v 22 = false -> Z.testbit (f v) 22 = false) ->
  exists t', modify hw (ADC ADC1 A_CTLR2) f t = Some (tt, t') /\ unreset t' /\ conv_of t' = Resting /\
    sequence t' = sequence t /\
    forall i, i = 0 \/ i = 1 \/ i = 11 -> ctlr2_bit t' i = Z.testbit (f (u32 (hw t (ADC ADC1 A_CTLR2)))) i.
Proof.
  intros Hu Hc Hf. set (v := u32 (hw t (ADC ADC1 A_CTLR2))). eexists. split; [reflexivity|].
  change (width (ADC ADC1 A_CTLR2) (hw t (ADC ADC1 A_CTLR2))) with v.
  set (t1 := Rd (ADC ADC1 A_CTLR2) v :: t). set (w := width _ (f v)).
  assert (unreset t1) as Hu1 by (unfold t1, unreset; by rewrite in_reset_cons).
  assert (unreset (Wr (ADC ADC1 A_CTLR2) w :: t1)) as Hu2 by (unfold unreset; by rewrite in_reset_cons).
  split; [done|]. split; [|split].
  - cbn [conv_of conv_step]. change (conv_of t1) with (conv_of t). rewrite Hc.
    assert (Z.testbit w 22 = false) as Hw.
    { unfold w. rewrite u32_bit by lia. apply Hf. unfold v. rewrite u32_testbit by lia. apply (start_law _ _ Hlaw). }
    unfold starts. rewrite Hw, andb_false_r. by destruct (negb _).
  - unfold sequence. pose proof (rsqr1_keeps _ _ Hlaw (Wr (ADC ADC1 A_CTLR2) w) t1 Hu1 Hu2) as Hk. cbn [width] in Hk.
    rewrite Hk, decide_False by done. pose proof (rsqr1_keeps _ _ Hlaw (Rd (ADC ADC1 A_CTLR2) v) t Hu Hu1) as Hk1.
    cbn [width] in Hk1. fold t1 in Hk1. by rewrite Hk1.
  - intros i Hi. rewrite (ctlr2_law _ _ Hlaw) by done. unfold w. apply u32_bit. destruct Hi as [->|[->| ->]]; lia.
Qed.

Lemma deinit_run t : exists t', ADC_DeInit hw ADC1 t = Some (tt, t') /\ unreset t' /\ conv_of t' = Resting.
Proof.
  eexists. split; [reflexivity|]. cbn [enabled RCC_APB2PeriphResetCmd]. split.
  - unfold unreset, in_reset. cbn [reset_bit value]. rewrite decide_True by done. cbn [width].
    rewrite !u32_testbit, Z.ldiff_spec by lia. apply andb_false_r.
  - cbn [conv_of conv_step]. cbn [width]. rewrite !u32_testbit, Z.lor_spec, orb_true_r by lia. by destruct (Z.testbit _ 9).
Qed.

(** ** The two calls *)

Lemma clock_off_adc r : pin_or_clock r = true -> off_adc r = true.
Proof. by destruct r. Qed.

Definition resting (t : list mmio) : Prop := unreset t /\ conv_of t = Resting.
Definition set_up (t : list mmio) : Prop :=
  resting t /\ ctlr2_bit t 1 = false /\ ctlr2_bit t 11 = false /\ sequence t = 0.

(** A polling loop that ends leaves the converter ready. *)
Lemma calibrated (c : M bool) : steady same_adc c -> (forall t, adc_ready t -> is_Some (while_set n c t)) ->
  triple adc_ready (while_set n c) (fun _ => adc_ready).
Proof.
  intros Hc Hends t Hr. destruct (Hends t Hr) as [[a t'] E]. exists a, t'. split; [done|].
  refine (adc_ready_same _ _ _ Hr). unfold while_set in E. refine (leaves_until _ _ _ t a t' E).
  apply leaves_bind; [by apply steady_leaves|]. intros b. apply leaves_ret.
Qed.
Lemma status_steady : steady same_adc (ADC_GetResetCalibrationStatus hw ADC1) /\
  steady same_adc (ADC_GetCalibrationStatus hw ADC1).
Proof. split; intros t; do 2 eexists; (split; [reflexivity|by apply same_adc_cons]). Qed.

Lemma ready_ctlr2 bits : (forall i, i = 1 \/ i = 11 \/ i = 22 -> Z.testbit bits i = false) ->
  triple adc_ready (modify hw (ADC ADC1 A_CTLR2) (fun v => v .| bits)) (fun _ => adc_ready).
Proof.
  intros Hb t [Hu Hr (B0 & B1 & B11) Ho].
  destruct (ctlr2_run (fun v => v .| bits) t Hu Hr) as (t' & E & Hu' & Hr' & Hs' & Hb').
  { intros v Hv. rewrite Z.lor_spec, Hv. apply Hb. tauto. }
  exists tt, t'. split; [done|]. split; [done|done| |congruence].
  rewrite !Hb', !Z.lor_spec, !u32_testbit, (Hb 1), (Hb 11) by (lia || tauto). unfold ctlr2_bit in *. by rewrite B0, B1, B11.
Qed.

Lemma init_run : triple resting (ADC_Init hw ADC1 (mk_adc_init ADC_Mode_Independent DISABLE DISABLE
    ADC_ExternalTrigConv_None ADC_DataAlign_Right 1 0 0)) (fun _ => set_up).
Proof.
  unfold ADC_Init. eapply triple_seq.
  { apply (steady_triple same_adc); [by apply steady_modify|]. intros t t' Hs [Hu Hr].
    destruct (Hs Hu) as (Hu' & C & _). split; [done|congruence]. }
  intros _. eapply (triple_seq _ _ (fun t => resting t /\ ctlr2_bit t 1 = false /\ ctlr2_bit t 11 = false)).
  { intros t [Hu Hr]. match goal with |- context [modify hw _ ?f] => destruct (ctlr2_run f t Hu Hr) as (t' & E & Hu' & Hr' & _ & Hb') end.
    - intros v Hv. by rewrite Z.lor_spec, Z.land_spec, Hv.
    - exists tt, t'. split; [exact E|]. split; [done|]. rewrite !Hb', !Z.lor_spec, !Z.land_spec by tauto.
      split; by rewrite andb_false_r. }
  intros ? t [[Hu Hr] [B1 B11]]. eexists _, _. split; [reflexivity|]. set (x := width _ (hw t _)).
  set (t1 := Rd (ADC ADC1 A_RSQR1) x :: t). match goal with |- context [Wr _ ?y :: t1] => set (w := y) end.
  assert (same_adc t t1) as Hs1 by by apply same_adc_cons. destruct (Hs1 Hu) as (Hu1 & C1 & _ & Hb1).
  assert (unreset (Wr (ADC ADC1 A_RSQR1) w :: t1)) as Hu2 by (unfold unreset; by rewrite in_reset_cons).
  split; [split; [done|exact (eq_trans C1 Hr)]|].
  split; [rewrite (ctlr2_law _ _ Hlaw) by tauto; rewrite Hb1 by tauto; done|].
  split; [rewrite (ctlr2_law _ _ Hlaw) by tauto; rewrite Hb1 by tauto; done|].
  unfold sequence. pose proof (rsqr1_keeps _ _ Hlaw _ _ Hu1 Hu2) as Hk. cbn [width] in Hk.
  rewrite Hk, decide_True by done. unfold w. cbn [width]. rewrite !nibble_u32, nibble_lor by lia.
  change (nibble (u32 (u8 (ADC_NbrOfChannel _ - 1) ≪ 20)) 5) with 0. rewrite Z.lor_0_r.
  apply Z.bits_inj'. intros i Hi. rewrite nibble_testbit, Z.land_spec, Z.bits_0 by lia.
  destruct (Z.ltb_spec i 4); [|done]. cbn [andb].
  assert (i = 0 \/ i = 1 \/ i = 2 \/ i = 3) as [->|[->|[->| ->]]] by lia; apply andb_false_r.
Qed.

(** [ADC_Batt_Init] ends and leaves the converter ready, from any state. *)
Lemma batt_init_run : triple (fun _ => True) (ADC_Batt_Init hw n) (fun _ => adc_ready).
Proof.
  unfold ADC_Batt_Init.
  do 2 (eapply triple_seq; [apply (steady_triple same_adc); [apply (steady_clock2 clock_off_adc)|done]|intros _]).
  eapply triple_seq; [apply (steady_triple same_adc); [by apply steady_modify|done]|intros _].
  do 2 (eapply triple_seq; [apply (steady_triple same_adc); [apply (steady_gpio clock_off_adc)|done]|intros _]).
  eapply (triple_seq _ _ resting).
  { intros t _. destruct (deinit_run t) as (t' & E & H). by exists tt, t'. }
  intros _. eapply triple_seq; [apply init_run|intros _].
  eapply (triple_seq _ _ adc_ready).
  { intros t ([Hu Hr] & B1 & B11 & Ho). destruct (ctlr2_run (fun v => v .| CTLR2_ADON_Set) t Hu Hr) as (t' & E & Hu' & Hr' & Hs' & Hb').
    - intros v Hv. by rewrite Z.lor_spec, Hv.
    - exists tt, t'. split; [exact E|]. split; [done|done| |congruence].
      rewrite !Hb', !Z.lor_spec, !u32_testbit by (lia || tauto). unfold ctlr2_bit in *. rewrite B1, B11, orb_true_r. done. }
  intros _. eapply triple_seq; [apply (steady_triple same_adc); [by apply steady_modify|apply adc_ready_same]|intros _].
  eapply triple_seq; [apply ready_ctlr2; intros i [->|[->| ->]]; done|intros _].
  eapply triple_seq; [apply calibrated; [apply status_steady|intros t Hr; by apply (calibration_law _ _ Hlaw)]|intros _].
  eapply triple_seq; [apply ready_ctlr2; intros i [->|[->| ->]]; done|intros _].
  eapply triple_seq; [apply calibrated; [apply status_steady|intros t Hr; by apply (calibration_law _ _ Hlaw)]|intros _].
  apply (steady_triple same_adc); [by apply steady_modify|apply adc_ready_same].
Qed.

(** The loop that waits for the end of a conversion. *)
Lemma until_complete since ch m : forall t t', conv_of t = Running since ch ->
  until m (ADC_GetFlagStatus hw ADC1 ADC_FLAG_EOC) t = Some (tt, t') ->
  conv_of t' = Complete since ch /\ (unreset t -> unreset t' /\ sequence t' = sequence t /\
    forall i, i = 0 \/ i = 1 \/ i = 11 -> ctlr2_bit t' i = ctlr2_bit t i).
Proof.
  induction m as [|m IH]; intros t t' Hc E; [done|]. cbn [until] in E.
  set (v := width (ADC ADC1 A_STATR) (hw t (ADC ADC1 A_STATR))). set (t1 := Rd (ADC ADC1 A_STATR) v :: t).
  unfold mbind, M_bind in E. change (ADC_GetFlagStatus hw ADC1 ADC_FLAG_EOC t) with (Some (negb (v .& ADC_FLAG_EOC =? 0), t1)) in E.
  cbn [mbind option_bind] in E.
  assert (conv_of t1 = if Z.testbit v 1 then Complete since ch else Running since ch) as Hc1
    by (cbn [conv_of t1 conv_step]; by rewrite Hc).
  assert (unreset t -> unreset t1 /\ sequence t1 = sequence t /\
    forall i, i = 0 \/ i = 1 \/ i = 11 -> ctlr2_bit t1 i = ctlr2_bit t i) as Hk.
  { intros Hu. assert (unreset t1) as Hu1 by (unfold unreset, t1; by rewrite in_reset_cons). split; [done|]. split.
    - unfold sequence. pose proof (rsqr1_keeps _ _ Hlaw _ _ Hu Hu1) as Hk. cbn [width] in Hk. unfold t1. by rewrite Hk.
    - intros i Hi. unfold t1. by rewrite (ctlr2_law _ _ Hlaw). }
  assert (negb (v .& ADC_FLAG_EOC =? 0) = Z.testbit v 1) as Hflag.
  { unfold ADC_FLAG_EOC. change 0x02 with (2 ^ 1). by rewrite land_bit, negb_involutive. }
  rewrite Hflag in E. destruct (Z.testbit v 1).
  - injection E as <-. by split.
  - destruct (IH t1 t' Hc1 E) as [Hc' Hk']. split; [done|]. intros Hu. destruct (Hk Hu) as (Hu1 & S1 & B1).
    destruct (Hk' Hu1) as (Hu2 & S2 & B2). split; [done|]. split; [congruence|]. intros i Hi. by rewrite B2, B1.
Qed.

(** The channel becomes the first of the sequence. *)
Lemma channel_run ch st : 0 <= ch < 18 -> triple adc_ready (ADC_RegularChannelConfig hw ADC1 ch 1 st)
  (fun _ t => adc_ready t /\ first_channel t = ch).
Proof.
  intros Hch. unfold ADC_RegularChannelConfig. eapply (triple_seq _ _ adc_ready).
  { apply (steady_triple same_adc); [|apply adc_ready_same].
    destruct (ch >? ADC_Channel_9); by apply steady_modify. }
  intros _. change (1 <? 7) with true. cbv iota. intros t Hr. eexists _, _. split; [reflexivity|].
  set (x := width _ (hw t _)). set (t1 := Rd (ADC ADC1 A_RSQR3) x :: t).
  match goal with |- context [Wr _ ?y :: t1] => set (w := y) end.
  assert (same_adc t (Wr (ADC ADC1 A_RSQR3) w :: t1)) as Hs by (etrans; by apply same_adc_cons).
  assert (adc_ready t1) as Hr1 by (refine (adc_ready_same t t1 _ Hr); by apply same_adc_cons).
  pose proof (adc_ready_same _ _ Hs Hr) as Hr2. split; [done|]. unfold first_channel.
  pose proof (rsqr3_keeps _ _ Hlaw _ _ (ar_unreset _ Hr1) (ar_unreset _ Hr2)) as Hk. cbn [width] in Hk.
  rewrite Hk, decide_True by done. unfold w. cbn [width].
  assert (0 <= ch < 2 ^ 5) as H5 by (change (2 ^ 5) with 32; lia).
  apply Z.bits_inj'. intros i Hi. change 31 with (Z.ones 5). rewrite Z.land_spec, Z.testbit_ones_nonneg by lia.
  change (5 * (1 - 1)) with 0. rewrite Z.shiftl_0_r. destruct (Z.ltb_spec i 5) as [H|H].
  - rewrite !u32_testbit, Z.lor_spec, Z.ldiff_spec, !u32_testbit by lia.
    change RSQR3_SQ_Set with (Z.ones 5). rewrite Z.testbit_ones_nonneg, (proj2 (Z.ltb_lt i 5)), Z.shiftl_0_r by lia.
    by rewrite andb_false_r, andb_true_r.
  - rewrite andb_false_r. by rewrite (bits_above ch 5) by lia.
Qed.

Lemma channel_extends ch t t1 :
  ADC_RegularChannelConfig hw ADC1 ch 1 ADC_SampleTime_239Cycles5 t = Some (tt, t1) -> exists l, t1 = l ++ t.
Proof.
  unfold ADC_RegularChannelConfig. change (1 <? 7) with true. cbv iota.
  destruct (ch >? ADC_Channel_9); unfold set_field, modify, load, write, mbind, M_bind; cbn [mbind option_bind];
    intros [= <-]; by eexists [_; _; _; _].
Qed.

(** A measurement, whatever was measured before. *)
Lemma measure_run ch t : adc_ready t -> 0 <= ch < 18 ->
  exists t' since, Get_ADC_Val hw n ch t = Some (analog since ch, t') /\ adc_ready t' /\
    exists l, since = l ++ t.
Proof.
  intros Hr Hch. destruct (channel_run ch ADC_SampleTime_239Cycles5 Hch t Hr) as ([] & t1 & E1 & Hr1 & Hch1).
  set (x := u32 (hw t1 (ADC ADC1 A_CTLR2))). set (t2 := Rd (ADC ADC1 A_CTLR2) x :: t1).
  set (w := u32 (x .| CTLR2_EXTTRIG_SWSTART_Set)). set (t3 := Wr (ADC ADC1 A_CTLR2) w :: t2).
  assert (same_adc t1 t2) as Hs2 by by apply same_adc_cons. pose proof (adc_ready_same _ _ Hs2 Hr1) as Hr2.
  assert (first_channel t2 = ch) as Hch2.
  { rewrite <- Hch1. unfold first_channel.
    pose proof (rsqr3_keeps _ _ Hlaw _ _ (ar_unreset _ Hr1) (ar_unreset _ Hr2)) as Hk. cbn [width] in Hk.
    unfold t2. by rewrite Hk. }
  assert (forall i, i = 0 \/ i = 1 \/ i = 11 -> Z.testbit w i = ctlr2_bit t1 i) as Hw.
  { intros i Hi. unfold w, x, ctlr2_bit. rewrite u32_testbit, Z.lor_spec, u32_testbit by lia.
    destruct Hi as [->|[->| ->]]; apply orb_false_r. }
  assert (conv_of t3 = Running t2 ch) as Hc3.
  { destruct Hr2 as [_ Hc2 (B0 & B1 & B11) Ho]. destruct Hr1 as [_ _ (C0 & C1 & C11) _].
    cbn [conv_of t3 conv_step]. fold t2. rewrite Hc2, !Hw, C0, C1, C11, B0, Ho, Hch2 by tauto.
    unfold starts, w. by rewrite !u32_testbit, !Z.lor_spec, !orb_true_r by lia. }
  assert (unreset t3) as Hu3 by (unfold unreset, t3; rewrite in_reset_cons; [apply Hr2|done]).
  destruct (end_law _ _ Hlaw t3 t2 ch Hc3) as [[[] t4] E4]. destruct (until_complete t2 ch n t3 t4 Hc3 E4) as [Hc4 Hk4].
  destruct (Hk4 Hu3) as (Hu4 & S4 & B4).
  exists (Rd (ADC ADC1 A_RDATAR) (u32 (hw t4 (ADC ADC1 A_RDATAR))) :: t4), t2. split; [|split].
  - unfold Get_ADC_Val. unfold mbind at 1, M_bind at 1. rewrite E1. cbn [mbind option_bind].
    unfold mbind at 1, M_bind at 1. change (ADC_SoftwareStartConvCmd hw ADC1 ENABLE t1) with (Some (tt, t3)). cbn [mbind option_bind].
    unfold mbind at 1, M_bind at 1. rewrite E4. cbn [mbind option_bind].
    unfold ADC_GetConversionValue, load, mbind, M_bind, mret, M_ret. cbn [mbind option_bind width].
    do 2 f_equal. rewrite <- (result_law _ _ Hlaw t4 t2 ch Hc4). unfold u16, u32. zlia.
  - set (t5 := Rd (ADC ADC1 A_RDATAR) _ :: t4).
    assert (unreset t5) as Hu5 by (unfold unreset, t5; by rewrite in_reset_cons).
    assert (forall i, i = 0 \/ i = 1 \/ i = 11 -> ctlr2_bit t5 i = ctlr2_bit t1 i) as B5.
    { intros i Hi. unfold t5. rewrite (ctlr2_law _ _ Hlaw), B4 by done. unfold t3.
      rewrite (ctlr2_law _ _ Hlaw) by (done || apply Hr2). by apply Hw. }
    split; [done| | |].
    + cbn [conv_of t5 conv_step]. by rewrite Hc4.
    + rewrite !B5 by tauto. apply Hr1.
    + unfold sequence, t5. pose proof (rsqr1_keeps _ _ Hlaw _ _ Hu4 Hu5) as Hk. cbn [width] in Hk. rewrite Hk.
      change (sequence t4 = 0). rewrite S4. unfold sequence, t3.
      pose proof (rsqr1_keeps _ _ Hlaw _ _ (ar_unreset _ Hr2) Hu3) as Hk3. cbn [width] in Hk3.
      rewrite Hk3, decide_False by done. apply Hr2.
  - destruct (channel_extends ch t t1 E1) as [l ->]. by exists (Rd (ADC ADC1 A_CTLR2) x :: l).
Qed.

(** C33 [ADC_Batt_Init] ends, whatever the converter was doing, and leaves it
    ready: on, out of reset, one conversion at a time, of one channel, aligned
    to the right.  From there, and after every measurement again,
    [Get_ADC_Val] ends with what the input of the channel it is asked for was at
    the start of the conversion, not the result of an earlier one, and
    the converter is ready for the next. *)
Theorem battery_measured t :
  (exists t', ADC_Batt_Init hw n t = Some (tt, t') /\ adc_ready t') /\
  (forall ch, adc_ready t -> 0 <= ch < 18 ->
     exists t' since, Get_ADC_Val hw n ch t = Some (analog since ch, t') /\ adc_ready t' /\ exists l, since = l ++ t).
Proof.
  split; [|intros ch Hr Hch; by apply measure_run]. destruct (batt_init_run t I) as ([] & t' & E & Hr). by exists t'.
Qed.
End converter.
