(* ===== verification/Boot.v ===== *)
(** * Boot: the peripherals as [main] sets them up

    The parts of [main] that touch registers, one after the other, each with
    what it does to its own peripheral and what it leaves of the others. *)
From S2P Require Import Prelude Bytes St7789 Periph Registers Exti Mpu6050 MpuBus MpuFacts.
From S2P Require Import GpioFacts Spi Adc AdcFacts Lcd.

(** ** What the parts touch *)

(** The display touches its pins and its interface. *)
Definition lcd_reg (r : reg) : Prop :=
  r = BSHR GPIOC \/ r = BCR GPIOC \/ r = SPI SPI1 S_STATR \/ r = SPI SPI1 S_CTLR1 \/ r = SPI SPI1 S_DATAR.

Section lcd.
Context {R : list mmio -> list mmio -> Prop} {still : reg -> bool} `{Undisturbed R still} `{!Patient R}.
Context (hw : list mmio -> reg -> Z) (n : nat) (dff : Z) (Hstill : forall r, lcd_reg r -> still r = true).

#[local] Hint Extern 1 (still _ = true) => apply Hstill; unfold lcd_reg; tauto : steady.
Lemma send_leaves buf : forall len, leaves R (SPI_SendData hw n dff SPI1 buf len).
Proof.
  induction buf as [|b buf IH]; intros len; cbn [SPI_SendData]; unfold undefined, SPI_I2S_GetFlagStatus.
  - destruct (len >? 0); leaves.
  - destruct (len >? 0); [|leaves]. apply leaves_bind; [leaves|intros _]. apply leaves_bind; [leaves|intros c].
    destruct (negb _).
    + destruct buf as [|b1 buf']; [leaves|]. apply leaves_bind; [leaves|intros _]. apply IH.
    + apply leaves_bind; [leaves|intros _]. apply IH.
Qed.
Lemma exec_leaves tr : leaves R (lcd_exec hw n dff tr).
Proof.
  induction tr as [|e tr IH]; cbn [lcd_exec]; [leaves|]. apply leaves_bind; [|done].
  destruct e as [[] []|b|ms]; cbn [lcd_call pin_mask]; [..|apply send_leaves|leaves]; apply leaves_write, Hstill; unfold lcd_reg; tauto.
Qed.
End lcd.

(** The accelerometer touches its interface, the clocks and port B. *)
Definition mpu_reg (r : reg) : Prop :=
  In r [CTLR1; CTLR2; OADDR1; DATAR; STAR1; STAR2; CKCFGR; RTR; CFGR0; APB1PCENR; APB2PCENR; EXTEN_CTR; CHIP;
        CFGLR GPIOB; CFGHR GPIOB; BSHR GPIOB; BCR GPIOB].

Section mpu.
Context {R : list mmio -> list mmio -> Prop} {still : reg -> bool} `{Undisturbed R still} `{!Patient R}.
Context (hw : list mmio -> reg -> Z) (n : nat) (Hstill : forall r, mpu_reg r -> still r = true).

#[local] Hint Extern 1 (still _ = true) => apply Hstill; cbn; tauto : steady.
Lemma gpio_b_leaves pins sp m : leaves R (GPIO_Init hw GPIOB pins sp m).
Proof.
  apply steady_leaves, steady_gpio_port. intros r Hr. apply Hstill. by destruct Hr as [->|[->|[->| ->]]]; cbn; tauto.
Qed.
#[local] Hint Resolve gpio_b_leaves : steady.
Lemma event_leaves e : leaves R (until n (I2C_CheckEvent hw e)).
Proof. unfold I2C_CheckEvent. leaves. Qed.
Lemma flag_leaves f : leaves R (until n (I2C_GetFlagStatus hw f)).
Proof. unfold I2C_GetFlagStatus. leaves. Qed.
Lemma ctlr1_cmd_leaves b s : leaves R (ctlr1_cmd hw b s).
Proof. unfold ctlr1_cmd. leaves. Qed.
#[local] Hint Resolve event_leaves flag_leaves ctlr1_cmd_leaves : steady.
Lemma write_byte_leaves r d : leaves R (MPU_Write_Byte hw n r d).
Proof.
  unfold MPU_Write_Byte, I2C_AcknowledgeConfig, I2C_GenerateSTART, I2C_GenerateSTOP, I2C_Send7bitAddress, I2C_SendData. leaves.
Qed.
Lemma read_byte_leaves r : leaves R (MPU_Read_Byte hw n r).
Proof.
  unfold MPU_Read_Byte, I2C_AcknowledgeConfig, I2C_GenerateSTART, I2C_GenerateSTOP, I2C_Send7bitAddress, I2C_SendData,
    I2C_ReceiveData. leaves.
Qed.
#[local] Hint Resolve write_byte_leaves read_byte_leaves : steady.
Lemma mpu_leaves : leaves R (MPU_Init hw n).
Proof.
  unfold MPU_Init, I2C_Accelerometer_Init, RCC_APB2PeriphClockCmd, RCC_APB1PeriphClockCmd, I2C_Init, RCC_GetClocksFreq,
    sysclk, presc, I2C_Cmd, I2C_AcknowledgeConfig. leaves.
Qed.
End mpu.

(** [ADC_Batt_Init] behind the reset of the converter. *)
Definition batt_convert (hw : list mmio -> reg -> Z) (n : nat) : M unit :=
  _ ← ADC_Init hw ADC1 (mk_adc_init ADC_Mode_Independent DISABLE DISABLE ADC_ExternalTrigConv_None
                          ADC_DataAlign_Right 1 0 0);
  _ ← ADC_Cmd hw ADC1 ENABLE;
  _ ← ADC_BufferCmd hw ADC1 DISABLE;
  _ ← ADC_ResetCalibration hw ADC1;
  _ ← while_set n (ADC_GetResetCalibrationStatus hw ADC1);
  _ ← ADC_StartCalibration hw ADC1;
  _ ← while_set n (ADC_GetCalibrationStatus hw ADC1);
  ADC_BufferCmd hw ADC1 ENABLE.
Lemma convert_leaves {R still} `{Undisturbed R still} hw n : (forall r, still (ADC ADC1 r) = true) -> leaves R (batt_convert hw n).
Proof.
  intros Hs. unfold batt_convert, ADC_Init, ADC_Cmd, ADC_BufferCmd, ADC_ResetCalibration, ADC_StartCalibration,
    while_set, ADC_GetResetCalibrationStatus, ADC_GetCalibrationStatus. leaves.
Qed.

(** ** What is not disturbed *)

Definition same_bus (t t' : list mmio) : Prop := bus_of t' = bus_of t.
Definition off_bus (r : reg) : bool := match r with CTLR1 | DATAR => false | _ => true end.
#[export] Instance same_bus_undisturbed : Undisturbed same_bus off_bus.
Proof.
  split; [split; [done|intros ? ? ?; unfold same_bus; congruence]| |]; intros r v t Hr; by destruct r.
Qed.
#[export] Instance same_bus_patient : Patient same_bus.
Proof. done. Qed.

(** The wires see delays only. *)
Definition delays (ds : trace) : Prop := Forall (fun e => match e with St7789.Delay _ => True | _ => False end) ds.
Definition quiet_wire (t t' : list mmio) : Prop := exists ds, wire t' = wire t ++ ds /\ delays ds.
#[export] Instance quiet_wire_order : PreOrder quiet_wire.
Proof.
  split.
  - intros t. exists []. split; [by rewrite List.app_nil_r|constructor].
  - intros t1 t2 t3 (d1 & E1 & H1) (d2 & E2 & H2). exists (d1 ++ d2). rewrite E2, E1, List.app_assoc. split; [done|].
    by apply Forall_app.
Qed.
#[export] Instance quiet_wire_undisturbed : Undisturbed quiet_wire off_wire.
Proof.
  split; [apply _| |]; intros r v t Hr; exists []; (split; [|constructor]); [done|].
  cbn [wire]. by destruct r as [| | | | | | | | | | | | | | |[]|[]| | | | | | | | | | | | |[] []| |].
Qed.
#[export] Instance quiet_wire_patient : Patient quiet_wire.
Proof. intros ms t. exists [St7789.Delay ms]. split; [done|]. by repeat constructor. Qed.

(** Nothing held in reset. *)
Definition fresh (t : list mmio) : Prop := value APB2PRSTR t = 0.
Lemma fresh_out t r : fresh t -> in_reset r t = false.
Proof. intros Hf. unfold in_reset. rewrite Hf. destruct (reset_bit r); [apply Z.bits_0|done]. Qed.

(** The modes of the pins of ports A and C. *)
Section boot.
Context (hw : list mmio -> reg -> Z) (n : nat) (s0 : sensor) (analog : list mmio -> Z -> Z).

Definition same_port (p : port) (t t' : list mmio) : Prop :=
  fresh t -> fresh t' /\ forall i, config hw p i t' = config hw p i t.
Definition off_port (p : port) (r : reg) : bool :=
  negb (bool_decide (r = CFGLR p \/ r = CFGHR p \/ r = APB2PRSTR)).

(** The hardware of the watch. *)
Record watch_hw : Prop := {
  hw_spi : spi_law hw n;
  hw_adc : adc_law hw n analog;
  hw_bus : i2c_sensor hw n s0;
  hw_pins : forall p, port_latches hw p }.
Hypothesis Hhw : watch_hw.

#[export] Instance same_port_order p : PreOrder (same_port p).
Proof.
  split; [done|]. intros t1 t2 t3 H1 H2 Hf. destruct (H1 Hf) as [Hf2 E2], (H2 Hf2) as [Hf3 E3]. split; [done|].
  intros i. by rewrite E3, E2.
Qed.
Lemma same_port_cons p a t : (forall r v, a = Wr r v -> off_port p r = true) -> same_port p t (a :: t).
Proof.
  intros Ha Hf. assert (forall r v, a = Wr r v -> r <> CFGLR p /\ r <> CFGHR p /\ r <> APB2PRSTR) as Hne.
  { intros r v E. specialize (Ha r v E). unfold off_port in Ha. apply negb_true_iff, bool_decide_eq_false in Ha. tauto. }
  split.
  - unfold fresh in *. destruct a as [r v|r v|ms]; cbn [value]; try done. destruct (Hne r v eq_refl) as (_ & _ & Hr).
    by rewrite decide_False.
  - intros i. rewrite config_cons; [|by apply (hw_pins Hhw)|by apply fresh_out|].
    + destruct a as [r v|r v|ms]; try done. destruct (Hne r v eq_refl) as (HL & HH & _). rewrite decide_False; [done|].
      unfold cfg_reg. by destruct (i <? 8).
    + rewrite in_reset_cons; [by apply fresh_out|]. intros v ->. by destruct (Hne _ v eq_refl) as (_ & _ & []).
Qed.
#[export] Instance same_port_undisturbed p : Undisturbed (same_port p) (off_port p).
Proof.
  split; [apply _| |]; intros r v t Hr; apply same_port_cons; [done|]. by intros r' v' [= <- <-].
Qed.
#[export] Instance same_port_patient p : Patient (same_port p).
Proof. intros ms t. by apply same_port_cons. Qed.

(** ** The parts *)

(** The pins of the display, of its interface and of the battery. *)
Definition lcd_pins (t : list mmio) : Prop :=
  config hw GPIOA 5 t = mode_nibble GPIO_Speed_50MHz GPIO_Mode_AF_PP /\
  config hw GPIOA 7 t = mode_nibble GPIO_Speed_50MHz GPIO_Mode_AF_PP /\
  forall i, 0 <= i < 3 -> config hw GPIOC i t = mode_nibble GPIO_Speed_50MHz GPIO_Mode_Out_PP.
Definition battery_pins (t : list mmio) : Prop :=
  config hw GPIOA 1 t = mode_nibble GPIO_Speed_50MHz GPIO_Mode_AIN /\
  config hw GPIOA 3 t = mode_nibble GPIO_Speed_50MHz GPIO_Mode_Out_PP.

Lemma pins_same t t' : same_port GPIOA t t' -> same_port GPIOC t t' -> fresh t ->
  fresh t' /\ (lcd_pins t -> lcd_pins t') /\ (battery_pins t -> battery_pins t').
Proof.
  intros HA HC Hf. destruct (HA Hf) as [Hf' EA], (HC Hf) as [_ EC]. split; [done|]. unfold lcd_pins, battery_pins.
  rewrite !EA. split; [|done]. intros (H1 & H2 & H3). split; [done|]. split; [done|]. intros i Hi. rewrite EC. by apply H3.
Qed.

(** Pins of a port set to a mode without a pull. *)
Lemma pins_run p pins mode t : p = GPIOA \/ p = GPIOC -> 0 <= pins < 65536 -> mode <> GPIO_Mode_IPD ->
  mode <> GPIO_Mode_IPU -> fresh t ->
  exists t', GPIO_Init hw p pins GPIO_Speed_50MHz mode t = Some (tt, t') /\ fresh t' /\ same_wire hw t t' /\
    same_bus t t' /\ (forall q, q <> p -> same_port q t t') /\
    (forall i, 0 <= i < 16 -> config hw p i t' =
       if Z.testbit pins i then mode_nibble GPIO_Speed_50MHz mode else config hw p i t).
Proof.
  intros Hp Hpins Hd Hu Hf.
  destruct (gpio_init_run hw p pins GPIO_Speed_50MHz mode (hw_pins Hhw p) ltac:(unfold GPIO_Speed_50MHz; lia) t) as (l & E & Hl & Hc);
    [by apply fresh_out|done|]. pose proof (same_wire_undisturbed hw n (hw_spi Hhw)) as Hw.
  assert (forall q, q <> p -> same_port q t (l ++ t)) as Hq.
  { intros q Hq. eapply (gpio_undisturbed (R := same_port q) (still := off_port q)); try done;
      by apply negb_true_iff, bool_decide_eq_false_2; intros [[=]|[[=]|[=]]]. }
  exists (l ++ t). split; [done|]. split; [|split; [|split; [|split; [|done]]]].
  - destruct (Hq GPIOB) as [Hf' _]; [by destruct Hp as [->| ->]|done|done].
  - by eapply (gpio_undisturbed (R := same_wire hw) (still := off_wire)).
  - by eapply (gpio_undisturbed (R := same_bus) (still := off_bus)).
  - done.
Qed.

(** Everything but the interface of the panel. *)
Definition calm_but_spi (t t' : list mmio) : Prop :=
  wire t' = wire t /\ same_bus t t' /\ same_port GPIOA t t' /\ same_port GPIOC t t'.
#[export] Instance calm_but_spi_order : PreOrder calm_but_spi.
Proof.
  split; [intros t; split; [done|split; [done|by split]]|]. intros t1 t2 t3 (W1 & B1 & A1 & C1) (W2 & B2 & A2 & C2).
  split; [congruence|]. split; [by etrans|]. split; by etrans.
Qed.
Lemma calm_spi r x t : r <> S_DATAR -> calm_but_spi t (Rd (SPI SPI1 r) x :: t) /\ calm_but_spi t (Wr (SPI SPI1 r) x :: t).
Proof.
  intros Hr. split; split_and!; try (apply same_port_cons; by intros ? ? [= <- <-]); try done; try apply List.app_nil_r.
  cbn [wire on_wire]. destruct r; try apply List.app_nil_r. done.
Qed.
Lemma calm_modify r f t : off_wire r = true -> off_bus r = true -> off_port GPIOA r = true -> off_port GPIOC r = true ->
  exists t', modify hw r f t = Some (tt, t') /\ calm_but_spi t t' /\ same_spi hw t t'.
Proof.
  intros Hw Hb HA HC. pose proof (same_wire_undisturbed hw n (hw_spi Hhw)) as Hu.
  destruct (steady_modify (R := same_wire hw) hw r f Hw t) as ([] & t' & E & Hw' & Hs).
  destruct (steady_modify (R := same_bus) hw r f Hb t) as (? & t2 & E2 & Hb'). rewrite E in E2. injection E2 as <- <-.
  destruct (steady_modify (R := same_port GPIOA) hw r f HA t) as (? & t2 & E2 & HA'). rewrite E in E2. injection E2 as <- <-.
  destruct (steady_modify (R := same_port GPIOC) hw r f HC t) as (? & t2 & E2 & HC'). rewrite E in E2. injection E2 as <- <-.
  by exists t'.
Qed.
Lemma calm_clock2 x s t : exists t', RCC_APB2PeriphClockCmd hw x s t = Some (tt, t') /\ calm_but_spi t t' /\ same_spi hw t t'.
Proof. unfold RCC_APB2PeriphClockCmd. destruct (enabled s); by apply calm_modify. Qed.

Lemma calm_pins t t' : calm_but_spi t t' -> fresh t -> fresh t' /\ (lcd_pins t -> lcd_pins t') /\ (battery_pins t -> battery_pins t').
Proof. intros (_ & _ & A & C). by apply pins_same. Qed.

Lemma land_u16 a m : 0 <= m < 65536 -> u16 a .& m = a .& m.
Proof.
  intros Hm. apply Z.bits_inj'. intros i Hi. rewrite !Z.land_spec. destruct (Z.lt_ge_cases i 16).
  - by rewrite u16_testbit by lia.
  - by rewrite (bits_above m 16), !andb_false_r by (change (2 ^ 16) with 65536; lia).
Qed.

(** The interface set up and switched on. *)
Definition panel_interface : SPI_InitTypeDef :=
  mk_spi_init SPI_Direction_1Line_Tx SPI_Mode_Master SPI_DataSize_8b SPI_CPOL_Low SPI_CPHA_1Edge SPI_NSS_Soft
    SPI_BaudRatePrescaler_32 SPI_FirstBit_MSB 7.
Lemma ctlr1_written v t : fresh t -> u16 (hw (Wr (SPI SPI1 S_CTLR1) v :: t) (SPI SPI1 S_CTLR1)) = u16 v.
Proof.
  intros Hf. pose proof (ctlr1_keeps _ _ (hw_spi Hhw) (Wr (SPI SPI1 S_CTLR1) v) t) as Hk. cbn [width] in Hk.
  rewrite Hk by (by apply fresh_out). by rewrite decide_True.
Qed.
Lemma interface_bits x y : y = u16 (u16 (x .& Spi.CTLR1_CLEAR_Mask .| 0xC324) .| CTLR1_SPE_Set) -> u16 y .& 0x0945 = 0x0144.
Proof.
  intros ->. rewrite !land_u16, Z.land_lor_distr_l, land_u16, Z.land_lor_distr_l, <- Z.land_assoc by lia.
  change (Spi.CTLR1_CLEAR_Mask .& 0x0945) with (2 ^ 6). rewrite land_pow2 by lia. by destruct (Z.testbit x 6).
Qed.
Lemma interface_run t : fresh t -> exists t',
  (_ ← SPI_Init hw SPI1 panel_interface; SPI_Cmd hw SPI1 ENABLE) t = Some (tt, t') /\ calm_but_spi t t' /\ spi_ready hw t'.
Proof.
  intros Hf. pose proof (same_spi_cons hw n (hw_spi Hhw)) as Hcons.
  set (x0 := u16 (hw t (SPI SPI1 S_CTLR1))). set (v1 := u16 (x0 .& Spi.CTLR1_CLEAR_Mask .| 0xC324)).
  set (t2 := Wr (SPI SPI1 S_CTLR1) v1 :: Rd (SPI SPI1 S_CTLR1) x0 :: t).
  set (y := u16 (hw t2 (SPI SPI1 S_I2SCFGR))).
  set (t5 := Wr (SPI SPI1 S_CRCR) 7 :: Wr (SPI SPI1 S_I2SCFGR) (u16 (y .& SPI_Mode_Select)) :: Rd (SPI SPI1 S_I2SCFGR) y :: t2).
  set (x1 := u16 (hw t5 (SPI SPI1 S_CTLR1))).
  exists (Wr (SPI SPI1 S_CTLR1) (u16 (x1 .| CTLR1_SPE_Set)) :: Rd (SPI SPI1 S_CTLR1) x1 :: t5).
  assert (calm_but_spi t t2) as Hc2 by (etrans; [|apply calm_spi; done]; by apply calm_spi).
  assert (calm_but_spi t t5) as Hc5.
  { etrans; [exact Hc2|]. do 2 (etrans; [|apply calm_spi; done]). by apply calm_spi. }
  assert (same_spi hw t2 t5) as Hs.
  { do 2 (etrans; [|apply Hcons; by intros ? ? [= <- <-]]). by apply Hcons. }
  assert (fresh t2 /\ fresh t5) as [Hf2 Hf5].
  { split; [apply (calm_pins t t2)|apply (calm_pins t t5)]; done. }
  assert (x1 = v1) as Ex.
  { unfold x1. destruct (Hs (fresh_out t2 _ Hf2)) as [_ ->]. unfold t2. rewrite ctlr1_written by done.
    apply u16_small, u16_range. }
  split; [reflexivity|]. split; [etrans; [exact Hc5|]; etrans; [|apply calm_spi; done]; by apply calm_spi|].
  split; [by apply fresh_out|]. rewrite ctlr1_written by done. apply (interface_bits x0). by rewrite Ex.
Qed.

(** [SPI_7789_INIT]. *)
Lemma panel_init_run t : fresh t -> exists t', SPI_7789_INIT hw t = Some (tt, t') /\
  fresh t' /\ wire t' = wire t /\ bus_of t' = bus_of t /\ spi_ready hw t' /\ lcd_pins t'.
Proof.
  intros Hf.
  destruct (calm_clock2 (RCC_APB2Periph_GPIOA .| RCC_APB2Periph_SPI1) ENABLE t) as (t1 & E1 & C1 & _).
  destruct (calm_pins _ _ C1 Hf) as (F1 & _).
  destruct (pins_run GPIOA GPIO_Pin_5 GPIO_Mode_AF_PP t1) as (t2 & E2 & F2 & W2 & B2 & _ & P2); try done; [by left|].
  destruct (pins_run GPIOA GPIO_Pin_7 GPIO_Mode_AF_PP t2) as (t3 & E3 & F3 & W3 & B3 & _ & P3); try done; [by left|].
  destruct (calm_clock2 RCC_APB2Periph_GPIOC ENABLE t3) as (t4 & E4 & C4 & _).
  destruct (pins_run GPIOC (GPIO_Pin_0 .| GPIO_Pin_1 .| GPIO_Pin_2) GPIO_Mode_Out_PP t4) as (t5 & E5 & F5 & W5 & B5 & O5 & P5);
    try done; [by right|by apply (calm_pins t3)|].
  destruct (interface_run t5 F5) as (t6 & E6 & C6 & R6).
  assert (lcd_pins t5) as Hp5.
  { destruct C4 as (_ & _ & A4 & _). destruct (A4 F3) as [F4 K4]. destruct (O5 GPIOA ltac:(done) F4) as [_ K5].
    split; [|split].
    - by rewrite K5, K4, P3, P2 by lia.
    - by rewrite K5, K4, P3 by lia.
    - intros i Hi. rewrite P5 by lia. assert (i = 0 \/ i = 1 \/ i = 2) as [->|[->| ->]] by lia; done. }
  exists t6. split.
  - unfold SPI_7789_INIT. rewrite (bind_run _ _ _ _ _ E1), (bind_run _ _ _ _ _ E2), (bind_run _ _ _ _ _ E3),
      (bind_run _ _ _ _ _ E4), (bind_run _ _ _ _ _ E5). exact E6.
  - destruct (calm_pins _ _ C6 F5) as (F6 & L6 & _). split; [done|].
    destruct C1 as (W1 & B1 & _), C4 as (W4 & B4 & _), C6 as (W6 & B6 & _), W2 as [W2 _], W3 as [W3 _], W5 as [W5 _].
    unfold same_bus in *. split; [congruence|]. split; [congruence|]. split; [done|by apply L6].
Qed.

(** A trace of the driver. *)
Lemma trace_run dff tr t : dff = 0 \/ dff = 1 -> fresh t -> spi_ready hw t -> Forall byte_event tr ->
  exists t', lcd_exec hw n dff tr t = Some (tt, t') /\ fresh t' /\ wire t' = wire t ++ tr /\ spi_ready hw t' /\
    same_bus t t' /\ (lcd_pins t -> lcd_pins t') /\ (battery_pins t -> battery_pins t') /\ same_adc hw t t'.
Proof.
  intros Hdff Hf Hr Hb. destruct (exec_run hw n dff (hw_spi Hhw) Hdff tr t Hb Hr) as (t' & E & Hw & Hr').
  assert (forall p, same_port p t t') as Hp.
  { intros p. refine (exec_leaves (R := same_port p) (still := off_port p) hw n dff _ tr t tt t' E).
    intros r Hl. apply negb_true_iff, bool_decide_eq_false_2.
    destruct Hl as [->|[->|[->|[->| ->]]]]; intros [[=]|[[=]|[=]]]. }
  destruct (pins_same t t' (Hp GPIOA) (Hp GPIOC) Hf) as (Hf' & Hl & Hba).
  exists t'. split; [done|]. split; [done|]. split; [done|]. split; [done|]. split; [|split; [done|split; [done|]]].
  - refine (exec_leaves (R := same_bus) (still := off_bus) hw n dff _ tr t tt t' E).
    intros r Hr0. by destruct Hr0 as [->|[->|[->|[->| ->]]]].
  - pose proof (same_adc_undisturbed hw n analog (hw_adc Hhw)). pose proof (same_adc_patient hw n analog (hw_adc Hhw)).
    refine (exec_leaves (R := same_adc hw) (still := off_adc) hw n dff _ tr t tt t' E).
    intros r Hr0. by destruct Hr0 as [->|[->|[->|[->| ->]]]].
Qed.

(** The accelerometer. *)
Definition identity (t : list mmio) : Z := rd (regs (sens s0 (bus_of t))) MPU_DEVICE_ID_REG.
Definition settings_written (t t' : list mmio) : Prop :=
  regs (sens s0 (bus_of t')) = set_regs (first_settings ++ if identity t =? MPU_ADDR then last_settings else [])
    (regs (sens s0 (bus_of t))).
Lemma accelerometer_run t : fresh t -> no_start (bus_of t) -> spi_ready hw t ->
  exists r t', MPU_Init hw n t = Some (r, t') /\ fresh t' /\ quiet_wire t t' /\ spi_ready hw t' /\
    settings_written t t' /\ (lcd_pins t -> lcd_pins t').
Proof.
  intros Hf Hs Hr. destruct (mpu_init_runs hw n s0 (hw_bus Hhw) (bus_of t) Hs t eq_refl) as (t' & E & Hb).
  pose proof (mpu_init_regs s0 (bus_of t)) as Hregs. cbv zeta in *. rewrite <- Hb in Hregs.
  assert (forall p, p = GPIOA \/ p = GPIOC -> same_port p t t') as Hp.
  { intros p Hp. refine (mpu_leaves (R := same_port p) (still := off_port p) hw n _ t _ t' E).
    intros r Hl. apply negb_true_iff, bool_decide_eq_false_2. intros Hr0. cbn in Hl.
    destruct Hp as [->| ->], Hr0 as [->|[->| ->]]; by repeat destruct Hl as [[=]|Hl]. }
  destruct (pins_same t t' (Hp GPIOA ltac:(by left)) (Hp GPIOC ltac:(by right)) Hf) as (Hf' & Hl & _).
  eexists _, t'. split; [exact E|]. split; [done|]. split; [|split; [|split; [exact Hregs|done]]].
  - refine (mpu_leaves (R := quiet_wire) (still := off_wire) hw n _ t _ t' E).
    intros r Hm. cbn in Hm. by repeat destruct Hm as [<-|Hm].
  - refine (spi_ready_same hw t t' _ Hr). pose proof (same_spi_undisturbed hw n (hw_spi Hhw)).
    pose proof (same_spi_patient hw n (hw_spi Hhw)).
    refine (mpu_leaves (R := same_spi hw) (still := off_wire) hw n _ t _ t' E).
    intros r Hm. cbn in Hm. by repeat destruct Hm as [<-|Hm].
Qed.

(** While only the converter is held in reset, the other registers keep what
    they hold. *)
Definition only_converter (t : list mmio) : Prop := fresh t \/ value APB2PRSTR t = 0x200.
Lemma held_step r k a t : latches hw r -> reset_bit r = Some k -> 0 <= k /\ k <> 9 -> only_converter t ->
  only_converter (a :: t) -> (forall v, a <> Wr r v) -> width r (hw (a :: t) r) = width r (hw t r).
Proof.
  intros Hk Er Hne H1 H2 Ha.
  assert (forall l, only_converter l -> in_reset r l = false) as Hout.
  { intros l [Hl|Hl]; unfold in_reset; rewrite Er; [rewrite Hl; apply Z.bits_0|].
    rewrite Hl. change 0x200 with (2 ^ 9). apply Z.pow2_bits_false. lia. }
  rewrite Hk by by apply Hout. destruct a as [r' v|r' v|ms]; try done. rewrite decide_False; [done|].
  intros ->. by apply (Ha v).
Qed.

(** The converter held in reset and let go. *)
Lemma deinit_quiet t : fresh t -> exists t', ADC_DeInit hw ADC1 t = Some (tt, t') /\ fresh t' /\ wire t' = wire t /\
  same_bus t t' /\ same_spi hw t t' /\ forall p i, p = GPIOA \/ p = GPIOC -> config hw p i t' = config hw p i t.
Proof.
  intros Hf. pose proof (prst_law _ _ _ (hw_adc Hhw)) as Hlaw.
  set (t1 := Rd APB2PRSTR 0 :: t). set (t2 := Wr APB2PRSTR 0x200 :: t1). set (t3 := Rd APB2PRSTR 0x200 :: t2).
  set (t4 := Wr APB2PRSTR 0 :: t3). exists t4.
  assert (only_converter t) as O0 by by left. assert (only_converter t1) as O1 by by left.
  assert (only_converter t2) as O2 by by right. assert (only_converter t3) as O3 by by right.
  assert (only_converter t4) as O4 by by left.
  assert (forall r k, latches hw r -> reset_bit r = Some k -> 0 <= k /\ k <> 9 -> r <> APB2PRSTR ->
    width r (hw t4 r) = width r (hw t r)) as Hheld.
  { intros r k Hk Er Hne Hr. unfold t4. rewrite (held_step r k) by (done || by intros v [= E _]).
    unfold t3. rewrite (held_step r k) by done. unfold t2. rewrite (held_step r k) by (done || by intros v [= E _]).
    unfold t1. by rewrite (held_step r k). }
  split; [|split; [done|split; [|split; [done|split]]]].
  - unfold ADC_DeInit, RCC_APB2PeriphResetCmd, modify, load, write, mbind, M_bind. cbn [enabled mbind option_bind width].
    rewrite (Hlaw t), Hf. change (u32 (0 .| RCC_APB2Periph_ADC1)) with 0x200. fold t1 t2. by rewrite (Hlaw t2).
  - cbn [wire t1 t2 t3 t4 on_wire]. by rewrite !List.app_nil_r.
  - intros _. split; [by apply fresh_out|]. apply (Hheld (SPI SPI1 S_CTLR1) 12); try done. apply (ctlr1_keeps _ _ (hw_spi Hhw)).
  - intros p i Hp. unfold config. f_equal. assert (exists k, reset_bit (cfg_reg p i) = Some k /\ 0 <= k /\ k <> 9) as (k & Ek & Hk).
    { unfold cfg_reg. destruct Hp as [->| ->]; [exists 2|exists 4]; by destruct (i <? 8). }
    assert (width (cfg_reg p i) (hw t4 (cfg_reg p i)) = width (cfg_reg p i) (hw t (cfg_reg p i))) as Hw.
    { apply (Hheld _ k); [apply (hw_pins Hhw)|done|done|]. unfold cfg_reg. by destruct (i <? 8). }
    unfold cfg_reg in *. by destruct (i <? 8).
Qed.

(** [ADC_Batt_Init]. *)
Lemma converter_run t : fresh t -> spi_ready hw t ->
  exists t', ADC_Batt_Init hw n t = Some (tt, t') /\ fresh t' /\ wire t' = wire t /\ spi_ready hw t' /\ same_bus t t' /\
    (lcd_pins t -> lcd_pins t') /\ battery_pins t' /\ adc_ready hw t'.
Proof.
  intros Hf Hr. destruct (batt_init_run hw n analog (hw_adc Hhw) t I) as ([] & t' & E & Hready).
  destruct (calm_clock2 RCC_APB2Periph_GPIOA ENABLE t) as (t1 & E1 & C1 & S1).
  destruct (calm_clock2 RCC_APB2Periph_ADC1 ENABLE t1) as (t2 & E2 & C2 & S2).
  destruct (calm_modify CFGR0 (fun v => v .& CFGR0_ADCPRE_Reset_Mask .| RCC_PCLK2_Div8) t2) as (t3 & E3 & C3 & S3); try done.
  assert (calm_but_spi t t3) as C by (etrans; [exact C1|by etrans]). destruct (calm_pins _ _ C Hf) as (F3 & L3 & _).
  destruct (pins_run GPIOA GPIO_Pin_3 GPIO_Mode_Out_PP t3) as (t4 & E4 & F4 & W4 & B4 & O4 & P4); try done; [by left|].
  destruct (pins_run GPIOA GPIO_Pin_1 GPIO_Mode_AIN t4) as (t5 & E5 & F5 & W5 & B5 & O5 & P5); try done; [by left|].
  destruct (deinit_quiet t5 F5) as (t6 & E6 & F6 & W6 & B6 & S6 & K6).
  assert (batt_convert hw n t6 = Some (tt, t')) as E7.
  { unfold ADC_Batt_Init in E. rewrite (bind_run _ _ _ _ _ E1), (bind_run _ _ _ _ _ E2), (bind_run _ _ _ _ _ E3),
      (bind_run _ _ _ _ _ E4), (bind_run _ _ _ _ _ E5), (bind_run _ _ _ _ _ E6) in E. exact E. }
  assert (same_wire hw t6 t') as [W7 S7].
  { pose proof (same_wire_undisturbed hw n (hw_spi Hhw)). by apply (convert_leaves hw n (fun _ => eq_refl) t6 tt t' E7). }
  assert (same_bus t6 t') as B7 by by apply (convert_leaves (R := same_bus) hw n (fun _ => eq_refl) t6 tt t' E7).
  assert (forall p, same_port p t6 t') as P7.
  { intros p. refine (convert_leaves (R := same_port p) (still := off_port p) hw n _ t6 tt t' E7).
    intros r. apply negb_true_iff, bool_decide_eq_false_2. by intros [[=]|[[=]|[=]]]. }
  exists t'. split; [done|]. destruct (pins_same t6 t' (P7 GPIOA) (P7 GPIOC) F6) as (F7 & L7 & Ba7).
  destruct W4 as [W4 S4], W5 as [W5 S5], C as (Wc & Bc & _). unfold same_bus in *.
  split; [done|]. split; [congruence|]. split; [|split; [congruence|split; [|split; [|done]]]].
  - apply (spi_ready_same hw t); [|done]. do 5 (etrans; [|eassumption]). by etrans.
  - intros Hl%L3. apply L7. destruct (O4 GPIOC ltac:(done) F3) as [_ K4], (O5 GPIOC ltac:(done) F4) as [_ K5].
    destruct Hl as (H1 & H2 & H3). split; [|split; [|intros i Hi]]; rewrite K6 by tauto.
    + by rewrite P5, P4 by lia.
    + by rewrite P5, P4 by lia.
    + rewrite K5, K4. by apply H3.
  - apply Ba7. split; rewrite K6 by tauto; [by rewrite P5 by lia|by rewrite P5, P4 by lia].
Qed.
End boot.
