(* ===== verification/Main.v ===== *)
(** * Main: the program from [main], and what it starts

    [applications/main.c]: the display, the accelerometer, the clock and the
    converter are set up, the screen is cleared and the application started.
    The model runs [main] alone: during its delays the other thread there is,
    the shell's, waits for keys.  Then [main] on the hardware of the watch: what
    is on the wires, the pins, the sensor, the converter and the system when it
    ends. *)
From S2P Require Import Prelude Bytes St7789 Panel CTime SoftRtc Buttons Watch WatchSystem KService Periph Registers Mpu6050.
From S2P Require Import MpuBus MpuFacts Output Timer Kernel Ipc Object Device Serial SerialFifo SerialFacts.
From S2P Require Import Spi Adc GpioFacts Lcd LcdLink Console ConsoleFacts WatchMain WatchStart AdcFacts Boot.

Section main.
Context {H : Type} `{Uart H}.
Context (hw : list mmio -> reg -> Z) (fuel : nat) (dff : Z).

(** The accesses to the peripherals so far, the rest of the system, and the
    attributes of the display. *)
Record system := mk_system { accesses : list mmio; sys_board : board H; LCD_ST7789 : LCD_ATTRIBUTES }.

Definition perform {A} (m : M A) (s : system) : option system :=
  '(_, l) ← m (accesses s); Some (mk_system l (sys_board s) (LCD_ST7789 s)).

(** [rtc_sample] at the ticks [t1] to [t5], with its delay and its output. *)
Definition clock_sample (t1 t2 t3 t4 t5 : Z) (s : system) : option system :=
  let b := sys_board s in
  '(c, ret, text) ← rtc_sample t1 t2 t3 t4 t5 (w_ui (b_watch b)) (w_clock (b_watch b));
  let b := board_watch (set_ui (w_ui (b_watch b)) c (b_watch b)) b in
  s ← perform (if ret =? RT_EOK then delay_ms 500 else mret tt) (mk_system (accesses s) b (LCD_ST7789 s));
  b ← print_event (Out (text ++ [10])) (sys_board s);
  Some (mk_system (accesses s) b (LCD_ST7789 s)).

(** What the allocator answers, the ticks of the clock's set-up, and the system
    at the start; the result of [Main_Threads] is dropped. *)
Definition main (al : allocated) (t1 t2 t3 t4 t5 : Z) (s : system) : option system :=
  s ← perform (SPI_7789_INIT hw) s;
  let '(attrs, tr) := LCD_Init VERTICAL in
  s ← perform (lcd_exec hw fuel dff tr) (mk_system (accesses s) (sys_board s) attrs);
  s ← perform (MPU_Init hw fuel) s;
  s ← clock_sample t1 t2 t3 t4 t5 s;
  s ← perform (ADC_Batt_Init hw fuel) s;
  s ← perform (delay_ms 5) s;
  s ← perform (lcd_exec hw fuel dff (FillRectangle 0 0 240 280 LCD_DISP_BLACK)) s;
  '(b, _) ← Main_Threads al (sys_board s);
  Some (mk_system (accesses s) b (LCD_ST7789 s)).
End main.

(** ** The watch starts *)

(** ** What the panel is sent *)

Lemma settled_app busy a b : settled busy (a ++ b) = settled busy a && settled (busy_after busy a) b.
Proof.
  revert busy. induction a as [|[p l|v|ms] a IH]; intros busy; cbn; rewrite ?IH; [done|by rewrite andb_assoc|done|done].
Qed.
Lemma busy_app busy a b : busy_after busy (a ++ b) = busy_after (busy_after busy a) b.
Proof. revert busy. induction a as [|[p l|v|ms] a IH]; intros busy; cbn; by rewrite ?IH. Qed.
Lemma delays_settled ds : delays ds -> settled false ds = true /\ busy_after false ds = false.
Proof. induction 1 as [|[] ds He _ IH]; [done|done|done|]. exact IH. Qed.
Lemma init_settled dir : settled false (LCD_Init dir).2 = true /\ busy_after false (LCD_Init dir).2 = false.
Proof. unfold LCD_Init, LCD_SetAttributes. by destruct (dir =? HORIZONTAL). Qed.

(** A screen cleared behind a trace that is settled: black but perhaps for the
    last pixel, on a panel in any state. *)
Definition cleared (tr : trace) : Prop := forall o P X Y, arrives [] tr o ->
  0 <= X < ST7789_WIDTH -> 0 <= Y < ST7789_HEIGHT -> (X, Y) <> (ST7789_WIDTH - 1, ST7789_HEIGHT - 1) ->
  screen_of (panel_run o P) X Y = Some LCD_DISP_BLACK.
Lemma clear_behind a : settled false a = true -> busy_after false a = false ->
  cleared (a ++ FillRectangle 0 0 240 280 LCD_DISP_BLACK).
Proof.
  intros Hs Hb o P X Y Ho HX HY Hne. unfold ST7789_WIDTH, ST7789_HEIGHT in *.
  destruct (settled_prefix _ _ _ Ho false a _ eq_refl Hs ltac:(done) Hb) as (o' & -> & Ho').
  cbn [fmap list_fmap Datatypes.app]. rewrite panel_run_app.
  rewrite (rectangle_spec _ 0 0 240 280 LCD_DISP_BLACK o'); try done.
  unfold paint, inside, ST7789_WIDTH, ST7789_HEIGHT. by rewrite decide_True by lia.
Qed.

(** ** The whole of [main] *)

#[local] Opaque FillRectangle LCD_Init.

Section main.
Context {H : Type} `{UartLaws H}.
Context (hw : list mmio -> reg -> Z) (n : nat) (dff : Z) (s0 : sensor) (analog : list mmio -> Z -> Z).
Hypothesis Hhw : watch_hw hw n s0 analog.
Hypothesis Hdff : dff = 0 \/ dff = 1.

(** Printing from a board that is prepared leaves it prepared. *)
Lemma print_prepared (b : board H) al u mx sx t1 t2 t3 l w text : prepared b al u mx sx t1 t2 t3 l ->
  exists b', print_event (Out text) (board_watch w b) = Some b' /\ prepared b' al u mx sx t1 t2 t3 l /\ b_watch b' = w.
Proof.
  intros [Hi Hr Hl Hp Hf Hu Hco (d & Ed & Hop & Hh & Hfl) Ha Ho Ht].
  destruct (write_text 64 d l text (open_streaming _ Hop) Hh) as (d' & r & Ew & Ep & Hh' & _).
  exists (board_device u d' (board_watch w b)). split; [|split; [|done]].
  - cbn [print_event board_watch _console_device b_devices]. rewrite Hco, (proj2 (Z.eqb_neq u 0) Hu), Ed.
    cbn [mbind option_bind]. by rewrite Ew.
  - split; try done. exists d'. split; [apply lookup_insert_eq|]. by rewrite Ep.
Qed.

Lemma perform_run {A} (m : M A) (s : system (H := H)) a l : m (accesses s) = Some (a, l) ->
  perform m s = Some (mk_system l (sys_board s) (LCD_ST7789 s)).
Proof. intros E. unfold perform. by rewrite E. Qed.

(** The peripherals before and after the clock is set. *)
Lemma before_clock t : fresh t -> no_start (bus_of t) -> exists l1 l2 r l3,
  SPI_7789_INIT hw t = Some (tt, l1) /\ lcd_exec hw n dff (LCD_Init VERTICAL).2 l1 = Some (tt, l2) /\
  MPU_Init hw n l2 = Some (r, l3) /\ fresh l3 /\ spi_ready hw l3 /\ lcd_pins hw l3 /\ settings_written s0 t l3 /\
  exists ds, wire l3 = wire t ++ (LCD_Init VERTICAL).2 ++ ds /\ delays ds.
Proof.
  intros Hf Hs. destruct (panel_init_run hw n s0 analog Hhw t Hf) as (l1 & E1 & F1 & W1 & B1 & R1 & P1).
  destruct (trace_run hw n s0 analog Hhw dff _ l1 Hdff F1 R1 (init_bytes VERTICAL)) as (l2 & E2 & F2 & W2 & R2 & B2 & P2 & _).
  unfold same_bus in *.
  destruct (accelerometer_run hw n s0 analog Hhw l2 F2 ltac:(by rewrite B2, B1) R2) as (r & l3 & E3 & F3 & (ds & W3 & Hds) & R3 & S3 & P3).
  exists l1, l2, r, l3. split; [done|]. split; [done|]. split; [done|]. split; [done|]. split; [done|]. split; [by apply P3, P2|].
  split; [|exists ds; split; [by rewrite W3, W2, W1, List.app_assoc|done]].
  unfold settings_written, identity in *. by rewrite B2, B1 in S3.
Qed.

Lemma after_clock t : fresh t -> spi_ready hw t -> lcd_pins hw t -> exists l1 l3,
  ADC_Batt_Init hw n t = Some (tt, l1) /\
  lcd_exec hw n dff (FillRectangle 0 0 240 280 LCD_DISP_BLACK) (Delay 5 :: l1) = Some (tt, l3) /\
  spi_ready hw l3 /\ lcd_pins hw l3 /\ battery_pins hw l3 /\ adc_ready hw l3 /\ bus_of l3 = bus_of t /\
  wire l3 = wire t ++ [St7789.Delay 5] ++ FillRectangle 0 0 240 280 LCD_DISP_BLACK.
Proof.
  intros Hf Hr Hp. destruct (converter_run hw n s0 analog Hhw t Hf Hr) as (l1 & E1 & F1 & W1 & R1 & B1 & P1 & Q1 & A1).
  set (l2 := Delay 5 :: l1).
  destruct (pins_same hw l1 l2 (same_port_patient hw n s0 analog Hhw GPIOA 5 l1)
    (same_port_patient hw n s0 analog Hhw GPIOC 5 l1) F1) as (F2 & P2 & Q2).
  assert (spi_ready hw l2) as R2 by exact (spi_ready_same hw l1 l2 (same_spi_patient hw n (hw_spi _ _ _ _ Hhw) 5 l1) R1).
  assert (adc_ready hw l2) as A2 by exact (adc_ready_same hw l1 l2 (same_adc_patient hw n analog (hw_adc _ _ _ _ Hhw) 5 l1) A1).
  destruct (trace_run hw n s0 analog Hhw dff _ l2 Hdff F2 R2 (rectangle_bytes 0 0 240 280 LCD_DISP_BLACK))
    as (l3 & E3 & F3 & W3 & R3 & B3 & P3 & Q3 & S3).
  exists l1, l3. split; [done|]. split; [done|]. split; [done|]. split; [by apply P3, P2, P1|]. split; [by apply Q3, Q2|].
  split; [by apply (adc_ready_same hw l2)|]. unfold same_bus in *.
  split; [rewrite B3; cbn [bus_of l2 bus_step]; by rewrite B1|].
  rewrite W3. change (wire l2) with (wire l1 ++ [St7789.Delay 5]). rewrite W1. symmetry. apply List.app_assoc.
Qed.

(** C1 From power-up, [main] returns - on hardware that keeps its laws (what is
    written to a configuration register stays, every status bit a loop polls
    shows within [n] polls, an I2C master with the sensor answering on its bus
    and no start condition under way, its request bits as in
    [mpu_init_configures]), with a system that is prepared (the device and the
    kernel as the start of the system leaves them, every allocation of
    [Main_Threads] granted), a clock that runs between 1973 and July 2036 and
    menu counters in their ranges with a month.  Then the panel, whatever it
    held and however late its bytes arrive, is black but perhaps for the corner
    the last write can miss; the pins of the panel, of its interface and of the
    battery have their modes and no setting of a later part has undone an
    earlier one; the sensor has its settings; the converter is ready; the clock
    has been set by [rtc_sample], to the date and time of the counters if no
    second ended between its two steps; the semaphore and the mutex are there,
    the callback of the application is on the device, and its three threads are
    ready to run. *)
Theorem main_starts_watch al t1 t2 t3 t4 t5 (s : system (H := H)) u mx sx th1 th2 th3 l :
  let w := b_watch (sys_board s) in let m := w_ui w in let c := w_clock w in
  fresh (accesses s) -> no_start (bus_of (accesses s)) -> prepared (sys_board s) al u mx sx th1 th2 th3 l ->
  clock_ok c -> ui_ok m -> 1 <= Month m ->
  exists s' tr d', main hw n dff al t1 t2 t3 t4 t5 s = Some s' /\
    (wire (accesses s') = wire (accesses s) ++ tr /\ cleared tr) /\
    lcd_pins hw (accesses s') /\ battery_pins hw (accesses s') /\
    settings_written s0 (accesses s) (accesses s') /\ adc_ready hw (accesses s') /\
    (let c' := w_clock (b_watch (sys_board s')) in clock_ok c' /\
     (uptime c t3 = uptime c t2 -> forall t, time c' t =
        tm_seconds (mk_tm (Second m) (Minute m) (Hour m) (Day m) (Month m - 1) 122 0 0 0)
        - RT_LIBC_FIXED_TIMEZONE * 3600 + (uptime c t - uptime c t4))) /\
    Theme (b_watch (sys_board s')) = LCD_DISP_GREEN /\
    b_mutex (sys_board s') = Some (mx, mk_mutex 1 RT_NULL 0xff 0) /\
    b_sem (sys_board s') = Some (sx, mk_sem 0 RT_IPC_FLAG_FIFO) /\
    b_devices (sys_board s') !! u = Some d' /\ watch_device (parent d') /\
    ready_at (b_kernel (sys_board s')) th1 THREAD_PRIORITY_LOW /\
    ready_at (b_kernel (sys_board s')) th2 THREAD_PRIORITY_MED /\
    ready_at (b_kernel (sys_board s')) th3 THREAD_PRIORITY_HIGH.
Proof.
  cbv zeta. intros Hf Hs0 Hprep Hck Hui Hmo. destruct s as [t b attrs]. cbn [accesses sys_board] in *.
  destruct (rtc_sample_runs t1 t2 t3 t4 t5 _ _ Hck Hui Hmo) as (c & text & Hrtc & Hc' & Htime).
  destruct (before_clock t Hf Hs0) as (l1 & l2 & r & l3 & E1 & E2 & E3 & F3 & R3 & P3 & S3 & ds & W3 & Hds).
  set (l4 := Delay 500 :: l3).
  destruct (pins_same hw l3 l4 (same_port_patient hw n s0 analog Hhw GPIOA 500 l3)
    (same_port_patient hw n s0 analog Hhw GPIOC 500 l3) F3) as (F4 & P4 & _).
  assert (spi_ready hw l4) as R4 by exact (spi_ready_same hw l3 l4 (same_spi_patient hw n (hw_spi _ _ _ _ Hhw) 500 l3) R3).
  destruct (after_clock l4 F4 R4 (P4 P3)) as (l5 & l7 & E5 & E7 & _ & P7 & Q7 & A7 & B7 & W7).
  destruct (print_prepared b al u mx sx th1 th2 th3 l (set_ui (w_ui (b_watch b)) c (b_watch b)) (text ++ [10]) Hprep)
    as (b1 & Eb & Hprep1 & Ew).
  destruct (start_spec b1 al u mx sx th1 th2 th3 l Hprep1)
    as (b2 & d' & E8 & Em & Es & Eth & Eu & Ed & Hd & Hh & _ & _ & _ & _ & T1 & T2 & T3 & _).
  pose proof clear_behind as Hclear. destruct (init_settled VERTICAL) as [Si Bi]. unfold main.
  rewrite (surjective_pairing (LCD_Init VERTICAL)). generalize dependent (LCD_Init VERTICAL).1.
  generalize dependent (LCD_Init VERTICAL).2. generalize dependent (FillRectangle 0 0 240 280 LCD_DISP_BLACK).
  intros F E7 W7 Hclear init E2 W3 Si Bi at7.
  exists (mk_system l7 b2 at7), ((init ++ ds ++ [St7789.Delay 500; St7789.Delay 5]) ++ F), d'.
  cbn [accesses sys_board]. split.
  - rewrite (perform_run _ _ tt l1) by exact E1. cbn [mbind option_bind].
    rewrite (perform_run _ _ tt l2) by exact E2. cbn [mbind option_bind].
    rewrite (perform_run _ _ r l3) by exact E3. cbn [mbind option_bind accesses sys_board LCD_ST7789].
    unfold clock_sample. cbn [accesses sys_board LCD_ST7789]. rewrite Hrtc. cbn [mbind option_bind].
    change (RT_EOK =? RT_EOK) with true. cbv iota.
    rewrite (perform_run (delay_ms 500) _ tt l4) by done. cbn [mbind option_bind accesses sys_board LCD_ST7789].
    rewrite Eb. cbn [mbind option_bind].
    rewrite (perform_run _ _ tt l5) by exact E5. cbn [mbind option_bind].
    rewrite (perform_run (delay_ms 5) _ tt (Delay 5 :: l5)) by done. cbn [mbind option_bind].
    rewrite (perform_run _ _ tt l7) by exact E7. cbn [mbind option_bind accesses sys_board LCD_ST7789]. by rewrite E8.
  - destruct (delays_settled ds Hds) as [Sd Bd]. split; [split|].
    + rewrite W7. cbn [wire l4 on_wire]. by rewrite W3, <- !List.app_assoc.
    + apply Hclear; [by rewrite !settled_app, Si, Bi, Sd, Bd|by rewrite !busy_app, Bi, Bd].
    + rewrite Eth, Ew. split_and!; try done.
      unfold settings_written in *. by rewrite B7.
Qed.
End main.
