(* ===== verification/MainExamples.v ===== *)
(** * MainExamples: a watch that starts

    Hardware with the laws of [Boot], and the theorems on it. *)
From S2P Require Import Prelude Bytes Output St7789 Panel Buttons SoftRtc Watch WatchSystem Object Device Serial SerialFacts Console.
From S2P Require Import Kernel WatchMain WatchStart WatchMainExamples.
From S2P Require Import Periph Registers Mpu6050 MpuBus MpuFacts GpioFacts Spi Adc AdcFacts Lcd LcdLink.
From S2P Require Import Boot Main.

(** ** The hardware

    Registers hold what is written; status bits show at once; the sensor is
    that of [MpuFacts]; channel [ch] of the converter measures [2000 + ch]. *)
Definition steady_hw (t : list mmio) (r : reg) : Z :=
  match r with
  | CTLR1 | STAR1 | STAR2 | DATAR => sim t r
  | SPI SPI1 S_STATR | ADC ADC1 A_STATR => 2
  | ADC ADC1 A_CTLR2 => value r t .& 0x803
  | _ => value r t
  end.
Definition analog (since : list mmio) (ch : Z) : Z := 2000 + ch.
Definition watch_sim (t : list mmio) (r : reg) : Z :=
  match r with
  | ADC ADC1 A_RDATAR => match conv_of steady_hw t with Complete _ ch => 2000 + ch | _ => 0 end
  | _ => steady_hw t r
  end.

Lemma sim_conv t : conv_of watch_sim t = conv_of steady_hw t.
Proof. induction t as [|a t IH]; [done|]. cbn [conv_of]. by rewrite IH. Qed.

Lemma sim_spi : spi_law watch_sim 1.
Proof. split; [by apply value_latches|]. intros t _. by eexists. Qed.

Lemma sim_bus : i2c_sensor watch_sim 1 sensor0.
Proof.
  split; [apply (ctlr1_law _ _ _ sim_ok)| |apply (data_law _ _ _ sim_ok)].
  intros t p Hp. destruct (ready_law _ _ _ sim_ok t p Hp) as [x E]. exists x. rewrite <- E. by destruct p.
Qed.

Lemma first_channel_range hw t : 0 <= first_channel hw t < 32.
Proof. unfold first_channel. change 31 with (Z.ones 5). rewrite Z.land_ones by lia. by apply Z.mod_pos_bound. Qed.
Lemma conv_channel hw t : match conv_of hw t with Running _ ch | Complete _ ch => 0 <= ch < 32 | _ => True end.
Proof.
  induction t as [|a t IH]; [done|]. cbn [conv_of]. unfold conv_step.
  destruct a as [r v|r v|ms]; [| |done]; destruct r as [| | | | | | | | | | | | | | | | | | | | | | | | | | | | | |[] []|]; try done.
  - destruct (conv_of hw t); try done. by destruct (Z.testbit v 1).
  - by destruct (conv_of hw t).
  - destruct (negb _); [done|]. destruct (starts v); [|done]. destruct (conv_of hw t); try done.
    destruct (_ && _); [apply first_channel_range|done].
  - by destruct (Z.testbit v 9).
Qed.

Lemma sim_adc : adc_law watch_sim 1 analog.
Proof.
  split.
  - intros t. apply u32_small, value_range.
  - by apply value_latches.
  - by apply value_latches.
  - intros a t i Hi _ _. unfold ctlr2_bit. cbn [watch_sim steady_hw]. rewrite !Z.land_spec.
    assert (Z.testbit 0x803 i = true) as -> by (destruct Hi as [->|[->| ->]]; done). rewrite !andb_true_r.
    destruct a as [r v|r v|ms]; try done. cbn [value]. destruct (decide (r = ADC ADC1 A_CTLR2)) as [->|Hr].
    + apply u32_testbit. destruct Hi as [->|[->| ->]]; lia.
    + destruct r as [| | | | | | | | | | | | | | | | | | | | | | | | | | | | | |[] []|]; done.
  - intros t. unfold ctlr2_bit. cbn [watch_sim steady_hw]. rewrite Z.land_spec. apply andb_false_r.
  - intros t _. assert (forall i, i = 2 \/ i = 3 ->
      (u32 (watch_sim t (ADC ADC1 A_CTLR2)) .& 2 ^ i =? 0) = true) as Hz.
    { intros i Hi. rewrite land_bit, u32_testbit by (destruct Hi as [->| ->]; lia). cbn [watch_sim steady_hw].
      rewrite Z.land_spec. destruct Hi as [->| ->]; by rewrite andb_false_r. }
    split; unfold while_set, ADC_GetResetCalibrationStatus, ADC_GetCalibrationStatus, load; cbn [until];
      unfold mbind, M_bind, mret, M_ret; cbn [mbind option_bind width].
    + change CTLR2_RSTCAL_Set with (2 ^ 3). rewrite Hz by tauto. by eexists.
    + change CTLR2_CAL_Set with (2 ^ 2). rewrite Hz by tauto. by eexists.
  - intros t since ch _. by eexists.
  - intros t since ch Hc. rewrite sim_conv in Hc. cbn [watch_sim]. rewrite Hc.
    pose proof (conv_channel steady_hw t) as Hr. rewrite Hc in Hr. unfold analog. apply u16_small. lia.
Qed.

Lemma sim_watch : watch_hw watch_sim 1 sensor0 analog.
Proof.
  split; [apply sim_spi|apply sim_adc|apply sim_bus|]. intros p n. unfold cfg_reg. by destruct (n <? 8); apply value_latches.
Qed.

(** ** The theorems on it *)

#[local] Opaque DrawPixel FillRectangle LCD_Init Main_Threads k_start.

Definition panel_on : list mmio := [Wr (SPI SPI1 S_CTLR1) 0xC364].

Lemma lcd_on_registers_witness : exists t', lcd_exec watch_sim 1 1 (DrawPixel 3 4 LCD_DISP_RED) panel_on = Some (tt, t') /\
  wire t' = DrawPixel 3 4 LCD_DISP_RED.
Proof.
  destruct (lcd_on_registers watch_sim 1 1 sim_spi (or_intror eq_refl) panel_on) as [Hd _]; [by split|].
  destruct (Hd (DrawPixel 3 4 LCD_DISP_RED) (pixel_bytes 3 4 LCD_DISP_RED)) as (t' & E & Hw & _).
  exists t'. split; [exact E|]. rewrite Hw. change (wire panel_on) with (@nil lcd_event). reflexivity.
Defined.

Lemma slow_link_paints_witness :
  (exists o, arrives [] (FillRectangle 230 0 20 10 LCD_DISP_RED) o /\
     forall P, screen_of (panel_run o P) 239 9 = screen_of P 239 9) /\
  (forall o P, arrives [] (FillRectangle 230 0 20 10 LCD_DISP_RED) o ->
     screen_of (panel_run o P) 238 9 = Some LCD_DISP_RED).
Proof.
  destruct (slow_link_paints 230 0 20 10 LCD_DISP_RED ltac:(done) ltac:(done) ltac:(done) ltac:(done) ltac:(done))
    as (_ & _ & _ & Hp & Hl).
  split; [exact (Hl eq_refl eq_refl)|]. intros o P Ho. rewrite (Hp o P 238 9 Ho); [reflexivity|done..].
Defined.

Lemma battery_measured_witness : exists t1 t2,
  ADC_Batt_Init watch_sim 1 [] = Some (tt, t1) /\ Get_ADC_Val watch_sim 1 1 t1 = Some (2001, t2).
Proof.
  destruct (battery_measured watch_sim 1 analog sim_adc []) as [(t1 & E1 & Hr) _].
  destruct (battery_measured watch_sim 1 analog sim_adc t1) as [_ Hm].
  assert (0 <= 1 < 18) as Hch by lia. specialize (Hm 1 Hr Hch).
  destruct Hm as (t2 & since & E2 & _). change (analog since 1) with 2001 in E2.
  exists t1, t2. split; [exact E1|exact E2].
Defined.

Definition power_up (b : board script) : system (H := script) := mk_system [] b (mkLCD_ATTRIBUTES 0 0 0).

Lemma main_starts_watch_witness : exists b s' tr,
  demo_board = Some b /\ main watch_sim 1 0 demo_alloc 10 11 12 13 513 (power_up b) = Some s' /\
  wire (accesses s') = tr /\ cleared tr /\ Theme (b_watch (sys_board s')) = LCD_DISP_GREEN.
Proof.
  destruct demo_prepared as (b & Eb & Hb & _ & Ew).
  destruct (main_starts_watch watch_sim 1 0 sensor0 analog sim_watch (or_introl eq_refl) demo_alloc 10 11 12 13 513
    (power_up b) 0x4000 101 102 5 6 7 [])
    as (s' & tr & d' & E & [Hw Hc] & _ & _ & _ & _ & _ & Ht & _); cbn [sys_board power_up accesses]; rewrite ?Ew;
    [reflexivity|done|exact Hb|apply booted_ok|apply ui_boot_ok|cbn; lia|].
  exists b, s', tr. split; [exact Eb|]. split; [exact E|]. split; [exact Hw|]. split; [exact Hc|exact Ht].
Defined.
